(* ===== verification/_CoqProject ===== *)
-Q . S2P
Prelude.v
TxTypes.v
TxCore.v
TxSched.v
TxQueue.v
TxSchedSpec.v
TxInv.v
TxSchedInv.v
TxDispatch.v
TxQueueInv.v
TxDiscard.v
TxInit.v
TxProps.v
RxTypes.v
RxList.v
RxPn.v
RxPnSpec.v
RxStage.v
RxReorder.v
RxArray.v
RxInv.v
RxOps.v
RxWindow.v
RxHandlers.v
RxPnInd.v
RxDefrag.v
RxInd.v
RxReplay.v
RxFrame.v
RxIndSpec.v
RxOrder.v
RxDefragSpec.v
RxDefragOps.v
RxExample.v
RxProps.v
RxFindings.v
RxNbuf.v
RxMichael.v
RxDecap.v
RxDefragProc.v
RxDecapSpec.v
RxDefragSteps.v
RxDefragProcSpec.v
RxDefragProps.v
PeerTypes.v
PeerTable.v
PeerRep.v
PeerSpec.v
PeerInv.v
PeerOps.v
PeerAttach.v
PeerVdev.v
PeerClient.v
PeerSafe.v
PeerExample.v
PeerProps.v
DescTypes.v
DescPool.v
DescSend.v
DescHtt.v
DescOps.v
DescFree.v
DescQueue.v
DescComplete.v
DescEntry.v
DescClient.v
DescPages.v
HttPool.v
DescOrder.v
DescProps.v
TxClassify.v
TxClassifySpec.v
SysQueues.v
SysPath.v
SysEntry.v
SysSafe.v
SysClient.v
SysProps.v
RxDeliver.v
RxForward.v
