(* ===== verification/Prelude.v ===== *)
(** * The data path of the qcacld-2.0 WLAN driver

    The repository holds the host driver of Qualcomm's QCA6574 family of
    wireless chips.  Between the operating system (HDD) and the firmware on the
    chip lies the data path, [src/wlan-opensource/qcacld-2.0/CORE/CLD_TXRX]:
    TXRX keeps queues, schedules transmission and reorders reception, HTT
    exchanges messages with the target, HTC and HIF move them over the bus.
    This library models the part of TXRX that decides what happens to a frame,
    as the driver is built for a high-latency (SDIO) bus: [CONFIG_HL_SUPPORT],
    [HIF_SDIO], [FEATURE_HL_GROUP_CREDIT_FLOW_CONTROL] and
    [HL_RX_AGGREGATION_HOLE_DETCTION] defined, reordering and the block-ack
    set-up done by the host.  The optional features of that build are off:
    [CONFIG_PER_VDEV_TX_DESC_POOL], [QCA_BAD_PEER_TX_FLOW_CL],
    [AUDIO_MULTICAST_AGGR_SUPPORT], [CONFIG_TX_DESC_HI_PRIO_RESERVE],
    [ENABLE_RX_REORDER_TRACE] and [ENABLE_RX_PN_TRACE], the debug statistics,
    [QCA_SUPPORT_OL_RX_REORDER_TIMEOUT], and [WLAN_FEATURE_DSRC], which would make
    the free list of descriptors a queue: it is a stack here
    ([__ol_tx_desc_free], the [#else] branch).  Paths below are relative to
    [CLD_TXRX/TXRX].

    ** How the code is modelled

    Every C function is a Definition or Fixpoint with its name.  Functions that
    touch the device are computations of [Prelude]'s state monad
    [M S A = S -> option (A * S)]: a result of [None] is a fault (a dangling or
    [NULL] pointer, a double free, an index out of range, a list operation on
    an element that is not in the list, or a loop that exhausts its fuel).
    A theorem [exists s', f s = Some (_, s')] therefore says that the call
    returns and touches nothing it must not.  Machine integers are [Z] with the
    wrap-around written out ([u8], [u16], [u32], [u64], [s32]).  Pointers to
    peers, queues and buffers are identifiers into finite maps.  Frames the
    code frees, sends or delivers leave the heap and go to a log of the device
    ([pd_freed], [pd_sent], [rx_freed], [rx_delivered]), so that using one
    afterwards is a fault.  Locks are taken in one thread and not modelled;
    assertions are compiled out in the modelled build and are no-ops; prints,
    logging rings and statistics that no code reads back are left out.

    ** Transmit path ([Tx*])

    - [TxTypes]: frames, queues ([ol_tx_frms_queue_t]), scheduler categories,
      groups, vdevs and the device ([ol_txrx_types.h], [ol_tx_sched.c]).
    - [TxCore], [TxSched]: [ol_tx_sched.c], the WRR_ADV scheduler: selecting a
      category and a batch, dispatch, notifications, discard selection,
      parameters, attach; [ol_tx_dequeue] and group credit.
    - [TxQueue], [TxInit]: [ol_tx_queue.c]: enqueue, discard, free, flush,
      pause and unpause at each level; creation of the queues ([ol_txrx.c]).
    - [TxSchedSpec], [TxInv], [TxSchedInv], [TxDispatch], [TxQueueInv],
      [TxDiscard]: the invariant [Inv] (a queue's counters describe its list, a
      category lists exactly its active queues and its counters are the sums)
      and each operation's effect in terms of it.
    - [TxProps]: the theorems.  The scheduler terminates from every state,
      sends every frame it takes once and in queue order, and the credit
      balances; each queue operation keeps the invariant and does what it says;
      pausing and unpausing cancel; discarding terminates.

    ** Receive path ([Rx*])

    - [RxTypes], [RxList]: buffers and their links, peers, reorder arrays.
    - [RxPn], [RxPnSpec], [RxStage], [RxReplay]: [ol_rx_pn.c], the replay check,
      against a reference filter on lists, and over whole conversations.
    - [RxReorder], [RxArray], [RxInv], [RxOps], [RxWindow], [RxHandlers],
      [RxPnInd], [RxOrder]: [ol_rx_reorder.c].  [RxRep s C] says that
      [C] gives the contents of every reorder array, that no buffer is in two
      places, and that the waitlist agrees with its elements.
    - [RxDefrag], [RxDefragSpec], [RxDefragOps]: the fragment store of
      [ol_rx_defrag.c].
    - [RxInd], [RxFrame], [RxIndSpec]: [ol_rx_indication_handler] ([ol_rx.c]).
    - [RxExample], [RxProps], [RxFindings]: a concrete device with its set-up, the theorems, and
      the theorems about code that does not do what it means to.  Receive
      indications never fault and lose no buffer; a window is delivered in
      order whatever the order of arrival; no packet number is accepted twice,
      and in-order traffic is never dropped.
    - [RxNbuf], [RxMichael], [RxDecap], [RxDefragProc]: the processing of a
      complete fragment list ([ol_rx_defrag] and what it calls in
      [ol_rx_defrag.c], the arithmetic of [ol_rx_defrag.h], the buffer functions
      of [SERVICES/COMMON/adf]) on the bytes of the buffers: offsets into blocks
      of memory, an access outside being a fault.
    - [RxDecapSpec], [RxDefragSteps], [RxDefragProcSpec],
      [RxDefragProps]: Michael is that of the standard ([michael], with its test
      vectors) and finds every change of one word; each step on a frame given by
      its parts ([frame_at]); a list of fragments becomes one frame with the
      payloads in order, or is freed completely.

    ** Peer table ([Peer*])

    - [PeerTypes], [PeerTable]: [ol_txrx_peer_find.c], and the life of a peer in
      [ol_txrx.c]: attach, map and unmap messages, detach, reference counts and
      the deletion, local ids, states, and the deletion of a vdev.  The log of
      this state ([pp_log]) records freed memory, the callback of a deleted vdev
      and the completion an attach waits for.  Memory of peers and vdevs is a
      finite map, so using a freed one is a fault.
    - [PeerRep]: [PeerRep s L] says that the bins of the hash table and the lists
      of the vdevs are parts of one list [L], the peers in the order of attach.
    - [PeerSpec], [PeerInv], [PeerOps], [PeerAttach], [PeerVdev]: the effect of
      each operation, and the invariant [PeerInv]: a peer's count covers the
      references the table itself has to it ([base]), local ids in use and free
      are apart.
    - [PeerClient], [PeerSafe]: the users of the table: calls in any order, among
      them those other threads make while an attach waits, with the bag of
      references the users hold; [Accounts] is the invariant of all reachable
      states.
    - [PeerExample], [PeerProps]: a small table in use, and the theorems: no
      freed object is used, counts are exact, lookups find what a search of [L]
      would, ids are unique, everything is freed in the end; and two situations
      in which the code confuses peers.

    ** Transmit descriptors ([Desc*], [HttPool])

    - [DescTypes], [DescPool], [DescSend]: [ol_tx_desc.c], [ol_tx_desc.h],
      [ol_tx_send.c] and the set-up of the pool in [ol_txrx.c]: descriptors whose
      first word is a link or a buffer, the references of the download and of
      the target, the completion messages, the credit of queue groups.  What the
      queueing layer logs ([pd_sent], [pd_freed]) is carried out on the pool
      ([on_tx]).  The build has none of [ATH_11AC_TXCOMPACT],
      [QCA_TX_SINGLE_COMPLETIONS], [QCA_TX_STD_PATH_ONLY] and
      [QCA_SUPPORT_TXDESC_SANITY_CHECKS]; delay and power statistics, packet
      dumps, time stamps and the DSRC radio statistics are left out.
    - [DescEntry]: [ol_tx_hl_base] and [ol_txrx_mgmt_send] ([ol_tx.c]) without
      software encapsulation, OCB and monitor modes; the DMA mapping of a
      management frame succeeds.
    - [DescHtt]: of [HTT/htt_t2h.c], [HTT/htt_h2t.c], [HTT/htt_tx.c] the messages
      that complete frames or grant credit and the two balances of
      [htt_tx_credit].  [HttPool]: the pool of HTT descriptors.
    - [DescOps], [DescFree], [DescQueue], [DescComplete]: the books:
      [DevRep] says which descriptors are free, queued, being downloaded or with
      the target, and which buffer each one owns; [Books] adds the invariant of
      the queues and their count of free descriptors, which may be off by a
      known [drift].
    - [DescClient]: the calls of the operating system, the target and
      the control path in any order, and the states they reach from attach.  The
      end of a download runs the function HTT registers for it
      ([tx_send_complete_part2]).  With [tx_free_at_download] the calls are those
      in which the download of a data frame succeeds before the target answers
      for the frame ([allowed]): in the others the code frees the frame twice
      ([ol_tx_download_done_hl_free_twice]).
    - [DescPages], [DescOrder]: the layout of the pools in pages;
      the two ends of a frame in either order; the balances of credit.
    - [DescProps]: a device in use, and the theorems: no buffer is
      used or freed after it was freed, every buffer has one descriptor and
      every descriptor is accounted for; what a completion does to each frame of
      a message; the frames the entry does not accept; the lookup by shift and
      mask; credit is conserved, except by the completion message; and cases in
      which the code frees twice, overruns its pages or loses credit.

    ** The transmit path as a whole ([TxClassify*], [Sys*])

    - [TxClassify], [TxClassifySpec]: [ol_tx_classify.c]: ether type and TID from
      the header of a frame, in every frame format, the peer from its destination
      or the association, and the queue; and the filter of [ol_tx_hl_base] on the
      state of the peer.  [eth_bytes] writes Ethernet headers, with VLAN tag and
      LLC/SNAP, for the parser to invert.
    - [SysQueues], [SysPath]: the queues and descriptors of the device ([Tx*],
      [Desc*]) as the data path of the peer table ([Peer*]): what attaching,
      authenticating, detaching and freeing a peer or a vdev does to them.
    - [SysEntry]: [ol_tx_hl_base] and [ol_txrx_mgmt_send] over all of it.  A frame
      takes a descriptor, gets a queue and a reference to its peer, may meet any
      number of calls of other threads to the peer table, and then enters the
      queue or is dropped.  Calls of the device ([sys_dev]) happen between frames,
      not inside one.
    - [SysSafe], [SysClient]: [SysBooks q b s r] joins the two sets of books: [q]
      are the descriptors and [b] the buffers in the hands of the caller, [r] the
      references its users hold; each half of the path keeps it, and so does every
      call the users may make ([sys_allowed]).  That every buffer has the 38 bytes
      the header parsing reads is such a condition.
    - [SysProps]: a small system in use, and the theorems: no call faults, all is
      accounted for, a frame keeps its peer alive, the classification and the
      parser do what they mean to; and three cases in which the code does not.

    ** Delivery and forwarding ([RxDeliver], [RxForward])

    - [RxDeliver]: [ol_rx_fwd.c], and of [ol_rx.c] [ol_rx_deliver], [ol_rx_filter]
      and [ol_rx_inspect], on the list of buffers that a stage of the receive path
      hands on (what the log [rx_delivered] above holds): which frames an access
      point sends back to the transmit path, which ones the privacy filter lets
      pass, and what the operating system gets.  [vdev->tx] is an interface
      ([SkbPath], with its laws [SkbPathOk]), so is the copy of a buffer
      ([NbufCopy]).  [check_events] is what a list comes to, [delivered] what the
      operating system gets of it, and each loop is shown to come to that.  What
      HTT reads of the receive descriptor ([rb_desc_len], [rb_fw_desc]) is held
      apart from the bytes of the buffer, which the turning of a native wifi
      header may overwrite.
    - [RxForward]: [ol_tx_hl] over [SysEntry] as the instance of [SkbPath], with
      the books [SysBooks] as its laws; and the theorems: each frame is treated
      once and in order, forwarding keeps the accounts of the transmit path, of
      whole MPDUs no unencrypted one passes where it must not, no EAPOL frame is
      forwarded by an access point of Ethernet frames; and four cases in which the code lets frames pass
      unfiltered or with the wrong header.  Frames have the 42 bytes that the
      header parsing and the inspection read behind the receive descriptor
      ([buf_ok]).

    ** Fuel

    - [wrr_adv_select_loop] gets what is left of every category's skip weight
      plus eleven: an iteration skips an inactive category or a turn
      ([wrr_adv_select_loop_spec]).
    - [ol_tx_sched_loop] gets one more than the target credit: an iteration
      that continues uses at least one credit ([ol_tx_sched_loop_spec]).
    - The discard loop and the flush loop get the number of queued frames and
      of peers: an iteration that continues removes one.
    - The circular sweeps of a reorder window take the window size as fuel; a
      sweep that starts anywhere meets its end before ([swept]).
    - Walks along linked buffers take the size of the heap.
    In all cases running out is a fault, which the theorems exclude.

    ** Parameters

    - [HttTx] (in [TxSched]): which frames HTT fails to pass to the bus, for want
      of bus resources.
    - [Expand]: what [pskb_expand_head] makes of a block that must grow, or that
      it has no memory.  The theorems hold for every choice; that a frame is
      delivered assumes memory ([expand_never_fails]).
    - [StackJunk]: the content of an uninitialised packet number variable, one
      value for all rounds of a check.  The theorems hold for every content.
    - [DataPath], [DataPathOk] (in [PeerTypes]): what the transmit queues and the
      receive state of a peer do when it is attached, detached, released and
      freed, as operations on a state of their own; the laws say only that each
      is defined for the peers it is called for.  [SysPath] is the instance of the
      program, the transmit queues and descriptors; [PeerExample] has a small one.
      [PeerTable] takes the messages to the target ([htt_vdev_attach],
      [htt_vdev_detach]) as sent, and models the high-latency build.
    - [tx_cfg]: the format of the frames the operating system hands over, and
      [ATH_SUPPORT_WAPI].
    - [SkbPath], [SkbPathOk] (in [RxDeliver]): [vdev->tx] and the buffers it takes;
      [RxForward] has the instance of the program and one that takes every frame.
      [NbufCopy]: where the copy of a buffer lies, or that there is no memory.
    - Whether an allocation succeeds, and the fields of the receive descriptors
      HTT decodes ([rx_desc]), are inputs.

    ** Not modelled

    The bit layouts of HTT messages and descriptors; of the delivery the OCB
    header, the software decapsulation and the path for targets that reorder
    ([ol_rx_in_order_deliver]); the bad-peer throttling timer; the round-robin scheduler that is compiled out; the reorder timeout,
    which only USB builds have; notifications for frames of unknown peers.  Of
    the transmit entry the OCB and monitor modes, software encapsulation, audio
    multicast and the delayed TCP acknowledgements.
    Above and below TXRX, the management plane (HDD, SME, CSR, PE, SAP, WMA),
    the bus drivers and the tools are not modelled: they are asynchronous
    message handling and device I/O around the logic verified here. *)
From Stdlib Require Import ZArith Lia.
From stdpp Require Import prelude gmap list numbers.

#[global] Open Scope Z_scope.

(** ** Machine integers

    A C integer of [w] bits is a [Z]; every assignment that can leave its
    range goes through one of these wrap-around functions. *)

Definition wrap (w : Z) (z : Z) : Z := z mod 2 ^ w.
Definition u8 (z : Z) : Z := wrap 8 z.
Definition u16 (z : Z) : Z := wrap 16 z.
Definition u32 (z : Z) : Z := wrap 32 z.
Definition u64 (z : Z) : Z := wrap 64 z.

(** Two's complement: the kernel is built with wrapping signed arithmetic. *)
Definition s32 (z : Z) : Z := (z + 2 ^ 31) mod 2 ^ 32 - 2 ^ 31.

Section MachineIntegers.
Lemma wrap_small w z : 0 <= z < 2 ^ w -> wrap w z = z.
Proof. intros. by apply Z.mod_small. Qed.

Lemma wrap_range w z : 0 <= w -> 0 <= wrap w z < 2 ^ w.
Proof. intros. apply Z.mod_pos_bound. lia. Qed.

Lemma u8_small z : 0 <= z < 256 -> u8 z = z.
Proof. intros. by apply wrap_small. Qed.
Lemma u16_small z : 0 <= z < 65536 -> u16 z = z.
Proof. intros. by apply wrap_small. Qed.
Lemma u32_small z : 0 <= z < 4294967296 -> u32 z = z.
Proof. intros. by apply wrap_small. Qed.

Lemma u8_range z : 0 <= u8 z < 256.
Proof. by apply (wrap_range 8). Qed.
Lemma u16_range z : 0 <= u16 z < 65536.
Proof. by apply (wrap_range 16). Qed.
Lemma u32_range z : 0 <= u32 z < 4294967296.
Proof. by apply (wrap_range 32). Qed.

Lemma s32_small z : -2147483648 <= z < 2147483648 -> s32 z = z.
Proof. intros. unfold s32. rewrite Z.mod_small; lia. Qed.

Lemma u32_s32 z : u32 (s32 z) = u32 z.
Proof.
  unfold u32, wrap, s32. rewrite Zminus_mod_idemp_l. f_equal. lia.
Qed.

Lemma s32_u32 z : s32 (u32 z) = s32 z.
Proof. unfold u32, wrap, s32. by rewrite Zplus_mod_idemp_l. Qed.

Lemma s32_add_l a b : s32 (s32 a + b) = s32 (a + b).
Proof.
  unfold s32. replace ((a + 2 ^ 31) mod 2 ^ 32 - 2 ^ 31 + b + 2 ^ 31)
    with ((a + 2 ^ 31) mod 2 ^ 32 + b) by lia.
  rewrite Zplus_mod_idemp_l. by replace (a + 2 ^ 31 + b) with (a + b + 2 ^ 31) by lia.
Qed.
Lemma s32_sub_l a b : s32 (s32 a - b) = s32 (a - b).
Proof. rewrite <- !Z.add_opp_r. apply s32_add_l. Qed.
Lemma s32_idemp z : s32 (s32 z) = s32 z.
Proof. rewrite <- (Z.add_0_r (s32 z)), s32_add_l. by rewrite !Z.add_0_r. Qed.
Lemma s32_range z : -2147483648 <= s32 z < 2147483648.
Proof. unfold s32. pose proof (Z.mod_pos_bound (z + 2 ^ 31) (2 ^ 32) ltac:(lia)). lia. Qed.

Lemma wrap_wrap w z : wrap w (wrap w z) = wrap w z.
Proof. unfold wrap. by rewrite Zmod_mod. Qed.

Lemma wrap_add_l w a b : wrap w (wrap w a + b) = wrap w (a + b).
Proof. unfold wrap. by rewrite Zplus_mod_idemp_l. Qed.
Lemma wrap_add_r w a b : wrap w (a + wrap w b) = wrap w (a + b).
Proof. unfold wrap. by rewrite Zplus_mod_idemp_r. Qed.
Lemma wrap_sub_l w a b : wrap w (wrap w a - b) = wrap w (a - b).
Proof. unfold wrap. by rewrite Zminus_mod_idemp_l. Qed.
Lemma wrap_sub_r w a b : wrap w (a - wrap w b) = wrap w (a - b).
Proof. unfold wrap. by rewrite Zminus_mod_idemp_r. Qed.

(** A mask of the form [2^k - 1] is reduction modulo [2^k]. *)
Lemma land_mask z k : 0 <= k -> Z.land z (2 ^ k - 1) = z mod 2 ^ k.
Proof.
  intros. rewrite <- Z.land_ones by lia. by rewrite Z.ones_equiv, Z.sub_1_r.
Qed.

(** Bits that do not overlap add up. *)
Lemma lor_add a b n : 0 <= n -> 0 <= a < 2 ^ n -> Z.lor a (Z.shiftl b n) = a + b * 2 ^ n.
Proof.
  intros Hn Ha. rewrite <- Z.shiftl_mul_pow2, <- Z.add_lor_land by done.
  assert (Z.land a (Z.shiftl b n) = 0) as ->; [|lia].
  apply Z.bits_inj'. intros i Hi. rewrite Z.land_spec, Z.bits_0.
  destruct (Z.lt_ge_cases i n).
  - by rewrite Z.shiftl_spec_low, andb_false_r.
  - rewrite <- (Z.mod_small a (2 ^ n)) by lia. by rewrite Z.mod_pow2_bits_high by lia.
Qed.
End MachineIntegers.

(** Congruences modulo a power of two, closed by pushing every inner [wrap]
    outwards and comparing the arguments. *)
Ltac wrap_solve :=
  unfold u8, u16, u32, u64 in *;
  repeat first [ rewrite wrap_add_l | rewrite wrap_add_r
               | rewrite wrap_sub_l | rewrite wrap_sub_r | rewrite wrap_wrap ];
  f_equal; lia.

(** ** Fault monad

    [M S A] is a computation over the state [S] that either returns a value
    and the next state, or faults ([None]).  A fault stands for what C leaves
    undefined: a dereference of a null or dangling pointer, an array access
    out of range, the removal of an element from a list it is not on. *)

Definition M (S A : Type) : Type := S -> option (A * S).

#[export] Instance M_ret S : MRet (M S) := fun A a s => Some (a, s).
#[export] Instance M_bind S : MBind (M S) := fun A B k m s =>
  match m s with Some (a, s') => k a s' | None => None end.

Definition get {S} : M S S := fun s => Some (s, s).
Definition gets {S A} (f : S -> A) : M S A := fun s => Some (f s, s).
Definition modify {S} (f : S -> S) : M S unit := fun s => Some (tt, f s).
Definition fault {S A} : M S A := fun _ => None.
Definition lift {S A} (o : option A) : M S A := fun s =>
  match o with Some a => Some (a, s) | None => None end.
Definition skip {S} : M S unit := fun s => Some (tt, s).
Definition when {S} (b : bool) (m : M S unit) : M S unit := if b then m else skip.

(** [for x in l do f x], left to right. *)
Fixpoint for_each {S A} (l : list A) (f : A -> M S unit) : M S unit :=
  match l with
  | [] => skip
  | x :: l' => f x ;; for_each l' f
  end.

(** Weakest precondition of total correctness: the computation does not
    fault and its result satisfies [Q]. *)
Definition wp {S A} (m : M S A) (Q : A -> S -> Prop) (s : S) : Prop :=
  match m s with Some (a, s') => Q a s' | None => False end.

Section WP.
Context {S : Type}.
Implicit Types s : S.

Lemma wp_bind {A B} (m : M S A) (k : A -> M S B) Q s :
  wp (m ≫= k) Q s <-> wp m (fun a => wp (k a) Q) s.
Proof. unfold wp, mbind, M_bind. by destruct (m s) as [[? ?]|]. Qed.

Lemma wp_ret {A} (a : A) Q s : wp (mret a : M S A) Q s <-> Q a s.
Proof. done. Qed.

Lemma wp_assoc {A B C} (m : M S A) (k : A -> M S B) (h : B -> M S C) Q s :
  wp (m ≫= fun a => k a ≫= h) Q s <-> wp ((m ≫= k) ≫= h) Q s.
Proof. unfold wp, mbind, M_bind. by destruct (m s) as [[? ?]|]. Qed.

(** Run the first computation of a sequence. *)
Lemma wp_step {A B} (m : M S A) (k : A -> M S B) Q s a s' :
  m s = Some (a, s') -> wp (k a) Q s' -> wp (m ≫= k) Q s.
Proof. intros H Hk. apply wp_bind. unfold wp at 1. by rewrite H. Qed.

Lemma wp_run {A} (m : M S A) Q s a s' : m s = Some (a, s') -> Q a s' -> wp m Q s.
Proof. intros H Hk. unfold wp. by rewrite H. Qed.

Lemma wp_at {A} (m : M S A) Q s s' : s = s' -> wp m Q s' -> wp m Q s.
Proof. by intros ->. Qed.

Lemma wp_mono {A} (m : M S A) (Q R : A -> S -> Prop) s :
  wp m Q s -> (forall a s', Q a s' -> R a s') -> wp m R s.
Proof. unfold wp. destruct (m s) as [[? ?]|]; eauto. Qed.

Lemma wp_some {A} (m : M S A) Q s :
  wp m Q s <-> exists a s', m s = Some (a, s') /\ Q a s'.
Proof.
  unfold wp. destruct (m s) as [[a s']|]; [|naive_solver].
  split; [by eauto|]. intros (? & ? & ? & ?). by simplify_eq.
Qed.

Lemma wp_when (b : bool) (m : M S unit) Q s :
  (b = true -> wp m Q s) -> (b = false -> Q tt s) -> wp (when b m) Q s.
Proof. destruct b; simpl; [|unfold wp; simpl]; auto. Qed.

Lemma wp_lift {A} (o : option A) a Q s :
  o = Some a -> Q a s -> wp (lift o) Q s.
Proof. by intros -> ?. Qed.

(** The loop rule: an invariant indexed by the elements still to visit. *)
Lemma wp_for_each {A} (l : list A) (f : A -> M S unit) (I : list A -> S -> Prop) s :
  I l s ->
  (forall x l' s, I (x :: l') s -> wp (f x) (fun _ s' => I l' s') s) ->
  wp (for_each l f) (fun _ s' => I [] s') s.
Proof.
  revert s. induction l as [|x l IH]; intros s HI Hstep; simpl; [done|].
  apply wp_bind. eapply wp_mono; [by apply Hstep|]. simpl. intros _ s'. by auto.
Qed.
End WP.

(** ** BSD tail queues ([TAILQ_*])

    A tail queue is the list of its elements.  Removing an element that is
    not on the queue corrupts the links in C, so it is a fault here. *)
Section TailQ.
Context {A : Type} `{EqDecision A}.

Fixpoint tailq_remove (x : A) (l : list A) : option (list A) :=
  match l with
  | [] => None
  | y :: l' => if decide (x = y) then Some l'
               else l'' ← tailq_remove x l'; Some (y :: l'')
  end.

Definition tailq_insert_tail (x : A) (l : list A) : list A := l ++ [x].
Definition tailq_insert_head (x : A) (l : list A) : list A := x :: l.

Lemma tailq_remove_perm x l l' : tailq_remove x l = Some l' -> l ≡ₚ x :: l'.
Proof.
  revert l'. induction l as [|y l IH]; intros l' H; simpl in *; [done|].
  case_decide; simplify_eq; [done|].
  destruct (tailq_remove x l) as [l0|]; simplify_eq/=.
  rewrite (IH l0 eq_refl). by rewrite Permutation_swap.
Qed.

Lemma tailq_remove_is_Some x l : x ∈ l -> is_Some (tailq_remove x l).
Proof.
  induction l as [|y l IH]; intros H; [set_solver|].
  simpl. case_decide; [eauto|]. destruct IH as [l' ->]; [set_solver|]. eauto.
Qed.

Lemma tailq_remove_None x l : x ∉ l -> tailq_remove x l = None.
Proof.
  induction l as [|y l IH]; intros H; [done|].
  simpl. case_decide; [set_solver|]. rewrite IH; [done|set_solver].
Qed.
End TailQ.

(** ** Arrays: lists with a [Z] index *)
Definition znth {A} (l : list A) (i : Z) : option A :=
  if i <? 0 then None else l !! Z.to_nat i.
Definition zset {A} (l : list A) (i : Z) (x : A) : list A := <[Z.to_nat i := x]> l.
Definition zlen {A} (l : list A) : Z := Z.of_nat (length l).

Section Arrays.
Context {A : Type}.
Implicit Types l : list A.

Lemma znth_Some l i x : znth l i = Some x <-> 0 <= i /\ l !! Z.to_nat i = Some x.
Proof. unfold znth. destruct (Z.ltb_spec i 0); [|naive_solver lia].
  split; [done|]. intros [? _]. lia. Qed.

Lemma znth_lt_Some l i x : znth l i = Some x -> 0 <= i < zlen l.
Proof.
  intros [? H]%znth_Some. apply lookup_lt_Some in H. unfold zlen. lia.
Qed.

Lemma znth_in_range l i : 0 <= i < zlen l -> is_Some (znth l i).
Proof.
  unfold zlen, znth. intros. destruct (Z.ltb_spec i 0); [lia|].
  apply lookup_lt_is_Some. lia.
Qed.

Lemma znth_zset l i j x :
  0 <= i < zlen l -> 0 <= j ->
  znth (zset l i x) j = if decide (i = j) then Some x else znth l j.
Proof.
  unfold zlen, znth, zset. intros. destruct (Z.ltb_spec j 0); [lia|].
  case_decide; subst.
  - apply list_lookup_insert_eq. lia.
  - apply list_lookup_insert_ne. lia.
Qed.

Lemma znth_zset_eq l i x : 0 <= i < zlen l -> znth (zset l i x) i = Some x.
Proof. intros. rewrite znth_zset by lia. by rewrite decide_True. Qed.

Lemma znth_zset_ne l i j x :
  0 <= i < zlen l -> i <> j -> znth (zset l i x) j = znth l j.
Proof.
  intros. unfold znth. destruct (Z.ltb_spec j 0); [done|].
  unfold zset. apply list_lookup_insert_ne. lia.
Qed.

Lemma zlen_zset l i x : zlen (zset l i x) = zlen l.
Proof. unfold zlen, zset. by rewrite length_insert. Qed.

Lemma zlen_app l k : zlen (l ++ k) = zlen l + zlen k.
Proof. unfold zlen. rewrite length_app. lia. Qed.

Lemma zlen_cons x l : zlen (x :: l) = 1 + zlen l.
Proof. unfold zlen. simpl. lia. Qed.

Lemma zlen_nil : zlen (@nil A) = 0.
Proof. done. Qed.

Lemma zlen_nonneg l : 0 <= zlen l.
Proof. unfold zlen. lia. Qed.

Lemma znth_elem_of l i x : znth l i = Some x -> x ∈ l.
Proof. intros [_ Hl]%znth_Some. by eapply list_elem_of_lookup_2. Qed.

Lemma znth_app_r l1 l2 i : zlen l1 <= i -> znth (l1 ++ l2) i = znth l2 (i - zlen l1).
Proof.
  intros Hi. unfold znth. pose proof (Nat2Z.is_nonneg (length l1)). unfold zlen in *.
  rewrite !(proj2 (Z.ltb_ge _ _)) by lia. rewrite lookup_app_r by lia. f_equal. lia.
Qed.
Lemma znth_app_l l1 l2 i : i < zlen l1 -> znth (l1 ++ l2) i = znth l1 i.
Proof.
  intros Hi. unfold znth. destruct (Z.ltb_spec i 0); [done|]. apply lookup_app_l. unfold zlen in *. lia.
Qed.
End Arrays.

(** ** Sums of a measure over a list *)
Definition zsum {A} (f : A -> Z) (l : list A) : Z := foldr (fun x n => f x + n) 0 l.

#[global] Arguments zsum : simpl never.

Section Sums.
Context {A : Type}.
Implicit Types (f g : A -> Z) (l : list A).

Lemma zsum_nil f : zsum f [] = 0.
Proof. done. Qed.
Lemma zsum_cons f x l : zsum f (x :: l) = f x + zsum f l.
Proof. done. Qed.
Lemma zsum_app f l k : zsum f (l ++ k) = zsum f l + zsum f k.
Proof. unfold zsum in *. induction l as [|x l IH]; simpl; lia. Qed.

Lemma zsum_ext f g l : (forall x, x ∈ l -> f x = g x) -> zsum f l = zsum g l.
Proof.
  induction l as [|x l IH]; intros H; [done|].
  rewrite !zsum_cons, IH by set_solver. rewrite (H x); [done|set_solver].
Qed.

#[export] Instance zsum_perm f : Proper ((≡ₚ) ==> (=)) (zsum f).
Proof.
  induction 1; unfold zsum in *; simpl in *; lia.
Qed.

Lemma zsum_nonneg f l : (forall x, x ∈ l -> 0 <= f x) -> 0 <= zsum f l.
Proof.
  induction l as [|x l IH]; intros H; [done|]. rewrite zsum_cons.
  assert (0 <= f x) by (apply H; set_solver).
  assert (0 <= zsum f l) by (apply IH; set_solver). lia.
Qed.

Lemma zsum_zero f l : (forall x, x ∈ l -> f x = 0) -> zsum f l = 0.
Proof.
  intros Hf. rewrite (zsum_ext f (fun _ => 0)) by done. clear Hf. induction l as [|x l IH]; [done|]. by rewrite zsum_cons, IH.
Qed.

Lemma zsum_elem_le f l x :
  (forall y, y ∈ l -> 0 <= f y) -> x ∈ l -> f x <= zsum f l.
Proof.
  induction l as [|y l IH]; intros Hp Hx; [set_solver|]. rewrite zsum_cons.
  assert (0 <= f y) by (apply Hp; set_solver).
  assert (0 <= zsum f l) by (apply zsum_nonneg; set_solver).
  apply elem_of_cons in Hx as [->|Hx]; [lia|].
  assert (f x <= zsum f l) by (apply IH; set_solver). lia.
Qed.
End Sums.

(** ** Congruence modulo 2^32

    Byte counters wrap; they are compared up to this congruence, which the
    wrap-around functions respect. *)
Definition eqm (a b : Z) : Prop := a mod 2 ^ 32 = b mod 2 ^ 32.

Section Congruence.
#[export] Instance eqm_equiv : Equivalence eqm.
Proof. unfold eqm. split; [done|by intros ??|intros ?????; congruence]. Qed.

#[export] Instance eqm_add : Proper (eqm ==> eqm ==> eqm) Z.add.
Proof. unfold eqm. intros a b H c d H'. by rewrite Zplus_mod, H, H', <- Zplus_mod. Qed.
#[export] Instance eqm_sub : Proper (eqm ==> eqm ==> eqm) Z.sub.
Proof. unfold eqm. intros a b H c d H'. by rewrite Zminus_mod, H, H', <- Zminus_mod. Qed.

Lemma eqm_eq a b : a = b -> eqm a b.
Proof. by intros ->. Qed.

Lemma eqm_u32 z : eqm (u32 z) z.
Proof. unfold eqm, u32, wrap. apply Zmod_mod. Qed.
Lemma eqm_s32 z : eqm (s32 z) z.
Proof. apply u32_s32. Qed.

#[export] Instance s32_eqm : Proper (eqm ==> (=)) s32.
Proof. intros a b H. by rewrite <- (s32_u32 a), <- (s32_u32 b); unfold u32, wrap; rewrite H. Qed.
#[export] Instance u32_eqm : Proper (eqm ==> (=)) u32.
Proof. intros a b H. exact H. Qed.
End Congruence.

(** Equalities of [s32] or [u32] of sums, up to the congruence. *)
Ltac eqm_solve :=
  try (apply s32_eqm || apply u32_eqm);
  repeat first [ setoid_rewrite eqm_u32 | setoid_rewrite eqm_s32 ];
  apply eqm_eq; lia.

(** ** Sums of a measure over the values of a finite map *)
Definition map_sum `{Countable K} {A} (f : A -> Z) (m : gmap K A) : Z :=
  zsum (fun kx => f kx.2) (map_to_list m).

(** The measure of a key; 0 when it is absent. *)
Definition val_of `{Countable K} {A} (f : A -> Z) (m : gmap K A) (k : K) : Z :=
  from_option f 0 (m !! k).

Section MapSums.
Context `{Countable K} {A : Type} (f : A -> Z).
Implicit Types m : gmap K A.

Lemma map_sum_insert_new m k x :
  m !! k = None -> map_sum f (<[k := x]> m) = f x + map_sum f m.
Proof. intros. unfold map_sum. by rewrite map_to_list_insert. Qed.

Lemma map_sum_delete m k x :
  m !! k = Some x -> map_sum f m = f x + map_sum f (delete k m).
Proof.
  intros. rewrite <- (map_sum_insert_new (delete k m) k x) by apply lookup_delete_eq.
  by rewrite insert_delete_id.
Qed.

Lemma map_sum_insert m k x y :
  m !! k = Some x -> map_sum f (<[k := y]> m) = map_sum f m - f x + f y.
Proof.
  intros. rewrite <- insert_delete_eq, map_sum_insert_new by apply lookup_delete_eq.
  rewrite (map_sum_delete m k x) by done. lia.
Qed.

Lemma val_of_insert m k x : val_of f (<[k := x]> m) k = f x.
Proof. unfold val_of. by rewrite lookup_insert_eq. Qed.
Lemma val_of_insert_ne m k j x : j <> k -> val_of f (<[k := x]> m) j = val_of f m j.
Proof. intros. unfold val_of. by rewrite lookup_insert_ne. Qed.
Lemma val_of_some m k x : m !! k = Some x -> val_of f m k = f x.
Proof. intros Hx. unfold val_of. by rewrite Hx. Qed.

Lemma map_sum_nonneg m : (forall k x, m !! k = Some x -> 0 <= f x) -> 0 <= map_sum f m.
Proof.
  intros Hf. apply zsum_nonneg. intros [k x] Hx. apply elem_of_map_to_list in Hx. eauto.
Qed.

(** A duplicate-free list of keys sums to at most the whole map. *)
Lemma zsum_keys_le m l :
  (forall k x, m !! k = Some x -> 0 <= f x) -> NoDup l ->
  zsum (val_of f m) l <= map_sum f m.
Proof.
  revert m. induction l as [|k l IH]; intros m Hf Hl.
  { by apply map_sum_nonneg. }
  apply list.NoDup_cons in Hl as [Hk Hl]. rewrite zsum_cons.
  assert (zsum (val_of f m) l = zsum (val_of f (delete k m)) l) as ->.
  { apply zsum_ext. intros j Hj. unfold val_of. rewrite lookup_delete_ne; [done|set_solver]. }
  assert (zsum (val_of f (delete k m)) l <= map_sum f (delete k m)).
  { apply IH; [|done]. intros j x Hx%lookup_delete_Some. naive_solver. }
  destruct (m !! k) as [x|] eqn:E.
  - rewrite (map_sum_delete m k x), (val_of_some m k x) by done. lia.
  - rewrite delete_id in * by done. unfold val_of at 1. rewrite E. simpl. lia.
Qed.
End MapSums.

(** ** Running the first computation of a sequence *)
Lemma run_bind {S A B} (m : M S A) (k : A -> M S B) s a s1 r :
  m s = Some (a, s1) -> k a s1 = r -> (m ≫= k) s = r.
Proof. unfold mbind, M_bind. by intros -> <-. Qed.
Lemma bind_run {S A B} (m : M S A) (k : A -> M S B) s a s1 : m s = Some (a, s1) -> (m ≫= k) s = k a s1.
Proof. intros E. by apply (run_bind m k s a s1). Qed.

(** ** Computations that keep a relation *)
Section Keeps.
Context {S : Type} (R : S -> S -> Prop) `{!PreOrder R}.

Definition keeps {A} (m : M S A) : Prop := forall s a s', m s = Some (a, s') -> R s s'.

Lemma keeps_ret {A} (a : A) : keeps (mret a).
Proof. by intros s b s' [= _ <-]. Qed.
Lemma keeps_get : keeps get.
Proof. by intros s b s' [= _ <-]. Qed.
Lemma keeps_gets {A} (f : S -> A) : keeps (gets f).
Proof. by intros s b s' [= _ <-]. Qed.
Lemma keeps_skip : keeps skip.
Proof. by intros s b s' [= _ <-]. Qed.
Lemma keeps_fault {A} : keeps (fault : M S A).
Proof. by intros s b s'. Qed.
Lemma keeps_lift {A} (o : option A) : keeps (lift o).
Proof. intros s b s'. unfold lift. by destruct o as [x|]; [intros [= _ <-]|]. Qed.
Lemma keeps_bind {A B} (m : M S A) (k : A -> M S B) : keeps m -> (forall a, keeps (k a)) -> keeps (m ≫= k).
Proof.
  intros Hm Hk s b s'. unfold mbind, M_bind. destruct (m s) as [[a s1]|] eqn:E; [|done]. intros E'.
  transitivity s1; [by eapply Hm|by eapply Hk].
Qed.
Lemma keeps_when b (m : M S unit) : keeps m -> keeps (when b m).
Proof. destruct b; [done|]. intros _. apply keeps_skip. Qed.
Lemma keeps_for_each {A} (l : list A) (f : A -> M S unit) : (forall x, keeps (f x)) -> keeps (for_each l f).
Proof.
  intros Hf. induction l as [|x l IH]; cbn [for_each]; [apply keeps_skip|]. apply keeps_bind; [apply Hf|done].
Qed.
Lemma keeps_modify f : (forall s, R s (f s)) -> keeps (modify f).
Proof. intros Hf s b s' [= _ <-]. apply Hf. Qed.
End Keeps.

(** Decomposes a computation; what is left are its calls and its updates. *)
Ltac keep_step :=
  match goal with
  | |- forall _, _ => intros ?
  | |- keeps _ (match ?x with _ => _ end) => destruct x
  | |- keeps _ (let _ := _ in _) => cbv zeta
  | |- keeps _ (_ ≫= _) => apply keeps_bind
  | |- keeps _ (mret _) => apply keeps_ret
  | |- keeps _ get => apply keeps_get
  | |- keeps _ skip => apply keeps_skip
  | |- keeps _ fault => apply keeps_fault
  | |- keeps _ (lift _) => apply keeps_lift
  | |- keeps _ (when _ _) => apply keeps_when
  | |- keeps _ (for_each _ _) => apply keeps_for_each
  end.
Create HintDb keeps.
Ltac head_of t := match t with ?f _ => head_of f | _ => t end.
Ltac keep :=
  repeat first [keep_step | typeclasses eauto | solve [auto with keeps nocore] |
    match goal with |- keeps _ ?m => let h := head_of m in unfold h end].

Create HintDb wlan discriminated.
Create Rewrite HintDb wlan.
#[export] Hint Rewrite @zlen_zset @zlen_app @zlen_cons @zlen_nil
  @zsum_nil @zsum_cons @zsum_app : wlan.
#[export] Hint Resolve zlen_nonneg u8_range u16_range u32_range : wlan.

(** Run the first computation of the goal's program with an equation that
    evaluates it, or by computation. *)
Ltac step_with eqn := eapply wp_step; [eapply eqn; eauto|].
Ltac step := eapply wp_step; [reflexivity|].
