(* ===== verification/TxTypes.v ===== *)
(** Data model of the high-latency transmit path ([ol_txrx_types.h],
    [ol_tx_sched.c]): transmit descriptors, per-peer and per-vdev frame
    queues, scheduler categories and their configuration tables, queue groups
    and the part of the physical device the transmit path reads and writes,
    with the accessors that fault on a dangling pointer. *)
From Stdlib Require Import ZArith Lia.
From stdpp Require Import prelude gmap list numbers.
From S2P Require Import Prelude.

(** ** Constants *)
Definition OL_TX_NUM_QOS_TIDS : Z := 16.
Definition OL_TX_NON_QOS_TID : Z := 16.
Definition OL_TX_MGMT_TID : Z := 17.
Definition OL_TX_NUM_TIDS : Z := 18.
Definition OL_TX_VDEV_MCAST_BCAST : Z := 0.
Definition OL_TX_VDEV_DEFAULT_MGMT : Z := 1.
Definition OL_TX_VDEV_MCAST_VO : Z := 2.
Definition OL_TX_VDEV_NUM_QUEUES : Z := 3.
Definition HTT_TX_EXT_TID_NON_QOS_MCAST_BCAST : Z := 16.
Definition HTT_TX_EXT_TID_MGMT : Z := 17.
Definition HTT_TX_EXT_TID_MCAST_VO : Z := 20.
Definition OL_TX_MAX_TXQ_GROUPS : Z := 2.

(** The categories of the weighted-round-robin scheduler; the first four are
    also the WMM access categories. *)
Definition OL_TX_SCHED_WRR_ADV_CAT_BE : Z := 0.
Definition OL_TX_SCHED_WRR_ADV_CAT_BK : Z := 1.
Definition OL_TX_SCHED_WRR_ADV_CAT_VI : Z := 2.
Definition OL_TX_SCHED_WRR_ADV_CAT_VO : Z := 3.
Definition OL_TX_SCHED_WRR_ADV_CAT_NON_QOS_DATA : Z := 4.
Definition OL_TX_SCHED_WRR_ADV_CAT_UCAST_MGMT : Z := 5.
Definition OL_TX_SCHED_WRR_ADV_CAT_MCAST_DATA : Z := 6.
Definition OL_TX_SCHED_WRR_ADV_CAT_MCAST_MGMT : Z := 7.
Definition OL_TX_SCHED_WRR_ADV_CAT_MCAST_VO : Z := 8.
Definition OL_TX_SCHED_WRR_ADV_NUM_CATEGORIES : Z := 9.

Definition TXRX_WMM_AC_BE : Z := 0.
Definition TXRX_WMM_AC_BK : Z := 1.
Definition TXRX_WMM_AC_VI : Z := 2.
Definition TXRX_WMM_AC_VO : Z := 3.

Definition TXRX_TID_TO_WMM_AC (tid : Z) : Z :=
  if Z.shiftr tid 1 =? 3 then TXRX_WMM_AC_VO
  else if Z.shiftr tid 1 =? 2 then TXRX_WMM_AC_VI
  else if negb (Z.land (Z.lxor tid (Z.shiftr tid 1)) 1 =? 0) then TXRX_WMM_AC_BK
  else TXRX_WMM_AC_BE.

(** The TID to category table that [ol_txrx_pdev_attach] fills in. *)
Definition tid_to_ac_init : list Z :=
  (TXRX_TID_TO_WMM_AC ∘ Z.of_nat <$> seq 0 (Z.to_nat OL_TX_NUM_QOS_TIDS)) ++
  [ OL_TX_SCHED_WRR_ADV_CAT_NON_QOS_DATA;   (* OL_TX_NON_QOS_TID *)
    OL_TX_SCHED_WRR_ADV_CAT_UCAST_MGMT;     (* OL_TX_MGMT_TID *)
    OL_TX_SCHED_WRR_ADV_CAT_MCAST_DATA;     (* OL_TX_NUM_TIDS + OL_TX_VDEV_MCAST_BCAST *)
    OL_TX_SCHED_WRR_ADV_CAT_MCAST_MGMT;     (* OL_TX_NUM_TIDS + OL_TX_VDEV_DEFAULT_MGMT *)
    OL_TX_SCHED_WRR_ADV_CAT_MCAST_VO ].     (* OL_TX_NUM_TIDS + OL_TX_VDEV_MCAST_VO *)

(** ** Transmit descriptors and frame queues *)

(** [struct ol_tx_desc_t]: the descriptor's id, the length of its network
    buffer, and whether the buffer has room to store the MSDU id. *)
Record tx_desc := mk_tx_desc {
  td_id : Z;
  td_len : Z;
  td_id_storage : bool }.

#[export] Instance tx_desc_eq_dec : EqDecision tx_desc.
Proof. solve_decision. Defined.

(** [htt_tx_msdu_credit]: one credit per buffer. *)
Definition htt_tx_msdu_credit (d : tx_desc) : Z := 1.

Inductive txq_status := ol_tx_queue_empty | ol_tx_queue_active | ol_tx_queue_paused.

#[export] Instance txq_status_eq_dec : EqDecision txq_status.
Proof. solve_decision. Defined.

Inductive scheduler_status := ol_tx_scheduler_idle | ol_tx_scheduler_running.

(** The address of a frame queue: slot [i] of a vdev's [txqs] or slot [tid]
    of a peer's [txqs]. *)
Inductive txq_id := VdevTxq (vdev i : Z) | PeerTxq (peer tid : Z).

#[export] Instance txq_id_eq_dec : EqDecision txq_id.
Proof. solve_decision. Defined.
#[export] Instance txq_id_countable : Countable txq_id.
Proof.
  refine (inj_countable'
    (fun q => match q with VdevTxq v i => inl (v, i) | PeerTxq p t => inr (p, t) end)
    (fun x => match x with inl (v, i) => VdevTxq v i | inr (p, t) => PeerTxq p t end) _).
  by intros [].
Defined.

(** [struct ol_tx_frms_queue_t]. *)
Record txq := mk_txq {
  txq_frms : Z;
  txq_bytes : Z;
  txq_head : list tx_desc;
  txq_flag : txq_status;
  txq_paused_total : Z;
  txq_ext_tid : Z;
  txq_group_ptr : option Z }.

(** ** The scheduler *)

(** [struct ol_tx_sched_wrr_adv_category_info_t], its configuration part ... *)
Record category_specs := mk_specs {
  wrr_skip_weight : Z;
  credit_threshold : Z;
  send_limit : Z;
  credit_reserve : Z;
  discard_weight : Z }.

(** ... and as a whole. *)
Record category := mk_category {
  cat_specs : category_specs;
  cat_wrr_count : Z;
  cat_frms : Z;
  cat_bytes : Z;
  cat_head : list txq_id;
  cat_active : bool }.

(** [struct ol_tx_sched_wrr_adv_t]. *)
Record wrr_adv := mk_wrr_adv {
  sch_order : list Z;
  sch_index : Z;
  sch_categories : list category }.

(** [struct ol_tx_queue_group_t]. *)
Record txq_group := mk_txq_group {
  grp_credit : Z;
  grp_membership : Z }.

(** The part of [struct ol_txrx_vdev_t] the transmit path uses. *)
Record tx_vdev := mk_tx_vdev {
  vdev_id : Z;
  vdev_peer_list : list Z;
  vdev_hl_paused_reason : Z }.

(** The part of [struct ol_txrx_pdev_t] the transmit path uses.  [pd_freed]
    and [pd_sent] log the descriptors given back to the pool and the batches
    handed to HTT. *)
Record tx_pdev := mk_tx_pdev {
  pd_txqs : gmap txq_id txq;
  pd_scheduler : option wrr_adv;
  pd_last_used_txq : option txq_id;
  pd_sched_status : scheduler_status;
  pd_target_tx_credit : Z;
  pd_txq_grps : list txq_group;
  pd_rsrc_cnt : Z;
  pd_rsrc_threshold_lo : Z;
  pd_rsrc_threshold_hi : Z;
  pd_tid_to_ac : list Z;
  pd_vdev_list : list tx_vdev;
  pd_peer_ref_cnt : gmap Z Z;
  pd_fast_chswitch_cali : bool;
  pd_tx_cali_pending : Z;
  pd_desc_pool_size : Z;
  pd_freed : list tx_desc;
  pd_sent : list (list tx_desc) }.

(** ** Field updates *)
Definition set_txq_frms (f : Z -> Z) (s : txq) : txq :=
  {| txq_frms := f (txq_frms s); txq_bytes := txq_bytes s; txq_head :=
     txq_head s; txq_flag := txq_flag s; txq_paused_total :=
     txq_paused_total s; txq_ext_tid := txq_ext_tid s; txq_group_ptr
     := txq_group_ptr s |}.
Definition set_txq_bytes (f : Z -> Z) (s : txq) : txq :=
  {| txq_frms := txq_frms s; txq_bytes := f (txq_bytes s); txq_head :=
     txq_head s; txq_flag := txq_flag s; txq_paused_total :=
     txq_paused_total s; txq_ext_tid := txq_ext_tid s; txq_group_ptr
     := txq_group_ptr s |}.
Definition set_txq_head (f : list tx_desc -> list tx_desc) (s : txq) : txq :=
  {| txq_frms := txq_frms s; txq_bytes := txq_bytes s; txq_head := f
     (txq_head s); txq_flag := txq_flag s; txq_paused_total :=
     txq_paused_total s; txq_ext_tid := txq_ext_tid s; txq_group_ptr
     := txq_group_ptr s |}.
Definition set_txq_flag (f : txq_status -> txq_status) (s : txq) : txq :=
  {| txq_frms := txq_frms s; txq_bytes := txq_bytes s; txq_head :=
     txq_head s; txq_flag := f (txq_flag s); txq_paused_total :=
     txq_paused_total s; txq_ext_tid := txq_ext_tid s; txq_group_ptr
     := txq_group_ptr s |}.
Definition set_txq_paused_total (f : Z -> Z) (s : txq) : txq :=
  {| txq_frms := txq_frms s; txq_bytes := txq_bytes s; txq_head :=
     txq_head s; txq_flag := txq_flag s; txq_paused_total := f
     (txq_paused_total s); txq_ext_tid := txq_ext_tid s; txq_group_ptr
     := txq_group_ptr s |}.
Definition set_txq_ext_tid (f : Z -> Z) (s : txq) : txq :=
  {| txq_frms := txq_frms s; txq_bytes := txq_bytes s; txq_head :=
     txq_head s; txq_flag := txq_flag s; txq_paused_total :=
     txq_paused_total s; txq_ext_tid := f (txq_ext_tid s);
     txq_group_ptr := txq_group_ptr s |}.
Definition set_txq_group_ptr (f : option Z -> option Z) (s : txq) : txq :=
  {| txq_frms := txq_frms s; txq_bytes := txq_bytes s; txq_head :=
     txq_head s; txq_flag := txq_flag s; txq_paused_total :=
     txq_paused_total s; txq_ext_tid := txq_ext_tid s; txq_group_ptr
     := f (txq_group_ptr s) |}.
Definition set_cat_specs (f : category_specs -> category_specs) (s : category) : category :=
  {| cat_specs := f (cat_specs s); cat_wrr_count := cat_wrr_count s;
     cat_frms := cat_frms s; cat_bytes := cat_bytes s; cat_head :=
     cat_head s; cat_active := cat_active s |}.
Definition set_cat_wrr_count (f : Z -> Z) (s : category) : category :=
  {| cat_specs := cat_specs s; cat_wrr_count := f (cat_wrr_count s);
     cat_frms := cat_frms s; cat_bytes := cat_bytes s; cat_head :=
     cat_head s; cat_active := cat_active s |}.
Definition set_cat_frms (f : Z -> Z) (s : category) : category :=
  {| cat_specs := cat_specs s; cat_wrr_count := cat_wrr_count s;
     cat_frms := f (cat_frms s); cat_bytes := cat_bytes s; cat_head :=
     cat_head s; cat_active := cat_active s |}.
Definition set_cat_bytes (f : Z -> Z) (s : category) : category :=
  {| cat_specs := cat_specs s; cat_wrr_count := cat_wrr_count s;
     cat_frms := cat_frms s; cat_bytes := f (cat_bytes s); cat_head :=
     cat_head s; cat_active := cat_active s |}.
Definition set_cat_head (f : list txq_id -> list txq_id) (s : category) : category :=
  {| cat_specs := cat_specs s; cat_wrr_count := cat_wrr_count s;
     cat_frms := cat_frms s; cat_bytes := cat_bytes s; cat_head := f
     (cat_head s); cat_active := cat_active s |}.
Definition set_cat_active (f : bool -> bool) (s : category) : category :=
  {| cat_specs := cat_specs s; cat_wrr_count := cat_wrr_count s;
     cat_frms := cat_frms s; cat_bytes := cat_bytes s; cat_head :=
     cat_head s; cat_active := f (cat_active s) |}.
Definition set_sch_order (f : list Z -> list Z) (s : wrr_adv) : wrr_adv :=
  {| sch_order := f (sch_order s); sch_index := sch_index s;
     sch_categories := sch_categories s |}.
Definition set_sch_index (f : Z -> Z) (s : wrr_adv) : wrr_adv :=
  {| sch_order := sch_order s; sch_index := f (sch_index s);
     sch_categories := sch_categories s |}.
Definition set_sch_categories (f : list category -> list category) (s : wrr_adv) : wrr_adv :=
  {| sch_order := sch_order s; sch_index := sch_index s;
     sch_categories := f (sch_categories s) |}.
Definition set_grp_credit (f : Z -> Z) (s : txq_group) : txq_group :=
  {| grp_credit := f (grp_credit s); grp_membership := grp_membership
     s |}.
Definition set_grp_membership (f : Z -> Z) (s : txq_group) : txq_group :=
  {| grp_credit := grp_credit s; grp_membership := f (grp_membership
     s) |}.
Definition set_vdev_id (f : Z -> Z) (s : tx_vdev) : tx_vdev :=
  {| vdev_id := f (vdev_id s); vdev_peer_list := vdev_peer_list s;
     vdev_hl_paused_reason := vdev_hl_paused_reason s |}.
Definition set_vdev_peer_list (f : list Z -> list Z) (s : tx_vdev) : tx_vdev :=
  {| vdev_id := vdev_id s; vdev_peer_list := f (vdev_peer_list s);
     vdev_hl_paused_reason := vdev_hl_paused_reason s |}.
Definition set_vdev_hl_paused_reason (f : Z -> Z) (s : tx_vdev) : tx_vdev :=
  {| vdev_id := vdev_id s; vdev_peer_list := vdev_peer_list s;
     vdev_hl_paused_reason := f (vdev_hl_paused_reason s) |}.
Definition set_pd_txqs (f : gmap txq_id txq -> gmap txq_id txq) (s : tx_pdev) : tx_pdev :=
  {| pd_txqs := f (pd_txqs s); pd_scheduler := pd_scheduler s;
     pd_last_used_txq := pd_last_used_txq s; pd_sched_status :=
     pd_sched_status s; pd_target_tx_credit := pd_target_tx_credit s;
     pd_txq_grps := pd_txq_grps s; pd_rsrc_cnt := pd_rsrc_cnt s;
     pd_rsrc_threshold_lo := pd_rsrc_threshold_lo s;
     pd_rsrc_threshold_hi := pd_rsrc_threshold_hi s; pd_tid_to_ac :=
     pd_tid_to_ac s; pd_vdev_list := pd_vdev_list s; pd_peer_ref_cnt
     := pd_peer_ref_cnt s; pd_fast_chswitch_cali :=
     pd_fast_chswitch_cali s; pd_tx_cali_pending := pd_tx_cali_pending
     s; pd_desc_pool_size := pd_desc_pool_size s; pd_freed := pd_freed
     s; pd_sent := pd_sent s |}.
Definition set_pd_scheduler (f : option wrr_adv -> option wrr_adv) (s : tx_pdev) : tx_pdev :=
  {| pd_txqs := pd_txqs s; pd_scheduler := f (pd_scheduler s);
     pd_last_used_txq := pd_last_used_txq s; pd_sched_status :=
     pd_sched_status s; pd_target_tx_credit := pd_target_tx_credit s;
     pd_txq_grps := pd_txq_grps s; pd_rsrc_cnt := pd_rsrc_cnt s;
     pd_rsrc_threshold_lo := pd_rsrc_threshold_lo s;
     pd_rsrc_threshold_hi := pd_rsrc_threshold_hi s; pd_tid_to_ac :=
     pd_tid_to_ac s; pd_vdev_list := pd_vdev_list s; pd_peer_ref_cnt
     := pd_peer_ref_cnt s; pd_fast_chswitch_cali :=
     pd_fast_chswitch_cali s; pd_tx_cali_pending := pd_tx_cali_pending
     s; pd_desc_pool_size := pd_desc_pool_size s; pd_freed := pd_freed
     s; pd_sent := pd_sent s |}.
Definition set_pd_last_used_txq (f : option txq_id -> option txq_id) (s : tx_pdev) : tx_pdev :=
  {| pd_txqs := pd_txqs s; pd_scheduler := pd_scheduler s;
     pd_last_used_txq := f (pd_last_used_txq s); pd_sched_status :=
     pd_sched_status s; pd_target_tx_credit := pd_target_tx_credit s;
     pd_txq_grps := pd_txq_grps s; pd_rsrc_cnt := pd_rsrc_cnt s;
     pd_rsrc_threshold_lo := pd_rsrc_threshold_lo s;
     pd_rsrc_threshold_hi := pd_rsrc_threshold_hi s; pd_tid_to_ac :=
     pd_tid_to_ac s; pd_vdev_list := pd_vdev_list s; pd_peer_ref_cnt
     := pd_peer_ref_cnt s; pd_fast_chswitch_cali :=
     pd_fast_chswitch_cali s; pd_tx_cali_pending := pd_tx_cali_pending
     s; pd_desc_pool_size := pd_desc_pool_size s; pd_freed := pd_freed
     s; pd_sent := pd_sent s |}.
Definition set_pd_sched_status (f : scheduler_status -> scheduler_status) (s : tx_pdev) : tx_pdev :=
  {| pd_txqs := pd_txqs s; pd_scheduler := pd_scheduler s;
     pd_last_used_txq := pd_last_used_txq s; pd_sched_status := f
     (pd_sched_status s); pd_target_tx_credit := pd_target_tx_credit
     s; pd_txq_grps := pd_txq_grps s; pd_rsrc_cnt := pd_rsrc_cnt s;
     pd_rsrc_threshold_lo := pd_rsrc_threshold_lo s;
     pd_rsrc_threshold_hi := pd_rsrc_threshold_hi s; pd_tid_to_ac :=
     pd_tid_to_ac s; pd_vdev_list := pd_vdev_list s; pd_peer_ref_cnt
     := pd_peer_ref_cnt s; pd_fast_chswitch_cali :=
     pd_fast_chswitch_cali s; pd_tx_cali_pending := pd_tx_cali_pending
     s; pd_desc_pool_size := pd_desc_pool_size s; pd_freed := pd_freed
     s; pd_sent := pd_sent s |}.
Definition set_pd_target_tx_credit (f : Z -> Z) (s : tx_pdev) : tx_pdev :=
  {| pd_txqs := pd_txqs s; pd_scheduler := pd_scheduler s;
     pd_last_used_txq := pd_last_used_txq s; pd_sched_status :=
     pd_sched_status s; pd_target_tx_credit := f (pd_target_tx_credit
     s); pd_txq_grps := pd_txq_grps s; pd_rsrc_cnt := pd_rsrc_cnt s;
     pd_rsrc_threshold_lo := pd_rsrc_threshold_lo s;
     pd_rsrc_threshold_hi := pd_rsrc_threshold_hi s; pd_tid_to_ac :=
     pd_tid_to_ac s; pd_vdev_list := pd_vdev_list s; pd_peer_ref_cnt
     := pd_peer_ref_cnt s; pd_fast_chswitch_cali :=
     pd_fast_chswitch_cali s; pd_tx_cali_pending := pd_tx_cali_pending
     s; pd_desc_pool_size := pd_desc_pool_size s; pd_freed := pd_freed
     s; pd_sent := pd_sent s |}.
Definition set_pd_txq_grps (f : list txq_group -> list txq_group) (s : tx_pdev) : tx_pdev :=
  {| pd_txqs := pd_txqs s; pd_scheduler := pd_scheduler s;
     pd_last_used_txq := pd_last_used_txq s; pd_sched_status :=
     pd_sched_status s; pd_target_tx_credit := pd_target_tx_credit s;
     pd_txq_grps := f (pd_txq_grps s); pd_rsrc_cnt := pd_rsrc_cnt s;
     pd_rsrc_threshold_lo := pd_rsrc_threshold_lo s;
     pd_rsrc_threshold_hi := pd_rsrc_threshold_hi s; pd_tid_to_ac :=
     pd_tid_to_ac s; pd_vdev_list := pd_vdev_list s; pd_peer_ref_cnt
     := pd_peer_ref_cnt s; pd_fast_chswitch_cali :=
     pd_fast_chswitch_cali s; pd_tx_cali_pending := pd_tx_cali_pending
     s; pd_desc_pool_size := pd_desc_pool_size s; pd_freed := pd_freed
     s; pd_sent := pd_sent s |}.
Definition set_pd_rsrc_cnt (f : Z -> Z) (s : tx_pdev) : tx_pdev :=
  {| pd_txqs := pd_txqs s; pd_scheduler := pd_scheduler s;
     pd_last_used_txq := pd_last_used_txq s; pd_sched_status :=
     pd_sched_status s; pd_target_tx_credit := pd_target_tx_credit s;
     pd_txq_grps := pd_txq_grps s; pd_rsrc_cnt := f (pd_rsrc_cnt s);
     pd_rsrc_threshold_lo := pd_rsrc_threshold_lo s;
     pd_rsrc_threshold_hi := pd_rsrc_threshold_hi s; pd_tid_to_ac :=
     pd_tid_to_ac s; pd_vdev_list := pd_vdev_list s; pd_peer_ref_cnt
     := pd_peer_ref_cnt s; pd_fast_chswitch_cali :=
     pd_fast_chswitch_cali s; pd_tx_cali_pending := pd_tx_cali_pending
     s; pd_desc_pool_size := pd_desc_pool_size s; pd_freed := pd_freed
     s; pd_sent := pd_sent s |}.
Definition set_pd_rsrc_threshold_lo (f : Z -> Z) (s : tx_pdev) : tx_pdev :=
  {| pd_txqs := pd_txqs s; pd_scheduler := pd_scheduler s;
     pd_last_used_txq := pd_last_used_txq s; pd_sched_status :=
     pd_sched_status s; pd_target_tx_credit := pd_target_tx_credit s;
     pd_txq_grps := pd_txq_grps s; pd_rsrc_cnt := pd_rsrc_cnt s;
     pd_rsrc_threshold_lo := f (pd_rsrc_threshold_lo s);
     pd_rsrc_threshold_hi := pd_rsrc_threshold_hi s; pd_tid_to_ac :=
     pd_tid_to_ac s; pd_vdev_list := pd_vdev_list s; pd_peer_ref_cnt
     := pd_peer_ref_cnt s; pd_fast_chswitch_cali :=
     pd_fast_chswitch_cali s; pd_tx_cali_pending := pd_tx_cali_pending
     s; pd_desc_pool_size := pd_desc_pool_size s; pd_freed := pd_freed
     s; pd_sent := pd_sent s |}.
Definition set_pd_rsrc_threshold_hi (f : Z -> Z) (s : tx_pdev) : tx_pdev :=
  {| pd_txqs := pd_txqs s; pd_scheduler := pd_scheduler s;
     pd_last_used_txq := pd_last_used_txq s; pd_sched_status :=
     pd_sched_status s; pd_target_tx_credit := pd_target_tx_credit s;
     pd_txq_grps := pd_txq_grps s; pd_rsrc_cnt := pd_rsrc_cnt s;
     pd_rsrc_threshold_lo := pd_rsrc_threshold_lo s;
     pd_rsrc_threshold_hi := f (pd_rsrc_threshold_hi s); pd_tid_to_ac
     := pd_tid_to_ac s; pd_vdev_list := pd_vdev_list s;
     pd_peer_ref_cnt := pd_peer_ref_cnt s; pd_fast_chswitch_cali :=
     pd_fast_chswitch_cali s; pd_tx_cali_pending := pd_tx_cali_pending
     s; pd_desc_pool_size := pd_desc_pool_size s; pd_freed := pd_freed
     s; pd_sent := pd_sent s |}.
Definition set_pd_tid_to_ac (f : list Z -> list Z) (s : tx_pdev) : tx_pdev :=
  {| pd_txqs := pd_txqs s; pd_scheduler := pd_scheduler s;
     pd_last_used_txq := pd_last_used_txq s; pd_sched_status :=
     pd_sched_status s; pd_target_tx_credit := pd_target_tx_credit s;
     pd_txq_grps := pd_txq_grps s; pd_rsrc_cnt := pd_rsrc_cnt s;
     pd_rsrc_threshold_lo := pd_rsrc_threshold_lo s;
     pd_rsrc_threshold_hi := pd_rsrc_threshold_hi s; pd_tid_to_ac := f
     (pd_tid_to_ac s); pd_vdev_list := pd_vdev_list s; pd_peer_ref_cnt
     := pd_peer_ref_cnt s; pd_fast_chswitch_cali :=
     pd_fast_chswitch_cali s; pd_tx_cali_pending := pd_tx_cali_pending
     s; pd_desc_pool_size := pd_desc_pool_size s; pd_freed := pd_freed
     s; pd_sent := pd_sent s |}.
Definition set_pd_vdev_list (f : list tx_vdev -> list tx_vdev) (s : tx_pdev) : tx_pdev :=
  {| pd_txqs := pd_txqs s; pd_scheduler := pd_scheduler s;
     pd_last_used_txq := pd_last_used_txq s; pd_sched_status :=
     pd_sched_status s; pd_target_tx_credit := pd_target_tx_credit s;
     pd_txq_grps := pd_txq_grps s; pd_rsrc_cnt := pd_rsrc_cnt s;
     pd_rsrc_threshold_lo := pd_rsrc_threshold_lo s;
     pd_rsrc_threshold_hi := pd_rsrc_threshold_hi s; pd_tid_to_ac :=
     pd_tid_to_ac s; pd_vdev_list := f (pd_vdev_list s);
     pd_peer_ref_cnt := pd_peer_ref_cnt s; pd_fast_chswitch_cali :=
     pd_fast_chswitch_cali s; pd_tx_cali_pending := pd_tx_cali_pending
     s; pd_desc_pool_size := pd_desc_pool_size s; pd_freed := pd_freed
     s; pd_sent := pd_sent s |}.
Definition set_pd_peer_ref_cnt (f : gmap Z Z -> gmap Z Z) (s : tx_pdev) : tx_pdev :=
  {| pd_txqs := pd_txqs s; pd_scheduler := pd_scheduler s;
     pd_last_used_txq := pd_last_used_txq s; pd_sched_status :=
     pd_sched_status s; pd_target_tx_credit := pd_target_tx_credit s;
     pd_txq_grps := pd_txq_grps s; pd_rsrc_cnt := pd_rsrc_cnt s;
     pd_rsrc_threshold_lo := pd_rsrc_threshold_lo s;
     pd_rsrc_threshold_hi := pd_rsrc_threshold_hi s; pd_tid_to_ac :=
     pd_tid_to_ac s; pd_vdev_list := pd_vdev_list s; pd_peer_ref_cnt
     := f (pd_peer_ref_cnt s); pd_fast_chswitch_cali :=
     pd_fast_chswitch_cali s; pd_tx_cali_pending := pd_tx_cali_pending
     s; pd_desc_pool_size := pd_desc_pool_size s; pd_freed := pd_freed
     s; pd_sent := pd_sent s |}.
Definition set_pd_fast_chswitch_cali (f : bool -> bool) (s : tx_pdev) : tx_pdev :=
  {| pd_txqs := pd_txqs s; pd_scheduler := pd_scheduler s;
     pd_last_used_txq := pd_last_used_txq s; pd_sched_status :=
     pd_sched_status s; pd_target_tx_credit := pd_target_tx_credit s;
     pd_txq_grps := pd_txq_grps s; pd_rsrc_cnt := pd_rsrc_cnt s;
     pd_rsrc_threshold_lo := pd_rsrc_threshold_lo s;
     pd_rsrc_threshold_hi := pd_rsrc_threshold_hi s; pd_tid_to_ac :=
     pd_tid_to_ac s; pd_vdev_list := pd_vdev_list s; pd_peer_ref_cnt
     := pd_peer_ref_cnt s; pd_fast_chswitch_cali := f
     (pd_fast_chswitch_cali s); pd_tx_cali_pending :=
     pd_tx_cali_pending s; pd_desc_pool_size := pd_desc_pool_size s;
     pd_freed := pd_freed s; pd_sent := pd_sent s |}.
Definition set_pd_tx_cali_pending (f : Z -> Z) (s : tx_pdev) : tx_pdev :=
  {| pd_txqs := pd_txqs s; pd_scheduler := pd_scheduler s;
     pd_last_used_txq := pd_last_used_txq s; pd_sched_status :=
     pd_sched_status s; pd_target_tx_credit := pd_target_tx_credit s;
     pd_txq_grps := pd_txq_grps s; pd_rsrc_cnt := pd_rsrc_cnt s;
     pd_rsrc_threshold_lo := pd_rsrc_threshold_lo s;
     pd_rsrc_threshold_hi := pd_rsrc_threshold_hi s; pd_tid_to_ac :=
     pd_tid_to_ac s; pd_vdev_list := pd_vdev_list s; pd_peer_ref_cnt
     := pd_peer_ref_cnt s; pd_fast_chswitch_cali :=
     pd_fast_chswitch_cali s; pd_tx_cali_pending := f
     (pd_tx_cali_pending s); pd_desc_pool_size := pd_desc_pool_size s;
     pd_freed := pd_freed s; pd_sent := pd_sent s |}.
Definition set_pd_desc_pool_size (f : Z -> Z) (s : tx_pdev) : tx_pdev :=
  {| pd_txqs := pd_txqs s; pd_scheduler := pd_scheduler s;
     pd_last_used_txq := pd_last_used_txq s; pd_sched_status :=
     pd_sched_status s; pd_target_tx_credit := pd_target_tx_credit s;
     pd_txq_grps := pd_txq_grps s; pd_rsrc_cnt := pd_rsrc_cnt s;
     pd_rsrc_threshold_lo := pd_rsrc_threshold_lo s;
     pd_rsrc_threshold_hi := pd_rsrc_threshold_hi s; pd_tid_to_ac :=
     pd_tid_to_ac s; pd_vdev_list := pd_vdev_list s; pd_peer_ref_cnt
     := pd_peer_ref_cnt s; pd_fast_chswitch_cali :=
     pd_fast_chswitch_cali s; pd_tx_cali_pending := pd_tx_cali_pending
     s; pd_desc_pool_size := f (pd_desc_pool_size s); pd_freed :=
     pd_freed s; pd_sent := pd_sent s |}.
Definition set_pd_freed (f : list tx_desc -> list tx_desc) (s : tx_pdev) : tx_pdev :=
  {| pd_txqs := pd_txqs s; pd_scheduler := pd_scheduler s;
     pd_last_used_txq := pd_last_used_txq s; pd_sched_status :=
     pd_sched_status s; pd_target_tx_credit := pd_target_tx_credit s;
     pd_txq_grps := pd_txq_grps s; pd_rsrc_cnt := pd_rsrc_cnt s;
     pd_rsrc_threshold_lo := pd_rsrc_threshold_lo s;
     pd_rsrc_threshold_hi := pd_rsrc_threshold_hi s; pd_tid_to_ac :=
     pd_tid_to_ac s; pd_vdev_list := pd_vdev_list s; pd_peer_ref_cnt
     := pd_peer_ref_cnt s; pd_fast_chswitch_cali :=
     pd_fast_chswitch_cali s; pd_tx_cali_pending := pd_tx_cali_pending
     s; pd_desc_pool_size := pd_desc_pool_size s; pd_freed := f
     (pd_freed s); pd_sent := pd_sent s |}.
Definition set_pd_sent (f : list (list tx_desc) -> list (list tx_desc)) (s : tx_pdev) : tx_pdev :=
  {| pd_txqs := pd_txqs s; pd_scheduler := pd_scheduler s;
     pd_last_used_txq := pd_last_used_txq s; pd_sched_status :=
     pd_sched_status s; pd_target_tx_credit := pd_target_tx_credit s;
     pd_txq_grps := pd_txq_grps s; pd_rsrc_cnt := pd_rsrc_cnt s;
     pd_rsrc_threshold_lo := pd_rsrc_threshold_lo s;
     pd_rsrc_threshold_hi := pd_rsrc_threshold_hi s; pd_tid_to_ac :=
     pd_tid_to_ac s; pd_vdev_list := pd_vdev_list s; pd_peer_ref_cnt
     := pd_peer_ref_cnt s; pd_fast_chswitch_cali :=
     pd_fast_chswitch_cali s; pd_tx_cali_pending := pd_tx_cali_pending
     s; pd_desc_pool_size := pd_desc_pool_size s; pd_freed := pd_freed
     s; pd_sent := f (pd_sent s) |}.

(** ** Configuration of the categories *)

Section Specs.
(** Build options [HIF_SDIO] and [MSM8976_TCP_PERF]. *)
Context (hif_sdio tcp_perf : bool).

(** [OL_TX_SCHED_WRR_ADV_CAT_CFG_SPEC], in category order. *)
Definition wrr_adv_cfg_specs : list category_specs :=
  if hif_sdio then
    [ (if tcp_perf then mk_specs 10 9 8 1 8 else mk_specs 10 17 16 1 8);  (* BE *)
      mk_specs 12 6 6 1 8;      (* BK *)
      mk_specs 3 17 16 1 4;     (* VI *)
      mk_specs 1 17 24 0 1;     (* VO *)
      mk_specs 10 17 16 1 8;    (* NON_QOS_DATA *)
      mk_specs 1 1 4 0 1;       (* UCAST_MGMT *)
      mk_specs 10 17 4 1 4;     (* MCAST_DATA *)
      mk_specs 1 1 4 0 1;       (* MCAST_MGMT *)
      mk_specs 1 17 24 0 1 ]    (* MCAST_VO *)
  else
    [ mk_specs 10 12 12 1 8;
      mk_specs 12 6 6 1 8;
      mk_specs 3 16 16 1 4;
      mk_specs 1 16 24 0 1;
      mk_specs 12 6 4 1 8;
      mk_specs 1 1 4 0 1;
      mk_specs 10 16 4 1 4;
      mk_specs 1 1 4 0 1;
      mk_specs 1 17 24 0 1 ].
End Specs.

(** ** Accessors *)

Definition get_txq (q : txq_id) : M tx_pdev txq := s ← get; lift (pd_txqs s !! q).

(** Write through a queue pointer; the queue must exist. *)
Definition upd_txq (q : txq_id) (f : txq -> txq) : M tx_pdev unit :=
  x ← get_txq q; modify (set_pd_txqs (<[q := f x]>)).

Definition get_sched : M tx_pdev wrr_adv := s ← get; lift (pd_scheduler s).
Definition put_sched (sch : wrr_adv) : M tx_pdev unit :=
  modify (set_pd_scheduler (fun _ => Some sch)).

Definition get_cat (c : Z) : M tx_pdev category :=
  sch ← get_sched; lift (znth (sch_categories sch) c).

Definition upd_cat (c : Z) (f : category -> category) : M tx_pdev unit :=
  sch ← get_sched; cat ← lift (znth (sch_categories sch) c);
  put_sched (set_sch_categories (fun l => zset l c (f cat)) sch).

Definition get_tid_to_ac (tid : Z) : M tx_pdev Z :=
  s ← get; lift (znth (pd_tid_to_ac s) tid).
