(* ===== verification/TxCore.v ===== *)
(** The operations on one frame queue that the scheduler and the queue
    manager share: [ol_tx_dequeue] ([ol_tx_queue.c]) and the credit of queue
    groups ([ol_tx_txq_group_credit_limit], [ol_tx_txq_group_credit_update],
    [ol_txrx_update_group_credit]), with the lemmas that describe them. *)
From Stdlib Require Import ZArith Lia.
From stdpp Require Import prelude gmap list numbers.
From S2P Require Import Prelude.
From S2P Require Import TxTypes.

(** ** Leaving the queueing layer

    A descriptor given to [ol_tx_desc_frame_free_nonstd] or
    [ol_tx_desc_frame_list_free] is logged in [pd_freed]. *)
Definition log_freed (d : tx_desc) : M tx_pdev unit :=
  modify (set_pd_freed (fun l => l ++ [d])).

(** ** [ol_tx_dequeue] *)

Record dequeued := mk_dequeued {
  dq_flush_all : bool;
  dq_queue : list tx_desc;      (* what is left of the queue *)
  dq_out : list tx_desc;        (* the caller's list *)
  dq_num_frames : Z;
  dq_bytes_sum : Z;
  dq_credit_sum : Z }.

(** The [for] loop: [n] frames may still be taken, [credit] is the budget. *)
Fixpoint ol_tx_dequeue_loop (n : nat) (credit : Z) (r : dequeued) : dequeued :=
  match n with
  | O => r
  | S n' =>
    match dq_queue r with
    | [] => mk_dequeued true [] (dq_out r) (dq_num_frames r) (dq_bytes_sum r) (dq_credit_sum r)
    | d :: rest =>
      let frame_credit := htt_tx_msdu_credit d in
      if credit <? u32 (dq_credit_sum r + frame_credit) then r
      else ol_tx_dequeue_loop n' credit
             (mk_dequeued (dq_flush_all r) rest (tailq_insert_tail d (dq_out r))
                (u16 (dq_num_frames r + 1)) (s32 (dq_bytes_sum r + td_len d))
                (u32 (dq_credit_sum r + frame_credit)))
    end
  end.

(** [while (num_frames)]: drop that many frames off the front of [head]. *)
Fixpoint ol_tx_dequeue_flush (n : nat) (head : list tx_desc) : M tx_pdev (list tx_desc) :=
  match n with
  | O => mret head
  | S n' => match head with
            | [] => fault
            | d :: rest => log_freed d;; ol_tx_dequeue_flush n' rest
            end
  end.

(** Returns the number of frames, the caller's list, the credit used and the
    number of bytes. *)
Definition ol_tx_dequeue (q : txq_id) (head : list tx_desc) (max_frames credit : Z)
  : M tx_pdev (Z * list tx_desc * Z * Z) :=
  t ← get_txq q;
  let temp_bytes := txq_bytes t in
  let max_frames := if txq_frms t <? max_frames then txq_frms t else max_frames in
  let r := ol_tx_dequeue_loop (Z.to_nat max_frames) credit
             (mk_dequeued false (txq_head t) head 0 0 0) in
  upd_txq q (fun t =>
    let frms := u16 (txq_frms t - dq_num_frames r) in
    let flag := if decide (frms = 0 /\ txq_flag t = ol_tx_queue_active)
                then ol_tx_queue_empty else txq_flag t in
    set_txq_head (fun _ => dq_queue r) (set_txq_frms (fun _ => frms)
      (set_txq_bytes (fun b => u32 (b - dq_bytes_sum r))
        (set_txq_flag (fun _ => flag) t))));;
  if dq_flush_all r && negb (dq_bytes_sum r =? 0) then
    upd_txq q (fun t => set_txq_frms (fun _ => 0) (set_txq_bytes (fun _ => 0) t));;
    out ← ol_tx_dequeue_flush (Z.to_nat (dq_num_frames r)) (dq_out r);
    mret (0, out, 0, s32 temp_bytes)
  else mret (dq_num_frames r, dq_out r, dq_credit_sum r, dq_bytes_sum r).

(** ** Queue groups *)

(** [OL_TX_MAX_GROUPS_PER_QUEUE] is 1: the loop over the group pointers of a
    queue visits at most one group. *)
Definition ol_tx_txq_group_credit_limit (q : txq_id) (credit : Z) : M tx_pdev Z :=
  t ← get_txq q;
  updated_credit ← match txq_group_ptr t with
    | Some g => s ← get; grp ← lift (znth (pd_txq_grps s) g);
                mret (Z.min (s32 credit) (grp_credit grp))
    | None => mret (s32 credit)
    end;
  mret (if updated_credit <? 0 then 0 else updated_credit).

Definition ol_txrx_update_group_credit (g : Z) (credit : Z) (absolute : bool) : M tx_pdev unit :=
  s ← get; grp ← lift (znth (pd_txq_grps s) g);
  modify (set_pd_txq_grps (fun l => zset l g
    (set_grp_credit (fun c => if absolute then credit else s32 (c + credit)) grp))).

Definition ol_tx_txq_group_credit_update (q : txq_id) (credit : Z) (absolute : bool) : M tx_pdev unit :=
  t ← get_txq q;
  match txq_group_ptr t with
  | Some g => ol_txrx_update_group_credit g credit absolute
  | None => skip
  end.

(** [ol_tx_queue.h]: without [QCA_BAD_PEER_TX_FLOW_CL] the peer limits do not
    restrict a download. *)
Definition ol_tx_bad_peer_dequeue_check (q : txq_id) (max_frames : Z) : Z := u16 max_frames.

(** Without [AUDIO_MULTICAST_AGGR_SUPPORT] the limit is unchanged. *)
Definition ol_tx_sched_wrr_adv_vo_mcast_aggr (q : txq_id) (category_index credit tx_limit : Z) : Z :=
  tx_limit.

(** ** Target credit *)

Definition ol_tx_target_credit_update (credit_delta : Z) : M tx_pdev unit :=
  modify (set_pd_target_tx_credit (fun c => s32 (c + credit_delta))).

(** [true] is [A_OK]. *)
Definition ol_tx_target_credit_dec (credit : Z) : M tx_pdev bool :=
  s ← get;
  if pd_target_tx_credit s <? credit then mret false
  else ol_tx_target_credit_update (- credit);; mret true.

Definition ol_tx_cali_pending_status_set (value : Z) : M tx_pdev unit :=
  modify (set_pd_tx_cali_pending (fun _ => value)).

(** ** How many frames a download takes *)

(** The frames that a budget of [max_frames] frames and [credit] credits
    takes off a queue of [len] frames. *)
Definition batch_size (len max_frames credit : Z) : Z := Z.min len (Z.min max_frames credit).

Section Dequeue.
(** The download loop takes the longest prefix that the frame limit and the
    credit allow, in order, and stops without touching the rest. *)
Lemma ol_tx_dequeue_loop_spec n credit l out num bytes cred :
  (n <= length l)%nat -> 0 <= num -> num + Z.of_nat n < 65536 ->
  0 <= cred <= credit -> credit < 2 ^ 31 -> s32 bytes = bytes ->
  let k := Nat.min n (Z.to_nat (credit - cred)) in
  ol_tx_dequeue_loop n credit (mk_dequeued false l out num bytes cred) =
  mk_dequeued false (drop k l) (out ++ take k l) (num + Z.of_nat k)
    (s32 (bytes + zsum td_len (take k l))) (cred + Z.of_nat k).
Proof.
  revert l out num bytes cred.
  induction n as [|n IH]; intros l out num bytes cred Hl Hnum Hlim Hc Hc32 Hb k; subst k.
  { simpl. rewrite drop_0, app_nil_r, !Z.add_0_r. by rewrite Hb. }
  destruct l as [|d l]; [simpl in Hl; lia|].
  simpl in Hl. simpl. unfold htt_tx_msdu_credit.
  rewrite u32_small by lia. destruct (Z.ltb_spec credit (cred + 1)).
  - replace (credit - cred) with 0 by lia. simpl.
    rewrite app_nil_r, !Z.add_0_r. by rewrite Hb.
  - rewrite u16_small by lia. unfold tailq_insert_tail.
    rewrite IH by (try lia; apply s32_idemp).
    replace (Z.to_nat (credit - cred)) with (S (Z.to_nat (credit - (cred + 1)))) by lia.
    simpl. rewrite <- app_assoc, s32_add_l. unfold zsum. simpl. f_equal; try lia.
    f_equal. lia.
Qed.
End Dequeue.
