(* ===== verification/TxSched.v ===== *)
(** The transmit scheduler of [ol_tx_sched.c]: the weighted-round-robin
    algorithm ([OL_TX_SCHED_WRR_ADV], the one the driver selects), the
    congestion discard policy, and the framework that downloads batches until
    the target's credit runs out.  This file holds the definitions; their
    properties are in [TxSchedSpec] and [TxInv]. *)
From Stdlib Require Import ZArith Lia.
From stdpp Require Import prelude gmap list numbers.
From S2P Require Import Prelude.
From S2P Require Import TxTypes.
From S2P Require Import TxCore.

(** ** Order list *)

(** The [for] loop that shifts the elements after [idx] up by one. *)
Fixpoint rotate_shift (n : nat) (idx : Z) (order : list Z) : option (list Z) :=
  match n with
  | O => Some order
  | S n' => v ← znth order (idx + 1); rotate_shift n' (idx + 1) (zset order idx v)
  end.

Definition ol_tx_sched_wrr_adv_rotate_order_list_tail (sch : wrr_adv) (idx : Z) : option wrr_adv :=
  let last := OL_TX_SCHED_WRR_ADV_NUM_CATEGORIES - 1 in
  value ← znth (sch_order sch) idx;
  order ← rotate_shift (Z.to_nat (last - idx)) idx (sch_order sch);
  Some (set_sch_order (fun _ => zset order last value) sch).

Definition ol_tx_sched_select_init_wrr_adv : M tx_pdev unit :=
  sch ← get_sched;
  put_sched (set_sch_index (fun _ => 0) sch);;
  modify (set_pd_last_used_txq (fun _ => None)).

(** [okay] of the sanity check: every category's threshold fits in [credit]. *)
Definition ol_tx_sched_wrr_adv_credit_sanity_check (sch : wrr_adv) (credit : Z) : bool :=
  forallb (fun c => negb (credit <? credit_threshold (cat_specs c))) (sch_categories sch).

(** ** Choice of the category

    The [while] loop of [ol_tx_sched_select_batch_wrr_adv]: skip inactive
    categories, move an active one whose turn has not come to the back, stop
    at the first whose skip weight is reached. *)
Fixpoint wrr_adv_select_loop (fuel : nat) (sch : wrr_adv) (index : Z) : option (wrr_adv * Z) :=
  match fuel with
  | O => None
  | S fuel' =>
    if index <? OL_TX_SCHED_WRR_ADV_NUM_CATEGORIES then
      category_index ← znth (sch_order sch) index;
      category ← znth (sch_categories sch) category_index;
      if negb (cat_active category) then wrr_adv_select_loop fuel' sch (index + 1)
      else
        let category := set_cat_wrr_count (fun n => s32 (n + 1)) category in
        let sch := set_sch_categories (fun l => zset l category_index category) sch in
        if cat_wrr_count category <? wrr_skip_weight (cat_specs category) then
          sch ← ol_tx_sched_wrr_adv_rotate_order_list_tail sch index;
          wrr_adv_select_loop fuel' sch index
        else Some (sch, index)
    else Some (sch, index)
  end.

(** How many more times the loop can pass over a category. *)
Definition skips_left (c : category) : nat :=
  Z.to_nat (wrr_skip_weight (cat_specs c) - cat_wrr_count c).

(** Fuel that always suffices (see [TxSchedSpec]). *)
Definition wrr_adv_select_fuel (sch : wrr_adv) : nat :=
  (sum_list_with skips_left (sch_categories sch) + 11)%nat.

(** ** One batch *)

(** [struct ol_tx_sched_ctx]. *)
Record sched_ctx := mk_sched_ctx { sctx_head : list tx_desc; sctx_frms : Z }.

(** The part after [TAILQ_FIRST]: [txq] leaves the front of its category's
    list, downloads frames if the credit of its group allows, and goes back to
    the list unless it is empty. *)
Definition wrr_adv_service_txq (category_index : Z) (category : category) (txq : txq_id)
    (sctx : sched_ctx) (credit : Z) : M tx_pdev (Z * sched_ctx) :=
  c ← get_cat category_index;
  head ← lift (tailq_remove txq (cat_head c));
  upd_cat category_index (set_cat_head (fun _ => head));;
  credit ← ol_tx_txq_group_credit_limit txq credit;
  let reserve := u32 (credit_reserve (cat_specs category)) in
  if reserve <? credit then
    let credit := u32 (credit - reserve) in
    modify (set_pd_last_used_txq (fun _ => Some txq));;
    let tx_limit := ol_tx_bad_peer_dequeue_check txq (send_limit (cat_specs category)) in
    let tx_limit := ol_tx_sched_wrr_adv_vo_mcast_aggr txq category_index credit tx_limit in
    '(frames, head, credit, bytes) ← ol_tx_dequeue txq (sctx_head sctx) (u16 tx_limit) credit;
    upd_cat category_index (fun c =>
      set_cat_frms (fun n => s32 (n - frames)) (set_cat_bytes (fun n => s32 (n - bytes)) c));;
    t ← get_txq txq;
    (if 0 <? txq_frms t then
       upd_cat category_index (set_cat_head (tailq_insert_tail txq))
     else
       upd_cat category_index (fun c =>
         if cat_frms c =? 0 then set_cat_active (fun _ => false) c else c));;
    ol_tx_txq_group_credit_update txq (s32 (- credit)) false;;
    mret (s32 credit, mk_sched_ctx head (s32 (sctx_frms sctx + frames)))
  else
    s ← get;
    if decide (pd_last_used_txq s = Some txq) then
      upd_cat category_index (set_cat_head (tailq_insert_head txq));;
      mret (0, sctx)
    else
      upd_cat category_index (set_cat_head (tailq_insert_tail txq));;
      when (bool_decide (pd_last_used_txq s = None))
        (modify (set_pd_last_used_txq (fun _ => Some txq)));;
      mret (0, sctx).

Definition ol_tx_sched_select_batch_wrr_adv (sctx : sched_ctx) (credit : Z)
  : M tx_pdev (Z * sched_ctx) :=
  sch ← get_sched;
  '(sch, index) ← lift (wrr_adv_select_loop (wrr_adv_select_fuel sch) sch (sch_index sch));
  put_sched sch;;
  if OL_TX_SCHED_WRR_ADV_NUM_CATEGORIES <=? index then mret (0, sctx) else
  category_index ← lift (znth (sch_order sch) index);
  category ← get_cat category_index;
  if credit <? u32 (credit_threshold (cat_specs category)) then
    upd_cat category_index (set_cat_wrr_count (fun n => s32 (n - 1)));;
    mret (0, sctx)
  else
  upd_cat category_index (set_cat_wrr_count (fun _ => 0));;
  sch ← get_sched;
  sch ← lift (ol_tx_sched_wrr_adv_rotate_order_list_tail sch index);
  put_sched (set_sch_index (fun _ => index) sch);;
  match cat_head category with
  | [] => mret (0, sctx)  (* "no TXQ can be popped" *)
  | txq :: _ => wrr_adv_service_txq category_index category txq sctx credit
  end.

(** ** Queue notifications *)

Definition ol_tx_sched_txq_enqueue_wrr_adv (txq : txq_id) (tid frms bytes : Z) : M tx_pdev unit :=
  ac ← get_tid_to_ac tid;
  upd_cat ac (fun c => set_cat_frms (fun n => s32 (n + frms))
                         (set_cat_bytes (fun n => s32 (n + bytes)) c));;
  t ← get_txq txq;
  when (negb (bool_decide (txq_flag t = ol_tx_queue_active)))
    (upd_cat ac (fun c => set_cat_head (tailq_insert_tail txq) (set_cat_active (fun _ => true) c))).

Definition ol_tx_sched_txq_deactivate_wrr_adv (txq : txq_id) (tid : Z) : M tx_pdev unit :=
  ac ← get_tid_to_ac tid;
  t ← get_txq txq;
  upd_cat ac (fun c => set_cat_frms (fun n => s32 (n - txq_frms t))
                         (set_cat_bytes (fun n => s32 (n - txq_bytes t)) c));;
  c ← get_cat ac;
  head ← lift (tailq_remove txq (cat_head c));
  upd_cat ac (set_cat_head (fun _ => head));;
  upd_cat ac (fun c => if (cat_frms c =? 0) && cat_active c
                       then set_cat_active (fun _ => false) c else c).

Definition ol_tx_sched_category_tx_queues_wrr_adv (cat : Z) : M tx_pdev (list txq_id) :=
  c ← get_cat cat; mret (cat_head c).

Definition ol_tx_sched_txq_discard_wrr_adv (txq : txq_id) (cat frames bytes : Z) : M tx_pdev unit :=
  t ← get_txq txq;
  c ← get_cat cat;
  (if txq_frms t =? 0 then
     head ← lift (tailq_remove txq (cat_head c));
     upd_cat cat (set_cat_head (fun _ => head))
   else skip);;
  upd_cat cat (fun c =>
    let c := set_cat_frms (fun n => s32 (n - frames))
               (set_cat_bytes (fun n => s32 (n - bytes)) c) in
    if cat_frms c =? 0 then set_cat_active (fun _ => false) c else c).

Definition ol_tx_sched_category_info_wrr_adv (cat : Z) : M tx_pdev (bool * Z * Z) :=
  c ← get_cat cat; mret (cat_active c, cat_frms c, cat_bytes c).

(** [struct ol_tx_sched_notify_ctx_t]: the event with the fields it uses. *)
Inductive ol_tx_queue_action :=
  | OL_TX_ENQUEUE_FRAME (ext_tid bytes : Z)
  | OL_TX_DELETE_QUEUE (ext_tid : Z)
  | OL_TX_PAUSE_QUEUE (ext_tid : Z)
  | OL_TX_UNPAUSE_QUEUE (ext_tid : Z)
  | OL_TX_DISCARD_FRAMES (cat frames bytes : Z).

Definition ol_tx_sched_notify (txq : txq_id) (event : ol_tx_queue_action) : M tx_pdev unit :=
  s ← get;
  match pd_scheduler s with
  | None => skip
  | Some _ =>
    t ← get_txq txq;
    match event with
    | OL_TX_ENQUEUE_FRAME tid bytes => ol_tx_sched_txq_enqueue_wrr_adv txq tid 1 bytes
    | OL_TX_DELETE_QUEUE tid | OL_TX_PAUSE_QUEUE tid =>
        when (bool_decide (txq_flag t = ol_tx_queue_active))
          (ol_tx_sched_txq_deactivate_wrr_adv txq tid)
    | OL_TX_UNPAUSE_QUEUE tid =>
        when (negb (txq_frms t =? 0))
          (ol_tx_sched_txq_enqueue_wrr_adv txq tid (txq_frms t) (s32 (txq_bytes t)))
    | OL_TX_DISCARD_FRAMES cat frames bytes =>
        ol_tx_sched_txq_discard_wrr_adv txq cat frames bytes
    end
  end.

(** ** Initialisation and configuration *)

Definition in_wmm_range (i : Z) : bool :=
  (OL_TX_SCHED_WRR_ADV_CAT_BE <=? i) && (i <=? OL_TX_SCHED_WRR_ADV_CAT_VO).

(** [cfg] is the table [ac_specs] the [ol_cfg_get_*] functions read. *)
Definition ol_tx_sched_wrr_param_update (cfg : list category_specs) (cats : list category)
  : list category :=
  imap (fun i c =>
    match cfg !! i with
    | Some sp => if in_wmm_range (Z.of_nat i) && negb (wrr_skip_weight sp =? 0)
                 then set_cat_specs (fun _ => sp) c else c
    | None => c
    end) cats.

(** [alloc_ok] is the outcome of [adf_os_mem_alloc]. *)
Definition ol_tx_sched_init_wrr_adv (hif_sdio tcp_perf alloc_ok : bool)
    (cfg : list category_specs) : option wrr_adv :=
  if alloc_ok then
    let cats := (fun sp => mk_category sp 0 0 0 [] false) <$> wrr_adv_cfg_specs hif_sdio tcp_perf in
    let cats := ol_tx_sched_wrr_param_update cfg cats in
    let cats := (fun c => set_cat_wrr_count (fun _ => s32 (wrr_skip_weight (cat_specs c) - 1))
                            (set_cat_active (fun _ => false) (set_cat_frms (fun _ => 0)
                              (set_cat_head (fun _ => []) c)))) <$> cats in
    Some (mk_wrr_adv (Z.of_nat <$> seq 0 9) 0 cats)
  else None.

(** [struct ol_tx_ac_param_t]. *)
Record ac_param := mk_ac_param { ac_aifs : Z; ac_cwmin : Z; ac_cwmax : Z }.

(** [OL_TX_AIFS_DEFAULT_*] + [OL_TX_CW_MIN_DEFAULT_*] of VO, VI and BE. *)
Definition default_edca_vo : Z := 2 + 3.
Definition default_edca_vi : Z := 2 + 7.
Definition default_edca_be : Z := 3 + 15.

(** The default category a queue is mapped to by its AIFS + CWmin. *)
Definition wmm_ac_selected (weight : Z) : Z :=
  if weight <=? default_edca_vo then OL_TX_SCHED_WRR_ADV_CAT_VO
  else if weight <=? default_edca_vi then OL_TX_SCHED_WRR_ADV_CAT_VI
  else if weight <=? default_edca_be then OL_TX_SCHED_WRR_ADV_CAT_BE
  else OL_TX_SCHED_WRR_ADV_CAT_BK.

Definition ol_txrx_set_wmm_param (hif_sdio tcp_perf : bool) (wmm : list ac_param)
    (sch : wrr_adv) : wrr_adv :=
  set_sch_categories (imap (fun i c =>
    match wmm !! i with
    | Some p =>
      match znth (wrr_adv_cfg_specs hif_sdio tcp_perf)
                 (wmm_ac_selected (u32 (ac_aifs p + ac_cwmin p))) with
      | Some sp => if (i <? 4)%nat then set_cat_specs (fun _ => sp) c else c
      | None => c
      end
    | None => c
    end)) sch.

Definition ol_tx_sched_attach (hif_sdio tcp_perf alloc_ok : bool) (cfg : list category_specs)
  : M tx_pdev unit :=
  modify (set_pd_sched_status (fun _ => ol_tx_scheduler_idle));;
  modify (set_pd_scheduler (fun _ => ol_tx_sched_init_wrr_adv hif_sdio tcp_perf alloc_ok cfg)).

Definition ol_tx_sched_detach : M tx_pdev unit :=
  modify (set_pd_scheduler (fun _ => None)).

(** ** Congestion discard *)

(** [score] of the loop, with the index of the best category so far. *)
Definition discard_better (acc : Z * Z) (i : Z) (c : category) : Z * Z :=
  let '(max_score, cat) := acc in
  let score := s32 (cat_frms c * discard_weight (cat_specs c)) in
  if (max_score =? 0) || (max_score <? score) then (score, i) else acc.

Fixpoint discard_select_loop (i : Z) (cats : list category) (acc : Z * Z) : Z * Z :=
  match cats with
  | [] => acc
  | c :: cats' => discard_select_loop (i + 1) cats' (discard_better acc i c)
  end.

Definition ol_tx_sched_discard_select_category_wrr_adv : M tx_pdev Z :=
  sch ← get_sched;
  mret (discard_select_loop 0 (sch_categories sch) (0, 0)).2.

(** The queue with the most frames, the first one among equals. *)
Fixpoint ol_tx_sched_discard_select_txq (tx_queues : list txq_id)
    (max_frms : Z) (selected : option txq_id) : M tx_pdev (option txq_id) :=
  match tx_queues with
  | [] => mret selected
  | q :: rest =>
    t ← get_txq q;
    if max_frms <? txq_frms t then ol_tx_sched_discard_select_txq rest (txq_frms t) (Some q)
    else ol_tx_sched_discard_select_txq rest max_frms selected
  end.

Definition OL_TX_DISCARD_QUANTUM : Z := 10.

(** How many frames to discard from a queue of [queued] frames. *)
Definition discard_frms (frms queued : Z) (force : bool) : Z :=
  if force then frms else
  let frms := if OL_TX_DISCARD_QUANTUM <? frms then OL_TX_DISCARD_QUANTUM else frms in
  if (1 <? queued) && (Z.shiftr queued 1 <=? frms) then Z.shiftr queued 1 else frms.

Definition ol_tx_sched_discard_select (frms : Z) (tx_descs : list tx_desc) (force : bool)
  : M tx_pdev (Z * list tx_desc) :=
  cat ← ol_tx_sched_discard_select_category_wrr_adv;
  queues ← ol_tx_sched_category_tx_queues_wrr_adv cat;
  sel ← ol_tx_sched_discard_select_txq queues 0 None;
  match sel with
  | None => mret (0, tx_descs)
  | Some txq =>
    t ← get_txq txq;
    '(frms, tx_descs, _, bytes) ←
      ol_tx_dequeue txq tx_descs (discard_frms frms (txq_frms t) force) 10000;
    ol_tx_sched_notify txq (OL_TX_DISCARD_FRAMES cat frms bytes);;
    mret (frms, tx_descs)
  end.

(** ** Dispatch *)

(** What the scheduler needs from HTT: hand one frame to the target;
    [true] is a failure, as in [htt_tx_send_base]. *)
Class HttTx := htt_tx_send_base : tx_desc -> bool.

Section Dispatch.
Context `{HttTx}.

(** [htt_tx_send_batch]: send the first [num_msdus] frames of the batch
    one by one; the rejected ones come back in reverse order. *)
Fixpoint htt_tx_send_batch (num_msdus : nat) (batch rejected : list tx_desc)
  : option (list tx_desc) :=
  match num_msdus with
  | O => Some rejected
  | S n => match batch with
           | [] => None
           | d :: rest => htt_tx_send_batch n rest
                            (if htt_tx_send_base d then d :: rejected else rejected)
           end
  end.

(** A rejected frame gives its credit back and is freed. *)
Definition reject_frame (d : tx_desc) : M tx_pdev unit :=
  modify (set_pd_target_tx_credit (fun c => s32 (c + htt_tx_msdu_credit d)));;
  log_freed d.

Definition ol_tx_send_batch (batch : list tx_desc) (num_msdus : Z) : M tx_pdev unit :=
  modify (set_pd_sent (fun l => l ++ [take (Z.to_nat num_msdus) batch]));;
  rejected ← lift (htt_tx_send_batch (Z.to_nat num_msdus) batch []);
  for_each rejected reject_frame.

(** The loop of [ol_tx_sched_dispatch]; [batch] is the list from
    [head_msdu], [num_msdus] its number of frames with an id stored. *)
Fixpoint ol_tx_sched_dispatch_loop (frms : nat) (head batch : list tx_desc) (num_msdus : Z)
  : M tx_pdev unit :=
  match frms, head with
  | S frms', d :: head' =>
    let batch := batch ++ [d] in
    if td_id_storage d then
      ol_tx_sched_dispatch_loop frms' head' batch (num_msdus + 1)
    else
      ol_tx_send_batch batch num_msdus;;
      modify (set_pd_sent (fun l => l ++ [[d]]));;
      (if htt_tx_send_base d then reject_frame d else skip);;
      ol_tx_sched_dispatch_loop frms' head' [] 0
  | _, _ => match batch with [] => skip | _ => ol_tx_send_batch batch num_msdus end
  end.

Definition ol_tx_sched_dispatch (sctx : sched_ctx) : M tx_pdev unit :=
  ol_tx_sched_dispatch_loop (Z.to_nat (sctx_frms sctx)) (sctx_head sctx) [] 0.

(** ** The scheduler framework *)

(** [while (target_tx_credit > 0)]. *)
Fixpoint ol_tx_sched_loop (fuel : nat) (sctx : sched_ctx) : M tx_pdev sched_ctx :=
  match fuel with
  | O => fault
  | S fuel' =>
    s ← get;
    if 0 <? pd_target_tx_credit s then
      '(num_credits, sctx) ←
        ol_tx_sched_select_batch_wrr_adv sctx (u32 (pd_target_tx_credit s));
      when (0 <? num_credits)
        (modify (set_pd_target_tx_credit (fun c => s32 (c - num_credits))));;
      if num_credits =? 0 then mret sctx else ol_tx_sched_loop fuel' sctx
    else mret sctx
  end.

(** The guard at the entry of [ol_tx_sched]: a pending calibration download
    takes two credits first; without them nothing is scheduled. *)
Definition ol_tx_sched_cali_guard : M tx_pdev bool :=
  s ← get;
  if pd_fast_chswitch_cali s && negb (pd_tx_cali_pending s =? 0) then
    if 2 <=? pd_target_tx_credit s then
      ok ← ol_tx_target_credit_dec 2;
      if (ok : bool) then ol_tx_cali_pending_status_set 0;; mret true else mret false
    else mret false
  else mret true.

(** Fuel: every iteration that continues uses at least one credit. *)
Definition ol_tx_sched : M tx_pdev unit :=
  go ← ol_tx_sched_cali_guard;
  when go (
    s ← get;
    match pd_sched_status s with
    | ol_tx_scheduler_running => skip
    | ol_tx_scheduler_idle =>
      modify (set_pd_sched_status (fun _ => ol_tx_scheduler_running));;
      ol_tx_sched_select_init_wrr_adv;;
      sctx ← ol_tx_sched_loop (S (Z.to_nat (pd_target_tx_credit s))) (mk_sched_ctx [] 0);
      ol_tx_sched_dispatch sctx;;
      modify (set_pd_sched_status (fun _ => ol_tx_scheduler_idle))
    end).
End Dispatch.
