(* ===== verification/TxQueue.v ===== *)
(** The frame queues of [ol_tx_queue.c] for high-latency systems: enqueue,
    discard, free and flush, the pause and unpause operations at the level of
    a queue, a peer, a vdev and the device, and the assignment of queues to
    credit groups. *)
From Stdlib Require Import ZArith Lia.
From stdpp Require Import prelude gmap list numbers.
From S2P Require Import Prelude.
From S2P Require Import TxTypes.
From S2P Require Import TxCore.
From S2P Require Import TxSched.

(** Indices [0 .. n-1]. *)
Definition zseq (n : Z) : list Z := Z.of_nat <$> seq 0 (Z.to_nat n).

Section TxQueue.
Context `{HttTx}.

(** ** Free and flush *)

(** [while (txq->frms)]: the length of the next descriptor is read before
    the count drops; a descriptor missing from the list is a null pointer. *)
Fixpoint ol_tx_queue_free_bytes (frms : nat) (head : list tx_desc) (bytes : Z) : option Z :=
  match frms with
  | O => Some bytes
  | S n => match head with
           | [] => None
           | d :: rest => ol_tx_queue_free_bytes n rest (s32 (bytes + td_len d))
           end
  end.

(** [while (frms)]: free that many descriptors of the temporary list. *)
Fixpoint ol_tx_queue_free_frames (frms : nat) (l : list tx_desc) : M tx_pdev unit :=
  match frms with
  | O => skip
  | S n => match l with
           | [] => fault
           | d :: rest => log_freed d;; ol_tx_queue_free_frames n rest
           end
  end.

Definition ol_tx_queue_free (txq : txq_id) (tid : Z) : M tx_pdev unit :=
  ol_tx_sched_notify txq (OL_TX_DELETE_QUEUE tid);;
  t ← get_txq txq;
  let frms := txq_frms t in
  bytes ← lift (ol_tx_queue_free_bytes (Z.to_nat frms) (txq_head t) 0);
  upd_txq txq (fun t =>
    set_txq_frms (fun _ => 0) (set_txq_bytes (fun b => u32 (b - bytes))
      (set_txq_flag (fun _ => ol_tx_queue_empty) (set_txq_head (fun _ => []) t))));;
  modify (set_pd_rsrc_cnt (fun n => s32 (n + frms)));;
  ol_tx_queue_free_frames (Z.to_nat frms) (txq_head t).

(** The TID under which the queue [i] of a vdev is handed to the scheduler. *)
Definition vdev_flush_tid (i : Z) : Z :=
  if i =? OL_TX_VDEV_MCAST_BCAST then HTT_TX_EXT_TID_NON_QOS_MCAST_BCAST
  else if i =? OL_TX_VDEV_DEFAULT_MGMT then HTT_TX_EXT_TID_MGMT
  else if i =? OL_TX_VDEV_MCAST_VO then HTT_TX_EXT_TID_MCAST_VO
  else i + OL_TX_NUM_TIDS.

(** Does a peer have a queue with frames? *)
Fixpoint peer_has_frames (peer : Z) (tids : list Z) : M tx_pdev bool :=
  match tids with
  | [] => mret false
  | tid :: rest => t ← get_txq (PeerTxq peer tid);
                   if txq_frms t =? 0 then peer_has_frames peer rest else mret true
  end.

Definition PEER_ARRAY_COUNT : nat := 10.

(** Select up to [room] peers with pending frames, taking a reference. *)
Fixpoint select_candidates (peers : list Z) (room : nat) : M tx_pdev (list Z) :=
  match peers, room with
  | p :: rest, S room' =>
    b ← peer_has_frames p (zseq OL_TX_NUM_TIDS);
    if (b : bool) then
      s ← get; n ← lift (pd_peer_ref_cnt s !! p);
      modify (set_pd_peer_ref_cnt (<[p := s32 (n + 1)]>));;
      l ← select_candidates rest room'; mret (p :: l)
    else select_candidates rest room
  | _, _ => mret []
  end.

(** Drop the reference.  The last reference would delete the peer, which is
    outside this model: it cannot be the last one here. *)
Definition ol_txrx_peer_unref (p : Z) : M tx_pdev unit :=
  s ← get; n ← lift (pd_peer_ref_cnt s !! p);
  if n - 1 =? 0 then fault else modify (set_pd_peer_ref_cnt (<[p := s32 (n - 1)]>)).

Definition flush_peer (p : Z) : M tx_pdev unit :=
  for_each (zseq OL_TX_NUM_TIDS) (fun j =>
    t ← get_txq (PeerTxq p j);
    when (negb (txq_frms t =? 0)) (ol_tx_queue_free (PeerTxq p j) j));;
  ol_txrx_peer_unref p.

(** [do ... while (peer_count >= PEER_ARRAY_COUNT)]. *)
Fixpoint flush_peers_loop (fuel : nat) (peers : list Z) : M tx_pdev unit :=
  match fuel with
  | O => fault
  | S fuel' =>
    cands ← select_candidates peers PEER_ARRAY_COUNT;
    for_each cands flush_peer;;
    if (PEER_ARRAY_COUNT <=? length cands)%nat then flush_peers_loop fuel' peers else skip
  end.

(** Without the bundling and delayed-ack options the first two flushes of
    the function are empty. *)
Definition ol_tx_queue_vdev_flush (v : tx_vdev) : M tx_pdev unit :=
  for_each (zseq OL_TX_VDEV_NUM_QUEUES) (fun i =>
    ol_tx_queue_free (VdevTxq (vdev_id v) i) (vdev_flush_tid i));;
  flush_peers_loop (S (length (vdev_peer_list v))) (vdev_peer_list v).

Definition ol_tx_queue_flush : M tx_pdev unit :=
  s ← get; for_each (pd_vdev_list s) ol_tx_queue_vdev_flush.

(** ** Discard *)

(** Returns the frames still wanted, those discarded and the freed list. *)
Fixpoint ol_tx_queue_discard_loop (fuel : nat) (flush_all : bool) (num actual : Z)
    (tx_descs : list tx_desc) : M tx_pdev (Z * Z * list tx_desc) :=
  match fuel with
  | O => fault
  | S fuel' =>
    if 0 <? num then
      '(discarded, tx_descs) ← ol_tx_sched_discard_select num tx_descs flush_all;
      if discarded =? 0 then mret (num, actual, tx_descs)
      else ol_tx_queue_discard_loop fuel' flush_all (u16 (num - discarded))
             (u16 (actual + discarded)) tx_descs
    else mret (num, actual, tx_descs)
  end.

Definition ol_tx_queue_discard (flush_all : bool) (tx_descs : list tx_desc)
  : M tx_pdev (list tx_desc) :=
  s ← get;
  let num := if flush_all then u16 (pd_desc_pool_size s - pd_rsrc_cnt s)
             else u16 (pd_rsrc_threshold_hi s - pd_rsrc_threshold_lo s) in
  '(num, actual, tx_descs) ←
    ol_tx_queue_discard_loop (S (Z.to_nat num)) flush_all num 0 tx_descs;
  modify (set_pd_rsrc_cnt (fun n => s32 (n + actual)));;
  when (flush_all && (0 <? num)) ol_tx_queue_flush;;
  mret tx_descs.

(** ** Enqueue

    [ext_tid] is the field of the MSDU info the classifier filled in. *)
Definition ol_tx_enqueue (txq : txq_id) (d : tx_desc) (ext_tid : Z) : M tx_pdev unit :=
  s ← get;
  when (pd_rsrc_cnt s <=? pd_rsrc_threshold_lo s) (
    tx_descs ← ol_tx_queue_discard false [];
    for_each tx_descs log_freed);;
  upd_txq txq (fun t =>
    set_txq_head (tailq_insert_tail d) (set_txq_frms (fun n => u16 (n + 1))
      (set_txq_bytes (fun n => u32 (n + td_len d)) t)));;
  t ← get_txq txq;
  when (negb (bool_decide (txq_flag t = ol_tx_queue_paused))) (
    ol_tx_sched_notify txq (OL_TX_ENQUEUE_FRAME ext_tid (td_len d));;
    upd_txq txq (set_txq_flag (fun _ => ol_tx_queue_active))).

(** ** Pause and unpause *)

(** [paused_count.total++ == 0] and what follows, for the queue and the TID
    the caller passes to the scheduler. *)
Definition txq_pause (txq : txq_id) (ext_tid : Z) : M tx_pdev unit :=
  t ← get_txq txq;
  upd_txq txq (set_txq_paused_total (fun n => u8 (n + 1)));;
  when (txq_paused_total t =? 0) (
    ol_tx_sched_notify txq (OL_TX_PAUSE_QUEUE ext_tid);;
    upd_txq txq (set_txq_flag (fun _ => ol_tx_queue_paused))).

Definition txq_unpause (txq : txq_id) (ext_tid : Z) : M tx_pdev unit :=
  t ← get_txq txq;
  if txq_paused_total t =? 0 then skip else
  upd_txq txq (set_txq_paused_total (fun n => u8 (n - 1)));;
  when (txq_paused_total t - 1 =? 0) (
    ol_tx_sched_notify txq (OL_TX_UNPAUSE_QUEUE ext_tid);;
    t ← get_txq txq;
    if txq_frms t =? 0 then upd_txq txq (set_txq_flag (fun _ => ol_tx_queue_empty))
    else upd_txq txq (set_txq_flag (fun _ => ol_tx_queue_active));; ol_tx_sched).

Definition ol_txrx_peer_tid_pause_base (peer tid : Z) : M tx_pdev unit :=
  txq_pause (PeerTxq peer tid) tid.

Definition ol_txrx_peer_pause_but_no_mgmt_q_base (peer : Z) : M tx_pdev unit :=
  for_each (zseq OL_TX_MGMT_TID) (ol_txrx_peer_tid_pause_base peer).

Definition ol_txrx_peer_pause_base (peer : Z) : M tx_pdev unit :=
  for_each (zseq OL_TX_NUM_TIDS) (ol_txrx_peer_tid_pause_base peer).

Definition ol_txrx_peer_tid_unpause_base (peer tid : Z) : M tx_pdev unit :=
  txq_unpause (PeerTxq peer tid) tid.

Definition ol_txrx_peer_unpause_but_no_mgmt_q_base (peer : Z) : M tx_pdev unit :=
  for_each (zseq OL_TX_MGMT_TID) (ol_txrx_peer_tid_unpause_base peer).

Definition ol_txrx_peer_tid_unpause (peer tid : Z) : M tx_pdev unit :=
  if tid =? -1 then for_each (zseq OL_TX_NUM_TIDS) (ol_txrx_peer_tid_unpause_base peer)
  else ol_txrx_peer_tid_unpause_base peer tid.

Definition find_vdev (v : Z) : M tx_pdev tx_vdev :=
  s ← get; lift (List.find (fun x => vdev_id x =? v) (pd_vdev_list s)).

Definition upd_vdev (v : Z) (f : tx_vdev -> tx_vdev) : M tx_pdev unit :=
  modify (set_pd_vdev_list (fmap (fun x => if vdev_id x =? v then f x else x))).

(** [ol_txrx_vdev_pause] and [ol_txrx_vdev_unpause] on a high-latency
    device: every queue of every peer of the vdev. *)
Definition ol_txrx_vdev_pause (v reason : Z) : M tx_pdev unit :=
  x ← find_vdev v;
  when (Z.land (vdev_hl_paused_reason x) reason =? 0) (
    upd_vdev v (set_vdev_hl_paused_reason (fun r => Z.lor r reason));;
    for_each (vdev_peer_list x) ol_txrx_peer_pause_base).

Definition ol_txrx_vdev_unpause (v reason : Z) : M tx_pdev unit :=
  x ← find_vdev v;
  when (negb (Z.land (vdev_hl_paused_reason x) reason =? 0)) (
    upd_vdev v (set_vdev_hl_paused_reason (fun r => Z.ldiff r reason));;
    for_each (vdev_peer_list x) (fun p =>
      for_each (zseq OL_TX_NUM_TIDS) (ol_txrx_peer_tid_unpause_base p))).

Definition ol_txrx_vdev_pause_txq (v reason : Z) : M tx_pdev unit :=
  x ← find_vdev v;
  when (Z.land (vdev_hl_paused_reason x) reason =? 0) (
    upd_vdev v (set_vdev_hl_paused_reason (fun r => Z.lor r reason));;
    for_each (zseq OL_TX_VDEV_NUM_QUEUES) (fun i =>
      txq_pause (VdevTxq v i) (OL_TX_NUM_TIDS + i))).

Definition ol_txrx_vdev_unpause_txq (v reason : Z) : M tx_pdev unit :=
  x ← find_vdev v;
  when (negb (Z.land (vdev_hl_paused_reason x) reason =? 0)) (
    upd_vdev v (set_vdev_hl_paused_reason (fun r => Z.ldiff r reason));;
    for_each (zseq OL_TX_VDEV_NUM_QUEUES) (fun i =>
      txq_unpause (VdevTxq v i) (OL_TX_NUM_TIDS + i))).

Definition for_each_vdev (f : Z -> M tx_pdev unit) : M tx_pdev unit :=
  s ← get; for_each (vdev_id <$> pd_vdev_list s) f.

Definition ol_txrx_pdev_pause (reason : Z) := for_each_vdev (fun v => ol_txrx_vdev_pause v reason).
Definition ol_txrx_pdev_unpause (reason : Z) := for_each_vdev (fun v => ol_txrx_vdev_unpause v reason).
Definition ol_txrx_pdev_pause_vdev_txq (reason : Z) :=
  for_each_vdev (fun v => ol_txrx_vdev_pause_txq v reason).
Definition ol_txrx_pdev_unpause_vdev_txq (reason : Z) :=
  for_each_vdev (fun v => ol_txrx_vdev_unpause_txq v reason).
Definition ol_txrx_pdev_pause_other_vdev (reason current_id : Z) :=
  for_each_vdev (fun v => when (negb (v =? current_id)) (ol_txrx_vdev_pause v reason)).
Definition ol_txrx_pdev_unpause_other_vdev (reason current_id : Z) :=
  for_each_vdev (fun v => when (negb (v =? current_id)) (ol_txrx_vdev_unpause v reason)).

(** ** Queue groups *)

Definition OL_TXQ_GROUP_VDEV_ID_MASK_GET (m : Z) : Z := Z.shiftr (Z.land m 0xffff0000) 16.
Definition OL_TXQ_GROUP_VDEV_ID_BIT_MASK_GET (mask v : Z) : Z := Z.land (Z.shiftr mask v) 1.
Definition OL_TXQ_GROUP_AC_MASK_GET (m : Z) : Z := Z.land m 0xffff.
Definition OL_TXQ_GROUP_AC_BIT_MASK_GET (mask ac : Z) : Z := Z.land (Z.shiftr mask ac) 1.
Definition OL_TXQ_GROUP_MEMBERSHIP_GET (vdev_mask ac_mask : Z) : Z :=
  Z.lor (u32 (Z.shiftl vdev_mask 16)) ac_mask.

Definition ol_tx_vdev_has_tx_queue_group (g : txq_group) (v : Z) : bool :=
  negb (OL_TXQ_GROUP_VDEV_ID_BIT_MASK_GET
          (OL_TXQ_GROUP_VDEV_ID_MASK_GET (grp_membership g)) v =? 0).

Definition ol_tx_ac_has_tx_queue_group (g : txq_group) (ac : Z) : bool :=
  negb (OL_TXQ_GROUP_AC_BIT_MASK_GET (OL_TXQ_GROUP_AC_MASK_GET (grp_membership g)) ac =? 0).

(** [group_ptrs] has one slot. *)
Definition ol_tx_txq_set_group_ptr (txq : txq_id) (grp : option Z) : M tx_pdev unit :=
  upd_txq txq (set_txq_group_ptr (fun _ => grp)).

Definition ol_tx_set_vdev_group_ptr (v : Z) (grp : option Z) : M tx_pdev unit :=
  s ← get;
  match List.find (fun x => vdev_id x =? v) (pd_vdev_list s) with
  | None => skip
  | Some x =>
    for_each (zseq OL_TX_VDEV_NUM_QUEUES) (fun i =>
      ol_tx_txq_set_group_ptr (VdevTxq v i) grp);;
    for_each (vdev_peer_list x) (fun p =>
      for_each (zseq OL_TX_NUM_TIDS) (fun i => ol_tx_txq_set_group_ptr (PeerTxq p i) grp))
  end.

(** The first group that contains the vdev and, for a QoS TID, its access
    category; the loop stops when the single slot is filled. *)
Fixpoint find_group (v tid : Z) (i : Z) (grps : list txq_group) : option Z :=
  match grps with
  | [] => None
  | g :: rest =>
    if ol_tx_vdev_has_tx_queue_group g v &&
       (if tid <? OL_TX_NUM_QOS_TIDS
        then ol_tx_ac_has_tx_queue_group g (TXRX_TID_TO_WMM_AC tid) else true)
    then Some i else find_group v tid (i + 1) rest
  end.

Definition ol_tx_set_peer_group_ptr (peer v tid : Z) : M tx_pdev unit :=
  s ← get;
  ol_tx_txq_set_group_ptr (PeerTxq peer tid) None;;
  match find_group v tid 0 (pd_txq_grps s) with
  | Some g => ol_tx_txq_set_group_ptr (PeerTxq peer tid) (Some g)
  | None => skip
  end.

Definition ol_txrx_update_tx_queue_groups
    (group_id credit : Z) (absolute : bool) (vdev_id_mask ac_mask : Z) : M tx_pdev unit :=
  if OL_TX_MAX_TXQ_GROUPS <=? group_id then skip else
  s ← get;
  group ← lift (znth (pd_txq_grps s) group_id);
  let membership := OL_TXQ_GROUP_MEMBERSHIP_GET vdev_id_mask ac_mask in
  (if grp_membership group =? membership then skip else
     let group_mask := OL_TXQ_GROUP_VDEV_ID_MASK_GET (grp_membership group) in
     for_each (vdev_id <$> pd_vdev_list s) (fun v =>
       let old_bit := OL_TXQ_GROUP_VDEV_ID_BIT_MASK_GET group_mask v in
       let new_bit := OL_TXQ_GROUP_VDEV_ID_BIT_MASK_GET vdev_id_mask v in
       if old_bit =? new_bit then skip
       else if new_bit =? 0 then ol_tx_set_vdev_group_ptr v None
       else ol_tx_set_vdev_group_ptr v (Some group_id));;
     modify (set_pd_txq_grps (fun l =>
       zset l group_id (set_grp_membership (fun _ => membership) group))));;
  ol_txrx_update_group_credit group_id credit absolute.
End TxQueue.
