(* ===== verification/TxSchedSpec.v ===== *)
(** Properties of the pure part of the scheduler: the order list stays a
    permutation of the categories, the choice of a category terminates within
    the stated fuel and returns the first active category whose turn has come,
    and the tables of the initial state are well formed. *)
From Stdlib Require Import ZArith Lia.
From stdpp Require Import prelude gmap list numbers.
From S2P Require Import Prelude.
From S2P Require Import TxTypes.
From S2P Require Import TxCore.
From S2P Require Import TxSched.

(** The indices of the nine categories. *)
Definition all_categories : list Z := Z.of_nat <$> seq 0 9.

Definition max_weight : Z := 2 ^ 30.

Definition category_ok (c : category) : Prop :=
  -1 <= cat_wrr_count c <= max_weight /\ wrr_skip_weight (cat_specs c) <= max_weight.

Record wf_sched (sch : wrr_adv) : Prop := mk_wf_sched {
  wf_order : sch_order sch ≡ₚ all_categories;
  wf_cats_len : zlen (sch_categories sch) = OL_TX_SCHED_WRR_ADV_NUM_CATEGORIES;
  wf_cats : Forall category_ok (sch_categories sch) }.

(** Two schedulers with the same categories up to the WRR counters. *)
Definition erase_count (c : category) : category := set_cat_wrr_count (fun _ => 0) c.
Definition same_but_counts (cs cs' : list category) : Prop := erase_count <$> cs = erase_count <$> cs'.

(** The category at position [j] of the order list. *)
Definition cat_at (sch : wrr_adv) (j : Z) : option category :=
  ci ← znth (sch_order sch) j; znth (sch_categories sch) ci.

(** Move position [idx] to the end. *)
Definition rotate_list (idx : Z) (l : list Z) : list Z :=
  let i := Z.to_nat idx in take i l ++ drop (S i) l ++ take 1 (drop i l).

Section Rotate.
Lemma rotate_shift_spec n i (l : list Z) :
  (i + n < length l)%nat ->
  rotate_shift n (Z.of_nat i) l =
  Some (take i l ++ take n (drop (S i) l) ++ drop (i + n) l).
Proof.
  revert i l. induction n as [|n IH]; intros i l Hlen; simpl.
  { rewrite Nat.add_0_r. by rewrite take_drop. }
  assert (is_Some (l !! S i)) as [v Hv] by (apply lookup_lt_is_Some; lia).
  replace (znth l (Z.of_nat i + 1)) with (Some v).
  2: { symmetry. apply znth_Some. split; [lia|].
       by replace (Z.to_nat (Z.of_nat i + 1)) with (S i) by lia. }
  simpl. replace (Z.of_nat i + 1) with (Z.of_nat (S i)) by lia.
  unfold zset. rewrite Nat2Z.id, IH by (rewrite length_insert; lia).
  f_equal. rewrite (drop_S l v (S i)) by done.
  rewrite (take_S_r _ _ v) by (apply list_lookup_insert_eq; lia).
  rewrite take_insert_ge, !drop_insert_lt by lia. simpl.
  rewrite <- app_assoc. simpl. by replace (i + S n)%nat with (S (i + n)) by lia.
Qed.

Lemma rotate_list_perm idx l : rotate_list idx l ≡ₚ l.
Proof.
  unfold rotate_list. set (i := Z.to_nat idx).
  rewrite <- (take_drop i l) at 4. f_equiv.
  destruct (drop i l) as [|x k] eqn:E.
  - by rewrite (drop_ge l (S i)) by (apply (f_equal length) in E; rewrite length_drop in E; simpl in E; lia).
  - replace (drop (S i) l) with k; [simpl; by rewrite Permutation_app_comm|].
    replace (S i) with (i + 1)%nat by lia. by rewrite <- drop_drop, E.
Qed.

Lemma rotate_list_length idx l : zlen (rotate_list idx l) = zlen l.
Proof. unfold zlen. by rewrite (rotate_list_perm idx l). Qed.

Lemma rotate_list_before idx l j :
  0 <= idx < zlen l -> j < idx -> znth (rotate_list idx l) j = znth l j.
Proof.
  intros ? ?. unfold zlen in *. unfold znth, rotate_list. destruct (Z.ltb_spec j 0); [done|].
  rewrite lookup_app_l by (rewrite length_take; lia). by rewrite lookup_take_lt by lia.
Qed.

Lemma rotate_eq sch idx :
  zlen (sch_order sch) = OL_TX_SCHED_WRR_ADV_NUM_CATEGORIES ->
  0 <= idx < OL_TX_SCHED_WRR_ADV_NUM_CATEGORIES ->
  ol_tx_sched_wrr_adv_rotate_order_list_tail sch idx =
  Some (set_sch_order (rotate_list idx) sch).
Proof.
  unfold OL_TX_SCHED_WRR_ADV_NUM_CATEGORIES, zlen. intros Hlen Hidx.
  unfold ol_tx_sched_wrr_adv_rotate_order_list_tail.
  set (l := sch_order sch) in *.
  assert (is_Some (l !! Z.to_nat idx)) as [v Hv] by (apply lookup_lt_is_Some; lia).
  replace (znth l idx) with (Some v) by (symmetry; apply znth_Some; split; [lia|done]).
  simpl. rewrite <- (Z2Nat.id idx) at 2 by lia.
  unfold OL_TX_SCHED_WRR_ADV_NUM_CATEGORIES. rewrite rotate_shift_spec by lia. simpl.
  f_equal. unfold set_sch_order, rotate_list. f_equal. unfold zset.
  fold l. rewrite (take_ge (drop (S (Z.to_nat idx)) l)) by (rewrite length_drop; lia).
  rewrite (drop_S l v (Z.to_nat idx)) by done. simpl.
  destruct (drop 8 l) as [|x [|y k]] eqn:E0; pose proof E0 as E;
    apply (f_equal length) in E; rewrite length_drop in E; simpl in E; try lia.
  rewrite app_assoc. set (k := take (Z.to_nat idx) l ++ drop (S (Z.to_nat idx)) l).
  assert (length k = 8%nat) as Hk
    by (unfold k; rewrite length_app, length_take, length_drop; lia).
  replace (Z.to_nat idx + Z.to_nat (9 - 1 - idx))%nat with 8%nat by lia. rewrite E0.
  replace (Z.to_nat (9 - 1)) with (length k + 0)%nat by lia.
  rewrite insert_app_r. unfold k. simpl. by rewrite <- app_assoc.
Qed.
End Rotate.

(** ** Well-formedness *)
Section WellFormed.
Lemma all_categories_spec ci : ci ∈ all_categories <-> 0 <= ci < 9.
Proof.
  unfold all_categories. rewrite list_elem_of_fmap. split.
  - intros (k & -> & Hk%elem_of_seq). lia.
  - intros. exists (Z.to_nat ci). split; [lia|]. apply elem_of_seq. lia.
Qed.

Lemma wf_order_len sch : wf_sched sch -> zlen (sch_order sch) = 9.
Proof. intros [Hp _ _]. unfold zlen. by rewrite Hp. Qed.

(** Every position of the order list holds a category. *)
Lemma wf_position sch i :
  wf_sched sch -> 0 <= i < 9 ->
  exists ci c, znth (sch_order sch) i = Some ci /\ 0 <= ci < 9 /\
    znth (sch_categories sch) ci = Some c /\ category_ok c.
Proof.
  intros Hwf Hi. pose proof Hwf as [Hp Hl Hok]. pose proof (wf_order_len sch Hwf).
  destruct (znth_in_range (sch_order sch) i) as [ci Hci]; [lia|].
  assert (0 <= ci < 9) as Hr
    by (apply all_categories_spec; rewrite <- Hp; by eapply znth_elem_of).
  destruct (znth_in_range (sch_categories sch) ci) as [c Hc]; [rewrite Hl; done|].
  exists ci, c. split_and!; try done; try lia.
  apply znth_Some in Hc as [_ Hc]. by eapply Forall_lookup_1.
Qed.

(** Every category has a position. *)
Lemma wf_find_position sch ci :
  wf_sched sch -> 0 <= ci < 9 ->
  exists i, 0 <= i < 9 /\ znth (sch_order sch) i = Some ci.
Proof.
  intros Hwf Hci. pose proof (wf_order_len sch Hwf) as Hlen. destruct Hwf as [Hp _ _].
  assert (ci ∈ sch_order sch) as [k Hk]%list_elem_of_lookup
    by (rewrite Hp; by apply all_categories_spec).
  pose proof (lookup_lt_Some _ _ _ Hk). unfold zlen in Hlen.
  exists (Z.of_nat k). split; [lia|]. apply znth_Some. by rewrite Nat2Z.id; split; [lia|].
Qed.

Lemma wf_upd sch ci c c' :
  wf_sched sch -> znth (sch_categories sch) ci = Some c -> category_ok c' ->
  wf_sched (set_sch_categories (fun l => zset l ci c') sch).
Proof.
  intros [Hp Hl Hok] Hc Hok'. constructor; simpl; [done| |].
  - by rewrite zlen_zset.
  - by apply Forall_insert.
Qed.

Lemma wf_rotate sch idx :
  wf_sched sch -> wf_sched (set_sch_order (rotate_list idx) sch).
Proof. intros [Hp Hl Hok]. constructor; simpl; [|done..]. by rewrite rotate_list_perm. Qed.

#[export] Instance same_but_counts_equiv : Equivalence same_but_counts.
Proof. unfold same_but_counts. split; [done|by intros ??|intros ?????; congruence]. Qed.

Lemma same_upd cs ci c c' :
  znth cs ci = Some c -> erase_count c' = erase_count c -> same_but_counts cs (zset cs ci c').
Proof.
  intros [? Hc]%znth_Some He. unfold same_but_counts, zset.
  rewrite list_fmap_insert, He. symmetry. apply list_insert_id.
  by rewrite list_lookup_fmap, Hc.
Qed.

Lemma same_lookup cs cs' ci c :
  same_but_counts cs cs' -> znth cs ci = Some c ->
  exists c', znth cs' ci = Some c' /\ erase_count c' = erase_count c.
Proof.
  unfold same_but_counts, znth. intros H Hc. destruct (ci <? 0); [done|].
  apply (f_equal (lookup (Z.to_nat ci))) in H. rewrite !list_lookup_fmap, Hc in H.
  destruct (cs' !! Z.to_nat ci) as [c'|]; [|done]. exists c'. split; [done|].
  symmetry. by apply (inj Some).
Qed.

Lemma sum_skips_zset cs ci c c' :
  znth cs ci = Some c ->
  (sum_list_with skips_left (zset cs ci c') + skips_left c =
   sum_list_with skips_left cs + skips_left c')%nat.
Proof.
  intros [_ Hc]%znth_Some. unfold zset. revert Hc. generalize (Z.to_nat ci) as k.
  induction cs as [|x cs IH]; intros [|k] Hc; simplify_eq/=; [lia|].
  specialize (IH k Hc). lia.
Qed.
End WellFormed.

(** ** The choice of a category *)

(** The category chosen at position [index'] after a start at [index]: [sch1]
    is the scheduler after the skips, before the chosen category's counter
    went up. *)
Record selection (sch : wrr_adv) (index : Z) (sch1 : wrr_adv) (index' : Z) : Prop := {
  sel_wf : wf_sched sch1;
  sel_same : same_but_counts (sch_categories sch) (sch_categories sch1);
  sel_index : sch_index sch1 = sch_index sch;
  sel_range : index <= index' <= 9;
  sel_prefix : forall j, j < index -> znth (sch_order sch1) j = znth (sch_order sch) j;
  sel_inactive : forall j, index <= j < index' ->
    exists c, cat_at sch1 j = Some c /\ cat_active c = false }.

Definition wrr_bump (c : category) : category := set_cat_wrr_count (fun n => s32 (n + 1)) c.

(** What the loop returns. *)
Definition select_result (sch : wrr_adv) (index : Z) (sch' : wrr_adv) (index' : Z) : Prop :=
  exists sch1, selection sch index sch1 index' /\
    ((index' = 9 /\ sch' = sch1) \/
     (exists ci c, index' < 9 /\ znth (sch_order sch1) index' = Some ci /\
        znth (sch_categories sch1) ci = Some c /\ cat_active c = true /\
        wrr_skip_weight (cat_specs c) <= cat_wrr_count c + 1 /\
        sch' = set_sch_categories (fun l => zset l ci (wrr_bump c)) sch1)).

Section SelectLoop.
Lemma wrr_bump_count c : category_ok c -> cat_wrr_count (wrr_bump c) = cat_wrr_count c + 1.
Proof. intros [? _]. unfold max_weight in *. apply s32_small. lia. Qed.

Lemma select_step_skip sch index ci c :
  wf_sched sch -> 0 <= index < 9 ->
  znth (sch_order sch) index = Some ci -> znth (sch_categories sch) ci = Some c ->
  cat_wrr_count c + 1 < wrr_skip_weight (cat_specs c) ->
  let sch2 := set_sch_order (rotate_list index)
                (set_sch_categories (fun l => zset l ci (wrr_bump c)) sch) in
  wf_sched sch2 /\ same_but_counts (sch_categories sch) (sch_categories sch2) /\
  (S (sum_list_with skips_left (sch_categories sch2)) =
     sum_list_with skips_left (sch_categories sch))%nat.
Proof.
  intros Hwf Hi Hci Hc Hw.
  assert (category_ok c) as Hok.
  { destruct (wf_position sch index Hwf Hi) as (?&?&?&?&?&?). by simplify_eq. }
  pose proof (wrr_bump_count c Hok) as Hb. split_and!; simpl.
  - apply wf_rotate. eapply wf_upd; [done..|]. destruct Hok as [? ?].
    split; [rewrite Hb; lia|done].
  - by eapply same_upd.
  - pose proof (sum_skips_zset _ _ _ (wrr_bump c) Hc) as Hs.
    assert (skips_left c = S (skips_left (wrr_bump c))).
    { unfold skips_left. rewrite Hb. simpl. lia. }
    lia.
Qed.

(** The loop terminates within [fuel] and makes a legal choice. *)
Lemma wrr_adv_select_loop_spec fuel sch index :
  wf_sched sch -> 0 <= index <= 9 ->
  (sum_list_with skips_left (sch_categories sch) + Z.to_nat (9 - index) < fuel)%nat ->
  exists sch' index', wrr_adv_select_loop fuel sch index = Some (sch', index') /\
    select_result sch index sch' index'.
Proof.
  revert sch index. induction fuel as [|fuel IH]; intros sch index Hwf Hi Hf; [lia|].
  simpl. unfold OL_TX_SCHED_WRR_ADV_NUM_CATEGORIES. destruct (Z.ltb_spec index 9).
  2: { exists sch, index. split; [done|]. exists sch. split; [|left; split; [lia|done]].
       constructor; try done; lia. }
  destruct (wf_position sch index Hwf) as (ci & c & Hci & Hr & Hc & Hok); [lia|].
  rewrite Hci; simpl. rewrite Hc; simpl.
  destruct (cat_active c) eqn:Hact; simpl.
  2: { destruct (IH sch (index + 1)) as (sch' & index' & -> & sch1 & Hsel & Hres);
         [done|lia|lia|].
       exists sch', index'. split; [done|]. exists sch1. split; [|done].
       destruct Hsel as [Hw Hs Hx Hrg Hp Hin]. constructor; try done; [lia| |].
       - intros j Hj. apply Hp. lia.
       - intros j Hj. destruct (decide (j = index)) as [->|]; [|apply Hin; lia].
         destruct (same_lookup _ _ _ _ Hs Hc) as (c' & Hc' & He).
         exists c'. unfold cat_at. rewrite Hp, Hci by lia. simpl. split; [done|].
         by apply (f_equal cat_active) in He; simpl in He; congruence. }
  pose proof (wrr_bump_count c Hok) as Hb; simpl in Hb. rewrite Hb.
  destruct (Z.ltb_spec (cat_wrr_count c + 1) (wrr_skip_weight (cat_specs c))) as [Hlt|Hge].
  - destruct (select_step_skip sch index ci c) as (Hwf2 & Hs2 & Hm2); [done|lia|done..|].
    fold (wrr_bump c). rewrite rotate_eq;
      [|apply (wf_order_len sch Hwf)|unfold OL_TX_SCHED_WRR_ADV_NUM_CATEGORIES; lia].
    simpl. simpl in *.
    destruct (IH _ index Hwf2) as (sch' & index' & -> & sch1 & Hsel & Hres); [lia|simpl; lia|].
    exists sch', index'. split; [done|]. exists sch1. split; [|done].
    destruct Hsel as [Hw Hs Hx Hrg Hp Hin]. constructor; try done.
    + by rewrite Hs2.
    + intros j Hj. rewrite Hp by done. simpl. pose proof (wf_order_len sch Hwf).
      apply rotate_list_before; lia.
  - exists (set_sch_categories (fun l => zset l ci (wrr_bump c)) sch), index.
    split; [done|]. exists sch. split; [constructor; done || lia|].
    right. exists ci, c. split_and!; try done; lia.
Qed.
End SelectLoop.
