(* ===== verification/TxInv.v ===== *)
(** The invariant of the transmit path that ties the frame queues to the
    scheduler: a queue's counters describe its list, a category lists exactly
    its active queues and its counters are the sums over them.  A state is
    analysed through a [focus] on one queue and its category; the lemma
    [Inv_step] re-establishes the invariant from the change in focus. *)
From Stdlib Require Import ZArith Lia.
From stdpp Require Import prelude gmap list numbers.
From S2P Require Import Prelude.
From S2P Require Import TxTypes.
From S2P Require Import TxCore.
From S2P Require Import TxSched.
From S2P Require Import TxQueue.
From S2P Require Import TxSchedSpec.

(** ** The invariant *)

(** The TID under which a queue is known to the scheduler. *)
Definition ext_tid_of (q : txq_id) : Z :=
  match q with PeerTxq _ tid => tid | VdevTxq _ i => vdev_flush_tid i end.

(** The category a queue belongs to. *)
Definition home (tids : list Z) (q : txq_id) : option Z := znth tids (ext_tid_of q).

Record txq_ok (ngrps : Z) (t : txq) : Prop := mk_txq_ok {
  ok_frms : txq_frms t = zlen (txq_head t);
  ok_frms_lt : txq_frms t < 65536;
  ok_bytes : txq_bytes t = u32 (zsum td_len (txq_head t));
  ok_paused : 0 <= txq_paused_total t < 256;
  ok_flag : txq_flag t = ol_tx_queue_paused <-> txq_paused_total t <> 0;
  ok_active : txq_flag t = ol_tx_queue_active -> 0 < txq_frms t;
  ok_empty : txq_flag t = ol_tx_queue_empty -> txq_frms t = 0;
  ok_grp : forall g, txq_group_ptr t = Some g -> 0 <= g < ngrps }.

Definition q_active (m : gmap txq_id txq) (q : txq_id) : Prop :=
  exists t, m !! q = Some t /\ txq_flag t = ol_tx_queue_active.

Record cat_ok (tids : list Z) (m : gmap txq_id txq) (ci : Z) (c : category) : Prop := mk_cat_ok {
  ck_nodup : NoDup (cat_head c);
  ck_head : forall q, q ∈ cat_head c <-> q_active m q /\ home tids q = Some ci;
  ck_frms : cat_frms c = zsum (val_of txq_frms m) (cat_head c);
  ck_bytes : cat_bytes c = s32 (zsum (val_of txq_bytes m) (cat_head c));
  ck_active : cat_active c = negb (cat_frms c =? 0) }.

Definition total_frms (s : tx_pdev) : Z := map_sum txq_frms (pd_txqs s).

Definition specs_ok (c : category) : Prop :=
  0 <= credit_reserve (cat_specs c) < 2 ^ 16 /\ 0 <= send_limit (cat_specs c) < 2 ^ 16 /\
  0 <= credit_threshold (cat_specs c) < 2 ^ 16 /\ 0 < discard_weight (cat_specs c) < 2 ^ 15.

Record sched_ok (sch : wrr_adv) : Prop := mk_sched_ok {
  so_wf : wf_sched sch;
  so_index : 0 <= sch_index sch < OL_TX_SCHED_WRR_ADV_NUM_CATEGORIES;
  so_specs : Forall specs_ok (sch_categories sch) }.

Record Inv (s : tx_pdev) : Prop := mk_Inv {
  inv_sched : exists sch, pd_scheduler s = Some sch /\ sched_ok sch /\
    (forall ci c, znth (sch_categories sch) ci = Some c -> cat_ok (pd_tid_to_ac s) (pd_txqs s) ci c);
  inv_txq : forall q t, pd_txqs s !! q = Some t ->
    txq_ok (zlen (pd_txq_grps s)) t /\
    (exists ci, home (pd_tid_to_ac s) q = Some ci /\ 0 <= ci < OL_TX_SCHED_WRR_ADV_NUM_CATEGORIES);
  inv_total : total_frms s <= pd_desc_pool_size s;
  inv_pool : pd_desc_pool_size s < 65536;
  inv_grps : Forall (fun g => -2147483648 <= grp_credit g < 2147483648) (pd_txq_grps s) }.

(** ** Focus on one queue and one category *)

(** The state [base] with scheduler [sch], in which queue [q] is [t] and
    category [ci] is [c]. *)
Definition focus (base : tx_pdev) (sch : wrr_adv) (q : txq_id) (ci : Z) (t : txq) (c : category)
  : tx_pdev :=
  set_pd_txqs (<[q := t]>)
    (set_pd_scheduler (fun _ => Some (set_sch_categories (fun l => zset l ci c) sch)) base).

Section Focus.
Context (base : tx_pdev) (sch : wrr_adv) (q : txq_id) (ci : Z).
Context (Hci : 0 <= ci < zlen (sch_categories sch)).
Implicit Types (t : txq) (c : category).

Lemma focus_id s t c :
  pd_txqs s !! q = Some t -> pd_scheduler s = Some sch ->
  znth (sch_categories sch) ci = Some c -> s = focus s sch q ci t c.
Proof.
  clear Hci. intros Ht Hs [_ Hc]%znth_Some. unfold focus, set_pd_txqs, set_pd_scheduler, set_sch_categories.
  destruct s, sch; simpl in *. unfold zset. rewrite insert_id, list_insert_id by done.
  by simplify_eq.
Qed.

Lemma focus_get_txq t c : get_txq q (focus base sch q ci t c) = Some (t, focus base sch q ci t c).
Proof. unfold get_txq, mbind, M_bind, get, lift. simpl. by rewrite lookup_insert_eq. Qed.

Lemma focus_upd_txq f t c :
  upd_txq q f (focus base sch q ci t c) = Some (tt, focus base sch q ci (f t) c).
Proof.
  unfold upd_txq, mbind, M_bind. rewrite focus_get_txq. unfold modify, focus, set_pd_txqs.
  simpl. by rewrite insert_insert_eq.
Qed.

Lemma focus_get_sched t c :
  get_sched (focus base sch q ci t c) =
  Some (set_sch_categories (fun l => zset l ci c) sch, focus base sch q ci t c).
Proof. done. Qed.

Lemma focus_get_cat t c : get_cat ci (focus base sch q ci t c) = Some (c, focus base sch q ci t c).
Proof.
  unfold get_cat, mbind, M_bind. rewrite focus_get_sched. unfold lift. simpl.
  by rewrite znth_zset_eq.
Qed.

Lemma focus_upd_cat f t c :
  upd_cat ci f (focus base sch q ci t c) = Some (tt, focus base sch q ci t (f c)).
Proof.
  unfold upd_cat, mbind, M_bind. rewrite focus_get_sched. unfold lift. simpl.
  rewrite znth_zset_eq by done. unfold put_sched, modify, focus, set_pd_txqs, set_pd_scheduler,
    set_sch_categories. simpl. unfold zset. by rewrite list_insert_insert_eq.
Qed.

Lemma focus_tid_to_ac tid t c :
  znth (pd_tid_to_ac base) tid = Some ci ->
  get_tid_to_ac tid (focus base sch q ci t c) = Some (ci, focus base sch q ci t c).
Proof. intros H. unfold get_tid_to_ac, mbind, M_bind, get, lift. simpl. by rewrite H. Qed.
End Focus.

(** ** Re-establishing the invariant *)

(** What a queue contributes to its category: only active queues count. *)
Definition entry (q : txq_id) (t : txq) : list txq_id :=
  if decide (txq_flag t = ol_tx_queue_active) then [q] else [].
Definition contrib (f : txq -> Z) (t : txq) : Z :=
  if decide (txq_flag t = ol_tx_queue_active) then f t else 0.

(** A change of [q] from [t] to [t'] that its category mirrors. *)
Record cat_step (q : txq_id) (t : txq) (c : category) (t' : txq) (c' : category) : Prop := mk_cat_step {
  cs_rest : exists rest, cat_head c ≡ₚ entry q t ++ rest /\ cat_head c' ≡ₚ entry q t' ++ rest;
  cs_frms : cat_frms c' = cat_frms c - contrib txq_frms t + contrib txq_frms t';
  cs_bytes : cat_bytes c' = s32 (cat_bytes c - contrib txq_bytes t + contrib txq_bytes t');
  cs_active : cat_active c' = negb (cat_frms c' =? 0) }.

(** The parts of the device that [Inv] mentions and a step keeps. *)
Record same_env (base s : tx_pdev) : Prop := mk_same_env {
  se_txqs : pd_txqs base = pd_txqs s;
  se_tids : pd_tid_to_ac base = pd_tid_to_ac s;
  se_pool : pd_desc_pool_size base = pd_desc_pool_size s;
  se_grps_len : zlen (pd_txq_grps base) = zlen (pd_txq_grps s);
  se_grps : Forall (fun g => -2147483648 <= grp_credit g < 2147483648) (pd_txq_grps base) }.

Lemma same_env_refl s : Inv s -> same_env s s.
Proof. intros [_ _ _ _ Hg]. by constructor. Qed.

Section Step.
Context (tids : list Z).
Implicit Types (m : gmap txq_id txq) (t : txq) (c : category).

Lemma q_active_insert m q t j :
  q_active (<[q := t]> m) j <->
  (j = q /\ txq_flag t = ol_tx_queue_active) \/ (j <> q /\ q_active m j).
Proof.
  unfold q_active. destruct (decide (j = q)) as [->|Hne].
  - rewrite lookup_insert_eq. naive_solver.
  - rewrite lookup_insert_ne by done. naive_solver.
Qed.

Lemma entry_elem q t j : j ∈ entry q t <-> j = q /\ txq_flag t = ol_tx_queue_active.
Proof. unfold entry. case_decide; set_solver. Qed.

Lemma zsum_entry f m q t : m !! q = Some t -> zsum (val_of f m) (entry q t) = contrib f t.
Proof.
  intros H. unfold entry, contrib. case_decide; [|done].
  rewrite zsum_cons, (val_of_some f m q t) by done. change (zsum (val_of f m) []) with 0. lia.
Qed.

Lemma cat_split m ci q t c rest :
  cat_ok tids m ci c -> m !! q = Some t -> cat_head c ≡ₚ entry q t ++ rest ->
  q ∉ rest /\ NoDup rest /\
  (forall j, j ∈ rest <-> j <> q /\ q_active m j /\ home tids j = Some ci).
Proof.
  intros [Hnd Hh _ _ _] Hq Hp.
  assert (q ∉ rest) as Hout.
  { intros Hin. rewrite Hp in Hnd. apply list.NoDup_app in Hnd as (_ & Hd & _).
    destruct (decide (txq_flag t = ol_tx_queue_active)) as [Ha|Ha].
    - apply (Hd q); [by apply entry_elem|done].
    - assert (q ∈ cat_head c) as Hx by (rewrite Hp; set_solver).
      apply Hh in Hx as [(t0 & ? & ?) _]. naive_solver. }
  split; [done|]. split; [rewrite Hp in Hnd; by apply list.NoDup_app in Hnd as (_&_&?)|].
  intros j. rewrite <- Hh, Hp, elem_of_app, entry_elem. naive_solver.
Qed.

Lemma cat_has_split m ci q t c :
  cat_ok tids m ci c -> m !! q = Some t -> home tids q = Some ci ->
  exists rest, cat_head c ≡ₚ entry q t ++ rest.
Proof.
  intros [Hnd Hh _ _ _] Hq Hhome. unfold entry. case_decide as Ha; [|by exists (cat_head c)].
  assert (q ∈ cat_head c) as [l1 [l2 ->]]%list_elem_of_split.
  { apply Hh. split; [|done]. by exists t. }
  exists (l1 ++ l2). simpl. by rewrite Permutation_middle.
Qed.

Lemma cat_ok_step m q ci t c t' c' :
  cat_ok tids m ci c -> m !! q = Some t -> home tids q = Some ci ->
  cat_step q t c t' c' -> cat_ok tids (<[q := t']> m) ci c'.
Proof.
  intros Hok Hq Hhome [(rest & Hp & Hp') Hf Hb Ha].
  destruct (cat_split m ci q t c rest Hok Hq Hp) as (Hout & Hnd & Hr).
  assert (forall f, zsum (val_of f (<[q := t']> m)) rest = zsum (val_of f m) rest) as Hsame.
  { intros f. apply zsum_ext. intros j Hj. apply val_of_insert_ne. set_solver. }
  destruct Hok as [_ _ Hf0 Hb0 _]. constructor; [| | | |done].
  - rewrite Hp'. apply list.NoDup_app. split_and!; [|intros j [-> _]%entry_elem; done|done].
    unfold entry. case_decide; [apply list.NoDup_singleton|apply NoDup_nil_2].
  - intros j. rewrite Hp', elem_of_app, entry_elem, Hr, q_active_insert. naive_solver.
  - rewrite Hf, Hf0, Hp, Hp', !zsum_app, Hsame, (zsum_entry _ m q t),
      (zsum_entry _ (<[q := t']> m) q t') by (done || apply lookup_insert_eq). lia.
  - rewrite Hb, Hb0, Hp, Hp', !zsum_app, Hsame, (zsum_entry _ m q t),
      (zsum_entry _ (<[q := t']> m) q t') by (done || apply lookup_insert_eq). eqm_solve.
Qed.

Lemma cat_ok_other m q ci ci' t' c :
  cat_ok tids m ci' c -> home tids q = Some ci -> ci' <> ci ->
  cat_ok tids (<[q := t']> m) ci' c.
Proof.
  intros [Hnd Hh Hf Hb Ha] Hq Hne.
  assert (forall f, zsum (val_of f (<[q := t']> m)) (cat_head c) = zsum (val_of f m) (cat_head c)) as Hsame.
  { intros f. apply zsum_ext. intros j [_ Hj]%Hh. apply val_of_insert_ne. naive_solver. }
  constructor; [done| |by rewrite Hsame|by rewrite Hsame|done].
  intros j. rewrite Hh, q_active_insert. naive_solver.
Qed.
End Step.

Section InvStep.
Lemma total_insert s q t t' :
  pd_txqs s !! q = Some t ->
  map_sum txq_frms (<[q := t']> (pd_txqs s)) = total_frms s - txq_frms t + txq_frms t'.
Proof. intros. unfold total_frms. by rewrite (map_sum_insert _ _ _ t). Qed.

Lemma Inv_step s base sch q ci t c t' c' :
  Inv s -> same_env base s -> pd_scheduler s = Some sch ->
  pd_txqs s !! q = Some t -> home (pd_tid_to_ac s) q = Some ci ->
  znth (sch_categories sch) ci = Some c ->
  cat_step q t c t' c' -> txq_ok (zlen (pd_txq_grps s)) t' ->
  total_frms s - txq_frms t + txq_frms t' <= pd_desc_pool_size s ->
  forall sch', sch_categories sch' = sch_categories sch ->
    sched_ok (set_sch_categories (fun l => zset l ci c') sch') ->
    Inv (focus base sch' q ci t' c').
Proof.
  intros [(sch0 & Hs0 & _ & Hcats) Htxq Htot Hpool _] [E1 E2 E3 E4 E5] Hs Hq Hh Hc Hstep Ht'
    Hlim sch' Hsame Hso. simplify_eq.
  pose proof (znth_lt_Some _ _ _ Hc) as Hr.
  constructor; unfold total_frms; simpl; rewrite ?E1, ?E2, ?E3, ?E4; try done.
  - exists (set_sch_categories (fun l => zset l ci c') sch'). split_and!; [done|done|].
    simpl. rewrite Hsame. intros ci' d Hd.
    destruct (znth_lt_Some _ _ _ Hd) as [? _].
    rewrite znth_zset in Hd by done. case_decide; simplify_eq.
    + eapply cat_ok_step; eauto.
    + eapply cat_ok_other; eauto.
  - intros j u Hj. destruct (decide (j = q)) as [->|].
    + rewrite lookup_insert_eq in Hj. simplify_eq. split; [done|]. by apply (Htxq q t).
    + rewrite lookup_insert_ne in Hj by done. eauto.
  - by rewrite (total_insert s q t t').
Qed.
End InvStep.
