(* ===== verification/TxSchedInv.v ===== *)
(** The invariant of [TxInv] under the scheduler's operations: dequeue, the
    selection of a batch, the queue notifications and the congestion discard.
    Each operation is first evaluated in focus, then the invariant follows from
    [Inv_step]. *)
From Stdlib Require Import ZArith Lia.
From stdpp Require Import prelude gmap list numbers.
From S2P Require Import Prelude.
From S2P Require Import TxTypes.
From S2P Require Import TxCore.
From S2P Require Import TxSched.
From S2P Require Import TxQueue.
From S2P Require Import TxSchedSpec.
From S2P Require Import TxInv.

(** ** Dequeue *)

(** A queue after its first [k] frames are taken. *)
Definition txq_after (k : nat) (t : txq) : txq :=
  let frms := txq_frms t - Z.of_nat k in
  let flag := if decide (frms = 0 /\ txq_flag t = ol_tx_queue_active)
              then ol_tx_queue_empty else txq_flag t in
  set_txq_head (drop k) (set_txq_frms (fun _ => frms)
    (set_txq_bytes (fun b => u32 (b - s32 (zsum td_len (take k (txq_head t)))))
      (set_txq_flag (fun _ => flag) t))).

Section Dequeue.
Context (base : tx_pdev) (sch : wrr_adv) (q : txq_id) (ci : Z).

Lemma ol_tx_dequeue_focus n t c head max credit :
  txq_ok n t -> 0 <= max < 65536 -> 0 <= credit < 2 ^ 31 ->
  let k := Z.to_nat (batch_size (txq_frms t) max credit) in
  ol_tx_dequeue q head max credit (focus base sch q ci t c) =
  Some ((Z.of_nat k, head ++ take k (txq_head t), Z.of_nat k, s32 (zsum td_len (take k (txq_head t)))),
        focus base sch q ci (txq_after k t) c).
Proof.
  intros [Hf Hlt Hb _ _ _ _ _] Hmax Hcr k.
  pose proof (zlen_nonneg (txq_head t)). unfold zlen in *.
  set (m := if txq_frms t <? max then txq_frms t else max).
  assert (m = Z.min (txq_frms t) max) as Hm by (unfold m; destruct (Z.ltb_spec (txq_frms t) max); lia).
  pose proof (ol_tx_dequeue_loop_spec (Z.to_nat m) credit (txq_head t) head 0 0 0) as Hl.
  rewrite !Z.sub_0_r, !Z.add_0_l in Hl.
  replace (Nat.min (Z.to_nat m) (Z.to_nat credit)) with k in Hl
    by (unfold k, batch_size; lia).
  unfold ol_tx_dequeue, mbind, M_bind. rewrite focus_get_txq. fold m.
  rewrite Hl by (try done; lia). cbn [dq_num_frames dq_bytes_sum dq_queue dq_flush_all dq_out dq_credit_sum].
  rewrite focus_upd_txq. simpl. unfold mret, M_ret. do 2 f_equal.
  unfold txq_after. rewrite u16_small by (unfold k, batch_size; lia). done.
Qed.

Lemma txq_after_ok n k t :
  (k <= length (txq_head t))%nat -> txq_ok n t -> txq_ok n (txq_after k t).
Proof.
  intros Hk [Hf Hlt Hb Hp Hfl Ha He Hg]. unfold zlen in *.
  pose proof (zsum_app td_len (take k (txq_head t)) (drop k (txq_head t))) as Hz.
  rewrite take_drop in Hz. constructor; simpl; try done.
  - rewrite Hf. unfold zlen. rewrite length_drop. lia.
  - lia.
  - rewrite Hb. rewrite Hz. eqm_solve.
  - case_decide as Hd; [|done]. destruct Hd as [_ Hd]. rewrite <- Hfl, Hd. done.
  - case_decide as Hd; [done|]. intros H. specialize (Ha H).
    destruct (decide (txq_frms t - Z.of_nat k = 0)); [naive_solver|lia].
  - case_decide as Hd; [naive_solver lia|]. intros H. specialize (He H). lia.
Qed.

Lemma txq_after_bytes n k t :
  txq_ok n t -> (k <= length (txq_head t))%nat ->
  txq_bytes (txq_after k t) = u32 (txq_bytes t - zsum td_len (take k (txq_head t))).
Proof. intros. simpl. eqm_solve. Qed.

Lemma txq_after_active k t :
  txq_flag t = ol_tx_queue_active -> Z.of_nat k < txq_frms t ->
  txq_flag (txq_after k t) = ol_tx_queue_active.
Proof. intros Ha Hk. simpl. rewrite decide_False; [done|]. lia. Qed.

Lemma txq_after_empty k t :
  txq_flag t = ol_tx_queue_active -> txq_frms t = Z.of_nat k ->
  txq_flag (txq_after k t) = ol_tx_queue_empty.
Proof. intros Ha Hk. simpl. rewrite decide_True; [done|]. split; [lia|done]. Qed.
End Dequeue.

(** ** Steps that leave the queues alone *)
Section NonSteps.
Lemma Inv_put_sched s sch sch' :
  Inv s -> pd_scheduler s = Some sch -> same_but_counts (sch_categories sch) (sch_categories sch') ->
  sched_ok sch' -> Inv (set_pd_scheduler (fun _ => Some sch') s).
Proof.
  intros [(sch0 & Hs0 & _ & Hcats) Htxq Htot Hpool Hg] Hs Hsame Hok. simplify_eq.
  constructor; try done. exists sch'. split_and!; [done|done|]. simpl. intros ci c' Hc'.
  symmetry in Hsame. destruct (same_lookup _ _ _ _ Hsame Hc') as (c & Hc & He).
  destruct (Hcats ci c Hc) as [? ? ? ? ?].
  destruct c, c'. unfold erase_count in He. simpl in *. simplify_eq. by constructor.
Qed.

Lemma Inv_env s s' : Inv s -> same_env s' s -> pd_scheduler s' = pd_scheduler s -> Inv s'.
Proof.
  intros [Hs Htxq Htot Hpool Hg] [E1 E2 E3 E4 E5] Es.
  constructor; unfold total_frms; rewrite ?E1, ?E2, ?E3, ?E4, ?Es; done.
Qed.
End NonSteps.

(** ** Credit of queue groups *)

(** The credit a queue may use: the device's, capped by its group's. *)
Definition group_limit (s : tx_pdev) (t : txq) (credit : Z) : Z :=
  match txq_group_ptr t with
  | Some g => match znth (pd_txq_grps s) g with
              | Some grp => Z.max 0 (Z.min credit (grp_credit grp))
              | None => 0
              end
  | None => Z.max 0 credit
  end.

(** The groups after a queue used [n] credits. *)
Definition group_charge (t : txq) (n : Z) (grps : list txq_group) : list txq_group :=
  match txq_group_ptr t with
  | Some g => match znth grps g with
              | Some grp => zset grps g (set_grp_credit (fun c => s32 (c - n)) grp)
              | None => grps
              end
  | None => grps
  end.

Section Groups.
Context (base : tx_pdev) (sch : wrr_adv) (q : txq_id) (ci : Z).

Lemma group_credit_limit_focus t c credit :
  txq_ok (zlen (pd_txq_grps base)) t -> 0 <= credit < 2 ^ 31 ->
  ol_tx_txq_group_credit_limit q credit (focus base sch q ci t c) =
  Some (group_limit base t credit, focus base sch q ci t c).
Proof.
  intros [_ _ _ _ _ _ _ Hg] Hc. unfold ol_tx_txq_group_credit_limit, group_limit, mbind, M_bind.
  rewrite focus_get_txq. rewrite s32_small by lia.
  assert (forall z, (if z <? 0 then 0 else z) = Z.max 0 z) as Hmax by
    (intros z; destruct (Z.ltb_spec z 0); lia).
  destruct (txq_group_ptr t) as [g|]; unfold mret, M_ret.
  - destruct (znth_in_range (pd_txq_grps base) g) as [grp Hgrp]; [by apply Hg|].
    unfold get, lift. simpl. rewrite Hgrp. by rewrite Hmax.
  - by rewrite Hmax.
Qed.

Lemma group_credit_update_focus t c n :
  txq_ok (zlen (pd_txq_grps base)) t -> 0 <= n < 65536 ->
  ol_tx_txq_group_credit_update q (s32 (- n)) false (focus base sch q ci t c) =
  Some (tt, focus (set_pd_txq_grps (group_charge t n) base) sch q ci t c).
Proof.
  intros [_ _ _ _ _ _ _ Hg] Hn. unfold ol_tx_txq_group_credit_update, group_charge, mbind, M_bind.
  rewrite focus_get_txq. rewrite s32_small by lia.
  destruct (txq_group_ptr t) as [g|].
  - destruct (znth_in_range (pd_txq_grps base) g) as [grp Hgrp]; [by apply Hg|].
    unfold ol_txrx_update_group_credit, mbind, M_bind, get, lift. simpl. rewrite Hgrp.
    unfold modify, focus. unfold set_pd_txq_grps. simpl. rewrite Hgrp. done.
  - by destruct base.
Qed.

Lemma group_limit_bounds s t credit : 0 <= credit -> 0 <= group_limit s t credit <= credit.
Proof.
  intros. unfold group_limit. destruct (txq_group_ptr t) as [g|]; [|lia].
  destruct (znth _ g); lia.
Qed.

Lemma group_charge_len t n grps : zlen (group_charge t n grps) = zlen grps.
Proof.
  unfold group_charge. destruct (txq_group_ptr t) as [g|]; [|done].
  destruct (znth grps g); [apply zlen_zset|done].
Qed.

Lemma group_charge_ok t n grps :
  Forall (fun g => -2147483648 <= grp_credit g < 2147483648) grps ->
  Forall (fun g => -2147483648 <= grp_credit g < 2147483648) (group_charge t n grps).
Proof.
  intros H. unfold group_charge. destruct (txq_group_ptr t) as [g|]; [|done].
  destruct (znth grps g); [|done]. apply Forall_insert; [done|]. simpl. apply s32_range.
Qed.
End Groups.

(** ** One batch *)

(** Only the queues, the scheduler, the groups and the last-used queue of the
    device change. *)
Definition sched_frame (s s' : tx_pdev) : Prop :=
  s' = set_pd_txqs (fun _ => pd_txqs s') (set_pd_scheduler (fun _ => pd_scheduler s')
         (set_pd_last_used_txq (fun _ => pd_last_used_txq s')
           (set_pd_txq_grps (fun _ => pd_txq_grps s') s))).

(** What [ol_tx_sched_select_batch_wrr_adv] does: nothing, or a download of
    the front of one active queue. *)
Inductive batch_result (s : tx_pdev) (sctx : sched_ctx) (credit : Z)
  : Z -> sched_ctx -> tx_pdev -> Prop :=
| batch_none s' :
    pd_txqs s' = pd_txqs s -> pd_txq_grps s' = pd_txq_grps s -> sched_frame s s' ->
    batch_result s sctx credit 0 sctx s'
| batch_some s' q t ci sch c k :
    pd_txqs s !! q = Some t -> txq_flag t = ol_tx_queue_active ->
    home (pd_tid_to_ac s) q = Some ci -> pd_scheduler s = Some sch ->
    znth (sch_categories sch) ci = Some c ->
    credit_threshold (cat_specs c) <= credit ->
    credit_reserve (cat_specs c) < group_limit s t credit ->
    k = Z.to_nat (batch_size (txq_frms t) (send_limit (cat_specs c))
                    (group_limit s t credit - credit_reserve (cat_specs c))) ->
    pd_txqs s' = <[q := txq_after k t]> (pd_txqs s) ->
    pd_txq_grps s' = group_charge t (Z.of_nat k) (pd_txq_grps s) -> sched_frame s s' ->
    batch_result s sctx credit (Z.of_nat k)
      (mk_sched_ctx (sctx_head sctx ++ take k (txq_head t)) (s32 (sctx_frms sctx + Z.of_nat k))) s'.

Section Service.
Implicit Types (s : tx_pdev) (sch : wrr_adv) (c : category) (t : txq).

Lemma cat_frms_bounds s sch ci c :
  Inv s -> pd_scheduler s = Some sch -> znth (sch_categories sch) ci = Some c ->
  0 <= cat_frms c < 65536.
Proof.
  intros [(sch0 & Hs0 & _ & Hcats) Htxq Htot Hpool _] Hs Hc. simplify_eq.
  destruct (Hcats ci c Hc) as [Hnd _ Hf _ _].
  assert (forall q t, pd_txqs s !! q = Some t -> 0 <= txq_frms t) as Hpos.
  { intros q t Hq. destruct (Htxq q t Hq) as [[-> _ _ _ _ _ _ _] _]. apply zlen_nonneg. }
  pose proof (zsum_keys_le txq_frms (pd_txqs s) (cat_head c) Hpos Hnd).
  assert (0 <= zsum (val_of txq_frms (pd_txqs s)) (cat_head c)).
  { apply zsum_nonneg. intros q _. unfold val_of. destruct (pd_txqs s !! q) eqn:E; simpl; [|lia].
    eauto. }
  unfold total_frms in Htot. lia.
Qed.

(** The frames of one queue are among its category's. *)
Lemma cat_frms_ge s sch ci c q t :
  Inv s -> pd_scheduler s = Some sch -> znth (sch_categories sch) ci = Some c ->
  pd_txqs s !! q = Some t -> txq_flag t = ol_tx_queue_active -> home (pd_tid_to_ac s) q = Some ci ->
  0 < txq_frms t <= cat_frms c.
Proof.
  intros [(sch0 & Hs0 & _ & Hcats) Htxq _ _ _] Hs Hc Hq Ha Hh. simplify_eq.
  destruct (Hcats ci c Hc) as [_ Hhead Hf _ _]. destruct (Htxq q t Hq) as [Hok _].
  split; [by apply (ok_active _ _ Hok)|]. rewrite Hf, <- (val_of_some txq_frms _ q t Hq).
  assert (q ∈ cat_head c) by (apply Hhead; unfold q_active; eauto).
  apply zsum_elem_le; [|done].
  intros j _. unfold val_of. destruct (pd_txqs s !! j) eqn:E; simpl; [|lia].
  destruct (Htxq _ _ E) as [[-> _ _ _ _ _ _ _] _]. apply zlen_nonneg.
Qed.

Lemma active_cat_head s sch ci c :
  Inv s -> pd_scheduler s = Some sch -> znth (sch_categories sch) ci = Some c ->
  cat_active c = true ->
  exists q rest t, cat_head c = q :: rest /\ pd_txqs s !! q = Some t /\
    txq_flag t = ol_tx_queue_active /\ home (pd_tid_to_ac s) q = Some ci.
Proof.
  intros [(sch0 & Hs0 & _ & Hcats) _ _ _ _] Hs Hc Ha. simplify_eq.
  destruct (Hcats ci c Hc) as [_ Hhead Hf _ Hact].
  destruct (cat_head c) as [|q rest] eqn:E.
  { change (zsum _ []) with 0 in Hf. rewrite Hact, Hf in Ha. done. }
  exists q, rest. destruct (Hhead q) as [[(t & ? & ?) ?] _]; [set_solver|]. eauto.
Qed.

Lemma sched_ok_upd sch ci c c' :
  sched_ok sch -> znth (sch_categories sch) ci = Some c -> category_ok c' ->
  cat_specs c' = cat_specs c -> sched_ok (set_sch_categories (fun l => zset l ci c') sch).
Proof.
  intros [Hwf Hi Hsp] Hc Hok He. constructor; simpl; [by eapply wf_upd|done|].
  apply znth_Some in Hc as [_ Hc].
  apply Forall_insert; [done|].
  pose proof (Forall_lookup_1 _ _ _ _ Hsp Hc) as Hx. unfold specs_ok in *. by rewrite He.
Qed.

Lemma sched_ok_category sch ci c :
  sched_ok sch -> znth (sch_categories sch) ci = Some c -> category_ok c /\ specs_ok c.
Proof.
  intros [[_ _ Hok] _ Hsp] [_ Hc]%znth_Some. split; by eapply Forall_lookup_1.
Qed.

(** Taking the queue off the front and putting it back. *)
Lemma entry_active q t : txq_flag t = ol_tx_queue_active -> entry q t = [q].
Proof. intros H. unfold entry. by rewrite decide_True. Qed.
Lemma entry_inactive q t : txq_flag t <> ol_tx_queue_active -> entry q t = [].
Proof. intros H. unfold entry. by rewrite decide_False. Qed.
Lemma contrib_active f t : txq_flag t = ol_tx_queue_active -> contrib f t = f t.
Proof. intros H. unfold contrib. by rewrite decide_True. Qed.
Lemma contrib_inactive f t : txq_flag t <> ol_tx_queue_active -> contrib f t = 0.
Proof. intros H. unfold contrib. by rewrite decide_False. Qed.

Lemma tailq_remove_head {A} `{EqDecision A} (x : A) l : tailq_remove x (x :: l) = Some l.
Proof. simpl. by rewrite decide_True. Qed.
End Service.

(** A queue lost its first [k] frames and its category followed. *)
Lemma taken_step n q t c k c' rest :
  txq_ok n t -> txq_flag t = ol_tx_queue_active -> (k <= length (txq_head t))%nat ->
  cat_head c ≡ₚ q :: rest -> cat_head c' ≡ₚ entry q (txq_after k t) ++ rest ->
  cat_frms c' = s32 (cat_frms c - Z.of_nat k) -> 0 <= cat_frms c - Z.of_nat k < 65536 ->
  cat_bytes c' = s32 (cat_bytes c - s32 (zsum td_len (take k (txq_head t)))) ->
  cat_active c' = negb (cat_frms c' =? 0) -> cat_step q t c (txq_after k t) c'.
Proof.
  intros Htok Ha Hk Hp Hp' Hf Hr Hb Hca. pose proof (ok_frms _ _ Htok) as Hlen. unfold zlen in Hlen.
  rewrite s32_small in Hf by lia.
  destruct (decide (Z.of_nat k < txq_frms t)) as [Hlt|Hge].
  - pose proof (txq_after_active k t Ha Hlt) as Ha'.
    constructor; rewrite ?(contrib_active _ t Ha), ?(contrib_active _ _ Ha'); [|simpl; lia| |done].
    + exists rest. by rewrite (entry_active q t).
    + rewrite Hb. simpl. eqm_solve.
  - assert (txq_frms t = Z.of_nat k) as E by lia. pose proof (txq_after_empty k t Ha E) as Ha'.
    assert (txq_flag (txq_after k t) <> ol_tx_queue_active) as Hn by (by rewrite Ha').
    constructor; rewrite ?(contrib_active _ t Ha), ?(contrib_inactive _ _ Hn); [|lia| |done].
    + exists rest. by rewrite (entry_active q t).
    + rewrite Hb, (ok_bytes _ _ Htok), take_ge by lia. eqm_solve.
Qed.

Section ServiceSpec.
Context (s : tx_pdev) (sch : wrr_adv) (ci : Z) (c : category) (q : txq_id) (rest : list txq_id) (t : txq).
Context (HInv : Inv s) (Hs : pd_scheduler s = Some sch) (Hc : znth (sch_categories sch) ci = Some c).
Context (Hhead : cat_head c = q :: rest) (Hq : pd_txqs s !! q = Some t).
Context (Hact : txq_flag t = ol_tx_queue_active) (Hhome : home (pd_tid_to_ac s) q = Some ci).

Lemma service_env : sched_ok sch /\ cat_ok (pd_tid_to_ac s) (pd_txqs s) ci c /\
  txq_ok (zlen (pd_txq_grps s)) t /\ 0 <= ci < zlen (sch_categories sch) /\
  0 <= cat_frms c < 65536.
Proof.
  pose proof HInv as [(sch0 & Hs0 & Hok & Hcats) Htxq _ _ _]. simplify_eq.
  pose proof (znth_lt_Some _ _ _ Hc). pose proof (cat_frms_bounds s sch ci c HInv Hs Hc).
  split_and!; [done|by apply Hcats|by eapply Htxq|lia..].
Qed.

(** The queue goes back unserved. *)
Lemma service_requeue base head :
  same_env base s -> head ≡ₚ q :: rest ->
  Inv (focus base sch q ci t (set_cat_head (fun _ => head) c)).
Proof.
  intros Henv Hp. destruct service_env as (Hok & Hcok & Htok & _ & _).
  eapply (Inv_step s base sch q ci t c t); eauto.
  - constructor; simpl; [|lia| |apply (ck_active _ _ _ _ Hcok)].
    + exists rest. rewrite (entry_active q t), Hhead by done. done.
    + rewrite (ck_bytes _ _ _ _ Hcok). eqm_solve.
  - pose proof (inv_total _ HInv). lia.
  - eapply sched_ok_upd; eauto. by eapply (sched_ok_category sch ci c).
Qed.

(** The category after the queue lost its first [k] frames. *)
Definition cat_served (k : nat) : category :=
  let c1 := set_cat_frms (fun n => s32 (n - Z.of_nat k))
              (set_cat_bytes (fun n => s32 (n - s32 (zsum td_len (take k (txq_head t)))))
                 (set_cat_head (fun _ => rest) c)) in
  if 0 <? txq_frms (txq_after k t) then set_cat_head (tailq_insert_tail q) c1
  else if cat_frms c1 =? 0 then set_cat_active (fun _ => false) c1 else c1.

Lemma cat_served_specs k :
  cat_specs (cat_served k) = cat_specs c /\ cat_wrr_count (cat_served k) = cat_wrr_count c.
Proof. unfold cat_served. repeat case_match; done. Qed.

Lemma cat_served_step k :
  (k <= length (txq_head t))%nat -> cat_step q t c (txq_after k t) (cat_served k).
Proof.
  intros Hk. destruct service_env as (Hok & Hcok & Htok & _ & Hfr).
  pose proof (cat_frms_ge s sch ci c q t HInv Hs Hc Hq Hact Hhome) as Hge.
  pose proof (ok_frms _ _ Htok) as Hlen. unfold zlen in Hlen.
  pose proof (ck_active _ _ _ _ Hcok) as Hca.
  assert (s32 (cat_frms c - Z.of_nat k) = cat_frms c - Z.of_nat k) as Hs32 by (apply s32_small; lia).
  eapply taken_step; eauto; [by rewrite Hhead| | |lia| |];
    unfold cat_served; cbv zeta; destruct (Z.ltb_spec 0 (txq_frms (txq_after k t))) as [Hpos|Hz];
    simpl in Hpos || simpl in Hz.
  - rewrite entry_active by (apply txq_after_active; done || lia). simpl.
    unfold tailq_insert_tail. by rewrite (Permutation_app_comm rest).
  - rewrite entry_inactive by (rewrite txq_after_empty; done || lia). by case_match.
  - done.
  - by case_match.
  - done.
  - by case_match.
  - simpl. rewrite Hs32, Hca. by rewrite !(proj2 (Z.eqb_neq _ 0)) by lia.
  - simpl cat_frms. rewrite Hs32.
    destruct (cat_frms c - Z.of_nat k =? 0) eqn:E; simpl; rewrite Hs32, E; [done|].
    rewrite Hca. by rewrite (proj2 (Z.eqb_neq _ 0)) by lia.
Qed.

Lemma service_spec category sctx credit :
  cat_specs category = cat_specs c -> 0 <= credit < 2 ^ 31 ->
  credit_threshold (cat_specs c) <= credit ->
  wp (wrr_adv_service_txq ci category q sctx credit)
    (fun r s' => Inv s' /\ batch_result s sctx credit r.1 r.2 s') s.
Proof.
  intros Hsp Hcr Hth. destruct service_env as (Hok & Hcok & Htok & Hr & Hfr).
  destruct (sched_ok_category sch ci c Hok Hc) as [Hcat (Hres & Hlim & _)].
  pose proof (group_limit_bounds s t credit ltac:(lia)) as Hgl.
  pose proof (inv_total _ HInv) as Htot.
  eapply wp_at; [by apply (focus_id sch q ci s t c)|]. unfold wrr_adv_service_txq. rewrite Hsp.
  step_with focus_get_cat.
  eapply wp_step. { rewrite Hhead, tailq_remove_head. reflexivity. }
  step_with focus_upd_cat. step_with group_credit_limit_focus.
  rewrite (u32_small (credit_reserve _)) by lia.
  destruct (Z.ltb_spec (credit_reserve (cat_specs c)) (group_limit s t credit)) as [Hgo|Hstop].
  - set (s1 := set_pd_last_used_txq (fun _ => Some q) s).
    eapply (wp_step _ _ _ _ tt (focus s1 sch q ci t _)); [reflexivity|].
    unfold ol_tx_sched_wrr_adv_vo_mcast_aggr, ol_tx_bad_peer_dequeue_check.
    rewrite (u16_small (u16 _)) by apply u16_range.
    rewrite (u16_small (send_limit _)), (u32_small (_ - _)) by lia.
    eapply wp_step; [apply (ol_tx_dequeue_focus s1 sch q ci _ t _ _ _ _ Htok); lia|].
    set (k := Z.to_nat (batch_size _ _ _)).
    assert ((k <= length (txq_head t))%nat /\ Z.of_nat k < 65536) as [Hk Hk16].
    { pose proof (ok_frms _ _ Htok) as E. unfold zlen in E. unfold k, batch_size. lia. }
    step_with focus_upd_cat. step_with focus_get_txq.
    eapply (wp_step _ _ _ _ tt (focus s1 sch q ci (txq_after k t) (cat_served k))).
    { unfold cat_served. destruct (0 <? txq_frms (txq_after k t)); by apply focus_upd_cat. }
    eapply wp_step.
    { apply group_credit_update_focus; [by apply txq_after_ok|lia]. }
    apply wp_ret. simpl. rewrite (s32_small (Z.of_nat k)) by lia. split.
    + eapply (Inv_step s _ sch q ci t c); eauto.
      * constructor; try done; simpl; [by rewrite group_charge_len|apply group_charge_ok, HInv].
      * by apply cat_served_step.
      * by apply txq_after_ok.
      * simpl. lia.
      * destruct (cat_served_specs k) as [E1 E2]. eapply sched_ok_upd; eauto.
        unfold category_ok. by rewrite E1, E2.
    + eapply batch_some; eauto. done.
  - step. simpl.
    assert (forall s' head used, Inv (focus used sch q ci t (set_cat_head (fun _ => head) c)) ->
      s' = focus used sch q ci t (set_cat_head (fun _ => head) c) ->
      sched_frame s s' -> pd_txq_grps s' = pd_txq_grps s -> pd_txqs used = pd_txqs s ->
      Inv s' /\ batch_result s sctx credit 0 sctx s') as Hfin.
    { intros s' head used HI -> Hf Hg Hx. split; [done|]. constructor; [|done..].
      simpl. by rewrite Hx, insert_id. }
    case_decide as Hlast.
    + step_with focus_upd_cat. apply wp_ret. eapply (Hfin _ (q :: rest) s); try done.
      apply service_requeue; [by apply same_env_refl|done].
    + step_with focus_upd_cat. case_bool_decide.
      * eapply (wp_step _ _ _ _ tt (focus (set_pd_last_used_txq (fun _ => Some q) s) sch q ci t _));
          [reflexivity|]. apply wp_ret.
        eapply (Hfin _ (rest ++ [q]) (set_pd_last_used_txq (fun _ => Some q) s)); try done.
        apply service_requeue; [|by rewrite (Permutation_app_comm rest)].
        constructor; try done. apply HInv.
      * step. apply wp_ret. eapply (Hfin _ (rest ++ [q]) s); try done.
        apply service_requeue; [by apply same_env_refl|by rewrite (Permutation_app_comm rest)].
Qed.
End ServiceSpec.

Section SelectBatch.
Implicit Types (s : tx_pdev) (sch : wrr_adv) (c : category).

Lemma batch_result_put s sch sch' sctx credit r sctx' s' :
  pd_scheduler s = Some sch -> same_but_counts (sch_categories sch) (sch_categories sch') ->
  batch_result (set_pd_scheduler (fun _ => Some sch') s) sctx credit r sctx' s' ->
  batch_result s sctx credit r sctx' s'.
Proof.
  intros Hs Hsame Hb. destruct Hb as [s' H1 H2 Hf|s' q t ci sch0 c k Hq Ha Hh Hs0 Hc Hth Hr Hk H1 H2 Hf].
  - by apply batch_none.
  - simpl in Hs0. simplify_eq. symmetry in Hsame.
    destruct (same_lookup _ _ _ _ Hsame Hc) as (c0 & Hc0 & He).
    assert (cat_specs c0 = cat_specs c) as Hsp by (by apply (f_equal cat_specs) in He).
    rewrite <- Hsp in *. eapply batch_some; eauto.
Qed.

Lemma sched_ok_same sch sch' :
  sched_ok sch -> wf_sched sch' -> same_but_counts (sch_categories sch) (sch_categories sch') ->
  0 <= sch_index sch' < OL_TX_SCHED_WRR_ADV_NUM_CATEGORIES -> sched_ok sch'.
Proof.
  intros [_ _ Hsp] Hwf Hsame Hi. constructor; try done.
  apply Forall_lookup_2. intros i c' Hc'.
  assert (znth (sch_categories sch') (Z.of_nat i) = Some c') as Hz
    by (apply znth_Some; rewrite Nat2Z.id; split; [lia|done]).
  symmetry in Hsame. destruct (same_lookup _ _ _ _ Hsame Hz) as (c & [_ Hc]%znth_Some & He).
  apply (f_equal cat_specs) in He. simpl in He.
  pose proof (Forall_lookup_1 _ _ _ _ Hsp Hc) as Hx. unfold specs_ok in *. by rewrite <- He.
Qed.

(** What the counters of the chosen category become. *)
Lemma counts_upd sch sch1 ci c c' :
  sched_ok sch -> wf_sched sch1 -> same_but_counts (sch_categories sch) (sch_categories sch1) ->
  sch_index sch1 = sch_index sch -> znth (sch_categories sch1) ci = Some c ->
  category_ok c' -> erase_count c' = erase_count c ->
  let sch' := set_sch_categories (fun l => zset l ci c') sch1 in
  sched_ok sch' /\ same_but_counts (sch_categories sch) (sch_categories sch').
Proof.
  intros Hok Hwf Hsame Hi Hc Hc' He sch'.
  assert (same_but_counts (sch_categories sch) (sch_categories sch')) as Hs'.
  { rewrite Hsame. by eapply same_upd. }
  split; [|done]. eapply (sched_ok_same sch); [done|by eapply wf_upd|done|].
  simpl. rewrite Hi. apply Hok.
Qed.

(** The scheduler with category [ci] replaced. *)
Definition with_cat (sch : wrr_adv) (ci : Z) (c : category) : wrr_adv :=
  set_sch_categories (fun l => zset l ci c) sch.
Definition put (sch : wrr_adv) (s : tx_pdev) : tx_pdev := set_pd_scheduler (fun _ => Some sch) s.

Lemma put_get_cat sch ci c s :
  0 <= ci < zlen (sch_categories sch) ->
  get_cat ci (put (with_cat sch ci c) s) = Some (c, put (with_cat sch ci c) s).
Proof.
  intros. unfold get_cat, get_sched, get, mbind, M_bind, lift. simpl. by rewrite znth_zset_eq.
Qed.

Lemma put_upd_cat sch ci c f s :
  0 <= ci < zlen (sch_categories sch) ->
  upd_cat ci f (put (with_cat sch ci c) s) = Some (tt, put (with_cat sch ci (f c)) s).
Proof.
  intros. unfold upd_cat, get_sched, get, mbind, M_bind, lift. simpl. rewrite znth_zset_eq by done.
  unfold put_sched, modify, put, with_cat, set_sch_categories, set_pd_scheduler. simpl.
  unfold zset. by rewrite list_insert_insert_eq.
Qed.

Lemma ol_tx_sched_select_batch_spec s sctx credit :
  Inv s -> 0 <= credit < 2 ^ 31 ->
  wp (ol_tx_sched_select_batch_wrr_adv sctx credit)
    (fun r s' => Inv s' /\ batch_result s sctx credit r.1 r.2 s') s.
Proof.
  intros HInv Hcr. pose proof HInv as [(sch & Hs & Hok & _) _ _ _ _].
  destruct (wrr_adv_select_loop_spec (wrr_adv_select_fuel sch) sch (sch_index sch))
    as (sch' & idx & Hloop & sch1 & [Hwf1 Hsame Hidx Hrange _ _] & Hres);
    [apply Hok|pose proof (so_index _ Hok); unfold OL_TX_SCHED_WRR_ADV_NUM_CATEGORIES in *; lia
    |unfold wrr_adv_select_fuel; pose proof (so_index _ Hok); lia|].
  unfold ol_tx_sched_select_batch_wrr_adv.
  eapply (wp_step _ _ _ _ sch s); [unfold get_sched, mbind, M_bind, get, lift; by rewrite Hs|].
  eapply (wp_step _ _ _ _ (sch', idx) s); [by rewrite Hloop|].
  eapply (wp_step _ _ _ _ tt (put sch' s)); [done|].
  assert (Hput : forall sch0, sched_ok sch0 -> same_but_counts (sch_categories sch) (sch_categories sch0) ->
            Inv (put sch0 s) /\ batch_result s sctx credit 0 sctx (put sch0 s)).
  { intros sch0 Hok0 Hs0. split; [by eapply Inv_put_sched|by apply batch_none]. }
  pose proof (so_index _ Hok) as Hi0.
  unfold OL_TX_SCHED_WRR_ADV_NUM_CATEGORIES in *.
  destruct Hres as [[-> ->]|(ci & c & Hi9 & Hci & Hc & Hact & Hw & ->)].
  { apply wp_ret. apply Hput; [|done]. eapply sched_ok_same; eauto. rewrite Hidx. apply Hok. }
  rewrite (proj2 (Z.leb_gt 9 idx)) by done.
  fold (with_cat sch1 ci (wrr_bump c)). pose proof (znth_lt_Some _ _ _ Hc) as Hr.
  eapply (wp_step _ _ _ _ ci (put _ s)); [simpl; by rewrite Hci|].
  step_with put_get_cat.
  assert (category_ok c) as Hcok.
  { destruct Hwf1 as [_ _ Hall]. apply znth_Some in Hc as [_ Hc]. by eapply Forall_lookup_1. }
  assert (sched_ok sch1) as Hok1
    by (eapply (sched_ok_same sch); [done..|rewrite Hidx; apply Hok]).
  destruct (sched_ok_category sch1 ci c Hok1 Hc) as [_ (_ & _ & Hth & _)].
  simpl (cat_specs _). rewrite (u32_small (credit_threshold _)) by lia.
  assert (Hcount : forall c', category_ok c' -> erase_count c' = erase_count c ->
    sched_ok (with_cat sch1 ci c') /\
    same_but_counts (sch_categories sch) (sch_categories (with_cat sch1 ci c'))).
  { intros. by eapply counts_upd. }
  destruct (Z.ltb_spec credit (credit_threshold (cat_specs c))) as [Hlow|Hhigh].
  { step_with put_upd_cat. apply wp_ret. apply Hput; apply Hcount; try done.
    all: destruct Hcok as [? ?]; split; [|done]; simpl; rewrite s32_sub_l, s32_small;
      unfold max_weight in *; lia. }
  step_with put_upd_cat.
  set (c2 := set_cat_wrr_count (fun _ => 0) (wrr_bump c)).
  assert (category_ok c2) as Hcok2.
  { destruct Hcok as [? ?]. split; [|done]. simpl. unfold max_weight. lia. }
  destruct (Hcount c2 Hcok2 eq_refl) as [Hok2 Hsame2].
  eapply (wp_step _ _ _ _ (with_cat sch1 ci c2)); [done|].
  eapply (wp_step _ _ _ _ _ (put (with_cat sch1 ci c2) s)).
  { rewrite rotate_eq; [reflexivity|by apply (wf_order_len sch1)|unfold OL_TX_SCHED_WRR_ADV_NUM_CATEGORIES; lia]. }
  set (sch3 := set_sch_index (fun _ => idx) (set_sch_order (rotate_list idx) (with_cat sch1 ci c2))).
  eapply (wp_step _ _ _ _ tt (put sch3 s)); [done|].
  assert (sched_ok sch3) as Hok3.
  { apply (sched_ok_same (with_cat sch1 ci c2)); try done;
      [|simpl; unfold OL_TX_SCHED_WRR_ADV_NUM_CATEGORIES; lia].
    destruct (wf_rotate (with_cat sch1 ci c2) idx) as [? ? ?]; [apply Hok2|]. by constructor. }
  assert (Inv (put sch3 s)) as HInv3 by (by eapply Inv_put_sched).
  assert (znth (sch_categories sch3) ci = Some c2) as Hc3 by (simpl; by apply znth_zset_eq).
  destruct (active_cat_head (put sch3 s) sch3 ci c2 HInv3 eq_refl Hc3 Hact) as (q & rest & t & Hh & Hq & Ha & Hhome).
  change (cat_head (wrr_bump c)) with (cat_head c2). rewrite Hh.
  eapply wp_mono; [eapply (service_spec (put sch3 s) sch3 ci c2 q rest t); eauto|].
  simpl. intros r s' [HI Hb]. split; [done|].
  apply (batch_result_put s sch sch3); [done|exact Hsame2|exact Hb].
Qed.
End SelectBatch.
