(* ===== verification/TxDispatch.v ===== *)
(** [ol_tx_sched] as a whole: the loop over batches terminates, every frame
    that leaves a queue is handed to the target once and in order, the credit
    balances, and the invariant of [TxInv] holds again at the end. *)
From Stdlib Require Import ZArith Lia.
From stdpp Require Import prelude gmap list numbers.
From S2P Require Import Prelude.
From S2P Require Import TxTypes.
From S2P Require Import TxCore.
From S2P Require Import TxSched.
From S2P Require Import TxQueue.
From S2P Require Import TxSchedSpec.
From S2P Require Import TxInv.
From S2P Require Import TxSchedInv.

(** All the frames in the queues. *)
Definition all_frames (m : gmap txq_id txq) : list tx_desc :=
  map_to_list m ≫= fun qt => txq_head qt.2.

(** [m'] is [m] with frames taken off the front of some queues. *)
Definition fronts_taken (m m' : gmap txq_id txq) : Prop :=
  forall q t, m !! q = Some t -> exists n t', m' !! q = Some t' /\
    txq_head t' = drop n (txq_head t) /\ txq_paused_total t' = txq_paused_total t.

Section Frames.
Implicit Types m : gmap txq_id txq.

Lemma all_frames_insert_new m q t :
  m !! q = None -> all_frames (<[q := t]> m) ≡ₚ txq_head t ++ all_frames m.
Proof. intros. unfold all_frames. by rewrite map_to_list_insert. Qed.

Lemma all_frames_delete m q t :
  m !! q = Some t -> all_frames m ≡ₚ txq_head t ++ all_frames (delete q m).
Proof.
  intros. rewrite <- all_frames_insert_new by apply lookup_delete_eq.
  by rewrite insert_delete_id.
Qed.

(** Replacing a queue by its rest takes the front out of [all_frames]. *)
Lemma all_frames_take m q t t' k :
  m !! q = Some t -> txq_head t' = drop k (txq_head t) ->
  all_frames m ≡ₚ take k (txq_head t) ++ all_frames (<[q := t']> m).
Proof.
  intros Hq Ht. rewrite (all_frames_delete m q t) by done.
  rewrite <- insert_delete_eq, all_frames_insert_new by apply lookup_delete_eq.
  by rewrite Ht, app_assoc, take_drop.
Qed.

Lemma all_frames_length m : 
  (forall q t, m !! q = Some t -> txq_frms t = zlen (txq_head t)) ->
  zlen (all_frames m) = map_sum txq_frms m.
Proof.
  intros H. unfold all_frames, map_sum.
  assert (forall qt, qt ∈ map_to_list m -> txq_frms qt.2 = zlen (txq_head qt.2)) as Hl.
  { intros [q t] Hx%elem_of_map_to_list. by apply (H q). }
  revert Hl. generalize (map_to_list m). intros l. induction l as [|x l IH]; intros Hl; [done|].
  rewrite bind_cons, zlen_app, zsum_cons, Hl, IH; [done| |]; set_solver.
Qed.

Lemma fronts_taken_refl m : fronts_taken m m.
Proof. intros q t Hq. exists 0%nat, t. by rewrite drop_0. Qed.

Lemma fronts_taken_trans m m1 m2 :
  fronts_taken m m1 -> fronts_taken m1 m2 -> fronts_taken m m2.
Proof.
  intros H1 H2 q t Hq. destruct (H1 q t Hq) as (n & t1 & Hq1 & E1 & P1).
  destruct (H2 q t1 Hq1) as (k & t2 & Hq2 & E2 & P2).
  exists (n + k)%nat, t2. split_and!; [done| |congruence].
  by rewrite E2, E1, drop_drop.
Qed.

Lemma fronts_taken_step m q t k :
  m !! q = Some t -> fronts_taken m (<[q := txq_after k t]> m).
Proof.
  intros Hq j u Hj. destruct (decide (j = q)) as [->|].
  - simplify_eq. exists k, (txq_after k t). by rewrite lookup_insert_eq.
  - exists 0%nat, u. by rewrite lookup_insert_ne, drop_0.
Qed.
End Frames.

(** ** The loop *)

(** The state of the loop: the frames collected so far left the queues and
    cost one credit each. *)
Record collecting (s0 s : tx_pdev) (sctx : sched_ctx) : Prop := mk_collecting {
  cl_inv : Inv s;
  cl_frms : sctx_frms sctx = zlen (sctx_head sctx);
  cl_credit : pd_target_tx_credit s + zlen (sctx_head sctx) = pd_target_tx_credit s0;
  cl_frames : all_frames (pd_txqs s0) ≡ₚ sctx_head sctx ++ all_frames (pd_txqs s);
  cl_fronts : fronts_taken (pd_txqs s0) (pd_txqs s);
  cl_grps : zlen (pd_txq_grps s) = zlen (pd_txq_grps s0);
  cl_frame : sched_frame (set_pd_target_tx_credit (fun _ => pd_target_tx_credit s) s0) s }.

Section Loop.
Lemma Inv_frames_length s : Inv s -> zlen (all_frames (pd_txqs s)) = total_frms s.
Proof.
  intros [_ Htxq _ _ _]. apply all_frames_length. intros q t Hq.
  destruct (Htxq q t Hq) as [[? _ _ _ _ _ _ _] _]. done.
Qed.

Lemma sched_frame_credit s s' n :
  sched_frame s s' ->
  sched_frame (set_pd_target_tx_credit (fun _ => n) s) (set_pd_target_tx_credit (fun _ => n) s').
Proof. intros H. unfold sched_frame in *. by rewrite H. Qed.

Lemma sched_frame_trans s s1 s2 : sched_frame s s1 -> sched_frame s1 s2 -> sched_frame s s2.
Proof. unfold sched_frame. intros -> ->. done. Qed.

(** One batch keeps the loop state. *)
Lemma collecting_batch s0 s sctx used sctx' s' :
  Inv s0 -> collecting s0 s sctx -> 0 < pd_target_tx_credit s -> Inv s' ->
  batch_result s sctx (pd_target_tx_credit s) used sctx' s' ->
  0 <= used <= pd_target_tx_credit s /\
  collecting s0 (set_pd_target_tx_credit (fun c => c - used) s') sctx'.
Proof.
  intros HInv0 [HInv Hfr Hcr Hall Hfront Hgl0 Hframe] Hpos HInv' Hb.
  assert (sched_frame s s' /\ pd_target_tx_credit s' = pd_target_tx_credit s) as [Hsf Htc].
  { destruct Hb as [s' _ _ H|s' q t ci sch c k _ _ _ _ _ _ _ _ _ _ H];
      split; try done;
      unfold sched_frame in H; rewrite H; done. }
  assert (HIf : forall n, Inv (set_pd_target_tx_credit n s')).
  { intros n. apply (Inv_env s'); [done| |done]. constructor; try done. apply HInv'. }
  assert (Hfrm : forall n, sched_frame (set_pd_target_tx_credit (fun _ => n (pd_target_tx_credit s')) s0)
                             (set_pd_target_tx_credit n s')).
  { intros n. apply (sched_frame_credit _ _ (n (pd_target_tx_credit s'))) in Hframe.
    apply (sched_frame_credit _ _ (n (pd_target_tx_credit s'))) in Hsf.
    eapply sched_frame_trans; [exact Hframe|exact Hsf]. }
  destruct Hb as [s' Ht Hg _|s' q t ci sch c k Hq Ha Hh Hs Hc Hth Hr Hk Ht Hg _].
  - split; [lia|]. constructor; simpl; rewrite ?Ht; try done; [lia|by rewrite Hg|apply Hfrm].
  - pose proof (inv_txq _ HInv q t Hq) as [Htok _].
    pose proof (ok_frms _ _ Htok) as Hlen. unfold zlen in Hlen.
    pose proof (group_limit_bounds s t (pd_target_tx_credit s) ltac:(lia)) as Hgl.
    assert (0 <= credit_reserve (cat_specs c)) as Hres.
    { destruct HInv as [(sch0 & ? & Hok & _) _ _ _ _]. simplify_eq.
      destruct (sched_ok_category _ _ _ Hok Hc) as [_ [? _]]. lia. }
    assert ((k <= length (txq_head t))%nat /\ Z.of_nat k <= pd_target_tx_credit s) as [Hkl Hkc]
      by (rewrite Hk; unfold batch_size; lia).
    pose proof (all_frames_take (pd_txqs s) q t (txq_after k t) k Hq eq_refl) as Hp.
    assert (zlen (sctx_head sctx) + Z.of_nat k < 65536) as Hbound.
    { pose proof (Inv_frames_length s0 HInv0) as E. pose proof (inv_total _ HInv0).
      pose proof (inv_pool _ HInv0). unfold zlen in *. rewrite Hall, Hp in E.
      rewrite !length_app, length_take in E. lia. }
    pose proof (zlen_nonneg (sctx_head sctx)).
    split; [lia|]. constructor; simpl; rewrite ?Ht; try done.
    + rewrite zlen_app. unfold zlen at 2. rewrite length_take. rewrite Hfr, s32_small; lia.
    + rewrite zlen_app. unfold zlen at 2. rewrite length_take. lia.
    + by rewrite Hall, Hp, <- app_assoc.
    + eapply fronts_taken_trans; [done|]. by apply fronts_taken_step.
    + by rewrite Hg, group_charge_len.
    + apply Hfrm.
Qed.

(** The loop ends within the fuel, with the credit used up or a batch that
    used none. *)
Lemma ol_tx_sched_loop_spec fuel s0 s sctx :
  Inv s0 -> collecting s0 s sctx -> pd_target_tx_credit s < 2 ^ 31 ->
  (Z.to_nat (pd_target_tx_credit s) < fuel)%nat ->
  wp (ol_tx_sched_loop fuel sctx) (fun sctx' s' => collecting s0 s' sctx' /\
    Z.min 0 (pd_target_tx_credit s) <= pd_target_tx_credit s') s.
Proof.
  intros HInv0. revert s sctx. induction fuel as [|fuel IH]; intros s sctx Hcl Hlt Hfuel; [lia|].
  simpl. step. destruct (Z.ltb_spec 0 (pd_target_tx_credit s)) as [Hpos|]; [|by apply wp_ret; split; [done|lia]].
  rewrite u32_small by lia. apply wp_bind.
  eapply wp_mono; [apply ol_tx_sched_select_batch_spec; [apply Hcl|lia]|].
  intros [used sctx'] s' [HInv' Hb]. simpl in Hb.
  assert (pd_target_tx_credit s' = pd_target_tx_credit s) as Htc.
  { destruct Hb as [s' _ _ H|s' q t ci sch c k _ _ _ _ _ _ _ _ _ _ H];
      unfold sched_frame in H; rewrite H; done. }
  destruct (collecting_batch s0 s sctx used sctx' s') as [Hu Hcl']; try done.
  destruct (Z.ltb_spec 0 used) as [Hu0|Hu0]; simpl.
  - step. rewrite (proj2 (Z.eqb_neq used 0)) by lia.
    assert (set_pd_target_tx_credit (fun c => s32 (c - used)) s' =
            set_pd_target_tx_credit (fun c => c - used) s') as ->.
    { unfold set_pd_target_tx_credit. rewrite s32_small by lia. done. }
    eapply wp_mono; [apply IH; simpl; [done|lia..]|]. simpl. intros ? ? [? Hn].
    split; [done|lia].
  - step. replace used with 0 in * by lia. simpl. apply wp_ret.
    assert (set_pd_target_tx_credit (fun c => c - 0) s' = s') as E.
    { destruct s'. unfold set_pd_target_tx_credit. simpl. by rewrite Z.sub_0_r. }
    rewrite E in Hcl'. split; [done|lia].
Qed.
End Loop.


(** ** Dispatch *)
Section Dispatch.
Context `{HttTx}.

(** The frames the target refuses. *)
Definition refused (l : list tx_desc) : list tx_desc := filter (fun d => htt_tx_send_base d = true) l.

(** [l] went to the target; the refused frames were freed and their credit
    returned. *)
Record dispatched (s : tx_pdev) (l : list tx_desc) (s' : tx_pdev) : Prop := mk_dispatched {
  dp_sent : concat (pd_sent s') = concat (pd_sent s) ++ l;
  dp_freed : pd_freed s' ≡ₚ pd_freed s ++ refused l;
  dp_credit : pd_target_tx_credit s' = pd_target_tx_credit s + zlen (refused l);
  dp_frame : s' = set_pd_sent (fun _ => pd_sent s') (set_pd_freed (fun _ => pd_freed s')
               (set_pd_target_tx_credit (fun _ => pd_target_tx_credit s') s)) }.

Lemma refused_app l k : refused (l ++ k) = refused l ++ refused k.
Proof. apply list.filter_app. Qed.

Lemma refused_length l : zlen (refused l) <= zlen l.
Proof. unfold zlen. pose proof (list.length_filter (fun d => htt_tx_send_base d = true) l).
  unfold refused. lia. Qed.

Lemma htt_tx_send_batch_all batch rejected :
  htt_tx_send_batch (length batch) batch rejected = Some (rev (refused batch) ++ rejected).
Proof.
  revert rejected. induction batch as [|d batch IH]; intros rejected; [done|].
  simpl. rewrite IH. unfold refused. rewrite list.filter_cons.
  case_decide as Hd; [rewrite Hd; simpl; by rewrite <- app_assoc|].
  apply not_true_is_false in Hd. by rewrite Hd.
Qed.

Lemma htt_tx_send_batch_app batch rest rejected :
  htt_tx_send_batch (length batch) (batch ++ rest) rejected =
  htt_tx_send_batch (length batch) batch rejected.
Proof. revert rejected. induction batch as [|d batch IH]; intros; simpl; [by destruct rest|apply IH]. Qed.

Lemma for_each_reject l s :
  -2 ^ 31 <= pd_target_tx_credit s -> pd_target_tx_credit s + zlen l < 2 ^ 31 ->
  for_each l reject_frame s =
  Some (tt, set_pd_freed (fun f => f ++ l)
              (set_pd_target_tx_credit (fun c => c + zlen l) s)).
Proof.
  revert s. induction l as [|d l IH]; intros s H1 H2; simpl.
  { destruct s. unfold skip, set_pd_freed, set_pd_target_tx_credit. simpl.
    by rewrite app_nil_r, Z.add_0_r. }
  rewrite zlen_cons in H2. pose proof (zlen_nonneg l).
  unfold mbind, M_bind, reject_frame, log_freed, modify, htt_tx_msdu_credit. simpl.
  rewrite IH; simpl; rewrite ?s32_small by lia; [|lia..].
  unfold set_pd_freed, set_pd_target_tx_credit. simpl.
  rewrite s32_small by lia. rewrite zlen_cons, <- app_assoc.
  by replace (pd_target_tx_credit s + 1 + zlen l) with (pd_target_tx_credit s + (1 + zlen l)) by lia.
Qed.

Lemma dispatched_trans s l s1 k s2 :
  dispatched s l s1 -> dispatched s1 k s2 -> dispatched s (l ++ k) s2.
Proof.
  intros [A1 A2 A3 A4] [B1 B2 B3 B4]. constructor.
  - by rewrite B1, A1, app_assoc.
  - by rewrite B2, A2, refused_app, app_assoc.
  - rewrite B3, A3, refused_app, zlen_app. lia.
  - rewrite B4, A4. done.
Qed.

Lemma dispatched_nil s : dispatched s [] s.
Proof.
  assert (refused [] = []) as E by done.
  constructor; rewrite ?E, ?app_nil_r, ?zlen_nil; [done..|lia|by destruct s].
Qed.

Lemma ol_tx_send_batch_spec s batch :
  -2 ^ 31 <= pd_target_tx_credit s -> pd_target_tx_credit s + zlen batch < 2 ^ 31 ->
  forall rest,
  wp (ol_tx_send_batch (batch ++ rest) (zlen batch)) (fun _ s' => dispatched s batch s') s.
Proof.
  intros H1 H2 rest. unfold ol_tx_send_batch.
  replace (Z.to_nat (zlen batch)) with (length batch) by (unfold zlen; lia). step.
  rewrite take_app_length.
  assert (htt_tx_send_batch (length batch) (batch ++ rest) [] = Some (rev (refused batch))) as Hrej.
  { rewrite (htt_tx_send_batch_app batch rest []). by rewrite htt_tx_send_batch_all, app_nil_r. }
  rewrite Hrej. step.
  pose proof (refused_length batch).
  assert (zlen (rev (refused batch)) = zlen (refused batch)) as Hrev
    by (unfold zlen; by rewrite length_rev).
  eapply wp_run; [apply for_each_reject; simpl; lia|].
  constructor; simpl; [|by rewrite <- Permutation_rev|lia|done].
  rewrite concat_app. simpl. by rewrite app_nil_r.
Qed.

(** Frames with and without room for the id alike go out in order. *)
Lemma ol_tx_sched_dispatch_loop_spec head s batch :
  -2 ^ 31 <= pd_target_tx_credit s ->
  pd_target_tx_credit s + zlen batch + zlen head < 2 ^ 31 ->
  wp (ol_tx_sched_dispatch_loop (length head) head batch (zlen batch))
    (fun _ s' => dispatched s (batch ++ head) s') s.
Proof.
  revert s batch. induction head as [|d head IH]; intros s batch H1 H2; simpl.
  - rewrite app_nil_r. destruct batch as [|b batch].
    + apply wp_ret. by apply dispatched_nil.
    + rewrite zlen_nil in H2.
      pose proof (ol_tx_send_batch_spec s (b :: batch) H1 ltac:(lia) []) as Hs.
      by rewrite app_nil_r in Hs.
  - rewrite zlen_cons in H2. destruct (td_id_storage d).
    + replace (zlen batch + 1) with (zlen (batch ++ [d])) by (rewrite zlen_app; done).
      replace (batch ++ d :: head) with ((batch ++ [d]) ++ head) by (by rewrite <- app_assoc).
      apply IH; [done|]. rewrite zlen_app. unfold zlen at 2. simpl. lia.
    + pose proof (zlen_nonneg head).
      apply wp_bind. eapply wp_mono; [apply ol_tx_send_batch_spec; lia|].
      intros u1 s1 Hd1. simpl in Hd1. pose proof (refused_length batch). pose proof (zlen_nonneg (refused batch)).
      pose proof (dp_credit _ _ _ Hd1) as Hc1.
      step. set (s2 := set_pd_sent _ s1).
      apply wp_bind. eapply (wp_mono _ (fun _ s3 => dispatched s1 [d] s3)).
      { unfold refused in *. destruct (htt_tx_send_base d) eqn:Hb.
        - eapply wp_run.
          { unfold reject_frame, log_freed, modify, mbind, M_bind. reflexivity. }
          constructor; simpl; [by rewrite concat_app| |
            |by unfold set_pd_sent, set_pd_freed, set_pd_target_tx_credit].
          + unfold refused. rewrite list.filter_cons, decide_True; done.
          + unfold refused. rewrite list.filter_cons, decide_True by done.
            unfold htt_tx_msdu_credit. rewrite s32_small by lia. done.
        - apply wp_ret. constructor; simpl; [by rewrite concat_app| |
            |subst s2; clear; by destruct s1].
          + unfold refused. rewrite list.filter_cons, decide_False by congruence.
            by rewrite app_nil_r.
          + unfold refused. rewrite list.filter_cons, decide_False by congruence. 
            change (filter _ []) with (@nil tx_desc). rewrite zlen_nil. lia. }
      intros u3 s3 Hd3. simpl in Hd3. pose proof (dp_credit _ _ _ Hd3) as Hc3.
      pose proof (refused_length [d]). pose proof (zlen_nonneg (refused [d])).
      change (zlen [d]) with 1 in *.
      change 0 with (zlen (@nil tx_desc)).
      eapply wp_mono; [apply IH; rewrite ?zlen_nil; lia|].
      intros u4 s4 Hd4. simpl in Hd4.
      replace (batch ++ d :: head) with (batch ++ [d] ++ head) by done.
      eapply dispatched_trans; [done|]. by eapply dispatched_trans.
Qed.
End Dispatch.

(** ** The scheduler as a whole *)
Section Sched.
Context `{HttTx}.

(** What [ol_tx_sched] did: [sent] left the fronts of the queues for the
    target, [cali] credits went to a pending calibration download. *)
Record scheduled (s : tx_pdev) (cali : Z) (sent : list tx_desc) (s' : tx_pdev) : Prop := mk_scheduled {
  sd_inv : Inv s';
  sd_frames : all_frames (pd_txqs s) ≡ₚ sent ++ all_frames (pd_txqs s');
  sd_fronts : fronts_taken (pd_txqs s) (pd_txqs s');
  sd_sent : concat (pd_sent s') = concat (pd_sent s) ++ sent;
  sd_freed : pd_freed s' ≡ₚ pd_freed s ++ refused sent;
  sd_credit : pd_target_tx_credit s' = pd_target_tx_credit s - cali - zlen sent + zlen (refused sent);
  sd_cali : (cali = 0 /\ pd_tx_cali_pending s' = pd_tx_cali_pending s) \/
    (cali = 2 /\ 2 <= pd_target_tx_credit s /\ pd_tx_cali_pending s' = 0);
  sd_budget : 0 <= pd_target_tx_credit s -> zlen sent <= pd_target_tx_credit s - cali;
  sd_same : pd_sched_status s' = pd_sched_status s /\ pd_rsrc_cnt s' = pd_rsrc_cnt s /\
    pd_tid_to_ac s' = pd_tid_to_ac s /\ pd_vdev_list s' = pd_vdev_list s /\
    pd_desc_pool_size s' = pd_desc_pool_size s /\ zlen (pd_txq_grps s') = zlen (pd_txq_grps s) /\
    pd_rsrc_threshold_lo s' = pd_rsrc_threshold_lo s /\ pd_rsrc_threshold_hi s' = pd_rsrc_threshold_hi s /\
    pd_peer_ref_cnt s' = pd_peer_ref_cnt s }.

Lemma Inv_credit f s : Inv s -> Inv (set_pd_target_tx_credit f s).
Proof. intros HI. apply (Inv_env s); [done|by constructor; try done; apply HI|done]. Qed.
Lemma Inv_status f s : Inv s -> Inv (set_pd_sched_status f s).
Proof. intros HI. apply (Inv_env s); [done|by constructor; try done; apply HI|done]. Qed.
Lemma Inv_last_used f s : Inv s -> Inv (set_pd_last_used_txq f s).
Proof. intros HI. apply (Inv_env s); [done|by constructor; try done; apply HI|done]. Qed.
Lemma Inv_cali f s : Inv s -> Inv (set_pd_tx_cali_pending f s).
Proof. intros HI. apply (Inv_env s); [done|by constructor; try done; apply HI|done]. Qed.
Lemma Inv_freed f s : Inv s -> Inv (set_pd_freed f s).
Proof. intros HI. apply (Inv_env s); [done|by constructor; try done; apply HI|done]. Qed.
Lemma Inv_sent f s : Inv s -> Inv (set_pd_sent f s).
Proof. intros HI. apply (Inv_env s); [done|by constructor; try done; apply HI|done]. Qed.
Lemma Inv_rsrc f s : Inv s -> Inv (set_pd_rsrc_cnt f s).
Proof. intros HI. apply (Inv_env s); [done|by constructor; try done; apply HI|done]. Qed.

(** The selection starts from the front of the order list. *)
Lemma select_init_spec s :
  Inv s -> exists sch, pd_scheduler s = Some sch /\
    ol_tx_sched_select_init_wrr_adv s =
      Some (tt, set_pd_last_used_txq (fun _ => None) (put (set_sch_index (fun _ => 0) sch) s)) /\
    Inv (put (set_sch_index (fun _ => 0) sch) s).
Proof.
  intros HI. pose proof HI as [(sch & Hs & Hok & _) _ _ _ _]. exists sch. split; [done|]. split.
  - unfold ol_tx_sched_select_init_wrr_adv, get_sched, get, lift, put_sched, modify, mbind, M_bind.
    by rewrite Hs.
  - eapply Inv_put_sched; [done|done|done|]. destruct Hok as [[? ? ?] ? ?].
    by constructor.
Qed.

(** Collected frames that are dispatched amount to [scheduled]. *)
Lemma collecting_dispatched s s1 sctx s2 :
  collecting s s1 sctx -> dispatched s1 (sctx_head sctx) s2 ->
  Z.min 0 (pd_target_tx_credit s) <= pd_target_tx_credit s1 ->
  scheduled s 0 (sctx_head sctx) s2.
Proof.
  intros [HI Hfr Hcr Hall Hfronts Hgrps Hframe] [D1 D2 D3 D4] Hn.
  assert (forall A (f : tx_pdev -> A), (forall a b c x,
    f (set_pd_sent a (set_pd_freed b (set_pd_target_tx_credit c x))) = f x) -> f s2 = f s1)
    as Hs2.
  { intros A f Hf. rewrite D4. apply Hf. }
  constructor.
  - rewrite D4. by apply Inv_sent, Inv_freed, Inv_credit.
  - by rewrite (Hs2 _ pd_txqs).
  - by rewrite (Hs2 _ pd_txqs).
  - rewrite D1. unfold sched_frame in Hframe. by rewrite Hframe.
  - rewrite D2. unfold sched_frame in Hframe. by rewrite Hframe.
  - lia.
  - left. split; [done|]. rewrite (Hs2 _ pd_tx_cali_pending) by done.
    unfold sched_frame in Hframe. by rewrite Hframe.
  - lia.
  - rewrite (Hs2 _ pd_sched_status), (Hs2 _ pd_rsrc_cnt), (Hs2 _ pd_tid_to_ac), (Hs2 _ pd_vdev_list),
      (Hs2 _ pd_desc_pool_size), (Hs2 _ pd_rsrc_threshold_lo), (Hs2 _ pd_rsrc_threshold_hi),
      (Hs2 _ pd_peer_ref_cnt) by done.
    rewrite (Hs2 _ pd_txq_grps), Hgrps by done.
    unfold sched_frame in Hframe. rewrite Hframe. done.
Qed.

(** The run from an idle scheduler, after the calibration guard. *)
Lemma ol_tx_sched_run s :
  Inv s -> -2 ^ 31 <= pd_target_tx_credit s < 2 ^ 31 ->
  wp (ol_tx_sched_select_init_wrr_adv;;
      sctx ← ol_tx_sched_loop (S (Z.to_nat (pd_target_tx_credit s))) (mk_sched_ctx [] 0);
      ol_tx_sched_dispatch sctx)
    (fun _ s' => exists sent, scheduled s 0 sent s') s.
Proof.
  intros HI Hc. destruct (select_init_spec s HI) as (sch & Hs & Hinit & HI1).
  eapply wp_step; [exact Hinit|]. set (s1 := set_pd_last_used_txq _ _).
  assert (pd_target_tx_credit s1 = pd_target_tx_credit s) as Ec by done.
  assert (collecting s s1 (mk_sched_ctx [] 0)) as Hcl.
  { constructor; simpl; try done; [by apply Inv_last_used|rewrite zlen_nil; lia|apply fronts_taken_refl].
  }
  apply wp_bind. eapply wp_mono; [apply (ol_tx_sched_loop_spec _ s); try done; rewrite ?Ec; lia|].
  intros sctx s2 [Hcl2 Hn]. rewrite Ec in Hn. unfold ol_tx_sched_dispatch.
  pose proof (cl_frms _ _ _ Hcl2) as Hf. pose proof (cl_credit _ _ _ Hcl2) as Hcr.
  rewrite Hf. replace (Z.to_nat (zlen (sctx_head sctx))) with (length (sctx_head sctx))
    by (unfold zlen; lia).
  pose proof (ol_tx_sched_dispatch_loop_spec (sctx_head sctx) s2 []) as Hd.
  rewrite zlen_nil in Hd. eapply wp_mono; [apply Hd; lia|].
  intros u s3 Hd3. exists (sctx_head sctx). by eapply collecting_dispatched.
Qed.

Lemma scheduled_refl s : Inv s -> scheduled s 0 [] s.
Proof.
  intros HI. assert (refused [] = []) as E by done.
  constructor; rewrite ?E, ?zlen_nil, ?app_nil_r; try done; try lia.
  - apply fronts_taken_refl.
  - intros. change (zlen []) with 0. lia.
Qed.

Lemma scheduled_trans s cali s1 sent s2 :
  scheduled s cali [] s1 -> scheduled s1 0 sent s2 -> scheduled s cali sent s2.
Proof.
  intros [A1 A2 A3 A4 A5 A6 A7 A8 A9] [B1 B2 B3 B4 B5 B6 B7 B8 B9].
  assert (refused [] = []) as E by done. rewrite E, ?zlen_nil, ?app_nil_r in *.
  constructor; [done|etrans; [exact A2|exact B2]|by eapply fronts_taken_trans|by rewrite B4, A4
    |by rewrite B5, A5|lia| |lia|].
  - destruct B7 as [[_ Ep]|[? _]]; [|lia]. destruct A7 as [[? ?]|(? & ? & ?)]; [left|right]; lia.
  - destruct A9 as (?&?&?&?&?&?&?&?&?), B9 as (?&?&?&?&?&?&?&?&?). split_and!; congruence.
Qed.

Lemma cali_guard_spec s :
  Inv s -> -2 ^ 31 <= pd_target_tx_credit s < 2 ^ 31 ->
  wp ol_tx_sched_cali_guard (fun _ s' => exists cali, scheduled s cali [] s') s.
Proof.
  intros HI Hc. unfold ol_tx_sched_cali_guard. step.
  destruct (_ && _); [|apply wp_ret; exists 0; by apply scheduled_refl].
  destruct (Z.leb_spec 2 (pd_target_tx_credit s)) as [H2|];
    [|apply wp_ret; exists 0; by apply scheduled_refl].
  eapply (wp_step _ _ _ _ true (set_pd_target_tx_credit (fun c => s32 (c - 2)) s)).
  { unfold ol_tx_target_credit_dec, get, mbind, M_bind. by rewrite (proj2 (Z.ltb_ge _ 2)). }
  assert (refused [] = []) as E by done.
  step. apply wp_ret. exists 2. constructor; rewrite ?E, ?zlen_nil, ?app_nil_r; simpl; try done.
  - by apply Inv_cali, Inv_credit.
  - apply fronts_taken_refl.
  - rewrite s32_small; lia.
  - right. done.
  - intros. change (zlen []) with 0. lia.
Qed.

Lemma ol_tx_sched_spec s :
  Inv s -> -2 ^ 31 <= pd_target_tx_credit s < 2 ^ 31 ->
  wp ol_tx_sched (fun _ s' => exists cali sent, scheduled s cali sent s') s.
Proof.
  intros HI Hc. unfold ol_tx_sched. apply wp_bind. eapply wp_mono; [by apply cali_guard_spec|].
  intros go s1 [cali Hcali]. simpl in Hcali. pose proof (sd_inv _ _ _ _ Hcali) as HI1.
  apply wp_when; [|by eauto]. intros _. step.
  destruct (pd_sched_status s1) eqn:Est; [|eapply wp_run; [reflexivity|by eauto]].
  step. set (s2 := set_pd_sched_status _ s1).
  assert (Inv s2) as HI2 by (by apply Inv_status).
  assert (-2 ^ 31 <= pd_target_tx_credit s2 < 2 ^ 31) as Hc2.
  { change (pd_target_tx_credit s2) with (pd_target_tx_credit s1).
    pose proof (sd_credit _ _ _ _ Hcali) as E.
    change (zlen (refused [])) with 0 in E. change (zlen (@nil tx_desc)) with 0 in E. destruct (sd_cali _ _ _ _ Hcali) as [[? ?]|(? & ? & ?)]; lia. }
  change (pd_target_tx_credit s1) with (pd_target_tx_credit s2).
  apply wp_assoc, wp_assoc, wp_bind. eapply wp_mono; [apply wp_assoc; by apply ol_tx_sched_run|].
  intros u s3 [sent Hsent]. eapply wp_run; [reflexivity|].
  exists cali, sent. eapply scheduled_trans; [exact Hcali|].
  destruct Hsent as [B1 B2 B3 B4 B5 B6 B7 B8 B9]. constructor; simpl; try done.
  - by apply Inv_status.
  - destruct B9 as (?&?). by rewrite Est.
Qed.

Lemma ol_tx_sched_loop_no_credit n sctx s :
  pd_target_tx_credit s <= 0 -> ol_tx_sched_loop (S n) sctx s = Some (sctx, s).
Proof.
  intros Hc. simpl. unfold get, mbind, M_bind. by rewrite (proj2 (Z.ltb_ge 0 _)).
Qed.

(** Without credit nothing moves. *)
Lemma ol_tx_sched_no_credit s :
  Inv s -> pd_target_tx_credit s <= 0 ->
  wp ol_tx_sched (fun _ s' => Inv s' /\ pd_txqs s' = pd_txqs s /\ pd_freed s' = pd_freed s /\
    pd_sent s' = pd_sent s /\ pd_target_tx_credit s' = pd_target_tx_credit s) s.
Proof.
  intros HI Hc. unfold ol_tx_sched, ol_tx_sched_cali_guard. apply wp_bind. step.
  rewrite (proj2 (Z.leb_gt 2 _)) by lia.
  destruct (_ && _); apply wp_ret; [by apply wp_ret|]. simpl. step.
  destruct (pd_sched_status s); [|by apply wp_ret].
  step. destruct (select_init_spec s HI) as (sch & Hs & Hinit & HI1).
  set (s1 := set_pd_sched_status _ s).
  destruct (select_init_spec s1) as (sch1 & Hs1 & Hinit1 & HI2); [by apply Inv_status|].
  eapply wp_step; [exact Hinit1|].
  eapply wp_step; [by apply ol_tx_sched_loop_no_credit|]. step. eapply wp_run; [reflexivity|]. simpl.
  split; [|done]. by apply Inv_status, Inv_last_used.
Qed.
End Sched.
