(* ===== verification/TxQueueInv.v ===== *)
(** The invariant of [TxInv] under the queue operations of [ol_tx_queue.c]:
    enqueue, pause, unpause, free and the congestion discard, with what each
    does to the frames. *)
From Stdlib Require Import ZArith Lia.
From stdpp Require Import prelude gmap list numbers.
From S2P Require Import Prelude.
From S2P Require Import TxTypes.
From S2P Require Import TxCore.
From S2P Require Import TxSched.
From S2P Require Import TxQueue.
From S2P Require Import TxSchedSpec.
From S2P Require Import TxInv.
From S2P Require Import TxSchedInv.
From S2P Require Import TxDispatch.

(** ** Notifications in focus *)

Definition cat_enqueued (q : txq_id) (t : txq) (n b : Z) (c : category) : category :=
  let c1 := set_cat_frms (fun m => s32 (m + n)) (set_cat_bytes (fun m => s32 (m + b)) c) in
  if decide (txq_flag t = ol_tx_queue_active) then c1
  else set_cat_head (tailq_insert_tail q) (set_cat_active (fun _ => true) c1).

Definition cat_deactivated (t : txq) (head : list txq_id) (c : category) : category :=
  let c1 := set_cat_head (fun _ => head)
    (set_cat_frms (fun n => s32 (n - txq_frms t)) (set_cat_bytes (fun n => s32 (n - txq_bytes t)) c)) in
  if (cat_frms c1 =? 0) && cat_active c1 then set_cat_active (fun _ => false) c1 else c1.

Section Notify.
Context (base : tx_pdev) (sch : wrr_adv) (q : txq_id) (ci : Z).
Context (Hci : 0 <= ci < zlen (sch_categories sch)).
Implicit Types (t : txq) (c : category).

Lemma txq_enqueue_focus tid n b t c :
  znth (pd_tid_to_ac base) tid = Some ci ->
  ol_tx_sched_txq_enqueue_wrr_adv q tid n b (focus base sch q ci t c) =
  Some (tt, focus base sch q ci t (cat_enqueued q t n b c)).
Proof.
  intros Htid. unfold ol_tx_sched_txq_enqueue_wrr_adv, mbind, M_bind.
  rewrite (focus_tid_to_ac base sch q ci tid t c Htid).
  rewrite focus_upd_cat by done. rewrite focus_get_txq. unfold cat_enqueued, when.
  case_bool_decide; case_decide; try done. simpl. by rewrite focus_upd_cat by done.
Qed.

Lemma txq_deactivate_focus tid head t c :
  znth (pd_tid_to_ac base) tid = Some ci -> tailq_remove q (cat_head c) = Some head ->
  ol_tx_sched_txq_deactivate_wrr_adv q tid (focus base sch q ci t c) =
  Some (tt, focus base sch q ci t (cat_deactivated t head c)).
Proof.
  intros Htid Hrm. unfold ol_tx_sched_txq_deactivate_wrr_adv, mbind, M_bind.
  rewrite (focus_tid_to_ac base sch q ci tid t c Htid), focus_get_txq.
  rewrite focus_upd_cat, focus_get_cat by done. unfold lift. simpl cat_head. rewrite Hrm.
  rewrite !focus_upd_cat by done. done.
Qed.

Lemma notify_focus ev t c :
  ol_tx_sched_notify q ev (focus base sch q ci t c) =
  match ev with
  | OL_TX_ENQUEUE_FRAME tid bytes => ol_tx_sched_txq_enqueue_wrr_adv q tid 1 bytes
  | OL_TX_DELETE_QUEUE tid | OL_TX_PAUSE_QUEUE tid =>
      when (bool_decide (txq_flag t = ol_tx_queue_active))
        (ol_tx_sched_txq_deactivate_wrr_adv q tid)
  | OL_TX_UNPAUSE_QUEUE tid =>
      when (negb (txq_frms t =? 0))
        (ol_tx_sched_txq_enqueue_wrr_adv q tid (txq_frms t) (s32 (txq_bytes t)))
  | OL_TX_DISCARD_FRAMES cat frames bytes => ol_tx_sched_txq_discard_wrr_adv q cat frames bytes
  end (focus base sch q ci t c).
Proof.
  unfold ol_tx_sched_notify, get, mbind, M_bind. simpl. rewrite focus_get_txq. by destruct ev.
Qed.
End Notify.

(** ** Steps of one queue *)

(** What every lemma about a queue starts from. *)
Record queue_at (s : tx_pdev) (q : txq_id) (t : txq) (ci : Z) (sch : wrr_adv) (c : category) : Prop := mk_queue_at {
  qa_inv : Inv s;
  qa_txq : pd_txqs s !! q = Some t;
  qa_home : home (pd_tid_to_ac s) q = Some ci;
  qa_sched : pd_scheduler s = Some sch;
  qa_cat : znth (sch_categories sch) ci = Some c }.

Section Steps.
Lemma queue_at_intro s q t :
  Inv s -> pd_txqs s !! q = Some t -> exists ci sch c, queue_at s q t ci sch c.
Proof.
  intros HI Hq. pose proof HI as [(sch & Hs & Hok & _) Htxq _ _ _].
  destruct (Htxq q t Hq) as [_ (ci & Hh & Hr)].
  destruct Hok as [[_ Hl _] _ _].
  destruct (znth_in_range (sch_categories sch) ci) as [c Hc]; [by rewrite Hl|].
  exists ci, sch, c. by constructor.
Qed.

Lemma queue_at_facts s q t ci sch c :
  queue_at s q t ci sch c ->
  sched_ok sch /\ category_ok c /\ cat_ok (pd_tid_to_ac s) (pd_txqs s) ci c /\
  txq_ok (zlen (pd_txq_grps s)) t /\ 0 <= ci < zlen (sch_categories sch) /\
  0 <= cat_frms c < 65536 /\ total_frms s <= pd_desc_pool_size s < 65536.
Proof.
  intros [HI Hq Hh Hs Hc]. pose proof HI as [(sch0 & Hs0 & Hok & Hcats) Htxq ? ? _]. simplify_eq.
  destruct (Htxq q t Hq) as [Htok _]. pose proof (znth_lt_Some _ _ _ Hc).
  pose proof (cat_frms_bounds _ _ _ _ HI Hs Hc). pose proof (sched_ok_category _ _ _ Hok Hc) as [? _].
  split_and!; auto; lia.
Qed.

(** A step that keeps the weights and the WRR counter of the category. *)
Lemma Inv_queue_step s q t ci sch c base t' c' :
  queue_at s q t ci sch c -> same_env base s -> cat_step q t c t' c' ->
  txq_ok (zlen (pd_txq_grps s)) t' ->
  total_frms s - txq_frms t + txq_frms t' <= pd_desc_pool_size s ->
  cat_specs c' = cat_specs c -> cat_wrr_count c' = cat_wrr_count c ->
  Inv (focus base sch q ci t' c').
Proof.
  intros Hqa Henv Hstep Hok Htot Hsp Hcnt.
  destruct (queue_at_facts _ _ _ _ _ _ Hqa) as (Hso & Hco & _).
  destruct Hqa as [HI Hq Hh Hs Hc]. eapply (Inv_step s); eauto.
  eapply sched_ok_upd; eauto. unfold category_ok. by rewrite Hsp, Hcnt.
Qed.

Lemma cat_split_active s q t ci sch c :
  queue_at s q t ci sch c -> txq_flag t = ol_tx_queue_active ->
  exists head, tailq_remove q (cat_head c) = Some head /\ cat_head c ≡ₚ q :: head /\
    0 < txq_frms t <= cat_frms c.
Proof.
  intros Hqa Ha. destruct (queue_at_facts _ _ _ _ _ _ Hqa) as (_ & _ & Hck & _).
  destruct Hqa as [HI Hq Hh Hs Hc].
  destruct (tailq_remove_is_Some q (cat_head c)) as [head Hrm].
  { apply (ck_head _ _ _ _ Hck). split; [by exists t|done]. }
  exists head. split_and!; [done|by apply tailq_remove_perm|..];
    by apply (cat_frms_ge s sch ci c q t).
Qed.

(** Deactivation: the queue leaves its category with all it counts. *)
Lemma deactivated_step s q t ci sch c head t' :
  queue_at s q t ci sch c -> txq_flag t = ol_tx_queue_active ->
  tailq_remove q (cat_head c) = Some head -> txq_flag t' <> ol_tx_queue_active ->
  cat_step q t c t' (cat_deactivated t head c).
Proof.
  intros Hqa Ha Hrm Hn. destruct (queue_at_facts _ _ _ _ _ _ Hqa) as (_ & _ & Hck & _ & _ & Hr & _).
  destruct (cat_split_active _ _ _ _ _ _ Hqa Ha) as (h' & Hrm' & Hp & Hf). simplify_eq.
  pose proof (ck_active _ _ _ _ Hck) as Hca.
  unfold cat_deactivated. simpl. rewrite (s32_small (cat_frms c - _)) by lia.
  constructor; rewrite ?(contrib_active _ t Ha), ?(contrib_inactive _ _ Hn).
  - exists head. rewrite (entry_active q t), (entry_inactive q t') by done.
    split; [done|]. by destruct (_ && _).
  - destruct (_ && _); simpl; rewrite s32_small; lia.
  - destruct (_ && _); simpl; eqm_solve.
  - rewrite Hca. rewrite (proj2 (Z.eqb_neq (cat_frms c) 0)) by lia.
    rewrite andb_true_r. destruct (Z.eqb_spec (cat_frms c - txq_frms t) 0) as [E|E];
      simpl; rewrite s32_small by lia; rewrite ?Hca.
    + by rewrite E.
    + rewrite (proj2 (Z.eqb_neq (cat_frms c) 0)) by lia. by rewrite (proj2 (Z.eqb_neq _ 0)).
Qed.

(** Activation or growth of an active queue. *)
Lemma enqueued_step s q t ci sch c t1 t' n b :
  queue_at s q t ci sch c -> txq_flag t1 = txq_flag t ->
  txq_flag t' = ol_tx_queue_active -> 0 < n -> cat_frms c + n < 2 ^ 31 ->
  n = txq_frms t' - contrib txq_frms t ->
  eqm b (txq_bytes t' - contrib txq_bytes t) ->
  cat_step q t c t' (cat_enqueued q t1 n b c).
Proof.
  intros Hqa Hfl Ha Hn Hlim Hfr Hb.
  destruct (queue_at_facts _ _ _ _ _ _ Hqa) as (_ & _ & Hck & _ & _ & Hr & _).
  unfold cat_enqueued. rewrite Hfl.
  assert (s32 (cat_frms c + n) = cat_frms c + n) as Hs32 by (apply s32_small; lia).
  assert (s32 (cat_bytes c + b) = s32 (cat_bytes c - contrib txq_bytes t + txq_bytes t')) as Hbytes.
  { apply s32_eqm. rewrite Hb. apply eqm_eq. lia. }
  case_decide as Hact; constructor; simpl; rewrite ?(contrib_active _ t' Ha); try rewrite Hs32; try lia; try done.
  - destruct (cat_split_active _ _ _ _ _ _ Hqa Hact) as (h' & _ & Hp & Hf).
    exists h'. rewrite (entry_active q t), (entry_active q t') by done. done.
  - rewrite (ck_active _ _ _ _ Hck).
    destruct (cat_split_active _ _ _ _ _ _ Hqa Hact) as (_ & _ & _ & Hf).
    by rewrite !(proj2 (Z.eqb_neq _ 0)) by lia.
  - exists (cat_head c). rewrite (entry_inactive q t), (entry_active q t') by done.
    split; [done|]. unfold tailq_insert_tail. by rewrite (Permutation_app_comm (cat_head c)).
Qed.

(** A queue that is inactive before and after contributes nothing. *)
Lemma idle_step s q t ci sch c t' :
  queue_at s q t ci sch c -> txq_flag t <> ol_tx_queue_active ->
  txq_flag t' <> ol_tx_queue_active -> cat_step q t c t' c.
Proof.
  intros Hqa H1 H2. destruct (queue_at_facts _ _ _ _ _ _ Hqa) as (_ & _ & Hck & _).
  constructor; rewrite ?(contrib_inactive _ _ H1), ?(contrib_inactive _ _ H2); [|lia| |apply Hck].
  - exists (cat_head c). by rewrite !entry_inactive.
  - rewrite (ck_bytes _ _ _ _ Hck). eqm_solve.
Qed.
End Steps.

(** ** Operations on one queue *)

(** Queue [q] became [t'], its category followed, nothing else changed. *)
Definition one_queue (s : tx_pdev) (q : txq_id) (t' : txq) (s' : tx_pdev) : Prop :=
  exists sch', s' = set_pd_txqs (<[q := t']>) (set_pd_scheduler (fun _ => Some sch') s).

Definition txq_paused (t : txq) : txq :=
  set_txq_flag (fun _ => ol_tx_queue_paused) (set_txq_paused_total (fun n => n + 1) t).

Definition txq_unpaused (t : txq) : txq :=
  if txq_paused_total t =? 0 then t else
  set_txq_flag (fun f => if txq_paused_total t =? 1
    then if txq_frms t =? 0 then ol_tx_queue_empty else ol_tx_queue_active else f)
    (set_txq_paused_total (fun n => n - 1) t).

(** A queue with one more frame, scheduled unless it is paused. *)
Definition txq_with (d : tx_desc) (t : txq) : txq :=
  set_txq_flag (fun f => if decide (f = ol_tx_queue_paused) then f else ol_tx_queue_active)
    (set_txq_head (tailq_insert_tail d) (set_txq_frms (fun n => n + 1)
       (set_txq_bytes (fun n => u32 (n + td_len d)) t))).

Definition txq_freed (t : txq) : txq :=
  set_txq_frms (fun _ => 0) (set_txq_bytes (fun _ => 0)
    (set_txq_flag (fun _ => ol_tx_queue_empty) (set_txq_head (fun _ => []) t))).

Section QueueOps.
Lemma one_queue_focus base sch q ci t c : one_queue base q t (focus base sch q ci t c).
Proof. eexists. done. Qed.

Lemma flag_cases t n : txq_ok n t ->
  (txq_flag t = ol_tx_queue_paused /\ txq_paused_total t <> 0) \/
  (txq_flag t <> ol_tx_queue_paused /\ txq_paused_total t = 0).
Proof.
  intros [_ _ _ _ Hf _ _ _]. destruct (decide (txq_flag t = ol_tx_queue_paused)) as [E|E].
  - left. split; [done|by apply Hf].
  - right. split; [done|]. destruct (decide (txq_paused_total t = 0)); [done|]. by destruct E; apply Hf.
Qed.

Lemma txq_paused_ok n t : txq_ok n t -> txq_paused_total t < 255 -> txq_ok n (txq_paused t).
Proof. intros [? ? ? ? ? ? ? ?] ?. constructor; simpl; try done; [lia|]. split; [lia|done]. Qed.

Lemma txq_pause_spec s q t :
  Inv s -> pd_txqs s !! q = Some t -> txq_paused_total t < 255 ->
  wp (txq_pause q (ext_tid_of q)) (fun _ s' => Inv s' /\ one_queue s q (txq_paused t) s') s.
Proof.
  intros HI Hq Hlt. destruct (queue_at_intro s q t HI Hq) as (ci & sch & c & Hqa).
  destruct (queue_at_facts _ _ _ _ _ _ Hqa) as (_ & _ & Hck & Htok & Hr & _ & Htot).
  pose proof (qa_home _ _ _ _ _ _ Hqa) as Hhome.
  eapply wp_at; [apply (focus_id sch q ci s t c); apply Hqa|].
  unfold txq_pause. step_with focus_get_txq. step_with focus_upd_txq.
  pose proof (ok_paused _ _ Htok).
  assert (u8 (txq_paused_total t + 1) = txq_paused_total t + 1) as Hu8 by (apply u8_small; lia).
  assert (forall c', cat_step q t c (txq_paused t) c' -> cat_specs c' = cat_specs c ->
    cat_wrr_count c' = cat_wrr_count c -> Inv (focus s sch q ci (txq_paused t) c')) as Hfin.
  { intros. eapply Inv_queue_step; eauto; [by apply same_env_refl|by apply txq_paused_ok|simpl; lia]. }
  destruct (flag_cases _ _ Htok) as [[Hf Hn]|[Hf Hn]].
  - rewrite (proj2 (Z.eqb_neq _ 0) Hn). apply wp_ret.
    assert (set_txq_paused_total (fun n => u8 (n + 1)) t = txq_paused t) as ->.
    { unfold txq_paused, set_txq_flag, set_txq_paused_total. simpl. by rewrite Hu8, <- Hf. }
    split; [|apply one_queue_focus]. apply Hfin; try done. eapply idle_step; eauto; by rewrite Hf.
  - rewrite (proj2 (Z.eqb_eq _ 0) Hn). simpl. set (t1 := set_txq_paused_total _ t).
    assert (set_txq_flag (fun _ => ol_tx_queue_paused) t1 = txq_paused t) as Ht1.
    { unfold t1, txq_paused, set_txq_flag, set_txq_paused_total. simpl. by rewrite Hu8. }
    destruct (decide (txq_flag t = ol_tx_queue_active)) as [Ha|Ha].
    + destruct (cat_split_active _ _ _ _ _ _ Hqa Ha) as (head & Hrm & _ & _).
      eapply wp_step.
      { rewrite notify_focus. rewrite bool_decide_true by done.
        by apply (txq_deactivate_focus s sch q ci Hr (ext_tid_of q) head t1 c). }
      eapply wp_run; [apply focus_upd_txq|]. rewrite Ht1. split; [|apply one_queue_focus].
      change (cat_deactivated t1 head c) with (cat_deactivated t head c).
      apply Hfin; [by eapply deactivated_step| |]; unfold cat_deactivated; by destruct (_ && _).
    + eapply wp_step.
      { rewrite notify_focus. by rewrite bool_decide_false. }
      eapply wp_run; [apply focus_upd_txq|]. rewrite Ht1. split; [|apply one_queue_focus].
      apply Hfin; try done. by eapply idle_step.
Qed.

(** *** Unpause *)
Lemma txq_unpaused_ok n t :
  txq_ok n t -> txq_flag t = ol_tx_queue_paused -> txq_ok n (txq_unpaused t).
Proof.
  intros [Hf ? ? ? Hfl Ha He ?] Hp. unfold txq_unpaused.
  assert (0 <= txq_frms t) by (rewrite Hf; apply zlen_nonneg).
  destruct (Z.eqb_spec (txq_paused_total t) 0); [by constructor|].
  destruct (Z.eqb_spec (txq_paused_total t) 1) as [E|E];
    [destruct (Z.eqb_spec (txq_frms t) 0)|]; constructor; simpl; rewrite ?E; try done; try lia.
  all: try (by rewrite Hp). rewrite Hp. split; [lia|done].
Qed.

(** The notification and the flag, before the scheduler runs. *)
Lemma txq_unpause_core base q ci sch c t tid s :
  queue_at s q t ci sch c -> same_env base s -> txq_flag t = ol_tx_queue_paused ->
  txq_paused_total t = 1 -> znth (pd_tid_to_ac base) tid = Some ci ->
  let t1 := set_txq_paused_total (fun n => u8 (n - 1)) t in
  exists c' : category, ol_tx_sched_notify q (OL_TX_UNPAUSE_QUEUE tid) (focus base sch q ci t1 c) =
      Some (tt, focus base sch q ci t1 c') /\
    Inv (focus base sch q ci (txq_unpaused t) c').
Proof.
  intros Hqa Henv Hp H1 Htid t1.
  destruct (queue_at_facts _ _ _ _ _ _ Hqa) as (_ & _ & Hck & Htok & Hr & Hfr & Htot).
  pose proof (txq_unpaused_ok _ _ Htok Hp) as Htok'.
  pose proof (ok_frms _ _ Htok) as Hlen. pose proof (zlen_nonneg (txq_head t)).
  pose proof (ok_frms_lt _ _ Htok).
  assert (txq_frms (txq_unpaused t) = txq_frms t /\ txq_bytes (txq_unpaused t) = txq_bytes t) as [Ef Eb]
    by (unfold txq_unpaused; by destruct (_ =? 0)).
  assert (txq_flag t <> ol_tx_queue_active) as Hna by (by rewrite Hp).
  rewrite notify_focus by done. change (txq_frms t1) with (txq_frms t).
  assert (txq_flag (txq_unpaused t) = if txq_frms t =? 0 then ol_tx_queue_empty else ol_tx_queue_active)
    as Hfl by (unfold txq_unpaused; simpl; by rewrite H1).
  destruct (Z.eqb_spec (txq_frms t) 0) as [E|E]; simpl.
  - exists c. split; [done|]. eapply Inv_queue_step; eauto; [|rewrite Ef; lia].
    eapply idle_step; eauto. by rewrite Hfl.
  - rewrite txq_enqueue_focus by done. eexists. split; [done|].
    eapply Inv_queue_step; eauto; [|rewrite Ef; lia|..];
      [|unfold cat_enqueued; by case_decide..].
    eapply enqueued_step; eauto; [lia|lia|rewrite contrib_inactive by done; rewrite Ef; simpl; lia|].
    rewrite contrib_inactive by done. rewrite Eb, eqm_s32. simpl. apply eqm_eq. lia.
Qed.

Context `{HttTx}.

(** The state the scheduler runs from, when it runs. *)
Lemma txq_unpause_run s q t :
  Inv s -> -2 ^ 31 <= pd_target_tx_credit s < 2 ^ 31 -> pd_txqs s !! q = Some t ->
  wp (txq_unpause q (ext_tid_of q)) (fun _ s' => exists s1,
    Inv s1 /\ one_queue s q (txq_unpaused t) s1 /\ (s' = s1 \/ ol_tx_sched s1 = Some (tt, s'))) s.
Proof.
  intros HI Hcr Hq. destruct (queue_at_intro s q t HI Hq) as (ci & sch & c & Hqa).
  destruct (queue_at_facts _ _ _ _ _ _ Hqa) as (_ & _ & Hck & Htok & Hr & _ & Htot).
  pose proof (qa_home _ _ _ _ _ _ Hqa) as Hhome.
  assert (s = focus s sch q ci t c) as Hfoc by (apply focus_id; apply Hqa).
  eapply wp_at; [exact Hfoc|]. unfold txq_unpause. step_with focus_get_txq.
  pose proof (ok_paused _ _ Htok).
  destruct (flag_cases _ _ Htok) as [[Hf Hn]|[Hf Hn]].
  2: { rewrite (proj2 (Z.eqb_eq _ 0) Hn). apply wp_ret. rewrite <- Hfoc.
       exists s. split_and!; [done| |by left].
       exists sch. unfold txq_unpaused. rewrite (proj2 (Z.eqb_eq _ 0) Hn).
       destruct s. simpl in *. unfold set_pd_txqs, set_pd_scheduler. simpl.
       destruct Hqa as [_ Hq' _ Hs' _]. simpl in *. rewrite insert_id by done. by rewrite Hs'. }
  rewrite (proj2 (Z.eqb_neq _ 0) Hn). step_with focus_upd_txq.
  assert (u8 (txq_paused_total t - 1) = txq_paused_total t - 1) as Hu8 by (apply u8_small; lia).
  destruct (Z.eqb_spec (txq_paused_total t - 1) 0) as [H1|H1]; simpl.
  - set (t1 := set_txq_paused_total _ t).
    destruct (txq_unpause_core s q ci sch c t (ext_tid_of q) s) as (c' & Hno & HI'); try done;
      [by apply same_env_refl|lia|].
    eapply wp_step; [exact Hno|]. step_with focus_get_txq.
    replace (txq_frms (set_txq_paused_total _ t)) with (txq_frms t) by done.
    assert (forall f, f = (if txq_frms t =? 0 then ol_tx_queue_empty else ol_tx_queue_active) ->
      set_txq_flag (fun _ => f) t1 = txq_unpaused t) as Ht1.
    { intros f ->. unfold t1, txq_unpaused, set_txq_flag, set_txq_paused_total. simpl.
      rewrite Hu8. replace (txq_paused_total t) with 1 by lia. done. }
    destruct (Z.eqb_spec (txq_frms t) 0) as [E|E].
    + eapply wp_run; [apply focus_upd_txq|]. rewrite Ht1 by done.
      eexists. split_and!; [exact HI'|apply one_queue_focus|by left].
    + eapply wp_step; [apply focus_upd_txq|]. rewrite Ht1 by done.
      pose proof (ol_tx_sched_spec _ HI' Hcr) as Hw. apply wp_some in Hw.
      destruct Hw as ([] & s' & Hrun & _). eapply wp_run; [exact Hrun|].
      eexists. split_and!; [exact HI'|apply one_queue_focus|by right].
  - apply wp_ret. eexists.
    assert (set_txq_paused_total (fun n => u8 (n - 1)) t = txq_unpaused t) as ->.
    { unfold txq_unpaused. rewrite (proj2 (Z.eqb_neq _ 0) Hn). rewrite (proj2 (Z.eqb_neq _ 1)) by lia.
      unfold set_txq_flag, set_txq_paused_total. simpl. by rewrite Hu8. }
    assert (Inv (focus s sch q ci (txq_unpaused t) c)) as HI'.
    { assert (txq_flag (txq_unpaused t) = txq_flag t /\ txq_frms (txq_unpaused t) = txq_frms t) as [E1 E2].
      { unfold txq_unpaused. rewrite (proj2 (Z.eqb_neq _ 0) Hn), (proj2 (Z.eqb_neq _ 1)) by lia. done. }
      eapply Inv_queue_step; eauto; [by apply same_env_refl| |by apply txq_unpaused_ok|lia].
      eapply idle_step; eauto; by rewrite ?E1, Hf. }
    split_and!; [exact HI'|apply one_queue_focus|by left].
Qed.

Lemma txq_unpause_spec s q t :
  Inv s -> -2 ^ 31 <= pd_target_tx_credit s < 2 ^ 31 -> pd_txqs s !! q = Some t ->
  wp (txq_unpause q (ext_tid_of q)) (fun _ s' => exists s1 cali sent,
    Inv s1 /\ one_queue s q (txq_unpaused t) s1 /\ scheduled s1 cali sent s') s.
Proof.
  intros HI Hcr Hq. eapply wp_mono; [by apply txq_unpause_run|].
  intros u s' (s1 & HI1 & Ho & [->|Hrun]); exists s1.
  - exists 0, []. split_and!; [done|done|by apply scheduled_refl].
  - assert (-2 ^ 31 <= pd_target_tx_credit s1 < 2 ^ 31) as Hc1 by (by destruct Ho as [sch' ->]).
    pose proof (ol_tx_sched_spec s1 HI1 Hc1) as Hw. unfold wp in Hw. rewrite Hrun in Hw.
    destruct Hw as (cali & sent & Hs'). eauto 10.
Qed.

Lemma txq_unpaused_paused n t : txq_ok n t -> txq_unpaused (txq_paused t) = t.
Proof.
  intros Htok. pose proof (flag_cases _ _ Htok) as Hfc. destruct Htok as [Hf ? ? Hp Hfl Ha He ?].
  unfold txq_unpaused, txq_paused, set_txq_flag, set_txq_paused_total. simpl.
  rewrite (proj2 (Z.eqb_neq _ 0)) by lia. simpl. destruct t as [fr b h fl p x g]. simpl in *.
  replace (p + 1 - 1) with p by lia. f_equal. destruct (Z.eqb_spec (p + 1) 1) as [E|E].
  - assert (p = 0) as -> by lia. destruct Hfc as [[_ ?]|[Hn _]]; [done|].
    destruct fl; [|specialize (Ha eq_refl)|done].
    + by rewrite (He eq_refl).
    + by rewrite (proj2 (Z.eqb_neq _ 0)) by lia.
  - destruct Hfc as [[-> _]|[_ ?]]; [done|lia].
Qed.
End QueueOps.
