(* ===== verification/TxDiscard.v ===== *)
(** Frames that leave the queues without being sent: freeing a queue, the
    congestion discard and its choice of a victim, and [ol_tx_enqueue], which
    discards when descriptors run low. *)
From Stdlib Require Import ZArith Lia.
From stdpp Require Import prelude gmap list numbers.
From S2P Require Import Prelude.
From S2P Require Import TxTypes.
From S2P Require Import TxCore.
From S2P Require Import TxSched.
From S2P Require Import TxQueue.
From S2P Require Import TxSchedSpec.
From S2P Require Import TxInv.
From S2P Require Import TxSchedInv.
From S2P Require Import TxDispatch.
From S2P Require Import TxQueueInv.

(** ** Freeing a queue *)

(** The state after [q], which was [t], has been emptied. *)
Definition queue_emptied (s : tx_pdev) (q : txq_id) (t : txq) (s' : tx_pdev) : Prop :=
  exists s1, one_queue s q (txq_freed t) s1 /\
    s' = set_pd_freed (fun l => l ++ txq_head t) (set_pd_rsrc_cnt (fun n => s32 (n + txq_frms t)) s1).

Section Free.
Lemma ol_tx_queue_free_bytes_spec head b :
  s32 b = b -> ol_tx_queue_free_bytes (length head) head b = Some (s32 (b + zsum td_len head)).
Proof.
  revert b. induction head as [|d head IH]; intros b Hb; simpl.
  - by rewrite zsum_nil, Z.add_0_r, Hb.
  - rewrite IH by apply s32_idemp. rewrite zsum_cons. f_equal. eqm_solve.
Qed.

Lemma ol_tx_queue_free_frames_spec l s :
  ol_tx_queue_free_frames (length l) l s = Some (tt, set_pd_freed (fun f => f ++ l) s).
Proof.
  revert s. induction l as [|d l IH]; intros s; simpl.
  - unfold skip. destruct s. unfold set_pd_freed. simpl. by rewrite app_nil_r.
  - unfold mbind, M_bind, log_freed, modify. rewrite IH. unfold set_pd_freed. simpl.
    by rewrite <- app_assoc.
Qed.

Lemma txq_freed_ok n t : txq_ok n t -> txq_paused_total t = 0 -> txq_ok n (txq_freed t).
Proof.
  intros [? ? ? ? ? ? ? ?] H0. constructor; simpl; try done.
Qed.

(** Everything queued is freed and counted back; a paused queue loses its
    flag too, which is why the invariant needs an unpaused one. *)
Lemma ol_tx_queue_free_spec s q t :
  Inv s -> pd_txqs s !! q = Some t ->
  wp (ol_tx_queue_free q (ext_tid_of q)) (fun _ s' => queue_emptied s q t s' /\
    (txq_paused_total t = 0 -> Inv s')) s.
Proof.
  intros HI Hq. destruct (queue_at_intro s q t HI Hq) as (ci & sch & c & Hqa).
  destruct (queue_at_facts _ _ _ _ _ _ Hqa) as (_ & _ & Hck & Htok & Hr & _ & Htot).
  pose proof (qa_home _ _ _ _ _ _ Hqa) as Hhome. pose proof (ok_frms _ _ Htok) as Hlen.
  pose proof (zlen_nonneg (txq_head t)).
  eapply wp_at; [apply (focus_id sch q ci s t c); apply Hqa|]. unfold ol_tx_queue_free.
  assert (exists c', ol_tx_sched_notify q (OL_TX_DELETE_QUEUE (ext_tid_of q)) (focus s sch q ci t c) =
      Some (tt, focus s sch q ci t c') /\ cat_step q t c (txq_freed t) c' /\
      cat_specs c' = cat_specs c /\ cat_wrr_count c' = cat_wrr_count c)
    as (c' & Hno & Hstep & E1 & E2).
  { rewrite notify_focus by done. destruct (decide (txq_flag t = ol_tx_queue_active)) as [Ha|Ha].
    - destruct (cat_split_active _ _ _ _ _ _ Hqa Ha) as (head & Hrm & _ & _).
      exists (cat_deactivated t head c). rewrite bool_decide_true by done.
      split; [by apply txq_deactivate_focus|].
      split; [by eapply deactivated_step|]. unfold cat_deactivated. by destruct (_ && _).
    - exists c. rewrite bool_decide_false by done. split_and!; try done. by eapply idle_step. }
  eapply wp_step; [exact Hno|]. step_with focus_get_txq.
  assert (Z.to_nat (txq_frms t) = length (txq_head t)) as Hn by (rewrite Hlen; unfold zlen; lia).
  eapply wp_step; [by rewrite Hn, ol_tx_queue_free_bytes_spec|]. step_with focus_upd_txq.
  cbv beta. match goal with |- wp _ _ (focus _ _ _ _ ?x _) => assert (x = txq_freed t) as -> end.
  { unfold txq_freed, set_txq_frms, set_txq_bytes, set_txq_flag, set_txq_head. simpl.
       rewrite (ok_bytes _ _ Htok). f_equal. transitivity (u32 0); [eqm_solve|done]. }
  step. eapply wp_run; [rewrite Hn; apply ol_tx_queue_free_frames_spec|]. split.
  - eexists. split; [apply (one_queue_focus s sch q ci (txq_freed t) c')|done].
  - intros H0. apply Inv_freed, Inv_rsrc. eapply Inv_queue_step; eauto;
      [by apply same_env_refl|by apply txq_freed_ok|simpl; lia].
Qed.
End Free.

(** ** The victim of a discard *)

Definition discard_score (c : category) : Z := cat_frms c * discard_weight (cat_specs c).

Section Victim.
Definition score_ok (c : category) : Prop :=
  0 <= cat_frms c < 65536 /\ 0 < discard_weight (cat_specs c) < 2 ^ 15.

Lemma discard_score_bounds c : score_ok c -> 0 <= discard_score c < 2 ^ 31.
Proof. intros [? ?]. unfold discard_score. split; nia. Qed.

Lemma discard_select_loop_spec cats i m k :
  Forall score_ok cats -> 0 <= m ->
  let r := discard_select_loop i cats (m, k) in
  m <= r.1 /\ (forall c, c ∈ cats -> discard_score c <= r.1) /\
  (r = (m, k) \/ exists j c, cats !! j = Some c /\ r.2 = i + Z.of_nat j /\ discard_score c = r.1).
Proof.
  revert i m k. induction cats as [|c cats IH]; intros i m k Hok Hm; simpl.
  { split_and!; [lia|set_solver|by left]. }
  apply list.Forall_cons in Hok as [Hc Hok]. pose proof (discard_score_bounds c Hc) as Hb.
  fold (discard_score c). rewrite s32_small by lia.
  destruct ((m =? 0) || (m <? discard_score c)) eqn:E.
  - destruct (IH (i + 1) (discard_score c) i Hok) as (H1 & H2 & H3); [lia|].
    assert (m <= discard_score c) by lia.
    split_and!; [lia|intros x [->|Hx]%elem_of_cons; [lia|by apply H2]|].
    right. destruct H3 as [->|(j & d & Hj & -> & Hd)].
    + exists 0%nat, c. split_and!; try done. simpl. lia.
    + exists (S j), d. split_and!; try done. lia.
  - destruct (IH (i + 1) m k Hok Hm) as (H1 & H2 & H3).
    split_and!; [lia|intros x [->|Hx]%elem_of_cons; [lia|by apply H2]|].
    destruct H3 as [->|(j & d & Hj & -> & Hd)]; [by left|right].
    exists (S j), d. split_and!; try done. lia.
Qed.
End Victim.

(** ** One discard *)

Definition cat_discarded (t' : txq) (head : list txq_id) (n b : Z) (c : category) : category :=
  let c1 := if txq_frms t' =? 0 then set_cat_head (fun _ => head) c else c in
  let c2 := set_cat_frms (fun m => s32 (m - n)) (set_cat_bytes (fun m => s32 (m - b)) c1) in
  if cat_frms c2 =? 0 then set_cat_active (fun _ => false) c2 else c2.

(** What one call of [ol_tx_sched_discard_select] does. *)
Inductive discard_result (s : tx_pdev) (frms : Z) (force : bool) (descs : list tx_desc)
  : Z -> list tx_desc -> tx_pdev -> Prop :=
| discard_none :
    (forall q t, pd_txqs s !! q = Some t -> txq_flag t <> ol_tx_queue_active) ->
    discard_result s frms force descs 0 descs s
| discard_some q t ci sch c k s' :
    queue_at s q t ci sch c -> txq_flag t = ol_tx_queue_active ->
    (forall c', c' ∈ sch_categories sch -> discard_score c' <= discard_score c) ->
    (forall q' t', q' ∈ cat_head c -> pd_txqs s !! q' = Some t' -> txq_frms t' <= txq_frms t) ->
    k = Z.to_nat (batch_size (txq_frms t) (discard_frms frms (txq_frms t) force) 10000) ->
    (0 < k)%nat -> Z.of_nat k <= frms ->
    one_queue s q (txq_after k t) s' ->
    discard_result s frms force descs (Z.of_nat k) (descs ++ take k (txq_head t)) s'.

Section Discard.
Lemma discard_select_txq_spec s l m sel :
  (forall q, q ∈ l -> is_Some (pd_txqs s !! q)) ->
  exists r, ol_tx_sched_discard_select_txq l m sel s = Some (r, s) /\
    ((r = sel /\ forall q t, q ∈ l -> pd_txqs s !! q = Some t -> txq_frms t <= m) \/
     (exists q t, r = Some q /\ q ∈ l /\ pd_txqs s !! q = Some t /\ m < txq_frms t /\
        forall q' t', q' ∈ l -> pd_txqs s !! q' = Some t' -> txq_frms t' <= txq_frms t)).
Proof.
  revert m sel. induction l as [|q l IH]; intros m sel Hin.
  { exists sel. split; [done|]. left. split; [done|]. set_solver. }
  destruct (Hin q) as [t Hq]; [set_solver|]. simpl.
  unfold get_txq, get, mbind, M_bind, lift. rewrite Hq.
  destruct (Z.ltb_spec m (txq_frms t)).
  - destruct (IH (txq_frms t) (Some q)) as (r & -> & H2); [set_solver|].
    exists r. split; [done|]. right. destruct H2 as [[-> H2]|(q1 & t1 & -> & Hq1 & Ht1 & Hlt & Hmax)].
    + exists q, t. split_and!; [done|set_solver|done|done|].
      intros q' t' [->|Hq']%elem_of_cons Ht'; [naive_solver lia|by eapply H2].
    + exists q1, t1. split_and!; [done|set_solver|done|lia|].
      intros q' t' [->|Hq']%elem_of_cons Ht'; [naive_solver lia|by eapply Hmax].
  - destruct (IH m sel) as (r & -> & H2); [set_solver|].
    exists r. split; [done|]. destruct H2 as [[-> H2]|(q1 & t1 & -> & Hq1 & Ht1 & Hlt & Hmax)].
    + left. split; [done|]. intros q' t' [->|Hq']%elem_of_cons Ht'; [naive_solver lia|by eapply H2].
    + right. exists q1, t1. split_and!; [done|set_solver|done|lia|].
      intros q' t' [->|Hq']%elem_of_cons Ht'; [naive_solver lia|by eapply Hmax].
Qed.

Lemma discard_frms_bounds frms queued force :
  0 < frms < 65536 -> 0 < queued -> 0 < discard_frms frms queued force <= frms.
Proof.
  intros Hf Hq. unfold discard_frms, OL_TX_DISCARD_QUANTUM. rewrite Z.shiftr_div_pow2 by lia.
  change (2 ^ 1) with 2. destruct force; [lia|]. cbv zeta.
  set (f := if 10 <? frms then 10 else frms).
  assert (0 < f <= frms) by (unfold f; destruct (Z.ltb_spec 10 frms); lia).
  destruct (Z.ltb_spec 1 queued); simpl; [|lia].
  destruct (Z.leb_spec (queued / 2) f); [|lia].
  assert (1 <= queued / 2) by (apply Z.div_le_lower_bound; lia). lia.
Qed.

Lemma cat_discarded_fields t' head n b c :
  let d := cat_discarded t' head n b c in
  cat_frms d = s32 (cat_frms c - n) /\ cat_bytes d = s32 (cat_bytes c - b) /\
  cat_head d = (if txq_frms t' =? 0 then head else cat_head c) /\
  cat_active d = (if s32 (cat_frms c - n) =? 0 then false else cat_active c) /\
  cat_specs d = cat_specs c /\ cat_wrr_count d = cat_wrr_count c.
Proof.
  unfold cat_discarded. cbv zeta.
  destruct (txq_frms t' =? 0); simpl; by destruct (s32 (cat_frms c - n) =? 0).
Qed.

(** The discarded frames leave the counters of queue and category alike. *)
Lemma discarded_step s q t ci sch c head k :
  queue_at s q t ci sch c -> txq_flag t = ol_tx_queue_active ->
  tailq_remove q (cat_head c) = Some head -> (k <= length (txq_head t))%nat ->
  cat_step q t c (txq_after k t)
    (cat_discarded (txq_after k t) head (Z.of_nat k) (s32 (zsum td_len (take k (txq_head t)))) c).
Proof.
  intros Hqa Ha Hrm Hk. destruct (queue_at_facts _ _ _ _ _ _ Hqa) as (_ & _ & Hck & Htok & _ & Hr & _).
  destruct (cat_split_active _ _ _ _ _ _ Hqa Ha) as (h' & Hrm' & Hp & Hf). simplify_eq.
  pose proof (ok_frms _ _ Htok) as Hlen. unfold zlen in Hlen.
  assert (s32 (cat_frms c - Z.of_nat k) = cat_frms c - Z.of_nat k) as Hs32 by (apply s32_small; lia).
  destruct (cat_discarded_fields (txq_after k t) head (Z.of_nat k)
    (s32 (zsum td_len (take k (txq_head t)))) c) as (F1 & F2 & F3 & F4 & _).
  eapply taken_step; eauto; [|lia|].
  - rewrite F3. simpl. destruct (Z.eqb_spec (txq_frms t - Z.of_nat k) 0) as [E|E].
    + rewrite entry_inactive; [done|]. rewrite txq_after_empty; done || lia.
    + rewrite entry_active; [done|]. apply txq_after_active; done || lia.
  - rewrite F4, F1, Hs32. destruct (cat_frms c - Z.of_nat k =? 0) eqn:E; [done|].
    rewrite (ck_active _ _ _ _ Hck). by rewrite (proj2 (Z.eqb_neq _ 0)) by lia.
Qed.

Lemma txq_discard_focus base sch q ci t c head n b :
  0 <= ci < zlen (sch_categories sch) -> tailq_remove q (cat_head c) = Some head ->
  ol_tx_sched_txq_discard_wrr_adv q ci n b (focus base sch q ci t c) =
  Some (tt, focus base sch q ci t (cat_discarded t head n b c)).
Proof.
  intros Hci Hrm. unfold ol_tx_sched_txq_discard_wrr_adv, cat_discarded, mbind, M_bind.
  rewrite focus_get_txq, focus_get_cat by done. destruct (txq_frms t =? 0).
  - unfold lift. rewrite Hrm, !focus_upd_cat by done. done.
  - unfold skip. by rewrite focus_upd_cat.
Qed.

(** The category with the highest score has a queue to discard from,
    unless nothing is queued for scheduling at all. *)
Lemma discard_select_category_spec s :
  Inv s -> exists ci sch c,
    ol_tx_sched_discard_select_category_wrr_adv s = Some (ci, s) /\
    pd_scheduler s = Some sch /\ znth (sch_categories sch) ci = Some c /\
    (forall c', c' ∈ sch_categories sch -> discard_score c' <= discard_score c).
Proof.
  intros HI. pose proof HI as [(sch & Hs & Hok & Hcats) _ _ _ _].
  assert (Forall score_ok (sch_categories sch)) as Hsc.
  { apply Forall_lookup_2. intros i c Hc.
    assert (znth (sch_categories sch) (Z.of_nat i) = Some c) as Hz
      by (apply znth_Some; rewrite Nat2Z.id; split; [lia|done]).
    split; [by eapply cat_frms_bounds|].
    destruct (sched_ok_category _ _ _ Hok Hz) as [_ (_ & _ & _ & ?)]. done. }
  pose proof (discard_select_loop_spec (sch_categories sch) 0 0 0 Hsc ltac:(lia)) as Hl.
  assert (zlen (sch_categories sch) = 9) as Hlen by apply Hok.
  destruct (sch_categories sch) as [|c0 cs] eqn:Ecs; [done|].
  set (r := discard_select_loop 0 (c0 :: cs) (0, 0)) in *.
  exists r.2, sch. destruct Hl as (Hm & Hmax & Hor).
  assert (ol_tx_sched_discard_select_category_wrr_adv s = Some (r.2, s)) as Hsel.
  { unfold ol_tx_sched_discard_select_category_wrr_adv, get_sched, get, lift, mbind, M_bind.
    rewrite Hs. by rewrite Ecs. }
  rewrite Ecs. destruct Hor as [Hr|(j & c & Hj & Hrj & Hcs)].
  - exists c0. rewrite Hr in *. split_and!; [done|done|done|].
    intros c' Hc'. assert (discard_score c' <= 0) by (by apply Hmax).
    assert (score_ok c0) as Hc0 by (by inversion Hsc).
    pose proof (discard_score_bounds c0 Hc0). lia.
  - exists c. split_and!; [done|done| |by rewrite Hcs].
    rewrite Hrj. apply znth_Some. split; [lia|]. by replace (Z.to_nat (0 + Z.of_nat j)) with j by lia.
Qed.

Lemma ol_tx_sched_discard_select_spec s frms descs force :
  Inv s -> 0 < frms < 65536 ->
  wp (ol_tx_sched_discard_select frms descs force) (fun r s' => Inv s' /\
    discard_result s frms force descs r.1 r.2 s') s.
Proof.
  intros HI Hfr. destruct (discard_select_category_spec s HI) as (ci & sch & c & Hsel & Hs & Hc & Hmax).
  unfold ol_tx_sched_discard_select. eapply wp_step; [exact Hsel|].
  eapply (wp_step _ _ _ _ (cat_head c) s).
  { unfold ol_tx_sched_category_tx_queues_wrr_adv, get_cat, get_sched, get, lift, mbind, M_bind.
    rewrite Hs. by rewrite Hc. }
  pose proof HI as [(sch0 & Hs0 & Hok & Hcats) _ _ _ _]. simplify_eq.
  destruct (Hcats ci c Hc) as [_ Hhead _ _ _].
  destruct (discard_select_txq_spec s (cat_head c) 0 None) as (r & Hr & Hcase).
  { intros q Hq. apply Hhead in Hq as [(t & Ht & _) _]. by exists t. }
  eapply wp_step; [exact Hr|]. destruct Hcase as [[-> Hz]|(q & t & -> & Hin & Hq & Hpos & Hlong)].
  - apply wp_ret. split; [done|]. apply discard_none. intros q t Hq Ha.
    destruct (queue_at_intro s q t HI Hq) as (ci' & sch' & c' & Hqa).
    pose proof (qa_sched _ _ _ _ _ _ Hqa). simplify_eq.
    destruct (cat_split_active _ _ _ _ _ _ Hqa Ha) as (_ & _ & _ & Hf).
    pose proof (qa_cat _ _ _ _ _ _ Hqa) as Hc'.
    pose proof (Hmax c' (znth_elem_of _ _ _ Hc')) as Hle.
    assert (discard_score c = 0) as E0.
    { unfold discard_score. rewrite (ck_frms _ _ _ _ (Hcats ci c Hc)).
      assert (zsum (val_of txq_frms (pd_txqs s)) (cat_head c) = zsum (fun _ => 0) (cat_head c)) as ->.
      { apply zsum_ext. intros q1 Hq1. pose proof Hq1 as Hq1'.
        apply Hhead in Hq1' as [(t1 & Ht1 & Ha1) _]. rewrite (val_of_some _ _ q1 t1 Ht1).
        pose proof (Hz q1 t1 Hq1 Ht1). pose proof (inv_txq _ HI q1 t1 Ht1) as [Hok1 _].
        pose proof (ok_active _ _ Hok1 Ha1). lia. }
      assert (forall l : list txq_id, zsum (fun _ => 0) l = 0) as ->
        by (intros l; induction l; rewrite ?zsum_cons; lia || done). lia. }
    destruct (sched_ok_category _ _ _ Hok Hc') as [_ (_ & _ & _ & Hw)].
    unfold discard_score at 1 in Hle. nia.
  - apply Hhead in Hin as Hin'. destruct Hin' as [(t0 & Ht0 & Ha) Hhome]. simplify_eq.
    assert (queue_at s q t ci sch c) as Hqa by (by constructor).
    destruct (queue_at_facts _ _ _ _ _ _ Hqa) as (_ & _ & _ & Htok & Hr' & _ & Htot).
    destruct (cat_split_active _ _ _ _ _ _ Hqa Ha) as (head & Hrm & _ & _).
    eapply wp_at; [by apply (focus_id sch q ci s t c)|]. step_with focus_get_txq.
    pose proof (discard_frms_bounds frms (txq_frms t) force Hfr Hpos) as Hdf.
    eapply wp_step; [apply (ol_tx_dequeue_focus s sch q ci _ t _ _ _ _ Htok); lia|].
    set (k := Z.to_nat _). pose proof (ok_frms _ _ Htok) as Hlen. unfold zlen in Hlen.
    assert ((0 < k <= length (txq_head t))%nat /\ Z.of_nat k <= frms) as [Hk Hkf]
      by (unfold k, batch_size; lia).
    eapply wp_step; [rewrite notify_focus by done; by apply (txq_discard_focus s sch q ci _ c head)|].
    apply wp_ret. simpl. split.
    + eapply Inv_queue_step; eauto.
      * by apply same_env_refl.
      * apply discarded_step with (s := s) (ci := ci) (sch := sch); done || lia.
      * apply txq_after_ok; [lia|done].
      * simpl. lia.
      * by apply cat_discarded_fields.
      * by apply cat_discarded_fields.
    + eapply discard_some; eauto; [lia|]. apply one_queue_focus.
Qed.
End Discard.

(** ** Discarding until enough frames are gone *)

(** Only the queues and the scheduler changed. *)
Definition queues_frame (s s' : tx_pdev) : Prop :=
  s' = set_pd_txqs (fun _ => pd_txqs s') (set_pd_scheduler (fun _ => pd_scheduler s') s).

Definition nothing_active (s : tx_pdev) : Prop :=
  forall q t, pd_txqs s !! q = Some t -> txq_flag t <> ol_tx_queue_active.

(** [dropped] left the fronts of the queues. *)
Record dropped_from (s : tx_pdev) (dropped : list tx_desc) (s' : tx_pdev) : Prop := mk_dropped_from {
  dr_inv : Inv s';
  dr_frames : all_frames (pd_txqs s) ≡ₚ dropped ++ all_frames (pd_txqs s');
  dr_fronts : fronts_taken (pd_txqs s) (pd_txqs s');
  dr_frame : queues_frame s s' }.

Section DiscardLoop.
Lemma dropped_from_refl s : Inv s -> dropped_from s [] s.
Proof. intros. constructor; [done|done|apply fronts_taken_refl|by destruct s]. Qed.

Lemma dropped_from_trans s l s1 k s2 :
  dropped_from s l s1 -> dropped_from s1 k s2 -> dropped_from s (l ++ k) s2.
Proof.
  intros [A1 A2 A3 A4] [B1 B2 B3 B4]. constructor; [done| |by eapply fronts_taken_trans|].
  - by rewrite A2, B2, app_assoc.
  - unfold queues_frame in *. rewrite B4, A4. done.
Qed.

Lemma one_queue_dropped s q t k s' :
  Inv s' -> pd_txqs s !! q = Some t -> one_queue s q (txq_after k t) s' ->
  dropped_from s (take k (txq_head t)) s'.
Proof.
  intros HI Hq [sch' ->]. constructor; [done| | |done]; simpl.
  - by apply all_frames_take.
  - by apply fronts_taken_step.
Qed.

Lemma dropped_total s l s' : Inv s -> dropped_from s l s' -> total_frms s = zlen l + total_frms s'.
Proof.
  intros HI [HI' Hf _ _]. rewrite <- (Inv_frames_length s HI), <- (Inv_frames_length s' HI'), <- zlen_app.
  unfold zlen. by rewrite Hf.
Qed.

(** The loop stops with the quota met or nothing left to schedule. *)
Lemma ol_tx_queue_discard_loop_spec fuel flush_all num actual descs s :
  Inv s -> 0 <= num < 65536 -> 0 <= actual -> actual + num < 65536 -> (Z.to_nat num < fuel)%nat ->
  wp (ol_tx_queue_discard_loop fuel flush_all num actual descs)
    (fun r s' => exists dropped, r = (num - zlen dropped, actual + zlen dropped, descs ++ dropped) /\
      zlen dropped <= num /\ dropped_from s dropped s' /\
      (zlen dropped < num -> nothing_active s')) s.
Proof.
  revert num actual descs s. induction fuel as [|fuel IH]; intros num actual descs s HI Hnum Ha Hlim Hfuel;
    [lia|]. simpl.
  assert (wp (mret (num, actual, descs) : M tx_pdev _) (fun r s' => exists dropped,
    r = (num - zlen dropped, actual + zlen dropped, descs ++ dropped) /\ zlen dropped <= num /\
    dropped_from s dropped s' /\ (zlen dropped < num -> nothing_active s')) s <->
    (0 < num -> nothing_active s)) as Hstop.
  { rewrite wp_ret. split.
    - intros (l & E & _ & _ & Hno). simplify_eq. assert (zlen l = 0) by lia. intros. apply Hno. lia.
    - intros Hno. exists []. rewrite zlen_nil, app_nil_r, Z.sub_0_r, Z.add_0_r.
      split_and!; [done|lia|by apply dropped_from_refl|done]. }
  destruct (Z.ltb_spec 0 num) as [Hpos|Hz]; [|apply Hstop; lia].
  apply wp_bind. eapply wp_mono; [apply ol_tx_sched_discard_select_spec; [done|lia]|].
  intros [n descs1] s1 [HI1 Hres]. simpl in Hres.
  destruct Hres as [Hno|q t ci sch c k s1 Hqa Hact Hmax Hlong Hk Hkpos Hkn Hone]; simpl.
  - by apply Hstop.
  - destruct (Z.eqb_spec (Z.of_nat k) 0) as [|Hne]; [lia|].
    pose proof (one_queue_dropped s q t k s1 HI1 (qa_txq _ _ _ _ _ _ Hqa) Hone) as Hd1.
    assert (zlen (take k (txq_head t)) = Z.of_nat k) as Hlk.
    { destruct (queue_at_facts _ _ _ _ _ _ Hqa) as (_ & _ & _ & Htok & _).
      pose proof (ok_frms _ _ Htok) as Hlen. unfold zlen in *. rewrite length_take.
      unfold batch_size in *. lia. }
    rewrite (u16_small (num - _)), (u16_small (actual + _)) by lia.
    eapply wp_mono; [apply (IH _ _ _ s1 HI1); lia|].
    intros r s2 (l & -> & Hle & Hd2 & Hno). exists (take k (txq_head t) ++ l).
    rewrite zlen_app, Hlk. split_and!; [|lia|by eapply dropped_from_trans|intros; apply Hno; lia].
    rewrite app_assoc. do 2 f_equal; lia.
Qed.
End DiscardLoop.

(** ** [ol_tx_queue_discard] and [ol_tx_enqueue] *)

(** [d] was appended to [q], after [dropped] had made room. *)
Record enqueued (s : tx_pdev) (q : txq_id) (d : tx_desc) (dropped : list tx_desc) (s' : tx_pdev) : Prop := mk_enqueued {
  en_inv : Inv s';
  en_frames : d :: all_frames (pd_txqs s) ≡ₚ dropped ++ all_frames (pd_txqs s');
  en_queue : exists t n t', pd_txqs s !! q = Some t /\ pd_txqs s' !! q = Some t' /\
    txq_head t' = drop n (txq_head t) ++ [d] /\ txq_paused_total t' = txq_paused_total t /\
    txq_flag t' = (if txq_paused_total t =? 0 then ol_tx_queue_active else ol_tx_queue_paused);
  en_others : forall q' t, q' <> q -> pd_txqs s !! q' = Some t -> exists n t',
    pd_txqs s' !! q' = Some t' /\ txq_head t' = drop n (txq_head t);
  en_freed : pd_freed s' = pd_freed s ++ dropped;
  en_rsrc : pd_rsrc_cnt s' = s32 (pd_rsrc_cnt s + zlen dropped);
  en_sent : pd_sent s' = pd_sent s /\ pd_target_tx_credit s' = pd_target_tx_credit s;
  en_pool : pd_desc_pool_size s' = pd_desc_pool_size s }.

Section Enqueue.
Context `{HttTx}.

Lemma ol_tx_queue_discard_spec descs s :
  Inv s ->
  wp (ol_tx_queue_discard false descs) (fun descs' s' => exists dropped s1,
    descs' = descs ++ dropped /\ dropped_from s dropped s1 /\
    zlen dropped <= u16 (pd_rsrc_threshold_hi s - pd_rsrc_threshold_lo s) /\
    (zlen dropped < u16 (pd_rsrc_threshold_hi s - pd_rsrc_threshold_lo s) -> nothing_active s1) /\
    s' = set_pd_rsrc_cnt (fun n => s32 (n + zlen dropped)) s1) s.
Proof.
  intros HI. unfold ol_tx_queue_discard. step. cbv zeta.
  pose proof (u16_range (pd_rsrc_threshold_hi s - pd_rsrc_threshold_lo s)) as Hr.
  set (num := u16 _) in *. apply wp_bind.
  eapply wp_mono; [apply (ol_tx_queue_discard_loop_spec _ false num 0 descs s HI); lia|].
  intros r s1 (l & -> & Hle & Hd & Hno). step. simpl. eapply wp_run; [reflexivity|].
  exists l, s1. split_and!; done.
Qed.

Lemma for_each_log l s :
  for_each l log_freed s = Some (tt, set_pd_freed (fun f => f ++ l) s).
Proof.
  revert s. induction l as [|d l IH]; intros s; simpl.
  - unfold skip, set_pd_freed. destruct s; simpl. by rewrite app_nil_r.
  - unfold mbind, M_bind, log_freed, modify. rewrite IH. unfold set_pd_freed. simpl.
    by rewrite <- app_assoc.
Qed.

Lemma txq_with_ok n d t : txq_ok n t -> txq_frms t + 1 < 65536 -> txq_ok n (txq_with d t).
Proof.
  intros Htok Hlt. pose proof (flag_cases _ _ Htok) as Hfc. destruct Htok as [Hf ? Hb ? Hfl Ha He Hg].
  pose proof (zlen_nonneg (txq_head t)).
  constructor; simpl; try done; unfold tailq_insert_tail.
  - rewrite zlen_app. change (zlen [d]) with 1. lia.
  - rewrite Hb, zsum_app, zsum_cons, zsum_nil. eqm_solve.
  - case_decide as E; [by rewrite <- Hfl|]. destruct Hfc as [[? _]|[_ E0]]; [done|].
    rewrite E0. done.
  - intros _. lia.
  - case_decide as E; [by rewrite E|done].
Qed.

Lemma txq_frms_le_total s q t : Inv s -> pd_txqs s !! q = Some t -> txq_frms t <= total_frms s.
Proof.
  intros HI Hq. unfold total_frms. rewrite (map_sum_delete _ _ q t) by done.
  assert (0 <= map_sum txq_frms (delete q (pd_txqs s))); [|lia].
  apply map_sum_nonneg. intros k x [_ Hx]%lookup_delete_Some.
  destruct (inv_txq _ HI k x Hx) as [[-> _ _ _ _ _ _ _] _]. apply zlen_nonneg.
Qed.

(** The append itself, on a state with room for one more frame. *)
Lemma enqueue_append s q t d :
  Inv s -> pd_txqs s !! q = Some t -> total_frms s + 1 <= pd_desc_pool_size s ->
  wp (upd_txq q (fun t => set_txq_head (tailq_insert_tail d) (set_txq_frms (fun n => u16 (n + 1))
        (set_txq_bytes (fun n => u32 (n + td_len d)) t)));;
      t ← get_txq q;
      when (negb (bool_decide (txq_flag t = ol_tx_queue_paused))) (
        ol_tx_sched_notify q (OL_TX_ENQUEUE_FRAME (ext_tid_of q) (td_len d));;
        upd_txq q (set_txq_flag (fun _ => ol_tx_queue_active))))
    (fun _ s' => Inv s' /\ one_queue s q (txq_with d t) s') s.
Proof.
  intros HI Hq Hroom. destruct (queue_at_intro s q t HI Hq) as (ci & sch & c & Hqa).
  destruct (queue_at_facts _ _ _ _ _ _ Hqa) as (_ & _ & Hck & Htok & Hr & Hfr & Htot).
  pose proof (qa_home _ _ _ _ _ _ Hqa) as Hhome. pose proof (ok_frms _ _ Htok) as Hlen.
  pose proof (zlen_nonneg (txq_head t)).
  pose proof (txq_frms_le_total s q t HI Hq) as Hqt.
  eapply wp_at; [apply (focus_id sch q ci s t c); apply Hqa|].
  step_with focus_upd_txq. step_with focus_get_txq. cbv beta.
  set (t1 := set_txq_head _ _). 
  assert (set_txq_flag (fun f => if decide (f = ol_tx_queue_paused) then f else ol_tx_queue_active) t1
          = txq_with d t) as Ht1.
  { unfold t1, txq_with, set_txq_flag, set_txq_head, set_txq_frms, set_txq_bytes. simpl.
    by rewrite u16_small by lia. }
  assert (forall c', cat_step q t c (txq_with d t) c' -> cat_specs c' = cat_specs c ->
    cat_wrr_count c' = cat_wrr_count c -> Inv (focus s sch q ci (txq_with d t) c')) as Hfin.
  { intros. eapply Inv_queue_step; eauto; [by apply same_env_refl|apply txq_with_ok; [done|lia]|simpl; lia]. }
  assert (txq_flag t1 = txq_flag t) as Efl by done.
  case_bool_decide as Hp; rewrite Efl in Hp; simpl.
  - apply wp_ret. assert (t1 = txq_with d t) as ->.
    { rewrite <- Ht1. unfold set_txq_flag. simpl in *. rewrite decide_True by done. done. }
    split; [|apply one_queue_focus]. apply Hfin; try done.
    eapply idle_step; eauto; [by rewrite Hp|]. simpl. rewrite decide_True by done. by rewrite Hp.
  - eapply wp_step; [rewrite notify_focus by done; by apply txq_enqueue_focus|].
    eapply wp_run; [apply focus_upd_txq|].
    assert (set_txq_flag (fun _ => ol_tx_queue_active) t1 = txq_with d t) as ->.
    { rewrite <- Ht1. unfold set_txq_flag. simpl in *. by rewrite decide_False by done. }
    split; [|apply one_queue_focus]. apply Hfin; [|unfold cat_enqueued; by case_decide..].
    assert (txq_flag (txq_with d t) = ol_tx_queue_active) as Ha by (simpl; by rewrite decide_False).
    assert (contrib txq_frms t = txq_frms t /\ contrib txq_bytes t = txq_bytes t) as [E1 E2].
    { destruct (decide (txq_flag t = ol_tx_queue_active)) as [Hact|Hact];
        [by rewrite !contrib_active|]. rewrite !contrib_inactive by done.
      assert (txq_flag t = ol_tx_queue_empty) as He by (by destruct (txq_flag t)).
      pose proof (ok_empty _ _ Htok He) as Hz. rewrite Hlen in Hz.
      rewrite Hlen, (ok_bytes _ _ Htok). destruct (txq_head t); [done|].
      rewrite zlen_cons in Hz. pose proof (zlen_nonneg l). lia. }
    eapply (enqueued_step s q t ci sch c); eauto; [lia|lia|rewrite E1; simpl; lia|].
    rewrite E2. simpl. symmetry. etrans; [apply eqm_sub; [apply eqm_u32|reflexivity]|].
    apply eqm_eq. lia.
Qed.

(** [t] is queue [q] after its front lost the frames made room with. *)
Lemma enqueued_intro s q d t dropped s1 s2 s3 :
  Inv s -> pd_txqs s !! q = Some t -> dropped_from s dropped s1 ->
  s2 = set_pd_freed (fun f => f ++ dropped) (set_pd_rsrc_cnt (fun n => s32 (n + zlen dropped)) s1) ->
  (forall t1, pd_txqs s1 !! q = Some t1 -> Inv s3 /\ one_queue s2 q (txq_with d t1) s3) ->
  enqueued s q d dropped s3.
Proof.
  intros HI Hq [D1 D2 D3 D4] Hs2 Hend. destruct (D3 q t Hq) as (n & t1 & Hq1 & Hh1 & Hp1).
  destruct (Hend t1 Hq1) as [HI3 [sch' ->]]. subst s2. unfold queues_frame in D4.
  destruct (inv_txq _ D1 q t1 Hq1) as [Hok1 _].
  constructor; simpl; [done| | | |by rewrite D4..].
  - rewrite D2, (all_frames_delete _ q t1) by done.
    rewrite <- (insert_delete_eq (pd_txqs s1) q), all_frames_insert_new by apply lookup_delete_eq.
    simpl. unfold tailq_insert_tail. rewrite <- app_assoc, !Permutation_middle. simpl. done.
  - exists t, n, (txq_with d t1). rewrite lookup_insert_eq. split_and!; [done|done| |done|].
    + simpl. by rewrite Hh1.
    + rewrite <- Hp1. simpl. destruct (flag_cases _ _ Hok1) as [[E H0]|[E H0]].
      * rewrite decide_True by done. by rewrite (proj2 (Z.eqb_neq _ 0) H0).
      * rewrite decide_False by done. by rewrite H0.
  - intros q' t' Hne Hq'. destruct (D3 q' t' Hq') as (n' & t2 & Hq2 & Hh2 & _).
    exists n', t2. by rewrite lookup_insert_ne.
Qed.

Lemma ol_tx_enqueue_spec s q t d :
  Inv s -> pd_txqs s !! q = Some t -> total_frms s + 1 <= pd_desc_pool_size s ->
  -2 ^ 31 <= pd_rsrc_cnt s < 2 ^ 31 ->
  wp (ol_tx_enqueue q d (ext_tid_of q)) (fun _ s' => exists dropped, enqueued s q d dropped s' /\
    zlen dropped <= (if pd_rsrc_cnt s <=? pd_rsrc_threshold_lo s
                     then u16 (pd_rsrc_threshold_hi s - pd_rsrc_threshold_lo s) else 0)) s.
Proof.
  intros HI Hq Hroom Hrs. unfold ol_tx_enqueue. step. apply wp_bind.
  eapply (wp_mono _ (fun _ s2 => exists dropped s1, dropped_from s dropped s1 /\
    zlen dropped <= (if pd_rsrc_cnt s <=? pd_rsrc_threshold_lo s
                     then u16 (pd_rsrc_threshold_hi s - pd_rsrc_threshold_lo s) else 0) /\
    s2 = set_pd_freed (fun f => f ++ dropped) (set_pd_rsrc_cnt (fun n => s32 (n + zlen dropped)) s1))).
  - apply wp_when; intros Hlo; rewrite Hlo.
    + apply wp_bind. eapply wp_mono; [by apply ol_tx_queue_discard_spec|].
      intros descs s1 (l & s1' & -> & Hd & Hle & _ & ->). eapply wp_run; [apply for_each_log|].
      exists l, s1'. split_and!; done.
    + exists [], s. split_and!; [by apply dropped_from_refl|done|].
      destruct s; unfold set_pd_freed, set_pd_rsrc_cnt; simpl in *.
      by rewrite app_nil_r, zlen_nil, Z.add_0_r, s32_small by lia.
  - intros u s2 (dropped & s1 & Hd & Hle & ->).
    destruct (dr_fronts _ _ _ Hd q t Hq) as (n & t1 & Hq1 & _).
    pose proof (dropped_total _ _ _ HI Hd). pose proof (zlen_nonneg dropped).
    assert (pd_desc_pool_size s1 = pd_desc_pool_size s) as Hpool.
    { pose proof (dr_frame _ _ _ Hd) as E. unfold queues_frame in E. by rewrite E. }
    eapply wp_mono; [apply (enqueue_append _ q t1)|].
    + apply Inv_freed, Inv_rsrc, Hd.
    + done.
    + change (total_frms s1 + 1 <= pd_desc_pool_size s1). lia.
    + intros v s3 [HI3 Hone]. exists dropped. split; [|done].
      eapply enqueued_intro; eauto. intros t1' Ht1'. by simplify_eq.
Qed.
End Enqueue.
