(* ===== verification/TxInit.v ===== *)
(** Creation and configuration of the transmit path: the queues of a new vdev
    or peer ([ol_txrx_vdev_attach], [ol_txrx_peer_attach]), the attach of the
    scheduler and the run-time change of its parameters.  The invariant of
    [TxInv] holds from the start and survives reconfiguration. *)
From Stdlib Require Import ZArith Lia.
From stdpp Require Import prelude gmap list numbers.
From S2P Require Import Prelude.
From S2P Require Import TxTypes.
From S2P Require Import TxCore.
From S2P Require Import TxSched.
From S2P Require Import TxQueue.
From S2P Require Import TxSchedSpec.
From S2P Require Import TxInv.
From S2P Require Import TxSchedInv.
From S2P Require Import TxDispatch.

(** ** New queues *)

Definition txq_init (ext_tid : Z) : txq := mk_txq 0 0 [] ol_tx_queue_empty 0 ext_tid None.

(** The queue loop of [ol_txrx_vdev_attach]. *)
Definition ol_txrx_vdev_attach_txqs (v : Z) : M tx_pdev unit :=
  for_each (zseq OL_TX_VDEV_NUM_QUEUES) (fun i =>
    modify (set_pd_txqs (<[VdevTxq v i := txq_init (OL_TX_NUM_TIDS + i)]>))).

(** The queue loop of [ol_txrx_peer_attach] for a peer of vdev [v]. *)
Definition ol_txrx_peer_attach_txqs (peer v : Z) : M tx_pdev unit :=
  for_each (zseq OL_TX_NUM_TIDS) (fun i =>
    modify (set_pd_txqs (<[PeerTxq peer i := txq_init i]>));;
    ol_tx_set_peer_group_ptr peer v i).

(** The device before any vdev or peer exists. *)
Definition tx_pdev_init (target_credit pool lo hi : Z) (cali : bool) : tx_pdev :=
  mk_tx_pdev ∅ None None ol_tx_scheduler_idle target_credit
    [mk_txq_group 0 0; mk_txq_group 0 0] pool lo hi tid_to_ac_init [] ∅ cali 0 pool [] [].

Section Create.
(** Adding a fresh queue. *)
Lemma Inv_add_queue s q t ci :
  Inv s -> pd_txqs s !! q = None -> home (pd_tid_to_ac s) q = Some ci ->
  0 <= ci < OL_TX_SCHED_WRR_ADV_NUM_CATEGORIES ->
  txq_ok (zlen (pd_txq_grps s)) t -> txq_flag t = ol_tx_queue_empty ->
  Inv (set_pd_txqs (<[q := t]>) s).
Proof.
  intros [(sch & Hs & Hok & Hcats) Htxq Htot Hpool Hg] Hnew Hh Hci Ht Hf.
  constructor; simpl; try done.
  - exists sch. split_and!; [done|done|]. intros ci' c Hc.
    destruct (Hcats ci' c Hc) as [Hnd Hhead Hfr Hb Ha].
    assert (forall f, zsum (val_of f (<[q := t]> (pd_txqs s))) (cat_head c) =
                      zsum (val_of f (pd_txqs s)) (cat_head c)) as Hsame.
    { intros f. apply zsum_ext. intros j Hj. apply val_of_insert_ne. intros ->.
      apply Hhead in Hj as [(u & ? & _) _]. congruence. }
    constructor; rewrite ?Hsame; try done.
    intros j. rewrite Hhead, q_active_insert. split; intros [Hj ?]; (split; [|done]).
    + right. split; [|done]. intros ->. destruct Hj as (u & ? & _). congruence.
    + destruct Hj as [[_ E]|[_ ?]]; [congruence|done].
  - intros j u Hj. destruct (decide (j = q)) as [->|].
    + rewrite lookup_insert_eq in Hj. simplify_eq. eauto.
    + rewrite lookup_insert_ne in Hj by done. eauto.
  - unfold total_frms. simpl. rewrite map_sum_insert_new by done.
    rewrite (ok_empty _ _ Ht Hf). done.
Qed.

Lemma txq_init_ok n tid grp :
  (forall g, grp = Some g -> 0 <= g < n) ->
  txq_ok n (set_txq_group_ptr (fun _ => grp) (txq_init tid)).
Proof. intros Hg. constructor; simpl; try done. Qed.

Lemma find_group_range v tid i grps g :
  find_group v tid i grps = Some g -> i <= g < i + zlen grps.
Proof.
  revert i. induction grps as [|x grps IH]; intros i; simpl; [done|].
  rewrite zlen_cons. pose proof (zlen_nonneg grps). case_match; intros E; simplify_eq; [lia|].
  apply IH in E. lia.
Qed.

(** The categories of [tid_to_ac_init]. *)
Definition tids_ok (tids : list Z) : Prop :=
  zlen tids = 21 /\ Forall (fun ci => 0 <= ci < OL_TX_SCHED_WRR_ADV_NUM_CATEGORIES) tids.

Lemma tid_to_ac_init_ok : tids_ok tid_to_ac_init.
Proof. split; [done|]. repeat (constructor; [by vm_compute; repeat split|]). constructor. Qed.

Lemma tids_ok_home tids q :
  tids_ok tids -> 0 <= ext_tid_of q < 21 ->
  exists ci, home tids q = Some ci /\ 0 <= ci < OL_TX_SCHED_WRR_ADV_NUM_CATEGORIES.
Proof.
  intros [Hl Hf] Hr. unfold home.
  destruct (znth_in_range tids (ext_tid_of q)) as [ci Hci]; [by rewrite Hl|].
  exists ci. split; [done|]. apply znth_Some in Hci as [_ Hci].
  apply (Forall_lookup_1 _ _ _ _ Hf Hci).
Qed.
End Create.

(** ** Scheduler parameters *)

(** Parameters the scheduler can work with. *)
Definition good_specs (sp : category_specs) : Prop :=
  0 <= wrr_skip_weight sp <= max_weight /\ 0 <= credit_reserve sp < 2 ^ 16 /\
  0 <= send_limit sp < 2 ^ 16 /\ 0 <= credit_threshold sp < 2 ^ 16 /\ 0 < discard_weight sp < 2 ^ 15.

#[export] Instance good_specs_dec sp : Decision (good_specs sp).
Proof. unfold good_specs. solve_decision. Defined.

(** Two categories with the same state, whatever their parameters. *)
Definition same_state (c c' : category) : Prop :=
  cat_wrr_count c' = cat_wrr_count c /\ cat_frms c' = cat_frms c /\ cat_bytes c' = cat_bytes c /\
  cat_head c' = cat_head c /\ cat_active c' = cat_active c.

Section Config.
Lemma wrr_adv_cfg_specs_good hif tcp : Forall good_specs (wrr_adv_cfg_specs hif tcp).
Proof. destruct hif, tcp; repeat (constructor; [by vm_compute; repeat split|]); constructor. Qed.

(** New good parameters keep the invariant. *)
Lemma Inv_respec s sch cats' :
  Inv s -> pd_scheduler s = Some sch -> Forall2 same_state (sch_categories sch) cats' ->
  Forall (fun c => good_specs (cat_specs c)) cats' ->
  Inv (set_pd_scheduler (fun _ => Some (set_sch_categories (fun _ => cats') sch)) s).
Proof.
  intros [(sch0 & Hs0 & [[Hord Hlen Hcok] Hidx Hsp] & Hcats) Htxq Htot Hpool Hg] Hs Hsame Hgood.
  simplify_eq. constructor; try done.
  assert (zlen cats' = OL_TX_SCHED_WRR_ADV_NUM_CATEGORIES) as Hlen'.
  { rewrite <- Hlen. unfold zlen. apply list.Forall2_length in Hsame; by rewrite Hsame. }
  exists (set_sch_categories (fun _ => cats') sch0). split; [done|]. split.
  - constructor; simpl; [|done|].
    + constructor; simpl; [done|done|]. apply Forall_lookup_2. intros i c' Hc'.
      destruct (Forall2_lookup_r _ _ _ _ _ Hsame Hc') as (c & Hc & (E & _)).
      pose proof (Forall_lookup_1 _ _ _ _ Hcok Hc) as [? _].
      pose proof (Forall_lookup_1 _ _ _ _ Hgood Hc') as [? _]. split; [by rewrite E|lia].
    + apply Forall_lookup_2. intros i c' Hc'.
      pose proof (Forall_lookup_1 _ _ _ _ Hgood Hc') as (? & ? & ? & ? & ?).
      unfold specs_ok. lia.
  - simpl. intros ci c' [Hci Hc']%znth_Some.
    destruct (Forall2_lookup_r _ _ _ _ _ Hsame Hc') as (c & Hc & (E1 & E2 & E3 & E4 & E5)).
    destruct (Hcats ci c) as [? ? ? ? ?]; [by apply znth_Some|].
    constructor; by rewrite ?E2, ?E3, ?E4, ?E5.
Qed.

Lemma ol_tx_sched_wrr_param_update_good cfg cats :
  Forall good_specs (filter (fun sp => wrr_skip_weight sp <> 0) cfg) ->
  Forall (fun c => good_specs (cat_specs c)) cats ->
  Forall (fun c => good_specs (cat_specs c)) (ol_tx_sched_wrr_param_update cfg cats).
Proof.
  intros Hcfg Hc. unfold ol_tx_sched_wrr_param_update. apply Forall_lookup_2. intros i c'.
  rewrite list_lookup_imap. destruct (cats !! i) as [c|] eqn:E; [|done]. intros [= <-].
  pose proof (Forall_lookup_1 _ _ _ _ Hc E) as Hg. simpl in Hg.
  destruct (cfg !! i) as [sp|] eqn:Esp; [|done].
  destruct (in_wmm_range _); simpl; [|done]. destruct (Z.eqb_spec (wrr_skip_weight sp) 0); [done|].
  simpl. apply (list.Forall_forall good_specs (filter (fun sp => wrr_skip_weight sp <> 0) cfg)); [done|].
  apply list_elem_of_filter. split; [done|]. by eapply list_elem_of_lookup_2.
Qed.

(** Reading the default of a WMM category. *)
Lemma wmm_ac_selected_range w : 0 <= wmm_ac_selected w < 4.
Proof. unfold wmm_ac_selected. repeat case_match; by vm_compute. Qed.

Lemma ol_txrx_set_wmm_param_good hif tcp wmm sch :
  Forall (fun c => good_specs (cat_specs c)) (sch_categories sch) ->
  let sch' := ol_txrx_set_wmm_param hif tcp wmm sch in
  Forall (fun c => good_specs (cat_specs c)) (sch_categories sch') /\
  Forall2 same_state (sch_categories sch) (sch_categories sch').
Proof.
  intros Hg. simpl. split.
  - apply Forall_lookup_2. intros i c'. rewrite list_lookup_imap.
    destruct (sch_categories sch !! i) as [c|] eqn:E; [|done]. intros [= <-].
    pose proof (Forall_lookup_1 _ _ _ _ Hg E) as Hgc. simpl in Hgc.
    destruct (wmm !! i) as [p|]; [|done]. destruct (znth _ _) as [sp|] eqn:Esp; [|done].
    destruct (i <? 4)%nat; [|done]. simpl. apply znth_Some in Esp as [_ Esp].
    by eapply Forall_lookup_1; [apply wrr_adv_cfg_specs_good|].
  - apply Forall2_same_length_lookup. split; [by rewrite length_imap|].
    intros i c c' Hc Hc'. rewrite list_lookup_imap, Hc in Hc'. injection Hc' as <-.
    destruct (wmm !! i); [|done]. destruct (znth _ _); [|done]. by destruct (i <? 4)%nat.
Qed.

(** The state of the scheduler after attach: every category idle, none to
    be skipped before its first selection. *)
Definition fresh_category (c : category) : Prop :=
  cat_wrr_count c = wrr_skip_weight (cat_specs c) - 1 /\ cat_frms c = 0 /\ cat_bytes c = 0 /\
  cat_head c = [] /\ cat_active c = false.

Lemma ol_tx_sched_init_wrr_adv_spec hif tcp cfg :
  Forall good_specs (filter (fun sp => wrr_skip_weight sp <> 0) cfg) ->
  exists sch, ol_tx_sched_init_wrr_adv hif tcp true cfg = Some sch /\ sched_ok sch /\
    Forall fresh_category (sch_categories sch) /\
    Forall (fun c => good_specs (cat_specs c)) (sch_categories sch).
Proof.
  intros Hcfg. unfold ol_tx_sched_init_wrr_adv. eexists. split; [done|].
  set (cats0 := (fun sp => mk_category sp 0 0 0 [] false) <$> wrr_adv_cfg_specs hif tcp).
  assert (Forall (fun c => good_specs (cat_specs c)) cats0) as H0.
  { apply Forall_fmap. eapply list.Forall_impl; [apply (wrr_adv_cfg_specs_good hif tcp)|]. done. }
  assert (length cats0 = 9%nat) as Hl0 by (unfold cats0; by destruct hif, tcp).
  pose proof (ol_tx_sched_wrr_param_update_good cfg cats0 Hcfg H0) as H1.
  assert (Forall (fun c => cat_bytes c = 0) (ol_tx_sched_wrr_param_update cfg cats0)) as Hb.
  { apply Forall_lookup_2. intros i c'. unfold ol_tx_sched_wrr_param_update.
    rewrite list_lookup_imap. unfold cats0. rewrite list_lookup_fmap.
    destruct (wrr_adv_cfg_specs hif tcp !! i) as [sp|]; [|done]. intros [= <-].
    destruct (cfg !! i); [|done]. by destruct (_ && _). }
  assert (length (ol_tx_sched_wrr_param_update cfg cats0) = 9%nat) as Hl1
    by (unfold ol_tx_sched_wrr_param_update; by rewrite length_imap).
  revert H1 Hb Hl1. generalize (ol_tx_sched_wrr_param_update cfg cats0) as cats1. intros cats1 H1 Hb Hl1.
  assert (forall c, good_specs (cat_specs c) ->
    s32 (wrr_skip_weight (cat_specs c) - 1) = wrr_skip_weight (cat_specs c) - 1) as Hs32.
  { intros c [? _]. unfold max_weight in *. apply s32_small. lia. }
  split_and!; simpl.
  - constructor; simpl; [|done|].
    + constructor; simpl; [done|unfold zlen; by rewrite length_fmap, Hl1|].
      apply Forall_fmap. eapply list.Forall_impl; [exact H1|]. intros c Hc. simpl.
      unfold category_ok. simpl. rewrite Hs32 by done. destruct Hc as [? _]. lia.
    + apply Forall_fmap. eapply list.Forall_impl; [exact H1|]. intros c (? & ? & ? & ? & ?). simpl.
      unfold specs_ok. simpl. lia.
  - apply Forall_fmap. apply Forall_lookup_2. intros i c Hc. simpl.
    pose proof (Forall_lookup_1 _ _ _ _ H1 Hc) as Hgc. pose proof (Forall_lookup_1 _ _ _ _ Hb Hc) as Hbc.
    unfold fresh_category. simpl. split_and!; try done. by apply Hs32.
  - apply Forall_fmap. eapply list.Forall_impl; [exact H1|]. done.
Qed.

(** A device with a fresh scheduler and no queues. *)
Lemma Inv_init hif tcp cfg credit pool lo hi cali :
  Forall good_specs (filter (fun sp => wrr_skip_weight sp <> 0) cfg) -> 0 <= pool < 65536 ->
  wp (ol_tx_sched_attach hif tcp true cfg) (fun _ s => Inv s /\ pd_txqs s = ∅ /\
    pd_tid_to_ac s = tid_to_ac_init /\ zlen (pd_txq_grps s) = OL_TX_MAX_TXQ_GROUPS)
    (tx_pdev_init credit pool lo hi cali).
Proof.
  intros Hcfg Hpool. destruct (ol_tx_sched_init_wrr_adv_spec hif tcp cfg Hcfg) as (sch & Hi & Hok & Hfresh & _).
  unfold ol_tx_sched_attach. step. eapply wp_run; [reflexivity|]. rewrite Hi.
  split_and!; try done. constructor; simpl; try done; [|unfold total_frms, map_sum; simpl; rewrite map_to_list_empty, zsum_nil; lia|lia|].
  - exists sch. split_and!; [done|done|]. intros ci c [_ Hc]%znth_Some.
    pose proof (Forall_lookup_1 _ _ _ _ Hfresh Hc) as (_ & E2 & E3 & E4 & E5).
    constructor; rewrite ?E2, ?E3, ?E4, ?E5; try done; [apply NoDup_nil_2|].
    intros q. split; [set_solver|]. intros [(t & Ht & _) _]. by rewrite lookup_empty in Ht.
  - repeat constructor; simpl; lia.
Qed.
End Config.

Section Attach.
Lemma zseq_elem i n : i ∈ zseq n <-> 0 <= i < n.
Proof.
  unfold zseq. rewrite list_elem_of_fmap. split.
  - intros (k & -> & Hk%elem_of_seq). lia.
  - intros. exists (Z.to_nat i). split; [lia|]. apply elem_of_seq. lia.
Qed.

Lemma zseq_nodup n : NoDup (zseq n).
Proof. unfold zseq. apply NoDup_fmap_2; [intros ???; lia|apply NoDup_seq]. Qed.

Lemma upd_txq_run q f s t :
  pd_txqs s !! q = Some t -> upd_txq q f s = Some (tt, set_pd_txqs (<[q := f t]>) s).
Proof. intros H. unfold upd_txq, get_txq, get, lift, modify, mbind, M_bind. by rewrite H. Qed.

(** A loop that creates the queues [K i] for [i] in [l]. *)
Lemma attach_loop s (K : Z -> txq_id) (T : Z -> txq) f l :
  Inv s -> tids_ok (pd_tid_to_ac s) -> NoDup l -> Inj (=) (=) K ->
  (forall i, i ∈ l -> pd_txqs s !! K i = None /\ 0 <= ext_tid_of (K i) < 21 /\
     txq_ok (zlen (pd_txq_grps s)) (T i) /\ txq_flag (T i) = ol_tx_queue_empty) ->
  (forall i s1, i ∈ l -> pd_txq_grps s1 = pd_txq_grps s ->
     f i s1 = Some (tt, set_pd_txqs (<[K i := T i]>) s1)) ->
  wp (for_each l f) (fun _ s' => Inv s' /\ s' = set_pd_txqs (fun _ => pd_txqs s') s /\
    (forall i, i ∈ l -> pd_txqs s' !! K i = Some (T i)) /\
    (forall q, (forall i, i ∈ l -> q <> K i) -> pd_txqs s' !! q = pd_txqs s !! q)) s.
Proof.
  intros HI Htids Hnd Hinj Hnew Hf.
  eapply wp_mono; [apply (wp_for_each _ _ (fun todo s1 => exists dn, l = dn ++ todo /\
    Inv s1 /\ s1 = set_pd_txqs (fun _ => pd_txqs s1) s /\
    (forall i, i ∈ dn -> pd_txqs s1 !! K i = Some (T i)) /\
    (forall q, (forall i, i ∈ dn -> q <> K i) -> pd_txqs s1 !! q = pd_txqs s !! q)))|].
  - exists []. split_and!; try done; [by destruct s|set_solver].
  - intros i todo s1 (dn & Hsplit & HI1 & Es & Hdone & Hother).
    assert (i ∈ l) as Hi by (rewrite Hsplit; set_solver).
    assert (i ∉ dn) as Hfresh.
    { intros Hin. rewrite Hsplit in Hnd. apply list.NoDup_app in Hnd as (_ & Hd & _).
      by apply (Hd i); [|set_solver]. }
    destruct (Hnew i Hi) as (Hnone & Hext & Hok & Hfl).
    destruct (tids_ok_home (pd_tid_to_ac s) (K i) Htids Hext) as (ci & Hh & Hci).
    eapply wp_run; [apply Hf; [done|by rewrite Es]|].
    exists (dn ++ [i]). split_and!.
    + by rewrite <- app_assoc.
    + apply (Inv_add_queue s1 _ _ ci); try done; [|by rewrite Es..].
      rewrite Hother; [done|]. intros j Hj E. apply Hinj in E. by subst.
    + rewrite Es. done.
    + intros j Hj. simpl. destruct (decide (j = i)) as [->|Hne]; [by rewrite lookup_insert_eq|].
      rewrite lookup_insert_ne by (intros E; apply Hinj in E; congruence). apply Hdone. set_solver.
    + intros q Hq. simpl. rewrite lookup_insert_ne by (intros E; apply (Hq i); [set_solver|done]).
      apply Hother. intros j Hj. apply Hq. set_solver.
  - intros _ s' (dn & E & HI' & Es & Hdone & Hother). rewrite app_nil_r in E. by subst dn.
Qed.

Definition peer_txq_init (v i : Z) (grps : list txq_group) : txq :=
  set_txq_group_ptr (fun _ => find_group v i 0 grps) (txq_init i).

Lemma ol_txrx_peer_attach_txqs_spec s peer v :
  Inv s -> tids_ok (pd_tid_to_ac s) ->
  (forall i, 0 <= i < OL_TX_NUM_TIDS -> pd_txqs s !! PeerTxq peer i = None) ->
  wp (ol_txrx_peer_attach_txqs peer v) (fun _ s' => Inv s' /\ s' = set_pd_txqs (fun _ => pd_txqs s') s /\
    (forall i, 0 <= i < OL_TX_NUM_TIDS ->
       pd_txqs s' !! PeerTxq peer i = Some (peer_txq_init v i (pd_txq_grps s))) /\
    (forall q, (forall i, 0 <= i < OL_TX_NUM_TIDS -> q <> PeerTxq peer i) -> pd_txqs s' !! q = pd_txqs s !! q)) s.
Proof.
  intros HI Htids Hnew.
  eapply wp_mono; [apply (attach_loop s (PeerTxq peer) (fun i => peer_txq_init v i (pd_txq_grps s)));
    [done|done|apply zseq_nodup|by intros ?? [= ->]| |]|].
  - intros i Hi. apply zseq_elem in Hi as Hr. unfold OL_TX_NUM_TIDS in *.
    split_and!; [by apply Hnew|simpl; lia..| |done].
    apply txq_init_ok. intros g Hg. apply find_group_range in Hg. lia.
  - intros i s1 Hi Eg. eapply (run_bind _ _ _ tt); [reflexivity|]. unfold ol_tx_set_peer_group_ptr.
    eapply run_bind; [reflexivity|]. unfold ol_tx_txq_set_group_ptr.
    eapply run_bind; [apply upd_txq_run; simpl; apply lookup_insert_eq|].
    simpl. rewrite Eg. unfold peer_txq_init. destruct (find_group v i 0 (pd_txq_grps s)) as [g|].
    + rewrite (upd_txq_run _ _ _ (set_txq_group_ptr (fun _ => None) (txq_init i)))
        by (simpl; apply lookup_insert_eq).
      unfold set_pd_txqs. simpl. by rewrite !insert_insert_eq.
    + unfold skip, set_pd_txqs. simpl. by rewrite insert_insert_eq.
  - intros _ s' (HI' & Es & Hin & Hout). split_and!; try done.
    + intros i Hi. apply Hin. by apply zseq_elem.
    + intros q Hq. apply Hout. intros i Hi. by apply Hq, zseq_elem.
Qed.

Lemma ol_txrx_vdev_attach_txqs_spec s v :
  Inv s -> tids_ok (pd_tid_to_ac s) ->
  (forall i, 0 <= i < OL_TX_VDEV_NUM_QUEUES -> pd_txqs s !! VdevTxq v i = None) ->
  wp (ol_txrx_vdev_attach_txqs v) (fun _ s' => Inv s' /\ s' = set_pd_txqs (fun _ => pd_txqs s') s /\
    (forall i, 0 <= i < OL_TX_VDEV_NUM_QUEUES ->
       pd_txqs s' !! VdevTxq v i = Some (txq_init (OL_TX_NUM_TIDS + i))) /\
    (forall q, (forall i, 0 <= i < OL_TX_VDEV_NUM_QUEUES -> q <> VdevTxq v i) -> pd_txqs s' !! q = pd_txqs s !! q)) s.
Proof.
  intros HI Htids Hnew.
  eapply wp_mono; [apply (attach_loop s (VdevTxq v) (fun i => txq_init (OL_TX_NUM_TIDS + i)));
    [done|done|apply zseq_nodup|by intros ?? [= ->]| |]|].
  - intros i Hi. apply zseq_elem in Hi as Hr. unfold OL_TX_VDEV_NUM_QUEUES in *.
    split_and!; [by apply Hnew| | | |done].
    1-2: assert (i = 0 \/ i = 1 \/ i = 2) as [->|[->| ->]] by lia; by vm_compute.
    apply (txq_init_ok _ _ None). done.
  - done.
  - intros _ s' (HI' & Es & Hin & Hout). split_and!; try done.
    + intros i Hi. apply Hin. by apply zseq_elem.
    + intros q Hq. apply Hout. intros i Hi. by apply Hq, zseq_elem.
Qed.
End Attach.
