(* ===== verification/TxProps.v ===== *)
(** The theorems about the transmit path, each with a concrete run. *)
From Stdlib Require Import ZArith Lia.
From stdpp Require Import prelude gmap list numbers.
From S2P Require Import Prelude.
From S2P Require Import TxTypes.
From S2P Require Import TxCore.
From S2P Require Import TxSched.
From S2P Require Import TxQueue.
From S2P Require Import TxSchedSpec.
From S2P Require Import TxInv.
From S2P Require Import TxSchedInv.
From S2P Require Import TxDispatch.
From S2P Require Import TxQueueInv.
From S2P Require Import TxDiscard.
From S2P Require Import TxInit.

(** ** A concrete device

    One vdev (0) with one peer (1), forty credits, six hundred descriptors,
    and a target that refuses the frame with id 13. *)
Definition ex_tx : HttTx := fun d => td_id d =? 13.

Definition ex_attach : M tx_pdev unit :=
  ol_tx_sched_attach true false true [];;
  ol_txrx_vdev_attach_txqs 0;;
  ol_txrx_peer_attach_txqs 1 0;;
  modify (set_pd_vdev_list (fun _ => [mk_tx_vdev 0 [1] 0]));;
  modify (set_pd_peer_ref_cnt (fun _ => {[ 1 := 1 ]})).

Definition run_state (m : M tx_pdev unit) (s : tx_pdev) : tx_pdev :=
  match m s with Some (_, s') => s' | None => s end.

Definition ex0 : tx_pdev := run_state ex_attach (tx_pdev_init 40 600 32 64 false).

Definition ex_be : txq_id := PeerTxq 1 0.
Definition ex_mcast : txq_id := VdevTxq 0 0.
Definition ex_frame (i : Z) : tx_desc := mk_tx_desc i (100 + i) (negb (i =? 12)).

Definition ex_enqueue (q : txq_id) (i : Z) : tx_pdev -> tx_pdev :=
  run_state (ol_tx_enqueue q (ex_frame i) (ext_tid_of q)).

(** Three best-effort frames, one of them refused later. *)
Definition ex1 : tx_pdev := ex_enqueue ex_be 13 (ex_enqueue ex_be 12 (ex_enqueue ex_be 11 ex0)).

Definition queue_or_init (s : tx_pdev) (q : txq_id) : txq := default (txq_init 0) (pd_txqs s !! q).

Section Examples.
Lemma run_state_wp (m : M tx_pdev unit) (Q : tx_pdev -> Prop) s :
  wp m (fun _ s' => Q s') s -> Q (run_state m s).
Proof. unfold wp, run_state. by destruct (m s) as [[[] s']|]. Qed.

Lemma ex0_inv : Inv ex0 /\ tids_ok (pd_tid_to_ac ex0).
Proof.
  apply (run_state_wp ex_attach (fun s => Inv s /\ tids_ok (pd_tid_to_ac s))).
  unfold ex_attach. apply wp_bind.
  eapply wp_mono; [apply (Inv_init true false [] 40 600 32 64 false); [constructor|lia]|].
  intros _ s1 (H1 & E1 & T1 & G1). apply wp_bind.
  assert (tids_ok (pd_tid_to_ac s1)) as Ht1 by (rewrite T1; apply tid_to_ac_init_ok).
  eapply wp_mono; [apply ol_txrx_vdev_attach_txqs_spec; [done|done|by rewrite E1]|].
  intros _ s2 (H2 & E2 & _ & Ho). apply wp_bind.
  eapply wp_mono; [apply ol_txrx_peer_attach_txqs_spec; [done|by rewrite E2|]|].
  { intros i _. rewrite Ho by done. by rewrite E1. }
  intros _ s3 (H3 & E3 & _). step. eapply wp_run; [reflexivity|].
  split; [|by simpl; rewrite E3, E2].
  eapply (Inv_env s3); [done| |done]. constructor; try done. apply H3.
Qed.

Lemma ex_enqueue_inv q i s :
  Inv s -> pd_txqs s !! q = Some (queue_or_init s q) ->
  (total_frms s + 1 <=? pd_desc_pool_size s) && (- 2 ^ 31 <=? pd_rsrc_cnt s) && (pd_rsrc_cnt s <? 2 ^ 31) = true ->
  Inv (ex_enqueue q i s).
Proof.
  intros HI Hq Hb. apply (run_state_wp _ Inv).
  eapply wp_mono; [apply (ol_tx_enqueue_spec s q _ _ HI Hq); lia|].
  by intros _ s' (l & [? _ _ _ _ _ _] & _).
Qed.

Lemma ex1_inv : Inv ex1.
Proof.
  repeat (apply ex_enqueue_inv; [|by vm_compute|by vm_compute]). apply ex0_inv.
Qed.
End Examples.

(** ** The scheduler *)

(** C2: [ol_tx_sched] returns from every state of the transmit path, with any
    target.  The frames it takes come off the fronts of the queues; each is
    handed to the target exactly once, in the order collected; refused frames
    are freed and give their credit back; no more frames go out than there
    were credits; the credit balances and the queue invariant holds again. *)
Theorem ol_tx_sched_correct (tx : HttTx) s :
  Inv s -> -2 ^ 31 <= pd_target_tx_credit s < 2 ^ 31 ->
  exists s' cali sent, ol_tx_sched s = Some (tt, s') /\ scheduled s cali sent s'.
Proof.
  intros HI Hc. pose proof (ol_tx_sched_spec s HI Hc) as H. apply wp_some in H.
  destruct H as ([] & s' & Hr & cali & sent & Hs). eauto.
Qed.

Lemma ol_tx_sched_correct_witness :
  exists s' cali sent, @ol_tx_sched ex_tx ex1 = Some (tt, s') /\ @scheduled ex_tx ex1 cali sent s'.
Proof. apply (ol_tx_sched_correct ex_tx ex1 ex1_inv). split; by vm_compute. Defined.

(** C24: one call of the batch selection keeps the invariant, never finds a
    category marked active without a queue, and either changes no queue or
    takes from one active queue exactly the frames that the queue's length,
    the send limit and the credit (after the group limit and the category's
    reserve) allow, charging the queue's group for them. *)
Theorem ol_tx_sched_select_batch_correct s sctx credit :
  Inv s -> 0 <= credit < 2 ^ 31 ->
  exists used sctx' s', ol_tx_sched_select_batch_wrr_adv sctx credit s = Some ((used, sctx'), s') /\
    Inv s' /\ batch_result s sctx credit used sctx' s'.
Proof.
  intros HI Hc. pose proof (ol_tx_sched_select_batch_spec s sctx credit HI Hc) as H.
  apply wp_some in H. destruct H as ([used sctx'] & s' & Hr & HI' & Hb). eauto 10.
Qed.

Lemma ol_tx_sched_select_batch_correct_witness :
  exists used sctx' s', ol_tx_sched_select_batch_wrr_adv (mk_sched_ctx [] 0) 40 ex1 = Some ((used, sctx'), s') /\
    Inv s' /\ batch_result ex1 (mk_sched_ctx [] 0) 40 used sctx' s'.
Proof. apply (ol_tx_sched_select_batch_correct ex1 _ 40 ex1_inv). split; by vm_compute. Defined.

(** The choice of a category terminates with the fuel the scheduler gives
    it.  It returns the first position, after the categories it skipped have
    moved to the back, whose category is active and has waited its turns; when
    it returns none, every category from the start position on is inactive. *)
Theorem wrr_adv_select_loop_correct sch :
  wf_sched sch -> 0 <= sch_index sch <= 9 ->
  exists sch' index, wrr_adv_select_loop (wrr_adv_select_fuel sch) sch (sch_index sch) = Some (sch', index) /\
    select_result sch (sch_index sch) sch' index.
Proof.
  intros Hwf Hi. apply wrr_adv_select_loop_spec; [done|done|]. unfold wrr_adv_select_fuel. lia.
Qed.

Definition ex_sched : wrr_adv :=
  default (mk_wrr_adv [] 0 []) (pd_scheduler ex1).

Lemma ex_sched_wf : wf_sched ex_sched.
Proof.
  destruct ex1_inv as [(sch & Hs & Hok & _) _ _ _ _]. unfold ex_sched. rewrite Hs. apply Hok.
Qed.

Lemma wrr_adv_select_loop_correct_witness :
  exists sch' index, wrr_adv_select_loop (wrr_adv_select_fuel ex_sched) ex_sched (sch_index ex_sched) = Some (sch', index) /\
    select_result ex_sched (sch_index ex_sched) sch' index.
Proof. apply (wrr_adv_select_loop_correct ex_sched ex_sched_wf). split; by vm_compute. Defined.

(** C26: [ol_tx_dequeue] takes exactly the front of the queue that the frame
    limit and the credit allow, in order, at one credit per frame, and the
    branch that flushes the caller's list is never taken while the queue's
    counter agrees with its list. *)
Theorem ol_tx_dequeue_correct s q t head max credit :
  Inv s -> pd_txqs s !! q = Some t -> 0 <= max < 65536 -> 0 <= credit < 2 ^ 31 ->
  let k := Z.to_nat (Z.min (zlen (txq_head t)) (Z.min max credit)) in
  exists s' t', ol_tx_dequeue q head max credit s =
      Some ((Z.of_nat k, head ++ take k (txq_head t), Z.of_nat k, s32 (zsum td_len (take k (txq_head t)))), s') /\
    pd_txqs s' = <[q := t']> (pd_txqs s) /\ txq_ok (zlen (pd_txq_grps s)) t' /\
    txq_head t' = drop k (txq_head t) /\ txq_paused_total t' = txq_paused_total t.
Proof.
  intros HI Hq Hm Hc k. destruct (queue_at_intro s q t HI Hq) as (ci & sch & c & Hqa).
  destruct (queue_at_facts _ _ _ _ _ _ Hqa) as (_ & _ & _ & Htok & _).
  exists (focus s sch q ci (txq_after k t) c), (txq_after k t).
  pose proof (ol_tx_dequeue_focus s sch q ci _ t c head max credit Htok Hm Hc) as Hd.
  rewrite <- (focus_id sch q ci s t c) in Hd by apply Hqa.
  unfold batch_size in Hd. rewrite (ok_frms _ _ Htok) in Hd. split; [exact Hd|].
  split; [done|]. split; [|done]. apply txq_after_ok; [unfold k, zlen; lia|done].
Qed.

Lemma ol_tx_dequeue_correct_witness : exists t, pd_txqs ex1 !! ex_be = Some t /\
  let k := Z.to_nat (Z.min (zlen (txq_head t)) (Z.min 2 40)) in
  exists s' t', ol_tx_dequeue ex_be [] 2 40 ex1 =
      Some ((Z.of_nat k, [] ++ take k (txq_head t), Z.of_nat k, s32 (zsum td_len (take k (txq_head t)))), s') /\
    pd_txqs s' = <[ex_be := t']> (pd_txqs ex1) /\ txq_ok (zlen (pd_txq_grps ex1)) t' /\
    txq_head t' = drop k (txq_head t) /\ txq_paused_total t' = txq_paused_total t.
Proof.
  exists (queue_or_init ex1 ex_be). split; [by vm_compute|].
  apply (ol_tx_dequeue_correct ex1 ex_be (queue_or_init ex1 ex_be) [] 2 40 ex1_inv); [by vm_compute|lia|lia].
Defined.

(** Moving a category to the back of the order list is a rotation of the
    tail: positions before it stay, the rest shift forward by one, and the
    list stays a permutation of the categories. *)
Theorem rotate_order_list_tail_correct sch idx :
  wf_sched sch -> 0 <= idx < OL_TX_SCHED_WRR_ADV_NUM_CATEGORIES ->
  exists sch', ol_tx_sched_wrr_adv_rotate_order_list_tail sch idx = Some sch' /\
    sch_order sch' = take (Z.to_nat idx) (sch_order sch) ++ drop (S (Z.to_nat idx)) (sch_order sch) ++
                     take 1 (drop (Z.to_nat idx) (sch_order sch)) /\
    wf_sched sch' /\ sch_categories sch' = sch_categories sch /\ sch_index sch' = sch_index sch.
Proof.
  intros Hwf Hi. exists (set_sch_order (rotate_list idx) sch).
  split; [apply rotate_eq; [by apply wf_order_len|done]|]. split; [done|]. split; [by apply wf_rotate|done].
Qed.

Lemma rotate_order_list_tail_correct_witness :
  exists sch', ol_tx_sched_wrr_adv_rotate_order_list_tail ex_sched 3 = Some sch' /\
    sch_order sch' = take (Z.to_nat 3) (sch_order ex_sched) ++ drop (S (Z.to_nat 3)) (sch_order ex_sched) ++
                     take 1 (drop (Z.to_nat 3) (sch_order ex_sched)) /\
    wf_sched sch' /\ sch_categories sch' = sch_categories ex_sched /\ sch_index sch' = sch_index ex_sched.
Proof. apply (rotate_order_list_tail_correct ex_sched 3 ex_sched_wf). split; by vm_compute. Defined.

(** ** The queues *)

(** [ol_tx_enqueue] appends the frame to its queue and activates the queue
    unless it is paused; when descriptors are scarce it first drops at most
    the configured number of frames off the fronts of the queues, counts their
    descriptors back and frees them; no frame is lost or duplicated, nothing
    is sent, and the invariant holds again. *)
Theorem ol_tx_enqueue_correct s q t d :
  Inv s -> pd_txqs s !! q = Some t -> total_frms s < pd_desc_pool_size s ->
  -2 ^ 31 <= pd_rsrc_cnt s < 2 ^ 31 ->
  exists s' dropped, ol_tx_enqueue q d (ext_tid_of q) s = Some (tt, s') /\ enqueued s q d dropped s' /\
    zlen dropped <= (if pd_rsrc_cnt s <=? pd_rsrc_threshold_lo s
                     then u16 (pd_rsrc_threshold_hi s - pd_rsrc_threshold_lo s) else 0).
Proof.
  intros HI Hq Hroom Hr. pose proof (ol_tx_enqueue_spec s q t d HI Hq ltac:(lia) Hr) as H.
  apply wp_some in H. destruct H as ([] & s' & Hrun & dropped & He & Hle). eauto.
Qed.

(** Scarce descriptors: 20 left, the threshold is 32. *)
Definition ex_scarce : tx_pdev := set_pd_rsrc_cnt (fun _ => 20) ex1.

Lemma ex_scarce_inv : Inv ex_scarce.
Proof. apply Inv_rsrc, ex1_inv. Qed.

Lemma ol_tx_enqueue_correct_witness :
  exists s' dropped, ol_tx_enqueue ex_be (ex_frame 14) (ext_tid_of ex_be) ex_scarce = Some (tt, s') /\
    enqueued ex_scarce ex_be (ex_frame 14) dropped s' /\
    zlen dropped <= (if pd_rsrc_cnt ex_scarce <=? pd_rsrc_threshold_lo ex_scarce
                     then u16 (pd_rsrc_threshold_hi ex_scarce - pd_rsrc_threshold_lo ex_scarce) else 0).
Proof.
  apply (ol_tx_enqueue_correct ex_scarce ex_be (queue_or_init ex_scarce ex_be) (ex_frame 14) ex_scarce_inv);
    [by vm_compute|by vm_compute|split; by vm_compute].
Defined.

(** One discard picks the category with the highest weighted backlog, its
    longest queue, and drops from the front at least one frame and at most the
    number asked for; it reports zero only when no queue is active. *)
Theorem ol_tx_sched_discard_select_correct s frms descs force :
  Inv s -> 0 < frms < 65536 ->
  exists n descs' s', ol_tx_sched_discard_select frms descs force s = Some ((n, descs'), s') /\
    Inv s' /\ discard_result s frms force descs n descs' s'.
Proof.
  intros HI Hf. pose proof (ol_tx_sched_discard_select_spec s frms descs force HI Hf) as H.
  apply wp_some in H. destruct H as ([n descs'] & s' & Hr & HI' & Hd). eauto 10.
Qed.

Lemma ol_tx_sched_discard_select_correct_witness :
  exists n descs' s', ol_tx_sched_discard_select 7 [] false ex1 = Some ((n, descs'), s') /\
    Inv s' /\ discard_result ex1 7 false [] n descs' s'.
Proof. apply (ol_tx_sched_discard_select_correct ex1 7 [] false ex1_inv). lia. Defined.

(** The discard loop terminates; what it drops comes off the fronts of the
    queues, never exceeds the difference of the two thresholds, reaches it
    unless nothing is left to schedule, and is counted back in full. *)
Theorem ol_tx_queue_discard_correct (tx : HttTx) s descs :
  Inv s ->
  exists s' dropped s1, ol_tx_queue_discard false descs s = Some (descs ++ dropped, s') /\
    dropped_from s dropped s1 /\ s' = set_pd_rsrc_cnt (fun n => s32 (n + zlen dropped)) s1 /\
    zlen dropped <= u16 (pd_rsrc_threshold_hi s - pd_rsrc_threshold_lo s) /\
    (zlen dropped < u16 (pd_rsrc_threshold_hi s - pd_rsrc_threshold_lo s) -> nothing_active s').
Proof.
  intros HI. pose proof (ol_tx_queue_discard_spec descs s HI) as H. apply wp_some in H.
  destruct H as (r & s' & Hrun & dropped & s1 & -> & Hd & Hle & Hno & ->).
  exists (set_pd_rsrc_cnt (fun n => s32 (n + zlen dropped)) s1), dropped, s1. split_and!; done.
Qed.

Lemma ol_tx_queue_discard_correct_witness :
  exists s' dropped s1, ol_tx_queue_discard false [] ex1 = Some ([] ++ dropped, s') /\
    dropped_from ex1 dropped s1 /\ s' = set_pd_rsrc_cnt (fun n => s32 (n + zlen dropped)) s1 /\
    zlen dropped <= u16 (pd_rsrc_threshold_hi ex1 - pd_rsrc_threshold_lo ex1) /\
    (zlen dropped < u16 (pd_rsrc_threshold_hi ex1 - pd_rsrc_threshold_lo ex1) -> nothing_active s').
Proof. apply (ol_tx_queue_discard_correct ex_tx ex1 [] ex1_inv). Defined.

(** [ol_tx_queue_free] takes the queue out of the scheduler, frees every
    frame of it in order, counts the descriptors back and leaves it empty; the
    invariant survives when the queue was not paused. *)
Theorem ol_tx_queue_free_correct s q t :
  Inv s -> pd_txqs s !! q = Some t ->
  exists s', ol_tx_queue_free q (ext_tid_of q) s = Some (tt, s') /\ queue_emptied s q t s' /\
    (txq_paused_total t = 0 -> Inv s').
Proof.
  intros HI Hq. pose proof (ol_tx_queue_free_spec s q t HI Hq) as H. apply wp_some in H.
  destruct H as ([] & s' & Hr & He & Hi). eauto.
Qed.

Lemma ol_tx_queue_free_correct_witness :
  exists s', ol_tx_queue_free ex_be (ext_tid_of ex_be) ex1 = Some (tt, s') /\
    queue_emptied ex1 ex_be (queue_or_init ex1 ex_be) s' /\
    (txq_paused_total (queue_or_init ex1 ex_be) = 0 -> Inv s').
Proof. apply (ol_tx_queue_free_correct ex1 ex_be _ ex1_inv). by vm_compute. Defined.

(** Pausing a queue raises its pause count and takes it, with all its
    frames and bytes, out of its category; no other queue changes and the
    invariant holds. *)
Theorem txq_pause_correct s q t :
  Inv s -> pd_txqs s !! q = Some t -> txq_paused_total t < 255 ->
  exists s', txq_pause q (ext_tid_of q) s = Some (tt, s') /\ Inv s' /\ one_queue s q (txq_paused t) s'.
Proof.
  intros HI Hq Hlt. pose proof (txq_pause_spec s q t HI Hq Hlt) as H. apply wp_some in H.
  destruct H as ([] & s' & Hr & HI' & Ho). eauto.
Qed.

Lemma txq_pause_correct_witness :
  exists s', txq_pause ex_be (ext_tid_of ex_be) ex1 = Some (tt, s') /\ Inv s' /\
    one_queue ex1 ex_be (txq_paused (queue_or_init ex1 ex_be)) s'.
Proof. apply (txq_pause_correct ex1 ex_be _ ex1_inv); by vm_compute. Defined.

(** Unpausing lowers the pause count; the last unpause gives the queue
    back to its category, marks it by whether it holds frames, and runs the
    scheduler when it does. *)
Theorem txq_unpause_correct (tx : HttTx) s q t :
  Inv s -> -2 ^ 31 <= pd_target_tx_credit s < 2 ^ 31 -> pd_txqs s !! q = Some t ->
  exists s' s1 cali sent, txq_unpause q (ext_tid_of q) s = Some (tt, s') /\
    Inv s1 /\ one_queue s q (txq_unpaused t) s1 /\ scheduled s1 cali sent s'.
Proof.
  intros HI Hc Hq. pose proof (txq_unpause_spec s q t HI Hc Hq) as H. apply wp_some in H.
  destruct H as ([] & s' & Hr & s1 & cali & sent & HI1 & Ho & Hs). eauto 10.
Qed.

Definition ex_paused : tx_pdev := run_state (txq_pause ex_be (ext_tid_of ex_be)) ex1.

Lemma ex_paused_inv : Inv ex_paused.
Proof.
  apply (run_state_wp _ Inv). eapply wp_mono;
    [apply (txq_pause_spec ex1 ex_be (queue_or_init ex1 ex_be) ex1_inv); by vm_compute|].
  by intros _ s' [? _].
Qed.

Lemma txq_unpause_correct_witness :
  exists s' s1 cali sent, @txq_unpause ex_tx ex_be (ext_tid_of ex_be) ex_paused = Some (tt, s') /\
    Inv s1 /\ one_queue ex_paused ex_be (txq_unpaused (queue_or_init ex_paused ex_be)) s1 /\
    @scheduled ex_tx s1 cali sent s'.
Proof.
  apply (txq_unpause_correct ex_tx ex_paused ex_be _ ex_paused_inv); [split; by vm_compute|by vm_compute].
Defined.

(** Without credit, pausing a queue and unpausing it again is a round
    trip: every queue is exactly as before, nothing was sent or freed, and the
    invariant holds. *)
Theorem txq_pause_unpause_roundtrip (tx : HttTx) s q t :
  Inv s -> -2 ^ 31 <= pd_target_tx_credit s <= 0 -> pd_txqs s !! q = Some t -> txq_paused_total t < 255 ->
  exists s', (txq_pause q (ext_tid_of q);; txq_unpause q (ext_tid_of q)) s = Some (tt, s') /\
    Inv s' /\ pd_txqs s' = pd_txqs s /\ pd_freed s' = pd_freed s /\ pd_sent s' = pd_sent s /\
    pd_target_tx_credit s' = pd_target_tx_credit s.
Proof.
  intros HI Hc Hq Hlt.
  assert (wp (txq_pause q (ext_tid_of q);; txq_unpause q (ext_tid_of q)) (fun _ s' =>
    Inv s' /\ pd_txqs s' = pd_txqs s /\ pd_freed s' = pd_freed s /\ pd_sent s' = pd_sent s /\
    pd_target_tx_credit s' = pd_target_tx_credit s) s) as H.
  { apply wp_bind. eapply wp_mono; [by apply txq_pause_spec|]. intros _ s1 [HI1 [sch1 ->]].
    pose proof (inv_txq _ HI q t Hq) as [Htok _].
    eapply wp_mono; [apply (txq_unpause_run _ q (txq_paused t) HI1); simpl; [lia|apply lookup_insert_eq]|].
    intros u s' (s2 & HI2 & [sch2 ->] & Hs'). rewrite (txq_unpaused_paused _ _ Htok) in *.
    match type of HI2 with Inv ?x => set (s2 := x) in * end.
    assert (pd_txqs s2 = pd_txqs s) as E by (simpl; by rewrite insert_insert_eq, insert_id).
    destruct Hs' as [->|Hrun]; [by rewrite E|].
    pose proof (ol_tx_sched_no_credit s2 HI2) as Hw. unfold wp in Hw. rewrite Hrun in Hw.
    destruct Hw as (? & -> & -> & -> & ->); [simpl; lia|]. by rewrite E. }
  apply wp_some in H. destruct H as ([] & s' & H). eauto.
Qed.

(** The same device out of credit. *)
Definition ex_broke : tx_pdev := set_pd_target_tx_credit (fun _ => 0) ex1.

Lemma ex_broke_inv : Inv ex_broke.
Proof. apply Inv_credit, ex1_inv. Qed.

Lemma txq_pause_unpause_roundtrip_witness :
  exists s', (txq_pause ex_be (ext_tid_of ex_be);; @txq_unpause ex_tx ex_be (ext_tid_of ex_be)) ex_broke = Some (tt, s') /\
    Inv s' /\ pd_txqs s' = pd_txqs ex_broke /\ pd_freed s' = pd_freed ex_broke /\ pd_sent s' = pd_sent ex_broke /\
    pd_target_tx_credit s' = pd_target_tx_credit ex_broke.
Proof.
  apply (txq_pause_unpause_roundtrip ex_tx ex_broke ex_be (queue_or_init ex_broke ex_be) ex_broke_inv);
    [split; by vm_compute|by vm_compute|by vm_compute].
Defined.

(** ** Creation and configuration *)

(** Attaching the scheduler, with any ini parameters in range, yields a
    device that satisfies the invariant: the order list is a permutation of
    the categories, and every category is idle and due for its first turn. *)
Theorem ol_tx_sched_attach_correct hif tcp cfg credit pool lo hi cali :
  Forall good_specs (filter (fun sp => wrr_skip_weight sp <> 0) cfg) -> 0 <= pool < 65536 ->
  exists s sch, ol_tx_sched_attach hif tcp true cfg (tx_pdev_init credit pool lo hi cali) = Some (tt, s) /\
    Inv s /\ pd_scheduler s = Some sch /\ Forall fresh_category (sch_categories sch).
Proof.
  intros Hcfg Hpool. pose proof (Inv_init hif tcp cfg credit pool lo hi cali Hcfg Hpool) as H.
  apply wp_some in H. destruct H as ([] & s & Hr & HI & _).
  destruct (ol_tx_sched_init_wrr_adv_spec hif tcp cfg Hcfg) as (sch & Hi & _ & Hf & _).
  exists s, sch. split_and!; try done. injection Hr as <-. simpl. exact Hi.
Qed.

Lemma ol_tx_sched_attach_correct_witness :
  exists s sch, ol_tx_sched_attach true true true [mk_specs 5 9 8 2 3] (tx_pdev_init 40 600 32 64 false) = Some (tt, s) /\
    Inv s /\ pd_scheduler s = Some sch /\ Forall fresh_category (sch_categories sch).
Proof.
  apply (ol_tx_sched_attach_correct true true [mk_specs 5 9 8 2 3] 40 600 32 64 false); [|lia].
  constructor; [repeat split; by vm_compute|constructor].
Defined.

(** Attaching a peer creates its eighteen empty queues, each in the first
    credit group that covers the peer's vdev and the queue's access category;
    the other queues are untouched and the invariant holds. *)
Theorem ol_txrx_peer_attach_txqs_correct s peer v :
  Inv s -> tids_ok (pd_tid_to_ac s) ->
  (forall i, 0 <= i < OL_TX_NUM_TIDS -> pd_txqs s !! PeerTxq peer i = None) ->
  exists s', ol_txrx_peer_attach_txqs peer v s = Some (tt, s') /\ Inv s' /\
    (forall i, 0 <= i < OL_TX_NUM_TIDS ->
       pd_txqs s' !! PeerTxq peer i = Some (peer_txq_init v i (pd_txq_grps s))) /\
    (forall q, (forall i, 0 <= i < OL_TX_NUM_TIDS -> q <> PeerTxq peer i) -> pd_txqs s' !! q = pd_txqs s !! q).
Proof.
  intros HI Ht Hn. pose proof (ol_txrx_peer_attach_txqs_spec s peer v HI Ht Hn) as H.
  apply wp_some in H. destruct H as ([] & s' & Hr & HI' & _ & H1 & H2). eauto.
Qed.

Lemma ol_txrx_peer_attach_txqs_correct_witness :
  exists s', ol_txrx_peer_attach_txqs 2 0 ex0 = Some (tt, s') /\ Inv s' /\
    (forall i, 0 <= i < OL_TX_NUM_TIDS ->
       pd_txqs s' !! PeerTxq 2 i = Some (peer_txq_init 0 i (pd_txq_grps ex0))) /\
    (forall q, (forall i, 0 <= i < OL_TX_NUM_TIDS -> q <> PeerTxq 2 i) -> pd_txqs s' !! q = pd_txqs ex0 !! q).
Proof.
  apply (ol_txrx_peer_attach_txqs_correct ex0 2 0 (proj1 ex0_inv) (proj2 ex0_inv)).
  intros i Hi. assert (i ∈ zseq OL_TX_NUM_TIDS) as Hin by (by apply zseq_elem).
  revert i Hin Hi. apply (list.Forall_forall (fun i => 0 <= i < OL_TX_NUM_TIDS -> pd_txqs ex0 !! PeerTxq 2 i = None)).
  repeat (constructor; [intros _; by vm_compute|]). constructor.
Defined.

(** New WMM parameters replace the weights of the four access categories
    by the default of the category their AIFS and CWmin fall in, and leave the
    queued traffic and the invariant alone. *)
Theorem ol_txrx_set_wmm_param_correct hif tcp wmm s sch :
  Inv s -> pd_scheduler s = Some sch -> Forall (fun c => good_specs (cat_specs c)) (sch_categories sch) ->
  let sch' := ol_txrx_set_wmm_param hif tcp wmm sch in
  Inv (set_pd_scheduler (fun _ => Some sch') s) /\
  Forall2 same_state (sch_categories sch) (sch_categories sch') /\
  (forall i p c, 0 <= i < 4 -> znth wmm i = Some p -> znth (sch_categories sch') i = Some c ->
     znth (wrr_adv_cfg_specs hif tcp) (wmm_ac_selected (u32 (ac_aifs p + ac_cwmin p))) = Some (cat_specs c)).
Proof.
  intros HI Hs Hg sch'. destruct (ol_txrx_set_wmm_param_good hif tcp wmm sch Hg) as [Hg' Hsame].
  split; [by apply (Inv_respec s sch)|]. split; [done|].
  intros i p c Hi [_ Hp]%znth_Some [_ Hc]%znth_Some. simpl in Hc. rewrite list_lookup_imap in Hc.
  destruct (sch_categories sch !! Z.to_nat i) as [c0|]; [|done]. injection Hc as <-.
  simpl. rewrite Hp. pose proof (wmm_ac_selected_range (u32 (ac_aifs p + ac_cwmin p))) as Hr.
  destruct (znth_in_range (wrr_adv_cfg_specs hif tcp) (wmm_ac_selected (u32 (ac_aifs p + ac_cwmin p)))) as [sp Hsp].
  { assert (zlen (wrr_adv_cfg_specs hif tcp) = 9) as -> by (by destruct hif, tcp). lia. }
  rewrite Hsp. assert ((Z.to_nat i <? 4)%nat = true) as -> by (apply Nat.ltb_lt; lia). done.
Qed.

Definition ex_wmm : list ac_param :=
  [mk_ac_param 3 15 1023; mk_ac_param 7 15 1023; mk_ac_param 2 7 15; mk_ac_param 2 3 7].

Lemma ol_txrx_set_wmm_param_correct_witness :
  let sch' := ol_txrx_set_wmm_param true false ex_wmm ex_sched in
  Inv (set_pd_scheduler (fun _ => Some sch') ex1) /\
  Forall2 same_state (sch_categories ex_sched) (sch_categories sch') /\
  (forall i p c, 0 <= i < 4 -> znth ex_wmm i = Some p -> znth (sch_categories sch') i = Some c ->
     znth (wrr_adv_cfg_specs true false) (wmm_ac_selected (u32 (ac_aifs p + ac_cwmin p))) = Some (cat_specs c)).
Proof.
  apply (ol_txrx_set_wmm_param_correct true false ex_wmm ex1 ex_sched ex1_inv); [by vm_compute|].
  apply (bool_decide_unpack _). by vm_compute.
Defined.

(** ** Where the code breaks the invariant *)

Definition ex_cat_frms (s : tx_pdev) (ci : Z) : option Z :=
  sch ← pd_scheduler s; c ← znth (sch_categories sch) ci; Some (cat_frms c).

(** [ol_txrx_vdev_pause_txq] names the queues of a vdev to the scheduler
    by [OL_TX_NUM_TIDS + i], while the classifier enqueued on them under their
    HTT extended TID.  The two select different categories for the multicast
    and the management queue, so pausing a multicast queue with a frame in it
    removes the queue from a list it is not on. *)
Theorem vdev_pause_txq_wrong_category :
  home tid_to_ac_init (VdevTxq 0 0) = Some OL_TX_SCHED_WRR_ADV_CAT_NON_QOS_DATA /\
  znth tid_to_ac_init (OL_TX_NUM_TIDS + 0) = Some OL_TX_SCHED_WRR_ADV_CAT_MCAST_DATA /\
  Inv ex0 /\ is_Some (ol_tx_enqueue ex_mcast (ex_frame 1) (ext_tid_of ex_mcast) ex0) /\
  (ol_tx_enqueue ex_mcast (ex_frame 1) (ext_tid_of ex_mcast);; ol_txrx_vdev_pause_txq 0 1) ex0 = None.
Proof.
  split; [done|]. split; [done|]. split; [apply ex0_inv|]. split; [|by vm_compute].
  apply (bool_decide_unpack _). by vm_compute.
Qed.

(** [ol_tx_queue_free] marks a paused queue as empty without clearing its
    pause count, so a frame that arrives before the unpause is counted when it
    is enqueued and again when the queue is unpaused: the category then claims
    two frames for the one queued. *)
Theorem queue_free_paused_double_count :
  let s := run_state (txq_pause ex_be (ext_tid_of ex_be);; ol_tx_queue_free ex_be (ext_tid_of ex_be);;
                      ol_tx_enqueue ex_be (ex_frame 1) (ext_tid_of ex_be);;
                      @txq_unpause ex_tx ex_be (ext_tid_of ex_be)) ex_broke in
  Inv ex_broke /\ txq_frms (queue_or_init s ex_be) = 1 /\
  home (pd_tid_to_ac s) ex_be = Some OL_TX_SCHED_WRR_ADV_CAT_BE /\
  ex_cat_frms s OL_TX_SCHED_WRR_ADV_CAT_BE = Some 2.
Proof. split; [apply ex_broke_inv|]. split; [|split]; by vm_compute. Qed.
