(* ===== verification/RxTypes.v ===== *)
(** The data of the receive path: network buffers and their links, the rx
    reorder arrays, the peers and the device ([ol_txrx_types.h],
    [ol_htt_rx_api.h], [htt_common.h]), and the primitives every component of
    the receive path uses on them. *)
From Stdlib Require Import ZArith Lia.
From stdpp Require Import prelude gmap list numbers.
From S2P Require Import Prelude.

(** ** Constants *)
Definition OL_TXRX_NUM_EXT_TIDS : Z := 20.
Definition OL_RX_MCAST_TID : Z := 18.
Definition HTT_INVALID_TID : Z := 31.
Definition INVALID_REORDER_INDEX : Z := 65535.
Definition IEEE80211_SEQ_MAX : Z := 4096.
Definition OL_MAX_RX_REORDER_HISTORY : Z := 50.

(** [enum htt_sec_type]. *)
Inductive sec_type :=
  htt_sec_type_none | htt_sec_type_wep128 | htt_sec_type_wep104 | htt_sec_type_wep40 |
  htt_sec_type_tkip | htt_sec_type_tkip_nomic | htt_sec_type_aes_ccmp | htt_sec_type_wapi.
#[export] Instance sec_type_eq_dec : EqDecision sec_type.
Proof. solve_decision. Defined.

(** [enum wlan_op_mode]. *)
Inductive wlan_op_mode :=
  wlan_op_mode_unknown | wlan_op_mode_ap | wlan_op_mode_ibss | wlan_op_mode_sta |
  wlan_op_mode_monitor | wlan_op_mode_ocb | wlan_op_mode_ndi.
#[export] Instance wlan_op_mode_eq_dec : EqDecision wlan_op_mode.
Proof. solve_decision. Defined.

(** ** Network buffers *)

(** [union htt_rx_pn_t], as its two 64-bit words [pn128[0]] and [pn128[1]];
    [pn24] and [pn48] are read from the first. *)
Definition pn : Type := Z * Z.

(** What the receive path reads of an MSDU: the fields of HTT's rx descriptor
    (sequence number, packet number words, flags), and of the 802.11 header of
    a fragment (sequence and fragment number, more-fragments bit, addresses). *)
Record rx_desc := mk_rx_desc {
  rd_seq_num : Z;
  rd_reorder_idx : Z;
  rd_pn_31_0 : Z;
  rd_pn_63_32 : Z;
  rd_pn_95_64 : Z;
  rd_pn_127_96 : Z;
  rd_encrypted : bool;
  rd_mcast : bool;
  rd_first_msdu : bool;
  rd_completes_mpdu : bool;
  rd_is_frag : bool;
  rd_retry : bool;
  rd_tid : Z;
  rd_rxseq : Z;
  rd_fragno : Z;
  rd_more_frag : bool;
  rd_addr1 : Z;
  rd_addr2 : Z }.

(** [adf_nbuf_t]: the [next] link and the descriptor. *)
Record nbuf := mk_nbuf {
  nb_next : option Z;
  nb_desc : rx_desc }.

(** The allocated buffers, by address.  A freed or delivered buffer is not in
    the heap any more, so every later use of it is a fault. *)
Notation heap := (gmap Z nbuf).

Definition adf_nbuf_next (h : heap) (a : Z) : option (option Z) := nb_next <$> h !! a.

Definition adf_nbuf_set_next (h : heap) (a : Z) (v : option Z) : option heap :=
  n ← h !! a; Some (<[a := mk_nbuf v (nb_desc n)]> h).

Definition htt_rx_msdu_desc_retrieve (h : heap) (a : Z) : option rx_desc := nb_desc <$> h !! a.

(** [htt_rx_desc_frame_free]. *)
Definition htt_rx_desc_frame_free (h : heap) (a : Z) : option heap :=
  if decide (is_Some (h !! a)) then Some (delete a h) else None.

(** The list that starts at [a] and ends with [NULL], of at most [n] buffers. *)
Fixpoint walk (n : nat) (h : heap) (a : option Z) : option (list Z) :=
  match a, n with
  | None, _ => Some []
  | Some _, O => None
  | Some i, S n' => v ← adf_nbuf_next h i; r ← walk n' h v; Some (i :: r)
  end.

(** [ol_rx_frames_free], and the same loop in [ol_rx_discard] and
    [ol_rx_reorder_flush]: free a [NULL]-terminated list. *)
Fixpoint ol_rx_frames_free (n : nat) (h : heap) (frag : option Z) : option (heap * list Z) :=
  match frag, n with
  | None, _ => Some (h, [])
  | Some _, O => None
  | Some i, S n' =>
    next ← adf_nbuf_next h i;
    h ← htt_rx_desc_frame_free h i;
    '(h, r) ← ol_rx_frames_free n' h next;
    Some (h, i :: r)
  end.

(** [do { next = adf_nbuf_next(msdu); free(msdu); if (msdu == tail) break;
    msdu = next; } while (1)]: free the MSDUs of one MPDU. *)
Fixpoint free_mpdu (n : nat) (h : heap) (msdu mpdu_tail : option Z) : option (heap * list Z) :=
  match msdu, n with
  | Some i, S n' =>
    next ← adf_nbuf_next h i;
    h ← htt_rx_desc_frame_free h i;
    if decide (msdu = mpdu_tail) then Some (h, [i])
    else '(h, r) ← free_mpdu n' h next mpdu_tail; Some (h, i :: r)
  | _, _ => None
  end.

(** ** The reorder state *)

(** [struct ol_rx_reorder_array_elem_t]. *)
Record slot := mk_slot { sl_head : option Z; sl_tail : option Z }.
Definition empty_slot : slot := mk_slot None None.

(** [struct ol_rx_reorder_t].  [ro_array] is [None] when [array] points to the
    element [base] inside the structure, and the allocated array otherwise.
    [ro_linked] tells whether [defrag_waitlist_elem.tqe_prev] is set. *)
Record rx_reorder := mk_rx_reorder {
  ro_win_sz : Z;
  ro_win_sz_mask : Z;
  ro_num_mpdus : Z;
  ro_array : option (list slot);
  ro_base : slot;
  ro_linked : bool;
  ro_defrag_timeout_ms : Z;
  ro_tid : Z }.

(** The elements [array] points to. *)
Definition ro_slots (r : rx_reorder) : list slot :=
  match ro_array r with Some a => a | None => [ro_base r] end.

Definition set_slots (l : list slot) (r : rx_reorder) : rx_reorder :=
  match ro_array r with
  | Some _ => mk_rx_reorder (ro_win_sz r) (ro_win_sz_mask r) (ro_num_mpdus r) (Some l) (ro_base r)
                (ro_linked r) (ro_defrag_timeout_ms r) (ro_tid r)
  | None => mk_rx_reorder (ro_win_sz r) (ro_win_sz_mask r) (ro_num_mpdus r) None (default empty_slot (list.head l))
              (ro_linked r) (ro_defrag_timeout_ms r) (ro_tid r)
  end.

(** [enum ol_rx_reorder_msg_type] and [struct ol_rx_reorder_history]. *)
Inductive reorder_msg_type := reorder_store | reorder_release | reorder_flush.

Record reorder_record := mk_reorder_record {
  rr_msg_type : reorder_msg_type;
  rr_tid : Z;
  rr_peer_id : Z;
  rr_start_seq : Z;
  rr_end_seq : Z;
  rr_reorder_idx : Z }.

Record reorder_history := mk_reorder_history {
  rh_curr_index : Z;
  rh_wrap_around : bool;
  rh_record : list reorder_record }.

(** What [peer->rx_opt_proc] may point to on a host that reorders itself. *)
Inductive rx_opt_proc :=
  opt_pn_check | opt_pn_check_only | opt_fwd_check | opt_deliver | opt_discard.

(** The part of [struct ol_txrx_peer_t] the receive path uses, with the
    operating mode of its vdev. *)
Record rx_peer := mk_rx_peer {
  rp_opmode : wlan_op_mode;
  rp_local_id : Z;
  rp_tids_rx_reorder : list rx_reorder;
  rp_tids_last_pn : list pn;
  rp_tids_last_pn_valid : list bool;
  rp_tids_next_rel_idx : list Z;
  rp_tids_last_seq : list Z;
  rp_tids_mcast_last_seq : list Z;
  rp_sec_mcast : sec_type;
  rp_sec_ucast : sec_type;
  rp_fw_pn_check : bool;
  rp_opt_proc : rx_opt_proc;
  rp_history : option reorder_history }.

(** ** The device *)

(** The stages that take the frames over from the modelled part: rx to tx
    forwarding ([ol_rx_fwd_check]), the OS shim ([ol_rx_deliver]), and the
    defragmentation of a complete fragment list ([ol_rx_defrag]). *)
Inductive sink := to_fwd_check | to_deliver | to_defrag.

Record delivery := mk_delivery {
  dl_sink : sink;
  dl_peer : Z;
  dl_tid : Z;
  dl_msdus : list Z }.

(** The part of [struct ol_txrx_pdev_t] the receive path uses.
    [rx_peer_id_map] is [peer_id_to_obj_map] restricted to valid peers,
    [rx_now_ms] the clock, and the last five fields log what leaves the
    modelled part: deliveries, freed buffers, the counters [pn_replays] (TKIP,
    CCMP, other), the PN errors reported to [ol_rx_err] (peer, TID, first
    buffer), and the holes reported to [ol_rx_aggregation_hole]. *)
Record rx_pdev := mk_rx_pdev {
  rx_heap : heap;
  rx_peers : gmap Z rx_peer;
  rx_peer_id_map : gmap Z Z;
  rx_ocb_peer : option Z;
  rx_waitlist : list (Z * Z);
  rx_defrag_timeout_check : bool;
  rx_defrag_timeout_ms : Z;
  rx_dup_check : bool;
  rx_now_ms : Z;
  rx_delivered : list delivery;
  rx_freed : list Z;
  rx_pn_replays : Z * Z * Z;
  rx_errs : list (Z * Z * Z);
  rx_holes : list Z }.

(** ** Updates *)
Definition set_ro_win_sz (f : Z -> Z) (s : rx_reorder) : rx_reorder :=
  {| ro_win_sz := f (ro_win_sz s); ro_win_sz_mask := ro_win_sz_mask s;
     ro_num_mpdus := ro_num_mpdus s; ro_array := ro_array s; ro_base
     := ro_base s; ro_linked := ro_linked s; ro_defrag_timeout_ms :=
     ro_defrag_timeout_ms s; ro_tid := ro_tid s |}.
Definition set_ro_win_sz_mask (f : Z -> Z) (s : rx_reorder) : rx_reorder :=
  {| ro_win_sz := ro_win_sz s; ro_win_sz_mask := f (ro_win_sz_mask s);
     ro_num_mpdus := ro_num_mpdus s; ro_array := ro_array s; ro_base
     := ro_base s; ro_linked := ro_linked s; ro_defrag_timeout_ms :=
     ro_defrag_timeout_ms s; ro_tid := ro_tid s |}.
Definition set_ro_num_mpdus (f : Z -> Z) (s : rx_reorder) : rx_reorder :=
  {| ro_win_sz := ro_win_sz s; ro_win_sz_mask := ro_win_sz_mask s;
     ro_num_mpdus := f (ro_num_mpdus s); ro_array := ro_array s;
     ro_base := ro_base s; ro_linked := ro_linked s;
     ro_defrag_timeout_ms := ro_defrag_timeout_ms s; ro_tid := ro_tid
     s |}.
Definition set_ro_array (f : option (list slot) -> option (list slot)) (s : rx_reorder) : rx_reorder :=
  {| ro_win_sz := ro_win_sz s; ro_win_sz_mask := ro_win_sz_mask s;
     ro_num_mpdus := ro_num_mpdus s; ro_array := f (ro_array s);
     ro_base := ro_base s; ro_linked := ro_linked s;
     ro_defrag_timeout_ms := ro_defrag_timeout_ms s; ro_tid := ro_tid
     s |}.
Definition set_ro_base (f : slot -> slot) (s : rx_reorder) : rx_reorder :=
  {| ro_win_sz := ro_win_sz s; ro_win_sz_mask := ro_win_sz_mask s;
     ro_num_mpdus := ro_num_mpdus s; ro_array := ro_array s; ro_base
     := f (ro_base s); ro_linked := ro_linked s; ro_defrag_timeout_ms
     := ro_defrag_timeout_ms s; ro_tid := ro_tid s |}.
Definition set_ro_linked (f : bool -> bool) (s : rx_reorder) : rx_reorder :=
  {| ro_win_sz := ro_win_sz s; ro_win_sz_mask := ro_win_sz_mask s;
     ro_num_mpdus := ro_num_mpdus s; ro_array := ro_array s; ro_base
     := ro_base s; ro_linked := f (ro_linked s); ro_defrag_timeout_ms
     := ro_defrag_timeout_ms s; ro_tid := ro_tid s |}.
Definition set_ro_defrag_timeout_ms (f : Z -> Z) (s : rx_reorder) : rx_reorder :=
  {| ro_win_sz := ro_win_sz s; ro_win_sz_mask := ro_win_sz_mask s;
     ro_num_mpdus := ro_num_mpdus s; ro_array := ro_array s; ro_base
     := ro_base s; ro_linked := ro_linked s; ro_defrag_timeout_ms := f
     (ro_defrag_timeout_ms s); ro_tid := ro_tid s |}.
Definition set_ro_tid (f : Z -> Z) (s : rx_reorder) : rx_reorder :=
  {| ro_win_sz := ro_win_sz s; ro_win_sz_mask := ro_win_sz_mask s;
     ro_num_mpdus := ro_num_mpdus s; ro_array := ro_array s; ro_base
     := ro_base s; ro_linked := ro_linked s; ro_defrag_timeout_ms :=
     ro_defrag_timeout_ms s; ro_tid := f (ro_tid s) |}.
Definition set_rp_opmode (f : wlan_op_mode -> wlan_op_mode) (s : rx_peer) : rx_peer :=
  {| rp_opmode := f (rp_opmode s); rp_local_id := rp_local_id s;
     rp_tids_rx_reorder := rp_tids_rx_reorder s; rp_tids_last_pn :=
     rp_tids_last_pn s; rp_tids_last_pn_valid := rp_tids_last_pn_valid
     s; rp_tids_next_rel_idx := rp_tids_next_rel_idx s;
     rp_tids_last_seq := rp_tids_last_seq s; rp_tids_mcast_last_seq :=
     rp_tids_mcast_last_seq s; rp_sec_mcast := rp_sec_mcast s;
     rp_sec_ucast := rp_sec_ucast s; rp_fw_pn_check := rp_fw_pn_check
     s; rp_opt_proc := rp_opt_proc s; rp_history := rp_history s |}.
Definition set_rp_local_id (f : Z -> Z) (s : rx_peer) : rx_peer :=
  {| rp_opmode := rp_opmode s; rp_local_id := f (rp_local_id s);
     rp_tids_rx_reorder := rp_tids_rx_reorder s; rp_tids_last_pn :=
     rp_tids_last_pn s; rp_tids_last_pn_valid := rp_tids_last_pn_valid
     s; rp_tids_next_rel_idx := rp_tids_next_rel_idx s;
     rp_tids_last_seq := rp_tids_last_seq s; rp_tids_mcast_last_seq :=
     rp_tids_mcast_last_seq s; rp_sec_mcast := rp_sec_mcast s;
     rp_sec_ucast := rp_sec_ucast s; rp_fw_pn_check := rp_fw_pn_check
     s; rp_opt_proc := rp_opt_proc s; rp_history := rp_history s |}.
Definition set_rp_tids_rx_reorder (f : list rx_reorder -> list rx_reorder) (s : rx_peer) : rx_peer :=
  {| rp_opmode := rp_opmode s; rp_local_id := rp_local_id s;
     rp_tids_rx_reorder := f (rp_tids_rx_reorder s); rp_tids_last_pn
     := rp_tids_last_pn s; rp_tids_last_pn_valid :=
     rp_tids_last_pn_valid s; rp_tids_next_rel_idx :=
     rp_tids_next_rel_idx s; rp_tids_last_seq := rp_tids_last_seq s;
     rp_tids_mcast_last_seq := rp_tids_mcast_last_seq s; rp_sec_mcast
     := rp_sec_mcast s; rp_sec_ucast := rp_sec_ucast s; rp_fw_pn_check
     := rp_fw_pn_check s; rp_opt_proc := rp_opt_proc s; rp_history :=
     rp_history s |}.
Definition set_rp_tids_last_pn (f : list pn -> list pn) (s : rx_peer) : rx_peer :=
  {| rp_opmode := rp_opmode s; rp_local_id := rp_local_id s;
     rp_tids_rx_reorder := rp_tids_rx_reorder s; rp_tids_last_pn := f
     (rp_tids_last_pn s); rp_tids_last_pn_valid :=
     rp_tids_last_pn_valid s; rp_tids_next_rel_idx :=
     rp_tids_next_rel_idx s; rp_tids_last_seq := rp_tids_last_seq s;
     rp_tids_mcast_last_seq := rp_tids_mcast_last_seq s; rp_sec_mcast
     := rp_sec_mcast s; rp_sec_ucast := rp_sec_ucast s; rp_fw_pn_check
     := rp_fw_pn_check s; rp_opt_proc := rp_opt_proc s; rp_history :=
     rp_history s |}.
Definition set_rp_tids_last_pn_valid (f : list bool -> list bool) (s : rx_peer) : rx_peer :=
  {| rp_opmode := rp_opmode s; rp_local_id := rp_local_id s;
     rp_tids_rx_reorder := rp_tids_rx_reorder s; rp_tids_last_pn :=
     rp_tids_last_pn s; rp_tids_last_pn_valid := f
     (rp_tids_last_pn_valid s); rp_tids_next_rel_idx :=
     rp_tids_next_rel_idx s; rp_tids_last_seq := rp_tids_last_seq s;
     rp_tids_mcast_last_seq := rp_tids_mcast_last_seq s; rp_sec_mcast
     := rp_sec_mcast s; rp_sec_ucast := rp_sec_ucast s; rp_fw_pn_check
     := rp_fw_pn_check s; rp_opt_proc := rp_opt_proc s; rp_history :=
     rp_history s |}.
Definition set_rp_tids_next_rel_idx (f : list Z -> list Z) (s : rx_peer) : rx_peer :=
  {| rp_opmode := rp_opmode s; rp_local_id := rp_local_id s;
     rp_tids_rx_reorder := rp_tids_rx_reorder s; rp_tids_last_pn :=
     rp_tids_last_pn s; rp_tids_last_pn_valid := rp_tids_last_pn_valid
     s; rp_tids_next_rel_idx := f (rp_tids_next_rel_idx s);
     rp_tids_last_seq := rp_tids_last_seq s; rp_tids_mcast_last_seq :=
     rp_tids_mcast_last_seq s; rp_sec_mcast := rp_sec_mcast s;
     rp_sec_ucast := rp_sec_ucast s; rp_fw_pn_check := rp_fw_pn_check
     s; rp_opt_proc := rp_opt_proc s; rp_history := rp_history s |}.
Definition set_rp_tids_last_seq (f : list Z -> list Z) (s : rx_peer) : rx_peer :=
  {| rp_opmode := rp_opmode s; rp_local_id := rp_local_id s;
     rp_tids_rx_reorder := rp_tids_rx_reorder s; rp_tids_last_pn :=
     rp_tids_last_pn s; rp_tids_last_pn_valid := rp_tids_last_pn_valid
     s; rp_tids_next_rel_idx := rp_tids_next_rel_idx s;
     rp_tids_last_seq := f (rp_tids_last_seq s);
     rp_tids_mcast_last_seq := rp_tids_mcast_last_seq s; rp_sec_mcast
     := rp_sec_mcast s; rp_sec_ucast := rp_sec_ucast s; rp_fw_pn_check
     := rp_fw_pn_check s; rp_opt_proc := rp_opt_proc s; rp_history :=
     rp_history s |}.
Definition set_rp_tids_mcast_last_seq (f : list Z -> list Z) (s : rx_peer) : rx_peer :=
  {| rp_opmode := rp_opmode s; rp_local_id := rp_local_id s;
     rp_tids_rx_reorder := rp_tids_rx_reorder s; rp_tids_last_pn :=
     rp_tids_last_pn s; rp_tids_last_pn_valid := rp_tids_last_pn_valid
     s; rp_tids_next_rel_idx := rp_tids_next_rel_idx s;
     rp_tids_last_seq := rp_tids_last_seq s; rp_tids_mcast_last_seq :=
     f (rp_tids_mcast_last_seq s); rp_sec_mcast := rp_sec_mcast s;
     rp_sec_ucast := rp_sec_ucast s; rp_fw_pn_check := rp_fw_pn_check
     s; rp_opt_proc := rp_opt_proc s; rp_history := rp_history s |}.
Definition set_rp_sec_mcast (f : sec_type -> sec_type) (s : rx_peer) : rx_peer :=
  {| rp_opmode := rp_opmode s; rp_local_id := rp_local_id s;
     rp_tids_rx_reorder := rp_tids_rx_reorder s; rp_tids_last_pn :=
     rp_tids_last_pn s; rp_tids_last_pn_valid := rp_tids_last_pn_valid
     s; rp_tids_next_rel_idx := rp_tids_next_rel_idx s;
     rp_tids_last_seq := rp_tids_last_seq s; rp_tids_mcast_last_seq :=
     rp_tids_mcast_last_seq s; rp_sec_mcast := f (rp_sec_mcast s);
     rp_sec_ucast := rp_sec_ucast s; rp_fw_pn_check := rp_fw_pn_check
     s; rp_opt_proc := rp_opt_proc s; rp_history := rp_history s |}.
Definition set_rp_sec_ucast (f : sec_type -> sec_type) (s : rx_peer) : rx_peer :=
  {| rp_opmode := rp_opmode s; rp_local_id := rp_local_id s;
     rp_tids_rx_reorder := rp_tids_rx_reorder s; rp_tids_last_pn :=
     rp_tids_last_pn s; rp_tids_last_pn_valid := rp_tids_last_pn_valid
     s; rp_tids_next_rel_idx := rp_tids_next_rel_idx s;
     rp_tids_last_seq := rp_tids_last_seq s; rp_tids_mcast_last_seq :=
     rp_tids_mcast_last_seq s; rp_sec_mcast := rp_sec_mcast s;
     rp_sec_ucast := f (rp_sec_ucast s); rp_fw_pn_check :=
     rp_fw_pn_check s; rp_opt_proc := rp_opt_proc s; rp_history :=
     rp_history s |}.
Definition set_rp_fw_pn_check (f : bool -> bool) (s : rx_peer) : rx_peer :=
  {| rp_opmode := rp_opmode s; rp_local_id := rp_local_id s;
     rp_tids_rx_reorder := rp_tids_rx_reorder s; rp_tids_last_pn :=
     rp_tids_last_pn s; rp_tids_last_pn_valid := rp_tids_last_pn_valid
     s; rp_tids_next_rel_idx := rp_tids_next_rel_idx s;
     rp_tids_last_seq := rp_tids_last_seq s; rp_tids_mcast_last_seq :=
     rp_tids_mcast_last_seq s; rp_sec_mcast := rp_sec_mcast s;
     rp_sec_ucast := rp_sec_ucast s; rp_fw_pn_check := f
     (rp_fw_pn_check s); rp_opt_proc := rp_opt_proc s; rp_history :=
     rp_history s |}.
Definition set_rp_opt_proc (f : rx_opt_proc -> rx_opt_proc) (s : rx_peer) : rx_peer :=
  {| rp_opmode := rp_opmode s; rp_local_id := rp_local_id s;
     rp_tids_rx_reorder := rp_tids_rx_reorder s; rp_tids_last_pn :=
     rp_tids_last_pn s; rp_tids_last_pn_valid := rp_tids_last_pn_valid
     s; rp_tids_next_rel_idx := rp_tids_next_rel_idx s;
     rp_tids_last_seq := rp_tids_last_seq s; rp_tids_mcast_last_seq :=
     rp_tids_mcast_last_seq s; rp_sec_mcast := rp_sec_mcast s;
     rp_sec_ucast := rp_sec_ucast s; rp_fw_pn_check := rp_fw_pn_check
     s; rp_opt_proc := f (rp_opt_proc s); rp_history := rp_history s |}.
Definition set_rp_history (f : option reorder_history -> option reorder_history) (s : rx_peer) : rx_peer :=
  {| rp_opmode := rp_opmode s; rp_local_id := rp_local_id s;
     rp_tids_rx_reorder := rp_tids_rx_reorder s; rp_tids_last_pn :=
     rp_tids_last_pn s; rp_tids_last_pn_valid := rp_tids_last_pn_valid
     s; rp_tids_next_rel_idx := rp_tids_next_rel_idx s;
     rp_tids_last_seq := rp_tids_last_seq s; rp_tids_mcast_last_seq :=
     rp_tids_mcast_last_seq s; rp_sec_mcast := rp_sec_mcast s;
     rp_sec_ucast := rp_sec_ucast s; rp_fw_pn_check := rp_fw_pn_check
     s; rp_opt_proc := rp_opt_proc s; rp_history := f (rp_history s) |}.
Definition set_rx_heap (f : heap -> heap) (s : rx_pdev) : rx_pdev :=
  {| rx_heap := f (rx_heap s); rx_peers := rx_peers s; rx_peer_id_map
     := rx_peer_id_map s; rx_ocb_peer := rx_ocb_peer s; rx_waitlist :=
     rx_waitlist s; rx_defrag_timeout_check := rx_defrag_timeout_check
     s; rx_defrag_timeout_ms := rx_defrag_timeout_ms s; rx_dup_check
     := rx_dup_check s; rx_now_ms := rx_now_ms s; rx_delivered :=
     rx_delivered s; rx_freed := rx_freed s; rx_pn_replays :=
     rx_pn_replays s; rx_errs := rx_errs s; rx_holes := rx_holes s |}.
Definition set_rx_peers (f : gmap Z rx_peer -> gmap Z rx_peer) (s : rx_pdev) : rx_pdev :=
  {| rx_heap := rx_heap s; rx_peers := f (rx_peers s); rx_peer_id_map
     := rx_peer_id_map s; rx_ocb_peer := rx_ocb_peer s; rx_waitlist :=
     rx_waitlist s; rx_defrag_timeout_check := rx_defrag_timeout_check
     s; rx_defrag_timeout_ms := rx_defrag_timeout_ms s; rx_dup_check
     := rx_dup_check s; rx_now_ms := rx_now_ms s; rx_delivered :=
     rx_delivered s; rx_freed := rx_freed s; rx_pn_replays :=
     rx_pn_replays s; rx_errs := rx_errs s; rx_holes := rx_holes s |}.
Definition set_rx_peer_id_map (f : gmap Z Z -> gmap Z Z) (s : rx_pdev) : rx_pdev :=
  {| rx_heap := rx_heap s; rx_peers := rx_peers s; rx_peer_id_map := f
     (rx_peer_id_map s); rx_ocb_peer := rx_ocb_peer s; rx_waitlist :=
     rx_waitlist s; rx_defrag_timeout_check := rx_defrag_timeout_check
     s; rx_defrag_timeout_ms := rx_defrag_timeout_ms s; rx_dup_check
     := rx_dup_check s; rx_now_ms := rx_now_ms s; rx_delivered :=
     rx_delivered s; rx_freed := rx_freed s; rx_pn_replays :=
     rx_pn_replays s; rx_errs := rx_errs s; rx_holes := rx_holes s |}.
Definition set_rx_ocb_peer (f : option Z -> option Z) (s : rx_pdev) : rx_pdev :=
  {| rx_heap := rx_heap s; rx_peers := rx_peers s; rx_peer_id_map :=
     rx_peer_id_map s; rx_ocb_peer := f (rx_ocb_peer s); rx_waitlist
     := rx_waitlist s; rx_defrag_timeout_check :=
     rx_defrag_timeout_check s; rx_defrag_timeout_ms :=
     rx_defrag_timeout_ms s; rx_dup_check := rx_dup_check s; rx_now_ms
     := rx_now_ms s; rx_delivered := rx_delivered s; rx_freed :=
     rx_freed s; rx_pn_replays := rx_pn_replays s; rx_errs := rx_errs
     s; rx_holes := rx_holes s |}.
Definition set_rx_waitlist (f : list (Z * Z) -> list (Z * Z)) (s : rx_pdev) : rx_pdev :=
  {| rx_heap := rx_heap s; rx_peers := rx_peers s; rx_peer_id_map :=
     rx_peer_id_map s; rx_ocb_peer := rx_ocb_peer s; rx_waitlist := f
     (rx_waitlist s); rx_defrag_timeout_check :=
     rx_defrag_timeout_check s; rx_defrag_timeout_ms :=
     rx_defrag_timeout_ms s; rx_dup_check := rx_dup_check s; rx_now_ms
     := rx_now_ms s; rx_delivered := rx_delivered s; rx_freed :=
     rx_freed s; rx_pn_replays := rx_pn_replays s; rx_errs := rx_errs
     s; rx_holes := rx_holes s |}.
Definition set_rx_defrag_timeout_check (f : bool -> bool) (s : rx_pdev) : rx_pdev :=
  {| rx_heap := rx_heap s; rx_peers := rx_peers s; rx_peer_id_map :=
     rx_peer_id_map s; rx_ocb_peer := rx_ocb_peer s; rx_waitlist :=
     rx_waitlist s; rx_defrag_timeout_check := f
     (rx_defrag_timeout_check s); rx_defrag_timeout_ms :=
     rx_defrag_timeout_ms s; rx_dup_check := rx_dup_check s; rx_now_ms
     := rx_now_ms s; rx_delivered := rx_delivered s; rx_freed :=
     rx_freed s; rx_pn_replays := rx_pn_replays s; rx_errs := rx_errs
     s; rx_holes := rx_holes s |}.
Definition set_rx_defrag_timeout_ms (f : Z -> Z) (s : rx_pdev) : rx_pdev :=
  {| rx_heap := rx_heap s; rx_peers := rx_peers s; rx_peer_id_map :=
     rx_peer_id_map s; rx_ocb_peer := rx_ocb_peer s; rx_waitlist :=
     rx_waitlist s; rx_defrag_timeout_check := rx_defrag_timeout_check
     s; rx_defrag_timeout_ms := f (rx_defrag_timeout_ms s);
     rx_dup_check := rx_dup_check s; rx_now_ms := rx_now_ms s;
     rx_delivered := rx_delivered s; rx_freed := rx_freed s;
     rx_pn_replays := rx_pn_replays s; rx_errs := rx_errs s; rx_holes
     := rx_holes s |}.
Definition set_rx_dup_check (f : bool -> bool) (s : rx_pdev) : rx_pdev :=
  {| rx_heap := rx_heap s; rx_peers := rx_peers s; rx_peer_id_map :=
     rx_peer_id_map s; rx_ocb_peer := rx_ocb_peer s; rx_waitlist :=
     rx_waitlist s; rx_defrag_timeout_check := rx_defrag_timeout_check
     s; rx_defrag_timeout_ms := rx_defrag_timeout_ms s; rx_dup_check
     := f (rx_dup_check s); rx_now_ms := rx_now_ms s; rx_delivered :=
     rx_delivered s; rx_freed := rx_freed s; rx_pn_replays :=
     rx_pn_replays s; rx_errs := rx_errs s; rx_holes := rx_holes s |}.
Definition set_rx_now_ms (f : Z -> Z) (s : rx_pdev) : rx_pdev :=
  {| rx_heap := rx_heap s; rx_peers := rx_peers s; rx_peer_id_map :=
     rx_peer_id_map s; rx_ocb_peer := rx_ocb_peer s; rx_waitlist :=
     rx_waitlist s; rx_defrag_timeout_check := rx_defrag_timeout_check
     s; rx_defrag_timeout_ms := rx_defrag_timeout_ms s; rx_dup_check
     := rx_dup_check s; rx_now_ms := f (rx_now_ms s); rx_delivered :=
     rx_delivered s; rx_freed := rx_freed s; rx_pn_replays :=
     rx_pn_replays s; rx_errs := rx_errs s; rx_holes := rx_holes s |}.
Definition set_rx_delivered (f : list delivery -> list delivery) (s : rx_pdev) : rx_pdev :=
  {| rx_heap := rx_heap s; rx_peers := rx_peers s; rx_peer_id_map :=
     rx_peer_id_map s; rx_ocb_peer := rx_ocb_peer s; rx_waitlist :=
     rx_waitlist s; rx_defrag_timeout_check := rx_defrag_timeout_check
     s; rx_defrag_timeout_ms := rx_defrag_timeout_ms s; rx_dup_check
     := rx_dup_check s; rx_now_ms := rx_now_ms s; rx_delivered := f
     (rx_delivered s); rx_freed := rx_freed s; rx_pn_replays :=
     rx_pn_replays s; rx_errs := rx_errs s; rx_holes := rx_holes s |}.
Definition set_rx_freed (f : list Z -> list Z) (s : rx_pdev) : rx_pdev :=
  {| rx_heap := rx_heap s; rx_peers := rx_peers s; rx_peer_id_map :=
     rx_peer_id_map s; rx_ocb_peer := rx_ocb_peer s; rx_waitlist :=
     rx_waitlist s; rx_defrag_timeout_check := rx_defrag_timeout_check
     s; rx_defrag_timeout_ms := rx_defrag_timeout_ms s; rx_dup_check
     := rx_dup_check s; rx_now_ms := rx_now_ms s; rx_delivered :=
     rx_delivered s; rx_freed := f (rx_freed s); rx_pn_replays :=
     rx_pn_replays s; rx_errs := rx_errs s; rx_holes := rx_holes s |}.
Definition set_rx_pn_replays (f : Z * Z * Z -> Z * Z * Z) (s : rx_pdev) : rx_pdev :=
  {| rx_heap := rx_heap s; rx_peers := rx_peers s; rx_peer_id_map :=
     rx_peer_id_map s; rx_ocb_peer := rx_ocb_peer s; rx_waitlist :=
     rx_waitlist s; rx_defrag_timeout_check := rx_defrag_timeout_check
     s; rx_defrag_timeout_ms := rx_defrag_timeout_ms s; rx_dup_check
     := rx_dup_check s; rx_now_ms := rx_now_ms s; rx_delivered :=
     rx_delivered s; rx_freed := rx_freed s; rx_pn_replays := f
     (rx_pn_replays s); rx_errs := rx_errs s; rx_holes := rx_holes s |}.
Definition set_rx_errs (f : list (Z * Z * Z) -> list (Z * Z * Z)) (s : rx_pdev) : rx_pdev :=
  {| rx_heap := rx_heap s; rx_peers := rx_peers s; rx_peer_id_map :=
     rx_peer_id_map s; rx_ocb_peer := rx_ocb_peer s; rx_waitlist :=
     rx_waitlist s; rx_defrag_timeout_check := rx_defrag_timeout_check
     s; rx_defrag_timeout_ms := rx_defrag_timeout_ms s; rx_dup_check
     := rx_dup_check s; rx_now_ms := rx_now_ms s; rx_delivered :=
     rx_delivered s; rx_freed := rx_freed s; rx_pn_replays :=
     rx_pn_replays s; rx_errs := f (rx_errs s); rx_holes := rx_holes s |}.
Definition set_rx_holes (f : list Z -> list Z) (s : rx_pdev) : rx_pdev :=
  {| rx_heap := rx_heap s; rx_peers := rx_peers s; rx_peer_id_map :=
     rx_peer_id_map s; rx_ocb_peer := rx_ocb_peer s; rx_waitlist :=
     rx_waitlist s; rx_defrag_timeout_check := rx_defrag_timeout_check
     s; rx_defrag_timeout_ms := rx_defrag_timeout_ms s; rx_dup_check
     := rx_dup_check s; rx_now_ms := rx_now_ms s; rx_delivered :=
     rx_delivered s; rx_freed := rx_freed s; rx_pn_replays :=
     rx_pn_replays s; rx_errs := rx_errs s; rx_holes := f (rx_holes s) |}.

(** ** Reading and writing the state *)

Definition get_peer (p : Z) : M rx_pdev rx_peer := s ← get; lift (rx_peers s !! p).

Definition upd_peer (p : Z) (f : rx_peer -> rx_peer) : M rx_pdev unit :=
  x ← get_peer p; modify (set_rx_peers (fun m => <[p := f x]> m)).

Definition get_reorder (p tid : Z) : M rx_pdev rx_reorder :=
  x ← get_peer p; lift (znth (rp_tids_rx_reorder x) tid).

Definition upd_reorder (p tid : Z) (f : rx_reorder -> rx_reorder) : M rx_pdev unit :=
  r ← get_reorder p tid; upd_peer p (set_rp_tids_rx_reorder (fun l => zset l tid (f r))).

(** Store into one of the per-TID arrays of a peer; out of range is a fault. *)
Definition put_tid {A} (get : rx_peer -> list A) (set : (list A -> list A) -> rx_peer -> rx_peer)
    (p tid : Z) (v : A) : M rx_pdev unit :=
  x ← get_peer p; lift (znth (get x) tid);; upd_peer p (set (fun l => zset l tid v)).

Definition put_last_seq (p tid v : Z) : M rx_pdev unit :=
  put_tid rp_tids_last_seq set_rp_tids_last_seq p tid (u16 v).
Definition put_next_rel_idx (p tid v : Z) : M rx_pdev unit :=
  put_tid rp_tids_next_rel_idx set_rp_tids_next_rel_idx p tid (u16 v).
Definition put_mcast_last_seq (p tid v : Z) : M rx_pdev unit :=
  put_tid rp_tids_mcast_last_seq set_rp_tids_mcast_last_seq p tid (u16 v).

Definition put_heap (h : heap) : M rx_pdev unit := modify (set_rx_heap (fun _ => h)).
Definition log_rx_freed (l : list Z) : M rx_pdev unit := modify (set_rx_freed (fun f => f ++ l)).

(** More buffers than the heap holds cannot be on one list. *)
Definition heap_fuel (h : heap) : nat := S (size h).

(** Free a [NULL]-terminated list. *)
Definition rx_frames_free (a : option Z) : M rx_pdev unit :=
  s ← get;
  '(h, l) ← lift (ol_rx_frames_free (heap_fuel (rx_heap s)) (rx_heap s) a);
  put_heap h;; log_rx_freed l.

(** Hand a [NULL]-terminated list to the next stage, which owns it from then on. *)
Definition hand_over (k : sink) (p tid : Z) (a : option Z) : M rx_pdev unit :=
  s ← get;
  l ← lift (walk (heap_fuel (rx_heap s)) (rx_heap s) a);
  put_heap (foldr delete (rx_heap s) l);;
  modify (set_rx_delivered (fun d => d ++ [mk_delivery k p tid l])).

(** [ol_txrx_peer_find_by_id]. *)
Definition ol_txrx_peer_find_by_id (peer_id : Z) : M rx_pdev (option Z) :=
  gets (fun s => rx_peer_id_map s !! peer_id).
