(* ===== verification/RxList.v ===== *)
(** Linked network buffers: when a heap holds a list of buffers, what the
    link and free primitives of [RxTypes] do to it, and the reorder slots as
    lists. *)
From Stdlib Require Import ZArith Lia.
From stdpp Require Import prelude gmap list numbers.
From S2P Require Import Prelude.
From S2P Require Import RxTypes.

(** ** Segments *)

(** The first of [l], or [v] when there is none. *)
Definition hd_or (v : option Z) (l : list Z) : option Z :=
  match l with [] => v | a :: _ => Some a end.

(** The buffers [l] are allocated and linked in order; the last links to [v]. *)
Fixpoint seg (h : heap) (l : list Z) (v : option Z) : Prop :=
  match l with
  | [] => True
  | a :: r => adf_nbuf_next h a = Some (hd_or v r) /\ seg h r v
  end.

(** [h'] has the buffers and descriptors of [h]; only links of [l] changed. *)
Definition relinked (h h' : heap) (l : list Z) : Prop :=
  forall i, htt_rx_msdu_desc_retrieve h' i = htt_rx_msdu_desc_retrieve h i /\ (i ∉ l -> h' !! i = h !! i).

Lemma relinked_refl h l : relinked h h l.
Proof. by intros i. Qed.
#[export] Hint Resolve relinked_refl : wlan.

Lemma relinked_trans h1 h2 h3 l1 l2 l :
  relinked h1 h2 l1 -> relinked h2 h3 l2 -> l1 ⊆ l -> l2 ⊆ l -> relinked h1 h3 l.
Proof.
  intros H1 H2 Hs1 Hs2 i. destruct (H1 i) as [Hd1 Hl1], (H2 i) as [Hd2 Hl2].
  split; [by rewrite Hd2|]. intros Hi. rewrite Hl2, Hl1; set_solver.
Qed.

Lemma seg_frame h h' l v : (forall i, i ∈ l -> h' !! i = h !! i) -> seg h l v -> seg h' l v.
Proof.
  induction l as [|a l IH]; intros Hf; simpl; [done|]. intros [Ha Hl]. split.
  - unfold adf_nbuf_next in *. by rewrite Hf by set_solver.
  - apply IH; [|done]. intros i Hi. apply Hf. set_solver.
Qed.

Lemma seg_relinked h h' l l' v : relinked h h' l' -> l ## l' -> seg h l v -> seg h' l v.
Proof. intros Hr Hd. apply seg_frame. intros i Hi. apply Hr. set_solver. Qed.

Lemma seg_app h l1 l2 v : seg h (l1 ++ l2) v <-> seg h l1 (hd_or v l2) /\ seg h l2 v.
Proof.
  induction l1 as [|a l1 IH]; simpl; [naive_solver|]. rewrite IH.
  replace (hd_or v (l1 ++ l2)) with (hd_or (hd_or v l2) l1) by (by destruct l1). naive_solver.
Qed.

Lemma seg_alloc h l v i : seg h l v -> i ∈ l -> is_Some (h !! i).
Proof.
  induction l as [|a l IH]; [set_solver|]. simpl. intros [Ha Hl] Hi.
  apply elem_of_cons in Hi as [->|Hi]; [|by apply IH].
  unfold adf_nbuf_next in Ha. destruct (h !! a); [eauto|done].
Qed.

Lemma seg_length h l v : NoDup l -> seg h l v -> (length l <= size h)%nat.
Proof.
  intros Hnd Hs. rewrite <- (size_list_to_set (C := gset Z) l Hnd), <- (size_dom (D := gset Z)).
  apply subseteq_size. intros i Hi. apply elem_of_list_to_set in Hi. apply elem_of_dom.
  by eapply seg_alloc.
Qed.

(** ** Links *)

Lemma set_next_frame h a v h' i :
  adf_nbuf_set_next h a v = Some h' -> i <> a -> h' !! i = h !! i.
Proof.
  unfold adf_nbuf_set_next. destruct (h !! a); [|done]. intros [= <-] Hi. by rewrite lookup_insert_ne.
Qed.

Lemma set_next_relinked h a v h' l : adf_nbuf_set_next h a v = Some h' -> a ∈ l -> relinked h h' l.
Proof.
  intros H Ha i. split; [|intros Hi; eapply set_next_frame; [done|set_solver]].
  unfold adf_nbuf_set_next in H. destruct (h !! a) as [n|] eqn:Hn; [|done]. injection H as <-.
  unfold htt_rx_msdu_desc_retrieve. destruct (decide (i = a)) as [->|].
  - by rewrite lookup_insert_eq, Hn.
  - by rewrite lookup_insert_ne.
Qed.

(** Redirecting the last link of a segment. *)
Lemma seg_set_last h l v w :
  l <> [] -> NoDup l -> seg h l v ->
  exists t h', list.last l = Some t /\ adf_nbuf_set_next h t w = Some h' /\ seg h' l w /\ relinked h h' l.
Proof.
  intros Hne Hnd Hs. destruct (exists_last Hne) as (l0 & t & ->).
  apply list.NoDup_app in Hnd as (_ & Hd & _).
  apply seg_app in Hs as [Hs Ht]. simpl in Hs, Ht. destruct Ht as [Ht _].
  unfold adf_nbuf_next in Ht. destruct (h !! t) as [n|] eqn:Hn; [|done].
  exists t, (<[t := mk_nbuf w (nb_desc n)]> h). split; [by rewrite list.last_snoc|].
  assert (Hset : adf_nbuf_set_next h t w = Some (<[t := mk_nbuf w (nb_desc n)]> h))
    by (unfold adf_nbuf_set_next; by rewrite Hn).
  split; [done|]. split; [|eapply set_next_relinked; [done|set_solver]].
  apply seg_app. split; simpl.
  - eapply seg_frame; [|done]. intros i Hi. rewrite lookup_insert_ne; [done|]. set_solver.
  - split; [|done]. unfold adf_nbuf_next. by rewrite lookup_insert_eq.
Qed.

(** ** Walking and freeing *)

Lemma walk_seg n h l : seg h l None -> (length l <= n)%nat -> walk n h (hd_or None l) = Some l.
Proof.
  revert n. induction l as [|a l IH]; intros n Hs Hn; [by destruct n|].
  destruct n as [|n]; [simpl in Hn; lia|]. simpl in *. destruct Hs as [-> Hs]. simpl.
  rewrite IH by (done || lia). done.
Qed.

Lemma foldr_delete_cons (h : heap) a l : foldr delete (delete a h) l = foldr delete h (a :: l).
Proof.
  simpl. induction l as [|b l IH]; simpl; [done|]. rewrite IH. apply delete_delete.
Qed.

Lemma foldr_delete_notin (h : heap) l i : i ∉ l -> foldr delete h l !! i = h !! i.
Proof. apply lookup_foldr_delete_not_elem_of. Qed.

Lemma frames_free_seg n h l :
  NoDup l -> seg h l None -> (length l <= n)%nat ->
  ol_rx_frames_free n h (hd_or None l) = Some (foldr delete h l, l).
Proof.
  revert n h. induction l as [|a l IH]; intros n h Hnd Hs Hn; [by destruct n|].
  destruct n as [|n]; [simpl in Hn; lia|]. apply list.NoDup_cons in Hnd as [Ha Hnd].
  pose proof (seg_alloc _ _ _ a Hs ltac:(set_solver)) as Hal. simpl in Hs. destruct Hs as [Hnx Hs].
  simpl. rewrite Hnx. simpl. unfold htt_rx_desc_frame_free. rewrite decide_True by done. simpl.
  rewrite (IH n (delete a h)); [|done| |simpl in Hn; lia].
  - simpl. by rewrite foldr_delete_cons.
  - eapply seg_frame; [|done]. intros i Hi. rewrite lookup_delete_ne; [done|]. set_solver.
Qed.

Lemma free_mpdu_seg n h l v :
  l <> [] -> NoDup l -> seg h l v -> (length l <= n)%nat ->
  free_mpdu n h (hd_or None l) (list.last l) = Some (foldr delete h l, l).
Proof.
  revert n h. induction l as [|a l IH]; intros n h Hne Hnd Hs Hn; [done|].
  destruct n as [|n]; [simpl in Hn; lia|]. apply list.NoDup_cons in Hnd as [Ha Hnd].
  pose proof (seg_alloc _ _ _ a Hs ltac:(set_solver)) as Hal. simpl in Hs. destruct Hs as [Hnx Hs].
  simpl. rewrite Hnx. simpl. unfold htt_rx_desc_frame_free. rewrite decide_True by done. simpl.
  destruct l as [|b l].
  - simpl. rewrite decide_True by done. done.
  - change (list.last (a :: b :: l)) with (list.last (b :: l)).
    rewrite decide_False.
    2: { intros Hl. symmetry in Hl. apply list.last_Some_elem_of in Hl. done. }
    change (hd_or v (b :: l)) with (hd_or None (b :: l)).
    rewrite (IH n (delete a h)); [| done | done | | simpl in *; lia].
    + simpl. f_equal. f_equal. apply (foldr_delete_cons h a (b :: l)).
    + eapply seg_frame; [|done]. intros i Hi. rewrite lookup_delete_ne; [done|]. set_solver.
Qed.

(** ** Slots *)

(** The slot holds the list [l]: its head and tail are the ends of [l]. *)
Definition slot_rep (h : heap) (sl : slot) (l : list Z) : Prop :=
  sl_head sl = list.head l /\ sl_tail sl = list.last l /\ exists v, seg h l v.

Lemma slot_rep_empty h : slot_rep h empty_slot [].
Proof. split_and!; try done. by exists None. Qed.
#[export] Hint Resolve slot_rep_empty : wlan.

Lemma slot_rep_nil h sl : slot_rep h sl [] -> sl = empty_slot.
Proof. destruct sl as [hd tl]. intros (H1 & H2 & _). simpl in *. by subst. Qed.

Lemma slot_rep_None h sl l : slot_rep h sl l -> sl_head sl = None -> l = [].
Proof. intros (H1 & _) H. rewrite H in H1. by destruct l. Qed.

Lemma slot_rep_Some h sl l a : slot_rep h sl l -> sl_head sl = Some a -> l <> [].
Proof. intros (H1 & _) H ->. simpl in H1. congruence. Qed.

Lemma slot_rep_frame h h' sl l :
  (forall i, i ∈ l -> h' !! i = h !! i) -> slot_rep h sl l -> slot_rep h' sl l.
Proof. intros Hf (? & ? & v & Hs). split_and!; [done..|]. exists v. by eapply seg_frame. Qed.

Lemma slot_rep_relinked h h' sl l l' :
  relinked h h' l' -> l ## l' -> slot_rep h sl l -> slot_rep h' sl l.
Proof. intros Hr Hd. apply slot_rep_frame. intros i Hi. apply Hr. set_solver. Qed.

Lemma slot_rep_alloc h sl l i : slot_rep h sl l -> i ∈ l -> is_Some (h !! i).
Proof. intros (_ & _ & v & Hs). by eapply seg_alloc. Qed.

Lemma hd_or_None l : hd_or None l = list.head l.
Proof. by destruct l. Qed.

(** Appending one slot's list to another's through the tail link. *)
Lemma slot_append h s1 s2 l1 l2 :
  slot_rep h s1 l1 -> slot_rep h s2 l2 -> l1 <> [] -> l2 <> [] -> NoDup (l1 ++ l2) ->
  exists t h', sl_tail s1 = Some t /\ adf_nbuf_set_next h t (sl_head s2) = Some h' /\
    slot_rep h' (mk_slot (sl_head s1) (sl_tail s2)) (l1 ++ l2) /\ relinked h h' l1 /\
    forall v, seg h l2 v -> seg h' (l1 ++ l2) v.
Proof.
  intros (Hh1 & Ht1 & v1 & Hs1) (Hh2 & Ht2 & v2 & Hs2) Hn1 Hn2 Hnd.
  apply list.NoDup_app in Hnd as (Hnd1 & Hd & Hnd2).
  destruct (seg_set_last h l1 v1 (sl_head s2) Hn1 Hnd1 Hs1) as (t & h' & Hl & Hset & Hs' & Hr).
  assert (Hseg : forall v, seg h l2 v -> seg h' (l1 ++ l2) v).
  { intros v Hv. apply seg_app. split.
    - replace (hd_or v l2) with (sl_head s2); [done|]. rewrite Hh2. by destruct l2.
    - eapply seg_relinked; [done| |done]. set_solver. }
  exists t, h'. rewrite Ht1. split; [done|]. split; [done|]. split; [|done].
  split_and!; simpl.
  - rewrite Hh1. by destruct l1.
  - rewrite Ht2, list.last_app. destruct (list.last l2) eqn:E; [done|]. apply list.last_None in E. done.
  - exists v2. by apply Hseg.
Qed.

(** Ending the list of a slot. *)
Lemma slot_terminate h sl l :
  slot_rep h sl l -> l <> [] -> NoDup l ->
  exists t h', sl_tail sl = Some t /\ adf_nbuf_set_next h t None = Some h' /\
    seg h' l None /\ relinked h h' l.
Proof.
  intros (_ & Ht & v & Hs) Hn Hnd. rewrite Ht. by eapply seg_set_last.
Qed.

Lemma relinked_delete_seg h h' l i : relinked h h' l -> i ∉ l -> foldr delete h' l !! i = h !! i.
Proof. intros Hr Hi. rewrite foldr_delete_notin by done. by apply Hr. Qed.
