(* ===== verification/RxPn.v ===== *)
(** The packet number check ([ol_rx_pn.c]) and the security indication that
    sets it up ([ol_rx_sec_ind_handler] in [ol_rx.c]): the comparisons, the
    walk over the MPDUs of a list, and the stage of the receive path. *)
From Stdlib Require Import ZArith Lia.
From stdpp Require Import prelude gmap list numbers.
From S2P Require Import Prelude.
From S2P Require Import RxTypes.

(** ** Comparing packet numbers *)

Definition ol_rx_pn_cmp24 (new_pn old_pn : pn) (is_unicast : bool) (opmode : wlan_op_mode) : bool :=
  Z.land new_pn.1 0xffffff <=? Z.land old_pn.1 0xffffff.

Definition ol_rx_pn_cmp48 (new_pn old_pn : pn) (is_unicast : bool) (opmode : wlan_op_mode) : bool :=
  Z.land new_pn.1 0xffffffffffff <=? Z.land old_pn.1 0xffffffffffff.

Definition ol_rx_pn_wapi_cmp (new_pn old_pn : pn) (is_unicast : bool) (opmode : wlan_op_mode) : bool :=
  let pn_is_replay := if new_pn.2 =? old_pn.2 then new_pn.1 <=? old_pn.1 else new_pn.2 <? old_pn.2 in
  if is_unicast then
    if decide (opmode = wlan_op_mode_ap) then pn_is_replay || negb (Z.land new_pn.1 1 =? 0)
    else pn_is_replay || negb (Z.land new_pn.1 1 =? 1)
  else pn_is_replay.

Definition ol_rx_pn_strict_chk (new_pn old_pn : pn) (pn_len : Z) : bool :=
  if pn_len =? 24 then Z.land new_pn.1 0xffffff =? Z.land old_pn.1 0xffffff + 1
  else if pn_len =? 48 then Z.land new_pn.1 0xffffffffffff =? Z.land old_pn.1 0xffffffffffff + 1
  else pn_len =? 128.

(** [pdev->rx_pn[]], as [ol_txrx_pdev_attach] fills it: the length of the
    packet number and the comparison, a null pointer where there is none. *)
Definition rx_pn_len (t : sec_type) : Z :=
  match t with
  | htt_sec_type_tkip | htt_sec_type_tkip_nomic | htt_sec_type_aes_ccmp => 48
  | htt_sec_type_wapi => 128
  | _ => 0
  end.

Definition rx_pn_cmp (t : sec_type) : option (pn -> pn -> bool -> wlan_op_mode -> bool) :=
  match t with
  | htt_sec_type_tkip | htt_sec_type_tkip_nomic | htt_sec_type_aes_ccmp => Some ol_rx_pn_cmp48
  | htt_sec_type_wapi => Some ol_rx_pn_wapi_cmp
  | _ => None
  end.

(** [htt_rx_mpdu_desc_pn_hl]: writes the low words of [*pn] that [pn_len]
    covers, and nothing for an MSDU that is not the first of its MPDU. *)
Definition htt_rx_mpdu_desc_pn (d : rx_desc) (p : pn) (pn_len : Z) : pn :=
  if rd_first_msdu d then
    let w3 := if pn_len =? 128 then rd_pn_127_96 d else Z.shiftr p.2 32 in
    let w2 := if pn_len =? 128 then rd_pn_95_64 d else Z.land p.2 0xffffffff in
    let w1 := if (pn_len =? 128) || (pn_len =? 48) then rd_pn_63_32 d else Z.shiftr p.1 32 in
    let w0 := if (pn_len =? 128) || (pn_len =? 48) || (pn_len =? 24) then rd_pn_31_0 d
              else Z.land p.1 0xffffffff in
    (Z.lor (Z.shiftl w1 32) w0, Z.lor (Z.shiftl w3 32) w2)
  else p.

(** [security[index].sec_type] for the index that [htt_rx_msdu_is_wlan_mcast]
    selects. *)
Definition sec_type_of (x : rx_peer) (d : rx_desc) : sec_type :=
  if rd_mcast d then rp_sec_mcast x else rp_sec_ucast x.

(** [enum pn_replay_type]: which counter of [pn_replays] counts. *)
Definition count_replays (t : sec_type) (n : Z) (c : Z * Z * Z) : Z * Z * Z :=
  match t with
  | htt_sec_type_tkip | htt_sec_type_tkip_nomic => (u32 (c.1.1 + n), c.1.2, c.2)
  | htt_sec_type_aes_ccmp => (c.1.1, u32 (c.1.2 + n), c.2)
  | _ => (c.1.1, c.1.2, u32 (c.2 + n))
  end.

(** ** The MPDUs of a list *)

(** [ol_rx_mpdu_list_next]: the last MSDU of the MPDU that starts at [msdu],
    and the first of the next MPDU. *)
Fixpoint ol_rx_mpdu_list_next (n : nat) (h : heap) (msdu : Z) : option (Z * option Z) :=
  match n with
  | O => None
  | S n' =>
    d ← htt_rx_msdu_desc_retrieve h msdu;
    next ← adf_nbuf_next h msdu;
    if rd_completes_mpdu d then Some (msdu, next)
    else msdu ← next; ol_rx_mpdu_list_next n' h msdu
  end.

(** The local variables of the loop of [ol_rx_pn_check_base]. *)
Record pn_state := mk_pn_state {
  ps_heap : heap;
  ps_out : slot;                 (* [out_list_head], [out_list_tail] *)
  ps_valid : bool;               (* [last_pn_valid], [tids_last_pn_valid[tid]] *)
  ps_last : pn;                  (* [*last_pn] *)
  ps_freed : list Z;
  ps_errs : list Z }.            (* the MPDUs reported to [ol_rx_err] *)

(** [ADD_MPDU_TO_LIST]. *)
Definition add_mpdu_to_list (h : heap) (out : slot) (mpdu mpdu_tail : Z) : option (heap * slot) :=
  match sl_head out with
  | None => Some (h, mk_slot (Some mpdu) (Some mpdu_tail))
  | Some hd => t ← sl_tail out; h ← adf_nbuf_set_next h t (Some mpdu);
               Some (h, mk_slot (Some hd) (Some mpdu_tail))
  end.

Section PnCheck.
(** The comparison in use, its two last arguments fixed, the length of the
    packet number, and what the stack holds in [new_pn] before it is read. *)
Context (cmp : pn -> pn -> bool) (pn_len : Z) (junk : pn).

Fixpoint pn_check_loop (n : nat) (st : pn_state) (mpdu : option Z) : option pn_state :=
  match mpdu, n with
  | None, _ => Some st
  | Some _, O => None
  | Some m, S n' =>
    rx_desc ← htt_rx_msdu_desc_retrieve (ps_heap st) m;
    '(mpdu_tail, next_mpdu) ← ol_rx_mpdu_list_next (heap_fuel (ps_heap st)) (ps_heap st) m;
    if negb (rd_encrypted rx_desc) then
      '(h, out) ← add_mpdu_to_list (ps_heap st) (ps_out st) m mpdu_tail;
      pn_check_loop n' (mk_pn_state h out (ps_valid st) (ps_last st) (ps_freed st) (ps_errs st)) next_mpdu
    else
      let new_pn := htt_rx_mpdu_desc_pn rx_desc junk pn_len in
      let pn_is_replay := if ps_valid st then cmp new_pn (ps_last st) else false in
      if pn_is_replay then
        '(h, fr) ← free_mpdu (heap_fuel (ps_heap st)) (ps_heap st) (Some m) (Some mpdu_tail);
        pn_check_loop n' (mk_pn_state h (ps_out st) true (ps_last st) (ps_freed st ++ fr) (ps_errs st ++ [m]))
          next_mpdu
      else
        '(h, out) ← add_mpdu_to_list (ps_heap st) (ps_out st) m mpdu_tail;
        pn_check_loop n' (mk_pn_state h out true new_pn (ps_freed st) (ps_errs st)) next_mpdu
  end.
End PnCheck.

(** The uninitialised contents of the stack variable [new_pn]. *)
Class StackJunk := junk_pn : pn.

Definition put_last_pn (p tid : Z) (valid : bool) (last : pn) : M rx_pdev unit :=
  upd_peer p (set_rp_tids_last_pn (fun l => zset l tid last));;
  upd_peer p (set_rp_tids_last_pn_valid (fun l => zset l tid valid)).

Definition ol_rx_pn_check_base `{StackJunk} (p tid : Z) (msdu_list : option Z) : M rx_pdev (option Z) :=
  x ← get_peer p;
  if rp_fw_pn_check x || bool_decide (rp_opmode x = wlan_op_mode_ibss) then mret msdu_list
  else
    s ← get;
    first ← lift msdu_list;
    rx_desc ← lift (htt_rx_msdu_desc_retrieve (rx_heap s) first);
    let t := sec_type_of x rx_desc in
    if rx_pn_len t =? 0 then mret msdu_list
    else
      cmp ← lift (rx_pn_cmp t);
      valid ← lift (znth (rp_tids_last_pn_valid x) tid);
      last ← lift (znth (rp_tids_last_pn x) tid);
      st ← lift (pn_check_loop (fun n o => cmp n o (negb (rd_mcast rx_desc)) (rp_opmode x)) (rx_pn_len t)
                   junk_pn (heap_fuel (rx_heap s))
                   (mk_pn_state (rx_heap s) empty_slot valid last [] []) msdu_list);
      h ← lift (match sl_tail (ps_out st) with
                | Some tl => adf_nbuf_set_next (ps_heap st) tl None
                | None => Some (ps_heap st)
                end);
      put_heap h;;
      put_last_pn p tid (ps_valid st) (ps_last st);;
      log_rx_freed (ps_freed st);;
      modify (set_rx_pn_replays (count_replays t (zlen (ps_freed st))));;
      modify (set_rx_errs (fun l => l ++ ((fun m => (p, tid, m)) <$> ps_errs st)));;
      mret (sl_head (ps_out st)).

Definition ol_rx_pn_check `{StackJunk} (p tid : Z) (msdu_list : option Z) : M rx_pdev unit :=
  msdu_list ← ol_rx_pn_check_base p tid msdu_list;
  hand_over to_fwd_check p tid msdu_list.

Definition ol_rx_pn_check_only `{StackJunk} (p tid : Z) (msdu_list : option Z) : M rx_pdev unit :=
  msdu_list ← ol_rx_pn_check_base p tid msdu_list;
  hand_over to_deliver p tid msdu_list.

(** [ol_rx_discard]. *)
Definition ol_rx_discard (p tid : Z) (msdu_list : option Z) : M rx_pdev unit := rx_frames_free msdu_list.

(** The call through [peer->rx_opt_proc]. *)
Definition rx_opt_proc_call `{StackJunk} (p tid : Z) (msdu_list : option Z) : M rx_pdev unit :=
  x ← get_peer p;
  match rp_opt_proc x with
  | opt_pn_check => ol_rx_pn_check p tid msdu_list
  | opt_pn_check_only => ol_rx_pn_check_only p tid msdu_list
  | opt_fwd_check => hand_over to_fwd_check p tid msdu_list
  | opt_deliver => hand_over to_deliver p tid msdu_list
  | opt_discard => ol_rx_discard p tid msdu_list
  end.

(** ** Security indications *)

Definition ol_rx_sec_ind_handler (peer_id : Z) (sec : sec_type) (is_unicast : bool) (rx_pn : pn)
  : M rx_pdev unit :=
  peer ← ol_txrx_peer_find_by_id peer_id;
  match peer with
  | None => skip
  | Some p =>
    upd_peer p (if is_unicast then set_rp_sec_ucast (fun _ => sec) else set_rp_sec_mcast (fun _ => sec));;
    x ← get_peer p;
    if negb (bool_decide (sec = htt_sec_type_wapi)) then
      upd_peer p (set_rp_tids_last_pn_valid (fun _ => replicate (Z.to_nat OL_TXRX_NUM_EXT_TIDS) false))
    else
      valid0 ← lift (znth (rp_tids_last_pn_valid x) 0);
      when (negb is_unicast || valid0)
        (upd_peer p (set_rp_tids_last_pn_valid (fun _ => replicate (Z.to_nat OL_TXRX_NUM_EXT_TIDS) true));;
         upd_peer p (set_rp_tids_last_pn (fun _ => replicate (Z.to_nat OL_TXRX_NUM_EXT_TIDS) rx_pn)))
  end.
