(* ===== verification/RxPnSpec.v ===== *)
(** What the packet number check computes: a reference filter on the MPDUs of
    a list, the proof that the pointer-walking loop of [ol_rx_pn_check_base]
    implements it, and the order of the packet numbers that pass. *)
From Stdlib Require Import ZArith Lia Sorting.Sorted.
From stdpp Require Import prelude gmap list numbers.
From S2P Require Import Prelude.
From S2P Require Import RxTypes.
From S2P Require Import RxList.
From S2P Require Import RxPn.

(** An MPDU: the descriptor of its first MSDU, and its MSDUs. *)
Notation mpdu := (rx_desc * list Z)%type.

Notation msdus l := (concat (snd <$> l)).

(** ** The reference filter *)
Section Filter.
Context (cmp : pn -> pn -> bool) (pn_len : Z) (junk : pn).

Definition pn_of (m : mpdu) : pn := htt_rx_mpdu_desc_pn m.1 junk pn_len.

(** The MPDUs kept, the MPDUs dropped, and the next [last_pn]. *)
Fixpoint pn_filter (valid : bool) (last : pn) (l : list mpdu) : list mpdu * list mpdu * bool * pn :=
  match l with
  | [] => ([], [], valid, last)
  | m :: r =>
    if negb (rd_encrypted m.1) then
      let '(k, g, v, p) := pn_filter valid last r in (m :: k, g, v, p)
    else if valid && cmp (pn_of m) last then
      let '(k, g, v, p) := pn_filter true last r in (k, m :: g, v, p)
    else
      let '(k, g, v, p) := pn_filter true (pn_of m) r in (m :: k, g, v, p)
  end.

Lemma pn_filter_perm valid last l k g v p :
  pn_filter valid last l = (k, g, v, p) -> k ++ g ≡ₚ l.
Proof.
  revert valid last k g v p. induction l as [|m l IH]; intros valid last k g v p; simpl.
  { by intros [= <- <- <- <-]. }
  repeat case_match; intros [= <- <- <- <-]; simpl.
  - f_equiv. by eapply IH.
  - rewrite <- Permutation_middle. f_equiv. by eapply IH.
  - f_equiv. by eapply IH.
Qed.

Lemma pn_filter_sublist valid last l k g v p :
  pn_filter valid last l = (k, g, v, p) -> k `sublist_of` l /\ g `sublist_of` l.
Proof.
  revert valid last k g v p. induction l as [|m l IH]; intros valid last k g v p; simpl.
  { by intros [= <- <- <- <-]. }
  repeat case_match; intros [= <- <- <- <-]; subst; edestruct IH; try eassumption;
    (split; [first [by apply sublist_skip | by apply sublist_cons]|first [done | by apply sublist_skip | by apply sublist_cons]]).
Qed.

(** Unencrypted MPDUs always pass. *)
Lemma pn_filter_clear valid last l k g v p :
  pn_filter valid last l = (k, g, v, p) -> Forall (fun m => rd_encrypted m.1 = true) g.
Proof.
  revert valid last k g v p. induction l as [|m l IH]; intros valid last k g v p; simpl.
  { by intros [= <- <- <- <-]. }
  destruct (rd_encrypted m.1) eqn:He; simpl; repeat case_match; intros [= <- <- <- <-];
    try constructor; eauto.
Qed.
End Filter.

(** ** The order of the packet numbers that pass *)
Section Order.
Context (key : pn -> Z) (pn_len : Z) (junk : pn).
Notation cmp := (fun n o => key n <=? key o).

(** The packet numbers of the encrypted MPDUs of [l]. *)
Definition pn_keys (l : list mpdu) : list Z :=
  (fun m => key (pn_of pn_len junk m)) <$> filter (fun m => rd_encrypted m.1 = true) l.

Lemma pn_filter_increasing valid last l k g v p :
  pn_filter cmp pn_len junk valid last l = (k, g, v, p) ->
  StronglySorted Z.lt (pn_keys k) /\ (valid = true -> Forall (Z.lt (key last)) (pn_keys k)) /\
  (v = true -> Forall (fun x => x <= key p) (pn_keys k)) /\
  (valid = true -> v = true /\ key last <= key p).
Proof.
  revert valid last k g v p. induction l as [|m l IH]; intros valid last k g v p; simpl.
  { intros [= <- <- <- <-]. unfold pn_keys. simpl. split_and!; [constructor|by constructor..|]. intros. split; [done|lia]. }
  destruct (rd_encrypted m.1) eqn:He; simpl.
  - destruct (valid && (key (pn_of pn_len junk m) <=? key last)) eqn:Hr.
    + destruct (pn_filter _ _ _ true last l) as [[[k0 g0] v0] p0] eqn:Hf. intros [= <- <- <- <-].
      apply andb_true_iff in Hr as [-> _]. by eapply IH.
    + destruct (pn_filter _ _ _ true _ l) as [[[k0 g0] v0] p0] eqn:Hf. intros [= <- <- <- <-].
      destruct (IH _ _ _ _ _ _ Hf) as (H1 & H2 & H3 & H4). destruct (H4 eq_refl) as [-> H5].
      specialize (H2 eq_refl). specialize (H3 eq_refl).
      assert (Hlt : valid = true -> key last < key (pn_of pn_len junk m)).
      { intros ->. simpl in Hr. lia. }
      unfold pn_keys. rewrite list.filter_cons_True by done. simpl. split_and!.
      * by constructor.
      * intros Hv. specialize (Hlt Hv). constructor; [done|]. eapply list.Forall_impl; [exact H2|]. simpl. lia.
      * intros _. by constructor.
      * intros Hv. specialize (Hlt Hv). split; [done|lia].
  - destruct (pn_filter _ _ _ valid last l) as [[[k0 g0] v0] p0] eqn:Hf. intros [= <- <- <- <-].
    unfold pn_keys. rewrite list.filter_cons_False by (by rewrite He). by eapply IH.
Qed.

(** Nothing newer than all that came before is dropped. *)
Lemma pn_filter_dropped valid last l k g v p :
  pn_filter cmp pn_len junk valid last l = (k, g, v, p) ->
  Forall (fun m => v = true /\ key (pn_of pn_len junk m) <= key p) g.
Proof.
  revert valid last k g v p. induction l as [|m l IH]; intros valid last k g v p; simpl.
  { by intros [= <- <- <- <-]. }
  destruct (rd_encrypted m.1) eqn:He; simpl.
  - destruct (valid && (key (pn_of pn_len junk m) <=? key last)) eqn:Hr.
    + destruct (pn_filter _ _ _ true last l) as [[[k0 g0] v0] p0] eqn:Hf. intros [= <- <- <- <-].
      constructor; [|by eapply IH]. destruct (pn_filter_increasing _ _ _ _ _ _ _ Hf) as (_ & _ & _ & H4).
      destruct (H4 eq_refl). apply andb_true_iff in Hr as [_ Hr]. split; [done|lia].
    + destruct (pn_filter _ _ _ true _ l) as [[[k0 g0] v0] p0] eqn:Hf. intros [= <- <- <- <-]. by eapply IH.
  - destruct (pn_filter _ _ _ valid last l) as [[[k0 g0] v0] p0] eqn:Hf. intros [= <- <- <- <-]. by eapply IH.
Qed.
End Order.

(** ** The loop *)

(** [m] is one MPDU: its MSDUs carry descriptors, and only the last one is
    flagged as completing the MPDU. *)
Definition mpdu_ok (h : heap) (m : mpdu) : Prop :=
  (exists a, list.head m.2 = Some a /\ htt_rx_msdu_desc_retrieve h a = Some m.1) /\
  forall i, i ∈ m.2 -> exists d, htt_rx_msdu_desc_retrieve h i = Some d /\
                                (rd_completes_mpdu d = true <-> list.last m.2 = Some i).

(** The buffers [gone] were freed; elsewhere descriptors are the same, and
    links changed in [touched] only. *)
Definition filtered (h h' : heap) (touched gone : list Z) : Prop :=
  (forall i, i ∈ gone -> h' !! i = None) /\
  (forall i, i ∉ gone -> htt_rx_msdu_desc_retrieve h' i = htt_rx_msdu_desc_retrieve h i) /\
  (forall i, i ∉ touched -> i ∉ gone -> h' !! i = h !! i).

Lemma desc_None h i : htt_rx_msdu_desc_retrieve h i = None <-> h !! i = None.
Proof. unfold htt_rx_msdu_desc_retrieve. by destruct (h !! i). Qed.

Lemma filtered_refl h t : filtered h h t [].
Proof. split_and!; try done. by intros i Hi%not_elem_of_nil. Qed.

Lemma filtered_trans h1 h2 h3 t1 t2 g1 g2 t g :
  filtered h1 h2 t1 g1 -> filtered h2 h3 t2 g2 -> t1 ⊆ t -> t2 ⊆ t -> g = g1 ++ g2 -> filtered h1 h3 t g.
Proof.
  intros (A1 & B1 & C1) (A2 & B2 & C2) Ht1 Ht2 ->. split_and!.
  - intros i [Hi|Hi]%elem_of_app; [|by apply A2].
    destruct (decide (i ∈ g2)) as [Hg|Hg]; [by apply A2|].
    apply desc_None. rewrite B2 by done. apply desc_None. by apply A1.
  - intros i Hi. rewrite B2, B1; set_solver.
  - intros i Hi Hg. rewrite C2, C1; set_solver.
Qed.

Lemma filtered_relinked h h' l : relinked h h' l -> filtered h h' l [].
Proof.
  intros Hr. split_and!; [by intros i Hi%not_elem_of_nil| |].
  - intros i _. apply Hr.
  - intros i Hi _. by apply Hr.
Qed.

Lemma filtered_delete h l t : filtered h (foldr delete h l) t l.
Proof.
  split_and!.
  - intros i Hi. by apply lookup_foldr_delete.
  - intros i Hi. unfold htt_rx_msdu_desc_retrieve. by rewrite foldr_delete_notin.
  - intros i _ Hi. by apply foldr_delete_notin.
Qed.

Lemma mpdu_ok_filtered h h' t g m : filtered h h' t g -> m.2 ## g -> mpdu_ok h m -> mpdu_ok h' m.
Proof.
  intros (_ & Hd & _) Hg [(a & Ha & Hda) Hm]. split.
  - exists a. split; [done|]. rewrite Hd; [done|]. apply list.head_Some_elem_of in Ha. set_solver.
  - intros i Hi. rewrite Hd by set_solver. by apply Hm.
Qed.

Lemma seg_filtered h h' t g l v : filtered h h' t g -> l ## t -> l ## g -> seg h l v -> seg h' l v.
Proof. intros (_ & _ & Hf) Ht Hg. apply seg_frame. intros i Hi. apply Hf; set_solver. Qed.

(** Finding the end of the MPDU in front. *)
Lemma mpdu_list_next_spec n h l r v a tl :
  seg h (l ++ r) v -> NoDup l -> list.head l = Some a -> list.last l = Some tl ->
  (forall i, i ∈ l -> exists d, htt_rx_msdu_desc_retrieve h i = Some d /\
                               (rd_completes_mpdu d = true <-> tl = i)) ->
  (length l <= n)%nat ->
  ol_rx_mpdu_list_next n h a = Some (tl, hd_or v r).
Proof.
  revert n a. induction l as [|b l IH]; intros n a Hs Hnd Ha Htl Hd Hn; [done|].
  destruct n as [|n]; [simpl in Hn; lia|]. simpl in Ha. injection Ha as ->.
  destruct (Hd a ltac:(set_solver)) as (d & Hda & Hc). simpl in *. destruct Hs as [Hnx Hs].
  rewrite Hda. simpl. rewrite Hnx. simpl. apply list.NoDup_cons in Hnd as [Hal Hnd].
  destruct l as [|c l].
  - simpl in *. injection Htl as ->. by rewrite (proj2 Hc eq_refl).
  - change (list.last (a :: c :: l)) with (list.last (c :: l)) in Htl.
    destruct (rd_completes_mpdu d) eqn:Hcd.
    + apply proj1 in Hc. specialize (Hc eq_refl) as ->. apply list.last_Some_elem_of in Htl. done.
    + simpl. apply (IH n c); [done|done|done|done| |simpl in *; lia].
      intros i Hi. apply Hd. set_solver.
Qed.

Lemma add_mpdu_spec h out m l lm a tl :
  slot_rep h out l -> slot_rep h m lm -> NoDup (l ++ lm) ->
  sl_head m = Some a -> sl_tail m = Some tl ->
  exists h' out', add_mpdu_to_list h out a tl = Some (h', out') /\
    slot_rep h' out' (l ++ lm) /\ relinked h h' l.
Proof.
  intros Hout Hm Hnd Ha Htl. destruct m as [ma mt]. simpl in *. subst. unfold add_mpdu_to_list.
  pose proof (slot_rep_Some _ _ _ _ Hm eq_refl) as Hlm.
  destruct (sl_head out) as [hd|] eqn:Ho.
  - pose proof (slot_rep_Some _ _ _ _ Hout Ho) as Hl.
    destruct (slot_append h out _ l lm Hout Hm Hl Hlm Hnd) as (t & h' & Ht & Hset & Hrep & Hr & _).
    exists h', (mk_slot (Some hd) (Some tl)). rewrite Ht. simpl in *. rewrite Hset. simpl.
    rewrite Ho in Hrep. split_and!; done.
  - rewrite (slot_rep_None _ _ _ Hout Ho). exists h, (mk_slot (Some a) (Some tl)). split_and!; done || auto with wlan.
Qed.

(** What holds between two rounds of the loop: [out] is on the output list,
    the MPDUs [l] are still to be looked at. *)
Definition loop_pre (h : heap) (o : slot) (out : list Z) (l : list mpdu) : Prop :=
  seg h (msdus l) None /\ Forall (mpdu_ok h) l /\ slot_rep h o out /\ NoDup (out ++ msdus l).

Lemma mpdus_ok_filtered h h' t g l :
  filtered h h' t g -> msdus l ## g -> Forall (mpdu_ok h) l -> Forall (mpdu_ok h') l.
Proof.
  intros Hf. induction l as [|m l IH]; intros Hd Hok; [done|]. simpl in Hd.
  apply list.Forall_cons in Hok as [Hm Hl]. constructor; [|apply IH; set_solver].
  eapply mpdu_ok_filtered; [exact Hf|set_solver|done].
Qed.

(** The MPDU in front: its ends, what appending it and what freeing it does. *)
Lemma loop_pre_front h o out d m l :
  loop_pre h o out ((d, m) :: l) ->
  exists a tl h1 o1, hd_or None (m ++ msdus l) = Some a /\ list.head m = Some a /\
    htt_rx_msdu_desc_retrieve h a = Some d /\
    ol_rx_mpdu_list_next (heap_fuel h) h a = Some (tl, hd_or None (msdus l)) /\
    add_mpdu_to_list h o a tl = Some (h1, o1) /\ relinked h h1 out /\ loop_pre h1 o1 (out ++ m) l /\
    free_mpdu (heap_fuel h) h (Some a) (Some tl) = Some (foldr delete h m, m) /\
    loop_pre (foldr delete h m) o out l.
Proof.
  intros (Hseg & Hok & Hout & Hnd). apply list.Forall_cons in Hok as [Hm Hok].
  pose proof Hm as [(a & Ha & Hda) Hmd]. simpl in *. pose proof Hseg as Hseg0.
  apply seg_app in Hseg as [Hsm Hsl]. rewrite app_assoc in Hnd.
  pose proof Hnd as (Hndom & Hdoml & Hndl)%list.NoDup_app.
  pose proof Hndom as (Hndo & Hdom & Hndm)%list.NoDup_app.
  assert (Hne : m <> []) by (by destruct m).
  destruct (list.last m) as [tl|] eqn:Htl; [|by apply list.last_None in Htl].
  pose proof (seg_length _ _ _ Hndm Hsm) as Hlen.
  assert (Hmrep : slot_rep h (mk_slot (Some a) (Some tl)) m) by (split_and!; eauto).
  destruct (add_mpdu_spec _ _ _ _ _ a tl Hout Hmrep Hndom eq_refl eq_refl) as (h1 & o1 & He & Hr1 & Hrl).
  assert (Hnext : ol_rx_mpdu_list_next (heap_fuel h) h a = Some (tl, hd_or None (msdus l))).
  { apply (mpdu_list_next_spec _ _ m (msdus l) None); [done..| |unfold heap_fuel; lia].
    intros i Hi. destruct (Hmd i Hi) as (d' & ? & ?). exists d'. naive_solver. }
  assert (Hfree : free_mpdu (heap_fuel h) h (Some a) (Some tl) = Some (foldr delete h m, m)).
  { replace (Some a) with (hd_or None m) by (by rewrite hd_or_None, Ha). rewrite <- Htl.
    eapply free_mpdu_seg; [done..|unfold heap_fuel; lia]. }
  exists a, tl, h1, o1. split_and!; try (exact Hnext || exact Hfree || done).
  - destruct m; [done|]. by injection Ha as ->.
  - split_and!; [eapply seg_relinked; [done|set_solver|done]| |done|done].
    eapply mpdus_ok_filtered; [by apply filtered_relinked|set_solver|done].
  - split_and!.
    + eapply (seg_filtered h); [apply (filtered_delete h m [])|set_solver|set_solver|done].
    + eapply (mpdus_ok_filtered h); [apply (filtered_delete h m [])|set_solver|done].
    + eapply (slot_rep_frame h); [|done]. intros i Hi. apply foldr_delete_notin. set_solver.
    + apply list.NoDup_app. split_and!; [done|set_solver|done].
Qed.

Section Loop.
Context (cmp : pn -> pn -> bool) (pn_len : Z) (junk : pn).
Notation filter_of := (pn_filter cmp pn_len junk).

(** The state after the loop, relative to what the reference filter says. *)
Definition loop_result (st : pn_state) (out : list Z) (res : list mpdu * list mpdu * bool * pn)
    (st' : pn_state) : Prop :=
  let '(k, g, v, p) := res in
  slot_rep (ps_heap st') (ps_out st') (out ++ msdus k) /\
  ps_valid st' = v /\ ps_last st' = p /\
  ps_freed st' = ps_freed st ++ msdus g /\
  Some <$> ps_errs st' = (Some <$> ps_errs st) ++ ((fun m => list.head m.2) <$> g) /\
  filtered (ps_heap st) (ps_heap st') (out ++ msdus k) (msdus g).

Lemma loop_result_keep st h1 o1 st' out m v p k g v' p' :
  relinked (ps_heap st) h1 out ->
  loop_result (mk_pn_state h1 o1 v p (ps_freed st) (ps_errs st)) (out ++ m.2) (k, g, v', p') st' ->
  loop_result st out (m :: k, g, v', p') st'.
Proof.
  intros Hr (H1 & H2 & H3 & H4 & H5 & H6). unfold loop_result. simpl in *.
  rewrite <- app_assoc in H1, H6. split_and!; try done.
  eapply (filtered_trans _ h1 _ out _ [] (msdus g)); [by apply filtered_relinked|exact H6|set_solver|done|done].
Qed.

Lemma loop_result_drop st a m st' out k g v' p' :
  list.head m.2 = Some a ->
  loop_result (mk_pn_state (foldr delete (ps_heap st) m.2) (ps_out st) true (ps_last st)
    (ps_freed st ++ m.2) (ps_errs st ++ [a])) out (k, g, v', p') st' ->
  loop_result st out (k, m :: g, v', p') st'.
Proof.
  intros Ha (H1 & H2 & H3 & H4 & H5 & H6). unfold loop_result. simpl in *. split_and!; try done.
  - by rewrite H4, <- app_assoc.
  - rewrite H5, fmap_app, <- app_assoc. simpl. by rewrite Ha.
  - eapply filtered_trans; [apply (filtered_delete (ps_heap st) m.2 [])|exact H6|set_solver|done|done].
Qed.

Lemma pn_check_loop_spec l : forall n st out,
  loop_pre (ps_heap st) (ps_out st) out l -> (length l <= n)%nat ->
  exists st', pn_check_loop cmp pn_len junk n st (hd_or None (msdus l)) = Some st' /\
    loop_result st out (filter_of (ps_valid st) (ps_last st) l) st'.
Proof.
  induction l as [|[d m] l IH]; intros n st out Hpre Hn.
  { exists st. split; [by destruct n|]. unfold loop_result. simpl. rewrite !app_nil_r.
    split_and!; try done; [apply Hpre|apply filtered_refl]. }
  destruct n as [|n]; [simpl in Hn; lia|]. simpl in Hn.
  destruct (loop_pre_front _ _ _ _ _ _ Hpre)
    as (a & tl & h1 & o1 & Hhd & Ha & Hda & Hnext & Hadd & Hrl & Hpre1 & Hfree & Hpre2).
  cbn [fmap list_fmap snd concat pn_filter fst]. rewrite Hhd. cbn [pn_check_loop]. rewrite Hda. cbn [mbind option_bind].
  rewrite Hnext. cbn [mbind option_bind]. rewrite Hadd, Hfree. cbn [mbind option_bind].
  change (pn_of pn_len junk (d, m)) with (htt_rx_mpdu_desc_pn d junk pn_len).
  (* keeping the MPDU, with whatever last PN *)
  assert (Hkeep : forall v p,
    exists st', pn_check_loop cmp pn_len junk n (mk_pn_state h1 o1 v p (ps_freed st) (ps_errs st))
      (hd_or None (msdus l)) = Some st' /\
      loop_result st out (let '(k, g, v', p') := filter_of v p l in ((d, m) :: k, g, v', p')) st').
  { intros v p. destruct (IH n (mk_pn_state h1 o1 v p (ps_freed st) (ps_errs st)) (out ++ m) Hpre1) as (st' & Hst' & Hres); [lia|].
    exists st'. split; [done|]. simpl in Hres. destruct (filter_of v p l) as [[[k g] v'] p'].
    by eapply (loop_result_keep st h1 o1 st' out (d, m) v p). }
  destruct (rd_encrypted d); simpl negb; cbn match; [|apply Hkeep].
  replace (if ps_valid st then cmp (htt_rx_mpdu_desc_pn d junk pn_len) (ps_last st) else false)
    with (ps_valid st && cmp (htt_rx_mpdu_desc_pn d junk pn_len) (ps_last st)) by (by destruct (ps_valid st)).
  destruct (ps_valid st && _); [|apply Hkeep].
  destruct (IH n (mk_pn_state (foldr delete (ps_heap st) m) (ps_out st) true (ps_last st)
                    (ps_freed st ++ m) (ps_errs st ++ [a])) out Hpre2) as (st' & Hst' & Hres); [lia|].
  exists st'. split; [done|]. simpl in Hres. destruct (filter_of true (ps_last st) l) as [[[k g] v'] p'].
  by apply (loop_result_drop st a (d, m)).
Qed.
End Loop.
