(* ===== verification/RxStage.v ===== *)
(** The stage after reordering, [peer->rx_opt_proc]: the functional result of
    [ol_rx_pn_check_base] on a device, and of each function the pointer may
    hold.  A list handed to the stage leaves the modelled part whole: every
    buffer of it is either delivered or freed. *)
From Stdlib Require Import ZArith Lia.
From stdpp Require Import prelude gmap list numbers.
From S2P Require Import Prelude.
From S2P Require Import RxTypes.
From S2P Require Import RxList.
From S2P Require Import RxPn.
From S2P Require Import RxPnSpec.

(** A [NULL]-terminated list of whole MPDUs. *)
Definition list_of (h : heap) (l : list mpdu) : Prop :=
  seg h (msdus l) None /\ Forall (mpdu_ok h) l /\ NoDup (msdus l).

Lemma msdus_app (l1 l2 : list mpdu) : msdus (l1 ++ l2) = msdus l1 ++ msdus l2.
Proof. by rewrite fmap_app, concat_app. Qed.

Lemma msdus_perm (l1 l2 : list mpdu) : l1 ≡ₚ l2 -> msdus l1 ≡ₚ msdus l2.
Proof. intros H. rewrite <- !flat_map_concat_map. by apply Permutation_flat_map. Qed.

Lemma hand_over_spec s k p tid l :
  seg (rx_heap s) l None -> NoDup l ->
  hand_over k p tid (hd_or None l) s =
    Some (tt, set_rx_delivered (fun d => d ++ [mk_delivery k p tid l])
                (set_rx_heap (fun h => foldr delete h l) s)).
Proof.
  intros Hs Hnd. unfold hand_over, mbind, M_bind, get, lift.
  rewrite walk_seg; [done|done|]. unfold heap_fuel. pose proof (seg_length _ _ _ Hnd Hs). lia.
Qed.

Lemma rx_frames_free_spec s l :
  seg (rx_heap s) l None -> NoDup l ->
  rx_frames_free (hd_or None l) s =
    Some (tt, set_rx_freed (fun f => f ++ l) (set_rx_heap (fun h => foldr delete h l) s)).
Proof.
  intros Hs Hnd. unfold rx_frames_free, mbind, M_bind, get, lift.
  rewrite frames_free_seg; [done|done|done|]. unfold heap_fuel. pose proof (seg_length _ _ _ Hnd Hs). lia.
Qed.

(** ** The packet number check of a device *)

(** The peer's per-TID arrays have their declared sizes. *)
Definition tids_sized (x : rx_peer) : Prop :=
  zlen (rp_tids_rx_reorder x) = OL_TXRX_NUM_EXT_TIDS /\
  zlen (rp_tids_last_pn x) = OL_TXRX_NUM_EXT_TIDS /\
  zlen (rp_tids_last_pn_valid x) = OL_TXRX_NUM_EXT_TIDS /\
  zlen (rp_tids_next_rel_idx x) = OL_TXRX_NUM_EXT_TIDS /\
  zlen (rp_tids_last_seq x) = OL_TXRX_NUM_EXT_TIDS /\
  zlen (rp_tids_mcast_last_seq x) = OL_TXRX_NUM_EXT_TIDS.

Definition last_pn_at (x : rx_peer) (tid : Z) : bool * pn :=
  (default false (znth (rp_tids_last_pn_valid x) tid), default (0, 0) (znth (rp_tids_last_pn x) tid)).

(** The security type that decides about the list [l]. *)
Definition sec_of_list (x : rx_peer) (l : list mpdu) : sec_type :=
  match l with m :: _ => sec_type_of x m.1 | [] => htt_sec_type_none end.

Definition is_mcast_list (l : list mpdu) : bool :=
  match l with m :: _ => rd_mcast m.1 | [] => false end.

(** Whether the host checks packet numbers at all. *)
Definition pn_checked (x : rx_peer) (l : list mpdu) : bool :=
  negb (rp_fw_pn_check x || bool_decide (rp_opmode x = wlan_op_mode_ibss)) &&
  negb (rx_pn_len (sec_of_list x l) =? 0).

Definition pn_decision `{StackJunk} (x : rx_peer) (tid : Z) (l : list mpdu)
  : list mpdu * list mpdu * bool * pn :=
  let '(valid, last) := last_pn_at x tid in
  if pn_checked x l then
    match rx_pn_cmp (sec_of_list x l) with
    | Some cmp => pn_filter (fun n o => cmp n o (negb (is_mcast_list l)) (rp_opmode x))
                    (rx_pn_len (sec_of_list x l)) junk_pn valid last l
    | None => (l, [], valid, last)
    end
  else (l, [], valid, last).

Definition with_last_pn (tid : Z) (v : bool) (last : pn) (x : rx_peer) : rx_peer :=
  set_rp_tids_last_pn_valid (fun l => zset l tid v) (set_rp_tids_last_pn (fun l => zset l tid last) x).

Lemma pn_decision_perm `{StackJunk} x tid l k g v last :
  pn_decision x tid l = (k, g, v, last) -> k ++ g ≡ₚ l.
Proof.
  unfold pn_decision. destruct (last_pn_at x tid) as [v0 p0].
  destruct (pn_checked x l); [destruct (rx_pn_cmp _)|]; [apply pn_filter_perm| |];
    intros [= <- <- _ _]; by rewrite app_nil_r.
Qed.

(** The errors reported for the dropped MPDUs. *)
Definition pn_errs (p tid : Z) (g : list mpdu) : list (Z * Z * Z) :=
  omap (fun m => a ← list.head m.2; Some (p, tid, a)) g.

(** The device after the check, the dropped MPDUs freed. *)
Definition after_check `{StackJunk} (s : rx_pdev) (p tid : Z) (x : rx_peer) (l : list mpdu) (h : heap) : rx_pdev :=
  let '(k, g, v, last) := pn_decision x tid l in
  set_rx_errs (fun e => e ++ pn_errs p tid g)
    (set_rx_pn_replays (if pn_checked x l then count_replays (sec_of_list x l) (zlen (msdus g)) else id)
      (set_rx_freed (fun f => f ++ msdus g)
        (set_rx_peers (<[p := with_last_pn tid v last x]>) (set_rx_heap (fun _ => h) s)))).

(** Two devices are equal when their fields are: a chain of updates is compared
    field by field. *)
Lemma rx_pdev_eq s s' :
  rx_heap s = rx_heap s' -> rx_peers s = rx_peers s' -> rx_peer_id_map s = rx_peer_id_map s' ->
  rx_ocb_peer s = rx_ocb_peer s' -> rx_waitlist s = rx_waitlist s' ->
  rx_defrag_timeout_check s = rx_defrag_timeout_check s' -> rx_defrag_timeout_ms s = rx_defrag_timeout_ms s' ->
  rx_dup_check s = rx_dup_check s' -> rx_now_ms s = rx_now_ms s' -> rx_delivered s = rx_delivered s' ->
  rx_freed s = rx_freed s' -> rx_pn_replays s = rx_pn_replays s' -> rx_errs s = rx_errs s' ->
  rx_holes s = rx_holes s' -> s = s'.
Proof. destruct s, s'. simpl. intros. by subst. Qed.

Lemma with_last_pn_id x tid :
  tids_sized x -> 0 <= tid < OL_TXRX_NUM_EXT_TIDS ->
  with_last_pn tid (last_pn_at x tid).1 (last_pn_at x tid).2 x = x.
Proof.
  intros (_ & H1 & H2 & _) Ht. unfold with_last_pn, last_pn_at. simpl.
  destruct (znth_in_range (rp_tids_last_pn_valid x) tid) as [v Hv]; [lia|].
  destruct (znth_in_range (rp_tids_last_pn x) tid) as [q Hq]; [lia|].
  rewrite Hv, Hq. simpl. apply znth_Some in Hv as [_ Hv], Hq as [_ Hq].
  unfold set_rp_tids_last_pn_valid, set_rp_tids_last_pn, zset. simpl.
  rewrite !list_insert_id by done. by destruct x.
Qed.

(** When nothing is checked, nothing changes. *)
Lemma after_check_bypass `{StackJunk} s p tid x l :
  rx_peers s !! p = Some x -> tids_sized x -> 0 <= tid < OL_TXRX_NUM_EXT_TIDS -> pn_checked x l = false ->
  after_check s p tid x l (rx_heap s) = s.
Proof.
  intros Hp Hx Ht Hc. unfold after_check, pn_decision. rewrite Hc.
  pose proof (with_last_pn_id x tid Hx Ht) as Hid. destruct (last_pn_at x tid) as [v q]. cbn [fst snd] in Hid.
  rewrite Hid. apply rx_pdev_eq; try reflexivity; cbn; by rewrite ?app_nil_r, ?insert_id.
Qed.

Definition kept_of (r : list mpdu * list mpdu * bool * pn) : list mpdu := r.1.1.1.
Definition dropped_of (r : list mpdu * list mpdu * bool * pn) : list mpdu := r.1.1.2.

(** The first buffer of a non-empty list of MPDUs carries the descriptor of
    the first MPDU. *)
Lemma list_of_first h m l :
  list_of h (m :: l) -> exists a, hd_or None (msdus (m :: l)) = Some a /\ htt_rx_msdu_desc_retrieve h a = Some m.1.
Proof.
  intros (_ & Hok & _). apply list.Forall_cons in Hok as [[(a & Ha & Hd) _] _]. exists a. split; [|done].
  simpl. destruct m as [d [|b r]]; [done|]. simpl in *. by injection Ha as ->.
Qed.

Lemma errs_fmap (l1 : list Z) (l2 : list mpdu) p tid :
  Some <$> l1 = (fun m => list.head m.2) <$> l2 -> (fun a => (p, tid, a)) <$> l1 = pn_errs p tid l2.
Proof.
  revert l1. induction l2 as [|m l2 IH]; intros [|a l1] H; try done. simpl in *. injection H as Ha H.
  unfold pn_errs. simpl. rewrite <- Ha. simpl. f_equal. by apply IH.
Qed.

(** Ending the output list after the loop. *)
Lemma terminate_out h o l :
  slot_rep h o l -> NoDup l ->
  exists h', match sl_tail o with Some tl => adf_nbuf_set_next h tl None | None => Some h end = Some h' /\
    seg h' l None /\ relinked h h' l.
Proof.
  intros Ho Hnd. destruct (decide (l = [])) as [->|Hl].
  - apply slot_rep_nil in Ho as ->. exists h. split_and!; done || auto with wlan.
  - destruct (slot_terminate h o l Ho Hl Hnd) as (t & h' & -> & Hset & Hs & Hr). by exists h'.
Qed.

Lemma head_hd_or (o : slot) h l : slot_rep h o l -> sl_head o = hd_or None l.
Proof. intros (-> & _). by rewrite hd_or_None. Qed.

Lemma put_last_pn_spec s p tid x v q :
  rx_peers s !! p = Some x ->
  put_last_pn p tid v q s = Some (tt, set_rx_peers (<[p := with_last_pn tid v q x]>) s).
Proof.
  intros Hp. unfold put_last_pn, upd_peer, get_peer, mbind, M_bind, get, lift, modify. rewrite Hp. simpl.
  rewrite lookup_insert_eq. unfold set_rx_peers. simpl. by rewrite insert_insert_eq.
Qed.

Lemma loop_pre_start h l : list_of h l -> loop_pre h empty_slot [] l.
Proof. intros (? & ? & ?). split_and!; done || auto with wlan. Qed.

Lemma list_of_length h l : list_of h l -> (length l <= size h)%nat.
Proof.
  intros (Hseg & Hok & Hnd). pose proof (seg_length _ _ _ Hnd Hseg). enough (length l <= length (msdus l))%nat by lia.
  clear -Hok. induction l as [|m l IH]; [simpl; lia|]. apply list.Forall_cons in Hok as [[(a & Ha & _) _] Hok].
  rewrite fmap_cons. cbn [concat length]. rewrite length_app. destruct m as [d [|b r]]; [done|]. simpl. specialize (IH Hok). lia.
Qed.

(** A sublist of the MPDUs, linked anew, is again a list. *)
Lemma list_of_kept h h' l k g :
  list_of h l -> k ++ g ≡ₚ l -> seg h' (msdus k) None -> filtered h h' (msdus k) (msdus g) -> list_of h' k.
Proof.
  intros (_ & Hok & Hnd) Hp Hs Hf. rewrite <- (msdus_perm _ _ Hp), msdus_app in Hnd.
  apply list.NoDup_app in Hnd as (Hndk & Hd & _). split_and!; [done| |done].
  eapply mpdus_ok_filtered; [exact Hf|set_solver|]. rewrite <- Hp in Hok. by apply Forall_app in Hok as [Hok _].
Qed.

(** The end of [ol_rx_pn_check_base]: the loop's result, terminated. *)
Lemma pn_check_finish h v q l k g v' q' st :
  list_of h l -> k ++ g ≡ₚ l -> loop_result (mk_pn_state h empty_slot v q [] []) [] (k, g, v', q') st ->
  exists h', match sl_tail (ps_out st) with
              | Some tl => adf_nbuf_set_next (ps_heap st) tl None | None => Some (ps_heap st) end = Some h' /\
    sl_head (ps_out st) = hd_or None (msdus k) /\ list_of h' k /\ filtered h h' (msdus k) (msdus g).
Proof.
  intros Hl Hp (Hout & _ & _ & _ & _ & Hf). simpl in *. pose proof Hl as (_ & _ & Hnd).
  rewrite <- (msdus_perm _ _ Hp), msdus_app in Hnd. apply list.NoDup_app in Hnd as (Hndk & Hd & _).
  destruct (terminate_out _ _ _ Hout Hndk) as (h' & -> & Hs & Hr). exists h'.
  assert (filtered h h' (msdus k) (msdus g)) as Hf'.
  { eapply filtered_trans; [exact Hf|by apply filtered_relinked|done|done|by rewrite app_nil_r]. }
  split_and!; [done|by eapply head_hd_or| |done]. by eapply list_of_kept.
Qed.

Lemma ol_rx_pn_check_base_spec `{StackJunk} s p tid x l :
  rx_peers s !! p = Some x -> tids_sized x -> 0 <= tid < OL_TXRX_NUM_EXT_TIDS ->
  l <> [] -> list_of (rx_heap s) l ->
  let r := pn_decision x tid l in
  exists h', ol_rx_pn_check_base p tid (hd_or None (msdus l)) s =
      Some (hd_or None (msdus (kept_of r)), after_check s p tid x l h') /\
    list_of h' (kept_of r) /\ filtered (rx_heap s) h' (msdus (kept_of r)) (msdus (dropped_of r)).
Proof.
  intros Hp Hx Ht Hne Hl r. destruct l as [|m l]; [done|].
  destruct (list_of_first _ _ _ Hl) as (a & Ha & Hd).
  (* the two ways in which nothing is checked *)
  assert (Hbypass : pn_checked x (m :: l) = false ->
    exists h', Some (hd_or None (msdus (m :: l)), s) =
      Some (hd_or None (msdus (kept_of r)), after_check s p tid x (m :: l) h') /\
    list_of h' (kept_of r) /\ filtered (rx_heap s) h' (msdus (kept_of r)) (msdus (dropped_of r))).
  { intros Hc. exists (rx_heap s). rewrite after_check_bypass by done.
    replace r with ((m :: l, [] : list mpdu, (last_pn_at x tid).1, (last_pn_at x tid).2)).
    - split; [done|]. split; [done|]. apply filtered_refl.
    - unfold r, pn_decision. rewrite Hc. by destruct (last_pn_at x tid). }
  unfold ol_rx_pn_check_base, get_peer. unfold mbind, M_bind. unfold get at 1, lift at 1. rewrite Hp.
  unfold pn_checked in Hbypass.
  destruct (rp_fw_pn_check x || bool_decide (rp_opmode x = wlan_op_mode_ibss)) eqn:Hfw; [by apply Hbypass|].
  unfold get at 1, lift at 1. rewrite Ha. unfold lift at 1. rewrite Hd. simpl sec_of_list in Hbypass.
  destruct (rx_pn_len (sec_type_of x m.1) =? 0) eqn:Hlen; [rewrite <- Ha; by apply Hbypass|]. clear Hbypass.
  destruct (rx_pn_cmp (sec_type_of x m.1)) as [cmp|] eqn:Hcmp; [|by destruct (sec_type_of x m.1)].
  destruct Hx as (_ & Hs1 & Hs2 & _).
  destruct (znth_in_range (rp_tids_last_pn_valid x) tid) as [v Hv]; [lia|].
  destruct (znth_in_range (rp_tids_last_pn x) tid) as [q Hq]; [lia|].
  unfold lift at 1. rewrite Hv, Hq. rewrite <- Ha. unfold lift at 1, lift at 1.
  destruct (pn_check_loop_spec (fun n o => cmp n o (negb (rd_mcast m.1)) (rp_opmode x))
    (rx_pn_len (sec_type_of x m.1)) junk_pn (m :: l) (heap_fuel (rx_heap s))
    (mk_pn_state (rx_heap s) empty_slot v q [] []) [] (loop_pre_start _ _ Hl)) as (st & Hst & Hres).
  { unfold heap_fuel. pose proof (list_of_length _ _ Hl). lia. }
  rewrite Hst. unfold lift at 1.
  assert (Hr : r = pn_filter (fun n o => cmp n o (negb (rd_mcast m.1)) (rp_opmode x))
    (rx_pn_len (sec_type_of x m.1)) junk_pn v q (m :: l)).
  { unfold r, pn_decision, last_pn_at, pn_checked. rewrite Hv, Hq, Hfw. simpl sec_of_list. rewrite Hlen, Hcmp. done. }
  cbn [ps_valid ps_last] in Hres. rewrite <- Hr in Hres. unfold r in *. clear r Hr.
  destruct (pn_decision x tid (m :: l)) as [[[k g] v'] q'] eqn:Hdec.
  destruct (pn_check_finish _ _ _ _ _ _ _ _ _ Hl (pn_decision_perm _ _ _ _ _ _ _ Hdec) Hres)
    as (h' & Hset & Hhead & Hlist & Hfil).
  exists h'. split; [|done]. rewrite Hset, Hhead. unfold lift at 1. unfold put_heap, modify at 1.
  destruct Hres as (_ & -> & -> & Hfr & Herr & _). cbn [ps_freed ps_errs fmap list_fmap app] in Hfr, Herr.
  rewrite put_last_pn_spec with (x := x) by done. rewrite Hfr, (errs_fmap _ _ _ _ Herr).
  unfold after_check, pn_checked. rewrite Hdec, Hfw. simpl sec_of_list. by rewrite Hlen.
Qed.

(** ** The call through [peer->rx_opt_proc] *)

Definition proc_checks (f : rx_opt_proc) : bool :=
  match f with opt_pn_check | opt_pn_check_only => true | _ => false end.

Definition proc_sink (f : rx_opt_proc) : option sink :=
  match f with
  | opt_pn_check | opt_fwd_check => Some to_fwd_check
  | opt_pn_check_only | opt_deliver => Some to_deliver
  | opt_discard => None
  end.

(** What becomes of the MPDUs [l]: kept, dropped, and the next [last_pn]. *)
Definition verdict `{StackJunk} (x : rx_peer) (tid : Z) (l : list mpdu) : list mpdu * list mpdu * bool * pn :=
  let '(v, q) := last_pn_at x tid in
  match rp_opt_proc x with
  | opt_pn_check | opt_pn_check_only => pn_decision x tid l
  | opt_discard => ([], l, v, q)
  | _ => (l, [], v, q)
  end.

(** The device after the stage has taken the list [l]. *)
Definition after_stage `{StackJunk} (s : rx_pdev) (p tid : Z) (x : rx_peer) (l : list mpdu) : rx_pdev :=
  let '(k, g, v, last) := verdict x tid l in
  let checks := proc_checks (rp_opt_proc x) in
  set_rx_delivered (fun d => d ++ match proc_sink (rp_opt_proc x) with
                                  | Some sk => [mk_delivery sk p tid (msdus k)] | None => [] end)
    (set_rx_errs (fun e => e ++ if checks then pn_errs p tid g else [])
      (set_rx_pn_replays (if checks && pn_checked x l then count_replays (sec_of_list x l) (zlen (msdus g)) else id)
        (set_rx_freed (fun f => f ++ msdus g)
          (set_rx_peers (<[p := with_last_pn tid v last x]>)
            (set_rx_heap (fun h => foldr delete h (msdus l)) s))))).

Lemma foldr_delete_filtered h h' l k g :
  k ++ g ≡ₚ l -> filtered h h' k g -> foldr delete h' k = foldr delete h l.
Proof.
  intros Hp (Hg & _ & Hf). apply map_eq. intros i.
  assert (Hi : i ∈ l <-> i ∈ k \/ i ∈ g) by (rewrite <- Hp; apply elem_of_app).
  destruct (decide (i ∈ k)) as [Hk|Hk]; [rewrite !lookup_foldr_delete by naive_solver; done|].
  rewrite (foldr_delete_notin h') by done. destruct (decide (i ∈ g)) as [Hgi|Hgi].
  - rewrite (lookup_foldr_delete _ l) by naive_solver. by apply Hg.
  - rewrite foldr_delete_notin by naive_solver. by apply Hf.
Qed.

Lemma verdict_perm `{StackJunk} x tid l k g v q : verdict x tid l = (k, g, v, q) -> k ++ g ≡ₚ l.
Proof.
  unfold verdict. destruct (last_pn_at x tid) as [v0 q0]. destruct (rp_opt_proc x);
    try (by apply pn_decision_perm); intros [= <- <- _ _]; by rewrite ?app_nil_r.
Qed.

(** A check followed by the hand-over of what is left. *)
Lemma check_then_hand_over `{StackJunk} s p tid x l sk :
  rx_peers s !! p = Some x -> tids_sized x -> 0 <= tid < OL_TXRX_NUM_EXT_TIDS ->
  l <> [] -> list_of (rx_heap s) l -> proc_checks (rp_opt_proc x) = true -> proc_sink (rp_opt_proc x) = Some sk ->
  (o ← ol_rx_pn_check_base p tid (hd_or None (msdus l)); hand_over sk p tid o) s =
    Some (tt, after_stage s p tid x l).
Proof.
  intros Hp Hx Ht Hne Hl Hc Hsk.
  destruct (ol_rx_pn_check_base_spec s p tid x l Hp Hx Ht Hne Hl) as (h' & Hrun & Hkl & Hf).
  unfold mbind, M_bind. rewrite Hrun. unfold after_stage, after_check.
  assert (Hv : verdict x tid l = pn_decision x tid l).
  { unfold verdict. destruct (last_pn_at x tid). by destruct (rp_opt_proc x). }
  rewrite Hv, Hc, Hsk. destruct (pn_decision x tid l) as [[[k g] v] q] eqn:Hd. unfold kept_of, dropped_of in *.
  cbn [fst snd] in *. destruct Hkl as (Hseg & _ & Hnd).
  rewrite hand_over_spec by done. f_equal. f_equal. apply rx_pdev_eq; try reflexivity.
  eapply foldr_delete_filtered; [|exact Hf]. rewrite <- msdus_app. apply msdus_perm.
  by eapply pn_decision_perm.
Qed.

(** The stages that look at no packet number. *)
Lemma after_stage_unchecked `{StackJunk} s p tid x l k g :
  rx_peers s !! p = Some x -> tids_sized x -> 0 <= tid < OL_TXRX_NUM_EXT_TIDS ->
  proc_checks (rp_opt_proc x) = false -> verdict x tid l = (k, g, (last_pn_at x tid).1, (last_pn_at x tid).2) ->
  after_stage s p tid x l =
    set_rx_delivered (fun d => d ++ match proc_sink (rp_opt_proc x) with
                                    | Some sk => [mk_delivery sk p tid (msdus k)] | None => [] end)
      (set_rx_freed (fun f => f ++ msdus g) (set_rx_heap (fun h => foldr delete h (msdus l)) s)).
Proof.
  intros Hp Hx Ht Hc Hv. unfold after_stage. rewrite Hv, Hc, with_last_pn_id by done.
  apply rx_pdev_eq; try reflexivity; cbn; by rewrite ?app_nil_r, ?insert_id.
Qed.

Lemma rx_opt_proc_call_spec `{StackJunk} s p tid x l :
  rx_peers s !! p = Some x -> tids_sized x -> 0 <= tid < OL_TXRX_NUM_EXT_TIDS ->
  l <> [] -> list_of (rx_heap s) l ->
  rx_opt_proc_call p tid (hd_or None (msdus l)) s = Some (tt, after_stage s p tid x l).
Proof.
  intros Hp Hx Ht Hne Hl. unfold rx_opt_proc_call. unfold mbind at 1, M_bind at 1.
  unfold get_peer, mbind, M_bind, get at 1, lift at 1. rewrite Hp. pose proof Hl as (Hseg & _ & Hnd).
  assert (Hv : proc_checks (rp_opt_proc x) = false -> verdict x tid l =
    (if rp_opt_proc x is opt_discard then [] else l, if rp_opt_proc x is opt_discard then l else [],
     (last_pn_at x tid).1, (last_pn_at x tid).2)).
  { unfold verdict. destruct (last_pn_at x tid). by destruct (rp_opt_proc x). }
  destruct (rp_opt_proc x) eqn:Hpr.
  - apply (check_then_hand_over s p tid x l to_fwd_check); rewrite ?Hpr; done.
  - apply (check_then_hand_over s p tid x l to_deliver); rewrite ?Hpr; done.
  - rewrite hand_over_spec, (after_stage_unchecked _ _ _ _ _ l []), Hpr by (rewrite ?Hpr; auto).
    f_equal. f_equal. apply rx_pdev_eq; try reflexivity. cbn. by rewrite app_nil_r.
  - rewrite hand_over_spec, (after_stage_unchecked _ _ _ _ _ l []), Hpr by (rewrite ?Hpr; auto).
    f_equal. f_equal. apply rx_pdev_eq; try reflexivity. cbn. by rewrite app_nil_r.
  - unfold ol_rx_discard. rewrite rx_frames_free_spec, (after_stage_unchecked _ _ _ _ _ [] l), Hpr by (rewrite ?Hpr; auto).
    f_equal. f_equal. apply rx_pdev_eq; try reflexivity. cbn. by rewrite app_nil_r.
Qed.
