(* ===== verification/RxReorder.v ===== *)
(** The receive reordering of a peer-TID ([ol_rx_reorder.c]): the array of
    slots, storing, releasing and flushing, the block-ack set-up and
    tear-down, the handlers HTT calls, and the duplicate check. *)
From Stdlib Require Import ZArith Lia.
From stdpp Require Import prelude gmap list numbers.
From S2P Require Import Prelude.
From S2P Require Import RxTypes.
From S2P Require Import RxPn.

(** ** Initialisation and history *)

Definition ol_rx_reorder_init (tid : Z) (r : rx_reorder) : rx_reorder :=
  mk_rx_reorder 1 0 (ro_num_mpdus r) None empty_slot false 0 (u16 tid).

(** [OL_RX_REORDER_ROUND_PWR2]: the table [g_log2ceil], entries 0 to 64. *)
Definition g_log2ceil (win_sz : Z) : option Z :=
  if (win_sz <? 0) || (64 <? win_sz) then None
  else Some (if win_sz <=? 1 then 1 else if win_sz <=? 2 then 2 else if win_sz <=? 4 then 4
             else if win_sz <=? 8 then 8 else if win_sz <=? 16 then 16 else if win_sz <=? 32 then 32 else 64).

Definition ol_rx_reorder_update_history (p : Z) (msg : reorder_msg_type) (tid start_seq end_seq reorder_idx : Z)
  : M rx_pdev unit :=
  x ← get_peer p;
  match rp_history x with
  | None => skip
  | Some hist =>
    let index := rh_curr_index hist in
    let curr_index := u8 (index + 1) in
    lift (znth (rh_record hist) index);;
    let rec := mk_reorder_record msg (u8 tid) (u16 (rp_local_id x)) (u8 start_seq) (u8 end_seq) (u8 reorder_idx) in
    let records := zset (rh_record hist) index rec in
    upd_peer p (set_rp_history (fun _ => Some
      (if OL_MAX_RX_REORDER_HISTORY <=? curr_index then mk_reorder_history 0 true records
       else mk_reorder_history curr_index (rh_wrap_around hist) records)))
  end.

(** ** The sequence number check *)

Inductive htt_rx_status :=
  htt_rx_status_ok | htt_rx_status_err_replay | htt_rx_status_err_inv_peer | htt_rx_status_tkip_mic_err
  | htt_rx_status_other.
#[export] Instance htt_rx_status_eq_dec : EqDecision htt_rx_status.
Proof. solve_decision. Defined.

Definition ol_rx_reorder_seq_num_check (p tid seq_num : Z) : M rx_pdev htt_rx_status :=
  x ← get_peer p;
  last ← lift (znth (rp_tids_last_seq x) tid);
  if last =? IEEE80211_SEQ_MAX then mret htt_rx_status_ok
  else
    let seq_num_delta := Z.land (u32 (seq_num - 1 - last)) (IEEE80211_SEQ_MAX - 1) in
    mret (if Z.shiftr IEEE80211_SEQ_MAX 1 <? seq_num_delta then htt_rx_status_err_replay else htt_rx_status_ok).

Definition ol_rx_seq_num_check (p tid : Z) (d : rx_desc) : M rx_pdev htt_rx_status :=
  let seq_num := u16 (rd_seq_num d) in
  if tid =? OL_RX_MCAST_TID then
    let pkt_tid := u16 (rd_tid d) in
    if OL_TXRX_NUM_EXT_TIDS <=? pkt_tid then mret htt_rx_status_ok
    else
      x ← get_peer p;
      last ← lift (znth (rp_tids_mcast_last_seq x) pkt_tid);
      if rd_retry d && (seq_num =? last) then mret htt_rx_status_err_replay
      else put_mcast_last_seq p pkt_tid seq_num;; mret htt_rx_status_ok
  else ol_rx_reorder_seq_num_check p tid seq_num.

(** ** Store *)

(** On the array alone: the heap and the slots after storing one MPDU. *)
Definition slot_store (h : heap) (slots : list slot) (idx : Z) (head_msdu tail_msdu : Z) : option (heap * list slot) :=
  e ← znth slots idx;
  match sl_head e with
  | Some hd => t ← sl_tail e; h ← adf_nbuf_set_next h t (Some head_msdu);
               Some (h, zset slots idx (mk_slot (Some hd) (Some tail_msdu)))
  | None => Some (h, zset slots idx (mk_slot (Some head_msdu) (Some tail_msdu)))
  end.

Definition ol_rx_reorder_store (p tid idx head_msdu tail_msdu : Z) : M rx_pdev unit :=
  r ← get_reorder p tid;
  s ← get;
  '(h, slots) ← lift (slot_store (rx_heap s) (ro_slots r) (Z.land idx (ro_win_sz_mask r)) head_msdu tail_msdu);
  put_heap h;; upd_reorder p tid (set_slots slots).

(** ** Release *)

(** [while (idx != idx_end)]. *)
Fixpoint release_loop (n : nat) (mask idx_end : Z) (h : heap) (slots : list slot) (idx : Z) (out : slot)
  : option (heap * list slot * slot) :=
  if idx =? idx_end then Some (h, slots, out)
  else match n with
  | O => None
  | S n' =>
    e ← znth slots idx;
    '(h, out) ← match sl_head e with
                | Some hd =>
                  h ← match sl_tail out with
                      | Some t => adf_nbuf_set_next h t (Some hd)
                      | None => Some h
                      end;
                  Some (h, mk_slot (sl_head out) (sl_tail e))
                | None => Some (h, out)
                end;
    release_loop n' mask idx_end h (zset slots idx empty_slot) (Z.land (idx + 1) mask) out
  end.

(** Deliver or free the list that was taken out of the array. *)
Definition set_last_seq_of (p tid : Z) (out : slot) (next_stage : Z -> M rx_pdev unit) : M rx_pdev unit :=
  match sl_head out with
  | None => skip
  | Some head_msdu =>
    s ← get;
    d ← lift (htt_rx_msdu_desc_retrieve (rx_heap s) head_msdu);
    put_last_seq p tid (rd_seq_num d);;
    tail_msdu ← lift (sl_tail out);
    h ← lift (adf_nbuf_set_next (rx_heap s) tail_msdu None);
    put_heap h;;
    next_stage head_msdu
  end.

Definition ol_rx_reorder_release `{StackJunk} (p tid idx_start idx_end : Z) : M rx_pdev unit :=
  put_next_rel_idx p tid idx_end;;
  r ← get_reorder p tid;
  let win_sz_mask := ro_win_sz_mask r in
  let idx_start := Z.land idx_start win_sz_mask in
  let idx_end := Z.land idx_end win_sz_mask in
  s ← get;
  e ← lift (znth (ro_slots r) idx_start);
  '(h, slots, out) ← lift (release_loop (S (Z.to_nat win_sz_mask)) win_sz_mask idx_end (rx_heap s)
                             (zset (ro_slots r) idx_start empty_slot) (Z.land (idx_start + 1) win_sz_mask) e);
  put_heap h;;
  upd_reorder p tid (set_slots slots);;
  set_last_seq_of p tid out (fun head_msdu => rx_opt_proc_call p tid (Some head_msdu)).

(** ** Fragments waiting for their rest *)

Definition ol_rx_defrag_waitlist_add (p tid : Z) : M rx_pdev unit :=
  modify (set_rx_waitlist (tailq_insert_tail (p, tid)));;
  upd_reorder p tid (set_ro_linked (fun _ => true)).

Definition ol_rx_defrag_waitlist_remove (p tid : Z) : M rx_pdev unit :=
  r ← get_reorder p tid;
  when (ro_linked r)
    (s ← get;
     w ← lift (tailq_remove (p, tid) (rx_waitlist s));
     modify (set_rx_waitlist (fun _ => w));;
     upd_reorder p tid (set_ro_linked (fun _ => false))).

Definition ol_rx_reorder_flush_frag (p tid seq_num : Z) : M rx_pdev unit :=
  r ← get_reorder p tid;
  let seq := Z.land seq_num (ro_win_sz_mask r) in
  e ← lift (znth (ro_slots r) seq);
  match sl_head e with
  | None => skip
  | Some _ => rx_frames_free (sl_head e);; upd_reorder p tid (set_slots (zset (ro_slots r) seq empty_slot))
  end.

(** ** Flush *)

Inductive htt_rx_flush_action := htt_rx_flush_release | htt_rx_flush_discard.

(** One slot of the [do ... while] loops of the flush: take its list, if any. *)
Definition take_slot (h : heap) (slots : list slot) (idx : Z) (out : slot) : option (heap * list slot * slot) :=
  e ← znth slots idx;
  match sl_head e with
  | None => Some (h, slots, out)
  | Some hd =>
    match sl_head out with
    | None => Some (h, zset slots idx empty_slot, e)
    | Some oh => t ← sl_tail out; h ← adf_nbuf_set_next h t (Some hd);
                 Some (h, zset slots idx empty_slot, mk_slot (Some oh) (sl_tail e))
    end
  end.

Fixpoint flush_loop (n : nat) (mask idx_end : Z) (h : heap) (slots : list slot) (idx_start : Z) (out : slot)
  : option (heap * list slot * slot) :=
  match n with
  | O => None
  | S n' =>
    '(h, slots, out) ← take_slot h slots idx_start out;
    let idx_start := Z.land (idx_start + 1) mask in
    if idx_start =? idx_end then Some (h, slots, out)
    else flush_loop n' mask idx_end h slots idx_start out
  end.

Definition ol_rx_reorder_flush `{StackJunk} (p tid idx_start idx_end : Z) (action : htt_rx_flush_action)
  : M rx_pdev unit :=
  r ← get_reorder p tid;
  let win_sz_mask := ro_win_sz_mask r in
  idx_end ← (if idx_end =? 0xffff then put_next_rel_idx p tid 0;; mret idx_start
             else put_next_rel_idx p tid idx_end;; mret idx_end);
  s ← get;
  '(h, slots, out) ← lift (flush_loop (S (Z.to_nat win_sz_mask)) win_sz_mask (Z.land idx_end win_sz_mask)
                             (rx_heap s) (ro_slots r) (Z.land idx_start win_sz_mask) empty_slot);
  put_heap h;;
  upd_reorder p tid (set_slots slots);;
  ol_rx_defrag_waitlist_remove p tid;;
  set_last_seq_of p tid out (fun head_msdu =>
    match action with
    | htt_rx_flush_release => rx_opt_proc_call p tid (Some head_msdu)
    | htt_rx_flush_discard => rx_frames_free (Some head_msdu)
    end).

(** ** Holes *)

Fixpoint first_hole_skip (n : nat) (mask idx_start : Z) (slots : list slot) (present : bool) (tmp_idx : Z)
  : option Z :=
  if tmp_idx =? idx_start then Some tmp_idx
  else
    e ← znth slots tmp_idx;
    if bool_decide (is_Some (sl_head e)) && present || bool_decide (sl_head e = None) && negb present then
      match n with
      | O => None
      | S n' => first_hole_skip n' mask idx_start slots present (Z.land (tmp_idx + 1) mask)
      end
    else Some tmp_idx.

Definition ol_rx_reorder_first_hole (r : rx_reorder) : option Z :=
  let mask := ro_win_sz_mask r in
  let fuel := S (Z.to_nat mask) in
  tmp_idx ← first_hole_skip fuel mask 0 (ro_slots r) false (Z.land 1 mask);
  first_hole_skip fuel mask 0 (ro_slots r) true tmp_idx.

Definition ol_rx_reorder_detect_hole (p tid idx_start : Z) : M rx_pdev unit :=
  if OL_TXRX_NUM_EXT_TIDS <=? tid then skip
  else
    x ← get_peer p;
    rel ← lift (znth (rp_tids_next_rel_idx x) tid);
    if rel =? INVALID_REORDER_INDEX then skip
    else
      r ← get_reorder p tid;
      let win_sz_mask := ro_win_sz_mask r in
      if win_sz_mask =? 0 then skip
      else
        let idx_start := Z.land idx_start win_sz_mask in
        let next_rel_idx := Z.land rel win_sz_mask in
        when (negb (idx_start =? next_rel_idx))
          (modify (set_rx_holes (fun l => l ++ [Z.land (idx_start - next_rel_idx) win_sz_mask]))).

(** ** Peers *)

Definition zseq_tids : list Z := Z.of_nat <$> seq 0 (Z.to_nat OL_TXRX_NUM_EXT_TIDS).

Definition ol_rx_reorder_peer_cleanup `{StackJunk} (p : Z) : M rx_pdev unit :=
  for_each zseq_tids (fun tid => ol_rx_reorder_flush p tid 0 0 htt_rx_flush_discard).

(** [ol_rx_peer_init] and the allocation of the history: a peer whose memory
    holds [x] before. *)
Definition ol_rx_peer_init (x : rx_peer) : rx_peer :=
  set_rp_fw_pn_check (fun _ => false)
    (set_rp_sec_mcast (fun _ => htt_sec_type_none) (set_rp_sec_ucast (fun _ => htt_sec_type_none)
      (set_rp_tids_next_rel_idx (fun l => (fun _ => INVALID_REORDER_INDEX) <$> l)
        (set_rp_tids_last_seq (fun l => (fun _ => IEEE80211_SEQ_MAX) <$> l)
          (set_rp_tids_rx_reorder (fun l => imap (fun i r => ol_rx_reorder_init (Z.of_nat i) r) l) x))))).

(** [ol_rx_peer_cleanup]: the history is freed too. *)
Definition ol_rx_peer_cleanup `{StackJunk} (p : Z) : M rx_pdev unit :=
  ol_rx_reorder_peer_cleanup p;; upd_peer p (set_rp_history (fun _ => None)).

(** ** Messages of the target *)

(** [alloc_ok] is the outcome of the allocation of the array; writing through
    a null pointer is a fault. *)
Definition ol_rx_addba_handler (alloc_ok : bool) (peer_id tid win_sz start_seq_num : Z) (failed : bool)
  : M rx_pdev unit :=
  if OL_TXRX_NUM_EXT_TIDS <=? tid then skip
  else
    peer ← ol_txrx_peer_find_by_id peer_id;
    match peer with
    | None => skip
    | Some p =>
      if failed then skip
      else
        put_last_seq p tid IEEE80211_SEQ_MAX;;
        round_pwr2_win_sz ← lift (g_log2ceil win_sz);
        if alloc_ok then
          upd_reorder p tid (fun r =>
            mk_rx_reorder win_sz (round_pwr2_win_sz - 1) 0
              (Some (replicate (Z.to_nat round_pwr2_win_sz) empty_slot)) (ro_base r)
              (ro_linked r) (ro_defrag_timeout_ms r) (ro_tid r));;
          put_next_rel_idx p tid 0
        else fault
    end.

Definition ol_rx_delba_handler (peer_id tid : Z) : M rx_pdev unit :=
  if OL_TXRX_NUM_EXT_TIDS <=? tid then skip
  else
    peer ← ol_txrx_peer_find_by_id peer_id;
    match peer with
    | None => skip
    | Some p => put_next_rel_idx p tid INVALID_REORDER_INDEX;; upd_reorder p tid (ol_rx_reorder_init tid)
    end.

Definition ol_rx_flush_handler `{StackJunk} (peer_id tid idx_start idx_end : Z) (action : htt_rx_flush_action)
  : M rx_pdev unit :=
  if OL_TXRX_NUM_EXT_TIDS <=? tid then skip
  else
    peer ← ol_txrx_peer_find_by_id peer_id;
    match peer with
    | None => skip
    | Some p =>
      r ← get_reorder p tid;
      e ← lift (znth (ro_slots r) (Z.land idx_start (ro_win_sz_mask r)));
      s ← get;
      is_frag ← match sl_head e with
                | None => mret false
                | Some a => d ← lift (htt_rx_msdu_desc_retrieve (rx_heap s) a); mret (rd_is_frag d)
                end;
      if is_frag : bool then ol_rx_reorder_flush_frag p tid idx_start
      else
        when (match action with htt_rx_flush_release => true | htt_rx_flush_discard => false end)
          (ol_rx_reorder_detect_hole p tid idx_start);;
        ol_rx_reorder_flush p tid idx_start idx_end action
    end.

(** The local variables of the loop of [ol_rx_pn_ind_handler]; [pi_ie] are the
    elements of [pn_ie] from [i] on, [pi_cnt] is [pn_ie_cnt]. *)
Record pn_ind_state := mk_pn_ind_state {
  pi_heap : heap;
  pi_slots : list slot;
  pi_out : slot;
  pi_ie : list Z;
  pi_cnt : Z;
  pi_freed : list Z;
  pi_errs : list Z }.

Definition pn_ind_slot (st : pn_ind_state) (seq_num : Z) : option pn_ind_state :=
  e ← znth (pi_slots st) seq_num;
  match sl_head e with
  | None => Some st
  | Some hd =>
    failed ← (if negb (pi_cnt st =? 0) then ie ← list.head (pi_ie st); Some (seq_num =? ie) else Some false);
    if failed : bool then
      '(h, fr) ← free_mpdu (heap_fuel (pi_heap st)) (pi_heap st) (Some hd) (sl_tail e);
      Some (mk_pn_ind_state h (zset (pi_slots st) seq_num empty_slot) (pi_out st) (tail (pi_ie st))
              (u8 (pi_cnt st - 1)) (pi_freed st ++ fr) (pi_errs st ++ [hd]))
    else
      '(h, slots, out) ← take_slot (pi_heap st) (pi_slots st) seq_num (pi_out st);
      Some (mk_pn_ind_state h slots out (pi_ie st) (pi_cnt st) (pi_freed st) (pi_errs st))
  end.

Fixpoint pn_ind_loop (n : nat) (mask seq_num_end : Z) (st : pn_ind_state) (seq_num : Z) : option pn_ind_state :=
  match n with
  | O => None
  | S n' =>
    st ← pn_ind_slot st seq_num;
    let seq_num := Z.land (seq_num + 1) mask in
    if seq_num =? seq_num_end then Some st else pn_ind_loop n' mask seq_num_end st seq_num
  end.

Definition ol_rx_pn_ind_handler `{StackJunk} (peer_id tid seq_num_start seq_num_end pn_ie_cnt : Z) (pn_ie : list Z)
  : M rx_pdev unit :=
  if OL_TXRX_NUM_EXT_TIDS <=? tid then skip
  else
    peer ← ol_txrx_peer_find_by_id peer_id;
    s ← get;
    match (match peer with Some p => Some p | None => rx_ocb_peer s end) with
    | None => skip
    | Some p =>
      upd_peer p (set_rp_fw_pn_check (fun _ => true));;
      r ← get_reorder p tid;
      let win_sz_mask := ro_win_sz_mask r in
      st ← lift (pn_ind_loop (S (Z.to_nat win_sz_mask)) win_sz_mask (Z.land seq_num_end win_sz_mask)
                   (mk_pn_ind_state (rx_heap s) (ro_slots r) empty_slot pn_ie pn_ie_cnt [] [])
                   (Z.land seq_num_start win_sz_mask));
      put_heap (pi_heap st);;
      upd_reorder p tid (set_slots (pi_slots st));;
      log_rx_freed (pi_freed st);;
      modify (set_rx_errs (fun l => l ++ ((fun m => (p, tid, m)) <$> pi_errs st)));;
      match sl_head (pi_out st) with
      | None => skip
      | Some head_msdu =>
        tail_msdu ← lift (sl_tail (pi_out st));
        h ← lift (adf_nbuf_set_next (pi_heap st) tail_msdu None);
        put_heap h;;
        rx_opt_proc_call p tid (Some head_msdu)
      end
    end.
