(* ===== verification/RxArray.v ===== *)
(** The reorder array as a list of slot contents: the indices a sweep over a
    circular window visits, and what the loops of the release and the flush
    take out of the array. *)
From Stdlib Require Import ZArith Lia.
From stdpp Require Import prelude gmap list numbers.
From S2P Require Import Prelude.
From S2P Require Import RxTypes.
From S2P Require Import RxList.
From S2P Require Import RxPn.
From S2P Require Import RxPnSpec.
From S2P Require Import RxStage.
From S2P Require Import RxReorder.

(** ** Circular indices *)

(** [mask] is one less than a power of two, the number [w] of slots. *)
Definition is_mask (mask : Z) : Prop := exists k : nat, (k <= 6)%nat /\ mask = 2 ^ Z.of_nat k - 1.

Lemma is_mask_range mask : is_mask mask -> 0 <= mask <= 63.
Proof.
  intros (k & Hk & ->). pose proof (Z.pow_pos_nonneg 2 (Z.of_nat k) ltac:(lia) ltac:(lia)).
  assert (2 ^ Z.of_nat k <= 2 ^ 6) by (apply Z.pow_le_mono_r; lia). lia.
Qed.

Lemma land_win_mask mask x : is_mask mask -> Z.land x mask = x mod (mask + 1).
Proof.
  intros (k & _ & ->). replace (2 ^ Z.of_nat k - 1) with (Z.ones (Z.of_nat k)) by (rewrite Z.ones_equiv; lia).
  rewrite Z.land_ones by lia. f_equal. rewrite Z.ones_equiv. lia.
Qed.

Lemma land_mask_range mask x : is_mask mask -> 0 <= Z.land x mask <= mask.
Proof.
  intros Hm. rewrite land_win_mask by done. pose proof (is_mask_range _ Hm).
  pose proof (Z.mod_pos_bound x (mask + 1)). lia.
Qed.

Lemma land_mask_small mask x : is_mask mask -> 0 <= x <= mask -> Z.land x mask = x.
Proof. intros Hm Hx. rewrite land_win_mask by done. apply Z.mod_small. lia. Qed.

(** [n] consecutive indices from [idx], wrapping around. *)
Fixpoint cyc (n : nat) (mask idx : Z) : list Z :=
  match n with O => [] | S n' => idx :: cyc n' mask (Z.land (idx + 1) mask) end.

(** How many slots a sweep from [idx] visits before it comes to [idx_end];
    the whole array when the two are equal. *)
Definition span (mask idx idx_end : Z) : Z := Z.land (idx_end - idx - 1) mask + 1.

Definition swept (mask idx idx_end : Z) : list Z := cyc (Z.to_nat (span mask idx idx_end)) mask idx.

Lemma span_range mask idx idx_end : is_mask mask -> 1 <= span mask idx idx_end <= mask + 1.
Proof. intros Hm. unfold span. pose proof (land_mask_range mask (idx_end - idx - 1) Hm). lia. Qed.

(** The span shrinks by one at each step, until the end is reached. *)
Lemma span_step mask idx idx_end :
  is_mask mask -> 0 <= idx <= mask -> 0 <= idx_end <= mask ->
  let idx' := Z.land (idx + 1) mask in
  if idx' =? idx_end then span mask idx idx_end = 1
  else span mask idx idx_end = span mask idx' idx_end + 1.
Proof.
  intros Hm Hi He idx'. pose proof (is_mask_range _ Hm) as Hr. unfold span. unfold idx'.
  rewrite !land_win_mask by done.
  destruct (decide (idx = mask)) as [->|Hne].
  - rewrite (Z.mod_same (mask + 1)) by lia. destruct (Z.eqb_spec 0 idx_end) as [<-|Hz].
    + replace (0 - mask - 1) with (-1 * (mask + 1)) by lia. rewrite Z.mod_mul by lia. lia.
    + replace (idx_end - mask - 1) with (idx_end + -1 * (mask + 1)) by lia.
      rewrite Z.mod_add by lia. rewrite !Z.mod_small by lia. lia.
  - rewrite (Z.mod_small (idx + 1)) by lia. destruct (Z.eqb_spec (idx + 1) idx_end) as [<-|Hz].
    + replace (idx + 1 - idx - 1) with 0 by lia. rewrite Z.mod_small by lia. lia.
    + destruct (Z.lt_ge_cases idx_end (idx + 1)).
      * replace (idx_end - idx - 1) with (idx_end - idx - 1 + (mask + 1) + -1 * (mask + 1)) by lia.
        replace (idx_end - (idx + 1) - 1) with (idx_end - (idx + 1) - 1 + (mask + 1) + -1 * (mask + 1)) by lia.
        rewrite !Z.mod_add, !Z.mod_small by lia. lia.
      * rewrite !Z.mod_small by lia. lia.
Qed.

Lemma swept_step mask idx idx_end :
  is_mask mask -> 0 <= idx <= mask -> 0 <= idx_end <= mask ->
  let idx' := Z.land (idx + 1) mask in
  swept mask idx idx_end = idx :: if idx' =? idx_end then [] else swept mask idx' idx_end.
Proof.
  intros Hm Hi He idx'. pose proof (span_step mask idx idx_end Hm Hi He) as Hs. cbv zeta in Hs. fold idx' in Hs.
  unfold swept. revert Hs. destruct (idx' =? idx_end); intros Hs.
  - rewrite Hs. done.
  - rewrite Hs. pose proof (span_range mask idx' idx_end Hm).
    replace (Z.to_nat (span mask idx' idx_end + 1)) with (S (Z.to_nat (span mask idx' idx_end))) by lia. done.
Qed.

(** The [j]th index of a sweep. *)
Lemma cyc_lookup n mask idx j :
  is_mask mask -> 0 <= idx <= mask -> (j < n)%nat -> cyc n mask idx !! j = Some (Z.land (idx + Z.of_nat j) mask).
Proof.
  intros Hm. revert idx j. induction n as [|n IH]; intros idx j Hi Hj; [lia|]. destruct j as [|j]; simpl.
  - rewrite land_mask_small; [by rewrite Z.add_0_r|done|lia].
  - rewrite IH; [|by apply land_mask_range|lia]. f_equal. rewrite !land_win_mask by done.
    pose proof (is_mask_range _ Hm). rewrite Zplus_mod_idemp_l. f_equal. lia.
Qed.

Lemma length_cyc n mask idx : length (cyc n mask idx) = n.
Proof. revert idx. induction n; intros; simpl; auto. Qed.

Lemma swept_NoDup mask idx idx_end : is_mask mask -> 0 <= idx <= mask -> NoDup (swept mask idx idx_end).
Proof.
  intros Hm Hi. apply NoDup_alt. intros i j x Hi1 Hj1. unfold swept in *.
  pose proof (lookup_lt_Some _ _ _ Hi1) as Hil. pose proof (lookup_lt_Some _ _ _ Hj1) as Hjl.
  rewrite length_cyc in Hil, Hjl. pose proof (span_range mask idx idx_end Hm).
  rewrite cyc_lookup in Hi1, Hj1 by done. injection Hi1 as <-. injection Hj1 as Hj1.
  rewrite !land_win_mask in Hj1 by done.
  pose proof (is_mask_range _ Hm).
  assert (E : (Z.of_nat j - Z.of_nat i) mod (mask + 1) = 0).
  { replace (Z.of_nat j - Z.of_nat i) with (idx + Z.of_nat j - (idx + Z.of_nat i)) by lia.
    rewrite Zminus_mod, Hj1, Z.sub_diag. by apply Z.mod_0_l; lia. }
  apply Z.mod_divide in E as [c Hc]; [|lia].
  assert (0 <= Z.of_nat i <= mask /\ 0 <= Z.of_nat j <= mask) as [? ?] by lia.
  assert (c = 0) by nia. subst c. lia.
Qed.

Lemma swept_range mask idx idx_end i :
  is_mask mask -> 0 <= idx <= mask -> i ∈ swept mask idx idx_end -> 0 <= i <= mask.
Proof.
  intros Hm Hi (j & Hj)%list_elem_of_lookup. pose proof (lookup_lt_Some _ _ _ Hj) as Hl.
  unfold swept in *. rewrite length_cyc in Hl. rewrite cyc_lookup in Hj by done. simplify_eq.
  by apply land_mask_range.
Qed.

(** ** Contents of the array *)

(** The buffers of all slots. *)
Notation ids cont := (msdus (concat cont)).

(** A slot that holds the MPDUs [ms], as a [NULL]-terminated list. *)
Definition slot_ok (h : heap) (sl : slot) (ms : list mpdu) : Prop :=
  slot_rep h sl (msdus ms) /\ Forall (mpdu_ok h) ms /\ seg h (msdus ms) None.

Lemma slot_ok_empty h : slot_ok h empty_slot [].
Proof. split; [apply slot_rep_empty|done]. Qed.

Lemma msdus_nil h ms : Forall (mpdu_ok h) ms -> msdus ms = [] -> ms = [].
Proof.
  destruct ms as [|m ms]; [done|]. intros [[(a & Ha & _) _] _]%list.Forall_cons H. simpl in H.
  apply app_eq_nil in H as [H _]. by rewrite H in Ha.
Qed.

Lemma slot_ok_None h sl ms : slot_ok h sl ms -> sl_head sl = None -> ms = [] /\ sl = empty_slot.
Proof.
  intros (Hr & Hok & _) Hn. pose proof (slot_rep_None _ _ _ Hr Hn) as E. split; [by eapply msdus_nil|].
  rewrite E in Hr. by eapply slot_rep_nil.
Qed.

Lemma slot_ok_nil h sl : slot_ok h sl [] -> sl = empty_slot.
Proof. intros [Hr _]. by eapply slot_rep_nil. Qed.

Lemma slot_ok_Some h sl ms a : slot_ok h sl ms -> sl_head sl = Some a -> ms <> [] /\ msdus ms <> [].
Proof. intros [Hr Hok] Hn. pose proof (slot_rep_Some _ _ _ _ Hr Hn). split; [by intros ->|done]. Qed.

Lemma slot_ok_relinked h h' l sl ms : relinked h h' l -> msdus ms ## l -> slot_ok h sl ms -> slot_ok h' sl ms.
Proof.
  intros Hr Hd (Hs & Hok & Hseg). split; [by eapply slot_rep_relinked|]. split; [|by eapply seg_relinked].
  eapply mpdus_ok_filtered; [by apply filtered_relinked|set_solver|done].
Qed.

Lemma ids_take (cont : list (list mpdu)) i c :
  znth cont i = Some c -> ids cont ≡ₚ msdus c ++ ids (zset cont i []).
Proof.
  intros [Hi Hl]%znth_Some. unfold zset. pose proof (take_drop_middle _ _ _ Hl) as E.
  rewrite <- E at 1. rewrite insert_take_drop by (by eapply lookup_lt_Some).
  rewrite !concat_app, !msdus_app. simpl. rewrite msdus_app. solve_Permutation.
Qed.

Lemma ids_put (cont : list (list mpdu)) i c :
  0 <= i < zlen cont -> ids (zset cont i c) ≡ₚ msdus c ++ ids (zset cont i []).
Proof.
  intros Hi. assert (znth (zset cont i c) i = Some c) as H by (by apply znth_zset_eq).
  rewrite (ids_take _ _ _ H). unfold zset. by rewrite list_insert_insert_eq.
Qed.

(** ** Sweeping *)

(** Take the contents of the slots [v], one after the other. *)
Fixpoint sweep (v : list Z) (cont : list (list mpdu)) : list mpdu * list (list mpdu) :=
  match v with
  | [] => ([], cont)
  | i :: v' => let '(l, cont') := sweep v' (zset cont i []) in (default [] (znth cont i) ++ l, cont')
  end.

Lemma sweep_perm v cont :
  Forall (fun i => 0 <= i < zlen cont) v -> ids cont ≡ₚ msdus (sweep v cont).1 ++ ids (sweep v cont).2.
Proof.
  revert cont. induction v as [|i v IH]; intros cont Hv; [done|]. apply list.Forall_cons in Hv as [Hi Hv].
  destruct (znth_in_range cont i Hi) as [c Hc]. simpl. rewrite Hc. simpl.
  specialize (IH (zset cont i [])). destruct (sweep v (zset cont i [])) as [l cont']. simpl in *.
  rewrite (ids_take _ _ _ Hc), msdus_app, <- app_assoc, <- IH; [done|].
  eapply list.Forall_impl; [exact Hv|]. simpl. intros j. by rewrite zlen_zset.
Qed.

(** With distinct slots, the sweep is the concatenation of their contents, and
    leaves these slots empty. *)
Lemma sweep_gather v cont :
  NoDup v -> Forall (fun i => 0 <= i < zlen cont) v ->
  (sweep v cont).1 = concat ((fun i => default [] (znth cont i)) <$> v) /\
  zlen (sweep v cont).2 = zlen cont /\
  forall j, 0 <= j < zlen cont -> znth (sweep v cont).2 j = if decide (j ∈ v) then Some [] else znth cont j.
Proof.
  revert cont. induction v as [|i v IH]; intros cont Hnd Hv.
  { simpl. split_and!; try done. }
  apply list.NoDup_cons in Hnd as [Hiv Hnd]. apply list.Forall_cons in Hv as [Hi Hv]. simpl.
  specialize (IH (zset cont i []) Hnd). destruct (sweep v (zset cont i [])) as [l cont']. simpl in *.
  rewrite zlen_zset in IH. destruct (IH Hv) as (IH1 & IH2 & IH3). split_and!; [|done|].
  - rewrite IH1. f_equal. f_equal. apply list_fmap_ext. intros j k Hk. f_equal.
    apply list_elem_of_lookup_2 in Hk. rewrite znth_zset_ne; [done|done|]. by intros ->.
  - intros j Hj. rewrite IH3 by done. rewrite znth_zset by lia.
    destruct (decide (j ∈ v)); [rewrite decide_True by set_solver; done|].
    destruct (decide (i = j)) as [->|]; [rewrite decide_True by set_solver; done|].
    rewrite decide_False by set_solver. done.
Qed.

(** ** The loops *)

(** The array holds [cont], and [o] has been taken out of it. *)
Definition array_pre (h : heap) (slots : list slot) (cont : list (list mpdu)) (o : list mpdu) : Prop :=
  Forall2 (slot_ok h) slots cont /\ Forall (mpdu_ok h) o /\ NoDup (msdus o ++ ids cont).

Lemma array_znth h slots cont o i e :
  array_pre h slots cont o -> znth slots i = Some e ->
  exists c, znth cont i = Some c /\ slot_ok h e c /\ 0 <= i < zlen cont.
Proof.
  intros (Hf & _) He. pose proof (znth_lt_Some _ _ _ He) as Hr. apply znth_Some in He as [Hi He].
  destruct (Forall2_lookup_l _ _ _ _ _ Hf He) as (c & Hc & Hok). exists c. pose proof (list.Forall2_length _ _ _ Hf).
  split_and!; [by apply znth_Some|done|lia|unfold zlen in *; lia].
Qed.

Lemma array_in_range h slots cont o i : array_pre h slots cont o -> 0 <= i < zlen cont -> is_Some (znth slots i).
Proof.
  intros (Hf & _) Hi. apply znth_in_range. pose proof (list.Forall2_length _ _ _ Hf). unfold zlen in *. lia.
Qed.

Lemma array_relinked h h' l slots cont :
  relinked h h' l -> ids cont ## l -> Forall2 (slot_ok h) slots cont -> Forall2 (slot_ok h') slots cont.
Proof.
  intros Hr Hd Hf. induction Hf as [|sl c slots cont Hs Hf IH]; constructor;
    cbn [concat] in Hd; rewrite msdus_app in Hd.
  - eapply slot_ok_relinked; [exact Hr| |done]. intros i. specialize (Hd i). rewrite elem_of_app in Hd. tauto.
  - apply IH. intros i. specialize (Hd i). rewrite elem_of_app in Hd. tauto.
Qed.

(** Moving the contents of one slot to the list taken out, which only the
    links of that list see. *)
Lemma array_take h h' slots cont o i e c :
  array_pre h slots cont o -> znth slots i = Some e -> znth cont i = Some c -> relinked h h' (msdus o) ->
  array_pre h' (zset slots i empty_slot) (zset cont i []) (o ++ c).
Proof.
  intros Hpre He Hc Hr. pose proof Hpre as (Hf & Ho & Hnd).
  destruct (array_znth _ _ _ _ _ _ Hpre He) as (c' & Hc' & (_ & Hok & _) & Hi). simplify_eq.
  pose proof Hnd as (_ & Hd & _)%list.NoDup_app. pose proof (ids_take _ _ _ Hc) as Hp. split_and!.
  - unfold zset. apply Forall2_insert; [|apply slot_ok_empty].
    eapply array_relinked; [exact Hr| |done]. intros x Hx Hx'. by apply (Hd x).
  - apply Forall_app. split; (eapply mpdus_ok_filtered; [by apply filtered_relinked| |done]);
      by intros x _ ?%not_elem_of_nil.
  - rewrite msdus_app, <- app_assoc, <- Hp. done.
Qed.

(** One step of either loop: the tail of the list taken out is linked to the
    head of the slot's. *)
Lemma append_step h slots cont o i e c hd t hh :
  array_pre h slots cont o -> znth slots i = Some e -> znth cont i = Some c ->
  sl_head e = Some hd -> slot_rep h (mk_slot hh (Some t)) (msdus o) ->
  exists h', adf_nbuf_set_next h t (Some hd) = Some h' /\ relinked h h' (msdus o) /\
    slot_rep h' (mk_slot hh (sl_tail e)) (msdus (o ++ c)).
Proof.
  intros Hpre He Hc Hhd Ho. destruct (array_znth _ _ _ _ _ _ Hpre He) as (c' & Hc' & [Hr Hok] & Hi). simplify_eq.
  destruct Hpre as (_ & _ & Hnd). rewrite (ids_take _ _ _ Hc), app_assoc in Hnd.
  apply list.NoDup_app in Hnd as (Hnd & _ & _).
  assert (Hon : msdus o <> []).
  { intros E. destruct Ho as (_ & Ht & _). rewrite E in Ht. done. }
  destruct (slot_append h _ e _ _ Ho Hr Hon (slot_rep_Some _ _ _ _ Hr Hhd) Hnd) as (t' & h' & Ht & Hset & Hrep & Hrel & _).
  simpl in Ht. injection Ht as <-. rewrite Hhd in Hset. exists h'. rewrite msdus_app. done.
Qed.

Lemma zset_id {A} (l : list A) i x : znth l i = Some x -> zset l i x = l.
Proof. intros [_ H]%znth_Some. by apply list_insert_id. Qed.

Lemma take_slot_spec h slots cont o out i c :
  array_pre h slots cont o -> slot_rep h out (msdus o) -> znth cont i = Some c ->
  exists h' slots' out', take_slot h slots i out = Some (h', slots', out') /\
    array_pre h' slots' (zset cont i []) (o ++ c) /\ slot_rep h' out' (msdus (o ++ c)) /\ relinked h h' (msdus o).
Proof.
  intros Hpre Hout Hc. destruct (array_in_range _ _ _ _ i Hpre (znth_lt_Some _ _ _ Hc)) as [e He].
  destruct (array_znth _ _ _ _ _ _ Hpre He) as (c' & Hc' & Hok & Hi). simplify_eq.
  unfold take_slot. rewrite He. cbn [mbind option_bind]. destruct (sl_head e) as [hd|] eqn:Hhd.
  2: { destruct (slot_ok_None _ _ _ Hok Hhd) as [-> ->]. exists h, slots, out.
       rewrite zset_id, app_nil_r by done. split_and!; done || apply relinked_refl. }
  destruct (sl_head out) as [oh|] eqn:Hoh.
  - destruct out as [oh' [t|]]; simpl in Hoh; subst oh'.
    2: { destruct Hout as (H1 & H2 & _). simpl in *. destruct (msdus o); [done|]. symmetry in H2.
         by apply list.last_None in H2. }
    destruct (append_step _ _ _ _ _ _ _ _ _ _ Hpre He Hc Hhd Hout) as (h' & Hset & Hr & Hrep).
    cbn [sl_tail mbind option_bind]. rewrite Hset. cbn [mbind option_bind].
    exists h', (zset slots i empty_slot), (mk_slot (Some oh) (sl_tail e)).
    split; [done|]. split; [by eapply array_take|]. done.
  - pose proof Hpre as (_ & Ho & _).
    pose proof (msdus_nil _ _ Ho (slot_rep_None _ _ _ Hout Hoh)) as ->.
    exists h, (zset slots i empty_slot), e. split; [done|].
    split; [by eapply array_take|]. split; [apply Hok|done].
Qed.

Lemma swept_cont mask idx idx_end (cont : list (list mpdu)) :
  is_mask mask -> 0 <= idx <= mask -> zlen cont = mask + 1 ->
  Forall (fun i => 0 <= i < zlen cont) (swept mask idx idx_end).
Proof.
  intros Hm Hi Hl. apply list.Forall_forall. intros i H. apply swept_range in H; [lia|done|done].
Qed.

(** The flush: everything in the window moves to the list taken out. *)
Lemma flush_loop_spec mask idx_end n :
  is_mask mask -> 0 <= idx_end <= mask -> forall h slots cont o out idx,
  zlen cont = mask + 1 -> 0 <= idx <= mask ->
  array_pre h slots cont o -> slot_rep h out (msdus o) -> (Z.to_nat (span mask idx idx_end) <= n)%nat ->
  exists h' slots' out', flush_loop n mask idx_end h slots idx out = Some (h', slots', out') /\
    array_pre h' slots' (sweep (swept mask idx idx_end) cont).2 (o ++ (sweep (swept mask idx idx_end) cont).1) /\
    slot_rep h' out' (msdus (o ++ (sweep (swept mask idx idx_end) cont).1)) /\
    relinked h h' (msdus o ++ ids cont).
Proof.
  intros Hm He. induction n as [|n IH]; intros h slots cont o out idx Hlen Hi Hpre Hout Hn;
    pose proof (span_range mask idx idx_end Hm); [lia|].
  destruct (znth_in_range cont idx) as [c Hc]; [lia|]. cbn [flush_loop].
  destruct (take_slot_spec _ _ _ _ _ _ _ Hpre Hout Hc) as (h1 & slots1 & out1 & -> & Hpre1 & Hout1 & Hr1).
  cbn [mbind option_bind]. rewrite swept_step by done. pose proof (span_step mask idx idx_end Hm Hi He) as Hs.
  cbv zeta in *. cbn [sweep]. rewrite Hc. cbn [default]. revert Hs.
  destruct (Z.land (idx + 1) mask =? idx_end) eqn:Hend; intros Hs.
  - cbn [sweep fst snd]. rewrite app_nil_r. exists h1, slots1, out1. split_and!; try done.
    eapply relinked_trans; [exact Hr1|apply (relinked_refl _ [])|set_solver|set_solver].
  - destruct (IH h1 slots1 (zset cont idx []) (o ++ c) out1 (Z.land (idx + 1) mask)) as (h2 & slots2 & out2 & -> & Hpre2 & Hout2 & Hr2);
      [by rewrite zlen_zset|by apply land_mask_range|done|done|lia|].
    exists h2, slots2, out2. split; [done|].
    destruct (sweep _ (zset cont idx [])) as [l cont'] eqn:Hsw. cbn [fst snd] in *. rewrite <- app_assoc in *.
    split; [done|]. split; [done|]. eapply relinked_trans; [exact Hr1|exact Hr2|set_solver|].
    rewrite (ids_take _ _ _ Hc), msdus_app. set_solver.
Qed.

(** The release keeps the head it started with, and only follows the tail. *)
Definition tail_rep (h : heap) (out : slot) (o : list mpdu) : Prop :=
  exists hh, slot_rep h (mk_slot hh (sl_tail out)) (msdus o).

Definition release_step (h : heap) (e out : slot) : option (heap * slot) :=
  match sl_head e with
  | Some hd =>
    h ← match sl_tail out with Some t => adf_nbuf_set_next h t (Some hd) | None => Some h end;
    Some (h, mk_slot (sl_head out) (sl_tail e))
  | None => Some (h, out)
  end.

Lemma release_step_spec h slots cont o out i c e :
  array_pre h slots cont o -> tail_rep h out o -> znth slots i = Some e -> znth cont i = Some c ->
  exists h' out', release_step h e out = Some (h', out') /\ sl_head out' = sl_head out /\
    array_pre h' (zset slots i empty_slot) (zset cont i []) (o ++ c) /\ tail_rep h' out' (o ++ c) /\
    relinked h h' (msdus o).
Proof.
  intros Hpre [hh Hout] He Hc. destruct (array_znth _ _ _ _ _ _ Hpre He) as (c' & Hc' & Hok & Hi). simplify_eq.
  unfold release_step. destruct (sl_head e) as [hd|] eqn:Hhd.
  2: { destruct (slot_ok_None _ _ _ Hok Hhd) as [-> ->]. exists h, out. split; [done|]. split; [done|].
       split; [by eapply array_take|]. rewrite app_nil_r. split; [by exists hh|done]. }
  destruct (sl_tail out) as [t|] eqn:Ht.
  - destruct (append_step _ _ _ _ _ _ _ _ _ _ Hpre He Hc Hhd Hout) as (h' & -> & Hr & Hrep).
    cbn [mbind option_bind]. exists h', (mk_slot (sl_head out) (sl_tail e)). split; [done|]. split; [done|].
    split; [by eapply array_take|]. split; [by exists hh|done].
  - pose proof Hpre as (_ & Ho & _). assert (o = []) as ->.
    { eapply msdus_nil; [done|]. destruct Hout as (_ & H2 & _). simpl in H2. destruct (msdus o); [done|].
      symmetry in H2. by apply list.last_None in H2. }
    cbn [mbind option_bind]. exists h, (mk_slot (sl_head out) (sl_tail e)). split; [done|]. split; [done|].
    split; [by eapply array_take|]. split; [|done]. exists (sl_head e). destruct Hok as [Hr _]. by destruct e.
Qed.

Lemma release_loop_spec mask idx_end n :
  is_mask mask -> 0 <= idx_end <= mask -> forall h slots cont o out idx,
  zlen cont = mask + 1 -> 0 <= idx <= mask ->
  array_pre h slots cont o -> tail_rep h out o -> idx = idx_end \/ (Z.to_nat (span mask idx idx_end) <= n)%nat ->
  let v := if idx =? idx_end then [] else swept mask idx idx_end in
  exists h' slots' out', release_loop n mask idx_end h slots idx out = Some (h', slots', out') /\
    sl_head out' = sl_head out /\
    array_pre h' slots' (sweep v cont).2 (o ++ (sweep v cont).1) /\
    tail_rep h' out' (o ++ (sweep v cont).1) /\ relinked h h' (msdus o ++ ids cont).
Proof.
  intros Hm He. induction n as [|n IH]; intros h slots cont o out idx Hlen Hi Hpre Hout Hn v;
    pose proof (span_range mask idx idx_end Hm); unfold v; clear v; cbn [release_loop];
    (destruct (Z.eqb_spec idx idx_end) as [Hend|Hend];
     [exists h, slots, out; cbn [sweep fst snd]; rewrite app_nil_r; split_and!; done || apply relinked_refl|]).
  { destruct Hn; [done|lia]. }
  destruct Hn as [?|Hn]; [done|].
  destruct (znth_in_range cont idx) as [c Hc]; [lia|].
  destruct (array_in_range _ _ _ _ idx Hpre (znth_lt_Some _ _ _ Hc)) as [e Hee]. rewrite Hee. cbn [mbind option_bind].
  destruct (release_step_spec _ _ _ _ _ _ _ _ Hpre Hout Hee Hc) as (h1 & out1 & Hstep & Hhd & Hpre1 & Hout1 & Hr1).
  unfold release_step in Hstep. cbn [mbind option_bind] in Hstep. rewrite Hstep. cbn [mbind option_bind].
  pose proof (span_step mask idx idx_end Hm Hi He) as Hs. rewrite swept_step by done. cbv zeta in *.
  cbn [sweep]. rewrite Hc. cbn [default].
  destruct (IH h1 (zset slots idx empty_slot) (zset cont idx []) (o ++ c) out1 (Z.land (idx + 1) mask))
    as (h2 & slots2 & out2 & -> & Hhd2 & Hpre2 & Hout2 & Hr2);
    [by rewrite zlen_zset|by apply land_mask_range|done|done| |].
  { revert Hs. destruct (Z.eqb_spec (Z.land (idx + 1) mask) idx_end) as [E|E]; intros Hs; [by left|right; lia]. }
  exists h2, slots2, out2. destruct (sweep _ (zset cont idx [])) as [l cont'] eqn:Hsw.
  cbn [fst snd] in *. rewrite <- app_assoc in *. split; [done|]. split; [congruence|]. split; [done|]. split; [done|].
  eapply relinked_trans; [exact Hr1|exact Hr2|set_solver|].
  rewrite (ids_take _ _ _ Hc), msdus_app. set_solver.
Qed.

(** The release of a whole window, from its first slot. *)
Lemma release_array_spec h slots cont mask idx_start idx_end e c :
  is_mask mask -> zlen cont = mask + 1 -> 0 <= idx_start <= mask -> 0 <= idx_end <= mask ->
  array_pre h slots cont [] -> znth slots idx_start = Some e -> znth cont idx_start = Some c ->
  let sw := sweep (swept mask idx_start idx_end) cont in
  exists h' slots' out,
    release_loop (S (Z.to_nat mask)) mask idx_end h (zset slots idx_start empty_slot)
      (Z.land (idx_start + 1) mask) e = Some (h', slots', out) /\
    array_pre h' slots' sw.2 sw.1 /\ relinked h h' (ids cont) /\
    sl_head out = list.head (msdus c) /\ (c <> [] -> slot_rep h' out (msdus sw.1)).
Proof.
  intros Hm Hlen Hs He Hpre Hee Hc sw. unfold sw. rewrite swept_step by done. cbn [sweep]. rewrite Hc. cbn [default].
  destruct (array_znth _ _ _ _ _ _ Hpre Hee) as (c' & Hc' & Hok & Hi). simplify_eq.
  pose proof (array_take h h slots cont [] idx_start e c Hpre Hee Hc (relinked_refl _ _)) as Hpre1.
  pose proof (span_step mask idx_start idx_end Hm Hs He) as Hsp. cbv zeta in *.
  destruct (release_loop_spec mask idx_end (S (Z.to_nat mask)) Hm He h (zset slots idx_start empty_slot)
    (zset cont idx_start []) c e (Z.land (idx_start + 1) mask))
    as (h' & slots' & out & -> & Hhd & Hpre' & [hh Hout] & Hr);
    [by rewrite zlen_zset|by apply land_mask_range|exact Hpre1|exists (sl_head e); destruct Hok as [Hok _]; by destruct e| |].
  { right. pose proof (span_range mask (Z.land (idx_start + 1) mask) idx_end Hm). lia. }
  exists h', slots', out. destruct (sweep _ (zset cont idx_start [])) as [l cont'] eqn:Hsw. cbn [fst snd] in *.
  split; [done|]. split; [done|]. split.
  { eapply relinked_trans; [apply (relinked_refl _ [])|exact Hr|set_solver|].
    rewrite (ids_take _ _ _ Hc). done. }
  destruct Hok as ((Hh & _) & Hokc & _). rewrite Hhd, Hh. split; [done|]. intros Hne.
  destruct Hout as (H1 & H2 & H3). split_and!; [|done|done]. rewrite Hhd, Hh, msdus_app.
  change (id c) with c. destruct (msdus c) eqn:E; [|done]. by apply (msdus_nil _ _ Hokc) in E.
Qed.
