(* ===== verification/RxInv.v ===== *)
(** The receive path's invariant on a device: every slot of every peer-TID
    holds a list of whole MPDUs, no buffer is in two places, and the waitlist
    agrees with the links of its elements.  [RxRep s C] says that [C] gives the
    contents of every reorder array. *)
From Stdlib Require Import ZArith Lia.
From stdpp Require Import prelude gmap list numbers functions.
From S2P Require Import Prelude.
From S2P Require Import RxTypes.
From S2P Require Import RxList.
From S2P Require Import RxPn.
From S2P Require Import RxPnSpec.
From S2P Require Import RxStage.
From S2P Require Import RxReorder.
From S2P Require Import RxArray.

Definition reorder_at (s : rx_pdev) (p tid : Z) : option rx_reorder :=
  x ← rx_peers s !! p; znth (rp_tids_rx_reorder x) tid.

(** What each (peer, TID) holds, slot by slot. *)
Notation contents := (Z * Z -> list (list mpdu)).

Definition reorder_ok (h : heap) (r : rx_reorder) (cont : list (list mpdu)) : Prop :=
  is_mask (ro_win_sz_mask r) /\ zlen cont = ro_win_sz_mask r + 1 /\ Forall2 (slot_ok h) (ro_slots r) cont.

Record RxRep (s : rx_pdev) (C : contents) : Prop := {
  rep_sized : forall p x, rx_peers s !! p = Some x -> tids_sized x;
  rep_reorder : forall p tid r, reorder_at s p tid = Some r -> reorder_ok (rx_heap s) r (C (p, tid));
  rep_none : forall p tid, reorder_at s p tid = None -> C (p, tid) = [];
  rep_nodup : forall k, NoDup (ids (C k));
  rep_disj : forall k1 k2, k1 <> k2 -> ids (C k1) ## ids (C k2);
  rep_tid : forall p tid r, reorder_at s p tid = Some r -> ro_tid r = tid;
  rep_wait : NoDup (rx_waitlist s);
  rep_wait_at : forall p tid, (p, tid) ∈ rx_waitlist s -> is_Some (reorder_at s p tid);
  rep_linked : forall p tid r, reorder_at s p tid = Some r -> ro_linked r = bool_decide ((p, tid) ∈ rx_waitlist s) }.

(** The invariant. *)
Definition RxInv (s : rx_pdev) : Prop := exists C, RxRep s C.

Lemma slot_ok_frame h h' sl ms : (forall i, i ∈ msdus ms -> h' !! i = h !! i) -> slot_ok h sl ms -> slot_ok h' sl ms.
Proof.
  intros Hf (Hr & Hok & Hseg). split; [by eapply slot_rep_frame|]. split; [|by eapply seg_frame].
  apply list.Forall_forall. intros m Hm. pose proof (proj1 (list.Forall_forall _ _) Hok m Hm) as [(a & Ha & Hd) Hi].
  assert (Hin : forall i, i ∈ m.2 -> h' !! i = h !! i).
  { intros i Him. apply Hf. apply list_elem_of_In, in_concat. exists m.2.
    split; apply list_elem_of_In; [|done]. by apply list_elem_of_fmap_2. }
  unfold mpdu_ok, htt_rx_msdu_desc_retrieve in *. split.
  - exists a. split; [done|]. rewrite Hin; [done|]. by apply list.head_Some_elem_of.
  - intros i Him. rewrite Hin by done. by apply Hi.
Qed.

Lemma reorder_ok_frame h h' r cont : (forall i, i ∈ ids cont -> h' !! i = h !! i) -> reorder_ok h r cont -> reorder_ok h' r cont.
Proof.
  intros Hf (Hm & Hl & Hs). split_and!; [done|done|]. clear Hl.
  induction Hs as [|sl c slots cont Hok Hs IH]; constructor; cbn [concat] in Hf.
  - eapply slot_ok_frame; [|exact Hok]. intros i Hi. apply Hf. rewrite msdus_app. apply elem_of_app. by left.
  - apply IH. intros i Hi. apply Hf. rewrite msdus_app. apply elem_of_app. by right.
Qed.

(** One peer-TID changes; the rest of the device keeps its slots. *)
Lemma RxRep_update s s' C p tid r' cont' :
  RxRep s C ->
  (forall q t, reorder_at s' q t = if decide ((q, t) = (p, tid)) then Some r' else reorder_at s q t) ->
  (forall q x, rx_peers s' !! q = Some x -> tids_sized x) ->
  reorder_ok (rx_heap s') r' cont' -> ro_tid r' = tid -> NoDup (ids cont') ->
  (forall i k, k <> (p, tid) -> i ∈ ids (C k) -> i ∉ ids cont' /\ rx_heap s' !! i = rx_heap s !! i) ->
  NoDup (rx_waitlist s') -> ro_linked r' = bool_decide ((p, tid) ∈ rx_waitlist s') ->
  (forall k, k <> (p, tid) -> (k ∈ rx_waitlist s' <-> k ∈ rx_waitlist s)) ->
  RxRep s' (<[(p, tid) := cont']> C).
Proof.
  intros HR Hat Hsz Hok Htid Hnd Hfr Hw Hl Hwo. split; try done.
  - intros q t r Hr. rewrite Hat in Hr. case_decide as E.
    + injection Hr as <-. rewrite E, fn_lookup_insert. done.
    + rewrite fn_lookup_insert_ne by congruence. eapply reorder_ok_frame; [|by apply HR].
      intros i Hi. by apply (Hfr i (q, t)).
  - intros q t Hr. rewrite Hat in Hr. case_decide as E; [done|].
    rewrite fn_lookup_insert_ne by congruence. by apply HR.
  - intros k. destruct (decide (k = (p, tid))) as [->|Hk].
    + by rewrite fn_lookup_insert.
    + rewrite fn_lookup_insert_ne by congruence. apply HR.
  - intros k1 k2 Hk. destruct (decide (k1 = (p, tid))) as [->|Hk1], (decide (k2 = (p, tid))) as [->|Hk2];
      rewrite ?fn_lookup_insert, ?fn_lookup_insert_ne by congruence; [done| | |by apply HR].
    + intros i Hi Hi2. by apply (Hfr i k2).
    + intros i Hi Hi2. by apply (Hfr i k1).
  - intros q t r Hr. rewrite Hat in Hr. case_decide as E.
    + injection Hr as <-. by injection E as -> ->.
    + by eapply (rep_tid _ _ HR).
  - intros q t Hin. rewrite Hat. destruct (decide ((q, t) = (p, tid))) as [E|E]; [by exists r'|].
    apply (rep_wait_at _ _ HR). apply Hwo; [congruence|done].
  - intros q t r Hr. rewrite Hat in Hr. case_decide as E.
    + injection Hr as <-. by rewrite E.
    + rewrite (rep_linked _ _ HR _ _ _ Hr). apply bool_decide_ext. symmetry. by apply Hwo.
Qed.

(** ** Running the accessors *)

Definition with_peer (p : Z) (x : rx_peer) (s : rx_pdev) : rx_pdev := set_rx_peers (<[p := x]>) s.
Definition with_heap (h : heap) (s : rx_pdev) : rx_pdev := set_rx_heap (fun _ => h) s.
Definition with_reorder (tid : Z) (r : rx_reorder) (x : rx_peer) : rx_peer :=
  set_rp_tids_rx_reorder (fun l => zset l tid r) x.

Lemma with_peer_twice p x y s : with_peer p x (with_peer p y s) = with_peer p x s.
Proof. unfold with_peer, set_rx_peers. simpl. by rewrite insert_insert_eq. Qed.

Lemma with_peer_lookup p x s : rx_peers (with_peer p x s) !! p = Some x.
Proof. apply lookup_insert_eq. Qed.

Lemma get_peer_at s p x : rx_peers s !! p = Some x -> get_peer p s = Some (x, s).
Proof. intros H. unfold get_peer, mbind, M_bind, get, lift. by rewrite H. Qed.

Lemma upd_peer_at s p x f : rx_peers s !! p = Some x -> upd_peer p f s = Some (tt, with_peer p (f x) s).
Proof. intros H. unfold upd_peer, mbind, M_bind. by rewrite (get_peer_at _ _ _ H). Qed.

Lemma get_reorder_at s p tid r : reorder_at s p tid = Some r -> get_reorder p tid s = Some (r, s).
Proof.
  unfold reorder_at. intros H. destruct (rx_peers s !! p) as [x|] eqn:Hp; [|done]. simpl in H.
  unfold get_reorder, mbind, M_bind. rewrite (get_peer_at _ _ _ Hp). unfold lift. by rewrite H.
Qed.

Lemma reorder_at_peer s p tid r :
  reorder_at s p tid = Some r -> exists x, rx_peers s !! p = Some x /\ znth (rp_tids_rx_reorder x) tid = Some r.
Proof. unfold reorder_at. destruct (rx_peers s !! p) as [x|]; [|done]. by exists x. Qed.

Lemma upd_reorder_at s p tid x r f :
  rx_peers s !! p = Some x -> znth (rp_tids_rx_reorder x) tid = Some r ->
  upd_reorder p tid f s = Some (tt, with_peer p (with_reorder tid (f r) x) s).
Proof.
  intros Hp Hr. unfold upd_reorder, mbind, M_bind. rewrite (get_reorder_at s p tid r).
  - by rewrite (upd_peer_at _ _ x).
  - unfold reorder_at. by rewrite Hp.
Qed.

Lemma put_tid_at {A} (g : rx_peer -> list A) st s p tid x v :
  rx_peers s !! p = Some x -> 0 <= tid < zlen (g x) ->
  put_tid g st p tid v s = Some (tt, with_peer p (st (fun l => zset l tid v) x) s).
Proof.
  intros Hp Ht. destruct (znth_in_range _ _ Ht) as [w Hw]. unfold put_tid, mbind, M_bind.
  rewrite (get_peer_at _ _ _ Hp). unfold lift. rewrite Hw. by apply upd_peer_at.
Qed.

(** ** What the invariant says about one peer-TID *)

Lemma rep_tid_range s C p tid r : RxRep s C -> reorder_at s p tid = Some r -> 0 <= tid < OL_TXRX_NUM_EXT_TIDS.
Proof.
  intros HR (x & Hp & Hr)%reorder_at_peer. pose proof (rep_sized _ _ HR _ _ Hp) as (H & _).
  apply znth_lt_Some in Hr. lia.
Qed.

Lemma rep_array s C p tid r :
  RxRep s C -> reorder_at s p tid = Some r -> array_pre (rx_heap s) (ro_slots r) (C (p, tid)) [].
Proof.
  intros HR Hr. destruct (rep_reorder _ _ HR _ _ _ Hr) as (_ & _ & Hs).
  split_and!; [done|done|]. apply HR.
Qed.

(** Changing the reorder state and other per-TID data of one peer. *)
Lemma reorder_at_with_peer s p x tid r' q t :
  rx_peers s !! p = Some x -> 0 <= tid < zlen (rp_tids_rx_reorder x) -> forall x' s',
  rp_tids_rx_reorder x' = zset (rp_tids_rx_reorder x) tid r' -> rx_peers s' = <[p := x']> (rx_peers s) ->
  reorder_at s' q t = if decide ((q, t) = (p, tid)) then Some r' else reorder_at s q t.
Proof.
  intros Hp Ht x' s' Hx' Hs'. unfold reorder_at. rewrite Hs'. destruct (decide (q = p)) as [->|Hq].
  - rewrite lookup_insert_eq, Hp. simpl. rewrite Hx'. destruct (decide (t = tid)) as [->|Htt].
    + rewrite decide_True by done. by rewrite znth_zset_eq.
    + rewrite decide_False by congruence. rewrite znth_zset_ne; [done|done|congruence].
  - rewrite lookup_insert_ne by congruence. by rewrite decide_False by congruence.
Qed.

Lemma set_slots_slots l r : zlen l = zlen (ro_slots r) -> ro_slots (set_slots l r) = l.
Proof.
  unfold ro_slots, set_slots. destruct (ro_array r) eqn:E; simpl; rewrite ?E; [done|].
  intros H. destruct l as [|a [|b l]]; unfold zlen in H; simpl in H; (done || lia).
Qed.

Lemma set_slots_mask l r : ro_win_sz_mask (set_slots l r) = ro_win_sz_mask r.
Proof. unfold set_slots. by destruct (ro_array r). Qed.

Lemma set_slots_tid l r : ro_tid (set_slots l r) = ro_tid r.
Proof. unfold set_slots. by destruct (ro_array r). Qed.

Lemma set_slots_linked l r : ro_linked (set_slots l r) = ro_linked r.
Proof. unfold set_slots. by destruct (ro_array r). Qed.

Lemma array_length h slots cont o : array_pre h slots cont o -> zlen slots = zlen cont.
Proof. intros (Hf & _). unfold zlen. by rewrite (list.Forall2_length _ _ _ Hf). Qed.
