(* ===== verification/RxOps.v ===== *)
(** What the operations of the reorder array do to a device that satisfies the
    invariant: store, release, flush, and the flush of fragments. *)
From Stdlib Require Import ZArith Lia.
From stdpp Require Import prelude gmap list numbers functions.
From S2P Require Import Prelude.
From S2P Require Import RxTypes.
From S2P Require Import RxList.
From S2P Require Import RxPn.
From S2P Require Import RxPnSpec.
From S2P Require Import RxStage.
From S2P Require Import RxReorder.
From S2P Require Import RxArray.
From S2P Require Import RxInv.

(** ** The array after an operation *)

(** The list taken out has left the heap; the array does not notice. *)
Lemma array_drop h slots cont o :
  array_pre h slots cont o -> array_pre (foldr delete h (msdus o)) slots cont [].
Proof.
  intros (Hf & _ & Hnd). apply list.NoDup_app in Hnd as (_ & Hd & Hnd). split_and!; [|done|done].
  clear Hnd. induction Hf as [|sl c slots cont Hok Hf IH]; constructor; cbn [concat] in Hd.
  - eapply slot_ok_frame; [|exact Hok]. intros i Hi. apply foldr_delete_notin. intros Ho. apply (Hd _ Ho).
    rewrite msdus_app. apply elem_of_app. by left.
  - apply IH. intros i Ho Hi. apply (Hd _ Ho). rewrite msdus_app. apply elem_of_app. by right.
Qed.

(** Forgetting the list taken out. *)
Lemma array_forget h slots cont o : array_pre h slots cont o -> array_pre h slots cont [].
Proof. intros (Hf & _ & Hnd). apply list.NoDup_app in Hnd as (_ & _ & Hnd). done. Qed.

(** The list taken out was linked anew; the array does not notice. *)
Lemma array_relinked_out h h' slots cont o :
  array_pre h slots cont o -> relinked h h' (msdus o) -> array_pre h' slots cont o.
Proof.
  intros (Hf & Ho & Hnd) Hr. pose proof Hnd as (_ & Hd & _)%list.NoDup_app. split_and!; [| |done].
  - eapply array_relinked; [exact Hr| |done]. intros i Hi Hi'. by apply (Hd i).
  - eapply mpdus_ok_filtered; [by apply filtered_relinked| |done]. by intros i _ ?%not_elem_of_nil.
Qed.

(** The invariant after the array of one peer-TID became [cont']. *)
Lemma RxRep_array s s' C p tid x x' r r' cont' :
  RxRep s C -> rx_peers s !! p = Some x -> znth (rp_tids_rx_reorder x) tid = Some r ->
  rx_peers s' = <[p := x']> (rx_peers s) -> rp_tids_rx_reorder x' = zset (rp_tids_rx_reorder x) tid r' ->
  tids_sized x' ->
  ro_win_sz_mask r' = ro_win_sz_mask r -> ro_tid r' = ro_tid r -> zlen cont' = zlen (C (p, tid)) ->
  array_pre (rx_heap s') (ro_slots r') cont' [] ->
  (forall i, i ∈ ids cont' -> i ∈ ids (C (p, tid)) \/ forall k, i ∉ ids (C k)) ->
  (forall i k, k <> (p, tid) -> i ∈ ids (C k) -> rx_heap s' !! i = rx_heap s !! i) ->
  NoDup (rx_waitlist s') -> ro_linked r' = bool_decide ((p, tid) ∈ rx_waitlist s') ->
  (forall k, k <> (p, tid) -> (k ∈ rx_waitlist s' <-> k ∈ rx_waitlist s)) ->
  RxRep s' (<[(p, tid) := cont']> C).
Proof.
  intros HR Hp Hr Hs' Hx' Hsz Hmask Htid Hlen (Hf & _ & Hnd) Hids Hheap Hw Hl Hwo.
  assert (Hat : reorder_at s p tid = Some r) by (unfold reorder_at; by rewrite Hp).
  destruct (rep_reorder _ _ HR _ _ _ Hat) as (Hm & Hlc & _).
  eapply (RxRep_update s s' C p tid r' cont'); try done.
  - intros q t. eapply reorder_at_with_peer; [done|by eapply znth_lt_Some|done|done].
  - intros q y Hy. rewrite Hs' in Hy. apply lookup_insert_Some in Hy as [[_ <-]|[_ Hy]]; [done|by eapply rep_sized].
  - split_and!; [by rewrite Hmask|by rewrite Hmask, Hlen|done].
  - rewrite Htid. by apply (rep_tid _ _ HR _ _ _ Hat).
  - intros i k Hk Hi. split; [|by eapply Hheap]. intros Hi'. destruct (Hids i Hi') as [H|H]; [|by apply (H k)].
    by apply (rep_disj _ _ HR k (p, tid) Hk i).
Qed.

(** ** Store *)

(** A list of MPDUs no slot has yet. *)
Definition fresh_list (s : rx_pdev) (C : contents) (l : list mpdu) : Prop :=
  l <> [] /\ Forall (mpdu_ok (rx_heap s)) l /\ NoDup (msdus l) /\ seg (rx_heap s) (msdus l) None /\
  forall k, msdus l ## ids (C k).

(** [slot_store] links the MPDU behind what the slot holds. *)
Lemma slot_store_spec h slots cont i c l a tl :
  array_pre h slots cont [] -> znth cont i = Some c ->
  l <> [] -> Forall (mpdu_ok h) l -> seg h (msdus l) None -> NoDup (msdus l ++ ids cont) ->
  list.head (msdus l) = Some a -> list.last (msdus l) = Some tl ->
  exists h' slots', slot_store h slots i a tl = Some (h', slots') /\
    array_pre h' slots' (zset cont i (c ++ l)) [] /\ relinked h h' (msdus c) /\ zlen slots' = zlen slots.
Proof.
  intros Hpre Hc Hne Hok Hv Hnd Ha Htl. pose proof Hpre as (Hf & _ & _).
  destruct (array_in_range _ _ _ _ i Hpre (znth_lt_Some _ _ _ Hc)) as [e He].
  destruct (array_znth _ _ _ _ _ _ Hpre He) as (c' & Hc' & (Hr & Hokc & Hsegc) & Hi). simplify_eq.
  pose proof (ids_take _ _ _ Hc) as Hp. pose proof (ids_put cont i (c ++ l) Hi) as Hp'. rewrite msdus_app in Hp'.
  assert (Hl : slot_rep h (mk_slot (Some a) (Some tl)) (msdus l)) by (split_and!; [done|done|by exists None]).
  rewrite Hp in Hnd.
  assert (Hnd' : NoDup (msdus c ++ msdus l ++ ids (zset cont i []))).
  { revert Hnd. apply NoDup_Permutation_proper. solve_Permutation. }
  pose proof Hnd' as (_ & Hdc & Hnl)%list.NoDup_app.
  unfold slot_store. rewrite He. cbn [mbind option_bind].
  assert (Hfin : forall h' e', relinked h h' (msdus c) -> slot_rep h' e' (msdus c ++ msdus l) -> seg h' (msdus c ++ msdus l) None ->
    array_pre h' (zset slots i e') (zset cont i (c ++ l)) []).
  { intros h' e' Hrl Hre Hsg. split_and!; [|done|].
    - replace (zset cont i (c ++ l)) with (zset (zset cont i []) i (c ++ l)) by (unfold zset; by rewrite list_insert_insert_eq).
      replace (zset slots i e') with (zset (zset slots i empty_slot) i e') by (unfold zset; by rewrite list_insert_insert_eq).
      apply Forall2_insert.
      + eapply array_relinked; [exact Hrl| |apply Forall2_insert; [done|apply slot_ok_empty]].
        intros j Hj Hj'. apply (Hdc j Hj'). apply elem_of_app. by right.
      + split; [by rewrite msdus_app|]. split; [|by rewrite msdus_app]. apply Forall_app.
        split; (eapply mpdus_ok_filtered; [by apply filtered_relinked| |done]); by intros j _ ?%not_elem_of_nil.
    - simpl. by rewrite Hp', <- app_assoc. }
  destruct (sl_head e) as [hd|] eqn:Hhd.
  - rewrite app_assoc in Hnd'. apply list.NoDup_app in Hnd' as (Hnd1 & _ & _).
    assert (Hln : msdus l <> []) by (by destruct (msdus l)).
    destruct (slot_append h e _ _ _ Hr Hl (slot_rep_Some _ _ _ _ Hr Hhd) Hln Hnd1) as (t & h' & -> & Hset & Hrep & Hrl & Hsg).
    cbn [mbind option_bind]. simpl in Hset. rewrite Hset. cbn [mbind option_bind].
    eexists _, _. split; [done|]. split; [|split; [done|apply zlen_zset]]. apply Hfin; [done| |by apply Hsg].
    by rewrite <- Hhd.
  - destruct (slot_ok_None _ _ _ (conj Hr (conj Hokc Hsegc)) Hhd) as [-> ->].
    eexists _, _. split; [done|]. split; [|split; [apply relinked_refl|apply zlen_zset]].
    apply Hfin; [apply relinked_refl|done|done].
Qed.

Lemma ol_rx_reorder_store_spec s C p tid x r l idx a tl :
  RxRep s C -> rx_peers s !! p = Some x -> znth (rp_tids_rx_reorder x) tid = Some r ->
  fresh_list s C l -> list.head (msdus l) = Some a -> list.last (msdus l) = Some tl ->
  let i := Z.land idx (ro_win_sz_mask r) in
  exists h' slots' c, znth (C (p, tid)) i = Some c /\
    ol_rx_reorder_store p tid idx a tl s =
      Some (tt, with_peer p (with_reorder tid (set_slots slots' r) x) (with_heap h' s)) /\
    relinked (rx_heap s) h' (msdus c) /\
    RxRep (with_peer p (with_reorder tid (set_slots slots' r) x) (with_heap h' s))
      (<[(p, tid) := zset (C (p, tid)) i (c ++ l)]> C).
Proof.
  intros HR Hp Hr (Hne & Hok & Hnd & Hseg & Hfr) Ha Htl i.
  assert (Hat : reorder_at s p tid = Some r) by (unfold reorder_at; by rewrite Hp).
  destruct (rep_reorder _ _ HR _ _ _ Hat) as (Hm & Hlc & Hs). pose proof (rep_array _ _ _ _ _ HR Hat) as Hpre.
  pose proof (land_mask_range (ro_win_sz_mask r) idx Hm) as Hi.
  destruct (znth_in_range (C (p, tid)) i) as [c Hc]; [lia|].
  assert (Hnd' : NoDup (msdus l ++ ids (C (p, tid)))).
  { apply list.NoDup_app. split_and!; [done| |apply HR]. intros j Hj Hj'. by apply (Hfr (p, tid) j). }
  destruct (slot_store_spec _ _ _ i c l a tl Hpre Hc Hne Hok Hseg Hnd' Ha Htl) as (h' & slots' & Hst & Hpre' & Hrl & Hls).
  exists h', slots', c. split; [done|]. split; [|split; [done|]].
  - unfold ol_rx_reorder_store, mbind, M_bind. rewrite (get_reorder_at _ _ _ _ Hat). unfold get, lift at 1.
    fold i. rewrite Hst. unfold put_heap, modify. by apply upd_reorder_at.
  - pose proof (ids_take _ _ _ Hc) as Hp1. pose proof (znth_lt_Some _ _ _ Hc) as Hci.
    pose proof (ids_put (C (p, tid)) i (c ++ l) Hci) as Hp2. rewrite msdus_app in Hp2.
    eapply (RxRep_array s _ C p tid x _ r (set_slots slots' r)); try done.
    + pose proof (rep_sized _ _ HR _ _ Hp) as (H1 & H2). split; [simpl; by rewrite zlen_zset|done].
    + apply set_slots_mask.
    + apply set_slots_tid.
    + apply zlen_zset.
    + by rewrite set_slots_slots.
    + intros j. rewrite Hp2, Hp1, !elem_of_app. intros [[Hj|Hj]|Hj]; [by left; left| |by left; right].
      right. intros k Hk. by apply (Hfr k j).
    + intros j k Hk Hj. apply Hrl. intros Hjc. apply (rep_disj _ _ HR k (p, tid) Hk j Hj).
      rewrite Hp1. apply elem_of_app. by left.
    + apply HR.
    + rewrite set_slots_linked. by apply HR.
Qed.

(** ** Handing over what was taken out *)

Definition with_last_seq (tid v : Z) (x : rx_peer) : rx_peer := set_rp_tids_last_seq (fun l => zset l tid (u16 v)) x.
Definition with_next_rel (tid v : Z) (x : rx_peer) : rx_peer := set_rp_tids_next_rel_idx (fun l => zset l tid (u16 v)) x.

Lemma tids_sized_set x x' :
  tids_sized x -> zlen (rp_tids_rx_reorder x') = zlen (rp_tids_rx_reorder x) ->
  zlen (rp_tids_last_pn x') = zlen (rp_tids_last_pn x) ->
  zlen (rp_tids_last_pn_valid x') = zlen (rp_tids_last_pn_valid x) ->
  zlen (rp_tids_next_rel_idx x') = zlen (rp_tids_next_rel_idx x) ->
  zlen (rp_tids_last_seq x') = zlen (rp_tids_last_seq x) ->
  zlen (rp_tids_mcast_last_seq x') = zlen (rp_tids_mcast_last_seq x) -> tids_sized x'.
Proof. intros (H1 & H2 & H3 & H4 & H5 & H6) E1 E2 E3 E4 E5 E6. unfold tids_sized. by rewrite E1, E2, E3, E4, E5, E6. Qed.

Ltac sized := eapply tids_sized_set; [eassumption|..]; simpl; rewrite ?zlen_zset; reflexivity.

Lemma set_last_seq_of_run s p tid x out m l :
  rx_peers s !! p = Some x -> tids_sized x -> 0 <= tid < OL_TXRX_NUM_EXT_TIDS ->
  slot_rep (rx_heap s) out (msdus (m :: l)) -> Forall (mpdu_ok (rx_heap s)) (m :: l) -> NoDup (msdus (m :: l)) ->
  exists h2 a, hd_or None (msdus (m :: l)) = Some a /\
    (forall next, set_last_seq_of p tid out next s =
      next a (with_heap h2 (with_peer p (with_last_seq tid (rd_seq_num m.1) x) s))) /\
    list_of h2 (m :: l) /\ relinked (rx_heap s) h2 (msdus (m :: l)).
Proof.
  intros Hp Hx Ht Hout Hok Hnd.
  assert (Hne : msdus (m :: l) <> []) by (intros E; by apply (msdus_nil _ _ Hok) in E).
  destruct (slot_terminate _ _ _ Hout Hne Hnd) as (t & h2 & Htl & Hset & Hseg & Hrl).
  pose proof Hok as [[(a & Ha & Hd) _] _]%list.Forall_cons.
  assert (Hhd : hd_or None (msdus (m :: l)) = Some a).
  { simpl. destruct m as [d [|b r]]; [done|]. simpl in *. by injection Ha as ->. }
  exists h2, a. split; [done|]. split.
  - intros next. unfold set_last_seq_of. rewrite (head_hd_or _ _ _ Hout), Hhd.
    unfold mbind, M_bind, get, lift. rewrite Hd. unfold put_last_seq.
    rewrite (put_tid_at rp_tids_last_seq set_rp_tids_last_seq s p tid x) by (done || (destruct Hx as (_ & _ & _ & _ & -> & _); done)).
    rewrite Htl, Hset. done.
  - split; [|done]. split_and!; [done| |done].
    eapply mpdus_ok_filtered; [by apply filtered_relinked| |done]. by intros i _ ?%not_elem_of_nil.
Qed.

(** What the stage leaves of the device. *)
Lemma after_stage_fields `{StackJunk} s p tid x l :
  let s' := after_stage s p tid x l in let '(k, g, v, q) := verdict x tid l in
  rx_heap s' = foldr delete (rx_heap s) (msdus l) /\
  rx_peers s' = <[p := with_last_pn tid v q x]> (rx_peers s) /\
  rx_waitlist s' = rx_waitlist s /\
  rx_freed s' = rx_freed s ++ msdus g /\
  rx_delivered s' = rx_delivered s ++ match proc_sink (rp_opt_proc x) with
                                      | Some sk => [mk_delivery sk p tid (msdus k)] | None => [] end.
Proof. unfold after_stage. destruct (verdict x tid l) as [[[k g] v] q]. done. Qed.

(** The invariant after a list [l] was taken out of one array, linked anew,
    and has left the heap. *)
Lemma RxRep_taken s s' C p tid x x' r r' h1 slots' cont' l h2 :
  RxRep s C -> rx_peers s !! p = Some x -> znth (rp_tids_rx_reorder x) tid = Some r ->
  array_pre h1 slots' cont' l -> relinked (rx_heap s) h1 (ids (C (p, tid))) -> relinked h1 h2 (msdus l) ->
  ids (C (p, tid)) ≡ₚ msdus l ++ ids cont' -> zlen cont' = zlen (C (p, tid)) ->
  rx_peers s' = <[p := x']> (rx_peers s) -> rx_heap s' = foldr delete h2 (msdus l) -> tids_sized x' ->
  rp_tids_rx_reorder x' = zset (rp_tids_rx_reorder x) tid r' -> ro_slots r' = slots' ->
  ro_win_sz_mask r' = ro_win_sz_mask r -> ro_tid r' = ro_tid r ->
  NoDup (rx_waitlist s') -> ro_linked r' = bool_decide ((p, tid) ∈ rx_waitlist s') ->
  (forall k, k <> (p, tid) -> (k ∈ rx_waitlist s' <-> k ∈ rx_waitlist s)) ->
  RxRep s' (<[(p, tid) := cont']> C).
Proof.
  intros HR Hp Hr Hpre Hr1 Hr2 Hperm Hlen Hs' Hh' Hsz Hx' Hsl Hmask Htid Hw Hl Hwo.
  eapply (RxRep_array s s' C p tid x x' r r' cont'); try done.
  - rewrite Hh', Hsl. apply array_drop. by eapply array_relinked_out.
  - intros i Hi. left. rewrite Hperm. apply elem_of_app. by right.
  - intros i k Hk Hi. assert (Hni : i ∉ ids (C (p, tid))) by (intros Hi'; by apply (rep_disj _ _ HR k (p, tid) Hk i)).
    assert (Hnl : i ∉ msdus l) by (intros Hi'; apply Hni; rewrite Hperm; apply elem_of_app; by left).
    rewrite Hh', foldr_delete_notin by done. rewrite (proj2 (Hr2 i)) by done. by apply Hr1.
Qed.
