(* ===== verification/RxWindow.v ===== *)
(** Release and flush of a window of the reorder array, on a device that
    satisfies the invariant: both return, and what they do is [after_stage] of
    what the window held, or a flush that frees it. *)
From Stdlib Require Import ZArith Lia.
From stdpp Require Import prelude gmap list numbers functions.
From S2P Require Import Prelude.
From S2P Require Import RxTypes.
From S2P Require Import RxList.
From S2P Require Import RxPn.
From S2P Require Import RxPnSpec.
From S2P Require Import RxStage.
From S2P Require Import RxReorder.
From S2P Require Import RxArray.
From S2P Require Import RxInv.
From S2P Require Import RxOps.

(** Leaving the waitlist. *)
Lemma waitlist_remove_run s p tid y r :
  rx_peers s !! p = Some y -> znth (rp_tids_rx_reorder y) tid = Some r ->
  ro_linked r = bool_decide ((p, tid) ∈ rx_waitlist s) -> NoDup (rx_waitlist s) ->
  exists w, ol_rx_defrag_waitlist_remove p tid s =
      Some (tt, set_rx_waitlist (fun _ => w) (with_peer p (with_reorder tid (set_ro_linked (fun _ => false) r) y) s)) /\
    NoDup w /\ (p, tid) ∉ w /\ forall k, k <> (p, tid) -> (k ∈ w <-> k ∈ rx_waitlist s).
Proof.
  intros Hp Hr Hl Hw. assert (Hat : reorder_at s p tid = Some r) by (unfold reorder_at; by rewrite Hp).
  unfold ol_rx_defrag_waitlist_remove, mbind, M_bind. rewrite (get_reorder_at _ _ _ _ Hat).
  case_bool_decide as Hin; rewrite Hl; unfold when.
  - destruct (tailq_remove_is_Some _ _ Hin) as [w Hrem]. exists w.
    pose proof (tailq_remove_perm _ _ _ Hrem) as Hperm. rewrite Hperm in Hw. apply list.NoDup_cons in Hw as [Hni Hw].
    split; [|split_and!; [done|done|]].
    + unfold get, lift at 1. rewrite Hrem. unfold modify at 1.
      rewrite (upd_reorder_at _ _ _ y r) by done. reflexivity.
    + intros k Hk. rewrite Hperm. set_solver.
  - exists (rx_waitlist s). split; [|done]. unfold skip. f_equal. f_equal. apply rx_pdev_eq; try reflexivity.
    assert (E : set_ro_linked (fun _ => false) r = r) by (destruct r; simpl in *; by rewrite Hl).
    cbn. rewrite E. unfold with_reorder, set_rp_tids_rx_reorder. rewrite zset_id by done.
    rewrite insert_id; [done|]. rewrite Hp. by destruct y.
Qed.

(** The window of a peer-TID with mask [mask] from [idx_start] to [idx_end]:
    the MPDUs in it, slot by slot, and the array without them. *)
Definition window (mask idx_start idx_end : Z) (cont : list (list mpdu)) : list mpdu * list (list mpdu) :=
  sweep (swept mask (Z.land idx_start mask) (Z.land idx_end mask)) cont.

Lemma window_facts mask ix ie cont :
  is_mask mask -> zlen cont = mask + 1 ->
  ids cont ≡ₚ msdus (window mask ix ie cont).1 ++ ids (window mask ix ie cont).2 /\
  zlen (window mask ix ie cont).2 = zlen cont.
Proof.
  intros Hm Hlen. unfold window. pose proof (land_mask_range mask ix Hm) as Hi.
  pose proof (swept_cont mask _ (Z.land ie mask) cont Hm Hi Hlen) as Hsw. split; [by apply sweep_perm|].
  by apply (sweep_gather _ _ (swept_NoDup _ _ _ Hm Hi) Hsw).
Qed.

Lemma window_first mask ix ie cont m c :
  is_mask mask -> zlen cont = mask + 1 -> znth cont (Z.land ix mask) = Some (m :: c) ->
  exists l, (window mask ix ie cont).1 = m :: l.
Proof.
  intros Hm Hlen Hc. unfold window. rewrite swept_step by (done || by apply land_mask_range). cbn [sweep]. rewrite Hc.
  destruct (sweep _ _) as [l cont']. by exists (c ++ l).
Qed.

(** The peer after a release or flush, before and after [last_seq] is set. *)
Definition window_peer (tid v : Z) (r : rx_reorder) (x : rx_peer) : rx_peer :=
  with_reorder tid r (with_next_rel tid v x).

(** What a release leaves: nothing but emptied slots when the first slot is
    empty, otherwise the stage has taken the whole window. *)
Definition released `{StackJunk} (s : rx_pdev) (p tid idx_end : Z) (x : rx_peer) (r : rx_reorder)
    (all : list Z) (first l : list mpdu) (s' : rx_pdev) : Prop :=
  exists h slots, relinked (rx_heap s) h all /\
    match first with
    | [] => s' = with_peer p (window_peer tid idx_end (set_slots slots r) x) (with_heap h s)
    | m :: _ => let x' := with_last_seq tid (rd_seq_num m.1) (window_peer tid idx_end (set_slots slots r) x) in
                s' = after_stage (with_heap h (with_peer p x' s)) p tid x' l
    end.

(** What a flush leaves: the window's frames have gone through the stage, or
    have been freed; the waitlist has lost the peer-TID. *)
Definition flushed `{StackJunk} (s : rx_pdev) (p tid v : Z) (x : rx_peer) (r : rx_reorder)
    (action : htt_rx_flush_action) (all : list Z) (l : list mpdu) (s' : rx_pdev) : Prop :=
  exists h slots w, relinked (rx_heap s) h all /\
    let x1 := window_peer tid v (set_ro_linked (fun _ => false) (set_slots slots r)) x in
    match l with
    | [] => s' = set_rx_waitlist (fun _ => w) (with_peer p x1 (with_heap h s))
    | m :: _ =>
      let x' := with_last_seq tid (rd_seq_num m.1) x1 in
      let s2 := with_heap h (with_peer p x' (set_rx_waitlist (fun _ => w) s)) in
      s' = match action with
           | htt_rx_flush_release => after_stage s2 p tid x' l
           | htt_rx_flush_discard =>
             set_rx_freed (fun f => f ++ msdus l) (set_rx_heap (fun h => foldr delete h (msdus l)) s2)
           end
    end.

(** The end of the flushed window, and the next release index. *)
Definition flush_end (ix ie : Z) : Z := if ie =? 0xffff then ix else ie.
Definition flush_rel (ie : Z) : Z := if ie =? 0xffff then 0 else ie.

Section Window.
Context `{StackJunk}.
Context (s : rx_pdev) (C : contents) (p tid : Z) (x : rx_peer) (r : rx_reorder).
Context (HR : RxRep s C) (Hp : rx_peers s !! p = Some x) (Hr : znth (rp_tids_rx_reorder x) tid = Some r).
Let mask := ro_win_sz_mask r.
Let cont := C (p, tid).

Lemma window_at : reorder_at s p tid = Some r.
Proof. unfold reorder_at. by rewrite Hp. Qed.

Lemma window_ok : is_mask mask /\ zlen cont = mask + 1 /\ array_pre (rx_heap s) (ro_slots r) cont [] /\
  0 <= tid < OL_TXRX_NUM_EXT_TIDS /\ tids_sized x.
Proof.
  destruct (rep_reorder _ _ HR _ _ _ window_at) as (Hm & Hl & _).
  split_and!; [done|done|by eapply rep_array; [|apply window_at]| | |by eapply rep_sized];
    apply (rep_tid_range _ _ _ _ _ HR window_at).
Qed.

Lemma put_next_rel_idx_run v s0 :
  rx_peers s0 = rx_peers s -> put_next_rel_idx p tid v s0 = Some (tt, with_peer p (with_next_rel tid v x) s0).
Proof.
  intros E. destruct window_ok as (_ & _ & _ & Ht & Hsz). unfold put_next_rel_idx.
  apply put_tid_at; [by rewrite E|]. destruct Hsz as (_ & _ & _ & -> & _). done.
Qed.

(** The state between taking the window out of the array and handing it on. *)
Definition taken_state (h : heap) (v : Z) (r' : rx_reorder) : rx_pdev :=
  with_peer p (window_peer tid v r' x) (with_heap h s).

Lemma taken_rep h slots' l cont' v w r' :
  array_pre h slots' cont' l -> relinked (rx_heap s) h (ids cont) -> ids cont ≡ₚ msdus l ++ ids cont' ->
  zlen cont' = zlen cont -> ro_slots r' = slots' -> ro_win_sz_mask r' = mask -> ro_tid r' = ro_tid r ->
  NoDup w -> ro_linked r' = bool_decide ((p, tid) ∈ w) ->
  (forall k, k <> (p, tid) -> (k ∈ w <-> k ∈ rx_waitlist s)) ->
  RxRep (set_rx_waitlist (fun _ => w) (taken_state h v r')) (<[(p, tid) := cont']> C).
Proof.
  intros Hpre Hrl Hperm Hlen Hsl Hmask Htid Hw Hl Hwo. destruct window_ok as (_ & _ & _ & _ & Hsz).
  eapply (RxRep_array s _ C p tid x (window_peer tid v r' x) r r' cont'); try done.
  - sized.
  - rewrite Hsl. by eapply array_forget.
  - intros i Hi. left. fold cont. rewrite Hperm. apply elem_of_app. by right.
  - intros i k Hk Hi. apply Hrl. intros Hi'. by apply (rep_disj _ _ HR k (p, tid) Hk i).
Qed.

Lemma same_waitlist h v r' : set_rx_waitlist (fun _ => rx_waitlist s) (taken_state h v r') = taken_state h v r'.
Proof. by apply rx_pdev_eq. Qed.

(** Setting [last_seq], ending the list, and calling the stage. *)
Lemma hand_over_run h slots' m l cont' v w r' out :
  array_pre h slots' cont' (m :: l) -> relinked (rx_heap s) h (ids cont) ->
  ids cont ≡ₚ msdus (m :: l) ++ ids cont' -> zlen cont' = zlen cont ->
  ro_slots r' = slots' -> ro_win_sz_mask r' = mask -> ro_tid r' = ro_tid r -> slot_rep h out (msdus (m :: l)) ->
  NoDup w -> ro_linked r' = bool_decide ((p, tid) ∈ w) ->
  (forall k, k <> (p, tid) -> (k ∈ w <-> k ∈ rx_waitlist s)) ->
  let s1 := set_rx_waitlist (fun _ => w) (taken_state h v r') in
  let x' := with_last_seq tid (rd_seq_num m.1) (window_peer tid v r' x) in
  exists h2, let s2 := with_heap h2 (with_peer p x' (set_rx_waitlist (fun _ => w) s)) in
    relinked (rx_heap s) h2 (ids cont) /\
    (set_last_seq_of p tid out (fun a => rx_opt_proc_call p tid (Some a)) s1 =
      Some (tt, after_stage s2 p tid x' (m :: l)) /\
     RxRep (after_stage s2 p tid x' (m :: l)) (<[(p, tid) := cont']> C)) /\
    (let s3 := set_rx_freed (fun f => f ++ msdus (m :: l)) (set_rx_heap (fun h => foldr delete h (msdus (m :: l))) s2) in
     set_last_seq_of p tid out (fun a => rx_frames_free (Some a)) s1 = Some (tt, s3) /\
     RxRep s3 (<[(p, tid) := cont']> C)).
Proof.
  intros Hpre Hrl Hperm Hlen Hsl Hmask Htid Hout Hw Hl Hwo s1 x'.
  destruct window_ok as (_ & _ & _ & Ht & Hsz). pose proof Hpre as (_ & Hok & Hnd).
  apply list.NoDup_app in Hnd as (Hnd & _ & _).
  assert (Hsz1 : tids_sized (window_peer tid v r' x)) by sized.
  assert (Hsz' : tids_sized x') by sized.
  assert (Hp1 : rx_peers s1 !! p = Some (window_peer tid v r' x)) by apply with_peer_lookup.
  destruct (set_last_seq_of_run s1 p tid _ out m l Hp1 Hsz1 Ht Hout Hok Hnd) as (h2 & a & Ha & Hrun & Hlist & Hrl2).
  exists h2. set (s2 := with_heap h2 (with_peer p x' (set_rx_waitlist (fun _ => w) s))). cbv zeta.
  assert (Hst : with_heap h2 (with_peer p (with_last_seq tid (rd_seq_num m.1) (window_peer tid v r' x)) s1) = s2).
  { apply rx_pdev_eq; try reflexivity. cbn. by rewrite insert_insert_eq. }
  rewrite Hst in Hrun. rewrite !Hrun. rewrite <- Ha.
  assert (Hp2 : rx_peers s2 !! p = Some x') by apply with_peer_lookup.
  assert (Hpeers : rx_peers s2 = <[p := x']> (rx_peers s)) by done.
  pose proof Hlist as (Hseg & _).
  split.
  { eapply relinked_trans; [exact Hrl|exact Hrl2|done|]. rewrite Hperm. set_solver. }
  split; split.
  - by apply rx_opt_proc_call_spec.
  - pose proof (after_stage_fields s2 p tid x' (m :: l)) as Hf. cbv zeta in Hf.
    destruct (verdict x' tid (m :: l)) as [[[k g] vv] q]. destruct Hf as (Hfh & Hfp & Hfw & _).
    eapply (RxRep_taken s _ C p tid x (with_last_pn tid vv q x') r r' h slots' cont' (m :: l) h2); try done.
    + rewrite Hfp, Hpeers. by rewrite insert_insert_eq.
    + sized.
    + by rewrite Hfw.
    + by rewrite Hfw.
    + by rewrite Hfw.
  - by apply rx_frames_free_spec.
  - by eapply (RxRep_taken s _ C p tid x x' r r' h slots' cont' (m :: l) h2).
Qed.

(** [ol_rx_reorder_release] returns; see [released] for what it did. *)
Lemma ol_rx_reorder_release_spec ix ie :
  let W := window mask ix ie cont in
  exists s', ol_rx_reorder_release p tid ix ie s = Some (tt, s') /\
    released s p tid ie x r (ids cont) (default [] (znth cont (Z.land ix mask))) W.1 s' /\
    RxRep s' (<[(p, tid) := W.2]> C).
Proof.
  intros W. destruct window_ok as (Hm & Hlen & Hpre & Ht & Hsz).
  destruct (window_facts mask ix ie cont Hm Hlen) as [Hperm HlenW]. fold W in Hperm, HlenW.
  pose proof (land_mask_range mask ix Hm) as Hix. pose proof (land_mask_range mask ie Hm) as Hie.
  destruct (znth_in_range cont (Z.land ix mask)) as [c Hc]; [lia|].
  destruct (array_in_range _ _ _ _ (Z.land ix mask) Hpre) as [e He]; [lia|].
  destruct (release_array_spec _ _ _ mask (Z.land ix mask) (Z.land ie mask) e c Hm Hlen Hix Hie Hpre He Hc)
    as (h' & slots' & out & Hloop & Hpre' & Hrl & Hhd & Hout). cbv zeta in *.
  fold (window mask ix ie cont) in Hpre', Hout. fold W in Hpre', Hout.
  rewrite Hc. cbn [default]. change (id c) with c.
  pose proof (array_length _ _ _ _ Hpre) as Hls. pose proof (array_length _ _ _ _ Hpre') as Hls'.
  assert (Hsl : ro_slots (set_slots slots' r) = slots') by (apply set_slots_slots; lia).
  assert (Hrun : ol_rx_reorder_release p tid ix ie s =
    set_last_seq_of p tid out (fun a => rx_opt_proc_call p tid (Some a)) (taken_state h' ie (set_slots slots' r))).
  { unfold ol_rx_reorder_release, mbind, M_bind. rewrite put_next_rel_idx_run by done.
    rewrite (get_reorder_at _ p tid r) by (unfold reorder_at; rewrite with_peer_lookup; done). unfold get, lift at 1.
    fold mask. rewrite He. unfold lift at 1. cbn [rx_heap with_peer set_rx_peers]. rewrite Hloop. unfold put_heap, modify at 1.
    rewrite (upd_reorder_at _ p tid (with_next_rel tid ie x) r) by (done || apply with_peer_lookup).
    f_equal. apply rx_pdev_eq; try reflexivity. cbn. by rewrite insert_insert_eq. }
  rewrite Hrun. destruct c as [|m c'].
  - assert (Hho : sl_head out = None) by done. unfold set_last_seq_of. rewrite Hho. unfold skip.
    eexists. split; [done|]. split; [by exists h', slots'|].
    rewrite <- (same_waitlist h' ie (set_slots slots' r)).
    apply (taken_rep h' slots' W.1 W.2 ie (rx_waitlist s)); try done; [apply set_slots_mask|apply set_slots_tid|apply HR|].
    rewrite set_slots_linked. apply (rep_linked _ _ HR _ _ _ window_at).
  - destruct (window_first mask ix ie cont m c' Hm Hlen Hc) as [l Hl]. fold W in Hl. rewrite Hl in *.
    destruct (hand_over_run h' slots' m l W.2 ie (rx_waitlist s) (set_slots slots' r) out)
      as (h2 & Hrl2 & [Hs HRs] & _); try done; [apply set_slots_mask|apply set_slots_tid|by apply Hout|apply HR| |].
    { rewrite set_slots_linked. apply (rep_linked _ _ HR _ _ _ window_at). }
    rewrite same_waitlist in Hs. rewrite Hs. eexists. split; [done|]. split; [|done].
    exists h2, slots'. split; [done|]. cbv zeta. f_equal.
Qed.

(** The flush up to the point where the list taken out is handed on. *)
Lemma flush_run ix ie (action : htt_rx_flush_action) :
  let W := window mask ix (flush_end ix ie) cont in
  exists h slots w out, let r' := set_ro_linked (fun _ => false) (set_slots slots r) in
    ol_rx_reorder_flush p tid ix ie action s =
      set_last_seq_of p tid out (fun a => match action with
        | htt_rx_flush_release => rx_opt_proc_call p tid (Some a)
        | htt_rx_flush_discard => rx_frames_free (Some a) end)
        (set_rx_waitlist (fun _ => w) (taken_state h (flush_rel ie) r')) /\
    array_pre h slots W.2 W.1 /\ slot_rep h out (msdus W.1) /\ relinked (rx_heap s) h (ids cont) /\
    zlen slots = zlen cont /\ NoDup w /\ (p, tid) ∉ w /\ forall k, k <> (p, tid) -> (k ∈ w <-> k ∈ rx_waitlist s).
Proof.
  intros W. destruct window_ok as (Hm & Hlen & Hpre & Ht & Hsz).
  pose proof (land_mask_range mask ix Hm) as Hix. pose proof (land_mask_range mask (flush_end ix ie) Hm) as Hie.
  destruct (flush_loop_spec mask (Z.land (flush_end ix ie) mask) (S (Z.to_nat mask)) Hm Hie (rx_heap s) (ro_slots r)
    cont [] empty_slot (Z.land ix mask) Hlen Hix Hpre (slot_rep_empty _))
    as (h' & slots' & out & Hloop & Hpre' & Hout & Hrl).
  { pose proof (span_range mask (Z.land ix mask) (Z.land (flush_end ix ie) mask) Hm). lia. }
  fold (window mask ix (flush_end ix ie) cont) in Hpre', Hout. fold W in Hpre', Hout. cbn [app] in Hpre', Hout.
  pose proof (array_length _ _ _ _ Hpre) as Hls. pose proof (array_length _ _ _ _ Hpre') as Hls'.
  destruct (window_facts mask ix (flush_end ix ie) cont Hm Hlen) as [_ HlenW]. fold W in HlenW.
  destruct (waitlist_remove_run (taken_state h' (flush_rel ie) (set_slots slots' r)) p tid
    (window_peer tid (flush_rel ie) (set_slots slots' r) x) (set_slots slots' r)) as (w & Hw & Hwn & Hwi & Hwo).
  { apply with_peer_lookup. }
  { cbn. apply znth_zset_eq. by eapply znth_lt_Some. }
  { rewrite set_slots_linked. apply (rep_linked _ _ HR _ _ _ window_at). }
  { apply HR. }
  exists h', slots', w, out. cbv zeta. split; [|split_and!; try done; lia].
  unfold ol_rx_reorder_flush. unfold mbind at 1, M_bind at 1. rewrite (get_reorder_at _ p tid r window_at). fold mask.
  unfold mbind at 1, M_bind at 1.
  replace ((if ie =? 65535 then put_next_rel_idx p tid 0;; mret ix else put_next_rel_idx p tid ie;; mret ie) s)
    with (Some (flush_end ix ie, with_peer p (with_next_rel tid (flush_rel ie) x) s)).
  2: { unfold flush_end, flush_rel, mbind, M_bind. by destruct (ie =? 65535); rewrite put_next_rel_idx_run. }
  unfold mbind, M_bind. unfold get, lift at 1. cbn [rx_heap with_peer set_rx_peers]. rewrite Hloop. unfold put_heap, modify at 1.
  rewrite (upd_reorder_at _ p tid (with_next_rel tid (flush_rel ie) x) r) by (done || apply with_peer_lookup).
  replace (with_peer p _ _) with (taken_state h' (flush_rel ie) (set_slots slots' r)).
  2: { apply rx_pdev_eq; try reflexivity. cbn. by rewrite insert_insert_eq. }
  rewrite Hw. f_equal. apply rx_pdev_eq; try reflexivity. cbn. rewrite insert_insert_eq. f_equal.
  unfold window_peer, with_reorder, set_rp_tids_rx_reorder. cbn. unfold zset. by rewrite list_insert_insert_eq.
Qed.

(** [ol_rx_reorder_flush] returns; see [flushed] for what it did. *)
Lemma ol_rx_reorder_flush_spec ix ie action :
  let W := window mask ix (flush_end ix ie) cont in
  exists s', ol_rx_reorder_flush p tid ix ie action s = Some (tt, s') /\
    flushed s p tid (flush_rel ie) x r action (ids cont) W.1 s' /\ RxRep s' (<[(p, tid) := W.2]> C).
Proof.
  intros W. destruct (flush_run ix ie action) as (h & slots & w & out & Hrun & Hpre & Hout & Hrl & Hls & Hw & Hwi & Hwo).
  cbv zeta in Hrun. fold W in Hpre, Hout. destruct window_ok as (Hm & Hlen & Hpre0 & Ht & Hsz).
  destruct (window_facts mask ix (flush_end ix ie) cont Hm Hlen) as [Hperm HlenW]. fold W in Hperm, HlenW.
  pose proof (array_length _ _ _ _ Hpre0) as Hls0.
  set (r' := set_ro_linked (fun _ => false) (set_slots slots r)) in *.
  assert (Hsl : ro_slots r' = slots).
  { unfold r'. transitivity (ro_slots (set_slots slots r)); [done|]. apply set_slots_slots. lia. }
  assert (Hmk : ro_win_sz_mask r' = mask) by apply set_slots_mask.
  assert (Htd : ro_tid r' = ro_tid r) by apply set_slots_tid.
  assert (Hlk : ro_linked r' = bool_decide ((p, tid) ∈ w)) by (by rewrite bool_decide_eq_false_2).
  rewrite Hrun. destruct W.1 as [|m l] eqn:HW.
  - apply slot_rep_nil in Hout as ->. unfold set_last_seq_of. cbn [sl_head empty_slot]. unfold skip.
    eexists. split; [done|]. split; [by exists h, slots, w|].
    by apply (taken_rep h slots [] W.2 (flush_rel ie) w r').
  - destruct (hand_over_run h slots m l W.2 (flush_rel ie) w r' out) as (h2 & Hrl2 & [Hs HRs] & Hs' & HRs'); try done.
    destruct action.
    + rewrite Hs. eexists. split; [done|]. split; [|done]. by exists h2, slots, w.
    + rewrite Hs'. eexists. split; [done|]. split; [|done]. by exists h2, slots, w.
Qed.
End Window.
