(* ===== verification/RxHandlers.v ===== *)
(** The handlers HTT calls and the clean-up of a peer, on a device that
    satisfies the invariant. *)
From Stdlib Require Import ZArith Lia.
From stdpp Require Import prelude gmap list numbers functions.
From S2P Require Import Prelude.
From S2P Require Import RxTypes.
From S2P Require Import RxList.
From S2P Require Import RxPn.
From S2P Require Import RxPnSpec.
From S2P Require Import RxStage.
From S2P Require Import RxReorder.
From S2P Require Import RxArray.
From S2P Require Import RxInv.
From S2P Require Import RxOps.
From S2P Require Import RxWindow.

(** ** The whole array as a window *)

Lemma elem_of_swept mask idx idx_end j :
  is_mask mask -> 0 <= idx <= mask -> 0 <= j <= mask ->
  (j - idx) mod (mask + 1) < span mask idx idx_end -> j ∈ swept mask idx idx_end.
Proof.
  intros Hm Hi Hj Hlt. pose proof (is_mask_range _ Hm). pose proof (Z.mod_pos_bound (j - idx) (mask + 1)).
  apply list_elem_of_lookup. exists (Z.to_nat ((j - idx) mod (mask + 1))). unfold swept.
  rewrite cyc_lookup by (done || lia). f_equal. rewrite Z2Nat.id by lia. rewrite land_win_mask by done.
  rewrite Zplus_mod_idemp_r. replace (idx + (j - idx)) with j by lia. apply Z.mod_small. lia.
Qed.

Lemma span_whole mask idx : is_mask mask -> span mask idx idx = mask + 1.
Proof.
  intros Hm. unfold span. rewrite land_win_mask by done. pose proof (is_mask_range _ Hm).
  replace (idx - idx - 1) with (mask + -1 * (mask + 1)) by lia. rewrite Z.mod_add, Z.mod_small by lia. done.
Qed.

Lemma all_nil_concat {A} (l : list (list A)) : (forall j, 0 <= j < zlen l -> znth l j = Some []) -> concat l = [].
Proof.
  intros H. induction l as [|c l IH]; [done|]. simpl. rewrite zlen_cons in H. pose proof (zlen_nonneg l).
  pose proof (H 0 ltac:(lia)) as Hc. injection Hc as ->. apply IH. intros j Hj.
  specialize (H (j + 1) ltac:(lia)). apply znth_Some in H as [_ H]. apply znth_Some. split; [lia|].
  by replace (Z.to_nat (j + 1)) with (S (Z.to_nat j)) in H by lia.
Qed.

(** A window that ends where it starts is the whole array: it leaves nothing. *)
Lemma window_whole mask ix cont :
  is_mask mask -> zlen cont = mask + 1 ->
  concat (window mask ix ix cont).2 = [] /\ ids cont ≡ₚ msdus (window mask ix ix cont).1.
Proof.
  intros Hm Hlen. pose proof (land_mask_range mask ix Hm) as Hi. destruct (window_facts mask ix ix cont Hm Hlen) as [Hp Hl].
  assert (concat (window mask ix ix cont).2 = []) as E.
  { apply all_nil_concat. intros j Hj. unfold window in *.
    pose proof (swept_cont mask (Z.land ix mask) (Z.land ix mask) cont Hm Hi Hlen) as Hsw.
    destruct (sweep_gather _ cont (swept_NoDup mask _ (Z.land ix mask) Hm Hi) Hsw) as (_ & _ & Hg).
    rewrite Hg by lia. rewrite decide_True; [done|]. apply elem_of_swept; [done|done|lia|].
    rewrite span_whole by done. pose proof (is_mask_range _ Hm). apply Z.mod_pos_bound. lia. }
  split; [done|]. rewrite Hp, E. by rewrite app_nil_r.
Qed.

(** ** Cleaning up a peer *)

(** What has happened when the TIDs [done] of [p] are cleaned up. *)
Definition cleaned (s : rx_pdev) (C : contents) (p : Z) (tids : list Z) (s' : rx_pdev) : Prop :=
  exists C' l, RxRep s' C' /\
    (forall t, t ∈ tids -> concat (C' (p, t)) = []) /\
    (forall k, k.1 <> p \/ k.2 ∉ tids -> C' k = C k) /\
    rx_freed s' = rx_freed s ++ l /\ l ≡ₚ concat ((fun t => ids (C (p, t))) <$> tids) /\
    (forall i, (forall k, i ∉ ids (C k)) -> rx_heap s' !! i = rx_heap s !! i) /\
    rx_delivered s' = rx_delivered s /\ is_Some (rx_peers s' !! p).

Lemma flushed_discard_fields `{StackJunk} s p tid v x r all l s' :
  rx_peers s !! p = Some x -> flushed s p tid v x r htt_rx_flush_discard all l s' ->
  rx_freed s' = rx_freed s ++ msdus l /\ rx_delivered s' = rx_delivered s /\ is_Some (rx_peers s' !! p).
Proof.
  intros Hp (h & slots & w & _ & Hs). destruct l as [|m l]; rewrite Hs.
  - cbn. rewrite app_nil_r. split_and!; [done|done|]. rewrite lookup_insert_eq. by eexists.
  - split_and!; [done|done|]. cbn. rewrite lookup_insert_eq. by eexists.
Qed.

(** Buffers outside the array are left alone. *)
Lemma after_stage_heap `{StackJunk} s p tid x l i :
  i ∉ msdus l -> rx_heap (after_stage s p tid x l) !! i = rx_heap s !! i.
Proof.
  intros Hi. pose proof (after_stage_fields s p tid x l) as Hf. cbv zeta in Hf.
  destruct (verdict x tid l) as [[[k g] v] q]. destruct Hf as (-> & _). by apply foldr_delete_notin.
Qed.

Lemma flushed_heap `{StackJunk} s p tid v x r action all l s' i :
  flushed s p tid v x r action all l s' -> i ∉ all -> i ∉ msdus l -> rx_heap s' !! i = rx_heap s !! i.
Proof.
  intros (h & slots & w & Hrl & Hs) Ha Hl. destruct l as [|m l]; [rewrite Hs; by apply Hrl|].
  destruct action; rewrite Hs.
  - rewrite after_stage_heap by done. by apply Hrl.
  - cbn [rx_heap set_rx_freed set_rx_heap]. rewrite foldr_delete_notin by done. by apply Hrl.
Qed.

Lemma released_heap `{StackJunk} s p tid ie x r all first l s' i :
  released s p tid ie x r all first l s' -> i ∉ all -> i ∉ msdus l -> rx_heap s' !! i = rx_heap s !! i.
Proof.
  intros (h & slots & Hrl & Hs) Ha Hl. destruct first as [|m f]; rewrite Hs; [by apply Hrl|].
  rewrite after_stage_heap by done. by apply Hrl.
Qed.

Lemma reorder_at_sized s p x tid :
  rx_peers s !! p = Some x -> tids_sized x -> 0 <= tid < OL_TXRX_NUM_EXT_TIDS ->
  exists r, znth (rp_tids_rx_reorder x) tid = Some r /\ reorder_at s p tid = Some r.
Proof.
  intros Hp (Hs & _) Ht. destruct (znth_in_range (rp_tids_rx_reorder x) tid) as [r Hr]; [lia|].
  exists r. split; [done|]. unfold reorder_at. by rewrite Hp.
Qed.

Lemma ol_rx_reorder_peer_cleanup_spec `{StackJunk} s C p :
  RxRep s C -> is_Some (rx_peers s !! p) ->
  wp (ol_rx_reorder_peer_cleanup p) (fun _ s' => cleaned s C p zseq_tids s') s.
Proof.
  intros HR Hp. unfold ol_rx_reorder_peer_cleanup.
  assert (Hgen : forall rest before s0, Forall (fun t => 0 <= t < OL_TXRX_NUM_EXT_TIDS) rest -> NoDup (before ++ rest) ->
    cleaned s C p before s0 ->
    wp (for_each rest (fun tid => ol_rx_reorder_flush p tid 0 0 htt_rx_flush_discard))
       (fun _ s' => cleaned s C p (before ++ rest) s') s0).
  { induction rest as [|t rest IH]; intros before s0 Hrest Hnd Hc.
    { by rewrite app_nil_r. }
    apply list.Forall_cons in Hrest as [Ht Hrest].
    destruct Hc as (C0 & l & HR0 & Hdone & Hother & Hfr & Hl & Hheap & Hdel & [x Hx]).
    destruct (reorder_at_sized s0 p x t Hx (rep_sized _ _ HR0 _ _ Hx) Ht) as (r & Hr & Hat).
    destruct (ol_rx_reorder_flush_spec s0 C0 p t x r HR0 Hx Hr 0 0 htt_rx_flush_discard) as (s1 & Hrun & Hfl & HR1).
    cbv zeta in *. destruct (rep_reorder _ _ HR0 _ _ _ Hat) as (Hm & Hlen & _).
    destruct (window_whole (ro_win_sz_mask r) 0 (C0 (p, t)) Hm Hlen) as [Hw2 Hw1].
    change (flush_end 0 0) with 0 in *. destruct (flushed_discard_fields _ _ _ _ _ _ _ _ _ Hx Hfl) as (Hf1 & Hd1 & Hp1).
    assert (Htb : t ∉ before). { apply list.NoDup_app in Hnd as (_ & Hd & _). intros Hin. by apply (Hd t Hin), list_elem_of_here. }
    assert (HCt : C0 (p, t) = C (p, t)) by (apply Hother; right; done).
    cbn [for_each]. eapply wp_step; [exact Hrun|].
    rewrite cons_middle, app_assoc. apply IH; [done|by rewrite <- app_assoc|].
    eexists _, (l ++ msdus (window (ro_win_sz_mask r) 0 0 (C0 (p, t))).1). split; [exact HR1|]. split_and!.
    - intros u [Hu|Hu%list_elem_of_singleton]%elem_of_app.
      + rewrite fn_lookup_insert_ne by (intros [= <-]; done). by apply Hdone.
      + subst u. by rewrite fn_lookup_insert.
    - intros k Hk. destruct (decide (k = (p, t))) as [->|Hne].
      { exfalso. destruct Hk as [Hk|Hk]; [done|]. apply Hk. apply elem_of_app. right. by apply list_elem_of_singleton. }
      rewrite fn_lookup_insert_ne by congruence. apply Hother. destruct Hk as [Hk|Hk]; [by left|right].
      intros Hin. apply Hk. apply elem_of_app. by left.
    - rewrite Hf1, Hfr. by rewrite app_assoc.
    - rewrite fmap_app, concat_app. cbn [fmap list_fmap concat]. rewrite app_nil_r, <- Hw1, HCt. by rewrite Hl.
    - intros i Hi. rewrite <- (Hheap i Hi). eapply flushed_heap; [exact Hfl| |]; [|rewrite <- Hw1]; rewrite HCt; apply Hi.
    - congruence.
    - done. }
  change zseq_tids with ([] ++ zseq_tids). apply Hgen.
  - apply list.Forall_forall. intros t (n & -> & Hn%elem_of_seq)%list_elem_of_fmap. lia.
  - apply NoDup_fmap_2; [intros ??; lia|apply NoDup_seq].
  - exists C, []. split; [done|]. split_and!; try done.
    + by intros t ?%not_elem_of_nil.
    + by rewrite app_nil_r.
Qed.

(** ** Block-ack agreements *)

Lemma g_log2ceil_mask win_sz w :
  g_log2ceil win_sz = Some w -> is_mask (w - 1) /\ win_sz <= w /\ 1 <= w <= 64 /\ (1 < w -> w < 2 * win_sz).
Proof.
  unfold g_log2ceil. destruct ((win_sz <? 0) || (64 <? win_sz)) eqn:E; [done|].
  apply orb_false_iff in E as [E1 E2]. intros [= <-].
  assert (Hm : forall k : nat, (k <= 6)%nat -> is_mask (2 ^ Z.of_nat k - 1)) by (intros k Hk; by exists k).
  pose proof (Hm 0%nat ltac:(lia)) as H0. pose proof (Hm 1%nat ltac:(lia)) as H1. pose proof (Hm 2%nat ltac:(lia)) as H2.
  pose proof (Hm 3%nat ltac:(lia)) as H3. pose proof (Hm 4%nat ltac:(lia)) as H4. pose proof (Hm 5%nat ltac:(lia)) as H5.
  pose proof (Hm 6%nat ltac:(lia)) as H6. cbn in H0, H1, H2, H3, H4, H5, H6.
  repeat match goal with |- context [if ?b then _ else _] => destruct b eqn:? end; (split; [done|lia]).
Qed.

Definition addba_reorder (win_sz w : Z) (r : rx_reorder) : rx_reorder :=
  mk_rx_reorder win_sz (w - 1) 0 (Some (replicate (Z.to_nat w) empty_slot)) (ro_base r)
    (ro_linked r) (ro_defrag_timeout_ms r) (ro_tid r).

(** Replacing the reorder state of one peer-TID by one with empty slots. *)
Lemma RxRep_reset s C p tid x x' r r' n :
  RxRep s C -> rx_peers s !! p = Some x -> znth (rp_tids_rx_reorder x) tid = Some r ->
  rp_tids_rx_reorder x' = zset (rp_tids_rx_reorder x) tid r' -> tids_sized x' ->
  is_mask (ro_win_sz_mask r') -> Z.of_nat n = ro_win_sz_mask r' + 1 -> ro_slots r' = replicate n empty_slot ->
  ro_linked r' = ro_linked r -> ro_tid r' = tid ->
  RxRep (with_peer p x' s) (<[(p, tid) := replicate n []]> C).
Proof.
  intros HR Hp Hr Hx' Hsz Hm Hn Hsl Hlk Htid. assert (Hat : reorder_at s p tid = Some r) by (unfold reorder_at; by rewrite Hp).
  assert (Hnil : concat (replicate n ([] : list mpdu)) = []) by (clear; induction n; simpl; auto).
  eapply (RxRep_update s _ C p tid r'); try done.
  - intros q t. eapply reorder_at_with_peer; [done|by eapply znth_lt_Some|done|done].
  - intros q y Hy. unfold with_peer in Hy. cbn in Hy. apply lookup_insert_Some in Hy as [[_ <-]|[_ Hy]]; [done|by eapply rep_sized].
  - split_and!; [done|unfold zlen; rewrite length_replicate; lia|]. rewrite Hsl. clear.
    induction n; constructor; [apply slot_ok_empty|done].
  - rewrite Hnil. constructor.
  - intros i k Hk Hi. rewrite Hnil. split; [apply not_elem_of_nil|done].
  - apply HR.
  - rewrite Hlk. by apply HR.
Qed.

Lemma ol_rx_addba_handler_spec s C peer_id p tid x r win_sz start w :
  RxRep s C -> rx_peer_id_map s !! peer_id = Some p -> rx_peers s !! p = Some x ->
  znth (rp_tids_rx_reorder x) tid = Some r -> g_log2ceil win_sz = Some w ->
  let x' := with_next_rel tid 0 (with_reorder tid (addba_reorder win_sz w r) (with_last_seq tid IEEE80211_SEQ_MAX x)) in
  ol_rx_addba_handler true peer_id tid win_sz start false s = Some (tt, with_peer p x' s) /\
  RxRep (with_peer p x' s) (<[(p, tid) := replicate (Z.to_nat w) []]> C).
Proof.
  intros HR Hid Hp Hr Hw x'. assert (Hat : reorder_at s p tid = Some r) by (unfold reorder_at; by rewrite Hp).
  pose proof (rep_tid_range _ _ _ _ _ HR Hat) as Ht. pose proof (rep_sized _ _ HR _ _ Hp) as Hsz.
  destruct (g_log2ceil_mask _ _ Hw) as (Hm & _ & Hwr & _). pose proof Hsz as (_ & _ & _ & Hs4 & Hs5 & _). split.
  - unfold ol_rx_addba_handler. destruct (Z.leb_spec OL_TXRX_NUM_EXT_TIDS tid); [lia|].
    unfold ol_txrx_peer_find_by_id, mbind, M_bind, gets. rewrite Hid. unfold put_last_seq.
    rewrite (put_tid_at _ _ _ _ _ x) by (done || lia). unfold lift at 1. rewrite Hw.
    rewrite (upd_reorder_at _ p tid (with_last_seq tid IEEE80211_SEQ_MAX x) r) by (done || apply with_peer_lookup).
    unfold put_next_rel_idx. erewrite put_tid_at; [|apply with_peer_lookup|cbn; lia].
    by rewrite !with_peer_twice.
  - apply (RxRep_reset s C p tid x x' r (addba_reorder win_sz w r) (Z.to_nat w)); try done; [|cbn; lia|by apply (rep_tid _ _ HR _ _ _ Hat)].
    eapply tids_sized_set; [exact Hsz|..]; cbn; by rewrite ?zlen_zset.
Qed.

Lemma ol_rx_delba_handler_spec s C peer_id p tid x r :
  RxRep s C -> rx_peer_id_map s !! peer_id = Some p -> rx_peers s !! p = Some x ->
  znth (rp_tids_rx_reorder x) tid = Some r -> ro_linked r = false ->
  let x' := with_reorder tid (ol_rx_reorder_init tid r) (with_next_rel tid INVALID_REORDER_INDEX x) in
  ol_rx_delba_handler peer_id tid s = Some (tt, with_peer p x' s) /\
  RxRep (with_peer p x' s) (<[(p, tid) := [[]]]> C).
Proof.
  intros HR Hid Hp Hr Hlk x'. assert (Hat : reorder_at s p tid = Some r) by (unfold reorder_at; by rewrite Hp).
  pose proof (rep_tid_range _ _ _ _ _ HR Hat) as Ht. pose proof (rep_sized _ _ HR _ _ Hp) as Hsz.
  pose proof Hsz as (_ & _ & _ & Hs4 & Hs5 & _). split.
  - unfold ol_rx_delba_handler. destruct (Z.leb_spec OL_TXRX_NUM_EXT_TIDS tid); [lia|].
    unfold ol_txrx_peer_find_by_id, mbind, M_bind, gets. rewrite Hid. unfold put_next_rel_idx.
    rewrite (put_tid_at _ _ _ _ _ x) by (done || lia).
    rewrite (upd_reorder_at _ p tid (with_next_rel tid INVALID_REORDER_INDEX x) r) by (done || apply with_peer_lookup).
    by rewrite with_peer_twice.
  - apply (RxRep_reset s C p tid x x' r (ol_rx_reorder_init tid r) 1); try done.
    + eapply tids_sized_set; [exact Hsz|..]; cbn; by rewrite ?zlen_zset.
    + exists 0%nat. split; [lia|done].
    + unfold OL_TXRX_NUM_EXT_TIDS in Ht. cbn. apply u16_small. lia.
Qed.

(** ** The flush handler *)

Lemma RxRep_ext s C C' : (forall k, C' k = C k) -> RxRep s C -> RxRep s C'.
Proof.
  intros HC HR. split.
  - apply HR.
  - intros. rewrite HC. by apply HR.
  - intros. rewrite HC. by apply HR.
  - intros. rewrite HC. apply HR.
  - intros. rewrite !HC. by apply HR.
  - apply HR.
  - apply HR.
  - apply HR.
  - apply HR.
Qed.

(** A flush that meets a fragment frees the fragments of its slot. *)
Lemma ol_rx_reorder_flush_frag_spec s C p tid x r seq_num :
  RxRep s C -> rx_peers s !! p = Some x -> znth (rp_tids_rx_reorder x) tid = Some r ->
  exists c s', znth (C (p, tid)) (Z.land seq_num (ro_win_sz_mask r)) = Some c /\
    ol_rx_reorder_flush_frag p tid seq_num s = Some (tt, s') /\
    rx_freed s' = rx_freed s ++ msdus c /\ rx_delivered s' = rx_delivered s /\
    rx_waitlist s' = rx_waitlist s /\ (forall i, i ∉ msdus c -> rx_heap s' !! i = rx_heap s !! i) /\
    RxRep s' (<[(p, tid) := zset (C (p, tid)) (Z.land seq_num (ro_win_sz_mask r)) []]> C).
Proof.
  intros HR Hp Hr. assert (Hat : reorder_at s p tid = Some r) by (unfold reorder_at; by rewrite Hp).
  destruct (rep_reorder _ _ HR _ _ _ Hat) as (Hm & Hlen & _). pose proof (rep_array _ _ _ _ _ HR Hat) as Hpre.
  set (i := Z.land seq_num (ro_win_sz_mask r)) in *. pose proof (land_mask_range _ seq_num Hm) as Hi. fold i in Hi.
  destruct (znth_in_range (C (p, tid)) i) as [c Hc]; [lia|].
  destruct (array_in_range _ _ _ _ i Hpre) as [e He]; [lia|].
  destruct (array_znth _ _ _ _ _ _ Hpre He) as (c' & Hc' & (Hrep & Hok & Hterm) & Hci). simplify_eq.
  exists c. unfold ol_rx_reorder_flush_frag, mbind, M_bind. rewrite (get_reorder_at _ _ _ _ Hat). fold i.
  unfold lift at 1. rewrite He. pose proof (ids_take _ _ _ Hc) as Hperm.
  destruct (sl_head e) as [a|] eqn:Hhd.
  2: { destruct (slot_ok_None _ _ _ (conj Hrep (conj Hok Hterm)) Hhd) as [-> ->]. exists s. rewrite app_nil_r, zset_id by done.
       split_and!; try done. eapply RxRep_ext; [|exact HR]. intros k.
       destruct (decide (k = (p, tid))) as [->|Hk]; [by rewrite fn_lookup_insert|by rewrite fn_lookup_insert_ne]. }
  pose proof (slot_rep_Some _ _ _ _ Hrep Hhd) as Hne. pose proof (rep_nodup _ _ HR (p, tid)) as Hnd.
  rewrite Hperm in Hnd. apply list.NoDup_app in Hnd as (Hndc & _ & _).
  rewrite (head_hd_or _ _ _ Hrep) in Hhd. rewrite <- Hhd, rx_frames_free_spec by auto.
  rewrite (upd_reorder_at _ p tid x r) by done. eexists. do 5 (split; [done|]).
  split; [intros j Hj; cbn; by apply foldr_delete_notin|].
  eapply (RxRep_taken s _ C p tid x _ r (set_slots (zset (ro_slots r) i empty_slot) r) (rx_heap s)
            (zset (ro_slots r) i empty_slot) (zset (C (p, tid)) i []) c (rx_heap s)); try done.
  - apply (array_take _ _ _ _ [] i e c Hpre He Hc). apply relinked_refl.
  - apply zlen_zset.
  - pose proof (rep_sized _ _ HR _ _ Hp). sized.
  - apply set_slots_slots. apply zlen_zset.
  - apply set_slots_mask.
  - apply set_slots_tid.
  - apply HR.
  - rewrite set_slots_linked. by apply HR.
Qed.
