(* ===== verification/RxPnInd.v ===== *)
(** The packet number indication ([ol_rx_pn_ind_handler]): the target names
    the slots whose MPDUs failed its check; they are freed, the rest of the
    window is delivered. *)
From Stdlib Require Import ZArith Lia.
From stdpp Require Import prelude gmap list numbers functions.
From S2P Require Import Prelude.
From S2P Require Import RxTypes.
From S2P Require Import RxList.
From S2P Require Import RxPn.
From S2P Require Import RxPnSpec.
From S2P Require Import RxStage.
From S2P Require Import RxReorder.
From S2P Require Import RxArray.
From S2P Require Import RxInv.
From S2P Require Import RxOps.
From S2P Require Import RxWindow.

(** The MPDUs kept and the slots dropped on a sweep over the slots [v], when
    the first [cnt] elements of [ie] name the failed slots in order. *)
Fixpoint pn_ind_ref (v ie : list Z) (cnt : Z) (cont : list (list mpdu)) : list mpdu * list (list mpdu) :=
  match v with
  | [] => ([], [])
  | i :: v' =>
    let c := default [] (znth cont i) in
    let cont' := zset cont i [] in
    if bool_decide (c <> []) && negb (cnt =? 0) && bool_decide (list.head ie = Some i) then
      let '(k, g) := pn_ind_ref v' (tail ie) (cnt - 1) cont' in (k, c :: g)
    else let '(k, g) := pn_ind_ref v' ie cnt cont' in (c ++ k, g)
  end.

Definition pn_ind_pre (st : pn_ind_state) (cont : list (list mpdu)) (o : list mpdu) : Prop :=
  array_pre (pi_heap st) (pi_slots st) cont o /\ slot_rep (pi_heap st) (pi_out st) (msdus o) /\
  0 <= pi_cnt st <= zlen (pi_ie st) /\ pi_cnt st < 256.

(** Freeing the MPDUs of a slot. *)
Lemma array_delete h slots cont o i c :
  array_pre h slots cont o -> znth cont i = Some c ->
  array_pre (foldr delete h (msdus c)) (zset slots i empty_slot) (zset cont i []) o.
Proof.
  intros (Hf & Ho & Hnd) Hc. rewrite (ids_take _ _ _ Hc) in Hnd.
  assert (Hnd' : NoDup (msdus c ++ msdus o ++ ids (zset cont i []))).
  { revert Hnd. apply NoDup_Permutation_proper. solve_Permutation. }
  apply list.NoDup_app in Hnd' as (_ & Hd & Hnd').
  assert (Hfr : forall j, j ∈ msdus o ++ ids (zset cont i []) -> foldr delete h (msdus c) !! j = h !! j).
  { intros j Hj. apply foldr_delete_notin. intros Hjc. by apply (Hd j). }
  split_and!; [| |done].
  - assert (Hf' : Forall2 (slot_ok h) (zset slots i empty_slot) (zset cont i [])).
    { apply Forall2_insert; [done|apply slot_ok_empty]. }
    assert (Hids : forall j, j ∈ ids (zset cont i []) -> foldr delete h (msdus c) !! j = h !! j).
    { intros j Hj. apply Hfr, elem_of_app. by right. }
    clear -Hf' Hids. revert Hf' Hids. generalize (zset slots i empty_slot) (zset cont i []).
    intros l1 l2 Hf Hids. induction Hf as [|sl d l1 l2 Hok Hf IH]; constructor; cbn [concat] in Hids.
    + eapply slot_ok_frame; [|exact Hok]. intros j Hj. apply Hids. rewrite msdus_app. apply elem_of_app. by left.
    + apply IH. intros j Hj. apply Hids. rewrite msdus_app. apply elem_of_app. by right.
  - eapply mpdus_ok_filtered; [apply (filtered_delete h (msdus c) [])| |done].
    intros j Hj Hjc. apply (Hd j Hjc), elem_of_app. by left.
Qed.

Definition mpdu_heads (l : list (list mpdu)) : list (option Z) := (fun c => list.head (msdus c)) <$> l.

Lemma pn_ind_slot_spec st cont o i c :
  pn_ind_pre st cont o -> znth cont i = Some c ->
  exists st', pn_ind_slot st i = Some st' /\ 
    if bool_decide (c <> []) && negb (pi_cnt st =? 0) && bool_decide (list.head (pi_ie st) = Some i) then
      pn_ind_pre st' (zset cont i []) o /\ pi_ie st' = tail (pi_ie st) /\ pi_cnt st' = pi_cnt st - 1 /\
      pi_freed st' = pi_freed st ++ msdus c /\ Some <$> pi_errs st' = (Some <$> pi_errs st) ++ mpdu_heads [c] /\
      filtered (pi_heap st) (pi_heap st') [] (msdus c)
    else
      pn_ind_pre st' (zset cont i []) (o ++ c) /\ pi_ie st' = pi_ie st /\ pi_cnt st' = pi_cnt st /\
      pi_freed st' = pi_freed st /\ pi_errs st' = pi_errs st /\ filtered (pi_heap st) (pi_heap st') (msdus o) [].
Proof.
  intros (Hpre & Hout & Hcnt & Hlt) Hc. destruct (array_in_range _ _ _ _ i Hpre (znth_lt_Some _ _ _ Hc)) as [e He].
  destruct (array_znth _ _ _ _ _ _ Hpre He) as (c' & Hc' & Hso & Hi). simplify_eq. pose proof Hso as (Hr & Hok & _).
  unfold pn_ind_slot. rewrite He. cbn [mbind option_bind].
  destruct (sl_head e) as [hd|] eqn:Hhd.
  2: { destruct (slot_ok_None _ _ _ Hso Hhd) as [-> ->]. exists st. split; [done|]. simpl.
       rewrite zset_id, app_nil_r by done. split_and!; done || apply filtered_refl. }
  destruct (slot_ok_Some _ _ _ _ Hso Hhd) as [Hcne Hmne].
  rewrite (bool_decide_eq_true_2 (c <> [])) by done. cbn [andb].
  destruct (take_slot_spec _ _ _ _ _ _ _ Hpre Hout Hc) as (h1 & slots1 & out1 & Htake & Hpre1 & Hout1 & Hrl1).
  assert (Hkeep : exists st',
    ('(h, slots, out) ← take_slot (pi_heap st) (pi_slots st) i (pi_out st);
     Some (mk_pn_ind_state h slots out (pi_ie st) (pi_cnt st) (pi_freed st) (pi_errs st))) = Some st' /\
    pn_ind_pre st' (zset cont i []) (o ++ c) /\ pi_ie st' = pi_ie st /\ pi_cnt st' = pi_cnt st /\
    pi_freed st' = pi_freed st /\ pi_errs st' = pi_errs st /\ filtered (pi_heap st) (pi_heap st') (msdus o) []).
  { rewrite Htake. cbn [mbind option_bind]. eexists. split; [done|]. split_and!; try done. by apply filtered_relinked. }
  destruct (pi_cnt st =? 0) eqn:Hz; cbn [negb andb mbind option_bind]; [exact Hkeep|].
  destruct (pi_ie st) as [|b ie] eqn:Hie; [change (zlen []) with 0 in Hcnt; lia|].
  change (list.head (b :: ie)) with (Some b). cbn [mbind option_bind].
  destruct (Z.eqb_spec i b) as [<-|Hb]; cbn [mbind option_bind].
  2: { rewrite bool_decide_eq_false_2 by congruence. exact Hkeep. }
  rewrite bool_decide_eq_true_2 by done.
  pose proof Hr as (Hh & Htl & v & Hseg). pose proof Hpre as (_ & _ & Hnd).
  rewrite (ids_take _ _ _ Hc) in Hnd. apply list.NoDup_app in Hnd as (_ & _ & Hnd).
  apply list.NoDup_app in Hnd as (Hndc & _ & _).
  rewrite <- Hhd, (head_hd_or _ _ _ Hr), Htl.
  rewrite (free_mpdu_seg _ _ _ _ Hmne Hndc Hseg) by (unfold heap_fuel; pose proof (seg_length _ _ _ Hndc Hseg); lia).
  cbn [mbind option_bind]. rewrite zlen_cons in Hcnt.
  assert (Hu : u8 (pi_cnt st - 1) = pi_cnt st - 1) by (apply u8_small; lia).
  eexists. split; [done|]. split; [|split_and!; try done].
  - unfold pn_ind_pre. cbn. rewrite Hu. split_and!; [by apply array_delete| |lia..].
    eapply slot_rep_frame; [|exact Hout]. intros j Hj. apply foldr_delete_notin. intros Hjc.
    pose proof Hpre as (_ & _ & Hnd). apply list.NoDup_app in Hnd as (_ & Hd & _). apply (Hd j Hj).
    rewrite (ids_take _ _ _ Hc). apply elem_of_app. by left.
  - cbn. rewrite fmap_app. unfold mpdu_heads. cbn. by rewrite <- Hhd, Hh.
  - apply filtered_delete.
Qed.

Lemma pn_ind_ref_cons i v ie cnt cont c :
  znth cont i = Some c ->
  pn_ind_ref (i :: v) ie cnt cont =
    if bool_decide (c <> []) && negb (cnt =? 0) && bool_decide (list.head ie = Some i) then
      let '(k, g) := pn_ind_ref v (tail ie) (cnt - 1) (zset cont i []) in (k, c :: g)
    else let '(k, g) := pn_ind_ref v ie cnt (zset cont i []) in (c ++ k, g).
Proof. intros Hc. cbn [pn_ind_ref]. rewrite Hc. done. Qed.

(** What the loop has done to its state. *)
Definition pn_ind_result (st : pn_ind_state) (cont : list (list mpdu)) (o : list mpdu)
    (res : list mpdu * list (list mpdu)) (cont' : list (list mpdu)) (st' : pn_ind_state) : Prop :=
  pn_ind_pre st' cont' (o ++ res.1) /\
  pi_freed st' = pi_freed st ++ msdus (concat res.2) /\
  Some <$> pi_errs st' = (Some <$> pi_errs st) ++ mpdu_heads res.2 /\
  filtered (pi_heap st) (pi_heap st') (msdus o ++ ids cont) (msdus (concat res.2)).

Lemma pn_ind_loop_spec mask idx_end n :
  is_mask mask -> 0 <= idx_end <= mask -> forall st cont o idx,
  zlen cont = mask + 1 -> 0 <= idx <= mask -> pn_ind_pre st cont o -> (Z.to_nat (span mask idx idx_end) <= n)%nat ->
  exists st', pn_ind_loop n mask idx_end st idx = Some st' /\
    pn_ind_result st cont o (pn_ind_ref (swept mask idx idx_end) (pi_ie st) (pi_cnt st) cont)
      (sweep (swept mask idx idx_end) cont).2 st'.
Proof.
  intros Hm He. induction n as [|n IH]; intros st cont o idx Hlen Hi Hpre Hn;
    pose proof (span_range mask idx idx_end Hm); [lia|].
  destruct (znth_in_range cont idx) as [c Hc]; [lia|]. cbn [pn_ind_loop].
  destruct (pn_ind_slot_spec st cont o idx c Hpre Hc) as (st1 & -> & Hstep). cbn [mbind option_bind].
  pose proof (span_step mask idx idx_end Hm Hi He) as Hs. rewrite swept_step by done. cbv zeta in *.
  rewrite pn_ind_ref_cons with (c := c) by done. cbn [sweep]. rewrite Hc.
  set (v' := if Z.land (idx + 1) mask =? idx_end then [] else swept mask (Z.land (idx + 1) mask) idx_end) in *.
  assert (Hrest : forall o1, pn_ind_pre st1 (zset cont idx []) o1 -> exists st',
    (if Z.land (idx + 1) mask =? idx_end then Some st1
     else pn_ind_loop n mask idx_end st1 (Z.land (idx + 1) mask)) = Some st' /\
    pn_ind_result st1 (zset cont idx []) o1 (pn_ind_ref v' (pi_ie st1) (pi_cnt st1) (zset cont idx []))
      (sweep v' (zset cont idx [])).2 st').
  { intros o1 Hpre1. unfold v'. revert Hs. destruct (Z.land (idx + 1) mask =? idx_end); intros Hs.
    - exists st1. split; [done|]. split_and!; cbn [pn_ind_ref sweep fst snd]; rewrite ?app_nil_r; try done.
      apply filtered_refl.
    - apply IH; [by rewrite zlen_zset|by apply land_mask_range|done|lia]. }
  destruct (sweep v' (zset cont idx [])) as [l cont'] eqn:Hsw. cbn [snd] in *.
  pose proof (ids_take _ _ _ Hc) as Hp.
  destruct (bool_decide (c <> []) && negb (pi_cnt st =? 0) && bool_decide (list.head (pi_ie st) = Some idx)).
  - destruct Hstep as (Hpre1 & Hie & Hcn & Hfr & Her & Hfil). destruct (Hrest _ Hpre1) as (st' & Hrun & Hres).
    exists st'. split; [exact Hrun|]. rewrite Hie, Hcn in Hres.
    destruct (pn_ind_ref v' (tail (pi_ie st)) (pi_cnt st - 1) (zset cont idx [])) as [k g].
    destruct Hres as (H1 & H2 & H3 & H4). cbn [fst snd] in *. split; [done|]. split; [|split].
    + rewrite H2, Hfr. change (concat (k, c :: g).2) with (c ++ concat g). by rewrite msdus_app, app_assoc.
    + rewrite H3, Her. rewrite <- app_assoc. done.
    + eapply filtered_trans; [exact Hfil|exact H4|set_solver| |change (concat (k, c :: g).2) with (c ++ concat g); by rewrite msdus_app].
      rewrite Hp. set_solver.
  - destruct Hstep as (Hpre1 & Hie & Hcn & Hfr & Her & Hfil). destruct (Hrest _ Hpre1) as (st' & Hrun & Hres).
    exists st'. split; [exact Hrun|]. rewrite Hie, Hcn in Hres.
    destruct (pn_ind_ref v' (pi_ie st) (pi_cnt st) (zset cont idx [])) as [k g].
    destruct Hres as (H1 & H2 & H3 & H4). cbn [fst snd] in *. rewrite <- app_assoc in H1.
    split; [done|]. split; [by rewrite H2, Hfr|]. split; [by rewrite H3, Her|].
    eapply filtered_trans; [exact Hfil|exact H4|set_solver| |done].
    rewrite Hp, msdus_app. set_solver.
Qed.

Lemma pn_ind_ref_perm v ie cnt cont :
  (pn_ind_ref v ie cnt cont).1 ++ concat (pn_ind_ref v ie cnt cont).2 ≡ₚ (sweep v cont).1.
Proof.
  revert ie cnt cont. induction v as [|i v IH]; intros ie cnt cont; [done|]. cbn [pn_ind_ref sweep].
  set (c := default [] (znth cont i)). destruct (_ && _ && _).
  - specialize (IH (tail ie) (cnt - 1) (zset cont i [])).
    destruct (pn_ind_ref v (tail ie) (cnt - 1) (zset cont i [])) as [k g], (sweep v (zset cont i [])) as [l cont'].
    cbn [fst snd concat] in *. rewrite <- IH. solve_Permutation.
  - specialize (IH ie cnt (zset cont i [])).
    destruct (pn_ind_ref v ie cnt (zset cont i [])) as [k g], (sweep v (zset cont i [])) as [l cont'].
    cbn [fst snd concat] in *. rewrite <- IH. solve_Permutation.
Qed.

(** The peer after the indication, before the stage runs. *)
Definition pn_ind_peer (tid : Z) (r' : rx_reorder) (x : rx_peer) : rx_peer :=
  with_reorder tid r' (set_rp_fw_pn_check (fun _ => true) x).

(** What a packet number indication leaves: [k] went through the stage, the
    slots [g] were freed and reported. *)
Definition pn_indicated `{StackJunk} (s : rx_pdev) (p tid : Z) (x : rx_peer) (r : rx_reorder)
    (all : list Z) (k : list mpdu) (g : list (list mpdu)) (s' : rx_pdev) : Prop :=
  exists h slots errs, let x' := pn_ind_peer tid (set_slots slots r) x in
    let s2 := set_rx_errs (fun l => l ++ ((fun m => (p, tid, m)) <$> errs))
                (set_rx_freed (fun l => l ++ ids g) (with_peer p x' (with_heap h s))) in
    filtered (rx_heap s) h all (ids g) /\ Some <$> errs = mpdu_heads g /\ s' = match k with [] => s2 | _ => after_stage s2 p tid x' k end.

Section PnInd.
Context `{StackJunk}.
Context (s : rx_pdev) (C : contents) (peer_id p tid : Z) (x : rx_peer) (r : rx_reorder).
Context (HR : RxRep s C) (Hid : rx_peer_id_map s !! peer_id = Some p).
Context (Hp : rx_peers s !! p = Some x) (Hr : znth (rp_tids_rx_reorder x) tid = Some r).
Let mask := ro_win_sz_mask r.
Let cont := C (p, tid).

(** The slots [tid] keeps, once [k] and [g] are gone from the heap. *)
Lemma pn_ind_rep ix ie h h2 slots' k g s' x' :
  let W := window mask ix ie cont in
  array_pre h slots' W.2 k -> filtered (rx_heap s) h (ids cont) (ids g) -> relinked h h2 (msdus k) ->
  k ++ concat g ≡ₚ W.1 ->
  rx_heap s' = foldr delete h2 (msdus k) -> rx_peers s' = <[p := x']> (rx_peers s) ->
  rx_waitlist s' = rx_waitlist s -> tids_sized x' ->
  rp_tids_rx_reorder x' = zset (rp_tids_rx_reorder x) tid (set_slots slots' r) ->
  RxRep s' (<[(p, tid) := W.2]> C).
Proof.
  intros W Hpre Hfil Hrl Hperm Hh Hps Hw Hsz Hx'. destruct (window_ok s C p tid x r HR Hp Hr) as (Hm & Hlen & Hpre0 & _ & _).
  destruct (window_facts mask ix ie cont Hm Hlen) as [Hids HlenW]. fold W in Hids, HlenW.
  rewrite <- (msdus_perm _ _ Hperm), msdus_app in Hids.
  pose proof (array_length _ _ _ _ Hpre0) as Hls0. pose proof (array_length _ _ _ _ Hpre) as Hls.
  assert (Hat : reorder_at s p tid = Some r) by (unfold reorder_at; by rewrite Hp).
  eapply (RxRep_array s s' C p tid x x' r (set_slots slots' r)); try done.
  - apply set_slots_mask.
  - apply set_slots_tid.
  - rewrite Hh, set_slots_slots by (unfold cont in *; lia). apply array_drop. by eapply array_relinked_out.
  - intros i Hi. left. fold cont. rewrite Hids. apply elem_of_app. by right.
  - intros i k' Hk Hi. assert (Hni : i ∉ ids cont) by (intros Hi'; by apply (rep_disj _ _ HR k' (p, tid) Hk i)).
    rewrite Hids in Hni. apply not_elem_of_app in Hni as [[Hnk Hng]%not_elem_of_app HnW].
    rewrite Hh, foldr_delete_notin by done. rewrite (proj2 (Hrl i)) by done. apply Hfil; [|done].
    rewrite Hids. rewrite !not_elem_of_app. done.
  - rewrite Hw. apply HR.
  - rewrite set_slots_linked, Hw. by apply HR.
  - intros k' _. by rewrite Hw.
Qed.

Lemma ol_rx_pn_ind_handler_spec ix ie cnt pn_ie :
  0 <= cnt <= zlen pn_ie -> cnt < 256 ->
  let W := window mask ix ie cont in
  let R := pn_ind_ref (swept mask (Z.land ix mask) (Z.land ie mask)) pn_ie cnt cont in
  exists s', ol_rx_pn_ind_handler peer_id tid ix ie cnt pn_ie s = Some (tt, s') /\
    pn_indicated s p tid x r (ids cont) R.1 R.2 s' /\ RxRep s' (<[(p, tid) := W.2]> C).
Proof.
  intros Hcnt Hlt W R. destruct (window_ok s C p tid x r HR Hp Hr) as (Hm & Hlen & Hpre & Ht & Hsz).
  pose proof (land_mask_range mask ix Hm) as Hix. pose proof (land_mask_range mask ie Hm) as Hie.
  destruct (pn_ind_loop_spec mask (Z.land ie mask) (S (Z.to_nat mask)) Hm Hie
    (mk_pn_ind_state (rx_heap s) (ro_slots r) empty_slot pn_ie cnt [] []) cont [] (Z.land ix mask) Hlen Hix)
    as (st & Hloop & Hpre' & Hfr & Her & Hfil).
  { split; [exact Hpre|]. split; [apply slot_rep_empty|]. cbn. lia. }
  { pose proof (span_range mask (Z.land ix mask) (Z.land ie mask) Hm). lia. }
  cbn [pi_heap pi_slots pi_out pi_ie pi_cnt pi_freed pi_errs fmap list_fmap app] in *.
  fold R in Hpre', Hfr, Her, Hfil. fold (window mask ix ie cont) in Hpre'. fold W in Hpre'.
  destruct Hpre' as (Ha' & Hout & _). change (filtered (rx_heap s) (pi_heap st) (ids cont) (ids R.2)) in Hfil.
  pose proof (pn_ind_ref_perm (swept mask (Z.land ix mask) (Z.land ie mask)) pn_ie cnt cont) as Hperm.
  fold R in Hperm. fold (window mask ix ie cont) in Hperm. fold W in Hperm.
  set (x' := pn_ind_peer tid (set_slots (pi_slots st) r) x).
  set (s2 h := set_rx_errs (fun l => l ++ ((fun m => (p, tid, m)) <$> pi_errs st))
                 (set_rx_freed (fun l => l ++ ids R.2) (with_peer p x' (with_heap h s)))).
  assert (Hrun : ol_rx_pn_ind_handler peer_id tid ix ie cnt pn_ie s =
    match sl_head (pi_out st) with
    | None => Some (tt, s2 (pi_heap st))
    | Some a => match sl_tail (pi_out st) ≫= fun t => adf_nbuf_set_next (pi_heap st) t None with
                | Some h2 => rx_opt_proc_call p tid (Some a) (s2 h2)
                | None => None end
    end).
  { unfold ol_rx_pn_ind_handler. destruct (Z.leb_spec OL_TXRX_NUM_EXT_TIDS tid); [lia|].
    unfold ol_txrx_peer_find_by_id, mbind, M_bind, gets, get at 1. rewrite Hid.
    rewrite (upd_peer_at _ p x) by done. rewrite (get_reorder_at _ p tid r) by (unfold reorder_at; rewrite with_peer_lookup; done).
    fold mask. unfold lift at 1. rewrite Hloop. unfold put_heap, modify at 1.
    rewrite (upd_reorder_at _ p tid (set_rp_fw_pn_check (fun _ => true) x) r) by (done || apply with_peer_lookup).
    unfold log_rx_freed, modify at 1 2. rewrite Hfr.
    destruct (sl_head (pi_out st)) as [a|].
    - unfold lift at 1. destruct (sl_tail (pi_out st)) as [t|]; [|done]. unfold lift at 1, option_bind.
      destruct (adf_nbuf_set_next (pi_heap st) t None) as [h2|]; [|done]. unfold modify.
      f_equal. apply rx_pdev_eq; try reflexivity. cbn. by rewrite insert_insert_eq.
    - unfold skip. f_equal. f_equal. apply rx_pdev_eq; try reflexivity. cbn. by rewrite insert_insert_eq. }
  assert (Hsz' : tids_sized x') by sized.
  rewrite Hrun. destruct R.1 as [|m l] eqn:HRk.
  - apply slot_rep_nil in Hout as ->. cbn [sl_head empty_slot]. eexists. split; [done|].
    split; [by exists (pi_heap st), (pi_slots st), (pi_errs st)|].
    eapply (pn_ind_rep ix ie (pi_heap st) (pi_heap st) (pi_slots st) [] R.2 _ x'); done || apply relinked_refl.
  - pose proof Ha' as (_ & Hok & Hnd). apply list.NoDup_app in Hnd as (Hnd & _ & _).
    assert (Hne : msdus (m :: l) <> []) by (intros E; by apply (msdus_nil _ _ Hok) in E).
    destruct (slot_terminate _ _ _ Hout Hne Hnd) as (t & h2 & Htl & Hset & Hseg & Hrl2).
    rewrite Htl. cbn [mbind option_bind]. rewrite Hset, (head_hd_or _ _ _ Hout).
    destruct (hd_or None (msdus (m :: l))) as [a|] eqn:Ha; [|destruct (msdus (m :: l)); done].
    assert (Hlist : list_of h2 (m :: l)).
    { split_and!; [done| |done]. eapply mpdus_ok_filtered; [by apply filtered_relinked| |done].
      by intros i _ ?%not_elem_of_nil. }
    rewrite <- Ha, (rx_opt_proc_call_spec (s2 h2) p tid x' (m :: l)) by (done || apply with_peer_lookup).
    eexists. split; [done|]. split.
    { exists h2, (pi_slots st), (pi_errs st). split; [|done].
      destruct (window_facts mask ix ie cont Hm Hlen) as [Hids _]. fold W in Hids.
      eapply filtered_trans; [exact Hfil|apply filtered_relinked; exact Hrl2|done| |by rewrite app_nil_r].
      rewrite Hids, <- (msdus_perm _ _ Hperm), msdus_app. set_solver. }
    pose proof (after_stage_fields (s2 h2) p tid x' (m :: l)) as Hf. cbv zeta in Hf.
    destruct (verdict x' tid (m :: l)) as [[[k g] vv] q]. destruct Hf as (Hfh & Hfp & Hfw & _).
    eapply (pn_ind_rep ix ie (pi_heap st) h2 (pi_slots st) (m :: l) R.2 _ (with_last_pn tid vv q x')); try done.
    + rewrite Hfp. cbn. by rewrite insert_insert_eq.
    + sized.
Qed.
End PnInd.
