(* ===== verification/RxDefrag.v ===== *)
(** Collecting the fragments of an MPDU ([ol_rx_defrag.c]): inserting a
    fragment, recognising a complete list, the waitlist of incomplete ones and
    its time-out.  A complete list is handed to [ol_rx_defrag]. *)
From Stdlib Require Import ZArith Lia.
From stdpp Require Import prelude gmap list numbers.
From S2P Require Import Prelude.
From S2P Require Import RxTypes.
From S2P Require Import RxPn.
From S2P Require Import RxReorder.

(** ** [ol_rx_fraglist_insert] *)

(** [do { ... prev = cur; cur = adf_nbuf_next(cur); } while (fragno > cur_fragno)]:
    returns [prev], [cur] and [cur_fragno]. *)
Fixpoint frag_position (n : nat) (h : heap) (fragno : Z) (cur : option Z) : option (Z * option Z * Z) :=
  match n with
  | O => None
  | S n' =>
    c ← cur;
    d ← htt_rx_msdu_desc_retrieve h c;
    next ← adf_nbuf_next h c;
    if rd_fragno d <? fragno then frag_position n' h fragno next
    else Some (c, next, rd_fragno d)
  end.

Section FragCheck.
Context (pn_len : Z) (junk : pn).

(** The loop that checks fragment and packet numbers; true when it reaches
    the end of the list. *)
Fixpoint frag_check (n : nat) (h : heap) (next : option Z) (curr_pn : pn) (count : Z) : option bool :=
  match n with
  | O => None
  | S n' =>
    a ← next;
    d ← htt_rx_msdu_desc_retrieve h a;
    let next_pn := htt_rx_mpdu_desc_pn d junk pn_len in
    let count := u8 (count + 1) in
    if negb (rd_fragno d =? count) then Some false
    else if negb (pn_len =? 0) && negb (ol_rx_pn_strict_chk next_pn curr_pn pn_len) then Some false
    else
      next ← adf_nbuf_next h a;
      match next with
      | None => Some true
      | Some _ => frag_check n' h next (if pn_len =? 0 then curr_pn else next_pn) count
      end
  end.
End FragCheck.

(** What the insertion leaves: the heap, the slot, [*all_frag_present], and
    the fragment if it was freed as a duplicate. *)
Record inserted := mk_inserted {
  in_heap : heap;
  in_slot : slot;
  in_all_present : bool;
  in_freed : list Z }.

(** The last part: is the list complete? *)
Definition frag_complete `{StackJunk} (x : rx_peer) (h : heap) (head tail : Z) : option bool :=
  next ← adf_nbuf_next h head;
  ld ← htt_rx_msdu_desc_retrieve h tail;
  if rd_more_frag ld then Some false
  else
    d ← htt_rx_msdu_desc_retrieve h head;
    let pn_len := rx_pn_len (sec_type_of x d) in
    let curr_pn := if pn_len =? 0 then junk_pn else htt_rx_mpdu_desc_pn d junk_pn pn_len in
    frag_check pn_len junk_pn (heap_fuel h) h next curr_pn 0.

Definition ol_rx_fraglist_insert `{StackJunk} (x : rx_peer) (h : heap) (e : slot) (frag : Z) : option inserted :=
  d ← htt_rx_msdu_desc_retrieve h frag;
  let fragno := rd_fragno d in
  match sl_head e with
  | None => h ← adf_nbuf_set_next h frag None;
            Some (mk_inserted h (mk_slot (Some frag) (Some frag)) false [])
  | Some head =>
    tail ← sl_tail e;
    ld ← htt_rx_msdu_desc_retrieve h tail;
    if rd_fragno ld <? fragno then
      h ← adf_nbuf_set_next h tail (Some frag);
      h ← adf_nbuf_set_next h frag None;
      all ← frag_complete x h head frag;
      Some (mk_inserted h (mk_slot (Some head) (Some frag)) all [])
    else
      '(prev, cur, cur_fragno) ← frag_position (heap_fuel h) h fragno (Some head);
      if fragno =? cur_fragno then
        h ← htt_rx_desc_frame_free h frag;
        Some (mk_inserted h e false [frag])
      else
        h ← adf_nbuf_set_next h prev (Some frag);
        h ← adf_nbuf_set_next h frag cur;
        all ← frag_complete x h head tail;
        Some (mk_inserted h e all [])
  end.

(** ** [ol_rx_reorder_store_frag] *)

Definition put_slot (p tid seq : Z) (e : slot) : M rx_pdev unit :=
  r ← get_reorder p tid; upd_reorder p tid (set_slots (zset (ro_slots r) seq e)).

(** Free the fragments stored so far when the new one belongs to another MPDU. *)
Definition drop_mismatch (p tid seq : Z) (d : rx_desc) (e : slot) : M rx_pdev slot :=
  match sl_head e with
  | None => mret e
  | Some hd =>
    s ← get;
    fd ← lift (htt_rx_msdu_desc_retrieve (rx_heap s) hd);
    if negb (rd_rxseq d =? rd_rxseq fd) || negb (rd_addr1 d =? rd_addr1 fd) || negb (rd_addr2 d =? rd_addr2 fd) then
      rx_frames_free (sl_head e);; put_slot p tid seq empty_slot;; mret empty_slot
    else mret e
  end.

Definition ol_rx_reorder_store_frag `{StackJunk} (p tid seq_num frag : Z) : M rx_pdev unit :=
  x ← get_peer p;
  r ← get_reorder p tid;
  let seq := Z.land seq_num (ro_win_sz_mask r) in
  e ← lift (znth (ro_slots r) seq);
  s ← get;
  d ← lift (htt_rx_msdu_desc_retrieve (rx_heap s) frag);
  if rd_mcast d then rx_frames_free (Some frag)
  else if negb (bool_decide (rp_sec_ucast x = htt_sec_type_none)) && negb (rd_encrypted d) then
    rx_frames_free (Some frag)
  else if negb (rd_more_frag d) && (rd_fragno d =? 0) && bool_decide (sl_head e = None) then
    i ← lift (ol_rx_fraglist_insert x (rx_heap s) e frag);
    h ← lift (adf_nbuf_set_next (in_heap i) frag None);
    put_heap h;;
    hand_over to_defrag p tid (sl_head (in_slot i));;
    put_slot p tid seq empty_slot
  else
    e ← drop_mismatch p tid seq d e;
    s ← get;
    i ← lift (ol_rx_fraglist_insert x (rx_heap s) e frag);
    put_heap (in_heap i);;
    log_rx_freed (in_freed i);;
    put_slot p tid seq (in_slot i);;
    when (rx_defrag_timeout_check s) (ol_rx_defrag_waitlist_remove p tid);;
    if in_all_present i then
      hand_over to_defrag p tid (sl_head (in_slot i));;
      put_slot p tid seq empty_slot;;
      upd_reorder p tid (set_ro_defrag_timeout_ms (fun _ => 0));;
      put_last_seq p tid seq_num
    else
      when (rx_defrag_timeout_check s)
        (upd_reorder p tid (set_ro_defrag_timeout_ms (fun _ => u32 (rx_now_ms s + rx_defrag_timeout_ms s)));;
         ol_rx_defrag_waitlist_add p tid).

(** ** The waitlist's time-out *)

Fixpoint waitlist_flush_loop (l : list (Z * Z)) : M rx_pdev unit :=
  match l with
  | [] => skip
  | (p, tid) :: rest =>
    s ← get;
    r ← get_reorder p tid;
    if rx_now_ms s <? ro_defrag_timeout_ms r then skip
    else if OL_TXRX_NUM_EXT_TIDS <=? ro_tid r then waitlist_flush_loop rest
    else
      ol_rx_defrag_waitlist_remove p (ro_tid r);;
      ol_rx_reorder_flush_frag p (ro_tid r) 0;;
      waitlist_flush_loop rest
  end.

Definition ol_rx_defrag_waitlist_flush : M rx_pdev unit := s ← get; waitlist_flush_loop (rx_waitlist s).

(** ** [ol_rx_frag_indication_handler]

    The message, as HTT decodes it: the flush's start sequence number when it
    asks for one, the fragment popped and the sequence number of its
    descriptor. *)
Record frag_ind := mk_frag_ind {
  fi_flush : option Z;
  fi_frag : Z;
  fi_seq_num : Z }.

Definition ol_rx_frag_indication_handler `{StackJunk} (peer_id tid : Z) (msg : frag_ind) : M rx_pdev unit :=
  if OL_TXRX_NUM_EXT_TIDS <=? tid then skip
  else
    peer ← ol_txrx_peer_find_by_id peer_id;
    match peer with
    | Some p =>
      match fi_flush msg with
      | Some seq_num_start => ol_rx_reorder_flush_frag p tid seq_num_start
      | None => skip
      end;;
      ol_rx_reorder_store_frag p tid (fi_seq_num msg) (fi_frag msg)
    | None =>
      s ← get;
      h ← lift (htt_rx_desc_frame_free (rx_heap s) (fi_frag msg));
      put_heap h;; log_rx_freed [fi_frag msg]
    end.
