(* ===== verification/RxInd.v ===== *)
(** The receive indication ([ol_rx_indication_handler] in [ol_rx.c]): the
    message that brings MPDUs into the reorder array and asks for flushes and
    releases. *)
From Stdlib Require Import ZArith Lia.
From stdpp Require Import prelude gmap list numbers.
From S2P Require Import Prelude.
From S2P Require Import RxTypes.
From S2P Require Import RxPn.
From S2P Require Import RxReorder.
From S2P Require Import RxDefrag.

(** An MPDU as HTT pops it ([htt_rx_amsdu_pop], [htt_rx_mpdu_desc_list_next]):
    its MSDUs are allocated and linked from [pm_head] to [pm_tail]. *)
Record popped_mpdu := mk_popped_mpdu {
  pm_chaining : bool;
  pm_head : Z;
  pm_tail : Z;
  pm_desc : rx_desc;
  pm_has_key_id : bool }.

(** The message: the flush and release ranges it carries, and the MPDU ranges
    with their status. *)
Record rx_ind := mk_rx_ind {
  ri_flush : option (Z * Z);
  ri_release : option (Z * Z);
  ri_ranges : list (htt_rx_status * list popped_mpdu) }.

(** [while (1) { next = ...; free; if (head == tail) break; head = next; }]. *)
Definition discard_mpdu (m : popped_mpdu) : M rx_pdev unit :=
  s ← get;
  '(h, l) ← lift (free_mpdu (heap_fuel (rx_heap s)) (rx_heap s) (Some (pm_head m)) (Some (pm_tail m)));
  put_heap h;; log_rx_freed l.

(** [OL_RX_SEQ_NUM_CHECK]. *)
Definition seq_num_check (p tid : Z) (d : rx_desc) : M rx_pdev htt_rx_status :=
  s ← get;
  if rx_dup_check s then
    r ← get_reorder p tid;
    if ro_win_sz_mask r =? 0 then ol_rx_seq_num_check p tid d else mret htt_rx_status_ok
  else mret htt_rx_status_ok.

(** One MPDU of a good range; returns false when it clears [rx_ind_release]. *)
Definition rx_ind_mpdu (p tid : Z) (m : popped_mpdu) : M rx_pdev bool :=
  if pm_chaining m then discard_mpdu m;; mret true
  else
    let reorder_idx := rd_reorder_idx (pm_desc m) in
    mpdu_status ← seq_num_check p tid (pm_desc m);
    if negb (bool_decide (mpdu_status = htt_rx_status_ok)) then discard_mpdu m;; mret false
    else
      ol_rx_reorder_store p tid reorder_idx (pm_head m) (pm_tail m);;
      ol_rx_reorder_update_history p reorder_store tid 0 0 reorder_idx;;
      r ← get_reorder p tid;
      when (ro_win_sz_mask r =? 0) (put_last_seq p tid (rd_seq_num (pm_desc m)));;
      mret true.

(** One MPDU of a bad range, or of an unknown peer. *)
Definition rx_ind_bad_mpdu (peer : option Z) (tid : Z) (status : htt_rx_status) (m : popped_mpdu) : M rx_pdev unit :=
  match peer with
  | Some p => when (bool_decide (status = htt_rx_status_tkip_mic_err) && pm_has_key_id m)
                (modify (set_rx_errs (fun l => l ++ [(p, tid, pm_head m)])))
  | None => skip
  end;;
  discard_mpdu m.

Fixpoint rx_ind_mpdus (peer : option Z) (tid : Z) (status : htt_rx_status) (l : list popped_mpdu) (rel : bool)
  : M rx_pdev bool :=
  match l with
  | [] => mret rel
  | m :: rest =>
    rel ← match peer with
          | Some p => if bool_decide (status = htt_rx_status_ok) then ok ← rx_ind_mpdu p tid m; mret (rel && ok)
                      else rx_ind_bad_mpdu peer tid status m;; mret rel
          | None => rx_ind_bad_mpdu peer tid status m;; mret rel
          end;
    rx_ind_mpdus peer tid status rest rel
  end.

Fixpoint rx_ind_ranges (peer : option Z) (tid : Z) (l : list (htt_rx_status * list popped_mpdu)) (rel : bool)
  : M rx_pdev bool :=
  match l with
  | [] => mret rel
  | (status, mpdus) :: rest => rel ← rx_ind_mpdus peer tid status mpdus rel; rx_ind_ranges peer tid rest rel
  end.

Definition ol_rx_indication_handler `{StackJunk} (peer_id tid : Z) (msg : rx_ind) : M rx_pdev unit :=
  peer ← ol_txrx_peer_find_by_id peer_id;
  s ← get;
  let peer := match peer with Some p => Some p | None => rx_ocb_peer s end in
  match peer, ri_flush msg with
  | Some p, Some (seq_num_start, seq_num_end) =>
    if tid =? HTT_INVALID_TID then ol_rx_reorder_peer_cleanup p
    else
      ol_rx_reorder_flush p tid seq_num_start seq_num_end htt_rx_flush_release;;
      ol_rx_reorder_update_history p reorder_flush tid seq_num_start seq_num_end 0
  | _, _ => skip
  end;;
  rx_ind_release ← rx_ind_ranges peer tid (ri_ranges msg) (bool_decide (is_Some (ri_release msg)));
  match peer, ri_release msg with
  | Some p, Some (seq_num_start, seq_num_end) =>
    when rx_ind_release
      (ol_rx_reorder_release p tid seq_num_start seq_num_end;;
       ol_rx_reorder_update_history p reorder_release tid seq_num_start seq_num_end 0)
  | _, _ => skip
  end;;
  s ← get;
  when (rx_defrag_timeout_check s) ol_rx_defrag_waitlist_flush.
