(* ===== verification/RxReplay.v ===== *)
(** Replay protection over a whole conversation: a peer-TID's lists handed to
    the stage one after the other.  What the device delivers carries strictly
    increasing packet numbers, and in-order traffic is delivered whole. *)
From Stdlib Require Import ZArith Lia Sorting.Sorted.
From stdpp Require Import prelude gmap list numbers sorting.
From S2P Require Import Prelude.
From S2P Require Import RxTypes.
From S2P Require Import RxList.
From S2P Require Import RxPn.
From S2P Require Import RxPnSpec.
From S2P Require Import RxStage.
From S2P Require Import RxReorder.
From S2P Require Import RxArray.
From S2P Require Import RxInv.
From S2P Require Import RxOps.

(** ** More about the filter *)
Section Filter.
Context (key : pn -> Z) (pn_len : Z) (junk : pn).
Notation cmp := (fun n o => key n <=? key o).
Notation keys := (pn_keys key pn_len junk).

Lemma pn_keys_app l k : keys (l ++ k) = keys l ++ keys k.
Proof. unfold pn_keys. by rewrite list.filter_app, fmap_app. Qed.

(** The first encrypted MPDU makes [last_pn] valid for good. *)
Lemma pn_filter_invalid valid last l k g p :
  pn_filter cmp pn_len junk valid last l = (k, g, false, p) -> valid = false /\ keys k = [].
Proof.
  revert valid last k g p. induction l as [|m l IH]; intros valid last k g p; simpl.
  { by intros [= <- <- -> <-]. }
  destruct (rd_encrypted m.1) eqn:He; simpl.
  - destruct (valid && _); destruct (pn_filter _ _ _ true _ l) as [[[k0 g0] v0] p0] eqn:Hf;
      intros [= <- <- -> <-]; by destruct (IH _ _ _ _ _ Hf).
  - destruct (pn_filter _ _ _ valid last l) as [[[k0 g0] v0] p0] eqn:Hf. intros [= <- <- -> <-].
    destruct (IH _ _ _ _ _ Hf) as [-> Hk]. split; [done|].
    unfold pn_keys. rewrite list.filter_cons_False by (by rewrite He). done.
Qed.

(** In-order traffic passes whole; [last_pn] follows it. *)
Lemma pn_filter_keeps valid last l :
  StronglySorted Z.lt (keys l) -> (valid = true -> Forall (Z.lt (key last)) (keys l)) ->
  exists v p, pn_filter cmp pn_len junk valid last l = (l, [], v, p) /\
    (v = true -> key p ∈ keys l \/ (valid = true /\ p = last)).
Proof.
  revert valid last. induction l as [|m l IH]; intros valid last Hs Hl; simpl; [eexists _, _; by auto|].
  unfold pn_keys in Hs, Hl |- *. destruct (rd_encrypted m.1) eqn:He; simpl.
  - rewrite list.filter_cons_True in Hs, Hl |- * by done. cbn [fmap list_fmap] in Hs, Hl |- *.
    apply StronglySorted_inv in Hs as [Hs Hm].
    assert (valid && (key (pn_of pn_len junk m) <=? key last) = false) as ->.
    { destruct valid; [|done]. specialize (Hl eq_refl). apply list.Forall_cons in Hl as [Hl _]. simpl. lia. }
    destruct (IH true (pn_of pn_len junk m)) as (v & p & -> & Hp); [done|done|]. eexists _, _. split; [done|].
    intros Hv. left. apply elem_of_cons. destruct (Hp Hv) as [Hi|[_ ->]]; auto.
  - rewrite list.filter_cons_False in Hs, Hl |- * by (by rewrite He).
    destruct (IH valid last) as (v & p & -> & Hp); [done|done|]. by eexists _, _.
Qed.
End Filter.

(** ** A conversation *)

Lemma elem_of_msdus (l : list mpdu) i : i ∈ msdus l <-> exists m, m ∈ l /\ i ∈ m.2.
Proof.
  rewrite list_elem_of_In, in_concat. split.
  - intros (r & Hr & Hi). apply list_elem_of_In, list_elem_of_fmap in Hr as (m & -> & Hm). exists m.
    split; [done|by apply list_elem_of_In].
  - intros (m & Hm & Hi). exists m.2. split; apply list_elem_of_In; [by apply list_elem_of_fmap_2|done].
Qed.

Section Process.
Context `{StackJunk}.

(** The lists the reordering hands to the stage, one after the other. *)
Definition process (p tid : Z) (ls : list (list mpdu)) : M rx_pdev unit :=
  for_each ls (fun l => rx_opt_proc_call p tid (hd_or None (msdus l))).

(** The MPDUs kept and dropped of each list, and the peer afterwards. *)
Fixpoint verdicts (x : rx_peer) (tid : Z) (ls : list (list mpdu))
  : list (list mpdu) * list (list mpdu) * rx_peer :=
  match ls with
  | [] => ([], [], x)
  | l :: rest =>
    let '(k, g, v, q) := verdict x tid l in
    let '(ks, gs, x') := verdicts (with_last_pn tid v q x) tid rest in (k :: ks, g :: gs, x')
  end.

Lemma list_of_delete h l d : list_of h l -> msdus l ## d -> list_of (foldr delete h d) l.
Proof.
  intros (Hs & Hok & Hnd) Hd. pose proof (filtered_delete h d []) as Hf. split_and!; [| |done].
  - eapply seg_filtered; [exact Hf|set_solver|done|done].
  - by eapply mpdus_ok_filtered.
Qed.

Lemma with_last_pn_sized tid v q x : tids_sized x -> tids_sized (with_last_pn tid v q x).
Proof. intros (H1 & H2 & H3 & H4 & H5 & H6). unfold tids_sized, with_last_pn. simpl. rewrite !zlen_zset. done. Qed.

Definition stage_deliveries (x : rx_peer) (p tid : Z) (ks : list (list mpdu)) : list delivery :=
  match proc_sink (rp_opt_proc x) with
  | Some sk => (fun k => mk_delivery sk p tid (msdus k)) <$> ks
  | None => []
  end.

Lemma process_spec p tid ls s x :
  rx_peers s !! p = Some x -> tids_sized x -> 0 <= tid < OL_TXRX_NUM_EXT_TIDS ->
  Forall (fun l => l <> [] /\ list_of (rx_heap s) l) ls -> NoDup (msdus (concat ls)) ->
  exists s', process p tid ls s = Some (tt, s') /\
    let '(ks, gs, x') := verdicts x tid ls in
    rx_delivered s' = rx_delivered s ++ stage_deliveries x p tid ks /\
    rx_freed s' = rx_freed s ++ msdus (concat gs) /\
    rx_peers s' !! p = Some x'.
Proof.
  revert s x. induction ls as [|l ls IH]; intros s x Hp Hx Ht Hls Hnd.
  { exists s. unfold stage_deliveries. simpl. rewrite app_nil_r. split; [done|].
    destruct (proc_sink (rp_opt_proc x)); simpl; by rewrite app_nil_r. }
  apply list.Forall_cons in Hls as [[Hne Hl] Hls]. cbn [concat] in Hnd. rewrite msdus_app in Hnd.
  apply list.NoDup_app in Hnd as (_ & Hd & Hnd). unfold process. cbn [for_each]. unfold mbind at 1, M_bind at 1.
  rewrite (rx_opt_proc_call_spec s p tid x l Hp Hx Ht Hne Hl). cbn [verdicts].
  pose proof (after_stage_fields s p tid x l) as Hf. cbv zeta in Hf.
  destruct (verdict x tid l) as [[[k g] v] q]. destruct Hf as (Hfh & Hfp & _ & Hff & Hfd).
  destruct (IH (after_stage s p tid x l) (with_last_pn tid v q x)) as (s' & Hrun & Hres); try done.
  - rewrite Hfp. apply lookup_insert_eq.
  - by apply with_last_pn_sized.
  - rewrite Hfh. apply list.Forall_forall. intros l' Hl'.
    pose proof (proj1 (list.Forall_forall _ _) Hls l' Hl') as [Hne' Hlo]. split; [done|].
    apply list_of_delete; [done|]. intros i Hi Hi'. apply (Hd i Hi').
    apply elem_of_msdus in Hi as (m & Hm & Him). apply elem_of_msdus. exists m. split; [|done].
    apply list_elem_of_In, in_concat. exists l'. by split; apply list_elem_of_In.
  - exists s'. split; [exact Hrun|]. destruct (verdicts (with_last_pn tid v q x) tid ls) as [[ks gs] x'].
    destruct Hres as (Hrd & Hrf & Hrp). cbn [concat]. split_and!; [| |done].
    + rewrite Hrd, Hfd. unfold stage_deliveries. simpl. rewrite <- app_assoc. f_equal.
      by destruct (proc_sink (rp_opt_proc x)).
    + rewrite Hrf, Hff, <- app_assoc, msdus_app. done.
Qed.

(** ** 48-bit packet numbers: TKIP and CCMP *)

Definition key48 (q : pn) : Z := Z.land q.1 0xffffffffffff.

(** The host checks 48-bit packet numbers of every list. *)
Definition checks_48 (x : rx_peer) (ls : list (list mpdu)) : Prop :=
  proc_checks (rp_opt_proc x) = true /\ rp_fw_pn_check x = false /\ rp_opmode x <> wlan_op_mode_ibss /\
  Forall (fun l => rx_pn_len (sec_of_list x l) = 48) ls.

Lemma verdict_48 x tid l :
  checks_48 x [l] ->
  verdict x tid l = pn_filter (fun n o => key48 n <=? key48 o) 48 junk_pn (last_pn_at x tid).1 (last_pn_at x tid).2 l.
Proof.
  intros (Hc & Hfw & Hop & Hl). apply list.Forall_cons in Hl as [Hl _]. unfold verdict, pn_decision.
  destruct (last_pn_at x tid) as [v q]. unfold pn_checked. rewrite Hfw, bool_decide_eq_false_2, Hl by done. simpl.
  destruct (rx_pn_cmp (sec_of_list x l)) as [cmp|] eqn:E; [|by destruct (sec_of_list x l)].
  assert (cmp = ol_rx_pn_cmp48) as -> by (destruct (sec_of_list x l); simpl in *; congruence).
  by destruct (rp_opt_proc x).
Qed.

Lemma last_pn_at_with tid v q x :
  tids_sized x -> 0 <= tid < OL_TXRX_NUM_EXT_TIDS -> last_pn_at (with_last_pn tid v q x) tid = (v, q).
Proof.
  intros (_ & H1 & H2 & _) Ht. unfold last_pn_at, with_last_pn. simpl.
  by rewrite !znth_zset_eq by lia.
Qed.

Lemma verdicts_48 x tid ls :
  tids_sized x -> 0 <= tid < OL_TXRX_NUM_EXT_TIDS -> checks_48 x ls ->
  let '(ks, gs, x') := verdicts x tid ls in
  let keys := pn_keys key48 48 junk_pn in let '(v, q) := last_pn_at x tid in let '(v', q') := last_pn_at x' tid in
  StronglySorted Z.lt (keys (concat ks)) /\ (v = true -> Forall (Z.lt (key48 q)) (keys (concat ks))) /\
  (v = true -> v' = true /\ key48 q <= key48 q') /\
  Forall (fun m => v' = true /\ key48 (pn_of 48 junk_pn m) <= key48 q') (concat gs) /\
  (v' = true -> Forall (fun n => n <= key48 q') (keys (concat ks))) /\
  (v' = false -> keys (concat ks) = []) /\ concat ks ++ concat gs ≡ₚ concat ls.
Proof.
  revert x. induction ls as [|l ls IH]; intros x Hx Ht (Hc & Hfw & Hop & Hls).
  { simpl. destruct (last_pn_at x tid) as [v q]. unfold pn_keys. simpl. split_and!; try done; by constructor. }
  apply list.Forall_cons in Hls as [Hl Hls]. cbn [verdicts].
  rewrite verdict_48 by (repeat split; try done; by constructor).
  destruct (last_pn_at x tid) as [v q] eqn:Hvq. cbn [fst snd].
  destruct (pn_filter _ _ _ v q l) as [[[k g] v1] q1] eqn:Hf.
  specialize (IH (with_last_pn tid v1 q1 x) (with_last_pn_sized _ _ _ _ Hx) Ht).
  destruct (verdicts (with_last_pn tid v1 q1 x) tid ls) as [[ks gs] x'].
  rewrite last_pn_at_with in IH by done. destruct (last_pn_at x' tid) as [v' q'].
  destruct IH as (I1 & I2 & I3 & I4 & I5 & I6 & I7).
  { by split_and!. }
  destruct (pn_filter_increasing _ _ _ _ _ _ _ _ _ _ Hf) as (F1 & F2 & F3 & F4).
  pose proof (pn_filter_dropped _ _ _ _ _ _ _ _ _ _ Hf) as F5.
  pose proof (pn_filter_perm _ _ _ _ _ _ _ _ _ _ Hf) as F6.
  assert (F7 : v1 = false -> v = false /\ pn_keys key48 48 junk_pn k = []).
  { intros ->. by eapply pn_filter_invalid. }
  cbn [concat]. rewrite pn_keys_app. split_and!.
  - destruct v1; [|destruct F7 as [_ ->]; [done|]; done].
    apply StronglySorted_app_2; [|done|done]. intros a b Ha Hb.
    pose proof (proj1 (list.Forall_forall _ _) (F3 eq_refl) a Ha). pose proof (proj1 (list.Forall_forall _ _) (I2 eq_refl) b Hb).
    simpl in *. lia.
  - intros Hv. destruct (F4 Hv) as [-> Hle]. apply Forall_app. split; [by apply F2|].
    eapply list.Forall_impl; [by apply I2|]. simpl. intros b Hb. lia.
  - intros Hv. destruct (F4 Hv) as [-> Hle]. destruct (I3 eq_refl). split; [done|lia].
  - apply Forall_app. split; [|done]. eapply list.Forall_impl; [exact F5|]. intros m [-> Hm].
    destruct (I3 eq_refl). split; [done|lia].
  - intros Hv'. apply Forall_app. split; [|by apply I5]. destruct v1.
    + destruct (I3 eq_refl). eapply list.Forall_impl; [by apply F3|]. simpl. intros. lia.
    + destruct F7 as [_ ->]; [done|constructor].
  - intros Hv'. destruct v1; [destruct (I3 eq_refl); congruence|]. destruct F7 as [_ ->]; [done|]. by apply I6.
  - rewrite <- I7, <- F6. solve_Permutation.
Qed.

(** Traffic in order of its packet numbers is kept whole. *)
Lemma verdicts_keep x tid ls :
  tids_sized x -> 0 <= tid < OL_TXRX_NUM_EXT_TIDS -> checks_48 x ls ->
  let keys := pn_keys key48 48 junk_pn (concat ls) in
  StronglySorted Z.lt keys -> ((last_pn_at x tid).1 = true -> Forall (Z.lt (key48 (last_pn_at x tid).2)) keys) ->
  (verdicts x tid ls).1.1 = ls.
Proof.
  cbv zeta. revert x. induction ls as [|l ls IH]; intros x Hx Ht (Hc & Hfw & Hop & Hls) Hs Hv; [done|].
  apply list.Forall_cons in Hls as [Hl Hls]. cbn [verdicts concat] in *. rewrite pn_keys_app in Hs, Hv.
  rewrite verdict_48 by (repeat split; try done; by constructor).
  destruct (last_pn_at x tid) as [v q] eqn:Hvq. cbn [fst snd] in *.
  destruct (pn_filter_keeps key48 48 junk_pn v q l) as (v1 & q1 & Hf & Hq1).
  { by eapply StronglySorted_app_1_l. }
  { intros Hv1. specialize (Hv Hv1). by apply Forall_app in Hv as [Hv _]. }
  rewrite Hf. specialize (IH (with_last_pn tid v1 q1 x) (with_last_pn_sized _ _ _ _ Hx) Ht).
  rewrite last_pn_at_with in IH by done. cbn [fst snd] in IH.
  destruct (verdicts (with_last_pn tid v1 q1 x) tid ls) as [[ks gs] x'].
  simpl. f_equal. cbn [fst] in IH. apply IH.
  - by split_and!.
  - by eapply StronglySorted_app_1_r.
  - intros ->. destruct (Hq1 eq_refl) as [Hi|[Hv1 ->]].
    + apply list.Forall_forall. intros b Hb. by eapply StronglySorted_app_1_elem_of.
    + specialize (Hv Hv1). by apply Forall_app in Hv as [_ Hv].
Qed.
End Process.
