(* ===== verification/RxFrame.v ===== *)
(** What no operation of the receive path touches, proved for every
    computation by its structure: the peer map, the configuration, which peers
    exist; the logs only grow, and a history ring stays a ring. *)
From Stdlib Require Import ZArith Lia.
From stdpp Require Import prelude gmap list numbers.
From S2P Require Import Prelude.
From S2P Require Import RxTypes.
From S2P Require Import RxPn.
From S2P Require Import RxReorder.
From S2P Require Import RxInv.
From S2P Require Import RxDefrag.
From S2P Require Import RxInd.

(** A history is a ring of [OL_MAX_RX_REORDER_HISTORY] records, with its next
    position inside. *)
Definition history_ok (o : option reorder_history) : Prop :=
  match o with
  | None => True
  | Some h => zlen (rh_record h) = OL_MAX_RX_REORDER_HISTORY /\ 0 <= rh_curr_index h < OL_MAX_RX_REORDER_HISTORY
  end.

Record peer_frame (x x' : rx_peer) : Prop := {
  pf_opmode : rp_opmode x' = rp_opmode x;
  pf_local_id : rp_local_id x' = rp_local_id x;
  pf_opt_proc : rp_opt_proc x' = rp_opt_proc x;
  pf_sec_mcast : rp_sec_mcast x' = rp_sec_mcast x;
  pf_sec_ucast : rp_sec_ucast x' = rp_sec_ucast x;
  pf_history : history_ok (rp_history x) -> history_ok (rp_history x') }.

Record Frame (s s' : rx_pdev) : Prop := {
  fr_peer_id_map : rx_peer_id_map s' = rx_peer_id_map s;
  fr_ocb_peer : rx_ocb_peer s' = rx_ocb_peer s;
  fr_timeout_check : rx_defrag_timeout_check s' = rx_defrag_timeout_check s;
  fr_timeout_ms : rx_defrag_timeout_ms s' = rx_defrag_timeout_ms s;
  fr_dup_check : rx_dup_check s' = rx_dup_check s;
  fr_now_ms : rx_now_ms s' = rx_now_ms s;
  fr_peers : forall q, match rx_peers s !! q, rx_peers s' !! q with
                       | None, None => True | Some x, Some x' => peer_frame x x' | _, _ => False end;
  fr_freed : exists l, rx_freed s' = rx_freed s ++ l;
  fr_delivered : exists l, rx_delivered s' = rx_delivered s ++ l }.

#[export] Instance peer_frame_preorder : PreOrder peer_frame.
Proof.
  split; [by intros x; split|]. intros x y z [] []. split; try congruence. auto.
Qed.

#[export] Instance Frame_preorder : PreOrder Frame.
Proof.
  split.
  - intros s. split; try done; [|exists []; by rewrite app_nil_r..]. intros q. by destruct (rx_peers s !! q).
  - intros s1 s2 s3 [] []. split; try congruence.
    + intros q. specialize (fr_peers0 q). specialize (fr_peers1 q).
      destruct (rx_peers s1 !! q), (rx_peers s2 !! q), (rx_peers s3 !! q); try done. by etransitivity.
    + destruct fr_freed1 as [l' ->], fr_freed0 as [l ->]. exists (l ++ l'). by rewrite app_assoc.
    + destruct fr_delivered1 as [l' ->], fr_delivered0 as [l ->]. exists (l ++ l'). by rewrite app_assoc.
Qed.

(** ** Computations that keep the frame *)

Notation keeps := (Prelude.keeps Frame).

Create HintDb rxframe discriminated.

Section Keeps.
Lemma Frame_peer s p x x' : rx_peers s !! p = Some x -> peer_frame x x' -> Frame s (set_rx_peers (<[p := x']>) s).
Proof.
  intros Hp Hx. split; try done; [|exists []; by rewrite app_nil_r..]. intros q. cbn.
  destruct (decide (q = p)) as [->|Hq]; [by rewrite lookup_insert_eq, Hp|].
  rewrite lookup_insert_ne by done. by destruct (rx_peers s !! q).
Qed.

Lemma keeps_get_peer p : keeps (get_peer p).
Proof. apply (keeps_bind Frame); [apply (keeps_get Frame)|intros; apply (keeps_lift Frame)]. Qed.

Lemma keeps_upd_peer p f : (forall x, peer_frame x (f x)) -> keeps (upd_peer p f).
Proof.
  intros Hf s b s' H. unfold upd_peer, get_peer, mbind, M_bind, get, lift, modify in H.
  destruct (rx_peers s !! p) as [x|] eqn:Hp; [|done]. injection H as _ <-. by eapply Frame_peer.
Qed.

(** Updates that leave the frame of the device alone. *)
Lemma Frame_heap s f : Frame s (set_rx_heap f s).
Proof. split; try done; [|exists []; by rewrite app_nil_r..]. intros q. cbn. by destruct (rx_peers s !! q). Qed.
Lemma Frame_waitlist s f : Frame s (set_rx_waitlist f s).
Proof. split; try done; [|exists []; by rewrite app_nil_r..]. intros q. cbn. by destruct (rx_peers s !! q). Qed.
Lemma Frame_replays s f : Frame s (set_rx_pn_replays f s).
Proof. split; try done; [|exists []; by rewrite app_nil_r..]. intros q. cbn. by destruct (rx_peers s !! q). Qed.
Lemma Frame_errs s f : Frame s (set_rx_errs f s).
Proof. split; try done; [|exists []; by rewrite app_nil_r..]. intros q. cbn. by destruct (rx_peers s !! q). Qed.
Lemma Frame_holes s f : Frame s (set_rx_holes f s).
Proof. split; try done; [|exists []; by rewrite app_nil_r..]. intros q. cbn. by destruct (rx_peers s !! q). Qed.
Lemma Frame_freed s l : Frame s (set_rx_freed (fun f => f ++ l) s).
Proof.
  split; try done; [|by exists l|exists []; by rewrite app_nil_r]. intros q. cbn. by destruct (rx_peers s !! q).
Qed.
Lemma Frame_delivered s l : Frame s (set_rx_delivered (fun f => f ++ l) s).
Proof.
  split; try done; [|exists []; by rewrite app_nil_r|by exists l]. intros q. cbn. by destruct (rx_peers s !! q).
Qed.
End Keeps.
#[export] Hint Resolve Frame_preorder keeps_ret keeps_skip keeps_fault keeps_get keeps_gets keeps_lift keeps_get_peer
  Frame_heap Frame_waitlist Frame_replays Frame_errs Frame_holes Frame_freed Frame_delivered : rxframe.

(** Go through the structure of a computation. *)
Ltac keeps_step :=
  match goal with
  | |- keeps (_ ≫= _) => apply (keeps_bind Frame); [|intros ?]
  | |- keeps (when _ _) => apply (keeps_when Frame)
  | |- keeps (for_each _ _) => apply (keeps_for_each Frame); intros ?
  | |- keeps (modify _) => apply (keeps_modify Frame); intros ?
  | |- keeps (upd_peer _ _) => apply keeps_upd_peer; intros ?
  | |- keeps (match ?x with _ => _ end) => destruct x
  | |- keeps (if ?x then _ else _) => destruct x
  | |- peer_frame _ _ => by split
  end.
Ltac keeps := intros; repeat first [solve [auto with rxframe nocore] | keeps_step].

Section Operations.
Context `{StackJunk}.

Lemma keeps_get_reorder p tid : keeps (get_reorder p tid).
Proof. unfold get_reorder. keeps. Qed.
Hint Resolve keeps_get_reorder : rxframe.
Lemma keeps_upd_reorder p tid f : keeps (upd_reorder p tid f).
Proof. unfold upd_reorder. keeps. Qed.
Lemma keeps_put_last_seq p tid v : keeps (put_last_seq p tid v).
Proof. unfold put_last_seq, put_tid. keeps. Qed.
Lemma keeps_put_next_rel_idx p tid v : keeps (put_next_rel_idx p tid v).
Proof. unfold put_next_rel_idx, put_tid. keeps. Qed.
Lemma keeps_put_mcast_last_seq p tid v : keeps (put_mcast_last_seq p tid v).
Proof. unfold put_mcast_last_seq, put_tid. keeps. Qed.
Lemma keeps_put_heap h : keeps (put_heap h).
Proof. unfold put_heap. keeps. Qed.
Lemma keeps_log_rx_freed l : keeps (log_rx_freed l).
Proof. unfold log_rx_freed. keeps. Qed.
Hint Resolve keeps_upd_reorder keeps_put_last_seq keeps_put_next_rel_idx keeps_put_mcast_last_seq keeps_put_heap
  keeps_log_rx_freed : rxframe.

Lemma keeps_rx_frames_free a : keeps (rx_frames_free a).
Proof. unfold rx_frames_free. keeps. Qed.
Lemma keeps_hand_over k p tid a : keeps (hand_over k p tid a).
Proof. unfold hand_over. keeps. Qed.
Lemma keeps_peer_find i : keeps (ol_txrx_peer_find_by_id i).
Proof. unfold ol_txrx_peer_find_by_id. keeps. Qed.
Hint Resolve keeps_rx_frames_free keeps_hand_over keeps_peer_find : rxframe.

Lemma keeps_pn_check_base p tid l : keeps (ol_rx_pn_check_base p tid l).
Proof. unfold ol_rx_pn_check_base, put_last_pn. keeps. Qed.
Hint Resolve keeps_pn_check_base : rxframe.
Lemma keeps_rx_opt_proc_call p tid l : keeps (rx_opt_proc_call p tid l).
Proof. unfold rx_opt_proc_call, ol_rx_pn_check, ol_rx_pn_check_only, ol_rx_discard. keeps. Qed.
Hint Resolve keeps_rx_opt_proc_call : rxframe.

Lemma keeps_set_last_seq_of p tid out next : (forall a, keeps (next a)) -> keeps (set_last_seq_of p tid out next).
Proof. intros Hn. unfold set_last_seq_of. keeps. Qed.
Lemma keeps_release p tid ix ie : keeps (ol_rx_reorder_release p tid ix ie).
Proof.
  unfold ol_rx_reorder_release. keeps. apply keeps_set_last_seq_of. keeps.
Qed.
Lemma keeps_waitlist_remove p tid : keeps (ol_rx_defrag_waitlist_remove p tid).
Proof. unfold ol_rx_defrag_waitlist_remove. keeps. Qed.
Lemma keeps_waitlist_add p tid : keeps (ol_rx_defrag_waitlist_add p tid).
Proof. unfold ol_rx_defrag_waitlist_add. keeps. Qed.
Hint Resolve keeps_release keeps_waitlist_remove keeps_waitlist_add : rxframe.
Lemma keeps_flush p tid ix ie action : keeps (ol_rx_reorder_flush p tid ix ie action).
Proof. unfold ol_rx_reorder_flush. keeps. all: apply keeps_set_last_seq_of; keeps. Qed.
Lemma keeps_flush_frag p tid q : keeps (ol_rx_reorder_flush_frag p tid q).
Proof. unfold ol_rx_reorder_flush_frag. keeps. Qed.
Lemma keeps_store p tid i a b : keeps (ol_rx_reorder_store p tid i a b).
Proof. unfold ol_rx_reorder_store. keeps. Qed.
Hint Resolve keeps_flush keeps_flush_frag keeps_store : rxframe.

Lemma keeps_peer_cleanup p : keeps (ol_rx_reorder_peer_cleanup p).
Proof. unfold ol_rx_reorder_peer_cleanup. keeps. Qed.
Lemma keeps_seq_num_check p tid d : keeps (seq_num_check p tid d).
Proof. unfold seq_num_check, ol_rx_seq_num_check, ol_rx_reorder_seq_num_check. keeps. Qed.
Lemma keeps_waitlist_flush_loop l : keeps (waitlist_flush_loop l).
Proof. induction l as [|[p tid] l IH]; cbn [waitlist_flush_loop]; keeps. Qed.
Lemma keeps_waitlist_flush : keeps ol_rx_defrag_waitlist_flush.
Proof. pose proof keeps_waitlist_flush_loop. unfold ol_rx_defrag_waitlist_flush. keeps; auto. Qed.
Lemma keeps_discard_mpdu m : keeps (discard_mpdu m).
Proof. unfold discard_mpdu. keeps. Qed.
Hint Resolve keeps_peer_cleanup keeps_seq_num_check keeps_waitlist_flush keeps_discard_mpdu : rxframe.

(** The history ring. *)
Lemma keeps_update_history p msg tid a b i : keeps (ol_rx_reorder_update_history p msg tid a b i).
Proof.
  intros s u s' Hr. unfold ol_rx_reorder_update_history, mbind, M_bind in Hr.
  destruct (get_peer p s) as [[x s1]|] eqn:Hg; [|done]. unfold get_peer, mbind, M_bind, get, lift in Hg.
  destruct (rx_peers s !! p) as [y|] eqn:Hp; [|done]. injection Hg as -> <-.
  destruct (rp_history x) as [h|] eqn:Hh; [|by injection Hr as _ <-]. unfold lift in Hr.
  destruct (znth (rh_record h) (rh_curr_index h)) as [rec|] eqn:Hz; [|done].
  rewrite (upd_peer_at _ _ x) in Hr by done. injection Hr as _ <-. apply Frame_peer with x; [done|].
  split; try done. rewrite Hh. intros [H1 H2]. cbn. unfold OL_MAX_RX_REORDER_HISTORY in *.
  destruct (Z.leb_spec 50 (u8 (rh_curr_index h + 1))); simpl; rewrite zlen_zset; [lia|].
  rewrite u8_small by lia. rewrite u8_small in * by lia. lia.
Qed.
End Operations.
#[export] Hint Resolve keeps_get_reorder keeps_upd_reorder keeps_put_last_seq keeps_put_next_rel_idx
  keeps_put_mcast_last_seq keeps_put_heap keeps_log_rx_freed keeps_rx_frames_free keeps_hand_over keeps_peer_find
  keeps_pn_check_base keeps_rx_opt_proc_call keeps_release keeps_waitlist_remove keeps_waitlist_add keeps_flush
  keeps_flush_frag keeps_store keeps_peer_cleanup keeps_seq_num_check keeps_waitlist_flush keeps_discard_mpdu
  keeps_update_history : rxframe.
