(* ===== verification/RxIndSpec.v ===== *)
(** The receive indication on a device that satisfies the invariant: it
    returns, the invariant holds again, and no MPDU of the message is lost. *)
From Stdlib Require Import ZArith Lia.
From stdpp Require Import prelude gmap list numbers functions.
From S2P Require Import Prelude.
From S2P Require Import RxTypes.
From S2P Require Import RxList.
From S2P Require Import RxPn.
From S2P Require Import RxPnSpec.
From S2P Require Import RxStage.
From S2P Require Import RxReorder.
From S2P Require Import RxArray.
From S2P Require Import RxInv.
From S2P Require Import RxOps.
From S2P Require Import RxWindow.
From S2P Require Import RxHandlers.
From S2P Require Import RxDefrag.
From S2P Require Import RxInd.
From S2P Require Import RxFrame.

(** ** Changes the invariant does not see *)

Lemma RxRep_same s s' C :
  RxRep s C -> (forall q t, reorder_at s' q t = reorder_at s q t) ->
  (forall q x, rx_peers s' !! q = Some x -> tids_sized x) ->
  (forall i k, i ∈ ids (C k) -> rx_heap s' !! i = rx_heap s !! i) -> rx_waitlist s' = rx_waitlist s -> RxRep s' C.
Proof.
  intros HR Hat Hsz Hh Hw. split; rewrite ?Hw; try apply HR; try done.
  - intros p tid r Hr. rewrite Hat in Hr. eapply reorder_ok_frame; [|by apply HR]. intros i Hi. by eapply Hh.
  - intros p tid Hr. rewrite Hat in Hr. by apply HR.
  - intros p tid r Hr. rewrite Hat in Hr. by apply (rep_tid _ _ HR p).
  - intros p tid Hin. rewrite Hat. by apply (rep_wait_at _ _ HR).
  - intros p tid r Hr. rewrite Hat in Hr. by apply (rep_linked _ _ HR).
Qed.

(** A peer's data other than its reorder state. *)
Lemma RxRep_peer_data s C p x x' :
  RxRep s C -> rx_peers s !! p = Some x -> tids_sized x' -> rp_tids_rx_reorder x' = rp_tids_rx_reorder x ->
  RxRep (with_peer p x' s) C.
Proof.
  intros HR Hp Hx Hr. apply (RxRep_same s); try done.
  - intros q t. unfold reorder_at, with_peer. cbn. destruct (decide (q = p)) as [->|Hq].
    + rewrite lookup_insert_eq, Hp. cbn. by rewrite Hr.
    + by rewrite lookup_insert_ne.
  - intros q y Hy. unfold with_peer in Hy. cbn in Hy.
    apply lookup_insert_Some in Hy as [[_ <-]|[_ Hy]]; [done|by eapply rep_sized].
Qed.

(** ** MPDUs popped and not stored yet *)

(** The MPDU HTT popped is a [NULL]-terminated list of buffers; when it is not
    chained, their descriptors delimit it. *)
Definition popped_ok (h : heap) (e : popped_mpdu * mpdu) : Prop :=
  let '(pm, m) := e in
  list.head m.2 = Some (pm_head pm) /\ list.last m.2 = Some (pm_tail pm) /\ pm_desc pm = m.1 /\
  seg h m.2 None /\ (pm_chaining pm = false -> mpdu_ok h m).

Notation pending := (list (popped_mpdu * mpdu)).
Notation pend_ids l := (msdus (snd <$> l)).

Record Good (s : rx_pdev) (C : contents) (l : pending) : Prop := {
  good_rep : RxRep s C;
  good_history : forall q x, rx_peers s !! q = Some x -> history_ok (rp_history x);
  good_popped : Forall (popped_ok (rx_heap s)) l;
  good_nodup : NoDup (pend_ids l);
  good_disj : forall k, pend_ids l ## ids (C k) }.

(** Where a buffer is accounted for: freed, delivered, or stored. *)
Definition accounted (s : rx_pdev) (C : contents) (i : Z) : Prop :=
  i ∈ rx_freed s \/ (exists d, d ∈ rx_delivered s /\ i ∈ dl_msdus d) \/ exists k, i ∈ ids (C k).

(** One step: the goodness and the frame are kept, and unless [lossy] every
    buffer that was accounted for, or is pending no more, is accounted for. *)
Definition Next (lossy : bool) (s : rx_pdev) (C : contents) (l : pending) (s' : rx_pdev) (C' : contents) (l' : pending) : Prop :=
  Good s' C' l' /\ Frame s s' /\
  (lossy = false -> forall i, accounted s C i \/ i ∈ pend_ids l -> accounted s' C' i \/ i ∈ pend_ids l').

Lemma Next_refl b s C l : Good s C l -> Next b s C l s C l.
Proof. intros HG. split; [done|]. split; [reflexivity|]. tauto. Qed.

Lemma Next_trans b1 b2 b s C l s1 C1 l1 s2 C2 l2 :
  Next b1 s C l s1 C1 l1 -> Next b2 s1 C1 l1 s2 C2 l2 -> (b = false -> b1 = false /\ b2 = false) -> Next b s C l s2 C2 l2.
Proof.
  intros (_ & F1 & A1) (HG & F2 & A2) Hb. split; [done|]. split; [by etransitivity|].
  intros [H1 H2]%Hb i Hi. auto.
Qed.

(** A history survives what keeps the frame. *)
Lemma Frame_history s s' :
  Frame s s' -> (forall q x, rx_peers s !! q = Some x -> history_ok (rp_history x)) ->
  forall q x, rx_peers s' !! q = Some x -> history_ok (rp_history x).
Proof.
  intros HF Hh q x Hx. pose proof (fr_peers _ _ HF q) as Hq. rewrite Hx in Hq.
  destruct (rx_peers s !! q) as [y|] eqn:Hy; [|done]. apply Hq. by apply Hh with q.
Qed.

Lemma popped_ok_frame h h' e : (forall i, i ∈ e.2.2 -> h' !! i = h !! i) -> popped_ok h e -> popped_ok h' e.
Proof.
  destruct e as [pm m]. cbn. intros Hf (H1 & H2 & H3 & H4 & H5). split_and!; try done.
  - by eapply seg_frame.
  - intros Hc. destruct (H5 Hc) as [(a & Ha & Hd) Hi]. unfold mpdu_ok, htt_rx_msdu_desc_retrieve in *. split.
    + exists a. split; [done|]. rewrite Hf; [done|]. by apply list.head_Some_elem_of.
    + intros i Him. rewrite Hf by done. by apply Hi.
Qed.

Lemma pend_ids_in e (l : pending) i : e ∈ l -> i ∈ e.2.2 -> i ∈ pend_ids l.
Proof.
  intros He Hi. apply list_elem_of_In, in_concat. exists e.2.2. split; apply list_elem_of_In; [|done].
  apply list_elem_of_fmap. exists e.2. split; [done|]. by apply list_elem_of_fmap_2.
Qed.

(** Goodness after a step that keeps the pending buffers. *)
Lemma Good_step s C l s' C' l' :
  Good s C l -> RxRep s' C' -> Frame s s' -> l' `sublist_of` l ->
  (forall i, i ∈ pend_ids l' -> rx_heap s' !! i = rx_heap s !! i) ->
  (forall k i, i ∈ ids (C' k) -> i ∉ pend_ids l') -> Good s' C' l'.
Proof.
  intros HG HR HF Hs Hh Hd. split; [done|by eapply Frame_history; [|apply HG]| | |].
  - apply list.Forall_forall. intros e He. eapply popped_ok_frame.
    + intros i Hi. apply Hh. by eapply pend_ids_in.
    + apply (proj1 (list.Forall_forall _ _) (good_popped _ _ _ HG)).
      by eapply elem_of_sublist.
  - assert (Hsub : msdus (snd <$> l') `sublist_of` msdus (snd <$> l)).
    { clear -Hs. induction Hs as [|[pm m] l1 l2 Hs IH|[pm m] l1 l2 Hs IH]; cbn; [done|by apply sublist_app|].
      by apply sublist_inserts_l. }
    eapply sublist_NoDup; [|exact Hsub]. apply HG.
  - intros k i Hi Hk. by apply (Hd k i).
Qed.

(** A step that changes neither the slots nor the pending buffers. *)
Lemma Next_peer_data b s C l p x x' :
  Good s C l -> rx_peers s !! p = Some x -> tids_sized x' -> rp_tids_rx_reorder x' = rp_tids_rx_reorder x ->
  Frame s (with_peer p x' s) -> Next b s C l (with_peer p x' s) C l.
Proof.
  intros HG Hp Hx Hr HF. split; [|split; [done|tauto]].
  eapply (Good_step s C l); try done; [by eapply RxRep_peer_data; [apply HG|..]|]. intros k i Hi Hk. by apply (good_disj _ _ _ HG k i).
Qed.

Lemma Next_errs b s C l f : Good s C l -> Next b s C l (set_rx_errs f s) C l.
Proof.
  intros HG. split; [|split; [apply Frame_errs|tauto]]. eapply (Good_step s C l); try done.
  - by eapply RxRep_same; [apply HG|..]; try done; apply HG.
  - apply Frame_errs.
  - intros k i Hi Hk. by apply (good_disj _ _ _ HG k i).
Qed.

Lemma Good_peer s C l p x : Good s C l -> rx_peers s !! p = Some x -> tids_sized x.
Proof. intros HG. apply (rep_sized _ _ (good_rep _ _ _ HG)). Qed.

(** ** Discarding a pending MPDU *)

Lemma pend_cons pm m (l : pending) : pend_ids ((pm, m) :: l) = m.2 ++ pend_ids l.
Proof. done. Qed.

Lemma discard_mpdu_next b s C pm m l :
  Good s C ((pm, m) :: l) ->
  exists s', discard_mpdu pm s = Some (tt, s') /\ Next b s C ((pm, m) :: l) s' C l /\
    rx_freed s' = rx_freed s ++ m.2 /\ rx_delivered s' = rx_delivered s /\ rx_peers s' = rx_peers s.
Proof.
  intros HG. pose proof (good_popped _ _ _ HG) as [(Hh & Hl & _ & Hseg & _) _]%list.Forall_cons.
  pose proof (good_nodup _ _ _ HG) as Hnd. rewrite pend_cons in Hnd. apply list.NoDup_app in Hnd as (Hnd & Hd & _).
  assert (Hne : m.2 <> []) by (by intros E; rewrite E in Hh).
  exists (set_rx_freed (fun f => f ++ m.2) (set_rx_heap (fun _ => foldr delete (rx_heap s) m.2) s)).
  assert (Hrun : discard_mpdu pm s =
    Some (tt, set_rx_freed (fun f => f ++ m.2) (set_rx_heap (fun _ => foldr delete (rx_heap s) m.2) s))).
  { unfold discard_mpdu, mbind, M_bind, get, lift. rewrite <- Hl, <- Hh, <- hd_or_None.
    rewrite (free_mpdu_seg _ _ _ None); [done|done|done|done|].
    unfold heap_fuel. pose proof (seg_length _ _ _ Hnd Hseg). lia. }
  assert (HF : Frame s (set_rx_freed (fun f => f ++ m.2) (set_rx_heap (fun _ => foldr delete (rx_heap s) m.2) s))).
  { by eapply keeps_discard_mpdu. }
  split; [done|]. split; [|done]. split; [|split; [done|]].
  - eapply Good_step; [exact HG| |done|by apply sublist_cons| |].
    + apply (RxRep_same s); try done; try apply HG. intros i k Hi. cbn. apply foldr_delete_notin. intros Him.
      apply (good_disj _ _ _ HG k i); [|done]. rewrite pend_cons. apply elem_of_app. by left.
    + intros i Hi. cbn. apply foldr_delete_notin. intros Him. by apply (Hd i).
    + intros k i Hi Hk. apply (good_disj _ _ _ HG k i); [|done]. rewrite pend_cons. apply elem_of_app. by right.
  - intros _ i [[Hi|[(d & Hdl & Hi)|Hk]]|Hi].
    + left. left. cbn. apply elem_of_app. by left.
    + left. right. left. by exists d.
    + left. by right; right.
    + rewrite pend_cons in Hi. apply elem_of_app in Hi as [Hi|Hi]; [|by right].
      left. left. cbn. apply elem_of_app. by right.
Qed.

(** ** Storing a pending MPDU *)

Lemma set_slots_id_history tid r x : rp_history (with_reorder tid r x) = rp_history x.
Proof. done. Qed.

Lemma store_next b s C pm m l p tid x r idx :
  Good s C ((pm, m) :: l) -> pm_chaining pm = false ->
  rx_peers s !! p = Some x -> znth (rp_tids_rx_reorder x) tid = Some r ->
  exists s' C', ol_rx_reorder_store p tid idx (pm_head pm) (pm_tail pm) s = Some (tt, s') /\
    Next b s C ((pm, m) :: l) s' C' l /\ rx_freed s' = rx_freed s /\ rx_delivered s' = rx_delivered s /\
    (let i := Z.land idx (ro_win_sz_mask r) in
     C' = <[(p, tid) := zset (C (p, tid)) i (default [] (znth (C (p, tid)) i) ++ [m])]> C) /\
    exists slots h, s' = with_peer p (with_reorder tid (set_slots slots r) x) (with_heap h s).
Proof.
  intros HG Hch Hp Hr. pose proof (good_popped _ _ _ HG) as [(Hh & Hl & _ & Hseg & Hok) Hrest]%list.Forall_cons.
  specialize (Hok Hch). pose proof (good_nodup _ _ _ HG) as Hnd. rewrite pend_cons in Hnd.
  apply list.NoDup_app in Hnd as (Hnd & Hd & _).
  assert (Hm1 : msdus [m] = m.2) by (cbn; by rewrite app_nil_r).
  assert (Hfresh : fresh_list s C [m]).
  { split; [done|]. rewrite !Hm1. split_and!; [by constructor|done|done|]. intros k i Hi Hk.
    apply (good_disj _ _ _ HG k i); [|done]. rewrite pend_cons. apply elem_of_app. by left. }
  destruct (ol_rx_reorder_store_spec s C p tid x r [m] idx (pm_head pm) (pm_tail pm) (good_rep _ _ _ HG) Hp Hr Hfresh)
    as (h' & slots' & c & Hc & Hrun & Hrl & HR'); rewrite ?Hm1; try done. cbv zeta in *.
  eexists _, _. split; [exact Hrun|]. split; [|do 2 (split; [done|]); split; [by rewrite Hc|by eexists _, _]].
  pose proof (keeps_store p tid idx (pm_head pm) (pm_tail pm) _ _ _ Hrun) as HF.
  set (i0 := Z.land idx (ro_win_sz_mask r)) in *. pose proof (znth_lt_Some _ _ _ Hc) as Hci.
  pose proof (ids_take _ _ _ Hc) as Ht. pose proof (ids_put (C (p, tid)) i0 (c ++ [m]) Hci) as Hput.
  rewrite msdus_app, Hm1 in Hput.
  assert (Hin : forall k i, i ∈ ids ((<[(p, tid) := zset (C (p, tid)) i0 (c ++ [m])]> C) k) <->
                i ∈ ids (C k) \/ (k = (p, tid) /\ i ∈ m.2)).
  { intros k i. destruct (decide (k = (p, tid))) as [->|Hk].
    - rewrite fn_lookup_insert, Hput, Ht, !elem_of_app. tauto.
    - rewrite fn_lookup_insert_ne by congruence. tauto. }
  split; [|split; [done|]].
  - eapply Good_step; [exact HG|exact HR'|done|by apply sublist_cons| |].
    + intros i Hi. cbn. apply Hrl. intros Hic. apply (good_disj _ _ _ HG (p, tid) i).
      * rewrite pend_cons. apply elem_of_app. by right.
      * rewrite Ht. apply elem_of_app. by left.
    + intros k i [Hi|[_ Hi]]%Hin Hk; [|by apply (Hd i)]. apply (good_disj _ _ _ HG k i); [|done].
      rewrite pend_cons. apply elem_of_app. by right.
  - intros _ i [[Hi|[Hi|(k & Hk)]]|Hi]; [by left; left|by left; right; left|..].
    + left. right. right. exists k. apply Hin. by left.
    + rewrite pend_cons in Hi. apply elem_of_app in Hi as [Hi|Hi]; [|by right].
      left. right. right. exists (p, tid). apply Hin. by right.
Qed.

(** ** Bookkeeping *)

Lemma update_history_run s p x msg tid a b i :
  rx_peers s !! p = Some x -> history_ok (rp_history x) ->
  exists x', ol_rx_reorder_update_history p msg tid a b i s = Some (tt, with_peer p x' s) /\
    rp_tids_rx_reorder x' = rp_tids_rx_reorder x /\ (tids_sized x -> tids_sized x').
Proof.
  intros Hp Hh. unfold ol_rx_reorder_update_history, mbind, M_bind. rewrite (get_peer_at _ _ x) by done.
  destruct (rp_history x) as [h|] eqn:E.
  - destruct Hh as [H1 H2]. destruct (znth_in_range (rh_record h) (rh_curr_index h)) as [rec Hrec]; [lia|].
    unfold lift. rewrite Hrec. rewrite (upd_peer_at _ _ x) by done. by eexists.
  - exists x. split; [|done]. unfold skip. f_equal. f_equal. apply rx_pdev_eq; try reflexivity. cbn. by rewrite insert_id.
Qed.

Lemma update_history_next bl s C l p msg tid a b i :
  Good s C l -> is_Some (rx_peers s !! p) ->
  exists s', ol_rx_reorder_update_history p msg tid a b i s = Some (tt, s') /\ Next bl s C l s' C l /\
    (forall q t, reorder_at s' q t = reorder_at s q t) /\ rx_freed s' = rx_freed s /\ rx_delivered s' = rx_delivered s.
Proof.
  intros HG [x Hp]. destruct (update_history_run s p x msg tid a b i Hp) as (x' & Hrun & Hr & Hsz).
  { by apply (good_history _ _ _ HG p). }
  exists (with_peer p x' s). split; [done|]. split; [|split; [|done]].
  - eapply Next_peer_data; try done; [by apply Hsz; eapply Good_peer|]. by eapply keeps_update_history.
  - intros q t. unfold reorder_at, with_peer. cbn. destruct (decide (q = p)) as [->|Hq].
    + rewrite lookup_insert_eq, Hp. cbn. by rewrite Hr.
    + by rewrite lookup_insert_ne.
Qed.

Lemma put_last_seq_next bl s C l p tid x v :
  Good s C l -> rx_peers s !! p = Some x -> 0 <= tid < OL_TXRX_NUM_EXT_TIDS ->
  exists s', put_last_seq p tid v s = Some (tt, s') /\ Next bl s C l s' C l.
Proof.
  intros HG Hp Ht. pose proof (Good_peer _ _ _ _ _ HG Hp) as Hsz. pose proof Hsz as (_ & _ & _ & _ & H5 & _).
  assert (Hrun : put_last_seq p tid v s = Some (tt, with_peer p (with_last_seq tid v x) s)).
  { unfold put_last_seq. by rewrite (put_tid_at _ _ _ _ _ x) by (done || lia). }
  eexists. split; [exact Hrun|]. apply (Next_peer_data _ _ _ _ _ x); try done; [sized|]. by eapply keeps_put_last_seq.
Qed.

(** The duplicate check reads, and may remember a multicast sequence number. *)
Lemma seq_num_check_next bl s C l p tid x d :
  Good s C l -> rx_peers s !! p = Some x -> 0 <= tid < OL_TXRX_NUM_EXT_TIDS ->
  exists st s', seq_num_check p tid d s = Some (st, s') /\ Next bl s C l s' C l /\
    (st = htt_rx_status_ok \/ st = htt_rx_status_err_replay) /\
    rx_freed s' = rx_freed s /\ rx_delivered s' = rx_delivered s /\
    exists x', rx_peers s' !! p = Some x' /\ rp_tids_rx_reorder x' = rp_tids_rx_reorder x.
Proof.
  intros HG Hp Ht. pose proof (Good_peer _ _ _ _ _ HG Hp) as Hsz. pose proof Hsz as (H1 & _ & _ & _ & H5 & H6).
  destruct (znth_in_range (rp_tids_rx_reorder x) tid) as [r Hr]; [lia|].
  assert (Hat : reorder_at s p tid = Some r) by (unfold reorder_at; by rewrite Hp).
  assert (Hsame : forall st, st = htt_rx_status_ok \/ st = htt_rx_status_err_replay ->
    seq_num_check p tid d s = Some (st, s) ->
    exists st s', seq_num_check p tid d s = Some (st, s') /\ Next bl s C l s' C l /\
    (st = htt_rx_status_ok \/ st = htt_rx_status_err_replay) /\ rx_freed s' = rx_freed s /\ rx_delivered s' = rx_delivered s /\
    exists x', rx_peers s' !! p = Some x' /\ rp_tids_rx_reorder x' = rp_tids_rx_reorder x).
  { intros st Hst Hrun. exists st, s. split; [done|]. split; [by apply Next_refl|]. split_and!; [done|done|done|]. by exists x. }
  unfold seq_num_check in *. unfold mbind in *. unfold M_bind in *. unfold get in *.
  destruct (rx_dup_check s); [|by eapply Hsame; [left|]; done].
  rewrite (get_reorder_at _ _ _ _ Hat) in *. destruct (ro_win_sz_mask r =? 0); [|by eapply Hsame; [left|]; done].
  unfold ol_rx_seq_num_check in *. destruct (Z.eqb_spec tid OL_RX_MCAST_TID).
  - destruct (Z.leb_spec OL_TXRX_NUM_EXT_TIDS (u16 (rd_tid d))); [by eapply Hsame; [left|]; done|].
    unfold mbind in *. unfold M_bind in *. rewrite (get_peer_at _ _ x) in * by done.
    destruct (znth_in_range (rp_tids_mcast_last_seq x) (u16 (rd_tid d))) as [v Hv]; [pose proof (u16_range (rd_tid d)); lia|].
    unfold lift in *. rewrite Hv in *. destruct (rd_retry d && _); [by eapply Hsame; [right|]; done|].
    assert (Hrun : put_mcast_last_seq p (u16 (rd_tid d)) (u16 (rd_seq_num d)) s =
      Some (tt, with_peer p (set_rp_tids_mcast_last_seq (fun l => zset l (u16 (rd_tid d)) (u16 (u16 (rd_seq_num d)))) x) s)).
    { unfold put_mcast_last_seq. rewrite (put_tid_at _ _ _ _ _ x); [done|done|]. pose proof (u16_range (rd_tid d)). lia. }
    rewrite Hrun. eexists _, _. split; [done|]. split; [|split; [by left|]].
    + apply (Next_peer_data _ _ _ _ _ x); try done; [sized|]. by eapply keeps_put_mcast_last_seq.
    + split; [done|]. split; [done|]. eexists. split; [apply with_peer_lookup|done].
  - unfold ol_rx_reorder_seq_num_check in *. unfold mbind in *. unfold M_bind in *. rewrite (get_peer_at _ _ x) in * by done.
    destruct (znth_in_range (rp_tids_last_seq x) tid) as [v Hv]; [lia|]. unfold lift in *. rewrite Hv in *.
    destruct (v =? IEEE80211_SEQ_MAX); [by eapply Hsame; [left|]; done|].
    destruct (_ <? _); [by eapply Hsame; [right|]; done|by eapply Hsame; [left|]; done].
Qed.

(** ** Windows *)

Lemma after_stage_accounted `{StackJunk} s p tid x l C i :
  i ∈ rx_freed s \/ (exists d, d ∈ rx_delivered s /\ i ∈ dl_msdus d) \/ i ∈ msdus l ->
  accounted (after_stage s p tid x l) C i.
Proof.
  intros Hi. pose proof (after_stage_fields s p tid x l) as Hf. cbv zeta in Hf.
  destruct (verdict x tid l) as [[[k g] v] q] eqn:Hv. destruct Hf as (_ & _ & _ & Hfr & Hdl).
  unfold accounted. rewrite Hfr, Hdl. destruct Hi as [Hi|[(d & Hd & Hi)|Hi]].
  - left. apply elem_of_app. by left.
  - right. left. exists d. split; [apply elem_of_app; by left|done].
  - pose proof (verdict_perm _ _ _ _ _ _ _ Hv) as Hp. rewrite <- (msdus_perm _ _ Hp), msdus_app in Hi.
    apply elem_of_app in Hi as [Hi|Hi]; [|left; apply elem_of_app; by right].
    destruct (proc_sink (rp_opt_proc x)) as [sk|] eqn:Hsk.
    + right. left. eexists. split; [apply elem_of_app; right; by apply list_elem_of_singleton|done].
    + destruct (rp_opt_proc x) eqn:Hpr; try done. unfold verdict in Hv. destruct (last_pn_at x tid). rewrite Hpr in Hv.
      injection Hv as <- <- <- <-. by apply not_elem_of_nil in Hi.
Qed.

(** The contents after the window [W] was taken out of the array of (p, tid). *)
Lemma window_step s C l p tid r ix ie s' :
  let mask := ro_win_sz_mask r in let W := window mask ix ie (C (p, tid)) in
  Good s C l -> reorder_at s p tid = Some r ->
  RxRep s' (<[(p, tid) := W.2]> C) -> Frame s s' ->
  (forall i, i ∉ ids (C (p, tid)) -> i ∉ msdus W.1 -> rx_heap s' !! i = rx_heap s !! i) ->
  Good s' (<[(p, tid) := W.2]> C) l /\
  (forall i k, i ∈ ids (C k) -> i ∈ msdus W.1 \/ i ∈ ids ((<[(p, tid) := W.2]> C) k)).
Proof.
  intros mask W HG Hat HR HF Hh. destruct (rep_reorder _ _ (good_rep _ _ _ HG) _ _ _ Hat) as (Hm & Hlen & _).
  destruct (window_facts mask ix ie (C (p, tid)) Hm Hlen) as [Hperm _]. fold W in Hperm. split.
  - eapply Good_step; [exact HG|done|done|done| |].
    + intros i Hi. assert (Hni : i ∉ ids (C (p, tid))) by (intros Hi'; by apply (good_disj _ _ _ HG (p, tid) i)).
      apply Hh; [done|]. intros Hw. apply Hni. rewrite Hperm. apply elem_of_app. by left.
    + intros k i Hi Hk. destruct (decide (k = (p, tid))) as [->|Hne].
      * rewrite fn_lookup_insert in Hi. apply (good_disj _ _ _ HG (p, tid) i Hk). rewrite Hperm. apply elem_of_app. by right.
      * rewrite fn_lookup_insert_ne in Hi by congruence. by apply (good_disj _ _ _ HG k i).
  - intros i k Hi. destruct (decide (k = (p, tid))) as [->|Hne].
    + rewrite fn_lookup_insert. rewrite Hperm in Hi. by apply elem_of_app in Hi.
    + right. by rewrite fn_lookup_insert_ne by congruence.
Qed.

Lemma accounted_logs s s' C C' i :
  Frame s s' -> (forall k, i ∈ ids (C k) -> accounted s' C' i) -> accounted s C i -> accounted s' C' i.
Proof.
  intros HF Hc [Hi|[(d & Hd & Hi)|(k & Hk)]].
  - left. destruct (fr_freed _ _ HF) as [l ->]. apply elem_of_app. by left.
  - right. left. exists d. split; [|done]. destruct (fr_delivered _ _ HF) as [l ->]. apply elem_of_app. by left.
  - by eapply Hc.
Qed.

Section Steps.
Context `{StackJunk}.

Lemma flush_next s C l p tid x r ix ie action :
  Good s C l -> rx_peers s !! p = Some x -> znth (rp_tids_rx_reorder x) tid = Some r ->
  exists s' C', ol_rx_reorder_flush p tid ix ie action s = Some (tt, s') /\ Next false s C l s' C' l.
Proof.
  intros HG Hp Hr. assert (Hat : reorder_at s p tid = Some r) by (unfold reorder_at; by rewrite Hp).
  destruct (ol_rx_reorder_flush_spec s C p tid x r (good_rep _ _ _ HG) Hp Hr ix ie action) as (s' & Hrun & Hfl & HR').
  cbv zeta in *. eexists _, _. split; [exact Hrun|]. pose proof (keeps_flush p tid ix ie action _ _ _ Hrun) as HF.
  destruct (window_step s C l p tid r ix (flush_end ix ie) s' HG Hat HR' HF) as [HG' Hin].
  { intros i Hi Hw. by eapply flushed_heap. }
  split; [done|]. split; [done|]. intros _ i [Hi|Hi]; [left|by right]. revert Hi. eapply accounted_logs; [done|].
  intros k [Hi|Hi]%Hin; [|by right; right; exists k].
  destruct Hfl as (h & slots & w & _ & Hs). destruct (window _ _ _ _).1 as [|m lw]; [by apply not_elem_of_nil in Hi|].
  destruct action; rewrite Hs; [apply after_stage_accounted; auto|left; cbn; apply elem_of_app; by right].
Qed.

(** A release loses the window when its first slot is empty. *)
Definition release_loses (mask ix ie : Z) (cont : list (list mpdu)) : bool :=
  bool_decide (default [] (znth cont (Z.land ix mask)) = []) && negb (bool_decide ((window mask ix ie cont).1 = [])).

Lemma release_next s C l p tid x r ix ie :
  Good s C l -> rx_peers s !! p = Some x -> znth (rp_tids_rx_reorder x) tid = Some r ->
  exists s' C', ol_rx_reorder_release p tid ix ie s = Some (tt, s') /\
    Next (release_loses (ro_win_sz_mask r) ix ie (C (p, tid))) s C l s' C' l.
Proof.
  intros HG Hp Hr. assert (Hat : reorder_at s p tid = Some r) by (unfold reorder_at; by rewrite Hp).
  destruct (ol_rx_reorder_release_spec s C p tid x r (good_rep _ _ _ HG) Hp Hr ix ie) as (s' & Hrun & Hrel & HR').
  cbv zeta in *. eexists _, _. split; [exact Hrun|]. pose proof (keeps_release p tid ix ie _ _ _ Hrun) as HF.
  destruct (window_step s C l p tid r ix ie s' HG Hat HR' HF) as [HG' Hin].
  { intros i Hi Hw. by eapply released_heap. }
  split; [done|]. split; [done|]. intros Hlo i [Hi|Hi]; [left|by right]. revert Hi. eapply accounted_logs; [done|].
  intros k [Hi|Hi]%Hin; [|by right; right; exists k]. unfold release_loses in Hlo.
  destruct Hrel as (h & slots & _ & Hs). destruct (default [] _) as [|m f].
  - rewrite bool_decide_eq_true_2 in Hlo by done. case_bool_decide as Hw; [|done]. rewrite Hw in Hi.
    by apply not_elem_of_nil in Hi.
  - rewrite Hs. apply after_stage_accounted. auto.
Qed.

Lemma zseq_tids_in t : t ∈ zseq_tids <-> 0 <= t < OL_TXRX_NUM_EXT_TIDS.
Proof.
  unfold zseq_tids, OL_TXRX_NUM_EXT_TIDS. rewrite list_elem_of_fmap. split.
  - intros (n & -> & Hn%elem_of_seq). lia.
  - intros Ht. exists (Z.to_nat t). split; [lia|]. apply elem_of_seq. lia.
Qed.

Lemma cleanup_next s C l p :
  Good s C l -> is_Some (rx_peers s !! p) ->
  exists s' C', ol_rx_reorder_peer_cleanup p s = Some (tt, s') /\ Next false s C l s' C' l.
Proof.
  intros HG Hp. pose proof (ol_rx_reorder_peer_cleanup_spec s C p (good_rep _ _ _ HG) Hp) as Hw.
  apply wp_some in Hw as ([] & s' & Hrun & C' & fr & HR' & Hz & Ho & Hfr & Hl & Hheap & Hdl & _).
  eexists _, _. split; [exact Hrun|]. pose proof (keeps_peer_cleanup p _ _ _ Hrun) as HF.
  assert (Hsub : forall k i, i ∈ ids (C' k) -> i ∈ ids (C k)).
  { intros [q t] i Hi. destruct (decide (q = p /\ t ∈ zseq_tids)) as [[-> Ht]|Hn].
    - rewrite Hz in Hi by done. by apply not_elem_of_nil in Hi.
    - rewrite Ho in Hi; [done|]. cbn. destruct (decide (q = p)); [right; tauto|by left]. }
  split; [|split; [done|]].
  - eapply Good_step; [exact HG|done|done|done| |].
    + intros i Hi. apply Hheap. intros k Hk. by apply (good_disj _ _ _ HG k i).
    + intros k i Hi Hk. apply (good_disj _ _ _ HG k i Hk). by apply Hsub.
  - intros _ i [Hi|Hi]; [left|by right]. revert Hi. eapply accounted_logs; [done|]. intros [q t] Hi.
    destruct (decide (q = p /\ t ∈ zseq_tids)) as [[-> Ht]|Hn].
    + left. rewrite Hfr. apply elem_of_app. right. rewrite Hl. apply list_elem_of_In, in_concat. exists (ids (C (p, t))).
      split; apply list_elem_of_In; [|done]. apply list_elem_of_fmap. by exists t.
    + right. right. exists (q, t). rewrite Ho; [done|]. cbn. destruct (decide (q = p)); [right; tauto|by left].
Qed.

Lemma flush_frag_next s C l p tid x r q :
  Good s C l -> rx_peers s !! p = Some x -> znth (rp_tids_rx_reorder x) tid = Some r ->
  exists s' C', ol_rx_reorder_flush_frag p tid q s = Some (tt, s') /\ Next false s C l s' C' l /\
    rx_waitlist s' = rx_waitlist s.
Proof.
  intros HG Hp Hr.
  destruct (ol_rx_reorder_flush_frag_spec s C p tid x r q (good_rep _ _ _ HG) Hp Hr) as (c & s' & Hc & Hrun & Hfr & Hdl & Hw & Hheap & HR').
  eexists _, _. split; [exact Hrun|]. split; [|done]. pose proof (keeps_flush_frag p tid q _ _ _ Hrun) as HF.
  pose proof (ids_take _ _ _ Hc) as Ht. split; [|split; [done|]].
  - eapply Good_step; [exact HG|done|done|done| |].
    + intros i Hi. apply Hheap. intros Hic. apply (good_disj _ _ _ HG (p, tid) i); [done|]. rewrite Ht. apply elem_of_app. by left.
    + intros k i Hi Hk. apply (good_disj _ _ _ HG k i Hk). destruct (decide (k = (p, tid))) as [->|Hne].
      * rewrite fn_lookup_insert in Hi. rewrite Ht. apply elem_of_app. by right.
      * by rewrite fn_lookup_insert_ne in Hi by congruence.
  - intros _ i [Hi|Hi]; [left|by right]. revert Hi. eapply accounted_logs; [done|]. intros k Hi.
    destruct (decide (k = (p, tid))) as [->|Hne].
    + rewrite Ht in Hi. apply elem_of_app in Hi as [Hi|Hi].
      * left. rewrite Hfr. apply elem_of_app. by right.
      * right. right. exists (p, tid). by rewrite fn_lookup_insert.
    + right. right. exists k. by rewrite fn_lookup_insert_ne by congruence.
Qed.

(** ** The waitlist's time-out *)

Lemma waitlist_remove_next s C l p tid :
  Good s C l -> (p, tid) ∈ rx_waitlist s ->
  exists w s', ol_rx_defrag_waitlist_remove p tid s = Some (tt, s') /\ rx_waitlist s' = w /\
    Next false s C l s' C l /\ (forall k, k <> (p, tid) -> (k ∈ w <-> k ∈ rx_waitlist s)).
Proof.
  intros HG Hin. pose proof (good_rep _ _ _ HG) as HR. destruct (rep_wait_at _ _ HR _ _ Hin) as [r Hat].
  destruct (reorder_at_peer _ _ _ _ Hat) as (x & Hp & Hr).
  destruct (waitlist_remove_run s p tid x r Hp Hr) as (w & Hrun & Hw & Hni & Hother).
  { by apply (rep_linked _ _ HR). } { apply HR. }
  exists w. eexists. split; [exact Hrun|]. split; [done|]. split; [|done].
  pose proof (keeps_waitlist_remove p tid _ _ _ Hrun) as HF. split; [|split; [done|tauto]].
  eapply Good_step; [exact HG| |done|done|done|intros k i Hi Hk; by apply (good_disj _ _ _ HG k i)].
  pose proof (rep_array _ _ _ _ _ HR Hat) as Hpre. eapply (RxRep_ext _ (<[(p, tid) := C (p, tid)]> C)).
  { intros k. destruct (decide (k = (p, tid))) as [->|Hk]; [by rewrite fn_lookup_insert|by rewrite fn_lookup_insert_ne by congruence]. }
  eapply (RxRep_array s _ C p tid x _ r (set_ro_linked (fun _ => false) r)); try done.
  - pose proof (rep_sized _ _ HR _ _ Hp). sized.
  - intros i Hi. by left.
  - by rewrite bool_decide_eq_false_2.
Qed.

Lemma waitlist_flush_loop_next wl s C l :
  Good s C l -> NoDup wl -> (forall k, k ∈ wl -> k ∈ rx_waitlist s) ->
  exists s' C', waitlist_flush_loop wl s = Some (tt, s') /\ Next false s C l s' C' l.
Proof.
  revert s C. induction wl as [|[p tid] wl IH]; intros s C HG Hnd Hsub.
  { exists s, C. split; [done|by apply Next_refl]. }
  apply list.NoDup_cons in Hnd as [Hni Hnd]. pose proof (Hsub (p, tid) ltac:(by left)) as Hin.
  pose proof (good_rep _ _ _ HG) as HR. destruct (rep_wait_at _ _ HR _ _ Hin) as [r Hat].
  cbn [waitlist_flush_loop]. unfold mbind, M_bind, get. rewrite (get_reorder_at _ _ _ _ Hat).
  pose proof (rep_tid _ _ HR _ _ _ Hat) as ->. pose proof (rep_tid_range _ _ _ _ _ HR Hat) as Ht.
  destruct (rx_now_ms s <? ro_defrag_timeout_ms r); [exists s, C; split; [done|by apply Next_refl]|].
  destruct (Z.leb_spec OL_TXRX_NUM_EXT_TIDS tid); [lia|].
  destruct (waitlist_remove_next s C l p tid HG Hin) as (w & s1 & -> & Hw & HN1 & Hother). pose proof HN1 as (HG1 & HF1 & _).
  assert (exists x1 r1, rx_peers s1 !! p = Some x1 /\ znth (rp_tids_rx_reorder x1) tid = Some r1) as (x1 & r1 & Hp1 & Hr1).
  { destruct (reorder_at_peer _ _ _ _ Hat) as (x & Hp & _). pose proof (fr_peers _ _ HF1 p) as Hq. rewrite Hp in Hq.
    destruct (rx_peers s1 !! p) as [x1|] eqn:Hp1; [|done]. exists x1. pose proof (Good_peer _ _ _ _ _ HG1 Hp1) as (Hsz & _).
    destruct (znth_in_range (rp_tids_rx_reorder x1) tid) as [r1 Hr1]; [lia|]. by exists r1. }
  destruct (flush_frag_next s1 C l p tid x1 r1 0 HG1 Hp1 Hr1) as (s2 & C2 & -> & HN2 & Hw2). pose proof HN2 as (HG2 & _).
  destruct (IH s2 C2 HG2 Hnd) as (s3 & C3 & -> & HN3).
  { intros k Hk. rewrite Hw2, Hw. apply Hother; [|by apply Hsub; right]. by intros ->. }
  exists s3, C3. split; [done|]. eapply Next_trans; [exact HN1| |by auto]. by eapply Next_trans; [exact HN2|exact HN3|].
Qed.

Lemma waitlist_flush_next s C l :
  Good s C l -> exists s' C', ol_rx_defrag_waitlist_flush s = Some (tt, s') /\ Next false s C l s' C' l.
Proof.
  intros HG. unfold ol_rx_defrag_waitlist_flush, mbind, M_bind, get. apply waitlist_flush_loop_next; [done| |done].
  apply HG.
Qed.
End Steps.

(** ** The MPDUs of a message *)

Lemma Frame_is_peer s s' p : Frame s s' -> is_Some (rx_peers s !! p) -> is_Some (rx_peers s' !! p).
Proof. intros HF [x Hx]. pose proof (fr_peers _ _ HF p) as Hq. rewrite Hx in Hq. by destruct (rx_peers s' !! p). Qed.

Lemma Good_reorder s C l p tid :
  Good s C l -> is_Some (rx_peers s !! p) -> 0 <= tid < OL_TXRX_NUM_EXT_TIDS ->
  exists x r, rx_peers s !! p = Some x /\ znth (rp_tids_rx_reorder x) tid = Some r /\ reorder_at s p tid = Some r.
Proof.
  intros HG [x Hx] Ht. exists x. destruct (reorder_at_sized s p x tid Hx (Good_peer _ _ _ _ _ HG Hx) Ht) as (r & Hr & Hat). by exists r.
Qed.

Lemma rx_ind_mpdu_next s C pm m l p tid :
  Good s C ((pm, m) :: l) -> is_Some (rx_peers s !! p) -> 0 <= tid < OL_TXRX_NUM_EXT_TIDS ->
  exists b s' C', rx_ind_mpdu p tid pm s = Some (b, s') /\ Next false s C ((pm, m) :: l) s' C' l.
Proof.
  intros HG Hp Ht. unfold rx_ind_mpdu. destruct (pm_chaining pm) eqn:Hch.
  { destruct (discard_mpdu_next false s C pm m l HG) as (s' & Hrun & HN & _). unfold mbind, M_bind. rewrite Hrun. by eexists _, _, _. }
  destruct (Good_reorder _ _ _ _ _ HG Hp Ht) as (x & r & Hx & Hr & Hat).
  destruct (seq_num_check_next false s C _ p tid x (pm_desc pm) HG Hx Ht) as (st & s1 & Hrun1 & HN1 & Hst & _ & _ & x1 & Hx1 & Hr1).
  unfold mbind, M_bind. rewrite Hrun1. pose proof HN1 as (HG1 & _). case_bool_decide as Hok; cbn [negb].
  - destruct (store_next false s1 C pm m l p tid x1 r (rd_reorder_idx (pm_desc pm)) HG1 Hch Hx1) as (s2 & C2 & Hrun2 & HN2 & _);
      [by rewrite Hr1|]. rewrite Hrun2. pose proof HN2 as (HG2 & HF2 & _).
    destruct (update_history_next false s2 C2 l p reorder_store tid 0 0 (rd_reorder_idx (pm_desc pm)) HG2) as (s3 & Hrun3 & HN3 & _).
    { by eapply Frame_is_peer; [exact HF2|]. }
    rewrite Hrun3. pose proof HN3 as (HG3 & HF3 & _).
    destruct (Good_reorder s3 C2 l p tid HG3) as (x3 & r3 & Hx3 & Hr3 & Hat3).
    { eapply Frame_is_peer; [exact HF3|]. by eapply Frame_is_peer; [exact HF2|]. } { done. }
    rewrite (get_reorder_at _ _ _ _ Hat3).
    assert (HN : Next false s C ((pm, m) :: l) s3 C2 l).
    { eapply Next_trans; [exact HN1| |by auto]. by eapply Next_trans; [exact HN2|exact HN3|]. }
    destruct (ro_win_sz_mask r3 =? 0); cbn [when]; [|by eexists _, _, _].
    destruct (put_last_seq_next false s3 C2 l p tid x3 (rd_seq_num (pm_desc pm)) HG3 Hx3 Ht) as (s4 & -> & HN4).
    eexists _, _, _. split; [done|]. by eapply Next_trans; [exact HN|exact HN4|].
  - destruct (discard_mpdu_next false s1 C pm m l HG1) as (s2 & -> & HN2 & _). eexists _, _, _. split; [done|].
    by eapply Next_trans; [exact HN1|exact HN2|].
Qed.

Lemma rx_ind_bad_mpdu_next s C pm m l peer tid status :
  Good s C ((pm, m) :: l) ->
  exists s', rx_ind_bad_mpdu peer tid status pm s = Some (tt, s') /\ Next false s C ((pm, m) :: l) s' C l.
Proof.
  intros HG. unfold rx_ind_bad_mpdu.
  assert (exists s1, (match peer with
      | Some p => when (bool_decide (status = htt_rx_status_tkip_mic_err) && pm_has_key_id pm)
                    (modify (set_rx_errs (fun l => l ++ [(p, tid, pm_head pm)])))
      | None => skip end) s = Some (tt, s1) /\ Next false s C ((pm, m) :: l) s1 C ((pm, m) :: l)) as (s1 & H1 & HN1).
  { destruct peer as [p|]; [|by eexists; split; [done|apply Next_refl]].
    destruct (_ && _); cbn [when]; [|by eexists; split; [done|apply Next_refl]].
    eexists. split; [done|]. by apply Next_errs. }
  unfold mbind, M_bind. rewrite H1. pose proof HN1 as (HG1 & _).
  destruct (discard_mpdu_next false s1 C pm m l HG1) as (s2 & -> & HN2 & _). eexists. split; [done|].
  by eapply Next_trans; [exact HN1|exact HN2|].
Qed.

(** A range the peer may store. *)
Definition storable (s : rx_pdev) (peer : option Z) (tid : Z) (status : htt_rx_status) : Prop :=
  forall p, peer = Some p -> status = htt_rx_status_ok -> is_Some (rx_peers s !! p) /\ 0 <= tid < OL_TXRX_NUM_EXT_TIDS.

Lemma storable_frame s s' peer tid status : Frame s s' -> storable s peer tid status -> storable s' peer tid status.
Proof. intros HF Hs p Hp Hst. destruct (Hs p Hp Hst). split; [by eapply Frame_is_peer|done]. Qed.

Lemma rx_ind_mpdus_next peer tid status es rest rel s C :
  Good s C (es ++ rest) -> storable s peer tid status ->
  exists b s' C', rx_ind_mpdus peer tid status (fst <$> es) rel s = Some (b, s') /\ Next false s C (es ++ rest) s' C' rest.
Proof.
  revert rel s C. induction es as [|[pm m] es IH]; intros rel s C HG Hst.
  { exists rel, s, C. split; [done|by apply Next_refl]. }
  cbn [app] in HG. cbn [fmap list_fmap rx_ind_mpdus fst].
  assert (exists b s1 C1, (match peer with
      | Some p => if bool_decide (status = htt_rx_status_ok) then ok ← rx_ind_mpdu p tid pm; mret (rel && ok)
                  else rx_ind_bad_mpdu peer tid status pm;; mret rel
      | None => rx_ind_bad_mpdu peer tid status pm;; mret rel end) s = Some (b, s1) /\
    Next false s C ((pm, m) :: es ++ rest) s1 C1 (es ++ rest)) as (b & s1 & C1 & H1 & HN1).
  { destruct (rx_ind_bad_mpdu_next s C pm m (es ++ rest) peer tid status HG) as (s1 & Hbad & HNb).
    destruct peer as [p|]; [case_bool_decide as Hok|].
    - destruct (Hst p eq_refl Hok) as [Hp Ht].
      destruct (rx_ind_mpdu_next s C pm m (es ++ rest) p tid HG Hp Ht) as (b & s2 & C2 & Hrun & HN).
      unfold mbind, M_bind. rewrite Hrun. by eexists _, _, _.
    - unfold mbind, M_bind. rewrite Hbad. by eexists _, _, _.
    - unfold mbind, M_bind. rewrite Hbad. by eexists _, _, _. }
  unfold mbind at 1, M_bind at 1. rewrite H1. pose proof HN1 as (HG1 & HF1 & _).
  destruct (IH b s1 C1 HG1) as (b' & s2 & C2 & Hrun & HN2); [by eapply storable_frame|].
  exists b', s2, C2. split; [exact Hrun|]. by eapply Next_trans; [exact HN1|exact HN2|].
Qed.

(** The ranges of the message, their MPDUs with what their buffers hold. *)
Notation tagged := (list (htt_rx_status * pending)).
Definition untag (e : htt_rx_status * pending) : htt_rx_status * list popped_mpdu := (e.1, fst <$> e.2).
Definition tagged_mpdus (ess : tagged) : pending := concat (snd <$> ess).

Lemma rx_ind_ranges_next peer tid (ess : tagged) rest rel s C :
  Good s C (tagged_mpdus ess ++ rest) -> (forall e, e ∈ ess -> storable s peer tid e.1) ->
  exists b s' C', rx_ind_ranges peer tid (untag <$> ess) rel s = Some (b, s') /\
    Next false s C (tagged_mpdus ess ++ rest) s' C' rest.
Proof.
  revert rel s C. induction ess as [|[status es] ess IH]; intros rel s C HG Hst.
  { exists rel, s, C. split; [done|by apply Next_refl]. }
  unfold tagged_mpdus in HG |- *. cbn [fmap list_fmap concat snd] in HG |- *. rewrite <- app_assoc in HG |- *.
  fold (tagged_mpdus ess) in HG |- *.
  destruct (rx_ind_mpdus_next peer tid status es (tagged_mpdus ess ++ rest) rel s C HG) as (b & s1 & C1 & H1 & HN1).
  { apply (Hst (status, es)). by left. }
  cbn [rx_ind_ranges untag fst snd]. unfold mbind at 1, M_bind at 1. rewrite H1. pose proof HN1 as (HG1 & HF1 & _).
  destruct (IH b s1 C1 HG1) as (b' & s2 & C2 & Hrun & HN2).
  { intros e He. eapply storable_frame; [exact HF1|]. apply Hst. by right. }
  exists b', s2, C2. split; [exact Hrun|]. by eapply Next_trans; [exact HN1|exact HN2|].
Qed.

(** ** The handler *)

(** The peer a message is for. *)
Definition ind_peer (s : rx_pdev) (peer_id : Z) : option Z :=
  match rx_peer_id_map s !! peer_id with Some p => Some p | None => rx_ocb_peer s end.

(** What the handler relies on the target for: a known peer exists, and its
    TID is in range, or is [HTT_INVALID_TID] in a message that only flushes. *)
Definition ind_ok (s : rx_pdev) (peer_id tid : Z) (msg : rx_ind) : Prop :=
  forall p, ind_peer s peer_id = Some p -> is_Some (rx_peers s !! p) /\
    (0 <= tid < OL_TXRX_NUM_EXT_TIDS \/
     (tid = HTT_INVALID_TID /\ ri_release msg = None /\ Forall (fun e => e.1 <> htt_rx_status_ok) (ri_ranges msg))).

Section Handler.
Context `{StackJunk}.

Lemma ind_flush_next s C l peer tid (msg : rx_ind) :
  Good s C l -> (forall p, peer = Some p -> is_Some (rx_peers s !! p) /\
                  (0 <= tid < OL_TXRX_NUM_EXT_TIDS \/ tid = HTT_INVALID_TID)) ->
  exists s' C', (match peer, ri_flush msg with
    | Some p, Some (seq_num_start, seq_num_end) =>
      if tid =? HTT_INVALID_TID then ol_rx_reorder_peer_cleanup p
      else
        ol_rx_reorder_flush p tid seq_num_start seq_num_end htt_rx_flush_release;;
        ol_rx_reorder_update_history p reorder_flush tid seq_num_start seq_num_end 0
    | _, _ => skip end) s = Some (tt, s') /\ Next false s C l s' C' l.
Proof.
  intros HG Hok. assert (exists s' C', @skip rx_pdev s = Some (tt, s') /\ Next false s C l s' C' l) as Hskip.
  { exists s, C. split; [done|by apply Next_refl]. }
  destruct peer as [p|]; [|done]. destruct (ri_flush msg) as [[a b]|]; [|done]. destruct (Hok p eq_refl) as [Hp Ht].
  destruct (Z.eqb_spec tid HTT_INVALID_TID); [by apply cleanup_next|]. destruct Ht as [Ht|]; [|done].
  destruct (Good_reorder _ _ _ _ _ HG Hp Ht) as (x & r & Hx & Hr & _).
  destruct (flush_next s C l p tid x r a b htt_rx_flush_release HG Hx Hr) as (s1 & C1 & H1 & HN1).
  unfold mbind, M_bind. rewrite H1. pose proof HN1 as (HG1 & HF1 & _).
  destruct (update_history_next false s1 C1 l p reorder_flush tid a b 0 HG1) as (s2 & -> & HN2 & _).
  { by eapply Frame_is_peer. }
  exists s2, C1. split; [done|]. by eapply Next_trans; [exact HN1|exact HN2|].
Qed.

Lemma ind_release_next s C l peer tid (msg : rx_ind) rel :
  Good s C l -> (forall p, peer = Some p -> is_Some (rx_peers s !! p) /\ (ri_release msg <> None -> 0 <= tid < OL_TXRX_NUM_EXT_TIDS)) ->
  exists s' C', (match peer, ri_release msg with
    | Some p, Some (seq_num_start, seq_num_end) =>
      when rel
        (ol_rx_reorder_release p tid seq_num_start seq_num_end;;
         ol_rx_reorder_update_history p reorder_release tid seq_num_start seq_num_end 0)
    | _, _ => skip end) s = Some (tt, s') /\ Next (bool_decide (is_Some (ri_release msg))) s C l s' C' l.
Proof.
  intros HG Hok. assert (forall b, exists s' C', @skip rx_pdev s = Some (tt, s') /\ Next b s C l s' C' l) as Hskip.
  { intros b. exists s, C. split; [done|by apply Next_refl]. }
  destruct peer as [p|]; [|done]. destruct (ri_release msg) as [[a b]|] eqn:Hrl; [|done]. destruct (Hok p eq_refl) as [Hp Ht].
  destruct rel; cbn [when]; [|done]. specialize (Ht ltac:(done)).
  destruct (Good_reorder _ _ _ _ _ HG Hp Ht) as (x & r & Hx & Hr & _).
  destruct (release_next s C l p tid x r a b HG Hx Hr) as (s1 & C1 & H1 & HN1).
  unfold mbind, M_bind. rewrite H1. pose proof HN1 as (HG1 & HF1 & _).
  destruct (update_history_next false s1 C1 l p reorder_release tid a b 0 HG1) as (s2 & -> & HN2 & _).
  { by eapply Frame_is_peer. }
  exists s2, C1. split; [done|]. by eapply Next_trans; [exact HN1|exact HN2|].
Qed.

Lemma ol_rx_indication_handler_spec s C peer_id tid msg (ess : tagged) :
  ri_ranges msg = untag <$> ess ->
  Good s C (tagged_mpdus ess) -> ind_ok s peer_id tid msg ->
  exists s' C', ol_rx_indication_handler peer_id tid msg s = Some (tt, s') /\
    Next (bool_decide (is_Some (ri_release msg))) s C (tagged_mpdus ess) s' C' [].
Proof.
  intros Hess HG Hok. unfold ol_rx_indication_handler. unfold mbind at 1, M_bind at 1, ol_txrx_peer_find_by_id, gets.
  unfold mbind at 1, M_bind at 1. unfold get at 1. fold (ind_peer s peer_id).
  unfold ind_ok in Hok. set (peer := ind_peer s peer_id) in *.
  destruct (ind_flush_next s C _ peer tid msg HG) as (s1 & C1 & H1 & HN1).
  { intros p Hp. destruct (Hok p Hp) as [Hx [Ht|[Ht _]]]; auto. }
  unfold mbind at 1, M_bind at 1. rewrite H1. pose proof HN1 as (HG1 & HF1 & _).
  destruct (rx_ind_ranges_next peer tid ess [] (bool_decide (is_Some (ri_release msg))) s1 C1) as (b & s2 & C2 & H2 & HN2).
  { by rewrite app_nil_r. }
  { intros e He p Hp Hst. destruct (Hok p Hp) as [Hx Ht]. split; [by eapply Frame_is_peer|].
    destruct Ht as [Ht|(_ & _ & Hb)]; [done|]. exfalso. rewrite Hess in Hb.
    apply (proj1 (list.Forall_forall _ _) Hb (untag e)); [|done]. apply list_elem_of_fmap. by exists e. }
  rewrite app_nil_r in HN2. pose proof HN2 as (HG2 & HF2 & _).
  unfold mbind at 1, M_bind at 1. rewrite Hess, H2.
  destruct (ind_release_next s2 C2 [] peer tid msg b HG2) as (s3 & C3 & H3 & HN3).
  { intros p Hp. destruct (Hok p Hp) as [Hx Ht]. split.
    - eapply Frame_is_peer; [exact HF2|]. by eapply Frame_is_peer.
    - intros Hr. destruct Ht as [Ht|(_ & Hn & _)]; [done|]. congruence. }
  unfold mbind at 1, M_bind at 1. rewrite H3. pose proof HN3 as (HG3 & _).
  unfold mbind, M_bind, get. set (bl := bool_decide (is_Some (ri_release msg))) in *. destruct (rx_defrag_timeout_check s3).
  - cbn [when]. destruct (waitlist_flush_next s3 C3 [] HG3) as (s4 & C4 & -> & HN4). exists s4, C4. split; [done|].
    eapply (Next_trans false bl bl); [exact HN1| |by auto]. eapply (Next_trans false bl bl); [exact HN2| |by auto].
    by eapply (Next_trans bl false bl); [exact HN3|exact HN4|auto].
  - exists s3, C3. split; [done|]. eapply (Next_trans false bl bl); [exact HN1| |by auto].
    by eapply (Next_trans false bl bl); [exact HN2|exact HN3|auto].
Qed.
End Handler.
