(* ===== verification/RxOrder.v ===== *)
(** In-order delivery: MPDUs of one block-ack window may arrive in any order;
    a release hands them on in the order of the window. *)
From Stdlib Require Import ZArith Lia.
From stdpp Require Import prelude gmap list numbers functions.
From S2P Require Import Prelude.
From S2P Require Import RxTypes.
From S2P Require Import RxList.
From S2P Require Import RxPn.
From S2P Require Import RxPnSpec.
From S2P Require Import RxStage.
From S2P Require Import RxReorder.
From S2P Require Import RxArray.
From S2P Require Import RxInv.
From S2P Require Import RxOps.
From S2P Require Import RxWindow.
From S2P Require Import RxHandlers.
From S2P Require Import RxInd.
From S2P Require Import RxFrame.
From S2P Require Import RxIndSpec.

(** ** Contents after a series of stores *)

(** Append each MPDU to the contents of its slot. *)
Definition put_all (mask : Z) (l : list (Z * mpdu)) (cont : list (list mpdu)) : list (list mpdu) :=
  foldl (fun cont '(idx, m) =>
    zset cont (Z.land idx mask) (default [] (znth cont (Z.land idx mask)) ++ [m])) cont l.

Lemma put_all_length mask l cont : zlen (put_all mask l cont) = zlen cont.
Proof.
  revert cont. induction l as [|[idx m] l IH]; intros cont; [done|].
  unfold put_all in *. cbn [foldl]. by rewrite IH, zlen_zset.
Qed.

Lemma put_all_at mask l cont j :
  is_mask mask -> zlen cont = mask + 1 -> 0 <= j <= mask ->
  znth (put_all mask l cont) j =
    Some (default [] (znth cont j) ++ (snd <$> filter (fun e => Z.land e.1 mask = j) l)).
Proof.
  intros Hm. unfold put_all. revert cont. induction l as [|[idx m] l IH]; intros cont Hlen Hj.
  { cbn. rewrite app_nil_r. destruct (znth_in_range cont j) as [c ->]; [lia|]. done. }
  cbn [foldl]. pose proof (land_mask_range mask idx Hm) as Hi.
  rewrite IH by (rewrite ?zlen_zset; done). rewrite znth_zset by lia.
  destruct (decide (Z.land idx mask = j)) as [E|E].
  - rewrite list.filter_cons_True by done. rewrite E. cbn. by rewrite <- app_assoc.
  - by rewrite list.filter_cons_False.
Qed.

(** With one MPDU per slot the order of arrival does not matter. *)
Lemma put_all_perm mask l1 l2 cont :
  is_mask mask -> zlen cont = mask + 1 -> l1 ≡ₚ l2 -> NoDup ((fun e : Z * mpdu => Z.land e.1 mask) <$> l1) ->
  put_all mask l1 cont = put_all mask l2 cont.
Proof.
  intros Hm Hlen Hp Hnd. apply list_eq. intros n.
  destruct (decide (Z.of_nat n <= mask)) as [Hn|Hn].
  - pose proof (put_all_at mask l1 cont (Z.of_nat n) Hm Hlen ltac:(lia)) as H1.
    pose proof (put_all_at mask l2 cont (Z.of_nat n) Hm Hlen ltac:(lia)) as H2.
    apply znth_Some in H1 as [_ H1], H2 as [_ H2]. rewrite Nat2Z.id in H1, H2. rewrite H1, H2. f_equal. f_equal. f_equal.
    assert (Hf : filter (fun e => Z.land e.1 mask = Z.of_nat n) l1 ≡ₚ filter (fun e => Z.land e.1 mask = Z.of_nat n) l2) by (by rewrite Hp).
    assert (Hone : forall l, NoDup ((fun e : Z * mpdu => Z.land e.1 mask) <$> l) ->
      (length (filter (fun e => Z.land e.1 mask = Z.of_nat n) l) <= 1)%nat).
    { clear. induction l as [|e l IH]; intros Hnd; [simpl; lia|]. cbn in Hnd. apply list.NoDup_cons in Hnd as [He Hnd].
      destruct (decide (Z.land e.1 mask = Z.of_nat n)) as [E|E].
      - rewrite list.filter_cons_True by done. destruct (filter _ l) as [|e' l'] eqn:F; [simpl; lia|].
        exfalso. assert (e' ∈ filter (fun e => Z.land e.1 mask = Z.of_nat n) l) as Hin by (rewrite F; by left).
        apply list.list_elem_of_filter in Hin as [E' Hin]. apply He. apply list_elem_of_fmap. exists e'. split; [congruence|done].
      - rewrite list.filter_cons_False by done. by apply IH. }
    specialize (Hone l1 Hnd). destruct (filter _ l1) as [|e1 [|e2 k]]; [|..|simpl in Hone; lia].
    + by apply Permutation_nil_l in Hf as ->.
    + by apply Permutation_singleton_l in Hf as ->.
  - rewrite !lookup_ge_None_2; [done| |]; pose proof (put_all_length mask l1 cont); pose proof (put_all_length mask l2 cont);
      unfold zlen in *; lia.
Qed.

(** ** Storing a series *)

(** An MPDU as HTT pops it. *)
Definition as_popped (m : mpdu) : popped_mpdu :=
  mk_popped_mpdu false (default 0 (list.head m.2)) (default 0 (list.last m.2)) m.1 false.

Definition store_all (p tid : Z) (l : list (Z * mpdu)) : M rx_pdev unit :=
  for_each l (fun '(idx, m) => ol_rx_reorder_store p tid idx (pm_head (as_popped m)) (pm_tail (as_popped m))).

Definition as_pending (l : list (Z * mpdu)) : pending := (fun e => (as_popped e.2, e.2)) <$> l.

Lemma store_all_spec s C p tid x r l :
  Good s C (as_pending l) -> rx_peers s !! p = Some x -> znth (rp_tids_rx_reorder x) tid = Some r ->
  exists s' slots h, store_all p tid l s = Some (tt, s') /\
    s' = with_peer p (with_reorder tid (set_slots slots r) x) (with_heap h s) /\
    RxRep s' (<[(p, tid) := put_all (ro_win_sz_mask r) l (C (p, tid))]> C).
Proof.
  revert s C x r. induction l as [|[idx m] l IH]; intros s C x r HG Hp Hr.
  { exists s, (ro_slots r), (rx_heap s). split; [done|]. split.
    - apply rx_pdev_eq; try reflexivity. cbn. assert (set_slots (ro_slots r) r = r) as ->.
      { unfold set_slots, ro_slots. destruct r as [? ? ? [a|] ? ? ? ?]; done. }
      unfold with_reorder, set_rp_tids_rx_reorder. rewrite zset_id by done. rewrite insert_id; [done|]. rewrite Hp. by destruct x.
    - eapply RxRep_ext; [|apply HG]. intros k. cbn.
      destruct (decide (k = (p, tid))) as [->|Hk]; [by rewrite fn_lookup_insert|by rewrite fn_lookup_insert_ne by congruence]. }
  cbn [as_pending fmap list_fmap] in HG.
  destruct (store_next false s C (as_popped m) m (as_pending l) p tid x r idx HG eq_refl Hp Hr)
    as (s1 & C1 & Hrun & (HG1 & _) & _ & _ & HC1 & slots1 & h1 & Hs1). cbv zeta in HC1.
  set (r1 := set_slots slots1 r) in *. set (x1 := with_reorder tid r1 x) in *.
  assert (Hp1 : rx_peers s1 !! p = Some x1) by (rewrite Hs1; apply with_peer_lookup).
  assert (Hr1 : znth (rp_tids_rx_reorder x1) tid = Some r1) by (cbn; apply znth_zset_eq; by eapply znth_lt_Some).
  destruct (IH s1 C1 x1 r1 HG1 Hp1 Hr1) as (s' & slots & h & Hrun' & Hs' & HR').
  exists s', slots, h. split; [|split].
  - unfold store_all. cbn [for_each]. unfold mbind, M_bind. by rewrite Hrun.
  - rewrite Hs', Hs1. assert (set_slots slots r1 = set_slots slots r) as ->.
    { unfold r1, set_slots. by destruct r as [? ? ? [a|] ? ? ? ?]. }
    apply rx_pdev_eq; try reflexivity. cbn. rewrite insert_insert_eq. f_equal.
    unfold x1, with_reorder, set_rp_tids_rx_reorder. cbn. unfold zset. by rewrite list_insert_insert_eq.
  - assert (ro_win_sz_mask r1 = ro_win_sz_mask r) as Hm by apply set_slots_mask. rewrite Hm in HR'.
    eapply RxRep_ext; [|exact HR']. intros k. rewrite HC1.
    destruct (decide (k = (p, tid))) as [->|Hk]; [by rewrite !fn_lookup_insert|by rewrite !fn_lookup_insert_ne by congruence].
Qed.

(** ** Release in order *)

(** The verdict looks at nothing the reordering changes. *)
Lemma verdict_ext `{StackJunk} x x' tid l :
  rp_tids_last_pn x' = rp_tids_last_pn x -> rp_tids_last_pn_valid x' = rp_tids_last_pn_valid x ->
  rp_opt_proc x' = rp_opt_proc x -> rp_fw_pn_check x' = rp_fw_pn_check x -> rp_opmode x' = rp_opmode x ->
  rp_sec_mcast x' = rp_sec_mcast x -> rp_sec_ucast x' = rp_sec_ucast x -> verdict x' tid l = verdict x tid l.
Proof.
  intros E1 E2 E3 E4 E5 E6 E7.
  assert (Hl : last_pn_at x' tid = last_pn_at x tid) by (unfold last_pn_at; by rewrite E1, E2).
  assert (Hs : sec_of_list x' l = sec_of_list x l) by (destruct l; [done|]; cbn; unfold sec_type_of; by rewrite E6, E7).
  unfold verdict. rewrite Hl, E3. unfold pn_decision, pn_checked. by rewrite Hl, Hs, E4, E5.
Qed.

Section InOrder.
Context `{StackJunk}.

(** What the slots of the window hold, in the order of the window. *)
Definition in_window (mask ix ie : Z) (cont : list (list mpdu)) : list mpdu :=
  concat ((fun j => default [] (znth cont j)) <$> swept mask (Z.land ix mask) (Z.land ie mask)).

Lemma window_in_order mask ix ie cont :
  is_mask mask -> zlen cont = mask + 1 -> (window mask ix ie cont).1 = in_window mask ix ie cont.
Proof.
  intros Hm Hlen. unfold window, in_window. pose proof (land_mask_range mask ix Hm) as Hi.
  apply (sweep_gather _ _ (swept_NoDup _ _ _ Hm Hi)). by apply swept_cont.
Qed.

Lemma store_release_spec s C p tid x r l ix ie :
  Good s C (as_pending l) -> rx_peers s !! p = Some x -> znth (rp_tids_rx_reorder x) tid = Some r ->
  let mask := ro_win_sz_mask r in
  let cont := put_all mask l (C (p, tid)) in
  default [] (znth cont (Z.land ix mask)) <> [] ->
  exists s', (store_all p tid l;; ol_rx_reorder_release p tid ix ie) s = Some (tt, s') /\
    (exists C', RxRep s' C') /\
    let '(k, g, v, q) := verdict x tid (in_window mask ix ie cont) in
    rx_delivered s' = rx_delivered s ++ match proc_sink (rp_opt_proc x) with
                                        | Some sk => [mk_delivery sk p tid (msdus k)] | None => [] end /\
    rx_freed s' = rx_freed s ++ msdus g.
Proof.
  intros HG Hp Hr mask cont Hfirst.
  destruct (store_all_spec s C p tid x r l HG Hp Hr) as (s1 & slots & h & Hrun1 & Hs1 & HR1). fold mask cont in HR1.
  set (r1 := set_slots slots r) in *. set (x1 := with_reorder tid r1 x) in *.
  assert (Hp1 : rx_peers s1 !! p = Some x1) by (rewrite Hs1; apply with_peer_lookup).
  assert (Hr1 : znth (rp_tids_rx_reorder x1) tid = Some r1) by (cbn; apply znth_zset_eq; by eapply znth_lt_Some).
  assert (Hmk : ro_win_sz_mask r1 = mask) by apply set_slots_mask.
  destruct (ol_rx_reorder_release_spec s1 _ p tid x1 r1 HR1 Hp1 Hr1 ix ie) as (s2 & Hrun2 & Hrel & HR2).
  cbv zeta in Hrel. rewrite Hmk, fn_lookup_insert in Hrel. exists s2. split; [unfold mbind, M_bind; by rewrite Hrun1|]. split; [by eexists|].
  assert (Hat : reorder_at s p tid = Some r) by (unfold reorder_at; by rewrite Hp).
  destruct (rep_reorder _ _ (good_rep _ _ _ HG) _ _ _ Hat) as (Hm & Hlen & _). fold mask in Hm, Hlen.
  rewrite window_in_order in Hrel by (done || unfold cont; rewrite put_all_length; done).
  destruct Hrel as (h2 & slots2 & _ & Hs2). destruct (default [] (znth cont (Z.land ix mask))) as [|m c]; [done|].
  set (x' := with_last_seq tid (rd_seq_num m.1) (window_peer tid ie (set_slots slots2 r1) x1)) in *.
  pose proof (after_stage_fields (with_heap h2 (with_peer p x' s1)) p tid x' (in_window mask ix ie cont)) as Hf. cbv zeta in Hf.
  rewrite <- Hs2 in Hf. rewrite (verdict_ext x x') in Hf by reflexivity.
  destruct (verdict x tid (in_window mask ix ie cont)) as [[[k g] v] q]. destruct Hf as (_ & _ & _ & Hfr & Hdl).
  rewrite Hfr, Hdl, Hs1. done.
Qed.
End InOrder.
