(* ===== verification/RxDefragSpec.v ===== *)
(** Collecting fragments: when a fragment list is complete, what the insertion
    does for each position of the new fragment, and the storing of fragments
    that come in order on a device that satisfies the invariant. *)
From Stdlib Require Import ZArith Lia.
From stdpp Require Import prelude gmap list numbers functions.
From S2P Require Import Prelude.
From S2P Require Import RxTypes.
From S2P Require Import RxList.
From S2P Require Import RxPn.
From S2P Require Import RxPnSpec.
From S2P Require Import RxStage.
From S2P Require Import RxReorder.
From S2P Require Import RxArray.
From S2P Require Import RxInv.
From S2P Require Import RxOps.
From S2P Require Import RxWindow.
From S2P Require Import RxHandlers.
From S2P Require Import RxDefrag.

(** ** When a fragment list is complete *)

(** The descriptors of the buffers [l]. *)
Definition descs (h : heap) (l : list Z) (ds : list rx_desc) : Prop :=
  Forall2 (fun i d => htt_rx_msdu_desc_retrieve h i = Some d) l ds.

Lemma descs_relinked h h' l' l ds : relinked h h' l' -> descs h l ds -> descs h' l ds.
Proof.
  intros Hr Hd. eapply list.Forall2_impl; [exact Hd|]. cbn. intros i d Hi. by rewrite (proj1 (Hr i)).
Qed.

Section Complete.
Context `{StackJunk}.

(** The fragments after the first one are numbered 1, 2, 3, and so on, and
    each packet number is the successor of the one before. *)
Fixpoint frags_in_order (pn_len : Z) (curr_pn : pn) (count : Z) (ds : list rx_desc) : bool :=
  match ds with
  | [] => true
  | d :: r =>
    let next_pn := htt_rx_mpdu_desc_pn d junk_pn pn_len in
    (rd_fragno d =? u8 (count + 1)) && ((pn_len =? 0) || ol_rx_pn_strict_chk next_pn curr_pn pn_len) &&
    frags_in_order pn_len (if pn_len =? 0 then curr_pn else next_pn) (u8 (count + 1)) r
  end.

(** The list is complete: its tail ends the MPDU, and the fragments are in order. *)
Definition frags_complete (x : rx_peer) (first : rx_desc) (rest : list rx_desc) (last : rx_desc) : bool :=
  let pn_len := rx_pn_len (sec_type_of x first) in
  negb (rd_more_frag last) &&
  frags_in_order pn_len (if pn_len =? 0 then junk_pn else htt_rx_mpdu_desc_pn first junk_pn pn_len) 0 rest.

Lemma frag_check_spec pn_len n h a l d ds curr count :
  seg h (a :: l) None -> descs h (a :: l) (d :: ds) -> (length l < n)%nat ->
  frag_check pn_len junk_pn n h (Some a) curr count = Some (frags_in_order pn_len curr count (d :: ds)).
Proof.
  revert n a d ds curr count. induction l as [|b l IH]; intros n a d ds curr count [Ha Hs] Hd Hn;
    (destruct n as [|n]; [simpl in Hn; lia|]); apply list.Forall2_cons in Hd as [Hda Hd];
    cbn [frag_check frags_in_order mbind option_bind]; rewrite Hda; cbn [mbind option_bind];
    (destruct (rd_fragno d =? u8 (count + 1)); [|done]); cbn [negb andb];
    (destruct (pn_len =? 0) eqn:E; [|destruct (ol_rx_pn_strict_chk _ _ _); [|done]]); cbn [negb andb orb].
  1, 2: rewrite Ha; cbn [mbind option_bind hd_or]; by inversion Hd.
  1, 2: rewrite Ha; cbn [mbind option_bind hd_or]; destruct ds as [|d' ds]; [by inversion Hd|];
        rewrite (IH n b d' ds) by (done || simpl in Hn; lia); cbn [frags_in_order]; by rewrite E.
Qed.

Lemma frag_complete_spec x h a b l first rest tail last :
  seg h (a :: b :: l) None -> descs h (a :: b :: l) (first :: rest) ->
  htt_rx_msdu_desc_retrieve h tail = Some last -> NoDup (a :: b :: l) ->
  frag_complete x h a tail = Some (frags_complete x first rest last).
Proof.
  intros Hs Hd Ht Hnd. pose proof (seg_length _ _ _ Hnd Hs) as Hlen. destruct Hs as [Ha Hs].
  apply list.Forall2_cons in Hd as [Hda Hd]. unfold frag_complete. rewrite Ha. cbn [mbind option_bind hd_or]. rewrite Ht.
  cbn [mbind option_bind]. unfold frags_complete. destruct (rd_more_frag last); [done|]. rewrite Hda. cbn [mbind option_bind negb andb].
  destruct rest as [|d ds]; [by inversion Hd|]. apply (frag_check_spec _ _ _ _ l); [done|done|]. unfold heap_fuel. simpl in Hlen. lia.
Qed.

(** ** The insertion *)

(** Into an empty slot. *)
Lemma fraglist_insert_first x h frag d :
  htt_rx_msdu_desc_retrieve h frag = Some d ->
  exists h', ol_rx_fraglist_insert x h empty_slot frag =
      Some (mk_inserted h' (mk_slot (Some frag) (Some frag)) false []) /\
    seg h' [frag] None /\ relinked h h' [frag].
Proof.
  intros Hd. unfold ol_rx_fraglist_insert. rewrite Hd. cbn [mbind option_bind sl_head empty_slot].
  unfold htt_rx_msdu_desc_retrieve in Hd. destruct (h !! frag) as [n|] eqn:Hn; [|done].
  destruct (adf_nbuf_set_next h frag None) as [h'|] eqn:Hset; [|unfold adf_nbuf_set_next in Hset; by rewrite Hn in Hset].
  exists h'. cbn [mbind option_bind]. split; [done|]. split; [|eapply set_next_relinked; [done|by left]].
  unfold adf_nbuf_set_next in Hset. rewrite Hn in Hset. injection Hset as <-. split; [|done].
  unfold adf_nbuf_next. by rewrite lookup_insert_eq.
Qed.

(** Setting the link of one buffer outside a segment. *)
Lemma seg_link h a v w d :
  htt_rx_msdu_desc_retrieve h a = Some d ->
  exists h', adf_nbuf_set_next h a v = Some h' /\ seg h' [a] w = (adf_nbuf_next h' a = Some w /\ True) /\
    adf_nbuf_next h' a = Some v /\ relinked h h' [a].
Proof.
  intros Hd. unfold htt_rx_msdu_desc_retrieve in Hd. destruct (h !! a) as [n|] eqn:Hn; [|done].
  destruct (adf_nbuf_set_next h a v) as [h'|] eqn:Hset; [|unfold adf_nbuf_set_next in Hset; by rewrite Hn in Hset].
  exists h'. split; [done|]. split; [done|]. split; [|eapply set_next_relinked; [done|by left]].
  unfold adf_nbuf_set_next in Hset. rewrite Hn in Hset. injection Hset as <-. unfold adf_nbuf_next. by rewrite lookup_insert_eq.
Qed.

(** Behind the last fragment. *)
Lemma fraglist_insert_behind x h e l ds frag d last :
  slot_rep h e l -> descs h l ds -> l <> [] -> NoDup (l ++ [frag]) ->
  htt_rx_msdu_desc_retrieve h frag = Some d -> list.last ds = Some last -> rd_fragno last < rd_fragno d ->
  exists h' first rest, ds ++ [d] = first :: rest /\
    ol_rx_fraglist_insert x h e frag =
      Some (mk_inserted h' (mk_slot (sl_head e) (Some frag)) (frags_complete x first rest d) []) /\
    seg h' (l ++ [frag]) None /\ relinked h h' (l ++ [frag]).
Proof.
  intros (Hhd & Htl & v & Hs) Hds Hne Hnd Hd Hlast Hlt. destruct l as [|a l]; [done|]. destruct ds as [|first ds]; [by inversion Hds|].
  assert (Hlt' : exists t, list.last (a :: l) = Some t /\ htt_rx_msdu_desc_retrieve h t = Some last).
  { destruct (exists_last (l := a :: l) ltac:(done)) as (l0 & t & E). rewrite E in *. exists t. split; [by rewrite list.last_snoc|].
    apply list.Forall2_app_inv_l in Hds as (ds0 & ds1 & _ & H1 & E'). apply list.Forall2_cons_inv_l in H1 as (dt & ds2 & Hdt & H2 & ->).
    apply list.Forall2_nil_inv_l in H2 as ->. rewrite E', list.last_snoc in Hlast. by injection Hlast as ->. }
  destruct Hlt' as (t & Ht & Hdt). rewrite Ht in Htl.
  apply list.NoDup_app in Hnd as (Hndl & Hdis & _).
  destruct (seg_set_last h (a :: l) v (Some frag) ltac:(done) Hndl Hs) as (t' & h1 & Ht' & Hset1 & Hs1 & Hr1).
  assert (t' = t) as -> by congruence.
  assert (Hfn : frag ∉ a :: l). { intros Hi. apply (Hdis frag Hi). by left. }
  assert (Hd1 : htt_rx_msdu_desc_retrieve h1 frag = Some d) by (by rewrite (proj1 (Hr1 frag))).
  destruct (seg_link h1 frag None None d Hd1) as (h2 & Hset2 & _ & Hnx2 & Hr2).
  assert (Hseg : seg h2 ((a :: l) ++ [frag]) None).
  { apply seg_app. split; [|by split]. eapply seg_relinked; [exact Hr2| |exact Hs1].
    intros i Hi Hi'. apply list_elem_of_singleton in Hi' as ->. done. }
  assert (Hr : relinked h h2 ((a :: l) ++ [frag])).
  { eapply relinked_trans; [exact Hr1|exact Hr2|set_solver|set_solver]. }
  exists h2, first, (ds ++ [d]). split; [done|]. split; [|done].
  unfold ol_rx_fraglist_insert. rewrite Hd, Hhd. cbn [mbind option_bind list.head]. rewrite Htl. cbn [mbind option_bind].
  rewrite Hdt. cbn [mbind option_bind]. destruct (Z.ltb_spec (rd_fragno last) (rd_fragno d)); [|lia].
  rewrite Hset1. cbn [mbind option_bind]. rewrite Hset2. cbn [mbind option_bind].
  assert (Hds2 : descs h2 ((a :: l) ++ [frag]) ((first :: ds) ++ [d])).
  { eapply descs_relinked; [exact Hr|]. apply List.Forall2_app; [done|by constructor]. }
  assert (Hndf : NoDup ((a :: l) ++ [frag])).
  { apply list.NoDup_app. split_and!; [done|done|apply NoDup_singleton]. }
  assert (exists b l', l ++ [frag] = b :: l') as (b & l' & E) by (destruct l as [|b l]; [by exists frag, []|by exists b, (l ++ [frag])]).
  cbn [app] in Hseg, Hds2, Hndf. rewrite E in Hseg, Hds2, Hndf.
  rewrite (frag_complete_spec x h2 a b l' first (ds ++ [d]) frag d Hseg Hds2); [done| |done].
  by rewrite (proj1 (Hr2 frag)).
Qed.
End Complete.

(** ** Before the last fragment *)

Section Between.
Context `{StackJunk}.

(** The walk stops at the first fragment whose number is not smaller. *)
Lemma frag_position_spec n h f l1 b l2 ds1 db :
  seg h (l1 ++ b :: l2) None -> descs h l1 ds1 -> htt_rx_msdu_desc_retrieve h b = Some db ->
  Forall (fun d => rd_fragno d < f) ds1 -> f <= rd_fragno db -> (length l1 < n)%nat ->
  frag_position n h f (hd_or None (l1 ++ b :: l2)) = Some (b, hd_or None l2, rd_fragno db).
Proof.
  revert n ds1. induction l1 as [|a l1 IH]; intros n ds1 Hs Hds Hb Hlt Hle Hn; (destruct n as [|n]; [lia|]).
  - cbn in Hs. destruct Hs as [Ha _]. cbn [app hd_or frag_position mbind option_bind]. rewrite Hb. cbn [mbind option_bind].
    rewrite Ha. cbn [mbind option_bind]. destruct (Z.ltb_spec (rd_fragno db) f); [lia|done].
  - destruct ds1 as [|d ds1]; [by inversion Hds|]. apply list.Forall2_cons in Hds as [Hd Hds].
    apply list.Forall_cons in Hlt as [Hda Hlt]. destruct Hs as [Ha Hs]. cbn [app hd_or frag_position mbind option_bind].
    rewrite Hd. cbn [mbind option_bind]. fold (app l1 (b :: l2)) in Ha. rewrite Ha. cbn [mbind option_bind].
    destruct (Z.ltb_spec (rd_fragno d) f); [|lia]. simpl in Hn. apply (IH n ds1); done || lia.
Qed.

Context (x : rx_peer) (h : heap) (e : slot) (l1 : list Z) (b : Z) (l2 : list Z) (ds1 : list rx_desc) (db : rx_desc)
  (ds2 : list rx_desc) (frag : Z) (d last : rx_desc).
Context (Hrep : slot_rep h e (l1 ++ b :: l2)) (Hseg : seg h (l1 ++ b :: l2) None) (Hnd : NoDup ((l1 ++ b :: l2) ++ [frag])).
Context (Hds : descs h (l1 ++ b :: l2) (ds1 ++ db :: ds2)) (Hd : htt_rx_msdu_desc_retrieve h frag = Some d)
  (Hlen : length l1 = length ds1) (Hlast : list.last (ds1 ++ db :: ds2) = Some last).
Context (Hlt : Forall (fun d' => rd_fragno d' < rd_fragno d) ds1) (Hle : rd_fragno d <= rd_fragno last).

Lemma between_position :
  rd_fragno d <= rd_fragno db ->
  exists hd t, sl_head e = Some hd /\ sl_tail e = Some t /\ htt_rx_msdu_desc_retrieve h t = Some last /\
    Some hd = hd_or None (l1 ++ b :: l2) /\
    frag_position (heap_fuel h) h (rd_fragno d) (Some hd) = Some (b, hd_or None l2, rd_fragno db).
Proof.
  intros Hdb. destruct Hrep as (Hhd & Htl & _).
  apply list.Forall2_app_inv in Hds as [Hds1 Hds2]; [|done]. apply list.Forall2_cons in Hds2 as [Hb Hds2].
  assert (exists hd, sl_head e = Some hd /\ Some hd = hd_or None (l1 ++ b :: l2)) as (hd & Hh & Hh').
  { rewrite Hhd, hd_or_None. destruct (l1 ++ b :: l2) as [|a0 t0] eqn:E; [by destruct l1|]. by exists a0. }
  assert (exists t, sl_tail e = Some t /\ htt_rx_msdu_desc_retrieve h t = Some last) as (t & Ht & Hdt).
  { rewrite Htl. destruct (exists_last (l := b :: l2) ltac:(done)) as (l0 & t & E). exists t.
    rewrite list.last_app, E, list.last_snoc. split; [done|].
    assert (Hl : Forall2 (fun i d => htt_rx_msdu_desc_retrieve h i = Some d) (b :: l2) (db :: ds2)) by (by constructor).
    rewrite E in Hl. apply list.Forall2_app_inv_l in Hl as (k1 & k2 & _ & Hk & E').
    apply list.Forall2_cons_inv_l in Hk as (dt & k3 & Hdt & Hk & ->). apply list.Forall2_nil_inv_l in Hk as ->.
    rewrite E', app_assoc, list.last_snoc in Hlast. by injection Hlast as ->. }
  exists hd, t. split_and!; try done. rewrite Hh'. apply (frag_position_spec _ _ _ _ _ _ ds1); try done.
  apply list.NoDup_app in Hnd as (Hndl & _ & _). pose proof (seg_length _ _ _ Hndl Hseg) as Hll.
  rewrite length_app in Hll. simpl in Hll. unfold heap_fuel. lia.
Qed.

(** A fragment number that is there already: the new fragment is freed. *)
Lemma fraglist_insert_duplicate :
  rd_fragno db = rd_fragno d ->
  ol_rx_fraglist_insert x h e frag = Some (mk_inserted (delete frag h) e false [frag]).
Proof.
  intros Heq. destruct between_position as (hd & t & Hh & Ht & Hdt & _ & Hpos); [lia|].
  unfold ol_rx_fraglist_insert. rewrite Hd, Hh. cbn [mbind option_bind]. rewrite Ht. cbn [mbind option_bind]. rewrite Hdt.
  cbn [mbind option_bind]. destruct (Z.ltb_spec (rd_fragno last) (rd_fragno d)); [lia|]. rewrite Hpos. cbn [mbind option_bind].
  rewrite Heq, Z.eqb_refl. unfold htt_rx_desc_frame_free. rewrite decide_True; [done|].
  unfold htt_rx_msdu_desc_retrieve in Hd. by destruct (h !! frag).
Qed.

(** A fragment that belongs before [b] ends up behind it, and the slot's tail
    stays what it was. *)
Lemma fraglist_insert_between :
  rd_fragno d < rd_fragno db ->
  exists h' first rest, ds1 ++ db :: d :: ds2 = first :: rest /\
    ol_rx_fraglist_insert x h e frag = Some (mk_inserted h' e (frags_complete x first rest last) []) /\
    seg h' (l1 ++ b :: frag :: l2) None /\ relinked h h' (l1 ++ b :: frag :: l2).
Proof.
  intros Hgt. destruct between_position as (hd & t & Hh & Ht & Hdt & Hhd & Hpos); [lia|].
  apply list.NoDup_app in Hnd as (Hndl & Hdis & _).
  assert (Hfn : frag ∉ l1 ++ b :: l2). { intros Hi. apply (Hdis frag Hi). by left. }
  assert (Hbd : htt_rx_msdu_desc_retrieve h b = Some db).
  { apply list.Forall2_app_inv in Hds as [_ Hds2]; [|done]. by apply list.Forall2_cons in Hds2 as [Hb _]. }
  destruct (seg_link h b (Some frag) None db Hbd) as (h1 & Hset1 & _ & Hnx1 & Hr1).
  assert (Hd1 : htt_rx_msdu_desc_retrieve h1 frag = Some d) by (by rewrite (proj1 (Hr1 frag))).
  destruct (seg_link h1 frag (hd_or None l2) None d Hd1) as (h2 & Hset2 & _ & Hnx2 & Hr2).
  pose proof Hndl as (_ & Hdis1 & Hndb)%list.NoDup_app. apply list.NoDup_cons in Hndb as [Hb2 Hnd2].
  apply seg_app in Hseg as [Hs1 Hs2]. cbn [hd_or] in Hs1. destruct Hs2 as [_ Hs2].
  assert (Hseg2 : seg h2 (l1 ++ b :: frag :: l2) None).
  { apply seg_app. cbn [hd_or]. split.
    - eapply seg_relinked; [exact Hr2| |eapply seg_relinked; [exact Hr1| |exact Hs1]].
      + intros i Hi Hi'. apply list_elem_of_singleton in Hi' as ->. apply Hfn. apply elem_of_app. by left.
      + intros i Hi Hi'. apply list_elem_of_singleton in Hi' as ->. apply (Hdis1 b Hi). by left.
    - split; [|split; [done|]].
      + cbn [hd_or]. rewrite <- Hnx1. unfold adf_nbuf_next. f_equal. apply Hr2. intros Hi.
        apply list_elem_of_singleton in Hi as ->. apply Hfn. apply elem_of_app. right. by left.
      + eapply seg_relinked; [exact Hr2| |eapply seg_relinked; [exact Hr1| |exact Hs2]].
        * intros i Hi Hi'. apply list_elem_of_singleton in Hi' as ->. apply Hfn. apply elem_of_app. right. by right.
        * intros i Hi Hi'. apply list_elem_of_singleton in Hi' as ->. done. }
  assert (Hr : relinked h h2 (l1 ++ b :: frag :: l2)).
  { eapply relinked_trans; [exact Hr1|exact Hr2|set_solver|set_solver]. }
  assert (exists first rest, ds1 ++ db :: d :: ds2 = first :: rest) as (first & rest & E) by (destruct ds1 as [|d1 ds1']; eauto).
  exists h2, first, rest. split; [done|]. split; [|done].
  unfold ol_rx_fraglist_insert. rewrite Hd, Hh. cbn [mbind option_bind]. rewrite Ht. cbn [mbind option_bind]. rewrite Hdt.
  cbn [mbind option_bind]. destruct (Z.ltb_spec (rd_fragno last) (rd_fragno d)); [lia|]. rewrite Hpos. cbn [mbind option_bind].
  destruct (Z.eqb_spec (rd_fragno d) (rd_fragno db)); [lia|]. rewrite Hset1. cbn [mbind option_bind]. rewrite Hset2.
  cbn [mbind option_bind].
  assert (Hnd' : NoDup (l1 ++ b :: frag :: l2)).
  { assert (l1 ++ b :: frag :: l2 ≡ₚ frag :: l1 ++ b :: l2) as -> by solve_Permutation. by apply list.NoDup_cons. }
  assert (Hds' : descs h2 (l1 ++ b :: frag :: l2) (first :: rest)).
  { rewrite <- E. eapply descs_relinked; [exact Hr|]. apply list.Forall2_app_inv in Hds as [Hds1 Hds2]; [|done].
    apply list.Forall2_cons in Hds2 as [Hb Hds2]. apply List.Forall2_app; [done|]. by repeat constructor. }
  assert (Hdt2 : htt_rx_msdu_desc_retrieve h2 t = Some last) by (by rewrite (proj1 (Hr t))).
  assert (exists a b' l', l1 ++ b :: frag :: l2 = a :: b' :: l' /\ hd = a) as (a & b' & l' & E' & ->).
  { destruct l1 as [|a [|b1 l1']]; cbn in Hhd; injection Hhd as ->; by eexists _, _, _. }
  rewrite E' in *. by rewrite (frag_complete_spec x h2 a b' l' first rest t last Hseg2 Hds' Hdt2 Hnd').
Qed.
End Between.

(** Behind a fragment with a higher number the list is never complete, unless
    the higher one is at the front. *)
Lemma frags_complete_disorder `{StackJunk} x first ds1 db d ds2 last :
  rd_fragno d < rd_fragno db -> rd_fragno db < 255 -> frags_complete x first (ds1 ++ db :: d :: ds2) last = false.
Proof.
  intros Hlt Hb. unfold frags_complete. destruct (negb (rd_more_frag last)); [|done]. cbn [andb].
  generalize (if rx_pn_len (sec_type_of x first) =? 0 then junk_pn else htt_rx_mpdu_desc_pn first junk_pn (rx_pn_len (sec_type_of x first))).
  generalize (rx_pn_len (sec_type_of x first)). generalize 0.
  induction ds1 as [|d1 ds1 IH]; intros count pn_len curr; cbn [app frags_in_order].
  - destruct (Z.eqb_spec (rd_fragno db) (u8 (count + 1))) as [E|]; [|done]. cbn [andb].
    destruct (_ || _); [|done]. cbn [andb]. destruct (Z.eqb_spec (rd_fragno d) (u8 (u8 (count + 1) + 1))) as [E'|]; [|done].
    exfalso. rewrite <- E in E'. pose proof (u8_range (count + 1)). rewrite u8_small in E' by lia. lia.
  - rewrite IH. by rewrite andb_false_r.
Qed.
