(* ===== verification/RxDefragOps.v ===== *)
(** Storing a fragment that comes in order, on a device that satisfies the
    invariant. *)
From Stdlib Require Import ZArith Lia.
From stdpp Require Import prelude gmap list numbers functions.
From S2P Require Import Prelude.
From S2P Require Import RxTypes.
From S2P Require Import RxList.
From S2P Require Import RxPn.
From S2P Require Import RxPnSpec.
From S2P Require Import RxStage.
From S2P Require Import RxReorder.
From S2P Require Import RxArray.
From S2P Require Import RxInv.
From S2P Require Import RxOps.
From S2P Require Import RxWindow.
From S2P Require Import RxHandlers.
From S2P Require Import RxDefrag.
From S2P Require Import RxInd.
From S2P Require Import RxFrame.
From S2P Require Import RxIndSpec.
From S2P Require Import RxDefragSpec.

(** ** Small changes of one reorder state *)

(** The reorder state of (p, tid) changes in fields the slots do not depend
    on, and the waitlist in its entry for (p, tid). *)
Lemma RxRep_meta s s' C p tid r r' :
  RxRep s C -> reorder_at s p tid = Some r ->
  (forall q t, reorder_at s' q t = if decide ((q, t) = (p, tid)) then Some r' else reorder_at s q t) ->
  (forall q x, rx_peers s' !! q = Some x -> tids_sized x) -> rx_heap s' = rx_heap s ->
  ro_slots r' = ro_slots r -> ro_win_sz_mask r' = ro_win_sz_mask r -> ro_tid r' = ro_tid r ->
  NoDup (rx_waitlist s') -> ro_linked r' = bool_decide ((p, tid) ∈ rx_waitlist s') ->
  (forall k, k <> (p, tid) -> (k ∈ rx_waitlist s' <-> k ∈ rx_waitlist s)) -> RxRep s' C.
Proof.
  intros HR Hat Hat' Hsz Hh Hsl Hm Ht Hw Hl Hwo. eapply (RxRep_ext _ (<[(p, tid) := C (p, tid)]> C)).
  { intros k. destruct (decide (k = (p, tid))) as [->|Hk]; [by rewrite fn_lookup_insert|by rewrite fn_lookup_insert_ne by congruence]. }
  eapply (RxRep_update s s' C p tid r'); try done.
  - destruct (rep_reorder _ _ HR _ _ _ Hat) as (H1 & H2 & H3). split_and!; [by rewrite Hm|by rewrite Hm|by rewrite Hh, Hsl].
  - rewrite Ht. by apply (rep_tid _ _ HR p).
  - apply HR.
  - intros i k Hk Hi. split; [|by rewrite Hh]. intros Hi'. by apply (rep_disj _ _ HR k (p, tid) Hk i).
Qed.

Section Meta.
Context (s : rx_pdev) (C : contents) (p tid : Z) (x : rx_peer) (r : rx_reorder).
Context (HR : RxRep s C) (Hp : rx_peers s !! p = Some x) (Hr : znth (rp_tids_rx_reorder x) tid = Some r).

Lemma meta_at : reorder_at s p tid = Some r.
Proof. unfold reorder_at. by rewrite Hp. Qed.

Lemma meta_peers s' r' :
  rx_peers s' = <[p := with_reorder tid r' x]> (rx_peers s) ->
  (forall q t, reorder_at s' q t = if decide ((q, t) = (p, tid)) then Some r' else reorder_at s q t) /\
  (forall q y, rx_peers s' !! q = Some y -> tids_sized y) /\
  rx_peers s' !! p = Some (with_reorder tid r' x) /\ znth (rp_tids_rx_reorder (with_reorder tid r' x)) tid = Some r'.
Proof.
  intros Hs'. pose proof (rep_sized _ _ HR _ _ Hp) as Hsz. split_and!.
  - intros q t. eapply (reorder_at_with_peer s p x tid r'); [exact Hp|by eapply znth_lt_Some| |exact Hs']; done.
  - intros q y Hy. rewrite Hs' in Hy. apply lookup_insert_Some in Hy as [[_ <-]|[_ Hy]]; [sized|by eapply rep_sized].
  - rewrite Hs'. apply lookup_insert_eq.
  - cbn. apply znth_zset_eq. by eapply znth_lt_Some.
Qed.

(** Leaving the waitlist, for an entry that may or may not be on it. *)
Lemma waitlist_remove_rep :
  exists w, let r' := set_ro_linked (fun _ => false) r in
    let s' := set_rx_waitlist (fun _ => w) (with_peer p (with_reorder tid r' x) s) in
    ol_rx_defrag_waitlist_remove p tid s = Some (tt, s') /\ RxRep s' C /\ (p, tid) ∉ w.
Proof.
  destruct (waitlist_remove_run s p tid x r Hp Hr) as (w & Hrun & Hw & Hni & Hother).
  { apply (rep_linked _ _ HR _ _ _ meta_at). } { apply HR. }
  exists w. cbv zeta. split; [done|]. split; [|done].
  destruct (meta_peers (set_rx_waitlist (fun _ => w) (with_peer p (with_reorder tid (set_ro_linked (fun _ => false) r) x) s)) _ eq_refl) as (H1 & H2 & _).
  apply (RxRep_meta s _ C p tid r (set_ro_linked (fun _ => false) r) HR meta_at H1 H2); try done.
  by rewrite bool_decide_eq_false_2.
Qed.

(** Joining the waitlist with a deadline. *)
Lemma waitlist_join_rep deadline :
  (p, tid) ∉ rx_waitlist s ->
  let r' := set_ro_linked (fun _ => true) (set_ro_defrag_timeout_ms (fun _ => deadline) r) in
  let s' := set_rx_waitlist (tailq_insert_tail (p, tid)) (with_peer p (with_reorder tid r' x) s) in
  (upd_reorder p tid (set_ro_defrag_timeout_ms (fun _ => deadline));; ol_rx_defrag_waitlist_add p tid) s = Some (tt, s') /\
  RxRep s' C.
Proof.
  intros Hni r' s'. split.
  - unfold ol_rx_defrag_waitlist_add, mbind, M_bind. rewrite (upd_reorder_at _ p tid x r) by done. unfold modify.
    erewrite upd_reorder_at; [|apply with_peer_lookup|cbn; apply znth_zset_eq; by eapply znth_lt_Some].
    f_equal. f_equal. apply rx_pdev_eq; try reflexivity. cbn. rewrite insert_insert_eq. f_equal.
    unfold with_reorder, set_rp_tids_rx_reorder. cbn. unfold zset. by rewrite list_insert_insert_eq.
  - destruct (meta_peers s' r' eq_refl) as (H1 & H2 & _).
    apply (RxRep_meta s _ C p tid r r' HR meta_at H1 H2); try done; unfold tailq_insert_tail; cbn.
    + apply list.NoDup_app. split_and!; [apply HR| |apply NoDup_singleton].
      intros k Hk Hk'. apply list_elem_of_singleton in Hk' as ->. done.
    + symmetry. apply bool_decide_eq_true. apply elem_of_app. right. by apply list_elem_of_singleton.
    + intros k Hk. rewrite elem_of_app, list_elem_of_singleton. tauto.
Qed.
End Meta.

(** ** Storing a fragment in order *)

(** A fragment nobody holds yet, that the peer's security allows. *)
Definition frag_ok (s : rx_pdev) (C : contents) (x : rx_peer) (frag : Z) (d : rx_desc) : Prop :=
  htt_rx_msdu_desc_retrieve (rx_heap s) frag = Some d /\ rd_completes_mpdu d = true /\ rd_mcast d = false /\
  (rp_sec_ucast x = htt_sec_type_none \/ rd_encrypted d = true) /\ forall k, frag ∉ ids (C k).

(** It continues the MPDU whose fragments the slot holds. *)
Definition continues (first last d : rx_desc) : Prop :=
  rd_rxseq d = rd_rxseq first /\ rd_addr1 d = rd_addr1 first /\ rd_addr2 d = rd_addr2 first /\ rd_fragno last < rd_fragno d.

Lemma descs_exist h l : (forall i, i ∈ l -> exists d, htt_rx_msdu_desc_retrieve h i = Some d) -> exists ds, descs h l ds.
Proof.
  induction l as [|i l IH]; intros Hi; [by exists []; constructor|]. destruct IH as [ds Hds]; [intros j Hj; apply Hi; by right|].
  destruct (Hi i ltac:(by left)) as [d Hd]. exists (d :: ds). by constructor.
Qed.

Lemma slot_descs h sl c : slot_ok h sl c -> exists ds, descs h (msdus c) ds.
Proof.
  intros ((_ & _ & v & Hs) & _). apply descs_exist. intros i Hi. destruct (seg_alloc _ _ _ _ Hs Hi) as [n Hn].
  exists (nb_desc n). unfold htt_rx_msdu_desc_retrieve. by rewrite Hn.
Qed.

Lemma mpdu_ok_frag h frag d :
  htt_rx_msdu_desc_retrieve h frag = Some d -> rd_completes_mpdu d = true -> mpdu_ok h (d, [frag]).
Proof.
  intros Hd Hc. split; [by exists frag|]. intros i Hi. cbn in Hi. apply list_elem_of_singleton in Hi as ->. exists d. by rewrite Hc.
Qed.

Section StoreFrag.
Context `{StackJunk}.
Context (s : rx_pdev) (C : contents) (p tid : Z) (x : rx_peer) (r : rx_reorder) (seq_num frag : Z) (d : rx_desc).
Context (HR : RxRep s C) (Hp : rx_peers s !! p = Some x) (Hr : znth (rp_tids_rx_reorder x) tid = Some r).
Context (Hfrag : frag_ok s C x frag d).
Let i := Z.land seq_num (ro_win_sz_mask r).
Let c := default [] (znth (C (p, tid)) i).

(** The slot and its contents. *)
Lemma store_frag_slot :
  exists e, znth (ro_slots r) i = Some e /\ znth (C (p, tid)) i = Some c /\ slot_ok (rx_heap s) e c /\
    0 <= i < zlen (C (p, tid)) /\ frag ∉ msdus c.
Proof.
  assert (Hat : reorder_at s p tid = Some r) by (unfold reorder_at; by rewrite Hp).
  destruct (rep_reorder _ _ HR _ _ _ Hat) as (Hm & Hlen & _). pose proof (rep_array _ _ _ _ _ HR Hat) as Hpre.
  pose proof (land_mask_range _ seq_num Hm) as Hi. fold i in Hi.
  destruct (znth_in_range (C (p, tid)) i) as [c0 Hc]; [lia|].
  destruct (array_in_range _ _ _ _ i Hpre) as [e He]; [lia|].
  destruct (array_znth _ _ _ _ _ _ Hpre He) as (c' & Hc' & Hok & Hci). assert (c' = c0) as -> by congruence.
  unfold c. rewrite Hc. cbn. exists e. split_and!; try done; try lia. destruct Hfrag as (_ & _ & _ & _ & Hn).
  intros Hin. apply (Hn (p, tid)). rewrite (ids_take _ _ _ Hc). apply elem_of_app. by left.
Qed.

(** The device with the fragment in its slot. *)
Definition frag_in (h : heap) (e' : slot) : rx_pdev :=
  with_peer p (with_reorder tid (set_slots (zset (ro_slots r) i e') r) x) (with_heap h s).

Lemma frag_in_rep h e' :
  slot_rep h e' (msdus c ++ [frag]) -> seg h (msdus c ++ [frag]) None -> relinked (rx_heap s) h (msdus c ++ [frag]) ->
  RxRep (frag_in h e') (<[(p, tid) := zset (C (p, tid)) i (c ++ [(d, [frag])])]> C).
Proof.
  intros Hrep Hseg Hrl. destruct store_frag_slot as (e & He & Hc & (_ & Hok & _) & Hi & Hni).
  destruct Hfrag as (Hd & Hcm & _ & _ & Hfr).
  assert (Hat : reorder_at s p tid = Some r) by (unfold reorder_at; by rewrite Hp).
  pose proof (rep_array _ _ _ _ _ HR Hat) as (Hf & _ & Hnd). cbn in Hnd.
  pose proof (ids_take _ _ _ Hc) as Ht. pose proof (ids_put (C (p, tid)) i (c ++ [(d, [frag])]) Hi) as Hput.
  rewrite msdus_app in Hput. cbn in Hput.
  assert (Hids : forall j, j ∈ ids (zset (C (p, tid)) i (c ++ [(d, [frag])])) <-> j ∈ ids (C (p, tid)) \/ j = frag).
  { intros j. rewrite Hput, Ht, !elem_of_app, list_elem_of_singleton. tauto. }
  eapply (RxRep_array s _ C p tid x _ r (set_slots (zset (ro_slots r) i e') r)); try done.
  - pose proof (rep_sized _ _ HR _ _ Hp). sized.
  - apply set_slots_mask.
  - apply set_slots_tid.
  - apply zlen_zset.
  - rewrite set_slots_slots by apply zlen_zset. rewrite Ht in Hnd. pose proof Hnd as (_ & Hdc & _)%list.NoDup_app. split_and!.
    + replace (zset (ro_slots r) i e') with (zset (zset (ro_slots r) i empty_slot) i e') by (unfold zset; by rewrite list_insert_insert_eq).
      replace (zset (C (p, tid)) i (c ++ [(d, [frag])])) with (zset (zset (C (p, tid)) i []) i (c ++ [(d, [frag])]))
        by (unfold zset; by rewrite list_insert_insert_eq).
      apply Forall2_insert.
      * eapply array_relinked; [exact Hrl| |apply Forall2_insert; [done|apply slot_ok_empty]].
        intros j Hj [Hj'|Hj']%elem_of_app; [by apply (Hdc j)|]. apply list_elem_of_singleton in Hj' as ->.
        apply (Hfr (p, tid)). rewrite Ht. apply elem_of_app. by right.
      * split_and!; rewrite ?msdus_app; try done. apply Forall_app. split.
        -- eapply mpdus_ok_filtered; [by apply filtered_relinked| |done]. by intros j _ ?%not_elem_of_nil.
        -- constructor; [|constructor]. apply mpdu_ok_frag; [|done]. rewrite <- Hd. apply Hrl.
    + constructor.
    + cbn. rewrite Hput. rewrite <- app_assoc. apply list.NoDup_app in Hnd as (H1 & _ & H3).
      apply list.NoDup_app. split_and!; [done| |].
      * intros j Hj [Hj'|Hj']%elem_of_app; [|by apply (Hdc j)]. apply list_elem_of_singleton in Hj' as ->. done.
      * apply list.NoDup_cons. split; [|done]. intros Hj. apply (Hfr (p, tid)). rewrite Ht. apply elem_of_app. by right.
  - intros j [Hj| ->]%Hids; [by left|by right].
  - intros j k Hk Hj. apply Hrl. rewrite elem_of_app, list_elem_of_singleton. intros [Hjc| ->]; [|by apply (Hfr k)].
    apply (rep_disj _ _ HR k (p, tid) Hk j Hj). rewrite Ht. apply elem_of_app. by left.
  - apply HR.
  - rewrite set_slots_linked. by apply HR.
Qed.
End StoreFrag.

(** ** Giving a slot away *)

(** The list of a slot is handed over, and the slot emptied. *)
Lemma hand_over_slot_spec s C p tid x r i e c k :
  RxRep s C -> rx_peers s !! p = Some x -> znth (rp_tids_rx_reorder x) tid = Some r ->
  znth (ro_slots r) i = Some e -> znth (C (p, tid)) i = Some c -> c <> [] ->
  exists s', (hand_over k p tid (sl_head e);; put_slot p tid i empty_slot) s = Some (tt, s') /\
    RxRep s' (<[(p, tid) := zset (C (p, tid)) i []]> C) /\
    rx_delivered s' = rx_delivered s ++ [mk_delivery k p tid (msdus c)] /\ rx_freed s' = rx_freed s /\
    rx_waitlist s' = rx_waitlist s /\
    rx_peers s' !! p = Some (with_reorder tid (set_slots (zset (ro_slots r) i empty_slot) r) x).
Proof.
  intros HR Hp Hr He Hc Hne. assert (Hat : reorder_at s p tid = Some r) by (unfold reorder_at; by rewrite Hp).
  pose proof (rep_array _ _ _ _ _ HR Hat) as Hpre. destruct (array_znth _ _ _ _ _ _ Hpre He) as (c' & Hc' & (Hrep & Hok & Hseg) & Hi).
  assert (c' = c) as -> by congruence. pose proof (ids_take _ _ _ Hc) as Hperm. pose proof (rep_nodup _ _ HR (p, tid)) as Hnd.
  rewrite Hperm in Hnd. apply list.NoDup_app in Hnd as (Hndc & _ & _).
  assert (exists a, sl_head e = Some a) as [a Ha].
  { destruct (sl_head e) as [a|] eqn:E; [by exists a|]. exfalso. apply Hne. by apply (slot_ok_None _ _ _ (conj Hrep (conj Hok Hseg)) E). }
  unfold mbind, M_bind. rewrite (head_hd_or _ _ _ Hrep), hand_over_spec by done. unfold put_slot, mbind, M_bind.
  rewrite (get_reorder_at _ p tid r) by (unfold reorder_at; cbn; by rewrite Hp). rewrite (upd_reorder_at _ p tid x r) by done.
  eexists. split; [done|]. split; [|do 3 (split; [done|]); apply with_peer_lookup].
  eapply (RxRep_taken s _ C p tid x _ r (set_slots (zset (ro_slots r) i empty_slot) r) (rx_heap s)
            (zset (ro_slots r) i empty_slot) (zset (C (p, tid)) i []) c (rx_heap s)); try done.
  - apply (array_take _ _ _ _ [] i e c Hpre He Hc). apply relinked_refl.
  - apply zlen_zset.
  - pose proof (rep_sized _ _ HR _ _ Hp). sized.
  - apply set_slots_slots. apply zlen_zset.
  - apply set_slots_mask.
  - apply set_slots_tid.
  - apply HR.
  - rewrite set_slots_linked. by apply HR.
Qed.

(** The time-out of a peer-TID. *)
Lemma set_timeout_rep s C p tid x r v :
  RxRep s C -> rx_peers s !! p = Some x -> znth (rp_tids_rx_reorder x) tid = Some r ->
  let r' := set_ro_defrag_timeout_ms (fun _ => v) r in
  upd_reorder p tid (set_ro_defrag_timeout_ms (fun _ => v)) s = Some (tt, with_peer p (with_reorder tid r' x) s) /\
  RxRep (with_peer p (with_reorder tid r' x) s) C.
Proof.
  intros HR Hp Hr r'. split; [by apply upd_reorder_at|].
  destruct (meta_peers s C p tid x r HR Hp Hr (with_peer p (with_reorder tid r' x) s) r' eq_refl) as (H1 & H2 & _).
  assert (Hat : reorder_at s p tid = Some r) by (unfold reorder_at; by rewrite Hp).
  apply (RxRep_meta s _ C p tid r r' HR Hat H1 H2); try done; [apply HR|]. exact (rep_linked _ _ HR _ _ _ Hat).
Qed.

Section StoreFragRun.
Context `{StackJunk}.

(** What [ol_rx_reorder_store_frag] does once the fragment is in its slot. *)
Definition after_insert (p tid seq seq_num : Z) (e : slot) (all : bool) (check : bool) (deadline : Z) : M rx_pdev unit :=
  when check (ol_rx_defrag_waitlist_remove p tid);;
  if all then
    hand_over to_defrag p tid (sl_head e);;
    put_slot p tid seq empty_slot;;
    upd_reorder p tid (set_ro_defrag_timeout_ms (fun _ => 0));;
    put_last_seq p tid seq_num
  else
    when check
      (upd_reorder p tid (set_ro_defrag_timeout_ms (fun _ => deadline));;
       ol_rx_defrag_waitlist_add p tid).

Lemma after_insert_spec s C p tid x r i e c seq_num all check deadline :
  RxRep s C -> rx_peers s !! p = Some x -> znth (rp_tids_rx_reorder x) tid = Some r ->
  znth (ro_slots r) i = Some e -> znth (C (p, tid)) i = Some c -> c <> [] ->
  exists s', after_insert p tid i seq_num e all check deadline s = Some (tt, s') /\ rx_freed s' = rx_freed s /\
    if all then RxRep s' (<[(p, tid) := zset (C (p, tid)) i []]> C) /\
                rx_delivered s' = rx_delivered s ++ [mk_delivery to_defrag p tid (msdus c)] /\
                (check = true -> (p, tid) ∉ rx_waitlist s')
    else RxRep s' C /\ rx_delivered s' = rx_delivered s /\ (check = true -> (p, tid) ∈ rx_waitlist s').
Proof.
  intros HR Hp Hr He Hc Hne.
  assert (exists s1 x1 r1, when check (ol_rx_defrag_waitlist_remove p tid) s = Some (tt, s1) /\ RxRep s1 C /\
    rx_peers s1 !! p = Some x1 /\ znth (rp_tids_rx_reorder x1) tid = Some r1 /\ ro_slots r1 = ro_slots r /\
    rx_freed s1 = rx_freed s /\ rx_delivered s1 = rx_delivered s /\ (check = true -> (p, tid) ∉ rx_waitlist s1))
    as (s1 & x1 & r1 & Hrun1 & HR1 & Hp1 & Hr1 & Hsl & Hf1 & Hd1 & Hw1).
  { destruct check; cbn [when]; [|by exists s, x, r].
    destruct (waitlist_remove_rep s C p tid x r HR Hp Hr) as (w & Hrun & HR1 & Hni). cbv zeta in *.
    eexists _, _, (set_ro_linked (fun _ => false) r). split; [exact Hrun|]. split; [done|].
    split; [apply with_peer_lookup|]. split; [|done]. cbn. apply znth_zset_eq. by eapply znth_lt_Some. }
  unfold after_insert. unfold mbind at 1, M_bind at 1. rewrite Hrun1. destruct all.
  - destruct (hand_over_slot_spec s1 C p tid x1 r1 i e c to_defrag HR1 Hp1 Hr1) as (s2 & Hrun2 & HR2 & Hd2 & Hf2 & Hw2 & Hp2);
      [by rewrite Hsl|done|done|].
    set (r2 := set_slots (zset (ro_slots r1) i empty_slot) r1) in *. set (x2 := with_reorder tid r2 x1) in *.
    assert (Hr2 : znth (rp_tids_rx_reorder x2) tid = Some r2) by (cbn; apply znth_zset_eq; by eapply znth_lt_Some).
    destruct (set_timeout_rep s2 _ p tid x2 r2 0 HR2 Hp2 Hr2) as [Hrun3 HR3]. cbv zeta in *.
    unfold mbind, M_bind in Hrun2 |- *. destruct (hand_over to_defrag p tid (sl_head e) s1) as [[[] sh]|]; [|done].
    rewrite Hrun2, Hrun3.
    set (s3 := with_peer p (with_reorder tid (set_ro_defrag_timeout_ms (fun _ => 0) r2) x2) s2) in *.
    set (x3 := with_reorder tid (set_ro_defrag_timeout_ms (fun _ => 0) r2) x2) in *.
    assert (Hp3 : rx_peers s3 !! p = Some x3) by apply with_peer_lookup.
    pose proof (rep_sized _ _ HR3 _ _ Hp3) as Hsz3. pose proof Hsz3 as (_ & _ & _ & _ & H5 & _).
    assert (Hat1 : reorder_at s1 p tid = Some r1) by (unfold reorder_at; by rewrite Hp1).
    pose proof (rep_tid_range _ _ _ _ _ HR1 Hat1) as Ht.
    exists (with_peer p (with_last_seq tid seq_num x3) s3). split; [unfold put_last_seq; apply put_tid_at; [done|lia]|].
    split; [change (rx_freed s2 = rx_freed s); congruence|]. split; [|split].
    + apply (RxRep_peer_data _ _ _ x3); try done. sized.
    + change (rx_delivered s2 = rx_delivered s ++ [mk_delivery to_defrag p tid (msdus c)]). by rewrite Hd2, Hd1.
    + intros Hch. change (rx_waitlist s2) with (rx_waitlist s2). change ((p, tid) ∉ rx_waitlist s2). rewrite Hw2. by apply Hw1.
  - destruct check; cbn [when]; [|by exists s1]. specialize (Hw1 eq_refl).
    destruct (waitlist_join_rep s1 C p tid x1 r1 HR1 Hp1 Hr1 deadline Hw1) as [Hrun2 HR2]. cbv zeta in *.
    eexists. split; [exact Hrun2|]. split; [done|]. split; [done|]. split; [done|]. intros _. cbn. unfold tailq_insert_tail.
    apply elem_of_app. right. by apply list_elem_of_singleton.
Qed.
End StoreFragRun.

Lemma set_slots_id r : set_slots (ro_slots r) r = r.
Proof. unfold set_slots, ro_slots. destruct r as [? ? ? [a|] ? ? ? ?]; done. Qed.

Lemma with_reorder_id tid r x : znth (rp_tids_rx_reorder x) tid = Some r -> with_reorder tid r x = x.
Proof. intros Hr. unfold with_reorder, set_rp_tids_rx_reorder. rewrite zset_id by done. by destruct x. Qed.

Section StoreFragInOrder.
Context `{StackJunk}.
Context (s : rx_pdev) (C : contents) (p tid : Z) (x : rx_peer) (r : rx_reorder) (seq_num frag : Z) (d : rx_desc).
Context (HR : RxRep s C) (Hp : rx_peers s !! p = Some x) (Hr : znth (rp_tids_rx_reorder x) tid = Some r).
Context (Hfrag : frag_ok s C x frag d).
Let i := Z.land seq_num (ro_win_sz_mask r).
Let c := default [] (znth (C (p, tid)) i).
Context (ds : list rx_desc) (Hds : descs (rx_heap s) (msdus c) ds).

(** The fragment opens a list, or continues the one in the slot. *)
Definition comes_in_order (ds : list rx_desc) (d : rx_desc) : Prop :=
  match ds with
  | [] => True
  | first :: _ => exists last, list.last ds = Some last /\ continues first last d
  end.

(** With it the MPDU is complete. *)
Definition completes (ds : list rx_desc) (d : rx_desc) : bool :=
  match ds with
  | [] => negb (rd_more_frag d) && (rd_fragno d =? 0)
  | first :: rest => frags_complete x first (rest ++ [d]) d
  end.

Context (Hord : comes_in_order ds d).

Definition stored_frag (all : bool) (s' : rx_pdev) : Prop :=
  rx_freed s' = rx_freed s /\
  if all then RxRep s' (<[(p, tid) := zset (C (p, tid)) i []]> C) /\
              rx_delivered s' = rx_delivered s ++ [mk_delivery to_defrag p tid (msdus c ++ [frag])]
  else RxRep s' (<[(p, tid) := zset (C (p, tid)) i (c ++ [(d, [frag])])]> C) /\ rx_delivered s' = rx_delivered s /\
       (rx_defrag_timeout_check s = true -> (p, tid) ∈ rx_waitlist s').

(** A lone fragment that is a whole MPDU is passed on at once. *)
Lemma store_frag_single :
  ds = [] -> rd_more_frag d = false -> rd_fragno d = 0 ->
  exists s', ol_rx_reorder_store_frag p tid seq_num frag s = Some (tt, s') /\ stored_frag true s'.
Proof.
  intros Hnil Hmore Hno. assert (Hat : reorder_at s p tid = Some r) by (unfold reorder_at; by rewrite Hp).
  destruct (store_frag_slot s C p tid x r seq_num frag d HR Hp Hr Hfrag) as (e & He & Hc & Hok & Hi & Hni). fold i in He, Hc, Hok, Hi, Hni. fold c in Hc, Hok, Hni.
  assert (Hcn : msdus c = []) by (rewrite Hnil in Hds; by inversion Hds).
  pose proof Hok as (_ & Hcok & _). apply (msdus_nil _ _ Hcok) in Hcn as Hcn'.
  rewrite Hcn' in Hok. apply slot_ok_nil in Hok as ->.
  destruct Hfrag as (Hd & Hcm & Hmc & Hsec & Hfr).
  destruct (fraglist_insert_first x (rx_heap s) frag d Hd) as (h1 & Hins & Hs1 & Hr1).
  assert (Hd1 : htt_rx_msdu_desc_retrieve h1 frag = Some d) by (by rewrite (proj1 (Hr1 frag))).
  destruct (seg_link h1 frag None None d Hd1) as (h2 & Hset2 & _ & Hnx2 & Hr2).
  assert (Hrl : relinked (rx_heap s) h2 [frag]) by (by eapply relinked_trans).
  assert (Hsb : negb (bool_decide (rp_sec_ucast x = htt_sec_type_none)) && negb (rd_encrypted d) = false).
  { destruct Hsec as [-> | ->]; [done|by rewrite andb_false_r]. }
  assert (Hrun : ol_rx_reorder_store_frag p tid seq_num frag s = Some (tt,
    set_rx_delivered (fun l => l ++ [mk_delivery to_defrag p tid [frag]]) (set_rx_heap (fun _ => delete frag h2) s))).
  { unfold ol_rx_reorder_store_frag, mbind, M_bind. rewrite (get_peer_at _ _ x), (get_reorder_at _ _ _ _ Hat) by done.
    fold i. unfold lift at 1. rewrite He. unfold get at 1, lift at 1. rewrite Hd, Hmc, Hsb, Hmore, Hno. cbn [negb andb].
    rewrite Z.eqb_refl. cbn [andb sl_head empty_slot]. rewrite bool_decide_eq_true_2 by done. unfold lift at 1.
    rewrite Hins. cbn [in_heap in_slot sl_head]. unfold lift at 1. rewrite Hset2. unfold put_heap, modify at 1.
    change (Some frag) with (hd_or None [frag]). rewrite (hand_over_spec (set_rx_heap (fun _ => h2) s)); [|by cbn; split|apply NoDup_singleton].
    unfold put_slot, mbind, M_bind. rewrite (get_reorder_at _ p tid r) by (unfold reorder_at; cbn; by rewrite Hp).
    rewrite (upd_reorder_at _ p tid x r) by done. rewrite (zset_id _ _ _ He), set_slots_id, with_reorder_id by done.
    f_equal. f_equal. apply rx_pdev_eq; try reflexivity. cbn. by rewrite insert_id. }
  eexists. split; [exact Hrun|]. split; [done|]. rewrite Hcn. split; [|done].
  eapply (RxRep_ext _ C).
  { intros k. destruct (decide (k = (p, tid))) as [->|Hk]; [|by rewrite fn_lookup_insert_ne by congruence].
    rewrite fn_lookup_insert. rewrite zset_id; [done|]. by rewrite Hc, Hcn'. }
  apply (RxRep_same s); try done; [apply HR|]. intros j k Hj. cbn. assert (j <> frag) by (intros ->; by apply (Hfr k)).
  rewrite lookup_delete_ne by done. apply Hrl. by intros ?%list_elem_of_singleton.
Qed.

(** Otherwise the fragment joins the list of the slot. *)
Lemma store_frag_joins e h' e' all :
  znth (ro_slots r) i = Some e -> ds <> [] \/ rd_more_frag d = true \/ rd_fragno d <> 0 ->
  ol_rx_fraglist_insert x (rx_heap s) e frag = Some (mk_inserted h' e' all []) ->
  slot_rep h' e' (msdus c ++ [frag]) -> seg h' (msdus c ++ [frag]) None -> relinked (rx_heap s) h' (msdus c ++ [frag]) ->
  exists s', ol_rx_reorder_store_frag p tid seq_num frag s = Some (tt, s') /\ stored_frag all s'.
Proof.
  intros He Hjoin Hins Hrep Hseg Hrl. assert (Hat : reorder_at s p tid = Some r) by (unfold reorder_at; by rewrite Hp).
  destruct (store_frag_slot s C p tid x r seq_num frag d HR Hp Hr Hfrag) as (e0 & He0 & Hc & Hok & Hi & Hni). fold i in He0, Hc, Hok, Hi, Hni. fold c in Hc, Hok, Hni.
  assert (e0 = e) as -> by congruence. pose proof Hfrag as (Hd & Hcm & Hmc & Hsec & Hfr).
  pose proof (frag_in_rep s C p tid x r seq_num frag d HR Hp Hr Hfrag h' e' Hrep Hseg Hrl) as HR1. fold i in HR1. fold c in HR1.
  set (s1 := frag_in s p tid x r seq_num h' e') in *. set (r1 := set_slots (zset (ro_slots r) i e') r).
  assert (Hp1 : rx_peers s1 !! p = Some (with_reorder tid r1 x)) by apply with_peer_lookup.
  assert (Hr1 : znth (rp_tids_rx_reorder (with_reorder tid r1 x)) tid = Some r1).
  { cbn. apply znth_zset_eq. by eapply znth_lt_Some. }
  assert (Hsl1 : ro_slots r1 = zset (ro_slots r) i e') by (apply set_slots_slots, zlen_zset).
  destruct (after_insert_spec s1 _ p tid _ r1 i e' (c ++ [(d, [frag])]) seq_num all (rx_defrag_timeout_check s)
    (u32 (rx_now_ms s + rx_defrag_timeout_ms s)) HR1 Hp1 Hr1) as (s' & Hrun & Hfr' & Hres).
  { rewrite Hsl1. apply znth_zset_eq. by eapply znth_lt_Some. }
  { rewrite fn_lookup_insert. by apply znth_zset_eq. }
  { by destruct c. }
  assert (Hsb : negb (bool_decide (rp_sec_ucast x = htt_sec_type_none)) && negb (rd_encrypted d) = false).
  { destruct Hsec as [-> | ->]; [done|by rewrite andb_false_r]. }
  assert (Hnot : negb (rd_more_frag d) && (rd_fragno d =? 0) && bool_decide (sl_head e = None) = false).
  { destruct Hjoin as [Hj|[-> | Hj]]; [|done|destruct (Z.eqb_spec (rd_fragno d) 0); [done|by rewrite andb_false_r]].
    rewrite bool_decide_eq_false_2; [by rewrite andb_false_r|]. intros Hn. apply Hj.
    destruct (slot_ok_None _ _ _ Hok Hn) as [E _]. rewrite E in Hds. by inversion Hds. }
  assert (Hdrop : drop_mismatch p tid i d e s = Some (e, s)).
  { unfold drop_mismatch. destruct (sl_head e) as [hd|] eqn:Hhd; [|done]. destruct Hok as ((Hhe & _) & _). rewrite Hhd in Hhe.
    destruct ds as [|first ds'].
    - inversion Hds as [E|]. rewrite <- E in Hhe. done.
    - destruct Hord as (last & _ & Hs1 & Ha1 & Ha2 & _). destruct (msdus c) as [|a cl]; [done|]. cbn in Hhe. injection Hhe as ->.
      apply list.Forall2_cons in Hds as [Hda _]. unfold mbind, M_bind, get, lift. rewrite Hda, Hs1, Ha1, Ha2, !Z.eqb_refl. done. }
  exists s'. split; [|split; [done|]].
  - unfold ol_rx_reorder_store_frag. unfold mbind at 1, M_bind at 1. rewrite (get_peer_at _ _ x) by done.
    unfold mbind at 1, M_bind at 1. rewrite (get_reorder_at _ _ _ _ Hat).
    fold i. unfold mbind at 1, M_bind at 1, lift at 1. rewrite He. unfold mbind at 1, M_bind at 1, get at 1.
    unfold mbind at 1, M_bind at 1, lift at 1. rewrite Hd, Hmc, Hsb, Hnot.
    unfold mbind at 1, M_bind at 1. rewrite Hdrop. unfold mbind at 1, M_bind at 1, get at 1.
    unfold mbind at 1, M_bind at 1, lift at 1. rewrite Hins. cbn [in_heap in_slot in_all_present in_freed].
    unfold mbind at 1, M_bind at 1, put_heap, modify at 1. unfold mbind at 1, M_bind at 1, log_rx_freed, modify at 1.
    unfold mbind at 1, M_bind at 1, put_slot. unfold mbind at 1, M_bind at 1.
    rewrite (get_reorder_at _ p tid r) by (unfold reorder_at; cbn; by rewrite Hp). rewrite (upd_reorder_at _ p tid x r) by done.
    match goal with |- ?m ?st = _ => assert (st = s1) as -> end; [|exact Hrun].
    apply rx_pdev_eq; try reflexivity. cbn. by rewrite app_nil_r.
  - destruct all.
    + destruct Hres as (HR2 & Hd2 & _). rewrite msdus_app in Hd2. split; [|by rewrite Hd2].
      eapply RxRep_ext; [|exact HR2]. intros k. destruct (decide (k = (p, tid))) as [->|Hk].
      * rewrite !fn_lookup_insert. unfold zset. by rewrite list_insert_insert_eq.
      * by rewrite !fn_lookup_insert_ne by congruence.
    + destruct Hres as (HR2 & Hd2 & Hw2). done.
Qed.

Lemma ol_rx_reorder_store_frag_spec :
  exists s', ol_rx_reorder_store_frag p tid seq_num frag s = Some (tt, s') /\ stored_frag (completes ds d) s'.
Proof.
  destruct (store_frag_slot s C p tid x r seq_num frag d HR Hp Hr Hfrag) as (e & He & Hc & Hok & Hi & Hni). fold i in He, Hc, Hok, Hi, Hni. fold c in Hc, Hok, Hni.
  pose proof Hok as (Hrep & Hcok & Hseg). pose proof Hfrag as (Hd & _).
  assert (Hnd : NoDup (msdus c ++ [frag])).
  { apply list.NoDup_app. split_and!; [|intros j Hj Hj'; by apply list_elem_of_singleton in Hj' as ->|apply NoDup_singleton].
    pose proof (rep_nodup _ _ HR (p, tid)) as Hn. rewrite (ids_take _ _ _ Hc) in Hn. by apply list.NoDup_app in Hn as (Hn & _). }
  assert (ds = [] \/ exists first rest, ds = first :: rest) as [E|(first & rest & E)] by (destruct ds; eauto).
  - pose proof Hds as Hds'. rewrite E in Hds' |- *. unfold completes.
    destruct (negb (rd_more_frag d) && (rd_fragno d =? 0)) eqn:Hb.
    + apply andb_true_iff in Hb as [Hm Hz]. apply store_frag_single; [done|by apply negb_true_iff|lia].
    + assert (Hcn : msdus c = []) by (by inversion Hds'). apply (msdus_nil _ _ Hcok) in Hcn as Hcn'.
      rewrite Hcn' in Hok. apply slot_ok_nil in Hok as ->.
      destruct (fraglist_insert_first x (rx_heap s) frag d Hd) as (h1 & Hins & Hs1 & Hr1).
      eapply (store_frag_joins empty_slot h1 (mk_slot (Some frag) (Some frag)) false); rewrite ?Hcn; try done.
      * right. destruct (rd_more_frag d); [by left|right]. cbn in Hb. lia.
      * split_and!; [done|done|by exists None].
  - pose proof Hds as Hds'. pose proof Hord as Hord'. rewrite E in Hds', Hord' |- *.
    destruct Hord' as (last & Hlast & Hcont). pose proof Hcont as (_ & _ & _ & Hlt).
    assert (Hne : msdus c <> []) by (intros En; rewrite En in Hds'; by inversion Hds').
    destruct (fraglist_insert_behind x (rx_heap s) e (msdus c) (first :: rest) frag d last Hrep Hds' Hne Hnd Hd Hlast Hlt)
      as (h' & f' & rs & Ef & Hins & Hs' & Hr'). cbn in Ef. injection Ef as <- <-.
    eapply store_frag_joins; [exact He|left; by rewrite E|exact Hins| |done|done].
    split_and!; [|by rewrite list.last_snoc|by exists None].
    destruct Hrep as (Hhd & _). cbn. rewrite Hhd. by destruct (msdus c).
Qed.
End StoreFragInOrder.
