(* ===== verification/RxExample.v ===== *)
(** Bringing a peer up: the initialisation of a peer's receive state
    establishes the invariant, on a device that satisfied it without the peer.

    A concrete device for the receive path, on which its theorems are run. *)
From Stdlib Require Import ZArith Lia.
From stdpp Require Import prelude gmap list numbers functions.
From S2P Require Import Prelude.
From S2P Require Import RxTypes.
From S2P Require Import RxList.
From S2P Require Import RxPn.
From S2P Require Import RxPnSpec.
From S2P Require Import RxStage.
From S2P Require Import RxReorder.
From S2P Require Import RxArray.
From S2P Require Import RxInv.
From S2P Require Import RxOps.
From S2P Require Import RxWindow.
From S2P Require Import RxHandlers.
From S2P Require Import RxPnInd.
From S2P Require Import RxDefrag.
From S2P Require Import RxInd.
From S2P Require Import RxReplay.
From S2P Require Import RxFrame.
From S2P Require Import RxIndSpec.
From S2P Require Import RxOrder.
From S2P Require Import RxDefragSpec.
From S2P Require Import RxDefragOps.

(** A device without peers. *)
Lemma RxRep_no_peers s : rx_peers s = ∅ -> rx_waitlist s = [] -> RxRep s (fun _ => []).
Proof.
  intros Hp Hw.
  assert (Hat : forall p tid, reorder_at s p tid = None).
  { intros p tid. unfold reorder_at. by rewrite Hp, lookup_empty. }
  split; rewrite ?Hp, ?Hw; try done; try (intros p tid r Hr; by rewrite Hat in Hr).
  - intros. constructor.
  - intros k1 k2 _ i Hi. by apply not_elem_of_nil in Hi.
  - constructor.
  - by intros p tid Hin%not_elem_of_nil.
Qed.

(** The contents after [p] came up. *)
Definition boot_contents (p : Z) (C : contents) : contents := fun k =>
  if decide (k.1 = p /\ 0 <= k.2 < OL_TXRX_NUM_EXT_TIDS) then [[]] else C k.

Lemma ol_rx_peer_init_sized x : tids_sized x -> tids_sized (ol_rx_peer_init x).
Proof.
  intros (H1 & H2 & H3 & H4 & H5 & H6). unfold tids_sized, ol_rx_peer_init, zlen in *. simpl.
  by rewrite !length_fmap, length_imap.
Qed.

Lemma ol_rx_peer_init_reorder x t r :
  tids_sized x -> znth (rp_tids_rx_reorder (ol_rx_peer_init x)) t = Some r ->
  0 <= t < OL_TXRX_NUM_EXT_TIDS /\ exists r0, r = ol_rx_reorder_init t r0.
Proof.
  intros Hx Hr. pose proof (ol_rx_peer_init_sized x Hx) as (Hl & _). pose proof (znth_lt_Some _ _ _ Hr) as Ht.
  rewrite Hl in Ht. split; [done|]. apply znth_Some in Hr as [_ Hr]. simpl in Hr.
  rewrite list_lookup_imap in Hr. destruct (rp_tids_rx_reorder x !! Z.to_nat t) as [r0|]; [|done].
  injection Hr as <-. exists r0. by rewrite Z2Nat.id by lia.
Qed.

Lemma RxRep_peer_init s C p x :
  RxRep s C -> rx_peers s !! p = None -> tids_sized x ->
  RxRep (with_peer p (ol_rx_peer_init x) s) (boot_contents p C).
Proof.
  intros HR Hp Hx. set (s' := with_peer p (ol_rx_peer_init x) s).
  assert (Hold : forall t, reorder_at s p t = None) by (intros t; unfold reorder_at; by rewrite Hp).
  assert (Hw : forall t, (p, t) ∉ rx_waitlist s).
  { intros t Hin. apply (rep_wait_at _ _ HR) in Hin. rewrite Hold in Hin. by destruct Hin. }
  assert (Hne : forall q t, q <> p -> reorder_at s' q t = reorder_at s q t).
  { intros q t Hq. unfold reorder_at, s', with_peer. cbn. by rewrite lookup_insert_ne. }
  assert (Heq : forall t r, reorder_at s' p t = Some r ->
    0 <= t < OL_TXRX_NUM_EXT_TIDS /\ exists r0, r = ol_rx_reorder_init t r0).
  { intros t r Hr. unfold reorder_at, s' in Hr. rewrite with_peer_lookup in Hr. by apply (ol_rx_peer_init_reorder x). }
  assert (HC : forall k, k.1 <> p -> boot_contents p C k = C k).
  { intros k Hk. unfold boot_contents. rewrite decide_False; [done|]. tauto. }
  assert (Hids : forall k, ids (boot_contents p C k) = [] \/ boot_contents p C k = C k).
  { intros k. unfold boot_contents. case_decide; [by left|by right]. }
  split.
  - intros q y Hy. unfold s', with_peer in Hy. cbn in Hy.
    apply lookup_insert_Some in Hy as [[_ <-]|[_ Hy]]; [by apply ol_rx_peer_init_sized|by eapply rep_sized].
  - intros q t r Hr. destruct (decide (q = p)) as [->|Hq].
    + destruct (Heq _ _ Hr) as (Ht & r0 & ->). unfold boot_contents. rewrite decide_True by done.
      split_and!; [by exists 0%nat; split; [lia|]|done|]. constructor; [apply slot_ok_empty|constructor].
    + rewrite HC by done. rewrite Hne in Hr by done. by apply HR.
  - intros q t Hr. destruct (decide (q = p)) as [->|Hq].
    + unfold boot_contents. rewrite decide_False; [by apply HR|]. intros [_ Ht]. cbn in Ht.
      pose proof (ol_rx_peer_init_sized x Hx) as (Hl & _). destruct (znth_in_range (rp_tids_rx_reorder (ol_rx_peer_init x)) t) as [r Hr']; [lia|].
      unfold reorder_at, s' in Hr. rewrite with_peer_lookup in Hr. cbn [mbind option_bind] in Hr. congruence.
    + rewrite HC by done. rewrite Hne in Hr by done. by apply HR.
  - intros k. destruct (Hids k) as [-> | ->]; [constructor|apply HR].
  - intros k1 k2 Hk. destruct (Hids k1) as [-> | ->]; [by intros i Hi%not_elem_of_nil|].
    destruct (Hids k2) as [-> | ->]; [by intros i _ Hi%not_elem_of_nil|by apply HR].
  - intros q t r Hr. destruct (decide (q = p)) as [->|Hq].
    + destruct (Heq _ _ Hr) as (Ht & r0 & ->). unfold OL_TXRX_NUM_EXT_TIDS in Ht. cbn. apply u16_small. lia.
    + rewrite Hne in Hr by done. by apply (rep_tid _ _ HR q).
  - apply HR.
  - intros q t Hin. change (rx_waitlist s') with (rx_waitlist s) in Hin.
    destruct (decide (q = p)) as [->|Hq]; [by apply Hw in Hin|]. rewrite Hne by done. by apply (rep_wait_at _ _ HR).
  - intros q t r Hr. change (rx_waitlist s') with (rx_waitlist s). destruct (decide (q = p)) as [->|Hq].
    + destruct (Heq _ _ Hr) as (_ & r0 & ->). by rewrite bool_decide_eq_false_2.
    + rewrite Hne in Hr by done. by apply (rep_linked _ _ HR).
Qed.

(** What [ol_rx_peer_init] writes besides. *)
Lemma ol_rx_peer_init_fields x :
  let x' := ol_rx_peer_init x in
  rp_fw_pn_check x' = false /\ rp_sec_mcast x' = htt_sec_type_none /\ rp_sec_ucast x' = htt_sec_type_none /\
  Forall (fun v => v = INVALID_REORDER_INDEX) (rp_tids_next_rel_idx x') /\
  Forall (fun v => v = IEEE80211_SEQ_MAX) (rp_tids_last_seq x') /\
  rp_tids_last_pn x' = rp_tids_last_pn x /\ rp_tids_last_pn_valid x' = rp_tids_last_pn_valid x.
Proof.
  split_and!; try done; apply list.Forall_forall; intros v (w & -> & _)%list_elem_of_fmap; done.
Qed.

(** ** A concrete device

    Peer 7, whose id at the target is 3, with CCMP keys and a block-ack window
    of four MPDUs on TID 0.  Buffers 1 to 4 are MPDUs of one MSDU, 5 and 6 are
    the MSDUs of one MPDU, 21 to 23 are the fragments 0 to 2 of an MPDU. *)
Definition ex_junk : StackJunk := (0, 0).

Definition ex_desc (seq packet_number : Z) (first completes : bool) : rx_desc :=
  mk_rx_desc seq seq packet_number 0 0 0 true false first completes false false 0 0 0 false 0 0.
Definition ex_frag_desc (packet_number fragno : Z) (more : bool) : rx_desc :=
  mk_rx_desc 9 0 packet_number 0 0 0 true false true true true false 0 9 fragno more 1 2.

Definition ex_heap : heap :=
  list_to_map [(1, mk_nbuf None (ex_desc 1 101 true true)); (2, mk_nbuf None (ex_desc 2 102 true true));
               (3, mk_nbuf None (ex_desc 3 103 true true)); (4, mk_nbuf None (ex_desc 4 103 true true));
               (5, mk_nbuf (Some 6) (ex_desc 5 105 true false)); (6, mk_nbuf None (ex_desc 5 105 false true));
               (21, mk_nbuf None (ex_frag_desc 201 0 true)); (22, mk_nbuf None (ex_frag_desc 202 1 true));
               (23, mk_nbuf None (ex_frag_desc 203 2 false))].

Definition ex_history : reorder_history :=
  mk_reorder_history 0 false (replicate 50 (mk_reorder_record reorder_store 0 0 0 0 0)).

(** The memory of a peer before its initialisation. *)
Definition ex_mem : rx_peer :=
  mk_rx_peer wlan_op_mode_ap 5 (replicate 20 (mk_rx_reorder 0 0 0 None empty_slot false 0 0))
    (replicate 20 (0, 0)) (replicate 20 false) (replicate 20 0) (replicate 20 0) (replicate 20 0)
    htt_sec_type_none htt_sec_type_none false opt_pn_check (Some ex_history).

Definition ex_bare : rx_pdev :=
  mk_rx_pdev ex_heap ∅ {[ 3 := 7 ]} None [] true 1000 true 50 [] [] (0, 0, 0) [] [].

Definition ex_open : rx_pdev := with_peer 7 (ol_rx_peer_init ex_mem) ex_bare.
Definition ex_keyed_peer : rx_peer := set_rp_sec_ucast (fun _ => htt_sec_type_aes_ccmp) (ol_rx_peer_init ex_mem).
Definition ex_keyed : rx_pdev := with_peer 7 ex_keyed_peer ex_open.
Definition ex_keyed_reorder : rx_reorder := mk_rx_reorder 1 0 0 None empty_slot false 0 0.

Definition ex_ba_reorder : rx_reorder := addba_reorder 4 4 ex_keyed_reorder.
Definition ex_ba_peer : rx_peer :=
  with_next_rel 0 0 (with_reorder 0 ex_ba_reorder (with_last_seq 0 IEEE80211_SEQ_MAX ex_keyed_peer)).
Definition ex_ba : rx_pdev := with_peer 7 ex_ba_peer ex_keyed.

Definition ex_open_contents : contents := boot_contents 7 (fun _ => []).
Definition ex_ba_contents : contents := <[(7, 0) := replicate 4 []]> ex_open_contents.

Definition ex_mpdu (i : Z) : mpdu := (ex_desc i (if i =? 4 then 103 else 100 + i) true true, [i]).
Definition ex_mpdu_5 : mpdu := (ex_desc 5 105 true false, [5; 6]).

Section Examples.
Lemma ex_mem_sized : tids_sized ex_mem.
Proof. repeat split. Qed.

Lemma ex_open_rep : RxRep ex_open ex_open_contents.
Proof. apply RxRep_peer_init; [by apply RxRep_no_peers|done|apply ex_mem_sized]. Qed.

Lemma ex_keyed_rep : RxRep ex_keyed ex_open_contents.
Proof.
  apply (RxRep_peer_data _ _ _ (ol_rx_peer_init ex_mem)); [apply ex_open_rep|done| |done].
  apply (ol_rx_peer_init_sized ex_mem ex_mem_sized).
Qed.

Lemma ex_ba_rep : RxRep ex_ba ex_ba_contents.
Proof. by apply (ol_rx_addba_handler_spec ex_keyed ex_open_contents 3 7 0 ex_keyed_peer ex_keyed_reorder 4 0 4 ex_keyed_rep). Qed.

(** Three MPDUs waiting to be stored, in the wrong order. *)
Definition ex_arrivals : list (Z * mpdu) := [(2, ex_mpdu 2); (1, ex_mpdu 1); (3, ex_mpdu_5)].

Lemma single_ok h i d : h !! i = Some (mk_nbuf None d) -> rd_completes_mpdu d = true -> mpdu_ok h (d, [i]) /\ seg h [i] None.
Proof.
  intros Hi Hd. split; [apply mpdu_ok_frag; [|done]|split; [|done]]; unfold htt_rx_msdu_desc_retrieve, adf_nbuf_next; by rewrite Hi.
Qed.

Lemma ex_mpdu_5_ok : mpdu_ok ex_heap ex_mpdu_5 /\ seg ex_heap [5; 6] None.
Proof.
  split; [|done]. split; [by exists 5|]. intros j [->|Hj]%elem_of_cons; [eexists; split; [done|]; split; done|].
  apply list_elem_of_singleton in Hj as ->. eexists. split; [done|]. by split.
Qed.

Lemma ex_good s C :
  RxRep s C -> rx_heap s = ex_heap -> rx_peers s = {[ 7 := default ex_mem (rx_peers s !! 7) ]} ->
  history_ok (rp_history (default ex_mem (rx_peers s !! 7))) ->
  (forall k, ids (C k) = []) -> Good s C (as_pending ex_arrivals).
Proof.
  intros HR Hh Hp Hhist HC. split; [done| | | |].
  - intros q x Hx. rewrite Hp in Hx. apply lookup_singleton_Some in Hx as [_ <-]. done.
  - rewrite Hh. pose proof ex_mpdu_5_ok as [H5 H5'].
    destruct (single_ok ex_heap 2 (ex_mpdu 2).1 eq_refl eq_refl) as [H2 H2'].
    destruct (single_ok ex_heap 1 (ex_mpdu 1).1 eq_refl eq_refl) as [H1 H1'].
    do 3 (apply list.Forall_cons; split; [by split_and!|]). by apply list.Forall_nil.
  - by vm_compute; repeat constructor; set_solver.
  - intros k i _ Hi. rewrite HC in Hi. by apply not_elem_of_nil in Hi.
Qed.

Lemma ex_ba_good : Good ex_ba ex_ba_contents (as_pending ex_arrivals).
Proof.
  apply ex_good; [apply ex_ba_rep|done|by vm_compute|by vm_compute|].
  intros k. unfold ex_ba_contents. destruct (decide (k = (7, 0))) as [->|Hk]; [by rewrite fn_lookup_insert|].
  rewrite fn_lookup_insert_ne by congruence. unfold ex_open_contents, boot_contents. by case_decide.
Qed.
End Examples.

Lemma ex_frag_ok : frag_ok ex_open ex_open_contents (ol_rx_peer_init ex_mem) 21 (ex_frag_desc 201 0 true).
Proof.
  split_and!; try done; [by left|]. intros k Hi. unfold ex_open_contents, boot_contents in Hi.
  case_decide; by apply not_elem_of_nil in Hi.
Qed.
