(* ===== verification/RxProps.v ===== *)
(** The theorems about the receive path, each with a concrete run. *)
From Stdlib Require Import ZArith Lia Sorting.Sorted.
From stdpp Require Import prelude gmap list numbers functions.
From S2P Require Import Prelude.
From S2P Require Import RxTypes.
From S2P Require Import RxList.
From S2P Require Import RxPn.
From S2P Require Import RxPnSpec.
From S2P Require Import RxStage.
From S2P Require Import RxReorder.
From S2P Require Import RxArray.
From S2P Require Import RxInv.
From S2P Require Import RxOps.
From S2P Require Import RxWindow.
From S2P Require Import RxHandlers.
From S2P Require Import RxPnInd.
From S2P Require Import RxDefrag.
From S2P Require Import RxInd.
From S2P Require Import RxReplay.
From S2P Require Import RxFrame.
From S2P Require Import RxIndSpec.
From S2P Require Import RxOrder.
From S2P Require Import RxDefragSpec.
From S2P Require Import RxDefragOps.
From S2P Require Import RxExample.

(** ** Receive indications *)

(** C3: [ol_rx_indication_handler] returns, for every message whose MPDUs are
    well-formed lists of buffers, whatever their statuses and whichever flush
    and release ranges come with them: no dangling, doubly freed or
    out-of-range access.  The reorder invariant holds again, the reorder history
    stays a ring, and when the message releases nothing every buffer that was
    stored or that the message brought is delivered, freed, or stored. *)
Theorem ol_rx_indication_handler_correct (junk : StackJunk) s C peer_id tid msg (ess : tagged) :
  ri_ranges msg = untag <$> ess -> Good s C (tagged_mpdus ess) -> ind_ok s peer_id tid msg ->
  exists s' C', @ol_rx_indication_handler junk peer_id tid msg s = Some (tt, s') /\
    RxRep s' C' /\ Frame s s' /\ (forall q x, rx_peers s' !! q = Some x -> history_ok (rp_history x)) /\
    (ri_release msg = None -> forall i, accounted s C i \/ i ∈ pend_ids (tagged_mpdus ess) -> accounted s' C' i).
Proof.
  intros He HG Hok. destruct (ol_rx_indication_handler_spec s C peer_id tid msg ess He HG Hok) as (s' & C' & Hrun & HG' & HF & Ha).
  exists s', C'. split; [done|]. split; [apply HG'|]. split; [done|]. split; [apply HG'|].
  intros Hr i Hi. rewrite Hr in Ha. destruct (Ha eq_refl i Hi) as [|Hn]; [done|]. by apply not_elem_of_nil in Hn.
Qed.

(** A message with three good MPDUs that releases slots 1 to 3. *)
Definition ex_ranges : tagged := [(htt_rx_status_ok, as_pending ex_arrivals)].
Definition ex_ind : rx_ind := mk_rx_ind (Some (0, 1)) (Some (1, 4)) (untag <$> ex_ranges).

Lemma ol_rx_indication_handler_correct_witness :
  exists s' C', @ol_rx_indication_handler ex_junk 3 0 ex_ind ex_ba = Some (tt, s') /\
    RxRep s' C' /\ Frame ex_ba s' /\ (forall q x, rx_peers s' !! q = Some x -> history_ok (rp_history x)) /\
    (ri_release ex_ind = None -> forall i, accounted ex_ba ex_ba_contents i \/ i ∈ pend_ids (tagged_mpdus ex_ranges) -> accounted s' C' i).
Proof.
  apply (ol_rx_indication_handler_correct ex_junk ex_ba ex_ba_contents 3 0 ex_ind ex_ranges eq_refl ex_ba_good).
  intros p Hp. vm_compute in Hp. injection Hp as <-. split; [by eexists|]. left. by vm_compute.
Defined.

(** ** In-order delivery *)

(** C10: the MPDUs of a block-ack window are handed on in the order of their
    slots, whatever the order in which they were stored: storing any
    permutation of MPDUs with distinct slots and releasing the window delivers
    what the next stage keeps of the window's contents, slot after slot, and
    frees the rest, provided the first slot of the window is occupied. *)
Theorem reorder_delivers_in_order (junk : StackJunk) s C p tid x r l l0 ix ie :
  Good s C (as_pending l) -> rx_peers s !! p = Some x -> znth (rp_tids_rx_reorder x) tid = Some r ->
  l ≡ₚ l0 -> NoDup ((fun e : Z * mpdu => Z.land e.1 (ro_win_sz_mask r)) <$> l) ->
  let cont := put_all (ro_win_sz_mask r) l0 (C (p, tid)) in
  default [] (znth cont (Z.land ix (ro_win_sz_mask r))) <> [] ->
  exists s', (store_all p tid l;; @ol_rx_reorder_release junk p tid ix ie) s = Some (tt, s') /\ RxInv s' /\
    let '(k, g, v, q) := @verdict junk x tid (in_window (ro_win_sz_mask r) ix ie cont) in
    rx_delivered s' = rx_delivered s ++ match proc_sink (rp_opt_proc x) with
                                        | Some sk => [mk_delivery sk p tid (msdus k)] | None => [] end /\
    rx_freed s' = rx_freed s ++ msdus g.
Proof.
  intros HG Hp Hr Hperm Hnd cont Hfirst.
  assert (Hat : reorder_at s p tid = Some r) by (unfold reorder_at; by rewrite Hp).
  destruct (rep_reorder _ _ (good_rep _ _ _ HG) _ _ _ Hat) as (Hm & Hlen & _).
  assert (E : put_all (ro_win_sz_mask r) l (C (p, tid)) = cont) by (by apply put_all_perm).
  pose proof (store_release_spec s C p tid x r l ix ie HG Hp Hr) as Hspec. cbv zeta in Hspec. rewrite E in Hspec.
  by apply Hspec.
Qed.

(** Stored as 2, 1, 3 they are delivered as 1, 2, and the two MSDUs of 3. *)
Lemma reorder_delivers_in_order_witness :
  exists s', (store_all 7 0 ex_arrivals;; @ol_rx_reorder_release ex_junk 7 0 1 4) ex_ba = Some (tt, s') /\ RxInv s' /\
    rx_delivered s' = [mk_delivery to_fwd_check 7 0 [1; 2; 5; 6]] /\ rx_freed s' = [].
Proof.
  pose proof (reorder_delivers_in_order ex_junk ex_ba ex_ba_contents 7 0 ex_ba_peer ex_ba_reorder ex_arrivals
    [(1, ex_mpdu 1); (2, ex_mpdu 2); (3, ex_mpdu_5)] 1 4 ex_ba_good eq_refl eq_refl) as Hw.
  destruct Hw as (s' & Hrun & Hinv & Hres).
  - apply perm_swap.
  - by apply (bool_decide_unpack _).
  - by vm_compute.
  - exists s'. vm_compute in Hres. destruct Hres as [Hd Hf]. by split_and!.
Defined.

(** ** Replay protection *)

(** C8: over any conversation on one peer-TID, handed to the stage in any
    number of lists, the encrypted MPDUs that are delivered carry strictly
    increasing 48-bit packet numbers, all above the last one seen before: no
    packet number is accepted twice.  Every MPDU is delivered or freed, and a
    freed one carries a packet number at most that of the last one seen. *)
Theorem pn_replay_protection (junk : StackJunk) s p tid x (ls : list (list mpdu)) :
  rx_peers s !! p = Some x -> tids_sized x -> 0 <= tid < OL_TXRX_NUM_EXT_TIDS ->
  Forall (fun l => l <> [] /\ list_of (rx_heap s) l) ls -> NoDup (msdus (concat ls)) -> checks_48 x ls ->
  exists s' ks gs x', @process junk p tid ls s = Some (tt, s') /\ rx_peers s' !! p = Some x' /\
    rx_delivered s' = rx_delivered s ++ stage_deliveries x p tid ks /\ rx_freed s' = rx_freed s ++ msdus (concat gs) /\
    concat ks ++ concat gs ≡ₚ concat ls /\
    StronglySorted Z.lt (pn_keys key48 48 junk (concat ks)) /\
    ((last_pn_at x tid).1 = true -> Forall (Z.lt (key48 (last_pn_at x tid).2)) (pn_keys key48 48 junk (concat ks))) /\
    Forall (fun m => rd_encrypted m.1 = true -> key48 (pn_of 48 junk m) <= key48 (last_pn_at x' tid).2) (concat ls).
Proof.
  intros Hp Hx Ht Hls Hnd Hc. destruct (process_spec p tid ls s x Hp Hx Ht Hls Hnd) as (s' & Hrun & Hres).
  pose proof (verdicts_48 x tid ls Hx Ht Hc) as Hv. destruct (verdicts x tid ls) as [[ks gs] x'].
  destruct (last_pn_at x tid) as [v q], (last_pn_at x' tid) as [v' q'] eqn:E'. cbn [fst snd].
  destruct Hres as (Hd & Hf & Hp'), Hv as (V1 & V2 & V3 & V4 & V5 & V6 & V7).
  exists s', ks, gs, x'. rewrite E'. split_and!; try done. cbv zeta in *. rewrite <- V7. apply Forall_app. split.
  - apply list.Forall_forall. intros m Hm He. destruct v'.
    + refine (proj1 (list.Forall_forall _ _) (V5 eq_refl) _ _). apply list_elem_of_fmap. exists m. split; [done|].
      by apply list.list_elem_of_filter.
    + exfalso. specialize (V6 eq_refl). assert (key48 (pn_of 48 junk m) ∈ pn_keys key48 48 junk (concat ks)) as Hin.
      { apply list_elem_of_fmap. exists m. split; [done|]. by apply list.list_elem_of_filter. }
      change junk with (@junk_pn junk) in Hin. rewrite V6 in Hin. by apply not_elem_of_nil in Hin.
  - eapply list.Forall_impl; [exact V4|]. by intros m [_ Hm] _.
Qed.

(** Buffer 4 repeats the packet number of buffer 3, in another list. *)
Definition ex_lists : list (list mpdu) := [[ex_mpdu 3]; [ex_mpdu 4]; [ex_mpdu_5]].

Lemma single_list_of h m : mpdu_ok h m /\ seg h m.2 None -> NoDup m.2 -> list_of h [m].
Proof.
  intros [Hm Hs] Hnd. assert (E : msdus [m] = m.2) by (cbn; apply app_nil_r). split_and!; rewrite ?E; try done. by constructor.
Qed.

Lemma ex_lists_ok : Forall (fun l => l <> [] /\ list_of (rx_heap ex_keyed) l) ex_lists.
Proof.
  pose proof (single_ok ex_heap 3 (ex_mpdu 3).1 eq_refl eq_refl) as H3.
  pose proof (single_ok ex_heap 4 (ex_mpdu 4).1 eq_refl eq_refl) as H4. pose proof ex_mpdu_5_ok as H5.
  do 3 (apply list.Forall_cons; split; [split; [done|]; apply single_list_of; [done|by apply (bool_decide_unpack _)]|]).
  by apply list.Forall_nil.
Qed.

Lemma pn_replay_protection_witness :
  exists s' ks gs x', @process ex_junk 7 0 ex_lists ex_keyed = Some (tt, s') /\ rx_peers s' !! 7 = Some x' /\
    rx_delivered s' = [] ++ stage_deliveries ex_keyed_peer 7 0 ks /\ rx_freed s' = [] ++ msdus (concat gs) /\
    concat ks ++ concat gs ≡ₚ concat ex_lists /\
    StronglySorted Z.lt (pn_keys key48 48 ex_junk (concat ks)) /\
    ((last_pn_at ex_keyed_peer 0).1 = true ->
     Forall (Z.lt (key48 (last_pn_at ex_keyed_peer 0).2)) (pn_keys key48 48 ex_junk (concat ks))) /\
    Forall (fun m => rd_encrypted m.1 = true -> key48 (pn_of 48 ex_junk m) <= key48 (last_pn_at x' 0).2) (concat ex_lists).
Proof.
  apply (pn_replay_protection ex_junk ex_keyed 7 0 ex_keyed_peer ex_lists); [done| |done|apply ex_lists_ok| |].
  - by repeat split.
  - by apply (bool_decide_unpack _).
  - split_and!; try done. by repeat (apply list.Forall_cons; split; [done|]).
Defined.

(** C36: traffic whose packet numbers increase is never dropped: every list of
    the conversation is delivered as it came and nothing is freed. *)
Theorem pn_in_order_traffic_kept (junk : StackJunk) s p tid x (ls : list (list mpdu)) :
  rx_peers s !! p = Some x -> tids_sized x -> 0 <= tid < OL_TXRX_NUM_EXT_TIDS ->
  Forall (fun l => l <> [] /\ list_of (rx_heap s) l) ls -> NoDup (msdus (concat ls)) -> checks_48 x ls ->
  let keys := pn_keys key48 48 junk (concat ls) in
  StronglySorted Z.lt keys -> ((last_pn_at x tid).1 = true -> Forall (Z.lt (key48 (last_pn_at x tid).2)) keys) ->
  exists s', @process junk p tid ls s = Some (tt, s') /\
    rx_delivered s' = rx_delivered s ++ stage_deliveries x p tid ls /\ rx_freed s' = rx_freed s.
Proof.
  intros Hp Hx Ht Hls Hnd Hc keys Hs Hl. destruct (process_spec p tid ls s x Hp Hx Ht Hls Hnd) as (s' & Hrun & Hres).
  pose proof (verdicts_keep x tid ls Hx Ht Hc Hs Hl) as Hk. pose proof (verdicts_48 x tid ls Hx Ht Hc) as Hv.
  destruct (verdicts x tid ls) as [[ks gs] x'] eqn:E. cbn in Hk. subst ks.
  destruct (last_pn_at x tid), (last_pn_at x' tid). destruct Hv as (_ & _ & _ & _ & _ & _ & V7).
  destruct Hres as (Hd & Hf & _). exists s'. split_and!; [done|done|].
  rewrite <- (app_nil_r (concat ls)) in V7 at 2. apply Permutation_app_inv_l in V7. apply Permutation_nil_r in V7.
  by rewrite Hf, V7, app_nil_r.
Qed.

Lemma pn_in_order_traffic_kept_witness :
  exists s', @process ex_junk 7 0 [[ex_mpdu 3]; [ex_mpdu_5]] ex_keyed = Some (tt, s') /\
    rx_delivered s' = [] ++ stage_deliveries ex_keyed_peer 7 0 [[ex_mpdu 3]; [ex_mpdu_5]] /\ rx_freed s' = [].
Proof.
  pose proof ex_lists_ok as [H3 [_ [H5 _]%list.Forall_cons]%list.Forall_cons]%list.Forall_cons.
  apply (pn_in_order_traffic_kept ex_junk ex_keyed 7 0 ex_keyed_peer).
  - done.
  - by repeat split.
  - done.
  - by do 2 (apply list.Forall_cons; split; [done|]).
  - by apply (bool_decide_unpack _).
  - split_and!; try done. by repeat (apply list.Forall_cons; split; [done|]).
  - vm_compute. repeat constructor.
  - by intros Hn.
Defined.

(** C25: the packet number check walks the list it is given, and what it
    computes is the reference filter on MPDUs: the kept MPDUs come out as one
    [NULL]-terminated list in their old order, the dropped ones are freed and
    reported, the replay counter of the cipher counts their MSDUs, and the last
    packet number is updated; elsewhere the heap is untouched. *)
Theorem ol_rx_pn_check_base_correct (junk : StackJunk) s p tid x l :
  rx_peers s !! p = Some x -> tids_sized x -> 0 <= tid < OL_TXRX_NUM_EXT_TIDS ->
  l <> [] -> list_of (rx_heap s) l ->
  let r := @pn_decision junk x tid l in
  exists h', @ol_rx_pn_check_base junk p tid (hd_or None (msdus l)) s =
      Some (hd_or None (msdus (kept_of r)), @after_check junk s p tid x l h') /\
    list_of h' (kept_of r) /\ filtered (rx_heap s) h' (msdus (kept_of r)) (msdus (dropped_of r)) /\
    kept_of r `sublist_of` l /\ dropped_of r `sublist_of` l /\ kept_of r ++ dropped_of r ≡ₚ l.
Proof.
  intros Hp Hx Ht Hne Hl r. destruct (ol_rx_pn_check_base_spec s p tid x l Hp Hx Ht Hne Hl) as (h' & H1 & H2 & H3).
  exists h'. do 3 (split; [done|]). clear H1 H2 H3. unfold kept_of, dropped_of.
  pose proof (pn_decision_perm x tid l) as Hperm. fold r in Hperm.
  assert (Hsub : r.1.1.1 `sublist_of` l /\ r.1.1.2 `sublist_of` l).
  { unfold r, pn_decision. destruct (last_pn_at x tid) as [v q]. destruct (pn_checked x l); [|split; [done|apply sublist_nil_l]].
    destruct (rx_pn_cmp _) as [cmp|]; [|split; [done|apply sublist_nil_l]].
    destruct (pn_filter _ _ _ v q l) as [[[k g] v'] q'] eqn:E. by apply pn_filter_sublist in E. }
  destruct r as [[[k g] v] q]. cbn in *. split_and!; [apply Hsub..|]. by eapply Hperm.
Qed.

Lemma ol_rx_pn_check_base_correct_witness :
  let r := @pn_decision ex_junk ex_keyed_peer 0 [ex_mpdu 3] in
  exists h', @ol_rx_pn_check_base ex_junk 7 0 (hd_or None [3]) ex_keyed =
      Some (hd_or None (msdus (kept_of r)), @after_check ex_junk ex_keyed 7 0 ex_keyed_peer [ex_mpdu 3] h') /\
    list_of h' (kept_of r) /\ filtered ex_heap h' (msdus (kept_of r)) (msdus (dropped_of r)) /\
    kept_of r `sublist_of` [ex_mpdu 3] /\ dropped_of r `sublist_of` [ex_mpdu 3] /\ kept_of r ++ dropped_of r ≡ₚ [ex_mpdu 3].
Proof.
  pose proof ex_lists_ok as [[H3 H3'] _]%list.Forall_cons.
  apply (ol_rx_pn_check_base_correct ex_junk ex_keyed 7 0 ex_keyed_peer [ex_mpdu 3]); [done|by repeat split|done|done|exact H3'].
Defined.

(** ** Comparing packet numbers *)

(** The packet number in a descriptor: 48 bits for TKIP and CCMP, 128 for WAPI. *)
Definition pn48_number (d : rx_desc) : Z := rd_pn_31_0 d + 2 ^ 32 * (rd_pn_63_32 d mod 2 ^ 16).
Definition pn128_number (q : pn) : Z := q.1 + 2 ^ 64 * q.2.

Lemma pn48_value d junk :
  rd_first_msdu d = true -> 0 <= rd_pn_31_0 d < 2 ^ 32 -> key48 (htt_rx_mpdu_desc_pn d junk 48) = pn48_number d.
Proof.
  intros Hf H0. unfold key48, htt_rx_mpdu_desc_pn, pn48_number. rewrite Hf.
  change (48 =? 128) with false. change (48 =? 48) with true. cbn [orb fst].
  change 0xffffffffffff with (2 ^ 48 - 1). rewrite land_mask by lia.
  assert (Hor : Z.lor (Z.shiftl (rd_pn_63_32 d) 32) (rd_pn_31_0 d) = rd_pn_31_0 d + 2 ^ 32 * rd_pn_63_32 d).
  { rewrite Z.shiftl_mul_pow2 by lia.
    assert (Hz : Z.land (rd_pn_63_32 d * 2 ^ 32) (rd_pn_31_0 d) = 0).
    { apply Z.bits_inj'. intros i Hi. rewrite Z.land_spec, Z.bits_0.
      destruct (Z.ltb_spec i 32); [by rewrite Z.mul_pow2_bits_low by lia|].
      rewrite <- (Z.mod_small (rd_pn_31_0 d) (2 ^ 32)) by lia. rewrite Z.mod_pow2_bits_high by lia. apply andb_false_r. }
    rewrite <- Z.lxor_lor, <- Z.add_nocarry_lxor by done. lia. }
  rewrite Hor. change (2 ^ 48) with (2 ^ 32 * 2 ^ 16). rewrite Z.rem_mul_r by lia.
  rewrite (Z.add_comm (rd_pn_31_0 d)), (Z.mul_comm (2 ^ 32) (rd_pn_63_32 d)).
  rewrite Z.div_add_l by lia. rewrite (Z.div_small (rd_pn_31_0 d)), Z.add_0_r by lia.
  rewrite (Z.add_comm _ (rd_pn_31_0 d)), Z.mod_add, Z.mod_small by lia. done.
Qed.

(** On the descriptors of first MSDUs, the comparison TKIP and CCMP use
    reports a replay exactly when the 48-bit packet number is not larger,
    whatever was on the stack, and accepts a strictly consecutive fragment
    exactly when its packet number is the successor. *)
Theorem ol_rx_pn_cmp48_correct d d0 (junk junk0 : pn) is_unicast opmode :
  rd_first_msdu d = true -> rd_first_msdu d0 = true -> 0 <= rd_pn_31_0 d < 2 ^ 32 -> 0 <= rd_pn_31_0 d0 < 2 ^ 32 ->
  let n := htt_rx_mpdu_desc_pn d junk 48 in let o := htt_rx_mpdu_desc_pn d0 junk0 48 in
  ol_rx_pn_cmp48 n o is_unicast opmode = (pn48_number d <=? pn48_number d0) /\
  ol_rx_pn_strict_chk n o 48 = (pn48_number d =? pn48_number d0 + 1) /\
  0 <= pn48_number d < 2 ^ 48.
Proof.
  intros Hf Hf0 H0 H1 n o. unfold ol_rx_pn_cmp48, ol_rx_pn_strict_chk. fold (key48 n) (key48 o).
  unfold n, o. rewrite !pn48_value by done. split_and!; [done|done|..]; unfold pn48_number;
    pose proof (Z.mod_pos_bound (rd_pn_63_32 d) (2 ^ 16)); lia.
Qed.

Lemma ol_rx_pn_cmp48_correct_witness :
  let n := htt_rx_mpdu_desc_pn (ex_mpdu 3).1 (0, 0) 48 in let o := htt_rx_mpdu_desc_pn (ex_mpdu 2).1 (7, 7) 48 in
  ol_rx_pn_cmp48 n o true wlan_op_mode_ap = (pn48_number (ex_mpdu 3).1 <=? pn48_number (ex_mpdu 2).1) /\
  ol_rx_pn_strict_chk n o 48 = (pn48_number (ex_mpdu 3).1 =? pn48_number (ex_mpdu 2).1 + 1) /\
  0 <= pn48_number (ex_mpdu 3).1 < 2 ^ 48.
Proof. by apply (ol_rx_pn_cmp48_correct (ex_mpdu 3).1 (ex_mpdu 2).1). Defined.

(** The WAPI comparison orders the two 64-bit words of a packet number as
    one 128-bit number, and for unicast frames also rejects a packet number of
    the wrong parity: odd ones at an access point, even ones elsewhere. *)
Theorem ol_rx_pn_wapi_cmp_correct n o is_unicast opmode :
  0 <= n.1 < 2 ^ 64 -> 0 <= o.1 < 2 ^ 64 ->
  ol_rx_pn_wapi_cmp n o is_unicast opmode =
    (pn128_number n <=? pn128_number o) ||
    (is_unicast && (if decide (opmode = wlan_op_mode_ap) then Z.odd n.1 else Z.even n.1)).
Proof.
  intros H0 H1. unfold ol_rx_pn_wapi_cmp, pn128_number.
  assert (Hlt : (if n.2 =? o.2 then n.1 <=? o.1 else n.2 <? o.2) = (n.1 + 2 ^ 64 * n.2 <=? o.1 + 2 ^ 64 * o.2)).
  { destruct (Z.eqb_spec n.2 o.2) as [->|Hne]; [|destruct (Z.ltb_spec n.2 o.2)]; symmetry;
      repeat match goal with |- context [?a <=? ?b] => destruct (Z.leb_spec a b) end; try done; lia. }
  rewrite Hlt. change 1 with (Z.ones 1). rewrite Z.land_ones, Z.pow_1_r by lia. rewrite <- Z.bit0_mod, Z.bit0_odd.
  destruct is_unicast; [|by rewrite orb_false_r]. rewrite andb_true_l, <- Z.negb_odd.
  case_decide; f_equal; by destruct (Z.odd n.1).
Qed.

Lemma ol_rx_pn_wapi_cmp_correct_witness :
  ol_rx_pn_wapi_cmp (3, 1) (5, 0) true wlan_op_mode_sta =
    (pn128_number (3, 1) <=? pn128_number (5, 0)) ||
    (true && (if decide (wlan_op_mode_sta = wlan_op_mode_ap) then Z.odd 3 else Z.even 3)).
Proof. apply (ol_rx_pn_wapi_cmp_correct (3, 1) (5, 0)); simpl; lia. Defined.

(** ** The duplicate check *)

(** Once a sequence number has been recorded for a TID, the duplicate
    check accepts exactly the sequence numbers one to 2049 ahead of it, modulo
    4096: the last one itself, and older ones, are replays; before the first
    one everything is accepted.  The check changes nothing. *)
Theorem ol_rx_reorder_seq_num_check_correct s p tid x last seq_num :
  rx_peers s !! p = Some x -> znth (rp_tids_last_seq x) tid = Some last -> 0 <= last <= 4096 -> 0 <= seq_num < 4096 ->
  ol_rx_reorder_seq_num_check p tid seq_num s =
    Some (if bool_decide (last = IEEE80211_SEQ_MAX \/ 1 <= (seq_num - last) mod 4096 <= 2049)
          then htt_rx_status_ok else htt_rx_status_err_replay, s).
Proof.
  intros Hp Hl Hr Hs. unfold ol_rx_reorder_seq_num_check, mbind, M_bind. rewrite (get_peer_at _ _ _ Hp). unfold lift. rewrite Hl.
  unfold IEEE80211_SEQ_MAX. destruct (Z.eqb_spec last 4096) as [->|Hne]; [by rewrite bool_decide_eq_true_2 by (by left)|].
  change (4096 - 1) with (2 ^ 12 - 1). rewrite land_mask by lia. change (Z.shiftr 4096 1) with 2048.
  assert (E : u32 (seq_num - 1 - last) mod 2 ^ 12 = (seq_num - 1 - last) mod 4096).
  { unfold u32, wrap. change (2 ^ 32) with (4096 * 1048576). rewrite Z.rem_mul_r by lia.
    change (2 ^ 12) with 4096. rewrite Z.mul_comm, Z.mod_add by lia. apply Zmod_mod. }
  rewrite E. unfold mret, M_ret. f_equal. f_equal. pose proof (Z.div_mod (seq_num - last) 4096) as D1.
  pose proof (Z.mod_pos_bound (seq_num - last) 4096). pose proof (Z.mod_pos_bound (seq_num - 1 - last) 4096).
  assert (D : (seq_num - 1 - last) mod 4096 = if decide ((seq_num - last) mod 4096 = 0) then 4095 else (seq_num - last) mod 4096 - 1).
  { case_decide as Hz; symmetry; [apply Z.mod_unique_pos with ((seq_num - last) / 4096 - 1)|apply Z.mod_unique_pos with ((seq_num - last) / 4096)]; lia. }
  rewrite D. case_decide; destruct (Z.ltb_spec 2048 4095); destruct (Z.ltb_spec 2048 ((seq_num - last) mod 4096 - 1));
    case_bool_decide; lia || done.
Qed.

Lemma ol_rx_reorder_seq_num_check_correct_witness :
  ol_rx_reorder_seq_num_check 7 0 5 (with_peer 7 (with_last_seq 0 5 ex_keyed_peer) ex_keyed) =
    Some (if bool_decide (5 = IEEE80211_SEQ_MAX \/ 1 <= (5 - 5) mod 4096 <= 2049)
          then htt_rx_status_ok else htt_rx_status_err_replay, with_peer 7 (with_last_seq 0 5 ex_keyed_peer) ex_keyed).
Proof. apply (ol_rx_reorder_seq_num_check_correct _ 7 0 (with_last_seq 0 5 ex_keyed_peer) 5 5); done || lia. Defined.

(** ** The reorder array *)

(** Storing a well-formed MPDU that no slot holds puts it behind what its
    slot holds, and keeps the invariant; only links of that slot change. *)
Theorem ol_rx_reorder_store_correct s C p tid x r l idx a tl :
  RxRep s C -> rx_peers s !! p = Some x -> znth (rp_tids_rx_reorder x) tid = Some r ->
  fresh_list s C l -> list.head (msdus l) = Some a -> list.last (msdus l) = Some tl ->
  let i := Z.land idx (ro_win_sz_mask r) in
  exists s' c, ol_rx_reorder_store p tid idx a tl s = Some (tt, s') /\ znth (C (p, tid)) i = Some c /\
    RxRep s' (<[(p, tid) := zset (C (p, tid)) i (c ++ l)]> C) /\ relinked (rx_heap s) (rx_heap s') (msdus c).
Proof.
  intros HR Hp Hr Hl Ha Ht i. destruct (ol_rx_reorder_store_spec s C p tid x r l idx a tl HR Hp Hr Hl Ha Ht) as (h & sl & c & Hc & Hrun & Hrl & HR').
  eexists _, c. split; [exact Hrun|]. by split_and!.
Qed.

Lemma ex_fresh : fresh_list ex_ba ex_ba_contents [ex_mpdu_5].
Proof.
  pose proof ex_mpdu_5_ok as [H5 Hs]. split; [done|]. split; [by apply list.Forall_singleton|].
  split; [by apply (bool_decide_unpack _)|]. split; [exact Hs|].
  intros k i _ Hi. destruct (decide (k = (7, 0))) as [->|Hk]; unfold ex_ba_contents in Hi.
  - rewrite fn_lookup_insert in Hi. by apply not_elem_of_nil in Hi.
  - rewrite fn_lookup_insert_ne in Hi by congruence. unfold ex_open_contents, boot_contents in Hi.
    case_decide; by apply not_elem_of_nil in Hi.
Qed.

Lemma ol_rx_reorder_store_correct_witness :
  exists s' c, ol_rx_reorder_store 7 0 6 5 6 ex_ba = Some (tt, s') /\ znth (ex_ba_contents (7, 0)) 2 = Some c /\
    RxRep s' (<[(7, 0) := zset (ex_ba_contents (7, 0)) 2 (c ++ [ex_mpdu_5])]> ex_ba_contents) /\
    relinked ex_heap (rx_heap s') (msdus c).
Proof. apply (ol_rx_reorder_store_correct ex_ba ex_ba_contents 7 0 ex_ba_peer ex_ba_reorder [ex_mpdu_5] 6 5 6 ex_ba_rep); done || apply ex_fresh. Defined.

(** C30: a release returns for every window; it empties the slots of the window
    and no others, records the next index, and, when the first slot is
    occupied, hands the concatenation of the window's slots to the next stage
    as one list; the invariant holds again. *)
Theorem ol_rx_reorder_release_correct (junk : StackJunk) s C p tid x r ix ie :
  RxRep s C -> rx_peers s !! p = Some x -> znth (rp_tids_rx_reorder x) tid = Some r ->
  let mask := ro_win_sz_mask r in let W := window mask ix ie (C (p, tid)) in
  exists s', @ol_rx_reorder_release junk p tid ix ie s = Some (tt, s') /\
    @released junk s p tid ie x r (ids (C (p, tid))) (default [] (znth (C (p, tid)) (Z.land ix mask))) W.1 s' /\
    RxRep s' (<[(p, tid) := W.2]> C) /\ W.1 = in_window mask ix ie (C (p, tid)) /\
    forall j, 0 <= j <= mask ->
      znth W.2 j = if decide (j ∈ swept mask (Z.land ix mask) (Z.land ie mask)) then Some [] else znth (C (p, tid)) j.
Proof.
  intros HR Hp Hr mask W. destruct (ol_rx_reorder_release_spec s C p tid x r HR Hp Hr ix ie) as (s' & H1 & H2 & H3).
  assert (Hat : reorder_at s p tid = Some r) by (unfold reorder_at; by rewrite Hp).
  destruct (rep_reorder _ _ HR _ _ _ Hat) as (Hm & Hlen & _). fold mask in Hm, Hlen.
  exists s'. split; [done|]. split; [done|]. split; [done|]. split; [by apply window_in_order|]. intros j Hj.
  pose proof (land_mask_range mask ix Hm) as Hi. pose proof (swept_cont mask _ (Z.land ie mask) (C (p, tid)) Hm Hi Hlen) as Hsw.
  apply (sweep_gather _ (C (p, tid)) (swept_NoDup mask _ (Z.land ie mask) Hm Hi) Hsw). lia.
Qed.

Lemma ol_rx_reorder_release_correct_witness :
  let W := window 3 1 3 (ex_ba_contents (7, 0)) in
  exists s', @ol_rx_reorder_release ex_junk 7 0 1 3 ex_ba = Some (tt, s') /\
    @released ex_junk ex_ba 7 0 3 ex_ba_peer ex_ba_reorder (ids (ex_ba_contents (7, 0)))
      (default [] (znth (ex_ba_contents (7, 0)) (Z.land 1 3))) W.1 s' /\
    RxRep s' (<[(7, 0) := W.2]> ex_ba_contents) /\ W.1 = in_window 3 1 3 (ex_ba_contents (7, 0)) /\
    forall j, 0 <= j <= 3 ->
      znth W.2 j = if decide (j ∈ swept 3 (Z.land 1 3) (Z.land 3 3)) then Some [] else znth (ex_ba_contents (7, 0)) j.
Proof. by apply (ol_rx_reorder_release_correct ex_junk ex_ba ex_ba_contents 7 0 ex_ba_peer ex_ba_reorder 1 3 ex_ba_rep). Defined.

(** C31: a flush returns for every window; whatever lies in the window is handed
    to the next stage, or freed on a discard, in window order, with holes
    skipped; the peer-TID leaves the waitlist of incomplete fragments; the
    invariant holds again. *)
Theorem ol_rx_reorder_flush_correct (junk : StackJunk) s C p tid x r ix ie action :
  RxRep s C -> rx_peers s !! p = Some x -> znth (rp_tids_rx_reorder x) tid = Some r ->
  let mask := ro_win_sz_mask r in let W := window mask ix (flush_end ix ie) (C (p, tid)) in
  exists s', @ol_rx_reorder_flush junk p tid ix ie action s = Some (tt, s') /\
    @flushed junk s p tid (flush_rel ie) x r action (ids (C (p, tid))) W.1 s' /\
    RxRep s' (<[(p, tid) := W.2]> C) /\ W.1 = in_window mask ix (flush_end ix ie) (C (p, tid)) /\
    Frame s s'.
Proof.
  intros HR Hp Hr mask W. destruct (ol_rx_reorder_flush_spec s C p tid x r HR Hp Hr ix ie action) as (s' & H1 & H2 & H3).
  assert (Hat : reorder_at s p tid = Some r) by (unfold reorder_at; by rewrite Hp).
  destruct (rep_reorder _ _ HR _ _ _ Hat) as (Hm & Hlen & _).
  exists s'. split; [done|]. split; [done|]. split; [done|]. split; [by apply window_in_order|]. by eapply keeps_flush.
Qed.

Lemma ol_rx_reorder_flush_correct_witness :
  let W := window 3 0 0 (ex_ba_contents (7, 0)) in
  exists s', @ol_rx_reorder_flush ex_junk 7 0 0 0xffff htt_rx_flush_discard ex_ba = Some (tt, s') /\
    @flushed ex_junk ex_ba 7 0 0 ex_ba_peer ex_ba_reorder htt_rx_flush_discard (ids (ex_ba_contents (7, 0))) W.1 s' /\
    RxRep s' (<[(7, 0) := W.2]> ex_ba_contents) /\ W.1 = in_window 3 0 0 (ex_ba_contents (7, 0)) /\ Frame ex_ba s'.
Proof.
  by apply (ol_rx_reorder_flush_correct ex_junk ex_ba ex_ba_contents 7 0 ex_ba_peer ex_ba_reorder 0 0xffff htt_rx_flush_discard ex_ba_rep).
Defined.

(** A packet number indication computes the reference split of its window:
    the slots named by the information elements, in order, are freed and
    reported, everything else in the window goes to the next stage, and nothing
    is left in the window; from then on the host trusts the target's check. *)
Theorem ol_rx_pn_ind_handler_correct (junk : StackJunk) s C peer_id p tid x r ix ie cnt pn_ie :
  RxRep s C -> rx_peer_id_map s !! peer_id = Some p -> rx_peers s !! p = Some x ->
  znth (rp_tids_rx_reorder x) tid = Some r -> 0 <= cnt <= zlen pn_ie -> cnt < 256 ->
  let mask := ro_win_sz_mask r in
  let W := window mask ix ie (C (p, tid)) in
  let R := pn_ind_ref (swept mask (Z.land ix mask) (Z.land ie mask)) pn_ie cnt (C (p, tid)) in
  exists s', @ol_rx_pn_ind_handler junk peer_id tid ix ie cnt pn_ie s = Some (tt, s') /\
    @pn_indicated junk s p tid x r (ids (C (p, tid))) R.1 R.2 s' /\ RxRep s' (<[(p, tid) := W.2]> C) /\
    R.1 ++ concat R.2 ≡ₚ W.1.
Proof.
  intros HR Hid Hp Hr Hc Hl mask W R.
  destruct (ol_rx_pn_ind_handler_spec s C peer_id p tid x r HR Hid Hp Hr ix ie cnt pn_ie Hc Hl) as (s' & H1 & H2 & H3).
  exists s'. do 3 (split; [done|]). apply pn_ind_ref_perm.
Qed.

Lemma ol_rx_pn_ind_handler_correct_witness :
  let W := window 3 1 3 (ex_ba_contents (7, 0)) in
  let R := pn_ind_ref (swept 3 (Z.land 1 3) (Z.land 3 3)) [2] 1 (ex_ba_contents (7, 0)) in
  exists s', @ol_rx_pn_ind_handler ex_junk 3 0 1 3 1 [2] ex_ba = Some (tt, s') /\
    @pn_indicated ex_junk ex_ba 7 0 ex_ba_peer ex_ba_reorder (ids (ex_ba_contents (7, 0))) R.1 R.2 s' /\
    RxRep s' (<[(7, 0) := W.2]> ex_ba_contents) /\ R.1 ++ concat R.2 ≡ₚ W.1.
Proof.
  apply (ol_rx_pn_ind_handler_correct ex_junk ex_ba ex_ba_contents 3 7 0 ex_ba_peer ex_ba_reorder 1 3 1 [2] ex_ba_rep); done.
Defined.

(** Cleaning up a peer returns, and frees exactly the buffers its reorder
    arrays hold, on all TIDs; nothing is delivered, no other peer is touched. *)
Theorem ol_rx_reorder_peer_cleanup_correct (junk : StackJunk) s C p :
  RxRep s C -> is_Some (rx_peers s !! p) ->
  exists s' C' l, @ol_rx_reorder_peer_cleanup junk p s = Some (tt, s') /\ RxRep s' C' /\
    (forall t, 0 <= t < OL_TXRX_NUM_EXT_TIDS -> concat (C' (p, t)) = []) /\ (forall k, k.1 <> p -> C' k = C k) /\
    rx_freed s' = rx_freed s ++ l /\ l ≡ₚ concat ((fun t => ids (C (p, t))) <$> zseq_tids) /\
    rx_delivered s' = rx_delivered s.
Proof.
  intros HR Hp. pose proof (ol_rx_reorder_peer_cleanup_spec s C p HR Hp) as Hw.
  apply wp_some in Hw as ([] & s' & Hrun & C' & l & H1 & H2 & H3 & H4 & H5 & _ & H6 & _). exists s', C', l.
  split_and!; try done; [|by auto]. intros t Ht. apply H2. by apply zseq_tids_in.
Qed.

Lemma ol_rx_reorder_peer_cleanup_correct_witness :
  exists s' C' l, @ol_rx_reorder_peer_cleanup ex_junk 7 ex_ba = Some (tt, s') /\ RxRep s' C' /\
    (forall t, 0 <= t < OL_TXRX_NUM_EXT_TIDS -> concat (C' (7, t)) = []) /\ (forall k, k.1 <> 7 -> C' k = ex_ba_contents k) /\
    rx_freed s' = [] ++ l /\ l ≡ₚ concat ((fun t => ids (ex_ba_contents (7, t))) <$> zseq_tids) /\
    rx_delivered s' = [].
Proof. apply (ol_rx_reorder_peer_cleanup_correct ex_junk ex_ba ex_ba_contents 7 ex_ba_rep). by eexists. Defined.

(** ** Peers and block-ack agreements *)

(** A peer that comes up has one empty slot per TID, no sequence number, no
    next index and no keys, and the invariant of the device is kept. *)
Theorem ol_rx_peer_init_correct s C p x :
  RxRep s C -> rx_peers s !! p = None -> tids_sized x ->
  let x' := ol_rx_peer_init x in
  RxRep (with_peer p x' s) (boot_contents p C) /\
  rp_fw_pn_check x' = false /\ rp_sec_mcast x' = htt_sec_type_none /\ rp_sec_ucast x' = htt_sec_type_none /\
  Forall (fun v => v = INVALID_REORDER_INDEX) (rp_tids_next_rel_idx x') /\
  Forall (fun v => v = IEEE80211_SEQ_MAX) (rp_tids_last_seq x').
Proof.
  intros HR Hp Hx x'. split; [by apply RxRep_peer_init|]. destruct (ol_rx_peer_init_fields x) as (H1 & H2 & H3 & H4 & H5 & _).
  by split_and!.
Qed.

Lemma ol_rx_peer_init_correct_witness :
  let x' := ol_rx_peer_init ex_mem in
  RxRep (with_peer 8 x' ex_ba) (boot_contents 8 ex_ba_contents) /\
  rp_fw_pn_check x' = false /\ rp_sec_mcast x' = htt_sec_type_none /\ rp_sec_ucast x' = htt_sec_type_none /\
  Forall (fun v => v = INVALID_REORDER_INDEX) (rp_tids_next_rel_idx x') /\
  Forall (fun v => v = IEEE80211_SEQ_MAX) (rp_tids_last_seq x').
Proof. apply (ol_rx_peer_init_correct ex_ba ex_ba_contents 8 ex_mem ex_ba_rep); done || apply ex_mem_sized. Defined.

(** An ADDBA indication rounds the window up to the next power of two, at
    most 64, and installs an array of that many empty slots with its mask, the
    next index 0 and no last sequence number. *)
Theorem ol_rx_addba_handler_correct s C peer_id p tid x r win_sz start w :
  RxRep s C -> rx_peer_id_map s !! peer_id = Some p -> rx_peers s !! p = Some x ->
  znth (rp_tids_rx_reorder x) tid = Some r -> g_log2ceil win_sz = Some w ->
  let x' := with_next_rel tid 0 (with_reorder tid (addba_reorder win_sz w r) (with_last_seq tid IEEE80211_SEQ_MAX x)) in
  ol_rx_addba_handler true peer_id tid win_sz start false s = Some (tt, with_peer p x' s) /\
  RxRep (with_peer p x' s) (<[(p, tid) := replicate (Z.to_nat w) []]> C) /\
  is_mask (w - 1) /\ win_sz <= w <= 64 /\ (1 < w -> w < 2 * win_sz).
Proof.
  intros HR Hid Hp Hr Hw x'. destruct (g_log2ceil_mask _ _ Hw) as (Hm & H1 & H2 & H3).
  destruct (ol_rx_addba_handler_spec s C peer_id p tid x r win_sz start w HR Hid Hp Hr Hw) as [Ha Hb].
  do 3 (split; [done|]). split; [lia|done].
Qed.

Lemma ol_rx_addba_handler_correct_witness :
  let x' := with_next_rel 0 0 (with_reorder 0 (addba_reorder 5 8 ex_keyed_reorder) (with_last_seq 0 IEEE80211_SEQ_MAX ex_keyed_peer)) in
  ol_rx_addba_handler true 3 0 5 0 false ex_keyed = Some (tt, with_peer 7 x' ex_keyed) /\
  RxRep (with_peer 7 x' ex_keyed) (<[(7, 0) := replicate 8 []]> ex_open_contents) /\
  is_mask (8 - 1) /\ 5 <= 8 <= 64 /\ (1 < 8 -> 8 < 2 * 5).
Proof. by apply (ol_rx_addba_handler_correct ex_keyed ex_open_contents 3 7 0 ex_keyed_peer ex_keyed_reorder 5 0 8 ex_keyed_rep). Defined.

(** A DELBA indication for a peer-TID that is not on the waitlist goes back
    to the single slot, with no next index, and keeps the invariant; an array
    that still held frames is forgotten with them. *)
Theorem ol_rx_delba_handler_correct s C peer_id p tid x r :
  RxRep s C -> rx_peer_id_map s !! peer_id = Some p -> rx_peers s !! p = Some x ->
  znth (rp_tids_rx_reorder x) tid = Some r -> ro_linked r = false ->
  let x' := with_reorder tid (ol_rx_reorder_init tid r) (with_next_rel tid INVALID_REORDER_INDEX x) in
  ol_rx_delba_handler peer_id tid s = Some (tt, with_peer p x' s) /\
  RxRep (with_peer p x' s) (<[(p, tid) := [[]]]> C).
Proof. apply ol_rx_delba_handler_spec. Qed.

Lemma ol_rx_delba_handler_correct_witness :
  let x' := with_reorder 0 (ol_rx_reorder_init 0 ex_ba_reorder) (with_next_rel 0 INVALID_REORDER_INDEX ex_ba_peer) in
  ol_rx_delba_handler 3 0 ex_ba = Some (tt, with_peer 7 x' ex_ba) /\
  RxRep (with_peer 7 x' ex_ba) (<[(7, 0) := [[]]]> ex_ba_contents).
Proof. by apply (ol_rx_delba_handler_correct ex_ba ex_ba_contents 3 7 0 ex_ba_peer ex_ba_reorder ex_ba_rep). Defined.

(** ** Security indications *)

(** A security indication for a known peer records the cipher of the group
    or of the pairwise key, and only that one; a cipher other than WAPI forgets
    the last packet numbers of every TID, a WAPI key other than the first
    pairwise one sets them all to the number of the message, and the first
    WAPI pairwise key leaves them alone; nothing else changes. *)
Theorem ol_rx_sec_ind_handler_correct s peer_id p x sec is_unicast rx_pn :
  rx_peer_id_map s !! peer_id = Some p -> rx_peers s !! p = Some x -> tids_sized x ->
  exists x', ol_rx_sec_ind_handler peer_id sec is_unicast rx_pn s = Some (tt, with_peer p x' s) /\ tids_sized x' /\
    rp_sec_ucast x' = (if is_unicast then sec else rp_sec_ucast x) /\
    rp_sec_mcast x' = (if is_unicast then rp_sec_mcast x else sec) /\
    rp_tids_rx_reorder x' = rp_tids_rx_reorder x /\
    forall tid, 0 <= tid < OL_TXRX_NUM_EXT_TIDS ->
      last_pn_at x' tid =
        if decide (sec = htt_sec_type_wapi) then
          if negb is_unicast || (last_pn_at x 0).1 then (true, rx_pn) else last_pn_at x tid
        else (false, (last_pn_at x tid).2).
Proof.
  intros Hid Hp Hx. pose proof Hx as (H1 & H2 & H3 & H4 & H5 & H6).
  assert (Hrep : forall {A} (v d : A) tid, 0 <= tid < 20 -> default d (znth (replicate 20 v) tid) = v).
  { intros A v d tid Ht. unfold znth. destruct (Z.ltb_spec tid 0); [lia|]. rewrite lookup_replicate_2 by lia. done. }
  set (x1 := (if is_unicast then set_rp_sec_ucast (fun _ => sec) else set_rp_sec_mcast (fun _ => sec)) x).
  assert (Hrun1 : upd_peer p (if is_unicast then set_rp_sec_ucast (fun _ => sec) else set_rp_sec_mcast (fun _ => sec)) s =
    Some (tt, with_peer p x1 s)) by (rewrite (upd_peer_at _ _ x) by done; by destruct is_unicast).
  assert (Hx1 : tids_sized x1 /\ rp_tids_last_pn x1 = rp_tids_last_pn x /\ rp_tids_last_pn_valid x1 = rp_tids_last_pn_valid x /\
    rp_sec_ucast x1 = (if is_unicast then sec else rp_sec_ucast x) /\
    rp_sec_mcast x1 = (if is_unicast then rp_sec_mcast x else sec) /\ rp_tids_rx_reorder x1 = rp_tids_rx_reorder x).
  { unfold x1. by destruct is_unicast; split_and!. }
  destruct Hx1 as (Hs1 & Hl1 & Hv1 & Hu1 & Hm1 & Hr1). clearbody x1.
  destruct (znth_in_range (rp_tids_last_pn_valid x) 0) as [v0 Hv0]; [rewrite H3; done|].
  assert (Hv0' : (last_pn_at x 0).1 = v0) by (unfold last_pn_at; by rewrite Hv0).
  unfold ol_rx_sec_ind_handler, ol_txrx_peer_find_by_id, mbind, M_bind, gets. rewrite Hid, Hrun1, (get_peer_at _ _ x1) by apply with_peer_lookup.
  case_bool_decide as Hw; cbn [negb].
  - unfold lift. rewrite Hv1, Hv0, Hv0'. destruct (negb is_unicast || v0); cbn [when].
    + rewrite (upd_peer_at _ _ x1) by apply with_peer_lookup. erewrite upd_peer_at by apply with_peer_lookup. rewrite !with_peer_twice.
      eexists. split; [done|]. destruct Hs1 as (S1 & S2 & S3 & S4 & S5 & S6). split; [by repeat split|]. do 3 (split; [done|]).
      intros tid Ht. rewrite decide_True by done. unfold last_pn_at. cbn. by rewrite !Hrep.
    + exists x1. split; [done|]. do 4 (split; [done|]). intros tid _. rewrite decide_True by done. unfold last_pn_at. by rewrite Hl1, Hv1.
  - rewrite (upd_peer_at _ _ x1) by apply with_peer_lookup. rewrite with_peer_twice. eexists. split; [done|].
    destruct Hs1 as (S1 & S2 & S3 & S4 & S5 & S6). split; [by repeat split|]. do 3 (split; [done|]).
    intros tid Ht. rewrite decide_False by done. unfold last_pn_at. cbn. by rewrite Hrep, Hl1.
Qed.

Lemma ol_rx_sec_ind_handler_correct_witness :
  exists x', ol_rx_sec_ind_handler 3 htt_sec_type_aes_ccmp true (0, 0) ex_open = Some (tt, with_peer 7 x' ex_open) /\ tids_sized x' /\
    rp_sec_ucast x' = htt_sec_type_aes_ccmp /\ rp_sec_mcast x' = htt_sec_type_none /\
    rp_tids_rx_reorder x' = rp_tids_rx_reorder (ol_rx_peer_init ex_mem) /\
    forall tid, 0 <= tid < OL_TXRX_NUM_EXT_TIDS ->
      last_pn_at x' tid =
        if decide (htt_sec_type_aes_ccmp = htt_sec_type_wapi) then
          if negb true || (last_pn_at (ol_rx_peer_init ex_mem) 0).1 then (true, (0, 0)) else last_pn_at (ol_rx_peer_init ex_mem) tid
        else (false, (last_pn_at (ol_rx_peer_init ex_mem) tid).2).
Proof.
  apply (ol_rx_sec_ind_handler_correct ex_open 3 7 (ol_rx_peer_init ex_mem) htt_sec_type_aes_ccmp true (0, 0)); [done|done|].
  apply (ol_rx_peer_init_sized ex_mem ex_mem_sized).
Defined.

(** ** Fragments *)

(** C37: a fragment that opens a list or follows the last stored fragment of its
    MPDU is stored behind it; when it ends the MPDU, and the fragment and packet
    numbers of the list are consecutive, the whole list goes to the
    defragmentation and the slot is empty; otherwise the peer-TID waits with a
    deadline.  Nothing is freed and the invariant holds again. *)
Theorem ol_rx_reorder_store_frag_correct (junk : StackJunk) s C p tid x r seq_num frag d ds :
  RxRep s C -> rx_peers s !! p = Some x -> znth (rp_tids_rx_reorder x) tid = Some r -> frag_ok s C x frag d ->
  let i := Z.land seq_num (ro_win_sz_mask r) in let c := default [] (znth (C (p, tid)) i) in
  descs (rx_heap s) (msdus c) ds -> comes_in_order ds d ->
  exists s', @ol_rx_reorder_store_frag junk p tid seq_num frag s = Some (tt, s') /\ rx_freed s' = rx_freed s /\
    if @completes junk x ds d then
      RxRep s' (<[(p, tid) := zset (C (p, tid)) i []]> C) /\
      rx_delivered s' = rx_delivered s ++ [mk_delivery to_defrag p tid (msdus c ++ [frag])]
    else
      RxRep s' (<[(p, tid) := zset (C (p, tid)) i (c ++ [(d, [frag])])]> C) /\ rx_delivered s' = rx_delivered s /\
      (rx_defrag_timeout_check s = true -> (p, tid) ∈ rx_waitlist s').
Proof.
  intros HR Hp Hr Hf i c Hds Ho.
  destruct (ol_rx_reorder_store_frag_spec s C p tid x r seq_num frag d HR Hp Hr Hf ds Hds Ho) as (s' & Hrun & Hst & Hres). by exists s'.
Qed.

Lemma ol_rx_reorder_store_frag_correct_witness :
  exists s', @ol_rx_reorder_store_frag ex_junk 7 0 9 21 ex_open = Some (tt, s') /\ rx_freed s' = [] /\
    RxRep s' (<[(7, 0) := [[(ex_frag_desc 201 0 true, [21])]]]> ex_open_contents) /\ rx_delivered s' = [] /\
    (true = true -> (7, 0) ∈ rx_waitlist s').
Proof.
  apply (ol_rx_reorder_store_frag_correct ex_junk ex_open ex_open_contents 7 0 (ol_rx_peer_init ex_mem) ex_keyed_reorder 9 21
    (ex_frag_desc 201 0 true) [] ex_open_rep); [done|done|apply ex_frag_ok|constructor|done].
Defined.

(** A fragment whose number is already stored is freed and the list stays
    as it is; one that belongs in front of the first larger one is linked
    behind it instead, the slot's tail is not moved, and unless the larger one
    was the first of the list, the list is never complete afterwards. *)
Theorem ol_rx_fraglist_insert_late (junk : StackJunk) x h e l1 b l2 ds1 db ds2 frag d last :
  slot_rep h e (l1 ++ b :: l2) -> seg h (l1 ++ b :: l2) None -> NoDup ((l1 ++ b :: l2) ++ [frag]) ->
  descs h (l1 ++ b :: l2) (ds1 ++ db :: ds2) -> htt_rx_msdu_desc_retrieve h frag = Some d -> length l1 = length ds1 ->
  list.last (ds1 ++ db :: ds2) = Some last -> Forall (fun d' => rd_fragno d' < rd_fragno d) ds1 ->
  rd_fragno d <= rd_fragno last -> rd_fragno d <= rd_fragno db < 16 ->
  if rd_fragno db =? rd_fragno d then
    @ol_rx_fraglist_insert junk x h e frag = Some (mk_inserted (delete frag h) e false [frag])
  else exists h' all, @ol_rx_fraglist_insert junk x h e frag = Some (mk_inserted h' e all []) /\
    seg h' (l1 ++ b :: frag :: l2) None /\ (l1 <> [] -> all = false).
Proof.
  intros Hrep Hseg Hnd Hds Hd Hlen Hlast Hlt Hle Hdb. destruct (Z.eqb_spec (rd_fragno db) (rd_fragno d)) as [E|E].
  - by eapply (fraglist_insert_duplicate x h e l1 b l2 ds1 db ds2 frag d last).
  - destruct (fraglist_insert_between x h e l1 b l2 ds1 db ds2 frag d last Hrep Hseg Hnd Hds Hd Hlen Hlast Hlt Hle)
      as (h' & first & rest & E' & Hins & Hs & _); [lia|].
    exists h', (frags_complete x first rest last). split_and!; [done|done|]. intros Hne.
    destruct ds1 as [|d1 ds1]; [by destruct l1|]. cbn in E'. injection E' as <- <-. apply frags_complete_disorder; lia.
Qed.

(** Fragments 0 and 2 are stored, fragment 1 comes last. *)
Definition ex_frag_heap : heap :=
  list_to_map [(21, mk_nbuf (Some 23) (ex_frag_desc 201 0 true)); (23, mk_nbuf None (ex_frag_desc 203 2 false));
               (22, mk_nbuf None (ex_frag_desc 202 1 true))].

Lemma ol_rx_fraglist_insert_late_witness :
  exists h' all, @ol_rx_fraglist_insert ex_junk ex_keyed_peer ex_frag_heap (mk_slot (Some 21) (Some 23)) 22 =
      Some (mk_inserted h' (mk_slot (Some 21) (Some 23)) all []) /\
    seg h' ([21] ++ 23 :: 22 :: []) None /\ ([21] <> [] -> all = false).
Proof.
  apply (ol_rx_fraglist_insert_late ex_junk ex_keyed_peer ex_frag_heap (mk_slot (Some 21) (Some 23)) [21] 23 []
    [ex_frag_desc 201 0 true] (ex_frag_desc 203 2 false) [] 22 (ex_frag_desc 202 1 true) (ex_frag_desc 203 2 false)); try done.
  - split_and!; [done|done|by exists None].
  - by apply (bool_decide_unpack _).
  - by repeat constructor.
  - by repeat constructor.
Defined.

(** Flushing the fragments of a slot frees exactly what the slot holds and
    empties it, keeping the invariant; the waitlist is not touched. *)
Theorem ol_rx_reorder_flush_frag_correct s C p tid x r seq_num :
  RxRep s C -> rx_peers s !! p = Some x -> znth (rp_tids_rx_reorder x) tid = Some r ->
  let i := Z.land seq_num (ro_win_sz_mask r) in
  exists c s', znth (C (p, tid)) i = Some c /\ ol_rx_reorder_flush_frag p tid seq_num s = Some (tt, s') /\
    rx_freed s' = rx_freed s ++ msdus c /\ rx_delivered s' = rx_delivered s /\ rx_waitlist s' = rx_waitlist s /\
    RxRep s' (<[(p, tid) := zset (C (p, tid)) i []]> C).
Proof.
  intros HR Hp Hr i. destruct (ol_rx_reorder_flush_frag_spec s C p tid x r seq_num HR Hp Hr) as (c & s' & H1 & H2 & H3 & H4 & H5 & _ & H6).
  by exists c, s'.
Qed.

Lemma ol_rx_reorder_flush_frag_correct_witness :
  exists c s', znth (ex_ba_contents (7, 0)) (Z.land 6 3) = Some c /\ ol_rx_reorder_flush_frag 7 0 6 ex_ba = Some (tt, s') /\
    rx_freed s' = [] ++ msdus c /\ rx_delivered s' = [] /\ rx_waitlist s' = [] /\
    RxRep s' (<[(7, 0) := zset (ex_ba_contents (7, 0)) (Z.land 6 3) []]> ex_ba_contents).
Proof. by apply (ol_rx_reorder_flush_frag_correct ex_ba ex_ba_contents 7 0 ex_ba_peer ex_ba_reorder 6 ex_ba_rep). Defined.
