(* ===== verification/RxFindings.v ===== *)
(** What the model of the receive path shows about the code that its comments
    and its callers do not expect. *)
From Stdlib Require Import ZArith Lia.
From stdpp Require Import prelude gmap list numbers functions.
From S2P Require Import Prelude.
From S2P Require Import RxTypes.
From S2P Require Import RxList.
From S2P Require Import RxPn.
From S2P Require Import RxPnSpec.
From S2P Require Import RxStage.
From S2P Require Import RxReorder.
From S2P Require Import RxArray.
From S2P Require Import RxInv.
From S2P Require Import RxOps.
From S2P Require Import RxWindow.
From S2P Require Import RxHandlers.
From S2P Require Import RxDefrag.
From S2P Require Import RxInd.
From S2P Require Import RxFrame.
From S2P Require Import RxIndSpec.
From S2P Require Import RxReplay.
From S2P Require Import RxDefragSpec.
From S2P Require Import RxDefragOps.
From S2P Require Import RxExample.

(** When the first slot of a released window is empty, the frames in the
    other slots of the window are lost: they leave the reorder array, but they
    are neither delivered nor freed. *)
Theorem release_empty_first_slot_loses (junk : StackJunk) s C p tid x r ix ie :
  RxRep s C -> rx_peers s !! p = Some x -> znth (rp_tids_rx_reorder x) tid = Some r ->
  let mask := ro_win_sz_mask r in let W := window mask ix ie (C (p, tid)) in
  znth (C (p, tid)) (Z.land ix mask) = Some [] ->
  exists s' C', @ol_rx_reorder_release junk p tid ix ie s = Some (tt, s') /\ RxRep s' C' /\
    rx_delivered s' = rx_delivered s /\ rx_freed s' = rx_freed s /\
    forall i, i ∈ msdus W.1 -> is_Some (rx_heap s' !! i) /\ forall k, i ∉ ids (C' k).
Proof.
  intros HR Hp Hr mask W Hc. destruct (ol_rx_reorder_release_spec s C p tid x r HR Hp Hr ix ie) as (s' & H1 & (h & slots & Hrl & Hs) & H3).
  cbv zeta in H1, H3, Hs. fold mask in Hs, H3. fold W in H3. rewrite Hc in Hs. cbn in Hs. eexists _, _. split; [exact H1|]. split; [exact H3|].
  do 2 (split; [by rewrite Hs|]). intros i Hi. assert (Hat : reorder_at s p tid = Some r) by (unfold reorder_at; by rewrite Hp).
  destruct (rep_reorder _ _ HR _ _ _ Hat) as (Hm & Hlen & Hf). destruct (window_facts mask ix ie (C (p, tid)) Hm Hlen) as [Hperm _].
  fold W in Hperm. assert (Hi' : i ∈ ids (C (p, tid))) by (rewrite Hperm; apply elem_of_app; by left). split.
  - rewrite Hs. cbn. destruct (Hrl i) as [Hd _]. clear -Hi' Hf Hd.
    assert (Hal : is_Some (rx_heap s !! i)).
    { induction Hf as [|sl c slots cont Hok Hf IH]; [by apply not_elem_of_nil in Hi'|]. cbn [concat] in Hi'. rewrite msdus_app in Hi'.
      apply elem_of_app in Hi' as [Hi'|Hi']; [|by apply IH]. destruct Hok as (_ & _ & Hseg). by eapply seg_alloc. }
    unfold htt_rx_msdu_desc_retrieve in Hd. destruct Hal as [n Hn]. rewrite Hn in Hd. destruct (h !! i); [by eexists|done].
  - intros k. pose proof (rep_nodup _ _ HR (p, tid)) as Hnd. rewrite Hperm in Hnd. apply list.NoDup_app in Hnd as (_ & Hd & _).
    destruct (decide (k = (p, tid))) as [->|Hk].
    + rewrite fn_lookup_insert. by apply Hd.
    + rewrite fn_lookup_insert_ne by congruence. intros Hk'. by apply (rep_disj _ _ HR k (p, tid) Hk i).
Qed.

(** Only slot 2 is occupied, and slots 1 and 2 are released. *)
Definition ex_slot_2 : rx_pdev := match ol_rx_reorder_store 7 0 2 2 2 ex_ba with Some (_, s) => s | None => ex_ba end.
Definition ex_slot_2_contents : contents := <[(7, 0) := [[]; []; [ex_mpdu 2]; []]]> ex_ba_contents.
Definition ex_slot_2_reorder : rx_reorder := default ex_ba_reorder (reorder_at ex_slot_2 7 0).
Definition ex_slot_2_peer : rx_peer := default ex_ba_peer (rx_peers ex_slot_2 !! 7).

Lemma ex_slot_2_rep : RxRep ex_slot_2 ex_slot_2_contents.
Proof.
  destruct (ol_rx_reorder_store_spec ex_ba ex_ba_contents 7 0 ex_ba_peer ex_ba_reorder [ex_mpdu 2] 2 2 2 ex_ba_rep eq_refl eq_refl)
    as (h & sl & c & Hc & Hrun & _ & HR'); [|done|done|].
  - destruct (single_ok ex_heap 2 (ex_mpdu 2).1 eq_refl eq_refl) as [H2 H2']. split; [done|]. split; [by apply list.Forall_singleton|].
    split; [by apply (bool_decide_unpack _)|]. split; [exact H2'|].
    intros k i _ Hi. destruct (decide (k = (7, 0))) as [->|Hk]; unfold ex_ba_contents in Hi.
    + rewrite fn_lookup_insert in Hi. by apply not_elem_of_nil in Hi.
    + rewrite fn_lookup_insert_ne in Hi by congruence. unfold ex_open_contents, boot_contents in Hi.
      case_decide; by apply not_elem_of_nil in Hi.
  - unfold ex_slot_2. rewrite Hrun. vm_compute in Hc. injection Hc as <-.
    eapply RxRep_ext; [|exact HR']. intros k. unfold ex_slot_2_contents.
    destruct (decide (k = (7, 0))) as [->|Hk]; [by rewrite !fn_lookup_insert|by rewrite !fn_lookup_insert_ne by congruence].
Qed.

Lemma release_empty_first_slot_loses_witness :
  exists s' C', @ol_rx_reorder_release ex_junk 7 0 1 3 ex_slot_2 = Some (tt, s') /\ RxRep s' C' /\
    rx_delivered s' = [] /\ rx_freed s' = [] /\
    forall i, i ∈ [2] -> is_Some (rx_heap s' !! i) /\ forall k, i ∉ ids (C' k).
Proof.
  apply (release_empty_first_slot_loses ex_junk ex_slot_2 ex_slot_2_contents 7 0 ex_slot_2_peer ex_slot_2_reorder 1 3 ex_slot_2_rep);
    by vm_compute.
Defined.

(** A new group key reopens the replay window of unicast traffic: after the
    security indication for a group key with 48-bit packet numbers, an
    encrypted unicast MPDU is kept whatever its packet number, on every TID,
    although the pairwise key is still the old one. *)
Theorem group_rekey_reopens_replay (junk : StackJunk) s peer_id p x sec rx_pn :
  rx_peer_id_map s !! peer_id = Some p -> rx_peers s !! p = Some x -> tids_sized x -> sec <> htt_sec_type_wapi ->
  exists x', ol_rx_sec_ind_handler peer_id sec false rx_pn s = Some (tt, with_peer p x' s) /\
    rp_sec_ucast x' = rp_sec_ucast x /\
    forall tid m, 0 <= tid < OL_TXRX_NUM_EXT_TIDS -> rd_mcast m.1 = false -> checks_48 x' [[m]] ->
      (@verdict junk x' tid [m]).1.1 = ([m], []).
Proof.
  intros Hid Hp Hx Hsec.
  exists (set_rp_tids_last_pn_valid (fun _ => replicate 20 false) (set_rp_sec_mcast (fun _ => sec) x)).
  split; [|split; [done|]].
  - unfold ol_rx_sec_ind_handler, ol_txrx_peer_find_by_id, mbind, M_bind, gets. rewrite Hid, (upd_peer_at _ _ x) by done.
    rewrite (get_peer_at _ _ (set_rp_sec_mcast (fun _ => sec) x)) by apply with_peer_lookup.
    rewrite bool_decide_eq_false_2 by done. cbn [negb]. rewrite (upd_peer_at _ _ (set_rp_sec_mcast (fun _ => sec) x)) by apply with_peer_lookup.
    by rewrite with_peer_twice.
  - intros tid m Ht Hm Hc. rewrite verdict_48 by done.
    assert (Hv : (last_pn_at (set_rp_tids_last_pn_valid (fun _ => replicate 20 false) (set_rp_sec_mcast (fun _ => sec) x)) tid).1 = false).
    { unfold last_pn_at. cbn. unfold znth. destruct (Z.ltb_spec tid 0); [done|]. unfold OL_TXRX_NUM_EXT_TIDS in Ht.
      change (Z.to_nat 20) with 20%nat. change [false; false; false; false; false; false; false; false; false; false; false; false;
        false; false; false; false; false; false; false; false] with (replicate 20 false). by rewrite lookup_replicate_2 by lia. }
    rewrite Hv. cbn. by destruct (rd_encrypted m.1).
Qed.

(** The peer has just seen packet number 103 on TID 0; after the group key is
    changed, buffer 4, with the same packet number, is kept. *)
Definition ex_seen_peer : rx_peer := with_last_pn 0 true (103, 0) ex_keyed_peer.
Definition ex_seen : rx_pdev := with_peer 7 ex_seen_peer ex_keyed.

Lemma group_rekey_reopens_replay_witness :
  (@verdict ex_junk ex_seen_peer 0 [ex_mpdu 4]).1.1 = ([], [ex_mpdu 4]) /\
  exists x', ol_rx_sec_ind_handler 3 htt_sec_type_aes_ccmp false (0, 0) ex_seen = Some (tt, with_peer 7 x' ex_seen) /\
    rp_sec_ucast x' = htt_sec_type_aes_ccmp /\
    forall tid m, 0 <= tid < OL_TXRX_NUM_EXT_TIDS -> rd_mcast m.1 = false -> checks_48 x' [[m]] ->
      (@verdict ex_junk x' tid [m]).1.1 = ([m], []).
Proof.
  split; [by vm_compute|].
  apply (group_rekey_reopens_replay ex_junk ex_seen 3 7 ex_seen_peer htt_sec_type_aes_ccmp (0, 0)); [done|done|by repeat split|done].
Defined.

(** On a link without packet numbers, an MPDU whose first fragment never
    came is taken for complete: when the slot holds only its last fragment,
    numbered 2 or more, and fragment 1 arrives, the two are passed on as the
    whole MPDU, the last fragment first. *)
Theorem fragments_accepted_without_first (junk : StackJunk) x h e b db frag d :
  slot_rep h e [b] -> seg h [b] None -> b <> frag ->
  htt_rx_msdu_desc_retrieve h b = Some db -> htt_rx_msdu_desc_retrieve h frag = Some d ->
  rx_pn_len (sec_type_of x db) = 0 -> rd_more_frag db = false -> 2 <= rd_fragno db -> rd_fragno d = 1 ->
  exists h', @ol_rx_fraglist_insert junk x h e frag = Some (mk_inserted h' e true []) /\ seg h' [b; frag] None.
Proof.
  intros Hrep Hseg Hne Hb Hd Hlen Hmore Hn H1.
  destruct (fraglist_insert_between x h e [] b [] [] db [] frag d db Hrep Hseg) as (h' & first & rest & E & Hins & Hs & _);
    try done; try lia.
  - apply list.NoDup_cons. split; [by rewrite list_elem_of_singleton|apply NoDup_singleton].
  - by repeat constructor.
  - exists h'. split; [|done]. rewrite Hins. f_equal. f_equal. injection E as <- <-. unfold frags_complete. rewrite Hlen, Hmore. cbn. by rewrite H1.
Qed.

Lemma fragments_accepted_without_first_witness :
  exists h', @ol_rx_fraglist_insert ex_junk (ol_rx_peer_init ex_mem) ex_heap (mk_slot (Some 23) (Some 23)) 22 =
    Some (mk_inserted h' (mk_slot (Some 23) (Some 23)) true []) /\ seg h' [23; 22] None.
Proof.
  apply (fragments_accepted_without_first ex_junk (ol_rx_peer_init ex_mem) ex_heap (mk_slot (Some 23) (Some 23)) 23
    (ex_frag_desc 203 2 false) 22 (ex_frag_desc 202 1 true)); try done.
  split_and!; [done|done|by exists None].
Defined.

(** A DELBA indication for a peer-TID whose fragments are waiting clears
    the links of an element that stays on the waitlist: the invariant is
    broken, and the element can neither be removed nor be recognised as listed
    when the next fragment arrives. *)
Theorem delba_breaks_waitlist s C peer_id p tid x r :
  RxRep s C -> rx_peer_id_map s !! peer_id = Some p -> rx_peers s !! p = Some x ->
  znth (rp_tids_rx_reorder x) tid = Some r -> (p, tid) ∈ rx_waitlist s ->
  exists s', ol_rx_delba_handler peer_id tid s = Some (tt, s') /\ ~ RxInv s' /\
    ol_rx_defrag_waitlist_remove p tid s' = Some (tt, s') /\ (p, tid) ∈ rx_waitlist s'.
Proof.
  intros HR Hid Hp Hr Hw. assert (Hat : reorder_at s p tid = Some r) by (unfold reorder_at; by rewrite Hp).
  pose proof (rep_tid_range _ _ _ _ _ HR Hat) as Ht. pose proof (rep_sized _ _ HR _ _ Hp) as Hsz.
  pose proof Hsz as (_ & _ & _ & Hs4 & Hs5 & _).
  set (x' := with_reorder tid (ol_rx_reorder_init tid r) (with_next_rel tid INVALID_REORDER_INDEX x)).
  assert (Hat' : reorder_at (with_peer p x' s) p tid = Some (ol_rx_reorder_init tid r)).
  { unfold reorder_at. rewrite with_peer_lookup. cbn. apply znth_zset_eq. by eapply znth_lt_Some. }
  exists (with_peer p x' s). split; [|split; [|split; [|done]]].
  - unfold ol_rx_delba_handler. destruct (Z.leb_spec OL_TXRX_NUM_EXT_TIDS tid); [lia|].
    unfold ol_txrx_peer_find_by_id, mbind, M_bind, gets. rewrite Hid. unfold put_next_rel_idx.
    rewrite (put_tid_at _ _ _ _ _ x) by (done || lia).
    rewrite (upd_reorder_at _ p tid (with_next_rel tid INVALID_REORDER_INDEX x) r) by (done || apply with_peer_lookup).
    by rewrite with_peer_twice.
  - intros [C' HR']. pose proof (rep_linked _ _ HR' _ _ _ Hat') as Hl. cbn in Hl. symmetry in Hl.
    apply bool_decide_eq_false in Hl. by apply Hl.
  - unfold ol_rx_defrag_waitlist_remove, mbind, M_bind. by rewrite (get_reorder_at _ _ _ _ Hat').
Qed.

(** Fragment 0 of an MPDU is waiting when the agreement ends. *)
Definition ex_waiting : rx_pdev :=
  match @ol_rx_reorder_store_frag ex_junk 7 0 9 21 ex_open with Some (_, s) => s | None => ex_open end.

Lemma ex_waiting_rep :
  RxRep ex_waiting (<[(7, 0) := zset [[]] 0 [(ex_frag_desc 201 0 true, [21])]]> ex_open_contents) /\ (7, 0) ∈ rx_waitlist ex_waiting.
Proof.
  destruct (ol_rx_reorder_store_frag_spec (H := ex_junk) ex_open ex_open_contents 7 0 (ol_rx_peer_init ex_mem) ex_keyed_reorder 9 21
    (ex_frag_desc 201 0 true) ex_open_rep eq_refl eq_refl ex_frag_ok [] ltac:(constructor) I) as (s' & Hrun & _ & HR' & _ & Hw).
  unfold ex_waiting. rewrite Hrun. split; [exact HR'|by apply Hw].
Qed.

Lemma delba_breaks_waitlist_witness :
  exists s', ol_rx_delba_handler 3 0 ex_waiting = Some (tt, s') /\ ~ RxInv s' /\
    ol_rx_defrag_waitlist_remove 7 0 s' = Some (tt, s') /\ (7, 0) ∈ rx_waitlist s'.
Proof.
  apply (delba_breaks_waitlist ex_waiting (<[(7, 0) := zset [[]] 0 [(ex_frag_desc 201 0 true, [21])]]> ex_open_contents) 3 7 0
    (default ex_mem (rx_peers ex_waiting !! 7)) (default ex_keyed_reorder (reorder_at ex_waiting 7 0)));
    [apply ex_waiting_rep|by vm_compute|by vm_compute|by vm_compute|apply ex_waiting_rep].
Defined.
