(* ===== verification/RxNbuf.v ===== *)
(** The bytes of a network buffer ([adf_nbuf_pvt.h], on top of the kernel's
    [sk_buff]): a block of memory of which a window is the frame.  Moving the
    ends of the window, copying inside the block and appending one buffer to
    another, with what each does to a buffer given as a concatenation. *)
From Stdlib Require Import ZArith Lia.
From stdpp Require Import prelude list numbers.
From S2P Require Import Prelude.

(** ** Blocks of memory

    A block is a list of bytes; an access outside of it is a fault. *)
Definition rd (m : list Z) (i n : Z) : option (list Z) :=
  if (0 <=? i) && (0 <=? n) && (i + n <=? zlen m) then Some (take (Z.to_nat n) (drop (Z.to_nat i) m)) else None.

Definition wr (m : list Z) (i : Z) (l : list Z) : option (list Z) :=
  if (0 <=? i) && (i + zlen l <=? zlen m)
  then Some (take (Z.to_nat i) m ++ l ++ drop (Z.to_nat (i + zlen l)) m) else None.

(** [adf_os_mem_move]: source and destination may overlap. *)
Definition adf_os_mem_move (m : list Z) (dst src n : Z) : option (list Z) := l ← rd m src n; wr m dst l.

(** ** Buffers *)

(** The part of [struct sk_buff] the driver uses: the block it points into,
    the offset of [data] and [len]. *)
Record skb := mk_skb { sk_mem : list Z; sk_data : Z; sk_len : Z }.

Definition set_sk_mem (m : list Z) (b : skb) : skb := mk_skb m (sk_data b) (sk_len b).

(** [skb_pull]: without enough data nothing happens. *)
Definition adf_nbuf_pull_head (b : skb) (size : Z) : skb :=
  if sk_len b <? size then b else mk_skb (sk_mem b) (sk_data b + size) (sk_len b - size).

(** [skb_push]: without enough headroom the kernel panics. *)
Definition adf_nbuf_push_head (b : skb) (size : Z) : option skb :=
  if sk_data b <? size then None else Some (mk_skb (sk_mem b) (sk_data b - size) (sk_len b + size)).

(** [skb_trim(skb, skb->len - size)]: the difference is unsigned, and a longer
    length than the current one is ignored. *)
Definition adf_nbuf_trim_tail (b : skb) (size : Z) : skb :=
  let l := u32 (sk_len b - size) in
  if l <? sk_len b then mk_skb (sk_mem b) (sk_data b) l else b.

(** [skb_copy_bits]: nothing is copied when the range ends behind the frame. *)
Definition adf_nbuf_copy_bits (b : skb) (offset len : Z) : option (list Z) :=
  if sk_len b - len <? offset then None else rd (sk_mem b) (sk_data b + offset) len.

(** Memory for a longer block: the bytes behind the frame after
    [pskb_expand_head], or [None] when there is no memory. *)
Class Expand := pskb_expand_head : skb -> Z -> option (list Z).

(** [__adf_nbuf_cat]: append the frame of [src]; [Some None] when the block of
    [dst] is too small and there is no memory for a larger one. *)
Definition adf_nbuf_cat `{Expand} (dst src : skb) : option (option skb) :=
  let tail := sk_data dst + sk_len dst in
  add ← rd (sk_mem src) (sk_data src) (sk_len src);
  head ← rd (sk_mem dst) 0 tail;
  let room := if zlen (sk_mem dst) - tail <? sk_len src then pskb_expand_head dst (sk_len src)
              else Some (drop (length head) (sk_mem dst)) in
  Some (room ← room;
        Some (mk_skb (head ++ add ++ drop (length add) room) (sk_data dst) (sk_len dst + sk_len src))).

(** ** Blocks given as concatenations *)
Section Blocks.
Implicit Types a c l m : list Z.

Lemma to_nat_zlen l : Z.to_nat (zlen l) = length l.
Proof. unfold zlen. lia. Qed.

Lemma rd_app a l c i n : i = zlen a -> n = zlen l -> rd (a ++ l ++ c) i n = Some l.
Proof.
  intros -> ->. unfold rd. rewrite !zlen_app. pose proof (zlen_nonneg a). pose proof (zlen_nonneg l).
  pose proof (zlen_nonneg c). rewrite !(proj2 (Z.leb_le _ _)) by lia. simpl.
  by rewrite !to_nat_zlen, drop_app_length, take_app_length.
Qed.

Lemma wr_app a l l' c i : i = zlen a -> zlen l' = zlen l -> wr (a ++ l ++ c) i l' = Some (a ++ l' ++ c).
Proof.
  intros -> E. unfold wr. rewrite !zlen_app. pose proof (zlen_nonneg a). pose proof (zlen_nonneg l).
  pose proof (zlen_nonneg c). rewrite !(proj2 (Z.leb_le _ _)) by lia. simpl.
  rewrite to_nat_zlen, take_app_length. do 3 f_equal.
  rewrite E. replace (Z.to_nat (zlen a + zlen l)) with (length a + length l)%nat by (unfold zlen; lia).
  by rewrite <- drop_drop, drop_app_length, drop_app_length.
Qed.

(** Moving [m] to the right over a gap as long as [g]. *)
Lemma move_right a m g c :
  exists g', zlen g' = zlen g /\
    adf_os_mem_move (a ++ m ++ g ++ c) (zlen a + zlen g) (zlen a) (zlen m) = Some (a ++ g' ++ m ++ c).
Proof.
  exists (take (length g) (m ++ g)). split.
  { unfold zlen. rewrite length_take, length_app. lia. }
  unfold adf_os_mem_move. rewrite rd_app by done. cbn [mbind option_bind].
  replace (a ++ m ++ g ++ c) with ((a ++ take (length g) (m ++ g)) ++ drop (length g) (m ++ g) ++ c)
    by (rewrite <- !app_assoc; f_equal; rewrite app_assoc, take_drop, <- app_assoc; done).
  rewrite (wr_app _ _ m).
  - by rewrite <- !app_assoc.
  - rewrite zlen_app. unfold zlen at 4. rewrite length_take, length_app. unfold zlen. lia.
  - unfold zlen. rewrite length_drop, length_app. lia.
Qed.
End Blocks.
