(* ===== verification/RxMichael.v ===== *)
(** The Michael message integrity code of TKIP as the host computes it for
    defragmented frames ([ol_rx_defrag_mic] in [ol_rx_defrag.c], with the
    arithmetic of [ol_rx_defrag.h]), over the bytes of the buffers.

    Michael as the standard defines it, on the padded message, and the proof
    that [ol_rx_defrag_mic] computes it from the bytes of a chain of buffers
    without collecting them.  The block function is invertible. *)
From Stdlib Require Import ZArith Lia.
From stdpp Require Import prelude list numbers.
From S2P Require Import Prelude.
From S2P Require Import RxNbuf.

(** ** The arithmetic of [ol_rx_defrag.h] *)

Definition rotl (val bits : Z) : Z := Z.lor (u32 (Z.shiftl val bits)) (Z.shiftr val (32 - bits)).
Definition rotr (val bits : Z) : Z := Z.lor (Z.shiftr val bits) (u32 (Z.shiftl val (32 - bits))).
Definition xswap (val : Z) : Z :=
  Z.lor (u32 (Z.shiftl (Z.land val 0x00ff00ff) 8)) (Z.shiftr (Z.land val 0xff00ff00) 8).

Definition get_le32_split (b0 b1 b2 b3 : Z) : Z :=
  u32 (Z.lor (Z.lor (Z.lor b0 (Z.shiftl b1 8)) (Z.shiftl b2 16)) (Z.shiftl b3 24)).

(** [get_le32(p)]: a read of four bytes. *)
Definition get_le32 (m : list Z) (i : Z) : option Z :=
  l ← rd m i 4; match l with [b0; b1; b2; b3] => Some (get_le32_split b0 b1 b2 b3) | _ => None end.

Definition put_le32 (v : Z) : list Z :=
  [Z.land v 0xff; Z.land (Z.shiftr v 8) 0xff; Z.land (Z.shiftr v 16) 0xff; Z.land (Z.shiftr v 24) 0xff].

Definition michael_block (s : Z * Z) : Z * Z :=
  let '(l, r) := s in
  let r := Z.lxor r (rotl l 17) in
  let l := u32 (l + r) in
  let r := Z.lxor r (xswap l) in
  let l := u32 (l + r) in
  let r := Z.lxor r (rotl l 3) in
  let l := u32 (l + r) in
  let r := Z.lxor r (rotr l 2) in
  let l := u32 (l + r) in
  (l, r).

(** [l ^= w; michael_block(l, r)]. *)
Definition mic_word (s : Z * Z) (w : Z) : Z * Z := michael_block (Z.lxor s.1 w, s.2).

(** ** The code over the bytes of buffers *)

(** The offset of the frame behind the receive descriptor whose size the
    target put in front of it ([HTT_RX_IND_HL_BYTES] = 56,
    [HTT_RX_IND_HL_RX_DESC_LEN_OFFSET] = 50). *)
Definition HTT_RX_IND_HL_BYTES : Z := 56.
Definition HTT_RX_IND_HL_RX_DESC_LEN_OFFSET : Z := 50.
Definition htt_rx_msdu_rx_desc_size_hl (b : skb) : option Z :=
  znth (sk_mem b) (sk_data b - HTT_RX_IND_HL_BYTES + HTT_RX_IND_HL_RX_DESC_LEN_OFFSET).

(** Where the loop stands: the block, the offset [data], how much of it may be
    read, how much of the message is left, and the state of Michael. *)
Record mic_state := mk_mic_state { ms_mem : list Z; ms_data : Z; ms_space : Z; ms_len : Z; ms_lr : Z * Z }.

(** [while (space >= sizeof(u_int32_t))]. *)
Fixpoint mic_words (n : nat) (st : mic_state) : option mic_state :=
  if ms_space st <? 4 then Some st
  else match n with
  | O => None
  | S n' =>
    w ← get_le32 (ms_mem st) (ms_data st);
    mic_words n' (mk_mic_state (ms_mem st) (ms_data st + 4) (ms_space st - 4) (u16 (ms_len st - 4))
                    (mic_word (ms_lr st) w))
  end.

(** The [switch (space)] for a block of four bytes that straddles two
    buffers: [space] bytes at [data], the others at [next]. *)
Definition mic_straddle (m : list Z) (data space : Z) (m' : list Z) (next : Z) : option Z :=
  a ← rd m data space; b ← rd m' next (4 - space);
  match a ++ b with [b0; b1; b2; b3] => Some (get_le32_split b0 b1 b2 b3) | _ => None end.

(** [for (;;)]: [Some None] is [OL_RX_DEFRAG_ERR]. *)
Fixpoint mic_loop (rest : list skb) (st : mic_state) : option (option mic_state) :=
  let space := if ms_len st <? ms_space st then ms_len st else ms_space st in
  st ← mic_words (Z.to_nat space) (mk_mic_state (ms_mem st) (ms_data st) space (ms_len st) (ms_lr st));
  if ms_len st <? 4 then Some (Some st)
  else match rest with
  | [] => Some None
  | wbuf :: rest' =>
    rx_desc_len ← htt_rx_msdu_rx_desc_size_hl wbuf;
    let data_next := sk_data wbuf + rx_desc_len in
    let len := sk_len wbuf - rx_desc_len in
    let space := ms_space st in
    if negb (space =? 0) then
      if u64 len <? 4 - space then Some None
      else
        w ← mic_straddle (ms_mem st) (ms_data st) space (sk_mem wbuf) data_next;
        mic_loop rest' (mk_mic_state (sk_mem wbuf) (data_next + (4 - space)) (u32 (len - (4 - space)))
                          (u16 (ms_len st - 4)) (mic_word (ms_lr st) w))
    else mic_loop rest' (mk_mic_state (sk_mem wbuf) data_next (u32 len) (ms_len st) (ms_lr st))
  end.

(** The last block: what is left of the message, [0x5a] and zeros. *)
Definition mic_last (st : mic_state) : option Z :=
  l ← rd (ms_mem st) (ms_data st) (ms_len st);
  match l with
  | [] => Some (get_le32_split 0x5a 0 0 0)
  | [b0] => Some (get_le32_split b0 0x5a 0 0)
  | [b0; b1] => Some (get_le32_split b0 b1 0x5a 0)
  | [b0; b1; b2] => Some (get_le32_split b0 b1 b2 0x5a)
  | _ => None
  end.

Definition IEEE80211_FC1_DIR_MASK : Z := 0x03.
Definition IEEE80211_FC0_SUBTYPE_QOS : Z := 0x80.

(** [ol_rx_defrag_michdr]: the pseudo header, from the MAC header at [i]; the
    QoS control is read where a three-address header has it. *)
Definition ol_rx_defrag_michdr (m : list Z) (i : Z) : option (list Z) :=
  fc0 ← znth m i; fc1 ← znth m (i + 1);
  let addr n := rd m (i + n) 6 in
  let dir := Z.land fc1 IEEE80211_FC1_DIR_MASK in
  da ← addr (if (dir =? 1) || (dir =? 3) then 16 else 4);
  sa ← addr (if dir =? 2 then 16 else if dir =? 3 then 24 else 10);
  tid ← (if negb (Z.land fc0 IEEE80211_FC0_SUBTYPE_QOS =? 0)
         then q ← znth m (i + 24); Some (Z.land q 0x0f) else Some 0);
  Some (da ++ sa ++ [tid; 0; 0; 0]).

(** [ol_rx_defrag_mic], [wbuf] being linked to [rest]. *)
Definition ol_rx_defrag_mic (key : list Z) (wbuf : skb) (rest : list skb) (off data_len : Z)
  : option (option (list Z)) :=
  rx_desc_len ← htt_rx_msdu_rx_desc_size_hl wbuf;
  hdr ← ol_rx_defrag_michdr (sk_mem wbuf) (sk_data wbuf + rx_desc_len);
  l ← get_le32 key 0; r ← get_le32 key 4;
  h0 ← get_le32 hdr 0; h1 ← get_le32 hdr 4; h2 ← get_le32 hdr 8; h3 ← get_le32 hdr 12;
  let lr := foldl mic_word (l, r) [h0; h1; h2; h3] in
  st ← mic_loop rest (mk_mic_state (sk_mem wbuf) (sk_data wbuf + rx_desc_len + off)
                        (u32 (sk_len wbuf - rx_desc_len - off)) data_len lr);
  match st with
  | None => Some None
  | Some st =>
    w ← mic_last st;
    let '(l, r) := michael_block (mic_word (ms_lr st) w) in
    Some (Some (put_le32 l ++ put_le32 r))
  end.

(** ** Reference *)

(** Whole little-endian words of a message. *)
Fixpoint le_words (l : list Z) : list Z :=
  match l with
  | b0 :: b1 :: b2 :: b3 :: r => get_le32_split b0 b1 b2 b3 :: le_words r
  | _ => []
  end.

(** [0x5a] and four to seven zeros, to a multiple of four. *)
Definition michael_pad (n : Z) : list Z := 0x5a :: replicate (Z.to_nat (7 - n mod 4)) 0.

(** Michael of [msg] behind the 16 bytes of the pseudo header. *)
Definition michael (key hdr msg : list Z) : option (list Z) :=
  match le_words key with
  | [l; r] => let s := foldl mic_word (l, r) (le_words (hdr ++ msg ++ michael_pad (zlen msg))) in
              Some (put_le32 s.1 ++ put_le32 s.2)
  | _ => None
  end.

(** ** Reads *)
Section Reads.
Implicit Types m l : list Z.

Lemma rd_Some m i n l :
  rd m i n = Some l <-> 0 <= i /\ 0 <= n /\ i + n <= zlen m /\ l = take (Z.to_nat n) (drop (Z.to_nat i) m).
Proof.
  unfold rd. destruct (Z.leb_spec 0 i), (Z.leb_spec 0 n), (Z.leb_spec (i + n) (zlen m)); simpl;
    naive_solver lia.
Qed.

Lemma rd_zlen m i n l : rd m i n = Some l -> zlen l = n.
Proof.
  intros (Hi & Hn & Hm & ->)%rd_Some. unfold zlen in *. rewrite length_take, length_drop. lia.
Qed.

(** A read of [l1 ++ l2] is a read of each part. *)
Lemma rd_split m i n l1 l2 :
  rd m i n = Some (l1 ++ l2) -> rd m i (zlen l1) = Some l1 /\ rd m (i + zlen l1) (n - zlen l1) = Some l2.
Proof.
  intros H. pose proof (rd_zlen _ _ _ _ H) as Hl. rewrite zlen_app in Hl.
  apply rd_Some in H as (Hi & Hn & Hm & E). pose proof (zlen_nonneg l1). pose proof (zlen_nonneg l2).
  split; apply rd_Some; (split; [lia|]; split; [lia|]; split; [lia|]).
  - apply (f_equal (take (length l1))) in E. rewrite take_app_length, take_take in E.
    rewrite E at 1. f_equal. unfold zlen in *. lia.
  - apply (f_equal (drop (length l1))) in E. rewrite drop_app_length in E. rewrite E.
    rewrite skipn_firstn_comm, drop_drop. unfold zlen in *. do 2 f_equal; lia.
Qed.

Lemma rd_prefix m i n l k : rd m i n = Some l -> 0 <= k <= n -> rd m i k = Some (take (Z.to_nat k) l).
Proof.
  intros H Hk. pose proof (rd_zlen _ _ _ _ H). rewrite <- (take_drop (Z.to_nat k) l) in H.
  apply rd_split in H as [H _]. rewrite <- H. f_equal. unfold zlen in *. rewrite length_take. lia.
Qed.
End Reads.

(** ** Words *)
Section Words.
Implicit Types l w : list Z.

Lemma le_words_app w l : zlen w mod 4 = 0 -> le_words (w ++ l) = le_words w ++ le_words l.
Proof.
  remember (length w) as n eqn:En. revert w En.
  induction (lt_wf n) as [n _ IH]. intros w -> Hw.
  destruct w as [|a [|b [|c [|d w]]]]; [done|discriminate..|].
  simpl. f_equal. apply (IH (length w)); simpl; [lia|done|].
  revert Hw. unfold zlen. simpl length. intros Hw.
  replace (Z.of_nat (S (S (S (S (length w)))))) with (Z.of_nat (length w) + 1 * 4) in Hw by lia.
  by rewrite Z.mod_add in Hw.
Qed.

Lemma le_words_short l : zlen l < 4 -> le_words l = [].
Proof. unfold zlen. destruct l as [|a [|b [|c [|d l]]]]; simpl; try done. lia. Qed.

(** Bytes behind the last whole word do not matter. *)
Lemma le_words_whole l : le_words l = le_words (take (Z.to_nat (4 * (zlen l / 4))) l).
Proof.
  rewrite <- (take_drop (Z.to_nat (4 * (zlen l / 4))) l) at 1. pose proof (Z_div_mod_eq_full (zlen l) 4).
  pose proof (Z.mod_pos_bound (zlen l) 4). pose proof (zlen_nonneg l).
  rewrite le_words_app, (le_words_short (drop _ _)).
  - by rewrite app_nil_r.
  - unfold zlen in *. rewrite length_drop. lia.
  - unfold zlen in *. rewrite length_take, Nat.min_l by lia. rewrite Z2Nat.id by lia.
    by rewrite Z.mul_comm, Z.mod_mul.
Qed.

Lemma get_le32_cons m i b0 b1 b2 b3 : rd m i 4 = Some [b0; b1; b2; b3] -> get_le32 m i = Some (get_le32_split b0 b1 b2 b3).
Proof. unfold get_le32. by intros ->. Qed.
End Words.

(** ** The loops *)

(** Taking whole words off the front of a message. *)
Lemma words_split w q len :
  zlen w mod 4 = 0 -> zlen w <= len <= zlen (w ++ q) ->
  le_words (take (Z.to_nat len) (w ++ q)) = le_words w ++ le_words (take (Z.to_nat (len - zlen w)) q) /\
  drop (Z.to_nat (4 * (len / 4))) (take (Z.to_nat len) (w ++ q)) =
    drop (Z.to_nat (4 * ((len - zlen w) / 4))) (take (Z.to_nat (len - zlen w)) q).
Proof.
  intros Hw Hlen. pose proof (zlen_nonneg w). rewrite zlen_app in Hlen.
  rewrite take_app_ge by (unfold zlen in *; lia).
  replace (Z.to_nat len - length w)%nat with (Z.to_nat (len - zlen w)) by (unfold zlen; lia). split.
  - by rewrite le_words_app.
  - assert (E : len / 4 = (len - zlen w) / 4 + zlen w / 4).
    { pose proof (Z_div_mod_eq_full (zlen w) 4). replace len with (len - zlen w + zlen w / 4 * 4) at 1 by lia.
      by rewrite Z.div_add. }
    pose proof (Z_div_mod_eq_full (zlen w) 4).
    assert (0 <= (len - zlen w) / 4) by (apply Z.div_pos; lia).
    rewrite drop_app_ge by (unfold zlen in *; lia). f_equal. unfold zlen in *. lia.
Qed.

Lemma mic_words_spec n m data cur len lr :
  rd m data (zlen cur) = Some cur -> (length cur <= n)%nat -> zlen cur <= len < 65536 ->
  let k := 4 * (zlen cur / 4) in
  mic_words n (mk_mic_state m data (zlen cur) len lr) =
    Some (mk_mic_state m (data + k) (zlen cur - k) (len - k) (foldl mic_word lr (le_words cur))).
Proof.
  revert data cur len lr. induction n as [|n IH]; intros data cur len lr Hrd Hn Hlen k.
  { destruct cur; [|simpl in Hn; lia]. unfold k. simpl. change (zlen (@nil Z) / 4) with 0. do 2 f_equal; lia. }
  simpl. pose proof (zlen_nonneg cur). destruct (Z.ltb_spec (zlen cur) 4) as [Hs|Hs].
  { unfold k. rewrite Z.div_small, le_words_short by lia. simpl. do 2 f_equal; lia. }
  destruct cur as [|b0 [|b1 [|b2 [|b3 cur]]]]; try (exfalso; unfold zlen in Hs; simpl in Hs; lia).
  change (b0 :: b1 :: b2 :: b3 :: cur) with ([b0; b1; b2; b3] ++ cur) in Hrd.
  apply rd_split in Hrd as [H4 Hcur]. change (zlen [b0; b1; b2; b3]) with 4 in *.
  rewrite (get_le32_cons _ _ _ _ _ _ H4). cbn [mbind option_bind].
  rewrite !zlen_cons in *. replace (1 + (1 + (1 + (1 + zlen cur))) - 4) with (zlen cur) by lia.
  rewrite u16_small by lia. pose proof (zlen_nonneg cur).
  rewrite IH; [|rewrite <- Hcur; f_equal; rewrite !zlen_app; change (zlen [b0; b1; b2; b3]) with 4; lia
               |simpl in Hn; lia|lia].
  assert (E : k = 4 + 4 * (zlen cur / 4)).
  { unfold k. rewrite !zlen_cons. replace (1 + (1 + (1 + (1 + zlen cur)))) with (zlen cur + 1 * 4) by lia. rewrite Z.div_add by lia. lia. }
  rewrite E. simpl foldl. do 2 f_equal; lia.
Qed.

(** The frame of a buffer behind its receive descriptor. *)
Definition payload (b : skb) (body : list Z) : Prop :=
  exists d, htt_rx_msdu_rx_desc_size_hl b = Some d /\ 0 <= zlen body < 2 ^ 32 /\
    sk_len b - d = zlen body /\ rd (sk_mem b) (sk_data b + d) (zlen body) = Some body.

Lemma zlen_nil_inv (l : list Z) : zlen l = 0 -> l = [].
Proof. destruct l; [done|]. unfold zlen. simpl. lia. Qed.

(** What the loop has to leave behind: Michael over the whole words of the
    message, and the bytes behind them at [data]. *)
Definition mic_result (lr : Z * Z) (len : Z) (q : list Z) (st : mic_state) : Prop :=
  ms_lr st = foldl mic_word lr (le_words (take (Z.to_nat len) q)) /\ ms_len st = len mod 4 /\
  rd (ms_mem st) (ms_data st) (ms_len st) = Some (drop (Z.to_nat (4 * (len / 4))) (take (Z.to_nat len) q)).

Lemma mic_result_skip lr len w q st :
  zlen w mod 4 = 0 -> zlen w <= len <= zlen (w ++ q) ->
  mic_result (foldl mic_word lr (le_words w)) (len - zlen w) q st -> mic_result lr len (w ++ q) st.
Proof.
  intros Hw Hlen (Hlr & Hl & Hrd). destruct (words_split w q len Hw Hlen) as [Ew Ed].
  split; [|split].
  - by rewrite Ew, foldl_app.
  - rewrite Hl. pose proof (Z_div_mod_eq_full (zlen w) 4).
    replace len with (len - zlen w + zlen w / 4 * 4) at 2 by lia. by rewrite Z.mod_add.
  - by rewrite Ed.
Qed.

(** The message ends in the current buffer. *)
Lemma mic_words_end m data cur len lr :
  rd m data (zlen cur) = Some cur -> 0 <= len <= zlen cur -> len < 65536 ->
  exists st, mic_words (Z.to_nat len) (mk_mic_state m data len len lr) = Some st /\ ms_len st <? 4 = true /\
    mic_result lr len cur st.
Proof.
  intros Hrd Hlen Hmax. pose proof (rd_prefix _ _ _ _ len Hrd ltac:(lia)) as Hp.
  pose proof (rd_zlen _ _ _ _ Hp) as Hz. pose proof (Z_div_mod_eq_full len 4). pose proof (Z.mod_pos_bound len 4).
  pose proof (mic_words_spec (Z.to_nat len) m data (take (Z.to_nat len) cur) len lr) as W. rewrite Hz in W.
  rewrite W by (done || (unfold zlen in *; lia)). clear W.
  eexists. split; [done|]. simpl. split; [apply Z.ltb_lt; lia|]. split; [done|]. simpl.
  split; [lia|].
  rewrite <- (take_drop (Z.to_nat (4 * (len / 4))) (take (Z.to_nat len) cur)) in Hp.
  apply rd_split in Hp as [_ Hp]. rewrite <- Hp.
  assert (zlen (take (Z.to_nat (4 * (len / 4))) (take (Z.to_nat len) cur)) = 4 * (len / 4)) as ->; [|done].
  unfold zlen in *. rewrite length_take. lia.
Qed.

(** A block of four bytes over the end of a buffer. *)
Lemma mic_straddle_spec m data x m' next y i j :
  i = zlen x -> j = 4 - zlen x -> zlen y = 4 - zlen x -> rd m data (zlen x) = Some x -> rd m' next (zlen y) = Some y ->
  exists w, mic_straddle m data i m' next = Some w /\ le_words (x ++ y) = [w].
Proof.
  intros -> -> Hy Hx Hrd. unfold mic_straddle. rewrite Hx. cbn [mbind option_bind].
  rewrite <- Hy, Hrd. cbn [mbind option_bind].
  assert (Hl : zlen (x ++ y) = 4) by (rewrite zlen_app; lia).
  destruct (x ++ y) as [|b0 [|b1 [|b2 [|b3 [|? l]]]]]; unfold zlen in Hl; simpl in Hl; try lia.
  by eexists.
Qed.

Lemma mic_loop_spec rest bodies :
  Forall2 payload rest bodies -> Forall (fun b => 3 <= zlen b) bodies ->
  forall m data cur len lr,
  rd m data (zlen cur) = Some cur -> 0 <= len < 65536 -> len <= zlen (cur ++ concat bodies) ->
  (bodies = [] \/ zlen (cur ++ concat (removelast bodies)) < 4 * (len / 4)) ->
  exists st, mic_loop rest (mk_mic_state m data (zlen cur) len lr) = Some (Some st) /\
    mic_result lr len (cur ++ concat bodies) st.
Proof.
  induction 1 as [|wbuf body rest bodies Hb _ IH]; intros H3 m data cur len lr Hrd Hlen Hmax Hcut.
  { rewrite app_nil_r in *. simpl. replace (if len <? zlen cur then len else zlen cur) with len
      by (destruct (Z.ltb_spec len (zlen cur)); lia).
    destruct (mic_words_end m data cur len lr) as (st & Hw & Hs & Hr); [done|lia|lia|].
    exists st. rewrite Hw. cbn [mbind option_bind]. by rewrite Hs. }
  destruct Hcut as [?|Hcut]; [done|].
  apply list.Forall_cons in H3 as [H3 H3s].
  destruct Hb as (d & Hd & Hz & Hbl & Hbrd). rewrite zlen_app in Hcut.
  pose proof (zlen_nonneg (concat (removelast (body :: bodies)))) as Hpos.
  pose proof (zlen_nonneg cur). pose proof (Z_div_mod_eq_full len 4). pose proof (Z.mod_pos_bound len 4).
  pose proof (Z_div_mod_eq_full (zlen cur) 4) as Hk. pose proof (Z.mod_pos_bound (zlen cur) 4).
  simpl. rewrite (proj2 (Z.ltb_ge _ _)) by lia.
  rewrite (mic_words_spec _ _ _ cur) by (done || (unfold zlen in *; lia)). cbn [mbind option_bind ms_len ms_space ms_mem ms_data ms_lr].
  rewrite (proj2 (Z.ltb_ge (len - _) 4)) by lia.
  rewrite Hd. cbn [mbind option_bind].
  remember (4 * (zlen cur / 4)) as k eqn:Ek.
  assert (Hx : exists w x, cur = w ++ x /\ zlen w = k /\ zlen x = zlen cur - k).
  { exists (take (Z.to_nat k) cur), (drop (Z.to_nat k) cur). split; [by rewrite take_drop|].
    unfold zlen in *. rewrite length_take, length_drop. lia. }
  destruct Hx as (w & x & -> & Hw & Hxl).
  pose proof (rd_split _ _ _ _ _ Hrd) as [_ Hrdx]. rewrite Hw, <- Hxl in Hrdx.
  assert (Hwords : le_words (w ++ x) = le_words w).
  { rewrite le_words_app, (le_words_short x), app_nil_r; [done|lia|].
    rewrite Hw, Ek, Z.mul_comm. by apply Z.mod_mul. }
  rewrite Hwords, Hbl, <- Hxl. clear Hwords.
  assert (Hcut' : bodies = [] \/ zlen w + zlen x + zlen body + zlen (concat (removelast bodies)) < 4 * (len / 4)).
  { destruct bodies as [|b bs]; [by left|right].
    change (removelast (body :: b :: bs)) with (body :: removelast (b :: bs)) in Hcut.
    rewrite concat_cons, !zlen_app in Hcut. lia. }
  assert (Hwhole : zlen (w ++ x) < 4 * (len / 4)) by lia.
  clear Hcut Hpos. rewrite concat_cons, !zlen_app in *.
  assert (Hq : forall j, len / 4 - (k / 4 + j) = (len - (k + 4 * j)) / 4).
  { intros j. rewrite Ek, Z.mul_comm, Z.div_mul by lia.
    replace (len - ((zlen w + zlen x) / 4 * 4 + 4 * j)) with (len + (- ((zlen w + zlen x) / 4 + j)) * 4) by lia.
    rewrite Z.div_add by lia. lia. }
  assert (Hk4 : k mod 4 = 0) by (rewrite Ek, Z.mul_comm; by apply Z.mod_mul).
  pose proof (Z_div_mod_eq_full k 4). rewrite <- !app_assoc.
  destruct (Z.eqb_spec (zlen x) 0) as [Hx0|Hx0]; simpl.
  - assert (x = []) as -> by (by apply zlen_nil_inv). simpl. rewrite u32_small by lia.
    destruct (IH H3s (sk_mem wbuf) (sk_data wbuf + d) body (len - k) (foldl mic_word lr (le_words w)))
      as (st & Hst & Hres); [done|lia|rewrite zlen_app; lia| |].
    { destruct Hcut' as [|Hc]; [by left|right]. rewrite zlen_app. pose proof (Hq 0) as E.
      replace (k + 4 * 0) with k in E by lia. rewrite <- E. lia. }
    exists st. split; [done|]. rewrite <- Hw in Hres. apply mic_result_skip in Hres; [done|by rewrite Hw|].
    rewrite !zlen_app. rewrite zlen_nil in *. lia.
  - assert (Hy : exists y z, body = y ++ z /\ zlen y = 4 - zlen x /\ zlen z = zlen body - (4 - zlen x)).
    { exists (take (Z.to_nat (4 - zlen x)) body), (drop (Z.to_nat (4 - zlen x)) body).
      split; [by rewrite take_drop|]. unfold zlen in *. rewrite length_take, length_drop. lia. }
    destruct Hy as (y & z & -> & Hy & Hzl). rewrite <- Hzl.
    apply rd_split in Hbrd as [Hbrd1 Hbrd2]. rewrite Hy in Hbrd2. rewrite <- Hzl in Hbrd2.
    rewrite (proj2 (Z.ltb_ge (u64 _) _)) by (unfold u64; rewrite wrap_small; lia).
    destruct (mic_straddle_spec m (data + k) x (sk_mem wbuf) (sk_data wbuf + d) y (zlen x) (4 - zlen x))
      as (v & Hv & Hwv); [done|done|done|done|done|].
    rewrite Hv. cbn [mbind option_bind]. rewrite u32_small, u16_small by lia.
    destruct (IH H3s (sk_mem wbuf) (sk_data wbuf + d + (4 - zlen x)) z (len - k - 4)
                (mic_word (foldl mic_word lr (le_words w)) v)) as (st & Hst & Hres);
      [done|lia|rewrite zlen_app in *; lia| |].
    { destruct Hcut' as [|Hc]; [by left|right]. rewrite zlen_app in *. pose proof (Hq 1) as E.
      replace (len - k - 4) with (len - (k + 4 * 1)) by lia. rewrite <- E. lia. }
    exists st. split; [done|].
    replace (w ++ x ++ (y ++ z) ++ concat bodies) with ((w ++ x ++ y) ++ z ++ concat bodies) by (by rewrite <- !app_assoc).
    apply mic_result_skip.
    + rewrite !zlen_app, Hw, Hy. replace (k + (zlen x + (4 - zlen x))) with (k + 1 * 4) by lia.
      by rewrite Z.mod_add.
    + rewrite !zlen_app in *. lia.
    + rewrite le_words_app, Hwv, foldl_app by (by rewrite Hw). simpl.
      replace (len - zlen (w ++ x ++ y)) with (len - k - 4) by (rewrite !zlen_app; lia). done.
Qed.

(** ** The whole computation *)

Lemma get_le32_16 l :
  length l = 16%nat ->
  exists h0 h1 h2 h3, get_le32 l 0 = Some h0 /\ get_le32 l 4 = Some h1 /\ get_le32 l 8 = Some h2 /\
    get_le32 l 12 = Some h3 /\ le_words l = [h0; h1; h2; h3].
Proof. intros Hl. do 16 (destruct l as [|? l]; [done|]). destruct l; [|done]. by do 4 eexists. Qed.

Lemma get_le32_8 l :
  length l = 8%nat -> exists k0 k1, get_le32 l 0 = Some k0 /\ get_le32 l 4 = Some k1 /\ le_words l = [k0; k1].
Proof. intros Hl. do 8 (destruct l as [|? l]; [done|]). destruct l; [|done]. by do 2 eexists. Qed.

Lemma michdr_length m i hdr : ol_rx_defrag_michdr m i = Some hdr -> length hdr = 16%nat.
Proof.
  unfold ol_rx_defrag_michdr.
  intros (fc0 & _ & (fc1 & _ & (da & Hd & (sa & Hs & (tid & _ & [= <-])%bind_Some)%bind_Some)%bind_Some)%bind_Some)%bind_Some.
  apply rd_zlen in Hd, Hs. unfold zlen in *. rewrite !length_app. simpl. lia.
Qed.

(** The last block and the block of zeros behind it. *)
Lemma mic_last_spec st l n :
  rd (ms_mem st) (ms_data st) (ms_len st) = Some l -> zlen l = n mod 4 ->
  exists w, mic_last st = Some w /\ le_words (l ++ michael_pad n) = [w; 0].
Proof.
  intros Hrd Hl. unfold mic_last. rewrite Hrd. cbn [mbind option_bind]. unfold michael_pad. rewrite <- Hl.
  pose proof (Z.mod_pos_bound n 4 ltac:(lia)). rewrite <- Hl in *.
  destruct l as [|b0 [|b1 [|b2 [|b3 l]]]]; try (by eexists). exfalso. unfold zlen in *. simpl in *. lia.
Qed.

Lemma mic_word_0 s : mic_word s 0 = michael_block s.
Proof. unfold mic_word. destruct s as [l r]. simpl fst. simpl snd. by rewrite Z.lxor_0_r. Qed.

Lemma ol_rx_defrag_mic_spec key wbuf rest off len hdr d body bodies :
  length key = 8%nat -> htt_rx_msdu_rx_desc_size_hl wbuf = Some d -> payload wbuf body -> Forall2 payload rest bodies ->
  Forall (fun b => 3 <= zlen b) bodies -> ol_rx_defrag_michdr (sk_mem wbuf) (sk_data wbuf + d) = Some hdr ->
  0 <= off <= zlen body -> 0 <= len < 65536 ->
  let msg := drop (Z.to_nat off) body ++ concat bodies in
  len <= zlen msg ->
  (bodies = [] \/ zlen (drop (Z.to_nat off) body ++ concat (removelast bodies)) < 4 * (len / 4)) ->
  ol_rx_defrag_mic key wbuf rest off len = Some (michael key hdr (take (Z.to_nat len) msg)).
Proof.
  intros Hkey Hd (d' & Hd' & Hz & Hbl & Hrd) Hrest H3 Hhdr Hoff Hlen msg Hmax Hcut.
  assert (d' = d) as -> by congruence. clear Hd'. unfold ol_rx_defrag_mic. rewrite Hd. cbn [mbind option_bind].
  rewrite Hhdr. cbn [mbind option_bind].
  destruct (get_le32_8 key Hkey) as (k0 & k1 & -> & -> & Hk). cbn [mbind option_bind].
  pose proof (michdr_length _ _ _ Hhdr) as Hhl.
  destruct (get_le32_16 hdr Hhl) as (h0 & h1 & h2 & h3 & -> & -> & -> & -> & Hh). cbn [mbind option_bind].
  assert (Hcur : zlen (drop (Z.to_nat off) body) = zlen body - off) by (unfold zlen in *; rewrite length_drop; lia).
  rewrite <- (take_drop (Z.to_nat off) body) in Hrd.
  pose proof (rd_split _ _ _ _ _ Hrd) as [_ Hrd']. rewrite take_drop in Hrd'.
  replace (zlen (take (Z.to_nat off) body)) with off in Hrd' by (unfold zlen in *; rewrite length_take; lia).
  rewrite <- Hcur in Hrd'. replace (u32 (sk_len wbuf - d - off)) with (zlen (drop (Z.to_nat off) body))
    by (rewrite u32_small; lia).
  destruct (mic_loop_spec rest bodies Hrest H3 _ _ _ len (foldl mic_word (k0, k1) [h0; h1; h2; h3]) Hrd' Hlen Hmax Hcut)
    as (st & -> & Hlr & Hl & Htail). cbn [mbind option_bind]. fold msg in Hlr, Htail.
  pose proof (Z_div_mod_eq_full len 4). pose proof (Z.mod_pos_bound len 4 ltac:(lia)).
  assert (Hml : zlen (take (Z.to_nat len) msg) = len) by (unfold zlen in *; rewrite length_take; lia).
  destruct (mic_last_spec st _ len Htail) as (w & -> & Hw).
  { unfold zlen in *. rewrite length_drop, Nat2Z.inj_sub; lia. }
  cbn [mbind option_bind]. unfold michael. rewrite Hk, Hml.
  rewrite (le_words_app hdr) by (unfold zlen; by rewrite Hhl). rewrite Hh, foldl_app.
  remember (take (Z.to_nat len) msg) as q eqn:Eq.
  assert (Ep : le_words (q ++ michael_pad len) = le_words q ++ [w; 0]).
  { rewrite <- (take_drop (Z.to_nat (4 * (len / 4))) q) at 1. rewrite <- app_assoc, le_words_app, Hw.
    - f_equal. by rewrite (le_words_whole q), Hml.
    - unfold zlen in *. rewrite length_take, Nat.min_l by lia. rewrite Z2Nat.id by lia.
      by rewrite Z.mul_comm, Z.mod_mul. }
  rewrite Ep, Hlr, (foldl_app mic_word _ [w; 0]). cbn [foldl]. rewrite mic_word_0. by destruct (michael_block _).
Qed.

(** The test vectors of the standard. *)
Example michael_vector_1 : michael (replicate 8 0) [] [] = Some [0x82; 0x92; 0x5c; 0x1c; 0xa1; 0xd1; 0x30; 0xb8].
Proof. by vm_compute. Qed.
Example michael_vector_2 :
  michael [0x82; 0x92; 0x5c; 0x1c; 0xa1; 0xd1; 0x30; 0xb8] [] [0x4d] =
    Some [0x43; 0x47; 0x21; 0xca; 0x40; 0x63; 0x9b; 0x3f].
Proof. by vm_compute. Qed.

(** ** The block function is a permutation of the states *)
Section Inverse.
Definition michael_unblock (s : Z * Z) : Z * Z :=
  let '(l, r) := s in
  let l := u32 (l - r) in
  let r := Z.lxor r (rotr l 2) in
  let l := u32 (l - r) in
  let r := Z.lxor r (rotl l 3) in
  let l := u32 (l - r) in
  let r := Z.lxor r (xswap l) in
  let l := u32 (l - r) in
  let r := Z.lxor r (rotl l 17) in
  (l, r).

Definition word (z : Z) : Prop := 0 <= z < 2 ^ 32.

Lemma word_u32 z : word (u32 z).
Proof. apply u32_range. Qed.
Lemma word_testbit z : word z <-> 0 <= z /\ forall i, 32 <= i -> Z.testbit z i = false.
Proof.
  unfold word. split.
  - intros Hz. split; [lia|]. intros i Hi. destruct (decide (z = 0)) as [->|]; [apply Z.bits_0|].
    apply Z.bits_above_log2; [lia|]. apply Z.log2_lt_pow2; [lia|]. eapply Z.lt_le_trans; [apply Hz|].
    apply Z.pow_le_mono_r; lia.
  - intros [Hz Hb]. split; [done|]. apply Z.nle_gt. intros Hle. assert (0 < z) by lia.
    assert (32 <= Z.log2 z) by (apply Z.log2_le_pow2; lia).
    pose proof (Z.bit_log2 z ltac:(lia)). rewrite Hb in *; done.
Qed.
Lemma word_lxor a b : word a -> word b -> word (Z.lxor a b).
Proof.
  rewrite !word_testbit. intros [Ha Hba] [Hb Hbb]. split; [by apply Z.lxor_nonneg|].
  intros i Hi. by rewrite Z.lxor_spec, Hba, Hbb.
Qed.
Lemma word_lor a b : word a -> word b -> word (Z.lor a b).
Proof.
  rewrite !word_testbit. intros [Ha Hba] [Hb Hbb]. split; [by apply Z.lor_nonneg|].
  intros i Hi. by rewrite Z.lor_spec, Hba, Hbb.
Qed.
Lemma word_shiftr a n : 0 <= n -> word a -> word (Z.shiftr a n).
Proof.
  rewrite !word_testbit. intros Hn [Ha Hb]. split; [by apply Z.shiftr_nonneg|].
  intros i Hi. rewrite Z.shiftr_spec by lia. apply Hb. lia.
Qed.
Lemma word_land a b : word a -> 0 <= b -> word (Z.land a b).
Proof.
  rewrite !word_testbit. intros [Ha Hb] Hb'. split; [apply Z.land_nonneg; by left|].
  intros i Hi. by rewrite Z.land_spec, Hb.
Qed.
Lemma word_rotl a n : n <= 32 -> word a -> word (rotl a n).
Proof. intros. apply word_lor; [apply word_u32|]. apply word_shiftr; [lia|done]. Qed.
Lemma word_rotr a n : 0 <= n -> word a -> word (rotr a n).
Proof. intros. apply word_lor; [by apply word_shiftr|apply word_u32]. Qed.
Lemma word_xswap a : word a -> word (xswap a).
Proof. intros. apply word_lor; [apply word_u32|]. apply word_shiftr; [done|]. by apply word_land. Qed.

Lemma lxor_cancel a b : Z.lxor (Z.lxor a b) b = a.
Proof. by rewrite Z.lxor_assoc, Z.lxor_nilpotent, Z.lxor_0_r. Qed.
Lemma add_cancel a b : word a -> u32 (u32 (a + b) - b) = a.
Proof. intros Ha. unfold u32. rewrite wrap_sub_l. replace (a + b - b) with a by lia. by apply u32_small. Qed.
Lemma sub_cancel a b : word a -> u32 (u32 (a - b) + b) = a.
Proof. intros Ha. unfold u32. rewrite wrap_add_l. replace (a - b + b) with a by lia. by apply u32_small. Qed.

Lemma michael_block_word l r : word l -> word r -> word (michael_block (l, r)).1 /\ word (michael_block (l, r)).2.
Proof.
  intros Hl Hr. unfold michael_block. cbn [fst snd]. split; [apply word_u32|].
  repeat first [done | apply word_u32 | apply word_lxor | apply word_rotl; [lia|] | apply word_rotr; [lia|] | apply word_xswap].
Qed.

Lemma michael_unblock_block l r : word l -> word r -> michael_unblock (michael_block (l, r)) = (l, r).
Proof.
  intros Hl Hr. unfold michael_block, michael_unblock. cbv zeta.
  repeat (rewrite add_cancel by (done || apply word_u32); rewrite lxor_cancel). done.
Qed.
Lemma michael_block_unblock l r : word l -> word r -> michael_block (michael_unblock (l, r)) = (l, r).
Proof.
  intros Hl Hr. unfold michael_block, michael_unblock. cbv zeta.
  repeat (rewrite lxor_cancel; rewrite sub_cancel by (done || apply word_u32)). done.
Qed.
End Inverse.

(** ** Bytes and words *)
Section BytesAndWords.
Definition byte (z : Z) : Prop := 0 <= z < 256.

Lemma get_le32_split_sum b0 b1 b2 b3 :
  byte b0 -> byte b1 -> byte b2 -> byte b3 -> get_le32_split b0 b1 b2 b3 = b0 + 256 * b1 + 65536 * b2 + 16777216 * b3.
Proof.
  unfold byte, get_le32_split. intros. rewrite (lor_add b0), (lor_add _ b2), (lor_add _ b3) by lia.
  rewrite u32_small; lia.
Qed.

Lemma get_le32_split_inj b0 b1 b2 b3 c0 c1 c2 c3 :
  Forall byte [b0; b1; b2; b3] -> Forall byte [c0; c1; c2; c3] ->
  get_le32_split b0 b1 b2 b3 = get_le32_split c0 c1 c2 c3 -> [b0; b1; b2; b3] = [c0; c1; c2; c3].
Proof.
  rewrite !list.Forall_cons. intros (?&?&?&?&_) (?&?&?&?&_).
  rewrite !get_le32_split_sum by done. unfold byte in *. intros E.
  assert (b0 = c0) as -> by lia. assert (b1 = c1) as -> by lia. assert (b2 = c2) as -> by lia. by assert (b3 = c3) as -> by lia.
Qed.

Lemma put_le32_inj v w : word v -> word w -> put_le32 v = put_le32 w -> v = w.
Proof.
  unfold word, put_le32. change 0xff with (2 ^ 8 - 1). rewrite !land_mask, !Z.shiftr_div_pow2 by lia.
  intros Hv Hw [= E0 E1 E2 E3]. change (2 ^ 8) with 256 in *. change (2 ^ 16) with 65536 in *.
  change (2 ^ 24) with 16777216 in *. Z.to_euclidean_division_equations. lia.
Qed.

Lemma le_words_word l : Forall word (le_words l).
Proof.
  remember (length l) as n eqn:En. revert l En. induction (lt_wf n) as [n _ IH]. intros l ->.
  destruct l as [|a [|b [|c [|d l]]]]; try constructor; [apply word_u32|]. apply (IH (length l)); simpl; lia.
Qed.

Definition words2 (s : Z * Z) : Prop := word s.1 /\ word s.2.

Lemma mic_word_words s w : words2 s -> word w -> words2 (mic_word s w).
Proof. intros [Hl Hr] Hw. apply michael_block_word; [by apply word_lxor|done]. Qed.
Lemma mic_fold_words ws s : words2 s -> Forall word ws -> words2 (foldl mic_word s ws).
Proof.
  revert s. induction ws as [|w ws IH]; intros s Hs Hws; [done|].
  apply list.Forall_cons in Hws as [Hw Hws]. apply IH; [by apply mic_word_words|done].
Qed.

(** One step is injective in the state and in the word. *)
Lemma mic_word_inj s w s' w' :
  words2 s -> words2 s' -> word w -> word w' -> mic_word s w = mic_word s' w' ->
  Z.lxor s.1 w = Z.lxor s'.1 w' /\ s.2 = s'.2.
Proof.
  intros [Hl Hr] [Hl' Hr'] Hw Hw' E. apply (f_equal michael_unblock) in E. unfold mic_word in E.
  rewrite !michael_unblock_block in E by (done || by apply word_lxor). by injection E.
Qed.
Lemma mic_fold_inj ws s s' :
  words2 s -> words2 s' -> Forall word ws -> foldl mic_word s ws = foldl mic_word s' ws -> s = s'.
Proof.
  revert s s'. induction ws as [|w ws IH]; intros s s' Hs Hs' Hws E; [done|].
  apply list.Forall_cons in Hws as [Hw Hws]. simpl in E. apply IH in E; try done; try by apply mic_word_words.
  apply mic_word_inj in E as [El Er]; try done. destruct s as [l r], s' as [l' r']. simpl in *. f_equal; [|done].
  by rewrite <- (lxor_cancel l w), El, lxor_cancel.
Qed.
Lemma mic_word_detects s w w' : words2 s -> word w -> word w' -> mic_word s w = mic_word s w' -> w = w'.
Proof.
  intros Hs Hw Hw' [E _]%mic_word_inj; try done.
  by rewrite <- (Z.lxor_0_l w), <- (Z.lxor_0_l w'), <- (Z.lxor_nilpotent s.1), !Z.lxor_assoc, E.
Qed.
End BytesAndWords.

Lemma le_words_4 x : length x = 4%nat -> exists w, le_words x = [w] /\ word w.
Proof.
  intros Hx. do 4 (destruct x as [|? x]; [done|]). destruct x; [|done]. eexists. split; [done|apply word_u32].
Qed.

Lemma michael_detects key hdr p x y q :
  length key = 8%nat -> zlen hdr mod 4 = 0 -> zlen p mod 4 = 0 -> length x = 4%nat -> length y = 4%nat ->
  Forall byte x -> Forall byte y ->
  michael key hdr (p ++ x ++ q) = michael key hdr (p ++ y ++ q) -> x = y.
Proof.
  intros Hk Hh Hp Hx Hy Hbx Hby. destruct (get_le32_8 key Hk) as (k0 & k1 & _ & _ & Hkw). unfold michael. rewrite Hkw.
  assert (zlen (p ++ x ++ q) = zlen (p ++ y ++ q)) as -> by (rewrite !zlen_app; unfold zlen; lia).
  remember (q ++ michael_pad (zlen (p ++ y ++ q))) as t.
  replace (hdr ++ (p ++ x ++ q) ++ _) with ((hdr ++ p) ++ x ++ t) by (subst t; by rewrite <- !app_assoc).
  replace (hdr ++ (p ++ y ++ q) ++ _) with ((hdr ++ p) ++ y ++ t) by (subst t; by rewrite <- !app_assoc).
  destruct (le_words_4 x Hx) as (w & Hw & Hww), (le_words_4 y Hy) as (v & Hv & Hvw).
  assert (zlen (hdr ++ p) mod 4 = 0) by (rewrite zlen_app, Z.add_mod, Hh, Hp by lia; done).
  rewrite !(le_words_app (hdr ++ p)), !(le_words_app x), !(le_words_app y), Hw, Hv by (done || (unfold zlen; by rewrite ?Hx, ?Hy)).
  rewrite !foldl_app. cbn [foldl].
  pose proof (le_words_word key) as Hkk. rewrite Hkw in Hkk. apply list.Forall_cons in Hkk as [Hk0 Hk1].
  pose proof (List.Forall_inv Hk1) as Hk1w.
  set (s := foldl mic_word (k0, k1) (le_words (hdr ++ p))).
  assert (Hs : words2 s) by (apply mic_fold_words; [by split|apply le_words_word]).
  pose proof (mic_word_words s w Hs Hww) as Hsw. pose proof (mic_word_words s v Hs Hvw) as Hsv.
  pose proof (mic_fold_words _ _ Hsw (le_words_word t)) as [Ha1 Ha2].
  pose proof (mic_fold_words _ _ Hsv (le_words_word t)) as [Hb1 Hb2].
  intros E%(inj Some). apply app_inj_1 in E as [E1 E2]; [|done].
  apply put_le32_inj in E1; [|done..]. apply put_le32_inj in E2; [|done..].
  assert (E : foldl mic_word (mic_word s w) (le_words t) = foldl mic_word (mic_word s v) (le_words t)).
  { rewrite (surjective_pairing (foldl _ (mic_word s w) _)), E1, E2. by rewrite <- surjective_pairing. }
  apply mic_fold_inj in E; [|done|done|apply le_words_word]. apply mic_word_detects in E; [|done..].
  do 4 (destruct x as [|? x]; [done|]). do 4 (destruct y as [|? y]; [done|]). destruct x, y; try done.
  cbn [le_words] in Hw, Hv. injection Hw as Hw. injection Hv as Hv.
  apply get_le32_split_inj; [done|done|congruence].
Qed.
