(* ===== verification/RxDecap.v ===== *)
(** Processing of a complete fragment list ([ol_rx_defrag] in
    [ol_rx_defrag.c]): packet number check, removal of the cipher's header and
    trailer from every fragment, joining the fragments, Michael, removal of the
    QoS control, and the conversion to an Ethernet frame.  The functions work
    on the bytes of the buffers ([RxNbuf]); [Some None] is
    [OL_RX_DEFRAG_ERR]. *)
From Stdlib Require Import ZArith Lia.
From stdpp Require Import prelude gmap list numbers.
From S2P Require Import Prelude.
From S2P Require Import RxTypes.
From S2P Require Import RxPn.
From S2P Require Import RxNbuf.
From S2P Require Import RxMichael.

(** ** Ciphers *)

Record ol_rx_defrag_cipher := mk_cipher { ic_header : Z; ic_trailer : Z; ic_miclen : Z }.
Definition f_ccmp : ol_rx_defrag_cipher := mk_cipher 8 8 0.
Definition f_tkip : ol_rx_defrag_cipher := mk_cipher 8 4 8.
Definition f_wep : ol_rx_defrag_cipher := mk_cipher 4 4 0.

Definition IEEE80211_FC0_TYPE_MASK : Z := 0x0c.
Definition IEEE80211_FC0_TYPE_DATA : Z := 0x08.
Definition IEEE80211_FC1_DIR_DSTODS : Z := 0x03.
Definition IEEE80211_FC1_MORE_FRAG : Z := 0x04.
Definition IEEE80211_FC1_ORDER : Z := 0x80.
Definition IEEE80211_SEQ_FRAG_MASK : Z := 0x000f.
Definition IEEE80211_WEP_EXTIV : Z := 0x20.
Definition DEFRAG_IEEE80211_FCS_LEN : Z := 4.

(** [DEFRAG_IEEE80211_QOS_HAS_SEQ], on the first byte of the frame control. *)
Definition QOS_HAS_SEQ (fc0 : Z) : bool :=
  Z.land fc0 (Z.lor IEEE80211_FC0_TYPE_MASK IEEE80211_FC0_SUBTYPE_QOS) =?
  Z.lor IEEE80211_FC0_TYPE_DATA IEEE80211_FC0_SUBTYPE_QOS.

(** [ol_rx_frag_hdrsize]: the MAC header at offset [i]. *)
Definition ol_rx_frag_hdrsize (m : list Z) (i : Z) : option Z :=
  fc0 ← znth m i; fc1 ← znth m (i + 1);
  let size := 24 in
  let size := if Z.land fc1 IEEE80211_FC1_DIR_MASK =? IEEE80211_FC1_DIR_DSTODS then size + 6 else size in
  Some (if QOS_HAS_SEQ fc0 then
          let size := size + 2 in if negb (Z.land fc1 IEEE80211_FC1_ORDER =? 0) then size + 4 else size
        else size).

(** ** Removal of the cipher's header and trailer *)

(** [ol_rx_frag_restructure]: the receive descriptor, and the indication
    message in front of it, move with the MAC header. *)
Definition ol_rx_frag_restructure (m : list Z) (data ic_header rx_desc_len : Z) : option (list Z) :=
  m ← adf_os_mem_move m (data + ic_header) data rx_desc_len;
  adf_os_mem_move m (data - HTT_RX_IND_HL_BYTES + ic_header) (data - HTT_RX_IND_HL_BYTES) HTT_RX_IND_HL_BYTES.

(** The extended IV bit of the IV behind the MAC header. *)
Definition has_ext_iv (b : skb) (hdrlen : Z) : option bool :=
  rx_desc_len ← htt_rx_msdu_rx_desc_size_hl b;
  iv ← znth (sk_mem b) (sk_data b + rx_desc_len + hdrlen + 3);
  Some (negb (Z.land iv IEEE80211_WEP_EXTIV =? 0)).

(** The MAC header, the descriptor and the message move over the IV. *)
Definition strip_header (b : skb) (hdrlen : Z) (f_type : ol_rx_defrag_cipher) : option skb :=
  rx_desc_len ← htt_rx_msdu_rx_desc_size_hl b;
  let origHdr := sk_data b + rx_desc_len in
  m ← adf_os_mem_move (sk_mem b) (origHdr + ic_header f_type) origHdr hdrlen;
  m ← ol_rx_frag_restructure m (sk_data b) (ic_header f_type) rx_desc_len;
  Some (adf_nbuf_pull_head (set_sk_mem m b) (ic_header f_type)).

Definition ol_rx_frag_tkip_decap (b : skb) (hdrlen : Z) : option (option skb) :=
  ext ← has_ext_iv b hdrlen;
  if negb ext then Some None
  else b ← strip_header b hdrlen f_tkip; Some (Some (adf_nbuf_trim_tail b (ic_trailer f_tkip))).

Definition ol_rx_frag_wep_decap (b : skb) (hdrlen : Z) : option (option skb) :=
  b ← strip_header b hdrlen f_wep; Some (Some (adf_nbuf_trim_tail b (ic_trailer f_wep))).

Definition ol_rx_frag_ccmp_demic (b : skb) (hdrlen : Z) : option (option skb) :=
  ext ← has_ext_iv b hdrlen;
  Some (if negb ext then None else Some (adf_nbuf_trim_tail b (ic_trailer f_ccmp))).

Definition ol_rx_frag_ccmp_decap (b : skb) (hdrlen : Z) : option (option skb) :=
  ext ← has_ext_iv b hdrlen;
  if negb ext then Some None else b ← strip_header b hdrlen f_ccmp; Some (Some b).

(** Verify and strip Michael; a copy that [skb_copy_bits] refuses would be
    compared uninitialised, and is a fault. *)
Definition ol_rx_frag_tkip_demic (key : list Z) (b : skb) (hdrlen : Z) : option (option skb) :=
  rx_desc_len ← htt_rx_msdu_rx_desc_size_hl b;
  let pktlen := u32 (sk_len b - rx_desc_len) in
  mic ← ol_rx_defrag_mic key b [] hdrlen (u16 (pktlen - (hdrlen + ic_miclen f_tkip)));
  match mic with
  | None => Some None
  | Some mic =>
    mic0 ← adf_nbuf_copy_bits b (s32 (pktlen - ic_miclen f_tkip + rx_desc_len)) (ic_miclen f_tkip);
    Some (if negb (bool_decide (mic = mic0)) then None else Some (adf_nbuf_trim_tail b (ic_miclen f_tkip)))
  end.

(** ** Headers of the joined frame *)

(** The end of [ol_rx_defrag_decap_recombine]: no more fragments, fragment
    number 0. *)
Definition clear_frag_fields (b : skb) : option skb :=
  rx_desc_len ← htt_rx_msdu_rx_desc_size_hl b;
  let wh := sk_data b + rx_desc_len in
  fc1 ← znth (sk_mem b) (wh + 1);
  m ← wr (sk_mem b) (wh + 1) [Z.land fc1 (Z.lxor 0xff IEEE80211_FC1_MORE_FRAG)];
  seq ← znth m (wh + 22);
  m ← wr m (wh + 22) [Z.land seq (Z.lxor 0xff IEEE80211_SEQ_FRAG_MASK)];
  Some (set_sk_mem m b).

(** After the header moved: room for the descriptor in front of it again, and
    the descriptor and the message behind each other as before. *)
Definition move_desc (b : skb) (old_data rx_desc_len : Z) : option skb :=
  b ← adf_nbuf_push_head b rx_desc_len;
  m ← adf_os_mem_move (sk_mem b) (sk_data b) old_data rx_desc_len;
  m ← adf_os_mem_move m (sk_data b - HTT_RX_IND_HL_BYTES) (old_data - HTT_RX_IND_HL_BYTES) HTT_RX_IND_HL_BYTES;
  Some (set_sk_mem m b).

Definition ol_rx_defrag_qos_decap (b : skb) (hdrlen : Z) : option skb :=
  rx_desc_len ← htt_rx_msdu_rx_desc_size_hl b;
  let wh := sk_data b + rx_desc_len in
  fc0 ← znth (sk_mem b) wh; fc1 ← znth (sk_mem b) (wh + 1);
  if QOS_HAS_SEQ fc0 then
    let qoslen := if negb (Z.land fc1 IEEE80211_FC1_ORDER =? 0) then 2 + 4 else 2 in
    let hdrlen := u16 (hdrlen - qoslen) in
    m ← adf_os_mem_move (sk_mem b) (wh + qoslen) wh hdrlen;
    let pulled := adf_nbuf_pull_head (set_sk_mem m b) (rx_desc_len + qoslen) in
    m ← (if sk_len b <? rx_desc_len + qoslen then Some (sk_mem pulled)
         else fc0 ← znth (sk_mem pulled) (sk_data pulled);
              wr (sk_mem pulled) (sk_data pulled) [Z.land fc0 (Z.lxor 0xff IEEE80211_FC0_SUBTYPE_QOS)]);
    move_desc (set_sk_mem m pulled) (sk_data b) rx_desc_len
  else Some b.

(** [ol_rx_defrag_nwifi_to_8023]: a frame between two access points keeps the
    bytes that are where its addresses should be. *)
Definition ol_rx_defrag_nwifi_to_8023 (b : skb) : option skb :=
  rx_desc_len ← htt_rx_msdu_rx_desc_size_hl b;
  let wh := sk_data b + rx_desc_len in
  let hdrsize := 24 in
  fc1 ← znth (sk_mem b) (wh + 1);
  addr1 ← rd (sk_mem b) (wh + 4) 6; addr2 ← rd (sk_mem b) (wh + 10) 6; addr3 ← rd (sk_mem b) (wh + 16) 6;
  llchdr ← rd (sk_mem b) (wh + hdrsize) 8;
  let pulled := adf_nbuf_pull_head b (rx_desc_len + hdrsize + 8 - 14) in
  let eth_hdr := sk_data pulled in
  let dir := Z.land fc1 IEEE80211_FC1_DIR_MASK in
  m ← (if dir =? 0 then wr (sk_mem pulled) eth_hdr (addr1 ++ addr2)
       else if dir =? 1 then wr (sk_mem pulled) eth_hdr (addr3 ++ addr2)
       else if dir =? 2 then wr (sk_mem pulled) eth_hdr (addr1 ++ addr3)
       else Some (sk_mem pulled));
  m ← wr m (eth_hdr + 12) (drop 6 llchdr);
  move_desc (set_sk_mem m pulled) (sk_data b) rx_desc_len.
