(* ===== verification/RxDefragProc.v ===== *)
(** [ol_rx_defrag] and [ol_rx_defrag_decap_recombine]: the walk over the
    buffers of a complete fragment list, with every error path.  The device of
    [RxTypes] is extended by the bytes of its buffers. *)
From Stdlib Require Import ZArith Lia.
From stdpp Require Import prelude gmap list numbers.
From S2P Require Import Prelude.
From S2P Require Import RxTypes.
From S2P Require Import RxPn.
From S2P Require Import RxNbuf.
From S2P Require Import RxMichael.
From S2P Require Import RxDecap.

(** The device, the bytes of its buffers, the Michael keys by peer and whether
    for groups, the peers of virtual devices in safe mode, and whether frames
    go to the network stack as Ethernet frames. *)
Record defrag_pdev := mk_defrag_pdev {
  dp_rx : rx_pdev;
  dp_skbs : gmap Z skb;
  dp_michael_key : Z -> bool -> list Z;
  dp_safemode : Z -> bool;
  dp_frm_802_3 : bool }.

Definition set_dp_rx (f : rx_pdev -> rx_pdev) (s : defrag_pdev) : defrag_pdev :=
  mk_defrag_pdev (f (dp_rx s)) (dp_skbs s) (dp_michael_key s) (dp_safemode s) (dp_frm_802_3 s).
Definition set_dp_skbs (f : gmap Z skb -> gmap Z skb) (s : defrag_pdev) : defrag_pdev :=
  mk_defrag_pdev (dp_rx s) (f (dp_skbs s)) (dp_michael_key s) (dp_safemode s) (dp_frm_802_3 s).

(** A computation on the device alone. *)
Definition on_rx {A} (m : M rx_pdev A) : M defrag_pdev A := fun s =>
  '(a, r) ← m (dp_rx s); Some (a, set_dp_rx (fun _ => r) s).

Definition nbuf_next (a : Z) : M defrag_pdev (option Z) :=
  s ← get; lift (adf_nbuf_next (rx_heap (dp_rx s)) a).
Definition nbuf_set_next (a : Z) (v : option Z) : M defrag_pdev unit :=
  on_rx (s ← get; h ← lift (adf_nbuf_set_next (rx_heap s) a v); put_heap h).

(** The bytes of a buffer, which must be allocated. *)
Definition get_skb (a : Z) : M defrag_pdev skb :=
  s ← get; _ ← lift (rx_heap (dp_rx s) !! a); lift (dp_skbs s !! a).
Definition put_skb (a : Z) (b : skb) : M defrag_pdev unit := modify (set_dp_skbs (<[a := b]>)).

(** Run a function that returns an error code on one buffer. *)
Definition on_skb (a : Z) (f : skb -> option (option skb)) : M defrag_pdev bool :=
  b ← get_skb a;
  r ← lift (f b);
  match r with None => mret false | Some b => put_skb a b;; mret true end.

(** [htt_rx_desc_frame_free] of one buffer. *)
Definition frame_free (a : Z) : M defrag_pdev unit :=
  on_rx (s ← get; h ← lift (htt_rx_desc_frame_free (rx_heap s) a); put_heap h;; log_rx_freed [a]).

Section Defrag.
Context `{StackJunk} `{Expand}.

(** The loop over the fragments that checks packet numbers and drops the FCS. *)
Fixpoint defrag_pn_loop (n : nat) (p tid : Z) (frag_list : option Z) (prev cur : option Z) : M defrag_pdev bool :=
  match cur, n with
  | None, _ => mret true
  | Some _, O => fault
  | Some c, S n' =>
    tmp_next ← nbuf_next c;
    nbuf_set_next c None;;
    r ← on_rx (ol_rx_pn_check_base p tid (Some c));
    match r with
    | None =>
      match prev with
      | Some pv => nbuf_set_next pv None;; on_rx (rx_frames_free frag_list)
      | None => skip
      end;;
      on_rx (rx_frames_free tmp_next);; mret false
    | Some _ =>
      b ← get_skb c;
      put_skb c (adf_nbuf_trim_tail b DEFRAG_IEEE80211_FCS_LEN);;
      nbuf_set_next c tmp_next;;
      defrag_pn_loop n' p tid frag_list (Some c) tmp_next
    end
  end.

(** The loops of the [switch]: one function on every fragment; on an error the
    whole list is freed. *)
Fixpoint decap_loop (n : nat) (f : Z -> M defrag_pdev bool) (frag_list : option Z) (cur : option Z)
  : M defrag_pdev bool :=
  match cur, n with
  | None, _ => mret true
  | Some _, O => fault
  | Some c, S n' =>
    tmp_next ← nbuf_next c;
    ok ← f c;
    if (ok : bool) then decap_loop n' f frag_list tmp_next
    else on_rx (rx_frames_free frag_list);; mret false
  end.

Definition ccmp_frag (hdr_space : Z) (c : Z) : M defrag_pdev bool :=
  ok ← on_skb c (fun b => ol_rx_frag_ccmp_demic b hdr_space);
  if (ok : bool) then on_skb c (fun b => ol_rx_frag_ccmp_decap b hdr_space) else mret false.

Definition decap_frags (n : nat) (sec : sec_type) (hdr_space : Z) (frag_list : option Z) : M defrag_pdev bool :=
  match sec with
  | htt_sec_type_tkip | htt_sec_type_tkip_nomic =>
    decap_loop n (fun c => on_skb c (fun b => ol_rx_frag_tkip_decap b hdr_space)) frag_list frag_list
  | htt_sec_type_aes_ccmp => decap_loop n (ccmp_frag hdr_space) frag_list frag_list
  | htt_sec_type_wep40 | htt_sec_type_wep104 | htt_sec_type_wep128 =>
    decap_loop n (fun c => on_skb c (fun b => ol_rx_frag_wep_decap b hdr_space)) frag_list frag_list
  | _ => mret true
  end.

(** The loop of [ol_rx_defrag_decap_recombine]: append [msdu] and its
    successors to [rx_nbuf]. *)
Fixpoint recombine_loop (n : nat) (rx_nbuf hdrsize : Z) (msdu : option Z) : M defrag_pdev bool :=
  match msdu, n with
  | None, _ => mret true
  | Some _, O => fault
  | Some m, S n' =>
    tmp ← nbuf_next m;
    nbuf_set_next m None;;
    b ← get_skb m;
    rx_desc_len ← lift (htt_rx_msdu_rx_desc_size_hl b);
    let b := adf_nbuf_pull_head b (rx_desc_len + hdrsize) in
    put_skb m b;;
    d ← get_skb rx_nbuf;
    r ← lift (adf_nbuf_cat d b);
    match r with
    | None => on_rx (rx_frames_free tmp);; frame_free rx_nbuf;; frame_free m;; mret false
    | Some d => put_skb rx_nbuf d;; frame_free m;; recombine_loop n' rx_nbuf hdrsize tmp
    end
  end.

Definition ol_rx_defrag_decap_recombine (n : nat) (frag_list hdrsize : Z) : M defrag_pdev (option Z) :=
  msdu ← nbuf_next frag_list;
  nbuf_set_next frag_list None;;
  ok ← recombine_loop n frag_list hdrsize msdu;
  if (ok : bool) then
    b ← get_skb frag_list;
    b ← lift (clear_frag_fields b);
    put_skb frag_list b;; mret (Some frag_list)
  else mret None.

(** What follows the joining: Michael, QoS, Ethernet, the next stage. *)
Definition defrag_finish (p tid : Z) (sec : sec_type) (mcast : bool) (hdr_space msdu : Z) : M defrag_pdev unit :=
  s ← get;
  ok ← (if bool_decide (sec = htt_sec_type_tkip)
        then on_skb msdu (fun b => ol_rx_frag_tkip_demic (dp_michael_key s p mcast) b hdr_space) else mret true);
  if negb (ok : bool) then
    frame_free msdu;; on_rx (modify (set_rx_errs (fun l => l ++ [(p, tid, msdu)])))
  else
    b ← get_skb msdu;
    rx_desc_len ← lift (htt_rx_msdu_rx_desc_size_hl b);
    fc0 ← lift (znth (sk_mem b) (sk_data b + rx_desc_len));
    when (QOS_HAS_SEQ fc0) (b ← lift (ol_rx_defrag_qos_decap b hdr_space); put_skb msdu b);;
    when (dp_frm_802_3 s) (b ← get_skb msdu; b ← lift (ol_rx_defrag_nwifi_to_8023 b); put_skb msdu b);;
    on_rx (hand_over to_fwd_check p tid (Some msdu)).

Definition ol_rx_defrag (p tid frag_list : Z) : M defrag_pdev unit :=
  s ← get;
  let n := heap_fuel (rx_heap (dp_rx s)) in
  if dp_safemode s p then on_rx (hand_over to_deliver p tid (Some frag_list))
  else
    ok ← defrag_pn_loop n p tid (Some frag_list) None (Some frag_list);
    if negb (ok : bool) then skip
    else
      b ← get_skb frag_list;
      rx_desc_len ← lift (htt_rx_msdu_rx_desc_size_hl b);
      hdr_space ← lift (ol_rx_frag_hdrsize (sk_mem b) (sk_data b + rx_desc_len));
      s ← get;
      rx_desc ← lift (htt_rx_msdu_desc_retrieve (rx_heap (dp_rx s)) frag_list);
      x ← on_rx (get_peer p);
      let sec := sec_type_of x rx_desc in
      ok ← decap_frags n sec hdr_space (Some frag_list);
      if negb (ok : bool) then skip
      else
        msdu ← ol_rx_defrag_decap_recombine n frag_list hdr_space;
        match msdu with
        | None => skip
        | Some msdu => defrag_finish p tid sec (rd_mcast rx_desc) hdr_space msdu
        end.
End Defrag.
