(* ===== verification/RxDecapSpec.v ===== *)
(** What the functions of [RxDecap] do to a buffer whose frame is given as the
    concatenation of its parts: each removes or rewrites a part and leaves the
    receive descriptor and the indication message in front of the frame. *)
From Stdlib Require Import ZArith Lia.
From stdpp Require Import prelude gmap list numbers.
From S2P Require Import Prelude.
From S2P Require Import RxTypes.
From S2P Require Import RxPn.
From S2P Require Import RxNbuf.
From S2P Require Import RxMichael.
From S2P Require Import RxDecap.

(** The buffer holds the message [ind], the descriptor [desc] and the frame
    [bytes]; the message carries the length of the descriptor. *)
Definition frame_at (b : skb) (ind desc bytes : list Z) : Prop :=
  exists pre post, sk_mem b = pre ++ ind ++ desc ++ bytes ++ post /\ sk_data b = zlen pre + 56 /\ zlen ind = 56 /\
    sk_len b = zlen desc + zlen bytes /\ znth ind 50 = Some (zlen desc) /\ sk_len b < 2 ^ 32.

Section Frames.
Implicit Types ind desc bytes hdr iv rest pre post g : list Z.

Lemma frame_size b ind desc bytes : frame_at b ind desc bytes -> htt_rx_msdu_rx_desc_size_hl b = Some (zlen desc).
Proof.
  intros (pre & post & Hm & Hd & Hi & _ & Hz & _). unfold htt_rx_msdu_rx_desc_size_hl.
  unfold HTT_RX_IND_HL_BYTES, HTT_RX_IND_HL_RX_DESC_LEN_OFFSET. rewrite Hm, Hd.
  replace (zlen pre + 56 - 56 + 50) with (zlen pre + 50) by lia.
  rewrite znth_app_r by lia. replace (zlen pre + 50 - zlen pre) with 50 by lia.
  by rewrite znth_app_l by lia.
Qed.

Lemma frame_byte b ind desc bytes i :
  frame_at b ind desc bytes -> 0 <= i < zlen bytes -> znth (sk_mem b) (sk_data b + zlen desc + i) = znth bytes i.
Proof.
  intros (pre & post & Hm & Hd & Hi & _) Hb. rewrite Hm, Hd.
  rewrite znth_app_r, znth_app_r, znth_app_r, znth_app_l by (pose proof (zlen_nonneg desc); lia). f_equal. lia.
Qed.

(** Where a part of the frame is. *)
Lemma frame_rd b ind desc x l y i :
  frame_at b ind desc (x ++ l ++ y) -> i = zlen x -> rd (sk_mem b) (sk_data b + zlen desc + i) (zlen l) = Some l.
Proof.
  intros (pre & post & Hm & Hd & Hi & _) ->. rewrite Hm, Hd.
  replace (pre ++ ind ++ desc ++ (x ++ l ++ y) ++ post) with ((pre ++ ind ++ desc ++ x) ++ l ++ (y ++ post))
    by (by rewrite <- !app_assoc).
  apply rd_app; [|done]. rewrite !zlen_app. lia.
Qed.

Lemma frame_wr b ind desc x l l' y i :
  frame_at b ind desc (x ++ l ++ y) -> i = zlen x -> zlen l' = zlen l ->
  exists m, wr (sk_mem b) (sk_data b + zlen desc + i) l' = Some m /\
    frame_at (set_sk_mem m b) ind desc (x ++ l' ++ y).
Proof.
  intros (pre & post & Hm & Hd & Hi & Hl & Hz & Hmax) -> El. rewrite Hm, Hd.
  replace (pre ++ ind ++ desc ++ (x ++ l ++ y) ++ post) with ((pre ++ ind ++ desc ++ x) ++ l ++ (y ++ post))
    by (by rewrite <- !app_assoc).
  eexists. split; [apply wr_app; [rewrite !zlen_app; lia|done]|].
  exists pre, post. cbn [set_sk_mem sk_mem sk_data sk_len]. rewrite Hl. split_and!; try done.
  - by rewrite <- !app_assoc.
  - rewrite !zlen_app. lia.
  - by rewrite <- Hl.
Qed.

Lemma frame_trim b ind desc bytes t n :
  frame_at b ind desc (bytes ++ t) -> n = zlen t -> frame_at (adf_nbuf_trim_tail b n) ind desc bytes.
Proof.
  intros (pre & post & Hm & Hd & Hi & Hl & Hz & Hmax) ->. rewrite zlen_app in Hl.
  pose proof (zlen_nonneg t). pose proof (zlen_nonneg bytes). pose proof (zlen_nonneg desc).
  unfold adf_nbuf_trim_tail. rewrite u32_small by lia. exists pre, (t ++ post).
  destruct (Z.ltb_spec (sk_len b - zlen t) (sk_len b)); cbn [sk_mem sk_data sk_len];
    (split_and!; [by rewrite Hm, <- app_assoc|done|done|lia|done|lia]).
Qed.

Lemma frame_payload b ind desc bytes : frame_at b ind desc bytes -> payload b bytes.
Proof.
  intros Hf. pose proof (frame_size _ _ _ _ Hf) as Hs. pose proof Hf as (pre & post & Hm & Hd & Hi & Hl & Hz & Hmax).
  exists (zlen desc). pose proof (zlen_nonneg bytes). pose proof (zlen_nonneg desc).
  split; [done|]. split; [lia|]. split; [lia|].
  rewrite <- (Z.add_0_r (sk_data b + zlen desc)). apply (frame_rd b ind desc [] bytes []); [|done].
  by rewrite app_nil_r.
Qed.

(** The descriptor and the message move over a gap behind them. *)
Lemma slide pre ind desc g x d :
  zlen ind = 56 -> d = zlen pre + 56 ->
  exists m g', zlen g' = zlen g /\
    (m ← adf_os_mem_move (pre ++ ind ++ desc ++ g ++ x) (d + zlen g) d (zlen desc);
     adf_os_mem_move m (d - 56 + zlen g) (d - 56) 56) = Some m /\ m = pre ++ g' ++ ind ++ desc ++ x.
Proof.
  intros Hi ->. destruct (move_right (pre ++ ind) desc g x) as (g1 & Hg1 & Hm1). rewrite zlen_app, Hi in Hm1.
  rewrite <- !app_assoc in Hm1. rewrite Hm1. cbn [mbind option_bind].
  destruct (move_right pre ind g1 (desc ++ x)) as (g2 & Hg2 & Hm2). rewrite Hi, Hg1 in Hm2.
  exists (pre ++ g2 ++ ind ++ desc ++ x), g2. split; [lia|]. split; [|done].
  replace (zlen pre + 56 - 56 + zlen g) with (zlen pre + zlen g) by lia.
  replace (zlen pre + 56 - 56) with (zlen pre) by lia. done.
Qed.

Lemma strip_header_spec b ind desc hdr iv rest f :
  frame_at b ind desc (hdr ++ iv ++ rest) -> zlen iv = ic_header f -> 
  exists b', strip_header b (zlen hdr) f = Some b' /\ frame_at b' ind desc (hdr ++ rest).
Proof.
  intros Hf Hiv. pose proof (frame_size _ _ _ _ Hf) as Hs. destruct Hf as (pre & post & Hm & Hd & Hi & Hl & Hz & Hmax).
  unfold strip_header. rewrite Hs. cbn [mbind option_bind]. rewrite Hm, Hd.
  destruct (move_right (pre ++ ind ++ desc) hdr iv (rest ++ post)) as (g & Hg & Hmv).
  rewrite !zlen_app, Hi, Hiv in Hmv. rewrite <- !app_assoc in *.
  replace (zlen pre + 56 + zlen desc) with (zlen pre + (56 + zlen desc)) by lia. rewrite Hmv. cbn [mbind option_bind].
  unfold ol_rx_frag_restructure, HTT_RX_IND_HL_BYTES. rewrite <- Hiv, <- Hg.
  destruct (slide pre ind desc g (hdr ++ rest ++ post) (zlen pre + 56) Hi eq_refl) as (m & g' & Hg' & Hsl & ->).
  rewrite Hsl. cbn [mbind option_bind]. eexists. split; [done|].
  rewrite !zlen_app in Hl. pose proof (zlen_nonneg g). pose proof (zlen_nonneg hdr). pose proof (zlen_nonneg rest).
  pose proof (zlen_nonneg desc).
  unfold adf_nbuf_pull_head. cbn [set_sk_mem sk_mem sk_data sk_len]. rewrite (proj2 (Z.ltb_ge _ _)) by lia.
  exists (pre ++ g'), post. cbn [sk_mem sk_data sk_len].
  split_and!; [by rewrite <- !app_assoc|rewrite zlen_app; lia|done|rewrite !zlen_app; lia|done|lia].
Qed.
Definition ext_iv (iv : list Z) : Prop := exists x, znth iv 3 = Some x /\ Z.land x IEEE80211_WEP_EXTIV <> 0.

Lemma has_ext_iv_at b ind desc hdr iv rest x :
  frame_at b ind desc (hdr ++ iv ++ rest) -> znth iv 3 = Some x ->
  has_ext_iv b (zlen hdr) = Some (negb (Z.land x IEEE80211_WEP_EXTIV =? 0)).
Proof.
  intros Hf Hx. pose proof (znth_lt_Some _ _ _ Hx). unfold has_ext_iv. rewrite (frame_size _ _ _ _ Hf). cbn [mbind option_bind].
  replace (sk_data b + zlen desc + zlen hdr + 3) with (sk_data b + zlen desc + (zlen hdr + 3)) by lia.
  pose proof (zlen_nonneg hdr). pose proof (zlen_nonneg rest).
  rewrite (frame_byte _ _ _ _ _ Hf) by (rewrite !zlen_app; lia).
  rewrite znth_app_r, znth_app_l by lia. replace (zlen hdr + 3 - zlen hdr) with 3 by lia. by rewrite Hx.
Qed.

Lemma has_ext_iv_spec b ind desc hdr iv rest :
  frame_at b ind desc (hdr ++ iv ++ rest) -> ext_iv iv -> has_ext_iv b (zlen hdr) = Some true.
Proof.
  intros Hf (x & Hx & Hb). rewrite (has_ext_iv_at _ _ _ _ _ _ _ Hf Hx). by rewrite (proj2 (Z.eqb_neq _ _)).
Qed.

Lemma tkip_decap_spec b ind desc hdr iv body icv :
  frame_at b ind desc (hdr ++ iv ++ body ++ icv) -> zlen iv = 8 -> ext_iv iv -> zlen icv = 4 ->
  exists b', ol_rx_frag_tkip_decap b (zlen hdr) = Some (Some b') /\ frame_at b' ind desc (hdr ++ body).
Proof.
  intros Hf Hiv He Hicv. unfold ol_rx_frag_tkip_decap. rewrite (has_ext_iv_spec _ _ _ _ _ _ Hf He). cbn [mbind option_bind negb].
  destruct (strip_header_spec _ _ _ _ _ _ f_tkip Hf Hiv) as (b' & -> & Hf'). cbn [mbind option_bind].
  eexists. split; [done|]. rewrite app_assoc in Hf'. by apply frame_trim with icv.
Qed.

Lemma wep_decap_spec b ind desc hdr iv body icv :
  frame_at b ind desc (hdr ++ iv ++ body ++ icv) -> zlen iv = 4 -> zlen icv = 4 ->
  exists b', ol_rx_frag_wep_decap b (zlen hdr) = Some (Some b') /\ frame_at b' ind desc (hdr ++ body).
Proof.
  intros Hf Hiv Hicv. unfold ol_rx_frag_wep_decap.
  destruct (strip_header_spec _ _ _ _ _ _ f_wep Hf Hiv) as (b' & -> & Hf'). cbn [mbind option_bind].
  eexists. split; [done|]. rewrite app_assoc in Hf'. by apply frame_trim with icv.
Qed.

Lemma ccmp_demic_spec b ind desc hdr iv body mic :
  frame_at b ind desc (hdr ++ iv ++ body ++ mic) -> ext_iv iv -> zlen mic = 8 ->
  exists b', ol_rx_frag_ccmp_demic b (zlen hdr) = Some (Some b') /\ frame_at b' ind desc (hdr ++ iv ++ body).
Proof.
  intros Hf He Hmic. unfold ol_rx_frag_ccmp_demic. rewrite (has_ext_iv_spec _ _ _ _ _ _ Hf He). cbn [mbind option_bind negb].
  eexists. split; [done|]. rewrite (app_assoc iv), (app_assoc hdr) in Hf. by apply frame_trim with mic.
Qed.

Lemma ccmp_decap_spec b ind desc hdr iv body :
  frame_at b ind desc (hdr ++ iv ++ body) -> zlen iv = 8 -> ext_iv iv ->
  exists b', ol_rx_frag_ccmp_decap b (zlen hdr) = Some (Some b') /\ frame_at b' ind desc (hdr ++ body).
Proof.
  intros Hf Hiv He. unfold ol_rx_frag_ccmp_decap. rewrite (has_ext_iv_spec _ _ _ _ _ _ Hf He). cbn [mbind option_bind negb].
  destruct (strip_header_spec _ _ _ _ _ _ f_ccmp Hf Hiv) as (b' & -> & Hf'). by eexists.
Qed.

(** ** Joining *)

(** A fragment without its descriptor and MAC header. *)
Lemma pull_header b ind desc hdr body :
  frame_at b ind desc (hdr ++ body) ->
  let b' := adf_nbuf_pull_head b (zlen desc + zlen hdr) in
  sk_len b' = zlen body /\ rd (sk_mem b') (sk_data b') (zlen body) = Some body.
Proof.
  intros Hf. pose proof (frame_rd b ind desc hdr body [] (zlen hdr)) as Hrd. rewrite app_nil_r in Hrd.
  specialize (Hrd Hf eq_refl). destruct Hf as (pre & post & Hm & Hd & Hi & Hl & Hz & Hmax). rewrite zlen_app in Hl.
  pose proof (zlen_nonneg body). unfold adf_nbuf_pull_head. rewrite (proj2 (Z.ltb_ge _ _)) by lia.
  cbn [sk_mem sk_data sk_len]. split; [lia|]. rewrite <- Hrd. f_equal. lia.
Qed.

Lemma cat_spec `{Expand} dst src ind desc bytes body :
  frame_at dst ind desc bytes -> sk_len src = zlen body -> rd (sk_mem src) (sk_data src) (zlen body) = Some body ->
  zlen desc + zlen bytes + zlen body < 2 ^ 32 ->
  adf_nbuf_cat dst src = Some None \/
  exists d, adf_nbuf_cat dst src = Some (Some d) /\ frame_at d ind desc (bytes ++ body).
Proof.
  intros (pre & post & Hm & Hd & Hi & Hl & Hz & Hmax) Hs Hrd Hsum. unfold adf_nbuf_cat. rewrite Hs, Hrd. cbn [mbind option_bind].
  assert (Hh : rd (sk_mem dst) 0 (sk_data dst + sk_len dst) = Some (pre ++ ind ++ desc ++ bytes)).
  { rewrite Hm. replace (pre ++ ind ++ desc ++ bytes ++ post) with ([] ++ (pre ++ ind ++ desc ++ bytes) ++ post)
      by (simpl; by rewrite <- !app_assoc).
    apply rd_app; [done|]. rewrite Hd, Hl, !zlen_app. lia. }
  rewrite Hh. cbn [mbind option_bind].
  match goal with |- context [mbind _ (if ?c then ?a else ?d)] => set (room := if c then a else d) end.
  destruct room as [r|]; cbn [mbind option_bind]; [right|by left].
  eexists. split; [done|]. exists pre, (drop (length body) r). cbn [sk_mem sk_data sk_len].
  split_and!; [by rewrite <- !app_assoc|done|done|rewrite zlen_app; lia|done|lia].
Qed.

(** ** The MAC header *)

(** The header of the joined frame. *)
Definition clear_frag_hdr (hdr : list Z) : list Z :=
  match znth hdr 1, znth hdr 22 with
  | Some fc1, Some seq => zset (zset hdr 1 (Z.land fc1 0xfb)) 22 (Z.land seq 0xf0)
  | _, _ => hdr
  end.

Lemma zset_split (l : list Z) i v : znth l i = Some v ->
  exists x y, l = x ++ [v] ++ y /\ zlen x = i /\ forall w, zset l i w = x ++ [w] ++ y.
Proof.
  intros [Hi Hv]%znth_Some. exists (take (Z.to_nat i) l), (drop (S (Z.to_nat i)) l).
  pose proof (lookup_lt_Some _ _ _ Hv). split_and!.
  - symmetry. by apply take_drop_middle.
  - unfold zlen. rewrite length_take. lia.
  - intros w. unfold zset. by apply insert_take_drop.
Qed.

(** A byte of the frame is overwritten. *)
Lemma frame_set b ind desc bytes i v w :
  frame_at b ind desc bytes -> znth bytes i = Some v ->
  znth (sk_mem b) (sk_data b + zlen desc + i) = Some v /\
  exists m, wr (sk_mem b) (sk_data b + zlen desc + i) [w] = Some m /\ frame_at (set_sk_mem m b) ind desc (zset bytes i w).
Proof.
  intros Hf Hv. pose proof (znth_lt_Some _ _ _ Hv). split; [by rewrite (frame_byte _ _ _ _ _ Hf)|].
  destruct (zset_split _ _ _ Hv) as (x & y & -> & Hx & Hset). rewrite Hset.
  by apply (frame_wr b ind desc x [v] [w] y i).
Qed.

Lemma clear_frag_fields_spec b ind desc hdr rest :
  frame_at b ind desc (hdr ++ rest) -> 24 <= zlen hdr ->
  exists b', clear_frag_fields b = Some b' /\ frame_at b' ind desc (clear_frag_hdr hdr ++ rest).
Proof.
  intros Hf Hh. pose proof Hf as Hsz. unfold clear_frag_fields. rewrite (frame_size _ _ _ _ Hsz). cbn [mbind option_bind].
  destruct (znth_in_range hdr 1) as [fc1 H1]; [lia|]. destruct (znth_in_range hdr 22) as [seq H2]; [lia|].
  assert (H1' : znth (hdr ++ rest) 1 = Some fc1) by (by rewrite znth_app_l by lia).
  destruct (frame_set _ _ _ _ _ _ (Z.land fc1 0xfb) Hf H1') as (-> & m1 & Hw1 & Hf1). cbn [mbind option_bind].
  change (Z.lxor 0xff IEEE80211_FC1_MORE_FRAG) with 0xfb. rewrite Hw1. cbn [mbind option_bind].
  assert (H2' : znth (zset (hdr ++ rest) 1 (Z.land fc1 0xfb)) 22 = Some seq).
  { rewrite znth_zset_ne by (rewrite ?zlen_app; pose proof (zlen_nonneg rest); lia). by rewrite znth_app_l by lia. }
  destruct (frame_set _ _ _ _ _ _ (Z.land seq 0xf0) Hf1 H2') as (Hr2 & m2 & Hw2 & Hf2).
  cbn [set_sk_mem sk_mem sk_data sk_len] in *. rewrite Hr2. cbn [mbind option_bind].
  change (Z.lxor 0xff IEEE80211_SEQ_FRAG_MASK) with 0xf0. rewrite Hw2. cbn [mbind option_bind].
  eexists. split; [done|]. unfold clear_frag_hdr. rewrite H1, H2. unfold zset in *.
  rewrite insert_app_l in Hf2 by (unfold zlen in *; lia).
  rewrite insert_app_l in Hf2 by (rewrite ?length_insert; unfold zlen in *; lia). done.
Qed.
(** The frame was shortened by [g] at its front; the descriptor follows. *)
Lemma move_desc_spec b m ind desc g bytes n :
  frame_at (set_sk_mem m b) ind desc (g ++ bytes) -> n = zlen desc + zlen g ->
  exists b', move_desc (mk_skb m (sk_data b + n) (sk_len b - n)) (sk_data b) (zlen desc) = Some b' /\
    frame_at b' ind desc bytes.
Proof.
  intros (pre & post & Hm & Hd & Hi & Hl & Hz & Hmax) ->. cbn [set_sk_mem sk_mem sk_data sk_len] in *.
  rewrite zlen_app in Hl. pose proof (zlen_nonneg pre). pose proof (zlen_nonneg g). pose proof (zlen_nonneg desc).
  unfold move_desc, adf_nbuf_push_head. cbn [sk_data sk_len sk_mem]. rewrite (proj2 (Z.ltb_ge _ _)) by lia.
  cbn [mbind option_bind sk_data sk_len sk_mem]. rewrite <- app_assoc in Hm.
  destruct (slide pre ind desc g (bytes ++ post) (sk_data b) Hi Hd) as (m' & g' & Hg' & Hsl & ->).
  unfold HTT_RX_IND_HL_BYTES. replace (sk_data b + (zlen desc + zlen g) - zlen desc) with (sk_data b + zlen g) by lia.
  replace (sk_data b + zlen g - 56) with (sk_data b - 56 + zlen g) by lia.
  rewrite <- Hm in Hsl. destruct (adf_os_mem_move m (sk_data b + zlen g) (sk_data b) (zlen desc)) as [m1|]; [|done].
  cbn [mbind option_bind] in *. rewrite Hsl. cbn [mbind option_bind]. eexists. split; [done|].
  exists (pre ++ g'), post. cbn [set_sk_mem sk_mem sk_data sk_len].
  split_and!; [by rewrite <- !app_assoc|rewrite zlen_app; lia|done|lia|done|lia].
Qed.

Lemma pull_frame b ind desc g bytes :
  frame_at b ind desc (g ++ bytes) ->
  sk_len b <? zlen desc + zlen g = false /\
  adf_nbuf_pull_head b (zlen desc + zlen g) = mk_skb (sk_mem b) (sk_data b + (zlen desc + zlen g)) (sk_len b - (zlen desc + zlen g)).
Proof.
  intros (pre & post & Hm & Hd & Hi & Hl & Hz & Hmax). rewrite zlen_app in Hl. pose proof (zlen_nonneg bytes).
  unfold adf_nbuf_pull_head. by rewrite (proj2 (Z.ltb_ge _ _)) by lia.
Qed.

(** A QoS header loses its QoS (and HT) control and the QoS bit. *)
Lemma qos_decap_spec b ind desc fc0 fc1 hdr q rest n :
  frame_at b ind desc ((fc0 :: fc1 :: hdr) ++ q ++ rest) -> QOS_HAS_SEQ fc0 = true ->
  zlen q = (if negb (Z.land fc1 IEEE80211_FC1_ORDER =? 0) then 6 else 2) ->
  n = 2 + zlen hdr + zlen q -> n < 65536 ->
  exists b', ol_rx_defrag_qos_decap b n = Some b' /\
    frame_at b' ind desc ((Z.land fc0 0x7f :: fc1 :: hdr) ++ rest).
Proof.
  intros Hf Hq Hql -> Hn. unfold ol_rx_defrag_qos_decap. rewrite (frame_size _ _ _ _ Hf). cbn [mbind option_bind].
  pose proof (zlen_nonneg hdr). pose proof (zlen_nonneg q). pose proof (zlen_nonneg rest). pose proof (zlen_nonneg desc).
  pose proof (frame_byte _ _ _ _ 0 Hf) as Hb0. pose proof (frame_byte _ _ _ _ 1 Hf) as Hb1.
  rewrite Z.add_0_r in Hb0. rewrite Hb0, Hb1 by (rewrite !zlen_app, !zlen_cons; lia). clear Hb0 Hb1.
  change (znth ((fc0 :: fc1 :: hdr) ++ q ++ rest) 0) with (Some fc0).
  change (znth ((fc0 :: fc1 :: hdr) ++ q ++ rest) 1) with (Some fc1). cbn [mbind option_bind].
  rewrite Hq. change (2 + 4) with 6. rewrite <- Hql. replace (2 + zlen hdr + zlen q - zlen q) with (2 + zlen hdr) by lia.
  rewrite u16_small by lia.
  pose proof Hf as (pre & post & Hm & Hd & Hi & Hl & Hz & Hmax).
  destruct (move_right (pre ++ ind ++ desc) (fc0 :: fc1 :: hdr) q (rest ++ post)) as (g & Hg & Hmv).
  replace (zlen (pre ++ ind ++ desc)) with (sk_data b + zlen desc) in Hmv by (rewrite !zlen_app; lia).
  replace (zlen (fc0 :: fc1 :: hdr)) with (2 + zlen hdr) in Hmv by (rewrite !zlen_cons; lia).
  replace ((pre ++ ind ++ desc) ++ (fc0 :: fc1 :: hdr) ++ q ++ rest ++ post) with (sk_mem b) in Hmv
    by (rewrite Hm; by rewrite <- !app_assoc).
  rewrite Hmv. cbn [mbind option_bind]. rewrite <- Hg.
  assert (Hf1 : frame_at (set_sk_mem ((pre ++ ind ++ desc) ++ g ++ (fc0 :: fc1 :: hdr) ++ rest ++ post) b) ind desc
                  (g ++ (fc0 :: fc1 :: hdr) ++ rest)).
  { exists pre, post. cbn [set_sk_mem sk_mem sk_data sk_len]. split_and!; try done.
    - by rewrite <- !app_assoc.
    - rewrite Hl, !zlen_app. lia. }
  clear Hmv Hm. set (m1 := (pre ++ ind ++ desc) ++ _) in *.
  destruct (pull_frame _ _ _ _ _ Hf1) as [Hlt Hpull]. cbn [set_sk_mem sk_len] in Hlt. rewrite Hlt, Hpull.
  cbn [set_sk_mem sk_mem sk_data sk_len].
  destruct (frame_set _ _ _ _ (zlen g) fc0 (Z.land fc0 0x7f) Hf1) as (Hr & m2 & Hw & Hf2).
  { rewrite znth_app_r by lia. by rewrite Z.sub_diag. }
  cbn [set_sk_mem sk_mem sk_data sk_len] in *.
  replace (sk_data b + (zlen desc + zlen g)) with (sk_data b + zlen desc + zlen g) by lia.
  rewrite Hr. cbn [mbind option_bind].
  change (Z.lxor 0xff IEEE80211_FC0_SUBTYPE_QOS) with 0x7f. rewrite Hw. cbn [mbind option_bind].
  unfold set_sk_mem at 1. cbn [sk_data sk_len].
  replace (sk_data b + zlen desc + zlen g) with (sk_data b + (zlen desc + zlen g)) by lia.
  apply move_desc_spec with g; [|done].
  replace (g ++ (Z.land fc0 127 :: fc1 :: hdr) ++ rest) with (zset (g ++ (fc0 :: fc1 :: hdr) ++ rest) (zlen g) (Z.land fc0 127)); [done|].
  unfold zset. rewrite insert_app_r_alt by (unfold zlen; lia). replace (Z.to_nat (zlen g) - length g)%nat with 0%nat by (unfold zlen; lia).
  done.
Qed.

(** Destination and source of the frame, by its direction. *)
Definition frame_addrs (fc1 : Z) (a1 a2 a3 : list Z) : list Z * list Z :=
  match Z.land fc1 IEEE80211_FC1_DIR_MASK with 0 => (a1, a2) | 1 => (a3, a2) | _ => (a1, a3) end.

Lemma nwifi_to_8023_spec b ind desc fc0 fc1 dur a1 a2 a3 seq llc ty payload :
  frame_at b ind desc ([fc0; fc1] ++ dur ++ a1 ++ a2 ++ a3 ++ seq ++ llc ++ ty ++ payload) ->
  zlen dur = 2 -> zlen a1 = 6 -> zlen a2 = 6 -> zlen a3 = 6 -> zlen seq = 2 -> zlen llc = 6 -> zlen ty = 2 ->
  Z.land fc1 IEEE80211_FC1_DIR_MASK <> IEEE80211_FC1_DIR_DSTODS ->
  let '(da, sa) := frame_addrs fc1 a1 a2 a3 in
  exists b', ol_rx_defrag_nwifi_to_8023 b = Some b' /\ frame_at b' ind desc (da ++ sa ++ ty ++ payload).
Proof.
  intros Hf Hdur H1 H2 H3 Hseq Hllc Hty Hdir. pose proof (frame_size _ _ _ _ Hf) as Hsz.
  destruct (frame_addrs fc1 a1 a2 a3) as [da sa] eqn:Hadr.
  unfold ol_rx_defrag_nwifi_to_8023. rewrite Hsz. cbn [mbind option_bind].
  assert (Hrd : forall x l y i, [fc0; fc1] ++ dur ++ a1 ++ a2 ++ a3 ++ seq ++ llc ++ ty ++ payload = x ++ l ++ y ->
            zlen x = i -> rd (sk_mem b) (sk_data b + zlen desc + i) (zlen l) = Some l).
  { intros x l y i E <-. apply (frame_rd b ind desc x l y); [by rewrite <- E|done]. }
  rewrite (frame_byte _ _ _ _ 1 Hf) by (rewrite zlen_app; pose proof (zlen_nonneg (dur ++ a1 ++ a2 ++ a3 ++ seq ++ llc ++ ty ++ payload)); change (zlen [fc0; fc1]) with 2; lia).
  change (znth ([fc0; fc1] ++ dur ++ a1 ++ a2 ++ a3 ++ seq ++ llc ++ ty ++ payload) 1) with (Some fc1).
  cbn [mbind option_bind].
  pose proof (Hrd ([fc0; fc1] ++ dur) a1 (a2 ++ a3 ++ seq ++ llc ++ ty ++ payload) 4) as E1. rewrite H1 in E1.
  rewrite E1 by (rewrite ?zlen_app, ?Hdur; try done; by rewrite <- !app_assoc). clear E1. cbn [mbind option_bind].
  pose proof (Hrd ([fc0; fc1] ++ dur ++ a1) a2 (a3 ++ seq ++ llc ++ ty ++ payload) 10) as E2. rewrite H2 in E2.
  rewrite E2 by (rewrite ?zlen_app, ?Hdur, ?H1; try done; by rewrite <- !app_assoc). clear E2. cbn [mbind option_bind].
  pose proof (Hrd ([fc0; fc1] ++ dur ++ a1 ++ a2) a3 (seq ++ llc ++ ty ++ payload) 16) as E3. rewrite H3 in E3.
  rewrite E3 by (rewrite ?zlen_app, ?Hdur, ?H1, ?H2; try done; by rewrite <- !app_assoc). clear E3. cbn [mbind option_bind].
  pose proof (Hrd ([fc0; fc1] ++ dur ++ a1 ++ a2 ++ a3 ++ seq) (llc ++ ty) payload 24) as E4.
  assert (Hlt : zlen (llc ++ ty) = 8) by (rewrite zlen_app; lia). rewrite Hlt in E4.
  rewrite E4 by (rewrite ?zlen_app, ?Hdur, ?H1, ?H2, ?H3, ?Hseq; try done; by rewrite <- !app_assoc). clear E4 Hrd. cbn [mbind option_bind].
  clear Hsz. set (g := [fc0; fc1] ++ dur ++ a1 ++ a2 ++ take 2 a3). set (old := drop 2 a3 ++ seq ++ llc).
  assert (Hg : zlen g = 18).
  { unfold g. rewrite !zlen_app, Hdur, H1, H2. change (zlen [fc0; fc1]) with 2. unfold zlen in *. rewrite length_take. lia. }
  assert (Hold : zlen old = 12).
  { unfold old. rewrite !zlen_app, Hseq, Hllc. unfold zlen in *. rewrite length_drop. lia. }
  replace ([fc0; fc1] ++ dur ++ a1 ++ a2 ++ a3 ++ seq ++ llc ++ ty ++ payload) with (g ++ old ++ ty ++ payload) in Hf.
  2: { unfold g, old. rewrite <- (take_drop 2 a3) at 3. by rewrite <- !app_assoc. }
  replace (zlen desc + 24 + 8 - 14) with (zlen desc + zlen g) by lia.
  destruct (pull_frame _ _ _ _ _ Hf) as [_ ->]. cbn [sk_mem sk_data sk_len].
  replace (sk_data b + (zlen desc + zlen g)) with (sk_data b + zlen desc + zlen g) by lia.
  rewrite drop_app_length' by (unfold zlen in *; lia).
  assert (Hds : zlen da = 6 /\ zlen sa = 6 /\
    forall m (i : Z), (if Z.land fc1 IEEE80211_FC1_DIR_MASK =? 0 then wr m i (a1 ++ a2)
      else if Z.land fc1 IEEE80211_FC1_DIR_MASK =? 1 then wr m i (a3 ++ a2)
      else if Z.land fc1 IEEE80211_FC1_DIR_MASK =? 2 then wr m i (a1 ++ a3) else Some m) = wr m i (da ++ sa)).
  { revert Hadr Hdir. unfold frame_addrs, IEEE80211_FC1_DIR_MASK, IEEE80211_FC1_DIR_DSTODS.
    change 3 with (2 ^ 2 - 1). rewrite land_mask by lia. pose proof (Z.mod_pos_bound fc1 (2 ^ 2)).
    destruct (decide (fc1 mod 2 ^ 2 = 0)) as [->|]; [intros [= <- <-]; done|].
    destruct (decide (fc1 mod 2 ^ 2 = 1)) as [->|]; [intros [= <- <-]; done|].
    intros E Hne. assert (fc1 mod 2 ^ 2 = 2) as E2 by lia. rewrite E2 in *. by injection E as <- <-. }
  destruct Hds as (Hda & Hsa & ->).
  destruct (frame_wr b ind desc g old (da ++ sa) (ty ++ payload) (zlen g) Hf eq_refl) as (m1 & -> & Hf1).
  { rewrite zlen_app. lia. }
  cbn [mbind option_bind].
  pose proof (frame_wr (set_sk_mem m1 b) ind desc (g ++ da ++ sa) ty ty payload (zlen g + 12)) as Hw.
  rewrite <- !app_assoc in Hw. destruct Hw as (m2 & Hw & Hf2); [by rewrite <- !app_assoc in Hf1|rewrite !zlen_app; lia|done|].
  cbn [set_sk_mem sk_mem sk_data] in Hw. replace (sk_data b + zlen desc + zlen g + 12) with (sk_data b + zlen desc + (zlen g + 12)) by lia.
  rewrite Hw. cbn [mbind option_bind]. unfold set_sk_mem at 1. cbn [sk_data sk_len].
  replace (sk_data b + zlen desc + zlen g) with (sk_data b + (zlen desc + zlen g)) by lia.
  by apply move_desc_spec with g.
Qed.

(** ** Michael *)

Lemma frame_copy_bits b ind desc x l n i k :
  frame_at b ind desc (x ++ l) -> i = zlen desc + zlen x -> n = zlen l -> k = Some l ->
  adf_nbuf_copy_bits b i n = k.
Proof.
  intros Hf -> -> ->. pose proof (frame_rd b ind desc x l [] (zlen x)) as Hrd. rewrite app_nil_r in Hrd.
  specialize (Hrd Hf eq_refl). destruct Hf as (pre & post & _ & Hd & _ & Hl & _). rewrite zlen_app in Hl.
  unfold adf_nbuf_copy_bits. rewrite (proj2 (Z.ltb_ge _ _)) by lia. rewrite <- Hrd. f_equal. lia.
Qed.

(** The pseudo header depends on the MAC header only. *)
Lemma rd_in_frame b ind desc hdr y j n l :
  frame_at b ind desc (hdr ++ y) -> rd hdr j n = Some l -> rd (sk_mem b) (sk_data b + zlen desc + j) n = Some l.
Proof.
  intros Hf Hrd. pose proof (rd_zlen _ _ _ _ Hrd) as Hl. apply rd_Some in Hrd as (Hj & Hn & Hmax & E).
  rewrite <- Hl. apply (frame_rd b ind desc (take (Z.to_nat j) hdr) l (drop (Z.to_nat n) (drop (Z.to_nat j) hdr) ++ y)).
  - rewrite E. rewrite !(app_assoc (take _ (drop _ _))), take_drop, app_assoc, take_drop. done.
  - unfold zlen in *. rewrite length_take. lia.
Qed.

Lemma michdr_at b ind desc hdr y p :
  frame_at b ind desc (hdr ++ y) -> ol_rx_defrag_michdr hdr 0 = Some p ->
  ol_rx_defrag_michdr (sk_mem b) (sk_data b + zlen desc) = Some p.
Proof.
  intros Hf. unfold ol_rx_defrag_michdr.
  assert (Hb : forall i v, znth hdr i = Some v -> znth (sk_mem b) (sk_data b + zlen desc + i) = Some v).
  { intros i v Hv. pose proof (znth_lt_Some _ _ _ Hv). pose proof (zlen_nonneg y).
    rewrite (frame_byte _ _ _ _ _ Hf) by (rewrite zlen_app; lia). by rewrite znth_app_l by lia. }
  intros (fc0 & H0 & (fc1 & H1 & (da & Hd & (sa & Hs & (tid & Ht & [= <-])%bind_Some)%bind_Some)%bind_Some)%bind_Some)%bind_Some.
  rewrite Z.add_0_l in Hd, Hs. apply Hb in H0. rewrite Z.add_0_r in H0. rewrite H0. cbn [mbind option_bind].
  rewrite (Hb 1 fc1) by done. cbn [mbind option_bind].
  rewrite (rd_in_frame _ _ _ _ _ _ _ _ Hf Hd). cbn [mbind option_bind].
  rewrite (rd_in_frame _ _ _ _ _ _ _ _ Hf Hs). cbn [mbind option_bind].
  destruct (negb _); [|by injection Ht as <-].
  apply bind_Some in Ht as (q & Hq & [= <-]). by rewrite (Hb 24 q).
Qed.

(** The frame is accepted exactly when it ends with the Michael of the rest. *)
Lemma tkip_demic_spec key b ind desc hdr body mic pseudo :
  frame_at b ind desc (hdr ++ body ++ mic) -> length key = 8%nat -> zlen mic = 8 ->
  ol_rx_defrag_michdr hdr 0 = Some pseudo -> zlen body < 65536 -> zlen hdr < 65536 ->
  zlen desc + zlen hdr + zlen body + zlen mic < 2 ^ 31 ->
  exists b', ol_rx_frag_tkip_demic key b (zlen hdr) =
      Some (if decide (michael key pseudo body = Some mic) then Some b' else None) /\
    frame_at b' ind desc (hdr ++ body).
Proof.
  intros Hf Hkey Hmic Hpseudo Hbody Hhdr Hmax. pose proof (frame_size _ _ _ _ Hf) as Hsz.
  pose proof (zlen_nonneg hdr). pose proof (zlen_nonneg body). pose proof (zlen_nonneg desc).
  exists (adf_nbuf_trim_tail b 8). split; [|apply frame_trim with mic; [by rewrite <- app_assoc|done]].
  unfold ol_rx_frag_tkip_demic. rewrite Hsz. cbn [mbind option_bind]. change (ic_miclen f_tkip) with 8.
  assert (Hlen : sk_len b = zlen desc + (zlen hdr + zlen body + 8)).
  { destruct Hf as (pre & post & _ & _ & _ & -> & _). rewrite !zlen_app. lia. }
  rewrite Hlen. replace (zlen desc + (zlen hdr + zlen body + 8) - zlen desc) with (zlen hdr + zlen body + 8) by lia.
  rewrite u32_small by lia. replace (zlen hdr + zlen body + 8 - (zlen hdr + 8)) with (zlen body) by lia.
  rewrite u16_small by lia.
  rewrite (ol_rx_defrag_mic_spec key b [] (zlen hdr) (zlen body) pseudo (zlen desc) (hdr ++ body ++ mic) []);
    try done; try lia.
  - cbn [mbind option_bind concat]. rewrite app_nil_r, !to_nat_zlen, drop_app_length, take_app_length.
    assert (Hm : is_Some (michael key pseudo body)).
    { unfold michael. destruct (get_le32_8 key Hkey) as (k0 & k1 & _ & _ & ->). eauto. }
    destruct Hm as [mic1 ->].
    rewrite (frame_copy_bits b ind desc (hdr ++ body) mic _ _ (Some mic)); [| |rewrite zlen_app, s32_small; lia|done|done].
    + cbn [mbind option_bind]. do 2 f_equal. destruct (decide (Some mic1 = Some mic)) as [[= ->]|Hne].
      * by rewrite bool_decide_eq_true_2.
      * rewrite bool_decide_eq_false_2 by congruence. done.
    + by rewrite <- app_assoc.
  - by eapply frame_payload.
  - by apply michdr_at with ind hdr (body ++ mic).
  - rewrite !zlen_app. pose proof (zlen_nonneg mic). lia.
  - cbn [concat]. rewrite app_nil_r, to_nat_zlen, drop_app_length, zlen_app. lia.
  - by left.
Qed.
End Frames.
