(* ===== verification/RxDefragSteps.v ===== *)
(** The loops of [ol_rx_defrag] over a fragment list: the packet number check,
    the removal of the ciphers' headers and the joining, on a list of buffers
    whose frames are given by their parts. *)
From Stdlib Require Import ZArith Lia.
From stdpp Require Import prelude gmap list numbers.
From S2P Require Import Prelude.
From S2P Require Import RxTypes.
From S2P Require Import RxList.
From S2P Require Import RxPn.
From S2P Require Import RxPnSpec.
From S2P Require Import RxStage.
From S2P Require Import RxNbuf.
From S2P Require Import RxMichael.
From S2P Require Import RxDecap.
From S2P Require Import RxDefragProc.
From S2P Require Import RxDecapSpec.

(** A fragment as it arrives: its buffer, the decoded descriptor, the message
    and the descriptor in front of the frame, the MAC header, the cipher's
    header, the payload, the cipher's trailer and the FCS. *)
Record frag := mk_frag {
  fg_id : Z; fg_d : rx_desc;
  fg_ind : list Z; fg_desc : list Z;
  fg_hdr : list Z; fg_iv : list Z; fg_body : list Z; fg_tr : list Z; fg_fcs : list Z }.

Notation frag_ids l := (fg_id <$> l).

(** The bytes of the frame as the fragment goes through the stages. *)
Definition received (f : frag) : list Z := (fg_hdr f ++ fg_iv f ++ fg_body f ++ fg_tr f) ++ fg_fcs f.
Definition without_fcs (f : frag) : list Z := fg_hdr f ++ fg_iv f ++ fg_body f ++ fg_tr f.
Definition decapped (f : frag) : list Z := fg_hdr f ++ fg_body f.

(** The buffer of [f] is allocated and holds the frame [bytes]. *)
Definition frag_in (s : defrag_pdev) (f : frag) (bytes : list Z) : Prop :=
  htt_rx_msdu_desc_retrieve (rx_heap (dp_rx s)) (fg_id f) = Some (fg_d f) /\
  exists b, dp_skbs s !! fg_id f = Some b /\ frame_at b (fg_ind f) (fg_desc f) bytes.

Definition frags_in (s : defrag_pdev) (bytes : frag -> list Z) (l : list frag) : Prop :=
  Forall (fun f => frag_in s f (bytes f)) l.

(** The list of fragments: linked in order, all different. *)
Definition frag_list (s : defrag_pdev) (l : list frag) : Prop :=
  seg (rx_heap (dp_rx s)) (frag_ids l) None /\ NoDup (frag_ids l).

(** ** Primitive steps *)
Section Steps.
Implicit Types s : defrag_pdev.

Lemma nbuf_next_run s a v : adf_nbuf_next (rx_heap (dp_rx s)) a = Some v -> nbuf_next a s = Some (v, s).
Proof. intros H. unfold nbuf_next, mbind, M_bind, get, lift. by rewrite H. Qed.

Lemma nbuf_set_next_run s a v h :
  adf_nbuf_set_next (rx_heap (dp_rx s)) a v = Some h ->
  nbuf_set_next a v s = Some (tt, set_dp_rx (set_rx_heap (fun _ => h)) s).
Proof. intros H. unfold nbuf_set_next, on_rx, mbind, M_bind, get, lift. by rewrite H. Qed.

Lemma on_rx_run {A} (m : M rx_pdev A) s a r :
  m (dp_rx s) = Some (a, r) -> on_rx m s = Some (a, set_dp_rx (fun _ => r) s).
Proof. intros H. unfold on_rx. by rewrite H. Qed.

Lemma get_skb_run s f bytes b :
  frag_in s f bytes -> dp_skbs s !! fg_id f = Some b -> get_skb (fg_id f) s = Some (b, s).
Proof.
  intros [Hd _] Hb. unfold get_skb, mbind, M_bind, get, lift. unfold htt_rx_msdu_desc_retrieve in Hd.
  destruct (rx_heap (dp_rx s) !! fg_id f); [|done]. by rewrite Hb.
Qed.

(** A heap that keeps the descriptor, and bytes that are the same. *)
Lemma frag_in_frame s s' f bytes :
  htt_rx_msdu_desc_retrieve (rx_heap (dp_rx s')) (fg_id f) = htt_rx_msdu_desc_retrieve (rx_heap (dp_rx s)) (fg_id f) ->
  dp_skbs s' !! fg_id f = dp_skbs s !! fg_id f -> frag_in s f bytes -> frag_in s' f bytes.
Proof. intros Hd Hb [H1 H2]. split; [by rewrite Hd|by rewrite Hb]. Qed.

Lemma set_next_seg h a v : is_Some (h !! a) ->
  exists h', adf_nbuf_set_next h a v = Some h' /\ seg h' [a] v /\ relinked h h' [a].
Proof.
  intros [n Hn]. unfold adf_nbuf_set_next. rewrite Hn. eexists. split; [done|]. split.
  - split; [|done]. unfold adf_nbuf_next. by rewrite lookup_insert_eq.
  - eapply set_next_relinked; [|apply list_elem_of_singleton; done]. unfold adf_nbuf_set_next. by rewrite Hn.
Qed.

Lemma relinked_desc h h' l i :
  relinked h h' l -> htt_rx_msdu_desc_retrieve h' i = htt_rx_msdu_desc_retrieve h i.
Proof. intros H. apply H. Qed.

(** [on_skb] with a function that succeeds. *)
Lemma on_skb_ok s f bytes bytes' g :
  frag_in s f bytes ->
  (forall b, frame_at b (fg_ind f) (fg_desc f) bytes ->
     exists b', g b = Some (Some b') /\ frame_at b' (fg_ind f) (fg_desc f) bytes') ->
  exists b', on_skb (fg_id f) g s = Some (true, set_dp_skbs (<[fg_id f := b']>) s) /\
    frag_in (set_dp_skbs (<[fg_id f := b']>) s) f bytes'.
Proof.
  intros Hf Hg. pose proof Hf as [Hd (b & Hb & Hfr)]. destruct (Hg b Hfr) as (b' & Hgb & Hfr').
  exists b'. split.
  - unfold on_skb. unfold mbind at 1, M_bind at 1. rewrite (get_skb_run _ _ _ _ Hf Hb).
    unfold mbind, M_bind, lift. by rewrite Hgb.
  - split; [done|]. exists b'. split; [apply lookup_insert_eq|done].
Qed.

Lemma frags_in_frame s s' bytes l :
  (forall i, i ∈ frag_ids l -> htt_rx_msdu_desc_retrieve (rx_heap (dp_rx s')) i = htt_rx_msdu_desc_retrieve (rx_heap (dp_rx s)) i /\
    dp_skbs s' !! i = dp_skbs s !! i) ->
  frags_in s bytes l -> frags_in s' bytes l.
Proof.
  unfold frags_in. rewrite !list.Forall_forall. intros Hsame Hl f Hf.
  destruct (Hsame (fg_id f)) as [Hd Hb]; [by apply list_elem_of_fmap_2|]. eapply frag_in_frame; eauto.
Qed.
End Steps.

(** ** The packet number check *)
Section PnLoop.
Context `{StackJunk}.

(** Whether every fragment of the list passes, one after the other, and the
    peer afterwards. *)
Fixpoint pn_pass (x : rx_peer) (tid : Z) (l : list frag) : rx_peer * bool :=
  match l with
  | [] => (x, true)
  | f :: r =>
    let '(k, g, v, q) := pn_decision x tid [(fg_d f, [fg_id f])] in
    let x := with_last_pn tid v q x in
    if bool_decide (g = []) then pn_pass x tid r else (x, false)
  end.

Lemma pn_decision_single x tid m :
  let r := pn_decision x tid [m] in
  (kept_of r = [m] /\ dropped_of r = []) \/ (kept_of r = [] /\ dropped_of r = [m]).
Proof.
  intros r. destruct r as [[[k g] v] q] eqn:E. pose proof (pn_decision_perm _ _ _ _ _ _ _ E) as Hp.
  unfold kept_of, dropped_of. cbn [fst snd]. apply Permutation_sym, Permutation_length_1_inv in Hp.
  destruct k as [|a k]; [right; simpl in Hp; by subst|left]. simpl in Hp. injection Hp as -> Hp.
  by apply app_eq_nil in Hp as [-> ->].
Qed.

(** What stays the same on the device during the loops. *)
Definition same_rx (s s' : rx_pdev) : Prop :=
  rx_delivered s' = rx_delivered s /\ rx_peer_id_map s' = rx_peer_id_map s /\ rx_waitlist s' = rx_waitlist s.

Lemma same_rx_trans s1 s2 s3 : same_rx s1 s2 -> same_rx s2 s3 -> same_rx s1 s3.
Proof. intros (?&?&?) (?&?&?). split_and!; congruence. Qed.

(** The check of one buffer that is linked to nothing. *)
Lemma pn_check_one s p tid x f :
  rx_peers s !! p = Some x -> tids_sized x -> 0 <= tid < OL_TXRX_NUM_EXT_TIDS ->
  seg (rx_heap s) [fg_id f] None -> htt_rx_msdu_desc_retrieve (rx_heap s) (fg_id f) = Some (fg_d f) ->
  rd_completes_mpdu (fg_d f) = true ->
  let '(k, g, v, q) := pn_decision x tid [(fg_d f, [fg_id f])] in
  exists s', ol_rx_pn_check_base p tid (Some (fg_id f)) s = Some (if decide (g = []) then Some (fg_id f) else None, s') /\
    rx_peers s' !! p = Some (with_last_pn tid v q x) /\ tids_sized (with_last_pn tid v q x) /\ same_rx s s' /\
    rx_freed s' = rx_freed s ++ (if decide (g = []) then [] else [fg_id f]) /\
    (forall i, i <> fg_id f -> rx_heap s' !! i = rx_heap s !! i) /\
    (g = [] -> htt_rx_msdu_desc_retrieve (rx_heap s') (fg_id f) = Some (fg_d f) /\ seg (rx_heap s') [fg_id f] None).
Proof.
  intros Hp Hx Ht Hs Hd Hc.
  assert (Hl : list_of (rx_heap s) [(fg_d f, [fg_id f])]).
  { split; [done|]. split; [|apply NoDup_singleton]. constructor; [|constructor]. split; [by eexists|].
    intros i Hi%list_elem_of_singleton. subst i. exists (fg_d f). by rewrite Hc. }
  destruct (ol_rx_pn_check_base_spec s p tid x [(fg_d f, [fg_id f])]) as (h' & Hrun & Hl' & Hfil); try done.
  pose proof (pn_decision_single x tid (fg_d f, [fg_id f])) as Hone. cbv zeta in Hone, Hrun, Hl', Hfil.
  unfold after_check in Hrun. destruct (pn_decision x tid [(fg_d f, [fg_id f])]) as [[[k g] v] q].
  unfold kept_of, dropped_of in *. cbn [fst snd] in *.
  assert (Hsz : tids_sized (with_last_pn tid v q x)).
  { destruct Hx as (H1 & H2 & H3 & H4 & H5 & H6). unfold tids_sized, with_last_pn. simpl. by rewrite !zlen_zset. }
  destruct Hfil as (Hgone & Hdesc & Hout).
  destruct Hone as [[-> ->]|[-> ->]]; cbn in Hrun; eexists; (split; [exact Hrun|]); cbn; rewrite lookup_insert_eq;
    (split; [done|]); (split; [done|]); (split; [done|]); cbn in *.
  - split; [done|]. split; [intros i Hi; apply Hout; set_solver|]. intros _. split; [by rewrite Hdesc by set_solver|].
    by destruct Hl' as [? _].
  - split; [done|]. split; [intros i Hi; apply Hout; set_solver|]. done.
Qed.

Definition same_dp (s s' : defrag_pdev) : Prop :=
  same_rx (dp_rx s) (dp_rx s') /\ dp_michael_key s' = dp_michael_key s /\ dp_safemode s' = dp_safemode s /\
  dp_frm_802_3 s' = dp_frm_802_3 s.
Lemma same_dp_refl s : same_dp s s.
Proof. by repeat split. Qed.
Lemma same_dp_trans s1 s2 s3 : same_dp s1 s2 -> same_dp s2 s3 -> same_dp s1 s3.
Proof. intros [Ha Hb] [Hc Hd]. split; [by eapply same_rx_trans|]. naive_solver congruence. Qed.

(** Every buffer of the list was freed. *)
Definition all_freed (s s' : defrag_pdev) (l : list frag) : Prop :=
  exists k, rx_freed (dp_rx s') = rx_freed (dp_rx s) ++ k /\ k ≡ₚ frag_ids l.

Lemma rx_frames_free_at s l r :
  dp_rx s = r -> seg (rx_heap r) l None -> NoDup l ->
  exists s', on_rx (rx_frames_free (hd_or None l)) s = Some (tt, s') /\ rx_freed (dp_rx s') = rx_freed r ++ l /\
    (forall i, i ∉ l -> rx_heap (dp_rx s') !! i = rx_heap r !! i) /\ rx_peers (dp_rx s') = rx_peers r /\ same_dp s s' /\
    dp_skbs s' = dp_skbs s.
Proof.
  intros <- Hs Hnd. eexists. split; [apply on_rx_run; by apply rx_frames_free_spec|]. cbn.
  split; [done|]. split; [|done]. intros i Hi. clear Hs Hnd. induction l as [|a l IH]; [done|]. cbn.
  rewrite lookup_delete_ne by set_solver. apply IH. set_solver.
Qed.

(** A fragment fails: it was freed, its predecessors and successors follow. *)
Lemma pn_loop_fail s s0 pre f r :
  NoDup (frag_ids (pre ++ f :: r)) -> seg (rx_heap (dp_rx s)) (frag_ids pre) (Some (fg_id f)) ->
  seg (rx_heap (dp_rx s)) (frag_ids r) None -> same_dp s0 s -> rx_freed (dp_rx s) = rx_freed (dp_rx s0) ++ [fg_id f] ->
  exists s', (match list.last (frag_ids pre) with
              | Some pv => nbuf_set_next pv None;; on_rx (rx_frames_free (hd_or None (frag_ids (pre ++ f :: r))))
              | None => skip
              end;; on_rx (rx_frames_free (hd_or None (frag_ids r)));; mret false) s = Some (false, s') /\
    rx_peers (dp_rx s') = rx_peers (dp_rx s) /\ same_dp s0 s' /\ all_freed s0 s' (pre ++ f :: r).
Proof.
  intros Hnd Hpre Hr Hsame Hfreed. rewrite fmap_app, fmap_cons in Hnd. apply list.NoDup_app in Hnd as (Hndp & Hdis & Hndr).
  apply list.NoDup_cons in Hndr as [Hfr Hndr].
  assert (Hrest : exists s1, (match list.last (frag_ids pre) with
              | Some pv => nbuf_set_next pv None;; on_rx (rx_frames_free (hd_or None (frag_ids (pre ++ f :: r))))
              | None => skip
              end) s = Some (tt, s1) /\ rx_freed (dp_rx s1) = rx_freed (dp_rx s) ++ frag_ids pre /\
              seg (rx_heap (dp_rx s1)) (frag_ids r) None /\ rx_peers (dp_rx s1) = rx_peers (dp_rx s) /\ same_dp s s1).
  { destruct pre as [|g pre _] using rev_ind.
    { exists s. cbn. rewrite app_nil_r. by repeat split. }
    rewrite fmap_app in *. cbn [fmap list_fmap] in *. rewrite last_snoc.
    apply seg_app in Hpre as [Hpre Hg].
    destruct (set_next_seg (rx_heap (dp_rx s)) (fg_id g) None) as (h' & Hset & Hgs & Hrel).
    { apply (seg_alloc _ _ _ _ Hg). set_solver. }
    unfold mbind, M_bind. rewrite (nbuf_set_next_run _ _ _ _ Hset).
    assert (Hseg : seg h' (frag_ids pre ++ [fg_id g]) None).
    { apply seg_app. split; [|done]. eapply seg_relinked; [exact Hrel| |exact Hpre].
      apply list.NoDup_app in Hndp as (_ & Hd & _). set_solver. }
    replace (hd_or None (frag_ids ((pre ++ [g]) ++ f :: r))) with (hd_or None (frag_ids pre ++ [fg_id g]))
      by (by destruct pre).
    destruct (rx_frames_free_at (set_dp_rx (set_rx_heap (fun _ => h')) s) (frag_ids pre ++ [fg_id g]) _ eq_refl Hseg Hndp)
      as (s1 & -> & Hf1 & Hh1 & Hp1 & Hs1 & _).
    exists s1. split; [done|]. split; [done|]. split; [|done].
    assert (Hout : forall i, i ∈ frag_ids r -> i ∉ frag_ids pre ++ [fg_id g]).
    { intros i Hi Hi'. apply (Hdis i Hi'). by apply elem_of_cons; right. }
    eapply seg_frame; [|exact Hr]. intros i Hi. rewrite Hh1 by auto. cbn. apply Hrel.
    intros Hi'. apply (Hout i Hi). apply elem_of_app. by right. }
  destruct Hrest as (s1 & Hrun1 & Hf1 & Hr1 & Hp1 & Hs1).
  destruct (rx_frames_free_at s1 (frag_ids r) _ eq_refl Hr1 Hndr) as (s2 & Hrun2 & Hf2 & _ & Hp2 & Hs2 & _).
  exists s2. split.
  { unfold mbind, M_bind in *. rewrite Hrun1, Hrun2. done. }
  split; [congruence|]. split; [eapply same_dp_trans; [done|by eapply same_dp_trans]|].
  exists (fg_id f :: frag_ids pre ++ frag_ids r). split.
  - rewrite Hf2, Hf1, Hfreed, <- !app_assoc. done.
  - rewrite fmap_app, fmap_cons. by rewrite Permutation_middle.
Qed.

Lemma frag_list_cons s pre f r :
  frag_list s (pre ++ f :: r) ->
  seg (rx_heap (dp_rx s)) (frag_ids pre) (Some (fg_id f)) /\
  adf_nbuf_next (rx_heap (dp_rx s)) (fg_id f) = Some (hd_or None (frag_ids r)) /\
  seg (rx_heap (dp_rx s)) (frag_ids r) None /\ fg_id f ∉ frag_ids pre /\ fg_id f ∉ frag_ids r /\
  (forall i, i ∈ frag_ids pre -> i ∉ frag_ids r).
Proof.
  intros [Hs Hnd]. rewrite fmap_app, fmap_cons in *. apply seg_app in Hs as [Hp Hs]. destruct Hs as [Hn Hs].
  apply list.NoDup_app in Hnd as (Hnp & Hd & Hnr). apply list.NoDup_cons in Hnr as [Hfr Hnr].
  split_and!; try done.
  - intros Hf. apply (Hd _ Hf). by apply elem_of_cons; left.
  - intros i Hi Hi'. apply (Hd _ Hi). by apply elem_of_cons; right.
Qed.

(** Relinking [f] as it was puts the list together again. *)
Lemma relink_list s s1 pre f r :
  frag_list s (pre ++ f :: r) -> (forall i, i <> fg_id f -> rx_heap (dp_rx s1) !! i = rx_heap (dp_rx s) !! i) ->
  is_Some (rx_heap (dp_rx s1) !! fg_id f) ->
  exists h, adf_nbuf_set_next (rx_heap (dp_rx s1)) (fg_id f) (hd_or None (frag_ids r)) = Some h /\
    relinked (rx_heap (dp_rx s1)) h [fg_id f] /\
    forall s2, rx_heap (dp_rx s2) = h -> frag_list s2 (pre ++ f :: r).
Proof.
  intros Hl Hout Hal. destruct (frag_list_cons _ _ _ _ Hl) as (Hp & Hn & Hr & Hfp & Hfr & Hd). destruct Hl as [_ Hnd].
  destruct (set_next_seg _ (fg_id f) (hd_or None (frag_ids r)) Hal) as (h & Hset & Hseg & Hrel).
  exists h. split; [done|]. split; [done|]. intros s2 Hs2. split; [rewrite Hs2|done]. rewrite fmap_app, fmap_cons.
  assert (Hh : forall i, i <> fg_id f -> h !! i = rx_heap (dp_rx s) !! i).
  { intros i Hi. rewrite <- Hout by done. apply Hrel. by rewrite list_elem_of_singleton. }
  apply seg_app. split; [|split; [apply Hseg|]].
  - eapply seg_frame; [|exact Hp]. intros i Hi. apply Hh. by intros ->.
  - eapply seg_frame; [|exact Hr]. intros i Hi. apply Hh. by intros ->.
Qed.

Lemma defrag_pn_loop_spec p tid todo : forall pre n s x,
  rx_peers (dp_rx s) !! p = Some x -> tids_sized x -> 0 <= tid < OL_TXRX_NUM_EXT_TIDS ->
  frag_list s (pre ++ todo) -> frags_in s without_fcs pre -> frags_in s received todo ->
  Forall (fun f => rd_completes_mpdu (fg_d f) = true /\ zlen (fg_fcs f) = 4) todo -> (length todo <= n)%nat ->
  let '(x', ok) := pn_pass x tid todo in
  exists s', defrag_pn_loop n p tid (hd_or None (frag_ids (pre ++ todo))) (list.last (frag_ids pre))
               (hd_or None (frag_ids todo)) s = Some (ok, s') /\
    rx_peers (dp_rx s') !! p = Some x' /\ tids_sized x' /\ same_dp s s' /\
    if ok then rx_freed (dp_rx s') = rx_freed (dp_rx s) /\ frag_list s' (pre ++ todo) /\ frags_in s' without_fcs (pre ++ todo)
    else all_freed s s' (pre ++ todo).
Proof.
  induction todo as [|f r IH]; intros pre n s x Hp Hx Ht Hl Hpre Htodo Hok Hn.
  { exists s. cbn [pn_pass]. rewrite app_nil_r in *. split; [by destruct n|].
    split; [done|]. split; [done|]. split; [by apply same_dp_refl|]. split; [done|]. by split. }
  destruct n as [|n]; [simpl in Hn; lia|].
  apply list.Forall_cons in Htodo as [Hf Hr]. apply list.Forall_cons in Hok as [[Hc Hfcs] Hok].
  destruct (frag_list_cons _ _ _ _ Hl) as (Hsp & Hnx & Hsr & Hfp & Hfr & Hdis).
  pose proof Hf as [Hd _]. assert (Hal : is_Some (rx_heap (dp_rx s) !! fg_id f)).
  { unfold htt_rx_msdu_desc_retrieve in Hd. by destruct (rx_heap (dp_rx s) !! fg_id f). }
  destruct (set_next_seg _ (fg_id f) None Hal) as (h1 & Hset1 & Hseg1 & Hrel1).
  set (s1 := set_dp_rx (set_rx_heap (fun _ => h1)) s).
  assert (Hd1 : htt_rx_msdu_desc_retrieve (rx_heap (dp_rx s1)) (fg_id f) = Some (fg_d f)).
  { unfold s1. cbn. by rewrite (relinked_desc _ _ _ _ Hrel1). }
  pose proof (pn_check_one (dp_rx s1) p tid x f Hp Hx Ht Hseg1 Hd1 Hc) as Hone.
  cbn [pn_pass]. destruct (pn_decision x tid [(fg_d f, [fg_id f])]) as [[[k g] v] q].
  destruct Hone as (r2 & Hrun & Hp2 & Hx2 & Hsame2 & Hfr2 & Hout2 & Hkept).
  assert (Hh2 : forall i, i <> fg_id f -> rx_heap r2 !! i = rx_heap (dp_rx s) !! i).
  { intros i Hi. rewrite Hout2 by done. apply Hrel1. by rewrite list_elem_of_singleton. }
  assert (Hstep : forall k : option Z -> option Z -> M defrag_pdev bool, (tmp_next ← nbuf_next (fg_id f); nbuf_set_next (fg_id f) None;;
            a ← on_rx (ol_rx_pn_check_base p tid (Some (fg_id f))); k tmp_next a) s =
          k (hd_or None (frag_ids r)) (if decide (g = []) then Some (fg_id f) else None) (set_dp_rx (fun _ => r2) s1)).
  { intros k'. unfold mbind, M_bind. rewrite (nbuf_next_run _ _ _ Hnx), (nbuf_set_next_run _ _ _ _ Hset1).
    fold s1. by rewrite (on_rx_run _ _ _ _ Hrun). }
  cbn [defrag_pn_loop hd_or fmap list_fmap]. rewrite Hstep. clear Hstep.
  set (s2 := set_dp_rx (fun _ => r2) s1) in *.
  assert (Hsame02 : same_dp s s2) by (split; [exact Hsame2|done]).
  destruct (decide (g = [])) as [Hg|Hg].
  2: { rewrite bool_decide_eq_false_2 by done.
    destruct (pn_loop_fail s2 s pre f r) as (s' & Hrun' & Hp' & Hs' & Hall).
    - apply Hl.
    - eapply seg_frame; [|exact Hsp]. intros i Hi. apply Hh2. by intros ->.
    - eapply seg_frame; [|exact Hsr]. intros i Hi. apply Hh2. by intros ->.
    - done.
    - exact Hfr2.
    - exists s'. split; [exact Hrun'|]. split; [by rewrite Hp'|]. by split. }
  rewrite bool_decide_eq_true_2 by done. destruct (Hkept Hg) as [Hd2 Hseg2].
  pose proof Hf as [_ (b & Hb & Hfb)].
  assert (Hf2 : frag_in s2 f (received f)) by (split; [done|by exists b]).
  set (s3 := set_dp_skbs (<[fg_id f := adf_nbuf_trim_tail b DEFRAG_IEEE80211_FCS_LEN]>) s2).
  assert (Hal2 : is_Some (rx_heap (dp_rx s3) !! fg_id f)).
  { unfold htt_rx_msdu_desc_retrieve in Hd2. unfold s3. cbn. by destruct (rx_heap r2 !! fg_id f). }
  destruct (relink_list s s3 pre f r Hl Hh2 Hal2) as (h & Hset & Hrel & Hlist).
  set (s4 := set_dp_rx (set_rx_heap (fun _ => h)) s3).
  assert (Hdesc4 : forall i, i <> fg_id f -> htt_rx_msdu_desc_retrieve (rx_heap (dp_rx s4)) i = htt_rx_msdu_desc_retrieve (rx_heap (dp_rx s)) i).
  { intros i Hi. unfold s4. cbn. rewrite (relinked_desc _ _ _ _ Hrel). unfold htt_rx_msdu_desc_retrieve. cbn. by rewrite Hh2. }
  assert (Hother : forall bytes l, fg_id f ∉ frag_ids l -> frags_in s bytes l -> frags_in s4 bytes l).
  { intros bytes l Hfl. apply frags_in_frame. intros i Hi. assert (i <> fg_id f) by (by intros ->).
    split; [by apply Hdesc4|]. unfold s4, s3. cbn. by rewrite lookup_insert_ne. }
  specialize (IH (pre ++ [f]) n s4 (with_last_pn tid v q x)).
  destruct (pn_pass (with_last_pn tid v q x) tid r) as [x' ok].
  destruct IH as (s' & Hrun' & Hp' & Hx' & Hs' & Hres).
  - exact Hp2.
  - done.
  - done.
  - rewrite <- app_assoc. by apply Hlist.
  - apply list.Forall_app. split; [by apply Hother|]. apply list.Forall_singleton. split.
    + unfold s4. cbn. by rewrite (relinked_desc _ _ _ _ Hrel).
    + eexists. split; [unfold s4, s3; cbn; apply lookup_insert_eq|]. by apply frame_trim with (fg_fcs f).
  - by apply Hother.
  - done.
  - simpl in Hn. lia.
  - rewrite <- app_assoc in *. replace (list.last (frag_ids (pre ++ [f]))) with (Some (fg_id f)) in Hrun' by (rewrite fmap_app; cbn [fmap list_fmap]; by rewrite last_snoc). exists s'. split.
    + unfold mbind, M_bind in *. rewrite (get_skb_run _ _ _ _ Hf2 Hb). unfold put_skb, modify. fold s3.
      rewrite (nbuf_set_next_run _ _ _ _ Hset). fold s4. exact Hrun'.
    + split; [done|]. split; [done|]. rewrite app_nil_r in Hfr2.
      assert (Hfr4 : rx_freed (dp_rx s4) = rx_freed (dp_rx s)) by exact Hfr2.
      split; [|by destruct ok; unfold all_freed in *; rewrite Hfr4 in Hres].
      eapply same_dp_trans; [exact Hsame02|]. eapply same_dp_trans; [|exact Hs']. by repeat split.
Qed.
End PnLoop.

(** ** The ciphers *)

(** The lengths of what each cipher adds in front of and behind the payload. *)
Definition iv_len (sec : sec_type) : Z :=
  match sec with
  | htt_sec_type_tkip | htt_sec_type_tkip_nomic | htt_sec_type_aes_ccmp => 8
  | htt_sec_type_wep40 | htt_sec_type_wep104 | htt_sec_type_wep128 => 4
  | _ => 0
  end.
Definition trailer_len (sec : sec_type) : Z :=
  match sec with
  | htt_sec_type_aes_ccmp => 8
  | htt_sec_type_tkip | htt_sec_type_tkip_nomic | htt_sec_type_wep40 | htt_sec_type_wep104 | htt_sec_type_wep128 => 4
  | _ => 0
  end.

(** The fragment has the shape the cipher of the key gives it. *)
Definition frag_shape (sec : sec_type) (hdr_space : Z) (f : frag) : Prop :=
  zlen (fg_hdr f) = hdr_space /\ zlen (fg_iv f) = iv_len sec /\ zlen (fg_tr f) = trailer_len sec.

(** Whether the cipher's header is accepted: TKIP and CCMP want an extended IV. *)
Definition iv_accepted (sec : sec_type) (f : frag) : bool :=
  match sec with
  | htt_sec_type_tkip | htt_sec_type_tkip_nomic | htt_sec_type_aes_ccmp =>
    match znth (fg_iv f) 3 with Some x => negb (Z.land x IEEE80211_WEP_EXTIV =? 0) | None => false end
  | _ => true
  end.

Section Decap.
Implicit Types s : defrag_pdev.

Definition skbs_only s s' : Prop := exists bs, s' = set_dp_skbs (fun _ => bs) s.

Lemma skbs_only_trans s1 s2 s3 : skbs_only s1 s2 -> skbs_only s2 s3 -> skbs_only s1 s3.
Proof. intros [b1 ->] [b2 ->]. by exists b2. Qed.
Lemma skbs_only_put s a b : skbs_only s (set_dp_skbs (<[a := b]>) s).
Proof. by exists (<[a := b]> (dp_skbs s)). Qed.

(** A function on one buffer that the loops call: it strips the fragment when
    [ok], and otherwise changes nothing. *)
Definition strips (ok : frag -> bool) (f : frag) (g : Z -> M defrag_pdev bool) : Prop :=
  forall s, frag_in s f (without_fcs f) ->
  if ok f then exists s', g (fg_id f) s = Some (true, s') /\ skbs_only s s' /\ frag_in s' f (decapped f) /\
                 forall i, i <> fg_id f -> dp_skbs s' !! i = dp_skbs s !! i
  else g (fg_id f) s = Some (false, s).

Lemma decap_loop_spec ok g todo : forall pre n s,
  frag_list s (pre ++ todo) -> frags_in s decapped pre -> frags_in s without_fcs todo ->
  Forall (fun f => strips ok f g) todo -> (length todo <= n)%nat ->
  exists s', decap_loop n g (hd_or None (frag_ids (pre ++ todo))) (hd_or None (frag_ids todo)) s =
      Some (forallb ok todo, s') /\ same_dp s s' /\ rx_peers (dp_rx s') = rx_peers (dp_rx s) /\
    if forallb ok todo then skbs_only s s' /\ frags_in s' decapped (pre ++ todo) else all_freed s s' (pre ++ todo).
Proof.
  induction todo as [|f r IH]; intros pre n s Hl Hpre Htodo Hok Hn.
  { exists s. rewrite app_nil_r in *. split; [by destruct n|]. split; [by apply same_dp_refl|]. split; [done|].
    split; [by exists (dp_skbs s); destruct s|done]. }
  destruct n as [|n]; [simpl in Hn; lia|].
  apply list.Forall_cons in Htodo as [Hf Hr]. apply list.Forall_cons in Hok as [Hg Hok].
  destruct (frag_list_cons _ _ _ _ Hl) as (_ & Hnx & _ & Hfp & Hfr & _). specialize (Hg s Hf).
  cbn [decap_loop hd_or fmap list_fmap forallb]. unfold mbind at 1, M_bind at 1. rewrite (nbuf_next_run _ _ _ Hnx).
  unfold mbind at 1, M_bind at 1. destruct (ok f); cbn [andb].
  2: { rewrite Hg. destruct Hl as [Hs Hnd].
    destruct (rx_frames_free_at s (frag_ids (pre ++ f :: r)) _ eq_refl Hs Hnd) as (s' & Hrun & Hfr' & _ & Hp' & Hs' & _).
    exists s'. unfold mbind, M_bind. rewrite Hrun. split; [done|]. split; [done|]. split; [done|].
    by exists (frag_ids (pre ++ f :: r)). }
  destruct Hg as (s1 & -> & [bs Hbs] & Hf1 & Hout).
  assert (Hother : forall bytes l, fg_id f ∉ frag_ids l -> frags_in s bytes l -> frags_in s1 bytes l).
  { intros bytes l Hfl. apply frags_in_frame. intros i Hi. split; [by subst s1|]. apply Hout. by intros ->. }
  destruct (IH (pre ++ [f]) n s1) as (s' & Hrun & Hs' & Hp' & Hres).
  - rewrite <- app_assoc. by subst s1.
  - apply list.Forall_app. split; [by apply Hother|]. by apply list.Forall_singleton.
  - by apply Hother.
  - done.
  - simpl in Hn. lia.
  - rewrite <- app_assoc in *. exists s'. split; [exact Hrun|].
    split; [eapply same_dp_trans; [|exact Hs']; subst s1; by repeat split|]. split; [by rewrite Hp'; subst s1|].
    destruct (forallb ok r).
    + destruct Hres as [H1 H2]. split; [|done]. eapply skbs_only_trans; [by exists bs|done].
    + unfold all_freed in *. by subst s1.
Qed.

Lemma on_skb_err s f bytes g :
  frag_in s f bytes -> (forall b, frame_at b (fg_ind f) (fg_desc f) bytes -> g b = Some None) ->
  on_skb (fg_id f) g s = Some (false, s).
Proof.
  intros Hf Hg. pose proof Hf as [_ (b & Hb & Hfr)]. unfold on_skb, mbind, M_bind, lift.
  by rewrite (get_skb_run _ _ _ _ Hf Hb), (Hg b Hfr).
Qed.

Lemma on_skb_strips s f bytes bytes' g :
  frag_in s f bytes ->
  (forall b, frame_at b (fg_ind f) (fg_desc f) bytes ->
     exists b', g b = Some (Some b') /\ frame_at b' (fg_ind f) (fg_desc f) bytes') ->
  exists s', on_skb (fg_id f) g s = Some (true, s') /\ skbs_only s s' /\ frag_in s' f bytes' /\
    forall i, i <> fg_id f -> dp_skbs s' !! i = dp_skbs s !! i.
Proof.
  intros Hf Hg. destruct (on_skb_ok s f bytes bytes' g Hf Hg) as (b' & Hrun & Hf'). eexists. split; [exact Hrun|].
  split; [by apply skbs_only_put|]. split; [done|]. intros i Hi. cbn. by rewrite lookup_insert_ne.
Qed.

(** Reading the extended IV bit of a fragment. *)
Lemma frag_ext_iv b f rest :
  frame_at b (fg_ind f) (fg_desc f) (fg_hdr f ++ fg_iv f ++ rest) -> zlen (fg_iv f) = 8 ->
  exists x, znth (fg_iv f) 3 = Some x /\
    has_ext_iv b (zlen (fg_hdr f)) = Some (negb (Z.land x IEEE80211_WEP_EXTIV =? 0)).
Proof.
  intros Hf Hiv. destruct (znth_in_range (fg_iv f) 3) as [x Hx]; [lia|]. exists x. split; [done|]. by eapply has_ext_iv_at.
Qed.

Lemma ext_iv_negb iv x : znth iv 3 = Some x -> negb (Z.land x IEEE80211_WEP_EXTIV =? 0) = true -> ext_iv iv.
Proof. intros Hx H. exists x. split; [done|]. by apply Z.eqb_neq, negb_true_iff. Qed.

Lemma tkip_strips sec f :
  sec = htt_sec_type_tkip \/ sec = htt_sec_type_tkip_nomic -> frag_shape sec (zlen (fg_hdr f)) f ->
  strips (iv_accepted sec) f (fun c => on_skb c (fun b => ol_rx_frag_tkip_decap b (zlen (fg_hdr f)))).
Proof.
  intros Hsec (_ & Hiv & Htr) s Hf. assert (Hiv8 : zlen (fg_iv f) = 8) by (by destruct Hsec as [-> | ->]).
  assert (Htr4 : zlen (fg_tr f) = 4) by (by destruct Hsec as [-> | ->]).
  destruct (znth_in_range (fg_iv f) 3) as [x Hx]; [lia|].
  assert (iv_accepted sec f = negb (Z.land x IEEE80211_WEP_EXTIV =? 0)) as ->.
  { unfold iv_accepted. rewrite Hx. by destruct Hsec as [-> | ->]. }
  destruct (negb (Z.land x IEEE80211_WEP_EXTIV =? 0)) eqn:E.
  - apply on_skb_strips with (without_fcs f); [done|]. intros b Hb.
    eapply tkip_decap_spec; [exact Hb|done|by eapply ext_iv_negb|done].
  - apply on_skb_err with (without_fcs f); [done|]. intros b Hb. unfold ol_rx_frag_tkip_decap.
    rewrite (has_ext_iv_at _ _ _ _ _ _ _ Hb Hx), E. done.
Qed.

Lemma wep_strips sec f :
  iv_len sec = 4 -> trailer_len sec = 4 -> iv_accepted sec f = true -> frag_shape sec (zlen (fg_hdr f)) f ->
  strips (iv_accepted sec) f (fun c => on_skb c (fun b => ol_rx_frag_wep_decap b (zlen (fg_hdr f)))).
Proof.
  intros H1 H2 Hacc (_ & Hiv & Htr) s Hf. rewrite Hacc. apply on_skb_strips with (without_fcs f); [done|]. intros b Hb.
  eapply wep_decap_spec; [exact Hb|lia|lia].
Qed.

Lemma ccmp_strips f :
  frag_shape htt_sec_type_aes_ccmp (zlen (fg_hdr f)) f ->
  strips (iv_accepted htt_sec_type_aes_ccmp) f (ccmp_frag (zlen (fg_hdr f))).
Proof.
  intros (_ & Hiv & Htr) s Hf. cbn in Hiv, Htr. destruct (znth_in_range (fg_iv f) 3) as [x Hx]; [lia|].
  unfold iv_accepted. rewrite Hx. unfold ccmp_frag. destruct (negb (Z.land x IEEE80211_WEP_EXTIV =? 0)) eqn:E.
  - assert (He : ext_iv (fg_iv f)) by (by eapply ext_iv_negb).
    destruct (on_skb_strips s f (without_fcs f) (fg_hdr f ++ fg_iv f ++ fg_body f)
      (fun b => ol_rx_frag_ccmp_demic b (zlen (fg_hdr f)))) as (s1 & Hrun1 & Hs1 & Hf1 & Ho1).
    + done.
    + intros b Hb. eapply ccmp_demic_spec; [exact Hb|done|done].
    + destruct (on_skb_strips s1 f _ (decapped f) (fun b => ol_rx_frag_ccmp_decap b (zlen (fg_hdr f))) Hf1)
        as (s2 & Hrun2 & Hs2 & Hf2 & Ho2).
      * intros b Hb. eapply ccmp_decap_spec; [exact Hb|done|done].
      * exists s2. unfold mbind, M_bind. rewrite Hrun1, Hrun2. split; [done|]. split; [by eapply skbs_only_trans|].
        split; [done|]. intros i Hi. by rewrite Ho2, Ho1.
  - unfold mbind, M_bind. rewrite (on_skb_err s f (without_fcs f)); [done|done|].
    intros b Hb. unfold ol_rx_frag_ccmp_demic. rewrite (has_ext_iv_at _ _ _ _ _ _ _ Hb Hx), E. done.
Qed.

(** Without a cipher the host knows, the loops are skipped. *)
Lemma decap_frags_none sec hdr_space l n s :
  iv_len sec = 0 -> trailer_len sec = 0 -> iv_accepted sec = (fun _ => true) ->
  (forall m h c, decap_frags m sec h c = mret true) -> frags_in s without_fcs l -> Forall (frag_shape sec hdr_space) l ->
  exists s', decap_frags n sec hdr_space (hd_or None (frag_ids l)) s = Some (forallb (iv_accepted sec) l, s') /\
    same_dp s s' /\ rx_peers (dp_rx s') = rx_peers (dp_rx s) /\
    if forallb (iv_accepted sec) l then skbs_only s s' /\ frags_in s' decapped l else all_freed s s' l.
Proof.
  intros Hi Ht -> -> Hin Hshape. exists s. assert (forallb (fun _ : frag => true) l = true) as -> by (by apply forallb_forall).
  split; [done|]. split; [apply same_dp_refl|]. split; [done|]. split; [by exists (dp_skbs s); destruct s|].
  unfold frags_in in *. rewrite !list.Forall_forall in *. intros f Hf. specialize (Hin f Hf). specialize (Hshape f Hf) as (_ & Hiv & Htr).
  unfold decapped, without_fcs in *. rewrite (zlen_nil_inv (fg_iv f)), (zlen_nil_inv (fg_tr f)) in Hin by congruence.
  by rewrite app_nil_r in Hin.
Qed.

Lemma decap_frags_spec sec hdr_space l n s :
  frag_list s l -> frags_in s without_fcs l -> Forall (frag_shape sec hdr_space) l -> (length l <= n)%nat ->
  exists s', decap_frags n sec hdr_space (hd_or None (frag_ids l)) s = Some (forallb (iv_accepted sec) l, s') /\
    same_dp s s' /\ rx_peers (dp_rx s') = rx_peers (dp_rx s) /\
    if forallb (iv_accepted sec) l then skbs_only s s' /\ frags_in s' decapped l else all_freed s s' l.
Proof.
  intros Hl Hin Hshape Hn.
  assert (Hloop : forall g, Forall (fun f => strips (iv_accepted sec) f g) l ->
    exists s', decap_loop n g (hd_or None (frag_ids l)) (hd_or None (frag_ids l)) s = Some (forallb (iv_accepted sec) l, s') /\
    same_dp s s' /\ rx_peers (dp_rx s') = rx_peers (dp_rx s) /\
    if forallb (iv_accepted sec) l then skbs_only s s' /\ frags_in s' decapped l else all_freed s s' l).
  { intros g Hg. apply (decap_loop_spec _ g l [] n s); try done. constructor. }
  assert (Hall : forall g, (forall f, zlen (fg_hdr f) = hdr_space -> frag_shape sec (zlen (fg_hdr f)) f -> strips (iv_accepted sec) f g) ->
            Forall (fun f => strips (iv_accepted sec) f g) l).
  { intros g Hg. eapply list.Forall_impl; [exact Hshape|]. intros f Hf. pose proof Hf as (<- & _). by apply Hg. }
  destruct sec; try (apply Hloop, Hall; intros f <- Hf; first [apply tkip_strips; [by auto|done] | by apply ccmp_strips
    | by apply wep_strips]).
  1: exact (decap_frags_none htt_sec_type_none hdr_space l n s eq_refl eq_refl eq_refl (fun _ _ _ => eq_refl) Hin Hshape).
  1: exact (decap_frags_none htt_sec_type_wapi hdr_space l n s eq_refl eq_refl eq_refl (fun _ _ _ => eq_refl) Hin Hshape).
Qed.
End Decap.

(** ** Joining *)
Section Recombine.
Context `{Expand}.
Implicit Types s : defrag_pdev.

(** The kernel always has memory for a longer block. *)
Definition expand_never_fails : Prop := forall b n, is_Some (pskb_expand_head b n).

Lemma frame_free_run s a :
  is_Some (rx_heap (dp_rx s) !! a) ->
  frame_free a s = Some (tt, set_dp_rx (fun r => set_rx_freed (fun l => l ++ [a]) (set_rx_heap (delete a) r)) s).
Proof.
  intros Ha. unfold frame_free, on_rx, htt_rx_desc_frame_free, mbind, M_bind, get, lift, put_heap, log_rx_freed, modify.
  by rewrite decide_True.
Qed.

Lemma cat_memory dst src ind desc bytes body :
  expand_never_fails -> frame_at dst ind desc bytes -> sk_len src = zlen body ->
  rd (sk_mem src) (sk_data src) (zlen body) = Some body -> adf_nbuf_cat dst src <> Some None.
Proof.
  intros Hexp Hd Hs Hrd. unfold adf_nbuf_cat. rewrite Hs, Hrd. cbn [mbind option_bind].
  destruct (rd _ 0 _); [|done]. cbn [mbind option_bind]. case_match; [|done].
  destruct (Hexp dst (zlen body)) as [r Hr]. by rewrite Hr.
Qed.

(** What the joining leaves: one buffer with all payloads, or nothing. *)
Definition joined s s' (f0 : frag) (bytes : list Z) (l : list frag) (ok : bool) : Prop :=
  same_dp s s' /\ rx_peers (dp_rx s') = rx_peers (dp_rx s) /\
  if ok then rx_freed (dp_rx s') = rx_freed (dp_rx s) ++ frag_ids l /\ frag_in s' f0 bytes /\
             seg (rx_heap (dp_rx s')) [fg_id f0] None
  else all_freed s s' (f0 :: l).

Lemma recombine_loop_spec f0 hdr hdrsize todo : forall n s acc,
  seg (rx_heap (dp_rx s)) [fg_id f0] None -> seg (rx_heap (dp_rx s)) (frag_ids todo) None ->
  NoDup (frag_ids (f0 :: todo)) -> frag_in s f0 (hdr ++ acc) -> frags_in s decapped todo ->
  Forall (fun f => zlen (fg_hdr f) = hdrsize) todo ->
  zlen (fg_desc f0) + zlen hdr + zlen (acc ++ concat (fg_body <$> todo)) < 2 ^ 32 -> (length todo <= n)%nat ->
  exists ok s', recombine_loop n (fg_id f0) hdrsize (hd_or None (frag_ids todo)) s = Some (ok, s') /\
    joined s s' f0 (hdr ++ acc ++ concat (fg_body <$> todo)) todo ok /\ (expand_never_fails -> ok = true).
Proof.
  induction todo as [|f r IH]; intros n s acc H0 Hs Hnd Hf0 Htodo Hhdr Hmax Hn.
  { exists true, s. split; [by destruct n|]. split; [|done]. split; [apply same_dp_refl|]. split; [done|].
    cbn. by rewrite !app_nil_r. }
  destruct n as [|n]; [simpl in Hn; lia|].
  apply list.Forall_cons in Htodo as [Hf Hr]. apply list.Forall_cons in Hhdr as [Hh Hhdr].
  cbn [fmap list_fmap] in *. destruct Hs as [Hnx Hs].
  apply list.NoDup_cons in Hnd as [Hn0 Hnd]. pose proof Hnd as Hndr. apply list.NoDup_cons in Hndr as [Hnf Hndr].
  assert (Hne : fg_id f <> fg_id f0) by (intros E; apply Hn0; rewrite E; by apply elem_of_cons; left).
  assert (Hn0r : fg_id f0 ∉ frag_ids r) by (intros E; apply Hn0; by apply elem_of_cons; right).
  pose proof Hf as [Hd (b & Hb & Hfb)]. pose proof Hf0 as [Hd0 (b0 & Hb0 & Hfb0)].
  assert (Hal : is_Some (rx_heap (dp_rx s) !! fg_id f)).
  { unfold htt_rx_msdu_desc_retrieve in Hd. by destruct (rx_heap (dp_rx s) !! fg_id f). }
  destruct (set_next_seg _ (fg_id f) None Hal) as (h1 & Hset1 & Hseg1 & Hrel1).
  set (s1 := set_dp_rx (set_rx_heap (fun _ => h1)) s).
  assert (Hf1 : frag_in s1 f (decapped f)).
  { apply (frag_in_frame s s1); [|done|exact Hf]. unfold s1. cbn. by rewrite (relinked_desc _ _ _ _ Hrel1). }
  set (b1 := adf_nbuf_pull_head b (zlen (fg_desc f) + hdrsize)).
  set (s2 := set_dp_skbs (<[fg_id f := b1]>) s1).
  assert (Hf02 : frag_in s2 f0 (hdr ++ acc)).
  { apply (frag_in_frame s s2); [| |exact Hf0]; unfold s2, s1; cbn; [by rewrite (relinked_desc _ _ _ _ Hrel1)|].
    by rewrite lookup_insert_ne. }
  destruct (pull_header b (fg_ind f) (fg_desc f) (fg_hdr f) (fg_body f) Hfb) as [Hlen Hrd]. rewrite Hh in Hlen, Hrd. fold b1 in Hlen, Hrd.
  cbn [recombine_loop hd_or]. unfold mbind at 1, M_bind at 1. rewrite (nbuf_next_run _ _ _ Hnx).
  unfold mbind at 1, M_bind at 1. rewrite (nbuf_set_next_run _ _ _ _ Hset1). fold s1.
  unfold mbind at 1, M_bind at 1. rewrite (get_skb_run s1 _ _ _ Hf1 Hb).
  unfold mbind at 1, M_bind at 1, lift at 1. rewrite (frame_size _ _ _ _ Hfb).
  unfold mbind at 1, M_bind at 1, put_skb at 1, modify at 1. fold b1. fold s2.
  unfold mbind at 1, M_bind at 1. rewrite (get_skb_run s2 _ _ b0 Hf02) by (unfold s2, s1; cbn; by rewrite lookup_insert_ne).
  unfold mbind at 1, M_bind at 1, lift at 1.
  cbn [concat] in *. rewrite !zlen_app in Hmax. pose proof (zlen_nonneg (concat (fg_body <$> r))).
  assert (Hh1 : forall i, i <> fg_id f -> h1 !! i = rx_heap (dp_rx s) !! i).
  { intros i Hi. apply Hrel1. by rewrite list_elem_of_singleton. }
  assert (Hal1 : is_Some (h1 !! fg_id f)) by (apply (seg_alloc _ _ _ _ Hseg1); by apply list_elem_of_singleton).
  assert (Hs1 : seg h1 (frag_ids r) None) by (eapply seg_frame; [|exact Hs]; intros i Hi; apply Hh1; by intros ->).
  assert (Hfb02 : frame_at b0 (fg_ind f0) (fg_desc f0) (hdr ++ acc)) by done.
  destruct (cat_spec b0 b1 _ _ _ (fg_body f) Hfb02 Hlen Hrd) as [Hcat|(d & Hcat & Hfd)]; [rewrite zlen_app; lia| |].
  - (* no memory *)
    exists false. destruct (rx_frames_free_at s2 (frag_ids r) _ eq_refl Hs1 Hndr) as (s3 & Hrun3 & Hfr3 & Hh3 & Hp3 & Hsame3 & _).
    assert (Hal03 : is_Some (rx_heap (dp_rx s3) !! fg_id f0)).
    { rewrite Hh3 by done. unfold s2, s1. cbn. rewrite Hh1 by done. apply (seg_alloc _ _ _ _ H0). by apply list_elem_of_singleton. }
    assert (Hal3 : is_Some (rx_heap (dp_rx s3) !! fg_id f)) by (by rewrite Hh3).
    rewrite Hcat. unfold mbind, M_bind. rewrite Hrun3, (frame_free_run _ _ Hal03), frame_free_run.
    2: { cbn. by rewrite lookup_delete_ne by done. }
    eexists. split; [done|]. split; [|intros Hexp; by destruct (cat_memory b0 b1 _ _ _ _ Hexp Hfb02 Hlen Hrd)].
    split; [eapply same_dp_trans; [|eapply same_dp_trans; [exact Hsame3|]]; by repeat split|]. split; [cbn; by rewrite Hp3|].
    exists (frag_ids r ++ [fg_id f0] ++ [fg_id f]). cbn. split; [rewrite Hfr3; unfold s2, s1; cbn; by rewrite <- !app_assoc|].
    rewrite Permutation_app_comm. cbn. done.
  - rewrite Hcat. unfold mbind at 1, M_bind at 1, put_skb at 1, modify at 1.
    set (s3 := set_dp_skbs (<[fg_id f0 := d]>) s2).
    unfold mbind at 1, M_bind at 1. rewrite (frame_free_run s3) by done.
    set (s4 := set_dp_rx _ s3).
    assert (Hother : forall i, i <> fg_id f -> rx_heap (dp_rx s4) !! i = rx_heap (dp_rx s) !! i).
    { intros i Hi. unfold s4, s3, s2, s1. cbn. rewrite lookup_delete_ne by done. by apply Hh1. }
    destruct (IH n s4 (acc ++ fg_body f)) as (ok & s' & Hrun & Hj & Hexp).
    + eapply seg_frame; [|exact H0]. intros i Hi%list_elem_of_singleton. subst i. by apply Hother.
    + eapply seg_frame; [|exact Hs]. intros i Hi. apply Hother. by intros ->.
    + by apply list.NoDup_cons.
    + split.
      * unfold htt_rx_msdu_desc_retrieve in *. by rewrite Hother.
      * exists d. split; [unfold s4, s3; cbn; apply lookup_insert_eq|]. by rewrite app_assoc.
    + eapply frags_in_frame; [|exact Hr]. intros i Hi. assert (i <> fg_id f) by (by intros ->).
      assert (i <> fg_id f0) by (by intros ->). split; [unfold htt_rx_msdu_desc_retrieve; by rewrite Hother|].
      unfold s4, s3, s2, s1. cbn. by rewrite !lookup_insert_ne.
    + done.
    + rewrite !zlen_app. lia.
    + simpl in Hn. lia.
    + exists ok, s'. rewrite <- app_assoc in Hj. split; [exact Hrun|]. split; [|done].
      destruct Hj as (Hsame & Hp & Hj). split; [eapply same_dp_trans; [|exact Hsame]; by repeat split|]. split; [by rewrite Hp|].
      destruct ok.
      * destruct Hj as (Hfr & Hj & Hsg). split; [|done]. rewrite Hfr. unfold s4, s3, s2, s1. cbn. by rewrite <- app_assoc.
      * destruct Hj as (k & Hfr & Hk). exists (fg_id f :: k). split.
        { rewrite Hfr. unfold s4, s3, s2, s1. cbn. by rewrite <- app_assoc. }
        cbn in *. rewrite Hk. constructor.
Qed.
End Recombine.
