(* ===== verification/RxDefragProcSpec.v ===== *)
(** [ol_rx_defrag] as a whole: a complete list of fragments of one MSDU either
    becomes one Ethernet frame, with the payloads of the fragments in order, or
    every buffer of it is freed. *)
From Stdlib Require Import ZArith Lia.
From stdpp Require Import prelude gmap list numbers.
From S2P Require Import Prelude.
From S2P Require Import RxTypes.
From S2P Require Import RxList.
From S2P Require Import RxPn.
From S2P Require Import RxPnSpec.
From S2P Require Import RxInv.
From S2P Require Import RxStage.
From S2P Require Import RxNbuf.
From S2P Require Import RxMichael.
From S2P Require Import RxDecap.
From S2P Require Import RxDefragProc.
From S2P Require Import RxDecapSpec.
From S2P Require Import RxDefragSteps.

(** ** MAC headers of data frames with three addresses *)

Record mac_hdr := mk_mac_hdr {
  mh_fc0 : Z; mh_fc1 : Z; mh_dur : list Z;
  mh_a1 : list Z; mh_a2 : list Z; mh_a3 : list Z; mh_seq : list Z; mh_qos : list Z }.

Definition mac_bytes (h : mac_hdr) : list Z :=
  [mh_fc0 h; mh_fc1 h] ++ mh_dur h ++ mh_a1 h ++ mh_a2 h ++ mh_a3 h ++ mh_seq h ++ mh_qos h.

Definition has_qos (h : mac_hdr) : bool := negb (Z.land (mh_fc0 h) IEEE80211_FC0_SUBTYPE_QOS =? 0).

Definition mac_ok (h : mac_hdr) : Prop :=
  length (mh_dur h) = 2%nat /\ length (mh_a1 h) = 6%nat /\ length (mh_a2 h) = 6%nat /\ length (mh_a3 h) = 6%nat /\
  length (mh_seq h) = 2%nat /\ Z.land (mh_fc0 h) IEEE80211_FC0_TYPE_MASK = IEEE80211_FC0_TYPE_DATA /\
  Z.land (mh_fc1 h) IEEE80211_FC1_DIR_MASK <> IEEE80211_FC1_DIR_DSTODS /\
  zlen (mh_qos h) = (if has_qos h then if negb (Z.land (mh_fc1 h) IEEE80211_FC1_ORDER =? 0) then 6 else 2 else 0).

(** The header of the joined frame. *)
Definition mac_joined (h : mac_hdr) : mac_hdr :=
  mk_mac_hdr (mh_fc0 h) (Z.land (mh_fc1 h) 0xfb) (mh_dur h) (mh_a1 h) (mh_a2 h) (mh_a3 h)
    (match mh_seq h with s0 :: r => Z.land s0 0xf0 :: r | [] => [] end) (mh_qos h).

(** Without QoS control. *)
Definition mac_no_qos (h : mac_hdr) : mac_hdr :=
  mk_mac_hdr (if has_qos h then Z.land (mh_fc0 h) 0x7f else mh_fc0 h) (mh_fc1 h) (mh_dur h) (mh_a1 h) (mh_a2 h)
    (mh_a3 h) (mh_seq h) [].

(** Destination and source. *)
Definition mac_addrs (h : mac_hdr) : list Z * list Z := frame_addrs (mh_fc1 h) (mh_a1 h) (mh_a2 h) (mh_a3 h).

(** The pseudo header of Michael. *)
Definition mac_pseudo (h : mac_hdr) : list Z :=
  (mac_addrs h).1 ++ (mac_addrs h).2 ++
  [if has_qos h then match mh_qos h with q :: _ => Z.land q 0x0f | [] => 0 end else 0; 0; 0; 0].

Section MacHdr.
Implicit Types h : mac_hdr.

Lemma land_pow2 z n : 0 <= n -> Z.land z (2 ^ n) = if Z.testbit z n then 2 ^ n else 0.
Proof.
  intros Hn. apply Z.bits_inj'. intros i Hi. rewrite Z.land_spec.
  destruct (decide (i = n)) as [->|Hne].
  - rewrite Z.pow2_bits_true by done. destruct (Z.testbit z n) eqn:E; [by rewrite Z.pow2_bits_true|by rewrite Z.bits_0].
  - rewrite Z.pow2_bits_false, andb_false_r by done. destruct (Z.testbit z n); [by rewrite Z.pow2_bits_false|by rewrite Z.bits_0].
Qed.

(** For data frames the QoS bit alone decides. *)
Lemma qos_has_seq_data fc0 :
  Z.land fc0 IEEE80211_FC0_TYPE_MASK = IEEE80211_FC0_TYPE_DATA ->
  QOS_HAS_SEQ fc0 = negb (Z.land fc0 IEEE80211_FC0_SUBTYPE_QOS =? 0).
Proof.
  intros H. unfold QOS_HAS_SEQ. rewrite Z.land_lor_distr_r, H. unfold IEEE80211_FC0_SUBTYPE_QOS.
  change 0x80 with (2 ^ 7). rewrite land_pow2 by lia. by destruct (Z.testbit fc0 7).
Qed.

Lemma land_fb z m : Z.land 0xfb m = m -> Z.land (Z.land z 0xfb) m = Z.land z m.
Proof. intros H. by rewrite <- Z.land_assoc, H. Qed.

Lemma mac_joined_ok h : mac_ok h -> mac_ok (mac_joined h).
Proof.
  intros (H1 & H2 & H3 & H4 & H5 & H6 & H7 & H8). unfold mac_ok, has_qos in *.
  cbn [mac_joined mh_fc0 mh_fc1 mh_dur mh_a1 mh_a2 mh_a3 mh_seq mh_qos] in *.
  rewrite (land_fb (mh_fc1 h) IEEE80211_FC1_DIR_MASK), (land_fb (mh_fc1 h) IEEE80211_FC1_ORDER) by done.
  split_and!; try done. by destruct (mh_seq h).
Qed.

Lemma mac_joined_addrs h : mac_addrs (mac_joined h) = mac_addrs h.
Proof. unfold mac_addrs, frame_addrs. cbn [mac_joined mh_fc1 mh_a1 mh_a2 mh_a3]. by rewrite land_fb by done. Qed.
Lemma mac_joined_pseudo h : mac_pseudo (mac_joined h) = mac_pseudo h.
Proof. unfold mac_pseudo. rewrite mac_joined_addrs. done. Qed.

Ltac bytes h :=
  destruct h as [fc0 fc1 dur a1 a2 a3 seq qos]; cbn [mh_fc0 mh_fc1 mh_dur mh_a1 mh_a2 mh_a3 mh_seq mh_qos] in *;
  do 2 (destruct dur as [|? dur]; [done|]); destruct dur; [|done];
  do 6 (destruct a1 as [|? a1]; [done|]); destruct a1; [|done];
  do 6 (destruct a2 as [|? a2]; [done|]); destruct a2; [|done];
  do 6 (destruct a3 as [|? a3]; [done|]); destruct a3; [|done];
  do 2 (destruct seq as [|? seq]; [done|]); destruct seq; [|done].

Lemma clear_frag_mac h : mac_ok h -> clear_frag_hdr (mac_bytes h) = mac_bytes (mac_joined h).
Proof. intros (H1 & H2 & H3 & H4 & H5 & _). by bytes h. Qed.

Lemma mac_len h : mac_ok h -> zlen (mac_bytes h) = 24 + zlen (mh_qos h).
Proof.
  intros (H1 & H2 & H3 & H4 & H5 & _). unfold mac_bytes, zlen. rewrite !length_app, H1, H2, H3, H4, H5. simpl length. lia.
Qed.

(** The length the code computes from the frame control. *)
Lemma hdrsize_mac b ind desc h rest :
  frame_at b ind desc (mac_bytes h ++ rest) -> mac_ok h ->
  ol_rx_frag_hdrsize (sk_mem b) (sk_data b + zlen desc) = Some (zlen (mac_bytes h)).
Proof.
  intros Hf Hok. rewrite mac_len by done. pose proof (zlen_nonneg rest). pose proof (zlen_nonneg (mh_qos h)).
  pose proof (mac_len _ Hok) as Hlen. destruct Hok as (_ & _ & _ & _ & _ & H6 & H7 & H8).
  pose proof (frame_byte _ _ _ _ 0 Hf) as Hb0. pose proof (frame_byte _ _ _ _ 1 Hf) as Hb1. rewrite zlen_app in Hb0, Hb1.
  rewrite Z.add_0_r in Hb0. unfold ol_rx_frag_hdrsize. rewrite Hb0, Hb1 by lia. cbn [mac_bytes app znth mbind option_bind].
  change (znth _ 0) with (Some (mh_fc0 h)). change (znth _ 1) with (Some (mh_fc1 h)). cbn [mbind option_bind].
  rewrite qos_has_seq_data by done. fold (has_qos h). rewrite (proj2 (Z.eqb_neq _ _) H7).
  rewrite H8. destruct (has_qos h); [|done]. by destruct (negb (Z.land (mh_fc1 h) _ =? 0)).
Qed.

Lemma mac_rd_addr h :
  mac_ok h -> rd (mac_bytes h) 4 6 = Some (mh_a1 h) /\ rd (mac_bytes h) 10 6 = Some (mh_a2 h) /\
    rd (mac_bytes h) 16 6 = Some (mh_a3 h).
Proof.
  intros (H1 & H2 & H3 & H4 & H5 & _). unfold mac_bytes. split_and!.
  - rewrite (app_assoc [_; _]). apply rd_app; unfold zlen; rewrite ?length_app, ?H1, ?H2; done.
  - rewrite (app_assoc [_; _]), (app_assoc (_ ++ mh_dur h)). apply rd_app; unfold zlen; rewrite ?length_app, ?H1, ?H2, ?H3; done.
  - rewrite (app_assoc [_; _]), (app_assoc (_ ++ mh_dur h)), (app_assoc (_ ++ mh_a1 h)).
    apply rd_app; unfold zlen; rewrite ?length_app, ?H1, ?H2, ?H3, ?H4; done.
Qed.

Lemma michdr_mac h : mac_ok h -> ol_rx_defrag_michdr (mac_bytes h) 0 = Some (mac_pseudo h).
Proof.
  intros Hok. destruct (mac_rd_addr h Hok) as (R1 & R2 & R3).
  destruct Hok as (H1 & H2 & H3 & H4 & H5 & H6 & H7 & H8).
  unfold ol_rx_defrag_michdr. change (znth (mac_bytes h) 0) with (Some (mh_fc0 h)).
  change (znth (mac_bytes h) (0 + 1)) with (Some (mh_fc1 h)). cbn [mbind option_bind]. rewrite !Z.add_0_l.
  unfold mac_pseudo, mac_addrs, frame_addrs. fold (has_qos h).
  assert (Hq : (if has_qos h then q ← znth (mac_bytes h) 24; Some (Z.land q 0x0f) else Some 0) =
    Some (if has_qos h then match mh_qos h with q :: _ => Z.land q 0x0f | [] => 0 end else 0)).
  { destruct (has_qos h); [|done]. bytes h. destruct qos; [by destruct (negb _) in H8|done]. }
  rewrite Hq. unfold IEEE80211_FC1_DIR_MASK, IEEE80211_FC1_DIR_DSTODS in *.
  assert (Hdir : Z.land (mh_fc1 h) 3 = 0 \/ Z.land (mh_fc1 h) 3 = 1 \/ Z.land (mh_fc1 h) 3 = 2).
  { revert H7. change 3 with (2 ^ 2 - 1). rewrite land_mask by lia. pose proof (Z.mod_pos_bound (mh_fc1 h) (2 ^ 2)). lia. }
  destruct Hdir as [-> | [-> | ->]]; cbn [Z.eqb Pos.eqb orb fst snd]; rewrite ?R1, ?R2, ?R3; cbn [mbind option_bind];
    rewrite ?R1, ?R2, ?R3; done.
Qed.
End MacHdr.

(** ** After the joining *)
Section Finish.
Implicit Types (s : defrag_pdev) (h : mac_hdr).

(** The frame that goes up: with an Ethernet header in place of the MAC and
    LLC headers, or with a MAC header without QoS control. *)
Definition frame_up (eth : bool) (h : mac_hdr) (llc ty data : list Z) : list Z :=
  if eth then (mac_addrs h).1 ++ (mac_addrs h).2 ++ ty ++ data
  else mac_bytes (mac_no_qos h) ++ llc ++ ty ++ data.

Lemma mac_qos_decap b ind desc h rest :
  frame_at b ind desc (mac_bytes h ++ rest) -> mac_ok h -> zlen (mac_bytes h) < 65536 ->
  exists b', (if QOS_HAS_SEQ (mh_fc0 h) then ol_rx_defrag_qos_decap b (zlen (mac_bytes h)) else Some b) = Some b' /\
    frame_at b' ind desc (mac_bytes (mac_no_qos h) ++ rest).
Proof.
  intros Hf Hok Hlen. pose proof (mac_len _ Hok) as Hl. pose proof Hok as (H1 & H2 & H3 & H4 & H5 & H6 & H7 & H8).
  rewrite qos_has_seq_data by done. fold (has_qos h). unfold mac_no_qos. destruct (has_qos h) eqn:Hq.
  - set (x := mh_dur h ++ mh_a1 h ++ mh_a2 h ++ mh_a3 h ++ mh_seq h).
    assert (Hx : zlen x = 22) by (unfold x, zlen; rewrite !length_app, H1, H2, H3, H4, H5; done).
    assert (E : mac_bytes h = (mh_fc0 h :: mh_fc1 h :: x) ++ mh_qos h).
    { unfold mac_bytes, x. cbn [app]. by rewrite <- !app_assoc. }
    rewrite E, <- app_assoc in Hf.
    destruct (qos_decap_spec b ind desc _ _ _ _ _ (zlen (mac_bytes h)) Hf) as (b' & Hrun & Hf').
    + by rewrite qos_has_seq_data by done.
    + done.
    + lia.
    + done.
    + exists b'. split; [done|]. unfold mac_bytes. cbn [mh_fc0 mh_fc1 mh_dur mh_a1 mh_a2 mh_a3 mh_seq mh_qos].
      rewrite app_nil_r. done.
  - exists b. split; [done|]. assert (mh_qos h = []) as Hn by (by apply zlen_nil_inv).
    unfold mac_bytes in *. cbn [mh_fc0 mh_fc1 mh_dur mh_a1 mh_a2 mh_a3 mh_seq mh_qos]. by rewrite Hn in Hf.
Qed.

Lemma mac_to_eth b ind desc h llc ty data :
  frame_at b ind desc (mac_bytes (mac_no_qos h) ++ llc ++ ty ++ data) -> mac_ok h -> zlen llc = 6 -> zlen ty = 2 ->
  exists b', ol_rx_defrag_nwifi_to_8023 b = Some b' /\ frame_at b' ind desc (frame_up true h llc ty data).
Proof.
  intros Hf (H1 & H2 & H3 & H4 & H5 & H6 & H7 & H8) Hllc Hty. unfold mac_bytes in Hf.
  cbn [mac_no_qos mh_fc0 mh_fc1 mh_dur mh_a1 mh_a2 mh_a3 mh_seq mh_qos] in Hf. rewrite app_nil_r, <- !app_assoc in Hf.
  pose proof (nwifi_to_8023_spec _ _ _ _ _ _ _ _ _ _ _ _ _ Hf) as Hn. unfold frame_up, mac_addrs.
  destruct (frame_addrs (mh_fc1 h) (mh_a1 h) (mh_a2 h) (mh_a3 h)) as [da sa].
  apply Hn; unfold zlen; rewrite ?H1, ?H2, ?H3, ?H4, ?H5; done.
Qed.

(** Whether the joined frame passes: only TKIP has Michael. *)
Definition mic_good (s : defrag_pdev) (p : Z) (sec : sec_type) (mcast : bool) (h : mac_hdr) (payload mic : list Z) : bool :=
  bool_decide (sec <> htt_sec_type_tkip \/ michael (dp_michael_key s p mcast) (mac_pseudo h) payload = Some mic).

Definition delivered_one s s' (p tid a : Z) : Prop :=
  rx_delivered (dp_rx s') = rx_delivered (dp_rx s) ++ [mk_delivery to_fwd_check p tid [a]].

(** A change of the bytes of one buffer only. *)
Lemma frag_in_put s f b bytes :
  htt_rx_msdu_desc_retrieve (rx_heap (dp_rx s)) (fg_id f) = Some (fg_d f) -> frame_at b (fg_ind f) (fg_desc f) bytes ->
  frag_in (set_dp_skbs (<[fg_id f := b]>) s) f bytes.
Proof. intros Hd Hf. split; [done|]. exists b. split; [apply lookup_insert_eq|done]. Qed.

Lemma skbs_only_refl s : skbs_only s s.
Proof. by exists (dp_skbs s); destruct s. Qed.

Lemma qos_step s f h b rest :
  frag_in s f (mac_bytes h ++ rest) -> dp_skbs s !! fg_id f = Some b -> mac_ok h -> zlen (mac_bytes h) < 65536 ->
  exists s', when (QOS_HAS_SEQ (mh_fc0 h)) (b ← lift (ol_rx_defrag_qos_decap b (zlen (mac_bytes h))); put_skb (fg_id f) b) s =
      Some (tt, s') /\ skbs_only s s' /\ frag_in s' f (mac_bytes (mac_no_qos h) ++ rest).
Proof.
  intros [Hd (b1 & Hb1 & Hfb)] Hb Hok Hl. assert (b1 = b) as -> by congruence.
  destruct (mac_qos_decap _ _ _ _ _ Hfb Hok Hl) as (b' & Hrun & Hfb'). destruct (QOS_HAS_SEQ (mh_fc0 h)); cbn [when].
  - eexists. unfold mbind, M_bind, lift, put_skb, modify. rewrite Hrun. split; [done|]. split; [apply skbs_only_put|].
    by apply frag_in_put.
  - injection Hrun as ->. exists s. split; [done|]. split; [apply skbs_only_refl|]. split; [done|by exists b'].
Qed.

Lemma eth_step s f h (eth : bool) llc ty data :
  frag_in s f (mac_bytes (mac_no_qos h) ++ llc ++ ty ++ data) -> mac_ok h -> zlen llc = 6 -> zlen ty = 2 ->
  exists s', when eth (b ← get_skb (fg_id f); b ← lift (ol_rx_defrag_nwifi_to_8023 b); put_skb (fg_id f) b) s =
      Some (tt, s') /\ skbs_only s s' /\ frag_in s' f (frame_up eth h llc ty data).
Proof.
  intros Hf Hok Hllc Hty. destruct eth; cbn [when].
  - pose proof Hf as [Hd (b & Hb & Hfb)]. destruct (mac_to_eth _ _ _ _ _ _ _ Hfb Hok Hllc Hty) as (b' & Hrun & Hfb').
    eexists. unfold mbind at 1, M_bind at 1. rewrite (get_skb_run _ _ _ _ Hf Hb).
    unfold mbind, M_bind, lift, put_skb, modify. rewrite Hrun. split; [done|]. split; [apply skbs_only_put|]. by apply frag_in_put.
  - exists s. split; [done|]. split; [apply skbs_only_refl|done].
Qed.

Lemma defrag_finish_good p tid sec mcast s f h llc ty data mic :
  frag_in s f (mac_bytes h ++ (llc ++ ty ++ data) ++ mic) -> mac_ok h -> seg (rx_heap (dp_rx s)) [fg_id f] None ->
  zlen llc = 6 -> zlen ty = 2 -> zlen mic = (if bool_decide (sec = htt_sec_type_tkip) then 8 else 0) ->
  length (dp_michael_key s p mcast) = 8%nat ->
  zlen (fg_desc f) + zlen (mac_bytes h) + zlen (llc ++ ty ++ data) + zlen mic < 2 ^ 31 -> zlen (llc ++ ty ++ data) < 65536 ->
  let ok := mic_good s p sec mcast h (llc ++ ty ++ data) mic in
  exists s', defrag_finish p tid sec mcast (zlen (mac_bytes h)) (fg_id f) s = Some (tt, s') /\
    rx_peers (dp_rx s') = rx_peers (dp_rx s) /\
    if ok then delivered_one s s' p tid (fg_id f) /\ rx_freed (dp_rx s') = rx_freed (dp_rx s) /\
      exists b, dp_skbs s' !! fg_id f = Some b /\
        frame_at b (fg_ind f) (fg_desc f) (frame_up (dp_frm_802_3 s) h llc ty data)
    else rx_delivered (dp_rx s') = rx_delivered (dp_rx s) /\ rx_freed (dp_rx s') = rx_freed (dp_rx s) ++ [fg_id f] /\
      rx_errs (dp_rx s') = rx_errs (dp_rx s) ++ [(p, tid, fg_id f)].
Proof.
  intros Hf Hok Hseg Hllc Hty Hmic Hkey Hmax Hpay ok. set (payload := llc ++ ty ++ data) in *.
  assert (Hml : zlen (mac_bytes h) < 65536).
  { rewrite mac_len by done. destruct Hok as (_ & _ & _ & _ & _ & _ & _ & ->). destruct (has_qos h); [|done]. by destruct (negb (Z.land (mh_fc1 h) _ =? 0)). }
  (* the Michael step *)
  assert (Hmicstep : exists s1, (if bool_decide (sec = htt_sec_type_tkip)
        then on_skb (fg_id f) (fun b => ol_rx_frag_tkip_demic (dp_michael_key s p mcast) b (zlen (mac_bytes h))) else mret true) s =
        Some (ok, s1) /\ skbs_only s s1 /\ (ok = true -> frag_in s1 f (mac_bytes h ++ payload)) /\ (ok = false -> s1 = s)).
  { unfold ok, mic_good. destruct (bool_decide (sec = htt_sec_type_tkip)) eqn:Hsec.
    - apply bool_decide_eq_true in Hsec. pose proof Hf as [Hd (b & Hb & Hfb)].
      destruct (tkip_demic_spec (dp_michael_key s p mcast) b _ _ _ _ _ (mac_pseudo h) Hfb Hkey Hmic (michdr_mac h Hok) Hpay Hml Hmax)
        as (b' & Hrun & Hfb').
      unfold on_skb, mbind, M_bind, lift. rewrite (get_skb_run _ _ _ _ Hf Hb), Hrun.
      destruct (decide (michael (dp_michael_key s p mcast) (mac_pseudo h) payload = Some mic)) as [E|E].
      + eexists. unfold put_skb, modify. split; [by rewrite bool_decide_eq_true_2 by (by right)|]. split; [apply skbs_only_put|].
        split; [|by rewrite bool_decide_eq_true_2 by (by right)]. intros _. by apply frag_in_put.
      + exists s. rewrite bool_decide_eq_false_2 by naive_solver. split; [done|]. split; [|done].
        by exists (dp_skbs s); destruct s.
    - apply bool_decide_eq_false in Hsec. exists s. rewrite bool_decide_eq_true_2 by (by left). split; [done|].
      split; [by exists (dp_skbs s); destruct s|]. split; [|done]. intros _.
      by rewrite (zlen_nil_inv mic Hmic), app_nil_r in Hf. }
  destruct Hmicstep as (s1 & Hrun1 & [bs Hbs] & Hgood & Hbad). fold payload in ok.
  unfold defrag_finish. unfold mbind at 1, M_bind at 1. unfold get at 1.
  unfold mbind at 1, M_bind at 1. rewrite Hrun1. destruct ok; cbn [negb].
  2: { rewrite (Hbad eq_refl). unfold mbind at 1, M_bind at 1. rewrite frame_free_run.
       2: { apply (seg_alloc _ _ _ _ Hseg). by apply list_elem_of_singleton. }
       eexists. split; [done|]. by split. }
  specialize (Hgood eq_refl). clear Hbad Hf. pose proof Hgood as [Hd (b & Hb & Hfb)].
  unfold mbind at 1, M_bind at 1. rewrite (get_skb_run _ _ _ _ Hgood Hb).
  unfold mbind at 1, M_bind at 1, lift at 1. rewrite (frame_size _ _ _ _ Hfb).
  unfold mbind at 1, M_bind at 1, lift at 1. pose proof (frame_byte _ _ _ _ 0 Hfb) as Hb0.
  rewrite Z.add_0_r in Hb0. rewrite Hb0 by (rewrite zlen_app, mac_len by done; pose proof (zlen_nonneg payload); pose proof (zlen_nonneg (mh_qos h)); lia).
  change (znth _ 0) with (Some (mh_fc0 h)).
  unfold mbind at 1, M_bind at 1.
  destruct (qos_step s1 f h b payload Hgood Hb Hok Hml) as (s2 & Hrun2 & [bs2 Hbs2] & Hf2). rewrite Hrun2.
  unfold mbind at 1, M_bind at 1.
  destruct (eth_step s2 f h (dp_frm_802_3 s) llc ty data Hf2 Hok Hllc Hty) as (s3 & Hrun3 & [bs3 Hbs3] & Hf3). rewrite Hrun3.
  assert (Hdp : dp_rx s3 = dp_rx s) by (by subst s3 s2 s1).
  erewrite on_rx_run; [|apply (hand_over_spec _ to_fwd_check p tid [fg_id f]); [by rewrite Hdp|apply NoDup_singleton]].
  eexists. split; [done|]. cbn. rewrite Hdp. split; [done|]. split; [done|]. split; [done|]. apply Hf3.
Qed.
End Finish.

(** ** The whole function *)
Section Whole.
Context `{StackJunk} `{Expand}.
Implicit Types (s : defrag_pdev) (h : mac_hdr).

(** What becomes of a list of fragments: one frame in its first buffer, or
    nothing but freed buffers. *)
Definition defrag_result s s' (p tid : Z) (f0 : frag) (r : list frag) (frame : list Z) (ok : bool) : Prop :=
  (ok = true /\ delivered_one s s' p tid (fg_id f0) /\ rx_freed (dp_rx s') = rx_freed (dp_rx s) ++ frag_ids r /\
     exists b, dp_skbs s' !! fg_id f0 = Some b /\ frame_at b (fg_ind f0) (fg_desc f0) frame) \/
  (rx_delivered (dp_rx s') = rx_delivered (dp_rx s) /\ all_freed s s' (f0 :: r) /\ (expand_never_fails -> ok = false)).

Lemma defrag_result_base s s1 s' p tid f0 r frame ok :
  rx_delivered (dp_rx s1) = rx_delivered (dp_rx s) -> rx_freed (dp_rx s1) = rx_freed (dp_rx s) ->
  defrag_result s1 s' p tid f0 r frame ok -> defrag_result s s' p tid f0 r frame ok.
Proof. intros E1 E2. unfold defrag_result, delivered_one, all_freed. by rewrite E1, E2. Qed.

Lemma mac_joined_len h : mac_ok h -> zlen (mac_bytes (mac_joined h)) = zlen (mac_bytes h).
Proof. intros Hok. by rewrite !mac_len by (by try apply mac_joined_ok). Qed.

(** The joining, with the fields of the header cleared. *)
Lemma recombine_spec s f0 r h n :
  frag_list s (f0 :: r) -> frags_in s decapped (f0 :: r) -> fg_hdr f0 = mac_bytes h -> mac_ok h ->
  Forall (fun f => zlen (fg_hdr f) = zlen (mac_bytes h)) r ->
  zlen (fg_desc f0) + zlen (mac_bytes h) + zlen (concat (fg_body <$> f0 :: r)) < 2 ^ 32 -> (length r <= n)%nat ->
  exists (ok : bool) s', ol_rx_defrag_decap_recombine n (fg_id f0) (zlen (mac_bytes h)) s =
      Some (if ok then Some (fg_id f0) else None, s') /\
    joined s s' f0 (mac_bytes (mac_joined h) ++ concat (fg_body <$> f0 :: r)) r ok /\ (expand_never_fails -> ok = true).
Proof.
  intros [Hs Hnd] Hin Hh Hok Hhdr Hmax Hn. apply list.Forall_cons in Hin as [Hf0 Hr]. cbn [fmap list_fmap] in *.
  destruct Hs as [Hnx Hs]. pose proof Hnd as Hnd0. apply list.NoDup_cons in Hnd0 as [Hf0r Hndr].
  assert (Hal : is_Some (rx_heap (dp_rx s) !! fg_id f0)).
  { destruct Hf0 as [Hd _]. unfold htt_rx_msdu_desc_retrieve in Hd. by destruct (rx_heap (dp_rx s) !! fg_id f0). }
  destruct (set_next_seg _ (fg_id f0) None Hal) as (h1 & Hset & Hseg & Hrel).
  set (s1 := set_dp_rx (set_rx_heap (fun _ => h1)) s).
  assert (Hin1 : forall bytes l, frags_in s bytes l -> frags_in s1 bytes l).
  { intros bytes l. apply frags_in_frame. intros i _. split; [|done]. unfold s1. cbn. by rewrite (relinked_desc _ _ _ _ Hrel). }
  unfold ol_rx_defrag_decap_recombine. unfold mbind at 1, M_bind at 1. rewrite (nbuf_next_run _ _ _ Hnx).
  unfold mbind at 1, M_bind at 1. rewrite (nbuf_set_next_run _ _ _ _ Hset). fold s1.
  destruct (recombine_loop_spec f0 (mac_bytes h) (zlen (mac_bytes h)) r n s1 (fg_body f0)) as (ok & s2 & Hrun & Hj & Hexp); try done.
  - eapply seg_relinked; [exact Hrel| |exact Hs]. set_solver.
  - specialize (Hin1 decapped [f0]). unfold decapped in Hin1. rewrite <- Hh.
    apply list.Forall_singleton in Hin1; [done|]. by apply list.Forall_singleton.
  - by apply Hin1.
  - unfold mbind at 1, M_bind at 1. rewrite Hrun. destruct ok.
    2: { exists false, s2. done. }
    destruct Hj as (Hsame & Hp & Hfr & Hf2 & Hs2). pose proof Hf2 as [Hd2 (b & Hb & Hfb)].
    destruct (clear_frag_fields_spec _ _ _ _ _ Hfb) as (b' & Hclear & Hfb').
    { rewrite mac_len by done. pose proof (zlen_nonneg (mh_qos h)). lia. }
    rewrite clear_frag_mac in Hfb' by done.
    exists true. eexists. unfold mbind, M_bind, lift. rewrite (get_skb_run _ _ _ _ Hf2 Hb), Hclear.
    split; [done|]. split; [|done]. split; [exact Hsame|]. split; [exact Hp|]. split; [exact Hfr|]. split; [|done].
    by apply frag_in_put.
Qed.

(** The fragments of one MSDU as the cipher of the key shapes them: headers of
    one length, the first one [h], and the payloads put together are the LLC
    header, the type, the data and, for TKIP, the MIC. *)
Definition msdu_of (sec : sec_type) (h : mac_hdr) (llc ty data mic : list Z) (l : list frag) : Prop :=
  Forall (frag_shape sec (zlen (mac_bytes h))) l /\ (fg_hdr <$> head l) = Some (mac_bytes h) /\ mac_ok h /\
  concat (fg_body <$> l) = (llc ++ ty ++ data) ++ mic /\ zlen llc = 6 /\ zlen ty = 2 /\
  zlen mic = (if bool_decide (sec = htt_sec_type_tkip) then 8 else 0) /\ zlen (llc ++ ty ++ data) < 65536 /\
  Forall (fun f => zlen (fg_desc f) + zlen (mac_bytes h) + zlen (concat (fg_body <$> l)) < 2 ^ 31) l.

Lemma delivered_nothing s s' l p tid f0 r frame ok :
  l = f0 :: r -> same_dp s s' -> all_freed s s' l -> (expand_never_fails -> ok = false) ->
  defrag_result s s' p tid f0 r frame ok.
Proof. intros -> [(Hd & _) _] Hf Hok. by right. Qed.

(** From the cipher's headers on. *)
Lemma decap_and_finish p tid n s sec (mcast : bool) f0 r h llc ty data mic :
  frag_list s (f0 :: r) -> frags_in s without_fcs (f0 :: r) -> msdu_of sec h llc ty data mic (f0 :: r) ->
  length (dp_michael_key s p mcast) = 8%nat -> (length (f0 :: r) <= n)%nat ->
  exists s', (ok ← decap_frags n sec (zlen (mac_bytes h)) (Some (fg_id f0));
      if negb (ok : bool) then skip
      else
        msdu ← ol_rx_defrag_decap_recombine n (fg_id f0) (zlen (mac_bytes h));
        match msdu with
        | None => skip
        | Some msdu => defrag_finish p tid sec mcast (zlen (mac_bytes h)) msdu
        end) s = Some (tt, s') /\ rx_peers (dp_rx s') = rx_peers (dp_rx s) /\
    defrag_result s s' p tid f0 r (frame_up (dp_frm_802_3 s) (mac_joined h) llc ty data)
      (forallb (iv_accepted sec) (f0 :: r) && mic_good s p sec mcast h (llc ++ ty ++ data) mic).
Proof.
  intros Hl Hin (Hshape & Hh & Hok & Hcat & Hllc & Hty & Hmic & Hpay & Hmax) Hkey Hn.
  injection Hh as Hh. pose proof Hshape as Hshape'. apply list.Forall_cons in Hmax as [Hmax _].
  destruct (decap_frags_spec sec (zlen (mac_bytes h)) (f0 :: r) n s Hl Hin Hshape Hn) as (s1 & Hrun1 & Hs1 & Hp1 & Hres1).
  unfold mbind at 1, M_bind at 1. change (Some (fg_id f0)) with (hd_or None (frag_ids (f0 :: r))). rewrite Hrun1.
  destruct (forallb (iv_accepted sec) (f0 :: r)) eqn:Hiv; cbn [negb andb].
  2: { exists s1. split; [done|]. split; [done|]. by eapply delivered_nothing. }
  destruct Hres1 as [[bs Hbs] Hin1].
  assert (Hl1 : frag_list s1 (f0 :: r)) by (by subst s1).
  assert (Hhdr : Forall (fun f => zlen (fg_hdr f) = zlen (mac_bytes h)) r).
  { apply list.Forall_cons in Hshape' as [_ Hr]. eapply list.Forall_impl; [exact Hr|]. by intros f (? & _). }
  destruct (recombine_spec s1 f0 r h n Hl1 Hin1 Hh Hok Hhdr) as (ok & s2 & Hrun2 & Hj & Hexp); [lia|simpl in Hn; lia|].
  unfold mbind at 1, M_bind at 1. rewrite Hrun2. destruct Hj as (Hs2 & Hp2 & Hj).
  assert (Hs02 : same_dp s s2) by (by eapply same_dp_trans). destruct ok.
  2: { exists s2. split; [done|]. split; [congruence|]. eapply delivered_nothing; [done|done| |].
    - unfold all_freed in *. by subst s1.
    - intros He. by specialize (Hexp He). }
  destruct Hj as (Hfr2 & Hf2 & Hseg2). rewrite Hcat in Hf2, Hmax. rewrite !zlen_app in Hmax.
  pose proof Hs02 as ((Hd02 & _) & Hk02 & _ & He02).
  destruct (defrag_finish_good p tid sec mcast s2 f0 (mac_joined h) llc ty data mic) as (s3 & Hrun3 & Hp3 & Hres3); try done.
  - by apply mac_joined_ok.
  - by rewrite Hk02.
  - rewrite mac_joined_len, !zlen_app by done. rewrite zlen_app in Hpay. lia.
  - rewrite mac_joined_len in Hrun3 by done. exists s3. split; [exact Hrun3|]. split; [congruence|].
    rewrite He02 in Hres3. unfold mic_good in *. rewrite mac_joined_pseudo, Hk02 in Hres3.
    assert (Hfr : rx_freed (dp_rx s2) = rx_freed (dp_rx s) ++ frag_ids r) by (by subst s1).
    case_bool_decide.
    + left. split; [done|]. destruct Hres3 as (Hdel & Hfr3 & Hb). unfold delivered_one in *.
      rewrite Hdel, Hd02, Hfr3. done.
    + right. destruct Hres3 as (Hdel & Hfr3 & _). split; [congruence|]. split; [|done].
      exists (frag_ids r ++ [fg_id f0]). split; [by rewrite Hfr3, Hfr, <- app_assoc|]. cbn. by rewrite Permutation_app_comm.
Qed.

Lemma pn_pass_sec tid l : forall x x' ok d, pn_pass x tid l = (x', ok) -> sec_type_of x' d = sec_type_of x d.
Proof.
  induction l as [|f r IH]; intros x x' ok d E; cbn [pn_pass] in E; [by injection E as <- _|].
  destruct (pn_decision x tid _) as [[[k g] v] q]. case_bool_decide; [by eapply IH in E as ->|by injection E as <- _].
Qed.

(** The whole of [ol_rx_defrag] on a complete list. *)
Lemma ol_rx_defrag_spec p tid s x f0 r h llc ty data mic :
  let l := f0 :: r in
  let sec := sec_type_of x (fg_d f0) in
  dp_safemode s p = false -> rx_peers (dp_rx s) !! p = Some x -> tids_sized x -> 0 <= tid < OL_TXRX_NUM_EXT_TIDS ->
  frag_list s l -> frags_in s received l ->
  Forall (fun f => rd_completes_mpdu (fg_d f) = true /\ zlen (fg_fcs f) = 4) l ->
  msdu_of sec h llc ty data mic l -> length (dp_michael_key s p (rd_mcast (fg_d f0))) = 8%nat ->
  let '(x', fresh) := pn_pass x tid l in
  exists s', ol_rx_defrag p tid (fg_id f0) s = Some (tt, s') /\ rx_peers (dp_rx s') !! p = Some x' /\
    defrag_result s s' p tid f0 r (frame_up (dp_frm_802_3 s) (mac_joined h) llc ty data)
      (fresh && (forallb (iv_accepted sec) l && mic_good s p sec (rd_mcast (fg_d f0)) h (llc ++ ty ++ data) mic)).
Proof.
  intros l sec Hsafe Hp Hx Ht Hl Hin Hcf Hmsdu Hkey. set (n := heap_fuel (rx_heap (dp_rx s))).
  assert (Hn : (length l <= n)%nat).
  { destruct Hl as [Hs Hnd]. pose proof (seg_length _ _ _ Hnd Hs). rewrite length_fmap in *. unfold n, heap_fuel. lia. }
  pose proof (defrag_pn_loop_spec p tid l [] n s x Hp Hx Ht Hl (list.Forall_nil_2 _) Hin Hcf Hn) as Hloop.
  destruct (pn_pass x tid l) as [x' fresh] eqn:Hpass. destruct Hloop as (s1 & Hrun1 & Hp1 & Hx1 & Hs1 & Hres1).
  cbn [app fmap list_fmap list.last hd_or] in Hrun1. unfold ol_rx_defrag. unfold mbind at 1, M_bind at 1. unfold get at 1.
  rewrite Hsafe. fold n. unfold mbind at 1, M_bind at 1. change (hd_or None (frag_ids l)) with (Some (fg_id f0)) in Hrun1.
  rewrite Hrun1. destruct fresh; cbn [negb andb].
  2: { exists s1. split; [done|]. split; [done|]. by eapply delivered_nothing. }
  destruct Hres1 as (Hfr1 & Hl1 & Hin1). cbn [app] in Hl1, Hin1.
  pose proof Hin1 as Hin1'. apply list.Forall_cons in Hin1' as [Hf0 _]. pose proof Hf0 as [Hd (b & Hb & Hfb)].
  pose proof Hmsdu as (_ & [= Hh] & Hok & _). unfold without_fcs in Hfb. rewrite Hh in Hfb.
  unfold mbind at 1, M_bind at 1. rewrite (get_skb_run _ _ _ _ Hf0 Hb).
  unfold mbind at 1, M_bind at 1, lift at 1. rewrite (frame_size _ _ _ _ Hfb).
  unfold mbind at 1, M_bind at 1, lift at 1. rewrite (hdrsize_mac _ _ _ _ _ Hfb Hok).
  unfold mbind at 1, M_bind at 1. unfold get at 1. unfold mbind at 1, M_bind at 1, lift at 1. rewrite Hd.
  unfold mbind at 1, M_bind at 1. rewrite (on_rx_run _ _ _ _ (get_peer_at _ _ _ Hp1)).
  rewrite (pn_pass_sec _ _ _ _ _ _ Hpass). fold sec. replace (set_dp_rx (fun _ => dp_rx s1) s1) with s1 by (by destruct s1).
  pose proof Hs1 as ((Hd1 & _) & Hk1 & _ & He1).
  destruct (decap_and_finish p tid n s1 sec (rd_mcast (fg_d f0)) f0 r h llc ty data mic) as (s' & Hrun & Hp' & Hres); try done.
  { by rewrite Hk1. }
  exists s'. split; [exact Hrun|]. split; [by rewrite Hp'|]. unfold mic_good in *. rewrite He1, Hk1 in Hres.
  by eapply defrag_result_base.
Qed.
End Whole.
