(* ===== verification/RxDefragProps.v ===== *)
(** Theorems about the processing of a complete fragment list, each with a
    concrete run. *)
From Stdlib Require Import ZArith Lia.
From stdpp Require Import prelude gmap list numbers functions.
From S2P Require Import Prelude.
From S2P Require Import RxTypes.
From S2P Require Import RxList.
From S2P Require Import RxPn.
From S2P Require Import RxPnSpec.
From S2P Require Import RxInv.
From S2P Require Import RxStage.
From S2P Require Import RxReorder.
From S2P Require Import RxExample.
From S2P Require Import RxNbuf.
From S2P Require Import RxMichael.
From S2P Require Import RxDecap.
From S2P Require Import RxDefragProc.
From S2P Require Import RxDecapSpec.
From S2P Require Import RxDefragSteps.
From S2P Require Import RxDefragProcSpec.

(** ** A concrete list

    Peer 7 has a TKIP key.  Buffers 31 and 32 are the fragments 0 and 1 of a
    frame from the station to the access point; the first buffer has room for
    the payload of the second one. *)
Definition exd_desc (packet_number fragno : Z) (more : bool) : rx_desc := ex_frag_desc packet_number fragno more.
Definition exd_mac : mac_hdr :=
  mk_mac_hdr 0x88 0x45 [0; 0] [2; 0; 0; 0; 0; 1] [2; 0; 0; 0; 0; 2] [2; 0; 0; 0; 0; 3] [0x90; 0x01] [5; 0].
Definition exd_mac_2 : mac_hdr :=
  mk_mac_hdr 0x88 0x41 [0; 0] [2; 0; 0; 0; 0; 1] [2; 0; 0; 0; 0; 2] [2; 0; 0; 0; 0; 3] [0x91; 0x01] [5; 0].
Definition exd_llc : list Z := [0xaa; 0xaa; 3; 0; 0; 0].
Definition exd_type : list Z := [8; 0].
Definition exd_data : list Z := [1; 2; 3; 4; 5; 6; 7; 8; 9; 10; 11].
Definition exd_key : list Z := [10; 11; 12; 13; 14; 15; 16; 17].
Definition exd_payload : list Z := exd_llc ++ exd_type ++ exd_data.
Definition exd_mic : list Z := Eval vm_compute in default [] (michael exd_key (mac_pseudo exd_mac) exd_payload).

Definition exd_ind : list Z := <[50%nat := 4]> (replicate 56 0).
Definition exd_f0 : frag :=
  mk_frag 31 (exd_desc 301 0 true) exd_ind [1; 1; 1; 1] (mac_bytes exd_mac) [0; 0; 0; 0x20; 0; 0; 0; 0]
    (take 10 exd_payload) [0; 0; 0; 0] [9; 9; 9; 9].
Definition exd_f1 : frag :=
  mk_frag 32 (exd_desc 302 1 false) exd_ind [1; 1; 1; 1] (mac_bytes exd_mac_2) [0; 0; 0; 0x20; 0; 0; 0; 0]
    (drop 10 exd_payload ++ exd_mic) [0; 0; 0; 0] [9; 9; 9; 9].

Definition exd_skb (f : frag) : skb :=
  mk_skb (fg_ind f ++ fg_desc f ++ received f ++ replicate 40 0) 56 (zlen (fg_desc f) + zlen (received f)).
Definition exd_peer : rx_peer := set_rp_sec_ucast (fun _ => htt_sec_type_tkip) (ol_rx_peer_init ex_mem).
Definition exd_rx : rx_pdev :=
  set_rx_heap (fun _ => list_to_map [(31, mk_nbuf (Some 32) (fg_d exd_f0)); (32, mk_nbuf None (fg_d exd_f1))])
    (with_peer 7 exd_peer ex_open).
Definition exd : defrag_pdev :=
  mk_defrag_pdev exd_rx {[ 31 := exd_skb exd_f0; 32 := exd_skb exd_f1 ]} (fun _ _ => exd_key) (fun _ => false) true.

(** A kernel with as much memory as is asked for. *)
Definition exd_expand : Expand := fun _ n => Some (replicate (Z.to_nat n) 0).

Lemma exd_skb_frame f :
  zlen (fg_ind f) = 56 -> znth (fg_ind f) 50 = Some (zlen (fg_desc f)) -> sk_len (exd_skb f) < 2 ^ 32 ->
  frame_at (exd_skb f) (fg_ind f) (fg_desc f) (received f).
Proof. intros H1 H2 H3. by exists [], (replicate 40 0). Qed.

Lemma exd_frags : frags_in exd received [exd_f0; exd_f1].
Proof.
  repeat constructor; try done; eexists; (split; [done|]); by apply exd_skb_frame.
Qed.

Lemma exd_list : frag_list exd [exd_f0; exd_f1].
Proof. split; [by repeat split|by apply (bool_decide_unpack _)]. Qed.

Lemma exd_msdu : msdu_of htt_sec_type_tkip exd_mac exd_llc exd_type exd_data exd_mic [exd_f0; exd_f1].
Proof. unfold msdu_of. split_and!; try done; by repeat constructor. Qed.

(** C12: processing a complete list of fragments ([ol_rx_defrag]).  For every
    cipher and every list of fragments that are shaped as the cipher of the
    peer's key shapes them, the function returns, never using a buffer after
    it is freed, and the packet numbers of the peer are those of the fragments
    checked one after the other.  If every fragment passes the replay check,
    every cipher header is one the cipher accepts, the MIC of a TKIP frame is
    that of the standard, and memory for the joined frame can be had, exactly
    one frame goes to the next stage: it is in the first buffer, its payload is
    the payloads of the fragments in order, its header an Ethernet header with
    the addresses of the MAC header (or the MAC header without QoS control and
    fragment fields), and the other buffers are freed.  Otherwise nothing is
    delivered and every buffer is freed, once. *)
Theorem ol_rx_defrag_correct (junk : StackJunk) (E : Expand) p tid s x f0 r h llc ty data mic :
  let l := f0 :: r in
  let sec := sec_type_of x (fg_d f0) in
  dp_safemode s p = false -> rx_peers (dp_rx s) !! p = Some x -> tids_sized x -> 0 <= tid < OL_TXRX_NUM_EXT_TIDS ->
  frag_list s l -> frags_in s received l ->
  Forall (fun f => rd_completes_mpdu (fg_d f) = true /\ zlen (fg_fcs f) = 4) l ->
  msdu_of sec h llc ty data mic l -> length (dp_michael_key s p (rd_mcast (fg_d f0))) = 8%nat ->
  let '(x', fresh) := pn_pass x tid l in
  let ok := fresh && (forallb (iv_accepted sec) l && mic_good s p sec (rd_mcast (fg_d f0)) h (llc ++ ty ++ data) mic) in
  let frame := frame_up (dp_frm_802_3 s) (mac_joined h) llc ty data in
  exists s', ol_rx_defrag p tid (fg_id f0) s = Some (tt, s') /\ rx_peers (dp_rx s') !! p = Some x' /\
    ((ok = true /\ rx_delivered (dp_rx s') = rx_delivered (dp_rx s) ++ [mk_delivery to_fwd_check p tid [fg_id f0]] /\
      rx_freed (dp_rx s') = rx_freed (dp_rx s) ++ frag_ids r /\
      exists b, dp_skbs s' !! fg_id f0 = Some b /\ frame_at b (fg_ind f0) (fg_desc f0) frame) \/
     (rx_delivered (dp_rx s') = rx_delivered (dp_rx s) /\
      (exists k, rx_freed (dp_rx s') = rx_freed (dp_rx s) ++ k /\ k ≡ₚ frag_ids l) /\
      (expand_never_fails -> ok = false))).
Proof. exact (ol_rx_defrag_spec p tid s x f0 r h llc ty data mic). Qed.

(** On the concrete list one Ethernet frame goes up. *)
Lemma ol_rx_defrag_correct_witness :
  exists s', @ol_rx_defrag ex_junk exd_expand 7 0 31 exd = Some (tt, s') /\
    rx_delivered (dp_rx s') = [mk_delivery to_fwd_check 7 0 [31]] /\ rx_freed (dp_rx s') = [32] /\
    exists b, dp_skbs s' !! 31 = Some b /\
      frame_at b exd_ind [1; 1; 1; 1] ([2; 0; 0; 0; 0; 3] ++ [2; 0; 0; 0; 0; 2] ++ exd_type ++ exd_data).
Proof.
  destruct (ol_rx_defrag_correct ex_junk exd_expand 7 0 exd exd_peer exd_f0 [exd_f1] exd_mac exd_llc exd_type exd_data exd_mic)
    as (s' & Hrun & _ & [(_ & Hd & Hf & Hb) | (_ & _ & Hok)]);
    [done|done|apply (ol_rx_peer_init_sized ex_mem), ex_mem_sized|done|exact exd_list|exact exd_frags|by repeat constructor|
     exact exd_msdu|done| |].
  - exists s'. split; [exact Hrun|]. split; [exact Hd|]. split; [exact Hf|]. exact Hb.
  - assert (Hex : @expand_never_fails exd_expand) by (intros b n; by eexists). specialize (Hok Hex). by vm_compute in Hok.
Defined.

(** ** Michael *)

(** C32: [ol_rx_defrag_mic] computes Michael as the standard defines it, over the
    pseudo header of the frame and [len] bytes of payload that start [off]
    bytes into the frame and go on in the buffers linked behind the first one,
    wherever the 32-bit words of the message are cut by the ends of the
    buffers: every buffer behind the first has at least three bytes, and the
    message ends with less than a word outside the last buffer. *)
Theorem ol_rx_defrag_mic_correct key wbuf rest off len hdr d body bodies :
  length key = 8%nat -> htt_rx_msdu_rx_desc_size_hl wbuf = Some d -> payload wbuf body -> Forall2 payload rest bodies ->
  Forall (fun b => 3 <= zlen b) bodies -> ol_rx_defrag_michdr (sk_mem wbuf) (sk_data wbuf + d) = Some hdr ->
  0 <= off <= zlen body -> 0 <= len < 65536 ->
  let msg := drop (Z.to_nat off) body ++ concat bodies in
  len <= zlen msg ->
  (bodies = [] \/ zlen (drop (Z.to_nat off) body ++ concat (removelast bodies)) < 4 * (len / 4)) ->
  ol_rx_defrag_mic key wbuf rest off len = Some (michael key hdr (take (Z.to_nat len) msg)).
Proof. apply ol_rx_defrag_mic_spec. Qed.

(** A message of nineteen bytes cut after ten. *)
Definition exm_skb (body : list Z) : skb :=
  mk_skb (exd_ind ++ [1; 1; 1; 1] ++ body) 56 (4 + zlen body).

Lemma ol_rx_defrag_mic_correct_witness :
  ol_rx_defrag_mic exd_key (exm_skb (mac_bytes exd_mac ++ take 10 exd_payload)) [exm_skb (drop 10 exd_payload)] 26 19 =
  Some (Some exd_mic).
Proof.
  assert (Hp : forall l, zlen l < 100 -> payload (exm_skb l) l).
  { intros l Hl. exists 4. pose proof (zlen_nonneg l). split; [done|]. split; [lia|]. split; [unfold exm_skb; cbn; lia|].
    unfold exm_skb. cbn [sk_mem sk_data]. rewrite <- (app_nil_r l) at 1. rewrite app_assoc. by apply rd_app. }
  rewrite (ol_rx_defrag_mic_correct exd_key (exm_skb (mac_bytes exd_mac ++ take 10 exd_payload)) [exm_skb (drop 10 exd_payload)]
    26 19 (mac_pseudo exd_mac) 4 (mac_bytes exd_mac ++ take 10 exd_payload) [drop 10 exd_payload]).
  - by vm_compute.
  - done.
  - by vm_compute.
  - by apply Hp.
  - constructor; [by apply Hp|constructor].
  - by constructor.
  - by vm_compute.
  - by vm_compute.
  - done.
  - by vm_compute.
  - right. by vm_compute.
Defined.

(** C38: a change of one aligned word of the payload of a TKIP frame is always
    found ([ol_rx_frag_tkip_demic]): of two frames with the same header and the
    same MIC that differ in one word, at most one is accepted.  Each round of
    Michael can be inverted, so that a difference in one word cannot vanish. *)
Theorem tkip_demic_detects key b1 b2 ind desc hdr w1 x y w2 mic pseudo b' :
  frame_at b1 ind desc (hdr ++ (w1 ++ x ++ w2) ++ mic) -> frame_at b2 ind desc (hdr ++ (w1 ++ y ++ w2) ++ mic) ->
  length key = 8%nat -> zlen mic = 8 -> ol_rx_defrag_michdr hdr 0 = Some pseudo ->
  zlen (w1 ++ x ++ w2) < 65536 -> zlen hdr < 65536 -> zlen desc + zlen hdr + zlen (w1 ++ x ++ w2) + zlen mic < 2 ^ 31 ->
  zlen w1 mod 4 = 0 -> length x = 4%nat -> length y = 4%nat -> Forall byte x -> Forall byte y -> x <> y ->
  ol_rx_frag_tkip_demic key b1 (zlen hdr) = Some (Some b') ->
  ol_rx_frag_tkip_demic key b2 (zlen hdr) = Some None.
Proof.
  intros H1 H2 Hk Hm Hp Hb Hh Hmax Hw Hx Hy Hbx Hby Hne Hacc.
  assert (Hxy : zlen (w1 ++ y ++ w2) = zlen (w1 ++ x ++ w2)) by (rewrite !zlen_app; unfold zlen; lia).
  destruct (tkip_demic_spec key b1 _ _ _ _ _ pseudo H1 Hk Hm Hp Hb Hh Hmax) as (c1 & E1 & _).
  destruct (tkip_demic_spec key b2 _ _ _ _ _ pseudo H2 Hk Hm Hp) as (c2 & E2 & _); [by rewrite Hxy|done|by rewrite Hxy|].
  rewrite E1 in Hacc. rewrite E2. destruct (decide (michael key pseudo (w1 ++ x ++ w2) = Some mic)) as [M1|]; [|done].
  destruct (decide (michael key pseudo (w1 ++ y ++ w2) = Some mic)) as [M2|]; [|done].
  destruct Hne. apply (michael_detects key pseudo w1 x y w2); try done; [|congruence].
  apply michdr_length in Hp. unfold zlen. by rewrite Hp.
Qed.

(** The payload of the concrete frame, and the same with one byte changed. *)
Definition exd_tampered : list Z := <[9%nat := 3]> exd_payload.
Definition exd_frame (l : list Z) : skb := exm_skb (mac_bytes exd_mac ++ l ++ exd_mic).

Lemma tkip_demic_detects_witness : ol_rx_frag_tkip_demic exd_key (exd_frame exd_tampered) 26 = Some None.
Proof.
  assert (Hf : forall l, zlen (mac_bytes exd_mac ++ l ++ exd_mic) < 100 ->
    frame_at (exd_frame l) exd_ind [1; 1; 1; 1] (mac_bytes exd_mac ++ l ++ exd_mic)).
  { intros l Hl. exists [], []. rewrite app_nil_r. split; [done|]. split; [done|]. split; [done|]. split; [done|].
    split; [done|]. cbn [exd_frame exm_skb sk_len]. lia. }
  change 26 with (zlen (mac_bytes exd_mac)).
  apply (tkip_demic_detects exd_key (exd_frame exd_payload) (exd_frame exd_tampered) exd_ind [1; 1; 1; 1] (mac_bytes exd_mac)
    (take 8 exd_payload) [1; 2; 3; 4] [1; 3; 3; 4] (drop 12 exd_payload) exd_mic (mac_pseudo exd_mac)
    (adf_nbuf_trim_tail (exd_frame exd_payload) 8)).
  - by apply (Hf exd_payload).
  - by apply (Hf exd_tampered).
  - done.
  - done.
  - by vm_compute.
  - done.
  - done.
  - done.
  - done.
  - done.
  - done.
  - by repeat constructor.
  - by repeat constructor.
  - done.
  - by vm_compute.
Defined.

(** ** Four addresses *)

(** In a QoS data frame with four addresses the QoS control field follows
    the fourth address, but [ol_rx_defrag_michdr] reads the priority where a
    frame with three addresses has it, which is the first byte of the fourth
    address.  So the pseudo header does not depend on the priority of such a
    frame, and it is not the one of the standard as soon as the priority
    differs from the low bits of that byte. *)
Theorem michdr_four_addresses fc0 fc1 dur a1 a2 a3 seq sa0 sa q qos :
  Z.land fc1 IEEE80211_FC1_DIR_MASK = IEEE80211_FC1_DIR_DSTODS -> Z.land fc0 IEEE80211_FC0_SUBTYPE_QOS <> 0 ->
  length dur = 2%nat -> length a1 = 6%nat -> length a2 = 6%nat -> length a3 = 6%nat -> length seq = 2%nat ->
  length sa = 5%nat ->
  let frame := [fc0; fc1] ++ dur ++ a1 ++ a2 ++ a3 ++ seq ++ (sa0 :: sa) ++ q :: qos in
  ol_rx_defrag_michdr frame 0 = Some (a3 ++ (sa0 :: sa) ++ [Z.land sa0 0x0f; 0; 0; 0]) /\
  (Z.land q 0x0f <> Z.land sa0 0x0f ->
   ol_rx_defrag_michdr frame 0 <> Some (a3 ++ (sa0 :: sa) ++ [Z.land q 0x0f; 0; 0; 0])).
Proof.
  intros Hdir Hqos Hd H1 H2 H3 Hs Hsa frame.
  assert (E : ol_rx_defrag_michdr frame 0 = Some (a3 ++ (sa0 :: sa) ++ [Z.land sa0 0x0f; 0; 0; 0])).
  { unfold ol_rx_defrag_michdr. change (znth frame 0) with (Some fc0). change (znth frame (0 + 1)) with (Some fc1).
    cbn [mbind option_bind]. rewrite Hdir. rewrite (proj2 (Z.eqb_neq _ _) Hqos). cbn [Z.eqb Pos.eqb orb negb].
    assert (R1 : rd frame 16 6 = Some a3).
    { unfold frame. rewrite !(app_assoc [_; _]), (app_assoc (_ ++ dur)), (app_assoc (_ ++ a1)).
      apply rd_app; unfold zlen; rewrite ?length_app, ?Hd, ?H1, ?H2, ?H3; done. }
    assert (R2 : rd frame 24 6 = Some (sa0 :: sa)).
    { unfold frame.
      rewrite !(app_assoc [_; _]), (app_assoc (_ ++ dur)), (app_assoc (_ ++ a1)), (app_assoc (_ ++ a2)), (app_assoc (_ ++ a3)).
      apply rd_app; unfold zlen; rewrite ?length_app, ?Hd, ?H1, ?H2, ?H3, ?Hs; simpl; by rewrite ?Hsa. }
    assert (R3 : znth frame 24 = Some sa0).
    { unfold frame. clear -Hd H1 H2 H3 Hs.
      do 2 (destruct dur as [|? dur]; [done|]); destruct dur; [|done].
      do 6 (destruct a1 as [|? a1]; [done|]); destruct a1; [|done].
      do 6 (destruct a2 as [|? a2]; [done|]); destruct a2; [|done].
      do 6 (destruct a3 as [|? a3]; [done|]); destruct a3; [|done].
      do 2 (destruct seq as [|? seq]; [done|]); destruct seq; done. }
    unfold IEEE80211_FC1_DIR_DSTODS. cbn [Z.eqb Pos.eqb orb]. rewrite !Z.add_0_l, R1. cbn [mbind option_bind]. rewrite R2. cbn [mbind option_bind]. by rewrite R3. }
  split; [exact E|]. rewrite E. intros Hne [= Heq%app_inv_head]. apply Hne. injection Heq as Heq. apply app_inv_head in Heq. congruence.
Qed.

Lemma michdr_four_addresses_witness :
  ol_rx_defrag_michdr ([0x88; 3; 0; 0; 1; 1; 1; 1; 1; 1; 2; 2; 2; 2; 2; 2; 3; 3; 3; 3; 3; 3; 0; 0; 2; 4; 4; 4; 4; 4; 5; 0]) 0
  <> Some [3; 3; 3; 3; 3; 3; 2; 4; 4; 4; 4; 4; 5; 0; 0; 0].
Proof.
  apply (michdr_four_addresses 0x88 3 [0; 0] [1; 1; 1; 1; 1; 1] [2; 2; 2; 2; 2; 2] [3; 3; 3; 3; 3; 3] [0; 0] 2 [4; 4; 4; 4; 4]
    5 [0]); done.
Defined.
