(* ===== verification/PeerTypes.v ===== *)
(** The data of the peer table ([ol_txrx_peer_find.c], the peer functions of
    [ol_txrx.c]): peers with their reference counts, virtual devices, the hash
    table of MAC addresses, the map of target ids and the pool of local ids.
    What the queues and the receive state of a peer need at each step is an
    interface, [DataPath]. *)
From Stdlib Require Import ZArith Lia.
From stdpp Require Import prelude gmap list numbers.
From S2P Require Import Prelude.

(** ** Constants *)
Definition MAX_NUM_PEER_ID_PER_PEER : Z := 8.
Definition HTT_INVALID_PEER : Z := 0xffff.
Definition OL_TXRX_INVALID_LOCAL_PEER_ID : Z := 0xffff.
Definition OL_TXRX_NUM_LOCAL_PEER_IDS : Z := 34.
Definition TXRX_PEER_HASH_LOAD_MULT : Z := 2.
Definition TXRX_PEER_HASH_LOAD_SHIFT : Z := 0.

(** [union ol_txrx_align_mac_addr_t], as its three 16-bit words. *)
Record mac_addr := mk_mac_addr { bytes_ab : Z; bytes_cd : Z; bytes_ef : Z }.
#[export] Instance mac_addr_eq_dec : EqDecision mac_addr.
Proof. solve_decision. Defined.

Inductive ol_txrx_peer_state :=
  ol_txrx_peer_state_invalid | ol_txrx_peer_state_disc | ol_txrx_peer_state_conn | ol_txrx_peer_state_auth.
#[export] Instance ol_txrx_peer_state_eq_dec : EqDecision ol_txrx_peer_state.
Proof. solve_decision. Defined.

(** [enum wlan_op_mode]. *)
Inductive wlan_op_mode :=
  wlan_op_mode_unknown | wlan_op_mode_ap | wlan_op_mode_ibss | wlan_op_mode_sta | wlan_op_mode_monitor | wlan_op_mode_ocb | wlan_op_mode_ndi.
#[export] Instance wlan_op_mode_eq_dec : EqDecision wlan_op_mode.
Proof. solve_decision. Defined.

(** The functions [peer->tx_filter] can point to. *)
Inductive tx_filter := ol_tx_filter_discard | ol_tx_filter_non_auth | ol_tx_filter_pass_thru.

(** What the outside sees: memory of peers and vdevs freed, the callback of a
    deleted vdev, and the completion a waiting [ol_txrx_peer_attach] gets. *)
Inductive event := peer_freed (p : Z) | vdev_freed (v : Z) | vdev_delete_cb (v ctxt : Z) | wait_completed (v : Z).

(** ** Peers, vdevs and the device

    [pe_sec_type]: the [htt_sec_type] for multicast and for unicast frames. *)

Record peer := mk_peer {
  pe_vdev : Z;
  pe_mac : mac_addr;
  pe_valid : bool;
  pe_ref_cnt : Z;
  pe_delete_in_progress : bool;
  pe_peer_ids : list Z;
  pe_local_id : Z;
  pe_bss_peer : bool;
  pe_state : ol_txrx_peer_state;
  pe_tx_filter : option tx_filter;
  pe_qos_capable : bool;
  pe_uapsd_mask : Z;
  pe_sec_type : Z * Z }.

Record vdev := mk_vdev {
  vd_mac : mac_addr;
  vd_opmode : wlan_op_mode;
  vd_peer_list : list Z;
  vd_last_real_peer : option Z;
  vd_wait_on_peer_id : Z;
  vd_delete_pending : bool;
  vd_delete_callback : option Z;
  vd_disable_intrabss_fwd : bool }.

(** The device, with the state [D] of the data path. *)
Record peer_pdev (D : Type) := mk_peer_pdev {
  pp_peers : gmap Z peer;
  pp_vdevs : gmap Z vdev;
  pp_vdev_list : list Z;
  pp_hash_mask : Z;
  pp_hash_idx_bits : Z;
  pp_hash_bins : list (list Z);
  pp_id_map : list (option Z);
  pp_pool : list Z;
  pp_freelist : Z;
  pp_local_map : list (option Z);
  pp_max_peer_id : Z;
  pp_host_addba : bool;
  pp_monitor : bool;
  pp_self_peer : option Z;
  pp_log : list event;
  pp_data : D }.
#[global] Arguments pp_peers {D}.
#[global] Arguments pp_vdevs {D}.
#[global] Arguments pp_vdev_list {D}.
#[global] Arguments pp_hash_mask {D}.
#[global] Arguments pp_hash_idx_bits {D}.
#[global] Arguments pp_hash_bins {D}.
#[global] Arguments pp_id_map {D}.
#[global] Arguments pp_pool {D}.
#[global] Arguments pp_freelist {D}.
#[global] Arguments pp_local_map {D}.
#[global] Arguments pp_max_peer_id {D}.
#[global] Arguments pp_host_addba {D}.
#[global] Arguments pp_monitor {D}.
#[global] Arguments pp_self_peer {D}.
#[global] Arguments pp_log {D}.
#[global] Arguments pp_data {D}.

(** ** Updates *)
Definition set_pe_vdev (f : Z -> Z) (s : peer) : peer :=
  {| pe_vdev := f (pe_vdev s); pe_mac := pe_mac s; pe_valid := pe_valid s; pe_ref_cnt := pe_ref_cnt
     s; pe_delete_in_progress := pe_delete_in_progress s; pe_peer_ids := pe_peer_ids s; pe_local_id
     := pe_local_id s; pe_bss_peer := pe_bss_peer s; pe_state := pe_state s; pe_tx_filter :=
     pe_tx_filter s; pe_qos_capable := pe_qos_capable s; pe_uapsd_mask := pe_uapsd_mask s;
     pe_sec_type := pe_sec_type s |}.
Definition set_pe_mac (f : mac_addr -> mac_addr) (s : peer) : peer :=
  {| pe_vdev := pe_vdev s; pe_mac := f (pe_mac s); pe_valid := pe_valid s; pe_ref_cnt := pe_ref_cnt
     s; pe_delete_in_progress := pe_delete_in_progress s; pe_peer_ids := pe_peer_ids s; pe_local_id
     := pe_local_id s; pe_bss_peer := pe_bss_peer s; pe_state := pe_state s; pe_tx_filter :=
     pe_tx_filter s; pe_qos_capable := pe_qos_capable s; pe_uapsd_mask := pe_uapsd_mask s;
     pe_sec_type := pe_sec_type s |}.
Definition set_pe_valid (f : bool -> bool) (s : peer) : peer :=
  {| pe_vdev := pe_vdev s; pe_mac := pe_mac s; pe_valid := f (pe_valid s); pe_ref_cnt := pe_ref_cnt
     s; pe_delete_in_progress := pe_delete_in_progress s; pe_peer_ids := pe_peer_ids s; pe_local_id
     := pe_local_id s; pe_bss_peer := pe_bss_peer s; pe_state := pe_state s; pe_tx_filter :=
     pe_tx_filter s; pe_qos_capable := pe_qos_capable s; pe_uapsd_mask := pe_uapsd_mask s;
     pe_sec_type := pe_sec_type s |}.
Definition set_pe_ref_cnt (f : Z -> Z) (s : peer) : peer :=
  {| pe_vdev := pe_vdev s; pe_mac := pe_mac s; pe_valid := pe_valid s; pe_ref_cnt := f (pe_ref_cnt
     s); pe_delete_in_progress := pe_delete_in_progress s; pe_peer_ids := pe_peer_ids s; pe_local_id
     := pe_local_id s; pe_bss_peer := pe_bss_peer s; pe_state := pe_state s; pe_tx_filter :=
     pe_tx_filter s; pe_qos_capable := pe_qos_capable s; pe_uapsd_mask := pe_uapsd_mask s;
     pe_sec_type := pe_sec_type s |}.
Definition set_pe_delete_in_progress (f : bool -> bool) (s : peer) : peer :=
  {| pe_vdev := pe_vdev s; pe_mac := pe_mac s; pe_valid := pe_valid s; pe_ref_cnt := pe_ref_cnt s;
     pe_delete_in_progress := f (pe_delete_in_progress s); pe_peer_ids := pe_peer_ids s; pe_local_id
     := pe_local_id s; pe_bss_peer := pe_bss_peer s; pe_state := pe_state s; pe_tx_filter :=
     pe_tx_filter s; pe_qos_capable := pe_qos_capable s; pe_uapsd_mask := pe_uapsd_mask s;
     pe_sec_type := pe_sec_type s |}.
Definition set_pe_peer_ids (f : list Z -> list Z) (s : peer) : peer :=
  {| pe_vdev := pe_vdev s; pe_mac := pe_mac s; pe_valid := pe_valid s; pe_ref_cnt := pe_ref_cnt s;
     pe_delete_in_progress := pe_delete_in_progress s; pe_peer_ids := f (pe_peer_ids s); pe_local_id
     := pe_local_id s; pe_bss_peer := pe_bss_peer s; pe_state := pe_state s; pe_tx_filter :=
     pe_tx_filter s; pe_qos_capable := pe_qos_capable s; pe_uapsd_mask := pe_uapsd_mask s;
     pe_sec_type := pe_sec_type s |}.
Definition set_pe_local_id (f : Z -> Z) (s : peer) : peer :=
  {| pe_vdev := pe_vdev s; pe_mac := pe_mac s; pe_valid := pe_valid s; pe_ref_cnt := pe_ref_cnt s;
     pe_delete_in_progress := pe_delete_in_progress s; pe_peer_ids := pe_peer_ids s; pe_local_id :=
     f (pe_local_id s); pe_bss_peer := pe_bss_peer s; pe_state := pe_state s; pe_tx_filter :=
     pe_tx_filter s; pe_qos_capable := pe_qos_capable s; pe_uapsd_mask := pe_uapsd_mask s;
     pe_sec_type := pe_sec_type s |}.
Definition set_pe_bss_peer (f : bool -> bool) (s : peer) : peer :=
  {| pe_vdev := pe_vdev s; pe_mac := pe_mac s; pe_valid := pe_valid s; pe_ref_cnt := pe_ref_cnt s;
     pe_delete_in_progress := pe_delete_in_progress s; pe_peer_ids := pe_peer_ids s; pe_local_id :=
     pe_local_id s; pe_bss_peer := f (pe_bss_peer s); pe_state := pe_state s; pe_tx_filter :=
     pe_tx_filter s; pe_qos_capable := pe_qos_capable s; pe_uapsd_mask := pe_uapsd_mask s;
     pe_sec_type := pe_sec_type s |}.
Definition set_pe_state (f : ol_txrx_peer_state -> ol_txrx_peer_state) (s : peer) : peer :=
  {| pe_vdev := pe_vdev s; pe_mac := pe_mac s; pe_valid := pe_valid s; pe_ref_cnt := pe_ref_cnt s;
     pe_delete_in_progress := pe_delete_in_progress s; pe_peer_ids := pe_peer_ids s; pe_local_id :=
     pe_local_id s; pe_bss_peer := pe_bss_peer s; pe_state := f (pe_state s); pe_tx_filter :=
     pe_tx_filter s; pe_qos_capable := pe_qos_capable s; pe_uapsd_mask := pe_uapsd_mask s;
     pe_sec_type := pe_sec_type s |}.
Definition set_pe_tx_filter (f : option tx_filter -> option tx_filter) (s : peer) : peer :=
  {| pe_vdev := pe_vdev s; pe_mac := pe_mac s; pe_valid := pe_valid s; pe_ref_cnt := pe_ref_cnt s;
     pe_delete_in_progress := pe_delete_in_progress s; pe_peer_ids := pe_peer_ids s; pe_local_id :=
     pe_local_id s; pe_bss_peer := pe_bss_peer s; pe_state := pe_state s; pe_tx_filter := f
     (pe_tx_filter s); pe_qos_capable := pe_qos_capable s; pe_uapsd_mask := pe_uapsd_mask s;
     pe_sec_type := pe_sec_type s |}.
Definition set_pe_qos_capable (f : bool -> bool) (s : peer) : peer :=
  {| pe_vdev := pe_vdev s; pe_mac := pe_mac s; pe_valid := pe_valid s; pe_ref_cnt := pe_ref_cnt s;
     pe_delete_in_progress := pe_delete_in_progress s; pe_peer_ids := pe_peer_ids s; pe_local_id :=
     pe_local_id s; pe_bss_peer := pe_bss_peer s; pe_state := pe_state s; pe_tx_filter :=
     pe_tx_filter s; pe_qos_capable := f (pe_qos_capable s); pe_uapsd_mask := pe_uapsd_mask s;
     pe_sec_type := pe_sec_type s |}.
Definition set_pe_uapsd_mask (f : Z -> Z) (s : peer) : peer :=
  {| pe_vdev := pe_vdev s; pe_mac := pe_mac s; pe_valid := pe_valid s; pe_ref_cnt := pe_ref_cnt s;
     pe_delete_in_progress := pe_delete_in_progress s; pe_peer_ids := pe_peer_ids s; pe_local_id :=
     pe_local_id s; pe_bss_peer := pe_bss_peer s; pe_state := pe_state s; pe_tx_filter :=
     pe_tx_filter s; pe_qos_capable := pe_qos_capable s; pe_uapsd_mask := f (pe_uapsd_mask s);
     pe_sec_type := pe_sec_type s |}.
Definition set_pe_sec_type (f : Z * Z -> Z * Z) (s : peer) : peer :=
  {| pe_vdev := pe_vdev s; pe_mac := pe_mac s; pe_valid := pe_valid s; pe_ref_cnt := pe_ref_cnt s;
     pe_delete_in_progress := pe_delete_in_progress s; pe_peer_ids := pe_peer_ids s; pe_local_id :=
     pe_local_id s; pe_bss_peer := pe_bss_peer s; pe_state := pe_state s; pe_tx_filter :=
     pe_tx_filter s; pe_qos_capable := pe_qos_capable s; pe_uapsd_mask := pe_uapsd_mask s;
     pe_sec_type := f (pe_sec_type s) |}.
Definition set_vd_mac (f : mac_addr -> mac_addr) (s : vdev) : vdev :=
  {| vd_mac := f (vd_mac s); vd_opmode := vd_opmode s; vd_peer_list := vd_peer_list s;
     vd_last_real_peer := vd_last_real_peer s; vd_wait_on_peer_id := vd_wait_on_peer_id s;
     vd_delete_pending := vd_delete_pending s; vd_delete_callback := vd_delete_callback s;
     vd_disable_intrabss_fwd := vd_disable_intrabss_fwd s |}.
Definition set_vd_opmode (f : wlan_op_mode -> wlan_op_mode) (s : vdev) : vdev :=
  {| vd_mac := vd_mac s; vd_opmode := f (vd_opmode s); vd_peer_list := vd_peer_list s;
     vd_last_real_peer := vd_last_real_peer s; vd_wait_on_peer_id := vd_wait_on_peer_id s;
     vd_delete_pending := vd_delete_pending s; vd_delete_callback := vd_delete_callback s;
     vd_disable_intrabss_fwd := vd_disable_intrabss_fwd s |}.
Definition set_vd_peer_list (f : list Z -> list Z) (s : vdev) : vdev :=
  {| vd_mac := vd_mac s; vd_opmode := vd_opmode s; vd_peer_list := f (vd_peer_list s);
     vd_last_real_peer := vd_last_real_peer s; vd_wait_on_peer_id := vd_wait_on_peer_id s;
     vd_delete_pending := vd_delete_pending s; vd_delete_callback := vd_delete_callback s;
     vd_disable_intrabss_fwd := vd_disable_intrabss_fwd s |}.
Definition set_vd_last_real_peer (f : option Z -> option Z) (s : vdev) : vdev :=
  {| vd_mac := vd_mac s; vd_opmode := vd_opmode s; vd_peer_list := vd_peer_list s; vd_last_real_peer
     := f (vd_last_real_peer s); vd_wait_on_peer_id := vd_wait_on_peer_id s; vd_delete_pending :=
     vd_delete_pending s; vd_delete_callback := vd_delete_callback s; vd_disable_intrabss_fwd :=
     vd_disable_intrabss_fwd s |}.
Definition set_vd_wait_on_peer_id (f : Z -> Z) (s : vdev) : vdev :=
  {| vd_mac := vd_mac s; vd_opmode := vd_opmode s; vd_peer_list := vd_peer_list s; vd_last_real_peer
     := vd_last_real_peer s; vd_wait_on_peer_id := f (vd_wait_on_peer_id s); vd_delete_pending :=
     vd_delete_pending s; vd_delete_callback := vd_delete_callback s; vd_disable_intrabss_fwd :=
     vd_disable_intrabss_fwd s |}.
Definition set_vd_delete_pending (f : bool -> bool) (s : vdev) : vdev :=
  {| vd_mac := vd_mac s; vd_opmode := vd_opmode s; vd_peer_list := vd_peer_list s; vd_last_real_peer
     := vd_last_real_peer s; vd_wait_on_peer_id := vd_wait_on_peer_id s; vd_delete_pending := f
     (vd_delete_pending s); vd_delete_callback := vd_delete_callback s; vd_disable_intrabss_fwd :=
     vd_disable_intrabss_fwd s |}.
Definition set_vd_delete_callback (f : option Z -> option Z) (s : vdev) : vdev :=
  {| vd_mac := vd_mac s; vd_opmode := vd_opmode s; vd_peer_list := vd_peer_list s; vd_last_real_peer
     := vd_last_real_peer s; vd_wait_on_peer_id := vd_wait_on_peer_id s; vd_delete_pending :=
     vd_delete_pending s; vd_delete_callback := f (vd_delete_callback s); vd_disable_intrabss_fwd :=
     vd_disable_intrabss_fwd s |}.
Definition set_vd_disable_intrabss_fwd (f : bool -> bool) (s : vdev) : vdev :=
  {| vd_mac := vd_mac s; vd_opmode := vd_opmode s; vd_peer_list := vd_peer_list s; vd_last_real_peer
     := vd_last_real_peer s; vd_wait_on_peer_id := vd_wait_on_peer_id s; vd_delete_pending :=
     vd_delete_pending s; vd_delete_callback := vd_delete_callback s; vd_disable_intrabss_fwd := f
     (vd_disable_intrabss_fwd s) |}.

Section Setters.
Context {D : Type}.
Definition set_pp_peers (f : gmap Z peer -> gmap Z peer) (s : peer_pdev D) : peer_pdev D :=
  {| pp_peers := f (pp_peers s); pp_vdevs := pp_vdevs s; pp_vdev_list := pp_vdev_list s;
     pp_hash_mask := pp_hash_mask s; pp_hash_idx_bits := pp_hash_idx_bits s; pp_hash_bins :=
     pp_hash_bins s; pp_id_map := pp_id_map s; pp_pool := pp_pool s; pp_freelist := pp_freelist s;
     pp_local_map := pp_local_map s; pp_max_peer_id := pp_max_peer_id s; pp_host_addba :=
     pp_host_addba s; pp_monitor := pp_monitor s; pp_self_peer := pp_self_peer s; pp_log := pp_log
     s; pp_data := pp_data s |}.
Definition set_pp_vdevs (f : gmap Z vdev -> gmap Z vdev) (s : peer_pdev D) : peer_pdev D :=
  {| pp_peers := pp_peers s; pp_vdevs := f (pp_vdevs s); pp_vdev_list := pp_vdev_list s;
     pp_hash_mask := pp_hash_mask s; pp_hash_idx_bits := pp_hash_idx_bits s; pp_hash_bins :=
     pp_hash_bins s; pp_id_map := pp_id_map s; pp_pool := pp_pool s; pp_freelist := pp_freelist s;
     pp_local_map := pp_local_map s; pp_max_peer_id := pp_max_peer_id s; pp_host_addba :=
     pp_host_addba s; pp_monitor := pp_monitor s; pp_self_peer := pp_self_peer s; pp_log := pp_log
     s; pp_data := pp_data s |}.
Definition set_pp_vdev_list (f : list Z -> list Z) (s : peer_pdev D) : peer_pdev D :=
  {| pp_peers := pp_peers s; pp_vdevs := pp_vdevs s; pp_vdev_list := f (pp_vdev_list s);
     pp_hash_mask := pp_hash_mask s; pp_hash_idx_bits := pp_hash_idx_bits s; pp_hash_bins :=
     pp_hash_bins s; pp_id_map := pp_id_map s; pp_pool := pp_pool s; pp_freelist := pp_freelist s;
     pp_local_map := pp_local_map s; pp_max_peer_id := pp_max_peer_id s; pp_host_addba :=
     pp_host_addba s; pp_monitor := pp_monitor s; pp_self_peer := pp_self_peer s; pp_log := pp_log
     s; pp_data := pp_data s |}.
Definition set_pp_hash_mask (f : Z -> Z) (s : peer_pdev D) : peer_pdev D :=
  {| pp_peers := pp_peers s; pp_vdevs := pp_vdevs s; pp_vdev_list := pp_vdev_list s; pp_hash_mask :=
     f (pp_hash_mask s); pp_hash_idx_bits := pp_hash_idx_bits s; pp_hash_bins := pp_hash_bins s;
     pp_id_map := pp_id_map s; pp_pool := pp_pool s; pp_freelist := pp_freelist s; pp_local_map :=
     pp_local_map s; pp_max_peer_id := pp_max_peer_id s; pp_host_addba := pp_host_addba s;
     pp_monitor := pp_monitor s; pp_self_peer := pp_self_peer s; pp_log := pp_log s; pp_data :=
     pp_data s |}.
Definition set_pp_hash_idx_bits (f : Z -> Z) (s : peer_pdev D) : peer_pdev D :=
  {| pp_peers := pp_peers s; pp_vdevs := pp_vdevs s; pp_vdev_list := pp_vdev_list s; pp_hash_mask :=
     pp_hash_mask s; pp_hash_idx_bits := f (pp_hash_idx_bits s); pp_hash_bins := pp_hash_bins s;
     pp_id_map := pp_id_map s; pp_pool := pp_pool s; pp_freelist := pp_freelist s; pp_local_map :=
     pp_local_map s; pp_max_peer_id := pp_max_peer_id s; pp_host_addba := pp_host_addba s;
     pp_monitor := pp_monitor s; pp_self_peer := pp_self_peer s; pp_log := pp_log s; pp_data :=
     pp_data s |}.
Definition set_pp_hash_bins (f : list (list Z) -> list (list Z)) (s : peer_pdev D) : peer_pdev D :=
  {| pp_peers := pp_peers s; pp_vdevs := pp_vdevs s; pp_vdev_list := pp_vdev_list s; pp_hash_mask :=
     pp_hash_mask s; pp_hash_idx_bits := pp_hash_idx_bits s; pp_hash_bins := f (pp_hash_bins s);
     pp_id_map := pp_id_map s; pp_pool := pp_pool s; pp_freelist := pp_freelist s; pp_local_map :=
     pp_local_map s; pp_max_peer_id := pp_max_peer_id s; pp_host_addba := pp_host_addba s;
     pp_monitor := pp_monitor s; pp_self_peer := pp_self_peer s; pp_log := pp_log s; pp_data :=
     pp_data s |}.
Definition set_pp_id_map (f : list (option Z) -> list (option Z)) (s : peer_pdev D) : peer_pdev D :=
  {| pp_peers := pp_peers s; pp_vdevs := pp_vdevs s; pp_vdev_list := pp_vdev_list s; pp_hash_mask :=
     pp_hash_mask s; pp_hash_idx_bits := pp_hash_idx_bits s; pp_hash_bins := pp_hash_bins s;
     pp_id_map := f (pp_id_map s); pp_pool := pp_pool s; pp_freelist := pp_freelist s; pp_local_map
     := pp_local_map s; pp_max_peer_id := pp_max_peer_id s; pp_host_addba := pp_host_addba s;
     pp_monitor := pp_monitor s; pp_self_peer := pp_self_peer s; pp_log := pp_log s; pp_data :=
     pp_data s |}.
Definition set_pp_pool (f : list Z -> list Z) (s : peer_pdev D) : peer_pdev D :=
  {| pp_peers := pp_peers s; pp_vdevs := pp_vdevs s; pp_vdev_list := pp_vdev_list s; pp_hash_mask :=
     pp_hash_mask s; pp_hash_idx_bits := pp_hash_idx_bits s; pp_hash_bins := pp_hash_bins s;
     pp_id_map := pp_id_map s; pp_pool := f (pp_pool s); pp_freelist := pp_freelist s; pp_local_map
     := pp_local_map s; pp_max_peer_id := pp_max_peer_id s; pp_host_addba := pp_host_addba s;
     pp_monitor := pp_monitor s; pp_self_peer := pp_self_peer s; pp_log := pp_log s; pp_data :=
     pp_data s |}.
Definition set_pp_freelist (f : Z -> Z) (s : peer_pdev D) : peer_pdev D :=
  {| pp_peers := pp_peers s; pp_vdevs := pp_vdevs s; pp_vdev_list := pp_vdev_list s; pp_hash_mask :=
     pp_hash_mask s; pp_hash_idx_bits := pp_hash_idx_bits s; pp_hash_bins := pp_hash_bins s;
     pp_id_map := pp_id_map s; pp_pool := pp_pool s; pp_freelist := f (pp_freelist s); pp_local_map
     := pp_local_map s; pp_max_peer_id := pp_max_peer_id s; pp_host_addba := pp_host_addba s;
     pp_monitor := pp_monitor s; pp_self_peer := pp_self_peer s; pp_log := pp_log s; pp_data :=
     pp_data s |}.
Definition set_pp_local_map (f : list (option Z) -> list (option Z)) (s : peer_pdev D) : peer_pdev D :=
  {| pp_peers := pp_peers s; pp_vdevs := pp_vdevs s; pp_vdev_list := pp_vdev_list s; pp_hash_mask :=
     pp_hash_mask s; pp_hash_idx_bits := pp_hash_idx_bits s; pp_hash_bins := pp_hash_bins s;
     pp_id_map := pp_id_map s; pp_pool := pp_pool s; pp_freelist := pp_freelist s; pp_local_map := f
     (pp_local_map s); pp_max_peer_id := pp_max_peer_id s; pp_host_addba := pp_host_addba s;
     pp_monitor := pp_monitor s; pp_self_peer := pp_self_peer s; pp_log := pp_log s; pp_data :=
     pp_data s |}.
Definition set_pp_max_peer_id (f : Z -> Z) (s : peer_pdev D) : peer_pdev D :=
  {| pp_peers := pp_peers s; pp_vdevs := pp_vdevs s; pp_vdev_list := pp_vdev_list s; pp_hash_mask :=
     pp_hash_mask s; pp_hash_idx_bits := pp_hash_idx_bits s; pp_hash_bins := pp_hash_bins s;
     pp_id_map := pp_id_map s; pp_pool := pp_pool s; pp_freelist := pp_freelist s; pp_local_map :=
     pp_local_map s; pp_max_peer_id := f (pp_max_peer_id s); pp_host_addba := pp_host_addba s;
     pp_monitor := pp_monitor s; pp_self_peer := pp_self_peer s; pp_log := pp_log s; pp_data :=
     pp_data s |}.
Definition set_pp_host_addba (f : bool -> bool) (s : peer_pdev D) : peer_pdev D :=
  {| pp_peers := pp_peers s; pp_vdevs := pp_vdevs s; pp_vdev_list := pp_vdev_list s; pp_hash_mask :=
     pp_hash_mask s; pp_hash_idx_bits := pp_hash_idx_bits s; pp_hash_bins := pp_hash_bins s;
     pp_id_map := pp_id_map s; pp_pool := pp_pool s; pp_freelist := pp_freelist s; pp_local_map :=
     pp_local_map s; pp_max_peer_id := pp_max_peer_id s; pp_host_addba := f (pp_host_addba s);
     pp_monitor := pp_monitor s; pp_self_peer := pp_self_peer s; pp_log := pp_log s; pp_data :=
     pp_data s |}.
Definition set_pp_monitor (f : bool -> bool) (s : peer_pdev D) : peer_pdev D :=
  {| pp_peers := pp_peers s; pp_vdevs := pp_vdevs s; pp_vdev_list := pp_vdev_list s; pp_hash_mask :=
     pp_hash_mask s; pp_hash_idx_bits := pp_hash_idx_bits s; pp_hash_bins := pp_hash_bins s;
     pp_id_map := pp_id_map s; pp_pool := pp_pool s; pp_freelist := pp_freelist s; pp_local_map :=
     pp_local_map s; pp_max_peer_id := pp_max_peer_id s; pp_host_addba := pp_host_addba s;
     pp_monitor := f (pp_monitor s); pp_self_peer := pp_self_peer s; pp_log := pp_log s; pp_data :=
     pp_data s |}.
Definition set_pp_self_peer (f : option Z -> option Z) (s : peer_pdev D) : peer_pdev D :=
  {| pp_peers := pp_peers s; pp_vdevs := pp_vdevs s; pp_vdev_list := pp_vdev_list s; pp_hash_mask :=
     pp_hash_mask s; pp_hash_idx_bits := pp_hash_idx_bits s; pp_hash_bins := pp_hash_bins s;
     pp_id_map := pp_id_map s; pp_pool := pp_pool s; pp_freelist := pp_freelist s; pp_local_map :=
     pp_local_map s; pp_max_peer_id := pp_max_peer_id s; pp_host_addba := pp_host_addba s;
     pp_monitor := pp_monitor s; pp_self_peer := f (pp_self_peer s); pp_log := pp_log s; pp_data :=
     pp_data s |}.
Definition set_pp_log (f : list event -> list event) (s : peer_pdev D) : peer_pdev D :=
  {| pp_peers := pp_peers s; pp_vdevs := pp_vdevs s; pp_vdev_list := pp_vdev_list s; pp_hash_mask :=
     pp_hash_mask s; pp_hash_idx_bits := pp_hash_idx_bits s; pp_hash_bins := pp_hash_bins s;
     pp_id_map := pp_id_map s; pp_pool := pp_pool s; pp_freelist := pp_freelist s; pp_local_map :=
     pp_local_map s; pp_max_peer_id := pp_max_peer_id s; pp_host_addba := pp_host_addba s;
     pp_monitor := pp_monitor s; pp_self_peer := pp_self_peer s; pp_log := f (pp_log s); pp_data :=
     pp_data s |}.
Definition set_pp_data (f : D -> D) (s : peer_pdev D) : peer_pdev D :=
  {| pp_peers := pp_peers s; pp_vdevs := pp_vdevs s; pp_vdev_list := pp_vdev_list s; pp_hash_mask :=
     pp_hash_mask s; pp_hash_idx_bits := pp_hash_idx_bits s; pp_hash_bins := pp_hash_bins s;
     pp_id_map := pp_id_map s; pp_pool := pp_pool s; pp_freelist := pp_freelist s; pp_local_map :=
     pp_local_map s; pp_max_peer_id := pp_max_peer_id s; pp_host_addba := pp_host_addba s;
     pp_monitor := pp_monitor s; pp_self_peer := pp_self_peer s; pp_log := pp_log s; pp_data := f
     (pp_data s) |}.
End Setters.

(** ** The data path of the vdevs and peers

    [dp_vdev_attach v]: the transmit queues of a new vdev; [dp_tx_attach p v]:
    those of a new peer [p] of vdev [v], paused; [dp_rx_attach p]: its receive
    state; [dp_detach p]: received frames are discarded from now on;
    [dp_tid_unpause p tid]: [ol_txrx_peer_tid_unpause]; [dp_auth p]: all queues
    paused but the extended ones; [dp_rx_cleanup p]: [ol_rx_peer_cleanup];
    [dp_free p]: the queues and the reorder arrays of [p] emptied and its memory
    gone; [dp_vdev_free v]: the queues of vdev [v] emptied, none of them used
    from then on; [dp_vdev_gone v]: no descriptor points to [v] any more. *)
Class DataPath (D : Type) := {
  dp_vdev_attach : Z -> D -> option D;
  dp_tx_attach : Z -> Z -> D -> option D;
  dp_rx_attach : Z -> D -> option D;
  dp_detach : Z -> D -> option D;
  dp_tid_unpause : Z -> Z -> D -> option D;
  dp_auth : Z -> D -> option D;
  dp_rx_cleanup : Z -> D -> option D;
  dp_free : Z -> D -> option D;
  dp_vdev_free : Z -> D -> option D;
  dp_vdev_gone : Z -> D -> option D }.

(** What the peer table relies on: [dp_ok V P d] says that [d] is the state of a
    data path with the vdevs [V] and the peers [P]; [dp_begun] and [dp_ending]
    say the same in the middle of an attach and of a deletion of a peer.
    [dp_vdev_idle] and [dp_can_auth] are what the data path asks of those who
    detach a vdev or authenticate a peer; [dp_unnamed v d] says that no
    descriptor points to [v]. *)
Class DataPathOk (D : Type) `{DataPath D} := {
  dp_ok : gset Z -> gset Z -> D -> Prop;
  dp_begun : Z -> gset Z -> gset Z -> D -> Prop;
  dp_ending : Z -> gset Z -> gset Z -> D -> Prop;
  dp_vdev_idle : Z -> D -> Prop;
  dp_can_auth : Z -> D -> Prop;
  dp_unnamed : Z -> D -> Prop;
  dp_vdev_attach_ok V P v d : dp_ok V P d -> v ∉ V -> exists d', dp_vdev_attach v d = Some d' /\ dp_ok ({[v]} ∪ V) P d';
  dp_tx_attach_ok V P p v d : dp_ok V P d -> p ∉ P -> exists d', dp_tx_attach p v d = Some d' /\ dp_begun p V P d';
  dp_rx_attach_ok V P p d : dp_begun p V P d -> p ∉ P -> exists d', dp_rx_attach p d = Some d' /\ dp_ok V ({[p]} ∪ P) d';
  dp_detach_ok V P p d : dp_ok V P d -> p ∈ P -> exists d', dp_detach p d = Some d' /\ dp_ok V P d';
  dp_tid_unpause_ok V P p tid d : dp_ok V P d -> p ∈ P -> 0 <= tid < 18 ->
    exists d', dp_tid_unpause p tid d = Some d' /\ dp_ok V P d';
  dp_auth_ok V P p d : dp_ok V P d -> p ∈ P -> dp_can_auth p d -> exists d', dp_auth p d = Some d' /\ dp_ok V P d';
  dp_vdev_free_ok V P v d : dp_ok V P d -> v ∈ V -> dp_vdev_idle v d ->
    exists d', dp_vdev_free v d = Some d' /\ dp_ok (V ∖ {[v]}) P d';
  dp_vdev_gone_ok V P v d : dp_ok V P d -> exists d', dp_vdev_gone v d = Some d' /\ dp_ok V P d' /\ dp_unnamed v d';
  dp_rx_cleanup_ok V P p d : dp_ok V P d -> p ∈ P -> exists d', dp_rx_cleanup p d = Some d' /\ dp_ending p V P d';
  dp_ending_gone_ok V P p v d : dp_ending p V P d ->
    exists d', dp_vdev_gone v d = Some d' /\ dp_ending p V P d' /\ dp_unnamed v d';
  dp_free_ok V P p d : dp_ending p V P d -> p ∈ P ->
    exists d', dp_free p d = Some d' /\ dp_ok V (P ∖ {[p]}) d' /\ forall v, dp_unnamed v d -> dp_unnamed v d' }.
