(* ===== verification/PeerTable.v ===== *)
(** The peer table: [ol_txrx_peer_find.c], the pool of local peer ids, and the
    life of a peer in [ol_txrx.c] ([ol_txrx_peer_attach], the map and unmap
    messages of the target, [ol_txrx_peer_detach], [ol_txrx_peer_unref_delete]). *)
From Stdlib Require Import ZArith Lia.
From stdpp Require Import prelude gmap list numbers.
From S2P Require Import Prelude.
From S2P Require Import PeerTypes.

(** ** Hash of MAC addresses *)

(** [while (tmp) { log2++; tmp >>= 1; }] of 32-bit words. *)
Fixpoint log2_loop (n : nat) (tmp log2 : Z) : option Z :=
  if tmp =? 0 then Some log2
  else match n with O => None | S n' => log2_loop n' (Z.shiftr tmp 1) (log2 + 1) end.

Definition ol_txrx_log2_ceil (value : Z) : option Z :=
  if value =? 0 then Some 0
  else log2 ← log2_loop 32 value (-1); Some (if negb (u32 (Z.shiftl 1 log2) =? value) then log2 + 1 else log2).

Definition abcd (m : mac_addr) : Z := Z.lor (bytes_ab m) (Z.shiftl (bytes_cd m) 16).

(** [true]: the addresses differ. *)
Definition ol_txrx_peer_find_mac_addr_cmp (m1 m2 : mac_addr) : bool :=
  negb ((abcd m1 =? abcd m2) && (bytes_ef m1 =? bytes_ef m2)).

Definition ol_txrx_peer_find_hash_index (idx_bits mask : Z) (m : mac_addr) : Z :=
  let index := Z.lxor (Z.lxor (bytes_ab m) (bytes_cd m)) (bytes_ef m) in
  let index := Z.lxor index (Z.shiftr index idx_bits) in
  Z.land index mask.

Section PeerTable.
Context {D : Type} `{DataPath D}.
Notation MP := (M (peer_pdev D)).

Definition get_peer (p : Z) : MP peer := s ← get; lift (pp_peers s !! p).
Definition upd_peer (p : Z) (f : peer -> peer) : MP unit :=
  x ← get_peer p; modify (set_pp_peers (<[p := f x]>)).
Definition get_vdev (v : Z) : MP vdev := s ← get; lift (pp_vdevs s !! v).
Definition upd_vdev (v : Z) (f : vdev -> vdev) : MP unit :=
  x ← get_vdev v; modify (set_pp_vdevs (<[v := f x]>)).
Definition log (e : event) : MP unit := modify (set_pp_log (fun l => l ++ [e])).
Definition on_data (f : D -> option D) : MP unit :=
  s ← get; d ← lift (f (pp_data s)); modify (set_pp_data (fun _ => d)).

(** [adf_os_atomic_inc(&peer->ref_cnt)] and [adf_os_atomic_dec]. *)
Definition ref_inc (p : Z) : MP unit := upd_peer p (set_pe_ref_cnt (fun n => s32 (n + 1))).
Definition ref_dec (p : Z) : MP unit := upd_peer p (set_pe_ref_cnt (fun n => s32 (n - 1))).

Definition hash_index (s : peer_pdev D) (m : mac_addr) : Z :=
  ol_txrx_peer_find_hash_index (pp_hash_idx_bits s) (pp_hash_mask s) m.

Definition ol_txrx_peer_find_hash_add (p : Z) : MP unit :=
  s ← get; x ← get_peer p;
  let index := hash_index s (pe_mac x) in
  bin ← lift (znth (pp_hash_bins s) index);
  modify (set_pp_hash_bins (fun l => zset l index (tailq_insert_tail p bin))).

Definition ol_txrx_peer_find_hash_remove (p : Z) : MP unit :=
  s ← get; x ← get_peer p;
  let index := hash_index s (pe_mac x) in
  bin ← lift (znth (pp_hash_bins s) index);
  bin ← lift (tailq_remove p bin);
  modify (set_pp_hash_bins (fun l => zset l index bin)).

(** [TAILQ_FOREACH] until a peer fits. *)
Fixpoint find_in_bin (fits : peer -> bool) (bin : list Z) : MP (option Z) :=
  match bin with
  | [] => mret None
  | p :: rest =>
    x ← get_peer p;
    if fits x then ref_inc p;; mret (Some p) else find_in_bin fits rest
  end.

Definition ol_txrx_peer_find_hash_find (mac : mac_addr) (check_valid : bool) : MP (option Z) :=
  s ← get;
  bin ← lift (znth (pp_hash_bins s) (hash_index s mac));
  find_in_bin (fun x => negb (ol_txrx_peer_find_mac_addr_cmp mac (pe_mac x)) && (negb check_valid || pe_valid x)) bin.

Definition ol_txrx_peer_vdev_find_hash (v : Z) (mac : mac_addr) (check_valid : bool) : MP (option Z) :=
  s ← get;
  bin ← lift (znth (pp_hash_bins s) (hash_index s mac));
  find_in_bin (fun x => negb (ol_txrx_peer_find_mac_addr_cmp mac (pe_mac x)) && (negb check_valid || pe_valid x) &&
                        bool_decide (pe_vdev x = v)) bin.

(** ** Local ids *)

Definition OL_TXRX_LOCAL_PEER_ID_ALLOC (p : Z) : MP unit :=
  s ← get;
  let i := pp_freelist s in
  next ← lift (znth (pp_pool s) i);
  if next =? i then upd_peer p (set_pe_local_id (fun _ => OL_TXRX_INVALID_LOCAL_PEER_ID))
  else
    upd_peer p (set_pe_local_id (fun _ => u16 i));;
    modify (set_pp_freelist (fun _ => next));;
    _ ← lift (znth (pp_local_map s) i);
    modify (set_pp_local_map (fun l => zset l i (Some p))).

Definition OL_TXRX_LOCAL_PEER_ID_FREE (p : Z) : MP unit :=
  x ← get_peer p;
  let i := pe_local_id x in
  if (i =? OL_TXRX_INVALID_LOCAL_PEER_ID) || (OL_TXRX_NUM_LOCAL_PEER_IDS <=? i) then skip
  else
    modify (fun s => set_pp_pool (fun l => zset l i (pp_freelist s)) s);;
    modify (set_pp_freelist (fun _ => i));;
    modify (set_pp_local_map (fun l => zset l i None)).

Definition ol_txrx_peer_find_by_local_id (local_peer_id : Z) : MP (option Z) :=
  if (local_peer_id =? OL_TXRX_INVALID_LOCAL_PEER_ID) || (OL_TXRX_NUM_LOCAL_PEER_IDS <=? local_peer_id) then mret None
  else s ← get; lift (znth (pp_local_map s) local_peer_id).

Definition ol_txrx_peer_find_with_ref_by_local_id (local_peer_id : Z) : MP (option Z) :=
  if (local_peer_id =? OL_TXRX_INVALID_LOCAL_PEER_ID) || (OL_TXRX_NUM_LOCAL_PEER_IDS <=? local_peer_id) then mret None
  else
    s ← get; r ← lift (znth (pp_local_map s) local_peer_id);
    match r with Some p => ref_inc p;; mret (Some p) | None => mret None end.

(** ** The end of a peer *)

(** The last peer of a vdev that waits for its deletion. *)
Definition delete_pending_vdev (v : Z) : MP unit :=
  y ← get_vdev v;
  if bool_decide (vd_peer_list y = []) && vd_delete_pending y then
    on_data (dp_vdev_gone v);;
    modify (set_pp_vdevs (delete v));;
    log (vdev_freed v);;
    match vd_delete_callback y with Some ctxt => log (vdev_delete_cb v ctxt) | None => skip end
  else skip.

Definition delete_peer (p : Z) : MP unit :=
  x ← get_peer p;
  let v := pe_vdev x in
  modify (fun s => if pp_monitor s && bool_decide (pp_self_peer s = Some p) then set_pp_self_peer (fun _ => None) s else s);;
  let peer_id := pe_local_id x in
  ol_txrx_peer_find_hash_remove p;;
  y ← get_vdev v;
  l ← lift (tailq_remove p (vd_peer_list y));
  upd_vdev v (set_vd_peer_list (fun _ => l));;
  on_data (dp_rx_cleanup p);;
  upd_peer p (set_pe_delete_in_progress (fun _ => false));;
  y ← get_vdev v;
  when (peer_id =? vd_wait_on_peer_id y) (
    log (wait_completed v);;
    upd_vdev v (set_vd_wait_on_peer_id (fun _ => OL_TXRX_INVALID_LOCAL_PEER_ID)));;
  delete_pending_vdev v;;
  on_data (dp_free p);;
  modify (set_pp_peers (delete p));;
  log (peer_freed p).

Definition ol_txrx_peer_unref_delete (p : Z) : MP unit :=
  x ← get_peer p;
  _ ← get_vdev (pe_vdev x);
  if pe_ref_cnt x =? 0 then skip
  else
    ref_dec p;;
    when (s32 (pe_ref_cnt x - 1) =? 0) (delete_peer p).

(** ** Lookups *)

(** [ol_txrx_find_peer_by_addr]: the reference is dropped without deletion. *)
Definition ol_txrx_find_peer_by_addr (mac : mac_addr) : MP (option (Z * Z)) :=
  r ← ol_txrx_peer_find_hash_find mac true;
  match r with
  | None => mret None
  | Some p => x ← get_peer p; ref_dec p;; mret (Some (p, u8 (pe_local_id x)))
  end.

Definition ol_txrx_find_peer_by_addr_and_vdev (v : Z) (mac : mac_addr) : MP (option (Z * Z)) :=
  r ← ol_txrx_peer_vdev_find_hash v mac true;
  match r with
  | None => mret None
  | Some p => x ← get_peer p; ref_dec p;; mret (Some (p, u8 (pe_local_id x)))
  end.

Definition ol_txrx_peer_find_by_addr (mac : mac_addr) : MP (option Z) :=
  r ← ol_txrx_peer_find_hash_find mac false;
  match r with None => mret None | Some p => ol_txrx_peer_unref_delete p;; mret (Some p) end.

Definition ol_txrx_peer_find_by_id (peer_id : Z) : MP (option Z) :=
  s ← get;
  r ← (if pp_max_peer_id s <? peer_id then mret None else lift (znth (pp_id_map s) peer_id));
  match r with
  | None => mret None
  | Some p => x ← get_peer p; mret (if pe_valid x then Some p else None)
  end.

Definition ol_txrx_assoc_peer_find (v : Z) : MP (option Z) :=
  y ← get_vdev v;
  match vd_last_real_peer y with
  | None => mret None
  | Some p =>
    x ← get_peer p; id ← lift (znth (pe_peer_ids x) 0);
    if negb (id =? HTT_INVALID_PEER) then ref_inc p;; mret (Some p) else mret None
  end.

(** ** Messages of the target *)

Fixpoint add_id (ids : list Z) (peer_id : Z) : option (list Z) :=
  match ids with
  | [] => None
  | i :: rest => if i =? HTT_INVALID_PEER then Some (peer_id :: rest) else (i ::.) <$> add_id rest peer_id
  end.

(** A ninth id is only asserted against. *)
Definition ol_txrx_peer_find_add_id_to_obj (peer_id : Z) (x : peer) : peer :=
  match add_id (pe_peer_ids x) peer_id with Some ids => set_pe_peer_ids (fun _ => ids) x | None => x end.

Definition ol_txrx_peer_find_add_id (mac : mac_addr) (peer_id : Z) : MP unit :=
  r ← ol_txrx_peer_find_hash_find mac false;
  match r with
  | None => skip
  | Some p =>
    s ← get; _ ← lift (znth (pp_id_map s) peer_id);
    modify (set_pp_id_map (fun l => zset l peer_id (Some p)));;
    x ← get_peer p; id ← lift (znth (pe_peer_ids x) 0);
    when (id =? HTT_INVALID_PEER) (ol_txrx_peer_unref_delete p);;
    upd_peer p (ol_txrx_peer_find_add_id_to_obj peer_id)
  end.

Definition ol_rx_peer_map_handler (peer_id : Z) (mac : mac_addr) (tx_ready : bool) : MP unit :=
  ol_txrx_peer_find_add_id mac peer_id;;
  when (negb tx_ready) (
    r ← ol_txrx_peer_find_by_id peer_id;
    match r with None => skip | Some p => on_data (dp_tid_unpause p 17) end).

Definition ol_txrx_peer_tx_ready_handler (peer_id : Z) : MP unit :=
  r ← ol_txrx_peer_find_by_id peer_id;
  match r with
  | None => skip
  | Some p => for_each (Z.of_nat <$> seq 0 18) (fun i => when (negb (i =? 17)) (on_data (dp_tid_unpause p i)))
  end.

Definition ol_rx_peer_unmap_handler (peer_id : Z) : MP unit :=
  s ← get;
  r ← (if peer_id =? HTT_INVALID_PEER then mret None else lift (znth (pp_id_map s) peer_id));
  _ ← lift (znth (pp_id_map s) peer_id);
  modify (set_pp_id_map (fun l => zset l peer_id None));;
  match r with None => skip | Some p => ol_txrx_peer_unref_delete p end.

(** ** States *)

Definition tx_filter_of (state : ol_txrx_peer_state) : tx_filter :=
  match state with
  | ol_txrx_peer_state_auth => ol_tx_filter_pass_thru
  | ol_txrx_peer_state_conn => ol_tx_filter_non_auth
  | _ => ol_tx_filter_discard
  end.

Definition ol_txrx_peer_state_update (mac : mac_addr) (state : ol_txrx_peer_state) : MP unit :=
  r ← ol_txrx_peer_find_hash_find mac true;
  match r with
  | None => skip
  | Some p =>
    x ← get_peer p;
    if bool_decide (pe_state x = state) then ref_dec p
    else
      upd_peer p (set_pe_tx_filter (fun _ => Some (tx_filter_of state)));;
      s ← get;
      when (pp_host_addba s && bool_decide (state = ol_txrx_peer_state_auth)) (on_data (dp_auth p));;
      ref_dec p;;
      upd_peer p (set_pe_state (fun _ => state))
  end.

(** What [ol_txrx_peer_update] is asked to change, [select] with its parameter. *)
Inductive peer_update :=
  | ol_txrx_peer_update_qos_capable (qos_capable : bool)
  | ol_txrx_peer_update_uapsdMask (uapsd_mask : Z)
  | ol_txrx_peer_update_peer_security (sec_type : Z)
  | ol_txrx_peer_update_other.

Definition htt_sec_type_none : Z := 0.
Definition htt_sec_type_wapi : Z := 7.

(** The [switch] from [ol_sec_type] to [htt_sec_type]; the known types have the
    same numbers in both. *)
Definition peer_sec_type (sec_type : Z) : Z :=
  if (htt_sec_type_none <=? sec_type) && (sec_type <=? htt_sec_type_wapi) then sec_type else htt_sec_type_none.

Definition update_peer (u : peer_update) : peer -> peer :=
  match u with
  | ol_txrx_peer_update_qos_capable q => set_pe_qos_capable (fun _ => q)
  | ol_txrx_peer_update_uapsdMask m => set_pe_uapsd_mask (fun _ => m)
  | ol_txrx_peer_update_peer_security t => set_pe_sec_type (fun _ => (peer_sec_type t, peer_sec_type t))
  | ol_txrx_peer_update_other => id
  end.

(** The target's [htt_peer_qos_update] and [htt_peer_uapsdmask_update] are
    empty. *)
Definition ol_txrx_peer_update (mac : mac_addr) (u : peer_update) : MP unit :=
  r ← ol_txrx_peer_find_hash_find mac true;
  match r with
  | None => skip
  | Some p => upd_peer p (update_peer u);; ref_dec p
  end.

Definition ol_txrx_peer_uapsdmask_get (peer_id : Z) : MP Z :=
  r ← ol_txrx_peer_find_by_id peer_id;
  match r with None => mret 0 | Some p => x ← get_peer p; mret (pe_uapsd_mask x) end.

Definition ol_txrx_peer_qoscapable_get (peer_id : Z) : MP bool :=
  r ← ol_txrx_peer_find_by_id peer_id;
  match r with None => mret false | Some p => x ← get_peer p; mret (pe_qos_capable x) end.

(** ** Attach and detach *)

(** The search for a peer with the address among those of the vdev: [None] when
    a live one is found, else whether one is being deleted. *)
Fixpoint attach_check (v : Z) (mac : mac_addr) (peers : list Z) (wait : bool) : MP (option bool) :=
  match peers with
  | [] => mret (Some wait)
  | p :: rest =>
    x ← get_peer p;
    if ol_txrx_peer_find_mac_addr_cmp (pe_mac x) mac then attach_check v mac rest wait
    else if pe_delete_in_progress x then
      upd_vdev v (set_vd_wait_on_peer_id (fun _ => pe_local_id x));; attach_check v mac rest true
    else mret None
  end.

Definition zeroed_peer (v : Z) (mac : mac_addr) : peer :=
  mk_peer v mac false 0 false (replicate 8 0) 0 false ol_txrx_peer_state_invalid None false 0 (0, 0).

(** [p] is the memory the allocation returned. *)
Definition attach_new (v : Z) (mac : mac_addr) (p : Z) : MP unit :=
  s ← get;
  (if bool_decide (pp_peers s !! p = None) then skip else fault);;
  y ← get_vdev v;
  modify (set_pp_peers (<[p := zeroed_peer v mac]>));;
  on_data (dp_tx_attach p v);;
  upd_vdev v (set_vd_peer_list (tailq_insert_tail p));;
  when (ol_txrx_peer_find_mac_addr_cmp (vd_mac y) mac) (upd_vdev v (set_vd_last_real_peer (fun _ => Some p)));;
  on_data (dp_rx_attach p);;
  upd_peer p (set_pe_peer_ids (fun l => (fun _ => HTT_INVALID_PEER) <$> l));;
  upd_peer p (set_pe_delete_in_progress (fun _ => false));;
  upd_peer p (set_pe_ref_cnt (fun _ => 0));;
  ref_inc p;; ref_inc p;;
  upd_peer p (set_pe_valid (fun _ => true));;
  ol_txrx_peer_find_hash_add p;;
  when (negb (ol_txrx_peer_find_mac_addr_cmp mac (vd_mac y))) (upd_peer p (set_pe_bss_peer (fun _ => true)));;
  upd_peer p (set_pe_state (fun _ => ol_txrx_peer_state_invalid));;
  ol_txrx_peer_state_update mac ol_txrx_peer_state_disc;;
  s ← get;
  when (pp_monitor s && bool_decide (pp_self_peer s = None)) (
    modify (set_pp_self_peer (fun _ => Some p));;
    upd_vdev v (set_vd_disable_intrabss_fwd (fun _ => true)));;
  OL_TXRX_LOCAL_PEER_ID_ALLOC p.

(** [others]: what other threads do while this one waits; [rc]: whether the
    completion came in time; [mem]: the allocated memory, if there is any. *)
Definition ol_txrx_peer_attach (v : Z) (mac : mac_addr) (others : MP unit) (rc : bool) (mem : option Z) : MP (option Z) :=
  y ← get_vdev v;
  r ← attach_check v mac (vd_peer_list y) false;
  match r with
  | None => mret None
  | Some wait =>
    when wait others;;
    if wait && negb rc then upd_vdev v (set_vd_wait_on_peer_id (fun _ => OL_TXRX_INVALID_LOCAL_PEER_ID));; mret None
    else
      match mem with
      | None => mret None
      | Some p => attach_new v mac p;; mret (Some p)
      end
  end.

Definition ol_txrx_peer_detach (p : Z) : MP unit :=
  x ← get_peer p;
  let v := pe_vdev x in
  on_data (dp_detach p);;
  upd_peer p (set_pe_valid (fun _ => false));;
  OL_TXRX_LOCAL_PEER_ID_FREE p;;
  upd_vdev v (set_vd_last_real_peer (fun o => if bool_decide (o = Some p) then None else o));;
  upd_peer p (set_pe_delete_in_progress (fun _ => true));;
  ol_txrx_peer_unref_delete p.

(** [ol_txrx_vdev_detach]: at once, or when the last peer is gone. *)
Definition ol_txrx_vdev_detach (v : Z) (callback : option Z) : MP unit :=
  y ← get_vdev v;
  on_data (dp_vdev_free v);;
  s ← get;
  l ← lift (tailq_remove v (pp_vdev_list s));
  modify (set_pp_vdev_list (fun _ => l));;
  if negb (bool_decide (vd_peer_list y = [])) then
    upd_vdev v (fun y => set_vd_delete_callback (fun _ => callback) (set_vd_delete_pending (fun _ => true) y))
  else
    on_data (dp_vdev_gone v);;
    modify (set_pp_vdevs (delete v));;
    log (vdev_freed v);;
    match callback with Some ctxt => log (vdev_delete_cb v ctxt) | None => skip end.

(** [ol_txrx_peer_find_hash_erase]: every peer loses all its references. *)
Definition erase_peer (p : Z) : MP unit :=
  upd_peer p (set_pe_ref_cnt (fun _ => 0));; ref_inc p;; ol_txrx_peer_unref_delete p.

Definition ol_txrx_peer_find_hash_erase : MP unit :=
  s ← get;
  for_each (Z.of_nat <$> seq 0 (Z.to_nat (pp_hash_mask s + 1))) (fun i =>
    s ← get; bin ← lift (znth (pp_hash_bins s) i); for_each bin erase_peer).

(** ** Creation *)

(** The mask, the bits of an index and the bins. *)
Definition ol_txrx_peer_find_hash_attach (max_peer_id : Z) : option (Z * Z * list (list Z)) :=
  let hash_elems := max_peer_id + 1 in
  let hash_elems := hash_elems * TXRX_PEER_HASH_LOAD_MULT in
  let hash_elems := Z.shiftr hash_elems TXRX_PEER_HASH_LOAD_SHIFT in
  log2 ← ol_txrx_log2_ceil hash_elems;
  let hash_elems := Z.shiftl 1 log2 in
  Some (hash_elems - 1, log2, replicate (Z.to_nat hash_elems) []).

Definition ol_txrx_peer_find_map_attach (max_peer_id : Z) : list (option Z) := replicate (Z.to_nat (max_peer_id + 1)) None.

(** The pool, the free list and the map. *)
Definition OL_TXRX_LOCAL_PEER_ID_POOL_INIT : list Z * Z * list (option Z) :=
  (((fun i => Z.of_nat i + 1) <$> seq 0 (Z.to_nat OL_TXRX_NUM_LOCAL_PEER_IDS)) ++ [OL_TXRX_NUM_LOCAL_PEER_IDS],
   0, replicate (Z.to_nat OL_TXRX_NUM_LOCAL_PEER_IDS) None).

(** [ol_txrx_peer_find_attach] and the pool; no allocation fails. *)
Definition peer_pdev_init (max_peer_id : Z) (host_addba monitor : bool) (d : D) : option (peer_pdev D) :=
  '(mask, idx_bits, bins) ← ol_txrx_peer_find_hash_attach max_peer_id;
  let '(pool, freelist, map) := OL_TXRX_LOCAL_PEER_ID_POOL_INIT in
  Some {| pp_peers := ∅; pp_vdevs := ∅; pp_vdev_list := [];
          pp_hash_mask := mask; pp_hash_idx_bits := idx_bits; pp_hash_bins := bins;
          pp_id_map := ol_txrx_peer_find_map_attach max_peer_id;
          pp_pool := pool; pp_freelist := freelist; pp_local_map := map;
          pp_max_peer_id := max_peer_id; pp_host_addba := host_addba; pp_monitor := monitor; pp_self_peer := None;
          pp_log := []; pp_data := d |}.

Definition fresh_vdev (mac : mac_addr) (op_mode : wlan_op_mode) : vdev :=
  mk_vdev mac op_mode [] None OL_TXRX_INVALID_LOCAL_PEER_ID false None false.

(** [v] is the memory the allocation returned. *)
Definition ol_txrx_vdev_attach (v : Z) (mac : mac_addr) (op_mode : wlan_op_mode) : MP unit :=
  s ← get;
  (if bool_decide (pp_vdevs s !! v = None) then skip else fault);;
  modify (set_pp_vdevs (<[v := fresh_vdev mac op_mode]>));;
  on_data (dp_vdev_attach v);;
  modify (set_pp_vdev_list (tailq_insert_tail v)).
End PeerTable.
