(* ===== verification/PeerRep.v ===== *)
(** What the peer table stands for: the list of the peers in the order in which
    they were attached.  A bin of the hash table is the sublist of the peers
    with its hash, the list of a vdev the sublist of its peers. *)
From Stdlib Require Import ZArith Lia.
From stdpp Require Import prelude gmap list numbers.
From S2P Require Import Prelude.
From S2P Require Import PeerTypes.
From S2P Require Import PeerTable.

(** ** Addresses and their hash *)

Definition mac_ok (m : mac_addr) : Prop :=
  0 <= bytes_ab m < 2 ^ 16 /\ 0 <= bytes_cd m < 2 ^ 16 /\ 0 <= bytes_ef m < 2 ^ 16.

Section Hash.
(** Comparing a 32-bit and a 16-bit word compares the addresses. *)
Lemma mac_addr_cmp_eq m1 m2 :
  mac_ok m1 -> mac_ok m2 -> ol_txrx_peer_find_mac_addr_cmp m1 m2 = negb (bool_decide (m1 = m2)).
Proof.
  intros (A1 & C1 & E1) (A2 & C2 & E2). unfold ol_txrx_peer_find_mac_addr_cmp, abcd. rewrite !(lor_add _ _ 16) by done. f_equal.
  destruct m1 as [a1 c1 e1], m2 as [a2 c2 e2]. cbn in *. apply eq_true_iff_eq.
  rewrite andb_true_iff, !Z.eqb_eq, bool_decide_eq_true. split; [|by intros [= -> -> ->]].
  intros [H ->]. assert (c1 = c2) as -> by lia. by assert (a1 = a2) as -> by lia.
Qed.

Lemma hash_index_range bits m : 0 <= bits -> 0 <= ol_txrx_peer_find_hash_index bits (2 ^ bits - 1) m < 2 ^ bits.
Proof.
  intros Hb. unfold ol_txrx_peer_find_hash_index. rewrite land_mask by done. apply Z.mod_pos_bound. lia.
Qed.

Lemma log2_loop_spec n : forall tmp k,
  0 < tmp < 2 ^ Z.of_nat n -> log2_loop n tmp k = Some (k + 1 + Z.log2 tmp).
Proof.
  induction n as [|n IH]; intros tmp k Ht; [lia|]. cbn [log2_loop]. rewrite (proj2 (Z.eqb_neq tmp 0)) by lia.
  destruct (decide (tmp = 1)) as [->|].
  - change (Z.shiftr 1 1) with 0. destruct n; f_equal; change (Z.log2 1) with 0; lia.
  - rewrite IH.
    + rewrite Z.log2_shiftr by lia. rewrite Z.max_r; [f_equal; lia|]. assert (Z.log2 2 <= Z.log2 tmp) by (apply Z.log2_le_mono; lia).
      change (Z.log2 2) with 1 in *. lia.
    + rewrite Z.shiftr_div_pow2 by lia. rewrite Nat2Z.inj_succ, Z.pow_succ_r in Ht by lia.
      change (2 ^ 1) with 2. split; [apply Z.div_str_pos; lia|apply Z.div_lt_upper_bound; lia].
Qed.

(** The logarithm rounded up: the smallest power of two that is not less. *)
Lemma log2_ceil_spec value :
  0 < value <= 2 ^ 31 -> exists k, ol_txrx_log2_ceil value = Some k /\ 0 <= k <= 31 /\ 2 ^ (k - 1) < value <= 2 ^ k.
Proof.
  intros Hv. unfold ol_txrx_log2_ceil. rewrite (proj2 (Z.eqb_neq value 0)) by lia.
  rewrite log2_loop_spec by (change (Z.of_nat 32) with 32; lia). cbn [mbind option_bind].
  replace (-1 + 1 + Z.log2 value) with (Z.log2 value) by lia. set (k := Z.log2 value).
  assert (Hk : 2 ^ k <= value < 2 ^ Z.succ k) by (apply Z.log2_spec; lia).
  assert (Hk0 : 0 <= k) by apply Z.log2_nonneg.
  assert (Hk31 : k <= 31) by (unfold k; rewrite <- (Z.log2_pow2 31) by lia; apply Z.log2_le_mono; lia).
  rewrite Z.shiftl_1_l. rewrite u32_small.
  2: { split; [lia|]. apply Z.le_lt_trans with (2 ^ 31); [apply Z.pow_le_mono_r; lia|lia]. }
  destruct (Z.eqb_spec (2 ^ k) value) as [E|E]; cbn [negb].
  - exists k. split; [done|]. split; [lia|]. split; [|lia]. rewrite <- E. apply Z.pow_lt_mono_r; lia.
  - exists (k + 1). split; [done|]. replace (k + 1 - 1) with k by lia. rewrite Z.pow_succ_r in Hk by lia.
    rewrite Z.pow_add_r by lia. split; [|lia]. split; [lia|]. destruct (decide (k = 31)) as [Ek|]; [|lia].
    rewrite Ek in *. lia.
Qed.
End Hash.

(** ** The representation *)
Section Rep.
Context {D : Type} `{DataPathOk D}.
Implicit Types (s : peer_pdev D) (L : list Z) (x : peer).

Definition hash_at s (p : Z) : option Z := hash_index s ∘ pe_mac <$> pp_peers s !! p.
Definition vdev_at s (p : Z) : option Z := pe_vdev <$> pp_peers s !! p.

Record PeerRep s L : Prop := {
  pr_nodup : NoDup L;
  pr_dom : forall p, p ∈ L <-> is_Some (pp_peers s !! p);
  pr_bits : 0 <= pp_hash_idx_bits s /\ pp_hash_mask s = 2 ^ pp_hash_idx_bits s - 1 /\
    zlen (pp_hash_bins s) = 2 ^ pp_hash_idx_bits s;
  pr_bin : forall i bin, znth (pp_hash_bins s) i = Some bin -> bin = filter (fun p => hash_at s p = Some i) L;
  pr_list : forall v y, pp_vdevs s !! v = Some y -> vd_peer_list y = filter (fun p => vdev_at s p = Some v) L;
  pr_home : forall p x, pp_peers s !! p = Some x -> is_Some (pp_vdevs s !! pe_vdev x);
  pr_peer : forall p x, pp_peers s !! p = Some x -> mac_ok (pe_mac x) /\ 0 < pe_ref_cnt x < 2 ^ 31;
  pr_data : dp_ok (list_to_set (pp_vdev_list s)) (dom (pp_peers s)) (pp_data s) }.

(** The first peer, in the order of the attaches, that fits. *)
Definition fit_at s (fits : peer -> bool) (p : Z) : bool :=
  match pp_peers s !! p with Some x => fits x | None => false end.

(** What the representation sees of a peer. *)
Definition same_key x x' : Prop := pe_mac x' = pe_mac x /\ pe_vdev x' = pe_vdev x.

Lemma hash_at_upd s p x x' q :
  pp_peers s !! p = Some x -> same_key x x' -> hash_at (set_pp_peers (<[p := x']>) s) q = hash_at s q.
Proof.
  intros Hp [Hm _]. unfold hash_at. cbn. destruct (decide (q = p)) as [->|].
  - rewrite lookup_insert_eq, Hp. cbn. by rewrite Hm.
  - by rewrite lookup_insert_ne.
Qed.
Lemma vdev_at_upd s p x x' q :
  pp_peers s !! p = Some x -> same_key x x' -> vdev_at (set_pp_peers (<[p := x']>) s) q = vdev_at s q.
Proof.
  intros Hp [_ Hv]. unfold vdev_at. cbn. destruct (decide (q = p)) as [->|].
  - rewrite lookup_insert_eq, Hp. cbn. by rewrite Hv.
  - by rewrite lookup_insert_ne.
Qed.

(** A change of a peer that keeps its address and vdev. *)
Lemma PeerRep_upd_peer s L p x x' :
  PeerRep s L -> pp_peers s !! p = Some x -> same_key x x' -> 0 < pe_ref_cnt x' < 2 ^ 31 ->
  PeerRep (set_pp_peers (<[p := x']>) s) L.
Proof.
  intros HR Hp Hk Hr. destruct HR as [H1 H2 H3 H4 H5 H6 H7 H8]. constructor; cbn; try done.
  - intros q. rewrite H2. destruct (decide (q = p)) as [->|]; [by rewrite lookup_insert_eq, Hp|by rewrite lookup_insert_ne].
  - intros i bin Hb. rewrite (H4 i bin Hb). apply list_filter_iff. intros q. by rewrite (hash_at_upd _ _ _ _ _ Hp Hk).
  - intros v y Hy. rewrite (H5 v y Hy). apply list_filter_iff. intros q. by rewrite (vdev_at_upd _ _ _ _ _ Hp Hk).
  - intros q z Hq. destruct (decide (q = p)) as [->|].
    + rewrite lookup_insert_eq in Hq. simplify_eq. destruct Hk as [_ ->]. by apply (H6 p).
    + rewrite lookup_insert_ne in Hq by done. by apply (H6 q).
  - intros q z Hq. destruct (decide (q = p)) as [->|].
    + rewrite lookup_insert_eq in Hq. simplify_eq. destruct Hk as [-> _]. split; [by apply (H7 p)|done].
    + rewrite lookup_insert_ne in Hq by done. by apply (H7 q).
  - replace (dom (<[p:=x']> (pp_peers s))) with (dom (pp_peers s)); [done|]. rewrite dom_insert_L.
    assert (p ∈ dom (pp_peers s)) by (apply elem_of_dom; eauto). set_solver.
Qed.

(** A change of a vdev that keeps its list of peers. *)
Lemma PeerRep_upd_vdev s L v y y' :
  PeerRep s L -> pp_vdevs s !! v = Some y -> vd_peer_list y' = vd_peer_list y ->
  PeerRep (set_pp_vdevs (<[v := y']>) s) L.
Proof.
  intros [H1 H2 H3 H4 H5 H6 H7 H8] Hv Hl. constructor; cbn; try done.
  - intros w z Hw. destruct (decide (w = v)) as [->|].
    + rewrite lookup_insert_eq in Hw. simplify_eq. rewrite Hl. by apply H5.
    + rewrite lookup_insert_ne in Hw by done. by apply H5.
  - intros q x Hq. destruct (decide (pe_vdev x = v)) as [->|]; [rewrite lookup_insert_eq; eauto|].
    rewrite lookup_insert_ne by done. by apply (H6 q).
Qed.

(** Only the fields the representation speaks of matter. *)
Lemma PeerRep_frame s s' L :
  pp_peers s' = pp_peers s -> pp_vdevs s' = pp_vdevs s -> pp_hash_mask s' = pp_hash_mask s ->
  pp_hash_idx_bits s' = pp_hash_idx_bits s -> pp_hash_bins s' = pp_hash_bins s -> pp_vdev_list s' = pp_vdev_list s ->
  pp_data s' = pp_data s -> PeerRep s L -> PeerRep s' L.
Proof.
  intros E1 E2 E3 E4 E5 E6 E7 [H1 H2 H3 H4 H5 H6 H7 H8].
  constructor; unfold hash_at, vdev_at, hash_index in *; rewrite ?E1, ?E2, ?E3, ?E4, ?E5, ?E6, ?E7; done.
Qed.

Lemma bin_at s L m :
  PeerRep s L ->
  znth (pp_hash_bins s) (hash_index s m) = Some (filter (fun p => hash_at s p = Some (hash_index s m)) L).
Proof.
  intros HR. destruct (pr_bits _ _ HR) as (Hb & Hm & Hl).
  destruct (znth_in_range (pp_hash_bins s) (hash_index s m)) as [bin Hbin].
  { rewrite Hl. unfold hash_index. rewrite Hm. by apply hash_index_range. }
  rewrite Hbin. f_equal. by apply (pr_bin _ _ HR).
Qed.

Lemma peer_in s L p x : PeerRep s L -> pp_peers s !! p = Some x -> p ∈ L.
Proof. intros HR Hp. apply (pr_dom _ _ HR). eauto. Qed.
End Rep.
