(* ===== verification/PeerSpec.v ===== *)
(** What the operations of the peer table do to the list of peers and their
    references. *)
From Stdlib Require Import ZArith Lia.
From stdpp Require Import prelude gmap list numbers.
From S2P Require Import Prelude.
From S2P Require Import PeerTypes.
From S2P Require Import PeerTable.
From S2P Require Import PeerRep.

(** ** Lists *)
Section Lists.
Context {A : Type}.
Implicit Types l : list A.

Lemma find_filter (f : A -> bool) (P : A -> Prop) `{!forall a, Decision (P a)} l :
  (forall a, f a = true -> P a) -> List.find f (filter P l) = List.find f l.
Proof.
  intros Hf. induction l as [|a l IH]; [done|]. rewrite filter_cons. case_decide as HP; simpl.
  - by destruct (f a).
  - destruct (f a) eqn:E; [by apply Hf in E|done].
Qed.

Lemma find_ext_in (f g : A -> bool) l : (forall a, a ∈ l -> f a = g a) -> List.find f l = List.find g l.
Proof.
  induction l as [|a l IH]; intros H; [done|]. simpl. rewrite (H a) by (by apply elem_of_cons; left).
  rewrite IH; [done|]. intros b Hb. apply H. by apply elem_of_cons; right.
Qed.

Lemma filter_id (P : A -> Prop) `{!forall a, Decision (P a)} l : (forall a, a ∈ l -> P a) -> filter P l = l.
Proof.
  induction l as [|a l IH]; intros Hl; [done|]. rewrite filter_cons, decide_True by (apply Hl; by apply elem_of_cons; left).
  rewrite IH; [done|]. intros b Hb. apply Hl. by apply elem_of_cons; right.
Qed.

Lemma tailq_remove_filter `{EqDecision A} (a : A) l :
  NoDup l -> a ∈ l -> tailq_remove a l = Some (filter (fun b => b <> a) l).
Proof.
  induction l as [|b l IH]; intros Hnd Ha; [by apply not_elem_of_nil in Ha|]. apply list.NoDup_cons in Hnd as [Hb Hnd].
  cbn [tailq_remove]. rewrite filter_cons. case_decide as E.
  - subst b. rewrite decide_False by naive_solver. f_equal. symmetry. apply filter_id. by intros c Hc ->.
  - apply elem_of_cons in Ha as [->|Ha]; [done|]. rewrite IH by done. cbn [mbind option_bind].
    by rewrite decide_True by naive_solver.
Qed.

Lemma filter_swap (P Q : A -> Prop) `{!forall a, Decision (P a)} `{!forall a, Decision (Q a)} l :
  filter P (filter Q l) = filter Q (filter P l).
Proof. rewrite !list_filter_filter. apply list_filter_iff. naive_solver. Qed.
End Lists.

Section Spec.
Context {D : Type} `{DataPathOk D}.
Notation MP := (M (peer_pdev D)).
Implicit Types (s : peer_pdev D) (L : list Z) (x : peer) (y : vdev).

(** ** Steps *)
Lemma get_peer_run s p x : pp_peers s !! p = Some x -> get_peer p s = Some (x, s).
Proof. intros E. unfold get_peer, mbind, M_bind, get, lift. by rewrite E. Qed.
Lemma upd_peer_run s p x f :
  pp_peers s !! p = Some x -> upd_peer p f s = Some (tt, set_pp_peers (<[p := f x]>) s).
Proof. intros E. unfold upd_peer, mbind, M_bind. by rewrite (get_peer_run _ _ _ E). Qed.
Lemma get_vdev_run s v y : pp_vdevs s !! v = Some y -> get_vdev v s = Some (y, s).
Proof. intros E. unfold get_vdev, mbind, M_bind, get, lift. by rewrite E. Qed.
Lemma upd_vdev_run s v y f :
  pp_vdevs s !! v = Some y -> upd_vdev v f s = Some (tt, set_pp_vdevs (<[v := f y]>) s).
Proof. intros E. unfold upd_vdev, mbind, M_bind. by rewrite (get_vdev_run _ _ _ E). Qed.
Lemma on_data_run s f d : f (pp_data s) = Some d -> on_data f s = Some (tt, set_pp_data (fun _ => d) s).
Proof. intros E. unfold on_data, mbind, M_bind, get, lift, modify. by rewrite E. Qed.

(** ** Lookups *)

Definition mac_fits (mac : mac_addr) (check_valid : bool) (x : peer) : bool :=
  bool_decide (pe_mac x = mac) && (negb check_valid || pe_valid x).

Lemma find_in_bin_spec s fits bin :
  (forall p, p ∈ bin -> is_Some (pp_peers s !! p)) ->
  find_in_bin fits bin s =
    match List.find (fit_at s fits) bin with None => Some (None, s) | Some p => (ref_inc p;; mret (Some p)) s end.
Proof.
  induction bin as [|p bin IH]; intros Hb; [done|]. destruct (Hb p) as [x Hp]; [by apply elem_of_cons; left|].
  cbn [find_in_bin List.find]. unfold fit_at at 1. rewrite Hp. unfold mbind at 1, M_bind at 1. rewrite (get_peer_run _ _ _ Hp).
  destruct (fits x); [done|]. apply IH. intros q Hq. apply Hb. by apply elem_of_cons; right.
Qed.

(** A bin is searched as the whole list would be. *)
Lemma find_bin s L mac fits :
  PeerRep s L -> (forall p x, pp_peers s !! p = Some x -> fits x = true -> pe_mac x = mac) ->
  (bin ← lift (znth (pp_hash_bins s) (hash_index s mac)); find_in_bin fits bin) s =
    match List.find (fit_at s fits) L with None => Some (None, s) | Some p => (ref_inc p;; mret (Some p)) s end.
Proof.
  intros HR Hf. unfold mbind at 1, M_bind at 1, lift at 1. rewrite (bin_at _ _ mac HR).
  rewrite find_in_bin_spec.
  - rewrite find_filter; [done|]. intros p Hp. unfold fit_at in Hp. unfold hash_at.
    destruct (pp_peers s !! p) as [x|] eqn:E; [|done]. cbn. by rewrite (Hf p x E Hp).
  - intros p [_ Hp]%list_elem_of_filter. by apply (pr_dom _ _ HR).
Qed.

Lemma find_fits_ext s L f g :
  PeerRep s L -> (forall p x, pp_peers s !! p = Some x -> f x = g x) ->
  List.find (fit_at s f) L = List.find (fit_at s g) L.
Proof.
  intros HR E. apply find_ext_in. intros p _. unfold fit_at. destruct (pp_peers s !! p) eqn:Ep; [by apply (E p)|done].
Qed.

(** The comparison of the code on the addresses in the table. *)
Lemma cmp_at s L mac p x :
  PeerRep s L -> mac_ok mac -> pp_peers s !! p = Some x ->
  negb (ol_txrx_peer_find_mac_addr_cmp mac (pe_mac x)) = bool_decide (pe_mac x = mac).
Proof.
  intros HR Hm Hp. destruct (pr_peer _ _ HR p x Hp) as [Hx _]. rewrite mac_addr_cmp_eq, negb_involutive by done.
  apply bool_decide_ext. naive_solver.
Qed.

Lemma hash_find_spec s L mac cv :
  PeerRep s L -> mac_ok mac ->
  ol_txrx_peer_find_hash_find mac cv s =
    match List.find (fit_at s (mac_fits mac cv)) L with None => Some (None, s) | Some p => (ref_inc p;; mret (Some p)) s end.
Proof.
  intros HR Hm. unfold ol_txrx_peer_find_hash_find, mbind at 1, M_bind at 1, get. rewrite (find_bin s L mac); [|done|].
  - erewrite find_fits_ext; [done|done|]. intros p x Hp. cbn. unfold mac_fits. by rewrite (cmp_at _ _ _ _ _ HR Hm Hp).
  - intros p x Hp. rewrite (cmp_at _ _ _ _ _ HR Hm Hp). rewrite andb_true_iff, bool_decide_eq_true. tauto.
Qed.

Lemma vdev_find_hash_spec s L v mac cv :
  PeerRep s L -> mac_ok mac ->
  ol_txrx_peer_vdev_find_hash v mac cv s =
    match List.find (fit_at s (fun x => mac_fits mac cv x && bool_decide (pe_vdev x = v))) L with
    | None => Some (None, s) | Some p => (ref_inc p;; mret (Some p)) s end.
Proof.
  intros HR Hm. unfold ol_txrx_peer_vdev_find_hash, mbind at 1, M_bind at 1, get. rewrite (find_bin s L mac); [|done|].
  - erewrite find_fits_ext; [done|done|]. intros p x Hp. cbn. unfold mac_fits. by rewrite (cmp_at _ _ _ _ _ HR Hm Hp).
  - intros p x Hp. rewrite (cmp_at _ _ _ _ _ HR Hm Hp). rewrite !andb_true_iff, bool_decide_eq_true. tauto.
Qed.

(** A reference more. *)
Lemma ref_inc_spec s L p x :
  PeerRep s L -> pp_peers s !! p = Some x -> pe_ref_cnt x + 1 < 2 ^ 31 ->
  let s' := set_pp_peers (<[p := set_pe_ref_cnt (fun n => n + 1) x]>) s in
  ref_inc p s = Some (tt, s') /\ PeerRep s' L.
Proof.
  intros HR Hp Hr. destruct (pr_peer _ _ HR p x Hp) as [_ Hx]. split.
  - unfold ref_inc. rewrite (upd_peer_run _ _ _ _ Hp). unfold set_pe_ref_cnt. rewrite s32_small by lia. done.
  - eapply PeerRep_upd_peer; [done|done|done|]. cbn. lia.
Qed.

(** ** The deletion of a peer *)

(** The vdev without the peer, and what is said about it. *)
Definition vdev_without (p : Z) (local_id : Z) (y : vdev) : vdev :=
  let y := set_vd_peer_list (filter (fun q => q <> p)) y in
  if local_id =? vd_wait_on_peer_id y then set_vd_wait_on_peer_id (fun _ => OL_TXRX_INVALID_LOCAL_PEER_ID) y else y.
Definition vdev_done (y : vdev) : bool := bool_decide (vd_peer_list y = []) && vd_delete_pending y.
Definition delete_events (p v local_id : Z) (y : vdev) : list event :=
  (if local_id =? vd_wait_on_peer_id y then [wait_completed v] else []) ++
  (if vdev_done (vdev_without p local_id y)
   then vdev_freed v :: match vd_delete_callback y with Some c => [vdev_delete_cb v c] | None => [] end else []) ++
  [peer_freed p].

Lemma vdev_without_fields p i y :
  vd_peer_list (vdev_without p i y) = filter (fun q => q <> p) (vd_peer_list y) /\
  vd_delete_callback (vdev_without p i y) = vd_delete_callback y /\
  vd_delete_pending (vdev_without p i y) = vd_delete_pending y /\
  vd_last_real_peer (vdev_without p i y) = vd_last_real_peer y /\ vd_mac (vdev_without p i y) = vd_mac y.
Proof. unfold vdev_without. cbn. by destruct (i =? vd_wait_on_peer_id y). Qed.

(** What the deletion leaves alone. *)
Record same_config s s' : Prop := {
  sc_id_map : pp_id_map s' = pp_id_map s;
  sc_pool : pp_pool s' = pp_pool s;
  sc_freelist : pp_freelist s' = pp_freelist s;
  sc_local_map : pp_local_map s' = pp_local_map s;
  sc_max : pp_max_peer_id s' = pp_max_peer_id s;
  sc_vdev_list : pp_vdev_list s' = pp_vdev_list s;
  sc_addba : pp_host_addba s' = pp_host_addba s;
  sc_hash : pp_hash_mask s' = pp_hash_mask s /\ pp_hash_idx_bits s' = pp_hash_idx_bits s }.

Record deleted s (p : Z) x s' : Prop := {
  dl_peers : pp_peers s' = delete p (pp_peers s);
  dl_config : same_config s s';
  dl_vdevs : forall v, v <> pe_vdev x -> pp_vdevs s' !! v = pp_vdevs s !! v;
  dl_vdev : forall y, pp_vdevs s !! pe_vdev x = Some y ->
    let y' := vdev_without p (pe_local_id x) y in
    pp_vdevs s' !! pe_vdev x = (if vdev_done y' then None else Some y') /\
    pp_log s' = pp_log s ++ delete_events p (pe_vdev x) (pe_local_id x) y;
  dl_desc : forall v, pp_vdevs s' !! v = None -> is_Some (pp_vdevs s !! v) -> dp_unnamed v (pp_data s') }.

Lemma delete_pending_vdev_run s v y d :
  pp_vdevs s !! v = Some y -> dp_vdev_gone v (pp_data s) = Some d ->
  delete_pending_vdev v s = Some (tt,
    if vdev_done y then
      set_pp_log (fun l => l ++ vdev_freed v :: match vd_delete_callback y with Some c => [vdev_delete_cb v c] | None => [] end)
        (set_pp_vdevs (delete v) (set_pp_data (fun _ => d) s))
    else s).
Proof.
  intros Hv Hd. unfold delete_pending_vdev, mbind, M_bind. rewrite (get_vdev_run _ _ _ Hv). unfold vdev_done.
  destruct (bool_decide _ && _); [|done]. rewrite (on_data_run _ _ _ Hd). unfold modify, log. destruct (vd_delete_callback y); [|done].
  unfold modify, set_pp_log. cbn. by rewrite <- app_assoc.
Qed.

Lemma hash_remove_run s L p x :
  PeerRep s L -> pp_peers s !! p = Some x ->
  forall s1, pp_peers s1 !! p = Some x \/ (exists x1, pp_peers s1 !! p = Some x1 /\ pe_mac x1 = pe_mac x) ->
  pp_hash_bins s1 = pp_hash_bins s -> pp_hash_idx_bits s1 = pp_hash_idx_bits s -> pp_hash_mask s1 = pp_hash_mask s ->
  ol_txrx_peer_find_hash_remove p s1 =
    Some (tt, set_pp_hash_bins (fun l => zset l (hash_index s (pe_mac x))
      (filter (fun q => q <> p) (filter (fun q => hash_at s q = Some (hash_index s (pe_mac x))) L))) s1).
Proof.
  intros HR Hp s1 H1 E1 E2 E3. assert (exists x1, pp_peers s1 !! p = Some x1 /\ pe_mac x1 = pe_mac x) as (x1 & Hx1 & Em) by naive_solver.
  unfold ol_txrx_peer_find_hash_remove, mbind, M_bind, get, lift. rewrite (get_peer_run _ _ _ Hx1).
  unfold hash_index. rewrite Em, E1, E2, E3. fold (hash_index s (pe_mac x)). rewrite (bin_at _ _ _ HR).
  rewrite tailq_remove_filter; [done| |].
  - apply list.NoDup_filter, (pr_nodup _ _ HR).
  - apply list_elem_of_filter. split; [unfold hash_at; by rewrite Hp|]. by eapply peer_in.
Qed.

Lemma PeerRep_delete s s' L p x :
  PeerRep s L -> pp_peers s !! p = Some x ->
  pp_peers s' = delete p (pp_peers s) -> pp_hash_mask s' = pp_hash_mask s -> pp_hash_idx_bits s' = pp_hash_idx_bits s ->
  pp_hash_bins s' = zset (pp_hash_bins s) (hash_index s (pe_mac x))
    (filter (fun q => q <> p) (filter (fun q => hash_at s q = Some (hash_index s (pe_mac x))) L)) ->
  (forall v, v <> pe_vdev x -> pp_vdevs s' !! v = pp_vdevs s !! v) ->
  (forall y, pp_vdevs s !! pe_vdev x = Some y -> match pp_vdevs s' !! pe_vdev x with
     | Some y' => vd_peer_list y' = filter (fun q => q <> p) (vd_peer_list y)
     | None => filter (fun q => q <> p) (vd_peer_list y) = [] end) ->
  dp_ok (list_to_set (pp_vdev_list s')) (dom (pp_peers s) ∖ {[p]}) (pp_data s') -> PeerRep s' (filter (fun q => q <> p) L).
Proof.
  intros HR Hp Ep Em Eb Ebins Hvo Hv Hd. pose proof HR as [H1 H2 H3 H4 H5 H6 H7 H8]. destruct H3 as (Hb & Hm & Hl).
  assert (Hidx : 0 <= hash_index s (pe_mac x) < zlen (pp_hash_bins s)).
  { rewrite Hl. unfold hash_index. rewrite Hm. by apply hash_index_range. }
  assert (Hhash : forall q, q <> p -> hash_at s' q = hash_at s q).
  { intros q Hq. unfold hash_at, hash_index. by rewrite Ep, Em, Eb, lookup_delete_ne. }
  assert (Hvat : forall q, q <> p -> vdev_at s' q = vdev_at s q).
  { intros q Hq. unfold vdev_at. by rewrite Ep, lookup_delete_ne. }
  assert (Hin : forall (P P' : Z -> Prop) `{!forall q, Decision (P q)} `{!forall q, Decision (P' q)},
    (forall q, q <> p -> P q <-> P' q) ->
    filter P (filter (fun q => q <> p) L) = filter (fun q => q <> p) (filter P' L)).
  { intros P P' ?? HPP. rewrite filter_swap, !list_filter_filter. apply list_filter_iff. naive_solver. }
  constructor.
  - by apply list.NoDup_filter.
  - intros q. rewrite list_elem_of_filter, H2, Ep. destruct (decide (q = p)) as [->|].
    + rewrite lookup_delete_eq. split; [naive_solver|by intros [? ?]].
    + rewrite lookup_delete_ne by done. naive_solver.
  - by rewrite Em, Eb, Ebins, zlen_zset.
  - intros i bin Hbin. rewrite Ebins in Hbin. pose proof (znth_lt_Some _ _ _ Hbin) as Hi. rewrite zlen_zset in Hi.
    rewrite (Hin _ (fun q => hash_at s q = Some i) _ _) by (intros q Hq; by rewrite Hhash).
    rewrite znth_zset in Hbin by lia. case_decide as E.
    + subst i. by simplify_eq.
    + rewrite (H4 _ _ Hbin). symmetry. apply filter_id. intros q [Hq _]%list_elem_of_filter ->.
      unfold hash_at in Hq. rewrite Hp in Hq. cbn in Hq. congruence.
  - intros v y' Hy'. rewrite (Hin _ (fun q => vdev_at s q = Some v) _ _) by (intros q Hq; by rewrite Hvat).
    destruct (decide (v = pe_vdev x)) as [->|Hne].
    + destruct (H6 p x Hp) as [y Hy]. specialize (Hv y Hy). rewrite Hy' in Hv. by rewrite Hv, (H5 _ _ Hy).
    + rewrite Hvo in Hy' by done. rewrite (H5 _ _ Hy'). symmetry. apply filter_id. intros q [Hq _]%list_elem_of_filter ->.
      unfold vdev_at in Hq. rewrite Hp in Hq. cbn in Hq. congruence.
  - intros q z Hq. rewrite Ep in Hq. apply lookup_delete_Some in Hq as [Hne Hq].
    destruct (decide (pe_vdev z = pe_vdev x)) as [Ev|]; [|rewrite Hvo by done; by apply (H6 q)].
    destruct (H6 p x Hp) as [y Hy]. specialize (Hv y Hy). rewrite Ev. destruct (pp_vdevs s' !! pe_vdev x); [eauto|].
    exfalso. assert (q ∈ filter (fun q => q <> p) (vd_peer_list y)) as Hbad; [|rewrite Hv in Hbad; by apply not_elem_of_nil in Hbad].
    apply list_elem_of_filter. split; [done|]. rewrite (H5 _ _ Hy). apply list_elem_of_filter.
    split; [unfold vdev_at; rewrite Hq; cbn; by rewrite Ev|by eapply peer_in].
  - intros q z Hq. rewrite Ep in Hq. apply lookup_delete_Some in Hq as [_ Hq]. by apply (H7 q).
  - by rewrite Ep, dom_delete_L.
Qed.

Lemma delete_peer_spec s L p x x' :
  PeerRep s L -> pp_peers s !! p = Some x -> same_key x x' -> pe_local_id x' = pe_local_id x ->
  wp (delete_peer p) (fun _ s' => PeerRep s' (filter (fun q => q <> p) L) /\ deleted s p x s')
     (set_pp_peers (<[p := x']>) s).
Proof.
  intros HR Hp [Em Ev] El. destruct (pr_home _ _ HR p x Hp) as [y Hy].
  assert (Hpd : p ∈ dom (pp_peers s)) by (apply elem_of_dom; eauto).
  destruct (dp_rx_cleanup_ok _ _ p _ (pr_data _ _ HR) Hpd) as (d1 & Hd1 & He1).
  destruct (dp_ending_gone_ok _ _ p (pe_vdev x) _ He1) as (dg & Hdg & Heg & Hun).
  unfold delete_peer. eapply wp_step; [apply get_peer_run; cbn; apply lookup_insert_eq|]. cbv zeta. rewrite Ev, El.
  eapply wp_step; [reflexivity|]. match goal with |- wp _ _ ?st => set (s1 := st) end.
  assert (F : pp_peers s1 = <[p := x']> (pp_peers s) /\ pp_vdevs s1 = pp_vdevs s /\ pp_hash_bins s1 = pp_hash_bins s /\
    pp_hash_idx_bits s1 = pp_hash_idx_bits s /\ pp_hash_mask s1 = pp_hash_mask s /\ pp_data s1 = pp_data s /\
    pp_log s1 = pp_log s /\ same_config s s1).
  { unfold s1. destruct (_ && _); by repeat split. }
  clearbody s1. destruct F as (F1 & F2 & F3 & F4 & F5 & F6 & F7 & F9).
  eapply wp_step; [apply (hash_remove_run s L p x HR Hp s1); [right; exists x'; rewrite F1, lookup_insert_eq; done|done..]|].
  eapply wp_step; [apply get_vdev_run; cbn; by rewrite F2|].
  eapply wp_step; [unfold lift; rewrite tailq_remove_filter; [reflexivity| |]|].
  { rewrite (pr_list _ _ HR _ _ Hy). apply list.NoDup_filter, (pr_nodup _ _ HR). }
  { rewrite (pr_list _ _ HR _ _ Hy). apply list_elem_of_filter. split; [unfold vdev_at; by rewrite Hp|by eapply peer_in]. }
  eapply wp_step; [apply upd_vdev_run; cbn; by rewrite F2|].
  eapply wp_step; [apply on_data_run; cbn; by rewrite F6|].
  eapply wp_step; [apply upd_peer_run; cbn; rewrite F1; apply lookup_insert_eq|].
  eapply wp_step; [apply get_vdev_run; cbn; apply lookup_insert_eq|]. cbn [set_vd_peer_list vd_wait_on_peer_id].
  match goal with |- wp _ _ ?st => set (s2 := st) end.
  assert (exists s3, when (pe_local_id x =? vd_wait_on_peer_id y)
     (log (wait_completed (pe_vdev x));; upd_vdev (pe_vdev x) (set_vd_wait_on_peer_id (fun _ => OL_TXRX_INVALID_LOCAL_PEER_ID))) s2 =
     Some (tt, s3) /\ pp_vdevs s3 !! pe_vdev x = Some (vdev_without p (pe_local_id x) y) /\
     (forall v, v <> pe_vdev x -> pp_vdevs s3 !! v = pp_vdevs s !! v) /\
     pp_log s3 = pp_log s ++ (if pe_local_id x =? vd_wait_on_peer_id y then [wait_completed (pe_vdev x)] else []) /\
     pp_peers s3 = pp_peers s2 /\ pp_hash_bins s3 = pp_hash_bins s2 /\ pp_hash_idx_bits s3 = pp_hash_idx_bits s /\
     pp_hash_mask s3 = pp_hash_mask s /\ pp_data s3 = pp_data s2 /\ same_config s s3) as
    (s3 & Hrun3 & G1 & G2 & G3 & G4 & G5 & G6 & G7 & G8 & G9).
  { destruct (Z.eqb_spec (pe_local_id x) (vd_wait_on_peer_id y)) as [Ew|Ew]; cbn [when].
    - unfold log. unfold mbind at 1, M_bind at 1, modify at 1.
      rewrite (upd_vdev_run _ (pe_vdev x) (set_vd_peer_list (fun _ => filter (fun q => q <> p) (vd_peer_list y)) y)) by (cbn; apply lookup_insert_eq).
      eexists. split; [done|]. cbn. rewrite lookup_insert_eq. unfold vdev_without. cbn. rewrite Ew, Z.eqb_refl.
      split; [done|]. split; [intros v Hv; by rewrite !lookup_insert_ne, F2|]. rewrite F7. split; [done|].
      split; [done|]. split; [done|]. split; [done|]. split; [done|]. split; [done|]. destruct F9; by constructor.
    - eexists. split; [done|]. cbn. rewrite lookup_insert_eq. unfold vdev_without. cbn. rewrite (proj2 (Z.eqb_neq _ _) Ew).
      split; [done|]. split; [intros v Hv; by rewrite lookup_insert_ne, F2|]. rewrite F7, app_nil_r. split; [done|].
      split; [done|]. split; [done|]. split; [done|]. split; [done|]. split; [done|]. destruct F9; by constructor. }
  eapply wp_step; [exact Hrun3|].
  eapply wp_step; [apply (delete_pending_vdev_run _ _ _ dg G1); rewrite G8; exact Hdg|].
  set (y' := vdev_without p (pe_local_id x) y) in *. match goal with |- wp _ _ ?st => set (s4 := st) end.
  assert (K : pp_vdevs s4 !! pe_vdev x = (if vdev_done y' then None else Some y') /\
    (forall v, v <> pe_vdev x -> pp_vdevs s4 !! v = pp_vdevs s !! v) /\
    pp_log s4 ++ [peer_freed p] = pp_log s ++ delete_events p (pe_vdev x) (pe_local_id x) y /\
    (vdev_done y' = true -> dp_unnamed (pe_vdev x) (pp_data s4)) /\
    pp_peers s4 = pp_peers s2 /\ pp_hash_bins s4 = pp_hash_bins s2 /\ pp_hash_idx_bits s4 = pp_hash_idx_bits s /\
    pp_hash_mask s4 = pp_hash_mask s /\ dp_ending p (list_to_set (pp_vdev_list s)) (dom (pp_peers s)) (pp_data s4) /\
    same_config s s4).
  { unfold s4, delete_events. fold y'. destruct (vdev_done y') eqn:Ed; cbn.
    - rewrite lookup_delete_eq. split; [done|]. split; [intros v Hv; by rewrite lookup_delete_ne, G2|].
      rewrite G3. assert (vd_delete_callback y' = vd_delete_callback y) as -> by apply vdev_without_fields.
      split; [by rewrite <- !app_assoc|]. do 6 (split; [done|]). destruct G9; by constructor.
    - split; [done|]. split; [done|]. rewrite G3, G8. split; [by rewrite <- !app_assoc|]. by split. }
  clearbody s4. destruct K as (K1 & K2 & K3 & K4 & K5 & K6 & K7 & K8 & K9 & K10).
  destruct (dp_free_ok _ _ p _ K9 Hpd) as (d2 & Hd2 & Hok2 & Hun2).
  eapply wp_step; [apply on_data_run; exact Hd2|]. eapply wp_step; [reflexivity|].
  apply (wp_run _ _ _ tt _ eq_refl). split.
  - apply (PeerRep_delete s _ L p x HR Hp); cbn; try done.
    + by rewrite K5; unfold s2; cbn; rewrite F1, !delete_insert_eq.
    + by rewrite K6; unfold s2; cbn; rewrite F3.
    + intros y0 Hy0. assert (y0 = y) as -> by congruence. rewrite K1.
      assert (vd_peer_list y' = filter (fun q => q <> p) (vd_peer_list y)) as El' by apply vdev_without_fields.
      destruct (vdev_done y') eqn:Ed; [|done]. unfold vdev_done in Ed. apply andb_true_iff in Ed as [Ed%bool_decide_eq_true _].
      by rewrite <- El'.
    + by rewrite (sc_vdev_list _ _ K10).
  - constructor; cbn; try done.
    + by rewrite K5; unfold s2; cbn; rewrite F1, !delete_insert_eq.
    + destruct K10; by constructor.
    + intros y0 Hy0. assert (y0 = y) as -> by congruence. split; [exact K1|exact K3].
    + intros v Hn Hs. destruct (decide (v = pe_vdev x)) as [->|Hne]; [|rewrite K2 in Hn by done; by destruct Hs; congruence].
      apply Hun2, K4. rewrite K1 in Hn. by destruct (vdev_done y').
Qed.

(** Dropping a reference: the last one deletes the peer. *)
Lemma unref_delete_spec s L p x :
  PeerRep s L -> pp_peers s !! p = Some x ->
  wp (ol_txrx_peer_unref_delete p) (fun _ s' =>
    if pe_ref_cnt x =? 1 then PeerRep s' (filter (fun q => q <> p) L) /\ deleted s p x s'
    else s' = set_pp_peers (<[p := set_pe_ref_cnt (fun n => n - 1) x]>) s /\ PeerRep s' L) s.
Proof.
  intros HR Hp. destruct (pr_peer _ _ HR p x Hp) as [_ Hr]. destruct (pr_home _ _ HR p x Hp) as [y Hy].
  unfold ol_txrx_peer_unref_delete. eapply wp_step; [by apply get_peer_run|]. eapply wp_step; [by apply get_vdev_run|].
  rewrite (proj2 (Z.eqb_neq (pe_ref_cnt x) 0)) by lia.
  eapply wp_step; [by apply upd_peer_run|]. rewrite s32_small by lia.
  assert (set_pe_ref_cnt (fun n => s32 (n - 1)) x = set_pe_ref_cnt (fun n => n - 1) x) as ->.
  { unfold set_pe_ref_cnt. by rewrite s32_small by lia. }
  destruct (Z.eqb_spec (pe_ref_cnt x) 1) as [E|E].
  - rewrite E. cbn [Z.sub Z.add Z.opp Z.pos_sub Z.eqb when]. by apply (delete_peer_spec s L p x _ HR Hp).
  - rewrite (proj2 (Z.eqb_neq (pe_ref_cnt x - 1) 0)) by lia. cbn [when]. apply (wp_run _ _ _ tt _ eq_refl).
    split; [done|]. eapply PeerRep_upd_peer; [done|done|done|]. cbn. lia.
Qed.
End Spec.
