(* ===== verification/PeerInv.v ===== *)
(** The invariant of the peer table: a peer is never referred to by more than
    its reference count says, so that none is used after it is freed; the local
    ids in use and the free ones are apart. *)
From Stdlib Require Import ZArith Lia.
From stdpp Require Import prelude gmap list numbers.
From S2P Require Import Prelude.
From S2P Require Import PeerTypes.
From S2P Require Import PeerTable.
From S2P Require Import PeerRep.
From S2P Require Import PeerSpec.

(** ** Sums over an array *)
Lemma zsum_zset {A} (f : A -> Z) (l : list A) i a b :
  znth l i = Some a -> zsum f (zset l i b) = zsum f l - f a + f b.
Proof.
  intros [Hi Ha]%znth_Some. unfold zset. revert Ha. generalize (Z.to_nat i). clear Hi. intros k.
  revert k. induction l as [|c l IH]; intros k Ha; [done|]. destruct k as [|k]; simpl in *.
  - injection Ha as ->. rewrite !zsum_cons. lia.
  - rewrite !zsum_cons, (IH k Ha). lia.
Qed.

(** ** References *)
Section Refs.
Context {D : Type} `{DataPathOk D}.
Implicit Types (s : peer_pdev D) (L : list Z) (x : peer) (y : vdev).

Definition maps_to (p : Z) (o : option Z) : Z := if decide (o = Some p) then 1 else 0.

(** How many target ids refer to the peer. *)
Definition mapped s (p : Z) : Z := zsum (maps_to p) (pp_id_map s).

(** The reference that waits for the first message of the target. *)
Definition awaits_map x : Z := if decide (pe_peer_ids x !! 0%nat = Some HTT_INVALID_PEER) then 1 else 0.

(** The references the table itself holds: of the attach, of the message that
    is to come, and of the target's ids. *)
Definition base s (p : Z) x : Z := (if pe_valid x then 1 else 0) + awaits_map x + mapped s p.

(** The references held by others. *)
Definition held s (p : Z) : Z := match pp_peers s !! p with Some x => pe_ref_cnt x - base s p x | None => 0 end.

Record PeerRefs s : Prop := {
  rf_base : forall p x, pp_peers s !! p = Some x -> base s p x <= pe_ref_cnt x;
  rf_map : forall i p, znth (pp_id_map s) i = Some (Some p) -> is_Some (pp_peers s !! p);
  rf_len : zlen (pp_id_map s) = pp_max_peer_id s + 1;
  rf_ids : forall p x, pp_peers s !! p = Some x -> length (pe_peer_ids x) = 8%nat;
  rf_last : forall v y p, pp_vdevs s !! v = Some y -> vd_last_real_peer y = Some p ->
    exists x, pp_peers s !! p = Some x /\ pe_valid x = true /\ pe_vdev x = v;
  rf_del : forall p x, pp_peers s !! p = Some x -> pe_delete_in_progress x = negb (pe_valid x) }.

Lemma mapped_nonneg s p : 0 <= mapped s p.
Proof. apply zsum_nonneg. intros o _. unfold maps_to. case_decide; lia. Qed.

Lemma mapped_at s p i : znth (pp_id_map s) i = Some (Some p) -> 1 <= mapped s p.
Proof.
  intros Hi. unfold mapped. assert (maps_to p (Some p) = 1) as <- by (unfold maps_to; by rewrite decide_True).
  apply (zsum_elem_le (maps_to p)); [intros o _; unfold maps_to; case_decide; lia|by eapply znth_elem_of].
Qed.

Lemma mapped_none s p i : mapped s p = 0 -> znth (pp_id_map s) i <> Some (Some p).
Proof. intros E Hi. apply mapped_at in Hi. lia. Qed.

Lemma awaits_range x : 0 <= awaits_map x <= 1.
Proof. unfold awaits_map. case_decide; lia. Qed.

Lemma base_zero s p x : base s p x = 0 -> pe_valid x = false /\ awaits_map x = 0 /\ mapped s p = 0.
Proof.
  unfold base. pose proof (mapped_nonneg s p). pose proof (awaits_range x). destruct (pe_valid x); [lia|]. intros. split; [done|lia].
Qed.

(** ** Local ids *)

(** The free list, from [i]. *)
Fixpoint chain (pool : list Z) (i : Z) (fl : list Z) : Prop :=
  match fl with
  | [] => i = OL_TXRX_NUM_LOCAL_PEER_IDS
  | a :: r => i = a /\ 0 <= a < OL_TXRX_NUM_LOCAL_PEER_IDS /\ exists n, znth pool a = Some n /\ chain pool n r
  end.

Record LocalIds s (fl : list Z) (ex : option Z) : Prop := {
  li_map_len : zlen (pp_local_map s) = OL_TXRX_NUM_LOCAL_PEER_IDS;
  li_pool_len : zlen (pp_pool s) = OL_TXRX_NUM_LOCAL_PEER_IDS + 1;
  li_end : znth (pp_pool s) OL_TXRX_NUM_LOCAL_PEER_IDS = Some OL_TXRX_NUM_LOCAL_PEER_IDS;
  li_chain : chain (pp_pool s) (pp_freelist s) fl;
  li_nodup : NoDup fl;
  li_free : forall i, i ∈ fl <-> znth (pp_local_map s) i = Some None;
  li_used : forall i p, znth (pp_local_map s) i = Some (Some p) ->
    exists x, pp_peers s !! p = Some x /\ pe_valid x = true /\ pe_local_id x = i;
  li_id : forall p x, Some p <> ex -> pp_peers s !! p = Some x -> pe_valid x = true ->
    pe_local_id x = OL_TXRX_INVALID_LOCAL_PEER_ID \/ znth (pp_local_map s) (pe_local_id x) = Some (Some p) }.

Lemma chain_zset pool i fl a b : 0 <= a < zlen pool -> a ∉ fl -> chain pool i fl -> chain (zset pool a b) i fl.
Proof.
  intros Ha. revert i. induction fl as [|c fl IH]; intros i Hn Hc; [done|]. destruct Hc as (E & Hr & n & Hn' & Hc).
  split; [done|]. split; [done|]. exists n. split; [rewrite znth_zset_ne by set_solver; done|]. apply IH; [set_solver|done].
Qed.

Lemma chain_next pool i a r : NoDup (a :: r) -> chain pool i (a :: r) -> exists n, znth pool i = Some n /\ n <> i /\ chain pool n r.
Proof.
  intros Hnd (-> & Hr & n & Hn & Hc). exists n. split; [done|]. split; [|done]. intros ->. destruct r as [|b r].
  - cbn in Hc. lia.
  - destruct Hc as (E & _). subst b. apply list.NoDup_cons in Hnd as [Ha _]. apply Ha. by apply elem_of_cons; left.
Qed.

(** The invariant. *)
Definition PeerInv s : Prop := exists L fl, PeerRep s L /\ PeerRefs s /\ LocalIds s fl None.

(** ** Changes that keep it *)

(** What the invariant sees of a peer, the reference count apart. *)
Definition same_refs x x' : Prop :=
  same_key x x' /\ pe_valid x' = pe_valid x /\ pe_peer_ids x' = pe_peer_ids x /\ pe_delete_in_progress x' = pe_delete_in_progress x.
Definition same_core x x' : Prop := same_refs x x' /\ pe_local_id x' = pe_local_id x.

Lemma PeerRefs_upd_peer s p x x' :
  PeerRefs s -> pp_peers s !! p = Some x -> same_refs x x' -> base s p x <= pe_ref_cnt x' ->
  PeerRefs (set_pp_peers (<[p := x']>) s).
Proof.
  intros [H1 H2 H3 H4 H5 H6] Hp (Hk & Hv & Hi & Hd) Hb. constructor; cbn; try done.
  - intros q z Hq. unfold base, mapped. cbn. destruct (decide (q = p)) as [->|].
    + rewrite lookup_insert_eq in Hq. simplify_eq. unfold base, awaits_map in *. by rewrite Hv, Hi.
    + rewrite lookup_insert_ne in Hq by done. by apply H1.
  - intros i q Hq. destruct (decide (q = p)) as [->|]; [rewrite lookup_insert_eq; eauto|]. rewrite lookup_insert_ne by done. eauto.
  - intros q z Hq. destruct (decide (q = p)) as [->|].
    + rewrite lookup_insert_eq in Hq. simplify_eq. rewrite Hi. eauto.
    + rewrite lookup_insert_ne in Hq by done. eauto.
  - intros v y q Hy Hq. destruct (H5 v y q Hy Hq) as (z & Hz & Hvz & Hvd). destruct (decide (q = p)) as [->|].
    + rewrite lookup_insert_eq. exists x'. destruct Hk as [_ Hk]. split; [done|]. split; congruence.
    + rewrite lookup_insert_ne by done. eauto.
  - intros q z Hq. destruct (decide (q = p)) as [->|].
    + rewrite lookup_insert_eq in Hq. simplify_eq. rewrite Hd, Hv. eauto.
    + rewrite lookup_insert_ne in Hq by done. eauto.
Qed.

Lemma LocalIds_upd_peer s fl ex p x x' :
  LocalIds s fl ex -> pp_peers s !! p = Some x -> same_core x x' -> LocalIds (set_pp_peers (<[p := x']>) s) fl ex.
Proof.
  intros [H1 H2 H3 H4 H5 H6 H7 H8] Hp [(Hk & Hv & Hi & Hd) Hl]. constructor; cbn; try done.
  - intros i q Hq. destruct (H7 i q Hq) as (z & Hz & Hvz & Hlz). destruct (decide (q = p)) as [->|].
    + rewrite lookup_insert_eq. exists x'. split; [done|]. split; congruence.
    + rewrite lookup_insert_ne by done. eauto.
  - intros q z Hex Hq. destruct (decide (q = p)) as [->|].
    + rewrite lookup_insert_eq in Hq. simplify_eq. rewrite Hv, Hl. eauto.
    + rewrite lookup_insert_ne in Hq by done. eauto.
Qed.

Lemma PeerInv_upd_peer s p x x' :
  PeerInv s -> pp_peers s !! p = Some x -> same_core x x' -> base s p x <= pe_ref_cnt x' -> 0 < pe_ref_cnt x' < 2 ^ 31 ->
  PeerInv (set_pp_peers (<[p := x']>) s).
Proof.
  intros (L & fl & HR & Hrf & Hli) Hp Hc Hb Hr. exists L, fl. split; [|split].
  - eapply PeerRep_upd_peer; [done|done|apply Hc|done].
  - eapply PeerRefs_upd_peer; [done|done|apply Hc|done].
  - by eapply LocalIds_upd_peer.
Qed.

(** A deletion of a peer the table holds no reference to. *)
Lemma PeerRefs_deleted s p x s' :
  PeerRefs s -> pp_peers s !! p = Some x -> is_Some (pp_vdevs s !! pe_vdev x) -> base s p x = 0 -> deleted s p x s' ->
  PeerRefs s'.
Proof.
  intros [H1 H2 H3 H4 H5 H6] Hp [y1 Hy1] Hb [E1 [C1 C2 C3 C4 C5 C6 C7] E2 E3 _]. destruct (base_zero _ _ _ Hb) as (Hv & Ha & Hm).
  constructor; rewrite ?E1, ?C1, ?C5; try done.
  - intros q z [_ Hq]%lookup_delete_Some. unfold base, mapped. rewrite C1. by apply H1.
  - intros i q Hq. rewrite lookup_delete_ne; [eauto|]. intros ->. by apply (mapped_none s q i).
  - intros q z [_ Hq]%lookup_delete_Some. eauto.
  - intros v y q Hy Hq.
    assert (exists y0, pp_vdevs s !! v = Some y0 /\ vd_last_real_peer y0 = Some q) as (y0 & Hy0 & Hq0).
    { destruct (decide (v = pe_vdev x)) as [->|]; [|rewrite E2 in Hy by done; eauto].
      exists y1. split; [done|]. destruct (E3 y1 Hy1) as [E _]. rewrite E in Hy.
      destruct (vdev_done _); [done|]. injection Hy as <-. rewrite <- Hq. symmetry. apply vdev_without_fields. }
    destruct (H5 v y0 q Hy0 Hq0) as (z & Hz & Hvz & Hvd). exists z. split; [|done]. apply lookup_delete_Some.
    split; [|done]. intros ->. congruence.
  - intros q z [_ Hq]%lookup_delete_Some. eauto.
Qed.

Lemma LocalIds_deleted s fl ex p x s' :
  LocalIds s fl ex -> pp_peers s !! p = Some x -> pe_valid x = false -> deleted s p x s' -> LocalIds s' fl ex.
Proof.
  intros [H1 H2 H3 H4 H5 H6 H7 H8] Hp Hv [E1 [C1 C2 C3 C4 C5 C6 C7] E2 E3 _].
  constructor; rewrite ?E1, ?C2, ?C3, ?C4; try done.
  - intros i q Hq. destruct (H7 i q Hq) as (z & Hz & Hvz & Hlz). exists z. split; [|done]. apply lookup_delete_Some.
    split; [|done]. intros ->. congruence.
  - intros q z Hex [_ Hq]%lookup_delete_Some. eauto.
Qed.

(** ** Dropping a reference *)

(** The effect of [ol_txrx_peer_unref_delete]. *)
Definition unreffed s p x s' : Prop :=
  if pe_ref_cnt x =? 1 then deleted s p x s' else s' = set_pp_peers (<[p := set_pe_ref_cnt (fun n => n - 1) x]>) s.

Lemma PeerInv_unref s p x :
  PeerInv s -> pp_peers s !! p = Some x -> base s p x < pe_ref_cnt x ->
  wp (ol_txrx_peer_unref_delete p) (fun _ s' => PeerInv s' /\ unreffed s p x s') s.
Proof.
  intros HI Hp Hb. pose proof HI as (L & fl & HR & Hrf & Hli). eapply wp_mono; [by apply unref_delete_spec|]. cbv beta.
  intros _ s' Hs'. unfold unreffed. destruct (Z.eqb_spec (pe_ref_cnt x) 1) as [E|E].
  - destruct Hs' as [HR' Hd]. split; [|done].
    assert (Hb0 : base s p x = 0).
    { pose proof (mapped_nonneg s p). pose proof (awaits_range x). unfold base in *. destruct (pe_valid x); lia. }
    exists (filter (fun q => q <> p) L), fl. split; [done|]. split.
    + eapply PeerRefs_deleted; [done|done|by apply (pr_home _ _ HR p)|done|done].
    + eapply LocalIds_deleted; [done|done|by apply base_zero in Hb0 as [? _]|done].
  - destruct Hs' as [-> HR']. split; [|done]. destruct (pr_peer _ _ HR p x Hp) as [_ Hr].
    apply (PeerInv_upd_peer s p x); [done|done|by repeat split|cbn; lia|cbn; lia].
Qed.
End Refs.
