(* ===== verification/PeerOps.v ===== *)
(** Lookups, the messages of the target, the detach of a peer and the changes
    of its state keep the invariant of the peer table. *)
From Stdlib Require Import ZArith Lia.
From stdpp Require Import prelude gmap list numbers.
From S2P Require Import Prelude.
From S2P Require Import PeerTypes.
From S2P Require Import PeerTable.
From S2P Require Import PeerRep.
From S2P Require Import PeerSpec.
From S2P Require Import PeerInv.

Section Ops.
Context {D : Type} `{DataPathOk D}.
Implicit Types (s : peer_pdev D) (L : list Z) (x : peer) (y : vdev).

(** One more reference can be counted. *)
Definition ref_room s : Prop := forall p x, pp_peers s !! p = Some x -> pe_ref_cnt x + 1 < 2 ^ 31.

Definition with_ref (n : Z) x : peer := set_pe_ref_cnt (fun _ => n) x.

Lemma upd_peer_twice s p a b :
  set_pp_peers (<[p := a]>) (set_pp_peers (<[p := b]>) s) = set_pp_peers (<[p := a]>) s.
Proof. unfold set_pp_peers. cbn. by rewrite insert_insert_eq. Qed.
Lemma upd_peer_id s p x : pp_peers s !! p = Some x -> set_pp_peers (<[p := x]>) s = s.
Proof. intros Hp. unfold set_pp_peers. rewrite insert_id by done. by destruct s. Qed.

Lemma PeerInv_ref_inc s p x :
  PeerInv s -> pp_peers s !! p = Some x -> pe_ref_cnt x + 1 < 2 ^ 31 ->
  let s' := set_pp_peers (<[p := set_pe_ref_cnt (fun n => n + 1) x]>) s in
  ref_inc p s = Some (tt, s') /\ PeerInv s'.
Proof.
  intros HI Hp Hr. pose proof HI as (L & fl & HR & Hrf & Hli). destruct (ref_inc_spec s L p x HR Hp Hr) as [E _].
  split; [done|]. pose proof (rf_base _ Hrf p x Hp). destruct (pr_peer _ _ HR p x Hp) as [_ ?].
  apply (PeerInv_upd_peer s p x); [done|done|by repeat split|cbn; lia|cbn; lia].
Qed.

(** Only the log, the descriptors, and the wait and deletion marks of a vdev
    change. *)
Lemma PeerInv_upd_vdev s v y y' :
  PeerInv s -> pp_vdevs s !! v = Some y -> vd_peer_list y' = vd_peer_list y ->
  (vd_last_real_peer y' = vd_last_real_peer y \/ vd_last_real_peer y' = None) ->
  PeerInv (set_pp_vdevs (<[v := y']>) s).
Proof.
  intros (L & fl & HR & [H1 H2 H3 H4 H5 H6] & [G1 G2 G3 G4 G5 G6 G7 G8]) Hy Hl Hlast. exists L, fl.
  split; [by eapply PeerRep_upd_vdev|]. split; [|by constructor]. constructor; try done. cbn. intros w z p Hz Hp.
  destruct (decide (w = v)) as [->|].
  - rewrite lookup_insert_eq in Hz. injection Hz as <-. destruct Hlast as [E|E]; [rewrite E in Hp|congruence]. eauto.
  - rewrite lookup_insert_ne in Hz by done. eauto.
Qed.

Lemma PeerInv_frame s s' :
  PeerInv s -> pp_peers s' = pp_peers s -> pp_vdevs s' = pp_vdevs s -> pp_hash_mask s' = pp_hash_mask s ->
  pp_hash_idx_bits s' = pp_hash_idx_bits s -> pp_hash_bins s' = pp_hash_bins s -> pp_data s' = pp_data s ->
  same_config s s' -> PeerInv s'.
Proof.
  intros (L & fl & HR & [H1 H2 H3 H4 H5 H6] & [G1 G2 G3 G4 G5 G6 G7 G8]) E1 E2 E3 E4 E5 E6 [C1 C2 C3 C4 C5 C6 C7].
  exists L, fl. split; [by eapply PeerRep_frame|].
  split; constructor; unfold base, mapped in *; rewrite ?E1, ?E2, ?C1, ?C2, ?C3, ?C4, ?C5; done.
Qed.

(** A data path operation that keeps its own invariant. *)
Lemma PeerRep_data s L d : PeerRep s L -> dp_ok (list_to_set (pp_vdev_list s)) (dom (pp_peers s)) d -> PeerRep (set_pp_data (fun _ => d) s) L.
Proof. by intros [H1 H2 H3 H4 H5 H6 H7 H8]. Qed.
Lemma PeerRefs_data s d : PeerRefs s -> PeerRefs (set_pp_data (fun _ => d) s).
Proof. by intros [G1 G2 G3 G4 G5 G6]. Qed.
Lemma PeerInv_data s d : PeerInv s -> dp_ok (list_to_set (pp_vdev_list s)) (dom (pp_peers s)) d -> PeerInv (set_pp_data (fun _ => d) s).
Proof.
  intros (L & fl & HR & Hrf & [K1 K2 K3 K4 K5 K6 K7 K8]) Hd. exists L, fl.
  split; [by apply PeerRep_data|]. split; [by apply PeerRefs_data|by constructor].
Qed.

(** ** The unmap message *)
Definition unmap_id (i : Z) s : peer_pdev D := set_pp_id_map (fun l => zset l i None) s.

Lemma mapped_set s i o o' p :
  znth (pp_id_map s) i = Some o ->
  mapped (set_pp_id_map (fun l => zset l i o') s) p = mapped s p - maps_to p o + maps_to p o'.
Proof. intros Hi. unfold mapped. cbn. by apply zsum_zset. Qed.

Lemma znth_set_id s i o o' j p :
  znth (pp_id_map s) i = Some o -> znth (zset (pp_id_map s) i o') j = Some (Some p) ->
  (j = i /\ o' = Some p) \/ znth (pp_id_map s) j = Some (Some p).
Proof.
  intros Hi Hj. pose proof (znth_lt_Some _ _ _ Hi) as Hr. pose proof (znth_lt_Some _ _ _ Hj) as Hj'. rewrite zlen_zset in Hj'.
  rewrite znth_zset in Hj by lia. case_decide; [left|by right]. by simplify_eq.
Qed.

Lemma PeerInv_unmap_id s i o :
  PeerInv s -> znth (pp_id_map s) i = Some o -> PeerInv (unmap_id i s).
Proof.
  intros (L & fl & HR & [H1 H2 H3 H4 H5 H6] & [G1 G2 G3 G4 G5 G6 G7 G8]) Hi. exists L, fl.
  split; [by apply (PeerRep_frame s)|]. split; [|by constructor]. constructor; cbn; try done.
  - intros p x Hp. specialize (H1 p x Hp). unfold base in *. unfold unmap_id. rewrite (mapped_set _ _ _ _ _ Hi).
    unfold maps_to. rewrite (decide_False (P := None = Some p)) by done. case_decide; lia.
  - intros j p Hj. destruct (znth_set_id _ _ _ _ _ _ Hi Hj) as [[_ ?]|Hj']; [done|eauto].
  - by rewrite zlen_zset.
Qed.

Lemma unmap_handler_spec s i :
  PeerInv s -> 0 <= i <= pp_max_peer_id s -> i <> HTT_INVALID_PEER ->
  wp (ol_rx_peer_unmap_handler i) (fun _ s' => PeerInv s' /\
    match znth (pp_id_map s) i with
    | Some (Some p) => exists x, pp_peers s !! p = Some x /\ unreffed (unmap_id i s) p x s'
    | _ => s' = unmap_id i s
    end) s.
Proof.
  intros HI Hi Hinv. pose proof HI as (L & fl & HR & Hrf & Hli).
  destruct (znth_in_range (pp_id_map s) i) as [o Ho]; [rewrite (rf_len _ Hrf); lia|].
  pose proof (PeerInv_unmap_id s i o HI Ho) as HI'. rewrite Ho. unfold ol_rx_peer_unmap_handler. step.
  rewrite (proj2 (Z.eqb_neq _ _) Hinv). eapply wp_step; [unfold lift; by rewrite Ho|].
  eapply wp_step; [unfold lift; by rewrite Ho|]. step. fold (unmap_id i s). destruct o as [p|].
  - destruct (rf_map _ Hrf i p Ho) as [x Hp]. pose proof (rf_base _ Hrf p x Hp) as Hb.
    eapply wp_mono; [apply (PeerInv_unref (unmap_id i s) p x HI' Hp)|].
    + unfold base in *. unfold unmap_id. rewrite (mapped_set _ _ _ _ _ Ho). unfold maps_to. rewrite decide_True, decide_False by done. lia.
    + intros _ s' [H1 H2]. split; [done|]. eauto.
  - apply (wp_run _ _ _ tt _ eq_refl). by split.
Qed.

(** ** Detach *)
Lemma chain_head pool i fl : chain pool i fl -> i = default OL_TXRX_NUM_LOCAL_PEER_IDS (head fl).
Proof. destruct fl; cbn; [done|by intros [-> _]]. Qed.

Lemma chain_elem pool i fl a : chain pool i fl -> a ∈ fl -> 0 <= a < OL_TXRX_NUM_LOCAL_PEER_IDS.
Proof.
  revert i. induction fl as [|b fl IH]; intros i Hc Ha; [by apply not_elem_of_nil in Ha|]. destruct Hc as (-> & Hb & n & _ & Hc).
  apply elem_of_cons in Ha as [->|Ha]; [done|by apply (IH n)].
Qed.

(** Giving the id of a peer back. *)
Lemma local_id_free_spec s fl p x :
  LocalIds s fl None -> pp_peers s !! p = Some x -> pe_valid x = true ->
  let s1 := set_pp_peers (<[p := set_pe_valid (fun _ => false) x]>) s in
  exists s2 fl', OL_TXRX_LOCAL_PEER_ID_FREE p s1 = Some (tt, s2) /\ LocalIds s2 fl' None /\
    exists pool free map, s2 = set_pp_local_map (fun _ => map) (set_pp_freelist (fun _ => free) (set_pp_pool (fun _ => pool) s1)).
Proof.
  intros [G1 G2 G3 G4 G5 G6 G7 G8] Hp Hv s1. unfold OL_TXRX_LOCAL_PEER_ID_FREE. unfold mbind at 1, M_bind at 1.
  rewrite (get_peer_run s1 p (set_pe_valid (fun _ => false) x)) by (unfold s1; cbn; apply lookup_insert_eq). cbn [pe_local_id set_pe_valid].
  assert (Hothers : forall q z, pp_peers s1 !! q = Some z -> pe_valid z = true -> q <> p /\ pp_peers s !! q = Some z).
  { intros q z Hq Hz. destruct (decide (q = p)) as [->|Hne]; unfold s1 in Hq; cbn in Hq.
    - rewrite lookup_insert_eq in Hq. by simplify_eq.
    - by rewrite lookup_insert_ne in Hq. }
  assert (Hback : forall q z, q <> p -> pp_peers s !! q = Some z -> pp_peers s1 !! q = Some z).
  { intros q z Hq Hz. unfold s1. cbn. by rewrite lookup_insert_ne. }
  destruct (G8 p x ltac:(done) Hp Hv) as [Ei|Hi].
  - exists s1, fl. rewrite Ei. split; [done|]. split; [|by exists (pp_pool s), (pp_freelist s), (pp_local_map s)].
    constructor; try done.
    + intros i q Hq. destruct (G7 i q Hq) as (z & Hz & Hvz & Hlz). destruct (decide (q = p)) as [->|Hne]; [|eauto].
      simplify_eq. apply znth_lt_Some in Hq. change (pp_local_map s1) with (pp_local_map s) in Hq. rewrite G1, Ei in Hq. exfalso. unfold OL_TXRX_INVALID_LOCAL_PEER_ID, OL_TXRX_NUM_LOCAL_PEER_IDS in Hq. lia.
    + intros q z _ Hq Hz. destruct (Hothers q z Hq Hz) as [_ Hq']. by apply (G8 q z).
  - set (i := pe_local_id x) in *. pose proof (znth_lt_Some _ _ _ Hi) as Hr. rewrite G1 in Hr.
    assert (Hif : i ∉ fl) by (rewrite G6; congruence).
    assert ((i =? OL_TXRX_INVALID_LOCAL_PEER_ID) || (OL_TXRX_NUM_LOCAL_PEER_IDS <=? i) = false) as ->.
    { apply orb_false_iff. unfold OL_TXRX_INVALID_LOCAL_PEER_ID, OL_TXRX_NUM_LOCAL_PEER_IDS in *. split; lia. }
    assert (Hend : znth (zset (pp_pool s) i (pp_freelist s)) OL_TXRX_NUM_LOCAL_PEER_IDS = Some OL_TXRX_NUM_LOCAL_PEER_IDS).
    { rewrite znth_zset_ne; [done|lia|lia]. }
    eexists _, (i :: fl). split; [done|]. split; [|eexists _, _, _; done].
    constructor; cbn [set_pp_local_map set_pp_freelist set_pp_pool pp_local_map pp_pool pp_freelist pp_peers].
    all: change (pp_pool s1) with (pp_pool s); change (pp_local_map s1) with (pp_local_map s); change (pp_freelist s1) with (pp_freelist s).
    + by rewrite zlen_zset.
    + by rewrite zlen_zset.
    + exact Hend.
    + split; [done|]. split; [lia|]. exists (pp_freelist s). split; [apply znth_zset_eq; lia|]. apply chain_zset; [lia|done|done].
    + by apply list.NoDup_cons.
    + intros j. rewrite elem_of_cons, G6. destruct (decide (j = i)) as [->|Hne].
      * rewrite znth_zset_eq by lia. split; [done|by left].
      * rewrite znth_zset_ne by (lia || congruence). naive_solver.
    + intros j q Hq. pose proof (znth_lt_Some _ _ _ Hq) as Hj. rewrite zlen_zset in Hj. rewrite znth_zset in Hq by lia. case_decide; [done|].
      destruct (G7 j q Hq) as (z & Hz & Hvz & Hlz). exists z. split; [|done]. apply Hback; [|done]. intros ->. simplify_eq.
    + intros q z _ Hq Hz. destruct (Hothers q z Hq Hz) as [Hne Hq']. destruct (G8 q z ltac:(done) Hq' Hz) as [?|Hj]; [by left|right].
      rewrite znth_zset_ne; [done|lia|]. intros E. rewrite <- E in Hj. congruence.
Qed.
(** The pool does not see the other fields of a peer. *)
Lemma LocalIds_frame s s' fl ex :
  LocalIds s fl ex -> pp_pool s' = pp_pool s -> pp_freelist s' = pp_freelist s -> pp_local_map s' = pp_local_map s ->
  (forall q, (fun z => (pe_valid z, pe_local_id z)) <$> pp_peers s' !! q = (fun z => (pe_valid z, pe_local_id z)) <$> pp_peers s !! q) ->
  LocalIds s' fl ex.
Proof.
  intros [H1 H2 H3 H4 H5 H6 H7 H8] E1 E2 E3 E. constructor; rewrite ?E1, ?E2, ?E3; try done.
  - intros i p Hi. destruct (H7 i p Hi) as (z & Hz & Hv & Hl). specialize (E p). rewrite Hz in E.
    destruct (pp_peers s' !! p) as [z'|]; [|done]. injection E as Ev El. exists z'. split; [done|]. split; congruence.
  - intros p z' Hex Hz' Hv. specialize (E p). rewrite Hz' in E. destruct (pp_peers s !! p) as [z|] eqn:Hz; [|done].
    injection E as Ev El. rewrite El. apply (H8 p z); [done|done|congruence].
Qed.

Definition detached_peer x : peer := set_pe_delete_in_progress (fun _ => true) (set_pe_valid (fun _ => false) x).
Definition forget_last (p : Z) y : vdev := set_vd_last_real_peer (fun o => if bool_decide (o = Some p) then None else o) y.

Lemma PeerRefs_detach s p x y s' :
  PeerRefs s -> pp_peers s !! p = Some x -> pe_valid x = true -> pp_vdevs s !! pe_vdev x = Some y ->
  pp_peers s' = <[p := detached_peer x]> (pp_peers s) -> pp_vdevs s' = <[pe_vdev x := forget_last p y]> (pp_vdevs s) ->
  pp_id_map s' = pp_id_map s -> pp_max_peer_id s' = pp_max_peer_id s ->
  PeerRefs s' /\ base s' p (detached_peer x) < pe_ref_cnt x.
Proof.
  intros [H1 H2 H3 H4 H5 H6] Hp Hv Hy Ep Ev Ei Em.
  assert (Hbase : base s' p (detached_peer x) = base s p x - 1).
  { unfold base, mapped, awaits_map. rewrite Ei, Hv. cbn. lia. }
  split; [|rewrite Hbase; specialize (H1 p x Hp); lia]. constructor; rewrite ?Ei, ?Em, ?Ep, ?Ev; try done.
  - intros q z Hq. apply lookup_insert_Some in Hq as [[<- <-]|[Hne Hq]].
    + rewrite Hbase. specialize (H1 p x Hp). cbn. lia.
    + unfold base, mapped. rewrite Ei. by apply H1.
  - intros i q Hq. destruct (decide (q = p)) as [->|]; [rewrite lookup_insert_eq; eauto|]. rewrite lookup_insert_ne by done. eauto.
  - intros q z Hq. apply lookup_insert_Some in Hq as [[<- <-]|[Hne Hq]]; [by apply (H4 p x)|by apply (H4 q)].
  - intros w z q Hw Hq. assert (exists z0, pp_vdevs s !! w = Some z0 /\ vd_last_real_peer z0 = Some q /\ (w = pe_vdev x -> q <> p)) as (z0 & Hz0 & Hl & Hne).
    { apply lookup_insert_Some in Hw as [[<- <-]|[Hne Hw]]; [|by exists z]. exists y. split; [done|].
      unfold forget_last in Hq. cbn in Hq. case_bool_decide; [done|]. split; [done|]. congruence. }
    destruct (H5 w z0 q Hz0 Hl) as (a & Ha & Hva & Hda). exists a. split; [|done]. rewrite lookup_insert_ne; [done|].
    intros ->. rewrite Ha in Hp. injection Hp as <-. by apply Hne.
  - intros q z Hq. apply lookup_insert_Some in Hq as [[<- <-]|[Hne Hq]]; [done|by apply (H6 q)].
Qed.

(** The state in which [ol_txrx_peer_detach] drops its reference. *)
Record detached s (p : Z) x s' : Prop := {
  dt_peers : pp_peers s' = <[p := detached_peer x]> (pp_peers s);
  dt_vdevs : exists y, pp_vdevs s !! pe_vdev x = Some y /\ pp_vdevs s' = <[pe_vdev x := forget_last p y]> (pp_vdevs s);
  dt_map : pp_id_map s' = pp_id_map s;
  dt_log : pp_log s' = pp_log s;
  dt_vdev_list : pp_vdev_list s' = pp_vdev_list s;
  dt_local : forall i, znth (pp_local_map s') i <> Some (Some p);
  dt_data : exists d, dp_detach p (pp_data s) = Some d /\ pp_data s' = d }.

Lemma detach_spec s p x :
  PeerInv s -> pp_peers s !! p = Some x -> pe_valid x = true ->
  wp (ol_txrx_peer_detach p) (fun _ s' => PeerInv s' /\
    exists s1, detached s p x s1 /\ PeerInv s1 /\ unreffed s1 p (detached_peer x) s') s.
Proof.
  intros HI Hp Hv. pose proof HI as (L0 & fl0 & HR0 & _ & _).
  assert (Hpd : p ∈ dom (pp_peers s)) by (apply elem_of_dom; eauto).
  destruct (dp_detach_ok _ _ p _ (pr_data _ _ HR0) Hpd) as (d & Hd & Hok). destruct (PeerInv_data s d HI Hok) as (L & fl & HR & Hrf & Hli).
  clear L0 fl0 HR0. destruct (pr_home _ _ HR p x Hp) as [y Hy]. destruct (pr_peer _ _ HR p x Hp) as [_ Hr].
  unfold ol_txrx_peer_detach. eapply wp_step; [by apply get_peer_run|]. eapply wp_step; [by apply on_data_run|].
  set (s1 := set_pp_data (fun _ => d) s) in *. eapply wp_step; [by apply upd_peer_run|].
  destruct (local_id_free_spec s1 fl p x Hli Hp Hv) as (s2 & fl' & Hrun & Hli2 & pool & free & map & E2).
  eapply wp_step; [exact Hrun|]. eapply wp_step; [apply (upd_vdev_run _ _ y); by rewrite E2|].
  eapply wp_step; [apply (upd_peer_run _ _ (set_pe_valid (fun _ => false) x)); rewrite E2; cbn; apply lookup_insert_eq|].
  match goal with |- wp _ _ ?st => set (s3 := st) end.
  assert (Ep : pp_peers s3 = <[p := detached_peer x]> (pp_peers s)).
  { unfold s3. rewrite E2. cbn. by rewrite insert_insert_eq. }
  assert (Ev : pp_vdevs s3 = <[pe_vdev x := forget_last p y]> (pp_vdevs s)) by (unfold s3; by rewrite E2).
  assert (Ei : pp_id_map s3 = pp_id_map s) by (unfold s3; by rewrite E2).
  destruct (PeerRefs_detach s1 p x y s3 Hrf Hp Hv Hy Ep Ev Ei) as [Hrf3 Hb]; [unfold s3; by rewrite E2|].
  assert (Hli3 : LocalIds s3 fl' None).
  { apply (LocalIds_frame s2); [done|done|done|done|]. intros q. rewrite Ep, E2. cbn.
    destruct (decide (q = p)) as [->|]; [by rewrite !lookup_insert_eq|by rewrite !lookup_insert_ne]. }
  assert (HR3 : PeerRep s3 L).
  { apply (PeerRep_frame (set_pp_vdevs (<[pe_vdev x := forget_last p y]>) (set_pp_peers (<[p := detached_peer x]>) s1)));
      [by rewrite Ep|by rewrite Ev|unfold s3; by rewrite E2..|].
    eapply PeerRep_upd_vdev; [|done|done]. eapply PeerRep_upd_peer; [done|done|done|cbn; lia]. }
  assert (HI3 : PeerInv s3) by (by exists L, fl').
  eapply wp_mono; [apply (PeerInv_unref s3 p (detached_peer x) HI3); [rewrite Ep; apply lookup_insert_eq|exact Hb]|].
  intros _ s' [HI' Hu]. split; [done|]. exists s3. split; [|done]. split; try done; eauto.
  - unfold s3. by rewrite E2.
  - unfold s3. by rewrite E2.
  - intros i Hi. destruct (li_used _ _ _ Hli3 i p Hi) as (z & Hz & Hvz & _). rewrite Ep, lookup_insert_eq in Hz. by simplify_eq.
  - exists d. split; [done|]. unfold s3. by rewrite E2.
Qed.
(** ** The map message *)
Definition map_peer (i : Z) x : peer :=
  ol_txrx_peer_find_add_id_to_obj i
    (set_pe_ref_cnt (fun n => if decide (pe_peer_ids x !! 0%nat = Some HTT_INVALID_PEER) then n else n + 1) x).

Lemma add_id_length ids i ids' : add_id ids i = Some ids' -> length ids' = length ids.
Proof.
  revert ids'. induction ids as [|a ids IH]; intros ids' E; [done|]. cbn in E. destruct (_ =? _); [by simplify_eq|].
  destruct (add_id ids i) as [l|]; [|done]. cbn in E. simplify_eq. cbn. by rewrite (IH l).
Qed.

Lemma map_peer_fields i x :
  same_key x (map_peer i x) /\ pe_valid (map_peer i x) = pe_valid x /\ pe_local_id (map_peer i x) = pe_local_id x /\
  pe_delete_in_progress (map_peer i x) = pe_delete_in_progress x /\ length (pe_peer_ids (map_peer i x)) = length (pe_peer_ids x) /\
  pe_ref_cnt (map_peer i x) = if decide (pe_peer_ids x !! 0%nat = Some HTT_INVALID_PEER) then pe_ref_cnt x else pe_ref_cnt x + 1.
Proof.
  unfold map_peer, ol_txrx_peer_find_add_id_to_obj. cbn. destruct (add_id _ _) eqn:E; cbn; [apply add_id_length in E|]; by split_and!.
Qed.

Lemma awaits_map_ids x : awaits_map x = match pe_peer_ids x with a :: _ => if a =? HTT_INVALID_PEER then 1 else 0 | [] => 0 end.
Proof.
  unfold awaits_map. destruct (pe_peer_ids x) as [|a ids]; [done|]. change ((a :: ids) !! 0%nat) with (Some a).
  destruct (Z.eqb_spec a HTT_INVALID_PEER) as [->|Ha]; [by rewrite decide_True|]. apply decide_False. intros [= E]. done.
Qed.

Lemma map_peer_awaits i x : length (pe_peer_ids x) = 8%nat -> i <> HTT_INVALID_PEER -> awaits_map (map_peer i x) = 0.
Proof.
  intros Hl Hi%Z.eqb_neq. rewrite awaits_map_ids. unfold map_peer, ol_txrx_peer_find_add_id_to_obj. cbn [set_pe_ref_cnt pe_peer_ids].
  destruct (pe_peer_ids x) as [|a ids] eqn:Ex; [done|]. cbn [add_id]. destruct (a =? HTT_INVALID_PEER) eqn:Ha; cbn [set_pe_peer_ids pe_peer_ids].
  - by rewrite Hi.
  - destruct (add_id ids i); cbn [fmap option_fmap option_map set_pe_peer_ids set_pe_ref_cnt pe_peer_ids]; [|rewrite Ex]; by rewrite Ha.
Qed.

(** The state after the message, the pause of the management queue apart. *)
Definition map_id (i p : Z) x s : peer_pdev D :=
  set_pp_peers (<[p := map_peer i x]>) (set_pp_id_map (fun l => zset l i (Some p)) s).

Lemma PeerInv_map_id s i p x :
  PeerInv s -> pp_peers s !! p = Some x -> 0 <= i <= pp_max_peer_id s -> i <> HTT_INVALID_PEER -> pe_ref_cnt x + 1 < 2 ^ 31 ->
  PeerInv (map_id i p x s).
Proof.
  intros (L & fl & HR & [H1 H2 H3 H4 H5 H6] & Hli) Hp Hi Hinv Hr.
  destruct (map_peer_fields i x) as (Fk & Fv & Fl & Fd & Fn & Fr). destruct (pr_peer _ _ HR p x Hp) as [_ Hr0].
  pose proof (map_peer_awaits i x (H4 p x Hp) Hinv) as Fa.
  destruct (znth_in_range (pp_id_map s) i) as [o Ho]; [lia|].
  assert (Hm : forall q, mapped (map_id i p x s) q = mapped s q - maps_to q o + maps_to q (Some p)).
  { intros q. unfold map_id. apply (mapped_set s i o (Some p) q Ho). }
  exists L, fl. split; [|split].
  - unfold map_id. eapply (PeerRep_upd_peer (set_pp_id_map _ s)); [by apply (PeerRep_frame s)|exact Hp|done|]. rewrite Fr. case_decide; lia.
  - constructor; cbn [map_id set_pp_peers set_pp_id_map pp_peers pp_id_map pp_vdevs pp_max_peer_id].
    + intros q z Hq. unfold base. rewrite Hm. apply lookup_insert_Some in Hq as [[<- <-]|[Hne Hq]].
      * rewrite Fa, Fv, Fr. specialize (H1 p x Hp). unfold base, awaits_map, maps_to in *. repeat case_decide; lia.
      * specialize (H1 q z Hq). unfold base in H1. unfold maps_to. rewrite (decide_False (P := Some p = Some q)) by congruence. destruct (decide (o = Some q)); lia.
    + intros j q Hj. destruct (znth_set_id _ _ _ _ _ _ Ho Hj) as [[_ E]|Hj'].
      * injection E as ->. rewrite lookup_insert_eq. eauto.
      * destruct (decide (q = p)) as [->|]; [rewrite lookup_insert_eq; eauto|]. rewrite lookup_insert_ne by done. eauto.
    + by rewrite zlen_zset.
    + intros q z Hq. apply lookup_insert_Some in Hq as [[<- <-]|[Hne Hq]]; [rewrite Fn|]; eauto.
    + intros v y q Hy Hq. destruct (H5 v y q Hy Hq) as (z & Hz & Hvz & Hd). destruct (decide (q = p)) as [->|].
      * rewrite lookup_insert_eq. exists (map_peer i x). destruct Fk as [_ Fk]. split; [done|]. split; congruence.
      * rewrite lookup_insert_ne by done. eauto.
    + intros q z Hq. apply lookup_insert_Some in Hq as [[<- <-]|[Hne Hq]]; [rewrite Fd, Fv|]; eauto.
  - apply (LocalIds_frame s); [done..|]. intros q. cbn. destruct (decide (q = p)) as [->|]; [|by rewrite lookup_insert_ne].
    rewrite lookup_insert_eq, Hp. cbn. by rewrite Fv, Fl.
Qed.
(** The attached peer a target id stands for. *)
Definition attached_by_id s (i : Z) : option Z :=
  match znth (pp_id_map s) i with
  | Some (Some p) => match pp_peers s !! p with Some x => if pe_valid x then Some p else None | None => None end
  | _ => None
  end.

Lemma find_by_id_spec s i : PeerInv s -> 0 <= i -> ol_txrx_peer_find_by_id i s = Some (attached_by_id s i, s).
Proof.
  intros (L & fl & HR & Hrf & _) Hi. unfold ol_txrx_peer_find_by_id, attached_by_id, mbind, M_bind, get.
  destruct (Z.ltb_spec (pp_max_peer_id s) i).
  - destruct (znth (pp_id_map s) i) eqn:E; [|done]. apply znth_lt_Some in E. rewrite (rf_len _ Hrf) in E. lia.
  - destruct (znth_in_range (pp_id_map s) i) as [o Ho]; [rewrite (rf_len _ Hrf); lia|]. unfold lift. rewrite Ho. destruct o as [p|]; [|done].
    destruct (rf_map _ Hrf i p Ho) as [x Hx]. rewrite (get_peer_run _ _ _ Hx), Hx. done.
Qed.

Lemma attached_by_id_in s i p : attached_by_id s i = Some p -> p ∈ dom (pp_peers s).
Proof.
  unfold attached_by_id. intros E. apply elem_of_dom. destruct (znth _ _) as [[q|]|]; [|done|done].
  destruct (pp_peers s !! q) as [x|] eqn:Eq; [|done]. destruct (pe_valid x); [|done]. injection E as <-. eauto.
Qed.

(** A transmit queue of a peer is released. *)
Definition unpaused s (o : option Z) (tid : Z) s' : Prop :=
  match o with
  | Some p => exists d, dp_tid_unpause p tid (pp_data s) = Some d /\ s' = set_pp_data (fun _ => d) s
  | None => s' = s
  end.

Lemma unpause_spec s p tid :
  PeerInv s -> p ∈ dom (pp_peers s) -> 0 <= tid < 18 ->
  exists s', on_data (dp_tid_unpause p tid) s = Some (tt, s') /\ unpaused s (Some p) tid s' /\ PeerInv s'.
Proof.
  intros HI Hp Ht. destruct HI as (L & fl & HR & Hrest). destruct (dp_tid_unpause_ok _ _ p tid _ (pr_data _ _ HR) Hp Ht) as (d & Hd & Hok).
  eexists. split; [by apply on_data_run|]. split; [by eexists|]. apply PeerInv_data; [by exists L, fl|done].
Qed.

Definition first_with s L (mac : mac_addr) (cv : bool) : option Z := List.find (fit_at s (mac_fits mac cv)) L.

Lemma first_with_in s L mac cv p :
  first_with s L mac cv = Some p -> p ∈ L /\ exists x, pp_peers s !! p = Some x /\ pe_mac x = mac /\ (cv = true -> pe_valid x = true).
Proof.
  intros [Hp Hf]%List.find_some. split; [by apply list_elem_of_In|]. unfold fit_at, mac_fits in Hf.
  destruct (pp_peers s !! p) as [x|]; [|done]. exists x. apply andb_true_iff in Hf as [->%bool_decide_eq_true Hv].
  split; [done|]. split; [done|]. intros ->. by destruct (pe_valid x).
Qed.

Lemma hash_find_some s L mac cv p x :
  PeerRep s L -> mac_ok mac -> first_with s L mac cv = Some p -> pp_peers s !! p = Some x -> pe_ref_cnt x + 1 < 2 ^ 31 ->
  ol_txrx_peer_find_hash_find mac cv s = Some (Some p, set_pp_peers (<[p := set_pe_ref_cnt (fun n => n + 1) x]>) s).
Proof.
  intros HR Hm Hf Hp Hr. rewrite (hash_find_spec s L) by done. unfold first_with in Hf. rewrite Hf.
  unfold mbind, M_bind. destruct (ref_inc_spec s L p x HR Hp Hr) as [-> _]. done.
Qed.
Lemma hash_find_none s L mac cv :
  PeerRep s L -> mac_ok mac -> first_with s L mac cv = None -> ol_txrx_peer_find_hash_find mac cv s = Some (None, s).
Proof. intros HR Hm Hf. rewrite (hash_find_spec s L) by done. unfold first_with in Hf. by rewrite Hf. Qed.

Lemma map_peer_cons i x a ids :
  pe_peer_ids x = a :: ids ->
  map_peer i x = ol_txrx_peer_find_add_id_to_obj i (set_pe_ref_cnt (fun n => if a =? HTT_INVALID_PEER then n else n + 1) x).
Proof.
  intros Ex. unfold map_peer. rewrite Ex. f_equal. unfold set_pe_ref_cnt. f_equal. change ((a :: ids) !! 0%nat) with (Some a).
  destruct (Z.eqb_spec a HTT_INVALID_PEER) as [->|Ha]; [by rewrite decide_True|]. apply decide_False. intros [= E]. done.
Qed.

Lemma add_id_spec s L i mac :
  PeerInv s -> PeerRep s L -> mac_ok mac -> 0 <= i <= pp_max_peer_id s -> i <> HTT_INVALID_PEER -> ref_room s ->
  wp (ol_txrx_peer_find_add_id mac i) (fun _ s' => PeerInv s' /\
    match first_with s L mac false with
    | None => s' = s
    | Some p => exists x, pp_peers s !! p = Some x /\ s' = map_id i p x s
    end) s.
Proof.
  intros HI HR Hm Hi Hinv Hroom. unfold ol_txrx_peer_find_add_id.
  destruct (first_with s L mac false) as [p|] eqn:Ef.
  2:{ eapply wp_step; [by apply (hash_find_none s L)|]. by apply (wp_run _ _ _ tt _ eq_refl). }
  destruct (first_with_in _ _ _ _ _ Ef) as (_ & x & Hp & _). specialize (Hroom p x Hp). pose proof HI as (L' & fl & _ & Hrf & _).
  eapply wp_step; [by apply (hash_find_some s L mac false p x)|].
  assert (Hfin : PeerInv (map_id i p x s) /\ exists x0, pp_peers s !! p = Some x0 /\ map_id i p x s = map_id i p x0 s).
  { split; [by apply PeerInv_map_id|by exists x]. }
  destruct (znth_in_range (pp_id_map s) i) as [o Ho]; [rewrite (rf_len _ Hrf); lia|]. pose proof (rf_ids _ Hrf p x Hp) as Hids.
  destruct (pr_peer _ _ HR p x Hp) as [_ Hr]. destruct (pr_home _ _ HR p x Hp) as [y Hy].
  destruct (pe_peer_ids x) as [|a ids] eqn:Ex; [done|]. pose proof (map_peer_cons i x a ids Ex) as Hmp.
  eapply wp_step; [reflexivity|]. eapply wp_step; [apply (f_equal (fun o => match o with Some a => Some (a, _) | None => None end) Ho)|].
  eapply wp_step; [reflexivity|]. eapply wp_step; [apply get_peer_run; cbn; apply lookup_insert_eq|]. cbn [pe_peer_ids set_pe_ref_cnt]. rewrite Ex.
  eapply wp_step; [reflexivity|]. destruct (a =? HTT_INVALID_PEER) eqn:Ha; cbn [when].
  - eapply wp_step.
    { unfold ol_txrx_peer_unref_delete. unfold mbind at 1, M_bind at 1.
      rewrite (get_peer_run _ _ (set_pe_ref_cnt (fun n => n + 1) x)) by (cbn; apply lookup_insert_eq). cbn [pe_vdev pe_ref_cnt set_pe_ref_cnt].
      unfold mbind at 1, M_bind at 1. rewrite (get_vdev_run _ _ y) by done. rewrite (proj2 (Z.eqb_neq (pe_ref_cnt x + 1) 0)) by lia.
      unfold mbind at 1, M_bind at 1, ref_dec. rewrite (upd_peer_run _ _ (set_pe_ref_cnt (fun n => n + 1) x)) by (cbn; apply lookup_insert_eq).
      rewrite s32_small by lia. rewrite (proj2 (Z.eqb_neq (pe_ref_cnt x + 1 - 1) 0)) by lia. reflexivity. }
    eapply wp_run; [apply (upd_peer_run _ _ (set_pe_ref_cnt (fun n => n) x))|].
    + cbn. rewrite lookup_insert_eq. f_equal. unfold set_pe_ref_cnt. cbn. rewrite s32_small by lia. f_equal. lia.
    + rewrite <- Hmp. match goal with |- context [set_pp_peers _ ?st] => replace (set_pp_peers (<[p := map_peer i x]>) st) with (map_id i p x s) end; [done|].
      unfold map_id, set_pp_peers, set_pp_id_map. cbn. by rewrite !insert_insert_eq.
  - eapply wp_step; [reflexivity|]. eapply wp_run; [apply (upd_peer_run _ _ (set_pe_ref_cnt (fun n => n + 1) x)); cbn; apply lookup_insert_eq|].
    rewrite <- Hmp. match goal with |- context [set_pp_peers _ ?st] => replace (set_pp_peers (<[p := map_peer i x]>) st) with (map_id i p x s) end; [done|].
    unfold map_id, set_pp_peers, set_pp_id_map. cbn. by rewrite !insert_insert_eq.
Qed.

(** The message adds the id to the peer found, and when the target is not ready
    releases the queue of management frames. *)
Lemma map_handler_spec s L i mac tx_ready :
  PeerInv s -> PeerRep s L -> mac_ok mac -> 0 <= i <= pp_max_peer_id s -> i <> HTT_INVALID_PEER -> ref_room s ->
  wp (ol_rx_peer_map_handler i mac tx_ready) (fun _ s' => PeerInv s' /\ exists s1,
    match first_with s L mac false with
    | None => s1 = s
    | Some p => exists x, pp_peers s !! p = Some x /\ s1 = map_id i p x s
    end /\ unpaused s1 (if tx_ready then None else attached_by_id s1 i) 17 s') s.
Proof.
  intros HI HR Hm Hi Hinv Hroom. unfold ol_rx_peer_map_handler. apply wp_bind. eapply wp_mono; [by apply (add_id_spec s L)|].
  intros _ s1 [HI1 Hs1]. cbv beta. destruct tx_ready; cbn [negb when].
  { apply (wp_run _ _ _ tt _ eq_refl). split; [done|]. by exists s1. }
  eapply wp_step; [apply (find_by_id_spec s1 i HI1); lia|]. destruct (attached_by_id s1 i) as [p|] eqn:Ea.
  - destruct (unpause_spec s1 p 17 HI1 (attached_by_id_in _ _ _ Ea) ltac:(lia)) as (s' & Hr' & Hu & HI').
    apply (wp_run _ _ _ tt _ Hr'). split; [done|]. exists s1. rewrite Ea. by split.
  - apply (wp_run _ _ _ tt _ eq_refl). split; [done|]. exists s1. rewrite Ea. by split.
Qed.
(** ** The message that the target is ready *)

(** The queues released one after the other. *)
Fixpoint unpaused_all s (p : Z) (tids : list Z) s' : Prop :=
  match tids with
  | [] => s' = s
  | t :: rest => exists s1, unpaused s (Some p) t s1 /\ unpaused_all s1 p rest s'
  end.

Lemma unpause_all_spec p tids : forall s,
  PeerInv s -> p ∈ dom (pp_peers s) -> (forall t, t ∈ tids -> 0 <= t < 18) ->
  wp (for_each tids (fun i => when (negb (i =? 17)) (on_data (dp_tid_unpause p i))))
     (fun _ s' => PeerInv s' /\ unpaused_all s p (filter (fun i => i <> 17) tids) s') s.
Proof.
  induction tids as [|t tids IH]; intros s HI Hp Ht; [by apply (wp_run _ _ _ tt _ eq_refl)|]. cbn [for_each].
  assert (Htids : forall u, u ∈ tids -> 0 <= u < 18) by (intros u Hu; apply Ht; by apply elem_of_cons; right).
  rewrite filter_cons. destruct (Z.eqb_spec t 17) as [->|Hne]; cbn [negb when].
  - rewrite decide_False by (intros E; by apply E). eapply wp_step; [reflexivity|]. by apply IH.
  - rewrite decide_True by done. destruct (unpause_spec s p t HI Hp) as (s1 & Hr & Hu & HI1); [apply Ht; by apply elem_of_cons; left|].
    eapply wp_step; [exact Hr|]. assert (Hp1 : p ∈ dom (pp_peers s1)) by (destruct Hu as (d & _ & ->); done).
    eapply wp_mono; [by apply IH|]. intros _ s' [HI' Hall]. split; [done|]. exists s1. by split.
Qed.

Lemma tx_ready_handler_spec s i :
  PeerInv s -> 0 <= i ->
  wp (ol_txrx_peer_tx_ready_handler i) (fun _ s' => PeerInv s' /\
    match attached_by_id s i with
    | Some p => unpaused_all s p (Z.of_nat <$> seq 0 17) s'
    | None => s' = s
    end) s.
Proof.
  intros HI Hi. unfold ol_txrx_peer_tx_ready_handler. eapply wp_step; [by apply find_by_id_spec|].
  destruct (attached_by_id s i) as [p|] eqn:Ea; [|by apply (wp_run _ _ _ tt _ eq_refl)].
  eapply wp_mono; [apply unpause_all_spec; [done|by eapply attached_by_id_in|]|].
  - intros t [n [-> Hn%elem_of_seq]]%list_elem_of_fmap. lia.
  - intros ? s' Hs'. exact Hs'.
Qed.

(** ** The state of a peer *)
Definition with_state (st : ol_txrx_peer_state) x : peer :=
  set_pe_state (fun _ => st) (set_pe_tx_filter (fun _ => Some (tx_filter_of st)) x).

Definition state_updated s (o : option Z) (st : ol_txrx_peer_state) s' : Prop :=
  match o with
  | None => s' = s
  | Some p => exists x, pp_peers s !! p = Some x /\
      if decide (pe_state x = st) then s' = s
      else exists d, s' = set_pp_data (fun _ => d) (set_pp_peers (<[p := with_state st x]>) s) /\
        if pp_host_addba s && bool_decide (st = ol_txrx_peer_state_auth) then dp_auth p (pp_data s) = Some d else d = pp_data s
  end.

Lemma ref_back x : 0 < pe_ref_cnt x < 2 ^ 31 - 1 ->
  set_pe_ref_cnt (fun n => s32 (n - 1)) (set_pe_ref_cnt (fun n => n + 1) x) = x.
Proof. intros Hr. unfold set_pe_ref_cnt. cbn. rewrite s32_small by lia. rewrite Z.add_simpl_r. by destruct x. Qed.

(** What the data path asks of a change to [st]. *)
Definition can_update s (st : ol_txrx_peer_state) : Prop :=
  pp_host_addba s = true -> st = ol_txrx_peer_state_auth -> forall p, p ∈ dom (pp_peers s) -> dp_can_auth p (pp_data s).

Lemma state_update_spec s L mac st :
  PeerRep s L -> mac_ok mac -> ref_room s -> can_update s st ->
  wp (ol_txrx_peer_state_update mac st) (fun _ s' => PeerRep s' L /\ state_updated s (first_with s L mac true) st s') s.
Proof.
  intros HR Hm Hroom Hcan. unfold ol_txrx_peer_state_update.
  destruct (first_with s L mac true) as [p|] eqn:Ef.
  2:{ eapply wp_step; [by apply (hash_find_none s L)|]. by apply (wp_run _ _ _ tt _ eq_refl). }
  destruct (first_with_in _ _ _ _ _ Ef) as (_ & x & Hp & _). specialize (Hroom p x Hp). destruct (pr_peer _ _ HR p x Hp) as [_ Hr].
  eapply wp_step; [by apply (hash_find_some s L mac true p x)|].
  eapply wp_step; [apply get_peer_run; cbn; apply lookup_insert_eq|]. cbn [pe_state set_pe_ref_cnt].
  case_bool_decide as Es.
  - eapply wp_run; [apply upd_peer_run; cbn; apply lookup_insert_eq|]. rewrite ref_back by lia. rewrite upd_peer_twice, upd_peer_id by done.
    split; [done|]. exists x. by rewrite decide_True.
  - eapply wp_step; [apply upd_peer_run; cbn; apply lookup_insert_eq|]. eapply wp_step; [reflexivity|]. rewrite !upd_peer_twice.
    cbn [pp_host_addba set_pp_peers].
    set (x1 := set_pe_tx_filter (fun _ => Some (tx_filter_of st)) (set_pe_ref_cnt (fun n => n + 1) x)).
    assert (exists d, when (pp_host_addba s && bool_decide (st = ol_txrx_peer_state_auth)) (on_data (dp_auth p)) (set_pp_peers (<[p := x1]>) s) =
        Some (tt, set_pp_data (fun _ => d) (set_pp_peers (<[p := x1]>) s)) /\ dp_ok (list_to_set (pp_vdev_list s)) (dom (pp_peers s)) d /\
        if pp_host_addba s && bool_decide (st = ol_txrx_peer_state_auth) then dp_auth p (pp_data s) = Some d else d = pp_data s) as (d & Hrun & Hok & Hd).
    { destruct (pp_host_addba s && _) eqn:Eab; cbn [when].
      - apply andb_true_iff in Eab as [Eh Est%bool_decide_eq_true]. assert (Hpd : p ∈ dom (pp_peers s)) by (apply elem_of_dom; eauto).
        destruct (dp_auth_ok _ _ p _ (pr_data _ _ HR) Hpd (Hcan Eh Est p Hpd)) as (d & Hd & Hok). exists d. split; [by apply on_data_run|done].
      - exists (pp_data s). split; [done|]. split; [apply (pr_data _ _ HR)|done]. }
    eapply wp_step; [exact Hrun|]. eapply wp_step; [apply upd_peer_run; cbn; apply lookup_insert_eq|].
    eapply wp_run; [apply upd_peer_run; cbn; apply lookup_insert_eq|].
    match goal with |- PeerRep ?st0 _ /\ _ => assert (st0 = set_pp_data (fun _ => d) (set_pp_peers (<[p := with_state st x]>) s)) as -> end.
    { unfold set_pp_data, set_pp_peers. cbn. rewrite !insert_insert_eq. f_equal. f_equal. f_equal. unfold x1, with_state.
      transitivity (set_pe_state (fun _ => st) (set_pe_tx_filter (fun _ => Some (tx_filter_of st)) (set_pe_ref_cnt (fun n => s32 (n - 1)) (set_pe_ref_cnt (fun n => n + 1) x)))); [done|].
      by rewrite ref_back by lia. }
    split.
    + apply PeerRep_data; [|cbn; rewrite dom_insert_lookup_L; [done|eauto]]. by eapply PeerRep_upd_peer.
    + exists x. split; [done|]. rewrite decide_False by done. by exists d.
Qed.

Lemma PeerRefs_updated s o st s' : PeerRefs s -> state_updated s o st s' -> PeerRefs s'.
Proof.
  intros Hrf. destruct o as [p|]; [|by intros ->]. intros (x & Hp & Hs'). case_decide; [by subst|]. destruct Hs' as (d & -> & _).
  apply PeerRefs_data. apply (PeerRefs_upd_peer s p x); [done|done|by repeat split|cbn; by apply (rf_base _ Hrf)].
Qed.

Lemma LocalIds_updated s o st s' fl ex : LocalIds s fl ex -> state_updated s o st s' -> LocalIds s' fl ex.
Proof.
  intros Hli. destruct o as [p|]; [|by intros ->]. intros (x & Hp & Hs'). case_decide; [by subst|]. destruct Hs' as (d & -> & _).
  apply (LocalIds_frame s); [done..|]. intros q. cbn. destruct (decide (q = p)) as [->|]; [by rewrite lookup_insert_eq, Hp|by rewrite lookup_insert_ne].
Qed.

Lemma PeerInv_updated s o st s' L' : PeerInv s -> PeerRep s' L' -> state_updated s o st s' -> PeerInv s'.
Proof.
  intros (L & fl & _ & Hrf & Hli) HR' Hs'. exists L', fl. split; [done|]. split; [by eapply PeerRefs_updated|by eapply LocalIds_updated].
Qed.

(** ** The parameters of a peer *)
Definition peer_updated s (o : option Z) (u : peer_update) s' : Prop :=
  match o with
  | None => s' = s
  | Some p => exists x, pp_peers s !! p = Some x /\ s' = set_pp_peers (<[p := update_peer u x]>) s
  end.

Lemma update_peer_core u x : same_core x (update_peer u x) /\ pe_ref_cnt (update_peer u x) = pe_ref_cnt x.
Proof. by destruct u. Qed.

Lemma update_peer_ref u f x : set_pe_ref_cnt f (update_peer u x) = update_peer u (set_pe_ref_cnt f x).
Proof. by destruct u. Qed.

Lemma peer_update_spec s L mac u :
  PeerInv s -> PeerRep s L -> mac_ok mac -> ref_room s ->
  wp (ol_txrx_peer_update mac u) (fun _ s' => PeerInv s' /\ peer_updated s (first_with s L mac true) u s') s.
Proof.
  intros HI HR Hm Hroom. unfold ol_txrx_peer_update. destruct (first_with s L mac true) as [p|] eqn:Ef.
  2:{ eapply wp_step; [by apply (hash_find_none s L)|]. by apply (wp_run _ _ _ tt _ eq_refl). }
  destruct (first_with_in _ _ _ _ _ Ef) as (_ & x & Hp & _). specialize (Hroom p x Hp). destruct (pr_peer _ _ HR p x Hp) as [_ Hr].
  eapply wp_step; [by apply (hash_find_some s L mac true p x)|].
  eapply wp_step; [apply upd_peer_run; cbn; apply lookup_insert_eq|].
  eapply wp_run; [apply upd_peer_run; cbn; apply lookup_insert_eq|]. rewrite !upd_peer_twice.
  rewrite update_peer_ref, ref_back by lia. destruct (update_peer_core u x) as [Hc Hrc]. split; [|by exists x].
  pose proof HI as (L' & fl & _ & Hrf & _). pose proof (rf_base _ Hrf p x Hp).
  apply (PeerInv_upd_peer s p x); [done|done|done|lia|lia].
Qed.

(** ** Lookups that leave the table as it was *)
(** A reference taken and given back. *)
Lemma take_back {A} s L o (m : M (peer_pdev D) (option Z)) (k : Z -> peer -> A) :
  PeerRep s L -> ref_room s -> (forall p, o = Some p -> is_Some (pp_peers s !! p)) ->
  m s = match o with None => Some (None, s) | Some p => (ref_inc p;; mret (Some p)) s end ->
  (r ← m; match r with None => mret None | Some p => x ← get_peer p; ref_dec p;; mret (Some (k p x)) end) s =
    Some (p ← o; x ← pp_peers s !! p; Some (k p (set_pe_ref_cnt (fun n => n + 1) x)), s).
Proof.
  intros HR Hroom Ho Hm. unfold mbind at 1, M_bind at 1. rewrite Hm. destruct o as [p|]; [|done]. destruct (Ho p eq_refl) as [x Hp].
  destruct (pr_peer _ _ HR p x Hp) as [_ Hr]. specialize (Hroom p x Hp).
  unfold mbind at 1, M_bind at 1. destruct (ref_inc_spec s L p x HR Hp Hroom) as [-> _]. cbn [mret M_ret].
  unfold mbind at 1, M_bind at 1. rewrite (get_peer_run _ _ (set_pe_ref_cnt (fun n => n + 1) x)) by (cbn; apply lookup_insert_eq).
  unfold mbind at 1, M_bind at 1, ref_dec. rewrite (upd_peer_run _ _ (set_pe_ref_cnt (fun n => n + 1) x)) by (cbn; apply lookup_insert_eq).
  rewrite ref_back by lia. rewrite upd_peer_twice, upd_peer_id by done. cbn. by rewrite Hp.
Qed.

Lemma find_in_table s L f p : PeerRep s L -> List.find (fit_at s f) L = Some p -> is_Some (pp_peers s !! p).
Proof. intros HR [Hp _]%List.find_some. apply (pr_dom _ _ HR). by apply list_elem_of_In. Qed.

Lemma find_peer_by_addr_spec s L mac :
  PeerRep s L -> mac_ok mac -> ref_room s ->
  ol_txrx_find_peer_by_addr mac s =
    Some (p ← first_with s L mac true; x ← pp_peers s !! p; Some (p, u8 (pe_local_id x)), s).
Proof.
  intros HR Hm Hroom. unfold ol_txrx_find_peer_by_addr.
  rewrite (take_back s L (first_with s L mac true) _ (fun p x => (p, u8 (pe_local_id x)))); [done|done|done| |by apply hash_find_spec].
  intros p Hp. by eapply find_in_table.
Qed.

Lemma find_peer_by_addr_and_vdev_spec s L v mac :
  PeerRep s L -> mac_ok mac -> ref_room s ->
  ol_txrx_find_peer_by_addr_and_vdev v mac s =
    Some (p ← List.find (fit_at s (fun x => mac_fits mac true x && bool_decide (pe_vdev x = v))) L; x ← pp_peers s !! p; Some (p, u8 (pe_local_id x)), s).
Proof.
  intros HR Hm Hroom. unfold ol_txrx_find_peer_by_addr_and_vdev.
  rewrite (take_back s L (List.find (fit_at s (fun x => mac_fits mac true x && bool_decide (pe_vdev x = v))) L) _ (fun p x => (p, u8 (pe_local_id x)))); [done|done|done| |by apply vdev_find_hash_spec].
  intros p Hp. by eapply find_in_table.
Qed.

(** The extra reference is never the last. *)
Lemma find_by_addr_spec s L mac :
  PeerRep s L -> mac_ok mac -> ref_room s -> ol_txrx_peer_find_by_addr mac s = Some (first_with s L mac false, s).
Proof.
  intros HR Hm Hroom. unfold ol_txrx_peer_find_by_addr, mbind at 1, M_bind at 1.
  destruct (first_with s L mac false) as [p|] eqn:Ef; [|by rewrite (hash_find_none s L)].
  destruct (first_with_in _ _ _ _ _ Ef) as (_ & x & Hp & _). specialize (Hroom p x Hp). destruct (pr_peer _ _ HR p x Hp) as [_ Hr].
  rewrite (hash_find_some s L mac false p x) by done. destruct (ref_inc_spec s L p x HR Hp Hroom) as [_ HR1].
  assert (Hp1 : pp_peers (set_pp_peers (<[p := set_pe_ref_cnt (fun n => n + 1) x]>) s) !! p = Some (set_pe_ref_cnt (fun n => n + 1) x)) by (cbn; apply lookup_insert_eq).
  pose proof (unref_delete_spec _ L p _ HR1 Hp1) as Hw. apply wp_some in Hw as ([] & s' & Hrun & Hs'). unfold mbind, M_bind. rewrite Hrun.
  cbn [pe_ref_cnt set_pe_ref_cnt] in Hs'. rewrite (proj2 (Z.eqb_neq (pe_ref_cnt x + 1) 1)) in Hs' by lia. destruct Hs' as [-> _].
  unfold mret, M_ret. f_equal. f_equal. rewrite upd_peer_twice. rewrite <- (upd_peer_id s p x Hp) at 2. f_equal. f_equal.
  unfold set_pe_ref_cnt. cbn. rewrite Z.add_simpl_r. by destruct x.
Qed.

(** A local id stands for the attached peer that has it. *)
Lemma find_by_local_id_spec s i :
  PeerInv s -> 0 <= i ->
  exists o, ol_txrx_peer_find_by_local_id i s = Some (o, s) /\
    match o with
    | Some p => exists x, pp_peers s !! p = Some x /\ pe_valid x = true /\ pe_local_id x = i
    | None => forall p x, pp_peers s !! p = Some x -> pe_valid x = true -> pe_local_id x = i -> i = OL_TXRX_INVALID_LOCAL_PEER_ID
    end.
Proof.
  intros (L & fl & HR & Hrf & Hli) Hi. unfold ol_txrx_peer_find_by_local_id.
  assert (Hnone : (i = OL_TXRX_INVALID_LOCAL_PEER_ID \/ OL_TXRX_NUM_LOCAL_PEER_IDS <= i \/ znth (pp_local_map s) i = Some None) ->
    forall p x, pp_peers s !! p = Some x -> pe_valid x = true -> pe_local_id x = i -> i = OL_TXRX_INVALID_LOCAL_PEER_ID).
  { intros Hc p x Hp Hv El. destruct (li_id _ _ _ Hli p x ltac:(done) Hp Hv) as [E|E]; rewrite El in E; [done|].
    destruct Hc as [?|[Hge|Hn]]; [done| |congruence]. apply znth_lt_Some in E. rewrite (li_map_len _ _ _ Hli) in E. lia. }
  destruct (Z.eqb_spec i OL_TXRX_INVALID_LOCAL_PEER_ID); [exists None; split; [done|]; apply Hnone; by left|].
  destruct (Z.leb_spec OL_TXRX_NUM_LOCAL_PEER_IDS i); [exists None; split; [done|]; apply Hnone; by right; left|].
  destruct (znth_in_range (pp_local_map s) i) as [o Ho]; [rewrite (li_map_len _ _ _ Hli); lia|]. exists o. cbn [orb].
  unfold mbind, M_bind, get, lift. rewrite Ho. split; [done|]. destruct o as [p|]; [by apply (li_used _ _ _ Hli)|]. apply Hnone. by right; right.
Qed.
End Ops.
