(* ===== verification/PeerAttach.v ===== *)
(** A new peer: it joins the table, the list of its vdev and the pool of local
    ids; the search that precedes it. *)
From Stdlib Require Import ZArith Lia.
From stdpp Require Import prelude gmap list numbers.
From S2P Require Import Prelude.
From S2P Require Import PeerTypes.
From S2P Require Import PeerTable.
From S2P Require Import PeerRep.
From S2P Require Import PeerSpec.
From S2P Require Import PeerInv.
From S2P Require Import PeerOps.

Section Attach.
Context {D : Type} `{DataPathOk D}.
Implicit Types (s : peer_pdev D) (L : list Z) (x : peer) (y : vdev).

(** ** A peer more *)
Lemma filter_snoc (P : Z -> Prop) `{!forall a, Decision (P a)} (l : list Z) a :
  filter P (l ++ [a]) = filter P l ++ (if decide (P a) then [a] else []).
Proof. by rewrite list.filter_app. Qed.
Lemma filter_ext_elem (P Q : Z -> Prop) `{!forall a, Decision (P a)} `{!forall a, Decision (Q a)} (l : list Z) :
  (forall a, a ∈ l -> P a <-> Q a) -> filter P l = filter Q l.
Proof.
  induction l as [|a l IH]; intros E; [done|]. rewrite !filter_cons.
  rewrite IH by (intros b Hb; apply E; by apply elem_of_cons; right). pose proof (E a ltac:(by apply elem_of_cons; left)).
  repeat case_decide; naive_solver.
Qed.

(** The state [s'] is [s] with the peer [p] of vdev [y]. *)
Record joined s p x y s' : Prop := {
  jn_fresh : pp_peers s !! p = None;
  jn_vdev : pp_vdevs s !! pe_vdev x = Some y;
  jn_peers : pp_peers s' = <[p := x]> (pp_peers s);
  jn_vdevs : exists y', pp_vdevs s' = <[pe_vdev x := y']> (pp_vdevs s) /\ vd_peer_list y' = vd_peer_list y ++ [p] /\
    (vd_last_real_peer y' = vd_last_real_peer y \/ vd_last_real_peer y' = Some p);
  jn_mask : pp_hash_mask s' = pp_hash_mask s /\ pp_hash_idx_bits s' = pp_hash_idx_bits s;
  jn_bins : exists bin, znth (pp_hash_bins s) (hash_index s (pe_mac x)) = Some bin /\
    pp_hash_bins s' = zset (pp_hash_bins s) (hash_index s (pe_mac x)) (bin ++ [p]);
  jn_config : same_config s s' }.

Lemma PeerRep_joined s L p x y s' :
  PeerRep s L -> joined s p x y s' -> mac_ok (pe_mac x) -> 0 < pe_ref_cnt x < 2 ^ 31 ->
  dp_ok (list_to_set (pp_vdev_list s')) ({[p]} ∪ dom (pp_peers s)) (pp_data s') -> PeerRep s' (L ++ [p]).
Proof.
  intros HR [Hfr Hy Ep (y' & Ev & El & _) [Em Eb] (bin & Hbin & Ebins) _] Hmac Hr Hd.
  pose proof HR as [H1 H2 (Hb & Hm & Hl) H4 H5 H6 H7 H8].
  assert (HpL : p ∉ L) by (rewrite H2, Hfr; by intros [? ?]).
  assert (Hh : forall q, hash_at s' q = if decide (q = p) then Some (hash_index s (pe_mac x)) else hash_at s q).
  { intros q. unfold hash_at, hash_index. rewrite Ep, Em, Eb. case_decide as E; [by subst; rewrite lookup_insert_eq|by rewrite lookup_insert_ne]. }
  assert (Hv : forall q, vdev_at s' q = if decide (q = p) then Some (pe_vdev x) else vdev_at s q).
  { intros q. unfold vdev_at. rewrite Ep. case_decide as E; [by subst; rewrite lookup_insert_eq|by rewrite lookup_insert_ne]. }
  assert (Hin : forall (P P' : Z -> Prop) `{!forall q, Decision (P q)} `{!forall q, Decision (P' q)},
    (forall q, q <> p -> P q <-> P' q) -> filter P (L ++ [p]) = filter P' L ++ (if decide (P p) then [p] else [])).
  { intros P P' ?? HPP. rewrite filter_snoc. f_equal. apply filter_ext_elem. intros q Hq. apply HPP. congruence. }
  constructor.
  - apply list.NoDup_app. split; [done|]. split; [|apply list.NoDup_singleton]. intros q Hq ->%list_elem_of_singleton. done.
  - intros q. rewrite elem_of_app, list_elem_of_singleton, H2, Ep. destruct (decide (q = p)) as [->|].
    + rewrite lookup_insert_eq. split; [eauto|by right].
    + rewrite lookup_insert_ne by done. naive_solver.
  - by rewrite Em, Eb, Ebins, zlen_zset.
  - intros i b Hi. rewrite Ebins in Hi. pose proof (znth_lt_Some _ _ _ Hi) as Hir. rewrite zlen_zset in Hir.
    pose proof (znth_lt_Some _ _ _ Hbin) as Hidx.
    rewrite (Hin _ (fun q => hash_at s q = Some i) _ _) by (intros q Hq; by rewrite Hh, decide_False).
    rewrite znth_zset in Hi by lia. case_decide as E.
    + subst i. rewrite (H4 _ _ Hbin) in Hi. injection Hi as <-. f_equal. rewrite decide_True; [done|]. by rewrite Hh, decide_True.
    + rewrite (H4 _ _ Hi), decide_False, app_nil_r; [done|]. rewrite Hh, decide_True by done. congruence.
  - intros v z Hz. rewrite (Hin _ (fun q => vdev_at s q = Some v) _ _) by (intros q Hq; by rewrite Hv, decide_False).
    rewrite Ev in Hz. apply lookup_insert_Some in Hz as [[<- <-]|[Hne Hz]].
    + rewrite El, (H5 _ _ Hy). f_equal. rewrite decide_True; [done|]. by rewrite Hv, decide_True.
    + rewrite (H5 _ _ Hz), decide_False, app_nil_r; [done|]. rewrite Hv, decide_True by done. congruence.
  - intros q z Hq. rewrite Ep in Hq. rewrite Ev. destruct (decide (pe_vdev z = pe_vdev x)) as [->|]; [rewrite lookup_insert_eq; eauto|].
    rewrite lookup_insert_ne by done. apply lookup_insert_Some in Hq as [[<- <-]|[Hne Hq]]; [done|by apply (H6 q)].
  - intros q z Hq. rewrite Ep in Hq. apply lookup_insert_Some in Hq as [[<- <-]|[Hne Hq]]; [done|by apply (H7 q)].
  - by rewrite Ep, dom_insert_L.
Qed.

Lemma unmapped s p : PeerRefs s -> pp_peers s !! p = None -> mapped s p = 0.
Proof.
  intros Hrf Hp. unfold mapped. apply zsum_zero. intros o Ho. unfold maps_to. rewrite decide_False; [done|]. intros ->.
  apply list_elem_of_lookup in Ho as [k Hk]. destruct (rf_map _ Hrf (Z.of_nat k) p) as [z Hz]; [|congruence].
  apply znth_Some. split; [lia|]. by rewrite Nat2Z.id.
Qed.

Lemma PeerRefs_joined s p x y s' :
  PeerRefs s -> joined s p x y s' -> pe_valid x = true -> pe_ref_cnt x = 2 -> pe_delete_in_progress x = false ->
  length (pe_peer_ids x) = 8%nat -> PeerRefs s' /\ base s' p x <= 2.
Proof.
  intros Hrf [Hfr Hy Ep (y' & Ev & El & Hlast) _ _ [C1 C2 C3 C4 C5 C6 C7]] Hv Hr Hd Hids.
  assert (Hb : base s' p x <= 2).
  { pose proof (unmapped s p Hrf Hfr) as Hm. pose proof (awaits_range x). unfold base, mapped in *. rewrite C1, Hm, Hv. lia. }
  split; [|done]. destruct Hrf as [H1 H2 H3 H4 H5 H6]. constructor; rewrite ?Ep, ?Ev, ?C1, ?C5; try done.
  - intros q z Hq. apply lookup_insert_Some in Hq as [[<- <-]|[Hne Hq]]; [lia|]. unfold base, mapped. rewrite C1. by apply H1.
  - intros i q Hq. destruct (decide (q = p)) as [->|]; [rewrite lookup_insert_eq; eauto|]. rewrite lookup_insert_ne by done. eauto.
  - intros q z Hq. apply lookup_insert_Some in Hq as [[<- <-]|[Hne Hq]]; [done|eauto].
  - intros v z q Hz Hq. assert (q = p /\ v = pe_vdev x \/ exists z0, pp_vdevs s !! v = Some z0 /\ vd_last_real_peer z0 = Some q) as [[-> ->]|(z0 & Hz0 & Hq0)].
    { apply lookup_insert_Some in Hz as [[<- <-]|[Hne Hz]]; [|eauto]. destruct Hlast as [E|E]; rewrite E in Hq; [right; eauto|left; by simplify_eq]. }
    + rewrite lookup_insert_eq. eauto.
    + destruct (H5 v z0 q Hz0 Hq0) as (a & Ha & Hva & Hda). exists a. rewrite lookup_insert_ne; [done|]. intros ->. congruence.
  - intros q z Hq. apply lookup_insert_Some in Hq as [[<- <-]|[Hne Hq]]; [by rewrite Hd, Hv|eauto].
Qed.

Lemma LocalIds_joined s p x y s' fl :
  LocalIds s fl None -> joined s p x y s' -> LocalIds s' fl (Some p) /\ forall i, znth (pp_local_map s') i <> Some (Some p).
Proof.
  intros [H1 H2 H3 H4 H5 H6 H7 H8] [Hfr _ Ep _ _ _ [C1 C2 C3 C4 C5 C6 C7]]. split.
  - constructor; rewrite ?C2, ?C3, ?C4, ?Ep; try done.
    + intros i q Hq. destruct (H7 i q Hq) as (z & Hz & Hvz). exists z. rewrite lookup_insert_ne; [done|]. intros ->. congruence.
    + intros q z Hex Hq. rewrite lookup_insert_ne in Hq by congruence. by apply H8.
  - intros i Hi. rewrite C4 in Hi. destruct (H7 i p Hi) as (z & Hz & _). congruence.
Qed.

(** ** A local id for a peer *)
Lemma local_id_alloc_spec s fl p x :
  LocalIds s fl (Some p) -> pp_peers s !! p = Some x -> pe_valid x = true -> (forall i, znth (pp_local_map s) i <> Some (Some p)) ->
  exists s' fl' id, OL_TXRX_LOCAL_PEER_ID_ALLOC p s = Some (tt, s') /\ LocalIds s' fl' None /\
    (exists free, s' = set_pp_local_map (fun _ => match fl with [] => pp_local_map s | a :: _ => zset (pp_local_map s) a (Some p) end)
      (set_pp_freelist (fun _ => free) (set_pp_peers (<[p := set_pe_local_id (fun _ => id) x]>) s))) /\
    match fl with
    | [] => id = OL_TXRX_INVALID_LOCAL_PEER_ID
    | a :: _ => id = a /\ 0 <= a < OL_TXRX_NUM_LOCAL_PEER_IDS /\ znth (pp_local_map s') a = Some (Some p)
    end.
Proof.
  intros [H1 H2 H3 H4 H5 H6 H7 H8] Hp Hv Hn.
  assert (Hkeep : forall id q z, <[p := set_pe_local_id (fun _ => id) x]> (pp_peers s) !! q = Some z ->
    (q = p /\ z = set_pe_local_id (fun _ => id) x) \/ (q <> p /\ pp_peers s !! q = Some z)).
  { intros id q z Hq. apply lookup_insert_Some in Hq as [[<- <-]|[Hne Hq]]; [by left|right; by split]. }
  assert (Hothers : forall id i q, znth (pp_local_map s) i = Some (Some q) ->
    exists z, <[p := set_pe_local_id (fun _ => id) x]> (pp_peers s) !! q = Some z /\ pe_valid z = true /\ pe_local_id z = i).
  { intros id i q Hi. destruct (H7 i q Hi) as (z & Hz). exists z. rewrite lookup_insert_ne; [done|]. intros ->. by apply (Hn i). }
  unfold OL_TXRX_LOCAL_PEER_ID_ALLOC, mbind at 1, M_bind at 1, get. unfold mbind at 1, M_bind at 1, lift at 1. destruct fl as [|a fl].
  - assert (Hf : pp_freelist s = OL_TXRX_NUM_LOCAL_PEER_IDS) by exact H4. rewrite Hf, H3, Z.eqb_refl. exists (set_pp_peers (<[p := set_pe_local_id (fun _ => OL_TXRX_INVALID_LOCAL_PEER_ID) x]>) s), [], OL_TXRX_INVALID_LOCAL_PEER_ID.
    split; [by apply upd_peer_run|]. split; [|split; [|done]].
    + constructor; cbn [set_pp_peers pp_pool pp_freelist pp_local_map pp_peers]; try done; [|].
      * intros i q Hi. by apply Hothers.
      * intros q z _ Hq Hz. destruct (Hkeep _ _ _ Hq) as [[-> ->]|[Hne Hq']]; [by left|]. apply (H8 q z); [congruence|done|done].
    + exists (pp_freelist s). by destruct s.
  - destruct (chain_next _ _ _ _ H5 H4) as (n & Hnx & Hne & Hc). destruct H4 as (Ea & Hr & _). rewrite Ea in *. rewrite Hnx.
    rewrite (proj2 (Z.eqb_neq n a)) by done. rewrite u16_small by (unfold OL_TXRX_NUM_LOCAL_PEER_IDS in Hr; lia).
    assert (Hfree : znth (pp_local_map s) a = Some None) by (apply H6; by apply elem_of_cons; left).
    unfold mbind at 1, M_bind at 1. rewrite (upd_peer_run _ _ _ _ Hp). unfold mbind at 1, M_bind at 1, modify at 1. unfold mbind at 1, M_bind at 1.
    cbn [set_pp_freelist set_pp_peers pp_local_map]. rewrite Hfree.
    eexists _, fl, a. split; [done|]. split; [|split; [by eexists|]].
    + constructor; cbn [set_pp_peers set_pp_freelist set_pp_local_map pp_pool pp_freelist pp_local_map pp_peers]; try done.
      * by rewrite zlen_zset.
      * by apply list.NoDup_cons in H5 as [_ ?].
      * intros j. apply list.NoDup_cons in H5 as [Hafl _]. destruct (decide (j = a)) as [->|Hja].
        -- rewrite znth_zset_eq by lia. split; [done|congruence].
        -- rewrite znth_zset_ne by (lia || congruence). rewrite <- H6, elem_of_cons. naive_solver.
      * intros j q Hj. pose proof (znth_lt_Some _ _ _ Hj) as Hjr. rewrite zlen_zset in Hjr. rewrite znth_zset in Hj by lia. case_decide as E.
        -- subst j. injection Hj as <-. exists (set_pe_local_id (fun _ => a) x). by rewrite lookup_insert_eq.
        -- by apply Hothers.
      * intros q z _ Hq Hz. destruct (Hkeep _ _ _ Hq) as [[-> ->]|[Hqp Hq']].
        -- right. cbn. apply znth_zset_eq. lia.
        -- destruct (H8 q z) as [?|Hi]; [congruence|done|done|by left|]. right. rewrite znth_zset_ne; [done|lia|]. intros E. rewrite <- E in Hi. congruence.
    + split; [done|]. split; [done|]. cbn [set_pp_local_map pp_local_map]. apply znth_zset_eq. change (0 <= a < zlen (pp_local_map s)). lia.
Qed.
(** ** A new peer *)
Definition new_peer (v : Z) (mac : mac_addr) (bss : bool) : peer :=
  mk_peer v mac true 2 false (replicate 8 HTT_INVALID_PEER) 0 bss ol_txrx_peer_state_invalid None false 0 (0, 0).
Definition new_vdev (p : Z) (mac : mac_addr) y : vdev :=
  let y := set_vd_peer_list (tailq_insert_tail p) y in
  if ol_txrx_peer_find_mac_addr_cmp (vd_mac y) mac then set_vd_last_real_peer (fun _ => Some p) y else y.

Lemma new_vdev_fields p mac y :
  vd_peer_list (new_vdev p mac y) = vd_peer_list y ++ [p] /\ vd_delete_pending (new_vdev p mac y) = vd_delete_pending y /\
  (vd_last_real_peer (new_vdev p mac y) = vd_last_real_peer y \/ vd_last_real_peer (new_vdev p mac y) = Some p).
Proof. unfold new_vdev. cbv zeta. destruct (ol_txrx_peer_find_mac_addr_cmp _ mac); (do 2 (split; [done|])); [by right|by left]. Qed.

Lemma hash_add_run s p x bin :
  pp_peers s !! p = Some x -> znth (pp_hash_bins s) (hash_index s (pe_mac x)) = Some bin ->
  ol_txrx_peer_find_hash_add p s = Some (tt, set_pp_hash_bins (fun l => zset l (hash_index s (pe_mac x)) (bin ++ [p])) s).
Proof.
  intros Hp Hb. unfold ol_txrx_peer_find_hash_add, mbind, M_bind, get. rewrite (get_peer_run _ _ _ Hp). unfold lift. by rewrite Hb.
Qed.

(** Up to the entry in the hash table. *)
Lemma attach_join s L fl v y mac p :
  PeerRep s L -> PeerRefs s -> LocalIds s fl None -> pp_peers s !! p = None -> pp_vdevs s !! v = Some y -> mac_ok mac ->
  exists d1 d2, dp_tx_attach p v (pp_data s) = Some d1 /\ dp_rx_attach p d1 = Some d2 /\
  let bss := negb (ol_txrx_peer_find_mac_addr_cmp mac (vd_mac y)) in
  let s' := set_pp_data (fun _ => d2) (set_pp_vdevs (<[v := new_vdev p mac y]>)
    (set_pp_hash_bins (fun l => zset l (hash_index s mac) (default [] (znth (pp_hash_bins s) (hash_index s mac)) ++ [p]))
      (set_pp_peers (<[p := new_peer v mac bss]>) s))) in
  PeerRep s' (L ++ [p]) /\ PeerRefs s' /\ LocalIds s' fl (Some p) /\ (forall i, znth (pp_local_map s') i <> Some (Some p)) /\
  forall k : M (peer_pdev D) unit, forall Q,
    wp (ol_txrx_peer_state_update mac ol_txrx_peer_state_disc;; k) Q s' ->
    wp (modify (set_pp_peers (<[p := zeroed_peer v mac]>));;
        on_data (dp_tx_attach p v);;
        upd_vdev v (set_vd_peer_list (tailq_insert_tail p));;
        when (ol_txrx_peer_find_mac_addr_cmp (vd_mac y) mac) (upd_vdev v (set_vd_last_real_peer (fun _ => Some p)));;
        on_data (dp_rx_attach p);;
        upd_peer p (set_pe_peer_ids (fun l => (fun _ => HTT_INVALID_PEER) <$> l));;
        upd_peer p (set_pe_delete_in_progress (fun _ => false));;
        upd_peer p (set_pe_ref_cnt (fun _ => 0));;
        ref_inc p;; ref_inc p;;
        upd_peer p (set_pe_valid (fun _ => true));;
        ol_txrx_peer_find_hash_add p;;
        when (negb (ol_txrx_peer_find_mac_addr_cmp mac (vd_mac y))) (upd_peer p (set_pe_bss_peer (fun _ => true)));;
        upd_peer p (set_pe_state (fun _ => ol_txrx_peer_state_invalid));;
        ol_txrx_peer_state_update mac ol_txrx_peer_state_disc;; k) Q s.
Proof.
  intros HR Hrf Hli Hp Hv Hm.
  assert (HpP : p ∉ dom (pp_peers s)) by (by apply not_elem_of_dom).
  destruct (dp_tx_attach_ok _ _ p v _ (pr_data _ _ HR) HpP) as (d1 & Hd1 & Hb1).
  destruct (dp_rx_attach_ok _ _ p _ Hb1 HpP) as (d2 & Hd2 & Hok). exists d1, d2. split; [done|]. split; [done|]. intros bss s'.
  assert (Hbin := bin_at s L mac HR). set (bin := filter _ L) in Hbin.
  assert (Hj : joined s p (new_peer v mac bss) y s').
  { constructor; try done.
    - exists (new_vdev p mac y). destruct (new_vdev_fields p mac y) as (? & _ & ?). by split_and!.
    - exists bin. split; [exact Hbin|]. unfold s'. cbn [set_pp_data set_pp_vdevs set_pp_hash_bins set_pp_peers pp_hash_bins]. by rewrite Hbin. }
  split; [eapply PeerRep_joined; done|]. split; [by eapply PeerRefs_joined|]. destruct (LocalIds_joined _ _ _ _ _ _ Hli Hj) as [Hl1 Hl2].
  split; [done|]. split; [done|]. intros k Q Hk.
  eapply wp_step; [reflexivity|]. eapply wp_step; [by apply on_data_run|]. eapply wp_step; [by apply upd_vdev_run|].
  eapply wp_step.
  { transitivity (Some (tt, set_pp_vdevs (<[v := new_vdev p mac y]>) (set_pp_data (fun _ => d1) (set_pp_peers (<[p := zeroed_peer v mac]>) s)))); [|reflexivity].
    unfold new_vdev. cbn [set_vd_peer_list vd_mac]. destruct (ol_txrx_peer_find_mac_addr_cmp (vd_mac y) mac); cbn [when]; [|done].
    rewrite (upd_vdev_run _ _ (set_vd_peer_list (tailq_insert_tail p) y)) by (cbn; apply lookup_insert_eq).
    f_equal. f_equal. unfold set_pp_vdevs. cbn. by rewrite insert_insert_eq. }
  eapply wp_step; [by apply on_data_run|].
  do 3 (eapply wp_step; [apply upd_peer_run; cbn; apply lookup_insert_eq|]; rewrite ?upd_peer_twice).
  do 3 (eapply wp_step; [apply upd_peer_run; cbn; apply lookup_insert_eq|]; rewrite ?upd_peer_twice).
  match goal with |- wp _ _ (set_pp_peers (<[p := ?z]>) _) => assert (z = new_peer v mac false) as -> by reflexivity end.
  apply (wp_at _ _ _ (set_pp_peers (<[p := new_peer v mac false]>) (set_pp_data (fun _ => d2) (set_pp_vdevs (<[v := new_vdev p mac y]>) s)))).
  { apply (f_equal (fun m => set_pp_peers (fun _ => m) (set_pp_data (fun _ => d2) (set_pp_vdevs (<[v := new_vdev p mac y]>) s)))). cbn [set_pp_peers set_pp_data set_pp_vdevs pp_peers]. apply insert_insert_eq. }
  eapply wp_step; [apply (hash_add_run _ p (new_peer v mac false) bin); [cbn; apply lookup_insert_eq|exact Hbin]|].
  set (s1 := set_pp_data (fun _ => d2) (set_pp_vdevs (<[v := new_vdev p mac y]>) (set_pp_hash_bins (fun l => zset l (hash_index s mac) (bin ++ [p])) s))).
  apply (wp_at _ _ _ (set_pp_peers (<[p := new_peer v mac false]>) s1)); [reflexivity|].
  eapply wp_step.
  { transitivity (Some (tt, set_pp_peers (<[p := new_peer v mac bss]>) s1)); [|reflexivity].
    unfold bss. destruct (negb _); cbn [when]; [|done].
    rewrite (upd_peer_run _ _ (new_peer v mac false)) by (cbn; apply lookup_insert_eq). by rewrite upd_peer_twice. }
  eapply wp_step; [apply (upd_peer_run _ _ (new_peer v mac bss)); cbn; apply lookup_insert_eq|]. rewrite upd_peer_twice.
  apply (wp_at _ _ _ s'); [|exact Hk]. unfold s'. rewrite Hbin. reflexivity.
Qed.
Definition disc_peer x : peer := if decide (pe_state x = ol_txrx_peer_state_disc) then x else with_state ol_txrx_peer_state_disc x.

(** What [ol_txrx_peer_attach] makes of [s]: the peer that gets the state
    "disconnected" is the first attached one with the address; the new peer has a
    local id that was free, and none if none was. *)
Record attached s L (v : Z) (mac : mac_addr) (p : Z) s' : Prop := {
  at_rep : PeerRep s' (L ++ [p]);
  at_new : exists x, pp_peers s' !! p = Some x /\ pe_vdev x = v /\ pe_mac x = mac /\ pe_valid x = true /\ pe_ref_cnt x = 2 /\
    pe_peer_ids x = replicate 8 HTT_INVALID_PEER /\
    if first_with s L mac true then pe_state x = ol_txrx_peer_state_invalid /\ pe_tx_filter x = None
    else pe_state x = ol_txrx_peer_state_disc /\ pe_tx_filter x = Some ol_tx_filter_discard;
  at_others : forall q, q <> p ->
    pp_peers s' !! q = (if decide (first_with s L mac true = Some q) then disc_peer <$> pp_peers s !! q else pp_peers s !! q);
  at_map : pp_id_map s' = pp_id_map s;
  at_vdevs : forall w y, pp_vdevs s !! w = Some y -> exists y', pp_vdevs s' !! w = Some y' /\ vd_delete_pending y' = vd_delete_pending y;
  at_vdev_macs : forall w y', pp_vdevs s' !! w = Some y' -> exists y, pp_vdevs s !! w = Some y /\ vd_mac y' = vd_mac y;
  at_vdev_list : pp_vdev_list s' = pp_vdev_list s;
  at_log : pp_log s' = pp_log s;
  at_local_id : exists x, pp_peers s' !! p = Some x /\
    (znth (pp_local_map s) (pe_local_id x) = Some None /\ pp_local_map s' = zset (pp_local_map s) (pe_local_id x) (Some p) \/
     (forall i, znth (pp_local_map s) i <> Some None) /\ pe_local_id x = OL_TXRX_INVALID_LOCAL_PEER_ID /\ pp_local_map s' = pp_local_map s) }.

Lemma find_app (f : Z -> bool) l k :
  List.find f (l ++ k) = match List.find f l with Some a => Some a | None => List.find f k end.
Proof. induction l as [|a l IH]; [done|]. cbn. by destruct (f a). Qed.

Lemma first_with_joined s s' L p x mac cv :
  pp_peers s' = <[p := x]> (pp_peers s) -> p ∉ L -> mac_fits mac cv x = true ->
  first_with s' (L ++ [p]) mac cv = Some (default p (first_with s L mac cv)).
Proof.
  intros Ep Hp Hx. unfold first_with. rewrite find_app.
  assert (List.find (fit_at s' (mac_fits mac cv)) L = List.find (fit_at s (mac_fits mac cv)) L) as ->.
  { apply find_ext_in. intros q Hq. unfold fit_at. rewrite Ep, lookup_insert_ne; [done|congruence]. }
  destruct (List.find _ L); [done|]. cbn. unfold fit_at. by rewrite Ep, lookup_insert_eq, Hx.
Qed.

(** The updated peers, whichever one was found. *)
Lemma updated_lookup s o st s' q :
  state_updated s o st s' ->
  pp_peers s' !! q = (if decide (o = Some q) then (fun x => if decide (pe_state x = st) then x else with_state st x) <$> pp_peers s !! q else pp_peers s !! q).
Proof.
  destruct o as [p|]; [|by intros ->]. intros (x & Hp & Hs'). destruct (decide (Some p = Some q)) as [[= ->]|Hne].
  - rewrite Hp. cbn. destruct (decide (pe_state x = st)); [by subst|]. destruct Hs' as (d & -> & _). cbn. by rewrite lookup_insert_eq.
  - destruct (decide (pe_state x = st)); [by subst|]. destruct Hs' as (d & -> & _). cbn. rewrite lookup_insert_ne; [done|congruence].
Qed.

Lemma updated_frame s o st s' :
  state_updated s o st s' -> pp_vdevs s' = pp_vdevs s /\ pp_id_map s' = pp_id_map s /\ pp_log s' = pp_log s /\ pp_local_map s' = pp_local_map s /\
  pp_vdev_list s' = pp_vdev_list s.
Proof.
  destruct o as [p|]; [|by intros ->]. intros (x & Hp & Hs'). case_decide; [by subst|]. by destruct Hs' as (d & -> & _).
Qed.

(** In monitor mode the first peer is the device's own. *)
Lemma self_peer_run s v y p :
  pp_vdevs s !! v = Some y ->
  exists self y', when (pp_monitor s && bool_decide (pp_self_peer s = None)) (
      modify (set_pp_self_peer (fun _ => Some p));; upd_vdev v (set_vd_disable_intrabss_fwd (fun _ => true))) s =
    Some (tt, set_pp_self_peer (fun _ => self) (set_pp_vdevs (<[v := y']>) s)) /\
    vd_peer_list y' = vd_peer_list y /\ vd_last_real_peer y' = vd_last_real_peer y /\ vd_delete_pending y' = vd_delete_pending y /\
    vd_mac y' = vd_mac y.
Proof.
  intros Hv. destruct (_ && _); cbn [when].
  - exists (Some p), (set_vd_disable_intrabss_fwd (fun _ => true) y). split; [|done]. unfold mbind, M_bind, modify. by rewrite (upd_vdev_run _ _ y).
  - exists (pp_self_peer s), y. split; [|done]. unfold skip. f_equal. f_equal. unfold set_pp_self_peer, set_pp_vdevs. cbn. rewrite insert_id by done. by destruct s.
Qed.

Lemma attach_new_spec s L v mac p :
  PeerInv s -> PeerRep s L -> pp_peers s !! p = None -> is_Some (pp_vdevs s !! v) -> mac_ok mac -> ref_room s ->
  wp (attach_new v mac p) (fun _ s' => PeerInv s' /\ attached s L v mac p s') s.
Proof.
  intros (L0 & fl & _ & Hrf & Hli) HR Hp [y Hv] Hm Hroom.
  assert (HpL : p ∉ L) by (rewrite (pr_dom _ _ HR), Hp; by intros [? ?]).
  destruct (attach_join s L fl v y mac p HR Hrf Hli Hp Hv Hm) as (d1 & d2 & _ & _ & Hjoin). cbv zeta in Hjoin.
  revert Hjoin. set (bss := negb _). set (s1 := set_pp_data _ _). intros (HR1 & Hrf1 & Hli1 & Hn1 & Hrun).
  unfold attach_new. eapply wp_step; [reflexivity|]. rewrite bool_decide_eq_true_2 by done.
  eapply wp_step; [reflexivity|]. eapply wp_step; [by apply get_vdev_run|]. apply Hrun. clear Hrun. apply wp_bind.
  assert (Hroom1 : ref_room s1).
  { intros q z Hq. unfold s1 in Hq. cbn in Hq. apply lookup_insert_Some in Hq as [[<- <-]|[_ Hq]]; [cbn; lia|by apply (Hroom q)]. }
  eapply wp_mono; [apply (state_update_spec s1 (L ++ [p]) mac); [done|done|done|by intros _ ?]|]. cbv beta. intros _ s2 [HR2 Hu].
  pose proof (PeerRefs_updated _ _ _ _ Hrf1 Hu) as Hrf2. pose proof (LocalIds_updated _ _ _ _ _ _ Hli1 Hu) as Hli2.
  destruct (updated_frame _ _ _ _ Hu) as (Fv & Fi & Fl & Fm & Fvl). pose proof (fun q => updated_lookup _ _ _ _ q Hu) as Fp.
  rewrite (first_with_joined s s1 L p (new_peer v mac bss) mac true) in Fp by (done || (unfold mac_fits; cbn; by rewrite bool_decide_eq_true_2)).
  assert (Hv2 : pp_vdevs s2 !! v = Some (new_vdev p mac y)) by (rewrite Fv; cbn; apply lookup_insert_eq).
  eapply wp_step; [reflexivity|]. destruct (self_peer_run s2 v _ p Hv2) as (self & y' & Hself & El & Elast & Edp & Emac).
  eapply wp_step; [exact Hself|]. set (s3 := set_pp_self_peer _ _).
  assert (HI3 : PeerRep s3 (L ++ [p]) /\ PeerRefs s3 /\ LocalIds s3 fl (Some p)).
  { split; [|split].
    - unfold s3. apply (PeerRep_frame (set_pp_vdevs (<[v := y']>) s2)); [done..|]. by eapply PeerRep_upd_vdev.
    - destruct Hrf2 as [H1 H2 H3 H4 H5 H6]. constructor; try done. intros w z q Hw Hq. unfold s3 in Hw. cbn in Hw.
      apply lookup_insert_Some in Hw as [[<- <-]|[_ Hw]]; [rewrite Elast in Hq|]; eauto.
    - by apply (LocalIds_frame s2). }
  destruct HI3 as (HR3 & Hrf3 & Hli3).
  assert (exists x, pp_peers s3 !! p = Some x /\ x = if first_with s L mac true then new_peer v mac bss else with_state ol_txrx_peer_state_disc (new_peer v mac bss)) as (x & Hx & Ex).
  { unfold s3. cbn [set_pp_self_peer set_pp_vdevs pp_peers]. specialize (Fp p). unfold s1 in Fp. cbn [set_pp_data set_pp_vdevs set_pp_hash_bins set_pp_peers pp_peers] in Fp.
    rewrite lookup_insert_eq in Fp. destruct (first_with s L mac true) as [q|] eqn:Ef; cbn [default] in Fp.
    - rewrite decide_False in Fp; [eauto|]. intros [= ->]. by apply first_with_in in Ef as [? _].
    - rewrite decide_True in Fp by done. eauto. }
  assert (Hvx : pe_valid x = true /\ pe_vdev x = v /\ pe_mac x = mac /\ pe_ref_cnt x = 2 /\ pe_peer_ids x = replicate 8 HTT_INVALID_PEER) by (rewrite Ex; by destruct (first_with s L mac true)).
  destruct Hvx as (Hvx & Hvd & Hmx & Hrx & Hix).
  destruct (local_id_alloc_spec s3 fl p x Hli3 Hx Hvx) as (s4 & fl' & id & Halloc & Hli4 & (free & E4) & Hid).
  { intros i. unfold s3. cbn. rewrite Fm. apply Hn1. }
  eapply wp_run; [exact Halloc|].
  assert (HR4 : PeerRep s4 (L ++ [p])).
  { rewrite E4. apply (PeerRep_frame (set_pp_peers (<[p := set_pe_local_id (fun _ => id) x]>) s3)); [done..|].
    eapply PeerRep_upd_peer; [done|exact Hx|done|cbn; lia]. }
  split.
  - exists (L ++ [p]), fl'. split; [done|]. split; [|done]. rewrite E4.
    pose proof (PeerRefs_upd_peer s3 p x (set_pe_local_id (fun _ => id) x) Hrf3 Hx ltac:(by repeat split) (rf_base _ Hrf3 p x Hx)) as [H1 H2 H3 H4 H5 H6].
    by constructor.
  - constructor.
    + done.
    + exists (set_pe_local_id (fun _ => id) x). rewrite E4. cbn. rewrite lookup_insert_eq. do 6 (split; [done|]). rewrite Ex. by destruct (first_with s L mac true).
    + intros q Hq. rewrite E4. cbn [set_pp_local_map set_pp_freelist set_pp_peers pp_peers]. rewrite lookup_insert_ne by done.
      unfold s3. cbn [set_pp_self_peer set_pp_vdevs pp_peers]. rewrite (Fp q). unfold s1. cbn [set_pp_data set_pp_vdevs set_pp_hash_bins set_pp_peers pp_peers].
      rewrite lookup_insert_ne by done. destruct (first_with s L mac true); cbn [default]; [done|]. rewrite !decide_False by congruence. done.
    + by rewrite E4; cbn; rewrite Fi.
    + intros w z Hz. rewrite E4. cbn [set_pp_local_map set_pp_freelist set_pp_peers set_pp_self_peer set_pp_vdevs pp_vdevs s3]. destruct (decide (w = v)) as [->|].
      * rewrite lookup_insert_eq. exists y'. split; [done|]. rewrite Edp. destruct (new_vdev_fields p mac y) as (_ & -> & _). congruence.
      * rewrite lookup_insert_ne by done. rewrite Fv. cbn. rewrite lookup_insert_ne by done. eauto.
    + intros w z Hz. rewrite E4 in Hz. cbn [set_pp_local_map set_pp_freelist set_pp_peers set_pp_self_peer set_pp_vdevs pp_vdevs s3] in Hz.
      apply lookup_insert_Some in Hz as [[<- <-]|[Hne Hz]].
      * exists y. split; [done|]. rewrite Emac. unfold new_vdev. cbv zeta. by destruct (ol_txrx_peer_find_mac_addr_cmp _ mac).
      * rewrite Fv in Hz. cbn in Hz. rewrite lookup_insert_ne in Hz by done. eauto.
    + by rewrite E4; cbn; rewrite Fvl.
    + by rewrite E4; cbn; rewrite Fl.
    + assert (Em3 : pp_local_map s3 = pp_local_map s) by (unfold s3; cbn; by rewrite Fm).
      exists (set_pe_local_id (fun _ => id) x). rewrite E4. cbn [set_pp_local_map set_pp_freelist set_pp_peers pp_peers pp_local_map].
      split; [by rewrite lookup_insert_eq|]. rewrite Em3. pose proof (li_free _ _ _ Hli) as Hfree. destruct fl as [|a fl].
      * right. split; [|done]. intros i Hi%Hfree. by apply not_elem_of_nil in Hi.
      * left. destruct Hid as (-> & _). split; [|done]. apply Hfree. by left.
Qed.
(** ** The search before *)
Definition waits_for (id : Z) y : vdev := set_vd_wait_on_peer_id (fun _ => id) y.

Lemma attach_check_spec v mac ps : forall s L y w,
  PeerInv s -> PeerRep s L -> mac_ok mac -> pp_vdevs s !! v = Some y -> (forall q, q ∈ ps -> q ∈ L) ->
  wp (attach_check v mac ps w) (fun r s' =>
    (exists id, s' = set_pp_vdevs (<[v := waits_for id y]>) s) /\
    match r with
    | None => exists q x, q ∈ ps /\ pp_peers s !! q = Some x /\ pe_mac x = mac /\ pe_valid x = true
    | Some b => (forall q x, q ∈ ps -> pp_peers s !! q = Some x -> pe_mac x = mac -> pe_valid x = false) /\
        (b = true <-> w = true \/ exists q x, q ∈ ps /\ pp_peers s !! q = Some x /\ pe_mac x = mac)
    end) s.
Proof.
  induction ps as [|q ps IH]; intros s L y w HI HR Hm Hv Hps; cbn [attach_check].
  - apply (wp_run _ _ _ (Some w) s eq_refl). split.
    + exists (vd_wait_on_peer_id y). unfold set_pp_vdevs. rewrite insert_id; [by destruct s|]. rewrite Hv. by destruct y.
    + split; [by intros q x ?%not_elem_of_nil|]. split; [by left|]. intros [->|(q & x & ?%not_elem_of_nil & _)]; done.
  - assert (Hq : q ∈ L) by (apply Hps; by apply elem_of_cons; left). apply (pr_dom _ _ HR) in Hq as [x Hx].
    assert (Hps' : forall p, p ∈ ps -> p ∈ L) by (intros p Hp; apply Hps; by apply elem_of_cons; right).
    eapply wp_step; [by apply get_peer_run|]. destruct (pr_peer _ _ HR q x Hx) as [Hmx _]. rewrite mac_addr_cmp_eq by done.
    pose proof HI as (_ & _ & _ & Hrf & _). rewrite (rf_del _ Hrf q x Hx).
    case_bool_decide as Em; cbn [negb].
    + destruct (pe_valid x) eqn:Hvx; cbn [negb].
      * apply (wp_run _ _ _ None s eq_refl). split.
        -- exists (vd_wait_on_peer_id y). unfold set_pp_vdevs. rewrite insert_id; [by destruct s|]. rewrite Hv. by destruct y.
        -- exists q, x. split; [by apply elem_of_cons; left|]. by split_and!.
      * eapply wp_step; [by apply upd_vdev_run|]. set (s1 := set_pp_vdevs _ s).
        eapply wp_mono; [apply (IH s1 L (waits_for (pe_local_id x) y) true)|].
        -- apply (PeerInv_upd_vdev s v y); [done|done|done|by left].
        -- by eapply PeerRep_upd_vdev.
        -- done.
        -- unfold s1. cbn. apply lookup_insert_eq.
        -- done.
        -- intros r s' [(id & ->) Hr]. split; [exists id; unfold s1, set_pp_vdevs; cbn; by rewrite insert_insert_eq|].
           destruct r as [b|]; [|destruct Hr as (q' & x' & Hq' & Hr); exists q', x'; split; [by apply elem_of_cons; right|done]].
           destruct Hr as [Hr1 Hr2]. split; [|split; [intros _; right; exists q, x; by split_and!; [apply elem_of_cons; left| |]|intros _; apply Hr2; by left]].
           intros q' x' [->|Hq']%elem_of_cons Hx' Hm'; [by simplify_eq|by apply (Hr1 q' x')].
    + eapply wp_mono; [by apply (IH s L y w)|]. cbv beta. intros r s' [Hs' Hr]. split; [done|]. destruct r as [b|].
      * destruct Hr as [Hr1 Hr2]. split.
        -- intros q' x' [->|Hq']%elem_of_cons Hx' Hm'; [by simplify_eq|by apply (Hr1 q' x')].
        -- rewrite Hr2. split; (intros [?|(q' & x' & Hq' & Hx' & Hm')]; [by left|right]).
           ++ exists q', x'. split; [by apply elem_of_cons; right|done].
           ++ apply elem_of_cons in Hq' as [->|Hq']; [by simplify_eq|]. by exists q', x'.
      * destruct Hr as (q' & x' & Hq' & Hr). exists q', x'. split; [by apply elem_of_cons; right|done].
Qed.
End Attach.
