(* ===== verification/PeerVdev.v ===== *)
(** Virtual devices come and go; the table when it is created and when it is
    emptied. *)
From Stdlib Require Import ZArith Lia.
From stdpp Require Import prelude gmap list numbers.
From S2P Require Import Prelude.
From S2P Require Import PeerTypes.
From S2P Require Import PeerTable.
From S2P Require Import PeerRep.
From S2P Require Import PeerSpec.
From S2P Require Import PeerInv.
From S2P Require Import PeerOps.

Section Vdevs.
Context {D : Type} `{DataPathOk D}.
Implicit Types (s : peer_pdev D) (L : list Z) (x : peer) (y : vdev).

(** The vdevs that are not being deleted are there. *)
Record VdevInv s : Prop := {
  vi_nodup : NoDup (pp_vdev_list s);
  vi_there : forall v, v ∈ pp_vdev_list s -> exists y, pp_vdevs s !! v = Some y /\ vd_delete_pending y = false;
  vi_mac : forall v y, pp_vdevs s !! v = Some y -> mac_ok (vd_mac y) }.

Definition keeps_vdevs s s' : Prop :=
  pp_vdev_list s' = pp_vdev_list s /\
  (forall v y, pp_vdevs s !! v = Some y -> vd_delete_pending y = false ->
    exists y', pp_vdevs s' !! v = Some y' /\ vd_delete_pending y' = false) /\
  forall v y', pp_vdevs s' !! v = Some y' -> exists y, pp_vdevs s !! v = Some y /\ vd_mac y' = vd_mac y.

#[export] Instance keeps_vdevs_preorder : PreOrder keeps_vdevs.
Proof.
  split.
  - intros s. split; [done|]. split; eauto.
  - intros s1 s2 s3 (E1 & H1 & B1) (E2 & H2 & B2). split; [congruence|]. split.
    + intros v y Hv Hy. destruct (H1 v y Hv Hy) as (y2 & Hv2 & Hy2). eauto.
    + intros v y Hv. destruct (B2 v y Hv) as (y2 & Hv2 & E). destruct (B1 v y2 Hv2) as (y1 & Hv1 & E'). exists y1. split; [done|congruence].
Qed.

Lemma VdevInv_keeps s s' : VdevInv s -> keeps_vdevs s s' -> VdevInv s'.
Proof.
  intros [H1 H2 H4] (E & H3 & B). constructor; rewrite ?E; [done| |].
  - intros v Hv. destruct (H2 v Hv) as (y & Hy & Hd). by apply (H3 v y).
  - intros v y Hy. destruct (B v y Hy) as (z & Hz & ->). by apply (H4 v).
Qed.

Lemma keeps_same s s' : pp_vdev_list s' = pp_vdev_list s -> pp_vdevs s' = pp_vdevs s -> keeps_vdevs s s'.
Proof. intros E1 E2. split; [done|]. rewrite E2. split; eauto. Qed.

Lemma keeps_upd s v y y' :
  pp_vdevs s !! v = Some y -> vd_delete_pending y' = vd_delete_pending y -> vd_mac y' = vd_mac y ->
  keeps_vdevs s (set_pp_vdevs (<[v := y']>) s).
Proof.
  intros Hv Hd Hm. split; [done|]. split; intros w z Hw; cbn in *.
  - intros Hz. destruct (decide (w = v)) as [->|]; [|rewrite lookup_insert_ne by done; eauto].
    rewrite lookup_insert_eq. exists y'. split; [done|]. congruence.
  - apply lookup_insert_Some in Hw as [[<- <-]|[_ Hw]]; eauto.
Qed.

Lemma keeps_deleted s p x s' : is_Some (pp_vdevs s !! pe_vdev x) -> deleted s p x s' -> keeps_vdevs s s'.
Proof.
  intros [y1 Hy1] [_ [_ _ _ _ _ C _] E2 E3 _]. split; [done|]. split; intros v y Hv.
  - intros Hd. destruct (decide (v = pe_vdev x)) as [->|]; [|rewrite E2 by done; eauto].
    destruct (E3 y Hv) as [-> _]. destruct (vdev_without_fields p (pe_local_id x) y) as (_ & _ & Ed & _). unfold vdev_done. rewrite Ed, Hd, andb_false_r.
    eexists. split; [done|]. congruence.
  - destruct (decide (v = pe_vdev x)) as [->|]; [|rewrite E2 in Hv by done; eauto]. exists y1. split; [done|].
    destruct (E3 y1 Hy1) as [E _]. rewrite E in Hv. destruct (vdev_done _); [done|]. injection Hv as <-. apply vdev_without_fields.
Qed.

Lemma keeps_unreffed s p x s' : is_Some (pp_vdevs s !! pe_vdev x) -> unreffed s p x s' -> keeps_vdevs s s'.
Proof.
  intros Hy Hu. unfold unreffed in Hu. destruct (_ =? _); [by eapply keeps_deleted|]. subst. by apply keeps_same.
Qed.

(** ** A new vdev *)
Lemma no_peers s L v :
  (forall p x, pp_peers s !! p = Some x -> is_Some (pp_vdevs s !! pe_vdev x)) -> pp_vdevs s !! v = None ->
  filter (fun p => vdev_at s p = Some v) L = [].
Proof.
  intros Hhome Hv. destruct (filter _ L) as [|q l] eqn:E; [done|]. exfalso.
  assert (Hq : q ∈ filter (fun p => vdev_at s p = Some v) L) by (rewrite E; by apply elem_of_cons; left).
  apply list_elem_of_filter in Hq as [Hq _]. unfold vdev_at in Hq. destruct (pp_peers s !! q) as [x|] eqn:Ex; [|done].
  cbn in Hq. injection Hq as Hq. destruct (Hhome q x Ex) as [z Hz]. congruence.
Qed.
Lemma vdev_attach_spec s v mac op_mode :
  PeerInv s -> VdevInv s -> mac_ok mac -> pp_vdevs s !! v = None ->
  exists s' d, ol_txrx_vdev_attach v mac op_mode s = Some (tt, s') /\ PeerInv s' /\ VdevInv s' /\
    dp_vdev_attach v (pp_data s) = Some d /\
    s' = set_pp_vdev_list (tailq_insert_tail v) (set_pp_data (fun _ => d) (set_pp_vdevs (<[v := fresh_vdev mac op_mode]>) s)).
Proof.
  intros (L & fl & [H1 H2 H3 H4 H5 H6 H7 H8] & [G1 G2 G3 G4 G5 G6] & [K1 K2 K3 K4 K5 K6 K7 K8]) [V1 V2 V3] Hmac Hv.
  assert (Hin : v ∉ pp_vdev_list s) by (intros Hin; destruct (V2 v Hin) as (y & Hy & _); congruence).
  destruct (dp_vdev_attach_ok _ _ v _ H8) as (d & Hd & Hok); [by rewrite elem_of_list_to_set|].
  eexists _, d. split; [|split; [|split; [|done]]].
  { unfold ol_txrx_vdev_attach, mbind, M_bind, get. rewrite bool_decide_eq_true_2 by done. cbn. unfold modify at 1.
    erewrite on_data_run by exact Hd. done. }
  - exists L, fl. split; [|split; constructor; try done].
    + constructor; cbn; try done.
      * intros w z Hw. apply lookup_insert_Some in Hw as [[<- <-]|[Hne Hw]]; [|by apply H5]. cbn.
        symmetry. exact (no_peers s L v H6 Hv).
      * intros q x Hq. destruct (decide (pe_vdev x = v)) as [->|]; [rewrite lookup_insert_eq; eauto|]. rewrite lookup_insert_ne by done. eauto.
      * unfold tailq_insert_tail.
        replace (list_to_set (pp_vdev_list s ++ [v]) : gset Z) with ({[v]} ∪ list_to_set (pp_vdev_list s) : gset Z); [exact Hok|].
        apply set_eq. intros w. rewrite elem_of_union, elem_of_singleton, !elem_of_list_to_set, elem_of_app, list_elem_of_singleton. tauto.
    + cbn. intros w z q Hw Hq. apply lookup_insert_Some in Hw as [[<- <-]|[Hne Hw]]; [done|eauto].
  - constructor; cbn.
    + apply list.NoDup_app. split; [done|]. split; [|apply list.NoDup_singleton]. intros w Hw ->%list_elem_of_singleton. done.
    + intros w [Hw| ->%list_elem_of_singleton]%elem_of_app; [|rewrite lookup_insert_eq; eauto].
      rewrite lookup_insert_ne by congruence. eauto.
    + intros w z Hw. apply lookup_insert_Some in Hw as [[<- <-]|[_ Hw]]; [done|eauto].
Qed.

(** ** The end of a vdev *)
Definition pending callback y : vdev :=
  set_vd_delete_callback (fun _ => callback) (set_vd_delete_pending (fun _ => true) y).

(** The list of vdevs and the data path change together. *)
Lemma PeerInv_vdev_list s l d :
  PeerInv s -> dp_ok (list_to_set l) (dom (pp_peers s)) d ->
  PeerInv (set_pp_vdev_list (fun _ => l) (set_pp_data (fun _ => d) s)).
Proof.
  intros (L & fl & [H1 H2 H3 H4 H5 H6 H7 H8] & [G1 G2 G3 G4 G5 G6] & [K1 K2 K3 K4 K5 K6 K7 K8]) Hd.
  exists L, fl. by split; [|split]; constructor.
Qed.

(** A vdev without peers is taken away. *)
Lemma PeerInv_drop_vdev s v y :
  PeerInv s -> pp_vdevs s !! v = Some y -> vd_peer_list y = [] -> PeerInv (set_pp_vdevs (delete v) s).
Proof.
  intros (L & fl & HR & Hrf & Hli) Hy El. assert (Hno : forall q x, pp_peers s !! q = Some x -> pe_vdev x <> v).
  { intros q x Hq E. pose proof (pr_list _ _ HR v y Hy) as E'. rewrite El in E'.
    assert (Hbad : q ∈ filter (fun p => vdev_at s p = Some v) L); [|rewrite <- E' in Hbad; by apply not_elem_of_nil in Hbad].
    apply list_elem_of_filter. split; [|by eapply (peer_in s)]. unfold vdev_at. rewrite Hq. cbn. by rewrite E. }
  exists L, fl. split; [|split].
  - destruct HR as [H1 H2 H3 H4 H5 H6 H7 H8]. constructor; try done.
    + intros w z Hw. cbn in Hw. apply lookup_delete_Some in Hw as [_ Hw]. by apply H5.
    + intros q x Hq. cbn. rewrite lookup_delete_ne; [by apply (H6 q)|]. intros E. by apply (Hno q x).
  - destruct Hrf as [G1 G2 G3 G4 G5 G6]. constructor; try done. intros w z q Hw Hq. cbn in Hw.
    apply lookup_delete_Some in Hw as [_ Hw]. by apply (G5 w z q).
  - by apply (LocalIds_frame s).
Qed.

Lemma vdev_detach_spec s v callback :
  PeerInv s -> VdevInv s -> v ∈ pp_vdev_list s -> dp_vdev_idle v (pp_data s) ->
  wp (ol_txrx_vdev_detach v callback) (fun _ s' => PeerInv s' /\ VdevInv s' /\ pp_peers s' = pp_peers s /\ pp_id_map s' = pp_id_map s /\
    exists y, pp_vdevs s !! v = Some y /\
    if decide (vd_peer_list y = []) then
      pp_vdevs s' = delete v (pp_vdevs s) /\ dp_unnamed v (pp_data s') /\
      pp_log s' = pp_log s ++ vdev_freed v :: match callback with Some c => [vdev_delete_cb v c] | None => [] end
    else pp_vdevs s' = <[v := pending callback y]> (pp_vdevs s) /\ pp_log s' = pp_log s) s.
Proof.
  intros HI [V1 V2 V3] Hin Hidle. destruct (V2 v Hin) as (y & Hy & Hd). pose proof HI as (L0 & fl0 & HR0 & _).
  destruct (dp_vdev_free_ok _ _ v _ (pr_data _ _ HR0)) as (d & Hdd & Hok); [by apply elem_of_list_to_set|done|]. clear L0 fl0 HR0.
  unfold ol_txrx_vdev_detach.
  eapply wp_step; [by apply get_vdev_run|]. eapply wp_step; [by apply on_data_run|]. set (s1 := set_pp_data _ s) in *.
  eapply wp_step; [reflexivity|]. eapply wp_step; [unfold lift; rewrite tailq_remove_filter by done; reflexivity|]. eapply wp_step; [reflexivity|].
  set (l := filter (fun w => w <> v) (pp_vdev_list s)).
  apply (wp_at _ _ _ (set_pp_vdev_list (fun _ => l) s1)); [reflexivity|]. set (s2 := set_pp_vdev_list _ s1).
  assert (Hok2 : dp_ok (list_to_set l) (dom (pp_peers s)) d).
  { replace (list_to_set l : gset Z) with (list_to_set (pp_vdev_list s) ∖ {[v]} : gset Z); [done|]. apply set_eq. intros w.
    rewrite elem_of_difference, elem_of_singleton, !elem_of_list_to_set. unfold l. rewrite list_elem_of_filter. tauto. }
  pose proof (PeerInv_vdev_list s l d HI Hok2) as HI2. fold s1 s2 in HI2.
  assert (Hvi : forall w, w ∈ pp_vdev_list s2 -> w <> v /\ exists z, pp_vdevs s !! w = Some z /\ vd_delete_pending z = false).
  { intros w [Hw Hwl]%list_elem_of_filter. split; [done|eauto]. }
  assert (Hnd : NoDup (pp_vdev_list s2)) by (by apply list.NoDup_filter).
  case_bool_decide as El; cbn [negb].
  - pose proof HI2 as (L2 & fl2 & HR2 & _). destruct (dp_vdev_gone_ok _ _ v _ (pr_data _ _ HR2)) as (dg & Hdg & Hokg & Hun).
    eapply wp_step; [by apply on_data_run|]. eapply wp_step; [reflexivity|]. eapply wp_step; [reflexivity|].
    match goal with |- wp _ _ ?st => set (s3 := st) end.
    assert (Ev : pp_vdevs s3 = delete v (pp_vdevs s)) by done.
    assert (HI3 : PeerInv s3).
    { apply (PeerInv_frame (set_pp_vdevs (delete v) (set_pp_data (fun _ => dg) s2))); try done.
      eapply PeerInv_drop_vdev; [by apply PeerInv_data|exact Hy|done]. }
    assert (HV3 : VdevInv s3).
    { constructor; [done| |].
      - intros w Hw. destruct (Hvi w Hw) as (Hne & z & Hz & Hzd). exists z. by rewrite Ev, lookup_delete_ne.
      - intros w z Hw. rewrite Ev in Hw. apply lookup_delete_Some in Hw as [_ Hw]. eauto. }
    destruct callback as [c|].
    + apply (wp_run _ _ _ tt (set_pp_log (fun l => l ++ [vdev_delete_cb v c]) s3) eq_refl).
      split; [by apply (PeerInv_frame s3)|]. split; [by destruct HV3; constructor|]. split; [done|]. split; [done|]. exists y. split; [done|]. rewrite decide_True by done.
      split; [done|]. split; [done|]. cbn. by rewrite <- app_assoc.
    + apply (wp_run _ _ _ tt s3 eq_refl). split; [done|]. split; [done|]. split; [done|]. split; [done|]. exists y. split; [done|]. by rewrite decide_True.
  - eapply wp_run; [by apply upd_vdev_run|]. split; [by apply (PeerInv_upd_vdev s2 v y); [| | |left]|].
    split; [|split; [done|]; split; [done|]; exists y; split; [done|]; by rewrite decide_False].
    constructor; [done| |].
    + intros w Hw. destruct (Hvi w Hw) as (Hne & z & Hz & Hzd). exists z. cbn. by rewrite lookup_insert_ne.
    + intros w z Hw. cbn in Hw. apply lookup_insert_Some in Hw as [[<- <-]|[_ Hw]]; [exact (V3 v y Hy)|eauto].
Qed.

(** ** The table when it is created *)
Lemma seq_znth (n : nat) i : 0 <= i < Z.of_nat n -> znth ((fun k => Z.of_nat k + 1) <$> seq 0 n) i = Some (i + 1).
Proof.
  intros Hi. apply znth_Some. split; [lia|]. rewrite list_lookup_fmap, lookup_seq_lt by lia. cbn. f_equal. lia.
Qed.

Lemma chain_seq pool k n :
  (forall i, k <= i < k + Z.of_nat n -> znth pool i = Some (i + 1)) -> 0 <= k -> k + Z.of_nat n = OL_TXRX_NUM_LOCAL_PEER_IDS ->
  chain pool k ((fun i => k + Z.of_nat i) <$> seq 0 n).
Proof.
  revert k. induction n as [|n IH]; intros k Hp Hk Hn; [cbn; lia|]. rewrite <- cons_seq, fmap_cons, <- fmap_S_seq, <- list_fmap_compose.
  split; [lia|]. split; [lia|]. exists (k + 1). split; [rewrite Z.add_0_r; apply Hp; lia|].
  replace (((fun i => k + Z.of_nat i) ∘ S) <$> seq 0 n) with ((fun i => k + 1 + Z.of_nat i) <$> seq 0 n).
  - apply IH; [intros i Hi; apply Hp; lia|lia|lia].
  - apply list_fmap_ext. intros i q _. cbn. lia.
Qed.

Lemma peer_pdev_init_spec max addba monitor d :
  0 <= max < HTT_INVALID_PEER -> dp_ok ∅ ∅ d ->
  exists s, peer_pdev_init max addba monitor d = Some s /\ PeerInv s /\ VdevInv s /\ pp_peers s = ∅ /\ pp_max_peer_id s = max /\
    (max + 1) * 2 <= zlen (pp_hash_bins s) < (max + 1) * 4.
Proof.
  intros Hmax Hd. unfold HTT_INVALID_PEER in Hmax. unfold peer_pdev_init, ol_txrx_peer_find_hash_attach, ol_txrx_peer_find_map_attach, OL_TXRX_LOCAL_PEER_ID_POOL_INIT.
  replace (Z.shiftr ((max + 1) * TXRX_PEER_HASH_LOAD_MULT) TXRX_PEER_HASH_LOAD_SHIFT) with ((max + 1) * 2) by (symmetry; apply Z.shiftr_0_r).
  destruct (log2_ceil_spec ((max + 1) * 2)) as (k & -> & Hk & Hlo & Hhi); [lia|]. cbn [mbind option_bind].
  rewrite Z.shiftl_1_l. assert (Hpos : 0 < 2 ^ k) by (apply Z.pow_pos_nonneg; lia).
  eexists. split; [done|]. split; [|split; [|split; [done|split; [done|]]]].
  - exists [], ((fun i => 0 + Z.of_nat i) <$> seq 0 34). split; [|split].
    + constructor; cbn [pp_peers pp_vdevs pp_hash_mask pp_hash_idx_bits pp_hash_bins pp_data]; try done.
      * constructor.
      * intros p. split; [by intros ?%not_elem_of_nil|by intros [? ?]].
      * split; [lia|]. split; [done|]. unfold zlen. rewrite length_replicate. lia.
      * intros i b [_ [-> _]%lookup_replicate]%znth_Some. done.
    + constructor; try done; cbn [pp_id_map pp_max_peer_id].
      * intros i p [_ [E _]%lookup_replicate]%znth_Some. done.
      * unfold zlen. rewrite length_replicate. lia.
    + constructor; cbn [pp_peers pp_local_map pp_pool pp_freelist]; try done.
      * apply (chain_seq _ 0 34); [|lia|done]. intros i Hi. apply znth_Some. split; [lia|].
        rewrite lookup_app_l by (rewrite length_fmap, length_seq; change (Z.to_nat OL_TXRX_NUM_LOCAL_PEER_IDS) with 34%nat; lia).
        pose proof (seq_znth 34 i ltac:(lia)) as E. by apply znth_Some in E as [_ E].
      * apply list.NoDup_fmap_2; [intros a b; lia|]. apply list.NoDup_seq.
      * intros i. rewrite list_elem_of_fmap. split.
        -- intros [j [-> Hj%elem_of_seq]]. apply znth_Some. split; [lia|]. apply lookup_replicate. split; [done|].
           change (Z.to_nat OL_TXRX_NUM_LOCAL_PEER_IDS) with 34%nat. lia.
        -- intros [Hi [_ Hj]%lookup_replicate]%znth_Some. change (Z.to_nat OL_TXRX_NUM_LOCAL_PEER_IDS) with 34%nat in Hj.
           exists (Z.to_nat i). split; [lia|]. apply elem_of_seq. lia.
      * intros i p [_ [E _]%lookup_replicate]%znth_Some. done.
  - constructor; [constructor|by intros v ?%not_elem_of_nil|done].
  - cbn [pp_hash_bins]. unfold zlen. rewrite length_replicate, Z2Nat.id by lia.
    rewrite (Z.pow_sub_r 2 k 1) in Hlo; [|lia|]; [change (2 ^ 1) with 2 in Hlo|].
    + split; [lia|]. destruct (decide (k = 0)) as [->|]; [cbn in Hhi; lia|].
      replace k with (Z.succ (k - 1)) in * by lia. rewrite Z.pow_succ_r in * by lia. rewrite (Z.mul_comm 2), Z.div_mul in Hlo by lia. lia.
    + destruct (decide (k = 0)) as [->|]; [cbn in Hhi; lia|]. lia.
Qed.
(** ** The table when it is emptied *)
Definition freed_of (l : list event) : list Z := omap (fun e => match e with peer_freed p => Some p | _ => None end) l.

Lemma freed_app l k : freed_of (l ++ k) = freed_of l ++ freed_of k.
Proof. unfold freed_of. induction l as [|[] l IH]; [done|..]; cbn; by rewrite ?IH. Qed.

Lemma freed_delete p v id y : freed_of (delete_events p v id y) = [p].
Proof.
  unfold delete_events. rewrite !freed_app. destruct (id =? vd_wait_on_peer_id y), (vdev_done _), (vd_delete_callback y); done.
Qed.

Lemma erase_peer_spec s L p :
  PeerRep s L -> p ∈ L ->
  wp (erase_peer p) (fun _ s' => PeerRep s' (filter (fun q => q <> p) L) /\ same_config s s' /\
    (forall q, q <> p -> pp_peers s' !! q = pp_peers s !! q) /\ freed_of (pp_log s') = freed_of (pp_log s) ++ [p]) s.
Proof.
  intros HR Hp. apply (pr_dom _ _ HR) in Hp as [x Hx]. destruct (pr_home _ _ HR p x Hx) as [y Hy].
  unfold erase_peer. eapply wp_step; [by apply upd_peer_run|]. eapply wp_step; [apply upd_peer_run; cbn; apply lookup_insert_eq|].
  rewrite upd_peer_twice. set (x1 := set_pe_ref_cnt _ (set_pe_ref_cnt _ x)). set (s1 := set_pp_peers _ s).
  assert (Hr : pe_ref_cnt x1 = 1) by done.
  assert (HR1 : PeerRep s1 L) by (eapply PeerRep_upd_peer; [done|exact Hx|done|rewrite Hr; lia]).
  eapply wp_mono; [apply (unref_delete_spec s1 L p x1 HR1); cbn; apply lookup_insert_eq|]. cbv beta. intros _ s'.
  rewrite Hr. cbn [Z.eqb Pos.eqb]. intros [HR' [E1 C E2 E3 _]]. split; [done|]. split; [|split].
  - destruct C as [C1 C2 C3 C4 C5 C6 C7 C8]. by constructor.
  - intros q Hq. rewrite E1. cbn. by rewrite lookup_delete_ne, lookup_insert_ne.
  - destruct (E3 y Hy) as [_ ->]. rewrite freed_app, freed_delete. done.
Qed.

Lemma same_config_trans s1 s2 s3 : same_config s1 s2 -> same_config s2 s3 -> same_config s1 s3.
Proof. intros [A1 A2 A3 A4 A5 A6 A7 [A8 A9]] [B1 B2 B3 B4 B5 B6 B7 [B8 B9]]. constructor; [congruence..|]. split; congruence. Qed.
Lemma same_config_refl s : same_config s s.
Proof. by constructor. Qed.

Lemma erase_bin_spec bin : forall s L,
  PeerRep s L -> NoDup bin -> (forall p, p ∈ bin -> p ∈ L) ->
  wp (for_each bin erase_peer) (fun _ s' => exists L', PeerRep s' L' /\ L ≡ₚ bin ++ L' /\ same_config s s' /\
    (forall q, q ∉ bin -> pp_peers s' !! q = pp_peers s !! q) /\ freed_of (pp_log s') = freed_of (pp_log s) ++ bin) s.
Proof.
  induction bin as [|p bin IH]; intros s L HR Hnd Hin.
  { apply (wp_run _ _ _ tt s eq_refl). exists L. rewrite app_nil_r. split_and!; [done|done|apply same_config_refl|done|done]. }
  apply list.NoDup_cons in Hnd as [Hp Hnd]. cbn [for_each]. apply wp_bind.
  assert (HpL : p ∈ L) by (apply Hin; by apply elem_of_cons; left).
  eapply wp_mono; [by apply (erase_peer_spec s L p HR)|]. cbv beta. intros _ s1 (HR1 & C1 & K1 & F1).
  eapply wp_mono; [apply (IH s1 _ HR1 Hnd)|].
  - intros q Hq. apply list_elem_of_filter. split; [congruence|]. apply Hin. by apply elem_of_cons; right.
  - cbv beta. intros _ s' (L' & HR' & HL & C & K & F). exists L'. split; [done|]. split; [|split; [by eapply same_config_trans|split]].
    + rewrite <- app_comm_cons, <- HL. pose proof (tailq_remove_filter p L (pr_nodup _ _ HR) HpL) as E. by apply tailq_remove_perm in E.
    + intros q Hq. rewrite elem_of_cons in Hq. rewrite K by tauto. apply K1. tauto.
    + by rewrite F, F1, <- app_assoc.
Qed.

(** All peers lose all their references. *)
Lemma hash_erase_spec s L :
  PeerRep s L ->
  wp ol_txrx_peer_find_hash_erase (fun _ s' => PeerRep s' [] /\ exists M, M ≡ₚ L /\ freed_of (pp_log s') = freed_of (pp_log s) ++ M) s.
Proof.
  intros HR. destruct (pr_bits _ _ HR) as (Hb & Hm & Hl). assert (Hpos : 0 < 2 ^ pp_hash_idx_bits s) by (apply Z.pow_pos_nonneg; lia).
  unfold ol_txrx_peer_find_hash_erase. eapply wp_step; [reflexivity|].
  set (n := Z.to_nat (pp_hash_mask s + 1)).
  assert (Hn : Z.of_nat n = 2 ^ pp_hash_idx_bits s) by (unfold n; lia).
  assert (Hloop : forall (m k : nat) s1 L1 M1, (k + m)%nat = n -> PeerRep s1 L1 -> same_config s s1 ->
    M1 ++ L1 ≡ₚ L -> freed_of (pp_log s1) = freed_of (pp_log s) ++ M1 ->
    (forall p h, p ∈ L1 -> hash_at s1 p = Some h -> Z.of_nat k <= h) ->
    wp (for_each (Z.of_nat <$> seq k m) (fun i => s ← get; bin ← lift (znth (pp_hash_bins s) i); for_each bin erase_peer))
      (fun _ s' => PeerRep s' [] /\ exists M, M ≡ₚ L /\ freed_of (pp_log s') = freed_of (pp_log s) ++ M) s1).
  { induction m as [|m IH]; intros k s1 L1 M1 Hk HR1 C1 HM HF Hh.
    - apply (wp_run _ _ _ tt s1 eq_refl). destruct L1 as [|p L1]; [split; [done|]; exists M1; by rewrite app_nil_r in HM|]. exfalso.
      assert (Hp : p ∈ p :: L1) by (by apply elem_of_cons; left). pose proof Hp as [x Hx]%(pr_dom _ _ HR1).
      pose proof (sc_hash _ _ C1) as [E1 E2].
      assert (hash_at s1 p = Some (hash_index s1 (pe_mac x))) as E by (unfold hash_at; by rewrite Hx). specialize (Hh p _ Hp E).
      unfold hash_index in Hh. rewrite E1, E2, Hm in Hh. pose proof (hash_index_range (pp_hash_idx_bits s) (pe_mac x) Hb). lia.
    - cbn [seq fmap list_fmap for_each]. apply wp_bind. eapply wp_step; [reflexivity|].
      destruct (pr_bits _ _ HR1) as (Hb1 & Hm1 & Hl1). pose proof (sc_hash _ _ C1) as [E1 E2].
      destruct (znth_in_range (pp_hash_bins s1) (Z.of_nat k)) as [bin Hbin]; [rewrite Hl1, E2; lia|].
      eapply wp_step; [unfold lift; by rewrite Hbin|]. rewrite (pr_bin _ _ HR1 _ _ Hbin).
      eapply wp_mono; [apply (erase_bin_spec _ s1 L1 HR1); [apply list.NoDup_filter, (pr_nodup _ _ HR1)|by intros p [_ ?]%list_elem_of_filter]|].
      cbv beta. intros _ s2 (L2 & HR2 & HL2 & C2 & K2 & F2). eapply IH.
      + lia.
      + exact HR2.
      + by eapply same_config_trans.
      + rewrite <- HM, HL2, app_assoc. reflexivity.
      + by rewrite F2, HF, <- app_assoc.
      + intros p h Hp Hph. assert (Hnd : NoDup (filter (fun p => hash_at s1 p = Some (Z.of_nat k)) L1 ++ L2)) by (rewrite <- HL2; apply (pr_nodup _ _ HR1)).
        apply list.NoDup_app in Hnd as (_ & Hdisj & _).
        assert (HpL1 : p ∈ L1) by (rewrite HL2; apply elem_of_app; by right).
        assert (Hnot : p ∉ filter (fun p => hash_at s1 p = Some (Z.of_nat k)) L1) by (intros Hin; by apply (Hdisj p)).
        assert (Hsame : hash_at s1 p = hash_at s2 p).
        { unfold hash_at, hash_index. rewrite (K2 p Hnot). by destruct (sc_hash _ _ C2) as [-> ->]. }
        assert (h <> Z.of_nat k). { intros ->. apply Hnot. apply list_elem_of_filter. split; [congruence|done]. }
        specialize (Hh p h HpL1 ltac:(congruence)). lia. }
  apply (Hloop n 0%nat s L [] ltac:(lia) HR (same_config_refl s)); [done|by rewrite app_nil_r|].
  intros p h _ Hh. unfold hash_at in Hh. destruct (pp_peers s !! p) as [x|]; [|done]. cbn in Hh. injection Hh as <-.
  unfold hash_index. rewrite Hm. by apply hash_index_range.
Qed.
End Vdevs.
