(* ===== verification/PeerClient.v ===== *)
(** The users of the peer table: the operations they may call, in any order,
    with the references they hold. *)
From Stdlib Require Import ZArith Lia.
From stdpp Require Import prelude gmap list numbers gmultiset.
From S2P Require Import Prelude.
From S2P Require Import PeerTypes.
From S2P Require Import PeerTable.
From S2P Require Import PeerRep.
From S2P Require Import PeerSpec.
From S2P Require Import PeerInv.
From S2P Require Import PeerOps.
From S2P Require Import PeerAttach.
From S2P Require Import PeerVdev.

(** The entry points, an attach apart; what others do while an attach waits is
    a list of them. *)
Inductive call :=
  | call_vdev_attach (v : Z) (mac : mac_addr) (op_mode : wlan_op_mode)
  | call_vdev_detach (v : Z) (callback : option Z)
  | call_detach (p : Z)
  | call_map (i : Z) (mac : mac_addr) (tx_ready : bool)
  | call_unmap (i : Z)
  | call_tx_ready (i : Z)
  | call_state (mac : mac_addr) (st : ol_txrx_peer_state)
  | call_update (mac : mac_addr) (u : peer_update)
  | call_find (mac : mac_addr) (check_valid : bool)
  | call_vdev_find (v : Z) (mac : mac_addr) (check_valid : bool)
  | call_assoc (v : Z)
  | call_local (i : Z)
  | call_addr (mac : mac_addr)
  | call_addr_vdev (v : Z) (mac : mac_addr)
  | call_by_addr (mac : mac_addr)
  | call_unref (p : Z).

(** An attach: the calls of other threads while it waits, whether the wait is
    over in time, the memory it gets. *)
Inductive op :=
  | op_call (c : call)
  | op_attach (v : Z) (mac : mac_addr) (others : list call) (rc : bool) (mem : option Z).

Section Client.
Context {D : Type} `{DataPathOk D}.
Notation MP := (M (peer_pdev D)).
Implicit Types (s : peer_pdev D) (r : gmultiset Z).

(** The peer a call returns a reference to. *)
Definition run_call (c : call) : MP (option Z) :=
  match c with
  | call_vdev_attach v mac op_mode => ol_txrx_vdev_attach v mac op_mode;; mret None
  | call_vdev_detach v cb => ol_txrx_vdev_detach v cb;; mret None
  | call_detach p => ol_txrx_peer_detach p;; mret None
  | call_map i mac ready => ol_rx_peer_map_handler i mac ready;; mret None
  | call_unmap i => ol_rx_peer_unmap_handler i;; mret None
  | call_tx_ready i => ol_txrx_peer_tx_ready_handler i;; mret None
  | call_state mac st => ol_txrx_peer_state_update mac st;; mret None
  | call_update mac u => ol_txrx_peer_update mac u;; mret None
  | call_find mac cv => ol_txrx_peer_find_hash_find mac cv
  | call_vdev_find v mac cv => ol_txrx_peer_vdev_find_hash v mac cv
  | call_assoc v => ol_txrx_assoc_peer_find v
  | call_local i => ol_txrx_peer_find_with_ref_by_local_id i
  | call_addr mac => ol_txrx_find_peer_by_addr mac;; mret None
  | call_addr_vdev v mac => ol_txrx_find_peer_by_addr_and_vdev v mac;; mret None
  | call_by_addr mac => ol_txrx_peer_find_by_addr mac;; mret None
  | call_unref p => ol_txrx_peer_unref_delete p;; mret None
  end.

(** The references held after a call. *)
Definition refs_after (c : call) (o : option Z) r : gmultiset Z :=
  match c with
  | call_unref p => r ∖ {[+ p +]}
  | _ => match o with Some p => {[+ p +]} ⊎ r | None => r end
  end.

(** What callers keep to: a reference is dropped by who holds it, a peer is
    detached once, the target maps an id that is free; the data path may ask
    more. *)
Definition allowed (c : call) s r : Prop :=
  ref_room s /\
  match c with
  | call_vdev_attach v mac _ => mac_ok mac /\ pp_vdevs s !! v = None
  | call_vdev_detach v _ => v ∈ pp_vdev_list s /\ dp_vdev_idle v (pp_data s)
  | call_detach p => exists x, pp_peers s !! p = Some x /\ pe_valid x = true
  | call_map i mac _ => mac_ok mac /\ 0 <= i <= pp_max_peer_id s /\ i <> HTT_INVALID_PEER /\ znth (pp_id_map s) i = Some None
  | call_unmap i => 0 <= i <= pp_max_peer_id s /\ i <> HTT_INVALID_PEER
  | call_tx_ready i => 0 <= i
  | call_state mac st => mac_ok mac /\ can_update s st
  | call_update mac _ | call_find mac _ | call_vdev_find _ mac _ | call_addr mac | call_addr_vdev _ mac | call_by_addr mac => mac_ok mac
  | call_assoc v => v ∈ pp_vdev_list s
  | call_local i => 0 <= i
  | call_unref p => p ∈ r
  end.

(** Calls one after the other. *)
Definition run_calls (l : list call) : MP unit := for_each l (fun c => run_call c;; skip).

Fixpoint after_calls (l : list call) (sr : peer_pdev D * gmultiset Z) : peer_pdev D * gmultiset Z :=
  match l with
  | [] => sr
  | c :: l => match run_call c sr.1 with Some (o, s') => after_calls l (s', refs_after c o sr.2) | None => sr end
  end.

Fixpoint allowed_calls (l : list call) s r : Prop :=
  match l with
  | [] => True
  | c :: l => allowed c s r /\ forall o s', run_call c s = Some (o, s') -> allowed_calls l s' (refs_after c o r)
  end.

Definition run_op (o : op) : MP (option Z) :=
  match o with
  | op_call c => run_call c
  | op_attach v mac others rc mem => ol_txrx_peer_attach v mac (run_calls others) rc mem
  end.

(** The search of an attach, and the calls it lets others make. *)
Definition attach_search (v : Z) (mac : mac_addr) s : option (option bool * peer_pdev D) :=
  match pp_vdevs s !! v with Some y => attach_check v mac (vd_peer_list y) false s | None => None end.
Definition while_attach (v : Z) (mac : mac_addr) (others : list call) (sr : peer_pdev D * gmultiset Z) : peer_pdev D * gmultiset Z :=
  match attach_search v mac sr.1 with
  | Some (Some true, s1) => after_calls others (s1, sr.2)
  | Some (_, s1) => (s1, sr.2)
  | None => sr
  end.

Definition refs_op (o : op) s (res : option Z) r : gmultiset Z :=
  match o with
  | op_call c => refs_after c res r
  | op_attach v mac others _ _ => (while_attach v mac others (s, r)).2
  end.

Definition allowed_op (o : op) s r : Prop :=
  match o with
  | op_call c => allowed c s r
  | op_attach v mac others rc mem =>
    mac_ok mac /\ v ∈ pp_vdev_list s /\
    (forall s1, attach_search v mac s = Some (Some true, s1) -> allowed_calls others s1 r) /\
    let s1 := (while_attach v mac others (s, r)).1 in
    v ∈ pp_vdev_list s1 /\ ref_room s1 /\ (forall p, mem = Some p -> pp_peers s1 !! p = None)
  end.

End Client.

Section Reachable.
Context {D : Type} `{DataPathOk D}.

(** The states the table can be in, with the references its users hold. *)
Inductive reachable : peer_pdev D -> gmultiset Z -> Prop :=
  | reach_init max addba monitor d s :
      0 <= max < HTT_INVALID_PEER -> dp_ok ∅ ∅ d -> peer_pdev_init max addba monitor d = Some s -> reachable s ∅
  | reach_op s r o res s' :
      reachable s r -> allowed_op o s r -> run_op o s = Some (res, s') -> reachable s' (refs_op o s res r).
End Reachable.
