(* ===== verification/PeerSafe.v ===== *)
(** Every allowed call runs to its end and keeps the books: the reference count
    of a peer is what the table holds and what its users hold. *)
From Stdlib Require Import ZArith Lia.
From stdpp Require Import prelude gmap list numbers gmultiset.
From S2P Require Import Prelude.
From S2P Require Import PeerTypes.
From S2P Require Import PeerTable.
From S2P Require Import PeerRep.
From S2P Require Import PeerSpec.
From S2P Require Import PeerInv.
From S2P Require Import PeerOps.
From S2P Require Import PeerAttach.
From S2P Require Import PeerVdev.
From S2P Require Import PeerClient.

Section Safe.
Context {D : Type} `{DataPathOk D}.
Implicit Types (s : peer_pdev D) (L : list Z) (x : peer) (y : vdev) (r : gmultiset Z).

(** ** The references of others *)
Lemma held_at s p x : pp_peers s !! p = Some x -> held s p = pe_ref_cnt x - base s p x.
Proof. unfold held. by intros ->. Qed.

Definition ref_view x : Z * bool * list Z := (pe_ref_cnt x, pe_valid x, pe_peer_ids x).

Lemma held_view s s' p :
  ref_view <$> pp_peers s' !! p = ref_view <$> pp_peers s !! p -> pp_id_map s' = pp_id_map s -> held s' p = held s p.
Proof.
  intros E Ei. unfold held. destruct (pp_peers s' !! p) as [x'|], (pp_peers s !! p) as [x|]; try done.
  injection E as E1 E2 E3. unfold base, awaits_map, mapped. by rewrite E1, E2, E3, Ei.
Qed.

Lemma held_same s s' p : pp_peers s' = pp_peers s -> pp_id_map s' = pp_id_map s -> held s' p = held s p.
Proof. intros E. apply held_view. by rewrite E. Qed.

Lemma held_ref_set s p x f q :
  pp_peers s !! p = Some x ->
  held (set_pp_peers (<[p := set_pe_ref_cnt f x]>) s) q = held s q + (if decide (q = p) then f (pe_ref_cnt x) - pe_ref_cnt x else 0).
Proof.
  intros Hp. unfold held. cbn. case_decide as E.
  - subst q. rewrite lookup_insert_eq, Hp. unfold base, awaits_map, mapped. cbn. lia.
  - rewrite lookup_insert_ne by done. destruct (pp_peers s !! q); unfold base, mapped; cbn; lia.
Qed.

Lemma held_unreffed s p x s' q :
  pp_peers s !! p = Some x -> base s p x < pe_ref_cnt x -> unreffed s p x s' -> held s' q = held s q - (if decide (q = p) then 1 else 0).
Proof.
  intros Hp Hb Hu. unfold unreffed in Hu. destruct (Z.eqb_spec (pe_ref_cnt x) 1) as [E|E].
  - destruct Hu as [E1 C _ _ _]. case_decide as Eq.
    + subst q. rewrite (held_at s p x Hp). unfold held. rewrite E1, lookup_delete_eq.
      assert (0 <= base s p x); [|lia]. pose proof (mapped_nonneg s p). pose proof (awaits_range x). unfold base. destruct (pe_valid x); lia.
    + rewrite (held_view s s'); [lia|by rewrite E1, lookup_delete_ne|apply (sc_id_map _ _ C)].
  - subst s'. rewrite (held_ref_set s p x _ q Hp). cbv beta. destruct (decide (q = p)); lia.
Qed.

(** ** The accounts *)
Record Accounts s r : Prop := {
  ac_inv : PeerInv s;
  ac_vdevs : VdevInv s;
  ac_held : forall p, held s p = Z.of_nat (multiplicity p r) }.

Lemma multiplicity_take p q r : Z.of_nat (multiplicity q ({[+ p +]} ⊎ r)) = Z.of_nat (multiplicity q r) + (if decide (q = p) then 1 else 0).
Proof. rewrite multiplicity_disj_union, multiplicity_singleton. destruct (decide (q = p)); lia. Qed.
Lemma multiplicity_drop p q r : p ∈ r -> Z.of_nat (multiplicity q (r ∖ {[+ p +]})) = Z.of_nat (multiplicity q r) - (if decide (q = p) then 1 else 0).
Proof.
  intros Hp. rewrite elem_of_multiplicity in Hp. rewrite multiplicity_difference, multiplicity_singleton.
  destruct (decide (q = p)) as [->|]; lia.
Qed.

(** A reference is there for who holds it. *)
Lemma Accounts_live s r p : Accounts s r -> p ∈ r -> exists x, pp_peers s !! p = Some x /\ base s p x < pe_ref_cnt x.
Proof.
  intros [_ _ Hh] Hp. specialize (Hh p). rewrite elem_of_multiplicity in Hp. unfold held in Hh.
  destruct (pp_peers s !! p) as [x|]; [|lia]. exists x. split; [done|]. lia.
Qed.

Lemma Accounts_keep s s' r :
  Accounts s r -> PeerInv s' -> keeps_vdevs s s' -> (forall p, held s' p = held s p) -> Accounts s' r.
Proof. intros [_ HV Hh] HI HK E. split; [done|by eapply VdevInv_keeps|]. intros p. by rewrite E. Qed.

(** A lookup that takes a reference. *)
Lemma Accounts_take s r p x :
  Accounts s r -> pp_peers s !! p = Some x -> pe_ref_cnt x + 1 < 2 ^ 31 ->
  Accounts (set_pp_peers (<[p := set_pe_ref_cnt (fun n => n + 1) x]>) s) ({[+ p +]} ⊎ r).
Proof.
  intros [HI HV Hh] Hp Hr. split.
  - by apply PeerInv_ref_inc.
  - eapply VdevInv_keeps; [done|by apply keeps_same].
  - intros q. rewrite (held_ref_set s p x _ q Hp), multiplicity_take, Hh. cbv beta. destruct (decide (q = p)); lia.
Qed.
(** ** The calls *)
Lemma wp_none (m : M (peer_pdev D) unit) (Q : option Z -> peer_pdev D -> Prop) s :
  wp m (fun _ s' => Q None s') s -> wp (m;; mret None) Q s.
Proof. intros Hm. apply wp_bind. eapply wp_mono; [exact Hm|]. by intros []. Qed.

Lemma Accounts_unreffed s p x s' r :
  Accounts s r -> pp_peers s !! p = Some x -> base s p x < pe_ref_cnt x -> PeerInv s' -> unreffed s p x s' ->
  p ∈ r -> Accounts s' (r ∖ {[+ p +]}).
Proof.
  intros [HI HV Hh] Hp Hb HI' Hu Hpr. split; [done| |].
  - eapply VdevInv_keeps; [done|]. destruct HI as (L & fl & HR & _). eapply keeps_unreffed; [by apply (pr_home _ _ HR p)|done].
  - intros q. by rewrite (held_unreffed s p x s' q), multiplicity_drop, Hh.
Qed.

Lemma call_unref_spec s r p : Accounts s r -> p ∈ r -> wp (ol_txrx_peer_unref_delete p) (fun _ s' => Accounts s' (r ∖ {[+ p +]})) s.
Proof.
  intros HA Hp. destruct (Accounts_live s r p HA Hp) as (x & Hx & Hb).
  eapply wp_mono; [by apply (PeerInv_unref s p x (ac_inv _ _ HA))|]. intros ? s' [HI' Hu]. by eapply Accounts_unreffed.
Qed.

Lemma call_detach_spec s r p x :
  Accounts s r -> pp_peers s !! p = Some x -> pe_valid x = true -> wp (ol_txrx_peer_detach p) (fun _ s' => Accounts s' r) s.
Proof.
  intros HA Hp Hv. pose proof HA as [HI HV Hh]. eapply wp_mono; [by apply (detach_spec s p x)|].
  intros ? s' (HI' & s1 & Hd & HI1 & Hu). pose proof HI as (L & fl & HR & Hrf & _). destruct Hd as [E1 (y & Hy & E2) E3 _ E4 _ _].
  assert (Hp1 : pp_peers s1 !! p = Some (detached_peer x)) by (rewrite E1; apply lookup_insert_eq).
  assert (Hb : base s1 p (detached_peer x) = base s p x - 1) by (unfold base, mapped, awaits_map; rewrite E3, Hv; cbn; lia).
  pose proof (rf_base _ Hrf p x Hp) as Hbase.
  eapply Accounts_keep; [done|done| |].
  - transitivity s1; [|eapply keeps_unreffed; [|done]; cbn; rewrite E2, lookup_insert_eq; eauto].
    split; [done|]. split; intros v z Hz.
    + intros Hd. rewrite E2. destruct (decide (v = pe_vdev x)) as [->|]; [|rewrite lookup_insert_ne by done; eauto].
      rewrite lookup_insert_eq. eexists. split; [done|]. cbn. congruence.
    + rewrite E2 in Hz. apply lookup_insert_Some in Hz as [[<- <-]|[_ Hz]]; [exists y|exists z]; done.
  - intros q. rewrite (held_unreffed s1 p (detached_peer x) s' q); [|done|rewrite Hb; cbn; lia|done].
    case_decide as E.
    + subst q. rewrite (held_at s1 p _ Hp1), (held_at s p x Hp), Hb. cbn. lia.
    + rewrite (held_view s s1); [lia|by rewrite E1, lookup_insert_ne|done].
Qed.

Lemma held_unmap s i o q :
  znth (pp_id_map s) i = Some o -> is_Some (pp_peers s !! q) -> held (unmap_id i s) q = held s q + maps_to q o.
Proof.
  intros Hi [x Hx]. rewrite (held_at (unmap_id i s) q x Hx), (held_at s q x Hx). unfold base, unmap_id. rewrite (mapped_set s i o None q Hi).
  unfold maps_to at 2. rewrite decide_False by done. lia.
Qed.

Lemma call_unmap_spec s r i :
  Accounts s r -> 0 <= i <= pp_max_peer_id s -> i <> HTT_INVALID_PEER -> wp (ol_rx_peer_unmap_handler i) (fun _ s' => Accounts s' r) s.
Proof.
  intros HA Hi Hinv. pose proof HA as [HI HV Hh]. pose proof HI as (L & fl & HR & Hrf & _).
  eapply wp_mono; [by apply unmap_handler_spec|]. intros ? s' [HI' Hs'].
  destruct (znth_in_range (pp_id_map s) i) as [o Ho]; [rewrite (rf_len _ Hrf); lia|]. rewrite Ho in Hs'.
  destruct o as [p|]; [destruct Hs' as (x & Hp & Hu)|subst s'].
  - assert (Hb : base (unmap_id i s) p x < pe_ref_cnt x).
    { pose proof (rf_base _ Hrf p x Hp) as Hb. unfold base, unmap_id in *. rewrite (mapped_set _ _ _ _ _ Ho). unfold maps_to. rewrite decide_True, decide_False by done. lia. }
    eapply Accounts_keep; [done|done| |].
    + transitivity (unmap_id i s); [by apply keeps_same|]. eapply keeps_unreffed; [by apply (pr_home _ _ HR p)|done].
    + intros q. rewrite (held_unreffed (unmap_id i s) p x s' q) by done. destruct (pp_peers s !! q) as [z|] eqn:Hq.
      * rewrite (held_unmap s i (Some p) q) by eauto. unfold maps_to. destruct (decide (q = p)) as [->|Hne]; [rewrite decide_True by done; lia|].
        rewrite decide_False by congruence. lia.
      * rewrite decide_False by congruence. unfold held, unmap_id. cbn. rewrite Hq. lia.
  - eapply Accounts_keep; [done|done|by apply keeps_same|]. intros q. destruct (pp_peers s !! q) as [z|] eqn:Hq.
    + rewrite (held_unmap s i None q) by eauto. unfold maps_to. rewrite decide_False by done. lia.
    + unfold held, unmap_id. cbn. by rewrite Hq.
Qed.

Lemma held_map_id s i p x q :
  znth (pp_id_map s) i = Some None -> pp_peers s !! p = Some x -> length (pe_peer_ids x) = 8%nat -> i <> HTT_INVALID_PEER ->
  held (map_id i p x s) q = held s q.
Proof.
  intros Hi Hp Hl Hinv. destruct (map_peer_fields i x) as (_ & Fv & _ & _ & _ & Fr). pose proof (map_peer_awaits i x Hl Hinv) as Fa.
  assert (Hm : mapped (map_id i p x s) q = mapped s q + maps_to q (Some p)).
  { unfold map_id. change (mapped (set_pp_peers _ ?t) q) with (mapped t q). rewrite (mapped_set s i None (Some p) q Hi).
    unfold maps_to at 1. rewrite decide_False by done. lia. }
  unfold maps_to in Hm. destruct (decide (q = p)) as [->|Hne].
  - rewrite decide_True in Hm by done. rewrite (held_at s p x Hp), (held_at (map_id i p x s) p (map_peer i x)) by (cbn; apply lookup_insert_eq).
    unfold base. rewrite Hm, Fa, Fv, Fr. unfold awaits_map. destruct (decide (pe_peer_ids x !! 0%nat = Some HTT_INVALID_PEER)); lia.
  - rewrite decide_False in Hm by congruence. unfold held. cbn [map_id set_pp_peers set_pp_id_map pp_peers]. rewrite lookup_insert_ne by done.
    destruct (pp_peers s !! q); [|done]. unfold base. rewrite Hm. lia.
Qed.

Lemma unpaused_frame s o tid s' :
  unpaused s o tid s' -> pp_peers s' = pp_peers s /\ pp_vdevs s' = pp_vdevs s /\ pp_id_map s' = pp_id_map s /\ pp_vdev_list s' = pp_vdev_list s /\
  pp_max_peer_id s' = pp_max_peer_id s.
Proof. destruct o; [intros (d & _ & ->); done|by intros ->]. Qed.
Lemma unpaused_all_frame p tids : forall s s',
  unpaused_all s p tids s' -> pp_peers s' = pp_peers s /\ pp_vdevs s' = pp_vdevs s /\ pp_id_map s' = pp_id_map s /\ pp_vdev_list s' = pp_vdev_list s.
Proof.
  induction tids as [|t tids IH]; intros s s' Hs'; cbn in Hs'; [by subst|]. destruct Hs' as (s1 & (d & _ & ->) & Hs'). by apply IH in Hs'.
Qed.

Lemma Accounts_frame s s' r :
  Accounts s r -> PeerInv s' -> pp_peers s' = pp_peers s -> pp_vdevs s' = pp_vdevs s -> pp_id_map s' = pp_id_map s ->
  pp_vdev_list s' = pp_vdev_list s -> Accounts s' r.
Proof.
  intros HA HI' E1 E2 E3 E4. eapply Accounts_keep; [done|done|by apply keeps_same|]. intros p. by apply held_same.
Qed.

Lemma call_map_spec s r i mac ready :
  Accounts s r -> mac_ok mac -> 0 <= i <= pp_max_peer_id s -> i <> HTT_INVALID_PEER -> znth (pp_id_map s) i = Some None -> ref_room s ->
  wp (ol_rx_peer_map_handler i mac ready) (fun _ s' => Accounts s' r) s.
Proof.
  intros HA Hm Hi Hinv Hfree Hroom. pose proof HA as [HI HV Hh]. pose proof HI as (L & fl & HR & Hrf & _).
  eapply wp_mono; [by apply (map_handler_spec s L i mac ready)|]. intros ? s' (HI' & s1 & Hs1 & Hu).
  destruct (unpaused_frame _ _ _ _ Hu) as (E1 & E2 & E3 & E4 & _).
  assert (Hk : keeps_vdevs s s1 /\ forall q, held s1 q = held s q).
  { destruct (first_with s L mac false) as [p|]; [|subst; done]. destruct Hs1 as (x & Hp & ->). split; [by apply keeps_same|].
    intros q. apply held_map_id; [done|done|by apply (rf_ids _ Hrf p)|done]. }
  destruct Hk as [Hk1 Hk2]. eapply Accounts_keep; [done|done|transitivity s1; [done|by apply keeps_same]|].
  intros q. rewrite <- Hk2. by apply held_same.
Qed.

Lemma call_tx_ready_spec s r i : Accounts s r -> 0 <= i -> wp (ol_txrx_peer_tx_ready_handler i) (fun _ s' => Accounts s' r) s.
Proof.
  intros HA Hi. eapply wp_mono; [apply (tx_ready_handler_spec s i (ac_inv _ _ HA) Hi)|]. intros ? s' [HI' Hs'].
  destruct (attached_by_id s i) as [p|]; [|by subst]. apply unpaused_all_frame in Hs' as (E1 & E2 & E3 & E4). by eapply Accounts_frame.
Qed.

Lemma call_state_spec s r mac st : Accounts s r -> mac_ok mac -> can_update s st -> ref_room s -> wp (ol_txrx_peer_state_update mac st) (fun _ s' => Accounts s' r) s.
Proof.
  intros HA Hm Hcan Hroom. pose proof (ac_inv _ _ HA) as (L & fl & HR & _). eapply wp_mono; [by apply (state_update_spec s L mac st)|].
  intros ? s' [HR' Hu]. destruct (updated_frame _ _ _ _ Hu) as (E1 & E2 & _ & _ & E3).
  eapply Accounts_keep; [done|eapply PeerInv_updated; [apply (ac_inv _ _ HA)|done|done]|by apply keeps_same|].
  intros p. apply held_view; [|done]. rewrite (updated_lookup _ _ _ _ p Hu). case_decide; [|done]. rewrite <- option_fmap_compose.
  apply option_fmap_ext. intros x. cbn. by case_decide.
Qed.
Lemma call_update_spec s r mac u : Accounts s r -> mac_ok mac -> ref_room s -> wp (ol_txrx_peer_update mac u) (fun _ s' => Accounts s' r) s.
Proof.
  intros HA Hm Hroom. pose proof (ac_inv _ _ HA) as HI. pose proof HI as (L & fl & HR & _).
  eapply wp_mono; [by apply (peer_update_spec s L mac u)|]. intros ? s' [HI' Hu]. destruct (first_with s L mac true) as [p|]; [|by rewrite Hu].
  destruct Hu as (x & Hp & ->). eapply Accounts_keep; [done|done|by apply keeps_same|].
  intros q. apply held_view; [|done]. cbn. destruct (decide (q = p)) as [->|]; [|by rewrite lookup_insert_ne].
  rewrite lookup_insert_eq, Hp. cbn. by destruct u.
Qed.

(** *** Lookups *)

(** A lookup that returns the first fit of a list with a reference. *)
Lemma take_spec s r L o (m : M (peer_pdev D) (option Z)) :
  Accounts s r -> ref_room s -> (forall p, o = Some p -> is_Some (pp_peers s !! p)) ->
  m s = match o with None => Some (None, s) | Some p => (ref_inc p;; mret (Some p)) s end ->
  wp m (fun res s' => res = o /\ Accounts s' (match res with Some p => {[+ p +]} ⊎ r | None => r end)) s.
Proof.
  intros HA Hroom Ho Hm. unfold wp. rewrite Hm. destruct o as [p|]; [|by split]. destruct (Ho p eq_refl) as [x Hx].
  pose proof (ac_inv _ _ HA) as (L' & fl & HR & _). destruct (ref_inc_spec s L' p x HR Hx (Hroom p x Hx)) as [E _].
  unfold mbind, M_bind. rewrite E. cbn. split; [done|]. apply Accounts_take; [done|done|by apply (Hroom p)].
Qed.

Lemma call_find_spec s L r mac cv :
  Accounts s r -> PeerRep s L -> mac_ok mac -> ref_room s ->
  wp (ol_txrx_peer_find_hash_find mac cv)
     (fun res s' => res = first_with s L mac cv /\ Accounts s' (match res with Some p => {[+ p +]} ⊎ r | None => r end)) s.
Proof.
  intros HA HR Hm Hroom. apply (take_spec s r L); [done|done| |by apply hash_find_spec]. intros p Hp. by eapply find_in_table.
Qed.

Lemma call_vdev_find_spec s L r v mac cv :
  Accounts s r -> PeerRep s L -> mac_ok mac -> ref_room s ->
  wp (ol_txrx_peer_vdev_find_hash v mac cv)
     (fun res s' => res = List.find (fit_at s (fun x => mac_fits mac cv x && bool_decide (pe_vdev x = v))) L /\
                    Accounts s' (match res with Some p => {[+ p +]} ⊎ r | None => r end)) s.
Proof.
  intros HA HR Hm Hroom. apply (take_spec s r L); [done|done| |by apply vdev_find_hash_spec]. intros p Hp. by eapply find_in_table.
Qed.

(** The last real peer, once the target knows it. *)
Definition associated s (v : Z) : option Z :=
  y ← pp_vdevs s !! v; p ← vd_last_real_peer y; x ← pp_peers s !! p;
  if decide (pe_peer_ids x !! 0%nat = Some HTT_INVALID_PEER) then None else Some p.

Lemma call_assoc_spec s r v :
  Accounts s r -> is_Some (pp_vdevs s !! v) -> ref_room s ->
  wp (ol_txrx_assoc_peer_find v)
     (fun res s' => res = associated s v /\ Accounts s' (match res with Some p => {[+ p +]} ⊎ r | None => r end)) s.
Proof.
  intros HA [y Hy] Hroom. pose proof (ac_inv _ _ HA) as (L & fl & HR & Hrf & _). apply (take_spec s r L); [done|done| |].
  - intros p Hp. unfold associated in Hp. rewrite Hy in Hp. cbn in Hp. destruct (vd_last_real_peer y) as [q|]; [|done]. cbn in Hp.
    destruct (pp_peers s !! q) as [x|] eqn:Hx; [|done]. cbn in Hp. case_decide; [done|]. injection Hp as <-. eauto.
  - unfold ol_txrx_assoc_peer_find, associated. unfold mbind at 1, M_bind at 1. rewrite (get_vdev_run _ _ _ Hy), Hy. cbn [mbind option_bind].
    destruct (vd_last_real_peer y) as [p|] eqn:El; [|done]. destruct (rf_last _ Hrf v y p Hy El) as (x & Hx & _).
    cbn [mbind option_bind]. unfold mbind at 1, M_bind at 1. rewrite (get_peer_run _ _ _ Hx), Hx. pose proof (rf_ids _ Hrf p x Hx) as Hl.
    destruct (pe_peer_ids x) as [|a ids] eqn:Ex; [done|]. unfold mbind at 1, M_bind at 1, lift at 1. change (znth (a :: ids) 0) with (Some a).
    cbn [mbind option_bind]. rewrite Ex. change ((a :: ids) !! 0%nat) with (Some a). destruct (Z.eqb_spec a HTT_INVALID_PEER) as [->|Ha]; cbn [negb].
    + rewrite decide_True by done. done.
    + rewrite decide_False by congruence. done.
Qed.

Lemma call_local_spec s r i :
  Accounts s r -> 0 <= i -> ref_room s ->
  exists o, ol_txrx_peer_find_by_local_id i s = Some (o, s) /\
  wp (ol_txrx_peer_find_with_ref_by_local_id i)
     (fun res s' => res = o /\ Accounts s' (match res with Some p => {[+ p +]} ⊎ r | None => r end)) s.
Proof.
  intros HA Hi Hroom. destruct (find_by_local_id_spec s i (ac_inv _ _ HA) Hi) as (o & Ho & Hspec). exists o. split; [done|].
  apply (take_spec s r []); [done|done| |].
  - intros p ->. destruct Hspec as (x & Hx & _). eauto.
  - unfold ol_txrx_peer_find_by_local_id in Ho. unfold ol_txrx_peer_find_with_ref_by_local_id.
    destruct (_ || _); [by injection Ho as <-|]. unfold mbind, M_bind, get in *. unfold mbind, M_bind.
    destruct (lift (znth (pp_local_map s) i) s) as [[o' s']|] eqn:E; [|done]. injection Ho as -> ->. by destruct o.
Qed.

(** *** Any call *)
Lemma call_spec c s r :
  Accounts s r -> allowed c s r -> wp (run_call c) (fun o s' => Accounts s' (refs_after c o r)) s.
Proof.
  intros HA [Hroom Hal]. pose proof (ac_inv _ _ HA) as HI. pose proof HI as (L & fl & HR & Hrf & _). pose proof (ac_vdevs _ _ HA) as HV.
  destruct c; cbn [run_call refs_after allowed] in *.
  - destruct Hal as [Hm Hal]. apply wp_none. destruct (vdev_attach_spec s v mac op_mode HI HV Hm Hal) as (s' & d & Hrun & HI' & HV' & _ & E). apply (wp_run _ _ _ tt s' Hrun).
    split; [done|done|]. intros p. rewrite <- (ac_held _ _ HA). apply held_same; by rewrite E.
  - destruct Hal as [Hin Hidle]. apply wp_none. eapply wp_mono; [by apply vdev_detach_spec|]. intros ? s' (HI' & HV' & E1 & E2 & _).
    split; [done|done|]. intros p. rewrite <- (ac_held _ _ HA). by apply held_same.
  - destruct Hal as (x & Hp & Hv). apply wp_none. by eapply call_detach_spec.
  - destruct Hal as (Hm & Hi & Hinv & Hfree). apply wp_none. by apply call_map_spec.
  - destruct Hal as (Hi & Hinv). apply wp_none. by apply call_unmap_spec.
  - apply wp_none. by apply call_tx_ready_spec.
  - destruct Hal as [Hm Hcan]. apply wp_none. by apply call_state_spec.
  - apply wp_none. by apply call_update_spec.
  - eapply wp_mono; [by apply (call_find_spec s L r)|]. by intros res s' [_ ?].
  - eapply wp_mono; [by apply (call_vdev_find_spec s L r)|]. by intros res s' [_ ?].
  - eapply wp_mono; [apply (call_assoc_spec s r v); [done| |done]|by intros res s' [_ ?]].
    destruct (vi_there _ HV v Hal) as (y & Hy & _). eauto.
  - destruct (call_local_spec s r i HA Hal Hroom) as (o & _ & Hw). eapply wp_mono; [exact Hw|]. by intros res s' [_ ?].
  - eapply wp_step; [by apply (find_peer_by_addr_spec s L)|]. by apply (wp_run _ _ _ None s eq_refl).
  - eapply wp_step; [by apply (find_peer_by_addr_and_vdev_spec s L)|]. by apply (wp_run _ _ _ None s eq_refl).
  - eapply wp_step; [by apply (find_by_addr_spec s L)|]. by apply (wp_run _ _ _ None s eq_refl).
  - apply wp_none. by apply call_unref_spec.
Qed.

Lemma calls_spec l : forall s r,
  Accounts s r -> allowed_calls l s r ->
  wp (run_calls l) (fun _ s' => (s', (after_calls l (s, r)).2) = after_calls l (s, r) /\ Accounts s' (after_calls l (s, r)).2) s.
Proof.
  induction l as [|c l IH]; intros s r HA Hal; [by apply (wp_run _ _ _ tt s eq_refl)|]. destruct Hal as [Hc Hl].
  pose proof (call_spec c s r HA Hc) as Hw. apply wp_some in Hw as (o & s1 & Hrun & HA1). unfold run_calls. cbn [for_each after_calls fst snd].
  rewrite Hrun. eapply wp_step; [unfold mbind, M_bind; rewrite Hrun; reflexivity|]. by apply IH, Hl.
Qed.
(** ** Attach *)
Lemma Accounts_waits s r v y id :
  Accounts s r -> pp_vdevs s !! v = Some y -> Accounts (set_pp_vdevs (<[v := waits_for id y]>) s) r.
Proof.
  intros HA Hy. eapply Accounts_keep; [done|apply (PeerInv_upd_vdev s v y); [apply (ac_inv _ _ HA)|done|done|by left]|by eapply keeps_upd|done].
Qed.

Lemma Accounts_attached s L r v mac p s' :
  Accounts s r -> PeerInv s' -> pp_peers s !! p = None -> attached s L v mac p s' -> Accounts s' r.
Proof.
  intros [HI HV Hh] HI' Hp [HR (x & Hx & _ & _ & Hv & Hr & Hids & _) Ho Em Hvd Hvm Hvl _ _]. split; [done| |].
  - eapply VdevInv_keeps; [done|]. split; [done|]. split; [|done]. intros w z Hz Hd. destruct (Hvd w z Hz) as (z' & Hz' & E). exists z'. split; [done|congruence].
  - intros q. rewrite <- Hh. destruct (decide (q = p)) as [->|Hne].
    + rewrite (held_at s' p x Hx). unfold held. rewrite Hp. unfold base, awaits_map. rewrite Hv, Hr, Hids, decide_True by done.
      destruct HI as (L0 & fl & _ & Hrf & _). pose proof (unmapped s p Hrf Hp) as Hm. unfold mapped in *. rewrite Em, Hm. done.
    + apply held_view; [|done]. rewrite (Ho q Hne). case_decide; [|done]. rewrite <- option_fmap_compose. apply option_fmap_ext. intros z. cbn.
      unfold disc_peer. by case_decide.
Qed.

(** A peer of the vdev with the address. *)
Definition namesake s (v : Z) (mac : mac_addr) (valid : bool) : Prop :=
  exists q x, pp_peers s !! q = Some x /\ pe_vdev x = v /\ pe_mac x = mac /\ pe_valid x = valid.

Lemma attach_search_spec s r v mac :
  Accounts s r -> is_Some (pp_vdevs s !! v) -> mac_ok mac ->
  exists found s0, attach_search v mac s = Some (found, s0) /\
    match found with
    | None => namesake s v mac true
    | Some wait => ~ namesake s v mac true /\ (wait = true <-> namesake s v mac false)
    end.
Proof.
  intros HA [y Hy] Hm. pose proof (ac_inv _ _ HA) as HI. pose proof HI as (L & fl & HR & _).
  assert (Hin : forall q, q ∈ vd_peer_list y <-> q ∈ L /\ vdev_at s q = Some v).
  { intros q. rewrite (pr_list _ _ HR v y Hy), list_elem_of_filter. tauto. }
  assert (Hat : forall q x, q ∈ vd_peer_list y -> pp_peers s !! q = Some x -> pe_vdev x = v).
  { intros q x [_ Hq]%Hin Hx. unfold vdev_at in Hq. rewrite Hx in Hq. cbn in Hq. congruence. }
  assert (Hof : forall q x, pp_peers s !! q = Some x -> pe_vdev x = v -> q ∈ vd_peer_list y).
  { intros q x Hx Hv. apply Hin. split; [by eapply peer_in|]. unfold vdev_at. rewrite Hx. cbn. congruence. }
  pose proof (attach_check_spec v mac (vd_peer_list y) s L y false HI HR Hm Hy (fun q Hq => proj1 (proj1 (Hin q) Hq))) as Hc.
  apply wp_some in Hc as (found & s0 & Hrun & _ & Hf). exists found, s0. split; [unfold attach_search; by rewrite Hy|].
  destruct found as [wait|].
  - destruct Hf as [Hno Hw]. assert (Hnone : ~ namesake s v mac true).
    { intros (q & x & Hx & Hv & Hmx & Hvx). rewrite (Hno q x (Hof q x Hx Hv) Hx Hmx) in Hvx. done. }
    split; [done|]. rewrite Hw. split.
    + intros [?|(q & x & Hq & Hx & Hmx)]; [done|]. exists q, x. split; [done|]. split; [by eapply Hat|]. split; [done|]. by apply (Hno q).
    + intros (q & x & Hx & Hv & Hmx & _). right. exists q, x. split; [by eapply Hof|]. by split.
  - destruct Hf as (q & x & Hq & Hx & Hmx & Hvx). exists q, x. split; [done|]. split; [by eapply Hat|]. by split.
Qed.

(** What an attach does, by the outcome of the search. *)
Definition attach_outcome (v : Z) (mac : mac_addr) (found : option bool) (rc : bool) (mem : option Z) s1 (res : option Z) s' : Prop :=
  match found with
  | None => res = None /\ s' = s1
  | Some wait =>
    if wait && negb rc then res = None /\ pp_peers s' = pp_peers s1
    else match mem with
      | None => res = None /\ s' = s1
      | Some p => res = Some p /\ exists L, PeerRep s1 L /\ attached s1 L v mac p s'
      end
  end.

Lemma attach_op_spec s r v mac others rc mem :
  Accounts s r -> allowed_op (op_attach v mac others rc mem) s r ->
  wp (ol_txrx_peer_attach v mac (run_calls others) rc mem) (fun res s' =>
    Accounts s' (while_attach v mac others (s, r)).2 /\
    exists found s0, attach_search v mac s = Some (found, s0) /\
      attach_outcome v mac found rc mem (while_attach v mac others (s, r)).1 res s') s.
Proof.
  intros HA (Hm & Hv & Hal & Hlater). pose proof (ac_vdevs _ _ HA) as HV. destruct (vi_there _ HV v Hv) as (y & Hy & _).
  pose proof (ac_inv _ _ HA) as HI. pose proof HI as (L & fl & HR & _).
  assert (Hps : forall q, q ∈ vd_peer_list y -> q ∈ L).
  { intros q Hq. rewrite (pr_list _ _ HR v y Hy) in Hq. by apply list_elem_of_filter in Hq as [_ ?]. }
  pose proof (attach_check_spec v mac (vd_peer_list y) s L y false HI HR Hm Hy Hps) as Hc.
  apply wp_some in Hc as (found & s0 & Hrun & (id & Es0) & _).
  assert (HA0 : Accounts s0 r) by (rewrite Es0; by apply Accounts_waits).
  assert (Hs : attach_search v mac s = Some (found, s0)) by (unfold attach_search; by rewrite Hy).
  unfold ol_txrx_peer_attach. eapply wp_step; [by apply get_vdev_run|]. eapply wp_step; [exact Hrun|].
  unfold while_attach in *. cbn [fst snd] in *. rewrite Hs in *.
  destruct found as [wait|].
  2:{ apply (wp_run _ _ _ None s0 eq_refl). split; [done|]. by exists None, s0. }
  assert (exists s1 r1, when wait (run_calls others) s0 = Some (tt, s1) /\ (if wait then after_calls others (s0, r) else (s0, r)) = (s1, r1) /\ Accounts s1 r1) as (s1 & r1 & Hw & E1 & HA1).
  { destruct wait; cbn [when]; [|by exists s0, r]. pose proof (calls_spec others s0 r HA0 (Hal s0 eq_refl)) as Hw.
    apply wp_some in Hw as ([] & s1 & Hw & E & HA1). eexists s1, _. split; [exact Hw|]. by rewrite <- E in HA1 |- *. }
  assert (Hwa : match Some (Some wait, s0) with Some (Some true, s1) => after_calls others (s1, r) | Some (_, s1) => (s1, r) | None => (s, r) end = (s1, r1)).
  { rewrite <- E1. by destruct wait. }
  rewrite Hwa in *. cbn [fst snd] in *. destruct Hlater as (Hv1 & Hroom & Hfresh).
  destruct (vi_there _ (ac_vdevs _ _ HA1) v Hv1) as (y1 & Hy1 & _).
  eapply wp_step; [exact Hw|]. destruct (wait && negb rc) eqn:Erc.
  - eapply wp_step; [by apply upd_vdev_run|]. eapply wp_run; [reflexivity|]. split; [by apply (Accounts_waits s1 r1 v y1)|].
    exists (Some wait), s0. split; [done|]. unfold attach_outcome. by rewrite Erc.
  - destruct mem as [p|].
    + destruct (ac_inv _ _ HA1) as (L1 & fl1 & HR1 & Hrest1).
      apply wp_bind. eapply wp_mono; [apply (attach_new_spec s1 L1 v mac p); [by exists L1, fl1|done|by apply Hfresh|eauto|done|done]|].
      cbv beta. intros ? s' [HI' Hatt]. apply wp_ret. split; [by eapply (Accounts_attached s1); [| |apply Hfresh|]|].
      exists (Some wait), s0. split; [done|]. unfold attach_outcome. rewrite Erc. split; [done|]. by exists L1.
    + apply (wp_run _ _ _ None s1 eq_refl). split; [done|]. exists (Some wait), s0. split; [done|]. unfold attach_outcome. by rewrite Erc.
Qed.

(** ** Reachable states *)
Lemma op_spec o s r :
  Accounts s r -> allowed_op o s r -> wp (run_op o) (fun res s' => Accounts s' (refs_op o s res r)) s.
Proof.
  intros HA Hal. destruct o as [c|v mac others rc mem].
  - by apply call_spec.
  - eapply wp_mono; [by apply attach_op_spec|]. by intros res s' [? _].
Qed.

Lemma reachable_accounts s r : reachable s r -> Accounts s r.
Proof.
  induction 1 as [max addba monitor d s Hmax Hd Hs|s r o res s' _ HA Hal Hrun].
  - destruct (peer_pdev_init_spec max addba monitor d Hmax Hd) as (s0 & Hs0 & HI & HV & Ep & _). rewrite Hs in Hs0. injection Hs0 as <-.
    split; [done|done|]. intros p. unfold held. by rewrite Ep, lookup_empty, multiplicity_empty.
  - pose proof (op_spec o s r HA Hal) as Hw. unfold wp in Hw. by rewrite Hrun in Hw.
Qed.
End Safe.
