(* ===== verification/PeerExample.v ===== *)
(** A small peer table in use: two vdevs, a peer the target knows, another peer
    that is detached while a user holds it. *)
From Stdlib Require Import ZArith Lia.
From stdpp Require Import prelude gmap list numbers gmultiset.
From S2P Require Import Prelude.
From S2P Require Import PeerTypes.
From S2P Require Import PeerTable.
From S2P Require Import PeerRep.
From S2P Require Import PeerSpec.
From S2P Require Import PeerInv.
From S2P Require Import PeerOps.
From S2P Require Import PeerVdev.
From S2P Require Import PeerClient.
From S2P Require Import PeerSafe.

(** A data path that knows which vdevs and peers it serves. *)
Definition served : Type := gset Z * gset Z.
Definition present (p : Z) (d : served) : option served := if decide (p ∈ d.2) then Some d else None.

#[export] Instance set_data_path : DataPath served := {
  dp_vdev_attach v d := if decide (v ∈ d.1) then None else Some ({[v]} ∪ d.1, d.2);
  dp_tx_attach p _ d := if decide (p ∈ d.2) then None else Some d;
  dp_rx_attach p d := Some (d.1, {[p]} ∪ d.2);
  dp_detach p d := present p d;
  dp_tid_unpause p _ d := present p d;
  dp_auth p d := present p d;
  dp_rx_cleanup p d := present p d;
  dp_free p d := if decide (p ∈ d.2) then Some (d.1, d.2 ∖ {[p]}) else None;
  dp_vdev_free v d := if decide (v ∈ d.1) then Some (d.1 ∖ {[v]}, d.2) else None;
  dp_vdev_gone _ d := Some d }.

#[export] Instance set_data_path_ok : DataPathOk served.
Proof.
  refine {| dp_ok V P d := d = (V, P); dp_begun p V P d := d = (V, P); dp_ending p V P d := d = (V, P);
    dp_vdev_idle _ _ := True; dp_can_auth _ _ := True; dp_unnamed _ _ := True |}; cbn; unfold present; intros; subst; cbn;
    rewrite ?decide_True, ?decide_False by done; eauto.
Defined.

(** ** Running operations *)
Notation table := (peer_pdev served).

Definition perform (o : op) (sr : table * gmultiset Z) : table * gmultiset Z :=
  match run_op o sr.1 with Some (res, s') => (s', refs_op o sr.1 res sr.2) | None => sr end.

Lemma reach_perform o sr :
  reachable sr.1 sr.2 -> allowed_op o sr.1 sr.2 -> reachable (perform o sr).1 (perform o sr).2.
Proof.
  intros Hr Ha. pose proof (op_spec o _ _ (reachable_accounts _ _ Hr) Ha) as Hw. unfold perform. unfold wp in Hw.
  destruct (run_op o sr.1) as [[res s']|] eqn:E; [|done]. by eapply reach_op.
Qed.

Definition room_b (s : table) : bool := bool_decide (map_Forall (fun _ x => pe_ref_cnt x + 1 < 2 ^ 31) (pp_peers s)).
Lemma room_ok s : room_b s = true -> ref_room s.
Proof. intros H%bool_decide_eq_true p x Hp. by apply (H p x). Qed.

(** ** The example *)
Definition mac_v1 : mac_addr := mk_mac_addr 0x0002 0x0000 0x0100.
Definition mac_v2 : mac_addr := mk_mac_addr 0x0002 0x0000 0x0200.
Definition mac_a : mac_addr := mk_mac_addr 0x1100 0x2233 0x4455.
Definition mac_b : mac_addr := mk_mac_addr 0x6600 0x7788 0x99aa.

Lemma mac_v1_ok : mac_ok mac_v1.
Proof. by split_and!. Qed.
Lemma mac_v2_ok : mac_ok mac_v2.
Proof. by split_and!. Qed.
Lemma mac_a_ok : mac_ok mac_a.
Proof. by split_and!. Qed.
Lemma mac_b_ok : mac_ok mac_b.
Proof. by split_and!. Qed.

Definition ex_init : table := Eval vm_compute in default (mk_peer_pdev _ ∅ ∅ [] 0 0 [] [] [] 0 [] 0 false false None [] (∅, ∅)) (peer_pdev_init 7 false false (∅, ∅)).

Definition ex1 : table * gmultiset Z := Eval vm_compute in perform (op_call (call_vdev_attach 1 mac_v1 wlan_op_mode_ap)) (ex_init, ∅).
Definition ex2 : table * gmultiset Z := Eval vm_compute in perform (op_call (call_vdev_attach 2 mac_v2 wlan_op_mode_sta)) ex1.
Definition ex3 : table * gmultiset Z := Eval vm_compute in perform (op_attach 1 mac_a [] true (Some 100)) ex2.
Definition ex4 : table * gmultiset Z := Eval vm_compute in perform (op_attach 1 mac_b [] true (Some 101)) ex3.
Definition ex5 : table * gmultiset Z := Eval vm_compute in perform (op_call (call_map 3 mac_a true)) ex4.
Definition ex6 : table * gmultiset Z := Eval vm_compute in perform (op_call (call_map 4 mac_b true)) ex5.
Definition ex7 : table * gmultiset Z := Eval vm_compute in perform (op_call (call_state mac_a ol_txrx_peer_state_auth)) ex6.
Definition ex8 : table * gmultiset Z := Eval vm_compute in perform (op_call (call_find mac_b true)) ex7.
Definition ex9 : table * gmultiset Z := Eval vm_compute in perform (op_call (call_detach 101)) ex8.

Lemma ex_init_reach : reachable ex_init ∅.
Proof. apply (reach_init 7 false false (∅, ∅)); [unfold HTT_INVALID_PEER; lia|done|by vm_compute]. Qed.

Ltac next o prev := change (reachable (perform o prev).1 (perform o prev).2); apply reach_perform.

Lemma ex1_reach : reachable ex1.1 ex1.2.
Proof. next (op_call (call_vdev_attach 1 mac_v1 wlan_op_mode_ap)) (ex_init, ∅ : gmultiset Z); [apply ex_init_reach|]. split; [by apply room_ok|]. split; [apply mac_v1_ok|done]. Qed.
Lemma ex2_reach : reachable ex2.1 ex2.2.
Proof. next (op_call (call_vdev_attach 2 mac_v2 wlan_op_mode_sta)) ex1; [apply ex1_reach|]. split; [by apply room_ok|]. split; [apply mac_v2_ok|done]. Qed.

Lemma attach_allowed v mac mem (sr : table * gmultiset Z) :
  mac_ok mac -> bool_decide (v ∈ pp_vdev_list sr.1) = true ->
  match attach_search v mac sr.1 with
  | Some (Some false, s1) => bool_decide (v ∈ pp_vdev_list s1) && room_b s1 && bool_decide (pp_peers s1 !! mem = None)
  | _ => false
  end = true ->
  allowed_op (op_attach v mac [] true (Some mem)) sr.1 sr.2.
Proof.
  intros Hm Hv%bool_decide_eq_true Hs. destruct sr as [s r]. cbn [fst snd allowed_op] in *. unfold while_attach. cbn [fst snd].
  destruct (attach_search v mac s) as [[[[]|] s1]|]; try done.
  apply andb_true_iff in Hs as [[H1%bool_decide_eq_true H2]%andb_true_iff H3%bool_decide_eq_true].
  split; [done|]. split; [done|]. split; [done|]. cbn. split; [done|]. split; [by apply room_ok|]. by intros p [= <-].
Qed.

Lemma ex3_reach : reachable ex3.1 ex3.2.
Proof.
  next (op_attach 1 mac_a [] true (Some 100)) ex2; [apply ex2_reach|]. apply attach_allowed; [apply mac_a_ok|by vm_compute..].
Qed.
Lemma ex4_reach : reachable ex4.1 ex4.2.
Proof.
  next (op_attach 1 mac_b [] true (Some 101)) ex3; [apply ex3_reach|]. apply attach_allowed; [apply mac_b_ok|by vm_compute..].
Qed.
Lemma ex5_allowed : allowed_op (op_call (call_map 3 mac_a true)) ex4.1 ex4.2.
Proof. split; [by apply room_ok|]. split; [apply mac_a_ok|]. split; [by vm_compute|]. by split. Qed.
Lemma ex5_reach : reachable ex5.1 ex5.2.
Proof. next (op_call (call_map 3 mac_a true)) ex4; [apply ex4_reach|apply ex5_allowed]. Qed.
Lemma ex6_allowed : allowed_op (op_call (call_map 4 mac_b true)) ex5.1 ex5.2.
Proof. split; [by apply room_ok|]. split; [apply mac_b_ok|]. split; [by vm_compute|]. by split. Qed.
Lemma ex6_reach : reachable ex6.1 ex6.2.
Proof. next (op_call (call_map 4 mac_b true)) ex5; [apply ex5_reach|apply ex6_allowed]. Qed.
Lemma ex7_reach : reachable ex7.1 ex7.2.
Proof. next (op_call (call_state mac_a ol_txrx_peer_state_auth)) ex6; [apply ex6_reach|]. split; [by apply room_ok|]. split; [apply mac_a_ok|done]. Qed.
Lemma ex8_reach : reachable ex8.1 ex8.2.
Proof. next (op_call (call_find mac_b true)) ex7; [apply ex7_reach|]. split; [by apply room_ok|apply mac_b_ok]. Qed.

Definition ex8_peer : peer := Eval vm_compute in default (mk_peer 0 mac_a false 0 false [] 0 false ol_txrx_peer_state_invalid None false 0 (0, 0)) (pp_peers ex8.1 !! 101).
Lemma ex8_peer_at : pp_peers ex8.1 !! 101 = Some ex8_peer.
Proof. by vm_compute. Qed.
Lemma ex9_allowed : allowed_op (op_call (call_detach 101)) ex8.1 ex8.2.
Proof. split; [by apply room_ok|]. exists ex8_peer. split; [apply ex8_peer_at|done]. Qed.
Lemma ex9_reach : reachable ex9.1 ex9.2.
Proof. next (op_call (call_detach 101)) ex8; [apply ex8_reach|apply ex9_allowed]. Qed.

Definition ex10 : table * gmultiset Z := Eval vm_compute in perform (op_call (call_unmap 4)) ex9.
Lemma ex10_reach : reachable ex10.1 ex10.2.
Proof. next (op_call (call_unmap 4)) ex9; [apply ex9_reach|]. split; [by apply room_ok|]. by split. Qed.
Definition ex10_peer : peer := Eval vm_compute in default ex8_peer (pp_peers ex10.1 !! 101).
Definition ex10_vdev : vdev := Eval vm_compute in default (mk_vdev mac_v1 wlan_op_mode_ap [] None 0 false None false) (pp_vdevs ex10.1 !! 1).

(** The peer of an address, in any order that represents the table. *)
Lemma find_of_run (s s' : table) L mac cv p :
  PeerRep s L -> mac_ok mac -> ol_txrx_peer_find_hash_find mac cv s = Some (Some p, s') ->
  List.find (fit_at s (mac_fits mac cv)) L = Some p.
Proof.
  intros HR Hm Hrun. rewrite (hash_find_spec s L mac cv HR Hm) in Hrun. destruct (List.find _ L) as [a|]; [|done].
  unfold mbind, M_bind in Hrun. destruct (ref_inc a s) as [[[] ?]|]; [|done]. by injection Hrun as ->.
Qed.

(** Another table: the first peer is being deleted, and a second one has got its
    local id. *)
Definition ey5 : table * gmultiset Z := Eval vm_compute in perform (op_call (call_map 3 mac_a true)) ex3.
Definition ey6 : table * gmultiset Z := Eval vm_compute in perform (op_call (call_detach 100)) ey5.
Definition ey7 : table * gmultiset Z := Eval vm_compute in perform (op_attach 1 mac_b [] true (Some 101)) ey6.
Definition ey8 : table * gmultiset Z := Eval vm_compute in perform (op_call (call_map 4 mac_b true)) ey7.

Lemma ey5_reach : reachable ey5.1 ey5.2.
Proof.
  next (op_call (call_map 3 mac_a true)) ex3; [apply ex3_reach|]. split; [by apply room_ok|]. split; [apply mac_a_ok|]. split; [by vm_compute|]. by split.
Qed.
Lemma ey6_reach : reachable ey6.1 ey6.2.
Proof.
  next (op_call (call_detach 100)) ey5; [apply ey5_reach|]. split; [by apply room_ok|]. eexists. split; [vm_compute; reflexivity|done].
Qed.
Lemma ey7_reach : reachable ey7.1 ey7.2.
Proof. next (op_attach 1 mac_b [] true (Some 101)) ey6; [apply ey6_reach|]. apply attach_allowed; [apply mac_b_ok|by vm_compute..]. Qed.
Lemma ey8_reach : reachable ey8.1 ey8.2.
Proof.
  next (op_call (call_map 4 mac_b true)) ey7; [apply ey7_reach|]. split; [by apply room_ok|]. split; [apply mac_b_ok|]. split; [by vm_compute|]. by split.
Qed.

Definition ey_others : list call := [call_detach 101; call_unmap 4].

Lemma allowed_calls_run c l s r o (s' : table) :
  allowed c s r -> run_call c s = Some (o, s') -> allowed_calls l s' (refs_after c o r) -> allowed_calls (c :: l) s r.
Proof. intros Ha Hrun Hl. split; [done|]. intros o' s'' Hrun'. rewrite Hrun in Hrun'. by injection Hrun' as <- <-. Qed.

Lemma ey9_allowed : allowed_op (op_attach 1 mac_a ey_others true (Some 103)) ey8.1 ey8.2.
Proof.
  split; [apply mac_a_ok|]. split; [apply (bool_decide_eq_true_1 (1 ∈ pp_vdev_list ey8.1)); by vm_compute|]. split.
  - assert (exists s0, attach_search 1 mac_a ey8.1 = Some (Some true, s0)) as [s0 Hs0] by (eexists; vm_compute; reflexivity).
    intros s1 Hs1. assert (E : Some (Some true, s1) = attach_search 1 mac_a ey8.1) by done. clear Hs0 s0 Hs1. vm_compute in E. injection E as ->.
    eapply allowed_calls_run; [|vm_compute; reflexivity|].
    { split; [by apply room_ok|]. eexists. split; [vm_compute; reflexivity|done]. }
    eapply allowed_calls_run; [|vm_compute; reflexivity|done]. split; [by apply room_ok|]. by split.
  - cbv zeta. match goal with |- context [(while_attach ?a ?b ?c ?d).1] => set (w := while_attach a b c d) end. vm_compute in w. subst w.
    split; [|split; [by apply room_ok|intros p [= <-]; by vm_compute]]. cbn. by apply list_elem_of_here.
Qed.
