(* ===== verification/PeerProps.v ===== *)
(** The properties of the peer table, and their witnesses. *)
From Stdlib Require Import ZArith Lia.
From stdpp Require Import prelude gmap list numbers gmultiset.
From S2P Require Import Prelude.
From S2P Require Import PeerTypes.
From S2P Require Import PeerTable.
From S2P Require Import PeerRep.
From S2P Require Import PeerSpec.
From S2P Require Import PeerInv.
From S2P Require Import PeerOps.
From S2P Require Import PeerAttach.
From S2P Require Import PeerVdev.
From S2P Require Import PeerClient.
From S2P Require Import PeerSafe.
From S2P Require Import PeerExample.

Section Props.
Context {D : Type} `{DataPathOk D}.
Implicit Types (s : peer_pdev D) (L : list Z) (x : peer) (y : vdev) (r : gmultiset Z).

(** C13: the peer table is memory safe: in every state that attaches, detaches,
    messages of the target, lookups and drops of references lead to, in any
    order, any further operation its users may call runs to its end, so that no
    freed peer, no freed vdev and no entry outside an array is touched, and the
    accounts still hold. *)
Theorem peer_table_safe s r o :
  reachable s r -> allowed_op o s r ->
  exists res s', run_op o s = Some (res, s') /\ Accounts s' (refs_op o s res r).
Proof.
  intros Hr Ha. pose proof (op_spec o s r (reachable_accounts s r Hr) Ha) as Hw. apply wp_some in Hw as (res & s' & Hrun & HA). eauto.
Qed.

(** C16: references: a peer in memory has exactly one reference for being
    attached, one while the first message of the target is awaited, one for each
    id the target gave it, and one for each its users hold; so a detached peer
    that nothing refers to is gone. What users, the id map, the local ids and
    the vdevs refer to is in memory. *)
Theorem peer_reference_count s r :
  reachable s r ->
  (forall p x, pp_peers s !! p = Some x ->
    0 < pe_ref_cnt x /\
    pe_ref_cnt x = (if pe_valid x then 1 else 0) + awaits_map x + mapped s p + Z.of_nat (multiplicity p r)) /\
  (forall p, p ∈ r -> is_Some (pp_peers s !! p)) /\
  (forall i p, znth (pp_id_map s) i = Some (Some p) -> is_Some (pp_peers s !! p)) /\
  (forall i p, znth (pp_local_map s) i = Some (Some p) -> exists x, pp_peers s !! p = Some x /\ pe_valid x = true) /\
  (forall v y p, pp_vdevs s !! v = Some y -> p ∈ vd_peer_list y \/ vd_last_real_peer y = Some p ->
    exists x, pp_peers s !! p = Some x /\ pe_vdev x = v).
Proof.
  intros HA%reachable_accounts. pose proof HA as [(L & fl & HR & Hrf & Hli) _ Hh]. split; [|split; [|split; [|split]]].
  - intros p x Hp. destruct (pr_peer _ _ HR p x Hp) as [_ Hr]. split; [lia|]. specialize (Hh p). rewrite (held_at s p x Hp) in Hh. unfold base in Hh. lia.
  - intros p Hp. destruct (Accounts_live s r p HA Hp) as (x & Hx & _). eauto.
  - apply (rf_map _ Hrf).
  - intros i p Hi. destruct (li_used _ _ _ Hli i p Hi) as (x & Hx & Hv & _). eauto.
  - intros v y p Hy [Hp|Hp].
    + rewrite (pr_list _ _ HR v y Hy) in Hp. apply list_elem_of_filter in Hp as [Hp _]. unfold vdev_at in Hp.
      destruct (pp_peers s !! p) as [x|]; [|done]. exists x. split; [done|]. cbn in Hp. congruence.
    + destruct (rf_last _ Hrf v y p Hy Hp) as (x & Hx & _ & Hv). eauto.
Qed.

(** C27: the hash table is the list of the peers in the order of their attaches:
    both lookups find the first peer of that list with the address (and the
    vdev, and attached, where asked for), and take one reference to it; each
    vdev's list holds its peers in that order. *)
Theorem peer_find_refines s r :
  reachable s r -> ref_room s ->
  exists L, NoDup L /\ (forall p, p ∈ L <-> is_Some (pp_peers s !! p)) /\
    (forall v y, pp_vdevs s !! v = Some y -> vd_peer_list y = filter (fun p => vdev_at s p = Some v) L) /\
    forall mac cv, mac_ok mac ->
      wp (ol_txrx_peer_find_hash_find mac cv) (fun res s' =>
        res = List.find (fit_at s (mac_fits mac cv)) L /\ Accounts s' (refs_after (call_find mac cv) res r)) s /\
      forall v, wp (ol_txrx_peer_vdev_find_hash v mac cv) (fun res s' =>
        res = List.find (fit_at s (fun x => mac_fits mac cv x && bool_decide (pe_vdev x = v))) L /\
        Accounts s' (refs_after (call_vdev_find v mac cv) res r)) s.
Proof.
  intros HA%reachable_accounts Hroom. pose proof (ac_inv _ _ HA) as (L & fl & HR & _). exists L.
  split; [apply (pr_nodup _ _ HR)|]. split; [apply (pr_dom _ _ HR)|]. split; [apply (pr_list _ _ HR)|].
  intros mac cv Hm. split; [by apply (call_find_spec s L r)|]. intros v. by apply (call_vdev_find_spec s L r).
Qed.

(** C28: dropping a reference ([ol_txrx_peer_unref_delete]): one that is not the
    last only lowers the count. The last one takes the peer out of the hash
    table and of its vdev's list and frees it, once; it wakes an attach that
    waits for the peer's id, and frees the vdev, after its references in the
    transmit descriptors are cleared and with its callback, exactly when its
    deletion is pending and no peer is left. *)
Theorem ol_txrx_peer_unref_delete_correct s r p x y :
  reachable s r -> p ∈ r -> pp_peers s !! p = Some x -> pp_vdevs s !! pe_vdev x = Some y ->
  wp (ol_txrx_peer_unref_delete p) (fun _ s' =>
    Accounts s' (r ∖ {[+ p +]}) /\
    if decide (pe_ref_cnt x = 1) then
      pp_peers s' = delete p (pp_peers s) /\
      (let y' := vdev_without p (pe_local_id x) y in
       let gone := bool_decide (filter (fun q => q <> p) (vd_peer_list y) = []) && vd_delete_pending y in
       pp_vdevs s' !! pe_vdev x = (if gone then None else Some y') /\
       (gone = true -> dp_unnamed (pe_vdev x) (pp_data s')) /\
       pp_log s' = pp_log s ++ (if pe_local_id x =? vd_wait_on_peer_id y then [wait_completed (pe_vdev x)] else []) ++
         (if gone then vdev_freed (pe_vdev x) :: match vd_delete_callback y with Some c => [vdev_delete_cb (pe_vdev x) c] | None => [] end else []) ++
         [peer_freed p])
    else s' = set_pp_peers (<[p := set_pe_ref_cnt (fun n => n - 1) x]>) s) s.
Proof.
  intros HA%reachable_accounts Hpr Hp Hy. destruct (Accounts_live s r p HA Hpr) as (x0 & Hx0 & Hb). rewrite Hp in Hx0. injection Hx0 as <-.
  eapply wp_mono; [by apply (PeerInv_unref s p x (ac_inv _ _ HA))|]. intros ? s' [HI' Hu]. split; [by eapply Accounts_unreffed|].
  unfold unreffed in Hu. destruct (Z.eqb_spec (pe_ref_cnt x) 1) as [E|E]; [rewrite decide_True by done|by rewrite decide_False].
  destruct Hu as [E1 _ _ E2 E3]. destruct (E2 y Hy) as [E4 E5]. split; [done|].
  destruct (vdev_without_fields p (pe_local_id x) y) as (F1 & _ & F2 & _). unfold delete_events in E5. unfold vdev_done in *. rewrite F1, F2 in *.
  split; [done|]. split; [|done]. intros Hg. rewrite Hg in E4. apply E3; [done|eauto].
Qed.

(** C29: [ol_txrx_peer_attach] refuses when the vdev has an attached peer with the
    address; it waits, letting others go on, while such a peer is being deleted,
    and gives up when it is not gone in time or there is no memory. Otherwise the
    new peer comes last in the order, with two references, no ids and a local id
    that was free and is its own now, or none when none was free; every other peer stays as it is, but the first
    attached peer with the same address, on whichever vdev, is set to the state
    "disconnected". *)
Theorem ol_txrx_peer_attach_correct s r v mac others rc mem :
  reachable s r -> allowed_op (op_attach v mac others rc mem) s r ->
  wp (ol_txrx_peer_attach v mac (run_calls others) rc mem) (fun res s' =>
    let s1 := (while_attach v mac others (s, r)).1 in
    Accounts s' (while_attach v mac others (s, r)).2 /\
    exists found s0, attach_search v mac s = Some (found, s0) /\
    match found with
    | None => namesake s v mac true /\ res = None /\ s' = s1
    | Some wait =>
      ~ namesake s v mac true /\ (wait = true <-> namesake s v mac false) /\
      if wait && negb rc then res = None /\ pp_peers s' = pp_peers s1
      else match mem with
        | None => res = None /\ s' = s1
        | Some p => res = Some p /\ exists L, PeerRep s1 L /\ attached s1 L v mac p s'
        end
    end) s.
Proof.
  intros HA%reachable_accounts Hal. pose proof Hal as (Hm & Hv & _). destruct (vi_there _ (ac_vdevs _ _ HA) v Hv) as (y & Hy & _).
  destruct (attach_search_spec s r v mac HA ltac:(eauto) Hm) as (found & s0 & Hs & Hf).
  eapply wp_mono; [by apply attach_op_spec|]. cbv beta. intros res s' [HA' (found' & s0' & Hs' & Ho)]. split; [done|].
  rewrite Hs in Hs'. injection Hs' as <- <-. exists found, s0. split; [done|]. unfold attach_outcome in Ho.
  destruct found as [wait|]; [|done]. by destruct Hf.
Qed.

(** The ids of the target: after a map message for an attached peer, the
    lookup by that id finds the peer; after the unmap message it finds nothing,
    and the peer is there as before, with the reference of the first message
    gone. *)
Theorem peer_map_unmap_roundtrip s r L i mac ready p x :
  reachable s r -> allowed (call_map i mac ready) s r -> PeerRep s L ->
  List.find (fit_at s (mac_fits mac false)) L = Some p -> pp_peers s !! p = Some x -> pe_valid x = true ->
  exists s1 s2, ol_rx_peer_map_handler i mac ready s = Some (tt, s1) /\ ol_txrx_peer_find_by_id i s1 = Some (Some p, s1) /\
    ol_rx_peer_unmap_handler i s1 = Some (tt, s2) /\ ol_txrx_peer_find_by_id i s2 = Some (None, s2) /\
    Accounts s2 r /\ pp_id_map s2 = pp_id_map s /\
    exists x2, pp_peers s2 !! p = Some x2 /\ pe_valid x2 = true /\ pe_mac x2 = mac /\ pe_vdev x2 = pe_vdev x /\
      pe_ref_cnt x2 = pe_ref_cnt x - awaits_map x.
Proof.
  intros HA%reachable_accounts (Hroom & Hm & Hi & Hinv & Hfree) HR Hfind Hp Hv.
  pose proof (ac_inv _ _ HA) as HI. pose proof HI as (L0 & fl0 & _ & Hrf & _).
  pose proof (call_map_spec s r i mac ready HA Hm Hi Hinv Hfree Hroom) as Hw1.
  pose proof (map_handler_spec s L i mac ready HI HR Hm Hi Hinv Hroom) as Hw. apply wp_some in Hw as ([] & s1 & Hrun & HI1 & s0 & Hs0 & Hu).
  unfold wp in Hw1. rewrite Hrun in Hw1. rename Hw1 into HA1. unfold first_with in Hs0. rewrite Hfind in Hs0. destruct Hs0 as (x' & Hx' & ->).
  rewrite Hp in Hx'. injection Hx' as <-. destruct (unpaused_frame _ _ _ _ Hu) as (E1 & E2 & E3 & E4 & Hmax1).
  destruct (map_peer_fields i x) as ([Fm Fvd] & Fv & _ & _ & _ & Fr). pose proof (map_peer_awaits i x (rf_ids _ Hrf p x Hp) Hinv) as Fa.
  pose proof (rf_len _ Hrf) as Hlen.
  assert (Hmap1 : pp_id_map s1 = zset (pp_id_map s) i (Some p)) by (by rewrite E3).
  assert (Hi1 : znth (pp_id_map s1) i = Some (Some p)) by (rewrite Hmap1; apply znth_zset_eq; lia).
  assert (Hp1 : pp_peers s1 !! p = Some (map_peer i x)) by (rewrite E1; cbn; apply lookup_insert_eq).
  cbn [map_id set_pp_peers set_pp_id_map pp_max_peer_id] in Hmax1.
  pose proof (unmap_handler_spec s1 i HI1 ltac:(lia) Hinv) as Hw2. apply wp_some in Hw2 as ([] & s2 & Hrun2 & HI2 & Hs2).
  pose proof (call_unmap_spec s1 r i HA1 ltac:(lia) Hinv) as Hw2. unfold wp in Hw2. rewrite Hrun2 in Hw2.
  rewrite Hi1 in Hs2. destruct Hs2 as (x1 & Hx1 & Hu2). rewrite Hp1 in Hx1. injection Hx1 as <-.
  assert (Hr1 : 1 < pe_ref_cnt (map_peer i x)).
  { pose proof HI1 as (_ & _ & _ & Hrf1 & _). pose proof (rf_base _ Hrf1 p _ Hp1) as Hb. pose proof (mapped_at s1 p i Hi1). unfold base in Hb. rewrite Fv, Hv, Fa in Hb. lia. }
  unfold unreffed in Hu2. rewrite (proj2 (Z.eqb_neq _ 1)) in Hu2 by lia. subst s2.
  eexists s1, _. split; [exact Hrun|]. split; [|split; [exact Hrun2|split; [|split; [exact Hw2|split]]]].
  - rewrite find_by_id_spec by (done || lia). unfold attached_by_id. by rewrite Hi1, Hp1, Fv, Hv.
  - rewrite find_by_id_spec by (done || lia). unfold attached_by_id. cbn [set_pp_peers unmap_id set_pp_id_map pp_id_map].
    rewrite znth_zset_eq; [done|]. rewrite Hmap1, zlen_zset. lia.
  - cbn [set_pp_peers unmap_id set_pp_id_map pp_id_map]. rewrite Hmap1. unfold zset. rewrite list_insert_insert_eq. apply list_insert_id.
    by apply znth_Some in Hfree as [_ ?].
  - eexists. cbn. rewrite lookup_insert_eq. split; [done|]. cbn. rewrite Fv, Fm, Fvd, Fr. split; [done|]. split.
    + unfold fit_at, mac_fits in Hfind. pose proof (List.find_some _ _ Hfind) as [_ Hfit]. rewrite Hp in Hfit.
      by apply andb_true_iff in Hfit as [->%bool_decide_eq_true _].
    + split; [done|]. unfold awaits_map. case_decide; lia.
Qed.

(** Local ids: two attached peers never share one, and the lookup by local id
    is the inverse of the assignment: it finds the attached peer that has the id,
    and nothing when there is none. *)
Theorem local_peer_ids_unique s r :
  reachable s r ->
  (forall p1 p2 x1 x2, pp_peers s !! p1 = Some x1 -> pp_peers s !! p2 = Some x2 -> pe_valid x1 = true -> pe_valid x2 = true ->
    pe_local_id x1 = pe_local_id x2 -> pe_local_id x1 <> OL_TXRX_INVALID_LOCAL_PEER_ID -> p1 = p2) /\
  forall i, 0 <= i -> i <> OL_TXRX_INVALID_LOCAL_PEER_ID ->
    exists o, ol_txrx_peer_find_by_local_id i s = Some (o, s) /\
      forall p, o = Some p <-> exists x, pp_peers s !! p = Some x /\ pe_valid x = true /\ pe_local_id x = i.
Proof.
  intros HA%reachable_accounts. pose proof (ac_inv _ _ HA) as HI. pose proof HI as (L & fl & _ & _ & Hli).
  assert (Huniq : forall p1 p2 x1 x2, pp_peers s !! p1 = Some x1 -> pp_peers s !! p2 = Some x2 -> pe_valid x1 = true -> pe_valid x2 = true ->
    pe_local_id x1 = pe_local_id x2 -> pe_local_id x1 <> OL_TXRX_INVALID_LOCAL_PEER_ID -> p1 = p2).
  { intros p1 p2 x1 x2 H1 H2 V1 V2 E Hn. destruct (li_id _ _ _ Hli p1 x1 ltac:(done) H1 V1) as [?|I1]; [done|].
    destruct (li_id _ _ _ Hli p2 x2 ltac:(done) H2 V2) as [?|I2]; [congruence|]. rewrite <- E in I2. congruence. }
  split; [exact Huniq|]. intros i Hi Hn. destruct (find_by_local_id_spec s i HI Hi) as (o & Ho & Hspec). exists o. split; [done|].
  intros p. split.
  - intros ->. exact Hspec.
  - intros (x & Hx & Hvx & El). destruct o as [q|].
    + destruct Hspec as (z & Hz & Hvz & Elz). f_equal. apply (Huniq q p z x); [done..| |]; congruence.
    + by specialize (Hspec p x Hx Hvx El).
Qed.

(** Emptying the table ([ol_txrx_peer_find_hash_erase], when the device goes)
    returns, frees every peer exactly once, whatever references are left, and
    leaves every bin and every vdev's list empty. *)
Theorem ol_txrx_peer_find_hash_erase_correct s r :
  reachable s r ->
  wp ol_txrx_peer_find_hash_erase (fun _ s' =>
    pp_peers s' = ∅ /\ Forall (fun bin => bin = []) (pp_hash_bins s') /\
    (forall v y, pp_vdevs s' !! v = Some y -> vd_peer_list y = []) /\
    exists M, NoDup M /\ (forall p, p ∈ M <-> is_Some (pp_peers s !! p)) /\ freed_of (pp_log s') = freed_of (pp_log s) ++ M) s.
Proof.
  intros HA%reachable_accounts. pose proof (ac_inv _ _ HA) as (L & fl & HR & _). eapply wp_mono; [by apply (hash_erase_spec s L)|].
  intros ? s' [HR' (M & HM & HF)]. split; [|split; [|split]].
  - apply map_empty. intros p. apply eq_None_not_Some. intros Hp%(pr_dom _ _ HR'). by apply not_elem_of_nil in Hp.
  - apply list.Forall_lookup. intros k bin Hk. rewrite (pr_bin _ _ HR' (Z.of_nat k) bin); [done|]. apply znth_Some. split; [lia|]. by rewrite Nat2Z.id.
  - intros v y Hy. by rewrite (pr_list _ _ HR' v y Hy).
  - exists M. split; [rewrite HM; apply (pr_nodup _ _ HR)|]. split; [|done]. intros p. rewrite HM. apply (pr_dom _ _ HR).
Qed.

(** [ol_txrx_log2_ceil] sizes the hash table: its bins are the least power of
    two that is at least twice the number of ids, the fuel of its loop is
    enough, and every address hashes into the table. *)
Theorem peer_hash_table_bounds max_peer_id addba monitor (d : D) :
  0 <= max_peer_id < HTT_INVALID_PEER -> dp_ok ∅ ∅ d ->
  exists s, peer_pdev_init max_peer_id addba monitor d = Some s /\ Accounts s ∅ /\
    2 * (max_peer_id + 1) <= zlen (pp_hash_bins s) < 4 * (max_peer_id + 1) /\
    (exists k, zlen (pp_hash_bins s) = 2 ^ k) /\
    forall mac, is_Some (znth (pp_hash_bins s) (hash_index s mac)).
Proof.
  intros Hmax Hd. destruct (peer_pdev_init_spec max_peer_id addba monitor d Hmax Hd) as (s & Hs & HI & _ & _ & _ & Hb).
  exists s. split; [done|]. split; [apply reachable_accounts; by eapply reach_init|]. split; [lia|].
  destruct HI as (L & fl & HR & _). destruct (pr_bits _ _ HR) as (_ & _ & Hl). split; [by exists (pp_hash_idx_bits s)|].
  intros mac. rewrite (bin_at s L mac HR). eauto.
Qed.

(** [ol_txrx_peer_state_update] finds a peer by its address alone, so the
    attach of a peer whose address an authenticated peer of another vdev has
    disconnects that peer, and leaves the new one without a state and without a
    transmit filter. *)
Theorem attach_disconnects_namesake s r v mac others rc p q x s0 s1 :
  reachable s r -> allowed_op (op_attach v mac others rc (Some p)) s r ->
  attach_search v mac s = Some (Some false, s0) ->
  ol_txrx_peer_find_hash_find mac true s0 = Some (Some q, s1) -> pp_peers s !! q = Some x -> pe_state x = ol_txrx_peer_state_auth ->
  wp (ol_txrx_peer_attach v mac (run_calls others) rc (Some p)) (fun res s' => res = Some p /\
    (exists x', pp_peers s' !! q = Some x' /\ pe_vdev x' = pe_vdev x /\ pe_valid x' = true /\
      pe_state x' = ol_txrx_peer_state_disc /\ pe_tx_filter x' = Some ol_tx_filter_discard) /\
    (exists z, pp_peers s' !! p = Some z /\ pe_valid z = true /\ pe_state z = ol_txrx_peer_state_invalid /\ pe_tx_filter z = None)) s.
Proof.
  intros HA%reachable_accounts Hal Hs Hfind Hq Hst. pose proof Hal as (Hm & Hv & _ & _ & _ & Hfresh).
  destruct (vi_there _ (ac_vdevs _ _ HA) v Hv) as (y & Hy & _). unfold while_attach in Hfresh. cbn [fst snd] in Hfresh. rewrite Hs in Hfresh. cbn [fst] in Hfresh.
  eapply wp_mono; [by apply (attach_op_spec s r)|]. cbv beta. intros res s' [_ (found & s0' & Hs' & Ho)].
  rewrite Hs in Hs'. injection Hs' as <- <-. unfold attach_outcome in Ho. unfold while_attach in Ho. cbn [fst snd] in Ho. rewrite Hs in Ho. cbn [fst andb] in Ho.
  destruct Ho as (-> & L & HR & Hat). split; [done|].
  assert (Hsp : pp_peers s0 = pp_peers s).
  { unfold attach_search in Hs. rewrite Hy in Hs. pose proof (ac_inv _ _ HA) as HI. pose proof HI as (L0 & fl & HR0 & _).
    pose proof (attach_check_spec v mac (vd_peer_list y) s L0 y false HI HR0 Hm Hy) as Hc. unfold wp in Hc. rewrite Hs in Hc.
    destruct Hc as [[id ->] _]; [|done]. intros k Hk. rewrite (pr_list _ _ HR0 v y Hy) in Hk. by apply list_elem_of_filter in Hk as [_ ?]. }
  assert (Hfw : first_with s0 L mac true = Some q).
  { rewrite (hash_find_spec s0 L mac true HR Hm) in Hfind. unfold first_with. destruct (List.find _ L) as [a|]; [|done].
    unfold mbind, M_bind in Hfind. destruct (ref_inc a s0) as [[[] ?]|]; [|done]. by injection Hfind as ->. }
  destruct (first_with_in _ _ _ _ _ Hfw) as (_ & x1 & Hx1 & _ & Hvx). rewrite Hsp, Hq in Hx1. injection Hx1 as <-.
  assert (Hqp : q <> p) by (intros ->; specialize (Hfresh p eq_refl); rewrite Hsp in Hfresh; congruence).
  split.
  - exists (with_state ol_txrx_peer_state_disc x). rewrite (at_others _ _ _ _ _ _ Hat q Hqp), decide_True, Hsp, Hq by done. cbn. unfold disc_peer.
    rewrite Hst. split; [done|]. by rewrite Hvx.
  - destruct (at_new _ _ _ _ _ _ Hat) as (z & Hz & _ & _ & Hvz & _ & _ & Hnz). rewrite Hfw in Hnz. exists z. by destruct Hnz.
Qed.
End Props.

(** An attach that waits for a peer being deleted compares local ids, but
    [ol_txrx_peer_detach] has already given the id back: another peer can get it,
    and its deletion ends the wait. The table is then in a state, reached by
    allowed operations only, where the vdev has two peers with the address, the
    old one still being deleted, and the lookup for the next map message of the
    target finds the old one. *)
Theorem attach_wait_ended_by_other_peer :
  exists (s : table) r others s', reachable s r /\ allowed_op (op_attach 1 mac_a others true (Some 103)) s r /\
    run_op (op_attach 1 mac_a others true (Some 103)) s = Some (Some 103, s') /\
    wait_completed 1 ∈ pp_log s' /\ wait_completed 1 ∉ pp_log s /\
    (exists old new, pp_peers s' !! 100 = Some old /\ pp_peers s' !! 103 = Some new /\
      pe_mac old = mac_a /\ pe_mac new = mac_a /\ pe_vdev old = 1 /\ pe_vdev new = 1 /\
      pe_delete_in_progress old = true /\ pe_valid new = true) /\
    fst <$> ol_txrx_peer_find_hash_find mac_a false s' = Some (Some 100).
Proof.
  exists ey8.1, ey8.2, ey_others, (perform (op_attach 1 mac_a ey_others true (Some 103)) ey8).1.
  split; [apply ey8_reach|]. split; [apply ey9_allowed|]. split; [by vm_compute|].
  match goal with |- context [perform ?o ?sr] => set (w := perform o sr) end. vm_compute in w. subst w. cbn [fst].
  split; [by apply elem_of_cons; left|]. split; [by apply not_elem_of_nil|]. split; [|by vm_compute].
  do 2 eexists. split; [vm_compute; reflexivity|]. split; [vm_compute; reflexivity|]. by split_and!.
Qed.

(** ** Witnesses *)
Lemma peer_table_safe_witness :
  exists res s', run_op (op_call (call_detach 101)) ex8.1 = Some (res, s') /\ Accounts s' (refs_op (op_call (call_detach 101)) ex8.1 res ex8.2).
Proof. exact (peer_table_safe ex8.1 ex8.2 _ ex8_reach ex9_allowed). Defined.

Lemma peer_reference_count_witness : is_Some (pp_peers ex9.1 !! 101) /\ pe_valid <$> (pp_peers ex9.1 !! 101) = Some false.
Proof.
  destruct (peer_reference_count ex9.1 ex9.2 ex9_reach) as (_ & Hr & _). split; [|by vm_compute]. apply Hr.
  apply elem_of_multiplicity. apply Nat.ltb_lt. by vm_compute.
Defined.

Lemma peer_find_refines_witness : exists L, NoDup L /\ List.find (fit_at ex8.1 (mac_fits mac_a true)) L = Some 100.
Proof.
  destruct (peer_find_refines ex8.1 ex8.2 ex8_reach (room_ok ex8.1 eq_refl)) as (L & Hnd & _ & _ & Hf). exists L. split; [done|].
  destruct (Hf mac_a true mac_a_ok) as [Hw _]. unfold wp in Hw.
  assert (E : fst <$> ol_txrx_peer_find_hash_find mac_a true ex8.1 = Some (Some 100)) by (by vm_compute).
  destruct (ol_txrx_peer_find_hash_find mac_a true ex8.1) as [[res s']|]; [|done]. destruct Hw as [<- _]. cbn in E. congruence.
Defined.

Lemma ol_txrx_peer_unref_delete_correct_witness :
  wp (ol_txrx_peer_unref_delete 101) (fun _ s' => pp_peers s' = delete 101 (pp_peers ex10.1)) ex10.1.
Proof.
  eapply wp_mono.
  - apply (ol_txrx_peer_unref_delete_correct ex10.1 ex10.2 101 ex10_peer ex10_vdev ex10_reach); [|by vm_compute..].
    apply elem_of_multiplicity. apply Nat.ltb_lt. by vm_compute.
  - cbv beta. intros ? s' [_ Hs']. rewrite decide_True in Hs' by (by vm_compute). by destruct Hs'.
Defined.

Lemma ol_txrx_peer_attach_correct_witness :
  wp (ol_txrx_peer_attach 1 mac_a (run_calls []) true (Some 100)) (fun res s' => res = Some 100 /\ exists L, attached ex2.1 L 1 mac_a 100 s') ex2.1.
Proof.
  eapply wp_mono.
  - apply (ol_txrx_peer_attach_correct ex2.1 ex2.2 1 mac_a [] true (Some 100) ex2_reach).
    apply attach_allowed; [apply mac_a_ok|by vm_compute..].
  - cbv beta zeta. intros res s' [_ (found & s0 & Hs & Hf)].
    assert (E : attach_search 1 mac_a ex2.1 = Some (Some false, ex2.1)) by (by vm_compute). rewrite E in Hs. injection Hs as <- <-.
    destruct Hf as (_ & _ & -> & L & _ & Ha). split; [done|]. exists L. unfold while_attach in Ha. cbn [fst snd] in Ha. by rewrite E in Ha.
Defined.

Lemma peer_map_unmap_roundtrip_witness : exists s1, ol_rx_peer_map_handler 3 mac_a true ex4.1 = Some (tt, s1) /\ ol_txrx_peer_find_by_id 3 s1 = Some (Some 100, s1).
Proof.
  destruct (ac_inv _ _ (reachable_accounts _ _ ex4_reach)) as (L & fl & HR & _).
  assert (exists s', ol_txrx_peer_find_hash_find mac_a false ex4.1 = Some (Some 100, s')) as [s' Hs'] by (eexists; vm_compute; reflexivity).
  assert (exists x, pp_peers ex4.1 !! 100 = Some x /\ pe_valid x = true) as (x & Hx & Hv) by (eexists; split; [vm_compute; reflexivity|reflexivity]).
  destruct (peer_map_unmap_roundtrip ex4.1 ex4.2 L 3 mac_a true 100 x ex4_reach ex5_allowed HR
    (find_of_run _ _ _ _ _ _ HR mac_a_ok Hs') Hx Hv) as (s1 & s2 & H1 & H2 & _). by exists s1.
Defined.

Lemma local_peer_ids_unique_witness : exists o, ol_txrx_peer_find_by_local_id 1 ex8.1 = Some (o, ex8.1) /\ o = Some 101.
Proof.
  destruct (local_peer_ids_unique ex8.1 ex8.2 ex8_reach) as [_ Hl]. destruct (Hl 1) as (o & Ho & Hp); [lia|done|].
  exists o. split; [done|]. apply Hp. exists ex8_peer. split; [apply ex8_peer_at|by vm_compute].
Defined.

Lemma ol_txrx_peer_find_hash_erase_correct_witness : wp ol_txrx_peer_find_hash_erase (fun _ s' => pp_peers s' = ∅) ex9.1.
Proof.
  eapply wp_mono; [apply (ol_txrx_peer_find_hash_erase_correct ex9.1 ex9.2 ex9_reach)|]. by intros ? s' [? _].
Defined.

Lemma peer_hash_table_bounds_witness : exists s : table, peer_pdev_init 7 false false (∅, ∅) = Some s /\ 16 <= zlen (pp_hash_bins s) < 32.
Proof.
  destruct (peer_hash_table_bounds (D := served) 7 false false (∅, ∅)) as (s & Hs & _ & Hb & _); [unfold HTT_INVALID_PEER; lia|done|]. by exists s.
Defined.

Lemma attach_disconnects_namesake_witness :
  wp (ol_txrx_peer_attach 2 mac_a (run_calls []) true (Some 102)) (fun _ s' => pe_state <$> (pp_peers s' !! 100) = Some ol_txrx_peer_state_disc) ex7.1.
Proof.
  assert (exists x, pp_peers ex7.1 !! 100 = Some x /\ pe_state x = ol_txrx_peer_state_auth) as (x & Hx & Hst) by (eexists; split; [vm_compute; reflexivity|reflexivity]).
  assert (exists s', ol_txrx_peer_find_hash_find mac_a true ex7.1 = Some (Some 100, s')) as [s' Hs'] by (eexists; vm_compute; reflexivity).
  eapply wp_mono.
  - apply (attach_disconnects_namesake ex7.1 ex7.2 2 mac_a [] true 102 100 x ex7.1 s' ex7_reach); [|by vm_compute|exact Hs'|exact Hx|exact Hst].
    apply attach_allowed; [apply mac_a_ok|by vm_compute..].
  - cbv beta. intros res t (_ & (x' & -> & _ & _ & Hd & _) & _). cbn. by rewrite Hd.
Defined.
