(* ===== verification/DescTypes.v ===== *)
(** Data model of the transmit descriptors ([ol_txrx_types.h]): the pool and
    its free list, the network buffers the descriptors own, the registered
    callbacks, and the credit HTT keeps, around the queues and the scheduler
    ([TxTypes]). *)
From Stdlib Require Import ZArith Lia.
From stdpp Require Import prelude gmap list numbers.
From S2P Require Import Prelude.
From S2P Require Import TxTypes.

(** ** Constants *)
Definition ol_tx_frm_std : Z := 0.
Definition ol_tx_frm_tso : Z := 1.
Definition ol_tx_frm_audio : Z := 2.
Definition ol_tx_frm_no_free : Z := 3.
Definition ol_tx_frm_freed : Z := 0xff.
(** [htt_pkt_num_types]. *)
Definition OL_TXRX_MGMT_TYPE_BASE : Z := 4.
Definition OL_TXRX_MGMT_NUM_TYPES : Z := 8.
Definition OL_TXRX_INVALID_VDEV_ID : Z := 0xff.

Definition htt_tx_status_ok : Z := 0.
Definition htt_tx_status_discard : Z := 1.
Definition htt_tx_status_no_ack : Z := 2.
Definition htt_tx_status_peer_del : Z := 4.
Definition htt_tx_status_fail_notify : Z := 5.

(** ** Buffers and descriptors *)

(** A network buffer: its length, whether it has room for the MSDU id, and
    how it is exempt from encryption and checksums. *)
Record nbuf := mk_nbuf {
  nb_len : Z;
  nb_id_storage : bool;
  nb_exemption : Z;
  nb_cksum : Z }.

(** The first word of [union ol_tx_desc_list_elem_t]: the link of the free list
    and the buffer of the descriptor share it.  A descriptor is named by its
    id. *)
Inductive td_word := TdNext (next : option Z) | TdNetbuf (netbuf : Z).

(** [struct ol_tx_desc_t]. *)
Record desc := mk_desc {
  ds_first : td_word;
  ds_ref_cnt : Z;
  ds_status : Z;
  ds_pkt_type : Z;
  ds_vdev_id : Z;
  ds_vdev : option Z }.

(** What the outside sees: buffers unmapped and freed, callbacks. *)
Inductive tx_event :=
  | EvUnmap (b : Z)
  | EvTxFree (bs : list Z) (had_error : bool)
  | EvFree (b : Z)
  | EvDataCallback (b : Z) (had_error : bool)
  | EvDownloadCallback (mgmt_type b : Z) (had_error : bool)
  | EvOtaAckCallback (mgmt_type b : Z) (had_error : bool).

(** The part of the device that handles transmit descriptors: the queueing layer
    [dv_tx], the pool in the order of ids, the free list, the buffers the
    transmit path owns, whether a callback for [ol_tx_frm_no_free] frames is
    registered, the download and acknowledgement callbacks per management type,
    [ol_cfg_tx_free_at_download], and [htt_tx_credit]. *)
Record tx_device := mk_tx_device {
  dv_tx : tx_pdev;
  dv_pool : list desc;
  dv_freelist : option Z;
  dv_num_free : Z;
  dv_nbufs : gmap Z nbuf;
  dv_data_cb : bool;
  dv_mgmt_cbs : list (bool * bool);
  dv_free_at_download : bool;
  dv_target_delta : Z;
  dv_bus_delta : Z;
  dv_log : list tx_event }.

(** ** Field updates *)
Definition set_ds_first (f : td_word -> td_word) (s : desc) : desc :=
  {| ds_first := f (ds_first s); ds_ref_cnt := ds_ref_cnt s; ds_status
     := ds_status s; ds_pkt_type := ds_pkt_type s; ds_vdev_id :=
     ds_vdev_id s; ds_vdev := ds_vdev s |}.
Definition set_ds_ref_cnt (f : Z -> Z) (s : desc) : desc :=
  {| ds_first := ds_first s; ds_ref_cnt := f (ds_ref_cnt s); ds_status
     := ds_status s; ds_pkt_type := ds_pkt_type s; ds_vdev_id :=
     ds_vdev_id s; ds_vdev := ds_vdev s |}.
Definition set_ds_status (f : Z -> Z) (s : desc) : desc :=
  {| ds_first := ds_first s; ds_ref_cnt := ds_ref_cnt s; ds_status :=
     f (ds_status s); ds_pkt_type := ds_pkt_type s; ds_vdev_id :=
     ds_vdev_id s; ds_vdev := ds_vdev s |}.
Definition set_ds_pkt_type (f : Z -> Z) (s : desc) : desc :=
  {| ds_first := ds_first s; ds_ref_cnt := ds_ref_cnt s; ds_status :=
     ds_status s; ds_pkt_type := f (ds_pkt_type s); ds_vdev_id :=
     ds_vdev_id s; ds_vdev := ds_vdev s |}.
Definition set_ds_vdev_id (f : Z -> Z) (s : desc) : desc :=
  {| ds_first := ds_first s; ds_ref_cnt := ds_ref_cnt s; ds_status :=
     ds_status s; ds_pkt_type := ds_pkt_type s; ds_vdev_id := f
     (ds_vdev_id s); ds_vdev := ds_vdev s |}.
Definition set_ds_vdev (f : option Z -> option Z) (s : desc) : desc :=
  {| ds_first := ds_first s; ds_ref_cnt := ds_ref_cnt s; ds_status :=
     ds_status s; ds_pkt_type := ds_pkt_type s; ds_vdev_id :=
     ds_vdev_id s; ds_vdev := f (ds_vdev s) |}.
Definition set_dv_tx (f : tx_pdev -> tx_pdev) (s : tx_device) : tx_device :=
  {| dv_tx := f (dv_tx s); dv_pool := dv_pool s; dv_freelist :=
     dv_freelist s; dv_num_free := dv_num_free s; dv_nbufs := dv_nbufs
     s; dv_data_cb := dv_data_cb s; dv_mgmt_cbs := dv_mgmt_cbs s;
     dv_free_at_download := dv_free_at_download s; dv_target_delta :=
     dv_target_delta s; dv_bus_delta := dv_bus_delta s; dv_log :=
     dv_log s |}.
Definition set_dv_pool (f : list desc -> list desc) (s : tx_device) : tx_device :=
  {| dv_tx := dv_tx s; dv_pool := f (dv_pool s); dv_freelist :=
     dv_freelist s; dv_num_free := dv_num_free s; dv_nbufs := dv_nbufs
     s; dv_data_cb := dv_data_cb s; dv_mgmt_cbs := dv_mgmt_cbs s;
     dv_free_at_download := dv_free_at_download s; dv_target_delta :=
     dv_target_delta s; dv_bus_delta := dv_bus_delta s; dv_log :=
     dv_log s |}.
Definition set_dv_freelist (f : option Z -> option Z) (s : tx_device) : tx_device :=
  {| dv_tx := dv_tx s; dv_pool := dv_pool s; dv_freelist := f
     (dv_freelist s); dv_num_free := dv_num_free s; dv_nbufs :=
     dv_nbufs s; dv_data_cb := dv_data_cb s; dv_mgmt_cbs :=
     dv_mgmt_cbs s; dv_free_at_download := dv_free_at_download s;
     dv_target_delta := dv_target_delta s; dv_bus_delta :=
     dv_bus_delta s; dv_log := dv_log s |}.
Definition set_dv_num_free (f : Z -> Z) (s : tx_device) : tx_device :=
  {| dv_tx := dv_tx s; dv_pool := dv_pool s; dv_freelist :=
     dv_freelist s; dv_num_free := f (dv_num_free s); dv_nbufs :=
     dv_nbufs s; dv_data_cb := dv_data_cb s; dv_mgmt_cbs :=
     dv_mgmt_cbs s; dv_free_at_download := dv_free_at_download s;
     dv_target_delta := dv_target_delta s; dv_bus_delta :=
     dv_bus_delta s; dv_log := dv_log s |}.
Definition set_dv_nbufs (f : gmap Z nbuf -> gmap Z nbuf) (s : tx_device) : tx_device :=
  {| dv_tx := dv_tx s; dv_pool := dv_pool s; dv_freelist :=
     dv_freelist s; dv_num_free := dv_num_free s; dv_nbufs := f
     (dv_nbufs s); dv_data_cb := dv_data_cb s; dv_mgmt_cbs :=
     dv_mgmt_cbs s; dv_free_at_download := dv_free_at_download s;
     dv_target_delta := dv_target_delta s; dv_bus_delta :=
     dv_bus_delta s; dv_log := dv_log s |}.
Definition set_dv_data_cb (f : bool -> bool) (s : tx_device) : tx_device :=
  {| dv_tx := dv_tx s; dv_pool := dv_pool s; dv_freelist :=
     dv_freelist s; dv_num_free := dv_num_free s; dv_nbufs := dv_nbufs
     s; dv_data_cb := f (dv_data_cb s); dv_mgmt_cbs := dv_mgmt_cbs s;
     dv_free_at_download := dv_free_at_download s; dv_target_delta :=
     dv_target_delta s; dv_bus_delta := dv_bus_delta s; dv_log :=
     dv_log s |}.
Definition set_dv_mgmt_cbs (f : list (bool * bool) -> list (bool * bool)) (s : tx_device) : tx_device :=
  {| dv_tx := dv_tx s; dv_pool := dv_pool s; dv_freelist :=
     dv_freelist s; dv_num_free := dv_num_free s; dv_nbufs := dv_nbufs
     s; dv_data_cb := dv_data_cb s; dv_mgmt_cbs := f (dv_mgmt_cbs s);
     dv_free_at_download := dv_free_at_download s; dv_target_delta :=
     dv_target_delta s; dv_bus_delta := dv_bus_delta s; dv_log :=
     dv_log s |}.
Definition set_dv_free_at_download (f : bool -> bool) (s : tx_device) : tx_device :=
  {| dv_tx := dv_tx s; dv_pool := dv_pool s; dv_freelist :=
     dv_freelist s; dv_num_free := dv_num_free s; dv_nbufs := dv_nbufs
     s; dv_data_cb := dv_data_cb s; dv_mgmt_cbs := dv_mgmt_cbs s;
     dv_free_at_download := f (dv_free_at_download s); dv_target_delta
     := dv_target_delta s; dv_bus_delta := dv_bus_delta s; dv_log :=
     dv_log s |}.
Definition set_dv_target_delta (f : Z -> Z) (s : tx_device) : tx_device :=
  {| dv_tx := dv_tx s; dv_pool := dv_pool s; dv_freelist :=
     dv_freelist s; dv_num_free := dv_num_free s; dv_nbufs := dv_nbufs
     s; dv_data_cb := dv_data_cb s; dv_mgmt_cbs := dv_mgmt_cbs s;
     dv_free_at_download := dv_free_at_download s; dv_target_delta :=
     f (dv_target_delta s); dv_bus_delta := dv_bus_delta s; dv_log :=
     dv_log s |}.
Definition set_dv_bus_delta (f : Z -> Z) (s : tx_device) : tx_device :=
  {| dv_tx := dv_tx s; dv_pool := dv_pool s; dv_freelist :=
     dv_freelist s; dv_num_free := dv_num_free s; dv_nbufs := dv_nbufs
     s; dv_data_cb := dv_data_cb s; dv_mgmt_cbs := dv_mgmt_cbs s;
     dv_free_at_download := dv_free_at_download s; dv_target_delta :=
     dv_target_delta s; dv_bus_delta := f (dv_bus_delta s); dv_log :=
     dv_log s |}.
Definition set_dv_log (f : list tx_event -> list tx_event) (s : tx_device) : tx_device :=
  {| dv_tx := dv_tx s; dv_pool := dv_pool s; dv_freelist :=
     dv_freelist s; dv_num_free := dv_num_free s; dv_nbufs := dv_nbufs
     s; dv_data_cb := dv_data_cb s; dv_mgmt_cbs := dv_mgmt_cbs s;
     dv_free_at_download := dv_free_at_download s; dv_target_delta :=
     dv_target_delta s; dv_bus_delta := dv_bus_delta s; dv_log := f
     (dv_log s) |}.

(** ** Accessors *)
Notation MD := (M tx_device).

Definition get_desc (i : Z) : MD desc := s ← get; lift (znth (dv_pool s) i).
Definition upd_desc (i : Z) (f : desc -> desc) : MD unit :=
  d ← get_desc i; modify (set_dv_pool (fun l => zset l i (f d))).

(** [tx_desc->netbuf], which every reader goes on to dereference: in a free
    descriptor the word is a link. *)
Definition get_netbuf (i : Z) : MD Z :=
  d ← get_desc i; match ds_first d with TdNetbuf b => mret b | TdNext _ => fault end.
(** A dereference. *)
Definition get_nbuf (b : Z) : MD nbuf := s ← get; lift (dv_nbufs s !! b).

Definition emit (e : tx_event) : MD unit := modify (set_dv_log (fun l => l ++ [e])).

(** Give a buffer away. *)
Definition drop_nbuf (b : Z) : MD unit := get_nbuf b;; modify (set_dv_nbufs (delete b)).

Definition adf_nbuf_unmap (b : Z) : MD unit := get_nbuf b;; emit (EvUnmap b).
Definition adf_nbuf_free (b : Z) : MD unit := drop_nbuf b;; emit (EvFree b).
(** A list of buffers. *)
Definition adf_nbuf_tx_free (bs : list Z) (had_error : bool) : MD unit :=
  for_each bs drop_nbuf;; when (negb (bool_decide (bs = []))) (emit (EvTxFree bs had_error)).
