(* ===== verification/DescPool.v ===== *)
(** The pool of transmit descriptors ([ol_tx_desc.c], [ol_tx_desc.h], the set-up
    in [ol_txrx.c]): finding, allocating and freeing a descriptor, freeing a
    descriptor with its frame, and what the queueing layer's use of descriptors
    means for the pool. *)
From Stdlib Require Import ZArith Lia.
From stdpp Require Import prelude gmap list numbers.
From S2P Require Import Prelude.
From S2P Require Import TxTypes.
From S2P Require Import TxCore.
From S2P Require Import TxSched.
From S2P Require Import TxQueue.
From S2P Require Import DescTypes.

(** ** Where a descriptor is

    The pool is an array of pages; [dv_pool] is their concatenation
    (see [DescProps]). *)
Definition ol_tx_desc_find {A} (desc_pages : list (list A)) (page_divider offset_filter : Z)
    (tx_desc_id : Z) : option A :=
  page ← znth desc_pages (Z.shiftr tx_desc_id page_divider);
  znth page (Z.land tx_desc_id offset_filter).

(** [while (desc_per_page)]: the number of significant bits; 32 rounds are
    enough for an [unsigned int]. *)
Fixpoint sig_bit_loop (fuel : nat) (desc_per_page sig_bit : Z) : Z :=
  match fuel with
  | O => sig_bit
  | S fuel' => if desc_per_page =? 0 then sig_bit
               else sig_bit_loop fuel' (Z.shiftr desc_per_page 1) (sig_bit + 1)
  end.
Definition page_divider (desc_per_page : Z) : Z := sig_bit_loop 32 desc_per_page 0 - 1.
Definition offset_filter (desc_per_page : Z) : Z := desc_per_page - 1.

(** [ADF_OS_IS_PWR2] and [adf_os_get_pwr2], for positive values; its loop
    counts the same bits. *)
Definition ADF_OS_IS_PWR2 (value : Z) : bool := Z.lxor value (value - 1) =? Z.shiftl value 1 - 1.
Definition adf_os_get_pwr2 (value : Z) : Z :=
  if ADF_OS_IS_PWR2 value then value else Z.shiftl 1 (sig_bit_loop 32 value 0).

(** [adf_os_mem_multi_pages_alloc]: elements per page and pages, [None] when an
    element does not fit. *)
Definition multi_pages (PAGE_SIZE element_size element_num : Z) : option (Z * Z) :=
  let num_element_per_page := u16 (PAGE_SIZE / element_size) in
  if num_element_per_page =? 0 then None else
  let num_pages := element_num / num_element_per_page in
  Some (num_element_per_page, u16 (if element_num mod num_element_per_page =? 0 then num_pages else num_pages + 1)).

(** [ol_tx_desc_pool_size_hl], from the configured throughput. *)
Definition OL_TX_AVG_FRM_BYTES : Z := 1000.
Definition OL_TX_DESC_POOL_SIZE_MIN_HL : Z := 500.
Definition OL_TX_DESC_POOL_SIZE_MAX_HL : Z := 5000.
Definition ol_tx_desc_pool_size_hl (max_thruput_mbps : Z) : Z :=
  let desc_pool_size := u16 (s32 (s32 (max_thruput_mbps * 1000) ÷ (8 * OL_TX_AVG_FRM_BYTES) * 6 * 8)) in
  let desc_pool_size := if desc_pool_size <? OL_TX_DESC_POOL_SIZE_MIN_HL then OL_TX_DESC_POOL_SIZE_MIN_HL else desc_pool_size in
  if OL_TX_DESC_POOL_SIZE_MAX_HL <? desc_pool_size then OL_TX_DESC_POOL_SIZE_MAX_HL else desc_pool_size.

(** ** The pool at attach

    [htt_tx_desc_alloc i] is whether HTT has a descriptor for the [i]th. *)
Fixpoint pool_attach_loop (n : nat) (i desc_pool_size : Z) (htt_tx_desc_alloc : Z -> bool) : MD bool :=
  match n with
  | O => mret true
  | S n' =>
    upd_desc i (set_ds_first (fun _ => TdNext (if i =? desc_pool_size - 1 then None else Some (i + 1))));;
    if htt_tx_desc_alloc i then
      upd_desc i (set_ds_ref_cnt (fun _ => 0));;
      pool_attach_loop n' (i + 1) desc_pool_size htt_tx_desc_alloc
    else mret false
  end.

Definition pool_attach (desc_pool_size : Z) (htt_tx_desc_alloc : Z -> bool) : MD bool :=
  modify (set_dv_freelist (fun _ => Some 0));;
  ok ← pool_attach_loop (Z.to_nat desc_pool_size) 0 desc_pool_size htt_tx_desc_alloc;
  when ok (modify (set_dv_num_free (fun _ => u16 desc_pool_size)));;
  mret ok.

(** ** References *)
Definition OL_TX_DESC_REF_INIT (i : Z) : MD unit := upd_desc i (set_ds_ref_cnt (fun _ => 0)).
Definition OL_TX_DESC_REF_INC (i : Z) : MD unit := upd_desc i (set_ds_ref_cnt (fun n => s32 (n + 1))).
(** [adf_os_atomic_dec_and_test]. *)
Definition OL_TX_DESC_NO_REFS (i : Z) : MD bool :=
  upd_desc i (set_ds_ref_cnt (fun n => s32 (n - 1)));;
  d ← get_desc i; mret (ds_ref_cnt d =? 0).

(** ** Allocate and free *)

(** [tx_queue.rsrc_cnt]. *)
Definition add_rsrc (n : Z) : MD unit := modify (set_dv_tx (set_pd_rsrc_cnt (fun c => s32 (c + n)))).

Definition ol_tx_desc_alloc (v : Z) : MD (option Z) :=
  s ← get;
  match dv_freelist s with
  | None => mret None
  | Some i =>
    modify (set_dv_num_free (fun n => u16 (n - 1)));;
    d ← get_desc i;
    next ← lift (match ds_first d with TdNext next => Some next | TdNetbuf _ => None end);
    modify (set_dv_freelist (fun _ => next));;
    upd_desc i (set_ds_vdev (fun _ => Some v));;
    upd_desc i (set_ds_vdev_id (fun _ => v));;
    mret (Some i)
  end.

Definition ol_tx_desc_alloc_hl (v : Z) : MD (option Z) :=
  o ← ol_tx_desc_alloc v;
  match o with None => mret None | Some i => add_rsrc (-1);; mret (Some i) end.

Definition __ol_tx_desc_free (i : Z) : MD unit :=
  s ← get;
  upd_desc i (set_ds_first (fun _ => TdNext (dv_freelist s)));;
  modify (set_dv_freelist (fun _ => Some i)).

Definition ol_tx_desc_free (i : Z) : MD unit :=
  __ol_tx_desc_free i;;
  modify (set_dv_num_free (fun n => u16 (n + 1)));;
  upd_desc i (set_ds_vdev (fun _ => None));;
  upd_desc i (set_ds_vdev_id (fun _ => OL_TXRX_INVALID_VDEV_ID)).

(** The fields of [struct ol_txrx_msdu_info_t] that are filled in here. *)
Record msdu_info := mk_msdu_info {
  mi_vdev_id : Z;
  mi_frame_type : Z;
  mi_cksum_offload : Z;
  mi_do_encrypt : bool }.

Definition ADF_NBUF_EXEMPT_NO_EXEMPTION : Z := 0.
Definition ADF_NBUF_EXEMPT_ALWAYS : Z := 1.
Definition ADF_NBUF_EXEMPT_ON_KEY_MAPPING_KEY_UNAVAILABLE : Z := 2.

(** The [switch] on the exemption; an unknown one leaves the field. *)
Definition do_encrypt (exemption : Z) (old : bool) : bool :=
  if (exemption =? ADF_NBUF_EXEMPT_NO_EXEMPTION) ||
     (exemption =? ADF_NBUF_EXEMPT_ON_KEY_MAPPING_KEY_UNAVAILABLE) then true
  else if exemption =? ADF_NBUF_EXEMPT_ALWAYS then false
  else old.

(** The buffer takes the place of the link in the first word. *)
Definition ol_tx_desc_hl (v b htt_pkt_type : Z) (mi : msdu_info) : MD (option Z * msdu_info) :=
  n ← get_nbuf b;
  let mi := mk_msdu_info v htt_pkt_type (nb_cksum n) (do_encrypt (nb_exemption n) (mi_do_encrypt mi)) in
  o ← ol_tx_desc_alloc_hl v;
  match o with
  | None => mret (None, mi)
  | Some i =>
    upd_desc i (set_ds_first (fun _ => TdNetbuf b));;
    upd_desc i (set_ds_pkt_type (fun _ => ol_tx_frm_std));;
    mret (Some i, mi)
  end.

(** ** Freeing a descriptor with its frame *)

(** [TAILQ_FOREACH_SAFE]: the frames are linked in front of [msdus]. *)
Fixpoint frame_list_free_loop (tx_descs msdus : list Z) : MD (list Z) :=
  match tx_descs with
  | [] => mret msdus
  | i :: rest =>
    msdu ← get_netbuf i;
    upd_desc i (set_ds_ref_cnt (fun _ => 0));;
    adf_nbuf_unmap msdu;;
    ol_tx_desc_free i;;
    frame_list_free_loop rest (msdu :: msdus)
  end.

Definition ol_tx_desc_frame_list_free (tx_descs : list Z) (had_error : bool) : MD unit :=
  msdus ← frame_list_free_loop tx_descs [];
  adf_nbuf_tx_free msdus had_error.

Definition ol_tx_desc_frame_free_nonstd (i : Z) (had_error : bool) : MD unit :=
  upd_desc i (set_ds_ref_cnt (fun _ => 0));;
  b ← get_netbuf i;
  get_nbuf b;;
  d ← get_desc i;
  s ← get;
  if (ds_pkt_type d =? ol_tx_frm_no_free) && dv_data_cb s then
    drop_nbuf b;; emit (EvDataCallback b had_error);;
    ol_tx_desc_free i
  else
    adf_nbuf_unmap b;;
    (if ds_pkt_type d =? ol_tx_frm_tso then adf_nbuf_tx_free [b] had_error
     else if (OL_TXRX_MGMT_TYPE_BASE <=? ds_pkt_type d) && negb (ds_pkt_type d =? ol_tx_frm_freed) then
       let mgmt_type := ds_pkt_type d - OL_TXRX_MGMT_TYPE_BASE in
       callbacks ← lift (znth (dv_mgmt_cbs s) mgmt_type);
       when (callbacks.2) (emit (EvOtaAckCallback mgmt_type b had_error));;
       adf_nbuf_free b
     else adf_nbuf_tx_free [b] had_error);;
    ol_tx_desc_free i.

(** ** The vdev of a descriptor

    [ol_txrx_vdev_detach] takes the vdev out of all descriptors. *)
Fixpoint vdev_detach_descs_loop (n : nat) (i v : Z) : MD unit :=
  match n with
  | O => skip
  | S n' =>
    d ← get_desc i;
    when (bool_decide (ds_vdev d = Some v)) (upd_desc i (set_ds_vdev (fun _ => None)));;
    vdev_detach_descs_loop n' (i + 1) v
  end.
Definition vdev_detach_descs (v : Z) : MD unit :=
  s ← get; vdev_detach_descs_loop (Z.to_nat (pd_desc_pool_size (dv_tx s))) 0 v.

Definition ol_tx_desc_find_check (tx_desc_id : Z) : MD (option Z) :=
  s ← get;
  if pd_desc_pool_size (dv_tx s) <=? tx_desc_id then mret None else
  d ← get_desc tx_desc_id;
  match ds_vdev d with None => mret None | Some _ => mret (Some tx_desc_id) end.

(** ** The queueing layer on top of the pool

    The queues hold descriptors by value ([tx_desc]); their operations log the
    descriptors they send and those they free ([pd_sent], [pd_freed]).  Here the
    log of one operation is carried out: a frame on its way to the target gets
    two references, a frame that is freed goes through [free]. *)
Definition forget_logs (t : tx_pdev) : tx_pdev := set_pd_sent (fun _ => []) (set_pd_freed (fun _ => []) t).

Definition take_refs (i : Z) : MD unit :=
  OL_TX_DESC_REF_INIT i;; OL_TX_DESC_REF_INC i;; OL_TX_DESC_REF_INC i.

Definition on_tx (free : list Z -> MD unit) (m : M tx_pdev unit) : MD unit :=
  s ← get;
  '(_, t) ← lift (m (forget_logs (dv_tx s)));
  modify (set_dv_tx (fun _ => t));;
  for_each (td_id <$> concat (pd_sent t)) take_refs;;
  free (td_id <$> pd_freed t).

(** Each as a single frame. *)
Definition free_each (had_error : bool) (ids : list Z) : MD unit :=
  for_each ids (fun i => ol_tx_desc_frame_free_nonstd i had_error).
Definition free_list (ids : list Z) : MD unit := ol_tx_desc_frame_list_free ids true.

Section Queueing.
Context `{HttTx}.

Definition dev_sched : MD unit := on_tx (free_each true) ol_tx_sched.
Definition dev_enqueue (q : txq_id) (d : tx_desc) (ext_tid : Z) : MD unit :=
  on_tx free_list (ol_tx_enqueue q d ext_tid).
Definition dev_queue_free (q : txq_id) (tid : Z) : MD unit := on_tx (free_each false) (ol_tx_queue_free q tid).
Definition dev_pause (q : txq_id) (tid : Z) : MD unit := on_tx (free_each true) (txq_pause q tid).
Definition dev_unpause (q : txq_id) (tid : Z) : MD unit := on_tx (free_each true) (txq_unpause q tid).
End Queueing.
