(* ===== verification/DescSend.v ===== *)
(** Sending frames and completing them ([ol_tx_send.c]): the two references of a
    frame on its way to the target, the end of its download, the completion
    messages of the target, the credit of queue groups, and the discarding of
    what the target never answers. *)
From Stdlib Require Import ZArith Lia.
From stdpp Require Import prelude gmap list numbers.
From S2P Require Import Prelude.
From S2P Require Import TxTypes.
From S2P Require Import TxCore.
From S2P Require Import TxSched.
From S2P Require Import TxQueue.
From S2P Require Import DescTypes.
From S2P Require Import DescPool.

(** Run an operation of the queueing layer that neither sends nor frees. *)
Definition lift_tx {A} (m : M tx_pdev A) : MD A :=
  s ← get; '(a, t) ← lift (m (dv_tx s)); modify (set_dv_tx (fun _ => t));; mret a.

Definition add_credit (n : Z) : MD unit :=
  modify (set_dv_tx (set_pd_target_tx_credit (fun c => s32 (c + n)))).

Section Send.
Context `{HttTx}.

(** ** Sending single frames *)
Definition ol_tx_send_base (i : Z) (msdu : tx_desc) : MD Z :=
  let msdu_credit_consumed := htt_tx_msdu_credit msdu in
  add_credit (- msdu_credit_consumed);;
  take_refs i;;
  mret msdu_credit_consumed.

(** [ol_tx_send] and [ol_tx_send_nonstd] differ in the HTT function they call;
    both end in [htt_tx_send_base]. *)
Definition ol_tx_send (i : Z) (msdu : tx_desc) : MD unit :=
  msdu_credit_consumed ← ol_tx_send_base i msdu;
  when (htt_tx_send_base msdu)
    (add_credit msdu_credit_consumed;; ol_tx_desc_frame_free_nonstd i true).

(** ** The end of the download

    [ok] is [status == A_OK]; [msdu] the buffer that was downloaded. *)
Definition ol_tx_download_done_base (ok : bool) (msdu : tx_desc) (i : Z) : MD unit :=
  d ← get_desc i;
  s ← get;
  when (OL_TXRX_MGMT_TYPE_BASE <=? ds_pkt_type d)
    (callbacks ← lift (znth (dv_mgmt_cbs s) (ds_pkt_type d - OL_TXRX_MGMT_TYPE_BASE));
     when (callbacks.1)
       (b ← get_netbuf i; get_nbuf b;;
        emit (EvDownloadCallback (ds_pkt_type d - OL_TXRX_MGMT_TYPE_BASE) b (negb ok))));;
  if negb ok then
    add_credit (htt_tx_msdu_credit msdu);;
    ol_tx_desc_frame_free_nonstd i true
  else
    z ← OL_TX_DESC_NO_REFS i;
    when z (d ← get_desc i; ol_tx_desc_frame_free_nonstd i (negb (ds_status d =? htt_tx_status_ok))).

Definition ol_tx_download_done_hl_retain (ok : bool) (msdu : tx_desc) (i : Z) : MD unit :=
  ol_tx_download_done_base ok msdu i.

Definition ol_tx_download_done_hl_free (ok : bool) (msdu : tx_desc) (i : Z) : MD unit :=
  ol_tx_download_done_base ok msdu i;;
  d ← get_desc i;
  when (negb (ds_pkt_type d =? ol_tx_frm_no_free) && (ds_pkt_type d <? OL_TXRX_MGMT_TYPE_BASE))
    (add_rsrc 1;; ol_tx_desc_frame_free_nonstd i (negb ok)).

(** The function HTT registers for it ([htt_attach]). *)
Definition tx_send_complete_part2 (ok : bool) (msdu : tx_desc) (i : Z) : MD unit :=
  s ← get;
  if dv_free_at_download s then ol_tx_download_done_hl_free ok msdu i
  else ol_tx_download_done_hl_retain ok msdu i.

(** ** Group credit of a completed frame *)
Fixpoint update_group_loop (grps : list txq_group) (i v credit : Z) (absolute : bool) : M tx_pdev unit :=
  match grps with
  | [] => skip
  | g :: rest =>
    if ol_tx_vdev_has_tx_queue_group g v then ol_txrx_update_group_credit i credit absolute
    else update_group_loop rest (i + 1) v credit absolute
  end.

(** The groups are [txq_grps], all [OL_TX_MAX_TXQ_GROUPS] of them. *)
Definition ol_tx_desc_update_group_credit (tx_desc_id credit : Z) (absolute : bool) : MD unit :=
  s ← get;
  if pd_desc_pool_size (dv_tx s) <=? tx_desc_id then skip else
  d ← get_desc tx_desc_id;
  lift_tx (update_group_loop (pd_txq_grps (dv_tx s)) 0 (ds_vdev_id d) credit absolute).

(** ** Completions

    [ol_tx_msdu_complete]: standard frames are collected in [tx_descs], the
    others are freed at once. *)
Definition ol_tx_msdu_complete (i : Z) (tx_descs : list Z) (status : Z) : MD (list Z) :=
  d ← get_desc i;
  if ds_pkt_type d =? ol_tx_frm_std then mret (tailq_insert_tail i tx_descs)
  else ol_tx_desc_frame_free_nonstd i (negb (status =? htt_tx_status_ok));; mret tx_descs.

(** The body of the loop for one id of the message. *)
Definition complete_msdu (status : Z) (tx_desc_id : Z) (tx_descs : list Z) : MD (list Z) :=
  s ← get;
  if pd_desc_pool_size (dv_tx s) <=? tx_desc_id then mret tx_descs else
  upd_desc tx_desc_id (set_ds_status (fun _ => status));;
  netbuf ← get_netbuf tx_desc_id;
  ol_tx_desc_update_group_credit tx_desc_id 1 false;;
  get_nbuf netbuf;;
  z ← OL_TX_DESC_NO_REFS tx_desc_id;
  if (z : bool) then ol_tx_msdu_complete tx_desc_id tx_descs status else mret tx_descs.

(** The loop over the ids of a message, [for (i = 0; i < num_msdus; i++)]. *)
Fixpoint msdu_loop (body : Z -> list Z -> MD (list Z)) (n : nat) (i : Z) (desc_ids tx_descs : list Z) : MD (list Z) :=
  match n with
  | O => mret tx_descs
  | S n' =>
    tx_desc_id ← lift (znth desc_ids i);
    tx_descs ← body tx_desc_id tx_descs;
    msdu_loop body n' (i + 1) desc_ids tx_descs
  end.

Definition ol_tx_completion_handler (num_msdus status : Z) (desc_ids : list Z) : MD unit :=
  dev_sched;;
  tx_descs ← msdu_loop (complete_msdu status) (Z.to_nat num_msdus) 0 desc_ids [];
  ol_tx_desc_frame_list_free tx_descs (negb (status =? htt_tx_status_ok));;
  add_rsrc num_msdus;;
  dev_sched.

Definition ol_tx_single_completion_handler (status tx_desc_id : Z) : MD unit :=
  o ← ol_tx_desc_find_check tx_desc_id;
  match o with
  | None => skip
  | Some i =>
    upd_desc i (set_ds_status (fun _ => status));;
    netbuf ← get_netbuf i;
    get_nbuf netbuf;;
    z ← OL_TX_DESC_NO_REFS i;
    when z (ol_tx_desc_frame_free_nonstd i (negb (status =? htt_tx_status_ok)));;
    add_rsrc 1;;
    dev_sched
  end.

(** Frames the target gives back for inspection. *)
Definition inspect_msdu (tx_desc_id : Z) (tx_descs : list Z) : MD (list Z) :=
  s ← get;
  if pd_desc_pool_size (dv_tx s) <=? tx_desc_id then mret tx_descs else
  z ← OL_TX_DESC_NO_REFS tx_desc_id;
  if (z : bool) then ol_tx_msdu_complete tx_desc_id tx_descs htt_tx_status_ok else mret tx_descs.

(** The last argument of the list free is [htt_tx_status_discard], not 0. *)
Definition ol_tx_inspect_handler (num_msdus : Z) (desc_ids : list Z) : MD unit :=
  tx_descs ← msdu_loop inspect_msdu (Z.to_nat num_msdus) 0 desc_ids [];
  ol_tx_desc_frame_list_free tx_descs (negb (htt_tx_status_discard =? 0));;
  dev_sched.

Definition ol_tx_credit_completion_handler (credits : Z) : MD unit :=
  when (0 <? credits) (lift_tx (ol_tx_target_credit_update credits));;
  dev_sched.

(** ** Frames the target never answered *)
Fixpoint discard_target_loop (n : nat) (i : Z) : MD unit :=
  match n with
  | O => skip
  | S n' =>
    d ← get_desc i;
    when (negb (ds_ref_cnt d =? 0)) (ol_tx_desc_frame_free_nonstd i true);;
    discard_target_loop n' (i + 1)
  end.

Definition ol_tx_discard_target_frms : MD unit :=
  s ← get; discard_target_loop (Z.to_nat (pd_desc_pool_size (dv_tx s))) 0.
End Send.
