(* ===== verification/DescHtt.v ===== *)
(** The part of HTT that ends transmissions ([htt_t2h.c], [htt_h2t.c],
    [htt_tx.c]): the credit that the target grants and the bus frees, which only
    becomes usable together, and the messages of the target that complete
    frames or grant credit. *)
From Stdlib Require Import ZArith Lia.
From stdpp Require Import prelude gmap list numbers.
From S2P Require Import Prelude.
From S2P Require Import TxTypes.
From S2P Require Import TxCore.
From S2P Require Import TxSched.
From S2P Require Import TxQueue.
From S2P Require Import DescTypes.
From S2P Require Import DescPool.
From S2P Require Import DescSend.

(** ** Message fields ([htt.h]) *)
Definition field (m s w : Z) : Z := Z.shiftr (Z.land w m) s.
Definition HTT_TX_COMPL_IND_STATUS_GET : Z -> Z := field 0x00000700 8.
Definition HTT_TX_COMPL_IND_NUM_GET : Z -> Z := field 0x00ff0000 16.
Definition HTT_TX_CREDIT_SIGN_BIT_GET : Z -> Z := field 0x00000100 8.
Definition HTT_TX_CREDIT_TXQ_GRP_GET : Z -> Z := field 0x00008000 15.
Definition HTT_TX_CREDIT_DELTA_ABS_GET : Z -> Z := field 0xffff0000 16.
Definition HTT_TXQ_GROUP_CREDIT_COUNT_GET : Z -> Z := field 0x00003fff 0.
Definition HTT_TXQ_GROUP_SIGN_GET : Z -> Z := field 0x00004000 14.
Definition HTT_TXQ_GROUP_ABS_GET : Z -> Z := field 0x00008000 15.
Definition HTT_TXQ_GROUP_ID_GET : Z -> Z := field 0x00ff0000 16.
Definition HTT_TXQ_GROUP_EXT_GET : Z -> Z := field 0x80000000 31.
Definition HTT_TXQ_GROUP_AC_MASK_GET : Z -> Z := field 0x0000ffff 0.
Definition HTT_TXQ_GROUP_VDEV_ID_MASK_GET : Z -> Z := field 0xffff0000 16.

Definition HTT_TX_COMPL_HEAD_SZ : Z := 4.
Definition HTT_TX_COMPL_BYTES_PER_MSDU_ID : Z := 2.
Definition HTT_TX_COMPL_INV_MSDU_ID : Z := 0xffff.
Definition HTT_TX_CREDIT_MSG_BYTES : Z := 4.
Definition MAX_TARGET_TX_CREDIT : Z := 204800.
(** Without [QCA_TXRX_PERF]. *)
Definition HTT_MAX_BUS_CREDIT : Z := 33.

(** ** The credit of the bus and of the target *)
Definition add_target_delta (n : Z) : MD unit := modify (set_dv_target_delta (fun c => s32 (c + n))).
Definition add_bus_delta (n : Z) : MD unit := modify (set_dv_bus_delta (fun c => s32 (c + n))).

(** The end of [htt_tx_attach]. *)
Definition htt_tx_attach_credit : MD unit :=
  modify (set_dv_target_delta (fun _ => 0));;
  modify (set_dv_bus_delta (fun _ => 0));;
  add_bus_delta HTT_MAX_BUS_CREDIT.

Definition htt_tx_credit_update : MD Z :=
  s ← get;
  let credit_delta := Z.min (dv_target_delta s) (dv_bus_delta s) in
  when (0 <? credit_delta) (add_target_delta (- credit_delta);; add_bus_delta (- credit_delta));;
  mret credit_delta.

Definition target_credit_update (credit_delta : Z) : MD unit := lift_tx (ol_tx_target_credit_update credit_delta).

(** [old_credit + n] is out of range. *)
Definition invalid_credit (old_credit n : Z) : bool :=
  (MAX_TARGET_TX_CREDIT <? old_credit + n) || (old_credit + n <? - MAX_TARGET_TX_CREDIT).

(** The credit of a completion message for [num_msdus] frames. *)
Definition tx_compl_credit (num_msdus : Z) : MD unit :=
  s ← get;
  if invalid_credit (dv_target_delta s) num_msdus then skip
  else if dv_free_at_download s then
    add_target_delta num_msdus;;
    credit_delta ← htt_tx_credit_update;
    when (negb (credit_delta =? 0)) (target_credit_update credit_delta)
  else target_credit_update num_msdus.

(** The credit of the completion of a management frame. *)
Definition mgmt_compl_credit : MD unit :=
  s ← get;
  credit_delta ← (if dv_free_at_download s then add_target_delta 1;; htt_tx_credit_update else mret 1);
  when (0 <? credit_delta) (target_credit_update credit_delta).

(** The surplus of the target's credit that still fits the bus. *)
Definition take_surplus (room : Z) : MD unit :=
  s ← get;
  when (0 <? dv_target_delta s)
    (let delta2 := if dv_target_delta s <? room then dv_target_delta s else room in
     add_target_delta (- delta2);;
     add_credit delta2;;
     add_bus_delta (- delta2)).

(** A credit message: returns the credit passed on; [None] when the message is
    ignored. *)
Definition credit_update_credit (htt_credit_delta : Z) : MD (option Z) :=
  s ← get;
  if invalid_credit (dv_target_delta s) htt_credit_delta then mret None
  else if dv_free_at_download s then
    add_target_delta htt_credit_delta;;
    htt_credit_delta ← htt_tx_credit_update;
    s ← get;
    let target_tx_credit := pd_target_tx_credit (dv_tx s) in
    (if 0 <=? htt_credit_delta then
       when (target_tx_credit + htt_credit_delta <? HTT_MAX_BUS_CREDIT)
         (take_surplus (HTT_MAX_BUS_CREDIT - target_tx_credit - htt_credit_delta))
     else
       when (target_tx_credit <? HTT_MAX_BUS_CREDIT)
         (take_surplus (HTT_MAX_BUS_CREDIT - target_tx_credit)));;
    mret (Some htt_credit_delta)
  else mret (Some htt_credit_delta).

(** The credit the bus gives back when a download ends. *)
Definition send_complete_credit : MD Z :=
  s ← get;
  if dv_free_at_download s then add_bus_delta 1;; htt_tx_credit_update else mret 0.

Section Messages.
Context `{HttTx}.

(** ** The end of a download

    [pPktContext], the continuation, is [tx_send_complete_part2] for a frame. *)
Definition htt_h2t_send_complete (ok : bool) (msdu : tx_desc) (msdu_id : Z) : MD unit :=
  tx_send_complete_part2 ok msdu msdu_id;;
  credit_delta ← send_complete_credit;
  when (negb (credit_delta =? 0)) (ol_tx_credit_completion_handler credit_delta).

(** ** Completion messages

    [hdr] is the first word, [payload] what follows in the buffer, as 16-bit
    ids; an odd number of ids is read with the id behind the last. *)
Definition swapped_payload (num_msdus : Z) (payload : list Z) : option (list Z) :=
  if Z.land num_msdus 1 =? 0 then Some payload
  else p ← znth payload num_msdus;
       Some (if p =? HTT_TX_COMPL_INV_MSDU_ID then payload else zset payload (num_msdus - 1) p).

Definition htt_t2h_tx_compl_ind (hdr : Z) (payload : list Z) (msg_len : Z) : MD unit :=
  let status := HTT_TX_COMPL_IND_STATUS_GET hdr in
  let num_msdus := HTT_TX_COMPL_IND_NUM_GET hdr in
  if msg_len <? num_msdus * HTT_TX_COMPL_BYTES_PER_MSDU_ID + HTT_TX_COMPL_HEAD_SZ then skip else
  payload ← lift (swapped_payload num_msdus payload);
  s ← get;
  if dv_free_at_download s && (status =? htt_tx_status_fail_notify) then skip else
  tx_compl_credit num_msdus;;
  ol_tx_completion_handler num_msdus status payload.

Definition htt_t2h_mgmt_tx_compl_ind (desc_id status : Z) : MD unit :=
  mgmt_compl_credit;;
  let desc_id := u16 desc_id in
  ol_tx_desc_update_group_credit desc_id 1 false;;
  ol_tx_single_completion_handler status desc_id.

Definition htt_t2h_tx_inspect_ind (hdr : Z) (payload : list Z) (msg_len : Z) : MD unit :=
  let num_msdus := HTT_TX_COMPL_IND_NUM_GET hdr in
  if msg_len <? num_msdus * HTT_TX_COMPL_BYTES_PER_MSDU_ID + HTT_TX_COMPL_HEAD_SZ then skip else
  payload ← lift (swapped_payload num_msdus payload);
  ol_tx_inspect_handler num_msdus payload.

(** ** Credit messages

    The groups that follow the first word, two words each; the walk trusts the
    extension bit, so the fuel is the number of words. *)
Fixpoint group_credit_loop (fuel : nat) (words : list Z) : M tx_pdev unit :=
  match fuel with
  | O => fault
  | S fuel' =>
    match words with
    | w1 :: w2 :: rest =>
      let group_credit_abs := HTT_TXQ_GROUP_CREDIT_COUNT_GET w1 in
      let group_credit := if HTT_TXQ_GROUP_SIGN_GET w1 =? 0 then group_credit_abs else - group_credit_abs in
      ol_txrx_update_tx_queue_groups (HTT_TXQ_GROUP_ID_GET w1) group_credit
        (negb (HTT_TXQ_GROUP_ABS_GET w1 =? 0)) (HTT_TXQ_GROUP_VDEV_ID_MASK_GET w2) (HTT_TXQ_GROUP_AC_MASK_GET w2);;
      (if HTT_TXQ_GROUP_EXT_GET w1 =? 0 then skip else group_credit_loop fuel' rest)
    | _ => fault
    end
  end.

Definition htt_tx_group_credit_process (hdr : Z) (words : list Z) : M tx_pdev unit :=
  when (negb (HTT_TX_CREDIT_TXQ_GRP_GET hdr =? 0)) (group_credit_loop (length words) words).

Definition htt_t2h_tx_credit_update_ind (hdr : Z) (words : list Z) (msg_len : Z) : MD unit :=
  if msg_len <? HTT_TX_CREDIT_MSG_BYTES then skip else
  let htt_credit_delta_abs := HTT_TX_CREDIT_DELTA_ABS_GET hdr in
  let htt_credit_delta :=
    if HTT_TX_CREDIT_SIGN_BIT_GET hdr =? 0 then htt_credit_delta_abs else - htt_credit_delta_abs in
  o ← credit_update_credit htt_credit_delta;
  match o with
  | None => skip
  | Some htt_credit_delta =>
    lift_tx (htt_tx_group_credit_process hdr words);;
    ol_tx_credit_completion_handler htt_credit_delta
  end.
End Messages.
