(* ===== verification/DescOps.v ===== *)
(** The books of the descriptor pool.  [DevRep s fl L B dl tgt]: [fl] is the free
    list; the other descriptors are in a queue, with the host's download software
    ([dl]) or the target ([tgt]), or in the hands of the function that runs
    ([L]); every buffer belongs to one descriptor or to that function ([B]).
    This file has the predicate and its primitive changes.

    The primitive changes of the books, and the operations on single
    descriptors: each equation gives the state a call ends in, each [DevRep]
    lemma the books of that state. *)
From Stdlib Require Import ZArith Lia.
From stdpp Require Import prelude gmap list numbers.
From S2P Require Import Prelude.
From S2P Require Import TxTypes.
From S2P Require Import TxCore.
From S2P Require Import TxSched.
From S2P Require Import TxQueue.
From S2P Require Import TxSchedSpec.
From S2P Require Import TxInv.
From S2P Require Import TxSchedInv.
From S2P Require Import TxDispatch.
From S2P Require Import TxInit.
From S2P Require Import DescTypes.
From S2P Require Import DescPool.

(** ** The predicate *)
Fixpoint free_chain (pool : list desc) (o : option Z) (fl : list Z) : Prop :=
  match fl with
  | [] => o = None
  | i :: fl' => o = Some i /\ exists d next, znth pool i = Some d /\ ds_first d = TdNext next /\ free_chain pool next fl'
  end.

Definition in_set (i : Z) (X : gset Z) : Z := if decide (i ∈ X) then 1 else 0.
(** One reference per holder. *)
Definition refs (dl tgt : gset Z) (i : Z) : Z := in_set i dl + in_set i tgt.

Definition queued (s : tx_device) : list tx_desc := all_frames (pd_txqs (dv_tx s)).

(** The frame types the driver sends. *)
Definition type_ok (d : desc) : Prop :=
  0 <= ds_pkt_type d < OL_TXRX_MGMT_TYPE_BASE + OL_TXRX_MGMT_NUM_TYPES.

Definition owns (s : tx_device) (i b : Z) : Prop :=
  exists d, znth (dv_pool s) i = Some d /\ ds_first d = TdNetbuf b.

(** What a queue knows of a descriptor. *)
Definition describes (s : tx_device) (t : tx_desc) : Prop :=
  exists b n, owns s (td_id t) b /\ dv_nbufs s !! b = Some n /\ td_len t = nb_len n /\ td_id_storage t = nb_id_storage n.

Record DevRep (s : tx_device) (fl L B : list Z) (dl tgt : gset Z) : Prop := {
  dr_size : zlen (dv_pool s) = pd_desc_pool_size (dv_tx s);
  dr_small : zlen (dv_pool s) < 65536;
  dr_chain : free_chain (dv_pool s) (dv_freelist s) fl;
  dr_num : dv_num_free s = zlen fl;
  dr_parts : fl ++ (td_id <$> queued s) ++ elements (dl ∪ tgt) ++ L ≡ₚ zseq (zlen (dv_pool s));
  dr_refs : forall i d, znth (dv_pool s) i = Some d -> ds_ref_cnt d = refs dl tgt i;
  dr_bufs : forall i d, znth (dv_pool s) i = Some d -> i ∉ fl ->
    type_ok d /\ exists b, ds_first d = TdNetbuf b /\ is_Some (dv_nbufs s !! b);
  dr_inj : forall i j b, owns s i b -> owns s j b -> i = j;
  dr_heap : forall b, is_Some (dv_nbufs s !! b) -> b ∈ B \/ exists i, owns s i b;
  dr_held : NoDup B /\ forall b, b ∈ B -> is_Some (dv_nbufs s !! b) /\ forall i, ~ owns s i b;
  dr_queued : forall t, t ∈ queued s -> describes s t;
  dr_cbs : zlen (dv_mgmt_cbs s) = OL_TXRX_MGMT_NUM_TYPES }.

(** ** Facts *)
Section Facts.
Implicit Types (s : tx_device) (fl L B : list Z) (dl tgt : gset Z).

Lemma zseq_len n : 0 <= n -> zlen (zseq n) = n.
Proof. intros. unfold zlen, zseq. rewrite length_fmap, length_seq. lia. Qed.

Lemma refs_out dl tgt i : i ∉ dl ∪ tgt -> refs dl tgt i = 0.
Proof. intros Hi. unfold refs, in_set. rewrite !decide_False by set_solver. done. Qed.
Lemma refs_range dl tgt i : 0 <= refs dl tgt i <= 2.
Proof. unfold refs, in_set. destruct (decide (i ∈ dl)), (decide (i ∈ tgt)); lia. Qed.

Lemma in_set_del i X : in_set i (X ∖ {[i]}) = 0.
Proof. unfold in_set. rewrite decide_False; [done|set_solver]. Qed.
Lemma in_set_in i X : i ∈ X -> in_set i X = 1.
Proof. intros. unfold in_set. by rewrite decide_True. Qed.
Lemma in_set_out i X : i ∉ X -> in_set i X = 0.
Proof. intros. unfold in_set. by rewrite decide_False. Qed.
Lemma in_set_ne i j X : j <> i -> in_set j (X ∖ {[i]}) = in_set j X.
Proof. intros. unfold in_set. destruct (decide (j ∈ X)); [rewrite decide_True by set_solver|rewrite decide_False by set_solver]; done. Qed.
Lemma in_set_add_ne i j X : j <> i -> in_set j ({[i]} ∪ X) = in_set j X.
Proof. intros. unfold in_set. destruct (decide (j ∈ X)); [rewrite decide_True by set_solver|rewrite decide_False by set_solver]; done. Qed.
Lemma in_set_add i X : in_set i ({[i]} ∪ X) = 1.
Proof. apply in_set_in. set_solver. Qed.

(** Every descriptor is in one place. *)
Lemma DevRep_nodup s fl L B dl tgt : DevRep s fl L B dl tgt -> NoDup (fl ++ (td_id <$> queued s) ++ elements (dl ∪ tgt) ++ L).
Proof. intros HR. rewrite (dr_parts _ _ _ _ _ _ HR). apply zseq_nodup. Qed.

Lemma DevRep_apart s fl L B dl tgt i : DevRep s fl L B dl tgt ->
  (i ∈ dl ∪ tgt -> i ∉ fl /\ i ∉ L /\ i ∉ td_id <$> queued s) /\ (i ∈ L -> i ∉ fl /\ i ∉ dl ∪ tgt /\ i ∉ td_id <$> queued s) /\
  (i ∈ td_id <$> queued s -> i ∉ fl).
Proof.
  intros HR. pose proof (DevRep_nodup _ _ _ _ _ _ HR) as Hnd.
  rewrite !list.NoDup_app in Hnd. setoid_rewrite elem_of_app in Hnd. setoid_rewrite elem_of_app in Hnd.
  setoid_rewrite elem_of_elements in Hnd. destruct Hnd as (_ & H1 & _ & H2 & _ & H3 & _). set_unfold. naive_solver.
Qed.

Lemma DevRep_range s fl L B dl tgt i : DevRep s fl L B dl tgt -> i ∈ fl \/ i ∈ dl ∪ tgt \/ i ∈ L ->
  exists d, znth (dv_pool s) i = Some d /\ 0 <= i < zlen (dv_pool s).
Proof.
  intros HR Hi. assert (Hr : i ∈ zseq (zlen (dv_pool s))).
  { rewrite <- (dr_parts _ _ _ _ _ _ HR), !elem_of_app, elem_of_elements. tauto. }
  apply zseq_elem in Hr. destruct (znth_in_range (dv_pool s) i Hr) as [d Hd]. eauto.
Qed.

(** A descriptor that is not free has a live buffer. *)
Lemma DevRep_owner s fl L B dl tgt i : DevRep s fl L B dl tgt -> i ∈ dl ∪ tgt \/ i ∈ L ->
  exists d b n, znth (dv_pool s) i = Some d /\ 0 <= i < zlen (dv_pool s) /\ ds_first d = TdNetbuf b /\ dv_nbufs s !! b = Some n /\
    type_ok d /\ ds_ref_cnt d = refs dl tgt i /\ i ∉ fl.
Proof.
  intros HR Hi. destruct (DevRep_range _ _ _ _ _ _ i HR ltac:(tauto)) as (d & Hd & Hr).
  assert (Hf : i ∉ fl) by (destruct (DevRep_apart _ _ _ _ _ _ i HR) as (? & ? & ?); naive_solver).
  destruct (dr_bufs _ _ _ _ _ _ HR i d Hd Hf) as (Ht & b & Hb & n & Hn).
  exists d, b, n. split_and!; try done; try lia. by apply (dr_refs _ _ _ _ _ _ HR).
Qed.

Lemma DevRep_perm s fl L L' B B' dl tgt : DevRep s fl L B dl tgt -> L ≡ₚ L' -> B ≡ₚ B' -> DevRep s fl L' B' dl tgt.
Proof.
  intros [H1 H2 H3 H4 H5 H6 H7 H8 H9 H10 H11 H12] HL HB. constructor; try done.
  - by rewrite <- HL.
  - intros b Hb. rewrite <- HB. by apply H9.
  - destruct H10 as [Hn Hb]. split; [by rewrite <- HB|]. intros b. rewrite <- HB. apply Hb.
Qed.

(** The log and the credits of HTT are not part of the books. *)
Lemma DevRep_frame s s' fl L B dl tgt :
  DevRep s fl L B dl tgt -> dv_tx s' = dv_tx s -> dv_pool s' = dv_pool s -> dv_freelist s' = dv_freelist s ->
  dv_num_free s' = dv_num_free s -> dv_nbufs s' = dv_nbufs s -> dv_mgmt_cbs s' = dv_mgmt_cbs s -> DevRep s' fl L B dl tgt.
Proof.
  intros [H1 H2 H3 H4 H5 H6 H7 H8 H9 H10 H11 H12] E1 E2 E3 E4 E5 E6.
  constructor; unfold queued, describes, owns in *; rewrite ?E1, ?E2, ?E3, ?E4, ?E5, ?E6; done.
Qed.
End Facts.

(** ** Changing one descriptor *)
Definition put_desc (i : Z) (d : desc) (s : tx_device) : tx_device := set_dv_pool (fun l => zset l i d) s.

Section Primitive.
Implicit Types (s : tx_device) (fl L B : list Z) (dl tgt : gset Z) (d : desc).

Lemma upd_desc_run s i d f : znth (dv_pool s) i = Some d -> upd_desc i f s = Some (tt, put_desc i (f d) s).
Proof. intros Hd. unfold upd_desc, get_desc, mbind, M_bind, get, lift. by rewrite Hd. Qed.
Lemma get_desc_run s i d : znth (dv_pool s) i = Some d -> get_desc i s = Some (d, s).
Proof. intros Hd. unfold get_desc, mbind, M_bind, get, lift. by rewrite Hd. Qed.
Lemma get_netbuf_run s i d b : znth (dv_pool s) i = Some d -> ds_first d = TdNetbuf b -> get_netbuf i s = Some (b, s).
Proof. intros Hd Hb. unfold get_netbuf, mbind, M_bind. rewrite (get_desc_run _ _ _ Hd). by rewrite Hb. Qed.
Lemma get_nbuf_run s b n : dv_nbufs s !! b = Some n -> get_nbuf b s = Some (n, s).
Proof. intros Hn. unfold get_nbuf, mbind, M_bind, get, lift. by rewrite Hn. Qed.

Lemma znth_put s i d d0 : znth (dv_pool s) i = Some d0 -> znth (dv_pool (put_desc i d s)) i = Some d.
Proof. intros H%znth_lt_Some. cbn. by apply znth_zset_eq. Qed.
Lemma znth_put_ne s i j d d0 : znth (dv_pool s) i = Some d0 -> j <> i -> znth (dv_pool (put_desc i d s)) j = znth (dv_pool s) j.
Proof. intros H%znth_lt_Some ?. cbn. by apply znth_zset_ne. Qed.
Lemma put_put s i d d' : put_desc i d (put_desc i d' s) = put_desc i d s.
Proof. unfold put_desc, set_dv_pool, zset. cbn. by rewrite list_insert_insert_eq. Qed.
Lemma put_id s i d : znth (dv_pool s) i = Some d -> put_desc i d s = s.
Proof. intros [_ H]%znth_Some. unfold put_desc, set_dv_pool, zset. rewrite list_insert_id by done. by destruct s. Qed.

Lemma znth_zset_cases (l : list desc) i j d d0 x :
  znth l i = Some d0 -> znth (zset l i d) j = Some x -> (j = i /\ x = d) \/ (j <> i /\ znth l j = Some x).
Proof.
  intros Hi Hj. apply znth_lt_Some in Hi. destruct (decide (j = i)) as [->|Hne].
  - rewrite znth_zset_eq in Hj by done. left. by simplify_eq.
  - rewrite znth_zset_ne in Hj by done. by right.
Qed.

(** ** The free list *)
Lemma chain_put pool i d d' o fl :
  znth pool i = Some d -> (ds_first d' = ds_first d \/ i ∉ fl) -> free_chain pool o fl -> free_chain (zset pool i d') o fl.
Proof.
  intros Hi. revert o. induction fl as [|j fl IH]; intros o Hor Hc; [done|].
  destruct Hc as (-> & x & next & Hx & Hn & Hc). split; [done|].
  destruct (decide (j = i)) as [->|Hne].
  - exists d', next. rewrite znth_zset_eq by (by apply znth_lt_Some in Hi). simplify_eq.
    destruct Hor as [E|Hni]; [|by set_solver]. split_and!; [done|congruence|]. apply IH; [by left|done].
  - exists x, next. rewrite znth_zset_ne by (try done; by apply znth_lt_Some in Hi). split_and!; try done.
    apply IH; [|done]. destruct Hor; [by left|right; set_solver].
Qed.

Lemma chain_first pool o fl i d : free_chain pool o fl -> i ∈ fl -> znth pool i = Some d -> exists next, ds_first d = TdNext next.
Proof.
  revert o. induction fl as [|j fl IH]; intros o Hc Hi Hd; [by apply not_elem_of_nil in Hi|].
  destruct Hc as (-> & x & next & Hx & Hn & Hc). apply elem_of_cons in Hi as [->|Hi]; [|by eapply IH].
  simplify_eq. eauto.
Qed.

Lemma owns_put s i d d' j b : znth (dv_pool s) i = Some d -> ds_first d' = ds_first d -> owns (put_desc i d' s) j b <-> owns s j b.
Proof.
  intros Hi Hf. unfold owns. cbn. split.
  - intros (x & Hx & Hb). apply (znth_zset_cases _ _ _ _ _ _ Hi) in Hx as [[-> ->]|[_ Hx]]; [|eauto]. exists d. split; [done|congruence].
  - intros (x & Hx & Hb). destruct (decide (j = i)) as [->|Hne].
    + exists d'. rewrite znth_zset_eq by (by apply znth_lt_Some in Hi). split; [done|]. simplify_eq. congruence.
    + exists x. by rewrite znth_zset_ne by (try done; by apply znth_lt_Some in Hi).
Qed.

(** A change that leaves the first word alone; the references it counts may
    move between the holders. *)
Lemma DevRep_put s fl L B dl tgt i d d' L' dl' tgt' :
  DevRep s fl L B dl tgt -> znth (dv_pool s) i = Some d -> ds_first d' = ds_first d -> (type_ok d -> type_ok d') ->
  ds_ref_cnt d' = refs dl' tgt' i -> (forall j, j <> i -> refs dl' tgt' j = refs dl tgt j) ->
  elements (dl' ∪ tgt') ++ L' ≡ₚ elements (dl ∪ tgt) ++ L -> DevRep (put_desc i d' s) fl L' B dl' tgt'.
Proof.
  intros [H1 H2 H3 H4 H5 H6 H7 H8 H9 H10 H11 H12] Hi Hf Ht Hr Ho Hp.
  assert (Hown : forall j b, owns (put_desc i d' s) j b <-> owns s j b) by (intros; by eapply owns_put).
  constructor; try done.
  - cbn. by rewrite zlen_zset.
  - cbn. by rewrite zlen_zset.
  - cbn. eapply chain_put; [done|by left|done].
  - cbn. rewrite zlen_zset. by rewrite Hp.
  - cbn. intros j x Hx. apply (znth_zset_cases _ _ _ _ _ _ Hi) in Hx as [[-> ->]|[Hne Hx]]; [done|]. rewrite Ho by done. by apply H6.
  - cbn. intros j x Hx Hj. apply (znth_zset_cases _ _ _ _ _ _ Hi) in Hx as [[-> ->]|[Hne Hx]]; [|by eauto].
    destruct (H7 i d Hi Hj) as (Hty & b & Hb & Hn). split; [by apply Ht|]. exists b. split; [congruence|done].
  - intros j k b. rewrite !Hown. apply H8.
  - intros b Hb. destruct (H9 b Hb) as [|(j & Hj)]; [by left|]. right. exists j. by apply Hown.
  - destruct H10 as [Hn Hb]. split; [done|]. intros b Hin. destruct (Hb b Hin) as [? Hno]. split; [done|].
    intros j. by rewrite Hown.
  - intros t Hin. destruct (H11 t Hin) as (b & n & Ho' & ?). exists b, n. by rewrite Hown.
Qed.

(** A change of the other fields. *)
Lemma DevRep_put_same s fl L B dl tgt i d d' :
  DevRep s fl L B dl tgt -> znth (dv_pool s) i = Some d -> ds_first d' = ds_first d -> (type_ok d -> type_ok d') ->
  ds_ref_cnt d' = ds_ref_cnt d -> DevRep (put_desc i d' s) fl L B dl tgt.
Proof.
  intros HR Hi Hf Ht Hr. eapply DevRep_put; try done. rewrite Hr. by apply (dr_refs _ _ _ _ _ _ HR).
Qed.

(** ** Buffers *)
Lemma DevRep_drop s fl L B dl tgt b :
  DevRep s fl L (b :: B) dl tgt -> DevRep (set_dv_nbufs (delete b) s) fl L B dl tgt.
Proof.
  intros [H1 H2 H3 H4 H5 H6 H7 H8 H9 H10 H11 H12]. destruct H10 as [Hnd Hb].
  apply list.NoDup_cons in Hnd as [Hni Hnd]. destruct (Hb b ltac:(set_solver)) as [_ Hno].
  assert (Hkeep : forall i c, owns s i c -> delete b (dv_nbufs s) !! c = dv_nbufs s !! c).
  { intros i c Ho. apply lookup_delete_ne. intros <-. by apply (Hno i). }
  constructor; try done; cbn.
  - intros i d Hi Hf. destruct (H7 i d Hi Hf) as (Ht & c & Hc & Hn). split; [done|]. exists c. split; [done|].
    rewrite (Hkeep i); [done|]. by exists d.
  - intros c [n [Hne Hn]%lookup_delete_Some]. destruct (H9 c ltac:(by exists n)) as [Hin|]; [|by right].
    apply elem_of_cons in Hin as [->|]; [done|by left].
  - split; [done|]. intros c Hc. destruct (Hb c ltac:(set_solver)) as [Hs Hno']. split; [|done].
    rewrite lookup_delete_ne; [done|]. by intros <-.
  - intros t Ht. destruct (H11 t Ht) as (c & n & Ho & Hn & ?). exists c, n. split_and!; try done; try tauto.
    cbn. rewrite (Hkeep (td_id t)); done.
Qed.

Lemma DevRep_buf s fl L B dl tgt b n :
  DevRep s fl L B dl tgt -> dv_nbufs s !! b = None -> DevRep (set_dv_nbufs (<[b := n]>) s) fl L (b :: B) dl tgt.
Proof.
  intros HR Hb. pose proof HR as [H1 H2 H3 H4 H5 H6 H7 H8 H9 H10 H11 H12]. destruct H10 as [Hnd HB].
  assert (Hno : forall i, ~ owns s i b).
  { intros i (d & Hd & Hf). destruct (decide (i ∈ fl)) as [Hi|Hi].
    - destruct (chain_first _ _ _ _ _ H3 Hi Hd) as [next ?]. congruence.
    - destruct (H7 i d Hd Hi) as (_ & c & Hc & [m Hm]). congruence. }
  assert (Hkeep : forall i c, owns s i c -> <[b := n]> (dv_nbufs s) !! c = dv_nbufs s !! c).
  { intros i c Ho. apply lookup_insert_ne. intros <-. by apply (Hno i). }
  constructor; try done; cbn.
  - intros i d Hi Hf. destruct (H7 i d Hi Hf) as (Ht & c & Hc & Hn). split; [done|]. exists c. split; [done|].
    rewrite (Hkeep i); [done|]. by exists d.
  - intros c Hc. destruct (decide (c = b)) as [->|Hne]; [left; set_solver|]. rewrite lookup_insert_ne in Hc by done.
    destruct (H9 c Hc); [left; set_solver|by right].
  - split.
    + apply list.NoDup_cons. split; [|done]. intros Hin. destruct (HB b Hin) as [[m Hm] _]. congruence.
    + intros c Hc. apply elem_of_cons in Hc as [->|Hc]; [split; [by rewrite lookup_insert_eq|done]|].
      destruct (HB c Hc) as [Hs Hno']. split; [|done]. rewrite lookup_insert_ne; [done|]. intros <-. rewrite Hb in Hs. by destruct Hs.
  - intros t Ht. destruct (H11 t Ht) as (c & m & Ho & Hm & ?). exists c, m. split_and!; try done; try tauto.
    cbn. rewrite (Hkeep (td_id t)); done.
Qed.
End Primitive.

(** ** Giving a descriptor back, and taking one *)
Definition freed_desc (next : option Z) (d : desc) : desc :=
  mk_desc (TdNext next) (ds_ref_cnt d) (ds_status d) (ds_pkt_type d) OL_TXRX_INVALID_VDEV_ID None.

(** The state after [ol_tx_desc_free]. *)
Definition released (i : Z) (d : desc) (s : tx_device) : tx_device :=
  set_dv_num_free (fun n => u16 (n + 1)) (set_dv_freelist (fun _ => Some i) (put_desc i (freed_desc (dv_freelist s) d) s)).

Definition taken_desc (v b : Z) (d : desc) : desc :=
  mk_desc (TdNetbuf b) (ds_ref_cnt d) (ds_status d) ol_tx_frm_std v (Some v).

(** The state after a successful [ol_tx_desc_hl]. *)
Definition taken (i v b : Z) (d : desc) (next : option Z) (s : tx_device) : tx_device :=
  put_desc i (taken_desc v b d) (set_dv_tx (set_pd_rsrc_cnt (fun c => s32 (c + -1)))
    (set_dv_freelist (fun _ => next) (set_dv_num_free (fun n => u16 (n - 1)) s))).

Section Pool.
Implicit Types (s : tx_device) (fl L B : list Z) (dl tgt : gset Z) (d : desc).

Lemma put_tx s i d f : put_desc i d (set_dv_tx f s) = set_dv_tx f (put_desc i d s).
Proof. done. Qed.

Lemma ol_tx_desc_free_run s i d : znth (dv_pool s) i = Some d -> ol_tx_desc_free i s = Some (tt, released i d s).
Proof.
  intros Hi. unfold ol_tx_desc_free, __ol_tx_desc_free, released.
  unfold mbind, M_bind, get, modify. rewrite (upd_desc_run _ _ _ _ Hi). cbv beta iota.
  set (s1 := set_dv_num_free _ _).
  assert (H1 : znth (dv_pool s1) i = Some (set_ds_first (fun _ => TdNext (dv_freelist s)) d)) by exact (znth_put s i _ d Hi).
  rewrite (upd_desc_run _ _ _ _ H1). rewrite (upd_desc_run _ _ _ _ (znth_put _ _ _ _ H1)).
  unfold s1, put_desc, set_dv_num_free, set_dv_freelist, set_dv_pool, zset. simpl. by rewrite !list_insert_insert_eq.
Qed.

Lemma DevRep_release s fl L B dl tgt i d b :
  DevRep s fl (i :: L) B dl tgt -> znth (dv_pool s) i = Some d -> ds_first d = TdNetbuf b ->
  DevRep (released i d s) (i :: fl) L (b :: B) dl tgt.
Proof.
  intros HR Hi Hb. pose proof (DevRep_apart _ _ _ _ _ _ i HR) as (_ & Hap & _). destruct (Hap ltac:(set_solver)) as (Hif & His & Hiq).
  pose proof (DevRep_nodup _ _ _ _ _ _ HR) as Hnd.
  pose proof HR as [H1 H2 H3 H4 H5 H6 H7 H8 H9 H10 H11 H12]. destruct H10 as [HBn HB].
  assert (Hown : forall j c, owns (released i d s) j c <-> j <> i /\ owns s j c).
  { intros j c. unfold owns, released. cbn. split.
    - intros (x & Hx & Hc). apply (znth_zset_cases _ _ _ _ _ _ Hi) in Hx as [[-> ->]|[Hne Hx]]; [done|eauto].
    - intros (Hne & x & Hx & Hc). exists x. by rewrite znth_zset_ne by (try done; by apply znth_lt_Some in Hi). }
  assert (Hlen : zlen fl + 1 <= zlen (dv_pool s)).
  { assert (zlen (fl ++ (td_id <$> queued s) ++ elements (dl ∪ tgt) ++ i :: L) = zlen (dv_pool s)) as E.
    { unfold zlen at 1. rewrite H5. apply zseq_len, zlen_nonneg. }
    rewrite !zlen_app, zlen_cons in E. pose proof (zlen_nonneg (td_id <$> queued s)). pose proof (zlen_nonneg (elements (dl ∪ tgt))).
    pose proof (zlen_nonneg L). lia. }
  constructor; try done; cbn.
  - by rewrite zlen_zset.
  - by rewrite zlen_zset.
  - split; [done|]. exists (freed_desc (dv_freelist s) d), (dv_freelist s).
    rewrite znth_zset_eq by (by apply znth_lt_Some in Hi). split_and!; [done|done|]. eapply chain_put; [done|by right|done].
  - rewrite H4, zlen_cons, u16_small; [lia|]. pose proof (zlen_nonneg fl). lia.
  - rewrite zlen_zset, <- H5. change (queued (released i d s)) with (queued s).
    by rewrite <- !(Permutation_middle _ _ i).
  - intros j x Hx. apply (znth_zset_cases _ _ _ _ _ _ Hi) in Hx as [[-> ->]|[Hne Hx]]; [cbn|]; by apply H6.
  - intros j x Hx Hj. apply (znth_zset_cases _ _ _ _ _ _ Hi) in Hx as [[-> ->]|[Hne Hx]]; [set_solver|]. apply (H7 j); [done|set_solver].
  - intros j k c Hj Hk. apply Hown in Hj as [_ Hj], Hk as [_ Hk]. exact (H8 j k c Hj Hk).
  - intros c Hc. destruct (H9 c Hc) as [|(j & Hj)]; [left; set_solver|]. destruct (decide (j = i)) as [->|Hne].
    + left. destruct Hj as (x & Hx & Hc'). rewrite Hi in Hx. injection Hx as <-. apply elem_of_cons. left. congruence.
    + right. exists j. by apply Hown.
  - assert (Ho : owns s i b) by (by exists d). split.
    + apply list.NoDup_cons. split; [|done]. intros Hin. destruct (HB b Hin) as [_ Hno]. by apply (Hno i).
    + intros c Hc. apply elem_of_cons in Hc as [->|Hc].
      * destruct (H7 i d Hi Hif) as (_ & b' & Hb' & Hs). simplify_eq. split; [congruence|]. intros j [Hne Hj]%Hown. by apply Hne, (H8 j i b).
      * destruct (HB c Hc) as [Hs Hno]. split; [done|]. intros j [_ Hj]%Hown. by apply (Hno j).
  - intros t Ht. destruct (H11 t Ht) as (c & n & Ho & Hn). exists c, n. split; [|done]. apply Hown. split; [|done].
    intros Heq. apply Hiq. rewrite <- Heq. apply list_elem_of_fmap. by exists t.
Qed.

Lemma DevRep_rsrc s fl L B dl tgt f : DevRep s fl L B dl tgt -> DevRep (set_dv_tx (set_pd_rsrc_cnt f) s) fl L B dl tgt.
Proof. by intros []. Qed.

Lemma ol_tx_desc_hl_run s i fl L B dl tgt v b n ty mi :
  DevRep s (i :: fl) L (b :: B) dl tgt -> dv_nbufs s !! b = Some n ->
  exists d next mi', znth (dv_pool s) i = Some d /\ ds_first d = TdNext next /\ free_chain (dv_pool s) next fl /\
    ol_tx_desc_hl v b ty mi s = Some ((Some i, mi'), taken i v b d next s).
Proof.
  intros HR Hn. destruct (dr_chain _ _ _ _ _ _ HR) as (Hf & d & next & Hd & Hw & Hc). exists d, next.
  eexists. split_and!; try done. unfold ol_tx_desc_hl, ol_tx_desc_alloc_hl, ol_tx_desc_alloc, add_rsrc.
  unfold mbind, M_bind, get, modify, lift. rewrite (get_nbuf_run _ _ _ Hn), Hf. cbv beta iota.
  set (s1 := set_dv_num_free _ s). rewrite (get_desc_run s1 i d) by exact Hd. rewrite Hw. cbv beta iota.
  set (s2 := set_dv_freelist _ s1). assert (H2 : znth (dv_pool s2) i = Some d) by exact Hd.
  rewrite (upd_desc_run _ _ _ _ H2). pose proof (znth_put _ _ (set_ds_vdev (fun _ => Some v) d) _ H2) as H3.
  rewrite (upd_desc_run _ _ _ _ H3). cbv beta iota. set (s4 := put_desc _ _ (put_desc _ _ s2)). unfold mret, M_ret. cbv beta iota.
  set (s5 := set_dv_tx _ s4). pose proof (znth_put _ _ (set_ds_vdev_id (fun _ => v) (set_ds_vdev (fun _ => Some v) d)) _ H3) as H4.
  change (dv_pool (put_desc _ _ (put_desc _ _ s2))) with (dv_pool s5) in H4.
  rewrite (upd_desc_run _ _ _ _ H4). rewrite (upd_desc_run _ _ _ _ (znth_put _ _ _ _ H4)).
  unfold s5, s4. rewrite !put_put, put_tx, put_put. unfold taken. rewrite put_tx. reflexivity.
Qed.

Lemma ol_tx_desc_hl_none s L B dl tgt v b n ty mi :
  DevRep s [] L (b :: B) dl tgt -> dv_nbufs s !! b = Some n -> exists mi', ol_tx_desc_hl v b ty mi s = Some ((None, mi'), s).
Proof.
  intros HR Hn. eexists. unfold ol_tx_desc_hl, ol_tx_desc_alloc_hl, ol_tx_desc_alloc, get_nbuf, mbind, M_bind, get, lift.
  pose proof (dr_chain _ _ _ _ _ _ HR) as Hc. cbn in Hc. by rewrite Hn, Hc.
Qed.

Lemma DevRep_take s i fl L B dl tgt v b d next :
  DevRep s (i :: fl) L (b :: B) dl tgt -> znth (dv_pool s) i = Some d -> ds_first d = TdNext next -> free_chain (dv_pool s) next fl ->
  DevRep (taken i v b d next s) fl (i :: L) B dl tgt.
Proof.
  intros HR Hd Hw Hc. pose proof (DevRep_nodup _ _ _ _ _ _ HR) as Hnd.
  pose proof HR as [H1 H2 H3 H4 H5 H6 H7 H8 H9 H10 H11 H12]. destruct H10 as [HBn HB].
  destruct (HB b ltac:(set_solver)) as [Hbs Hbo]. apply list.NoDup_cons in HBn as [Hbn HBn].
  assert (Hif : i ∉ fl) by (simpl in Hnd; apply list.NoDup_cons in Hnd; set_solver).
  assert (Hiq : i ∉ td_id <$> queued s) by (simpl in Hnd; apply list.NoDup_cons in Hnd; set_solver).
  assert (Hown : forall j c, owns (taken i v b d next s) j c <-> (j = i /\ c = b) \/ (j <> i /\ owns s j c)).
  { intros j c. unfold owns, taken. cbn. split.
    - intros (x & Hx & Hc'). apply (znth_zset_cases _ _ _ _ _ _ Hd) in Hx as [[-> ->]|[Hne Hx]]; [left; cbn in Hc'; split; congruence|eauto].
    - intros [[-> ->]|(Hne & x & Hx & Hc')].
      + exists (taken_desc v b d). by rewrite znth_zset_eq by (by apply znth_lt_Some in Hd).
      + exists x. by rewrite znth_zset_ne by (try done; by apply znth_lt_Some in Hd). }
  constructor; try done; cbn.
  - by rewrite zlen_zset.
  - by rewrite zlen_zset.
  - eapply chain_put; [done|by right|done].
  - rewrite H4, zlen_cons, u16_small; [lia|]. assert (zlen (i :: fl) <= zlen (dv_pool s)) as E.
    { assert (zlen ((i :: fl) ++ (td_id <$> queued s) ++ elements (dl ∪ tgt) ++ L) = zlen (dv_pool s)) as E.
      { unfold zlen at 1. rewrite H5. apply zseq_len, zlen_nonneg. }
      rewrite zlen_app in E. pose proof (zlen_nonneg ((td_id <$> queued s) ++ elements (dl ∪ tgt) ++ L)). lia. }
    rewrite zlen_cons in E. pose proof (zlen_nonneg fl). lia.
  - rewrite zlen_zset, <- H5. change (queued (taken i v b d next s)) with (queued s).
    by rewrite <- !(Permutation_middle _ _ i).
  - intros j x Hx. apply (znth_zset_cases _ _ _ _ _ _ Hd) in Hx as [[-> ->]|[Hne Hx]]; [cbn|]; by apply H6.
  - intros j x Hx Hj. apply (znth_zset_cases _ _ _ _ _ _ Hd) in Hx as [[-> ->]|[Hne Hx]].
    + split; [done|]. by exists b.
    + apply (H7 j); [done|set_solver].
  - intros j k c Hj Hk. apply Hown in Hj as [[-> ->]|[? Hj]], Hk as [[-> ?]|[? Hk]]; [done|by destruct (Hbo k)|subst; by destruct (Hbo j)|exact (H8 j k c Hj Hk)].
  - intros c Hcs. destruct (H9 c Hcs) as [Hin|(j & Hj)].
    + apply elem_of_cons in Hin as [->|]; [right; exists i; apply Hown; by left|by left].
    + right. exists j. apply Hown. right. split; [|done]. intros ->. destruct Hj as (x & Hx & Hc'). simplify_eq. congruence.
  - split; [done|]. intros c Hc'. destruct (HB c ltac:(set_solver)) as [Hs Hno]. split; [done|].
    intros j [[-> ->]|[? Hj]]%Hown; [done|by apply (Hno j)].
  - intros t Ht. destruct (H11 t Ht) as (c & n & Ho & Hn). exists c, n. split; [|done]. apply Hown. right. split; [|done].
    intros Heq. apply Hiq. rewrite <- Heq. apply list_elem_of_fmap. by exists t.
Qed.

(** ** The queues change *)
Lemma DevRep_tx s fl L L' B dl tgt t :
  DevRep s fl L B dl tgt -> pd_desc_pool_size t = pd_desc_pool_size (dv_tx s) ->
  (td_id <$> all_frames (pd_txqs t)) ++ L' ≡ₚ (td_id <$> queued s) ++ L ->
  (forall x, x ∈ all_frames (pd_txqs t) -> describes s x) -> DevRep (set_dv_tx (fun _ => t) s) fl L' B dl tgt.
Proof.
  intros [H1 H2 H3 H4 H5 H6 H7 H8 H9 H10 H11 H12] Hp Hq Hd. constructor; try done; cbn; [congruence|].
  rewrite <- H5. change (queued (set_dv_tx (λ _, t) s)) with (all_frames (pd_txqs t)).
  apply Permutation_app_head. rewrite (Permutation_app_comm (elements (dl ∪ tgt)) L'), (Permutation_app_comm (elements (dl ∪ tgt)) L).
  rewrite !app_assoc. by rewrite Hq.
Qed.
End Pool.
