(* ===== verification/DescFree.v ===== *)
(** Freeing frames and dropping references: what [ol_tx_desc_frame_free_nonstd],
    [ol_tx_desc_frame_list_free] and [OL_TX_DESC_NO_REFS] do to the books, and
    what the outside sees of it. *)
From Stdlib Require Import ZArith Lia.
From stdpp Require Import prelude gmap list numbers.
From S2P Require Import Prelude.
From S2P Require Import TxTypes.
From S2P Require Import TxCore.
From S2P Require Import TxSched.
From S2P Require Import TxQueue.
From S2P Require Import TxDispatch.
From S2P Require Import TxInit.
From S2P Require Import DescTypes.
From S2P Require Import DescPool.
From S2P Require Import DescOps.

(** What an operation on descriptors leaves alone. *)
Record same_rest (s s' : tx_device) : Prop := {
  sr_tx : dv_tx s' = dv_tx s;
  sr_cbs : dv_mgmt_cbs s' = dv_mgmt_cbs s;
  sr_data_cb : dv_data_cb s' = dv_data_cb s;
  sr_free_at_download : dv_free_at_download s' = dv_free_at_download s;
  sr_target_delta : dv_target_delta s' = dv_target_delta s;
  sr_bus_delta : dv_bus_delta s' = dv_bus_delta s }.

#[export] Instance same_rest_refl : Reflexive same_rest.
Proof. by constructor. Qed.
#[export] Instance same_rest_trans : Transitive same_rest.
Proof. intros s1 s2 s3 [? ? ? ? ? ?] [? ? ? ? ? ?]. constructor; congruence. Qed.

(** ** One frame *)
Definition ota_ack_cb (s : tx_device) (d : desc) : bool :=
  from_option snd false (znth (dv_mgmt_cbs s) (ds_pkt_type d - OL_TXRX_MGMT_TYPE_BASE)).

(** What the outside sees of the end of a frame, by its type. *)
Definition free_events (s : tx_device) (d : desc) (b : Z) (had_error : bool) : list tx_event :=
  if (ds_pkt_type d =? ol_tx_frm_no_free) && dv_data_cb s then [EvDataCallback b had_error]
  else EvUnmap b ::
    if OL_TXRX_MGMT_TYPE_BASE <=? ds_pkt_type d then
      (if ota_ack_cb s d then [EvOtaAckCallback (ds_pkt_type d - OL_TXRX_MGMT_TYPE_BASE) b had_error] else []) ++ [EvFree b]
    else [EvTxFree [b] had_error].

Definition unreferenced (d : desc) : desc := set_ds_ref_cnt (fun _ => 0) d.

(** The state after the frame and its descriptor are freed. *)
Definition freed_frame (i : Z) (d : desc) (b : Z) (had_error : bool) (s : tx_device) : tx_device :=
  set_dv_log (fun l => l ++ free_events s d b had_error) (set_dv_nbufs (delete b) (released i (unreferenced d) s)).

Section Free.
Implicit Types (s : tx_device) (fl L B : list Z) (dl tgt : gset Z) (d : desc).

Lemma drop_nbuf_run s b n : dv_nbufs s !! b = Some n -> drop_nbuf b s = Some (tt, set_dv_nbufs (delete b) s).
Proof. intros Hn. unfold drop_nbuf, mbind, M_bind. by rewrite (get_nbuf_run _ _ _ Hn). Qed.
Lemma adf_nbuf_unmap_run s b n : dv_nbufs s !! b = Some n -> adf_nbuf_unmap b s = Some (tt, set_dv_log (fun l => l ++ [EvUnmap b]) s).
Proof. intros Hn. unfold adf_nbuf_unmap, mbind, M_bind. by rewrite (get_nbuf_run _ _ _ Hn). Qed.
Lemma adf_nbuf_free_run s b n :
  dv_nbufs s !! b = Some n -> adf_nbuf_free b s = Some (tt, set_dv_log (fun l => l ++ [EvFree b]) (set_dv_nbufs (delete b) s)).
Proof. intros Hn. unfold adf_nbuf_free, mbind, M_bind. by rewrite (drop_nbuf_run _ _ _ Hn). Qed.
Lemma adf_nbuf_tx_free_one s b n e :
  dv_nbufs s !! b = Some n -> adf_nbuf_tx_free [b] e s = Some (tt, set_dv_log (fun l => l ++ [EvTxFree [b] e]) (set_dv_nbufs (delete b) s)).
Proof. intros Hn. unfold adf_nbuf_tx_free, mbind, M_bind. cbn [for_each]. unfold mbind, M_bind. by rewrite (drop_nbuf_run _ _ _ Hn). Qed.

Lemma log_app s l k : set_dv_log (fun x => x ++ k) (set_dv_log (fun x => x ++ l) s) = set_dv_log (fun x => x ++ (l ++ k)) s.
Proof. unfold set_dv_log. cbn. by rewrite app_assoc. Qed.

(** The cases of the packet type. *)
Lemma ol_tx_desc_frame_free_nonstd_run s i d b n e :
  znth (dv_pool s) i = Some d -> ds_first d = TdNetbuf b -> dv_nbufs s !! b = Some n -> type_ok d ->
  zlen (dv_mgmt_cbs s) = OL_TXRX_MGMT_NUM_TYPES ->
  ol_tx_desc_frame_free_nonstd i e s = Some (tt, freed_frame i d b e s).
Proof.
  intros Hi Hb Hn [Ht0 Ht] Hcb. set (s1 := put_desc i (unreferenced d) s).
  pose proof (znth_put s i (unreferenced d) d Hi) as H1. fold s1 in H1.
  assert (Hend : forall evs, ol_tx_desc_free i (set_dv_log (fun l => l ++ evs) (set_dv_nbufs (delete b) s1)) =
    Some (tt, set_dv_log (fun l => l ++ evs) (set_dv_nbufs (delete b) (released i (unreferenced d) s)))).
  { intros evs. rewrite (ol_tx_desc_free_run _ i (unreferenced d)) by exact H1.
    pose proof (put_put s i (freed_desc (dv_freelist s) (unreferenced d)) (unreferenced d)) as Hpp. fold s1 in Hpp.
    unfold released. rewrite <- Hpp. reflexivity. }
  eapply run_bind; [by apply upd_desc_run|]. fold (unreferenced d). fold s1.
  eapply run_bind; [by eapply get_netbuf_run|]. eapply run_bind; [by apply get_nbuf_run|].
  eapply run_bind; [by apply get_desc_run|]. eapply run_bind; [reflexivity|]. cbv beta.
  change (ds_pkt_type (unreferenced d)) with (ds_pkt_type d).
  change (dv_data_cb s1) with (dv_data_cb s). change (dv_mgmt_cbs s1) with (dv_mgmt_cbs s).
  unfold freed_frame, free_events, ota_ack_cb.
  destruct ((ds_pkt_type d =? ol_tx_frm_no_free) && dv_data_cb s) eqn:Enf.
  { eapply run_bind; [by eapply drop_nbuf_run|]. eapply run_bind; [reflexivity|]. apply (Hend [EvDataCallback b e]). }
  eapply run_bind; [by eapply adf_nbuf_unmap_run|]. set (s2 := set_dv_log _ s1).
  assert (Hn2 : dv_nbufs s2 !! b = Some n) by done.
  assert (Hone : adf_nbuf_tx_free [b] e s2 = Some (tt, set_dv_log (fun l => l ++ [EvUnmap b; EvTxFree [b] e]) (set_dv_nbufs (delete b) s1))).
  { rewrite (adf_nbuf_tx_free_one s2 b n e Hn2). f_equal. f_equal. apply (log_app (set_dv_nbufs (delete b) s1)). }
  destruct (ds_pkt_type d =? ol_tx_frm_tso) eqn:Ets.
  { apply Z.eqb_eq in Ets. rewrite Ets. change (OL_TXRX_MGMT_TYPE_BASE <=? ol_tx_frm_tso) with false.
    eapply run_bind; [exact Hone|]. apply Hend. }
  destruct (Z.leb_spec OL_TXRX_MGMT_TYPE_BASE (ds_pkt_type d)) as [Hm|Hm]; [|eapply run_bind; [exact Hone|]; apply Hend].
  unfold OL_TXRX_MGMT_TYPE_BASE, OL_TXRX_MGMT_NUM_TYPES, ol_tx_frm_freed in *.
  rewrite (proj2 (Z.eqb_neq (ds_pkt_type d) 255)) by lia. cbn [negb andb].
  destruct (znth_in_range (dv_mgmt_cbs s) (ds_pkt_type d - 4)) as [cbs Hc]; [lia|]. rewrite Hc.
  eapply run_bind; [|apply Hend]. eapply run_bind; [reflexivity|]. cbn [from_option].
  destruct (cbs.2).
  - eapply run_bind; [reflexivity|]. rewrite (adf_nbuf_free_run _ b n) by exact Hn. f_equal. f_equal.
    transitivity (set_dv_log (fun l => l ++ [EvFree b]) (set_dv_log (fun l => l ++ [EvOtaAckCallback (ds_pkt_type d - 4) b e])
      (set_dv_log (fun l => l ++ [EvUnmap b]) (set_dv_nbufs (delete b) s1)))); [reflexivity|by rewrite !log_app].
  - eapply run_bind; [reflexivity|]. rewrite (adf_nbuf_free_run _ b n) by exact Hn. f_equal. f_equal. apply (log_app (set_dv_nbufs (delete b) s1)).
Qed.

Lemma same_rest_freed i d b e s : same_rest s (freed_frame i d b e s).
Proof. by constructor. Qed.

Lemma DevRep_log s fl L B dl tgt f : DevRep s fl L B dl tgt -> DevRep (set_dv_log f s) fl L B dl tgt.
Proof. intros HR. by apply (DevRep_frame s). Qed.

(** A descriptor in hand. *)
Lemma DevRep_in_hand s fl L B dl tgt i d :
  DevRep s fl (i :: L) B dl tgt -> znth (dv_pool s) i = Some d -> ds_ref_cnt d = 0 /\ unreferenced d = d.
Proof.
  intros HR Hi. destruct (DevRep_apart _ _ _ _ _ _ i HR) as (_ & Ha & _). destruct (Ha ltac:(set_solver)) as (_ & Hn & _).
  pose proof (dr_refs _ _ _ _ _ _ HR i d Hi) as Hr. rewrite (refs_out _ _ _ Hn) in Hr. split; [done|].
  destruct d. unfold unreferenced, set_ds_ref_cnt. cbn in *. by rewrite Hr.
Qed.

Lemma DevRep_freed s fl L B dl tgt i d b e :
  DevRep s fl (i :: L) B dl tgt -> znth (dv_pool s) i = Some d -> ds_first d = TdNetbuf b ->
  DevRep (freed_frame i d b e s) (i :: fl) L B dl tgt.
Proof.
  intros HR Hi Hb. unfold freed_frame. rewrite (proj2 (DevRep_in_hand _ _ _ _ _ _ _ _ HR Hi)).
  by apply DevRep_log, DevRep_drop, DevRep_release.
Qed.

(** Taking a descriptor, with all its references, from its holders. *)
Lemma DevRep_seize s fl L B dl tgt i d :
  DevRep s fl L B dl tgt -> i ∈ dl ∪ tgt -> znth (dv_pool s) i = Some d ->
  DevRep (put_desc i (unreferenced d) s) fl (i :: L) B (dl ∖ {[i]}) (tgt ∖ {[i]}).
Proof.
  intros HR Hin Hi. eapply DevRep_put; try done.
  - cbn. unfold refs. by rewrite !in_set_del.
  - intros j Hj. unfold refs. by rewrite !in_set_ne.
  - replace (dl ∖ {[i]} ∪ tgt ∖ {[i]}) with ((dl ∪ tgt) ∖ {[i]}) by set_solver.
    rewrite (union_difference_singleton_L i (dl ∪ tgt) Hin) at 2. rewrite elements_union_singleton by set_solver.
    by rewrite <- Permutation_middle.
Qed.

Lemma freed_frame_seized i d b e s : freed_frame i (unreferenced d) b e (put_desc i (unreferenced d) s) = freed_frame i d b e s.
Proof.
  unfold freed_frame. f_equal. f_equal. unfold released. change (dv_freelist (put_desc i (unreferenced d) s)) with (dv_freelist s).
  by rewrite put_put.
Qed.

Lemma DevRep_freed_held s fl L B dl tgt i d b e :
  DevRep s fl L B dl tgt -> i ∈ dl ∪ tgt -> znth (dv_pool s) i = Some d -> ds_first d = TdNetbuf b ->
  DevRep (freed_frame i d b e s) (i :: fl) L B (dl ∖ {[i]}) (tgt ∖ {[i]}).
Proof.
  intros HR Hin Hi Hb. rewrite <- freed_frame_seized. apply DevRep_freed; [by apply DevRep_seize|by eapply znth_put|done].
Qed.

(** The same as calls. *)
Lemma free_in_hand_spec s fl L B dl tgt i e :
  DevRep s fl (i :: L) B dl tgt ->
  wp (ol_tx_desc_frame_free_nonstd i e) (fun _ s' => DevRep s' (i :: fl) L B dl tgt /\
    exists d b, znth (dv_pool s) i = Some d /\ ds_first d = TdNetbuf b /\ s' = freed_frame i d b e s) s.
Proof.
  intros HR. destruct (DevRep_owner _ _ _ _ _ _ i HR ltac:(set_solver)) as (d & b & n & Hi & _ & Hb & Hn & Ht & _).
  eapply wp_run; [by eapply ol_tx_desc_frame_free_nonstd_run; [..|apply HR]|]. split; [by apply DevRep_freed|by exists d, b].
Qed.

Lemma free_held_spec s fl L B dl tgt i e :
  DevRep s fl L B dl tgt -> i ∈ dl ∪ tgt ->
  wp (ol_tx_desc_frame_free_nonstd i e) (fun _ s' => DevRep s' (i :: fl) L B (dl ∖ {[i]}) (tgt ∖ {[i]}) /\
    exists d b, znth (dv_pool s) i = Some d /\ ds_first d = TdNetbuf b /\ s' = freed_frame i d b e s) s.
Proof.
  intros HR Hin. destruct (DevRep_owner _ _ _ _ _ _ i HR ltac:(by left)) as (d & b & n & Hi & _ & Hb & Hn & Ht & _).
  eapply wp_run; [by eapply ol_tx_desc_frame_free_nonstd_run; [..|apply HR]|]. split; [by apply DevRep_freed_held|by exists d, b].
Qed.

(** One after the other. *)
Lemma free_each_spec s fl L B dl tgt ids e :
  DevRep s fl (ids ++ L) B dl tgt ->
  wp (free_each e ids) (fun _ s' => DevRep s' (rev ids ++ fl) L B dl tgt /\ same_rest s s') s.
Proof.
  revert s fl. induction ids as [|i ids IH]; intros s fl HR; [by apply wp_ret|].
  unfold free_each. cbn [for_each]. apply wp_bind. eapply wp_mono; [by apply free_in_hand_spec|].
  intros ? s1 (HR1 & d & b & _ & _ & ->). eapply wp_mono; [by apply IH|]. cbn [rev]. intros ? s2 [HR2 Hs].
  split; [by rewrite <- app_assoc|]. by rewrite <- Hs.
Qed.

(** ** A list of frames *)
Lemma owns_released s i d j c : znth (dv_pool s) i = Some d -> owns (released i d s) j c -> owns s j c.
Proof.
  intros Hi (x & Hx & Hc). unfold released in Hx. cbn in Hx.
  apply (znth_zset_cases _ _ _ _ _ _ Hi) in Hx as [[-> ->]|[Hne Hx]]; [done|]. by exists x.
Qed.

Lemma frame_list_free_loop_spec ids s fl L B dl tgt msdus :
  DevRep s fl (ids ++ L) (msdus ++ B) dl tgt ->
  wp (frame_list_free_loop ids msdus) (fun r s' => exists bs, Forall2 (owns s) ids bs /\ r = rev bs ++ msdus /\
    DevRep s' (rev ids ++ fl) L (r ++ B) dl tgt /\ same_rest s s' /\
    dv_log s' = dv_log s ++ (EvUnmap <$> bs) /\ dv_nbufs s' = dv_nbufs s) s.
Proof.
  revert s fl msdus. induction ids as [|i ids IH]; intros s fl msdus HR.
  { apply wp_ret. exists []. rewrite app_nil_r. split_and!; done. }
  cbn [frame_list_free_loop]. simpl in HR.
  destruct (DevRep_owner _ _ _ _ _ _ i HR ltac:(set_solver)) as (d & b & n & Hi & _ & Hb & Hn & Ht & _).
  destruct (DevRep_in_hand _ _ _ _ _ _ _ _ HR Hi) as [_ Hu].
  eapply wp_step; [by eapply get_netbuf_run|]. eapply wp_step; [by apply upd_desc_run|].
  fold (unreferenced d). rewrite Hu, (put_id _ _ _ Hi).
  eapply wp_step; [by eapply adf_nbuf_unmap_run|]. set (s1 := set_dv_log _ s).
  eapply wp_step; [by apply (ol_tx_desc_free_run s1)|].
  assert (HR1 : DevRep (released i d s1) (i :: fl) (ids ++ L) (b :: msdus ++ B) dl tgt).
  { apply DevRep_release; [by apply DevRep_log|done|done]. }
  eapply wp_mono; [by apply (IH _ (i :: fl) (b :: msdus))|]. intros r s2 (bs & Ho & -> & HR2 & Hs & Hl & Hnb).
  exists (b :: bs). cbn [rev fmap list_fmap]. split_and!.
  - constructor; [by exists d|]. eapply Forall2_impl; [|exact Ho]. intros j c. by apply (owns_released s1).
  - by rewrite <- app_assoc.
  - rewrite <- !app_assoc. by rewrite <- !app_assoc in HR2.
  - by transitivity (released i d s1).
  - rewrite Hl. cbn. by rewrite <- app_assoc.
  - by rewrite Hnb.
Qed.

Lemma drop_all_spec bs s fl L B dl tgt :
  DevRep s fl L (bs ++ B) dl tgt ->
  wp (for_each bs drop_nbuf) (fun _ s' => DevRep s' fl L B dl tgt /\ s' = set_dv_nbufs (fun m => foldr delete m (rev bs)) s) s.
Proof.
  revert s. induction bs as [|b bs IH]; intros s HR; cbn [for_each].
  { apply (wp_run _ _ _ tt s eq_refl). split; [done|]. by destruct s. }
  simpl in HR. destruct (dr_held _ _ _ _ _ _ HR) as [_ HB]. destruct (HB b ltac:(set_solver)) as [[n Hn] _].
  eapply wp_step; [by eapply drop_nbuf_run|]. eapply wp_mono; [by apply IH, DevRep_drop|].
  intros ? s' [HR' ->]. split; [done|]. unfold set_dv_nbufs. cbn [dv_nbufs rev]. by rewrite foldr_app.
Qed.

(** The events of a list of frames. *)
Definition list_events (bs : list Z) (had_error : bool) : list tx_event :=
  (EvUnmap <$> bs) ++ (if bool_decide (bs = []) then [] else [EvTxFree (rev bs) had_error]).

Lemma ol_tx_desc_frame_list_free_spec ids s fl L B dl tgt e :
  DevRep s fl (ids ++ L) B dl tgt ->
  wp (ol_tx_desc_frame_list_free ids e) (fun _ s' => exists bs, Forall2 (owns s) ids bs /\
    DevRep s' (rev ids ++ fl) L B dl tgt /\ same_rest s s' /\
    dv_log s' = dv_log s ++ list_events bs e /\ dv_nbufs s' = foldr delete (dv_nbufs s) bs) s.
Proof.
  intros HR. unfold ol_tx_desc_frame_list_free. apply wp_bind.
  eapply wp_mono; [by apply (frame_list_free_loop_spec ids s fl L B dl tgt [])|].
  intros r s1 (bs & Ho & -> & HR1 & Hs & Hl & Hnb). rewrite app_nil_r in *. unfold adf_nbuf_tx_free. apply wp_bind.
  eapply wp_mono; [by apply drop_all_spec|]. intros ? s2 [HR2 ->]. rewrite rev_involutive in *.
  assert (Hd : bool_decide (rev bs = []) = bool_decide (bs = [])).
  { apply bool_decide_ext. split; [|by intros ->]. intros E. by rewrite <- (rev_involutive bs), E. }
  unfold list_events. rewrite Hd. destruct (bool_decide (bs = [])) eqn:Eb; cbn [negb when].
  - apply (wp_run _ _ _ tt _ eq_refl). exists bs. split_and!; [done|done|by rewrite Hs|by rewrite Eb, app_nil_r|cbn; by rewrite Hnb].
  - eapply wp_run; [reflexivity|]. exists bs. split_and!; [done|by apply DevRep_log|by rewrite Hs|rewrite Eb; cbn; by rewrite Hl, app_assoc|cbn; by rewrite Hnb].
Qed.

(** ** References *)
Lemma DevRep_swap s fl L B dl tgt : DevRep s fl L B dl tgt -> DevRep s fl L B tgt dl.
Proof.
  intros [H1 H2 H3 H4 H5 H6 H7 H8 H9 H10 H11 H12]. constructor; try done.
  - by rewrite (union_comm_L tgt dl).
  - intros i d Hi. rewrite (H6 i d Hi). unfold refs. lia.
Qed.

Definition dereferenced (d : desc) : desc := set_ds_ref_cnt (fun n => s32 (n - 1)) d.

Lemma OL_TX_DESC_NO_REFS_run s i d :
  znth (dv_pool s) i = Some d ->
  OL_TX_DESC_NO_REFS i s = Some (s32 (ds_ref_cnt d - 1) =? 0, put_desc i (dereferenced d) s).
Proof.
  intros Hi. unfold OL_TX_DESC_NO_REFS. eapply run_bind; [by apply upd_desc_run|].
  eapply run_bind; [apply get_desc_run; by eapply znth_put|]. done.
Qed.

(** The target gives its reference back: a descriptor that the download
    software does not hold either is in the hands of the caller. *)
Lemma DevRep_deref s fl L B dl tgt i d :
  DevRep s fl L B dl tgt -> i ∈ tgt -> znth (dv_pool s) i = Some d ->
  (s32 (ds_ref_cnt d - 1) =? 0) = bool_decide (i ∉ dl) /\
  DevRep (put_desc i (dereferenced d) s) fl (if decide (i ∈ dl) then L else i :: L) B dl (tgt ∖ {[i]}).
Proof.
  intros HR Hin Hi. pose proof (dr_refs _ _ _ _ _ _ HR i d Hi) as Hr. unfold refs in Hr. rewrite (in_set_in i tgt Hin) in Hr.
  assert (Hd : s32 (ds_ref_cnt d - 1) = in_set i dl).
  { rewrite Hr. unfold in_set. destruct (decide (i ∈ dl)); done. }
  split.
  - rewrite Hd. unfold in_set. destruct (decide (i ∈ dl)); [by rewrite bool_decide_false by tauto|by rewrite bool_decide_true by tauto].
  - eapply DevRep_put; try done.
    + cbn. rewrite Hd. unfold refs. rewrite in_set_del. lia.
    + intros j Hj. unfold refs. by rewrite in_set_ne.
    + destruct (decide (i ∈ dl)) as [Hdl|Hdl].
      * replace (dl ∪ tgt ∖ {[i]}) with (dl ∪ tgt); [done|].
        apply set_eq. intros x. destruct (decide (x = i)) as [->|]; set_solver.
      * replace (dl ∪ tgt ∖ {[i]}) with ((dl ∪ tgt) ∖ {[i]}) by (apply set_eq; intros x; destruct (decide (x = i)) as [->|]; set_solver).
        rewrite (union_difference_singleton_L i (dl ∪ tgt)) at 2 by set_solver. rewrite elements_union_singleton by set_solver.
        by rewrite <- Permutation_middle.
Qed.

(** A frame goes to the target. *)
Definition referenced (d : desc) : desc := set_ds_ref_cnt (fun _ => 2) d.

Lemma take_refs_run s i d : znth (dv_pool s) i = Some d -> take_refs i s = Some (tt, put_desc i (referenced d) s).
Proof.
  intros Hi. unfold take_refs, OL_TX_DESC_REF_INIT, OL_TX_DESC_REF_INC.
  eapply run_bind; [by apply upd_desc_run|]. eapply run_bind; [apply upd_desc_run; by eapply znth_put|].
  rewrite (upd_desc_run _ i _ _ (znth_put _ _ _ _ (znth_put _ _ _ _ Hi))). by rewrite !put_put.
Qed.

Lemma DevRep_send s fl L B dl tgt i d :
  DevRep s fl (i :: L) B dl tgt -> znth (dv_pool s) i = Some d ->
  DevRep (put_desc i (referenced d) s) fl L B ({[i]} ∪ dl) ({[i]} ∪ tgt).
Proof.
  intros HR Hi. destruct (DevRep_apart _ _ _ _ _ _ i HR) as (_ & Ha & _). destruct (Ha ltac:(set_solver)) as (_ & Hn & _).
  eapply DevRep_put; try done.
  - cbn. unfold refs. by rewrite !in_set_add.
  - intros j Hj. unfold refs. by rewrite !in_set_add_ne.
  - replace ({[i]} ∪ dl ∪ ({[i]} ∪ tgt)) with ({[i]} ∪ (dl ∪ tgt)) by set_solver.
    rewrite elements_union_singleton by done. by rewrite <- Permutation_middle.
Qed.
End Free.
