(* ===== verification/DescQueue.v ===== *)
(** The queueing layer on the books: what the scheduler sends goes to the target,
    what it cannot pass to HTT is freed, a new frame enters its queue, and the
    frames a queue loses give their descriptors back.  [Books] adds the invariant
    of the queues and the count of free descriptors the queues keep of their own
    ([rsrc_cnt]), which is off by [drift]. *)
From Stdlib Require Import ZArith Lia.
From stdpp Require Import prelude gmap fin_sets list numbers.
From S2P Require Import Prelude.
From S2P Require Import TxTypes.
From S2P Require Import TxCore.
From S2P Require Import TxSched.
From S2P Require Import TxQueue.
From S2P Require Import TxSchedSpec.
From S2P Require Import TxInv.
From S2P Require Import TxSchedInv.
From S2P Require Import TxDispatch.
From S2P Require Import TxQueueInv.
From S2P Require Import TxDiscard.
From S2P Require Import TxInit.
From S2P Require Import DescTypes.
From S2P Require Import DescPool.
From S2P Require Import DescOps.
From S2P Require Import DescFree.

(** ** The books with the queues *)
Record Books (s : tx_device) (fl L B : list Z) (dl tgt : gset Z) (drift : Z) : Prop := {
  bk_rep : DevRep s fl L B dl tgt;
  bk_inv : Inv (dv_tx s);
  bk_credit : -2 ^ 31 <= pd_target_tx_credit (dv_tx s) < 2 ^ 31;
  bk_rsrc : pd_rsrc_cnt (dv_tx s) =
    s32 (pd_desc_pool_size (dv_tx s) - zlen (queued s) - Z.of_nat (size tgt) - zlen L - drift) }.

Definition ids_set (l : list Z) : gset Z := list_to_set l.

Section Books.
Implicit Types (s : tx_device) (fl L B ids : list Z) (dl tgt : gset Z) (d : desc).

(** A change that does not concern the queues. *)
Lemma Books_rep s s' fl fl' L L' B B' dl dl' tgt tgt' drift drift' :
  Books s fl L B dl tgt drift -> DevRep s' fl' L' B' dl' tgt' -> dv_tx s' = dv_tx s ->
  Z.of_nat (size tgt') + zlen L' + drift' = Z.of_nat (size tgt) + zlen L + drift ->
  Books s' fl' L' B' dl' tgt' drift'.
Proof.
  intros [H1 H2 H3 H4] HR E1 E2. constructor; rewrite ?E1; try done. rewrite H4. unfold queued. rewrite E1. f_equal. lia.
Qed.

Lemma Books_eq s fl L B dl tgt drift drift' : Books s fl L B dl tgt drift -> drift = drift' -> Books s fl L B dl tgt drift'.
Proof. by intros ? <-. Qed.

Lemma size_del i tgt : i ∈ tgt -> Z.of_nat (size (tgt ∖ {[i]})) = Z.of_nat (size tgt) - 1.
Proof.
  intros Hi. rewrite (union_difference_singleton_L i tgt Hi) at 2.
  rewrite (size_union {[i]} (tgt ∖ {[i]})) by set_solver. rewrite size_singleton. lia.
Qed.
Lemma size_add i tgt : i ∉ tgt -> Z.of_nat (size ({[i]} ∪ tgt)) = Z.of_nat (size tgt) + 1.
Proof. intros Hi. rewrite (size_union {[i]} tgt) by set_solver. rewrite size_singleton. lia. Qed.

(** ** Several frames at once *)
Lemma ids_set_cons i ids : ids_set (i :: ids) = {[i]} ∪ ids_set ids.
Proof. done. Qed.
Lemma elem_ids_set i ids : i ∈ ids_set ids <-> i ∈ ids.
Proof. apply elem_of_list_to_set. Qed.
Lemma size_ids ids : NoDup ids -> Z.of_nat (size (ids_set ids)) = zlen ids.
Proof. intros Hn. unfold ids_set, zlen. by rewrite size_list_to_set. Qed.

Lemma union_rotate (X Y W : gset Z) : X ∪ Y ∪ W = Y ∪ (X ∪ W).
Proof. set_solver. Qed.

Lemma take_all_spec ids s fl L B dl tgt :
  DevRep s fl (ids ++ L) B dl tgt ->
  wp (for_each ids take_refs) (fun _ s' => DevRep s' fl L B (ids_set ids ∪ dl) (ids_set ids ∪ tgt) /\ same_rest s s' /\
    dv_nbufs s' = dv_nbufs s /\ forall i b, owns s' i b <-> owns s i b) s.
Proof.
  revert s dl tgt. induction ids as [|i ids IH]; intros s dl tgt HR; cbn [for_each].
  { apply (wp_run _ _ _ tt s eq_refl). replace (ids_set [] ∪ dl) with dl by set_solver. by replace (ids_set [] ∪ tgt) with tgt by set_solver. }
  destruct (DevRep_range _ _ _ _ _ _ i HR) as (d & Hi & _).
  { right. right. cbn. by apply elem_of_cons; left. }
  eapply wp_step; [by apply take_refs_run|]. eapply wp_mono; [apply IH; by apply DevRep_send|].
  intros ? s' (HR' & Hs & Hn & Ho). rewrite !ids_set_cons. split_and!.
  - by rewrite !union_rotate.
  - rewrite <- Hs. by constructor.
  - done.
  - intros j c. rewrite Ho. by apply (owns_put _ _ d).
Qed.

Lemma free_each_held_spec ids s fl L B dl tgt e :
  DevRep s fl L B dl tgt -> NoDup ids -> (forall i, i ∈ ids -> i ∈ dl ∪ tgt) ->
  wp (free_each e ids) (fun _ s' => DevRep s' (rev ids ++ fl) L B (dl ∖ ids_set ids) (tgt ∖ ids_set ids) /\ same_rest s s') s.
Proof.
  revert s fl dl tgt. induction ids as [|i ids IH]; intros s fl dl tgt HR Hnd Hin; unfold free_each; cbn [for_each].
  { apply (wp_run _ _ _ tt s eq_refl). replace (dl ∖ ids_set []) with dl by set_solver. by replace (tgt ∖ ids_set []) with tgt by set_solver. }
  apply list.NoDup_cons in Hnd as [Hni Hnd]. apply wp_bind. eapply wp_mono; [apply free_held_spec; [done|apply Hin; set_solver]|].
  intros ? s1 (HR1 & d & b & _ & _ & ->). eapply wp_mono; [apply (IH _ _ _ _ HR1 Hnd)|].
  { intros j Hj. assert (j <> i) by (intros ->; done). pose proof (Hin j ltac:(set_solver)). set_solver. }
  intros ? s2 [HR2 Hs]. rewrite ids_set_cons. cbn [rev]. split.
  - rewrite <- app_assoc. cbn [app].
    replace (dl ∖ ({[i]} ∪ ids_set ids)) with (dl ∖ {[i]} ∖ ids_set ids) by set_solver.
    by replace (tgt ∖ ({[i]} ∪ ids_set ids)) with (tgt ∖ {[i]} ∖ ids_set ids) by set_solver.
  - by rewrite <- Hs.
Qed.

Lemma size_sent_refused ids rej tgt :
  NoDup ids -> NoDup rej -> (forall i, i ∈ rej -> i ∈ ids) -> (forall i, i ∈ ids -> i ∉ tgt) ->
  Z.of_nat (size ((ids_set ids ∪ tgt) ∖ ids_set rej)) = Z.of_nat (size tgt) + zlen ids - zlen rej.
Proof.
  intros Hn Hr Hsub Hd. pose proof (size_ids ids Hn). pose proof (size_ids rej Hr).
  assert (Hs : ids_set rej ⊆ ids_set ids ∪ tgt).
  { intros i Hi. apply elem_ids_set in Hi. apply elem_of_union. left. apply elem_ids_set. by apply Hsub. }
  rewrite (size_difference (ids_set ids ∪ tgt) (ids_set rej)) by done. pose proof (subseteq_size _ _ Hs).
  rewrite (size_union (ids_set ids) tgt) in * by (intros i Hi; apply elem_ids_set in Hi; by apply Hd). lia.
Qed.
End Books.

(** ** The scheduler *)
Section Queueing.
Context `{HttTx}.
Implicit Types (s : tx_device) (fl L B ids : list Z) (dl tgt : gset Z) (d : desc).

Definition credit_ok (t : tx_pdev) : Prop := -2 ^ 31 <= pd_target_tx_credit t < 2 ^ 31.

(** A debt of credit stays what it is. *)
Lemma ol_tx_sched_full_spec t :
  Inv t -> credit_ok t -> wp ol_tx_sched (fun _ t' => exists cali sent, scheduled t cali sent t' /\ credit_ok t') t.
Proof.
  intros HI Hc. pose proof (ol_tx_sched_spec t HI Hc) as Hw. unfold wp in *.
  destruct (Z.le_gt_cases (pd_target_tx_credit t) 0) as [Hle|Hgt].
  - pose proof (ol_tx_sched_no_credit t HI Hle) as Hn. unfold wp in Hn.
    destruct (ol_tx_sched t) as [[u t']|]; [|done]. destruct Hw as (cali & sent & Hs), Hn as (_ & _ & _ & _ & E).
    exists cali, sent. split; [done|]. unfold credit_ok. by rewrite E.
  - destruct (ol_tx_sched t) as [[u t']|]; [|done]. destruct Hw as (cali & sent & Hs). exists cali, sent. split; [done|].
    pose proof (sd_credit _ _ _ _ Hs). pose proof (sd_budget _ _ _ _ Hs). pose proof (refused_length sent).
    pose proof (zlen_nonneg (refused sent)). pose proof (sd_cali _ _ _ _ Hs). unfold credit_ok in *. lia.
Qed.

Lemma on_tx_intro free (m : M tx_pdev unit) s (Q : unit -> tx_device -> Prop) :
  wp m (fun _ t => wp (for_each (td_id <$> concat (pd_sent t)) take_refs;; free (td_id <$> pd_freed t)) Q (set_dv_tx (fun _ => t) s))
    (forget_logs (dv_tx s)) -> wp (on_tx free m) Q s.
Proof.
  intros Hw. unfold on_tx. step. apply wp_some in Hw. destruct Hw as ([] & t & Hrun & Hw). unfold wp. unfold mbind at 1, M_bind at 1.
  unfold lift at 1. rewrite Hrun. exact Hw.
Qed.

Definition accepted (l : list tx_desc) : list tx_desc := filter (fun x => htt_tx_send_base x = false) l.

Lemma accepted_refused l : l ≡ₚ accepted l ++ refused l.
Proof.
  induction l as [|x l IH]; [done|]. unfold accepted, refused in *. rewrite !filter_cons.
  destruct (htt_tx_send_base x); repeat case_decide; try done; [rewrite <- Permutation_middle|cbn]; by apply Permutation_skip.
Qed.

Lemma accepted_set sent freed X :
  NoDup (td_id <$> sent) -> freed ≡ₚ refused sent -> (forall i, i ∈ td_id <$> sent -> i ∉ X) ->
  (ids_set (td_id <$> sent) ∪ X) ∖ ids_set (td_id <$> freed) = ids_set (td_id <$> accepted sent) ∪ X.
Proof.
  intros Hn Hf Hd. pose proof (accepted_refused sent) as Hp. rewrite <- Hf in Hp.
  assert (Hp' : td_id <$> sent ≡ₚ (td_id <$> accepted sent) ++ (td_id <$> freed)) by (by rewrite Hp at 1; rewrite fmap_app).
  rewrite Hp' in Hn. apply list.NoDup_app in Hn as (_ & Hn & _).
  apply set_eq. intros i. rewrite elem_of_difference, !elem_of_union, !elem_ids_set.
  assert (Hi : i ∈ td_id <$> sent <-> i ∈ td_id <$> accepted sent \/ i ∈ td_id <$> freed) by (rewrite Hp'; apply elem_of_app).
  specialize (Hd i). specialize (Hn i). tauto.
Qed.

(** What is sent gets two holders; what HTT refuses is freed. *)
Lemma flush_sent s fl L B dl tgt t sent freed :
  DevRep s fl L B dl tgt -> pd_desc_pool_size t = pd_desc_pool_size (dv_tx s) ->
  queued s ≡ₚ sent ++ all_frames (pd_txqs t) -> freed ≡ₚ refused sent ->
  let ids := td_id <$> sent in let rej := td_id <$> freed in
  wp (for_each ids take_refs;; free_each true rej) (fun _ s' =>
    DevRep s' (rev rej ++ fl) L B (ids_set (td_id <$> accepted sent) ∪ dl) (ids_set (td_id <$> accepted sent) ∪ tgt) /\
    same_rest (set_dv_tx (fun _ => t) s) s' /\
    Z.of_nat (size (ids_set (td_id <$> accepted sent) ∪ tgt)) = Z.of_nat (size tgt) + zlen sent - zlen (refused sent))
    (set_dv_tx (fun _ => t) s).
Proof.
  intros HR Hp Hq Hf ids rej.
  assert (HR1 : DevRep (set_dv_tx (fun _ => t) s) fl (ids ++ L) B dl tgt).
  { apply (DevRep_tx s fl L); [done|done| |].
    - rewrite Hq, fmap_app, <- app_assoc. fold ids. rewrite !app_assoc. by rewrite (Permutation_app_comm ids).
    - intros x Hx. apply (dr_queued _ _ _ _ _ _ HR). rewrite Hq. apply elem_of_app. by right. }
  pose proof (DevRep_nodup _ _ _ _ _ _ HR) as Hnd. rewrite !list.NoDup_app in Hnd.
  destruct Hnd as (_ & _ & Hnd & _). rewrite Hq, fmap_app in Hnd. fold ids in Hnd. apply list.NoDup_app in Hnd as [Hnd _].
  assert (Hsub : forall i, i ∈ rej -> i ∈ ids).
  { intros i Hi. apply list_elem_of_fmap in Hi as (x & -> & Hx). rewrite Hf in Hx. apply list_elem_of_filter in Hx as [_ Hx].
    by apply list_elem_of_fmap_2. }
  assert (Hnr : NoDup rej).
  { unfold rej. rewrite Hf. eapply sublist_NoDup; [exact Hnd|]. by apply fmap_sublist, sublist_filter. }
  apply wp_bind. eapply wp_mono; [by apply take_all_spec|]. intros ? s2 (HR2 & Hs2 & _ & _).
  eapply wp_mono; [apply (free_each_held_spec rej _ _ _ _ _ _ true HR2 Hnr)|].
  { intros i Hi. apply elem_of_union. left. apply elem_of_union. left. apply elem_ids_set. by apply Hsub. }
  assert (Hout : forall i, i ∈ ids -> i ∉ dl ∪ tgt).
  { intros i Hi Ht. destruct (DevRep_apart _ _ _ _ _ _ i HR1) as (Ha & _). destruct (Ha Ht) as (_ & Hn & _).
    apply Hn, elem_of_app. by left. }
  assert (Hdl : forall i, i ∈ ids -> i ∉ dl) by (intros i Hi Hx; apply (Hout i Hi), elem_of_union; by left).
  assert (Htg : forall i, i ∈ ids -> i ∉ tgt) by (intros i Hi Hx; apply (Hout i Hi), elem_of_union; by right).
  intros ? s3 [HR3 Hs3]. rewrite <- !(accepted_set sent freed) by done. split_and!; [done|by rewrite Hs2|].
  change (td_id <$> sent) with ids. change (td_id <$> freed) with rej. rewrite size_sent_refused by done.
  unfold rej, ids, zlen. rewrite !length_fmap. by rewrite Hf.
Qed.

(** The books after frames were sent. *)
Lemma Books_sched s s1 s' fl fl' L B dl tgt drift (acc : gset Z) (ids : list tx_desc) rej t :
  Books s fl L B dl tgt drift -> Inv t -> credit_ok t -> same_rest (set_dv_tx (fun _ => t) s1) s' ->
  pd_rsrc_cnt t = pd_rsrc_cnt (dv_tx s) -> pd_desc_pool_size t = pd_desc_pool_size (dv_tx s) ->
  queued s ≡ₚ ids ++ all_frames (pd_txqs t) ->
  DevRep s' fl' L B (acc ∪ dl) (acc ∪ tgt) -> Z.of_nat (size (acc ∪ tgt)) = Z.of_nat (size tgt) + zlen ids - rej ->
  Books s' fl' L B (acc ∪ dl) (acc ∪ tgt) (drift + rej).
Proof.
  intros [H1 H2 H3 H4] HI Hc [E _ _ _ _ _] Er Ep Hq HR Hsz. cbn in E. constructor; unfold queued; rewrite ?E; try done.
  rewrite Er, H4, Ep. f_equal. assert (zlen (queued s) = zlen ids + zlen (all_frames (pd_txqs t))) as ->; [|lia].
  rewrite <- zlen_app. unfold zlen. by rewrite Hq.
Qed.

(** [ol_tx_sched] on the books: [sent] left the queues. *)
Definition dev_scheduled s fl L B dl tgt (drift : Z) (t0 : tx_pdev) s' : Prop :=
  exists cali sent freed, scheduled t0 cali sent (dv_tx s') /\ same_rest (set_dv_tx (fun _ => dv_tx s') s) s' /\
    (forall i, i ∈ td_id <$> sent -> i ∉ dl ∪ tgt /\ i ∉ L /\ i ∉ fl) /\ freed ≡ₚ td_id <$> refused sent /\
    Books s' (freed ++ fl) L B (ids_set (td_id <$> accepted sent) ∪ dl) (ids_set (td_id <$> accepted sent) ∪ tgt) (drift + zlen (refused sent)).

Lemma sched_flush s fl L B dl tgt drift t0 t cali sent :
  Books s fl L B dl tgt drift -> scheduled t0 cali sent t -> credit_ok t -> pd_sent t0 = [] -> pd_freed t0 = [] ->
  queued s ≡ₚ all_frames (pd_txqs t0) -> pd_rsrc_cnt t0 = pd_rsrc_cnt (dv_tx s) ->
  pd_desc_pool_size t0 = pd_desc_pool_size (dv_tx s) ->
  wp (for_each (td_id <$> concat (pd_sent t)) take_refs;; free_each true (td_id <$> pd_freed t))
    (fun _ s' => dev_scheduled s fl L B dl tgt drift t0 s') (set_dv_tx (fun _ => t) s).
Proof.
  intros HB Hs Hc Es Ef Hq Er Ep. destruct (sd_same _ _ _ _ Hs) as (_ & Er' & _ & _ & Ep' & _).
  pose proof (sd_frames _ _ _ _ Hs) as Hf. rewrite <- Hq in Hf.
  pose proof (sd_sent _ _ _ _ Hs) as Hsent. rewrite Es in Hsent. cbn in Hsent.
  pose proof (sd_freed _ _ _ _ Hs) as Hfreed. rewrite Ef in Hfreed. cbn in Hfreed. rewrite Hsent.
  pose proof (bk_rep _ _ _ _ _ _ _ HB) as HR.
  eapply wp_mono; [by apply (flush_sent s fl L B dl tgt t sent (pd_freed t) HR); [congruence|..]|].
  intros [] s' (HR' & Hsr & Hsz). pose proof (sr_tx _ _ Hsr) as Et. cbn in Et.
  exists cali, sent, (rev (td_id <$> pd_freed t)). rewrite Et. split_and!; [done|done| | |].
  - intros i Hi. destruct (DevRep_apart _ _ _ _ _ _ i HR) as (H1 & H2 & H3).
    assert (Hqi : i ∈ td_id <$> queued s) by (rewrite Hf, fmap_app; apply elem_of_app; by left).
    split_and!; [intros Hx; by destruct (H1 Hx) as (_ & _ & ?)|intros Hx; by destruct (H2 Hx) as (_ & _ & ?)|by apply H3].
  - by rewrite <- Permutation_rev, Hfreed.
  - eapply Books_sched; [exact HB|apply Hs|done|exact Hsr|congruence|congruence|exact Hf|done|done].
Qed.

Lemma dev_sched_spec s fl L B dl tgt drift :
  Books s fl L B dl tgt drift ->
  wp dev_sched (fun _ s' => dev_scheduled s fl L B dl tgt drift (forget_logs (dv_tx s)) s') s.
Proof.
  intros HB. apply on_tx_intro. pose proof (bk_inv _ _ _ _ _ _ _ HB) as HI.
  eapply wp_mono; [apply ol_tx_sched_full_spec; [by apply Inv_sent, Inv_freed|apply HB]|].
  intros [] t (cali & sent & Hs & Hc). by eapply sched_flush.
Qed.
(** A change of the queueing layer that moves no frame. *)
Lemma Books_tx s fl L B dl tgt drift t :
  Books s fl L B dl tgt drift -> Inv t -> credit_ok t -> all_frames (pd_txqs t) ≡ₚ queued s ->
  pd_rsrc_cnt t = pd_rsrc_cnt (dv_tx s) -> pd_desc_pool_size t = pd_desc_pool_size (dv_tx s) ->
  Books (set_dv_tx (fun _ => t) s) fl L B dl tgt drift.
Proof.
  intros [H1 H2 H3 H4] HI Hc Hq Er Ep. constructor; try done.
  - apply (DevRep_tx s fl L); [done|done|by rewrite Hq|]. intros x Hx. apply (dr_queued _ _ _ _ _ _ H1). by rewrite <- Hq.
  - cbn. rewrite Er, H4, Ep. f_equal. unfold zlen, queued. cbn. unfold queued in Hq. by rewrite Hq.
Qed.

(** [dropped] leaves the queues through the hands of the driver. *)
Lemma Books_counts s fl L B dl tgt drift : Books s fl L B dl tgt drift ->
  total_frms (dv_tx s) + zlen L <= pd_desc_pool_size (dv_tx s) /\ -2 ^ 31 <= pd_rsrc_cnt (dv_tx s) < 2 ^ 31.
Proof.
  intros [H1 H2 H3 H4]. split; [|rewrite H4; apply s32_range]. rewrite <- (Inv_frames_length _ H2).
  assert (E : zlen (fl ++ (td_id <$> queued s) ++ elements (dl ∪ tgt) ++ L) = zlen (dv_pool s)).
  { unfold zlen at 1. rewrite (dr_parts _ _ _ _ _ _ H1). apply zseq_len, zlen_nonneg. }
  rewrite !zlen_app in E. pose proof (zlen_nonneg fl). pose proof (zlen_nonneg (elements (dl ∪ tgt))).
  rewrite <- (dr_size _ _ _ _ _ _ H1). unfold queued, zlen in *. rewrite length_fmap in E. lia.
Qed.

(** ** A new frame *)
Lemma dev_enqueue_spec s fl L B dl tgt drift q t x :
  Books s fl (td_id x :: L) B dl tgt drift -> describes s x -> pd_txqs (dv_tx s) !! q = Some t ->
  wp (dev_enqueue q x (ext_tid_of q)) (fun _ s' => exists dropped fl',
    enqueued (forget_logs (dv_tx s)) q x dropped (dv_tx s') /\ Books s' fl' L B dl tgt drift) s.
Proof.
  intros HB Hd Hq. apply on_tx_intro. pose proof (bk_inv _ _ _ _ _ _ _ HB) as HI. pose proof (bk_rep _ _ _ _ _ _ _ HB) as HR.
  destruct (Books_counts _ _ _ _ _ _ _ HB) as [Hcnt Hrs]. rewrite zlen_cons in Hcnt. pose proof (zlen_nonneg L).
  eapply wp_mono; [apply (ol_tx_enqueue_spec (forget_logs (dv_tx s)) q t); [by apply Inv_sent, Inv_freed|done| |done]|].
  { change (total_frms (dv_tx s) + 1 <= pd_desc_pool_size (dv_tx s)). lia. }
  intros [] t' (dropped & Hen & _). pose proof (en_frames _ _ _ _ _ Hen) as Hf. cbn in Hf.
  destruct (en_sent _ _ _ _ _ Hen) as [-> Ec]. rewrite (en_freed _ _ _ _ _ Hen). cbn [forget_logs pd_sent pd_freed concat fmap list_fmap for_each].
  apply (wp_step _ _ _ _ tt _ eq_refl). cbn. change (list_fmap _ _ td_id dropped) with (td_id <$> dropped).
  assert (HR1 : DevRep (set_dv_tx (fun _ => t') s) fl ((td_id <$> dropped) ++ L) B dl tgt).
  { apply (DevRep_tx s fl (td_id x :: L)); [done|by apply Hen| |].
    - rewrite <- Permutation_middle. change (td_id x :: (td_id <$> queued s) ++ L) with ((td_id <$> x :: queued s) ++ L).
      unfold queued. rewrite Hf, fmap_app. rewrite !app_assoc. by rewrite (Permutation_app_comm (td_id <$> all_frames _)).
    - intros y Hy. assert (y ∈ x :: queued s) as [->|Hy']%elem_of_cons by (unfold queued; rewrite Hf; apply elem_of_app; by right); [done|].
      by apply (dr_queued _ _ _ _ _ _ HR). }
  eapply wp_mono; [by apply ol_tx_desc_frame_list_free_spec|]. intros ? s' (bs & _ & HR' & Hs & _).
  pose proof (sr_tx _ _ Hs) as Et. cbn in Et. exists dropped, (rev (td_id <$> dropped) ++ fl). rewrite Et. split; [done|].
  constructor; unfold queued; rewrite ?Et; [done|apply Hen| |].
  - rewrite Ec. apply HB.
  - rewrite (en_rsrc _ _ _ _ _ Hen), (en_pool _ _ _ _ _ Hen). cbn [forget_logs pd_rsrc_cnt pd_desc_pool_size].
    change (pd_rsrc_cnt (forget_logs (dv_tx s))) with (pd_rsrc_cnt (dv_tx s)).
    change (pd_desc_pool_size (forget_logs (dv_tx s))) with (pd_desc_pool_size (dv_tx s)).
    rewrite (bk_rsrc _ _ _ _ _ _ _ HB), zlen_cons.
    assert (Hl : zlen (x :: queued s) = zlen dropped + zlen (all_frames (pd_txqs t'))).
    { rewrite <- zlen_app. unfold zlen, queued. by rewrite Hf. }
    rewrite zlen_cons in Hl. eqm_solve.
Qed.

(** ** A queue is freed *)
Lemma dev_queue_free_spec s fl L B dl tgt drift q t :
  Books s fl L B dl tgt drift -> pd_txqs (dv_tx s) !! q = Some t -> txq_paused_total t = 0 ->
  wp (dev_queue_free q (ext_tid_of q)) (fun _ s' => exists fl',
    queue_emptied (forget_logs (dv_tx s)) q t (dv_tx s') /\ Books s' fl' L B dl tgt drift) s.
Proof.
  intros HB Hq Hz. apply on_tx_intro. pose proof (bk_inv _ _ _ _ _ _ _ HB) as HI. pose proof (bk_rep _ _ _ _ _ _ _ HB) as HR.
  destruct (inv_txq _ HI q t Hq) as [Htok _]. pose proof (ok_frms _ _ Htok) as Hlen.
  eapply wp_mono; [by apply (ol_tx_queue_free_spec (forget_logs (dv_tx s)) q t); [apply Inv_sent, Inv_freed|]|].
  intros [] t' (Hqe & HI'). specialize (HI' Hz). pose proof Hqe as (s1 & [sch' ->] & Et').
  assert (Hf : queued s ≡ₚ txq_head t ++ all_frames (pd_txqs t')).
  { rewrite Et'. cbn. unfold queued. rewrite (all_frames_delete _ q t) by done. f_equiv.
    rewrite <- (insert_delete_eq (pd_txqs (dv_tx s)) q), all_frames_insert_new by apply lookup_delete_eq. done. }
  assert (Esent : pd_sent t' = []) by (by rewrite Et'). assert (Efreed : pd_freed t' = txq_head t) by (by rewrite Et').
  assert (Er : pd_rsrc_cnt t' = s32 (pd_rsrc_cnt (dv_tx s) + zlen (txq_head t))) by (rewrite Et'; cbn; by rewrite Hlen).
  assert (Ep : pd_desc_pool_size t' = pd_desc_pool_size (dv_tx s)) by (by rewrite Et').
  assert (Ec : pd_target_tx_credit t' = pd_target_tx_credit (dv_tx s)) by (by rewrite Et').
  clear Et'. rewrite Esent, Efreed. apply (wp_step _ _ _ _ tt _ eq_refl).
  assert (HR1 : DevRep (set_dv_tx (fun _ => t') s) fl ((td_id <$> txq_head t) ++ L) B dl tgt).
  { apply (DevRep_tx s fl L); [done|done| |].
    - rewrite Hf, fmap_app, !app_assoc. by rewrite (Permutation_app_comm (td_id <$> all_frames _)).
    - intros y Hy. apply (dr_queued _ _ _ _ _ _ HR). rewrite Hf. apply elem_of_app. by right. }
  eapply wp_mono; [by apply free_each_spec|]. intros [] s' (HR' & Hs).
  pose proof (sr_tx _ _ Hs) as Et. cbn in Et. exists (rev (td_id <$> txq_head t) ++ fl). rewrite Et. split; [done|].
  constructor; unfold queued; rewrite ?Et; [done|done|rewrite Ec; apply HB|].
  rewrite Er, Ep, (bk_rsrc _ _ _ _ _ _ _ HB).
  assert (Hl : zlen (queued s) = zlen (txq_head t) + zlen (all_frames (pd_txqs t'))) by (rewrite <- zlen_app; unfold zlen; by rewrite Hf).
  eqm_solve.
Qed.

(** ** Pause and unpause *)
Lemma one_queue_frames t0 q x x' t1 : pd_txqs t0 !! q = Some x -> txq_head x' = txq_head x -> one_queue t0 q x' t1 ->
  all_frames (pd_txqs t1) ≡ₚ all_frames (pd_txqs t0).
Proof.
  intros Hq Hh [sch' ->]. cbn. rewrite (all_frames_delete (pd_txqs t0) q x) by done.
  rewrite <- (insert_delete_eq (pd_txqs t0) q), all_frames_insert_new by apply lookup_delete_eq. by rewrite Hh.
Qed.

Lemma dev_pause_spec s fl L B dl tgt drift q t :
  Books s fl L B dl tgt drift -> pd_txqs (dv_tx s) !! q = Some t -> txq_paused_total t < 255 ->
  wp (dev_pause q (ext_tid_of q)) (fun _ s' =>
    one_queue (forget_logs (dv_tx s)) q (txq_paused t) (dv_tx s') /\ Books s' fl L B dl tgt drift) s.
Proof.
  intros HB Hq Hlt. apply on_tx_intro. pose proof (bk_inv _ _ _ _ _ _ _ HB) as HI.
  eapply wp_mono; [by apply (txq_pause_spec (forget_logs (dv_tx s)) q t); [apply Inv_sent, Inv_freed|..]|].
  intros [] t' (HI' & Ho). pose proof (one_queue_frames (forget_logs (dv_tx s)) q t (txq_paused t) t' Hq eq_refl Ho) as Hf. pose proof Ho as [sch' E].
  assert (pd_sent t' = [] /\ pd_freed t' = [] /\ credit_ok t' /\ pd_rsrc_cnt t' = pd_rsrc_cnt (dv_tx s) /\
    pd_desc_pool_size t' = pd_desc_pool_size (dv_tx s)) as (-> & -> & Hc & Er & Ep)
    by (rewrite E; split_and!; try done; apply HB).
  eapply wp_run; [reflexivity|]. split; [done|]. by eapply Books_tx.
Qed.

Lemma dev_unpause_spec s fl L B dl tgt drift q t :
  Books s fl L B dl tgt drift -> pd_txqs (dv_tx s) !! q = Some t ->
  wp (dev_unpause q (ext_tid_of q)) (fun _ s' => exists t1,
    one_queue (forget_logs (dv_tx s)) q (txq_unpaused t) t1 /\ dev_scheduled s fl L B dl tgt drift t1 s') s.
Proof.
  intros HB Hq. apply on_tx_intro. pose proof (bk_inv _ _ _ _ _ _ _ HB) as HI.
  eapply wp_mono; [apply (txq_unpause_run (forget_logs (dv_tx s)) q t); [by apply Inv_sent, Inv_freed|apply HB|done]|].
  intros [] t' (t1 & HI1 & Ho & Hor).
  assert (Hh : txq_head (txq_unpaused t) = txq_head t) by (unfold txq_unpaused; by destruct (_ =? 0)).
  pose proof (one_queue_frames (forget_logs (dv_tx s)) q t _ t1 Hq Hh Ho) as Hf.
  assert (credit_ok t1 /\ pd_sent t1 = [] /\ pd_freed t1 = [] /\ pd_rsrc_cnt t1 = pd_rsrc_cnt (dv_tx s) /\
    pd_desc_pool_size t1 = pd_desc_pool_size (dv_tx s)) as (Hc1 & E1 & E2 & E3 & E4)
    by (destruct Ho as [sch' ->]; split_and!; try done; apply HB).
  assert (exists cali sent, scheduled t1 cali sent t' /\ credit_ok t') as (cali & sent & Hs & Hc).
  { destruct Hor as [->|Hrun].
    - exists 0, []. split; [by apply scheduled_refl|done].
    - pose proof (ol_tx_sched_full_spec t1 HI1 Hc1) as Hw. unfold wp in Hw. by rewrite Hrun in Hw. }
  eapply wp_mono; [eapply sched_flush; done|]. intros [] s' H'. by exists t1.
Qed.
End Queueing.
