(* ===== verification/DescComplete.v ===== *)
(** The handlers of [ol_tx_send.c] on the books: the end of a download, the
    completion and inspection messages, the completion of a single frame, the
    credit message and the discarding of what the target never answered. *)
From Stdlib Require Import ZArith Lia.
From stdpp Require Import prelude gmap fin_sets list numbers.
From S2P Require Import Prelude.
From S2P Require Import TxTypes.
From S2P Require Import TxCore.
From S2P Require Import TxSched.
From S2P Require Import TxQueue.
From S2P Require Import TxInv.
From S2P Require Import TxSchedInv.
From S2P Require Import TxDispatch.
From S2P Require Import TxInit.
From S2P Require Import DescTypes.
From S2P Require Import DescPool.
From S2P Require Import DescSend.
From S2P Require Import DescOps.
From S2P Require Import DescFree.
From S2P Require Import DescQueue.

(** ** Counts *)
Section Counts.
Context `{HttTx}.
Implicit Types (s : tx_device) (fl L B ids : list Z) (dl tgt : gset Z) (d : desc).

Lemma add_rsrc_spec s fl L B dl tgt drift n :
  Books s fl L B dl tgt drift ->
  wp (add_rsrc n) (fun _ s' => Books s' fl L B dl tgt (drift - n) /\ s' = set_dv_tx (set_pd_rsrc_cnt (fun c => s32 (c + n))) s) s.
Proof.
  intros [H1 H2 H3 H4]. eapply wp_run; [reflexivity|]. split; [|done]. constructor; try done; [by apply DevRep_rsrc|by apply Inv_rsrc|].
  cbn. rewrite H4. unfold queued. cbn. eqm_solve.
Qed.

Lemma add_credit_spec s fl L B dl tgt drift n :
  Books s fl L B dl tgt drift ->
  wp (add_credit n) (fun _ s' => Books s' fl L B dl tgt drift /\
    s' = set_dv_tx (set_pd_target_tx_credit (fun c => s32 (c + n))) s) s.
Proof.
  intros HB. eapply wp_run; [reflexivity|]. split; [|done].
  apply (Books_tx s fl L B dl tgt drift (set_pd_target_tx_credit (fun c => s32 (c + n)) (dv_tx s)) HB); [by apply Inv_credit, HB|apply s32_range|done..].
Qed.

(** ** Group credit *)
Lemma update_group_loop_run grps i v credit (t : tx_pdev) :
  Inv t -> 0 <= i -> grps = drop (Z.to_nat i) (pd_txq_grps t) ->
  exists gs, update_group_loop grps i v credit false t = Some (tt, set_pd_txq_grps (fun _ => gs) t) /\
    Inv (set_pd_txq_grps (fun _ => gs) t).
Proof.
  revert i. induction grps as [|g grps IH]; intros i HI Hi Hg; cbn [update_group_loop].
  { exists (pd_txq_grps t). destruct t. by split. }
  assert (Hat : znth (pd_txq_grps t) i = Some g).
  { apply znth_Some. split; [done|]. rewrite <- (Nat.add_0_r (Z.to_nat i)), <- lookup_drop, <- Hg. done. }
  destruct (ol_tx_vdev_has_tx_queue_group g v).
  - exists (zset (pd_txq_grps t) i (set_grp_credit (fun c => s32 (c + credit)) g)). split.
    + unfold ol_txrx_update_group_credit, mbind, M_bind, get, lift. by rewrite Hat.
    + apply (Inv_env t); [done| |done]. constructor; try done; cbn.
      * apply zlen_zset.
      * apply Forall_insert; [apply HI|]. apply s32_range.
  - apply IH; [done|lia|]. replace (Z.to_nat (i + 1)) with (1 + Z.to_nat i)%nat by lia. rewrite Nat.add_comm, <- drop_drop, <- Hg. done.
Qed.

Lemma ol_tx_desc_update_group_credit_spec s fl L B dl tgt drift i d credit :
  Books s fl L B dl tgt drift -> znth (dv_pool s) i = Some d ->
  wp (ol_tx_desc_update_group_credit i credit false) (fun _ s' => Books s' fl L B dl tgt drift /\
    exists gs, s' = set_dv_tx (set_pd_txq_grps (fun _ => gs)) s) s.
Proof.
  intros HB Hi. unfold ol_tx_desc_update_group_credit. step.
  pose proof (dr_size _ _ _ _ _ _ (bk_rep _ _ _ _ _ _ _ HB)) as Hsz. pose proof (znth_lt_Some _ _ _ Hi).
  rewrite (proj2 (Z.leb_gt _ _)) by lia. eapply wp_step; [by apply get_desc_run|].
  destruct (update_group_loop_run (pd_txq_grps (dv_tx s)) 0 (ds_vdev_id d) credit (dv_tx s)) as (gs & Hrun & HI');
    [apply HB|lia|by rewrite drop_0|].
  unfold lift_tx. step. rewrite Hrun. step. step. apply wp_ret. split; [|by exists gs].
  apply (Books_tx s fl L B dl tgt drift (set_pd_txq_grps (fun _ => gs) (dv_tx s)) HB HI'); [apply HB|done..].
Qed.
End Counts.

(** ** One frame of a message *)
Section Msdu.
Context `{HttTx}.
Implicit Types (s : tx_device) (fl L B ids : list Z) (dl tgt : gset Z) (d : desc).

(** The target gives a frame back: if its download is over, the frame is
    collected or, if it is not a standard one, freed. *)
Definition given_back s fl L B dl tgt (drift : Z) (descs : list Z) (i : Z) (descs' : list Z) s' : Prop :=
  exists fl', Books s' fl' (descs' ++ L) B dl (tgt ∖ {[i]}) (drift + 1 - (zlen descs' - zlen descs)) /\
    descs' ++ fl' ≡ₚ (if decide (i ∈ dl) then [] else [i]) ++ descs ++ fl /\
    pd_desc_pool_size (dv_tx s') = pd_desc_pool_size (dv_tx s).

Lemma Books_range s fl L B dl tgt drift i :
  Books s fl L B dl tgt drift -> i ∈ dl ∪ tgt \/ i ∈ L ->
  exists d b n, znth (dv_pool s) i = Some d /\ 0 <= i < pd_desc_pool_size (dv_tx s) /\ ds_first d = TdNetbuf b /\
    dv_nbufs s !! b = Some n /\ type_ok d /\ ds_ref_cnt d = refs dl tgt i.
Proof.
  intros HB Hi. pose proof (bk_rep _ _ _ _ _ _ _ HB) as HR. rewrite <- (dr_size _ _ _ _ _ _ HR).
  destruct (DevRep_owner _ _ _ _ _ _ i HR Hi) as (d & b & n & ? & ? & ? & ? & ? & ? & _). by exists d, b, n.
Qed.

(** The last reference decides. *)
Lemma deref_msdu s fl L B dl tgt drift descs status i :
  Books s fl (descs ++ L) B dl tgt drift -> i ∈ tgt ->
  wp (z ← OL_TX_DESC_NO_REFS i; if (z : bool) then ol_tx_msdu_complete i descs status else mret descs)
    (fun descs' s' => given_back s fl L B dl tgt drift descs i descs' s') s.
Proof.
  intros HB Hin. destruct (Books_range _ _ _ _ _ _ _ i HB ltac:(set_solver)) as (d & b & n & Hi & _).
  pose proof (bk_rep _ _ _ _ _ _ _ HB) as HR. destruct (DevRep_deref _ _ _ _ _ _ i d HR Hin Hi) as [Hz HR1].
  eapply wp_step; [by apply OL_TX_DESC_NO_REFS_run|]. rewrite Hz. pose proof (size_del i tgt Hin) as Hsz.
  set (s1 := put_desc i (dereferenced d) s) in *. unfold given_back.
  destruct (decide (i ∈ dl)) as [Hdl|Hdl]; [rewrite bool_decide_false by tauto|rewrite bool_decide_true by done].
  - apply wp_ret. exists fl. split_and!; [|done|done]. eapply (Books_rep s s1); [exact HB|done|done|lia].
  - unfold ol_tx_msdu_complete. eapply wp_step; [by apply get_desc_run; eapply znth_put|].
    destruct (_ =? ol_tx_frm_std).
    + apply wp_ret. exists fl. unfold tailq_insert_tail. split_and!; [|rewrite <- app_assoc; cbn; by rewrite <- Permutation_middle|done].
      eapply (Books_rep s s1); [exact HB| |done|].
      * eapply DevRep_perm; [exact HR1| |done]. rewrite <- app_assoc. cbn. by rewrite <- Permutation_middle.
      * rewrite Hsz, !zlen_app, !zlen_cons, zlen_nil. lia.
    + apply wp_bind. eapply wp_mono; [by apply (free_in_hand_spec s1 fl (descs ++ L))|].
      intros [] s2 (HR2 & d2 & b2 & _ & _ & E). apply wp_ret. exists (i :: fl). split_and!.
      * eapply (Books_rep s s2); [exact HB|exact HR2|by rewrite E|]. lia.
      * cbn. by rewrite <- Permutation_middle.
      * by rewrite E.
Qed.

Lemma DevRep_status s fl L B dl tgt i d f :
  DevRep s fl L B dl tgt -> znth (dv_pool s) i = Some d -> DevRep (put_desc i (set_ds_status f d) s) fl L B dl tgt.
Proof. intros HR Hi. by eapply DevRep_put_same. Qed.

Lemma complete_msdu_spec s fl L B dl tgt drift descs status i :
  Books s fl (descs ++ L) B dl tgt drift -> i ∈ tgt ->
  wp (complete_msdu status i descs) (fun descs' s' => given_back s fl L B dl tgt drift descs i descs' s') s.
Proof.
  intros HB Hin. destruct (Books_range _ _ _ _ _ _ _ i HB ltac:(set_solver)) as (d & b & n & Hi & Hr & Hb & Hn & _).
  unfold complete_msdu. step. rewrite (proj2 (Z.leb_gt _ _)) by lia.
  eapply wp_step; [by apply upd_desc_run|]. set (d1 := set_ds_status _ d). set (s1 := put_desc i d1 s).
  assert (Hi1 : znth (dv_pool s1) i = Some d1) by (by eapply znth_put).
  eapply wp_step; [by eapply (get_netbuf_run s1 i d1)|].
  assert (HB1 : Books s1 fl (descs ++ L) B dl tgt drift).
  { eapply Books_rep; [exact HB|apply DevRep_status; [apply HB|done]|done|done]. }
  apply wp_bind. eapply wp_mono; [by apply (ol_tx_desc_update_group_credit_spec s1 _ _ _ _ _ _ i d1 1 HB1)|].
  intros [] s2 (HB2 & gs & E). eapply wp_step; [apply (get_nbuf_run s2 b n); by rewrite E|].
  eapply wp_mono; [by apply deref_msdu|]. intros descs' s' (fl' & H1 & H2 & H3).
  exists fl'. split_and!; [done|done|]. rewrite H3, E. done.
Qed.

Lemma inspect_msdu_spec s fl L B dl tgt drift descs i :
  Books s fl (descs ++ L) B dl tgt drift -> i ∈ tgt ->
  wp (inspect_msdu i descs) (fun descs' s' => given_back s fl L B dl tgt drift descs i descs' s') s.
Proof.
  intros HB Hin. destruct (Books_range _ _ _ _ _ _ _ i HB ltac:(set_solver)) as (d & b & n & Hi & Hr & _).
  unfold inspect_msdu. step. rewrite (proj2 (Z.leb_gt _ _)) by lia. by apply deref_msdu.
Qed.

(** ** The loop *)

(** The ids of a message that name a descriptor. *)
Definition valid_ids (pool_size : Z) (ids : list Z) : list Z := filter (fun i => i < pool_size) ids.

Definition body_ok (body : Z -> list Z -> MD (list Z)) : Prop :=
  (forall s i descs, pd_desc_pool_size (dv_tx s) <= i -> body i descs s = Some (descs, s)) /\
  forall s fl L B dl tgt drift descs i, Books s fl (descs ++ L) B dl tgt drift -> i ∈ tgt ->
    wp (body i descs) (fun descs' s' => given_back s fl L B dl tgt drift descs i descs' s') s.

Lemma complete_msdu_ok status : body_ok (complete_msdu status).
Proof.
  split; [|intros; by apply complete_msdu_spec]. intros s i descs Hi. unfold complete_msdu, mbind, M_bind, get.
  by rewrite (proj2 (Z.leb_le _ _)).
Qed.
Lemma inspect_msdu_ok : body_ok inspect_msdu.
Proof.
  split; [|intros; by apply inspect_msdu_spec]. intros s i descs Hi. unfold inspect_msdu, mbind, M_bind, get.
  by rewrite (proj2 (Z.leb_le _ _)).
Qed.

Lemma msdu_loop_spec body l i desc_ids s fl L B dl tgt drift descs :
  body_ok body -> Books s fl (descs ++ L) B dl tgt drift ->
  (forall j x, l !! j = Some x -> znth desc_ids (i + Z.of_nat j) = Some x) ->
  let V := valid_ids (pd_desc_pool_size (dv_tx s)) l in
  NoDup V -> (forall x, x ∈ V -> x ∈ tgt) ->
  wp (msdu_loop body (length l) i desc_ids descs) (fun descs' s' => exists fl',
    Books s' fl' (descs' ++ L) B dl (tgt ∖ ids_set V) (drift + zlen V - (zlen descs' - zlen descs)) /\
    descs' ++ fl' ≡ₚ filter (fun x => x ∉ dl) V ++ descs ++ fl /\
    pd_desc_pool_size (dv_tx s') = pd_desc_pool_size (dv_tx s)) s.
Proof.
  intros Hbody. revert i s fl tgt drift descs. induction l as [|x l IH]; intros i s fl tgt drift descs HB Hl V Hnd Hin; cbn [length msdu_loop].
  { apply wp_ret. exists fl. unfold V, valid_ids. cbn. rewrite difference_empty_L, zlen_nil. split_and!; [|done|done].
    by replace (drift + 0 - (zlen descs - zlen descs)) with drift by lia. }
  pose proof (Hl 0%nat x eq_refl) as Hx. rewrite Z.add_0_r in Hx. eapply wp_step; [unfold lift; by rewrite Hx|].
  assert (Hl' : forall j y, l !! j = Some y -> znth desc_ids (i + 1 + Z.of_nat j) = Some y).
  { intros j y Hj. rewrite <- (Hl (S j) y Hj). f_equal. lia. }
  unfold V, valid_ids in *. rewrite filter_cons in *. destruct (decide (x < pd_desc_pool_size (dv_tx s))) as [Hlt|Hge].
  - apply list.NoDup_cons in Hnd as [Hni Hnd]. apply wp_bind. eapply wp_mono; [apply (proj2 Hbody); [exact HB|apply Hin; set_solver]|].
    intros descs1 s1 (fl1 & HB1 & Hp1 & Hz1). rewrite <- Hz1 in Hni, Hnd, Hin |- *.
    eapply wp_mono; [apply (IH (i + 1) _ _ _ _ _ HB1 Hl' Hnd)|].
    { intros y Hy. assert (y <> x) by (intros ->; done). specialize (Hin y). rewrite elem_of_cons in Hin.
      apply elem_of_difference. rewrite elem_of_singleton. tauto. }
    intros descs2 s2 (fl2 & HB2 & Hp2 & Hz2). exists fl2. rewrite ids_set_cons. split_and!; [|..|congruence].
    + rewrite zlen_cons, <- difference_difference_l_L. by apply (Books_eq _ _ _ _ _ _ _ _ HB2); lia.
    + rewrite Hp2, Hp1, filter_cons. destruct (decide (x ∈ dl)) as [Hd|Hd].
      * by rewrite decide_False by tauto.
      * rewrite decide_True by done. cbn. by rewrite <- Permutation_middle.
  - eapply wp_step; [apply (proj1 Hbody); lia|]. by apply IH.
Qed.
End Msdu.

(** ** The handlers *)

(** A message of the target about [num] frames: the ids that name a descriptor
    are distinct and of frames the target has. *)
Record message_ok (pool_size : Z) (tgt : gset Z) (num : Z) (ids : list Z) : Prop := {
  mo_num : 0 <= num <= zlen ids;
  mo_nodup : NoDup (valid_ids pool_size (take (Z.to_nat num) ids));
  mo_tgt : forall i, i ∈ valid_ids pool_size (take (Z.to_nat num) ids) -> i ∈ tgt }.

Section Handlers.
Context `{HttTx}.
Implicit Types (s : tx_device) (fl L B ids : list Z) (dl tgt : gset Z) (d : desc).

(** How many frames HTT refused. *)
Definition no_refusals : Prop := forall x, htt_tx_send_base x = false.
Definition refusal_count (r : Z) : Prop := 0 <= r /\ (no_refusals -> r = 0).

Lemma refusal_count_none : refusal_count 0.
Proof. by split. Qed.
Lemma refusal_count_add r r' : refusal_count r -> refusal_count r' -> refusal_count (r + r').
Proof. intros [? H1] [? H2]. split; [lia|]. intros Hn. by rewrite H1, H2. Qed.
Lemma refused_count l : refusal_count (zlen (refused l)).
Proof.
  split; [apply zlen_nonneg|]. intros Hn. assert (refused l = []) as ->; [|done].
  induction l as [|x l IH]; [done|]. unfold refused in *. rewrite filter_cons, IH, decide_False; [done|]. by rewrite Hn.
Qed.

(** What a handler leaves behind: [acc] are the frames that the scheduler sent
    on the way, [V] those the target gave back. *)
Definition handled s fl L B dl tgt (V : list Z) (drift : Z) s' : Prop :=
  exists fl' acc refusals, Books s' fl' L B (acc ∪ dl) (acc ∪ (tgt ∖ ids_set V)) (drift + refusals) /\ refusal_count refusals /\
    (forall i, i ∈ acc -> i ∉ dl ∪ tgt /\ i ∉ L /\ i ∉ fl) /\
    (forall i, i ∈ V -> i ∉ dl -> i ∈ fl') /\ (forall i, i ∈ fl -> i ∈ fl') /\
    pd_desc_pool_size (dv_tx s') = pd_desc_pool_size (dv_tx s).

Lemma wp_dev_sched (Q : unit -> tx_device -> Prop) s fl L B dl tgt drift :
  Books s fl L B dl tgt drift ->
  (forall s' acc freed r, Books s' (freed ++ fl) L B (acc ∪ dl) (acc ∪ tgt) (drift + r) -> refusal_count r ->
    (forall i, i ∈ acc -> i ∉ dl ∪ tgt /\ i ∉ L /\ i ∉ fl) -> pd_desc_pool_size (dv_tx s') = pd_desc_pool_size (dv_tx s) -> Q tt s') ->
  wp dev_sched Q s.
Proof.
  intros HB HQ. eapply wp_mono; [by apply dev_sched_spec|]. intros [] s' (cali & sent & freed & Hs & _ & Hout & _ & HB').
  apply (HQ s' (ids_set (td_id <$> accepted sent)) freed (zlen (refused sent)) HB' (refused_count _)).
  - intros i Hi%elem_ids_set. apply Hout. rewrite (accepted_refused sent), fmap_app. apply elem_of_app. by left.
  - pose proof (sd_same _ _ _ _ Hs) as (_ & _ & _ & _ & E & _). exact E.
Qed.

(** The ids of a message, one after the other. *)
Lemma message_loop body s fl L B dl tgt drift num ids :
  body_ok body -> Books s fl L B dl tgt drift -> message_ok (pd_desc_pool_size (dv_tx s)) tgt num ids ->
  let V := valid_ids (pd_desc_pool_size (dv_tx s)) (take (Z.to_nat num) ids) in
  wp (msdu_loop body (Z.to_nat num) 0 ids []) (fun descs s' => exists fl',
    Books s' fl' (descs ++ L) B dl (tgt ∖ ids_set V) (drift + zlen V - zlen descs) /\
    descs ++ fl' ≡ₚ filter (fun x => x ∉ dl) V ++ fl /\ pd_desc_pool_size (dv_tx s') = pd_desc_pool_size (dv_tx s)) s.
Proof.
  intros Hb HB [Hn Hnd Hin] V. assert (Hlen : Z.to_nat num = length (take (Z.to_nat num) ids)).
  { rewrite length_take. unfold zlen in Hn. lia. }
  rewrite Hlen. eapply wp_mono; [apply (msdu_loop_spec body _ 0 ids s fl L B dl tgt drift [] Hb HB)|].
  - intros j x Hj. apply znth_Some. split; [lia|]. apply lookup_take_Some in Hj as [Hj _].
    by rewrite Z.add_0_l, Nat2Z.id.
  - done.
  - done.
  - intros descs s' (fl' & H1 & H2 & H3). exists fl'. split_and!; [|done|done]. eapply Books_eq; [exact H1|]. rewrite zlen_nil. unfold V. lia.
Qed.

Lemma list_free_books ids s fl L B dl tgt drift e :
  Books s fl (ids ++ L) B dl tgt drift ->
  wp (ol_tx_desc_frame_list_free ids e) (fun _ s' => Books s' (rev ids ++ fl) L B dl tgt (drift + zlen ids) /\ dv_tx s' = dv_tx s) s.
Proof.
  intros HB. eapply wp_mono; [apply ol_tx_desc_frame_list_free_spec, HB|]. intros [] s' (bs & _ & HR & Hs & _).
  pose proof (sr_tx _ _ Hs) as E. split; [|done]. eapply (Books_rep s s'); [exact HB|done|done|]. rewrite zlen_app. lia.
Qed.

Lemma completion_core status s fl L B dl tgt drift num ids :
  Books s fl L B dl tgt drift -> message_ok (pd_desc_pool_size (dv_tx s)) tgt num ids ->
  let V := valid_ids (pd_desc_pool_size (dv_tx s)) (take (Z.to_nat num) ids) in
  wp (tx_descs ← msdu_loop (complete_msdu status) (Z.to_nat num) 0 ids [];
      ol_tx_desc_frame_list_free tx_descs (negb (status =? htt_tx_status_ok));; add_rsrc num)
    (fun _ s' => exists fl', Books s' fl' L B dl (tgt ∖ ids_set V) (drift + zlen V - num) /\
      fl' ≡ₚ filter (fun x => x ∉ dl) V ++ fl /\ pd_desc_pool_size (dv_tx s') = pd_desc_pool_size (dv_tx s)) s.
Proof.
  intros HB Hm V. apply wp_bind. eapply wp_mono; [by apply message_loop, Hm; [apply complete_msdu_ok|]|].
  intros descs s1 (fl1 & HB1 & Hp1 & Hz1). apply wp_bind. eapply wp_mono; [by apply list_free_books|].
  intros [] s2 (HB2 & E2). eapply wp_mono; [by apply add_rsrc_spec|]. intros [] s3 (HB3 & E3).
  exists (rev descs ++ fl1). split_and!.
  - eapply Books_eq; [exact HB3|]. unfold V. lia.
  - fold V in Hp1. rewrite <- Hp1. by rewrite <- Permutation_rev.
  - by rewrite E3, <- Hz1, <- E2.
Qed.
(** A handler that ends with the scheduler. *)
Lemma handled_sched s fl L B dl tgt V drift drift1 s1 fl1 :
  Books s1 fl1 L B dl (tgt ∖ ids_set V) drift1 -> drift1 = drift ->
  (forall i, i ∈ fl -> i ∈ fl1) -> (forall i, i ∈ V -> i ∈ dl \/ i ∈ fl1) ->
  pd_desc_pool_size (dv_tx s1) = pd_desc_pool_size (dv_tx s) ->
  wp dev_sched (fun _ s' => handled s fl L B dl tgt V drift s') s1.
Proof.
  intros HB Hd Hfl HV Hz. eapply (wp_dev_sched _ s1); [exact HB|]. intros s' acc freed r HB' Hr Hacc Hz'.
  exists (freed ++ fl1), acc, r. split_and!; [eapply Books_eq; [exact HB'|lia]|done| | | |congruence].
  - intros i Hi. destruct (Hacc i Hi) as (H1 & H2 & H3). rewrite elem_of_union, elem_of_difference, elem_ids_set in H1.
    specialize (HV i). split_and!; [|done|by intros ?%Hfl]. rewrite elem_of_union. destruct (decide (i ∈ V)); tauto.
  - intros i Hi Hdl. apply elem_of_app. right. destruct (HV i Hi); tauto.
  - intros i Hi. apply elem_of_app. right. by apply Hfl.
Qed.

Lemma ol_tx_completion_handler_spec status s fl L B dl tgt drift num ids :
  Books s fl L B dl tgt drift -> message_ok (pd_desc_pool_size (dv_tx s)) tgt num ids ->
  let V := valid_ids (pd_desc_pool_size (dv_tx s)) (take (Z.to_nat num) ids) in
  wp (ol_tx_completion_handler num status ids) (fun _ s' => handled s fl L B dl tgt V (drift + zlen V - num) s') s.
Proof.
  intros HB Hm V. unfold ol_tx_completion_handler. apply wp_bind. eapply (wp_dev_sched _ s); [exact HB|].
  intros s1 acc1 freed1 r1 HB1 Hr1 Hacc1 Hz1. rewrite <- Hz1 in Hm. assert (HV : forall i, i ∈ V -> i ∈ tgt).
  { unfold V. rewrite <- Hz1. apply Hm. }
  assert (Hm1 : message_ok (pd_desc_pool_size (dv_tx s1)) (acc1 ∪ tgt) num ids).
  { destruct Hm as [? ? Hin]. constructor; [done|done|]. intros i Hi. apply elem_of_union. right. by apply Hin. }
  pose proof (completion_core status s1 _ _ _ _ _ _ num ids HB1 Hm1) as Hc. cbv zeta in Hc. rewrite Hz1 in Hc. fold V in Hc.
  apply wp_bind in Hc. apply wp_bind. eapply wp_mono; [exact Hc|]. intros descs s2 Hc2. apply wp_bind in Hc2. apply wp_bind.
  eapply wp_mono; [exact Hc2|]. intros [] s3 Hc3. apply wp_bind. eapply wp_mono; [exact Hc3|].
  intros [] s4 (fl4 & HB4 & Hp4 & Hz4). eapply (wp_dev_sched _ s4); [exact HB4|]. intros s5 acc2 freed2 r2 HB5 Hr2 Hacc2 Hz5.
  assert (Hfl4 : forall i, i ∈ fl -> i ∈ fl4).
  { intros i Hi. rewrite Hp4. apply elem_of_app. right. apply elem_of_app. by right. }
  assert (HV4 : forall i, i ∈ V -> i ∉ acc1 /\ (i ∈ dl \/ i ∈ fl4)).
  { intros i Hi. assert (Hi1 : i ∉ acc1) by (intros Hx; apply Hacc1 in Hx as [Hx _]; apply Hx, elem_of_union; right; by apply HV).
    split; [done|]. destruct (decide (i ∈ dl)); [by left|right]. rewrite Hp4. apply elem_of_app. left. apply list_elem_of_filter.
    split; [rewrite elem_of_union; tauto|done]. }
  exists (freed2 ++ fl4), (acc2 ∪ acc1), (r1 + r2). split_and!; [|by apply refusal_count_add|..|congruence].
  - replace (acc2 ∪ acc1 ∪ dl) with (acc2 ∪ (acc1 ∪ dl)) by (by rewrite assoc_L by apply _).
    replace (acc2 ∪ acc1 ∪ (tgt ∖ ids_set V)) with (acc2 ∪ ((acc1 ∪ tgt) ∖ ids_set V)).
    + eapply Books_eq; [exact HB5|lia].
    + apply set_eq. intros i. rewrite !elem_of_union, !elem_of_difference, elem_of_union, elem_ids_set.
      destruct (decide (i ∈ V)) as [Hi|Hi]; [|tauto]. destruct (HV4 i Hi). tauto.
  - intros i [Hi|Hi]%elem_of_union.
    + destruct (Hacc2 i Hi) as (H1 & H2 & H3). rewrite !elem_of_union, elem_of_difference, elem_of_union, elem_ids_set in H1.
      split_and!; [|done|by intros ?%Hfl4]. rewrite elem_of_union. destruct (decide (i ∈ V)) as [HiV|HiV]; [|tauto].
      destruct (HV4 i HiV) as [? [?|?]]; tauto.
    + destruct (Hacc1 i Hi) as (H1 & H2 & H3). done.
  - intros i Hi Hdl. apply elem_of_app. right. destruct (HV4 i Hi) as [_ [?|?]]; tauto.
  - intros i Hi. apply elem_of_app. right. by apply Hfl4.
Qed.

Lemma ol_tx_inspect_handler_spec s fl L B dl tgt drift num ids :
  Books s fl L B dl tgt drift -> message_ok (pd_desc_pool_size (dv_tx s)) tgt num ids ->
  let V := valid_ids (pd_desc_pool_size (dv_tx s)) (take (Z.to_nat num) ids) in
  wp (ol_tx_inspect_handler num ids) (fun _ s' => handled s fl L B dl tgt V (drift + zlen V) s') s.
Proof.
  intros HB Hm V. unfold ol_tx_inspect_handler. apply wp_bind. eapply wp_mono; [by apply message_loop, Hm; [apply inspect_msdu_ok|]|].
  intros descs s1 (fl1 & HB1 & Hp1 & Hz1). fold V in HB1, Hp1. apply wp_bind. eapply wp_mono; [by apply list_free_books|].
  intros [] s2 (HB2 & E2). eapply (handled_sched s); [exact HB2|lia|..|by rewrite E2, Hz1].
  - intros i Hi. rewrite <- Permutation_rev, Hp1. apply elem_of_app. by right.
  - intros i Hi. destruct (decide (i ∈ dl)); [by left|right]. rewrite <- Permutation_rev, Hp1. apply elem_of_app. left.
    by apply list_elem_of_filter.
Qed.

(** The frame of a descriptor without a vdev stays with the target. *)
Lemma ol_tx_single_completion_handler_spec status s fl L B dl tgt drift i d :
  Books s fl L B dl tgt drift -> i ∈ tgt -> znth (dv_pool s) i = Some d ->
  wp (ol_tx_single_completion_handler status i) (fun _ s' =>
    if bool_decide (ds_vdev d = None) then s' = s else handled s fl L B dl tgt [i] drift s') s.
Proof.
  intros HB Hin Hi. destruct (Books_range _ _ _ _ _ _ _ i HB ltac:(set_solver)) as (d' & b & n & Hi' & Hr & Hb & Hn & _).
  assert (d' = d) as -> by congruence. unfold ol_tx_single_completion_handler, ol_tx_desc_find_check.
  apply wp_bind. step. rewrite (proj2 (Z.leb_gt _ _)) by lia. eapply wp_step; [by apply get_desc_run|].
  destruct (ds_vdev d) as [v|] eqn:Ev; apply wp_ret; [rewrite bool_decide_false by done|by apply wp_ret; rewrite bool_decide_true].
  eapply wp_step; [by apply upd_desc_run|]. set (d1 := set_ds_status _ d). set (s1 := put_desc i d1 s).
  assert (Hi1 : znth (dv_pool s1) i = Some d1) by (by eapply znth_put).
  eapply wp_step; [by eapply (get_netbuf_run s1 i d1)|]. eapply wp_step; [by apply (get_nbuf_run s1 b n)|].
  eapply wp_step; [by apply OL_TX_DESC_NO_REFS_run|].
  assert (HR1 : DevRep s1 fl L B dl tgt) by (apply DevRep_status; [apply HB|done]).
  destruct (DevRep_deref _ _ _ _ _ _ i d1 HR1 Hin Hi1) as [Hz HR2]. rewrite Hz. set (s2 := put_desc i (dereferenced d1) s1) in *.
  pose proof (size_del i tgt Hin) as Hsz. apply wp_bind.
  apply (wp_mono _ (fun _ s3 => exists fl3, Books s3 fl3 L B dl (tgt ∖ {[i]}) (drift + 1) /\ dv_tx s3 = dv_tx s /\
    (forall j, j ∈ fl -> j ∈ fl3) /\ (i ∉ dl -> i ∈ fl3))).
  - destruct (decide (i ∈ dl)) as [Hdl|Hdl]; [rewrite bool_decide_false by tauto|rewrite bool_decide_true by done]; cbn [when].
    + eapply wp_run; [reflexivity|]. exists fl. split_and!; [eapply (Books_rep s s2); [exact HB|exact HR2|done|lia]|done..].
    + eapply wp_mono; [by apply (free_in_hand_spec s2)|]. intros [] s3 (HR3 & d3 & b3 & _ & _ & E).
      exists (i :: fl). split_and!; [eapply (Books_rep s s3); [exact HB|exact HR3|by rewrite E|lia]|by rewrite E|set_solver|set_solver].
  - intros [] s3 (fl3 & HB3 & E3 & Hf3 & Hi3). apply wp_bind. eapply wp_mono; [by apply add_rsrc_spec|].
    intros [] s4 [HB4 E4]. replace (tgt ∖ {[i]}) with (tgt ∖ ids_set [i]) in HB4 by (unfold ids_set; cbn; by rewrite union_empty_r_L).
    eapply (handled_sched s); [exact HB4|lia|exact Hf3| |by rewrite E4; cbn; rewrite E3].
    intros j ->%list_elem_of_singleton. destruct (decide (i ∈ dl)); [by left|right; by apply Hi3].
Qed.

Lemma ol_tx_credit_completion_handler_spec s fl L B dl tgt drift credits :
  Books s fl L B dl tgt drift ->
  wp (ol_tx_credit_completion_handler credits) (fun _ s' => handled s fl L B dl tgt [] drift s') s.
Proof.
  intros HB. unfold ol_tx_credit_completion_handler. apply wp_bind.
  apply (wp_mono _ (fun _ s1 => Books s1 fl L B dl tgt drift /\ pd_desc_pool_size (dv_tx s1) = pd_desc_pool_size (dv_tx s))).
  - destruct (0 <? credits); cbn [when]; [|by eapply wp_run; [reflexivity|]].
    eapply wp_run; [reflexivity|]. split; [|done].
    apply (Books_tx s fl L B dl tgt drift (set_pd_target_tx_credit (fun c => s32 (c + credits)) (dv_tx s)) HB);
      [by apply Inv_credit, HB|apply s32_range|done..].
  - intros [] s1 [HB1 E1]. eapply (handled_sched s); [unfold ids_set; cbn; rewrite difference_empty_L; exact HB1|lia|done| |done].
    + intros i Hi. by apply not_elem_of_nil in Hi.
Qed.
End Handlers.

(** ** Downloads, and frames that are never answered *)
Section Ends.
Context `{HttTx}.
Implicit Types (s : tx_device) (fl L B ids : list Z) (dl tgt : gset Z) (d : desc).

(** The download callback of a management frame. *)
Definition download_events s d b (ok : bool) : list tx_event :=
  if (OL_TXRX_MGMT_TYPE_BASE <=? ds_pkt_type d) &&
     from_option fst false (znth (dv_mgmt_cbs s) (ds_pkt_type d - OL_TXRX_MGMT_TYPE_BASE))
  then [EvDownloadCallback (ds_pkt_type d - OL_TXRX_MGMT_TYPE_BASE) b (negb ok)] else [].

Lemma download_callback_run {A} s i d b n ok (k : unit -> MD A) r :
  znth (dv_pool s) i = Some d -> ds_first d = TdNetbuf b -> dv_nbufs s !! b = Some n -> type_ok d ->
  zlen (dv_mgmt_cbs s) = OL_TXRX_MGMT_NUM_TYPES ->
  k tt (set_dv_log (fun l => l ++ download_events s d b ok) s) = r ->
  (when (OL_TXRX_MGMT_TYPE_BASE <=? ds_pkt_type d)
    (callbacks ← lift (znth (dv_mgmt_cbs s) (ds_pkt_type d - OL_TXRX_MGMT_TYPE_BASE));
     when (callbacks.1)
       (b ← get_netbuf i; get_nbuf b;;
        emit (EvDownloadCallback (ds_pkt_type d - OL_TXRX_MGMT_TYPE_BASE) b (negb ok)))) ≫= k) s = r.
Proof.
  intros Hi Hb Hn [_ Ht] Hcb Hk. assert (Hid : set_dv_log (fun l => l ++ []) s = s).
  { destruct s. unfold set_dv_log. cbn. by rewrite app_nil_r. }
  unfold download_events in Hk. destruct (Z.leb_spec OL_TXRX_MGMT_TYPE_BASE (ds_pkt_type d)) as [Hm|Hm]; cbn [when andb] in *.
  - unfold OL_TXRX_MGMT_TYPE_BASE, OL_TXRX_MGMT_NUM_TYPES in *.
    destruct (znth_in_range (dv_mgmt_cbs s) (ds_pkt_type d - 4)) as [cbs Hc]; [lia|]. rewrite Hc in *. cbn [from_option] in Hk.
    destruct (cbs.1) eqn:E1.
    + eapply run_bind; [|exact Hk]. eapply run_bind; [reflexivity|]. rewrite E1. cbn [when].
      eapply run_bind; [by eapply get_netbuf_run|]. eapply run_bind; [by apply get_nbuf_run|]. done.
    + rewrite Hid in Hk. eapply run_bind; [|exact Hk]. eapply run_bind; [reflexivity|]. by rewrite E1.
  - rewrite Hid in Hk. eapply run_bind; [reflexivity|exact Hk].
Qed.

Lemma ol_tx_download_done_base_ok s fl L B dl tgt drift i x :
  Books s fl L B dl tgt drift -> i ∈ dl ->
  wp (ol_tx_download_done_base true x i) (fun _ s' =>
    Books s' (if decide (i ∈ tgt) then fl else i :: fl) L B (dl ∖ {[i]}) tgt drift /\ dv_tx s' = dv_tx s) s.
Proof.
  intros HB Hin. destruct (Books_range _ _ _ _ _ _ _ i HB ltac:(set_solver)) as (d & b & n & Hi & Hr & Hb & Hn & Ht & _).
  pose proof (bk_rep _ _ _ _ _ _ _ HB) as HR. unfold ol_tx_download_done_base.
  eapply wp_step; [by apply get_desc_run|]. step. unfold wp.
  rewrite (download_callback_run s i d b n true _ _ Hi Hb Hn Ht (dr_cbs _ _ _ _ _ _ HR) eq_refl).
  set (s1 := set_dv_log _ s). cbn [negb]. assert (Hi1 : znth (dv_pool s1) i = Some d) by done.
  assert (HR1 : DevRep s1 fl L B tgt dl) by (by apply DevRep_swap, DevRep_log).
  destruct (DevRep_deref _ _ _ _ _ _ i d HR1 Hin Hi1) as [Hz HR2].
  change (wp (z ← OL_TX_DESC_NO_REFS i; when z (d ← get_desc i; ol_tx_desc_frame_free_nonstd i (negb (ds_status d =? htt_tx_status_ok))))
    (fun _ s' => Books s' (if decide (i ∈ tgt) then fl else i :: fl) L B (dl ∖ {[i]}) tgt drift /\ dv_tx s' = dv_tx s) s1).
  eapply wp_step; [by apply OL_TX_DESC_NO_REFS_run|]. rewrite Hz. set (s2 := put_desc i (dereferenced d) s1) in *.
  apply DevRep_swap in HR2. destruct (decide (i ∈ tgt)) as [Htg|Htg];
    [rewrite bool_decide_false by tauto|rewrite bool_decide_true by done]; cbn [when].
  - eapply wp_run; [reflexivity|]. split; [|done]. by eapply (Books_rep s s2); [exact HB|exact HR2|..].
  - eapply wp_step; [apply get_desc_run; by eapply znth_put|]. eapply wp_mono; [by apply (free_in_hand_spec s2)|].
    intros [] s3 (HR3 & d3 & b3 & _ & _ & E). split; [|by rewrite E]. by eapply (Books_rep s s3); [exact HB|exact HR3|rewrite E|..].
Qed.

(** A failed download gives the credit back, but not the descriptor to the
    count of the queues when the target was still expected to answer. *)
Lemma ol_tx_download_done_base_error s fl L B dl tgt drift i x :
  Books s fl L B dl tgt drift -> i ∈ dl ->
  wp (ol_tx_download_done_base false x i) (fun _ s' =>
    Books s' (i :: fl) L B (dl ∖ {[i]}) (tgt ∖ {[i]}) (drift + in_set i tgt) /\
    dv_tx s' = set_pd_target_tx_credit (fun c => s32 (c + htt_tx_msdu_credit x)) (dv_tx s)) s.
Proof.
  intros HB Hin. destruct (Books_range _ _ _ _ _ _ _ i HB ltac:(set_solver)) as (d & b & n & Hi & Hr & Hb & Hn & Ht & _).
  pose proof (bk_rep _ _ _ _ _ _ _ HB) as HR. unfold ol_tx_download_done_base.
  eapply wp_step; [by apply get_desc_run|]. step. unfold wp.
  rewrite (download_callback_run s i d b n false _ _ Hi Hb Hn Ht (dr_cbs _ _ _ _ _ _ HR) eq_refl).
  set (s1 := set_dv_log _ s). cbn [negb].
  assert (HB1 : Books s1 fl L B dl tgt drift) by (eapply Books_rep; [exact HB|by apply DevRep_log|done|done]).
  change (wp (add_credit (htt_tx_msdu_credit x);; ol_tx_desc_frame_free_nonstd i true) (fun _ s' =>
    Books s' (i :: fl) L B (dl ∖ {[i]}) (tgt ∖ {[i]}) (drift + in_set i tgt) /\
    dv_tx s' = set_pd_target_tx_credit (fun c => s32 (c + htt_tx_msdu_credit x)) (dv_tx s)) s1).
  apply wp_bind. eapply wp_mono; [by apply add_credit_spec|]. intros [] s2 [HB2 E2].
  eapply wp_mono; [apply free_held_spec; [apply HB2|set_solver]|]. intros [] s3 (HR3 & d3 & b3 & _ & _ & E3).
  split; [|by rewrite E3, E2]. eapply (Books_rep s2 s3); [exact HB2|exact HR3|by rewrite E3|].
  unfold in_set. destruct (decide (i ∈ tgt)) as [Htg|Htg]; [rewrite (size_del i tgt Htg); lia|].
  replace (tgt ∖ {[i]}) with tgt; [lia|]. apply set_eq. intros j. set_solver.
Qed.

(** With [tx_free_at_download] the end of a download frees a data frame, whether
    the target has answered or not. *)
Definition is_data_frame d : Prop := ds_pkt_type d <> ol_tx_frm_no_free /\ ds_pkt_type d < OL_TXRX_MGMT_TYPE_BASE.

Lemma data_frame_test d : is_data_frame d ->
  negb (ds_pkt_type d =? ol_tx_frm_no_free) && (ds_pkt_type d <? OL_TXRX_MGMT_TYPE_BASE) = true.
Proof. intros [H1 H2]. by rewrite (proj2 (Z.eqb_neq _ _) H1), (proj2 (Z.ltb_lt _ _) H2). Qed.

(** What stays of a descriptor. *)
Lemma download_done_pkt_type s fl L B dl tgt drift i d x ok :
  Books s fl L B dl tgt drift -> i ∈ dl -> znth (dv_pool s) i = Some d ->
  wp (ol_tx_download_done_base ok x i) (fun _ s' => exists d', znth (dv_pool s') i = Some d' /\ ds_pkt_type d' = ds_pkt_type d /\
    (ok = false -> exists next, ds_first d' = TdNext next)) s.
Proof.
  intros HB Hin Hi. destruct (Books_range _ _ _ _ _ _ _ i HB ltac:(left; apply elem_of_union; by left)) as (d0 & b & n & Hi0 & Hr & Hb & Hn & Ht & _).
  assert (d0 = d) as -> by congruence. pose proof (dr_cbs _ _ _ _ _ _ (bk_rep _ _ _ _ _ _ _ HB)) as Hcb. unfold ol_tx_download_done_base.
  eapply wp_step; [by apply get_desc_run|]. step. unfold wp. rewrite (download_callback_run s i d b n ok _ _ Hi Hb Hn Ht Hcb eq_refl).
  set (s1 := set_dv_log _ s). destruct ok; cbn [negb].
  - rewrite (run_bind _ _ _ _ _ _ (OL_TX_DESC_NO_REFS_run s1 i d Hi) eq_refl). set (s2 := put_desc i (dereferenced d) s1).
    assert (Hi2 : znth (dv_pool s2) i = Some (dereferenced d)) by exact (znth_put s1 i _ d Hi).
    destruct (s32 (ds_ref_cnt d - 1) =? 0); cbn [when]; [|by exists (dereferenced d)].
    rewrite (run_bind _ _ _ _ _ _ (get_desc_run s2 i _ Hi2) eq_refl).
    rewrite (ol_tx_desc_frame_free_nonstd_run s2 i (dereferenced d) b n) by done.
    eexists. split; [exact (znth_put s2 i _ _ Hi2)|done].
  - rewrite (run_bind (add_credit (htt_tx_msdu_credit x)) _ s1 tt (set_dv_tx (set_pd_target_tx_credit (fun c => s32 (c + htt_tx_msdu_credit x))) s1) _ eq_refl eq_refl).
    rewrite (ol_tx_desc_frame_free_nonstd_run _ i d b n) by done. eexists. split; [exact (znth_put (set_dv_tx _ s1) i _ _ Hi)|]. split; [done|].
    intros _. by eexists.
Qed.

Lemma ol_tx_download_done_hl_free_spec s fl L B dl tgt drift i d x :
  Books s fl L B dl tgt drift -> i ∈ dl -> i ∈ tgt -> znth (dv_pool s) i = Some d -> is_data_frame d ->
  wp (ol_tx_download_done_hl_free true x i) (fun _ s' => Books s' (i :: fl) L B (dl ∖ {[i]}) (tgt ∖ {[i]}) drift) s.
Proof.
  intros HB Hdl Htg Hi Hdf. unfold ol_tx_download_done_hl_free. apply wp_bind.
  pose proof (ol_tx_download_done_base_ok s fl L B dl tgt drift i x HB Hdl) as H1.
  pose proof (download_done_pkt_type s fl L B dl tgt drift i d x true HB Hdl Hi) as H2. unfold wp in *.
  destruct (ol_tx_download_done_base true x i s) as [[[] s1]|]; [|done]. destruct H1 as [HB1 _], H2 as (d1 & Hi1 & Hp1 & _).
  rewrite decide_True in HB1 by done. fold (wp (d ← get_desc i; when (negb (ds_pkt_type d =? ol_tx_frm_no_free) && (ds_pkt_type d <? OL_TXRX_MGMT_TYPE_BASE))
    (add_rsrc 1;; ol_tx_desc_frame_free_nonstd i (negb true))) (fun _ s' => Books s' (i :: fl) L B (dl ∖ {[i]}) (tgt ∖ {[i]}) drift) s1).
  eapply wp_step; [by apply get_desc_run|]. rewrite Hp1, (data_frame_test d Hdf). cbn [when].
  apply wp_bind. eapply wp_mono; [by apply add_rsrc_spec|]. intros [] s2 [HB2 _].
  eapply wp_mono; [apply free_held_spec; [apply HB2|apply elem_of_union; by right]|]. intros [] s3 (HR3 & d3 & b3 & _ & _ & E3).
  replace (dl ∖ {[i]} ∖ {[i]}) with (dl ∖ {[i]}) in HR3 by (apply set_eq; set_solver).
  eapply (Books_rep s2 s3); [exact HB2|exact HR3|by rewrite E3|]. rewrite (size_del i tgt Htg). lia.
Qed.

(** Of other frames it does what [ol_tx_download_done_base] does. *)
Lemma ol_tx_download_done_hl_free_other s fl L B dl tgt drift i d x ok Q :
  Books s fl L B dl tgt drift -> i ∈ dl -> znth (dv_pool s) i = Some d ->
  negb (ds_pkt_type d =? ol_tx_frm_no_free) && (ds_pkt_type d <? OL_TXRX_MGMT_TYPE_BASE) = false ->
  wp (ol_tx_download_done_base ok x i) Q s -> wp (ol_tx_download_done_hl_free ok x i) Q s.
Proof.
  intros HB Hin Hi Hdf Hw. pose proof (download_done_pkt_type s fl L B dl tgt drift i d x ok HB Hin Hi) as H2.
  unfold ol_tx_download_done_hl_free. apply wp_bind. unfold wp in *. destruct (ol_tx_download_done_base ok x i s) as [[[] s1]|]; [|done].
  destruct H2 as (d1 & Hi1 & Hp1 & _). rewrite (run_bind _ _ _ _ _ _ (get_desc_run s1 i d1 Hi1) eq_refl), Hp1, Hdf. exact Hw.
Qed.

(** When the download failed, it is freed twice. *)
Lemma ol_tx_download_done_hl_free_twice s fl L B dl tgt drift i d x :
  Books s fl L B dl tgt drift -> i ∈ dl -> znth (dv_pool s) i = Some d -> is_data_frame d ->
  ol_tx_download_done_hl_free false x i s = None.
Proof.
  intros HB Hdl Hi Hdf. pose proof (download_done_pkt_type s fl L B dl tgt drift i d x false HB Hdl Hi) as H2. unfold wp in H2.
  unfold ol_tx_download_done_hl_free, mbind, M_bind. destruct (ol_tx_download_done_base false x i s) as [[[] s1]|]; [|done].
  destruct H2 as (d1 & Hi1 & Hp1 & Hf). destruct (Hf eq_refl) as [next Hnext]. rewrite (get_desc_run s1 i d1 Hi1), Hp1, (data_frame_test d Hdf).
  cbn [when negb]. unfold mbind, M_bind, add_rsrc, modify. set (s2 := set_dv_tx _ s1). unfold ol_tx_desc_frame_free_nonstd, mbind, M_bind.
  rewrite (upd_desc_run s2 i d1 _ Hi1). unfold get_netbuf, mbind, M_bind. rewrite (get_desc_run _ i _ (znth_put s2 i _ d1 Hi1)).
  cbn [set_ds_ref_cnt ds_first]. by rewrite Hnext.
Qed.

(** ** The vdev goes *)
Lemma vdev_detach_descs_loop_spec k i v s fl L B dl tgt drift :
  Books s fl L B dl tgt drift -> 0 <= i -> i + Z.of_nat k <= pd_desc_pool_size (dv_tx s) ->
  wp (vdev_detach_descs_loop k i v) (fun _ s' => Books s' fl L B dl tgt drift /\ dv_tx s' = dv_tx s /\ dv_log s' = dv_log s /\
    forall j d, znth (dv_pool s) j = Some d -> exists d', znth (dv_pool s') j = Some d' /\
      ds_vdev d' = (if bool_decide (i <= j < i + Z.of_nat k /\ ds_vdev d = Some v) then None else ds_vdev d)) s.
Proof.
  revert i s. induction k as [|k IH]; intros i s HB Hi Hk; cbn [vdev_detach_descs_loop].
  { eapply wp_run; [reflexivity|]. split_and!; [done|done|done|]. intros j d Hj. exists d. split; [done|].
    by rewrite bool_decide_false by lia. }
  pose proof (dr_size _ _ _ _ _ _ (bk_rep _ _ _ _ _ _ _ HB)) as Hsz.
  destruct (znth_in_range (dv_pool s) i) as [d Hd]; [lia|]. eapply wp_step; [by apply get_desc_run|]. apply wp_bind.
  set (d1 := if bool_decide (ds_vdev d = Some v) then set_ds_vdev (fun _ => None) d else d).
  apply (wp_mono _ (fun _ s1 => s1 = put_desc i d1 s)).
  { unfold d1. destruct (bool_decide (ds_vdev d = Some v)); cbn [when].
    - by eapply wp_run; [apply upd_desc_run|].
    - eapply wp_run; [reflexivity|]. by rewrite put_id. }
  intros [] s1 ->. assert (HB1 : Books (put_desc i d1 s) fl L B dl tgt drift).
  { eapply Books_rep; [exact HB| |done|done]. eapply DevRep_put_same; [apply HB|done|unfold d1; by case_bool_decide..]. }
  eapply wp_mono; [apply (IH (i + 1) _ HB1); [lia|cbn; lia]|]. intros [] s2 (HB2 & E2 & E3 & Hv). split_and!; [done|done|done|].
  intros j x Hj. destruct (decide (j = i)) as [->|Hne].
  - destruct (Hv i d1) as (d' & Hd' & Ev); [by eapply znth_put|]. exists d'. split; [done|].
    assert (x = d) as -> by congruence. rewrite Ev, bool_decide_false by lia. unfold d1.
    destruct (decide (ds_vdev d = Some v)); [rewrite !bool_decide_true by (split; [lia|done] || done)|rewrite !bool_decide_false by tauto]; done.
  - destruct (Hv j x) as (d' & Hd' & Ev); [by rewrite (znth_put_ne s i j d1 d)|]. exists d'. split; [done|].
    rewrite Ev. apply (f_equal (fun b : bool => if b then None else ds_vdev x)), bool_decide_ext. split; intros [? ?]; (split; [lia|done]).
Qed.

Lemma vdev_detach_descs_spec v s fl L B dl tgt drift :
  Books s fl L B dl tgt drift ->
  wp (vdev_detach_descs v) (fun _ s' => Books s' fl L B dl tgt drift /\ dv_tx s' = dv_tx s /\ dv_log s' = dv_log s /\
    forall j d, znth (dv_pool s) j = Some d -> exists d', znth (dv_pool s') j = Some d' /\
      ds_vdev d' = (if bool_decide (ds_vdev d = Some v) then None else ds_vdev d)) s.
Proof.
  intros HB. unfold vdev_detach_descs. step. pose proof (dr_size _ _ _ _ _ _ (bk_rep _ _ _ _ _ _ _ HB)) as Hsz.
  pose proof (zlen_nonneg (dv_pool s)). eapply wp_mono; [apply (vdev_detach_descs_loop_spec _ 0 v s _ _ _ _ _ _ HB); lia|].
  intros [] s' (HB' & E & El & Hv). split_and!; [done|done|done|]. intros j d Hj. destruct (Hv j d Hj) as (d' & Hd' & Ev).
  exists d'. split; [done|]. rewrite Ev. apply (f_equal (fun b : bool => if b then None else ds_vdev d)), bool_decide_ext.
  apply znth_lt_Some in Hj. split; [by intros [_ ?]|]. intros ?. split; [lia|done].
Qed.

(** ** The target is gone *)
Lemma discard_target_loop_spec k i s fl L B dl tgt drift :
  Books s fl L B dl tgt drift -> 0 <= i -> i + Z.of_nat k = pd_desc_pool_size (dv_tx s) -> (forall j, j ∈ dl ∪ tgt -> i <= j) ->
  wp (discard_target_loop k i) (fun _ s' => exists freed, Books s' (freed ++ fl) L B ∅ ∅ (drift + Z.of_nat (size tgt)) /\
    freed ≡ₚ elements (dl ∪ tgt) /\ dv_tx s' = dv_tx s) s.
Proof.
  revert i s fl dl tgt drift. induction k as [|k IH]; intros i s fl dl tgt drift HB Hi Hk Hlow; cbn [discard_target_loop].
  { assert (Hno : dl ∪ tgt = ∅).
    { apply set_eq. intros j. split; [|set_solver]. intros Hj.
      destruct (Books_range _ _ _ _ _ _ _ j HB ltac:(by left)) as (_ & _ & _ & _ & Hr & _). specialize (Hlow j Hj). lia. }
    assert (dl = ∅) as -> by set_solver. assert (tgt = ∅) as -> by set_solver.
    eapply wp_run; [reflexivity|]. exists []. rewrite Hno, size_empty, elements_empty. split_and!; [|done|done].
    eapply Books_eq; [exact HB|]. lia. }
  pose proof (bk_rep _ _ _ _ _ _ _ HB) as HR. pose proof (dr_size _ _ _ _ _ _ HR) as Hsz.
  destruct (znth_in_range (dv_pool s) i) as [d Hd]; [lia|]. eapply wp_step; [by apply get_desc_run|].
  pose proof (dr_refs _ _ _ _ _ _ HR i d Hd) as Href. unfold refs, in_set in Href. apply wp_bind.
  destruct (decide (i ∈ dl ∪ tgt)) as [Hin|Hout].
  - assert (ds_ref_cnt d <> 0) by (destruct (decide (i ∈ dl)), (decide (i ∈ tgt)); [lia..|set_solver]).
    rewrite (proj2 (Z.eqb_neq _ _)) by done. cbn [negb when]. eapply wp_mono; [by apply free_held_spec|].
    intros [] s1 (HR1 & d1 & b1 & _ & _ & E1).
    assert (HB1 : Books s1 (i :: fl) L B (dl ∖ {[i]}) (tgt ∖ {[i]}) (drift + in_set i tgt)).
    { eapply (Books_rep s s1); [exact HB|exact HR1|by rewrite E1|]. unfold in_set.
      destruct (decide (i ∈ tgt)) as [Ht|Ht]; [rewrite (size_del i tgt Ht); lia|].
      replace (tgt ∖ {[i]}) with tgt by (apply set_eq; set_solver). lia. }
    eapply wp_mono; [apply (IH (i + 1) _ _ _ _ _ HB1)|].
    + lia.
    + rewrite E1. cbn. lia.
    + intros j Hj. assert (j ∈ dl ∪ tgt /\ j <> i) as [Hj' Hne] by set_solver. specialize (Hlow j Hj'). lia.
    + intros [] s2 (freed & HB2 & Hp & E2). exists (freed ++ [i]). rewrite <- app_assoc. split_and!; [|..|by rewrite E2, E1].
      * eapply Books_eq; [exact HB2|]. unfold in_set. destruct (decide (i ∈ tgt)) as [Ht|Ht]; [rewrite (size_del i tgt Ht); lia|].
        replace (tgt ∖ {[i]}) with tgt by (apply set_eq; set_solver). lia.
      * rewrite Hp. replace (dl ∖ {[i]} ∪ tgt ∖ {[i]}) with ((dl ∪ tgt) ∖ {[i]}) by set_solver.
        rewrite (union_difference_singleton_L i (dl ∪ tgt) Hin) at 2. rewrite elements_union_singleton by set_solver.
        by rewrite Permutation_app_comm.
  - assert (Href0 : ds_ref_cnt d = 0) by (rewrite (dr_refs _ _ _ _ _ _ HR i d Hd); by apply refs_out).
    rewrite (proj2 (Z.eqb_eq _ _)) by exact Href0.
    cbn [negb when]. eapply wp_run; [reflexivity|]. apply (IH (i + 1)); [done|lia|lia|].
    intros j Hj. specialize (Hlow j Hj). assert (j <> i) by (intros ->; done). lia.
Qed.

Lemma ol_tx_discard_target_frms_spec s fl L B dl tgt drift :
  Books s fl L B dl tgt drift ->
  wp ol_tx_discard_target_frms (fun _ s' => exists freed, Books s' (freed ++ fl) L B ∅ ∅ (drift + Z.of_nat (size tgt)) /\
    freed ≡ₚ elements (dl ∪ tgt) /\ dv_tx s' = dv_tx s) s.
Proof.
  intros HB. unfold ol_tx_discard_target_frms. step. pose proof (dr_size _ _ _ _ _ _ (bk_rep _ _ _ _ _ _ _ HB)).
  pose proof (zlen_nonneg (dv_pool s)). apply (discard_target_loop_spec _ 0); [done|lia|lia|].
  intros j Hj. destruct (Books_range _ _ _ _ _ _ _ j HB ltac:(by left)) as (_ & _ & _ & _ & Hr & _). lia.
Qed.
End Ends.
