(* ===== verification/DescEntry.v ===== *)
(** The entry of the transmit path ([ol_tx.c]): data frames
    ([ol_tx_hl_base]) and management frames ([ol_txrx_mgmt_send]) take a
    descriptor and enter the queue they are classified into.  The queue is an
    argument here: [None] stands for a frame that is dropped because no queue is
    found or the state of its peer forbids it. *)
From Stdlib Require Import ZArith Lia.
From stdpp Require Import prelude gmap list numbers.
From S2P Require Import Prelude.
From S2P Require Import TxTypes.
From S2P Require Import TxCore.
From S2P Require Import TxSched.
From S2P Require Import TxQueue.
From S2P Require Import TxInv.
From S2P Require Import TxDispatch.
From S2P Require Import TxDiscard.
From S2P Require Import TxInit.
From S2P Require Import DescTypes.
From S2P Require Import DescPool.
From S2P Require Import DescOps.
From S2P Require Import DescFree.
From S2P Require Import DescQueue.
From S2P Require Import DescComplete.

(** [enum ol_tx_spec], the bits that matter here. *)
Definition ol_tx_spec_tso : Z := 0x8.
Definition ol_tx_spec_no_free : Z := 0x20.

(** The packet type of a data frame; a standard one keeps its type. *)
Definition spec_pkt_type (tx_spec pkt_type : Z) : Z :=
  if negb (Z.land tx_spec ol_tx_spec_no_free =? 0) then ol_tx_frm_no_free
  else if negb (Z.land tx_spec ol_tx_spec_tso =? 0) then ol_tx_frm_tso
  else pkt_type.

Definition no_info : msdu_info := mk_msdu_info 0 0 0 false.

Section Entry.
Context `{HttTx}.

(** What the queues see of the descriptor. *)
Definition enqueue_desc (q : txq_id) (i : Z) : MD unit :=
  b ← get_netbuf i;
  n ← get_nbuf b;
  dev_enqueue q (mk_tx_desc i (nb_len n) (nb_id_storage n)) (ext_tid_of q).

(** The end of both: into the queue, or dropped. *)
Definition enqueue_or_drop (txq : option txq_id) (i : Z) : MD unit :=
  match txq with
  | None => add_rsrc 1;; ol_tx_desc_frame_free_nonstd i true
  | Some q => enqueue_desc q i
  end.

(** The frames one after the other.  When the pool is empty the rest is
    returned to the caller, without a call of the scheduler. *)
Fixpoint ol_tx_hl_base (v tx_spec htt_pkt_type : Z) (msdus : list (Z * option txq_id)) (call_sched : bool) : MD (list Z) :=
  match msdus with
  | [] => when call_sched dev_sched;; mret []
  | (msdu, txq) :: rest =>
    '(o, _) ← ol_tx_desc_hl v msdu htt_pkt_type no_info;
    match o with
    | None => mret (msdus.*1)
    | Some i =>
      upd_desc i (set_ds_pkt_type (spec_pkt_type tx_spec));;
      enqueue_or_drop txq i;;
      ol_tx_hl_base v tx_spec htt_pkt_type rest call_sched
    end
  end.

(** [true] when the frame is accepted. *)
Definition ol_txrx_mgmt_send (v tx_mgmt_frm type htt_pkt_type : Z) (txq : option txq_id) : MD bool :=
  '(o, _) ← ol_tx_desc_hl v tx_mgmt_frm htt_pkt_type no_info;
  match o with
  | None => adf_nbuf_unmap tx_mgmt_frm;; mret false
  | Some i =>
    upd_desc i (set_ds_pkt_type (fun _ => type + OL_TXRX_MGMT_TYPE_BASE));;
    enqueue_or_drop txq i;;
    match txq with
    | None => mret false
    | Some _ => dev_sched;; mret true
    end
  end.
End Entry.

(** ** The entry on the books *)
Definition queues_kept (t t' : tx_pdev) : Prop := forall q, is_Some (pd_txqs t !! q) -> is_Some (pd_txqs t' !! q).

Definition queue_known (t : tx_pdev) (txq : option txq_id) : Prop :=
  match txq with None => True | Some q => is_Some (pd_txqs t !! q) end.

Section EntrySpec.
Context `{HttTx}.
Implicit Types (s : tx_device) (fl L B : list Z) (dl tgt : gset Z) (d : desc).

Lemma none_of_empty (P : Z -> Prop) : forall i, i ∈ (∅ : gset Z) -> P i.
Proof. intros i Hi. by apply not_elem_of_empty in Hi. Qed.

Lemma enqueue_or_drop_spec txq s fl L B dl tgt drift i :
  Books s fl (i :: L) B dl tgt drift -> queue_known (dv_tx s) txq ->
  wp (enqueue_or_drop txq i) (fun _ s' => exists fl', Books s' fl' L B dl tgt drift /\ queues_kept (dv_tx s) (dv_tx s')) s.
Proof.
  intros HB Hq. destruct (Books_range _ _ _ _ _ _ _ i HB ltac:(right; by apply elem_of_cons; left)) as (d & b & n & Hi & _ & Hb & Hn & _).
  destruct txq as [q|]; cbn [enqueue_or_drop].
  - destruct Hq as [t Ht]. unfold enqueue_desc. eapply wp_step; [by eapply get_netbuf_run|]. eapply wp_step; [by apply get_nbuf_run|].
    eapply wp_mono; [eapply (dev_enqueue_spec s fl L B dl tgt drift q t (mk_tx_desc i (nb_len n) (nb_id_storage n))); [exact HB| |done]|].
    + exists b, n. split_and!; [by exists d|done..].
    + intros [] s' (dropped & fl' & He & HB'). exists fl'. split; [done|]. intros q' [t' Ht'].
      destruct (decide (q' = q)) as [->|Hne].
      * destruct (en_queue _ _ _ _ _ He) as (_ & _ & x & _ & Hx & _). by exists x.
      * destruct (en_others _ _ _ _ _ He q' t' Hne Ht') as (_ & x & Hx & _). by exists x.
  - apply wp_bind. eapply wp_mono; [by apply add_rsrc_spec|]. intros [] s1 [HB1 E1].
    eapply wp_mono; [apply free_in_hand_spec, HB1|]. intros [] s2 (HR2 & d2 & b2 & _ & _ & E2). exists (i :: fl). split.
    + eapply (Books_rep s1 s2); [exact HB1|exact HR2|by rewrite E2|rewrite zlen_cons; lia].
    + rewrite E2, E1. by intros q.
Qed.

(** Taking a descriptor; its type is set at once. *)
Lemma take_desc_spec {A} s fl L B dl tgt drift v b ty mi f (k1 : MD A) (k2 : Z -> MD A) (Q : A -> tx_device -> Prop) :
  Books s fl L (b :: B) dl tgt drift -> (forall p, p = ol_tx_frm_std -> 0 <= f p < OL_TXRX_MGMT_TYPE_BASE + OL_TXRX_MGMT_NUM_TYPES) ->
  (fl = [] -> wp k1 Q s) ->
  (forall i fl' s', fl = i :: fl' -> Books s' fl' (i :: L) B dl tgt drift -> queues_kept (dv_tx s) (dv_tx s') -> wp (k2 i) Q s') ->
  wp ('(o, _) ← ol_tx_desc_hl v b ty mi; match o with None => k1 | Some i => upd_desc i (set_ds_pkt_type f);; k2 i end) Q s.
Proof.
  intros HB Hf H1 H2. pose proof (bk_rep _ _ _ _ _ _ _ HB) as HR.
  destruct (dr_held _ _ _ _ _ _ HR) as [_ HBb]. destruct (HBb b ltac:(by apply elem_of_cons; left)) as [[n Hn] _].
  destruct fl as [|i fl'].
  - destruct (ol_tx_desc_hl_none s L B dl tgt v b n ty mi HR Hn) as [mi' Hrun]. eapply wp_step; [exact Hrun|]. by apply H1.
  - destruct (ol_tx_desc_hl_run s i fl' L B dl tgt v b n ty mi HR Hn) as (d & next & mi' & Hd & Hw & Hc & Hrun).
    eapply wp_step; [exact Hrun|]. cbv beta iota. set (s1 := taken i v b d next s).
    pose proof (DevRep_take s i fl' L B dl tgt v b d next HR Hd Hw Hc) as HR1. fold s1 in HR1.
    assert (Hi1 : znth (dv_pool s1) i = Some (taken_desc v b d)) by (unfold s1, taken; eapply znth_put; exact Hd).
    eapply wp_step; [by apply upd_desc_run|]. apply (H2 i fl' _ eq_refl); [|by intros q].
    constructor; [|exact (Inv_rsrc _ _ (bk_inv _ _ _ _ _ _ _ HB))|exact (bk_credit _ _ _ _ _ _ _ HB)|].
    + eapply DevRep_put_same; [exact HR1|exact Hi1|done| |done]. intros _. unfold type_ok. cbn. by apply Hf.
    + cbn. rewrite (bk_rsrc _ _ _ _ _ _ _ HB). unfold queued. cbn. rewrite zlen_cons. eqm_solve.
Qed.

Lemma spec_pkt_type_ok tx_spec p : p = ol_tx_frm_std -> 0 <= spec_pkt_type tx_spec p < OL_TXRX_MGMT_TYPE_BASE + OL_TXRX_MGMT_NUM_TYPES.
Proof. intros ->. unfold spec_pkt_type. by repeat destruct (negb _). Qed.

(** The frames that are not accepted are the last ones, when no descriptor is
    left. *)
Lemma ol_tx_hl_base_spec v tx_spec ty call_sched msdus s fl L B dl tgt drift :
  Books s fl L (msdus.*1 ++ B) dl tgt drift -> (forall x, x ∈ msdus -> queue_known (dv_tx s) x.2) ->
  wp (ol_tx_hl_base v tx_spec ty msdus call_sched) (fun rest s' => exists fl' acc r,
    Books s' fl' L (rest ++ B) (acc ∪ dl) (acc ∪ tgt) (drift + r) /\ refusal_count r /\ (exists k, rest = drop k (msdus.*1)) /\
    (rest <> [] -> fl' = [] /\ acc = ∅ /\ r = 0) /\ (forall i, i ∈ acc -> i ∉ dl ∪ tgt)) s.
Proof.
  revert s fl. induction msdus as [|[b txq] msdus IH]; intros s fl HB Hq; cbn [ol_tx_hl_base].
  - apply wp_bind. assert (Hret : forall s' fl' acc r, Books s' fl' L B (acc ∪ dl) (acc ∪ tgt) (drift + r) -> refusal_count r ->
      (forall i, i ∈ acc -> i ∉ dl ∪ tgt) -> wp (mret [] : MD (list Z)) (fun rest s' => exists fl' acc r,
        Books s' fl' L (rest ++ B) (acc ∪ dl) (acc ∪ tgt) (drift + r) /\ refusal_count r /\ (exists k, rest = drop k ([] : list Z)) /\
        (rest <> [] -> fl' = [] /\ acc = ∅ /\ r = 0) /\ (forall i, i ∈ acc -> i ∉ dl ∪ tgt)) s').
    { intros s' fl' acc r H1 H2 H3. apply wp_ret. exists fl', acc, r. split_and!; [done|done|by exists 0%nat|done|done]. }
    destruct call_sched; cbn [when].
    + eapply (wp_dev_sched _ s); [exact HB|]. intros s' acc freed r HB' Hr Hacc _. eapply Hret; [exact HB'|done|].
      intros i Hi. by apply Hacc.
    + eapply wp_run; [reflexivity|]. apply (Hret s fl ∅ 0); [|done|apply none_of_empty]. rewrite !union_empty_l_L, Z.add_0_r. exact HB.
  - apply (take_desc_spec s fl L (msdus.*1 ++ B) dl tgt drift); [exact HB|apply spec_pkt_type_ok| |].
    + intros ->. apply wp_ret. exists [], ∅, 0. rewrite !union_empty_l_L, Z.add_0_r. split_and!; [exact HB|done|by exists 0%nat|done|apply none_of_empty].
    + intros i fl' s1 -> HB1 Hk1. apply wp_bind. eapply wp_mono; [eapply enqueue_or_drop_spec; [exact HB1|]|].
      { specialize (Hq (b, txq) ltac:(by apply elem_of_cons; left)). destruct txq as [q|]; [by apply Hk1|done]. }
      intros [] s2 (fl2 & HB2 & Hk2). eapply wp_mono; [apply (IH s2 fl2 HB2)|].
      * intros x Hx. specialize (Hq x ltac:(by apply elem_of_cons; right)). destruct (x.2) as [q|]; [by apply Hk2, Hk1|done].
      * intros rest s3 (fl3 & acc & r & H1 & H2 & [k ->] & H4 & H5). exists fl3, acc, r. split_and!; try done. by exists (S k).
Qed.

(** A frame that is not accepted is still the caller's only when there was no
    descriptor. *)
Lemma ol_txrx_mgmt_send_spec v b type ty txq s fl L B dl tgt drift :
  Books s fl L (b :: B) dl tgt drift -> 0 <= type < OL_TXRX_MGMT_NUM_TYPES -> queue_known (dv_tx s) txq ->
  wp (ol_txrx_mgmt_send v b type ty txq) (fun ok s' => exists fl' acc r,
    Books s' fl' L (if bool_decide (fl = []) then b :: B else B) (acc ∪ dl) (acc ∪ tgt) (drift + r) /\ refusal_count r /\
    ok = bool_decide (fl <> [] /\ txq <> None) /\ (forall i, i ∈ acc -> i ∉ dl ∪ tgt)) s.
Proof.
  intros HB Hty Hq. unfold ol_txrx_mgmt_send. pose proof (bk_rep _ _ _ _ _ _ _ HB) as HR.
  apply (take_desc_spec s fl L B dl tgt drift); [exact HB| | |].
  - intros p _. unfold OL_TXRX_MGMT_TYPE_BASE, OL_TXRX_MGMT_NUM_TYPES in *. lia.
  - intros ->. destruct (dr_held _ _ _ _ _ _ HR) as [_ HBb]. destruct (HBb b ltac:(by apply elem_of_cons; left)) as [[n Hn] _].
    eapply wp_step; [by eapply adf_nbuf_unmap_run|]. apply wp_ret. exists [], ∅, 0. rewrite !union_empty_l_L, Z.add_0_r.
    split_and!; [|done|by rewrite bool_decide_false by tauto|apply none_of_empty].
    eapply Books_rep; [exact HB|by apply DevRep_log|done|done].
  - intros i fl' s1 -> HB1 Hk1. apply wp_bind. eapply wp_mono; [eapply enqueue_or_drop_spec; [exact HB1|]|].
    { destruct txq as [q|]; [by apply Hk1|done]. }
    intros [] s2 (fl2 & HB2 & Hk2). rewrite bool_decide_false by done. destruct txq as [q|].
    + apply wp_bind. eapply (wp_dev_sched _ s2); [exact HB2|]. intros s' acc freed r HB' Hr Hacc _. apply wp_ret.
      exists (freed ++ fl2), acc, r. split_and!; [done|done|by rewrite bool_decide_true|]. intros j Hj. by apply Hacc.
    + apply wp_ret. exists fl2, ∅, 0. rewrite !union_empty_l_L, Z.add_0_r. split_and!; [done|done|by rewrite bool_decide_false by tauto|apply none_of_empty].
Qed.
End EntrySpec.
