(* ===== verification/DescClient.v ===== *)
(** The users of the transmit path: the operating system, the target and the
    control path, with any order of their calls.  The frames whose download has
    not ended ([dl]) and those the target has not answered ([tgt]) are what the
    outside knows; every step keeps the books.

    The pool at attach, and the states a device can reach. *)
From Stdlib Require Import ZArith Lia.
From stdpp Require Import prelude gmap fin_sets list numbers.
From S2P Require Import Prelude.
From S2P Require Import TxTypes.
From S2P Require Import TxCore.
From S2P Require Import TxSched.
From S2P Require Import TxQueue.
From S2P Require Import TxInv.
From S2P Require Import TxSchedInv.
From S2P Require Import TxDispatch.
From S2P Require Import TxQueueInv.
From S2P Require Import TxInit.
From S2P Require Import DescTypes.
From S2P Require Import DescPool.
From S2P Require Import DescSend.
From S2P Require Import DescOps.
From S2P Require Import DescFree.
From S2P Require Import DescQueue.
From S2P Require Import DescComplete.
From S2P Require Import DescEntry.

(** ** The calls *)
Inductive dev_op :=
  | op_data (v tx_spec htt_pkt_type : Z) (msdus : list (Z * nbuf * option txq_id)) (call_sched : bool)
  | op_mgmt (v b : Z) (n : nbuf) (type htt_pkt_type : Z) (q : txq_id)
  | op_sched
  | op_pause (q : txq_id)
  | op_unpause (q : txq_id)
  | op_queue_free (q : txq_id)
  | op_download (ok : bool) (msdu : tx_desc) (i : Z)
  | op_completion (num_msdus status : Z) (ids : list Z)
  | op_inspect (num_msdus : Z) (ids : list Z)
  | op_single (status i : Z)
  | op_credit (credits : Z)
  | op_vdev_detach (v : Z)
  | op_discard_target.

Definition new_nbuf (b : Z) (n : nbuf) : MD unit := modify (set_dv_nbufs (insert b n)).

(** Whether the end of the download frees the frame for good
    ([ol_tx_download_done_hl_free]): with [tx_free_at_download], a data frame. *)
Definition frees_at_download (s : tx_device) (i : Z) : bool :=
  dv_free_at_download s && match znth (dv_pool s) i with
    | Some d => negb (ds_pkt_type d =? ol_tx_frm_no_free) && (ds_pkt_type d <? OL_TXRX_MGMT_TYPE_BASE)
    | None => false
    end.

Section Client.
Context `{HttTx}.
Implicit Types (s : tx_device) (fl L B : list Z) (dl tgt : gset Z).

(** The caller frees what is not accepted. *)
Definition run_op (o : dev_op) : MD unit :=
  match o with
  | op_data v tx_spec ty msdus call_sched =>
    for_each msdus (fun x => new_nbuf x.1.1 x.1.2);;
    rest ← ol_tx_hl_base v tx_spec ty ((fun x => (x.1.1, x.2)) <$> msdus) call_sched;
    for_each rest drop_nbuf
  | op_mgmt v b n type ty q =>
    new_nbuf b n;;
    ok ← ol_txrx_mgmt_send v b type ty (Some q);
    when (negb ok) (drop_nbuf b)
  | op_sched => dev_sched
  | op_pause q => dev_pause q (ext_tid_of q)
  | op_unpause q => dev_unpause q (ext_tid_of q)
  | op_queue_free q => dev_queue_free q (ext_tid_of q)
  | op_download ok msdu i => tx_send_complete_part2 ok msdu i
  | op_completion num status ids => ol_tx_completion_handler num status ids
  | op_inspect num ids => ol_tx_inspect_handler num ids
  | op_single status i => ol_tx_single_completion_handler status i
  | op_credit credits => ol_tx_credit_completion_handler credits
  | op_vdev_detach v => vdev_detach_descs v
  | op_discard_target => ol_tx_discard_target_frms
  end.

(** What callers keep to: new frames come in buffers of their own and go to
    queues that exist; a download ends once, and the target answers for frames
    it has.  With [tx_free_at_download] the download of a data frame does not
    fail, and ends before the target answers for the frame: otherwise the code
    frees the frame twice ([ol_tx_download_done_hl_free_twice]). *)
Definition allowed (o : dev_op) s dl tgt : Prop :=
  match o with
  | op_data _ _ _ msdus _ =>
    NoDup (msdus.*1.*1) /\ (forall x, x ∈ msdus -> dv_nbufs s !! x.1.1 = None /\ queue_known (dv_tx s) x.2)
  | op_mgmt _ b _ type _ q => dv_nbufs s !! b = None /\ 0 <= type < OL_TXRX_MGMT_NUM_TYPES /\ is_Some (pd_txqs (dv_tx s) !! q)
  | op_pause q => exists t, pd_txqs (dv_tx s) !! q = Some t /\ txq_paused_total t < 255
  | op_unpause q => is_Some (pd_txqs (dv_tx s) !! q)
  | op_queue_free q => exists t, pd_txqs (dv_tx s) !! q = Some t /\ txq_paused_total t = 0
  | op_download ok _ i => i ∈ dl /\ (frees_at_download s i = true -> ok = true /\ i ∈ tgt)
  | op_completion num _ ids | op_inspect num ids => message_ok (pd_desc_pool_size (dv_tx s)) tgt num ids
  | op_single _ i => i ∈ tgt
  | op_sched | op_credit _ | op_vdev_detach _ | op_discard_target => True
  end.

(** What the call takes from the download software and from the target. *)
Definition ended (o : dev_op) s dl tgt : gset Z * gset Z :=
  match o with
  | op_download true _ i => (dl ∖ {[i]}, if frees_at_download s i then tgt ∖ {[i]} else tgt)
  | op_download false _ i => (dl ∖ {[i]}, tgt ∖ {[i]})
  | op_completion num _ ids | op_inspect num ids =>
    (dl, tgt ∖ ids_set (valid_ids (pd_desc_pool_size (dv_tx s)) (take (Z.to_nat num) ids)))
  | op_single _ i => (dl, match znth (dv_pool s) i with
      | Some d => if bool_decide (ds_vdev d = None) then tgt else tgt ∖ {[i]}
      | None => tgt end)
  | op_discard_target => (∅, ∅)
  | _ => (dl, tgt)
  end.

(** The frames just sent: two references, held by neither before. *)
Definition newly_sent s dl tgt : gset Z :=
  ids_set (filter (fun i => i ∉ dl ∪ tgt /\ ds_ref_cnt <$> znth (dv_pool s) i = Some 2) (zseq (zlen (dv_pool s)))).

Definition dev_state : Type := tx_device * gset Z * gset Z.

Definition after (o : dev_op) s dl tgt s' : dev_state :=
  let '(dl1, tgt1) := ended o s dl tgt in
  let new := newly_sent s' dl1 tgt1 in (s', new ∪ dl1, new ∪ tgt1).

Inductive dev_step : dev_state -> dev_state -> Prop :=
  | dev_step_intro o s dl tgt s' : allowed o s dl tgt -> run_op o s = Some (tt, s') ->
      dev_step (s, dl, tgt) (after o s dl tgt s').

(** By how much a call makes the queues' count of free descriptors
    ([rsrc_cnt]) too small: a failed download and the frames that come back for
    inspection or are discarded do not count back; a completion counts ids that
    name no descriptor. *)
Definition op_drift (o : dev_op) s tgt : Z :=
  let valid num ids := zlen (valid_ids (pd_desc_pool_size (dv_tx s)) (take (Z.to_nat num) ids)) in
  match o with
  | op_download false _ i => in_set i tgt
  | op_completion num _ ids => valid num ids - num
  | op_inspect num ids => valid num ids
  | op_discard_target => Z.of_nat (size tgt)
  | _ => 0
  end.

(** ** Every step keeps the books *)
Definition BooksE s dl tgt (drift : Z) : Prop := exists fl, Books s fl [] [] dl tgt drift.

(** The step the client sees is the one the handlers make. *)
Lemma newly_sent_books s fl L B acc dl tgt drift :
  Books s fl L B (acc ∪ dl) (acc ∪ tgt) drift -> (forall i, i ∈ acc -> i ∉ dl ∪ tgt) -> newly_sent s dl tgt = acc.
Proof.
  intros HB Hacc. pose proof (bk_rep _ _ _ _ _ _ _ HB) as HR. apply set_eq. intros i. unfold newly_sent.
  rewrite elem_ids_set, list_elem_of_filter, zseq_elem. split.
  - intros [[Hn Hr] Hi]. destruct (znth_in_range (dv_pool s) i Hi) as [d Hd]. rewrite Hd in Hr. injection Hr as Hr.
    rewrite (dr_refs _ _ _ _ _ _ HR i d Hd) in Hr. unfold refs, in_set in Hr. rewrite not_elem_of_union in Hn.
    destruct (decide (i ∈ acc ∪ dl)) as [Hd1|], (decide (i ∈ acc ∪ tgt)); try lia. apply elem_of_union in Hd1. tauto.
  - intros Hi. destruct (Books_range _ _ _ _ _ _ _ i HB) as (d & b & n & Hd & Hr & _ & _ & _ & Href).
    { left. rewrite !elem_of_union. tauto. }
    rewrite (dr_size _ _ _ _ _ _ HR). split; [|done]. split; [by apply Hacc|]. rewrite Hd. cbn. rewrite Href. unfold refs.
    by rewrite !in_set_in by (apply elem_of_union; by left).
Qed.

(** What is to be shown of a call. *)
Definition step_ok (o : dev_op) s dl tgt drift s' : Prop :=
  exists drift', BooksE s' (after o s dl tgt s').1.2 (after o s dl tgt s').2 drift' /\
    (no_refusals -> drift' = drift + op_drift o s tgt).

Lemma step_ok_intro o s dl tgt drift s' dl1 tgt1 fl acc drift' :
  ended o s dl tgt = (dl1, tgt1) -> Books s' fl [] [] (acc ∪ dl1) (acc ∪ tgt1) drift' ->
  (forall i, i ∈ acc -> i ∉ dl1 ∪ tgt1) -> (no_refusals -> drift' = drift + op_drift o s tgt) -> step_ok o s dl tgt drift s'.
Proof.
  intros He HB Hacc Hd. exists drift'. split; [|done]. unfold after. rewrite He. cbn. exists fl.
  by rewrite (newly_sent_books _ _ _ _ _ _ _ _ HB Hacc).
Qed.

(** A call that sends nothing. *)
Lemma step_ok_none o s dl tgt drift s' dl1 tgt1 fl drift' :
  ended o s dl tgt = (dl1, tgt1) -> Books s' fl [] [] dl1 tgt1 drift' ->
  (no_refusals -> drift' = drift + op_drift o s tgt) -> step_ok o s dl tgt drift s'.
Proof.
  intros He HB Hd. eapply (step_ok_intro _ _ _ _ _ _ dl1 tgt1 fl ∅); [done| |apply none_of_empty|done].
  by rewrite !union_empty_l_L.
Qed.

Lemma step_ok_handled o s fl dl tgt V drift drift1 s' :
  handled s fl [] [] dl tgt V drift1 s' -> ended o s dl tgt = (dl, tgt ∖ ids_set V) -> (forall i, i ∈ V -> i ∈ tgt) ->
  drift1 = drift + op_drift o s tgt -> step_ok o s dl tgt drift s'.
Proof.
  intros (fl' & acc & r & HB & [_ Hr] & Hacc & _) He HV Hd. eapply step_ok_intro; [exact He|exact HB| |].
  - intros i Hi. destruct (Hacc i Hi) as [H1 _]. rewrite elem_of_union, elem_of_difference. rewrite elem_of_union in H1. tauto.
  - intros Hn. rewrite (Hr Hn), Hd. lia.
Qed.

Lemma step_ok_sched o s fl dl tgt drift t0 s' :
  dev_scheduled s fl [] [] dl tgt drift t0 s' -> ended o s dl tgt = (dl, tgt) -> op_drift o s tgt = 0 -> step_ok o s dl tgt drift s'.
Proof.
  intros (cali & sent & freed & _ & _ & Hout & _ & HB) He Hdr. eapply step_ok_intro; [exact He|exact HB| |].
  - intros i Hi%elem_ids_set. apply Hout. rewrite (accepted_refused sent), fmap_app. apply elem_of_app. by left.
  - intros Hn. rewrite (proj2 (refused_count sent) Hn), Hdr. lia.
Qed.

(** ** The calls one by one *)
Lemma Books_buf s fl L B dl tgt drift b n :
  Books s fl L B dl tgt drift -> dv_nbufs s !! b = None -> Books (set_dv_nbufs (insert b n) s) fl L (b :: B) dl tgt drift.
Proof. intros HB Hb. eapply Books_rep; [exact HB|apply DevRep_buf; [apply HB|done]|done|done]. Qed.

Lemma new_nbufs_spec (msdus : list (Z * nbuf * option txq_id)) s fl L B dl tgt drift :
  Books s fl L B dl tgt drift -> NoDup (msdus.*1.*1) -> (forall x, x ∈ msdus -> dv_nbufs s !! x.1.1 = None) ->
  wp (for_each msdus (fun x => new_nbuf x.1.1 x.1.2)) (fun _ s' => Books s' fl L (msdus.*1.*1 ++ B) dl tgt drift /\ dv_tx s' = dv_tx s) s.
Proof.
  revert s B. induction msdus as [|x msdus IH]; intros s B HB Hnd Hfr; cbn [for_each].
  { by apply (wp_run _ _ _ tt s eq_refl). }
  cbn in Hnd. apply list.NoDup_cons in Hnd as [Hni Hnd]. eapply wp_step; [reflexivity|]. set (s1 := set_dv_nbufs _ s).
  assert (HB1 : Books s1 fl L (x.1.1 :: B) dl tgt drift).
  { apply Books_buf; [exact HB|apply Hfr; by apply elem_of_cons; left]. }
  eapply wp_mono; [apply (IH s1 _ HB1 Hnd)|].
  - intros y Hy. cbn. rewrite lookup_insert_ne; [apply Hfr; by apply elem_of_cons; right|].
    intros E. apply Hni. rewrite E. by do 2 apply list_elem_of_fmap_2.
  - intros [] s2 [HB2 E2]. split; [|by rewrite E2]. eapply Books_rep; [exact HB2| |done|done].
    eapply DevRep_perm; [apply HB2|done|]. cbn. by rewrite Permutation_middle.
Qed.

Lemma drop_nbufs_spec bs s fl L B dl tgt drift :
  Books s fl L (bs ++ B) dl tgt drift ->
  wp (for_each bs drop_nbuf) (fun _ s' => Books s' fl L B dl tgt drift) s.
Proof.
  intros HB. eapply wp_mono; [apply drop_all_spec, HB|]. intros [] s' [HR E]. eapply Books_rep; [exact HB|exact HR|by rewrite E|done].
Qed.

Lemma op_data_ok v tx_spec ty msdus call_sched s dl tgt fl drift :
  let o := op_data v tx_spec ty msdus call_sched in
  Books s fl [] [] dl tgt drift -> allowed o s dl tgt -> wp (run_op o) (fun _ s' => step_ok o s dl tgt drift s') s.
Proof.
  intros o HB [Hnd Hok]. cbn [o run_op]. apply wp_bind. eapply wp_mono; [apply (new_nbufs_spec msdus s fl [] []); [exact HB|done|]|].
  { intros x Hx. by apply Hok. }
  intros [] s1 [HB1 E1]. apply wp_bind. eapply wp_mono; [apply (ol_tx_hl_base_spec v tx_spec ty call_sched _ s1 fl [] [])|].
  - replace (((fun x => (x.1.1, x.2)) <$> msdus).*1) with (msdus.*1.*1); [exact HB1|]. clear. induction msdus as [|x l IH]; [done|]. cbn. by f_equal.
  - intros x Hx. apply list_elem_of_fmap in Hx as (y & -> & Hy). rewrite E1. by apply Hok.
  - intros rest s2 (fl2 & acc & r & HB2 & [_ Hr] & _ & _ & Hacc). eapply wp_mono; [by apply drop_nbufs_spec|]. intros [] s3 HB3.
    eapply step_ok_intro; [done|exact HB3|exact Hacc|]. intros Hn. rewrite (Hr Hn). cbn. lia.
Qed.

Lemma op_mgmt_ok v b n type ty q s dl tgt fl drift :
  let o := op_mgmt v b n type ty q in
  Books s fl [] [] dl tgt drift -> allowed o s dl tgt -> wp (run_op o) (fun _ s' => step_ok o s dl tgt drift s') s.
Proof.
  intros o HB (Hb & Hty & Hq). cbn [o run_op]. eapply wp_step; [reflexivity|]. set (s1 := set_dv_nbufs _ s).
  assert (HB1 : Books s1 fl [] [b] dl tgt drift) by (by apply Books_buf).
  apply wp_bind. eapply wp_mono; [by apply (ol_txrx_mgmt_send_spec v b type ty (Some q) s1 fl [] [])|].
  intros ok s2 (fl2 & acc & r & HB2 & [_ Hr] & -> & Hacc).
  assert (Hend : forall s3, Books s3 fl2 [] [] (acc ∪ dl) (acc ∪ tgt) (drift + r) -> step_ok o s dl tgt drift s3).
  { intros s3 HB3. eapply step_ok_intro; [done|exact HB3|exact Hacc|]. intros Hn. rewrite (Hr Hn). cbn. lia. }
  destruct (decide (fl = [])) as [Hfl|Hfl].
  - rewrite bool_decide_true in HB2 by done. rewrite bool_decide_false by tauto. cbn [negb when].
    pose proof (bk_rep _ _ _ _ _ _ _ HB2) as HR2. destruct (dr_held _ _ _ _ _ _ HR2) as [_ HBb].
    destruct (HBb b ltac:(by apply elem_of_cons; left)) as [[m Hm] _]. eapply wp_run; [by eapply drop_nbuf_run|].
    apply Hend. eapply Books_rep; [exact HB2|by apply DevRep_drop|done|done].
  - rewrite bool_decide_false in HB2 by done. rewrite bool_decide_true by done. eapply wp_run; [reflexivity|]. by apply Hend.
Qed.

(** The end of a download, as each of the two functions HTT can register leaves
    the books. *)
Lemma tx_send_complete_part2_ok x i s dl tgt fl drift :
  Books s fl [] [] dl tgt drift -> i ∈ dl -> (frees_at_download s i = true -> i ∈ tgt) ->
  wp (tx_send_complete_part2 true x i) (fun _ s' => exists fl',
    Books s' fl' [] [] (dl ∖ {[i]}) (if frees_at_download s i then tgt ∖ {[i]} else tgt) drift) s.
Proof.
  intros HB Hi Hf. unfold tx_send_complete_part2, frees_at_download in *. apply (wp_step _ _ _ s s s eq_refl).
  assert (Hbase : wp (ol_tx_download_done_base true x i) (fun _ s' => exists fl', Books s' fl' [] [] (dl ∖ {[i]}) tgt drift) s).
  { eapply wp_mono; [by apply ol_tx_download_done_base_ok|]. intros [] s' [HB' _]. by eexists. }
  destruct (dv_free_at_download s); [|exact Hbase]. cbn [andb] in *.
  destruct (Books_range _ _ _ _ _ _ _ i HB) as (d & b & m & Hd & _); [left; apply elem_of_union; by left|]. rewrite Hd in *.
  destruct (negb _ && _) eqn:Ed; [|by eapply ol_tx_download_done_hl_free_other].
  apply andb_true_iff in Ed as [E1 E2]. apply negb_true_iff in E1. eapply wp_mono.
  - apply (ol_tx_download_done_hl_free_spec s fl [] [] dl tgt drift i d x HB Hi (Hf eq_refl) Hd). split; [by apply Z.eqb_neq|by apply Z.ltb_lt].
  - intros [] s' HB'. by eexists.
Qed.

Lemma tx_send_complete_part2_error x i s dl tgt fl drift :
  Books s fl [] [] dl tgt drift -> i ∈ dl -> frees_at_download s i = false ->
  wp (tx_send_complete_part2 false x i) (fun _ s' => exists fl',
    Books s' fl' [] [] (dl ∖ {[i]}) (tgt ∖ {[i]}) (drift + in_set i tgt)) s.
Proof.
  intros HB Hi Hf. unfold tx_send_complete_part2, frees_at_download in *. apply (wp_step _ _ _ s s s eq_refl).
  assert (Hbase : wp (ol_tx_download_done_base false x i) (fun _ s' => exists fl', Books s' fl' [] [] (dl ∖ {[i]}) (tgt ∖ {[i]}) (drift + in_set i tgt)) s).
  { eapply wp_mono; [by apply ol_tx_download_done_base_error|]. intros [] s' [HB' _]. by eexists. }
  destruct (dv_free_at_download s); [|exact Hbase]. cbn [andb] in *.
  destruct (Books_range _ _ _ _ _ _ _ i HB) as (d & b & m & Hd & _); [left; apply elem_of_union; by left|]. rewrite Hd in *.
  by eapply ol_tx_download_done_hl_free_other.
Qed.

Lemma op_download_ok ok x i s dl tgt fl drift :
  let o := op_download ok x i in
  Books s fl [] [] dl tgt drift -> allowed o s dl tgt -> wp (run_op o) (fun _ s' => step_ok o s dl tgt drift s') s.
Proof.
  intros o HB [Hi Hf]. cbn [o run_op]. destruct ok.
  - eapply wp_mono; [apply (tx_send_complete_part2_ok x i s dl tgt fl drift HB Hi); intros Ht; by apply Hf|].
    intros [] s' (fl' & HB'). by eapply step_ok_none; [done|exact HB'|cbn; lia].
  - eapply wp_mono; [apply (tx_send_complete_part2_error x i s dl tgt fl drift HB Hi)|].
    { destruct (frees_at_download s i); [|done]. by destruct (Hf eq_refl). }
    intros [] s' (fl' & HB'). by eapply step_ok_none; [done|exact HB'|cbn; lia].
Qed.

Lemma op_messages_ok o s dl tgt fl drift :
  match o with op_completion _ _ _ | op_inspect _ _ | op_single _ _ | op_credit _ => True | _ => False end ->
  Books s fl [] [] dl tgt drift -> allowed o s dl tgt -> wp (run_op o) (fun _ s' => step_ok o s dl tgt drift s') s.
Proof.
  intros Ho HB Ha. destruct o as [| | | | | | |num status ids|num ids|status i|n| |]; try done; cbn [run_op allowed] in *.
  - eapply wp_mono; [by apply ol_tx_completion_handler_spec|]. intros [] s' Hh. eapply step_ok_handled; [exact Hh|done|apply Ha|cbn; lia].
  - eapply wp_mono; [by apply ol_tx_inspect_handler_spec|]. intros [] s' Hh. eapply step_ok_handled; [exact Hh|done|apply Ha|done].
  - destruct (Books_range _ _ _ _ _ _ _ i HB) as (d & b & m & Hi & _); [left; apply elem_of_union; by right|].
    eapply wp_mono; [by apply (ol_tx_single_completion_handler_spec status s fl [] [] dl tgt drift i d)|]. intros [] s' Hh.
    destruct (bool_decide (ds_vdev d = None)) eqn:Ev.
    + subst s'. eapply (step_ok_none _ _ _ _ _ _ dl tgt); [cbn; by rewrite Hi, Ev|exact HB|cbn; lia].
    + eapply step_ok_handled; [exact Hh|cbn; rewrite Hi, Ev; unfold ids_set; cbn; by rewrite union_empty_r_L| |cbn; lia].
      intros j ->%list_elem_of_singleton. done.
  - eapply wp_mono; [by apply ol_tx_credit_completion_handler_spec|]. intros [] s' Hh. eapply step_ok_handled; [exact Hh| |by intros ? ?%not_elem_of_nil|cbn; lia].
    cbn. unfold ids_set. cbn. by rewrite difference_empty_L.
Qed.

(** ** All calls *)
Lemma run_op_ok o s dl tgt fl drift :
  Books s fl [] [] dl tgt drift -> allowed o s dl tgt -> wp (run_op o) (fun _ s' => step_ok o s dl tgt drift s') s.
Proof.
  intros HB Ha. destruct o; try (by apply (op_messages_ok _ s dl tgt fl)); cbn [run_op allowed] in *.
  - by eapply op_data_ok.
  - by eapply op_mgmt_ok.
  - eapply wp_mono; [by apply dev_sched_spec|]. intros [] s' Hs. by eapply step_ok_sched.
  - destruct Ha as (t & Hq & Hp). eapply wp_mono; [by apply (dev_pause_spec s fl [] [] dl tgt drift q t)|].
    intros [] s' [_ HB']. by eapply step_ok_none; [done|exact HB'|cbn; lia].
  - destruct Ha as [t Hq]. eapply wp_mono; [by apply (dev_unpause_spec s fl [] [] dl tgt drift q t)|].
    intros [] s' (t1 & _ & Hs). by eapply step_ok_sched.
  - destruct Ha as (t & Hq & Hp). eapply wp_mono; [by apply (dev_queue_free_spec s fl [] [] dl tgt drift q t)|].
    intros [] s' (fl' & _ & HB'). by eapply step_ok_none; [done|exact HB'|cbn; lia].
  - by eapply op_download_ok.
  - eapply wp_mono; [by apply vdev_detach_descs_spec|]. intros [] s' [HB' _]. by eapply step_ok_none; [done|exact HB'|cbn; lia].
  - eapply wp_mono; [by apply ol_tx_discard_target_frms_spec|]. intros [] s' (freed & HB' & _). by eapply step_ok_none; [done|exact HB'|cbn; lia].
Qed.
End Client.

(** ** Attach *)
Definition fresh_link (n i : Z) : option Z := if i =? n - 1 then None else Some (i + 1).

Section Attach.
Implicit Types (s : tx_device) (d : desc).

(** A descriptor as the loop leaves it. *)
Definition fresh_desc (n i : Z) (d : desc) : Prop := ds_first d = TdNext (fresh_link n i) /\ ds_ref_cnt d = 0.

Lemma pool_attach_loop_spec k i n s :
  0 <= i -> i + Z.of_nat k = n -> zlen (dv_pool s) = n ->
  wp (pool_attach_loop k i n (fun _ => true)) (fun ok s' => ok = true /\ (exists pool, s' = set_dv_pool (fun _ => pool) s) /\
    zlen (dv_pool s') = n /\ (forall j, j < i -> znth (dv_pool s') j = znth (dv_pool s) j) /\
    forall j d, i <= j -> znth (dv_pool s') j = Some d -> fresh_desc n j d) s.
Proof.
  revert i s. induction k as [|k IH]; intros i s Hi Hk Hl; cbn [pool_attach_loop].
  - apply wp_ret. split_and!; [done|by exists (dv_pool s); destruct s|done|done|]. intros j d Hj Hd%znth_lt_Some. lia.
  - destruct (znth_in_range (dv_pool s) i) as [d Hd]; [lia|]. eapply wp_step; [by apply upd_desc_run|].
    set (d1 := set_ds_first _ d). set (s1 := put_desc i d1 s). assert (Hd1 : znth (dv_pool s1) i = Some d1) by (by eapply znth_put).
    eapply wp_step; [by apply upd_desc_run|]. set (d2 := set_ds_ref_cnt _ d1). unfold s1. rewrite put_put. set (s2 := put_desc i d2 s).
    assert (Hl2 : zlen (dv_pool s2) = n) by (cbn; by rewrite zlen_zset).
    eapply wp_mono; [apply (IH (i + 1) s2); lia|]. intros ok s' (-> & [pool ->] & Hl' & Hlow & Hhigh). split_and!; [done|by exists pool|done| |].
    + intros j Hj. rewrite Hlow by lia. cbn. apply znth_zset_ne; [by apply znth_lt_Some in Hd|lia].
    + intros j x Hj Hx. destruct (decide (j = i)) as [->|Hne]; [|apply Hhigh; [lia|done]].
      rewrite Hlow in Hx by lia. assert (x = d2) as -> by (pose proof (znth_put s i d2 d Hd); unfold s2 in Hx; congruence). done.
Qed.

Lemma fresh_chain n k i pool :
  (forall j, i <= j < n -> exists d, znth pool j = Some d /\ fresh_desc n j d) -> 0 <= i -> (0 < k)%nat -> i + Z.of_nat k = n ->
  free_chain pool (Some i) ((fun m => i + Z.of_nat m) <$> seq 0 k).
Proof.
  revert i. induction k as [|k IH]; intros i Hp Hi Hk He; [lia|]. cbn [seq fmap list_fmap free_chain]. rewrite Z.add_0_r.
  destruct (Hp i ltac:(lia)) as (d & Hd & Hf & _). split; [done|]. exists d, (fresh_link n i). split_and!; [done|done|].
  unfold fresh_link. destruct (Z.eqb_spec i (n - 1)) as [E|E].
  - by replace k with 0%nat by lia.
  - rewrite <- fmap_S_seq, <- list_fmap_compose. erewrite list_fmap_ext; [apply (IH (i + 1)); [|lia..]|].
    + intros j Hj. apply Hp. lia.
    + intros m x _. cbn. lia.
Qed.

(** The state a device is attached in: an empty queueing layer whose count of
    descriptors is the size of the pool, memory for the pool, no buffers. *)
Record before_attach s : Prop := {
  ba_inv : Inv (dv_tx s);
  ba_credit : credit_ok (dv_tx s);
  ba_empty : all_frames (pd_txqs (dv_tx s)) = [];
  ba_rsrc : pd_rsrc_cnt (dv_tx s) = pd_desc_pool_size (dv_tx s);
  ba_pool : zlen (dv_pool s) = pd_desc_pool_size (dv_tx s) /\ 0 < pd_desc_pool_size (dv_tx s);
  ba_nbufs : dv_nbufs s = ∅;
  ba_cbs : zlen (dv_mgmt_cbs s) = OL_TXRX_MGMT_NUM_TYPES }.

Lemma pool_attach_spec s :
  before_attach s ->
  wp (pool_attach (pd_desc_pool_size (dv_tx s)) (fun _ => true)) (fun ok s' => ok = true /\
    Books s' (zseq (pd_desc_pool_size (dv_tx s))) [] [] ∅ ∅ 0 /\ dv_tx s' = dv_tx s) s.
Proof.
  intros [HI Hc He Hr [Hp Hpos] Hnb Hcb]. unfold pool_attach. set (n := pd_desc_pool_size (dv_tx s)) in *. step.
  set (s0 := set_dv_freelist _ s). apply wp_bind. eapply wp_mono; [by apply (pool_attach_loop_spec (Z.to_nat n) 0 n s0); [|lia|]|].
  intros ok s1 (-> & [pool ->] & Hl & _ & Hf). step. apply wp_ret. split; [done|]. split; [|done].
  assert (Hfd : forall j, 0 <= j < n -> exists d, znth pool j = Some d /\ fresh_desc n j d).
  { intros j Hj. destruct (znth_in_range pool j) as [d Hd]; [cbn in Hl; lia|]. exists d. split; [done|]. apply Hf; [lia|done]. }
  pose proof (inv_pool _ HI) as Hsm. fold n in Hsm.
  assert (Hq : forall s', dv_tx s' = dv_tx s -> queued s' = []) by (intros s' E; unfold queued; by rewrite E).
  constructor; [|done|done|].
  2: { cbn. fold n. rewrite Hr, size_empty. unfold zlen, queued. cbn. rewrite He. cbn. rewrite s32_small; lia. }
  cbn in Hl. constructor; try done; cbn.
  - by rewrite Hl.
  - apply (fresh_chain n (Z.to_nat n) 0); [done|done|lia|lia].
  - rewrite zseq_len by lia. apply u16_small. lia.
  - rewrite Hq by done. rewrite union_empty_l_L, elements_empty, Hl. cbn. by rewrite app_nil_r.
  - intros i d Hd. assert (Hi : 0 <= i < n) by (apply znth_lt_Some in Hd; lia). destruct (Hfd i Hi) as (x & Hx & _ & Hx0).
    assert (x = d) as -> by congruence. rewrite Hx0. symmetry. apply refs_out. set_solver.
  - intros i d Hd Hi. destruct Hi. apply zseq_elem. apply znth_lt_Some in Hd. lia.
  - intros i j b (d & Hd & Hb) _. cbn in Hd. assert (Hi : 0 <= i < n) by (apply znth_lt_Some in Hd; lia).
    destruct (Hfd i Hi) as (x & Hx & Hx1 & _). congruence.
  - intros b [x Hx]. rewrite Hnb in Hx. by rewrite lookup_empty in Hx.
  - split; [by apply list.NoDup_nil|]. intros b Hb. by apply not_elem_of_nil in Hb.
  - intros t Ht. rewrite Hq in Ht by done. by apply not_elem_of_nil in Ht.
Qed.
End Attach.

(** ** Reachable states *)
Section Reachable.
Context `{HttTx}.

Inductive attached : dev_state -> Prop :=
  | attached_intro s s' : before_attach s ->
      pool_attach (pd_desc_pool_size (dv_tx s)) (fun _ => true) s = Some (true, s') -> attached (s', ∅, ∅).

Inductive reachable : dev_state -> Prop :=
  | reachable_init x : attached x -> reachable x
  | reachable_step x y : reachable x -> dev_step x y -> reachable y.

(** The same, with the sum of the drifts on the way. *)
Inductive drifted : dev_state -> Z -> Prop :=
  | drifted_init x : attached x -> drifted x 0
  | drifted_step o s dl tgt s' k : drifted (s, dl, tgt) k -> allowed o s dl tgt ->
      run_op o s = Some (tt, s') -> drifted (after o s dl tgt s') (k + op_drift o s tgt).

Lemma attached_books x : attached x -> BooksE x.1.1 x.1.2 x.2 0.
Proof.
  intros [s s' Hb Hrun]. pose proof (pool_attach_spec s Hb) as Hw. unfold wp in Hw. rewrite Hrun in Hw.
  destruct Hw as (_ & HB & _). by exists (zseq (pd_desc_pool_size (dv_tx s))).
Qed.

Lemma step_books o s dl tgt s' drift :
  BooksE s dl tgt drift -> allowed o s dl tgt -> run_op o s = Some (tt, s') -> step_ok o s dl tgt drift s'.
Proof. intros [fl HB] Ha Hrun. pose proof (run_op_ok o s dl tgt fl drift HB Ha) as Hw. unfold wp in Hw. by rewrite Hrun in Hw. Qed.

Lemma reachable_books x : reachable x -> exists drift, BooksE x.1.1 x.1.2 x.2 drift.
Proof.
  induction 1 as [x Hx|x y _ [drift HB] Hst]; [exists 0; by apply attached_books|]. destruct Hst as [o s dl tgt s' Ha Hrun].
  destruct (step_books o s dl tgt s' drift HB Ha Hrun) as (drift' & HB' & _). exists drift'.
  unfold after in *. by destruct (ended o s dl tgt).
Qed.

Lemma drifted_books x k : no_refusals -> drifted x k -> BooksE x.1.1 x.1.2 x.2 k.
Proof.
  intros Hn. induction 1 as [x Hx|o s dl tgt s' k _ HB Ha Hrun]; [by apply attached_books|].
  destruct (step_books o s dl tgt s' k HB Ha Hrun) as (drift' & HB' & Hd). rewrite (Hd Hn) in HB'.
  unfold after in *. by destruct (ended o s dl tgt).
Qed.
End Reachable.
