(* ===== verification/DescPages.v ===== *)
(** The layout of the two descriptor pools in pages of memory: the lookup of a
    descriptor by its id ([ol_tx_desc_find]) finds what an array would, and the
    free list HTT threads through its own pool ([htt_tx_attach]). *)
From Stdlib Require Import ZArith Lia.
From stdpp Require Import prelude gmap list numbers.
From S2P Require Import Prelude.
From S2P Require Import TxTypes.
From S2P Require Import TxInit.
From S2P Require Import DescTypes.
From S2P Require Import DescPool.
From S2P Require Import DescOps.

(** ** Powers of two *)
Section Powers.
Lemma sig_bit_loop_spec fuel v acc :
  0 < v < 2 ^ Z.of_nat fuel -> sig_bit_loop fuel v acc = acc + Z.log2 v + 1.
Proof.
  revert v acc. induction fuel as [|fuel IH]; intros v acc Hv; [cbn in Hv; lia|]. cbn [sig_bit_loop].
  rewrite (proj2 (Z.eqb_neq v 0)) by lia. destruct (Z.eq_dec v 1) as [->|Hne].
  - change (Z.shiftr 1 1) with 0. destruct fuel; cbn; lia.
  - rewrite Nat2Z.inj_succ, Z.pow_succ_r in Hv by lia.
    assert (Hlog : Z.log2 (Z.shiftr v 1) = Z.log2 v - 1) by (rewrite Z.log2_shiftr by lia; pose proof (Z.log2_pos v); lia).
    rewrite IH, Hlog; [lia|]. rewrite Z.shiftr_div_pow2 by lia. change (2 ^ 1) with 2.
    split; [apply Z.div_str_pos; lia|apply Z.div_lt_upper_bound; lia].
Qed.

Lemma page_divider_pow k : 0 <= k < 32 -> page_divider (2 ^ k) = k.
Proof.
  intros Hk. unfold page_divider. rewrite sig_bit_loop_spec; [rewrite Z.log2_pow2; lia|].
  split; [apply Z.pow_pos_nonneg; lia|]. apply Z.pow_lt_mono_r; lia.
Qed.

(** The test is true of powers of two only. *)
Lemma pow2_lxor k r : 0 <= k -> 0 <= r < 2 ^ k -> 2 ^ k + r = Z.lxor (2 ^ k) r.
Proof.
  intros Hk Hr. apply Z.add_nocarry_lxor. replace r with (Z.land r (Z.ones k)) by (rewrite Z.land_ones by lia; by apply Z.mod_small).
  rewrite (Z.land_comm r), Z.land_assoc, Z.land_ones, Z.mod_same by lia. apply Z.land_0_l.
Qed.

Lemma lxor_lt k a b : 0 <= k -> 0 <= a < 2 ^ k -> 0 <= b < 2 ^ k -> Z.lxor a b < 2 ^ k.
Proof.
  intros Hk Ha Hb. destruct (Z.eq_dec a 0) as [->|Ha0]; [rewrite Z.lxor_0_l; lia|].
  destruct (Z.eq_dec b 0) as [->|Hb0]; [rewrite Z.lxor_0_r; lia|].
  pose proof (proj2 (Z.lxor_nonneg a b) ltac:(lia)). destruct (Z.eq_dec (Z.lxor a b) 0) as [->|Hne]; [lia|].
  pose proof (Z.log2_lxor a b ltac:(lia) ltac:(lia)). pose proof (proj1 (Z.log2_lt_pow2 a k ltac:(lia)) ltac:(lia)).
  pose proof (proj1 (Z.log2_lt_pow2 b k ltac:(lia)) ltac:(lia)). apply Z.log2_lt_pow2; lia.
Qed.

Lemma lxor_pages x a b : Z.lxor (Z.lxor x a) (Z.lxor x b) = Z.lxor a b.
Proof. apply Z.bits_inj'. intros n _. rewrite !Z.lxor_spec. by destruct (Z.testbit x n), (Z.testbit a n), (Z.testbit b n). Qed.

Lemma ADF_OS_IS_PWR2_spec v : 0 < v -> ADF_OS_IS_PWR2 v = true <-> v = 2 ^ Z.log2 v.
Proof.
  intros Hv. unfold ADF_OS_IS_PWR2. rewrite Z.eqb_eq, Z.shiftl_mul_pow2 by lia. change (2 ^ 1) with 2.
  pose proof (Z.log2_spec v Hv) as [Hlo Hhi]. pose proof (Z.log2_nonneg v) as Hk. set (k := Z.log2 v) in *.
  rewrite Z.pow_succ_r in Hhi by lia. split.
  - intros Hx. destruct (Z.eq_dec v (2 ^ k)) as [|Hne]; [done|].
    pose proof (pow2_lxor k (v - 2 ^ k) Hk ltac:(lia)) as H1. pose proof (pow2_lxor k (v - 1 - 2 ^ k) Hk ltac:(lia)) as H2.
    replace (2 ^ k + (v - 2 ^ k)) with v in H1 by lia. replace (2 ^ k + (v - 1 - 2 ^ k)) with (v - 1) in H2 by lia.
    pose proof (lxor_lt k (v - 2 ^ k) (v - 1 - 2 ^ k) Hk ltac:(lia) ltac:(lia)) as Hlt.
    assert (E : Z.lxor v (v - 1) = Z.lxor (v - 2 ^ k) (v - 1 - 2 ^ k)).
    { rewrite <- (lxor_pages (2 ^ k) (v - 2 ^ k) (v - 1 - 2 ^ k)). by rewrite <- H1, <- H2. }
    lia.
  - intros E. pose proof (pow2_lxor k (2 ^ k - 1) Hk ltac:(lia)) as H1. clearbody k. subst v. rewrite <- H1. lia.
Qed.

(** The next power of two. *)
Lemma adf_os_get_pwr2_spec v : 0 < v < 2 ^ 30 -> exists k, 0 <= k <= 30 /\ adf_os_get_pwr2 v = 2 ^ k /\ v <= 2 ^ k < 2 * v.
Proof.
  intros Hv. unfold adf_os_get_pwr2. pose proof (Z.log2_spec v ltac:(lia)) as [Hlo Hhi]. pose proof (Z.log2_nonneg v).
  assert (Z.log2 v < 30) by (apply Z.log2_lt_pow2; lia). rewrite Z.pow_succ_r in Hhi by lia.
  destruct (ADF_OS_IS_PWR2 v) eqn:E.
  - apply ADF_OS_IS_PWR2_spec in E; [|lia]. exists (Z.log2 v). lia.
  - rewrite sig_bit_loop_spec by (cbn; lia). rewrite Z.shiftl_mul_pow2, Z.mul_1_l by lia. exists (Z.log2 v + 1).
    rewrite Z.add_0_l, Z.pow_add_r by lia. change (2 ^ 1) with 2.
    assert (v <> 2 ^ Z.log2 v) by (intros E'; apply ADF_OS_IS_PWR2_spec in E'; [congruence|lia]).
    split_and!; lia.
Qed.
End Powers.

(** ** Lookup in pages *)
Section Pages.
Context {A : Type}.
Implicit Types (pages : list (list A)).

Lemma znth_neg {B} (l : list B) i : i < 0 -> znth l i = None.
Proof. intros. unfold znth. by rewrite (proj2 (Z.ltb_lt i 0)). Qed.
Lemma znth_cons_next {B} (x : B) l i : 0 <= i -> znth (x :: l) (i + 1) = znth l i.
Proof.
  intros. unfold znth. rewrite (proj2 (Z.ltb_ge i 0)), (proj2 (Z.ltb_ge (i + 1) 0)) by lia.
  by replace (Z.to_nat (i + 1)) with (S (Z.to_nat i)) by lia.
Qed.
Lemma znth_app {B} (l1 l2 : list B) i : 0 <= i ->
  znth (l1 ++ l2) i = if i <? zlen l1 then znth l1 i else znth l2 (i - zlen l1).
Proof.
  intros. destruct (Z.ltb_spec i (zlen l1)); [by apply znth_app_l|by apply znth_app_r].
Qed.

Lemma znth_concat k pages i :
  0 <= k -> Forall (fun page => zlen page = 2 ^ k) pages ->
  znth (concat pages) i = (page ← znth pages (i / 2 ^ k); znth page (i mod 2 ^ k)).
Proof.
  intros Hk Hp. pose proof (Z.pow_pos_nonneg 2 k ltac:(lia) Hk) as Hpos. destruct (Z.lt_ge_cases i 0) as [Hi|Hi].
  { assert (i / 2 ^ k < 0) by (apply Z.div_lt_upper_bound; lia). by rewrite !znth_neg. }
  revert i Hi. induction pages as [|page pages IH]; intros i Hi; cbn [concat].
  { unfold znth. by destruct (i <? 0), (i / 2 ^ k <? 0). }
  apply list.Forall_cons in Hp as [Hl Hp]. rewrite znth_app, Hl by done. destruct (Z.ltb_spec i (2 ^ k)) as [Hlt|Hge].
  - by rewrite Z.div_small, Z.mod_small by lia.
  - replace (i / 2 ^ k) with ((i - 2 ^ k) / 2 ^ k + 1).
    2: { rewrite <- (Z.div_add (i - 2 ^ k) 1 (2 ^ k)) by lia. f_equal. lia. }
    replace (i mod 2 ^ k) with ((i - 2 ^ k) mod 2 ^ k).
    2: { rewrite <- (Z_mod_plus_full (i - 2 ^ k) 1 (2 ^ k)). f_equal. lia. }
    rewrite znth_cons_next by (apply Z.div_pos; lia). apply (IH Hp). lia.
Qed.

Lemma ol_tx_desc_find_concat k pages i :
  0 <= k < 32 -> Forall (fun page => zlen page = 2 ^ k) pages ->
  ol_tx_desc_find pages (page_divider (2 ^ k)) (offset_filter (2 ^ k)) i = znth (concat pages) i.
Proof.
  intros Hk Hp. unfold ol_tx_desc_find, offset_filter. rewrite (page_divider_pow k Hk), Z.shiftr_div_pow2 by lia.
  replace (2 ^ k - 1) with (Z.ones k) by (rewrite Z.ones_equiv; lia). rewrite Z.land_ones by lia. by rewrite (znth_concat k) by (done || lia).
Qed.

Lemma zlen_concat k pages : Forall (fun page => zlen page = k) pages -> zlen (concat pages) = zlen pages * k.
Proof.
  induction pages as [|page pages IH]; intros Hp; [done|]. apply list.Forall_cons in Hp as [Hl Hp].
  cbn [concat]. rewrite zlen_app, zlen_cons, Hl, (IH Hp). lia.
Qed.
End Pages.

(** The pages of the pool: a power of two of elements in each, enough of them. *)
Lemma page_layout page_bits size pool_size per_page num_pages :
  0 <= page_bits <= 15 -> 0 < size <= 2 ^ page_bits -> 0 < pool_size < 65536 ->
  multi_pages (2 ^ page_bits) (adf_os_get_pwr2 size) pool_size = Some (per_page, num_pages) ->
  exists j, 0 <= j <= 15 /\ per_page = 2 ^ j /\ 2 ^ j * adf_os_get_pwr2 size = 2 ^ page_bits /\ size <= adf_os_get_pwr2 size /\
    pool_size <= num_pages * 2 ^ j.
Proof.
  intros Hb Hsz Hpool Hmp. assert (H15 : 2 ^ page_bits <= 2 ^ 15) by (apply Z.pow_le_mono_r; lia).
  destruct (adf_os_get_pwr2_spec size) as (k & Hk & E & Hle & Hlt); [change (2 ^ 15) with 32768 in H15; lia|]. rewrite E in *.
  assert (Hkb : k <= page_bits).
  { destruct (Z.le_gt_cases k page_bits) as [|Hgt]; [done|]. pose proof (Z.pow_le_mono_r 2 (page_bits + 1) k ltac:(lia) ltac:(lia)) as Hp.
    rewrite Z.pow_add_r in Hp by lia. change (2 ^ 1) with 2 in Hp. lia. }
  unfold multi_pages in Hmp. rewrite <- Z.pow_sub_r in Hmp by lia. set (j := page_bits - k) in *.
  assert (Hj : 0 < 2 ^ j <= 2 ^ 15) by (split; [apply Z.pow_pos_nonneg; lia|apply Z.pow_le_mono_r; lia]). change (2 ^ 15) with 32768 in Hj.
  rewrite u16_small, (proj2 (Z.eqb_neq _ 0)) in Hmp by lia. injection Hmp as <- Hn. exists j.
  split_and!; [lia|lia|done|by rewrite <- Z.pow_add_r by lia; f_equal; lia|done|].
  pose proof (Z.div_mod pool_size (2 ^ j) ltac:(lia)) as Hdm. pose proof (Z.mod_pos_bound pool_size (2 ^ j) ltac:(lia)) as Hmb.
  pose proof (Z.div_pos pool_size (2 ^ j) ltac:(lia) ltac:(lia)). assert (pool_size / 2 ^ j <= pool_size) by (apply Z.div_le_upper_bound; nia).
  destruct (Z.eqb_spec (pool_size mod 2 ^ j) 0) as [Hz|Hz].
  - rewrite u16_small in Hn by lia. nia.
  - assert (pool_size / 2 ^ j + 1 <= pool_size).
    { destruct (Z.eq_dec (2 ^ j) 1) as [E1|]; [rewrite E1, Z.mod_1_r in Hz; lia|].
      assert (pool_size / 2 ^ j < pool_size) by (apply Z.div_lt; lia). lia. }
    rewrite u16_small in Hn by lia. nia.
Qed.

(** The pages hold all elements, and the last page is needed. *)
Lemma multi_pages_enough PAGE_SIZE element_size n per_page num_pages :
  0 < n < 65536 -> multi_pages PAGE_SIZE element_size n = Some (per_page, num_pages) ->
  0 < per_page /\ (num_pages - 1) * per_page < n /\ n <= num_pages * per_page.
Proof.
  intros Hn Hmp. unfold multi_pages in Hmp. pose proof (u16_range (PAGE_SIZE / element_size)) as Hr. set (k := u16 _) in *.
  destruct (Z.eqb_spec k 0) as [|Hk]; [done|]. injection Hmp as <- Hnum. split; [lia|].
  pose proof (Z.div_mod n k Hk) as Hdm. pose proof (Z.mod_pos_bound n k ltac:(lia)) as Hmb.
  pose proof (Z.div_pos n k ltac:(lia) ltac:(lia)) as Hq. assert (n / k <= n) by (apply Z.div_le_upper_bound; nia).
  destruct (Z.eqb_spec (n mod k) 0) as [Hz|Hz].
  - rewrite u16_small in Hnum by lia. subst num_pages. nia.
  - assert (n / k + 1 <= n).
    { destruct (Z.eq_dec k 1) as [E1|]; [rewrite E1, Z.mod_1_r in Hz; lia|]. assert (n / k < n) by (apply Z.div_lt; lia). lia. }
    rewrite u16_small in Hnum by lia. subst num_pages. nia.
Qed.
