(* ===== verification/HttPool.v ===== *)
(** The pool of HTT transmit descriptors ([htt_tx.c]): the free list threaded
    through pages of memory at attach, allocation and freeing.  An element is
    named by its position, page after page. *)
From Stdlib Require Import ZArith Lia.
From stdpp Require Import prelude gmap list numbers.
From S2P Require Import Prelude.
From S2P Require Import TxQueue.
From S2P Require Import TxInit.

(** The word of each element that was written as a link, the free list and the
    number of elements in use. *)
Record htt_pool := mk_htt_pool {
  hp_links : gmap Z (option Z);
  hp_freelist : option Z;
  hp_alloc_cnt : Z }.

Definition set_link (p : Z) (next : option Z) (s : htt_pool) : htt_pool :=
  mk_htt_pool (<[p := next]> (hp_links s)) (hp_freelist s) (hp_alloc_cnt s).
Definition set_freelist (next : option Z) (s : htt_pool) : htt_pool :=
  mk_htt_pool (hp_links s) next (hp_alloc_cnt s).
Definition add_alloc_cnt (n : Z) (s : htt_pool) : htt_pool :=
  mk_htt_pool (hp_links s) (hp_freelist s) (hp_alloc_cnt s + n).

(** ** Attach *)
Section Attach.
Context (num_page num_desc_per_page pool_elems : Z).

(** [cacheable_pages[i]]: the array has [num_page] entries. *)
Definition cacheable_page (i : Z) : option Z := if i <? num_page then Some (i * num_desc_per_page) else None.

(** The inner loop; [break] ends it only. *)
Fixpoint link_page (n : nat) (i i_int p num_link : Z) : M htt_pool (Z * Z) :=
  match n with
  | O => mret (p, num_link)
  | S n' =>
    next ← (if i_int =? num_desc_per_page - 1 then lift (cacheable_page (i + 1)) else mret (p + 1));
    modify (set_link p (Some next));;
    if num_link + 1 =? pool_elems - 1 then mret (next, num_link + 1)
    else link_page n' i (i_int + 1) next (num_link + 1)
  end.

Fixpoint link_pages (n : nat) (i p num_link : Z) : M htt_pool (Z * Z) :=
  match n with
  | O => mret (p, num_link)
  | S n' =>
    '(p, num_link) ← link_page (Z.to_nat num_desc_per_page) i 0 p num_link;
    link_pages n' (i + 1) p num_link
  end.

Definition htt_tx_attach : M htt_pool unit :=
  modify (fun s => mk_htt_pool (hp_links s) (cacheable_page 0) 0);;
  '(p, _) ← link_pages (Z.to_nat num_page) 0 0 0;
  modify (set_link p None).
End Attach.

(** ** Allocate and free *)
Definition htt_tx_desc_alloc : M htt_pool (option Z) :=
  s ← get;
  match hp_freelist s with
  | None => mret None
  | Some p =>
    next ← lift (hp_links s !! p);
    modify (set_freelist next);;
    modify (add_alloc_cnt 1);;
    mret (Some p)
  end.

Definition htt_tx_desc_free (p : Z) : M htt_pool unit :=
  s ← get;
  modify (set_link p (hp_freelist s));;
  modify (set_freelist (Some p));;
  modify (add_alloc_cnt (-1)).

(** [n] allocations. *)
Fixpoint alloc_many (n : nat) : M htt_pool (list (option Z)) :=
  match n with
  | O => mret []
  | S n' => o ← htt_tx_desc_alloc; l ← alloc_many n'; mret (o :: l)
  end.

(** ** The free list *)
Fixpoint htt_chain (links : gmap Z (option Z)) (o : option Z) (fl : list Z) : Prop :=
  match fl with
  | [] => o = None
  | p :: fl' => o = Some p /\ exists next, links !! p = Some next /\ htt_chain links next fl'
  end.

Definition free_list (s : htt_pool) (fl : list Z) : Prop := htt_chain (hp_links s) (hp_freelist s) fl /\ NoDup fl.

Section Proofs.
Implicit Types s : htt_pool.

Lemma htt_chain_put links o fl p next : p ∉ fl -> htt_chain links o fl -> htt_chain (<[p := next]> links) o fl.
Proof.
  revert o. induction fl as [|q fl IH]; intros o Hp Hc; [done|]. destruct Hc as (-> & n & Hn & Hc). split; [done|].
  apply not_elem_of_cons in Hp as [Hne Hp]. exists n. rewrite lookup_insert_ne by done. split; [done|by apply IH].
Qed.

Lemma htt_tx_desc_alloc_run s p fl : free_list s (p :: fl) ->
  exists s', htt_tx_desc_alloc s = Some (Some p, s') /\ free_list s' fl /\ hp_alloc_cnt s' = hp_alloc_cnt s + 1 /\ hp_links s' = hp_links s.
Proof.
  intros [(Hf & next & Hn & Hc) Hnd]. apply list.NoDup_cons in Hnd as [_ Hnd].
  exists (add_alloc_cnt 1 (set_freelist next s)). unfold htt_tx_desc_alloc, mbind, M_bind, get, lift, modify. rewrite Hf, Hn.
  split_and!; try done.
Qed.

Lemma htt_tx_desc_alloc_none s : free_list s [] -> htt_tx_desc_alloc s = Some (None, s).
Proof. intros [Hc _]. cbn in Hc. unfold htt_tx_desc_alloc, mbind, M_bind, get. by rewrite Hc. Qed.

Lemma htt_tx_desc_free_run s p fl : free_list s fl -> p ∉ fl ->
  exists s', htt_tx_desc_free p s = Some (tt, s') /\ free_list s' (p :: fl) /\ hp_alloc_cnt s' = hp_alloc_cnt s - 1.
Proof.
  intros [Hc Hnd] Hp. exists (add_alloc_cnt (-1) (set_freelist (Some p) (set_link p (hp_freelist s) s))). split_and!; [done| |done].
  split; [|by apply list.NoDup_cons]. split; [done|]. exists (hp_freelist s). cbn. rewrite lookup_insert_eq.
  split; [done|]. by apply htt_chain_put.
Qed.

Lemma alloc_many_run fl s : free_list s fl ->
  exists s', alloc_many (length fl) s = Some (Some <$> fl, s') /\ free_list s' [] /\ hp_alloc_cnt s' = hp_alloc_cnt s + zlen fl.
Proof.
  revert s. induction fl as [|p fl IH]; intros s Hfl; [exists s; split_and!; [done|done|unfold zlen; cbn; lia]|].
  destruct (htt_tx_desc_alloc_run s p fl Hfl) as (s1 & Hr1 & Hfl1 & Hc1 & _). destruct (IH s1 Hfl1) as (s2 & Hr2 & Hfl2 & Hc2).
  exists s2. cbn [alloc_many length]. split_and!; [|done|rewrite zlen_cons; lia].
  eapply run_bind; [exact Hr1|]. eapply run_bind; [exact Hr2|]. done.
Qed.

(** *** The links of the attach *)
Context (num_page per_page pool_elems : Z).
Context (Hper : 0 < per_page) (Hpool : 0 < pool_elems).
Context (Hlow : (num_page - 1) * per_page < pool_elems) (Hhigh : pool_elems <= num_page * per_page).
Notation link_page := (link_page num_page per_page pool_elems).
Notation link_pages := (link_pages num_page per_page pool_elems).

(** The first [m] elements are linked. *)
Definition linked s (m : Z) : Prop := forall k, 0 <= k < m -> hp_links s !! k = Some (Some (k + 1)).

Lemma linked_next s m : 0 <= m -> linked s m -> linked (set_link m (Some (m + 1)) s) (m + 1).
Proof.
  intros Hm Hl k Hk. cbn. destruct (decide (k = m)) as [->|]; [by rewrite lookup_insert_eq|].
  rewrite lookup_insert_ne by done. apply Hl. lia.
Qed.

(** A page that does not begin with the last element. *)
Lemma link_page_spec n i j s :
  let m := i * per_page + j in
  0 <= i -> 0 <= j -> j + Z.of_nat n = per_page -> linked s m -> (j < per_page -> m < pool_elems - 1) -> m <= pool_elems - 1 ->
  wp (link_page n i j m m) (fun r s' => r = (r.2, r.2) /\ r.2 = Z.min (pool_elems - 1) ((i + 1) * per_page) /\ linked s' r.2 /\
    hp_freelist s' = hp_freelist s /\ hp_alloc_cnt s' = hp_alloc_cnt s) s.
Proof.
  revert j s. induction n as [|n IH]; intros j s m Hi Hj Hn Hl Hlt Hle; cbn [HttPool.link_page].
  { apply wp_ret. cbn. split_and!; [done|unfold m in *; lia|done..]. }
  specialize (Hlt ltac:(lia)). assert (Hm : 0 <= m) by (unfold m; nia).
  eapply (wp_step _ _ _ _ (m + 1) s).
  { destruct (Z.eqb_spec j (per_page - 1)) as [E|E]; [|done]. unfold cacheable_page.
    assert (m + 1 = (i + 1) * per_page) as -> by (unfold m; lia).
    rewrite (proj2 (Z.ltb_lt _ _)); [done|]. unfold m in Hlt. nia. }
  step. destruct (Z.eqb_spec (m + 1) (pool_elems - 1)) as [E|E].
  - apply wp_ret. cbn. split_and!; [done|unfold m in *; nia|by apply linked_next|done..].
  - replace (m + 1) with (i * per_page + (j + 1)) by (unfold m; lia).
    eapply wp_mono; [apply (IH (j + 1)); [lia|lia|lia|by replace (i * per_page + (j + 1)) with (m + 1) by (unfold m; lia); apply linked_next|unfold m in *; lia|unfold m in *; lia]|].
    intros r s' (H1 & H2 & H3 & H4 & H5). split_and!; done.
Qed.

Lemma link_pages_spec n i s :
  (pool_elems - 1) mod per_page <> 0 -> 0 <= i -> i + Z.of_nat n = num_page -> linked s (Z.min (pool_elems - 1) (i * per_page)) ->
  let m := Z.min (pool_elems - 1) (i * per_page) in
  wp (link_pages n i m m) (fun r s' => r.1 = pool_elems - 1 /\ linked s' (pool_elems - 1) /\
    hp_freelist s' = hp_freelist s /\ hp_alloc_cnt s' = hp_alloc_cnt s) s.
Proof.
  intros Hmod. revert i s. induction n as [|n IH]; intros i s Hi Hn Hl m; cbn [HttPool.link_pages].
  { apply wp_ret. assert (m = pool_elems - 1) as E by (unfold m; nia). fold m in Hl. rewrite E in *. done. }
  assert (Hne : i * per_page <> pool_elems - 1) by (intros E; apply Hmod; rewrite <- E; apply Z_mod_mult).
  assert (Hlt : i * per_page < pool_elems - 1) by nia.
  assert (Em : m = i * per_page + 0) by (unfold m; lia). fold m in Hl. rewrite Em in *.
  apply wp_bind. eapply wp_mono; [apply (link_page_spec (Z.to_nat per_page) i 0); [done|lia|lia|done|lia|lia]|].
  intros [p m1] s1 (E1 & E2 & Hl1 & Hf1 & Hc1). cbn in *. injection E1 as ->. rewrite E2 in *.
  eapply wp_mono; [apply (IH (i + 1)); [lia|lia|done]|]. intros r s2 (H1 & H2 & H3 & H4). split_and!; [done|done|congruence|congruence].
Qed.

Lemma linked_chain s k i fl :
  0 <= i -> i + Z.of_nat k = pool_elems - 1 -> linked s (pool_elems - 1) -> hp_links s !! (pool_elems - 1) = Some None ->
  fl = (fun m => i + Z.of_nat m) <$> seq 0 (S k) -> htt_chain (hp_links s) (Some i) fl.
Proof.
  revert i fl. induction k as [|k IH]; intros i fl Hi Hk Hl Hlast ->.
  - cbn. rewrite Z.add_0_r. split; [done|]. exists None. by replace i with (pool_elems - 1) by lia.
  - assert (((fun m => i + Z.of_nat m) <$> seq 0 (S (S k))) = i :: ((fun m => i + 1 + Z.of_nat m) <$> seq 0 (S k))) as ->.
    { change (seq 0 (S (S k))) with (0%nat :: seq 1 (S k)). rewrite fmap_cons, Z.add_0_r, <- fmap_S_seq, <- list_fmap_compose.
      f_equal. apply list_fmap_ext. intros m x _. cbn. lia. }
    split; [done|]. exists (Some (i + 1)). split; [apply Hl; lia|]. apply IH; [lia|lia|done..].
Qed.

Lemma htt_tx_attach_spec s :
  (pool_elems - 1) mod per_page <> 0 ->
  wp (htt_tx_attach num_page per_page pool_elems) (fun _ s' => free_list s' (zseq pool_elems) /\ hp_alloc_cnt s' = 0) s.
Proof.
  intros Hmod. assert (Hnp : 0 < num_page) by nia. unfold htt_tx_attach. step.
  assert (Hc0 : cacheable_page num_page per_page 0 = Some 0) by (unfold cacheable_page; by rewrite (proj2 (Z.ltb_lt _ _))).
  rewrite Hc0. set (s0 := mk_htt_pool _ _ _). pose proof (link_pages_spec (Z.to_nat num_page) 0 s0 Hmod ltac:(lia) ltac:(lia)) as Hw.
  replace (Z.min (pool_elems - 1) (0 * per_page)) with 0 in Hw by lia. apply wp_bind. eapply wp_mono; [apply Hw; intros k Hk; lia|].
  intros [p m] s1 (E & Hl & Hf & Hc). cbn in E. subst p. eapply wp_run; [reflexivity|]. split; [|done]. split; [|apply zseq_nodup].
  cbn. rewrite Hf. eapply (linked_chain (set_link (pool_elems - 1) None s1) (Z.to_nat (pool_elems - 1))); [done|lia| | |].
  - intros k Hk. cbn. rewrite lookup_insert_ne by lia. by apply Hl.
  - cbn. by rewrite lookup_insert_eq.
  - unfold zseq. replace (Z.to_nat pool_elems) with (S (Z.to_nat (pool_elems - 1))) by lia. done.
Qed.

(** *** The last page holds a single element *)
Lemma link_page_overrun n j p m s :
  (0 < n)%nat -> 0 <= j -> j + Z.of_nat n = per_page -> pool_elems - 1 <= m -> link_page n (num_page - 1) j p m s = None.
Proof.
  revert j p m s. induction n as [|n IH]; intros j p m s Hpos Hj Hn Hm; [lia|]. cbn [HttPool.link_page]. unfold mbind, M_bind.
  destruct (Z.eqb_spec j (per_page - 1)) as [E|E].
  - unfold cacheable_page, lift. by rewrite (proj2 (Z.ltb_ge _ _)) by lia.
  - unfold mret, M_ret, modify. rewrite (proj2 (Z.eqb_neq _ _)) by lia. apply IH; lia.
Qed.

Lemma link_pages_overrun n i s :
  (pool_elems - 1) mod per_page = 0 -> 0 <= i -> (0 < n)%nat -> i + Z.of_nat n = num_page -> linked s (i * per_page) ->
  link_pages n i (i * per_page) (i * per_page) s = None.
Proof.
  intros Hmod. assert (Hlast : (num_page - 1) * per_page = pool_elems - 1).
  { apply Z.mod_divide in Hmod as [q Hq]; [|lia]. assert (q = num_page - 1) as <- by nia. lia. }
  revert i s. induction n as [|n IH]; intros i s Hi Hpos Hn Hl; [lia|]. cbn [HttPool.link_pages]. unfold mbind, M_bind.
  destruct (decide (n = 0%nat)) as [->|Hn0].
  - assert (i = num_page - 1) as -> by lia. by rewrite link_page_overrun by lia.
  - pose proof (link_page_spec (Z.to_nat per_page) i 0 s) as Hw. cbv zeta in Hw. rewrite Z.add_0_r in Hw.
    specialize (Hw Hi ltac:(lia) ltac:(lia) Hl). assert (i < num_page - 1) by lia. specialize (Hw ltac:(nia) ltac:(nia)).
    unfold wp in Hw. destruct (link_page _ _ _ _ _ s) as [[[p m] s1]|]; [|done]. destruct Hw as (E1 & E2 & Hl1 & _). cbn in *.
    injection E1 as ->. assert (m = (i + 1) * per_page) as -> by nia. apply IH; [lia|lia|lia|done].
Qed.

Lemma htt_tx_attach_overrun s : (pool_elems - 1) mod per_page = 0 -> htt_tx_attach num_page per_page pool_elems s = None.
Proof.
  intros Hmod. unfold htt_tx_attach. unfold mbind at 1, M_bind at 1, modify at 1. set (s0 := mk_htt_pool _ _ _).
  pose proof (link_pages_overrun (Z.to_nat num_page) 0 s0 Hmod ltac:(lia)) as Hno. rewrite Z.mul_0_l in Hno.
  unfold mbind, M_bind. rewrite Hno; [done|nia|nia|]. intros k Hk. lia.
Qed.
End Proofs.
