(* ===== verification/DescOrder.v ===== *)
(** A frame is over when its download has ended and the target has answered.
    The two may come in either order: the frame is freed by the second, and the
    state is the same.

    The credit HTT keeps ([htt_t2h.c], [htt_tx.c]): credit granted by the target
    is usable when the bus has room for it.  How the messages move it between
    the target's balance, the bus and the scheduler. *)
From Stdlib Require Import ZArith Lia.
From stdpp Require Import prelude gmap list numbers.
From S2P Require Import Prelude.
From S2P Require Import TxTypes.
From S2P Require Import TxCore.
From S2P Require Import TxSched.
From S2P Require Import TxQueue.
From S2P Require Import TxInv.
From S2P Require Import TxSchedInv.
From S2P Require Import TxDispatch.
From S2P Require Import TxInit.
From S2P Require Import DescTypes.
From S2P Require Import DescPool.
From S2P Require Import DescSend.
From S2P Require Import DescHtt.
From S2P Require Import DescOps.
From S2P Require Import DescFree.
From S2P Require Import DescQueue.
From S2P Require Import DescComplete.

(** A completion message for one frame, apart from the counts. *)
Definition complete_one (status i : Z) : MD unit :=
  tx_descs ← complete_msdu status i [];
  ol_tx_desc_frame_list_free tx_descs (negb (status =? htt_tx_status_ok)).

Section Order.
Context `{HttTx}.
Implicit Types (s : tx_device) (fl L B : list Z) (dl tgt : gset Z) (d : desc).

Lemma list_free_nil s e : ol_tx_desc_frame_list_free [] e s = Some (tt, s).
Proof. done. Qed.

(** A list of one standard frame is freed like the frame. *)
Lemma list_free_one s i d b n e :
  znth (dv_pool s) i = Some d -> ds_first d = TdNetbuf b -> dv_nbufs s !! b = Some n -> ds_pkt_type d = ol_tx_frm_std ->
  ol_tx_desc_frame_list_free [i] e s = Some (tt, freed_frame i d b e s).
Proof.
  intros Hi Hb Hn Ht. unfold ol_tx_desc_frame_list_free. cbn [frame_list_free_loop]. set (s1 := put_desc i (unreferenced d) s).
  pose proof (znth_put s i (unreferenced d) d Hi) as H1. fold s1 in H1. set (s2 := set_dv_log (fun l => l ++ [EvUnmap b]) s1).
  eapply run_bind; [|].
  { eapply run_bind; [by eapply get_netbuf_run|]. eapply run_bind; [by apply upd_desc_run|]. fold (unreferenced d). fold s1.
    eapply run_bind; [by eapply adf_nbuf_unmap_run|]. fold s2. eapply run_bind; [apply (ol_tx_desc_free_run s2 i (unreferenced d)); exact H1|].
    reflexivity. }
  set (s3 := released i (unreferenced d) s2). assert (Hn3 : dv_nbufs s3 !! b = Some n) by done.
  rewrite (adf_nbuf_tx_free_one s3 b n e Hn3). do 2 f_equal. unfold freed_frame, free_events. rewrite Ht. cbn [Z.eqb andb Z.leb].
  change (set_dv_log (fun l => l ++ [EvTxFree [b] e]) (set_dv_nbufs (delete b) s3)) with
    (set_dv_log (fun l => l ++ [EvTxFree [b] e]) (set_dv_log (fun l => l ++ [EvUnmap b]) (set_dv_nbufs (delete b) (released i (unreferenced d) s1)))).
  rewrite log_app. f_equal. f_equal. unfold released. unfold s1. by rewrite put_put.
Qed.

(** The group credit depends on the queueing layer and the vdev only. *)
Lemma group_credit_run s i d :
  Inv (dv_tx s) -> i < pd_desc_pool_size (dv_tx s) -> exists t, pd_desc_pool_size t = pd_desc_pool_size (dv_tx s) /\
    forall s' d', dv_tx s' = dv_tx s -> znth (dv_pool s') i = Some d' -> ds_vdev_id d' = ds_vdev_id d ->
      ol_tx_desc_update_group_credit i 1 false s' = Some (tt, set_dv_tx (fun _ => t) s').
Proof.
  intros HI Hi. destruct (update_group_loop_run (pd_txq_grps (dv_tx s)) 0 (ds_vdev_id d) 1 (dv_tx s) HI) as (gs & Hrun & _); [lia|by rewrite drop_0|].
  exists (set_pd_txq_grps (fun _ => gs) (dv_tx s)). split; [done|]. intros s' d' Et Hd' Ev. unfold ol_tx_desc_update_group_credit.
  eapply run_bind; [reflexivity|]. rewrite Et, (proj2 (Z.leb_gt _ _)) by lia. eapply run_bind; [by apply get_desc_run|].
  unfold lift_tx. eapply run_bind; [reflexivity|]. rewrite Et, Ev. eapply run_bind; [unfold lift; rewrite Hrun; reflexivity|]. done.
Qed.

Definition completed_desc (status : Z) d : desc := dereferenced (set_ds_status (fun _ => status) d).

(** What a completion does to a frame whose state is [d]. *)
Lemma complete_one_run s i d b n status t :
  znth (dv_pool s) i = Some d -> ds_first d = TdNetbuf b -> dv_nbufs s !! b = Some n -> type_ok d ->
  i < pd_desc_pool_size (dv_tx s) -> zlen (dv_mgmt_cbs s) = OL_TXRX_MGMT_NUM_TYPES ->
  (forall s' d', dv_tx s' = dv_tx s -> znth (dv_pool s') i = Some d' -> ds_vdev_id d' = ds_vdev_id d ->
    ol_tx_desc_update_group_credit i 1 false s' = Some (tt, set_dv_tx (fun _ => t) s')) ->
  let s1 := put_desc i (completed_desc status d) (set_dv_tx (fun _ => t) s) in
  complete_one status i s = Some (tt,
    if s32 (ds_ref_cnt d - 1) =? 0 then freed_frame i (completed_desc status d) b (negb (status =? htt_tx_status_ok)) s1 else s1).
Proof.
  intros Hi Hb Hn Ht Hlt Hcb Hg s1. set (d1 := set_ds_status (fun _ => status) d).
  pose proof (znth_put s i d1 d Hi) as Hi1. set (s0 := set_dv_tx (fun _ => t) (put_desc i d1 s)).
  assert (E1 : put_desc i (dereferenced d1) s0 = s1) by (unfold s0, s1; rewrite put_tx, put_put; done).
  assert (Hi2 : znth (dv_pool s1) i = Some (completed_desc status d)) by (rewrite <- E1; by eapply znth_put).
  assert (Hbody : forall r, (if s32 (ds_ref_cnt d - 1) =? 0 then ol_tx_msdu_complete i [] status else mret []) s1 = r ->
    complete_msdu status i [] s = r).
  { intros r Hr. unfold complete_msdu. eapply run_bind; [reflexivity|]. rewrite (proj2 (Z.leb_gt _ _)) by lia.
    eapply run_bind; [by apply upd_desc_run|]. fold d1. eapply run_bind; [by eapply get_netbuf_run|].
    eapply run_bind; [by apply (Hg (put_desc i d1 s) d1)|]. fold s0. eapply run_bind; [by apply (get_nbuf_run s0 b n)|].
    eapply run_bind; [by apply (OL_TX_DESC_NO_REFS_run s0 i d1)|]. rewrite E1. exact Hr. }
  unfold complete_one. destruct (s32 (ds_ref_cnt d - 1) =? 0).
  - destruct (ds_pkt_type d =? ol_tx_frm_std) eqn:Es.
    + eapply run_bind; [apply Hbody; unfold ol_tx_msdu_complete; eapply run_bind; [by apply get_desc_run|]|].
      { change (ds_pkt_type (completed_desc status d)) with (ds_pkt_type d). rewrite Es. reflexivity. }
      by apply (list_free_one s1 i (completed_desc status d) b n); [..|apply Z.eqb_eq].
    + eapply run_bind; [apply Hbody; unfold ol_tx_msdu_complete; eapply run_bind; [by apply get_desc_run|]|].
      { change (ds_pkt_type (completed_desc status d)) with (ds_pkt_type d). rewrite Es.
        eapply run_bind; [by eapply (ol_tx_desc_frame_free_nonstd_run s1 i (completed_desc status d) b n)|]. reflexivity. }
      apply list_free_nil.
  - eapply run_bind; [apply Hbody; reflexivity|]. apply list_free_nil.
Qed.

(** What the end of a download does. *)
Lemma download_done_run s i d b n x :
  znth (dv_pool s) i = Some d -> ds_first d = TdNetbuf b -> dv_nbufs s !! b = Some n -> type_ok d ->
  zlen (dv_mgmt_cbs s) = OL_TXRX_MGMT_NUM_TYPES ->
  let s1 := put_desc i (dereferenced d) (set_dv_log (fun l => l ++ download_events s d b true) s) in
  ol_tx_download_done_base true x i s = Some (tt,
    if s32 (ds_ref_cnt d - 1) =? 0 then freed_frame i (dereferenced d) b (negb (ds_status d =? htt_tx_status_ok)) s1 else s1).
Proof.
  intros Hi Hb Hn Ht Hcb s1. unfold ol_tx_download_done_base. eapply run_bind; [by apply get_desc_run|]. eapply run_bind; [reflexivity|].
  apply (download_callback_run s i d b n true _ _ Hi Hb Hn Ht Hcb). cbn [negb]. set (s0 := set_dv_log _ s) in *.
  eapply run_bind; [by apply (OL_TX_DESC_NO_REFS_run s0 i d)|]. fold s1.
  pose proof (znth_put s0 i (dereferenced d) d Hi) as Hi1. fold s1 in Hi1.
  destruct (s32 (ds_ref_cnt d - 1) =? 0); cbn [when]; [|done]. eapply run_bind; [by apply get_desc_run|].
  by eapply (ol_tx_desc_frame_free_nonstd_run s1 i (dereferenced d) b n).
Qed.

(** The frame [d] of descriptor [i], with buffer [b], is over: the download is
    reported, the buffer is freed with the status of the target, and the
    descriptor is the head of the free list. *)
Record frame_over (i b status : Z) d s s' : Prop := {
  fo_nbufs : dv_nbufs s' = delete b (dv_nbufs s);
  fo_log : dv_log s' = dv_log s ++ download_events s d b true ++ free_events s d b (negb (status =? htt_tx_status_ok));
  fo_freelist : dv_freelist s' = Some i;
  fo_num_free : dv_num_free s' = u16 (dv_num_free s + 1);
  fo_desc : exists d', znth (dv_pool s') i = Some d' /\ ds_first d' = TdNext (dv_freelist s) /\ ds_ref_cnt d' = 0 /\ ds_status d' = status;
  fo_pool : forall j, j <> i -> znth (dv_pool s') j = znth (dv_pool s) j }.

Lemma frame_over_freed i b status d s t :
  znth (dv_pool s) i = Some d ->
  frame_over i b status d s (freed_frame i (completed_desc status (dereferenced d)) b (negb (status =? htt_tx_status_ok))
    (put_desc i (completed_desc status (dereferenced d)) (set_dv_tx (fun _ => t) (set_dv_log (fun l => l ++ download_events s d b true) s)))).
Proof.
  intros Hi. constructor; try reflexivity.
  - unfold freed_frame. cbn. by rewrite <- app_assoc.
  - eexists. split; [|split; [|split]]; [by eapply znth_put, znth_put|reflexivity..].
  - intros j Hj. cbn. pose proof (znth_lt_Some _ _ _ Hi).
    rewrite !znth_zset_ne by (rewrite ?zlen_zset; done || lia). done.
Qed.

Lemma two_ends s fl L B dl tgt drift i x status :
  Books s fl L B dl tgt drift -> i ∈ dl -> i ∈ tgt ->
  exists d b s', znth (dv_pool s) i = Some d /\ ds_first d = TdNetbuf b /\ is_Some (dv_nbufs s !! b) /\
    (ol_tx_download_done_base true x i;; complete_one status i) s = Some (tt, s') /\
    (complete_one status i;; ol_tx_download_done_base true x i) s = Some (tt, s') /\
    frame_over i b status d s s'.
Proof.
  intros HB Hdl Htg. destruct (Books_range _ _ _ _ _ _ _ i HB ltac:(left; apply elem_of_union; by left)) as (d & b & n & Hi & Hr & Hb & Hn & Ht & Href).
  pose proof (bk_rep _ _ _ _ _ _ _ HB) as HR. pose proof (dr_cbs _ _ _ _ _ _ HR) as Hcb.
  unfold refs in Href. rewrite !in_set_in in Href by done.
  destruct (group_credit_run s i d (bk_inv _ _ _ _ _ _ _ HB) ltac:(lia)) as (t & Hpt & Hg).
  set (e := negb (status =? htt_tx_status_ok)). set (ev := download_events s d b true).
  set (s1 := put_desc i (completed_desc status (dereferenced d)) (set_dv_tx (fun _ => t) (set_dv_log (fun l => l ++ ev) s))).
  exists d, b, (freed_frame i (completed_desc status (dereferenced d)) b e s1).
  split; [done|]. split; [done|]. split; [by exists n|]. split; [|split; [|by apply frame_over_freed]].
  - eapply run_bind; [by apply (download_done_run s i d b n x)|]. rewrite Href. change (s32 (1 + 1 - 1) =? 0) with false. cbv iota.
    fold ev. set (s2 := put_desc i (dereferenced d) _).
    assert (Hi2 : znth (dv_pool s2) i = Some (dereferenced d)) by exact (znth_put (set_dv_log _ s) i _ d Hi).
    rewrite (complete_one_run s2 i (dereferenced d) b n status t) by (done || exact (proj2 Hr)). cbn [dereferenced set_ds_ref_cnt ds_ref_cnt]. rewrite Href.
    change (s32 (s32 (1 + 1 - 1) - 1) =? 0) with true. cbv iota. fold e. do 3 f_equal. unfold s2, s1. by rewrite put_tx, put_put.
  - eapply run_bind; [by apply (complete_one_run s i d b n status t); (done || exact (proj2 Hr))|]. rewrite Href. change (s32 (1 + 1 - 1) =? 0) with false. cbv iota.
    set (s2 := put_desc i (completed_desc status d) _).
    assert (Hi2 : znth (dv_pool s2) i = Some (completed_desc status d)) by exact (znth_put (set_dv_tx _ s) i _ d Hi).
    rewrite (download_done_run s2 i (completed_desc status d) b n x) by done.
    change (ds_ref_cnt (completed_desc status d)) with (s32 (ds_ref_cnt d - 1)). rewrite Href.
    change (s32 (s32 (1 + 1 - 1) - 1) =? 0) with true. cbv iota. change (ds_status (completed_desc status d)) with status. fold e.
    change (download_events s2 (completed_desc status d) b true) with ev. do 2 f_equal.
    change (dereferenced (completed_desc status d)) with (completed_desc status (dereferenced d)). f_equal.
    unfold s2, s1. change (set_dv_log (fun l => l ++ ev) (put_desc i (completed_desc status d) (set_dv_tx (fun _ => t) s)))
      with (put_desc i (completed_desc status d) (set_dv_tx (fun _ => t) (set_dv_log (fun l => l ++ ev) s))). by rewrite put_put.
Qed.
End Order.

Section Credit.
Implicit Types (s : tx_device).

Definition credit s : Z := pd_target_tx_credit (dv_tx s).

(** Only the three balances change. *)
Definition with_credit (c td bd : Z) s : tx_device :=
  set_dv_bus_delta (fun _ => bd) (set_dv_target_delta (fun _ => td) (set_dv_tx (set_pd_target_tx_credit (fun _ => c)) s)).

(** Balances far from the limits of an [int]. *)
Record small_credit s : Prop := {
  sc_credit : -2 ^ 29 <= credit s <= 2 ^ 29;
  sc_target : - MAX_TARGET_TX_CREDIT <= dv_target_delta s <= MAX_TARGET_TX_CREDIT;
  sc_bus : -2 ^ 29 <= dv_bus_delta s <= 2 ^ 29 }.

Lemma with_credit_id s : with_credit (credit s) (dv_target_delta s) (dv_bus_delta s) s = s.
Proof. by destruct s as [[]]. Qed.

Lemma add_target_run s n c td bd :
  -2 ^ 31 <= td + n < 2 ^ 31 -> add_target_delta n (with_credit c td bd s) = Some (tt, with_credit c (td + n) bd s).
Proof. intros. unfold add_target_delta, modify, with_credit, set_dv_target_delta, set_dv_bus_delta, set_dv_tx. cbn. by rewrite s32_small by lia. Qed.
Lemma add_bus_run s n c td bd :
  -2 ^ 31 <= bd + n < 2 ^ 31 -> add_bus_delta n (with_credit c td bd s) = Some (tt, with_credit c td (bd + n) s).
Proof. intros. unfold add_bus_delta, modify, with_credit, set_dv_target_delta, set_dv_bus_delta, set_dv_tx. cbn. by rewrite s32_small by lia. Qed.
Lemma add_credit_run s n c td bd :
  -2 ^ 31 <= c + n < 2 ^ 31 -> add_credit n (with_credit c td bd s) = Some (tt, with_credit (c + n) td bd s).
Proof.
  intros. unfold add_credit, modify, with_credit, set_dv_target_delta, set_dv_bus_delta, set_dv_tx, set_pd_target_tx_credit. cbn.
  by rewrite s32_small by lia.
Qed.
Lemma target_credit_update_run s n c td bd :
  -2 ^ 31 <= c + n < 2 ^ 31 -> target_credit_update n (with_credit c td bd s) = Some (tt, with_credit (c + n) td bd s).
Proof.
  intros. unfold target_credit_update, lift_tx, ol_tx_target_credit_update, mbind, M_bind, get, lift, modify, mret, M_ret.
  unfold with_credit, set_dv_target_delta, set_dv_bus_delta, set_dv_tx, set_pd_target_tx_credit. cbn. by rewrite s32_small by lia.
Qed.

(** The smaller of the two balances, if positive, leaves both. *)
Lemma htt_tx_credit_update_run s c td bd :
  -2 ^ 30 <= td <= 2 ^ 30 -> -2 ^ 30 <= bd <= 2 ^ 30 ->
  htt_tx_credit_update (with_credit c td bd s) =
    Some (Z.min td bd, with_credit c (td - Z.max 0 (Z.min td bd)) (bd - Z.max 0 (Z.min td bd)) s).
Proof.
  intros. unfold htt_tx_credit_update. eapply run_bind; [reflexivity|]. cbn [with_credit dv_target_delta dv_bus_delta set_dv_bus_delta set_dv_target_delta].
  destruct (Z.ltb_spec 0 (Z.min td bd)) as [Hpos|Hneg]; cbn [when].
  - eapply run_bind; [eapply run_bind; [apply add_target_run; lia|apply add_bus_run; lia]|]. rewrite Z.max_r by lia. done.
  - eapply run_bind; [reflexivity|]. rewrite Z.max_l by lia. by rewrite !Z.sub_0_r.
Qed.

(** ** Messages *)

(** A completion of [n] frames. *)
Lemma tx_compl_credit_run s n :
  dv_free_at_download s = true -> small_credit s -> 0 <= n < 256 -> invalid_credit (dv_target_delta s) n = false ->
  let delta := Z.min (dv_target_delta s + n) (dv_bus_delta s) in
  tx_compl_credit n s = Some (tt,
    with_credit (credit s + delta) (dv_target_delta s + n - Z.max 0 delta) (dv_bus_delta s - Z.max 0 delta) s).
Proof.
  intros Hf [H1 H2 H3] Hn Hi delta. unfold MAX_TARGET_TX_CREDIT in *. unfold tx_compl_credit. eapply run_bind; [reflexivity|]. rewrite Hi, Hf.
  rewrite <- (with_credit_id s) at 1. eapply run_bind; [apply add_target_run; lia|].
  eapply run_bind; [apply htt_tx_credit_update_run; lia|]. fold delta.
  destruct (Z.eqb_spec delta 0) as [E|E]; cbn [negb when].
  - rewrite E, Z.add_0_r. done.
  - apply target_credit_update_run. unfold delta. lia.
Qed.

(** The surplus: what the target still has, as far as the bus allows. *)
Lemma take_surplus_run s room c td bd :
  -2 ^ 30 <= td <= 2 ^ 30 -> -2 ^ 30 <= bd <= 2 ^ 30 -> -2 ^ 30 <= c <= 2 ^ 29 -> 0 <= room <= 2 ^ 30 ->
  let d := Z.min room (Z.max 0 td) in take_surplus room (with_credit c td bd s) = Some (tt, with_credit (c + d) (td - d) (bd - d) s).
Proof.
  intros Htd Hbd Hc Hr d. unfold take_surplus. eapply run_bind; [reflexivity|].
  cbn [with_credit dv_target_delta set_dv_bus_delta set_dv_target_delta]. destruct (Z.ltb_spec 0 td) as [Hpos|Hneg]; cbn [when].
  - assert ((if td <? room then td else room) = d) as -> by (unfold d; destruct (Z.ltb_spec td room); lia).
    eapply run_bind; [apply add_target_run; lia|]. eapply run_bind; [apply add_credit_run; lia|]. rewrite add_bus_run by lia. done.
  - assert (d = 0) as -> by (unfold d; lia). by rewrite Z.add_0_r, !Z.sub_0_r.
Qed.

(** How the scheduler's credit grows when [n] is granted. *)
Definition surplus (c td bd : Z) : Z :=
  let delta := Z.max 0 (Z.min td bd) in
  if c + delta <? HTT_MAX_BUS_CREDIT then Z.min (HTT_MAX_BUS_CREDIT - c - delta) (Z.max 0 (td - delta)) else 0.

Lemma credit_update_credit_run s n :
  dv_free_at_download s = true -> small_credit s -> - 65536 < n < 65536 -> invalid_credit (dv_target_delta s) n = false ->
  let td := dv_target_delta s + n in let bd := dv_bus_delta s in let c := credit s in
  let delta := Z.max 0 (Z.min td bd) in let sp := surplus c td bd in
  credit_update_credit n s = Some (Some (Z.min td bd), with_credit (c + sp) (td - delta - sp) (bd - delta - sp) s).
Proof.
  intros Hf [H1 H2 H3] Hn Hi td bd c delta sp. unfold MAX_TARGET_TX_CREDIT in *. unfold credit_update_credit. eapply run_bind; [reflexivity|].
  rewrite Hi, Hf. rewrite <- (with_credit_id s) at 1. eapply run_bind; [apply add_target_run; lia|].
  eapply run_bind; [apply htt_tx_credit_update_run; lia|]. fold td bd. fold delta.
  eapply run_bind; [reflexivity|]. cbv zeta. change (pd_target_tx_credit (dv_tx (with_credit (credit s) (td - delta) (bd - delta) s))) with c.
  fold c. set (s1 := with_credit c (td - delta) (bd - delta) s).
  assert (Hsp : sp = if c + delta <? HTT_MAX_BUS_CREDIT then Z.min (HTT_MAX_BUS_CREDIT - c - delta) (Z.max 0 (td - delta)) else 0) by done.
  assert (Hskip : sp = 0 -> s1 = with_credit (c + sp) (td - delta - sp) (bd - delta - sp) s) by (intros ->; by rewrite Z.add_0_r, !Z.sub_0_r).
  assert (Htake : forall room, room = HTT_MAX_BUS_CREDIT - c - delta -> 0 < room -> sp = Z.min room (Z.max 0 (td - delta)) ->
    take_surplus room s1 = Some (tt, with_credit (c + sp) (td - delta - sp) (bd - delta - sp) s)).
  { intros room -> Hpos ->. unfold HTT_MAX_BUS_CREDIT in *. apply take_surplus_run; lia. }
  unfold HTT_MAX_BUS_CREDIT in *. destruct (Z.leb_spec 0 (Z.min td bd)) as [Hge|Hlt].
  - replace (Z.min td bd) with delta by lia. destruct (Z.ltb_spec (c + delta) 33) as [Hl|Hl]; cbn [when].
    + eapply run_bind; [apply Htake; lia|]. done.
    + eapply run_bind; [reflexivity|]. by rewrite <- Hskip.
  - assert (delta = 0) as Hd by lia. destruct (Z.ltb_spec (c + delta) 33) as [Hl|Hl]; rewrite Hd, Z.add_0_r in Hl.
    + rewrite (proj2 (Z.ltb_lt c 33)) by lia. cbn [when]. eapply run_bind; [apply Htake; lia|]. done.
    + rewrite (proj2 (Z.ltb_ge c 33)) by lia. cbn [when]. eapply run_bind; [reflexivity|]. by rewrite <- Hskip.
Qed.

(** A download ends. *)
Lemma send_complete_credit_run s :
  dv_free_at_download s = true -> small_credit s ->
  let delta := Z.min (dv_target_delta s) (dv_bus_delta s + 1) in
  send_complete_credit s = Some (delta, with_credit (credit s) (dv_target_delta s - Z.max 0 delta) (dv_bus_delta s + 1 - Z.max 0 delta) s).
Proof.
  intros Hf [H1 H2 H3] delta. unfold MAX_TARGET_TX_CREDIT in *. unfold send_complete_credit. eapply run_bind; [reflexivity|]. rewrite Hf.
  rewrite <- (with_credit_id s) at 1. eapply run_bind; [apply add_bus_run; lia|]. by rewrite htt_tx_credit_update_run by lia.
Qed.
End Credit.
