(* ===== verification/DescProps.v ===== *)
(** A device for the witnesses: 600 descriptors over the queues of [TxProps],
    and a run in which two frames are sent.

    Properties of the transmit descriptors: the pool, the entry of frames, their
    completion, and the credit of HTT. *)
From Stdlib Require Import ZArith Lia.
From stdpp Require Import prelude gmap fin_sets list numbers.
From S2P Require Import Prelude.
From S2P Require Import TxTypes.
From S2P Require Import TxCore.
From S2P Require Import TxSched.
From S2P Require Import TxQueue.
From S2P Require Import TxInv.
From S2P Require Import TxDispatch.
From S2P Require Import TxInit.
From S2P Require Import TxProps.
From S2P Require Import DescTypes.
From S2P Require Import DescPool.
From S2P Require Import DescSend.
From S2P Require Import DescHtt.
From S2P Require Import DescOps.
From S2P Require Import DescFree.
From S2P Require Import DescQueue.
From S2P Require Import DescComplete.
From S2P Require Import DescEntry.
From S2P Require Import DescClient.
From S2P Require Import DescPages.
From S2P Require Import HttPool.
From S2P Require Import DescOrder.

#[local] Existing Instance ex_tx.

(** Memory as it comes. *)
Definition ex_raw : tx_device :=
  mk_tx_device ex0 (replicate 600 (mk_desc (TdNext None) 7 3 2 9 (Some 9))) None 0 ∅ true (replicate 8 (true, true)) false 0 0 [].

Definition run_dev {A} (m : MD A) (s : tx_device) : tx_device := match m s with Some (_, s') => s' | None => s end.
Definition ex_dev : tx_device := run_dev (pool_attach 600 (fun _ => true)) ex_raw.

Definition ex_nbuf (n : Z) (id_storage : bool) : nbuf := mk_nbuf n id_storage 0 0.

(** Two frames, of which the second has no room for the id of its descriptor. *)
Definition ex_send : dev_op :=
  op_data 0 0 2 [(101, ex_nbuf 1500 true, Some ex_be); (102, ex_nbuf 60 false, Some ex_be)] true.

Definition ex_after (o : dev_op) (x : dev_state) : dev_state := after o x.1.1 x.1.2 x.2 (run_dev (run_op o) x.1.1).
Definition ex_sent : dev_state := ex_after ex_send (ex_dev, ∅, ∅).

Lemma ex_raw_before : before_attach ex_raw.
Proof.
  constructor; [apply ex0_inv|by vm_compute|by vm_compute|by vm_compute|by vm_compute|done|done].
Qed.

Lemma ex_attached : attached (ex_dev, ∅, ∅).
Proof. apply (attached_intro ex_raw ex_dev ex_raw_before). by vm_compute. Qed.

Lemma ex_step o s dl tgt : reachable (s, dl, tgt) -> allowed o s dl tgt ->
  match run_op o s with Some _ => true | None => false end = true -> reachable (ex_after o (s, dl, tgt)).
Proof.
  intros Hr Ha Hrun. eapply reachable_step; [exact Hr|]. unfold ex_after. cbn. apply dev_step_intro; [done|]. unfold run_dev.
  by destruct (run_op o s) as [[[] s']|].
Qed.

Lemma ex_send_allowed : allowed ex_send ex_dev ∅ ∅.
Proof.
  split; [by apply (bool_decide_unpack _); vm_compute|]. intros x Hx.
  apply elem_of_cons in Hx as [->|Hx]; [split; [by vm_compute|eexists; by vm_compute]|].
  apply list_elem_of_singleton in Hx as ->. split; [by vm_compute|eexists; by vm_compute].
Qed.

Lemma ex_sent_reachable : reachable ex_sent.
Proof. apply ex_step; [apply reachable_init, ex_attached|apply ex_send_allowed|by vm_compute]. Qed.

(** Both are on their way. *)
Lemma ex_sent_holders : ex_sent.1.2 = {[0; 1]} /\ ex_sent.2 = {[0; 1]}.
Proof. split; apply (bool_decide_unpack _); by vm_compute. Qed.

Lemma ex_sent_books : exists fl drift, Books ex_sent.1.1 fl [] [] ex_sent.1.2 ex_sent.2 drift.
Proof. destruct (reachable_books _ ex_sent_reachable) as (drift & fl & HB). by exists fl, drift. Qed.

Lemma none_of_empty_union (i : Z) : i ∉ (∅ : gset Z) ∪ ∅.
Proof. rewrite union_empty_l_L. apply not_elem_of_empty. Qed.

(** ** Safety and types *)


Definition ex_complete : dev_op := op_completion 3 1 [1; 65535; 0].

Lemma ex_complete_allowed : allowed ex_complete ex_sent.1.1 ex_sent.1.2 ex_sent.2.
Proof.
  rewrite (proj2 ex_sent_holders). constructor; [by vm_compute|apply (bool_decide_unpack _); by vm_compute|].
  intros i Hi. assert (Hi' : i ∈ [1; 0]) by exact Hi. clear Hi.
  apply elem_of_cons in Hi' as [->|Hi']; [by set_solver|]. apply list_elem_of_singleton in Hi' as ->. by set_solver.
Qed.

(** The same two frames with [tx_free_at_download], and the end of the download of
    the second one, which frees it. *)
Definition ex_raw_free : tx_device := set_dv_free_at_download (fun _ => true) ex_raw.
Definition ex_dev_free : tx_device := run_dev (pool_attach 600 (fun _ => true)) ex_raw_free.
Definition ex_sent_free : dev_state := ex_after ex_send (ex_dev_free, ∅, ∅).


Lemma ex_download_frees : frees_at_download ex_sent_free.1.1 1 = true.
Proof. by vm_compute. Qed.



(** C17: The first word of a descriptor has the type its place implies: a link on
    the free list, and a live buffer of its own otherwise.  The free list has no
    repetition, [num_free] is its length, and no buffer is lost: each live one
    belongs to exactly one descriptor. *)
Theorem tx_desc_pool_typed `{HttTx} s dl tgt :
  reachable (s, dl, tgt) ->
  exists fl, free_chain (dv_pool s) (dv_freelist s) fl /\ NoDup fl /\ dv_num_free s = zlen fl /\
    (forall i d, znth (dv_pool s) i = Some d -> ds_ref_cnt d = refs dl tgt i /\
      if decide (i ∈ fl) then exists next, ds_first d = TdNext next
      else exists b, ds_first d = TdNetbuf b /\ is_Some (dv_nbufs s !! b)) /\
    (forall b, is_Some (dv_nbufs s !! b) -> exists i, owns s i b /\ forall j, owns s j b -> j = i).
Proof.
  intros Hr. destruct (reachable_books _ Hr) as (drift & fl & HB). pose proof (bk_rep _ _ _ _ _ _ _ HB) as HR. exists fl.
  split_and!; [apply HR| |apply HR| |].
  - pose proof (DevRep_nodup _ _ _ _ _ _ HR) as Hnd. by apply list.NoDup_app in Hnd as [Hnd _].
  - intros i d Hi. split; [by apply (dr_refs _ _ _ _ _ _ HR)|]. destruct (decide (i ∈ fl)) as [Hf|Hf].
    + by eapply chain_first; [apply HR|..].
    + apply (dr_bufs _ _ _ _ _ _ HR i d Hi Hf).
  - intros b Hb. destruct (dr_heap _ _ _ _ _ _ HR b Hb) as [Hin|[i Hi]]; [by apply not_elem_of_nil in Hin|].
    exists i. split; [done|]. intros j Hj. by apply (dr_inj _ _ _ _ _ _ HR j i b).
Qed.

Lemma tx_desc_pool_typed_witness :
  exists fl, free_chain (dv_pool ex_sent.1.1) (dv_freelist ex_sent.1.1) fl /\ NoDup fl /\ dv_num_free ex_sent.1.1 = zlen fl /\
    (forall i d, znth (dv_pool ex_sent.1.1) i = Some d -> ds_ref_cnt d = refs ex_sent.1.2 ex_sent.2 i /\
      if decide (i ∈ fl) then exists next, ds_first d = TdNext next
      else exists b, ds_first d = TdNetbuf b /\ is_Some (dv_nbufs ex_sent.1.1 !! b)) /\
    (forall b, is_Some (dv_nbufs ex_sent.1.1 !! b) -> exists i, owns ex_sent.1.1 i b /\ forall j, owns ex_sent.1.1 j b -> j = i).
Proof. apply (@tx_desc_pool_typed ex_tx ex_sent.1.1 ex_sent.1.2 ex_sent.2 ex_sent_reachable). Defined.

(** C19: The queues count free descriptors of their own ([rsrc_cnt]), and discard
    frames when it is low.  When HTT refuses no frame the count is the number of
    descriptors that are neither queued nor with the target, less the drift of
    the calls so far ([op_drift]): what failed downloads, inspections and
    discards did not give back, and what completions gave for ids that name no
    descriptor. *)
Theorem tx_desc_account `{HttTx} s dl tgt k :
  (forall x, htt_tx_send_base x = false) -> drifted (s, dl, tgt) k ->
  pd_rsrc_cnt (dv_tx s) = s32 (pd_desc_pool_size (dv_tx s) - zlen (queued s) - Z.of_nat (size tgt) - k) /\
  zlen (queued s) + Z.of_nat (size (dl ∪ tgt)) + dv_num_free s = pd_desc_pool_size (dv_tx s).
Proof.
  intros Hn Hd. destruct (drifted_books _ _ Hn Hd) as (fl & HB). pose proof (bk_rep _ _ _ _ _ _ _ HB) as HR. cbn in *.
  rewrite (bk_rsrc _ _ _ _ _ _ _ HB), zlen_nil, Z.sub_0_r. split; [done|].
  rewrite (dr_num _ _ _ _ _ _ HR), <- (dr_size _ _ _ _ _ _ HR).
  pose proof (dr_parts _ _ _ _ _ _ HR) as Hp. rewrite app_nil_r in Hp. apply Permutation_length in Hp.
  rewrite !length_app, length_fmap in Hp. pose proof (zseq_len (zlen (dv_pool s)) (zlen_nonneg _)) as Hz. unfold zlen, size, set_size in *.
  cbn in *. lia.
Qed.

#[local] Definition accept_all : HttTx := fun _ => false.

(** Two frames are sent; the download of the first fails while the target has
    it. *)
Definition ex_fail : dev_op := op_download false (ex_frame 0) 0.
Definition acc_after (o : dev_op) (x : dev_state) : dev_state := after o x.1.1 x.1.2 x.2 (run_dev (@run_op accept_all o) x.1.1).
Definition ex_accepted : dev_state := acc_after ex_send (ex_dev, ∅, ∅).
Definition ex_lost : dev_state := acc_after ex_fail ex_accepted.

Lemma acc_step o x k : @drifted accept_all x k -> allowed o x.1.1 x.1.2 x.2 ->
  match @run_op accept_all o x.1.1 with Some _ => true | None => false end = true ->
  @drifted accept_all (acc_after o x) (k + op_drift o x.1.1 x.2).
Proof.
  destruct x as [[s dl] tgt]. unfold acc_after. cbn. intros Hr Ha Hrun. apply (@drifted_step accept_all o s dl tgt); [done|done|]. unfold run_dev.
  by destruct (@run_op accept_all o s) as [[[] s']|].
Qed.

Lemma ex_accepted_drifted : @drifted accept_all ex_accepted 0.
Proof.
  apply (acc_step ex_send (ex_dev, ∅, ∅) 0); [apply drifted_init, ex_attached|apply ex_send_allowed|by vm_compute].
Qed.

Lemma ex_lost_drifted : @drifted accept_all ex_lost 1.
Proof.
  assert (E : 1 = 0 + op_drift ex_fail ex_accepted.1.1 ex_accepted.2) by (by vm_compute). rewrite E. unfold ex_lost.
  apply acc_step; [apply ex_accepted_drifted| |by vm_compute].
  split; [|by vm_compute]. change (0 ∈ ex_accepted.1.2). apply (bool_decide_unpack _). by vm_compute.
Qed.

Lemma tx_desc_account_witness :
  pd_rsrc_cnt (dv_tx ex_lost.1.1) = s32 (pd_desc_pool_size (dv_tx ex_lost.1.1) - zlen (queued ex_lost.1.1) - Z.of_nat (size ex_lost.2) - 1) /\
  zlen (queued ex_lost.1.1) + Z.of_nat (size (ex_lost.1.2 ∪ ex_lost.2)) + dv_num_free ex_lost.1.1 = pd_desc_pool_size (dv_tx ex_lost.1.1).
Proof. apply (@tx_desc_account accept_all); [done|apply ex_lost_drifted]. Defined.

(** ** Completion *)

(** C18: A completion message of the target, for any number of frames: its valid
    ids lose the reference of the target; a frame whose download has ended is
    freed and its descriptor is on the free list, one whose download has not
    keeps its buffer and the other reference.  Ids out of range are skipped, and
    the frames that the scheduler sends on the way ([acc]) are new ones. *)
Theorem ol_tx_completion_handler_correct `{HttTx} s dl tgt num status ids :
  reachable (s, dl, tgt) -> message_ok (pd_desc_pool_size (dv_tx s)) tgt num ids ->
  let V := valid_ids (pd_desc_pool_size (dv_tx s)) (take (Z.to_nat num) ids) in
  exists s' fl acc, ol_tx_completion_handler num status ids s = Some (tt, s') /\
    free_chain (dv_pool s') (dv_freelist s') fl /\ (forall i, i ∈ acc -> i ∉ dl ∪ tgt) /\
    (forall i, i ∈ V -> i ∉ dl -> i ∈ fl) /\
    (forall i d, znth (dv_pool s') i = Some d -> ds_ref_cnt d = refs (acc ∪ dl) (acc ∪ (tgt ∖ ids_set V)) i) /\
    (forall i, i ∈ dl -> exists b, owns s' i b /\ is_Some (dv_nbufs s' !! b)).
Proof.
  intros Hr Hm V. destruct (reachable_books _ Hr) as (drift & fl & HB).
  pose proof (ol_tx_completion_handler_spec status s fl [] [] dl tgt drift num ids HB Hm) as Hw.
  apply wp_some in Hw as ([] & s' & Hrun & fl' & acc & r & HB' & _ & Hacc & HV & _ & _).
  pose proof (bk_rep _ _ _ _ _ _ _ HB') as HR. exists s', fl', acc.
  split_and!; [done|apply HR|intros i Hi; by apply Hacc|done|apply HR|].
  intros i Hi. destruct (Books_range _ _ _ _ _ _ _ i HB') as (d & b & n & Hd & _ & Hb & Hn & _); [left; rewrite !elem_of_union; tauto|].
  exists b. split; [by exists d|by exists n].
Qed.

Lemma ol_tx_completion_handler_correct_witness :
  let s := ex_sent.1.1 in let dl := ex_sent.1.2 in let tgt := ex_sent.2 in
  let V := valid_ids (pd_desc_pool_size (dv_tx s)) (take (Z.to_nat 3) [1; 65535; 0]) in
  exists s' fl acc, @ol_tx_completion_handler ex_tx 3 1 [1; 65535; 0] s = Some (tt, s') /\
    free_chain (dv_pool s') (dv_freelist s') fl /\ (forall i, i ∈ acc -> i ∉ dl ∪ tgt) /\
    (forall i, i ∈ V -> i ∉ dl -> i ∈ fl) /\
    (forall i d, znth (dv_pool s') i = Some d -> ds_ref_cnt d = refs (acc ∪ dl) (acc ∪ (tgt ∖ ids_set V)) i) /\
    (forall i, i ∈ dl -> exists b, owns s' i b /\ is_Some (dv_nbufs s' !! b)).
Proof.
  intros s dl tgt V. apply (@ol_tx_completion_handler_correct ex_tx s dl tgt 3 1 [1; 65535; 0] ex_sent_reachable ex_complete_allowed).
Defined.



(** When the target is gone, every frame it or the download software still
    had is freed: its descriptor is on the free list, no reference is left, and
    of the buffers only those of queued frames remain. *)
Theorem ol_tx_discard_target_frms_correct `{HttTx} s dl tgt :
  reachable (s, dl, tgt) ->
  exists s' fl, ol_tx_discard_target_frms s = Some (tt, s') /\ free_chain (dv_pool s') (dv_freelist s') fl /\
    (forall i, i ∈ dl ∪ tgt -> i ∈ fl) /\ (forall i d, znth (dv_pool s') i = Some d -> ds_ref_cnt d = 0) /\
    (forall b, is_Some (dv_nbufs s' !! b) -> exists x, x ∈ queued s' /\ owns s' (td_id x) b) /\ dv_tx s' = dv_tx s.
Proof.
  intros Hr. destruct (reachable_books _ Hr) as (drift & fl & HB).
  pose proof (ol_tx_discard_target_frms_spec s fl [] [] dl tgt drift HB) as Hw.
  apply wp_some in Hw as ([] & s' & Hrun & freed & HB' & Hp & E). pose proof (bk_rep _ _ _ _ _ _ _ HB') as HR.
  exists s', (freed ++ fl). split_and!; [done|apply HR| | | |done].
  - intros i Hi. apply elem_of_app. left. rewrite Hp. by apply elem_of_elements.
  - intros i d Hd. rewrite (dr_refs _ _ _ _ _ _ HR i d Hd). apply refs_out. apply none_of_empty_union.
  - intros b Hb. destruct (dr_heap _ _ _ _ _ _ HR b Hb) as [Hin|[i Hi]]; [by apply not_elem_of_nil in Hin|].
    assert (Hq : i ∈ td_id <$> queued s').
    { destruct Hi as (d & Hd & Hf). assert (Hn : i ∈ zseq (zlen (dv_pool s'))) by (apply zseq_elem; by apply znth_lt_Some in Hd).
      rewrite <- (dr_parts _ _ _ _ _ _ HR), !elem_of_app in Hn. destruct Hn as [Hn|[Hn|[Hn|Hn]]]; [|done| |by apply not_elem_of_nil in Hn].
      - apply elem_of_app in Hn. destruct (chain_first _ _ _ i d (dr_chain _ _ _ _ _ _ HR)) as [nx Hx]; [exact Hn|done|congruence].
      - apply elem_of_elements in Hn. by apply none_of_empty_union in Hn. }
    apply list_elem_of_fmap in Hq as (x & -> & Hx). by exists x.
Qed.

Lemma ol_tx_discard_target_frms_correct_witness :
  exists s' fl, ol_tx_discard_target_frms ex_sent.1.1 = Some (tt, s') /\ free_chain (dv_pool s') (dv_freelist s') fl /\
    (forall i, i ∈ ex_sent.1.2 ∪ ex_sent.2 -> i ∈ fl) /\ (forall i d, znth (dv_pool s') i = Some d -> ds_ref_cnt d = 0) /\
    (forall b, is_Some (dv_nbufs s' !! b) -> exists x, x ∈ queued s' /\ owns s' (td_id x) b) /\ dv_tx s' = dv_tx ex_sent.1.1.
Proof. apply (@ol_tx_discard_target_frms_correct ex_tx ex_sent.1.1 ex_sent.1.2 ex_sent.2 ex_sent_reachable). Defined.

(** ** The entry of frames, and the pool *)

(** C23: [ol_tx_hl_base] takes the frames in order until no descriptor is left:
    what it returns is the tail of the list that found the free list empty, and
    these buffers are still the caller's; every other buffer is owned by a
    descriptor or freed. *)
Theorem ol_tx_hl_base_correct `{HttTx} v tx_spec ty call_sched msdus s fl B dl tgt drift :
  Books s fl [] (msdus.*1 ++ B) dl tgt drift -> (forall x, x ∈ msdus -> queue_known (dv_tx s) x.2) ->
  exists rest s' fl' acc r, ol_tx_hl_base v tx_spec ty msdus call_sched s = Some (rest, s') /\
    (exists k, rest = drop k (msdus.*1)) /\ (rest <> [] -> dv_freelist s' = None /\ dv_num_free s' = 0) /\
    (forall b, is_Some (dv_nbufs s' !! b) -> b ∈ rest ++ B \/ exists i, owns s' i b) /\
    (forall b, b ∈ rest ++ B -> is_Some (dv_nbufs s' !! b) /\ forall i, ~ owns s' i b) /\
    Books s' fl' [] (rest ++ B) (acc ∪ dl) (acc ∪ tgt) (drift + r).
Proof.
  intros HB Hq. pose proof (ol_tx_hl_base_spec v tx_spec ty call_sched msdus s fl [] B dl tgt drift HB Hq) as Hw.
  apply wp_some in Hw as (rest & s' & Hrun & fl' & acc & r & HB' & _ & Hk & Hrest & _). pose proof (bk_rep _ _ _ _ _ _ _ HB') as HR.
  exists rest, s', fl', acc, r. split_and!; [done|done| |apply HR|apply HR|done].
  intros Hne. destruct (Hrest Hne) as (-> & _). pose proof (dr_chain _ _ _ _ _ _ HR) as Hc. cbn in Hc. split; [done|apply HR].
Qed.

Definition ex_with_nbuf : tx_device := set_dv_nbufs (insert 201 (ex_nbuf 90 true)) ex_sent.1.1.

Lemma ex_with_nbuf_books : exists fl drift, Books ex_with_nbuf fl [] [201] ex_sent.1.2 ex_sent.2 drift.
Proof.
  destruct ex_sent_books as (fl & drift & HB). exists fl, drift.
  apply Books_buf; [exact HB|by vm_compute].
Qed.

Lemma ol_tx_hl_base_correct_witness :
  exists fl drift rest s' fl' acc r, Books ex_with_nbuf fl [] [201] ex_sent.1.2 ex_sent.2 drift /\
    @ol_tx_hl_base ex_tx 0 0 2 [(201, Some ex_be)] true ex_with_nbuf = Some (rest, s') /\
    (exists k, rest = drop k [201]) /\ (rest <> [] -> dv_freelist s' = None /\ dv_num_free s' = 0) /\
    (forall b, is_Some (dv_nbufs s' !! b) -> b ∈ rest ++ [] \/ exists i, owns s' i b) /\
    (forall b, b ∈ rest ++ [] -> is_Some (dv_nbufs s' !! b) /\ forall i, ~ owns s' i b) /\
    Books s' fl' [] (rest ++ []) (acc ∪ ex_sent.1.2) (acc ∪ ex_sent.2) (drift + r).
Proof.
  destruct ex_with_nbuf_books as (fl & drift & HB). exists fl, drift.
  destruct (@ol_tx_hl_base_correct ex_tx 0 0 2 true [(201, Some ex_be)] ex_with_nbuf fl [] ex_sent.1.2 ex_sent.2 drift HB)
    as (rest & s' & fl' & acc & r & H).
  { intros x ->%list_elem_of_singleton. by vm_compute; eexists. }
  by exists rest, s', fl', acc, r.
Defined.

(** C33: The lookup of a descriptor by shift and mask is the lookup in the array
    of all descriptors, whatever the size of a descriptor is: the elements are
    laid out in powers of two ([adf_os_get_pwr2]), [multi_pages] gives the pages
    they need, and every id below the pool size names an element of its own
    within its page. *)
Theorem ol_tx_desc_find_correct {A} page_bits size pool_size per_page num_pages (pages : list (list A)) :
  0 <= page_bits <= 15 -> 0 < size <= 2 ^ page_bits -> 0 < pool_size < 65536 ->
  multi_pages (2 ^ page_bits) (adf_os_get_pwr2 size) pool_size = Some (per_page, num_pages) ->
  zlen pages = num_pages -> Forall (fun page => zlen page = per_page) pages ->
  per_page * adf_os_get_pwr2 size = 2 ^ page_bits /\ size <= adf_os_get_pwr2 size /\
  forall i, ol_tx_desc_find pages (page_divider per_page) (offset_filter per_page) i = znth (concat pages) i /\
    (0 <= i < pool_size -> is_Some (znth (concat pages) i)).
Proof.
  intros Hb Hsz Hpool Hmp Hnp Hall.
  destruct (page_layout page_bits size pool_size per_page num_pages Hb Hsz Hpool Hmp) as (j & Hj & -> & Hmul & Hle & Hcap).
  split; [done|]. split; [done|]. intros i. split; [by apply ol_tx_desc_find_concat; [lia|]|].
  intros Hi. apply znth_in_range. rewrite (zlen_concat _ _ Hall), Hnp. lia.
Qed.

Lemma ol_tx_desc_find_correct_witness :
  let pages := [Z.of_nat <$> seq 0 32; Z.of_nat <$> seq 32 32] in
  32 * adf_os_get_pwr2 72 = 2 ^ 12 /\ 72 <= adf_os_get_pwr2 72 /\
  forall i, ol_tx_desc_find pages (page_divider 32) (offset_filter 32) i = znth (concat pages) i /\
    (0 <= i < 40 -> is_Some (znth (concat pages) i)).
Proof.
  intros pages. apply (ol_tx_desc_find_correct 12 72 40 32 2 pages); [lia|lia|lia|by vm_compute|done|].
  repeat constructor.
Defined.

(** [htt_tx_attach] threads the elements of its pages into one free list:
    the first [pool_elems] allocations return each element once, the next one
    fails.  It is correct unless the last page holds a single element. *)
Theorem htt_tx_attach_correct PAGE_SIZE size pool_elems per_page num_pages s :
  0 < pool_elems < 65536 -> multi_pages PAGE_SIZE size pool_elems = Some (per_page, num_pages) ->
  (pool_elems - 1) mod per_page <> 0 ->
  exists s1 s2, htt_tx_attach num_pages per_page pool_elems s = Some (tt, s1) /\ hp_alloc_cnt s1 = 0 /\
    alloc_many (Z.to_nat pool_elems) s1 = Some (Some <$> zseq pool_elems, s2) /\ hp_alloc_cnt s2 = pool_elems /\
    htt_tx_desc_alloc s2 = Some (None, s2).
Proof.
  intros Hp Hmp Hmod. destruct (multi_pages_enough _ _ _ _ _ Hp Hmp) as (H1 & H2 & H3).
  pose proof (htt_tx_attach_spec num_pages per_page pool_elems H1 ltac:(lia) H2 H3 s Hmod) as Hw.
  apply wp_some in Hw as ([] & s1 & Hrun & Hfl & Hc). destruct (alloc_many_run _ _ Hfl) as (s2 & Hr2 & Hfl2 & Hc2).
  pose proof (zseq_len pool_elems ltac:(lia)) as Hl. exists s1, s2. split_and!; [done|done| |lia|by apply htt_tx_desc_alloc_none].
  rewrite <- Hr2. f_equal. unfold zlen in Hl. lia.
Qed.

Definition ex_htt : htt_pool := mk_htt_pool ∅ None 0.

Lemma htt_tx_attach_correct_witness :
  exists s1 s2, htt_tx_attach 3 40 100 ex_htt = Some (tt, s1) /\ hp_alloc_cnt s1 = 0 /\
    alloc_many 100 s1 = Some (Some <$> zseq 100, s2) /\ hp_alloc_cnt s2 = 100 /\ htt_tx_desc_alloc s2 = Some (None, s2).
Proof. apply (htt_tx_attach_correct 4096 100 100 40 3 ex_htt); [lia|by vm_compute|by vm_compute]. Defined.

(** When the last page holds a single element the linking does not stop with
    it: the [break] leaves the inner loop only, the walk goes over the page again
    and reads the entry behind the last page. *)
Theorem htt_tx_attach_overruns PAGE_SIZE size pool_elems per_page num_pages s :
  0 < pool_elems < 65536 -> multi_pages PAGE_SIZE size pool_elems = Some (per_page, num_pages) ->
  (pool_elems - 1) mod per_page = 0 -> htt_tx_attach num_pages per_page pool_elems s = None.
Proof.
  intros Hp Hmp Hmod. destruct (multi_pages_enough _ _ _ _ _ Hp Hmp) as (H1 & H2 & H3).
  by apply htt_tx_attach_overrun; [|lia|..].
Qed.

Lemma htt_tx_attach_overruns_witness : htt_tx_attach 3 40 81 ex_htt = None.
Proof. apply (htt_tx_attach_overruns 4096 100 81 40 3 ex_htt); [lia|by vm_compute|by vm_compute]. Defined.

(** ** Credit *)

(** C34: With [tx_free_at_download], credit is conserved by the credit message of
    the target and by the end of a download: what the scheduler gains (at once
    and in the call of [ol_tx_credit_completion_handler] that follows, [granted])
    leaves the target's balance and the bus; the message adds what it grants,
    the download one buffer of the bus. *)
Theorem htt_credit_conserved s n :
  dv_free_at_download s = true -> small_credit s -> -65536 < n < 65536 -> invalid_credit (dv_target_delta s) n = false ->
  (exists o s', credit_update_credit n s = Some (Some o, s') /\ let granted := Z.max 0 o in
    credit s' + granted + dv_target_delta s' = credit s + dv_target_delta s + n /\
    credit s' + granted + dv_bus_delta s' = credit s + dv_bus_delta s /\ credit s <= credit s' /\
    (credit s < credit s' -> credit s' + granted <= HTT_MAX_BUS_CREDIT)) /\
  (exists o s', send_complete_credit s = Some (o, s') /\ let granted := Z.max 0 o in
    credit s' = credit s /\ granted + dv_target_delta s' = dv_target_delta s /\ granted + dv_bus_delta s' = dv_bus_delta s + 1).
Proof.
  intros Hf Hs Hn Hi. split.
  - do 2 eexists. split; [by apply credit_update_credit_run|].
    unfold with_credit, credit, set_dv_bus_delta, set_dv_target_delta, set_dv_tx, set_pd_target_tx_credit. cbn. fold (credit s).
    set (td := dv_target_delta s + n) in *. set (bd := dv_bus_delta s). unfold surplus, HTT_MAX_BUS_CREDIT.
    destruct (Z.ltb_spec (credit s + Z.max 0 (Z.min td bd)) 33); unfold td; lia.
  - do 2 eexists. split; [by apply send_complete_credit_run|].
    unfold with_credit, credit, set_dv_bus_delta, set_dv_target_delta, set_dv_tx, set_pd_target_tx_credit. cbn. lia.
Qed.

(** The example with [tx_free_at_download] and some balances. *)
Definition ex_credit (td bd : Z) : tx_device := set_dv_free_at_download (fun _ => true) (set_dv_target_delta (fun _ => td) (set_dv_bus_delta (fun _ => bd) ex_dev)).

Lemma ex_credit_small td bd : - 1000 <= td <= 1000 -> - 1000 <= bd <= 1000 -> small_credit (ex_credit td bd).
Proof.
  intros. assert (E : credit (ex_credit td bd) = 40) by (by vm_compute). constructor.
  - rewrite E. lia.
  - change (dv_target_delta (ex_credit td bd)) with td. unfold MAX_TARGET_TX_CREDIT. lia.
  - change (dv_bus_delta (ex_credit td bd)) with bd. lia.
Qed.

Lemma htt_credit_conserved_witness :
  (exists o s', credit_update_credit 20 (ex_credit 3 9) = Some (Some o, s') /\ let granted := Z.max 0 o in
    credit s' + granted + dv_target_delta s' = credit (ex_credit 3 9) + dv_target_delta (ex_credit 3 9) + 20 /\
    credit s' + granted + dv_bus_delta s' = credit (ex_credit 3 9) + dv_bus_delta (ex_credit 3 9) /\ credit (ex_credit 3 9) <= credit s' /\
    (credit (ex_credit 3 9) < credit s' -> credit s' + granted <= HTT_MAX_BUS_CREDIT)) /\
  (exists o s', send_complete_credit (ex_credit 3 9) = Some (o, s') /\ let granted := Z.max 0 o in
    credit s' = credit (ex_credit 3 9) /\ granted + dv_target_delta s' = dv_target_delta (ex_credit 3 9) /\
    granted + dv_bus_delta s' = dv_bus_delta (ex_credit 3 9) + 1).
Proof. apply (htt_credit_conserved (ex_credit 3 9) 20); [done|apply ex_credit_small; lia|lia|done]. Defined.

(** The completion message is not conservative: when the target's balance or
    the bus is below zero, the negative difference is added to the scheduler's
    credit although neither balance gives it back, so a message that grants [n]
    takes credit away. *)
Theorem tx_compl_credit_drains s n :
  dv_free_at_download s = true -> small_credit s -> 0 <= n < 256 -> invalid_credit (dv_target_delta s) n = false ->
  dv_target_delta s + n < 0 \/ dv_bus_delta s < 0 ->
  exists s', tx_compl_credit n s = Some (tt, s') /\ credit s' < credit s /\ dv_target_delta s' = dv_target_delta s + n /\
    dv_bus_delta s' = dv_bus_delta s.
Proof.
  intros Hf Hs Hn Hi Hneg. eexists. split; [by apply tx_compl_credit_run|].
  unfold with_credit, credit, set_dv_bus_delta, set_dv_target_delta, set_dv_tx, set_pd_target_tx_credit. cbn. lia.
Qed.

Lemma tx_compl_credit_drains_witness :
  exists s', tx_compl_credit 2 (ex_credit 10 (-6)) = Some (tt, s') /\ credit s' < credit (ex_credit 10 (-6)) /\
    dv_target_delta s' = dv_target_delta (ex_credit 10 (-6)) + 2 /\ dv_bus_delta s' = dv_bus_delta (ex_credit 10 (-6)).
Proof. apply (tx_compl_credit_drains (ex_credit 10 (-6)) 2); [done|apply ex_credit_small; lia|lia|done|right; done]. Defined.

(** ** [tx_free_at_download] *)

(** With [tx_free_at_download] the end of a download frees a data frame whose
    answer the target owes and counts its descriptor back; but when the download
    failed, [ol_tx_download_done_base] has freed it before, and it is freed again:
    the link of the free list is taken for the buffer. *)
Theorem ol_tx_download_done_hl_free_correct `{HttTx} s fl L B dl tgt drift i d msdu :
  Books s fl L B dl tgt drift -> i ∈ dl -> i ∈ tgt -> znth (dv_pool s) i = Some d -> is_data_frame d ->
  (exists s', ol_tx_download_done_hl_free true msdu i s = Some (tt, s') /\ Books s' (i :: fl) L B (dl ∖ {[i]}) (tgt ∖ {[i]}) drift) /\
  ol_tx_download_done_hl_free false msdu i s = None.
Proof.
  intros HB Hdl Htg Hi Hdf. split.
  - pose proof (ol_tx_download_done_hl_free_spec s fl L B dl tgt drift i d msdu HB Hdl Htg Hi Hdf) as Hw.
    apply wp_some in Hw as ([] & s' & Hrun & HB'). by exists s'.
  - by eapply ol_tx_download_done_hl_free_twice.
Qed.

Definition ex_desc1 : desc := default (mk_desc (TdNext None) 0 0 3 0 None) (znth (dv_pool ex_sent.1.1) 1).

Lemma ol_tx_download_done_hl_free_correct_witness :
  exists fl drift, Books ex_sent.1.1 fl [] [] ex_sent.1.2 ex_sent.2 drift /\
  (exists s', ol_tx_download_done_hl_free true (ex_frame 1) 1 ex_sent.1.1 = Some (tt, s') /\
    Books s' (1 :: fl) [] [] (ex_sent.1.2 ∖ {[1]}) (ex_sent.2 ∖ {[1]}) drift) /\
  ol_tx_download_done_hl_free false (ex_frame 1) 1 ex_sent.1.1 = None.
Proof.
  destruct ex_sent_books as (fl & drift & HB). exists fl, drift. split; [exact HB|].
  apply (@ol_tx_download_done_hl_free_correct ex_tx ex_sent.1.1 fl [] [] ex_sent.1.2 ex_sent.2 drift 1 ex_desc1); [exact HB|..].
  - apply (bool_decide_unpack (1 ∈ ex_sent.1.2)). by vm_compute.
  - apply (bool_decide_unpack (1 ∈ ex_sent.2)). by vm_compute.
  - by vm_compute.
  - by split; vm_compute.
Defined.
