(* ===== verification/TxClassify.v ===== *)
(** The classification of transmit frames ([ol_tx_classify.c]): the header of a
    frame gives its TID and its ether type, its destination and the vdev give the
    peer, and these together the queue it waits in.  The peer comes with a
    reference that the caller drops. *)
From Stdlib Require Import ZArith Lia.
From stdpp Require Import prelude gmap list numbers.
From S2P Require Import Prelude.
From S2P Require Import TxTypes.
From S2P Require Import PeerTypes.
From S2P Require Import PeerTable.

(** ** Constants *)
Definition HTT_TX_EXT_TID_INVALID : Z := 31.
Definition HTT_NON_QOS_TID : Z := 16.
Definition ADF_NBUF_TX_EXT_TID_INVALID : Z := 0x1f.
Definition HTT_INVALID_PEER_ID : Z := 0xffff.
Definition TX_DHCP_TID : Z := 6.
Definition TX_EAPOL_TID : Z := 6.
Definition TX_ARP_TID : Z := 6.
Definition TX_DEFAULT_TID : Z := 0.

Definition ETHERTYPE_IPV4 : Z := 0x0800.
Definition ETHERTYPE_ARP : Z := 0x0806.
Definition ETHERTYPE_VLAN : Z := 0x8100.
Definition ETHERTYPE_IPV6 : Z := 0x86DD.
Definition ETHERTYPE_PAE : Z := 0x888E.
Definition ETHERTYPE_WAI : Z := 0x88B4.
Definition IS_ETHERTYPE (typeorlength : Z) : bool := 0x0600 <=? typeorlength.
Definition ETHERTYPE_IS_EAPOL_WAPI (t : Z) : bool := (t =? ETHERTYPE_PAE) || (t =? ETHERTYPE_WAI).

Definition ETHERNET_ADDR_LEN : Z := 6.
Definition ETHERTYPE_VLAN_LEN : Z := 4.
(** [sizeof] of [ethernet_hdr_t], [llc_snap_hdr_t], [ieee80211_frame] and
    [ieee80211_qosframe], the offset of [ethertype] in the second, and of
    [i_addr1] and [i_qos] in the others. *)
Definition ethernet_hdr_size : Z := 14.
Definition llc_snap_hdr_size : Z := 8.
Definition llc_ethertype : Z := 6.
Definition ieee80211_frame_size : Z := 24.
Definition ieee80211_qosframe_size : Z := 26.
Definition i_addr1 : Z := 4.
Definition i_qos : Z := 24.

Definition IEEE80211_FC0_TYPE_MASK : Z := 0x0c.
Definition IEEE80211_FC0_TYPE_DATA : Z := 0x08.
Definition IEEE80211_FC0_SUBTYPE_QOS : Z := 0x80.
Definition IEEE80211_QOS_TID : Z := 0x0f.

Definition htt_pkt_type_raw : Z := 0.
Definition htt_pkt_type_native_wifi : Z := 1.
Definition htt_pkt_type_ethernet : Z := 2.

(** ** Frames

    The bytes of the buffer from the start of the frame on, [skb->priority], and
    whether [adf_nbuf_get_fwd_flag] is [ADF_NBUF_FWD_FLAG]: the frame is one that
    an AP forwards.  A read behind the end of the buffer is a fault. *)
Record frame := mk_frame {
  fr_data : list Z;
  fr_priority : Z;
  fr_fwd : bool }.

Inductive wlan_frm_fmt := wlan_frm_fmt_unknown | wlan_frm_fmt_raw | wlan_frm_fmt_native_wifi | wlan_frm_fmt_802_3.
#[export] Instance wlan_frm_fmt_eq_dec : EqDecision wlan_frm_fmt.
Proof. solve_decision. Defined.

(** [pdev->frame_format] and the build option [ATH_SUPPORT_WAPI]. *)
Record tx_cfg := mk_tx_cfg {
  cfg_frame_format : wlan_frm_fmt;
  cfg_wapi : bool }.

(** [pdev->htt_pkt_type], as [ol_txrx_pdev_attach] sets it. *)
Definition htt_pkt_type_of (fmt : wlan_frm_fmt) : Z :=
  match fmt with
  | wlan_frm_fmt_native_wifi => htt_pkt_type_native_wifi
  | wlan_frm_fmt_802_3 => htt_pkt_type_ethernet
  | _ => htt_pkt_type_raw
  end.

(** The fields of [struct ol_txrx_msdu_info_t] the classification reads or
    writes. *)
Record tx_msdu_info := mk_tx_msdu_info {
  ti_peer : option Z;
  ti_ext_tid : Z;
  ti_is_unicast : bool;
  ti_peer_id : Z;
  ti_ethertype : Z;
  ti_l3_hdr_offset : Z;
  ti_l2_hdr_type : Z;
  ti_do_encrypt : bool }.
Definition set_ti_peer (f : option Z -> option Z) (s : tx_msdu_info) : tx_msdu_info :=
  {| ti_peer := f (ti_peer s); ti_ext_tid := ti_ext_tid s; ti_is_unicast := ti_is_unicast s;
     ti_peer_id := ti_peer_id s; ti_ethertype := ti_ethertype s; ti_l3_hdr_offset :=
     ti_l3_hdr_offset s; ti_l2_hdr_type := ti_l2_hdr_type s; ti_do_encrypt := ti_do_encrypt s |}.
Definition set_ti_ext_tid (f : Z -> Z) (s : tx_msdu_info) : tx_msdu_info :=
  {| ti_peer := ti_peer s; ti_ext_tid := f (ti_ext_tid s); ti_is_unicast := ti_is_unicast s;
     ti_peer_id := ti_peer_id s; ti_ethertype := ti_ethertype s; ti_l3_hdr_offset :=
     ti_l3_hdr_offset s; ti_l2_hdr_type := ti_l2_hdr_type s; ti_do_encrypt := ti_do_encrypt s |}.
Definition set_ti_is_unicast (f : bool -> bool) (s : tx_msdu_info) : tx_msdu_info :=
  {| ti_peer := ti_peer s; ti_ext_tid := ti_ext_tid s; ti_is_unicast := f (ti_is_unicast s);
     ti_peer_id := ti_peer_id s; ti_ethertype := ti_ethertype s; ti_l3_hdr_offset :=
     ti_l3_hdr_offset s; ti_l2_hdr_type := ti_l2_hdr_type s; ti_do_encrypt := ti_do_encrypt s |}.
Definition set_ti_peer_id (f : Z -> Z) (s : tx_msdu_info) : tx_msdu_info :=
  {| ti_peer := ti_peer s; ti_ext_tid := ti_ext_tid s; ti_is_unicast := ti_is_unicast s;
     ti_peer_id := f (ti_peer_id s); ti_ethertype := ti_ethertype s; ti_l3_hdr_offset :=
     ti_l3_hdr_offset s; ti_l2_hdr_type := ti_l2_hdr_type s; ti_do_encrypt := ti_do_encrypt s |}.
Definition set_ti_ethertype (f : Z -> Z) (s : tx_msdu_info) : tx_msdu_info :=
  {| ti_peer := ti_peer s; ti_ext_tid := ti_ext_tid s; ti_is_unicast := ti_is_unicast s;
     ti_peer_id := ti_peer_id s; ti_ethertype := f (ti_ethertype s); ti_l3_hdr_offset :=
     ti_l3_hdr_offset s; ti_l2_hdr_type := ti_l2_hdr_type s; ti_do_encrypt := ti_do_encrypt s |}.
Definition set_ti_l3_hdr_offset (f : Z -> Z) (s : tx_msdu_info) : tx_msdu_info :=
  {| ti_peer := ti_peer s; ti_ext_tid := ti_ext_tid s; ti_is_unicast := ti_is_unicast s;
     ti_peer_id := ti_peer_id s; ti_ethertype := ti_ethertype s; ti_l3_hdr_offset := f
     (ti_l3_hdr_offset s); ti_l2_hdr_type := ti_l2_hdr_type s; ti_do_encrypt := ti_do_encrypt s
     |}.
Definition set_ti_l2_hdr_type (f : Z -> Z) (s : tx_msdu_info) : tx_msdu_info :=
  {| ti_peer := ti_peer s; ti_ext_tid := ti_ext_tid s; ti_is_unicast := ti_is_unicast s;
     ti_peer_id := ti_peer_id s; ti_ethertype := ti_ethertype s; ti_l3_hdr_offset :=
     ti_l3_hdr_offset s; ti_l2_hdr_type := f (ti_l2_hdr_type s); ti_do_encrypt := ti_do_encrypt s
     |}.
Definition set_ti_do_encrypt (f : bool -> bool) (s : tx_msdu_info) : tx_msdu_info :=
  {| ti_peer := ti_peer s; ti_ext_tid := ti_ext_tid s; ti_is_unicast := ti_is_unicast s;
     ti_peer_id := ti_peer_id s; ti_ethertype := ti_ethertype s; ti_l3_hdr_offset :=
     ti_l3_hdr_offset s; ti_l2_hdr_type := ti_l2_hdr_type s; ti_do_encrypt := f (ti_do_encrypt s)
     |}.

(** ** The header of a frame *)
Definition rd8 (f : frame) (i : Z) : option Z := znth (fr_data f) i.

(** [(p[0] << 8) | p[1]]. *)
Definition rd16 (f : frame) (i : Z) : option Z :=
  hi ← rd8 f i; lo ← rd8 f (i + 1); Some (Z.lor (Z.shiftl hi 8) lo).

Definition rd32 (f : frame) (i : Z) : option Z :=
  hi ← rd16 f i; lo ← rd16 f (i + 2); Some (Z.lor (Z.shiftl hi 16) lo).

(** A MAC address as the host's little-endian words. *)
Definition rd_mac (f : frame) (i : Z) : option mac_addr :=
  let word k := lo ← rd8 f k; hi ← rd8 f (k + 1); Some (Z.lor lo (Z.shiftl hi 8)) in
  ab ← word i; cd ← word (i + 2); ef ← word (i + 4); Some (mk_mac_addr ab cd ef).

Definition IEEE80211_IS_MULTICAST (a0 : Z) : bool := negb (Z.land a0 0x01 =? 0).

(** Where the destination address is. *)
Definition ol_tx_dest_addr_find (fmt : wlan_frm_fmt) : option Z :=
  match fmt with
  | wlan_frm_fmt_raw | wlan_frm_fmt_native_wifi => Some i_addr1
  | wlan_frm_fmt_802_3 => Some 0
  | wlan_frm_fmt_unknown => None
  end.

(** The ports are read where they are in an IPv4 packet without options in an
    Ethernet frame. *)
Definition ADF_NBUF_TRAC_IPV4_OFFSET : Z := 14.
Definition ADF_NBUF_TRAC_IPV4_HEADER_SIZE : Z := 20.
Definition ADF_NBUF_TRAC_DHCP_SRV_PORT : Z := 67.
Definition ADF_NBUF_TRAC_DHCP_CLI_PORT : Z := 68.
Definition adf_nbuf_is_dhcp_pkt (f : frame) : option bool :=
  SPort ← rd16 f (ADF_NBUF_TRAC_IPV4_OFFSET + ADF_NBUF_TRAC_IPV4_HEADER_SIZE);
  DPort ← rd16 f (ADF_NBUF_TRAC_IPV4_OFFSET + ADF_NBUF_TRAC_IPV4_HEADER_SIZE + 2);
  Some (((ADF_NBUF_TRAC_DHCP_SRV_PORT =? SPort) && (ADF_NBUF_TRAC_DHCP_CLI_PORT =? DPort)) ||
        ((ADF_NBUF_TRAC_DHCP_CLI_PORT =? SPort) && (ADF_NBUF_TRAC_DHCP_SRV_PORT =? DPort))).

Definition ol_tx_tid_by_ipv4 (f : frame) (pkt : Z) : option Z :=
  tos ← rd8 f (pkt + 1);
  let ipPri := Z.shiftr tos 5 in
  Some (Z.land ipPri 0x7).

Definition IPV6_HDR_TRAFFIC_CLASS_M : Z := 0x0FF00000.
Definition IPV6_HDR_TRAFFIC_CLASS_S : Z := 20.
Definition IPV6_TRAFFIC_CLASS (ver_tclass_flowlabel : Z) : Z :=
  u8 (Z.shiftr (Z.land ver_tclass_flowlabel IPV6_HDR_TRAFFIC_CLASS_M) IPV6_HDR_TRAFFIC_CLASS_S).
Definition ol_tx_tid_by_ipv6 (f : frame) (pkt : Z) : option Z :=
  w ← rd32 f pkt; Some (Z.land (Z.shiftr (IPV6_TRAFFIC_CLASS w) 5) 0x7).

Definition is_data_frame (fc0 : Z) : bool := Z.land fc0 IEEE80211_FC0_TYPE_MASK =? IEEE80211_FC0_TYPE_DATA.
Definition is_qos_frame (fc0 : Z) : bool := negb (Z.land fc0 IEEE80211_FC0_SUBTYPE_QOS =? 0).

(** A frame that is neither raw nor Ethernet, or a raw one without data, leaves
    the fields as they are. *)
Definition ol_tx_set_ether_type (f : frame) (ti : tx_msdu_info) : option tx_msdu_info :=
  if ti_l2_hdr_type ti =? htt_pkt_type_raw then
    fc0 ← rd8 f 0;
    if is_data_frame fc0 then
      let ti := set_ti_l3_hdr_offset (fun _ => if is_qos_frame fc0 then ieee80211_qosframe_size else ieee80211_frame_size) ti in
      t ← rd16 f (ti_l3_hdr_offset ti + llc_ethertype);
      Some (set_ti_ethertype (fun _ => t) ti)
    else Some ti
  else if ti_l2_hdr_type ti =? htt_pkt_type_ethernet then
    typeorlength ← rd16 f (ETHERNET_ADDR_LEN * 2);
    let l3_data_ptr := ethernet_hdr_size in
    '(typeorlength, l3_data_ptr) ←
      (if typeorlength =? ETHERTYPE_VLAN then
         t ← rd16 f (ETHERNET_ADDR_LEN * 2 + ETHERTYPE_VLAN_LEN); Some (t, l3_data_ptr + ETHERTYPE_VLAN_LEN)
       else Some (typeorlength, l3_data_ptr));
    '(typeorlength, l3_data_ptr) ←
      (if negb (IS_ETHERTYPE typeorlength) then
         t ← rd16 f (l3_data_ptr + llc_ethertype); Some (t, l3_data_ptr + llc_snap_hdr_size)
       else Some (typeorlength, l3_data_ptr));
    Some (set_ti_ethertype (fun _ => typeorlength) (set_ti_l3_hdr_offset (fun _ => u8 l3_data_ptr) ti))
  else Some ti.

Definition ol_tx_tid_by_ether_type (f : frame) (ti : tx_msdu_info) : option Z :=
  let l3_data_ptr := ti_l3_hdr_offset ti in
  let typeorlength := ti_ethertype ti in
  if typeorlength =? ETHERTYPE_IPV4 then ol_tx_tid_by_ipv4 f l3_data_ptr
  else if typeorlength =? ETHERTYPE_IPV6 then ol_tx_tid_by_ipv6 f l3_data_ptr
  else if ETHERTYPE_IS_EAPOL_WAPI typeorlength then Some TX_EAPOL_TID
  else if typeorlength =? ETHERTYPE_ARP then Some TX_ARP_TID
  else Some TX_DEFAULT_TID.

Definition ol_tx_tid_by_raw_type (f : frame) : option Z :=
  fc0 ← rd8 f 0;
  if is_data_frame fc0 then
    if is_qos_frame fc0 then q ← rd8 f i_qos; Some (Z.land q IEEE80211_QOS_TID) else Some HTT_NON_QOS_TID
  else Some HTT_TX_EXT_TID_NON_QOS_MCAST_BCAST.

(** The TID given from outside, if there is one. *)
Definition ext_tid_or (ti : tx_msdu_info) (o : option Z) : option Z :=
  if ti_ext_tid ti =? ADF_NBUF_TX_EXT_TID_INVALID then o else Some (ti_ext_tid ti).

Definition ol_tx_tid (fmt : wlan_frm_fmt) (f : frame) (ti : tx_msdu_info) : option (Z * tx_msdu_info) :=
  match fmt with
  | wlan_frm_fmt_raw =>
    ti ← ol_tx_set_ether_type f (set_ti_l2_hdr_type (fun _ => htt_pkt_type_raw) ti);
    tid ← ext_tid_or ti (ol_tx_tid_by_raw_type f); Some (tid, ti)
  | wlan_frm_fmt_802_3 =>
    ti ← ol_tx_set_ether_type f (set_ti_l2_hdr_type (fun _ => htt_pkt_type_ethernet) ti);
    tid ← ext_tid_or ti (ol_tx_tid_by_ether_type f ti); Some (tid, ti)
  | wlan_frm_fmt_native_wifi =>
    t ← rd16 f (ieee80211_frame_size + llc_ethertype);
    let ti := set_ti_ethertype (fun _ => t) (set_ti_l3_hdr_offset (fun _ => ieee80211_frame_size)
      (set_ti_l2_hdr_type (fun _ => htt_pkt_type_native_wifi) ti)) in
    Some (ti_ext_tid ti, ti)
  | wlan_frm_fmt_unknown => Some (HTT_TX_EXT_TID_INVALID, ti)
  end.

Section Classify.
Context {D : Type} `{DataPath D}.
Notation MP := (M (peer_pdev D)).
Notation result := (option txq_id * tx_msdu_info)%type.

(** [peer->peer_ids[0]]. *)
Definition first_id (x : peer) : MP Z := lift (znth (pe_peer_ids x) 0).

(** ** Data frames *)

(** Both branches end here.  The self peer of an AP was only looked up. *)
Definition classify_end (mcast : bool) (op_mode : wlan_op_mode) (q : txq_id) (p : option Z) (ti : tx_msdu_info) : MP result :=
  let ti := set_ti_peer (fun _ => p) ti in
  match p with
  | Some p =>
    if mcast && negb (bool_decide (op_mode = wlan_op_mode_sta)) then
      ol_txrx_peer_unref_delete p;; mret (Some q, set_ti_peer (fun _ => None) ti)
    else mret (Some q, ti)
  | None => mret (Some q, ti)
  end.

(** [mcast] is false for a unicast frame of an OCB vdev. *)
Definition classify_mcast (mcast : bool) (v : Z) (f : frame) (ti : tx_msdu_info) : MP result :=
  y ← get_vdev v;
  let txq := VdevTxq v OL_TX_VDEV_MCAST_BCAST in
  let ti := set_ti_ext_tid (fun _ => HTT_TX_EXT_TID_NON_QOS_MCAST_BCAST) ti in
  match vd_opmode y with
  | wlan_op_mode_sta =>
    peer ← ol_txrx_assoc_peer_find v;
    match peer with
    | None => mret (None, ti)
    | Some p =>
      x ← get_peer p;
      dhcp ← lift (if negb ((pe_sec_type x).1 =? htt_sec_type_wapi) then adf_nbuf_is_dhcp_pkt f else Some false);
      let '(txq, ti) := if (dhcp : bool) then (PeerTxq p TX_DHCP_TID, set_ti_ext_tid (fun _ => TX_DHCP_TID) ti) else (txq, ti) in
      id ← first_id x;
      classify_end mcast (vd_opmode y) txq (Some p) (set_ti_is_unicast (fun _ => false) (set_ti_peer_id (fun _ => id) ti))
    end
  | wlan_op_mode_ocb =>
    classify_end mcast (vd_opmode y) txq None (set_ti_is_unicast (fun _ => false) (set_ti_peer_id (fun _ => HTT_INVALID_PEER_ID) ti))
  | _ =>
    let ti := set_ti_peer_id (fun _ => HTT_INVALID_PEER_ID) ti in
    peer ← ol_txrx_peer_find_hash_find (vd_mac y) true;
    match peer with
    | None => mret (None, ti)
    | Some p => classify_end mcast (vd_opmode y) txq (Some p) (set_ti_is_unicast (fun _ => false) ti)
    end
  end.

(** [tdls] is [vdev->hl_tdls_ap_mac_addr] when [vdev->hlTdlsFlag] is set, which
    it is for the time of one call. *)
Definition tdls_peer (tdls : option mac_addr) : MP (option Z) :=
  match tdls with
  | None => mret None
  | Some mac =>
    r ← ol_txrx_find_peer_by_addr mac;
    match r with
    | None => mret None
    | Some (p, _) =>
      x ← get_peer p; id ← first_id x;
      if id =? HTT_INVALID_PEER_ID then mret None else ref_inc p;; mret (Some p)
    end
  end.

Definition ucast_peer (tdls : option mac_addr) (v : Z) (op_mode : wlan_op_mode) (dest_addr : mac_addr) : MP (option Z) :=
  match op_mode with
  | wlan_op_mode_sta =>
    peer ← tdls_peer tdls;
    match peer with Some p => mret (Some p) | None => ol_txrx_assoc_peer_find v end
  | _ => ol_txrx_peer_find_hash_find dest_addr true
  end.

(** The TID when the peer is known. *)
Definition peer_tid (x : peer) (f : frame) (tid : Z) : option Z :=
  if negb (fr_fwd f) && negb (pe_qos_capable x) then Some OL_TX_NON_QOS_TID
  else if negb ((pe_sec_type x).2 =? htt_sec_type_wapi) then
    dhcp ← adf_nbuf_is_dhcp_pkt f; Some (if (dhcp : bool) then TX_DHCP_TID else tid)
  else Some tid.

Definition classify_ucast (cfg : tx_cfg) (tdls : option mac_addr) (v : Z) (dest_addr : mac_addr) (f : frame) (ti : tx_msdu_info) : MP result :=
  '(tid, ti) ← lift (ol_tx_tid (cfg_frame_format cfg) f ti);
  if (tid =? HTT_TX_EXT_TID_INVALID) || (OL_TX_NUM_TIDS <=? tid) then mret (None, ti) else
  let ti := if cfg_wapi cfg && (ti_ethertype ti =? ETHERTYPE_WAI) then set_ti_do_encrypt (fun _ => false) ti else ti in
  y ← get_vdev v;
  peer ← ucast_peer tdls v (vd_opmode y) dest_addr;
  let ti := set_ti_is_unicast (fun _ => true) ti in
  match peer with
  | None => mret (None, ti)
  | Some p =>
    x ← get_peer p;
    tid ← lift (peer_tid x f tid);
    let ti := if bool_decide (pe_state x = ol_txrx_peer_state_auth) then ti else set_ti_do_encrypt (fun _ => false) ti in
    id ← first_id x;
    let ti := set_ti_peer_id (fun _ => id) (set_ti_ext_tid (fun _ => tid) ti) in
    if id =? HTT_INVALID_PEER_ID then ol_txrx_peer_unref_delete p;; mret (None, set_ti_peer (fun _ => None) ti)
    else classify_end false (vd_opmode y) (PeerTxq p tid) (Some p) ti
  end.

(** The queue, or [None] when the frame is to be dropped. *)
Definition ol_tx_classify (cfg : tx_cfg) (tdls : option mac_addr) (v : Z) (f : frame) (ti : tx_msdu_info) : MP result :=
  match ol_tx_dest_addr_find (cfg_frame_format cfg) with
  | None => mret (None, ti)
  | Some dest =>
    a0 ← lift (rd8 f dest);
    y ← get_vdev v;
    if IEEE80211_IS_MULTICAST a0 || bool_decide (vd_opmode y = wlan_op_mode_ocb) then
      classify_mcast (IEEE80211_IS_MULTICAST a0) v f ti
    else
      dest_addr ← lift (rd_mac f dest);
      classify_ucast cfg tdls v dest_addr f ti
  end.

(** ** Management frames *)
Definition mgmt_peer (v : Z) (op_mode : wlan_op_mode) (dest_addr : mac_addr) : MP (option Z) :=
  match op_mode with
  | wlan_op_mode_sta =>
    peer ← ol_txrx_assoc_peer_find v;
    match peer with
    | None => mret None
    | Some p =>
      x ← get_peer p;
      if ol_txrx_peer_find_mac_addr_cmp dest_addr (pe_mac x) then ref_dec p;; mret None else mret (Some p)
    end
  | _ => ol_txrx_peer_find_hash_find dest_addr true
  end.

Definition ol_tx_classify_mgmt (cfg : tx_cfg) (v : Z) (f : frame) (ti : tx_msdu_info) : MP result :=
  match ol_tx_dest_addr_find (cfg_frame_format cfg) with
  | None => mret (None, ti)
  | Some dest =>
    a0 ← lift (rd8 f dest);
    y ← get_vdev v;
    let mgmtq := VdevTxq v OL_TX_VDEV_DEFAULT_MGMT in
    if IEEE80211_IS_MULTICAST a0 then
      mret (Some mgmtq, set_ti_is_unicast (fun _ => false) (set_ti_peer (fun _ => None) (set_ti_peer_id (fun _ => HTT_INVALID_PEER_ID) ti)))
    else
      dest_addr ← lift (rd_mac f dest);
      peer ← mgmt_peer v (vd_opmode y) dest_addr;
      let ti := set_ti_peer (fun _ => peer) ti in
      match peer with
      | None => mret (Some mgmtq, set_ti_is_unicast (fun _ => true) (set_ti_peer_id (fun _ => HTT_INVALID_PEER_ID) ti))
      | Some p =>
        x ← get_peer p; id ← first_id x;
        mret (Some (PeerTxq p HTT_TX_EXT_TID_MGMT),
          set_ti_is_unicast (fun _ => true) (set_ti_peer_id (fun _ => id) (set_ti_ext_tid (fun _ => HTT_TX_EXT_TID_MGMT) ti)))
      end
  end.

(** ** The state of the peer ([ol_tx_hl_base])

    Nothing passes before the association, and only the frames of the
    authentication before that has ended.  A frame without a peer passes. *)
Definition tx_peer_permits (ti : tx_msdu_info) : MP bool :=
  match ti_peer ti with
  | None => mret true
  | Some p =>
    x ← get_peer p;
    mret (match pe_state x with
          | ol_txrx_peer_state_disc => false
          | ol_txrx_peer_state_auth => true
          | _ => ETHERTYPE_IS_EAPOL_WAPI (ti_ethertype ti)
          end)
  end.
End Classify.
