(* ===== verification/TxClassifySpec.v ===== *)
(** What the classification of a frame leads to: it reads inside the frame, takes
    one reference to the peer it returns, and the queue is one of that peer or of
    the vdev, known to the scheduler by the TID of the frame. *)
From Stdlib Require Import ZArith Lia.
From stdpp Require Import prelude gmap list numbers gmultiset.
From S2P Require Import Prelude.
From S2P Require Import TxTypes.
From S2P Require Import TxQueue.
From S2P Require Import TxInv.
From S2P Require Import PeerTypes.
From S2P Require Import PeerTable.
From S2P Require Import PeerRep.
From S2P Require Import PeerSpec.
From S2P Require Import PeerInv.
From S2P Require Import PeerOps.
From S2P Require Import PeerVdev.
From S2P Require Import PeerSafe.
From S2P Require Import TxClassify.

(** ** Reading a frame *)

(** The reads of the classification end before byte 38. *)
Definition frame_ok (f : frame) : Prop := 38 <= zlen (fr_data f) /\ Forall (fun b => 0 <= b < 256) (fr_data f).

Section Reads.
Context (f : frame) (Hf : frame_ok f).

Lemma rd8_ok i : 0 <= i < 38 -> exists b, rd8 f i = Some b /\ 0 <= b < 256.
Proof.
  intros Hi. destruct Hf as [Hl Hb]. destruct (znth_in_range (fr_data f) i) as [b E]; [lia|]. exists b. split; [done|].
  rewrite list.Forall_forall in Hb. by apply Hb, (znth_elem_of _ i).
Qed.

Lemma word_ok lo hi : 0 <= lo < 256 -> 0 <= hi < 256 -> 0 <= Z.lor lo (Z.shiftl hi 8) < 65536.
Proof. intros. rewrite (lor_add _ _ 8) by lia. lia. Qed.

Lemma rd16_ok i : 0 <= i < 37 -> exists w, rd16 f i = Some w /\ 0 <= w < 65536.
Proof.
  intros Hi. unfold rd16. destruct (rd8_ok i ltac:(lia)) as (hi & -> & Hh). destruct (rd8_ok (i + 1) ltac:(lia)) as (lo & -> & Hlo).
  cbn. eexists. split; [done|]. rewrite Z.lor_comm. by apply word_ok.
Qed.

Lemma rd32_ok i : 0 <= i < 35 -> exists w, rd32 f i = Some w.
Proof.
  intros Hi. unfold rd32. destruct (rd16_ok i ltac:(lia)) as (hi & -> & _). destruct (rd16_ok (i + 2) ltac:(lia)) as (lo & -> & _). cbn. eauto.
Qed.

Lemma rd_mac_ok i : 0 <= i < 33 -> exists m, rd_mac f i = Some m /\ mac_ok m.
Proof.
  intros Hi. unfold rd_mac.
  destruct (rd8_ok i ltac:(lia)) as (a & -> & Ha). destruct (rd8_ok (i + 1) ltac:(lia)) as (b & -> & Hb).
  destruct (rd8_ok (i + 2) ltac:(lia)) as (c & -> & Hc). destruct (rd8_ok (i + 2 + 1) ltac:(lia)) as (d & -> & Hd).
  destruct (rd8_ok (i + 4) ltac:(lia)) as (e & -> & He). destruct (rd8_ok (i + 4 + 1) ltac:(lia)) as (g & -> & Hg).
  cbn. eexists. split; [done|]. split_and!; cbn; by apply word_ok.
Qed.

Lemma dhcp_ok : exists b, adf_nbuf_is_dhcp_pkt f = Some b.
Proof.
  unfold adf_nbuf_is_dhcp_pkt. destruct (rd16_ok (ADF_NBUF_TRAC_IPV4_OFFSET + ADF_NBUF_TRAC_IPV4_HEADER_SIZE) ltac:(done)) as (x & -> & _).
  destruct (rd16_ok (ADF_NBUF_TRAC_IPV4_OFFSET + ADF_NBUF_TRAC_IPV4_HEADER_SIZE + 2) ltac:(done)) as (y & -> & _). cbn. eauto.
Qed.

(** What the parts of [ol_tx_tid] leave alone. *)
Definition same_target (ti ti' : tx_msdu_info) : Prop := ti_peer ti' = ti_peer ti /\ ti_ext_tid ti' = ti_ext_tid ti.

(** The payload of an Ethernet or raw frame begins in its first 26 bytes. *)
Lemma set_ether_type_ok ti :
  exists ti', ol_tx_set_ether_type f ti = Some ti' /\ same_target ti ti' /\
    (ti_l2_hdr_type ti = htt_pkt_type_ethernet -> 14 <= ti_l3_hdr_offset ti' <= 26).
Proof.
  unfold ol_tx_set_ether_type. destruct (Z.eqb_spec (ti_l2_hdr_type ti) htt_pkt_type_raw) as [E|E].
  - destruct (rd8_ok 0 ltac:(lia)) as (fc0 & -> & _). cbn [mbind option_bind]. destruct (is_data_frame fc0).
    + destruct (rd16_ok ((if is_qos_frame fc0 then ieee80211_qosframe_size else ieee80211_frame_size) + llc_ethertype)) as (w & Hw & _); [by destruct (is_qos_frame fc0)|].
      cbn [ti_l3_hdr_offset set_ti_l3_hdr_offset]. rewrite Hw. eexists. split; [done|]. split; [done|]. by rewrite E.
    + eexists. split; [done|]. split; [done|]. by rewrite E.
  - destruct (Z.eqb_spec (ti_l2_hdr_type ti) htt_pkt_type_ethernet) as [E'|E']; [|eexists; by split_and!].
    destruct (rd16_ok (ETHERNET_ADDR_LEN * 2) ltac:(done)) as (t0 & -> & _). cbn [mbind option_bind].
    assert (exists t1 o1, (if t0 =? ETHERTYPE_VLAN then t ← rd16 f (ETHERNET_ADDR_LEN * 2 + ETHERTYPE_VLAN_LEN); Some (t, ethernet_hdr_size + ETHERTYPE_VLAN_LEN)
      else Some (t0, ethernet_hdr_size)) = Some (t1, o1) /\ 14 <= o1 <= 18) as (t1 & o1 & -> & Ho1).
    { destruct (t0 =? ETHERTYPE_VLAN); [|by eexists _, _].
      destruct (rd16_ok (ETHERNET_ADDR_LEN * 2 + ETHERTYPE_VLAN_LEN) ltac:(done)) as (t1 & -> & _). by eexists _, _. }
    cbn [mbind option_bind].
    assert (exists t2 o2, (if negb (IS_ETHERTYPE t1) then t ← rd16 f (o1 + llc_ethertype); Some (t, o1 + llc_snap_hdr_size) else Some (t1, o1)) = Some (t2, o2)
      /\ 14 <= o2 <= 26) as (t2 & o2 & -> & Ho2).
    { destruct (IS_ETHERTYPE t1); cbn [negb]; [eexists _, _; split; [done|lia]|].
      destruct (rd16_ok (o1 + llc_ethertype) ltac:(unfold llc_ethertype; lia)) as (t2 & -> & _). eexists _, _. split; [done|]. unfold llc_snap_hdr_size. lia. }
    cbn [mbind option_bind]. eexists. split; [done|]. split; [done|]. intros _. cbn. rewrite u8_small by lia. done.
Qed.

Lemma tid_by_ether_type_ok ti : 14 <= ti_l3_hdr_offset ti <= 26 -> exists tid, ol_tx_tid_by_ether_type f ti = Some tid /\ 0 <= tid < 8.
Proof.
  intros Ho. unfold ol_tx_tid_by_ether_type.
  assert (H7 : forall x, 0 <= Z.land x 0x7 < 8) by (intros x; change 0x7 with (2 ^ 3 - 1); rewrite land_mask by lia; apply Z.mod_pos_bound; lia).
  repeat case_match; try by eexists.
  - unfold ol_tx_tid_by_ipv4. destruct (rd8_ok (ti_l3_hdr_offset ti + 1) ltac:(lia)) as (b & -> & _). cbn. eexists. split; [done|]. apply H7.
  - unfold ol_tx_tid_by_ipv6. destruct (rd32_ok (ti_l3_hdr_offset ti) ltac:(lia)) as (w & ->). cbn. eexists. split; [done|]. apply H7.
Qed.

Lemma tid_by_raw_type_ok : exists tid, ol_tx_tid_by_raw_type f = Some tid /\ 0 <= tid < 18.
Proof.
  unfold ol_tx_tid_by_raw_type. destruct (rd8_ok 0 ltac:(lia)) as (fc0 & -> & _). cbn [mbind option_bind].
  destruct (is_data_frame fc0); [|by eexists]. destruct (is_qos_frame fc0); [|by eexists].
  destruct (rd8_ok i_qos ltac:(done)) as (q & -> & _). cbn. eexists. split; [done|].
  unfold IEEE80211_QOS_TID. change 0x0f with (2 ^ 4 - 1). rewrite land_mask by lia. pose proof (Z.mod_pos_bound q (2 ^ 4) ltac:(lia)). lia.
Qed.

Lemma ol_tx_tid_ok fmt ti :
  0 <= ti_ext_tid ti -> exists tid ti', ol_tx_tid fmt f ti = Some (tid, ti') /\ 0 <= tid /\ same_target ti ti'.
Proof.
  intros He. unfold ol_tx_tid, ext_tid_or. destruct fmt.
  - by eexists _, _.
  - destruct (set_ether_type_ok (set_ti_l2_hdr_type (fun _ => htt_pkt_type_raw) ti)) as (ti' & -> & [E1 E2] & _). cbn [mbind option_bind].
    rewrite E2. cbn [ti_ext_tid set_ti_l2_hdr_type]. case_match; [|by eexists _, _].
    destruct tid_by_raw_type_ok as (tid & -> & Ht). eexists _, _. split; [done|]. split; [lia|done].
  - destruct (rd16_ok (ieee80211_frame_size + llc_ethertype) ltac:(done)) as (w & -> & _). by eexists _, _.
  - destruct (set_ether_type_ok (set_ti_l2_hdr_type (fun _ => htt_pkt_type_ethernet) ti)) as (ti' & -> & [E1 E2] & Ho). cbn [mbind option_bind].
    rewrite E2. cbn [ti_ext_tid set_ti_l2_hdr_type]. case_match; [|by eexists _, _].
    destruct (tid_by_ether_type_ok ti') as (tid & -> & Ht); [by apply Ho|]. eexists _, _. split; [done|]. split; [lia|done].
Qed.

Lemma peer_tid_ok x tid : 0 <= tid < 18 -> exists tid', peer_tid x f tid = Some tid' /\ 0 <= tid' < 18.
Proof.
  intros Ht. unfold peer_tid. case_match; [by eexists|]. case_match; [|by eexists]. destruct dhcp_ok as [b ->]. cbn. destruct b; by eexists.
Qed.
End Reads.

(** ** Ethernet headers

    An Ethernet header as a sender writes it: with or without a VLAN tag (its
    control field), with the type of the payload at its end or in an LLC/SNAP
    header after a length. *)
Record eth_header := mk_eth_header {
  eh_dst : list Z;
  eh_src : list Z;
  eh_vlan : option Z;
  eh_snap : option Z;
  eh_type : Z }.

Definition be16 (w : Z) : list Z := [Z.shiftr w 8; Z.land w 0xff].
Definition eth_bytes (h : eth_header) (payload : list Z) : list Z :=
  eh_dst h ++ eh_src h ++
  match eh_vlan h with Some tci => be16 ETHERTYPE_VLAN ++ be16 tci | None => [] end ++
  match eh_snap h with Some len => be16 len ++ [0xaa; 0xaa; 0x03; 0; 0; 0] | None => [] end ++
  be16 (eh_type h) ++ payload.
Definition eth_hdr_len (h : eth_header) : Z :=
  14 + (if eh_vlan h then 4 else 0) + (if eh_snap h then 8 else 0).

Record eth_header_ok (h : eth_header) : Prop := {
  eo_dst : length (eh_dst h) = 6%nat;
  eo_src : length (eh_src h) = 6%nat;
  eo_type : 0 <= eh_type h < 65536;
  eo_snap : forall len, eh_snap h = Some len -> 0 <= len < 0x600;
  eo_plain : eh_snap h = None -> 0x600 <= eh_type h /\ (eh_vlan h = None -> eh_type h <> ETHERTYPE_VLAN) }.

(** The priority of a payload that the network layer asks for. *)
Definition payload_tid (type : Z) (payload : list Z) : Z :=
  let byte i := nth i payload 0 in
  if type =? ETHERTYPE_IPV4 then byte 1%nat / 32
  else if type =? ETHERTYPE_IPV6 then (byte 0%nat mod 16) / 2
  else if ETHERTYPE_IS_EAPOL_WAPI type then TX_EAPOL_TID
  else if type =? ETHERTYPE_ARP then TX_ARP_TID
  else TX_DEFAULT_TID.

Lemma be16_word w : 0 <= w < 65536 -> Z.lor (Z.shiftl (Z.shiftr w 8) 8) (Z.land w 0xff) = w.
Proof.
  intros Hw. change 0xff with (2 ^ 8 - 1). rewrite land_mask, Z.lor_comm by lia.
  rewrite (lor_add _ _ 8), Z.shiftr_div_pow2 by (lia || apply Z.mod_pos_bound; lia). pose proof (Z.div_mod w (2 ^ 8)). lia.
Qed.

Lemma rd8_at f l b r i : fr_data f = l ++ b :: r -> i = zlen l -> rd8 f i = Some b.
Proof.
  intros Ef ->. unfold rd8. rewrite Ef. pose proof (zlen_nonneg l). rewrite znth_app_r by lia. by rewrite Z.sub_diag.
Qed.
Lemma rd16_at f l w r i : fr_data f = l ++ be16 w ++ r -> i = zlen l -> 0 <= w < 65536 -> rd16 f i = Some w.
Proof.
  intros Ef Hi Hw. unfold rd16. rewrite (rd8_at f l (Z.shiftr w 8) (Z.land w 0xff :: r) i Ef Hi).
  rewrite (rd8_at f (l ++ [Z.shiftr w 8]) (Z.land w 0xff) r (i + 1)); [|by rewrite <- app_assoc|rewrite zlen_app, Hi; done].
  cbn [mbind option_bind]. by rewrite be16_word.
Qed.

Section Ethernet.
Context (h : eth_header) (Hh : eth_header_ok h) (payload : list Z) (f : frame) (Hf : fr_data f = eth_bytes h payload).

Lemma addrs_len : zlen (eh_dst h ++ eh_src h) = 12.
Proof. unfold zlen. rewrite length_app, (eo_dst _ Hh), (eo_src _ Hh). done. Qed.

(** The parser finds the type of the payload and where it begins. *)
Lemma set_ether_type_eth ti :
  ti_l2_hdr_type ti = htt_pkt_type_ethernet ->
  ol_tx_set_ether_type f ti = Some (set_ti_ethertype (fun _ => eh_type h) (set_ti_l3_hdr_offset (fun _ => eth_hdr_len h) ti)).
Proof.
  intros Ht. unfold ol_tx_set_ether_type. rewrite Ht. cbn [Z.eqb htt_pkt_type_ethernet htt_pkt_type_raw Pos.eqb].
  pose proof addrs_len as Hl. destruct Hh as [_ _ Hty Hsn Hpl]. unfold eth_bytes, eth_hdr_len in *.
  set (A := eh_dst h ++ eh_src h) in *. rewrite app_assoc in Hf. fold A in Hf.
  destruct (eh_vlan h) as [tci|] eqn:Ev, (eh_snap h) as [len|] eqn:Es; cbn [app] in Hf; rewrite <- ?app_assoc in Hf.
  - specialize (Hsn len eq_refl). erewrite (rd16_at f A ETHERTYPE_VLAN _ (ETHERNET_ADDR_LEN * 2)); [|exact Hf|by rewrite Hl|done].
    cbn [mbind option_bind]. rewrite Z.eqb_refl.
    erewrite (rd16_at f (A ++ be16 ETHERTYPE_VLAN ++ be16 tci) len _ (ETHERNET_ADDR_LEN * 2 + ETHERTYPE_VLAN_LEN));
      [|rewrite Hf, <- !app_assoc; reflexivity|by rewrite zlen_app, Hl|lia].
    cbn [mbind option_bind]. unfold IS_ETHERTYPE. rewrite (proj2 (Z.leb_gt _ _)) by lia. cbn [negb].
    erewrite (rd16_at f (A ++ be16 ETHERTYPE_VLAN ++ be16 tci ++ be16 len ++ [0xaa; 0xaa; 0x03; 0; 0; 0]) (eh_type h) _ (ethernet_hdr_size + ETHERTYPE_VLAN_LEN + llc_ethertype));
      [|rewrite Hf, <- !app_assoc; reflexivity|by rewrite zlen_app, Hl|lia]. done.
  - destruct (Hpl eq_refl) as [Hge _]. erewrite (rd16_at f A ETHERTYPE_VLAN _ (ETHERNET_ADDR_LEN * 2)); [|exact Hf|by rewrite Hl|done].
    cbn [mbind option_bind]. rewrite Z.eqb_refl.
    erewrite (rd16_at f (A ++ be16 ETHERTYPE_VLAN ++ be16 tci) (eh_type h) _ (ETHERNET_ADDR_LEN * 2 + ETHERTYPE_VLAN_LEN));
      [|rewrite Hf, <- !app_assoc; reflexivity|by rewrite zlen_app, Hl|lia].
    cbn [mbind option_bind]. unfold IS_ETHERTYPE. rewrite (proj2 (Z.leb_le _ _)) by lia. done.
  - specialize (Hsn len eq_refl). erewrite (rd16_at f A len _ (ETHERNET_ADDR_LEN * 2)); [|exact Hf|by rewrite Hl|lia]. cbn [mbind option_bind].
    rewrite (proj2 (Z.eqb_neq len ETHERTYPE_VLAN)) by (unfold ETHERTYPE_VLAN; lia). cbn [mbind option_bind].
    unfold IS_ETHERTYPE. rewrite (proj2 (Z.leb_gt _ _)) by lia. cbn [negb].
    erewrite (rd16_at f (A ++ be16 len ++ [0xaa; 0xaa; 0x03; 0; 0; 0]) (eh_type h) _ (ethernet_hdr_size + llc_ethertype));
      [|rewrite Hf, <- !app_assoc; reflexivity|by rewrite zlen_app, Hl|lia]. done.
  - destruct (Hpl eq_refl) as [Hge Hnv]. erewrite (rd16_at f A (eh_type h) _ (ETHERNET_ADDR_LEN * 2)); [|exact Hf|by rewrite Hl|lia]. cbn [mbind option_bind].
    rewrite (proj2 (Z.eqb_neq _ ETHERTYPE_VLAN)) by auto. cbn [mbind option_bind].
    unfold IS_ETHERTYPE. rewrite (proj2 (Z.leb_le _ _)) by lia. done.
Qed.

(** The bytes of the payload are behind the header. *)
Lemma payload_byte k b : znth payload k = Some b -> rd8 f (eth_hdr_len h + k) = Some b.
Proof.
  intros Hk. pose proof (proj1 (znth_Some _ _ _) Hk) as [Hk0 _]. unfold rd8. rewrite Hf.
  assert (exists pre, eth_bytes h payload = pre ++ payload /\ zlen pre = eth_hdr_len h) as (pre & -> & Hl).
  { unfold eth_bytes, eth_hdr_len. pose proof addrs_len as Ha. destruct (eh_vlan h) as [tci|], (eh_snap h) as [len|].
    - eexists ((eh_dst h ++ eh_src h) ++ be16 ETHERTYPE_VLAN ++ be16 tci ++ be16 len ++ [0xaa; 0xaa; 0x03; 0; 0; 0] ++ be16 (eh_type h)).
      split; [by rewrite <- !app_assoc|rewrite zlen_app, Ha; done].
    - eexists ((eh_dst h ++ eh_src h) ++ be16 ETHERTYPE_VLAN ++ be16 tci ++ be16 (eh_type h)). split; [by rewrite <- !app_assoc|rewrite zlen_app, Ha; done].
    - eexists ((eh_dst h ++ eh_src h) ++ be16 len ++ [0xaa; 0xaa; 0x03; 0; 0; 0] ++ be16 (eh_type h)). split; [by rewrite <- !app_assoc|rewrite zlen_app, Ha; done].
    - eexists ((eh_dst h ++ eh_src h) ++ be16 (eh_type h)). split; [by rewrite <- !app_assoc|rewrite zlen_app, Ha; done]. }
  rewrite znth_app_r by lia. by replace (eth_hdr_len h + k - zlen pre) with k by lia.
Qed.
End Ethernet.

(** The two bits fields the priority is read from. *)
Lemma ipv4_priority tos : 0 <= tos < 256 -> Z.land (Z.shiftr tos 5) 0x7 = tos / 32.
Proof. intros Ht. change 0x7 with (2 ^ 3 - 1). rewrite land_mask, Z.shiftr_div_pow2 by lia.
  change (2 ^ 5) with 32. change (2 ^ 3) with 8. Z.to_euclidean_division_equations; lia.
Qed.

Lemma ipv6_priority b0 b1 b2 b3 :
  0 <= b0 < 256 -> 0 <= b1 < 256 -> 0 <= b2 < 256 -> 0 <= b3 < 256 ->
  Z.land (Z.shiftr (IPV6_TRAFFIC_CLASS (Z.lor (Z.shiftl (Z.lor (Z.shiftl b0 8) b1) 16) (Z.lor (Z.shiftl b2 8) b3))) 5) 0x7 = (b0 mod 16) / 2.
Proof.
  intros H0 H1 H2 H3. rewrite (Z.lor_comm (Z.shiftl b0 8)), (Z.lor_comm (Z.shiftl b2 8)), (Z.lor_comm (Z.shiftl _ 16)).
  rewrite !(lor_add _ _ 8) by lia. rewrite (lor_add _ _ 16) by lia.
  unfold IPV6_TRAFFIC_CLASS, IPV6_HDR_TRAFFIC_CLASS_M, IPV6_HDR_TRAFFIC_CLASS_S. rewrite Z.shiftr_land.
  change (Z.shiftr 267386880 20) with (2 ^ 8 - 1). change 0x7 with (2 ^ 3 - 1). rewrite !land_mask by lia. unfold u8.
  rewrite !Z.shiftr_div_pow2 by lia. change (2 ^ 20) with 1048576. change (2 ^ 5) with 32. change (2 ^ 3) with 8. change (2 ^ 8) with 256. change (2 ^ 16) with 65536.
  assert (E : (b3 + b2 * 256 + (b1 + b0 * 256) * 65536) / 1048576 = b0 * 16 + b1 / 16) by (Z.to_euclidean_division_equations; lia).
  rewrite E. clear E. assert (Hq : 0 <= b1 / 16 < 16) by (Z.to_euclidean_division_equations; lia).
  assert (Hc : 0 <= b0 mod 16 < 16 /\ b0 = 16 * (b0 / 16) + b0 mod 16) by (Z.to_euclidean_division_equations; lia).
  set (q := b1 / 16) in *. set (c := b0 mod 16) in *. set (a := b0 / 16) in *. clearbody q c a. destruct Hc as [Hc ->].
  assert (E : ((16 * a + c) * 16 + q) mod 256 = c * 16 + q) by (symmetry; apply (Z.mod_unique_pos _ _ a); lia).
  rewrite E, wrap_small by lia. assert (E' : (c * 16 + q) / 32 = c / 2) by (Z.to_euclidean_division_equations; lia).
  rewrite E'. apply Z.mod_small. Z.to_euclidean_division_equations; lia.
Qed.

Lemma payload_tid_range type payload : Forall (fun b => 0 <= b < 256) payload -> 0 <= payload_tid type payload < 8.
Proof.
  intros Hb. assert (Hn : forall i, 0 <= nth i payload 0 < 256).
  { intros i. rewrite list.Forall_forall in Hb. destruct (nth_in_or_default i payload 0) as [Hi|Hi]; [|rewrite Hi; lia]. by apply Hb, list_elem_of_In. }
  pose proof (Hn 0%nat). pose proof (Hn 1%nat). unfold payload_tid. repeat case_match; try done; Z.to_euclidean_division_equations; lia.
Qed.

(** The TID of an Ethernet frame: what was given from outside, or what the payload
    asks for. *)
Lemma ol_tx_tid_eth h payload f ti :
  eth_header_ok h -> fr_data f = eth_bytes h payload -> Forall (fun b => 0 <= b < 256) payload -> (4 <= length payload)%nat ->
  ol_tx_tid wlan_frm_fmt_802_3 f ti = Some
    (if ti_ext_tid ti =? ADF_NBUF_TX_EXT_TID_INVALID then payload_tid (eh_type h) payload else ti_ext_tid ti,
     set_ti_ethertype (fun _ => eh_type h) (set_ti_l3_hdr_offset (fun _ => eth_hdr_len h) (set_ti_l2_hdr_type (fun _ => htt_pkt_type_ethernet) ti))).
Proof.
  intros Hh Hf Hb Hlen. unfold ol_tx_tid. rewrite (set_ether_type_eth h Hh payload f Hf) by done. cbn [mbind option_bind]. unfold ext_tid_or.
  cbn [ti_ext_tid set_ti_ethertype set_ti_l3_hdr_offset set_ti_l2_hdr_type]. destruct (_ =? _); [|done].
  unfold ol_tx_tid_by_ether_type, payload_tid. cbn [ti_l3_hdr_offset ti_ethertype set_ti_ethertype set_ti_l3_hdr_offset].
  destruct payload as [|b0 [|b1 [|b2 [|b3 rest]]]]; cbn in Hlen; try lia. rewrite !list.Forall_cons in Hb. destruct Hb as (H0 & H1 & H2 & H3 & _).
  pose proof (payload_byte h Hh _ f Hf) as Hp. pose proof (Hp 0 b0 eq_refl) as P0. rewrite Z.add_0_r in P0.
  pose proof (Hp 1 b1 eq_refl) as P1. pose proof (Hp 2 b2 eq_refl) as P2. pose proof (Hp 3 b3 eq_refl) as P3.
  cbn [nth]. repeat case_match; try done.
  - unfold ol_tx_tid_by_ipv4. rewrite P1. cbn [mbind option_bind]. by rewrite ipv4_priority.
  - unfold ol_tx_tid_by_ipv6, rd32, rd16. rewrite P0, P1, P2. replace (eth_hdr_len h + 2 + 1) with (eth_hdr_len h + 3) by lia. rewrite P3.
    cbn [mbind option_bind]. by rewrite ipv6_priority.
Qed.

(** The address of an Ethernet header. *)
Definition mac_bytes (m : mac_addr) : list Z :=
  let word w := [Z.land w 0xff; Z.shiftr w 8] in word (bytes_ab m) ++ word (bytes_cd m) ++ word (bytes_ef m).

Lemma le16_word w : 0 <= w < 65536 -> Z.lor (Z.land w 0xff) (Z.shiftl (Z.shiftr w 8) 8) = w.
Proof. intros Hw. rewrite Z.lor_comm. by apply be16_word. Qed.

Lemma rd_mac_eth f m rest : mac_ok m -> fr_data f = mac_bytes m ++ rest -> rd_mac f 0 = Some m.
Proof.
  intros (H1 & H2 & H3) Hf.
  assert (E : rd_mac f 0 = Some (mk_mac_addr (Z.lor (Z.land (bytes_ab m) 0xff) (Z.shiftl (Z.shiftr (bytes_ab m) 8) 8))
    (Z.lor (Z.land (bytes_cd m) 0xff) (Z.shiftl (Z.shiftr (bytes_cd m) 8) 8)) (Z.lor (Z.land (bytes_ef m) 0xff) (Z.shiftl (Z.shiftr (bytes_ef m) 8) 8)))).
  { unfold rd_mac, rd8. rewrite Hf. reflexivity. }
  rewrite E, !le16_word by done. by destruct m.
Qed.

Lemma eth_frame_ok h payload f :
  eth_header_ok h -> fr_data f = eth_bytes h payload -> Forall (fun b => 0 <= b < 256) (fr_data f) -> (24 <= length payload)%nat -> frame_ok f.
Proof.
  intros Hh Hf Hb Hl. split; [|done]. rewrite Hf. unfold eth_bytes. rewrite app_assoc, zlen_app, (addrs_len h Hh), !zlen_app.
  assert (zlen (be16 (eh_type h)) = 2) as -> by done. pose proof (zlen_nonneg (match eh_vlan h with Some tci => be16 ETHERTYPE_VLAN ++ be16 tci | None => [] end)).
  pose proof (zlen_nonneg (match eh_snap h with Some len => be16 len ++ [0xaa; 0xaa; 0x03; 0; 0; 0] | None => [] end)). unfold zlen in *. lia.
Qed.

(** ** One reference *)
Section Took.
Context {D : Type} `{DataPathOk D}.
Implicit Types (s : peer_pdev D) (L : list Z) (x : peer) (r : gmultiset Z).

(** The table with one reference more to the peer, if there is one. *)
Definition took s (o : option Z) : peer_pdev D :=
  match o with
  | Some p => match pp_peers s !! p with Some x => set_pp_peers (<[p := set_pe_ref_cnt (fun n => n + 1) x]>) s | None => s end
  | None => s
  end.
Definition plus_ref r (o : option Z) : gmultiset Z := match o with Some p => {[+ p +]} ⊎ r | None => r end.

Definition in_table s (o : option Z) : Prop := forall p, o = Some p -> is_Some (pp_peers s !! p).

Lemma took_accounts s r o : Accounts s r -> ref_room s -> in_table s o -> Accounts (took s o) (plus_ref r o).
Proof.
  intros HA Hr Ho. destruct o as [p|]; [|done]. destruct (Ho p eq_refl) as [x Hx]. unfold took. rewrite Hx.
  apply Accounts_take; [done|done|by apply (Hr p)].
Qed.

Lemma took_vdev s o v y : pp_vdevs s !! v = Some y -> pp_vdevs (took s o) !! v = Some y.
Proof. destruct o as [p|]; [|done]. cbn. by destruct (pp_peers s !! p). Qed.
Lemma took_peer s p x : pp_peers s !! p = Some x -> pp_peers (took s (Some p)) !! p = Some (set_pe_ref_cnt (fun n => n + 1) x).
Proof. intros Hx. cbn. rewrite Hx. cbn. apply lookup_insert_eq. Qed.

Lemma inc_run s r p : Accounts s r -> ref_room s -> is_Some (pp_peers s !! p) -> ref_inc p s = Some (tt, took s (Some p)).
Proof.
  intros HA Hr [x Hx]. destruct (ac_inv _ _ HA) as (L & fl & HR & _). destruct (ref_inc_spec s L p x HR Hx (Hr p x Hx)) as [-> _]. cbn. by rewrite Hx.
Qed.

(** Dropped again at once, it leaves the table as it was. *)
Lemma dec_back s r p : Accounts s r -> ref_room s -> is_Some (pp_peers s !! p) -> ref_dec p (took s (Some p)) = Some (tt, s).
Proof.
  intros HA Hr [x Hx]. destruct (ac_inv _ _ HA) as (L & fl & HR & _). destruct (pr_peer _ _ HR p x Hx) as [_ Hp]. specialize (Hr p x Hx).
  unfold ref_dec. rewrite (upd_peer_run _ _ _ _ (took_peer s p x Hx)), ref_back by lia. cbn. by rewrite Hx, upd_peer_twice, upd_peer_id.
Qed.

Lemma unref_back s r p : Accounts s r -> ref_room s -> is_Some (pp_peers s !! p) -> ol_txrx_peer_unref_delete p (took s (Some p)) = Some (tt, s).
Proof.
  intros HA Hr Hs. pose proof (dec_back s r p HA Hr Hs) as Hdec. destruct Hs as [x Hx].
  destruct (ac_inv _ _ HA) as (L & fl & HR & _). destruct (pr_peer _ _ HR p x Hx) as [_ Hp]. specialize (Hr p x Hx). destruct (pr_home _ _ HR p x Hx) as [y Hy].
  unfold ol_txrx_peer_unref_delete. unfold mbind at 1, M_bind at 1. rewrite (get_peer_run _ _ _ (took_peer s p x Hx)).
  unfold mbind at 1, M_bind at 1. rewrite (get_vdev_run _ _ y) by (by apply took_vdev). cbn [pe_ref_cnt set_pe_ref_cnt].
  rewrite (proj2 (Z.eqb_neq _ 0)) by lia. unfold mbind at 1, M_bind at 1. rewrite Hdec. rewrite s32_small by lia.
  by rewrite (proj2 (Z.eqb_neq _ 0)) by lia.
Qed.

(** ** The lookups *)
Lemma hash_find_run s r mac cv :
  Accounts s r -> ref_room s -> mac_ok mac ->
  exists o, ol_txrx_peer_find_hash_find mac cv s = Some (o, took s o) /\ in_table s o.
Proof.
  intros HA Hr Hm. destruct (ac_inv _ _ HA) as (L & fl & HR & _). exists (first_with s L mac cv).
  assert (Hin : in_table s (first_with s L mac cv)) by (intros p Hp; destruct (first_with_in _ _ _ _ _ Hp) as (_ & x & Hx & _); eauto).
  split; [|done]. rewrite (hash_find_spec s L mac cv HR Hm). unfold first_with in *. destruct (List.find _ L) as [p|]; [|done].
  unfold mbind, M_bind. by rewrite (inc_run s r p HA Hr (Hin p eq_refl)).
Qed.

(** A peer that is found this way is known to the target. *)
Lemma assoc_find_run s r v :
  Accounts s r -> ref_room s -> is_Some (pp_vdevs s !! v) ->
  exists o, ol_txrx_assoc_peer_find v s = Some (o, took s o) /\ in_table s o /\
    (forall p, o = Some p -> exists y, pp_vdevs s !! v = Some y /\ vd_last_real_peer y = Some p).
Proof.
  intros HA Hr [y Hy]. destruct (ac_inv _ _ HA) as (L & fl & HR & Hrf & _). unfold ol_txrx_assoc_peer_find.
  unfold mbind at 1, M_bind at 1. setoid_rewrite (get_vdev_run _ _ _ Hy). destruct (vd_last_real_peer y) as [p|] eqn:El; [|by exists None].
  destruct (rf_last _ Hrf v y p Hy El) as (x & Hx & _). pose proof (rf_ids _ Hrf p x Hx) as Hl.
  unfold mbind at 1, M_bind at 1. setoid_rewrite (get_peer_run _ _ _ Hx). destruct (pe_peer_ids x) as [|a ids] eqn:Ex; [done|].
  unfold mbind at 1, M_bind at 1. change (znth (a :: ids) 0) with (Some a). cbn [lift].
  destruct (negb (a =? HTT_INVALID_PEER)); [|by exists None]. exists (Some p). unfold mbind at 1, M_bind at 1.
  rewrite (inc_run s r p HA Hr ltac:(eauto)). split; [done|]. split; [intros q [= <-]; eauto|]. intros q [= <-]. eauto.
Qed.

Lemma first_id_run s r p x : Accounts s r -> pp_peers s !! p = Some x -> exists id, forall s' n, first_id (set_pe_ref_cnt n x) s' = Some (id, s').
Proof.
  intros HA Hx. destruct (ac_inv _ _ HA) as (L & fl & HR & Hrf & _). pose proof (rf_ids _ Hrf p x Hx) as Hl.
  destruct (pe_peer_ids x) as [|a ids] eqn:Ex; [done|]. exists a. intros s' n. unfold first_id. cbn. by rewrite Ex.
Qed.

Lemma tdls_peer_run s r tdls :
  Accounts s r -> ref_room s -> (forall m, tdls = Some m -> mac_ok m) -> exists o, tdls_peer tdls s = Some (o, took s o) /\ in_table s o.
Proof.
  intros HA Hr Hm. destruct tdls as [m|]; cbn [tdls_peer]; [|by exists None]. specialize (Hm m eq_refl).
  destruct (ac_inv _ _ HA) as (L & fl & HR & Hrf & _). unfold mbind at 1, M_bind at 1. rewrite (find_peer_by_addr_spec s L m HR Hm Hr).
  destruct (first_with s L m true) as [p|] eqn:Ef; cbn [mbind option_bind]; [|by exists None].
  destruct (first_with_in _ _ _ _ _ Ef) as (_ & x & Hx & _). rewrite Hx. cbn [mbind option_bind].
  destruct (first_id_run s r p x HA Hx) as [id Hid]. unfold mbind at 1, M_bind at 1. rewrite (get_peer_run _ _ _ Hx).
  unfold mbind at 1, M_bind at 1. replace x with (set_pe_ref_cnt (fun n => n) x) by (by destruct x). rewrite Hid.
  destruct (id =? HTT_INVALID_PEER_ID); [by exists None|]. exists (Some p). unfold mbind at 1, M_bind at 1.
  rewrite (inc_run s r p HA Hr ltac:(eauto)). split; [done|]. intros q [= <-]. eauto.
Qed.
End Took.

(** ** The result of the classification *)
Section Classified.
Context {D : Type} `{DataPathOk D}.
Implicit Types (s : peer_pdev D) (x : peer) (r : gmultiset Z) (ti : tx_msdu_info).

(** [i] is the queue of the vdev the frame may go to. *)
Record classified s (v i : Z) (res : option txq_id * tx_msdu_info) s' : Prop := {
  cl_state : s' = took s (ti_peer res.2);
  cl_peer : in_table s (ti_peer res.2);
  cl_drop : res.1 = None -> ti_peer res.2 = None;
  cl_queue : forall q, res.1 = Some q -> ext_tid_of q = ti_ext_tid res.2 /\
    (q = VdevTxq v i \/ exists p tid, q = PeerTxq p tid /\ ti_peer res.2 = Some p /\ 0 <= tid < OL_TX_NUM_TIDS) }.

Lemma classified_none s v i ti : ti_peer ti = None -> classified s v i (None, ti) s.
Proof. intros E. constructor; cbn; rewrite ?E; done. Qed.
Lemma classified_vdev s v i o ti s' :
  s' = took s o -> ti_peer ti = o -> in_table s o -> ti_ext_tid ti = vdev_flush_tid i -> classified s v i (Some (VdevTxq v i), ti) s'.
Proof. intros -> <- Ho He. constructor; cbn; try done. intros q [= <-]. split; [done|by left]. Qed.
Lemma classified_peer s v i p tid ti s' :
  s' = took s (Some p) -> ti_peer ti = Some p -> is_Some (pp_peers s !! p) -> ti_ext_tid ti = tid -> 0 <= tid < OL_TX_NUM_TIDS ->
  classified s v i (Some (PeerTxq p tid), ti) s'.
Proof.
  intros -> E Hp He Ht. constructor; cbn; rewrite ?E; [done|by intros q [= <-]|done|]. intros q [= <-]. split; [done|]. right. eauto.
Qed.

Context (cfg : tx_cfg) (tdls : option mac_addr) (v : Z) (f : frame) s r.
Context (HA : Accounts s r) (Hroom : ref_room s) (Hf : frame_ok f) (Hv : is_Some (pp_vdevs s !! v)).

Lemma classify_mcast_spec mcast ti :
  ti_peer ti = None -> (forall y, pp_vdevs s !! v = Some y -> mcast = false -> vd_opmode y = wlan_op_mode_ocb) ->
  wp (classify_mcast mcast v f ti) (classified s v OL_TX_VDEV_MCAST_BCAST) s.
Proof.
  intros Hti Hocb. destruct Hv as [y Hy]. specialize (Hocb y Hy). unfold classify_mcast. eapply wp_step; [by apply get_vdev_run|].
  assert (Hself : forall ti1, ti_peer ti1 = None -> ti_ext_tid ti1 = HTT_TX_EXT_TID_NON_QOS_MCAST_BCAST -> vd_opmode y <> wlan_op_mode_sta -> vd_opmode y <> wlan_op_mode_ocb ->
    wp (peer ← ol_txrx_peer_find_hash_find (vd_mac y) true;
        match peer with None => mret (None, ti1)
        | Some p => classify_end mcast (vd_opmode y) (VdevTxq v OL_TX_VDEV_MCAST_BCAST) (Some p) (set_ti_is_unicast (fun _ => false) ti1) end)
      (classified s v OL_TX_VDEV_MCAST_BCAST) s).
  { intros ti1 E1 E2 Hsta Hnocb. destruct (hash_find_run s r (vd_mac y) true HA Hroom) as (o & Hrun & Ho); [by apply (vi_mac _ (ac_vdevs _ _ HA) v)|].
    eapply wp_step; [exact Hrun|]. destruct o as [p|]; [|by apply wp_ret, classified_none]. unfold classify_end.
    destruct mcast; [|by specialize (Hocb eq_refl)]. rewrite bool_decide_eq_false_2 by done. cbn [andb negb].
    eapply wp_step; [by eapply unref_back; [| |apply Ho]|]. apply wp_ret. by apply (classified_vdev s v _ None). }
  destruct (vd_opmode y) eqn:Eo; try (by apply Hself).
  - destruct (assoc_find_run s r v HA Hroom ltac:(eauto)) as (o & Hrun & Ho & _). eapply wp_step; [exact Hrun|].
    destruct o as [p|]; [|by apply wp_ret, classified_none]. destruct (Ho p eq_refl) as [x Hx].
    eapply wp_step; [apply get_peer_run; by apply took_peer|]. destruct (first_id_run s r p x HA Hx) as [id Hid].
    assert (exists b, (if negb ((pe_sec_type (set_pe_ref_cnt (fun n => n + 1) x)).1 =? htt_sec_type_wapi) then adf_nbuf_is_dhcp_pkt f else Some false) = Some b) as [b Hb].
    { destruct (negb _); [by apply dhcp_ok|eauto]. }
    eapply wp_step; [unfold lift; rewrite Hb; reflexivity|].
    destruct b; (eapply wp_step; [apply Hid|]); unfold classify_end; rewrite bool_decide_eq_true_2 by done; rewrite andb_false_r; apply wp_ret.
    + by apply classified_peer.
    + by apply (classified_vdev s v _ (Some p)).
  - apply wp_ret. by apply (classified_vdev s v _ None).
Qed.

(** A multicast frame of a station, if it is not for DHCP: the type of its payload is
    not looked at. *)
Lemma classify_sta_mcast y p x id dest a0 ti :
  pp_vdevs s !! v = Some y -> vd_opmode y = wlan_op_mode_sta -> vd_last_real_peer y = Some p ->
  pp_peers s !! p = Some x -> znth (pe_peer_ids x) 0 = Some id -> id <> HTT_INVALID_PEER ->
  ol_tx_dest_addr_find (cfg_frame_format cfg) = Some dest -> rd8 f dest = Some a0 -> IEEE80211_IS_MULTICAST a0 = true ->
  adf_nbuf_is_dhcp_pkt f = Some false ->
  exists ti', ol_tx_classify cfg tdls v f ti s = Some ((Some (VdevTxq v OL_TX_VDEV_MCAST_BCAST), ti'), took s (Some p)) /\
    ti_peer ti' = Some p /\ ti_ethertype ti' = ti_ethertype ti.
Proof.
  intros Hy Hsta Hlast Hx Hid Hne Hdest Ha0 Hmc Hdhcp. unfold ol_tx_classify. rewrite Hdest.
  erewrite bind_run by (unfold lift; rewrite Ha0; reflexivity). erewrite bind_run by (by apply get_vdev_run). rewrite Hmc. cbn [orb].
  unfold classify_mcast. erewrite bind_run by (by apply get_vdev_run). rewrite Hsta.
  assert (Hfind : ol_txrx_assoc_peer_find v s = Some (Some p, took s (Some p))).
  { unfold ol_txrx_assoc_peer_find. erewrite bind_run by (by apply get_vdev_run). rewrite Hlast. erewrite bind_run by (by apply get_peer_run).
    erewrite bind_run by (unfold lift; rewrite Hid; reflexivity). rewrite (proj2 (Z.eqb_neq _ _) Hne). cbn [negb].
    by erewrite bind_run by (apply (inc_run s r p HA Hroom); eauto). }
  erewrite bind_run by exact Hfind. cbv beta iota. erewrite bind_run by (apply get_peer_run; by apply took_peer).
  eexists. erewrite (bind_run _ _ _ false); [|unfold lift; rewrite Hdhcp; by destruct (negb _)]. cbv beta iota.
  erewrite bind_run by (unfold first_id, lift; cbn [set_pe_ref_cnt pe_peer_ids]; rewrite Hid; reflexivity).
  unfold classify_end. rewrite bool_decide_eq_true_2 by done. rewrite andb_false_r. split; [reflexivity|]. by split.
Qed.

Lemma ucast_peer_run op_mode dest :
  mac_ok dest -> (forall m, tdls = Some m -> mac_ok m) -> exists o, ucast_peer tdls v op_mode dest s = Some (o, took s o) /\ in_table s o.
Proof.
  intros Hd Ht. unfold ucast_peer. destruct op_mode; try by apply (hash_find_run s r).
  destruct (tdls_peer_run s r tdls HA Hroom Ht) as (o & Hrun & Ho). unfold mbind, M_bind. rewrite Hrun.
  destruct o as [p|]; [by exists (Some p)|]. destruct (assoc_find_run s r v HA Hroom Hv) as (o & Hrun' & Ho' & _). exists o. by split.
Qed.

Lemma classify_ucast_spec dest ti :
  ti_peer ti = None -> 0 <= ti_ext_tid ti -> mac_ok dest -> (forall m, tdls = Some m -> mac_ok m) ->
  wp (classify_ucast cfg tdls v dest f ti) (classified s v OL_TX_VDEV_MCAST_BCAST) s.
Proof.
  intros Hti Hext Hd Ht. unfold classify_ucast. destruct (ol_tx_tid_ok f Hf (cfg_frame_format cfg) ti Hext) as (tid & ti1 & Htid & Htid0 & Hp1 & _).
  eapply wp_step; [unfold lift; rewrite Htid; reflexivity|]. cbv beta iota. rewrite Hti in Hp1.
  destruct ((tid =? HTT_TX_EXT_TID_INVALID) || (OL_TX_NUM_TIDS <=? tid)) eqn:Et; [by apply wp_ret, classified_none|].
  apply orb_false_iff in Et as [_ Et%Z.leb_gt]. set (ti2 := if cfg_wapi cfg && _ then _ else ti1).
  assert (Hp2 : ti_peer ti2 = None) by (unfold ti2; by destruct (_ && _)). clearbody ti2. clear Hp1.
  destruct Hv as [y Hy]. eapply wp_step; [by apply get_vdev_run|].
  destruct (ucast_peer_run (vd_opmode y) dest Hd Ht) as (o & Hrun & Ho). eapply wp_step; [exact Hrun|].
  destruct o as [p|]; [|by apply wp_ret, classified_none]. destruct (Ho p eq_refl) as [x Hx].
  eapply wp_step; [apply get_peer_run; by apply took_peer|]. destruct (first_id_run s r p x HA Hx) as [id Hid].
  destruct (peer_tid_ok f Hf (set_pe_ref_cnt (fun n => n + 1) x) tid ltac:(unfold OL_TX_NUM_TIDS in *; lia)) as (tid' & Htid' & Hr').
  eapply wp_step; [unfold lift; rewrite Htid'; reflexivity|]. eapply wp_step; [apply Hid|].
  destruct (id =? HTT_INVALID_PEER_ID).
  - eapply wp_step; [by eapply unref_back|]. apply wp_ret. by apply classified_none.
  - unfold classify_end. cbn [andb]. apply wp_ret. by apply classified_peer.
Qed.

Lemma ol_tx_classify_spec ti :
  ti_peer ti = None -> 0 <= ti_ext_tid ti -> (forall m, tdls = Some m -> mac_ok m) ->
  wp (ol_tx_classify cfg tdls v f ti) (classified s v OL_TX_VDEV_MCAST_BCAST) s.
Proof.
  intros Hti Hext Ht. unfold ol_tx_classify. destruct (ol_tx_dest_addr_find (cfg_frame_format cfg)) as [dest|] eqn:Ed; [|by apply wp_ret, classified_none].
  assert (Hdest : 0 <= dest < 33) by (destruct (cfg_frame_format cfg); by simplify_eq/=).
  destruct (rd8_ok f Hf dest ltac:(lia)) as (a0 & Ha & _). eapply wp_step; [unfold lift; rewrite Ha; reflexivity|].
  destruct Hv as [y Hy]. eapply wp_step; [by apply get_vdev_run|].
  destruct (IEEE80211_IS_MULTICAST a0 || bool_decide (vd_opmode y = wlan_op_mode_ocb)) eqn:Em.
  - apply classify_mcast_spec; [done|]. intros y' Hy' Hn. simplify_eq. rewrite Hn in Em. by apply bool_decide_eq_true in Em.
  - destruct (rd_mac_ok f Hf dest Hdest) as (m & Hm & Hok). eapply wp_step; [unfold lift; rewrite Hm; reflexivity|]. by apply classify_ucast_spec.
Qed.

(** A unicast Ethernet frame of an access point, for a station that is known: its
    peer is the one with the destination address, its queue the one of the
    priority its payload asks for. *)
Lemma classify_unicast_eth L y m p x id h payload ti :
  PeerRep s L -> cfg_frame_format cfg = wlan_frm_fmt_802_3 -> cfg_wapi cfg = false ->
  pp_vdevs s !! v = Some y -> vd_opmode y = wlan_op_mode_ap ->
  eth_header_ok h -> eh_dst h = mac_bytes m -> mac_ok m -> Z.land (bytes_ab m) 1 = 0 ->
  fr_data f = eth_bytes h payload -> (4 <= length payload)%nat -> ti_ext_tid ti = ADF_NBUF_TX_EXT_TID_INVALID ->
  first_with s L m true = Some p -> pp_peers s !! p = Some x -> pe_peer_ids x !! 0%nat = Some id -> id <> HTT_INVALID_PEER_ID ->
  pe_qos_capable x = true -> adf_nbuf_is_dhcp_pkt f = Some false ->
  exists ti', ol_tx_classify cfg tdls v f ti s = Some ((Some (PeerTxq p (payload_tid (eh_type h) payload)), ti'), took s (Some p)) /\
    ti_peer ti' = Some p /\ ti_ext_tid ti' = payload_tid (eh_type h) payload /\ ti_peer_id ti' = id /\ ti_is_unicast ti' = true /\
    ti_ethertype ti' = eh_type h /\ ti_l3_hdr_offset ti' = eth_hdr_len h.
Proof.
  intros HR Hfmt Hwapi Hy Hap Hh Hdst Hm Huni Hfr Hlen Hext Hp Hx Hid Hne Hqos Hdhcp.
  assert (Hbytes : fr_data f = mac_bytes m ++ drop 6 (eth_bytes h payload)).
  { rewrite Hfr. unfold eth_bytes. by rewrite Hdst. }
  assert (Hb : Forall (fun b => 0 <= b < 256) payload).
  { destruct Hf as [_ Hb]. rewrite Hfr in Hb. unfold eth_bytes in Hb. rewrite !Forall_app in Hb. tauto. }
  pose proof (payload_tid_range (eh_type h) payload Hb) as Htid.
  assert (Hd0 : rd8 f 0 = Some (Z.land (bytes_ab m) 0xff)) by (unfold rd8; by rewrite Hbytes).
  assert (Hmc : IEEE80211_IS_MULTICAST (Z.land (bytes_ab m) 0xff) = false).
  { unfold IEEE80211_IS_MULTICAST. rewrite <- Z.land_assoc. change (Z.land 0xff 0x01) with 1. by rewrite Huni. }
  assert (Hfind : ol_txrx_peer_find_hash_find m true s = Some (Some p, took s (Some p))).
  { rewrite (hash_find_spec s L m true HR Hm). unfold first_with in Hp. rewrite Hp. unfold mbind, M_bind. by rewrite (inc_run s r p HA Hroom ltac:(eauto)). }
  eexists. split.
  - unfold ol_tx_classify. rewrite Hfmt. cbn [ol_tx_dest_addr_find]. eapply run_bind; [unfold lift; rewrite Hd0; reflexivity|].
    eapply run_bind; [by apply get_vdev_run|]. rewrite Hmc, Hap. cbn [orb bool_decide decide_rel wlan_op_mode_eq_dec].
    eapply run_bind; [unfold lift; rewrite (rd_mac_eth f m _ Hm Hbytes); reflexivity|]. unfold classify_ucast.
    eapply run_bind; [unfold lift; rewrite Hfmt, (ol_tx_tid_eth h payload f ti Hh Hfr Hb Hlen), Hext; reflexivity|]. cbv beta iota.
    rewrite Z.eqb_refl, Hwapi. set (tid := payload_tid _ _) in *.
    rewrite (proj2 (Z.eqb_neq tid HTT_TX_EXT_TID_INVALID)) by (unfold HTT_TX_EXT_TID_INVALID, OL_TX_NUM_TIDS in *; lia).
    rewrite (proj2 (Z.leb_gt _ _)) by (unfold OL_TX_NUM_TIDS; lia). cbn [orb andb].
    eapply run_bind; [by apply get_vdev_run|]. rewrite Hap. cbn [ucast_peer]. eapply run_bind; [exact Hfind|].
    eapply run_bind; [by apply get_peer_run, took_peer|].
    assert (Ht : peer_tid (set_pe_ref_cnt (fun n => n + 1) x) f tid = Some tid).
    { unfold peer_tid. cbn [pe_qos_capable set_pe_ref_cnt]. rewrite Hqos, andb_false_r. rewrite Hdhcp. by destruct (negb _). }
    eapply run_bind; [unfold lift; rewrite Ht; reflexivity|].
    assert (Hi : forall s', first_id (set_pe_ref_cnt (fun n => n + 1) x) s' = Some (id, s')).
    { intros s'. unfold first_id. cbn [pe_peer_ids set_pe_ref_cnt]. destruct (pe_peer_ids x) as [|a ids]; [done|]. by injection Hid as <-. }
    eapply run_bind; [apply Hi|]. rewrite (proj2 (Z.eqb_neq id HTT_INVALID_PEER_ID)) by done. reflexivity.
  - cbn [ti_peer ti_ext_tid ti_peer_id ti_is_unicast ti_ethertype ti_l3_hdr_offset set_ti_peer set_ti_ext_tid set_ti_peer_id].
    by case_bool_decide.
Qed.

(** ** Management frames *)
Lemma mgmt_peer_run op_mode dest :
  mac_ok dest -> exists o, mgmt_peer v op_mode dest s = Some (o, took s o) /\ in_table s o.
Proof.
  intros Hd. unfold mgmt_peer. destruct op_mode; try by apply (hash_find_run s r).
  destruct (assoc_find_run s r v HA Hroom Hv) as (o & Hrun & Ho & _). unfold mbind at 1, M_bind at 1. setoid_rewrite Hrun.
  destruct o as [p|]; [|by exists None]. destruct (Ho p eq_refl) as [x Hx]. unfold mbind at 1, M_bind at 1. setoid_rewrite (get_peer_run _ _ _ (took_peer s p x Hx)).
  destruct (ol_txrx_peer_find_mac_addr_cmp _ _); [|by exists (Some p)]. exists None. unfold mbind, M_bind. by rewrite (dec_back s r p HA Hroom ltac:(eauto)).
Qed.

Lemma ol_tx_classify_mgmt_spec ti :
  ti_peer ti = None -> ti_ext_tid ti = HTT_TX_EXT_TID_MGMT -> wp (ol_tx_classify_mgmt cfg v f ti) (classified s v OL_TX_VDEV_DEFAULT_MGMT) s.
Proof.
  intros Hti Hext. unfold ol_tx_classify_mgmt. destruct (ol_tx_dest_addr_find (cfg_frame_format cfg)) as [dest|] eqn:Ed; [|by apply wp_ret, classified_none].
  assert (Hdest : 0 <= dest < 33) by (destruct (cfg_frame_format cfg); by simplify_eq/=).
  destruct (rd8_ok f Hf dest ltac:(lia)) as (a0 & Ha & _). eapply wp_step; [unfold lift; rewrite Ha; reflexivity|].
  destruct Hv as [y Hy]. eapply wp_step; [by apply get_vdev_run|]. destruct (IEEE80211_IS_MULTICAST a0).
  - apply wp_ret. by apply (classified_vdev s v _ None).
  - destruct (rd_mac_ok f Hf dest Hdest) as (m & Hm & Hok). eapply wp_step; [unfold lift; rewrite Hm; reflexivity|].
    destruct (mgmt_peer_run (vd_opmode y) m Hok) as (o & Hrun & Ho). eapply wp_step; [exact Hrun|].
    destruct o as [p|]; [|apply wp_ret; by apply (classified_vdev s v _ None)]. destruct (Ho p eq_refl) as [x Hx].
    eapply wp_step; [apply get_peer_run; by apply took_peer|]. destruct (first_id_run s r p x HA Hx) as [id Hid].
    eapply wp_step; [apply Hid|]. apply wp_ret. by apply classified_peer.
Qed.
End Classified.
