(* ===== verification/SysQueues.v ===== *)
(** No operation of the transmit path makes or removes a queue, and none changes
    the map from TIDs to categories: a frame rule for computations, whatever
    their result.

    Queues come and go while the books are kept: the queues of a new vdev or peer
    hold no frame, a queue that ends gives its descriptors back, whether it is
    paused or not. *)
From Stdlib Require Import ZArith Lia.
From stdpp Require Import prelude gmap list numbers fin_sets.
From S2P Require Import Prelude.
From S2P Require Import TxTypes.
From S2P Require Import TxCore.
From S2P Require Import TxSched.
From S2P Require Import TxQueue.
From S2P Require Import TxSchedSpec.
From S2P Require Import TxInv.
From S2P Require Import TxSchedInv.
From S2P Require Import TxDispatch.
From S2P Require Import TxQueueInv.
From S2P Require Import TxDiscard.
From S2P Require Import TxInit.
From S2P Require Import DescTypes.
From S2P Require Import DescPool.
From S2P Require Import DescSend.
From S2P Require Import DescOps.
From S2P Require Import DescFree.
From S2P Require Import DescQueue.

(** ** The queueing layer *)
Definition same_queues (t t' : tx_pdev) : Prop :=
  dom (pd_txqs t') = dom (pd_txqs t) /\ pd_tid_to_ac t' = pd_tid_to_ac t.

#[export] Instance same_queues_preorder : PreOrder same_queues.
Proof. split; [done|]. intros t1 t2 t3 [E1 E2] [E3 E4]. split; congruence. Qed.

Notation keeps_tx := (keeps same_queues).
Notation keeps_dev := (keeps (fun s s' => same_queues (dv_tx s) (dv_tx s'))).

#[export] Instance same_queues_dev : PreOrder (fun s s' => same_queues (dv_tx s) (dv_tx s')).
Proof. split; [by intros s|]. intros s1 s2 s3 H1 H2. by transitivity (dv_tx s2). Qed.

Section Queueing.
Context `{HttTx}.

Lemma keeps_upd_txq q f : keeps_tx (upd_txq q f).
Proof.
  intros t a t'. unfold upd_txq, get_txq, mbind, M_bind, get, lift. destruct (pd_txqs t !! q) as [x|] eqn:E; [|done].
  intros [= _ <-]. split; [|done]. cbn. apply dom_insert_lookup_L. eauto.
Qed.
#[local] Hint Resolve keeps_upd_txq : keeps.
#[local] Hint Extern 1 (keeps _ (modify _)) => (apply keeps_modify; intros ?; split; reflexivity) : keeps.

Lemma keeps_dequeue_flush n head : keeps_tx (ol_tx_dequeue_flush n head).
Proof. revert head. induction n as [|n IH]; intros head; cbn [ol_tx_dequeue_flush]; keep. Qed.
#[local] Hint Resolve keeps_dequeue_flush : keeps.
Lemma keeps_notify q ev : keeps_tx (ol_tx_sched_notify q ev).
Proof. keep. Qed.
#[local] Hint Resolve keeps_notify : keeps.
Lemma keeps_dequeue q head m c : keeps_tx (ol_tx_dequeue q head m c).
Proof. keep. Qed.
#[local] Hint Resolve keeps_dequeue : keeps.
Lemma keeps_select sctx credit : keeps_tx (ol_tx_sched_select_batch_wrr_adv sctx credit).
Proof. keep. Qed.
#[local] Hint Resolve keeps_select : keeps.
Lemma keeps_sched_loop fuel sctx : keeps_tx (ol_tx_sched_loop fuel sctx).
Proof. revert sctx. induction fuel as [|n IH]; intros sctx; cbn [ol_tx_sched_loop]; keep. Qed.
Lemma keeps_dispatch_loop n : forall head batch k, keeps_tx (ol_tx_sched_dispatch_loop n head batch k).
Proof. induction n as [|n IH]; intros head batch k; cbn [ol_tx_sched_dispatch_loop]; keep. Qed.
#[local] Hint Resolve keeps_sched_loop keeps_dispatch_loop : keeps.
Lemma keeps_sched : keeps_tx ol_tx_sched.
Proof. keep. Qed.
#[local] Hint Resolve keeps_sched : keeps.

Lemma keeps_free_frames n l : keeps_tx (ol_tx_queue_free_frames n l).
Proof. revert l. induction n as [|n IH]; intros l; cbn [ol_tx_queue_free_frames]; keep. Qed.
#[local] Hint Resolve keeps_free_frames : keeps.
Lemma keeps_queue_free q tid : keeps_tx (ol_tx_queue_free q tid).
Proof. keep. Qed.
Lemma keeps_discard_select_txq l : forall m o, keeps_tx (ol_tx_sched_discard_select_txq l m o).
Proof. induction l as [|q l IH]; intros m o; cbn [ol_tx_sched_discard_select_txq]; keep. Qed.
#[local] Hint Resolve keeps_queue_free keeps_discard_select_txq : keeps.
Lemma keeps_peer_has_frames p tids : keeps_tx (peer_has_frames p tids).
Proof. induction tids as [|i tids IH]; cbn [peer_has_frames]; keep. Qed.
#[local] Hint Resolve keeps_peer_has_frames : keeps.
Lemma keeps_select_candidates peers : forall room, keeps_tx (select_candidates peers room).
Proof. induction peers as [|p peers IH]; intros room; cbn [select_candidates]; keep. Qed.
#[local] Hint Resolve keeps_select_candidates : keeps.
Lemma keeps_flush_peers fuel peers : keeps_tx (flush_peers_loop fuel peers).
Proof. revert peers. induction fuel as [|n IH]; intros peers; cbn [flush_peers_loop]; keep. Qed.
#[local] Hint Resolve keeps_flush_peers : keeps.
Lemma keeps_discard_loop fuel b : forall num actual l, keeps_tx (ol_tx_queue_discard_loop fuel b num actual l).
Proof. induction fuel as [|n IH]; intros num actual l; cbn [ol_tx_queue_discard_loop]; keep. Qed.
#[local] Hint Resolve keeps_discard_loop : keeps.
Lemma keeps_enqueue q d tid : keeps_tx (ol_tx_enqueue q d tid).
Proof. keep. Qed.
Lemma keeps_pause q tid : keeps_tx (txq_pause q tid).
Proof. keep. Qed.
Lemma keeps_unpause q tid : keeps_tx (txq_unpause q tid).
Proof. keep. Qed.
#[local] Hint Resolve keeps_enqueue keeps_pause keeps_unpause : keeps.

(** ** The device *)
Lemma keeps_frame_list_free l : forall msdus, keeps_dev (frame_list_free_loop l msdus).
Proof. induction l as [|i l IH]; intros msdus; cbn [frame_list_free_loop]; keep. Qed.
#[local] Hint Resolve keeps_frame_list_free : keeps.
Lemma keeps_on_tx free m : (forall l, keeps_dev (free l)) -> keeps_tx m -> keeps_dev (on_tx free m).
Proof.
  intros Hf Hm s u s'. unfold on_tx, mbind at 1, M_bind at 1, get at 1. unfold mbind at 1, M_bind at 1, lift at 1.
  destruct (m (forget_logs (dv_tx s))) as [[[] t]|] eqn:E; [|done]. intros Hrun.
  apply (transitivity (R := same_queues) (y := t)); [by apply Hm in E|].
  assert (K : keeps_dev (for_each (td_id <$> concat (pd_sent t)) take_refs;; free (td_id <$> pd_freed t))) by keep.
  exact (K _ _ _ Hrun).
Qed.
Lemma keeps_free_each b ids : keeps_dev (free_each b ids).
Proof. keep. Qed.
Lemma keeps_free_list ids : keeps_dev (free_list ids).
Proof. keep. Qed.
#[local] Hint Resolve keeps_free_each keeps_free_list : keeps.
#[local] Hint Extern 2 (keeps _ (on_tx _ _)) => (apply keeps_on_tx) : keeps.

Lemma keeps_dev_sched : keeps_dev dev_sched.
Proof. apply keeps_on_tx; keep. Qed.
Lemma keeps_dev_enqueue q d tid : keeps_dev (dev_enqueue q d tid).
Proof. apply keeps_on_tx; keep. Qed.
Lemma keeps_dev_queue_free q tid : keeps_dev (dev_queue_free q tid).
Proof. apply keeps_on_tx; keep. Qed.
Lemma keeps_dev_pause q tid : keeps_dev (dev_pause q tid).
Proof. apply keeps_on_tx; keep. Qed.
Lemma keeps_dev_unpause q tid : keeps_dev (dev_unpause q tid).
Proof. apply keeps_on_tx; keep. Qed.
#[local] Hint Resolve keeps_dev_sched keeps_dev_enqueue : keeps.

Lemma keeps_free_nonstd i b : keeps_dev (ol_tx_desc_frame_free_nonstd i b).
Proof. keep. Qed.
#[local] Hint Resolve keeps_free_nonstd : keeps.
Lemma keeps_desc_hl v b ty mi : keeps_dev (ol_tx_desc_hl v b ty mi).
Proof. keep. Qed.
Lemma keeps_vdev_detach_loop n : forall i v, keeps_dev (vdev_detach_descs_loop n i v).
Proof. induction n as [|n IH]; intros i v; cbn [vdev_detach_descs_loop]; keep. Qed.
#[local] Hint Resolve keeps_vdev_detach_loop : keeps.
Lemma keeps_vdev_detach v : keeps_dev (vdev_detach_descs v).
Proof. keep. Qed.

(** ** The handlers *)
Lemma keeps_lift_tx {A} (m : M tx_pdev A) : keeps_tx m -> keeps_dev (lift_tx m).
Proof.
  intros Hm s a s'. unfold lift_tx, mbind, M_bind, get, lift. destruct (m (dv_tx s)) as [[b t]|] eqn:E; [|done].
  intros [= _ <-]. by apply Hm in E.
Qed.
#[local] Hint Extern 2 (keeps _ (lift_tx _)) => (apply keeps_lift_tx) : keeps.
Lemma keeps_update_group grps : forall i v credit b, keeps_tx (update_group_loop grps i v credit b).
Proof. induction grps as [|g grps IH]; intros i v credit b; cbn [update_group_loop]; keep. Qed.
#[local] Hint Resolve keeps_update_group : keeps.
Lemma keeps_msdu_loop body n : (forall i l, keeps_dev (body i l)) -> forall i ids l, keeps_dev (msdu_loop body n i ids l).
Proof. intros Hb. induction n as [|n IH]; intros i ids l; cbn [msdu_loop]; keep. Qed.
Lemma keeps_complete status i l : keeps_dev (complete_msdu status i l).
Proof. keep; apply keeps_lift_tx; keep. Qed.
Lemma keeps_inspect i l : keeps_dev (inspect_msdu i l).
Proof. keep. Qed.
Lemma keeps_discard_target n : forall i, keeps_dev (discard_target_loop n i).
Proof. induction n as [|n IH]; intros i; cbn [discard_target_loop]; keep. Qed.
#[local] Hint Resolve keeps_msdu_loop keeps_complete keeps_inspect keeps_discard_target : keeps.
End Queueing.

(** ** A queue less *)
Lemma Inv_del_queue s q t :
  Inv s -> pd_txqs s !! q = Some t -> txq_flag t <> ol_tx_queue_active -> Inv (set_pd_txqs (delete q) s).
Proof.
  intros [(sch & Hs & Hok & Hcats) Htxq Htot Hpool Hg] Hq Hna. constructor; simpl; try done.
  - exists sch. split_and!; [done|done|]. intros ci c Hc. destruct (Hcats ci c Hc) as [Hnd Hhead Hfr Hb Ha].
    assert (forall f, zsum (val_of f (delete q (pd_txqs s))) (cat_head c) = zsum (val_of f (pd_txqs s)) (cat_head c)) as Hsame.
    { intros f. apply zsum_ext. intros j Hj. apply Hhead in Hj as [(u & Hu & Hact) _]. unfold val_of.
      rewrite lookup_delete_ne; [done|]. intros ->. by simplify_eq. }
    constructor; rewrite ?Hsame; try done. intros j. rewrite Hhead. unfold q_active. split; intros [(u & Hu & Hact) Hh].
    + split; [|done]. exists u. rewrite lookup_delete_ne; [done|]. intros ->. by simplify_eq.
    + apply lookup_delete_Some in Hu as [_ Hu]. eauto.
  - intros j u [_ Hj]%lookup_delete_Some. eauto.
  - unfold total_frms in *. simpl. destruct (Htxq q t Hq) as [Htok _]. pose proof (ok_frms _ _ Htok). pose proof (zlen_nonneg (txq_head t)).
    rewrite (map_sum_delete txq_frms (pd_txqs s) q t) in Htot by done. lia.
Qed.

(** A queue that no category lists is freed under any TID. *)
Lemma queue_free_inactive s q t tid :
  Inv s -> pd_txqs s !! q = Some t -> txq_flag t <> ol_tx_queue_active ->
  ol_tx_queue_free q tid s = Some (tt, set_pd_freed (fun l => l ++ txq_head t) (set_pd_rsrc_cnt (fun n => s32 (n + txq_frms t))
    (set_pd_txqs (<[q := txq_freed t]>) s))).
Proof.
  intros HI Hq Hna. pose proof HI as [(sch & Hs & _) Htxq _ _ _]. destruct (Htxq q t Hq) as [Htok _].
  pose proof (ok_frms _ _ Htok) as Hlen.
  assert (Z.to_nat (txq_frms t) = length (txq_head t)) as Hn by (rewrite Hlen; unfold zlen; lia).
  assert (Hget : get_txq q s = Some (t, s)) by (unfold get_txq, mbind, M_bind, get, lift; by rewrite Hq).
  assert (Hno : ol_tx_sched_notify q (OL_TX_DELETE_QUEUE tid) s = Some (tt, s)).
  { unfold ol_tx_sched_notify, mbind at 1, M_bind at 1, get at 1. rewrite Hs. unfold mbind, M_bind. rewrite Hget. by rewrite bool_decide_false. }
  unfold ol_tx_queue_free. unfold mbind at 1, M_bind at 1. rewrite Hno. unfold mbind at 1, M_bind at 1. rewrite Hget.
  unfold mbind at 1, M_bind at 1. rewrite Hn, ol_tx_queue_free_bytes_spec by done. cbn [lift].
  unfold mbind at 1, M_bind at 1. rewrite (upd_txq_run q _ s t Hq). unfold mbind at 1, M_bind at 1, modify at 1.
  rewrite ol_tx_queue_free_frames_spec.
  match goal with |- context [<[q := ?x]>] => assert (x = txq_freed t) as -> end; [|done].
  unfold txq_freed, set_txq_frms, set_txq_bytes, set_txq_flag, set_txq_head. simpl. rewrite (ok_bytes _ _ Htok). f_equal. transitivity (u32 0); [eqm_solve|done].
Qed.

(** Freed and forgotten. *)
Lemma queue_gone_spec s q t tid :
  Inv s -> pd_txqs s !! q = Some t -> tid = ext_tid_of q \/ txq_flag t <> ol_tx_queue_active ->
  wp (ol_tx_queue_free q tid) (fun _ s' => queue_emptied s q t s' /\ Inv (set_pd_txqs (delete q) s')) s.
Proof.
  intros HI Hq Hor. destruct (decide (txq_flag t = ol_tx_queue_active)) as [Ha|Hna].
  - destruct Hor as [->|]; [|done]. destruct (inv_txq _ HI q t Hq) as [Htok _].
    assert (Hz : txq_paused_total t = 0).
    { destruct (decide (txq_paused_total t = 0)) as [|Hn]; [done|]. apply (ok_flag _ _ Htok) in Hn. by rewrite Ha in Hn. }
    eapply wp_mono; [by apply ol_tx_queue_free_spec|]. intros [] s' [He HI']. split; [done|].
    apply (Inv_del_queue _ q (txq_freed t)); [by apply HI'| |done]. destruct He as (s1 & [sch ->] & ->). cbn. apply lookup_insert_eq.
  - eapply wp_run; [by apply queue_free_inactive|]. split.
    + eexists. split; [|done]. destruct (inv_sched _ HI) as (sch & Hs & _). exists sch. f_equal. unfold set_pd_scheduler. rewrite <- Hs. by destruct s.
    + apply (Inv_env (set_pd_txqs (delete q) s)); [by eapply Inv_del_queue| |done].
      constructor; cbn; try done; [apply delete_insert_eq|apply HI].
Qed.

(** Queues that hold nothing add no frames. *)
Lemma all_frames_fresh (m m' : gmap txq_id txq) :
  (forall q t, m !! q = Some t -> m' !! q = Some t) -> (forall q t, m' !! q = Some t -> m !! q = None -> txq_head t = []) ->
  all_frames m' ≡ₚ all_frames m.
Proof.
  revert m'. induction m as [|q t m Hq IH] using map_ind; intros m' Hsub Hnew.
  - replace (all_frames m') with ([] : list tx_desc); [done|]. symmetry. apply elem_of_nil_inv. intros d Hd.
    apply list_elem_of_bind in Hd as ([j u] & Hd & Hj%elem_of_map_to_list). cbn in Hd. rewrite (Hnew j u Hj (lookup_empty j)) in Hd. by apply not_elem_of_nil in Hd.
  - rewrite all_frames_insert_new by done. rewrite (all_frames_delete m' q t) by (apply Hsub, lookup_insert_eq).
    apply Permutation_app_head, IH.
    + intros j u Hj. rewrite lookup_delete_ne by congruence. apply Hsub. by rewrite lookup_insert_ne by congruence.
    + intros j u [Hne Hj]%lookup_delete_Some Hn. apply (Hnew j u Hj). by rewrite lookup_insert_ne.
Qed.

(** ** On the books *)
Section Device.
Context `{HttTx}.
Implicit Types (s : tx_device) (fl L B : list Z) (dl tgt : gset Z).

Definition dev_queue_gone (q : txq_id) (tid : Z) : MD unit :=
  dev_queue_free q tid;; modify (set_dv_tx (set_pd_txqs (delete q))).

Lemma dev_queue_gone_spec s fl L B dl tgt drift q t tid :
  Books s fl L B dl tgt drift -> pd_txqs (dv_tx s) !! q = Some t -> tid = ext_tid_of q \/ txq_flag t <> ol_tx_queue_active ->
  wp (dev_queue_gone q tid) (fun _ s' => exists fl', Books s' fl' L B dl tgt drift /\
    pd_txqs (dv_tx s') = delete q (pd_txqs (dv_tx s)) /\ pd_tid_to_ac (dv_tx s') = pd_tid_to_ac (dv_tx s)) s.
Proof.
  intros HB Hq Hor. apply wp_bind, on_tx_intro. pose proof (bk_inv _ _ _ _ _ _ _ HB) as HI. pose proof (bk_rep _ _ _ _ _ _ _ HB) as HR.
  destruct (inv_txq _ HI q t Hq) as [Htok _]. pose proof (ok_frms _ _ Htok) as Hlen.
  eapply wp_mono; [by apply (queue_gone_spec (forget_logs (dv_tx s)) q t); [apply Inv_sent, Inv_freed| |]|].
  intros [] t' [(s1 & [sch' ->] & Et') HI']. set (t2 := set_pd_txqs (delete q) t') in *.
  assert (Hdel : pd_txqs t2 = delete q (pd_txqs (dv_tx s))) by (unfold t2; rewrite Et'; cbn; apply delete_insert_eq).
  assert (Hf : queued s ≡ₚ txq_head t ++ all_frames (pd_txqs t2)) by (rewrite Hdel; by apply all_frames_delete).
  assert (Hf' : all_frames (pd_txqs t') ≡ₚ all_frames (pd_txqs t2)).
  { rewrite Hdel, Et'. cbn [set_pd_freed set_pd_rsrc_cnt set_pd_txqs set_pd_scheduler pd_txqs forget_logs].
    rewrite (all_frames_delete _ q (txq_freed t)) by apply lookup_insert_eq. by rewrite delete_insert_eq. }
  assert (Esent : pd_sent t' = []) by (by rewrite Et'). assert (Efreed : pd_freed t' = txq_head t) by (by rewrite Et').
  assert (Er : pd_rsrc_cnt t2 = s32 (pd_rsrc_cnt (dv_tx s) + zlen (txq_head t))) by (unfold t2; rewrite Et'; cbn; by rewrite Hlen).
  assert (Ep : pd_desc_pool_size t' = pd_desc_pool_size (dv_tx s) /\ pd_desc_pool_size t2 = pd_desc_pool_size (dv_tx s)) by (unfold t2; by rewrite Et').
  assert (Ec : pd_target_tx_credit t2 = pd_target_tx_credit (dv_tx s)) by (unfold t2; by rewrite Et').
  assert (Ea : pd_tid_to_ac t2 = pd_tid_to_ac (dv_tx s)) by (unfold t2; by rewrite Et').
  destruct Ep as [Ep Ep2]. clear Et'. rewrite Esent, Efreed. apply (wp_step _ _ _ _ tt _ eq_refl).
  assert (HR1 : DevRep (set_dv_tx (fun _ => t') s) fl ((td_id <$> txq_head t) ++ L) B dl tgt).
  { apply (DevRep_tx s fl L); [done|done| |].
    - rewrite Hf, Hf', fmap_app, !app_assoc. by rewrite (Permutation_app_comm (td_id <$> all_frames _)).
    - intros y Hy. rewrite Hf' in Hy. apply (dr_queued _ _ _ _ _ _ HR). rewrite Hf. apply elem_of_app. by right. }
  eapply wp_mono; [by apply free_each_spec|]. intros [] s' (HR' & Hs).
  pose proof (sr_tx _ _ Hs) as Et. cbn in Et. eapply wp_run; [reflexivity|]. exists (rev (td_id <$> txq_head t) ++ fl).
  assert (Et2 : dv_tx (set_dv_tx (set_pd_txqs (delete q)) s') = t2) by (cbn; by rewrite Et).
  split; [|by rewrite Et2]. constructor; unfold queued; rewrite ?Et2; [|done|rewrite Ec; apply HB|].
  - apply (DevRep_tx s' _ L); [done|by cbn; rewrite Et| |].
    + cbn. unfold queued. rewrite Et. fold t2. by rewrite Hf'.
    + intros y Hy. apply (dr_queued _ _ _ _ _ _ HR'). unfold queued. rewrite Et, Hf'. cbn in Hy. by rewrite Et in Hy.
  - rewrite Er, Ep2, (bk_rsrc _ _ _ _ _ _ _ HB).
    assert (Hl : zlen (queued s) = zlen (txq_head t) + zlen (all_frames (pd_txqs t2))) by (rewrite <- zlen_app; unfold zlen; by rewrite Hf).
    eqm_solve.
Qed.

(** New queues without frames. *)
Lemma Books_fresh_queues s fl L B dl tgt drift t :
  Books s fl L B dl tgt drift -> Inv t -> t = set_pd_txqs (fun _ => pd_txqs t) (dv_tx s) ->
  (forall q x, pd_txqs (dv_tx s) !! q = Some x -> pd_txqs t !! q = Some x) ->
  (forall q x, pd_txqs t !! q = Some x -> pd_txqs (dv_tx s) !! q = None -> txq_head x = []) ->
  Books (set_dv_tx (fun _ => t) s) fl L B dl tgt drift.
Proof.
  intros HB HI E Hsub Hnew. apply Books_tx; [done|done| |by apply all_frames_fresh|by rewrite E|by rewrite E].
  unfold credit_ok. rewrite E. apply HB.
Qed.

Lemma lift_tx_run (m : M tx_pdev unit) s (Q : unit -> tx_device -> Prop) :
  wp m (fun _ t => Q tt (set_dv_tx (fun _ => t) s)) (dv_tx s) -> wp (lift_tx m) Q s.
Proof. intros Hw. apply wp_some in Hw as ([] & t & Hrun & HQ). eapply wp_run; [|exact HQ]. unfold lift_tx, mbind, M_bind, get, lift. by rewrite Hrun. Qed.

(** The queues [K i], for [i] in a range, are new and hold no frame. *)
Definition new_queues s s' (K : Z -> txq_id) (n : Z) (T : Z -> txq) : Prop :=
  pd_tid_to_ac (dv_tx s') = pd_tid_to_ac (dv_tx s) /\
  (forall i, 0 <= i < n -> pd_txqs (dv_tx s') !! K i = Some (T i)) /\
  (forall q, (forall i, 0 <= i < n -> q <> K i) -> pd_txqs (dv_tx s') !! q = pd_txqs (dv_tx s) !! q).

Lemma new_queues_books s fl L B dl tgt drift (K : Z -> txq_id) n (T : Z -> txq) t :
  Books s fl L B dl tgt drift -> Inj (=) (=) K -> (forall i, txq_head (T i) = []) ->
  (forall i, 0 <= i < n -> pd_txqs (dv_tx s) !! K i = None) ->
  Inv t -> t = set_pd_txqs (fun _ => pd_txqs t) (dv_tx s) -> (forall i, 0 <= i < n -> pd_txqs t !! K i = Some (T i)) ->
  (forall q, (forall i, 0 <= i < n -> q <> K i) -> pd_txqs t !! q = pd_txqs (dv_tx s) !! q) ->
  Books (set_dv_tx (fun _ => t) s) fl L B dl tgt drift /\ new_queues s (set_dv_tx (fun _ => t) s) K n T.
Proof.
  intros HB Hinj HT Hnone HI E Hin Hout.
  assert (Hcase : forall q, (exists i, 0 <= i < n /\ q = K i) \/ (forall i, 0 <= i < n -> q <> K i)).
  { intros q. destruct (decide (Exists (fun i => q = K i) (zseq n))) as [Hd|Hd].
    - left. apply list.Exists_exists in Hd as (i & Hi%zseq_elem & ->). eauto.
    - right. intros i Hi ->. apply Hd, list.Exists_exists. exists i. split; [by apply zseq_elem|done]. }
  split; [|split; [by cbn; rewrite E|by split]]. apply Books_fresh_queues; [done|done|done| |].
  - intros q x Hq. destruct (Hcase q) as [(i & Hi & ->)|Hn]; [by rewrite (Hnone i Hi) in Hq|by rewrite Hout].
  - intros q x Hq Hn. destruct (Hcase q) as [(i & Hi & ->)|Hno]; [rewrite (Hin i Hi) in Hq; by simplify_eq|by rewrite Hout, Hn in Hq].
Qed.

Lemma new_vdev_queues_spec s fl L B dl tgt drift v :
  Books s fl L B dl tgt drift -> tids_ok (pd_tid_to_ac (dv_tx s)) ->
  (forall i, 0 <= i < OL_TX_VDEV_NUM_QUEUES -> pd_txqs (dv_tx s) !! VdevTxq v i = None) ->
  wp (lift_tx (ol_txrx_vdev_attach_txqs v)) (fun _ s' => Books s' fl L B dl tgt drift /\
    new_queues s s' (VdevTxq v) OL_TX_VDEV_NUM_QUEUES (fun i => txq_init (OL_TX_NUM_TIDS + i))) s.
Proof.
  intros HB Ht Hn. apply lift_tx_run. eapply wp_mono; [apply ol_txrx_vdev_attach_txqs_spec; [apply HB|done|done]|].
  intros [] t (HI & E & Hin & Hout). eapply new_queues_books; try done. by intros ?? [= ->].
Qed.

Lemma new_peer_queues_spec s fl L B dl tgt drift p v :
  Books s fl L B dl tgt drift -> tids_ok (pd_tid_to_ac (dv_tx s)) ->
  (forall i, 0 <= i < OL_TX_NUM_TIDS -> pd_txqs (dv_tx s) !! PeerTxq p i = None) ->
  wp (lift_tx (ol_txrx_peer_attach_txqs p v)) (fun _ s' => Books s' fl L B dl tgt drift /\
    new_queues s s' (PeerTxq p) OL_TX_NUM_TIDS (fun i => peer_txq_init v i (pd_txq_grps (dv_tx s)))) s.
Proof.
  intros HB Ht Hn. apply lift_tx_run. eapply wp_mono; [apply ol_txrx_peer_attach_txqs_spec; [apply HB|done|done]|].
  intros [] t (HI & E & Hin & Hout). eapply new_queues_books; try done. by intros ?? [= ->].
Qed.
End Device.
