(* ===== verification/SysPath.v ===== *)
(** The transmit path as the data path of the peer table: what a vdev or a peer
    that comes, is authenticated or goes means for queues and descriptors.  The
    state is the device of [DescTypes] with the frames the outside has; it keeps
    what the peer table asks of a data path. *)
From Stdlib Require Import ZArith Lia.
From stdpp Require Import prelude gmap fin_sets list numbers.
From S2P Require Import Prelude.
From S2P Require Import TxTypes.
From S2P Require Import TxCore.
From S2P Require Import TxSched.
From S2P Require Import TxQueue.
From S2P Require Import TxInv.
From S2P Require Import TxDispatch.
From S2P Require Import TxQueueInv.
From S2P Require Import TxInit.
From S2P Require Import DescTypes.
From S2P Require Import DescPool.
From S2P Require Import DescSend.
From S2P Require Import DescOps.
From S2P Require Import DescQueue.
From S2P Require Import DescComplete.
From S2P Require Import DescClient.
From S2P Require Import PeerTypes.
From S2P Require Import SysQueues.

(** ** The operations *)
Section Path.
Context `{HttTx}.

(** A computation of the device; the frames it sends are with the download
    software and the target from then on. *)
Definition on_dev {A} (m : MD A) : M dev_state A := fun x =>
  match m x.1.1 with
  | None => None
  | Some (a, s') => let new := newly_sent s' x.1.2 x.2 in Some (a, (s', new ∪ x.1.2, new ∪ x.2))
  end.
Definition run_dev (m : MD unit) (x : dev_state) : option dev_state := snd <$> on_dev m x.

Definition peer_pause (p : Z) : MD unit := for_each (zseq OL_TX_NUM_TIDS) (fun i => dev_pause (PeerTxq p i) i).
Definition peer_unpause_ext (p : Z) : MD unit := for_each [OL_TX_NON_QOS_TID; OL_TX_MGMT_TID] (fun i => dev_unpause (PeerTxq p i) i).
Definition peer_queues_free (p : Z) : MD unit := for_each (zseq OL_TX_NUM_TIDS) (fun i => dev_queue_gone (PeerTxq p i) i).
Definition vdev_queues_free (v : Z) : MD unit :=
  for_each (zseq OL_TX_VDEV_NUM_QUEUES) (fun i => dev_queue_gone (VdevTxq v i) (OL_TX_NUM_TIDS + i)).

#[export] Instance tx_data_path : DataPath dev_state := {
  dp_vdev_attach v := run_dev (lift_tx (ol_txrx_vdev_attach_txqs v));
  dp_tx_attach p v := run_dev (lift_tx (ol_txrx_peer_attach_txqs p v);; peer_pause p);
  dp_rx_attach _ x := Some x;
  dp_detach _ x := Some x;
  dp_tid_unpause p tid := run_dev (dev_unpause (PeerTxq p tid) tid);
  dp_auth p := run_dev (peer_pause p;; peer_unpause_ext p);
  dp_rx_cleanup _ x := Some x;
  dp_free p := run_dev (peer_queues_free p);
  dp_vdev_free v := run_dev (vdev_queues_free v);
  dp_vdev_gone v := run_dev (vdev_detach_descs v) }.
End Path.

(** ** Computations between conditions on the queues *)
Section Runs.
Context `{HttTx} (L B : list Z).
Implicit Types (Pre Post : tx_pdev -> Prop) (m : MD unit).

Definition runs Pre Post m : Prop := forall s fl dl tgt drift,
  Books s fl L B dl tgt drift -> Pre (dv_tx s) ->
  wp m (fun _ s' => Post (dv_tx s') /\ exists fl' acc drift',
    Books s' fl' L B (acc ∪ dl) (acc ∪ tgt) drift' /\ forall i, i ∈ acc -> i ∉ dl ∪ tgt) s.

Lemma runs_bind Pre Mid Post m k : runs Pre Mid m -> runs Mid Post k -> runs Pre Post (m;; k).
Proof.
  intros Hm Hk s fl dl tgt drift HB Hpre. apply wp_bind. eapply wp_mono; [by eapply Hm|].
  intros [] s1 (Hmid & fl1 & acc1 & drift1 & HB1 & Hacc1). eapply wp_mono; [by eapply Hk|].
  intros [] s2 (Hpost & fl2 & acc2 & drift2 & HB2 & Hacc2). split; [done|]. exists fl2, (acc2 ∪ acc1), drift2.
  rewrite <- !(assoc_L (∪)). split; [done|]. intros i [Hi|Hi]%elem_of_union; [|by apply Hacc1].
  specialize (Hacc2 i Hi). rewrite !elem_of_union in *. tauto.
Qed.

Lemma runs_for_each {A} (f : A -> MD unit) (I : list A -> tx_pdev -> Prop) l :
  (forall a rest, runs (I (a :: rest)) (I rest) (f a)) -> runs (I l) (I []) (for_each l f).
Proof.
  intros Hf. induction l as [|a l IH]; cbn [for_each]; [|by eapply runs_bind].
  intros s fl dl tgt drift HB Hpre. eapply wp_run; [reflexivity|]. split; [done|]. exists fl, ∅, drift. rewrite !union_empty_l_L.
  split; [done|]. by intros i ?%not_elem_of_empty.
Qed.

Lemma runs_weaken (Pre Pre' Post Post' : tx_pdev -> Prop) m :
  runs Pre Post m -> (forall t, Pre' t -> Pre t) -> (forall t, Post t -> Post' t) -> runs Pre' Post' m.
Proof.
  intros Hm H1 H2 s fl dl tgt drift HB Hpre. eapply wp_mono; [by eapply Hm; [|apply H1]|]. intros [] s' [Hp Hrest]. split; [by apply H2|done].
Qed.

(** One that sends nothing. *)
Lemma runs_quiet Pre Post m :
  (forall s fl dl tgt drift, Books s fl L B dl tgt drift -> Pre (dv_tx s) ->
    wp m (fun _ s' => Post (dv_tx s') /\ exists fl', Books s' fl' L B dl tgt drift) s) -> runs Pre Post m.
Proof.
  intros Hm s fl dl tgt drift HB Hpre. eapply wp_mono; [by eapply Hm|]. intros [] s' (Hpost & fl' & HB'). split; [done|].
  exists fl', ∅, drift. rewrite !union_empty_l_L. split; [done|]. by intros i ?%not_elem_of_empty.
Qed.

(** *** The queues there are *)
Definition shape (Qs : txq_id -> Prop) (t : tx_pdev) : Prop :=
  tids_ok (pd_tid_to_ac t) /\ forall q, is_Some (pd_txqs t !! q) <-> Qs q.

Lemma shape_keeps Qs t t' : shape Qs t -> same_queues t t' -> shape Qs t'.
Proof.
  intros [H1 H2] [E1 E2]. split; [by rewrite E2|]. intros q. rewrite <- H2, <- !elem_of_dom. by rewrite E1.
Qed.
Lemma shape_same Qs t t' q x x0 :
  shape Qs t -> pd_txqs t !! q = Some x0 -> pd_txqs t' = <[q := x]> (pd_txqs t) -> pd_tid_to_ac t' = pd_tid_to_ac t -> shape Qs t'.
Proof. intros Hs Hq E1 E2. apply (shape_keeps _ t); [done|]. split; [|done]. rewrite E1. apply dom_insert_lookup_L. eauto. Qed.
Lemma shape_iff (Qs Qs' : txq_id -> Prop) t : shape Qs t -> (forall q, Qs q <-> Qs' q) -> shape Qs' t.
Proof. intros [H1 H2] E. split; [done|]. intros q. by rewrite H2. Qed.

Lemma runs_unpause Qs q : Qs q -> runs (shape Qs) (shape Qs) (dev_unpause q (ext_tid_of q)).
Proof.
  intros Hq s fl dl tgt drift HB Hs. destruct (proj2 (proj2 Hs q) Hq) as [t Ht]. pose proof (dev_unpause_spec s fl L B dl tgt drift q t HB Ht) as Hw.
  apply wp_some in Hw as ([] & s' & Hrun & t1 & _ & cali & sent & freed & _ & _ & Hout & _ & HB'). eapply wp_run; [exact Hrun|].
  split; [eapply shape_keeps; [exact Hs|]; by eapply keeps_dev_unpause|]. eexists _, _, _. split; [exact HB'|].
  intros i Hi%elem_ids_set. apply Hout. rewrite (accepted_refused sent), fmap_app. apply elem_of_app. by left.
Qed.

(** The queues in [l] can be paused once more. *)
Definition can_pause (l : list txq_id) (t : tx_pdev) : Prop :=
  forall q x, q ∈ l -> pd_txqs t !! q = Some x -> txq_paused_total x < 255.

Lemma runs_pause Qs q l :
  Qs q -> q ∉ l -> runs (fun t => shape Qs t /\ can_pause (q :: l) t) (fun t => shape Qs t /\ can_pause l t) (dev_pause q (ext_tid_of q)).
Proof.
  intros Hq Hl. apply runs_quiet. intros s fl dl tgt drift HB [Hs Hc]. destruct (proj2 (proj2 Hs q) Hq) as [t Ht].
  eapply wp_mono; [apply (dev_pause_spec s fl L B dl tgt drift q t HB Ht)|].
  { apply (Hc q); [by apply elem_of_cons; left|done]. }
  intros [] s' [[sch' E] HB']. assert (E1 : pd_txqs (dv_tx s') = <[q := txq_paused t]> (pd_txqs (dv_tx s))) by (by rewrite E).
  split; [|eauto]. split; [eapply shape_same; [exact Hs|exact Ht|exact E1|by rewrite E]|].
  intros j x Hj Hx. rewrite E1, lookup_insert_ne in Hx by congruence. apply (Hc j); [by apply elem_of_cons; right|done].
Qed.

(** The queues in [l] may be freed. *)
Definition can_free (tid : txq_id -> Z) (l : list txq_id) (t : tx_pdev) : Prop :=
  forall q x, q ∈ l -> pd_txqs t !! q = Some x -> tid q = ext_tid_of q \/ txq_flag x <> ol_tx_queue_active.

Lemma runs_gone tid R q l :
  ~ R q -> q ∉ l -> runs (fun t => shape (fun j => R j \/ j ∈ q :: l) t /\ can_free tid (q :: l) t)
    (fun t => shape (fun j => R j \/ j ∈ l) t /\ can_free tid l t) (dev_queue_gone q (tid q)).
Proof.
  intros HR Hl. apply runs_quiet. intros s fl dl tgt drift HB [Hs Hc].
  destruct (proj2 (proj2 Hs q)) as [t Ht]; [right; by apply elem_of_cons; left|].
  eapply wp_mono; [apply (dev_queue_gone_spec s fl L B dl tgt drift q t (tid q) HB Ht)|].
  { apply (Hc q); [by apply elem_of_cons; left|done]. }
  intros [] s' (fl' & HB' & E1 & E2). split; [|eauto]. split.
  - destruct Hs as [Ht1 Hs]. split; [by rewrite E2|]. intros j. rewrite E1. destruct (decide (j = q)) as [->|Hne].
    + rewrite lookup_delete_eq. split; [by intros [? ?]|by intros [?|?]].
    + rewrite lookup_delete_ne by done. rewrite Hs, elem_of_cons. tauto.
  - intros j x Hj Hx. rewrite E1 in Hx. apply lookup_delete_Some in Hx as [_ Hx]. apply (Hc j); [by apply elem_of_cons; right|done].
Qed.
End Runs.

(** ** What the peer table asks for *)
Section Ok.
Context `{HttTx} (L B : list Z).
Implicit Types (V P : gset Z) (x : dev_state).

(** The queues of vdevs [V] and peers [P]. *)
Definition queue_of V P (q : txq_id) : Prop :=
  match q with
  | VdevTxq v i => v ∈ V /\ 0 <= i < OL_TX_VDEV_NUM_QUEUES
  | PeerTxq p tid => p ∈ P /\ 0 <= tid < OL_TX_NUM_TIDS
  end.

Definition path_books x : Prop := exists fl drift, Books x.1.1 fl L B x.1.2 x.2 drift.
Definition path_ok V P x : Prop := path_books x /\ shape (queue_of V P) (dv_tx x.1.1).

Lemma on_dev_run {A} (m : MD A) (Q : A -> tx_device -> Prop) x L' B' :
  wp m (fun a s' => Q a s' /\ exists fl' acc drift', Books s' fl' L' B' (acc ∪ x.1.2) (acc ∪ x.2) drift' /\ forall i, i ∈ acc -> i ∉ x.1.2 ∪ x.2) x.1.1 ->
  exists a s' dl tgt fl drift, on_dev m x = Some (a, (s', dl, tgt)) /\ Q a s' /\ Books s' fl L' B' dl tgt drift.
Proof.
  intros Hw. apply wp_some in Hw as (a & s' & Hrun & HQ & fl & acc & drift & HB & Hacc).
  exists a, s', (acc ∪ x.1.2), (acc ∪ x.2), fl, drift. split; [|done]. unfold on_dev. rewrite Hrun. cbv zeta.
  by rewrite (newly_sent_books _ _ _ _ _ _ _ _ HB Hacc).
Qed.

Lemma run_dev_ok (Pre Post : tx_pdev -> Prop) m x :
  runs L B Pre Post m -> path_books x -> Pre (dv_tx x.1.1) -> exists x', run_dev m x = Some x' /\ path_books x' /\ Post (dv_tx x'.1.1).
Proof.
  intros Hm (fl & drift & HB) Hpre. destruct (on_dev_run m (fun _ s' => Post (dv_tx s')) x L B) as ([] & s' & dl & tgt & fl' & drift' & Hrun & HQ & HB').
  { by eapply Hm. }
  exists (s', dl, tgt). unfold run_dev. rewrite Hrun. split; [done|]. split; [by exists fl', drift'|done].
Qed.

(** New queues. *)
Lemma runs_new m (K : Z -> txq_id) n (T : tx_device -> Z -> txq) R :
  (forall s fl dl tgt drift, Books s fl L B dl tgt drift -> tids_ok (pd_tid_to_ac (dv_tx s)) ->
    (forall i, 0 <= i < n -> pd_txqs (dv_tx s) !! K i = None) ->
    wp m (fun _ s' => Books s' fl L B dl tgt drift /\ new_queues s s' K n (T s)) s) ->
  (forall i, 0 <= i < n -> ~ R (K i)) -> (forall s i, txq_paused_total (T s i) = 0) ->
  runs L B (shape R) (fun t => shape (fun q => R q \/ exists i, 0 <= i < n /\ q = K i) t /\ can_pause (K <$> zseq n) t) m.
Proof.
  intros Hm HR HT. apply runs_quiet. intros s fl dl tgt drift HB [Ht Hs].
  eapply wp_mono; [by eapply Hm; [| |intros i Hi; apply eq_None_not_Some; rewrite Hs; apply HR]|].
  intros [] s' (HB' & E & Hin & Hout). split; [|eauto]. split; [split; [by rewrite E|]|].
  - intros q. destruct (decide (Exists (fun i => q = K i) (zseq n))) as [Hd|Hd].
    + apply list.Exists_exists in Hd as (i & Hi%zseq_elem & ->). rewrite (Hin i Hi). split; [eauto|done].
    + rewrite Hout.
      * rewrite Hs. split; [by left|]. intros [?|(i & Hi & ->)]; [done|]. destruct Hd. apply list.Exists_exists. exists i. split; [by apply zseq_elem|done].
      * intros i Hi ->. apply Hd, list.Exists_exists. exists i. split; [by apply zseq_elem|done].
  - intros q x (i & -> & Hi%zseq_elem)%list_elem_of_fmap Hx. rewrite (Hin i Hi) in Hx. injection Hx as <-. rewrite HT. lia.
Qed.

(** All queues of a list. *)
Lemma runs_pause_all Qs (K : Z -> txq_id) l :
  (forall i, i ∈ l -> Qs (K i)) -> NoDup (K <$> l) ->
  runs L B (fun t => shape Qs t /\ can_pause (K <$> l) t) (shape Qs) (for_each l (fun i => dev_pause (K i) (ext_tid_of (K i)))).
Proof.
  intros HQ Hnd. eapply runs_weaken; [apply (runs_for_each L B _ (fun l t => (forall i, i ∈ l -> Qs (K i)) /\ NoDup (K <$> l) /\ shape Qs t /\ can_pause (K <$> l) t))| |].
  - intros a rest s fl dl tgt drift HB (HQ' & Hnd' & Hs & Hc). rewrite fmap_cons in Hnd'. apply list.NoDup_cons in Hnd' as [Ha Hnd'].
    eapply wp_mono; [eapply (runs_pause L B Qs (K a) (K <$> rest)); [apply HQ'; by apply elem_of_cons; left|done|exact HB|by split]|].
    intros [] s' [[Hs' Hc'] Hrest]. split; [|done]. split_and!; try done. intros i Hi. apply HQ'. by apply elem_of_cons; right.
  - intros t [Hs Hc]. by split_and!.
  - by intros t (_ & _ & Hs & _).
Qed.

Lemma runs_gone_all tid R (K : Z -> txq_id) l :
  (forall i, i ∈ l -> ~ R (K i)) -> NoDup (K <$> l) ->
  runs L B (fun t => shape (fun q => R q \/ q ∈ K <$> l) t /\ can_free tid (K <$> l) t) (shape R)
    (for_each l (fun i => dev_queue_gone (K i) (tid (K i)))).
Proof.
  intros HR Hnd. eapply runs_weaken; [apply (runs_for_each L B _ (fun l t => (forall i, i ∈ l -> ~ R (K i)) /\ NoDup (K <$> l) /\
    shape (fun q => R q \/ q ∈ K <$> l) t /\ can_free tid (K <$> l) t))| |].
  - intros a rest s fl dl tgt drift HB (HR' & Hnd' & Hs & Hc). rewrite fmap_cons in Hnd'. apply list.NoDup_cons in Hnd' as [Ha Hnd'].
    eapply wp_mono; [eapply (runs_gone L B tid R (K a) (K <$> rest)); [apply HR'; by apply elem_of_cons; left|done|exact HB|by split]|].
    intros [] s' [[Hs' Hc'] Hrest]. split; [|done]. split_and!; try done. intros i Hi. apply HR'. by apply elem_of_cons; right.
  - intros t [Hs Hc]. by split_and!.
  - intros t (_ & _ & Hs & _). eapply shape_iff; [exact Hs|]. intros q. split; [intros [?|?%not_elem_of_nil]; done|by left].
Qed.

Lemma peer_keys p l : NoDup l -> NoDup (PeerTxq p <$> l).
Proof. intros Hl. apply list.NoDup_fmap_2; [by intros ?? [= ->]|done]. Qed.
Lemma vdev_keys v l : NoDup l -> NoDup (VdevTxq v <$> l).
Proof. intros Hl. apply list.NoDup_fmap_2; [by intros ?? [= ->]|done]. Qed.

Lemma peer_queue V P p q : queue_of V ({[p]} ∪ P) q <-> queue_of V P q \/ exists i, 0 <= i < OL_TX_NUM_TIDS /\ q = PeerTxq p i.
Proof.
  destruct q as [v i|p' i]; cbn; [split; [by left|by intros [?|(? & _ & ?)]]|]. rewrite elem_of_union, elem_of_singleton. split.
  - intros [[->|Hp] Hi]; [right; eauto|by left].
  - intros [[Hp Hi]|(j & Hj & [= -> ->])]; tauto.
Qed.
Lemma vdev_queue V P v q : queue_of ({[v]} ∪ V) P q <-> queue_of V P q \/ exists i, 0 <= i < OL_TX_VDEV_NUM_QUEUES /\ q = VdevTxq v i.
Proof.
  destruct q as [v' i|p i]; cbn; [|split; [by left|by intros [?|(? & _ & ?)]]]. rewrite elem_of_union, elem_of_singleton. split.
  - intros [[->|Hp] Hi]; [right; eauto|by left].
  - intros [[Hp Hi]|(j & Hj & [= -> ->])]; tauto.
Qed.

Lemma runs_peer_pause V P p :
  p ∈ P -> runs L B (fun t => shape (queue_of V P) t /\ can_pause (PeerTxq p <$> zseq OL_TX_NUM_TIDS) t) (shape (queue_of V P)) (peer_pause p).
Proof. intros Hp. apply (runs_pause_all (queue_of V P) (PeerTxq p)); [by intros i Hi%zseq_elem|apply peer_keys, zseq_nodup]. Qed.
End Ok.

(** ** Descriptors keep their vdev or lose it *)
Definition vdevs_kept (s s' : tx_device) : Prop :=
  forall i d', znth (dv_pool s') i = Some d' -> ds_vdev d' = None \/ exists d, znth (dv_pool s) i = Some d /\ ds_vdev d' = ds_vdev d.

#[export] Instance vdevs_kept_preorder : PreOrder vdevs_kept.
Proof.
  split; [intros s i d Hd; right; eauto|]. intros s1 s2 s3 H1 H2 i d Hd. destruct (H2 i d Hd) as [|(d2 & Hd2 & E)]; [by left|].
  destruct (H1 i d2 Hd2) as [|(d1 & Hd1 & E1)]; [left; congruence|]. right. exists d1. split; [done|congruence].
Qed.

Section Vdevs.
Context `{HttTx}.

Lemma keeps_upd_desc i f : (forall d, ds_vdev (f d) = ds_vdev d \/ ds_vdev (f d) = None) -> keeps vdevs_kept (upd_desc i f).
Proof.
  intros Hf s a s'. unfold upd_desc, get_desc, mbind, M_bind, get, lift, modify. destruct (znth (dv_pool s) i) as [d|] eqn:Ed; [|done].
  intros [= _ <-] j d' Hd'. cbn in Hd'. destruct (decide (j = i)) as [->|Hne].
  - rewrite znth_zset_eq in Hd' by (by eapply znth_lt_Some). injection Hd' as <-. destruct (Hf d) as [E|E]; [right; eauto|by left].
  - rewrite znth_zset_ne in Hd' by (congruence || by eapply znth_lt_Some). right. eauto.
Qed.
#[local] Hint Extern 1 (keeps vdevs_kept (upd_desc _ _)) => (apply keeps_upd_desc; intros ?; (by left) || (by right)) : keeps.
#[local] Hint Extern 1 (keeps vdevs_kept (modify _)) => (apply keeps_modify; intros ? ? ? ?; right; eexists; split; [eassumption|reflexivity]) : keeps.

Lemma keeps_vdevs_on_tx free (m : M tx_pdev unit) : (forall l, keeps vdevs_kept (free l)) -> keeps vdevs_kept (on_tx free m).
Proof. intros Hf. unfold on_tx. keep. Qed.

Lemma keeps_vdevs_gone q tid : keeps vdevs_kept (dev_queue_gone q tid).
Proof. unfold dev_queue_gone, dev_queue_free. apply keeps_bind; [typeclasses eauto|apply keeps_vdevs_on_tx; keep|keep]. Qed.
#[local] Hint Resolve keeps_vdevs_gone : keeps.
Lemma keeps_vdevs_free p : keeps vdevs_kept (peer_queues_free p).
Proof. unfold peer_queues_free. apply keeps_for_each; [typeclasses eauto|]. intros i. apply keeps_vdevs_gone. Qed.
End Vdevs.

(** ** The instance *)
Section Instance.
Context `{HttTx} (L B : list Z).
Implicit Types (V P : gset Z) (x : dev_state).

Definition unnamed (v : Z) x : Prop := forall i d, znth (dv_pool x.1.1) i = Some d -> ds_vdev d <> Some v.
Definition vdev_idle (v : Z) x : Prop :=
  forall i t, 0 <= i < OL_TX_VDEV_NUM_QUEUES -> pd_txqs (dv_tx x.1.1) !! VdevTxq v i = Some t -> txq_flag t <> ol_tx_queue_active.
Definition can_auth (p : Z) x : Prop := can_pause (PeerTxq p <$> zseq OL_TX_NUM_TIDS) (dv_tx x.1.1).

(** The TID under which a queue that ends is freed. *)
Definition end_tid (q : txq_id) : Z := match q with VdevTxq _ i => OL_TX_NUM_TIDS + i | PeerTxq _ tid => tid end.

Lemma vdev_gone_ok V P v x : path_ok L B V P x -> exists x', run_dev (vdev_detach_descs v) x = Some x' /\ path_ok L B V P x' /\ unnamed v x'.
Proof.
  intros [(fl & drift & HB) Hs].
  destruct (on_dev_run (vdev_detach_descs v) (fun _ s' => dv_tx s' = dv_tx x.1.1 /\ forall i d, znth (dv_pool s') i = Some d -> ds_vdev d <> Some v) x L B)
    as ([] & s' & dl & tgt & fl' & drift' & Hrun & [E Hun] & HB').
  - eapply wp_mono; [by eapply vdev_detach_descs_spec|]. intros [] s' (HB' & E & _ & Hd). split.
    + split; [done|]. intros i d' Hi. destruct (znth_in_range (dv_pool x.1.1) i) as [d Hd0].
      { rewrite (dr_size _ _ _ _ _ _ (bk_rep _ _ _ _ _ _ _ HB)), <- E, <- (dr_size _ _ _ _ _ _ (bk_rep _ _ _ _ _ _ _ HB')). by eapply znth_lt_Some. }
      destruct (Hd i d Hd0) as (d2 & Hd2 & Ev). assert (d2 = d') as -> by congruence. rewrite Ev. by case_bool_decide.
    + exists fl, ∅, drift. rewrite !union_empty_l_L. split; [done|]. by intros i ?%not_elem_of_empty.
  - exists (s', dl, tgt). unfold run_dev. rewrite Hrun. split; [done|]. split; [|done]. split; [by exists fl', drift'|]. cbn. by rewrite E.
Qed.

Lemma free_ok V P p x : path_ok L B V P x -> p ∈ P -> exists x', run_dev (peer_queues_free p) x = Some x' /\ path_ok L B V (P ∖ {[p]}) x' /\
  forall v, unnamed v x -> unnamed v x'.
Proof.
  intros [Hx Hs] Hp. destruct (run_dev_ok L B _ _ (peer_queues_free p) x (runs_gone_all L B end_tid (queue_of V (P ∖ {[p]})) (PeerTxq p) (zseq OL_TX_NUM_TIDS)
    ltac:(intros i Hi [Hbad _]; set_solver) (peer_keys p _ (zseq_nodup _))) Hx) as (x' & Hrun & Hx' & Hs').
  - split; [|intros q t (i & -> & Hi)%list_elem_of_fmap _; by left]. eapply shape_iff; [exact Hs|]. intros q.
    rewrite (union_difference_singleton_L p P Hp) at 1. rewrite peer_queue, list_elem_of_fmap. setoid_rewrite zseq_elem. naive_solver.
  - exists x'. split; [done|]. split; [done|]. intros v Hv i d' Hd'. unfold run_dev, on_dev in Hrun.
    destruct (peer_queues_free p x.1.1) as [[[] s']|] eqn:E; [|done]. injection Hrun as <-.
    destruct (keeps_vdevs_free p _ _ _ E i d' Hd') as [->|(d & Hd & ->)]; [done|by apply (Hv i d)].
Qed.

#[export] Program Instance tx_data_path_ok : DataPathOk dev_state := {
  dp_ok := path_ok L B;
  dp_begun p V P := path_ok L B V ({[p]} ∪ P);
  dp_ending _ V P := path_ok L B V P;
  dp_vdev_idle := vdev_idle;
  dp_can_auth := can_auth;
  dp_unnamed := unnamed }.
Next Obligation.
  intros V P v x [Hx Hs] Hv. destruct (run_dev_ok L B _ _ _ x (runs_new L B (lift_tx (ol_txrx_vdev_attach_txqs v)) (VdevTxq v) OL_TX_VDEV_NUM_QUEUES
    (fun _ i => txq_init (OL_TX_NUM_TIDS + i)) (queue_of V P) ltac:(intros; by apply new_vdev_queues_spec) ltac:(by intros i _ [? _]) ltac:(done)) Hx Hs)
    as (x' & Hrun & Hx' & Hs' & _).
  exists x'. split; [done|]. split; [done|]. eapply shape_iff; [exact Hs'|]. intros q. by rewrite vdev_queue.
Qed.
Next Obligation.
  intros V P p v x [Hx Hs] Hp.
  assert (Hr : runs L B (shape (queue_of V P)) (shape (queue_of V ({[p]} ∪ P))) (lift_tx (ol_txrx_peer_attach_txqs p v);; peer_pause p)).
  { eapply runs_bind; [|apply (runs_peer_pause L B V ({[p]} ∪ P)); set_solver].
    eapply runs_weaken; [apply (runs_new L B (lift_tx (ol_txrx_peer_attach_txqs p v)) (PeerTxq p) OL_TX_NUM_TIDS
      (fun s i => peer_txq_init v i (pd_txq_grps (dv_tx s))) (queue_of V P)); [intros; by apply new_peer_queues_spec|by intros i _ [? _]|done]|done|].
    intros t [Hs' Hc]. split; [|done]. eapply shape_iff; [exact Hs'|]. intros q. by rewrite peer_queue. }
  destruct (run_dev_ok L B _ _ _ x Hr Hx Hs) as (x' & Hrun & Hx' & Hs'). by exists x'.
Qed.
Next Obligation. intros V P p x Hx _. by exists x. Qed.
Next Obligation. intros V P p x Hx _. by exists x. Qed.
Next Obligation.
  intros V P p tid x [Hx Hs] Hp Ht. destruct (run_dev_ok L B _ _ _ x (runs_unpause L B (queue_of V P) (PeerTxq p tid) ltac:(by split)) Hx Hs) as (x' & Hrun & Hx' & Hs').
  by exists x'.
Qed.
Next Obligation.
  intros V P p x [Hx Hs] Hp Hc.
  assert (Hr : runs L B (fun t => shape (queue_of V P) t /\ can_pause (PeerTxq p <$> zseq OL_TX_NUM_TIDS) t) (shape (queue_of V P)) (peer_pause p;; peer_unpause_ext p)).
  { eapply runs_bind; [by apply runs_peer_pause|]. unfold peer_unpause_ext, OL_TX_NON_QOS_TID, OL_TX_MGMT_TID. cbn [for_each].
    eapply runs_bind; [apply (runs_unpause L B (queue_of V P) (PeerTxq p 16)); by split|].
    eapply runs_bind; [apply (runs_unpause L B (queue_of V P) (PeerTxq p 17)); by split|]. apply (runs_for_each L B (fun _ : Z => skip) (fun _ => shape (queue_of V P)) []).
    intros a rest. apply runs_quiet. intros s fl dl tgt drift HB Hs'. eapply wp_run; [reflexivity|]. eauto. }
  destruct (run_dev_ok L B _ _ _ x Hr Hx ltac:(by split)) as (x' & Hrun & Hx' & Hs'). by exists x'.
Qed.
Next Obligation.
  intros V P v x [Hx Hs] Hv Hi. destruct (run_dev_ok L B _ _ (vdev_queues_free v) x (runs_gone_all L B end_tid (queue_of (V ∖ {[v]}) P) (VdevTxq v) (zseq OL_TX_VDEV_NUM_QUEUES)
    ltac:(intros i Hj [Hbad _]; set_solver) (vdev_keys v _ (zseq_nodup _))) Hx) as (x' & Hrun & Hx' & Hs').
  - split; [|intros q t (i & -> & Hj%zseq_elem)%list_elem_of_fmap Ht; right; by apply (Hi i)]. eapply shape_iff; [exact Hs|]. intros q.
    rewrite (union_difference_singleton_L v V Hv) at 1. rewrite vdev_queue, list_elem_of_fmap. setoid_rewrite zseq_elem. naive_solver.
  - by exists x'.
Qed.
Next Obligation. intros V P v x Hx. by apply vdev_gone_ok. Qed.
Next Obligation. intros V P p x Hx _. by exists x. Qed.
Next Obligation. intros V P p v x Hx. by apply vdev_gone_ok. Qed.
Next Obligation. intros V P p x Hx Hp. by apply free_ok. Qed.
End Instance.
