(* ===== verification/SysEntry.v ===== *)
(** The entry of the transmit path with its parts together ([ol_tx.c]): a frame
    takes a descriptor, is classified by the peer table, and enters a queue of
    the peer or the vdev, or is dropped; other threads may use the peer table
    between its classification and its end.  The operations of the whole, and the
    states they lead to. *)
From Stdlib Require Import ZArith Lia.
From stdpp Require Import prelude gmap list numbers gmultiset.
From S2P Require Import Prelude.
From S2P Require Import TxTypes.
From S2P Require Import TxCore.
From S2P Require Import TxSched.
From S2P Require Import TxQueue.
From S2P Require Import TxInit.
From S2P Require Import DescTypes.
From S2P Require Import DescPool.
From S2P Require Import DescSend.
From S2P Require Import DescEntry.
From S2P Require Import DescClient.
From S2P Require Import PeerTypes.
From S2P Require Import PeerTable.
From S2P Require Import PeerRep.
From S2P Require Import PeerOps.
From S2P Require Import PeerClient.
From S2P Require Import TxClassify.
From S2P Require Import TxClassifySpec.
From S2P Require Import SysPath.

(** A frame as the operating system hands it over: the buffer, the bytes, what
    [adf_nbuf_get_tid] returns, and what [nbuf] says of it. *)
Record msdu := mk_msdu {
  ms_netbuf : Z;
  ms_frame : frame;
  ms_tid : Z;
  ms_id_storage : bool;
  ms_exemption : Z;
  ms_cksum : Z }.
Definition nbuf_of (m : msdu) : nbuf := mk_nbuf (zlen (fr_data (ms_frame m))) (ms_id_storage m) (ms_exemption m) (ms_cksum m).

Definition htt_pkt_type_mgmt : Z := 3.

(** [vos_mem_zero(&tx_msdu_info)]. *)
Definition zero_info : tx_msdu_info := mk_tx_msdu_info None 0 false 0 0 0 0 false.

Section Entry.
Context `{HttTx} (cfg : tx_cfg).
Notation MP := (M (peer_pdev dev_state)).

Definition with_dev {A} (m : MD A) : MP A :=
  s ← get; '(a, x) ← lift (on_dev m (pp_data s)); modify (set_pp_data (fun _ => x));; mret a.

(** A descriptor for the frame; [do_encrypt] of [ti] may stay. *)
Definition take_desc (v : Z) (b : Z) (ti : tx_msdu_info) : MP (option Z * tx_msdu_info) :=
  '(o, mi) ← with_dev (ol_tx_desc_hl v b (htt_pkt_type_of (cfg_frame_format cfg)) (mk_msdu_info 0 0 0 (ti_do_encrypt ti)));
  mret (o, set_ti_do_encrypt (fun _ => mi_do_encrypt mi) ti).

Definition enqueue_as (q : txq_id) (ext_tid i : Z) : MD unit :=
  b ← get_netbuf i; n ← get_nbuf b; dev_enqueue q (mk_tx_desc i (nb_len n) (nb_id_storage n)) ext_tid.

Definition drop_desc (i : Z) : MD unit := add_rsrc 1;; ol_tx_desc_frame_free_nonstd i true.

Definition unref_peer (o : option Z) : MP unit :=
  match o with Some p => ol_txrx_peer_unref_delete p | None => skip end.

(** ** Data frames *)

(** The first half of the loop of [ol_tx_hl_base], to the classification, without
    the radiotap header of the monitor mode and the headers of the OCB mode.
    [tdls] is as in [ol_tx_classify]. *)
Definition hl_classify (v tx_spec : Z) (tdls : option mac_addr) (m : msdu) (ti : tx_msdu_info) : MP (option (Z * option txq_id) * tx_msdu_info) :=
  '(o, ti) ← take_desc v (ms_netbuf m) (set_ti_peer (fun _ => None) ti);
  match o with
  | None => mret (None, ti)
  | Some i =>
    with_dev (upd_desc i (set_ds_pkt_type (spec_pkt_type tx_spec)));;
    let ti := set_ti_l2_hdr_type (fun _ => htt_pkt_type_of (cfg_frame_format cfg)) (set_ti_ext_tid (fun _ => ms_tid m) ti) in
    '(txq, ti) ← ol_tx_classify cfg tdls v (ms_frame m) ti;
    mret (Some (i, txq), ti)
  end.

(** The second half. *)
Definition hl_finish (i : Z) (txq : option txq_id) (ti : tx_msdu_info) : MP unit :=
  match txq with
  | None => with_dev (drop_desc i);; unref_peer (ti_peer ti)
  | Some q =>
    ok ← tx_peer_permits ti;
    (if (ok : bool) then with_dev (enqueue_as q (ti_ext_tid ti) i) else with_dev (drop_desc i));;
    unref_peer (ti_peer ti)
  end.

(** One frame, with what others do in the middle of it; [false]: no
    descriptor. *)
Definition ol_tx_hl_frame (v tx_spec : Z) (tdls : option mac_addr) (m : msdu) (others : MP unit) (ti : tx_msdu_info) : MP (bool * tx_msdu_info) :=
  '(r, ti) ← hl_classify v tx_spec tdls m ti;
  match r with
  | None => mret (false, ti)
  | Some (i, txq) => others;; hl_finish i txq ti;; mret (true, ti)
  end.

(** The whole list; [ti] is on the stack, uninitialised at first and never
    cleared. *)
Fixpoint ol_tx_hl_list (v tx_spec : Z) (tdls : option mac_addr) (msdus : list msdu) (call_sched : bool) (ti : tx_msdu_info) : MP (list Z) :=
  match msdus with
  | [] => when call_sched (with_dev dev_sched);; mret []
  | m :: rest =>
    '(ok, ti) ← ol_tx_hl_frame v tx_spec tdls m skip ti;
    if (ok : bool) then ol_tx_hl_list v tx_spec tdls rest call_sched ti else mret (ms_netbuf <$> msdus)
  end.

(** ** Management frames *)
Definition mgmt_classify (v type : Z) (m : msdu) : MP (option (Z * option txq_id) * tx_msdu_info) :=
  let ti := set_ti_l2_hdr_type (fun _ => htt_pkt_type_mgmt) (set_ti_ext_tid (fun _ => HTT_TX_EXT_TID_MGMT) zero_info) in
  '(o, ti) ← take_desc v (ms_netbuf m) ti;
  match o with
  | None => with_dev (adf_nbuf_unmap (ms_netbuf m));; mret (None, ti)
  | Some i =>
    with_dev (upd_desc i (set_ds_pkt_type (fun _ => type + OL_TXRX_MGMT_TYPE_BASE)));;
    '(txq, ti) ← ol_tx_classify_mgmt cfg v (ms_frame m) ti;
    mret (Some (i, txq), ti)
  end.

Definition mgmt_finish (i : Z) (txq : option txq_id) (ti : tx_msdu_info) : MP bool :=
  match txq with
  | None => with_dev (drop_desc i);; unref_peer (ti_peer ti);; mret false
  | Some q => with_dev (enqueue_as q (ti_ext_tid ti) i);; unref_peer (ti_peer ti);; with_dev dev_sched;; mret true
  end.

Definition ol_txrx_mgmt_frame (v type : Z) (m : msdu) (others : MP unit) : MP bool :=
  '(r, ti) ← mgmt_classify v type m;
  match r with
  | None => mret false
  | Some (i, txq) => others;; mgmt_finish i txq ti
  end.

(** ** The whole *)
Inductive sys_op :=
  | sys_peer (o : PeerClient.op)
  | sys_dev (o : dev_op)
  | sys_list (v tx_spec : Z) (tdls : option mac_addr) (msdus : list msdu) (call_sched : bool) (ti : tx_msdu_info)
  | sys_data (v tx_spec : Z) (tdls : option mac_addr) (m : msdu) (others : list call) (ti : tx_msdu_info)
  | sys_mgmt (v type : Z) (m : msdu) (others : list call).

(** A call of the device alone, with what it takes from the outside. *)
Definition dev_run (o : dev_op) : MP unit :=
  s ← get; '(_, s') ← lift (DescClient.run_op o (pp_data s).1.1);
  modify (set_pp_data (fun _ => after o (pp_data s).1.1 (pp_data s).1.2 (pp_data s).2 s')).

(** A buffer arrives, and goes back to the caller when it is not accepted. *)
Definition run_sys (o : sys_op) : MP (option Z) :=
  match o with
  | sys_peer o => PeerClient.run_op o
  | sys_dev o => dev_run o;; mret None
  | sys_list v tx_spec tdls msdus call_sched ti =>
    for_each msdus (fun m => with_dev (new_nbuf (ms_netbuf m) (nbuf_of m)));;
    rest ← ol_tx_hl_list v tx_spec tdls msdus call_sched ti;
    for_each rest (fun b => with_dev (drop_nbuf b));; mret None
  | sys_data v tx_spec tdls m others ti =>
    with_dev (new_nbuf (ms_netbuf m) (nbuf_of m));;
    '(ok, _) ← ol_tx_hl_frame v tx_spec tdls m (run_calls others) ti;
    when (negb ok) (with_dev (drop_nbuf (ms_netbuf m)));; mret None
  | sys_mgmt v type m others =>
    with_dev (new_nbuf (ms_netbuf m) (nbuf_of m));;
    s ← get;
    _ ← ol_txrx_mgmt_frame v type m (run_calls others);
    when (bool_decide (dv_freelist (pp_data s).1.1 = None)) (with_dev (drop_nbuf (ms_netbuf m)));; mret None
  end.
End Entry.
