(* ===== verification/SysSafe.v ===== *)
(** The books of the whole: the peer table keeps its accounts while the transmit
    path below it works; a reference of one's own is out of the reach of
    others.

    A frame from its entry to its queue: its descriptor, its buffer and the
    reference to its peer are accounted for on every path, whatever others do to
    the peer table in between. *)
From Stdlib Require Import ZArith Lia.
From stdpp Require Import prelude gmap fin_sets list numbers gmultiset.
From S2P Require Import Prelude.
From S2P Require Import TxTypes.
From S2P Require Import TxCore.
From S2P Require Import TxSched.
From S2P Require Import TxInv.
From S2P Require Import TxDispatch.
From S2P Require Import TxQueueInv.
From S2P Require Import DescTypes.
From S2P Require Import DescPool.
From S2P Require Import DescSend.
From S2P Require Import DescOps.
From S2P Require Import DescFree.
From S2P Require Import DescQueue.
From S2P Require Import DescComplete.
From S2P Require Import DescEntry.
From S2P Require Import DescClient.
From S2P Require Import PeerTypes.
From S2P Require Import PeerTable.
From S2P Require Import PeerRep.
From S2P Require Import PeerSpec.
From S2P Require Import PeerInv.
From S2P Require Import PeerOps.
From S2P Require Import PeerVdev.
From S2P Require Import PeerClient.
From S2P Require Import PeerSafe.
From S2P Require Import TxClassify.
From S2P Require Import TxClassifySpec.
From S2P Require Import SysQueues.
From S2P Require Import SysPath.
From S2P Require Import SysEntry.

(** ** Another state of the data path *)
Section Retarget.
Context {D : Type} `{DataPath D} (ok1 ok2 : DataPathOk D).

(** The accounts speak of the data path in one clause only. *)
Lemma Accounts_retarget (s : peer_pdev D) d r :
  Accounts (H0 := ok1) s r -> dp_ok (DataPathOk := ok2) (list_to_set (pp_vdev_list s)) (dom (pp_peers s)) d ->
  Accounts (H0 := ok2) (set_pp_data (fun _ => d) s) r.
Proof.
  intros [(L & fl & [R1 R2 R3 R4 R5 R6 R7 R8] & [F1 F2 F3 F4 F5 F6] & [I1 I2 I3 I4 I5 I6 I7 I8]) [V1 V2 V3] Hh] Hd. split; [|done|done].
  exists L, fl. split; [|split]; [|done..]. by constructor.
Qed.
End Retarget.

(** ** References of one's own *)
Section Frame.
Context {D : Type} `{DataPathOk D}.
Implicit Types (s : peer_pdev D) (r F : gmultiset Z).

Lemma allowed_frame c s r F : allowed c s r -> allowed c s (F ⊎ r).
Proof. intros [Hr Hc]. split; [done|]. destruct c; try done. cbn in *. by apply gmultiset_elem_of_disj_union; right. Qed.

Lemma refs_after_frame c o s r F : allowed c s r -> refs_after c o (F ⊎ r) = F ⊎ refs_after c o r.
Proof.
  intros [_ Hc]. destruct c; cbn [refs_after allowed] in *; try (destruct o; [|done]; multiset_solver).
  apply gmultiset_eq. intros q. rewrite elem_of_multiplicity in Hc. rewrite multiplicity_difference, !multiplicity_disj_union, multiplicity_difference, multiplicity_singleton.
  destruct (decide (q = p)) as [->|]; lia.
Qed.

Lemma calls_frame l F : forall s r, allowed_calls l s r ->
  allowed_calls l s (F ⊎ r) /\ after_calls l (s, F ⊎ r) = ((after_calls l (s, r)).1, F ⊎ (after_calls l (s, r)).2).
Proof.
  induction l as [|c l IH]; intros s r Hal; [done|]. cbn [allowed_calls after_calls fst snd] in *. destruct Hal as [Hc Hl].
  destruct (run_call c s) as [[o s']|] eqn:E.
  - destruct (IH s' (refs_after c o r) (Hl o s' eq_refl)) as [H1 H2]. rewrite (refs_after_frame c o s r F Hc). split; [|done].
    split; [by apply allowed_frame|]. intros o1 s1 [= <- <-]. by rewrite (refs_after_frame c o s r F Hc).
  - split; [|done]. split; [by apply allowed_frame|done].
Qed.
End Frame.

(** ** The transmit path under the table *)
Section Books.
Context `{HttTx}.
Notation MP := (M (peer_pdev dev_state)).
Implicit Types (s : peer_pdev dev_state) (r : gmultiset Z) (L B : list Z).

Notation device s := (pp_data s).1.1.

(** The accounts with the descriptors [L] in hand and the buffers [B] not yet
    taken. *)
Definition SysBooks L B s r : Prop := Accounts (H0 := tx_data_path_ok L B) s r.

(** What callers of the peer table keep to does not depend on these. *)
Definition allowed_call (c : call) s r : Prop := allowed (H0 := tx_data_path_ok [] []) c s r.
Definition allowed_list (l : list call) s r : Prop := allowed_calls (H0 := tx_data_path_ok [] []) l s r.

Lemma allowed_any L B c s r : allowed_call c s r -> allowed (H0 := tx_data_path_ok L B) c s r.
Proof. done. Qed.
Lemma allowed_list_any L B l : forall s r, allowed_list l s r -> allowed_calls (H0 := tx_data_path_ok L B) l s r.
Proof. induction l as [|c l IH]; [done|]. intros s r [Hc Hl]. split; [exact Hc|]. intros o s' Hrun. by apply IH, Hl. Qed.

Lemma SysBooks_data L B s r : SysBooks L B s r -> path_ok L B (list_to_set (pp_vdev_list s)) (dom (pp_peers s)) (pp_data s).
Proof. intros HS. destruct (ac_inv _ _ HS) as (l & fl & HR & _). exact (pr_data _ _ HR). Qed.

Lemma SysBooks_set L B L' B' s r x :
  SysBooks L B s r -> path_books L' B' x -> same_queues (dv_tx (device s)) (dv_tx x.1.1) -> SysBooks L' B' (set_pp_data (fun _ => x) s) r.
Proof.
  intros HS Hx Hq. apply (Accounts_retarget (tx_data_path_ok L B)); [exact HS|]. destruct (SysBooks_data _ _ _ _ HS) as [_ Hs]. split; [done|]. by eapply shape_keeps.
Qed.

(** The queues of the vdevs and peers there are. *)
Definition sys_queue s (q : txq_id) : Prop := queue_of (list_to_set (pp_vdev_list s)) (dom (pp_peers s)) q.
Lemma SysBooks_queue L B s r q : SysBooks L B s r -> sys_queue s q -> is_Some (pd_txqs (dv_tx (device s)) !! q).
Proof. intros HS Hq. destruct (SysBooks_data _ _ _ _ HS) as [_ [_ Hs]]. by apply Hs. Qed.

(** A step of the device alone. *)
Lemma with_dev_spec {A} (m : MD A) s r L B (L' B' : A -> list Z) (Q : A -> tx_device -> Prop) :
  SysBooks L B s r -> keeps (fun t t' => same_queues (dv_tx t) (dv_tx t')) m ->
  (forall fl drift, Books (device s) fl L B (pp_data s).1.2 (pp_data s).2 drift ->
    wp m (fun a t => Q a t /\ exists fl' acc drift', Books t fl' (L' a) (B' a) (acc ∪ (pp_data s).1.2) (acc ∪ (pp_data s).2) drift' /\
      forall i, i ∈ acc -> i ∉ (pp_data s).1.2 ∪ (pp_data s).2) (device s)) ->
  wp (with_dev m) (fun a s' => exists x, s' = set_pp_data (fun _ => x) s /\ Q a x.1.1 /\ SysBooks (L' a) (B' a) s' r) s.
Proof.
  intros HS Hk Hm. destruct (SysBooks_data _ _ _ _ HS) as [(fl & drift & HB) _]. specialize (Hm fl drift HB).
  apply wp_some in Hm as (a & t & Hrun & HQ & fl' & acc & drift' & HB' & Hacc). unfold with_dev. eapply wp_step; [reflexivity|].
  eapply wp_step; [unfold lift, on_dev; rewrite Hrun; reflexivity|]. cbv zeta beta iota. rewrite (newly_sent_books _ _ _ _ _ _ _ _ HB' Hacc).
  eapply wp_step; [reflexivity|]. apply wp_ret. eexists. split; [done|]. split; [done|].
  eapply SysBooks_set; [exact HS|by exists fl', drift'|by eapply Hk].
Qed.

(** One that sends nothing. *)
Lemma with_dev_quiet {A} (m : MD A) s r L B (L' B' : A -> list Z) (Q : A -> tx_device -> Prop) :
  SysBooks L B s r -> keeps (fun t t' => same_queues (dv_tx t) (dv_tx t')) m ->
  (forall fl dl tgt drift, Books (device s) fl L B dl tgt drift ->
    wp m (fun a t => Q a t /\ exists fl' drift', Books t fl' (L' a) (B' a) dl tgt drift') (device s)) ->
  wp (with_dev m) (fun a s' => exists x, s' = set_pp_data (fun _ => x) s /\ Q a x.1.1 /\ SysBooks (L' a) (B' a) s' r) s.
Proof.
  intros HS Hk Hm. apply (with_dev_spec m s r L B); [done|done|]. intros fl drift HB. eapply wp_mono; [by eapply Hm|].
  intros a t (HQ & fl' & drift' & HB'). split; [done|]. exists fl', ∅, drift'. rewrite !union_empty_l_L. split; [done|apply none_of_empty].
Qed.

(** The peer table alone: a reference of a frame stays while others go on. *)
Lemma others_spec L B l s r o :
  SysBooks L B s (plus_ref r o) -> allowed_list l s r ->
  wp (run_calls l) (fun _ s' => s' = (after_calls l (s, r)).1 /\ SysBooks L B s' (plus_ref (after_calls l (s, r)).2 o)) s.
Proof.
  intros HS Hal. pose proof (allowed_list_any L B l s r Hal) as Hal'.
  set (F := match o with Some p => {[+ p +]} | None => ∅ end : gmultiset Z).
  assert (HF : forall r', plus_ref r' o = F ⊎ r') by (intros r'; unfold F, plus_ref; destruct o; multiset_solver).
  rewrite HF in HS. destruct (calls_frame (H0 := tx_data_path_ok L B) l F s r Hal') as [H1 H2].
  eapply wp_mono; [by apply (calls_spec (H0 := tx_data_path_ok L B) l s (F ⊎ r) HS)|].
  intros [] s' [E HA]. rewrite H2 in E, HA. cbn in E, HA. rewrite HF. split; [congruence|exact HA].
Qed.

Lemma unref_peer_spec L B s r o : SysBooks L B s (plus_ref r o) -> wp (unref_peer o) (fun _ s' => SysBooks L B s' r) s.
Proof.
  intros HS. destruct o as [p|]; cbn [unref_peer plus_ref] in *; [|by apply (wp_run _ _ _ tt s eq_refl)].
  eapply wp_mono; [apply (call_unref_spec (H0 := tx_data_path_ok L B) s _ p HS); by apply gmultiset_elem_of_disj_union; left; apply gmultiset_elem_of_singleton|].
  intros [] s' HA. unfold SysBooks. replace r with (({[+ p +]} ⊎ r) ∖ {[+ p +]}) by multiset_solver. exact HA.
Qed.

Lemma SysBooks_took L B s r o : SysBooks L B s r -> ref_room s -> in_table s o -> SysBooks L B (took s o) (plus_ref r o).
Proof. intros HS. by apply (took_accounts (H0 := tx_data_path_ok L B)). Qed.

(** A frame's peer is there as long as the frame has its reference. *)
Lemma SysBooks_peer L B s r p : SysBooks L B s (plus_ref r (Some p)) -> is_Some (pp_peers s !! p).
Proof.
  intros HS. destruct (Accounts_live (H0 := tx_data_path_ok L B) s _ p HS) as (x & Hx & _); [|eauto].
  by apply gmultiset_elem_of_disj_union; left; apply gmultiset_elem_of_singleton.
Qed.
End Books.

(** ** The device's part *)
Section Device.
Context `{HttTx}.
Implicit Types (s : tx_device) (fl L B : list Z) (dl tgt : gset Z).

Notation keeps_dev := (keeps (fun s s' => same_queues (dv_tx s) (dv_tx s'))).

Lemma keeps_new_nbuf b n : keeps_dev (new_nbuf b n).
Proof. by intros s a s' [= _ <-]. Qed.
Lemma keeps_drop_nbuf b : keeps_dev (drop_nbuf b).
Proof. intros s a s'. unfold drop_nbuf, get_nbuf, mbind, M_bind, get, lift, modify. by destruct (dv_nbufs s !! b); [intros [= _ <-]|]. Qed.
Lemma keeps_unmap b : keeps_dev (adf_nbuf_unmap b).
Proof.
  intros s a s'. unfold adf_nbuf_unmap, get_nbuf, mbind, M_bind, get, lift, modify.
  by destruct (dv_nbufs s !! b); [intros [= _ <-]|].
Qed.
Lemma keeps_upd_desc_queues i f : keeps_dev (upd_desc i f).
Proof. intros s a s'. unfold upd_desc, get_desc, mbind, M_bind, get, lift, modify. by destruct (znth (dv_pool s) i); [intros [= _ <-]|]. Qed.
Lemma keeps_drop_desc i : keeps_dev (drop_desc i).
Proof. unfold drop_desc. apply keeps_bind; [typeclasses eauto|by intros s a s' [= _ <-]|]. intros []. apply keeps_free_nonstd. Qed.
Lemma keeps_enqueue_as q tid i : keeps_dev (enqueue_as q tid i).
Proof.
  unfold enqueue_as. apply keeps_bind; [typeclasses eauto| |intros b; apply keeps_bind; [typeclasses eauto| |intros n; apply keeps_dev_enqueue]].
  - keep.
  - keep.
Qed.

(** A descriptor taken, its type still to be set. *)
Lemma desc_hl_books s fl L B dl tgt drift v b ty mi :
  Books s fl L (b :: B) dl tgt drift ->
  wp (ol_tx_desc_hl v b ty mi) (fun res s' => exists fl',
    (res.1 = None <-> dv_freelist s = None) /\
    Books s' fl' (match res.1 with Some i => i :: L | None => L end) (match res.1 with Some _ => B | None => b :: B end) dl tgt drift) s.
Proof.
  intros HB. pose proof (bk_rep _ _ _ _ _ _ _ HB) as HR. destruct (dr_held _ _ _ _ _ _ HR) as [_ HBb].
  destruct (HBb b ltac:(by apply elem_of_cons; left)) as [[n Hn] _]. pose proof (dr_chain _ _ _ _ _ _ HR) as Hc.
  destruct fl as [|i fl'].
  - destruct (ol_tx_desc_hl_none s L B dl tgt v b n ty mi HR Hn) as [mi' Hrun]. eapply wp_run; [exact Hrun|]. by exists [].
  - destruct (ol_tx_desc_hl_run s i fl' L B dl tgt v b n ty mi HR Hn) as (d & next & mi' & Hd & Hw & Hc' & Hrun).
    eapply wp_run; [exact Hrun|]. exists fl'. cbn [fst]. split; [destruct Hc as [-> _]; done|].
    constructor; [by apply DevRep_take|exact (Inv_rsrc _ _ (bk_inv _ _ _ _ _ _ _ HB))|exact (bk_credit _ _ _ _ _ _ _ HB)|].
    cbn. rewrite (bk_rsrc _ _ _ _ _ _ _ HB). unfold queued. cbn. rewrite zlen_cons. eqm_solve.
Qed.

Lemma set_type_books s fl L B dl tgt drift i f :
  Books s fl (i :: L) B dl tgt drift -> (forall p, 0 <= p < OL_TXRX_MGMT_TYPE_BASE + OL_TXRX_MGMT_NUM_TYPES -> 0 <= f p < OL_TXRX_MGMT_TYPE_BASE + OL_TXRX_MGMT_NUM_TYPES) ->
  wp (upd_desc i (set_ds_pkt_type f)) (fun _ s' => Books s' fl (i :: L) B dl tgt drift) s.
Proof.
  intros HB Hf. destruct (Books_range _ _ _ _ _ _ _ i HB ltac:(right; by apply elem_of_cons; left)) as (d & b & n & Hi & _).
  eapply wp_run; [by apply upd_desc_run|]. eapply Books_rep; [exact HB| |done|done].
  eapply DevRep_put_same; [apply HB|exact Hi|done|by intros Ht; apply Hf|done].
Qed.

Lemma enqueue_books s fl L B dl tgt drift q i :
  Books s fl (i :: L) B dl tgt drift -> is_Some (pd_txqs (dv_tx s) !! q) ->
  wp (enqueue_as q (ext_tid_of q) i) (fun _ s' => exists fl', Books s' fl' L B dl tgt drift) s.
Proof. intros HB Hq. eapply wp_mono; [by apply (enqueue_or_drop_spec (Some q) s fl L B)|]. intros [] s' (fl' & HB' & _). eauto. Qed.

Lemma drop_books s fl L B dl tgt drift i :
  Books s fl (i :: L) B dl tgt drift -> wp (drop_desc i) (fun _ s' => exists fl', Books s' fl' L B dl tgt drift) s.
Proof. intros HB. eapply wp_mono; [by apply (enqueue_or_drop_spec None s fl L B)|]. intros [] s' (fl' & HB' & _). eauto. Qed.
End Device.

(** ** With the peer table *)
Section Entry.
Context `{HttTx} (cfg : tx_cfg).
Implicit Types (s : peer_pdev dev_state) (r : gmultiset Z) (L B : list Z).

Notation device s := (pp_data s).1.1.

(** The same table over another state of the device. *)
Definition same_table s s' : Prop := exists x, s' = set_pp_data (fun _ => x) s.

#[export] Instance same_table_preorder : PreOrder same_table.
Proof.
  split; [intros s; exists (pp_data s); by destruct s|]. intros s1 s2 s3 [x ->] [y ->]. by exists y.
Qed.

Lemma new_nbuf_sys s r L B b n :
  SysBooks L B s r -> dv_nbufs (device s) !! b = None ->
  wp (with_dev (new_nbuf b n)) (fun _ s' => same_table s s' /\ SysBooks L (b :: B) s' r /\
    dv_freelist (device s') = dv_freelist (device s) /\ dv_nbufs (device s') = <[b := n]> (dv_nbufs (device s))) s.
Proof.
  intros HS Hb. eapply wp_mono; [apply (with_dev_quiet (new_nbuf b n) s r L B (fun _ => L) (fun _ => b :: B)
    (fun _ t => dv_freelist t = dv_freelist (device s) /\ dv_nbufs t = <[b := n]> (dv_nbufs (device s))))|].
  - done.
  - apply keeps_new_nbuf.
  - intros fl dl tgt drift HB. eapply wp_run; [reflexivity|]. split; [done|]. exists fl, drift. by apply Books_buf.
  - intros [] s' (x & -> & E & HS'). split; [by exists x|]. by split.
Qed.

Lemma drop_nbuf_sys s r L B b :
  SysBooks L (b :: B) s r -> wp (with_dev (drop_nbuf b)) (fun _ s' => same_table s s' /\ SysBooks L B s' r) s.
Proof.
  intros HS. eapply wp_mono; [apply (with_dev_quiet (drop_nbuf b) s r L (b :: B) (fun _ => L) (fun _ => B) (fun _ _ => True))|].
  - done.
  - apply keeps_drop_nbuf.
  - intros fl dl tgt drift HB. pose proof (bk_rep _ _ _ _ _ _ _ HB) as HR. destruct (dr_held _ _ _ _ _ _ HR) as [_ HBb].
    destruct (HBb b ltac:(by apply elem_of_cons; left)) as [[n Hn] _]. eapply wp_run; [by eapply drop_nbuf_run|]. split; [done|].
    exists fl, drift. eapply Books_rep; [exact HB|by apply DevRep_drop|done|done].
  - intros [] s' (x & -> & _ & HS'). split; [by exists x|done].
Qed.

Lemma take_desc_sys s r L B v b ti :
  SysBooks L (b :: B) s r ->
  wp (take_desc cfg v b ti) (fun res s' => same_table s s' /\ (exists enc, res.2 = set_ti_do_encrypt (fun _ => enc) ti) /\
    (res.1 = None <-> dv_freelist (device s) = None) /\
    SysBooks (match res.1 with Some i => i :: L | None => L end) (match res.1 with Some _ => B | None => b :: B end) s' r) s.
Proof.
  intros HS. unfold take_desc. apply wp_bind. eapply wp_mono.
  - apply (with_dev_quiet _ s r L (b :: B) (fun res => match res.1 with Some i => i :: L | None => L end) (fun res => match res.1 with Some _ => B | None => b :: B end)
      (fun res _ => res.1 = None <-> dv_freelist (device s) = None)); [exact HS|apply keeps_desc_hl|].
    intros fl dl tgt drift HB. eapply wp_mono; [eapply desc_hl_books; exact HB|]. intros res t (fl' & Hn & HB'). split; [done|]. eauto.
  - intros [o mi] s' (x & -> & Hn & HS'). apply wp_ret. split; [by exists x|]. split; [by eexists|]. by split.
Qed.

Lemma set_type_sys s r L B i f :
  SysBooks (i :: L) B s r -> (forall p, 0 <= p < OL_TXRX_MGMT_TYPE_BASE + OL_TXRX_MGMT_NUM_TYPES -> 0 <= f p < OL_TXRX_MGMT_TYPE_BASE + OL_TXRX_MGMT_NUM_TYPES) ->
  wp (with_dev (upd_desc i (set_ds_pkt_type f))) (fun _ s' => same_table s s' /\ SysBooks (i :: L) B s' r) s.
Proof.
  intros HS Hf. eapply wp_mono; [apply (with_dev_quiet _ s r (i :: L) B (fun _ => i :: L) (fun _ => B) (fun _ _ => True)); [exact HS|apply keeps_upd_desc_queues|]|].
  - intros fl dl tgt drift HB. eapply wp_mono; [eapply set_type_books; [exact HB|done]|]. intros [] t HB'. split; [done|]. by exists fl, drift.
  - intros [] s' (x & -> & _ & HS'). split; [by exists x|done].
Qed.

Lemma enqueue_sys s r L B q tid i :
  SysBooks (i :: L) B s r -> sys_queue s q -> tid = ext_tid_of q ->
  wp (with_dev (enqueue_as q tid i)) (fun _ s' => same_table s s' /\ SysBooks L B s' r) s.
Proof.
  intros HS Hq ->. eapply wp_mono; [apply (with_dev_quiet _ s r (i :: L) B (fun _ => L) (fun _ => B) (fun _ _ => True)); [exact HS|apply keeps_enqueue_as|]|].
  - intros fl dl tgt drift HB. eapply wp_mono; [eapply enqueue_books; [exact HB|by eapply SysBooks_queue]|].
    intros [] t [fl' HB']. split; [done|]. by exists fl', drift.
  - intros [] s' (x & -> & _ & HS'). split; [by exists x|done].
Qed.

Lemma drop_sys s r L B i :
  SysBooks (i :: L) B s r -> wp (with_dev (drop_desc i)) (fun _ s' => same_table s s' /\ SysBooks L B s' r) s.
Proof.
  intros HS. eapply wp_mono; [apply (with_dev_quiet _ s r (i :: L) B (fun _ => L) (fun _ => B) (fun _ _ => True)); [exact HS|apply keeps_drop_desc|]|].
  - intros fl dl tgt drift HB. eapply wp_mono; [eapply drop_books; exact HB|]. intros [] t [fl' HB']. split; [done|]. by exists fl', drift.
  - intros [] s' (x & -> & _ & HS'). split; [by exists x|done].
Qed.

Lemma sched_sys s r L B : SysBooks L B s r -> wp (with_dev dev_sched) (fun _ s' => same_table s s' /\ SysBooks L B s' r) s.
Proof.
  intros HS. eapply wp_mono; [apply (with_dev_spec _ s r L B (fun _ => L) (fun _ => B) (fun _ _ => True)); [exact HS|apply keeps_dev_sched|]|].
  - intros fl drift HB. eapply wp_dev_sched; [exact HB|]. intros t acc freed k HB' _ Hacc _. split; [done|]. eexists _, acc, _.
    split; [exact HB'|]. intros i Hi. by apply Hacc.
  - intros [] s' (x & -> & _ & HS'). split; [by exists x|done].
Qed.

Lemma unmap_sys s r L B b :
  SysBooks L (b :: B) s r -> wp (with_dev (adf_nbuf_unmap b)) (fun _ s' => same_table s s' /\ SysBooks L (b :: B) s' r) s.
Proof.
  intros HS. eapply wp_mono; [apply (with_dev_quiet _ s r L (b :: B) (fun _ => L) (fun _ => b :: B) (fun _ _ => True)); [exact HS|apply keeps_unmap|]|].
  - intros fl dl tgt drift HB. pose proof (bk_rep _ _ _ _ _ _ _ HB) as HR. destruct (dr_held _ _ _ _ _ _ HR) as [_ HBb].
    destruct (HBb b ltac:(by apply elem_of_cons; left)) as [[n Hn] _]. eapply wp_run; [by eapply adf_nbuf_unmap_run|]. split; [done|].
    exists fl, drift. eapply Books_rep; [exact HB|by apply DevRep_log|done|done].
  - intros [] s' (x & -> & _ & HS'). split; [by exists x|done].
Qed.

(** *** The frame *)
Lemma spec_pkt_type_range tx_spec p :
  0 <= p < OL_TXRX_MGMT_TYPE_BASE + OL_TXRX_MGMT_NUM_TYPES -> 0 <= spec_pkt_type tx_spec p < OL_TXRX_MGMT_TYPE_BASE + OL_TXRX_MGMT_NUM_TYPES.
Proof. intros Hp. unfold spec_pkt_type. by repeat destruct (negb _). Qed.

Lemma set_data_room s s' : same_table s s' -> ref_room s -> ref_room s'.
Proof. by intros [x ->]. Qed.

(** A data frame that can be classified. *)
Record data_ok s (v : Z) (tdls : option mac_addr) (m : msdu) : Prop := {
  do_vdev : v ∈ pp_vdev_list s;
  do_mode : forall y, pp_vdevs s !! v = Some y -> vd_opmode y <> wlan_op_mode_ocb;
  do_frame : frame_ok (ms_frame m);
  do_tid : 0 <= ms_tid m;
  do_tdls : forall a, tdls = Some a -> mac_ok a;
  do_room : ref_room s }.

(** The state between classification and end: the table with one more reference,
    the descriptor in hand. *)
Lemma hl_classify_spec s r v tx_spec tdls m ti b B :
  SysBooks [] (b :: B) s r -> b = ms_netbuf m -> data_ok s v tdls m ->
  wp (hl_classify cfg v tx_spec tdls m ti) (fun res s' =>
    (res.1 = None <-> dv_freelist (device s) = None) /\
    match res.1 with
    | None => same_table s s' /\ SysBooks [] (b :: B) s' r
    | Some (i, txq) => exists s1, same_table s s1 /\ SysBooks [i] B s1 r /\ classified s1 v OL_TX_VDEV_MCAST_BCAST (txq, res.2) s'
    end) s.
Proof.
  intros HS -> [Hv _ Hf Ht Htd Hroom]. unfold hl_classify. apply wp_bind. eapply wp_mono; [by apply (take_desc_sys s r [] B)|].
  intros [o ti1] s1 (Hs1 & [enc Hti1] & Hn & HS1). cbn [fst snd] in *. destruct o as [i|].
  - apply wp_bind. eapply wp_mono; [by apply set_type_sys, spec_pkt_type_range|]. intros [] s2 [Hs2 HS2]. cbv zeta.
    apply wp_bind. pose proof (transitivity Hs1 Hs2) as Hs12. eapply wp_mono.
    + apply (ol_tx_classify_spec (H0 := tx_data_path_ok [i] B) cfg tdls v (ms_frame m) s2 r); [done|by eapply set_data_room|done| |by subst ti1|done|done].
      destruct Hs12 as [x ->]. destruct (vi_there _ (ac_vdevs _ _ HS) v Hv) as (y & Hy & _). by exists y.
    + intros [txq ti2] s3 Hc. apply wp_ret. cbn [fst snd]. split; [split; [done|]; intros E; by apply Hn in E|]. exists s2. by split_and!.
  - apply wp_ret. cbn [fst snd]. split; [|by split]. split; [intros _; by apply Hn|done].
Qed.

(** A multicast frame of a station. *)
Lemma hl_classify_sta_mcast s r v tx_spec tdls m ti y p x id dest a0 :
  SysBooks [] [ms_netbuf m] s r -> data_ok s v tdls m -> dv_freelist (device s) <> None ->
  pp_vdevs s !! v = Some y -> vd_opmode y = wlan_op_mode_sta -> vd_last_real_peer y = Some p ->
  pp_peers s !! p = Some x -> znth (pe_peer_ids x) 0 = Some id -> id <> HTT_INVALID_PEER ->
  ol_tx_dest_addr_find (cfg_frame_format cfg) = Some dest -> rd8 (ms_frame m) dest = Some a0 -> IEEE80211_IS_MULTICAST a0 = true ->
  adf_nbuf_is_dhcp_pkt (ms_frame m) = Some false ->
  exists i ti' s1, hl_classify cfg v tx_spec tdls m ti s = Some ((Some (i, Some (VdevTxq v OL_TX_VDEV_MCAST_BCAST)), ti'), took s1 (Some p)) /\
    same_table s s1 /\ SysBooks [i] [] s1 r /\ classified s1 v OL_TX_VDEV_MCAST_BCAST (Some (VdevTxq v OL_TX_VDEV_MCAST_BCAST), ti') (took s1 (Some p)) /\
    ti_peer ti' = Some p /\ ti_ethertype ti' = ti_ethertype ti.
Proof.
  intros HS Hd Hfree Hy Hsta Hlast Hx Hid Hne Hdest Ha0 Hmc Hdhcp. unfold hl_classify.
  pose proof (take_desc_sys s r [] [] v (ms_netbuf m) (set_ti_peer (fun _ => None) ti) HS) as Hw.
  apply wp_some in Hw as ([o ti1] & s1 & Hrun1 & Hs1 & [enc E1] & Hn & HS1). cbn [fst snd] in *. destruct o as [i|]; [|by destruct Hfree; apply Hn].
  pose proof (set_type_sys s1 r [] [] i _ HS1 (spec_pkt_type_range tx_spec)) as Hw. apply wp_some in Hw as ([] & s2 & Hrun2 & Hs2 & HS2).
  destruct (transitivity Hs1 Hs2) as [d ->]. set (s2 := set_pp_data _ s) in *.
  set (ti2 := set_ti_l2_hdr_type (fun _ => htt_pkt_type_of (cfg_frame_format cfg)) (set_ti_ext_tid (fun _ => ms_tid m) ti1)).
  assert (Hroom : ref_room s2) by (apply (set_data_room s); [by exists d|apply Hd]).
  destruct (classify_sta_mcast (H0 := tx_data_path_ok [i] []) cfg tdls v (ms_frame m) s2 r HS2 Hroom y p x id dest a0 ti2) as (ti' & Hc & Hp & Ht); try done.
  exists i, ti', s2. split; [|split; [by exists d|split; [done|]]].
  - rewrite (bind_run _ _ _ _ _ Hrun1). cbv beta iota. rewrite (bind_run _ _ _ _ _ Hrun2). by rewrite (bind_run _ _ _ _ _ Hc).
  - split; [|split; [done|rewrite Ht; unfold ti2; by rewrite E1]].
    pose proof (ol_tx_classify_spec (H0 := tx_data_path_ok [i] []) cfg tdls v (ms_frame m) s2 r HS2 Hroom (do_frame _ _ _ _ Hd) ltac:(by exists y) ti2) as Hw.
    unfold wp in Hw. rewrite Hc in Hw. apply Hw; [unfold ti2; by rewrite E1|apply Hd|apply Hd].
Qed.

(** A queue a frame is classified into is there. *)
Lemma classified_queue s1 v i txq ti s2 L B s r q :
  classified s1 v i (txq, ti) s2 -> txq = Some q -> 0 <= i < OL_TX_VDEV_NUM_QUEUES -> SysBooks L B s (plus_ref r (ti_peer ti)) ->
  v ∈ pp_vdev_list s -> sys_queue s q /\ ti_ext_tid ti = ext_tid_of q.
Proof.
  intros Hc E Hi HS Hv. destruct (cl_queue _ _ _ _ _ Hc q E) as [E' Hq]. cbn [snd] in *. rewrite <- E'. split; [|done].
  destruct Hq as [->|(p & tid & -> & Hp & Ht)]; cbn.
  - split; [by apply elem_of_list_to_set|done].
  - split; [|done]. cbn in Hp. rewrite Hp in HS. apply elem_of_dom. by eapply SysBooks_peer.
Qed.

Lemma tx_peer_permits_run s ti : (forall p, ti_peer ti = Some p -> is_Some (pp_peers s !! p)) -> exists ok, tx_peer_permits ti s = Some (ok, s).
Proof.
  intros Hp. unfold tx_peer_permits. destruct (ti_peer ti) as [p|]; [|by exists true]. destruct (Hp p eq_refl) as [x Hx].
  unfold mbind, M_bind. rewrite (get_peer_run _ _ _ Hx). by eexists.
Qed.

(** The end of a frame, in any state others have left. *)
Lemma hl_finish_spec s1 v i txq ti s2 s r B :
  classified s1 v OL_TX_VDEV_MCAST_BCAST (txq, ti) s2 -> SysBooks [i] B s (plus_ref r (ti_peer ti)) -> v ∈ pp_vdev_list s ->
  wp (hl_finish i txq ti) (fun _ s' => exists s3, same_table s s3 /\ SysBooks [] B s3 (plus_ref r (ti_peer ti)) /\
    unref_peer (ti_peer ti) s3 = Some (tt, s') /\ SysBooks [] B s' r) s.
Proof.
  intros Hc HS Hv.
  assert (Hend : forall m : MD unit, wp (with_dev m) (fun _ s' => same_table s s' /\ SysBooks [] B s' (plus_ref r (ti_peer ti))) s ->
    wp (with_dev m;; unref_peer (ti_peer ti)) (fun _ s' => exists s3, same_table s s3 /\ SysBooks [] B s3 (plus_ref r (ti_peer ti)) /\
      unref_peer (ti_peer ti) s3 = Some (tt, s') /\ SysBooks [] B s' r) s).
  { intros m Hm. apply wp_bind. eapply wp_mono; [exact Hm|]. intros [] s3 [Hs3 HS3].
    pose proof (unref_peer_spec [] B s3 r (ti_peer ti) HS3) as Hu. apply wp_some in Hu as ([] & s' & Hrun & HS').
    eapply wp_run; [exact Hrun|]. exists s3. by split_and!. }
  unfold hl_finish. destruct txq as [q|].
  - destruct (classified_queue _ _ _ _ _ _ _ _ s r q Hc eq_refl ltac:(done) HS Hv) as [Hq He].
    destruct (tx_peer_permits_run s ti) as [ok Hok]. { intros p E. rewrite E in HS. by eapply SysBooks_peer. }
    eapply wp_step; [exact Hok|]. destruct ok; apply Hend; [by apply enqueue_sys|by apply drop_sys].
  - apply Hend. by apply drop_sys.
Qed.

(** The last reference to a peer that has been detached: it ends with the frame. *)
Lemma hl_finish_last s1 v i txq ti s2 s r p x :
  classified s1 v OL_TX_VDEV_MCAST_BCAST (txq, ti) s2 -> SysBooks [i] [] s (plus_ref r (ti_peer ti)) -> v ∈ pp_vdev_list s ->
  ti_peer ti = Some p -> pp_peers s !! p = Some x -> p ∉ r -> base s p x = 0 ->
  wp (hl_finish i txq ti) (fun _ s' => SysBooks [] [] s' r /\ pp_peers s' !! p = None) s.
Proof.
  intros Hc HS Hv Hp Hx Hr Hb. eapply wp_mono; [by eapply hl_finish_spec|]. intros [] s' (s3 & [d ->] & HS3 & Hrun & HS'). split; [done|].
  rewrite Hp in HS3, Hrun. cbn [unref_peer plus_ref] in *. set (s3 := set_pp_data _ s) in *.
  assert (Hx3 : pp_peers s3 !! p = Some x) by done. assert (Hb3 : base s3 p x = 0) by done.
  pose proof (ac_held _ _ HS3 p) as Hh. rewrite (held_at s3 p x Hx3), Hb3, multiplicity_take in Hh. rewrite decide_True in Hh by done.
  assert (Hm : multiplicity p r = 0%nat) by (by apply not_elem_of_multiplicity). rewrite Hm in Hh.
  pose proof (PeerInv_unref s3 p x (ac_inv _ _ HS3) Hx3 ltac:(lia)) as Hu. unfold wp in Hu. rewrite Hrun in Hu. destruct Hu as [_ Hu].
  unfold unreffed in Hu. rewrite (proj2 (Z.eqb_eq (pe_ref_cnt x) 1)) in Hu by lia. destruct Hu as [E1 _ _ _ _]. rewrite E1. apply lookup_delete_eq.
Qed.

(** Management frames in the same way. *)
Record mgmt_ok s (v type : Z) (m : msdu) : Prop := {
  mo_vdev : v ∈ pp_vdev_list s;
  mo_type : 0 <= type < OL_TXRX_MGMT_NUM_TYPES;
  mo_frame : frame_ok (ms_frame m);
  mo_room : ref_room s }.

Lemma mgmt_classify_spec s r v type m b :
  SysBooks [] [b] s r -> b = ms_netbuf m -> mgmt_ok s v type m ->
  wp (mgmt_classify cfg v type m) (fun res s' =>
    (res.1 = None <-> dv_freelist (device s) = None) /\
    match res.1 with
    | None => same_table s s' /\ SysBooks [] [b] s' r
    | Some (i, txq) => exists s1, same_table s s1 /\ SysBooks [i] [] s1 r /\ classified s1 v OL_TX_VDEV_DEFAULT_MGMT (txq, res.2) s'
    end) s.
Proof.
  intros HS -> [Hv Hty Hf Hroom]. unfold mgmt_classify. cbv zeta. apply wp_bind. eapply wp_mono; [by apply (take_desc_sys s r [] [])|].
  intros [o ti1] s1 (Hs1 & [enc Hti1] & Hn & HS1). cbn [fst snd] in *. destruct o as [i|].
  - apply wp_bind. eapply wp_mono; [eapply set_type_sys; [exact HS1|]|].
    { intros p _. unfold OL_TXRX_MGMT_TYPE_BASE, OL_TXRX_MGMT_NUM_TYPES in *. lia. }
    intros [] s2 [Hs2 HS2]. apply wp_bind. pose proof (transitivity Hs1 Hs2) as Hs12. eapply wp_mono.
    + apply (ol_tx_classify_mgmt_spec (H0 := tx_data_path_ok [i] []) cfg v (ms_frame m) s2 r); [done|by eapply set_data_room|done| |by subst ti1|by subst ti1].
      destruct Hs12 as [x ->]. destruct (vi_there _ (ac_vdevs _ _ HS) v Hv) as (y & Hy & _). by exists y.
    + intros [txq ti2] s3 Hc. apply wp_ret. cbn [fst snd]. split; [split; [done|]; intros E; by apply Hn in E|]. exists s2. by split_and!.
  - apply wp_bind. eapply wp_mono; [by apply unmap_sys|]. intros [] s2 [Hs2 HS2]. apply wp_ret. cbn [fst snd].
    split; [|split; [by transitivity s1|done]]. split; [intros _; by apply Hn|done].
Qed.

Lemma mgmt_finish_spec s1 v i txq ti s2 s r :
  classified s1 v OL_TX_VDEV_DEFAULT_MGMT (txq, ti) s2 -> SysBooks [i] [] s (plus_ref r (ti_peer ti)) -> v ∈ pp_vdev_list s ->
  wp (mgmt_finish i txq ti) (fun ok s' => ok = bool_decide (txq <> None) /\ SysBooks [] [] s' r) s.
Proof.
  intros Hc HS Hv. unfold mgmt_finish. destruct txq as [q|].
  - destruct (classified_queue _ _ _ _ _ _ _ _ s r q Hc eq_refl ltac:(done) HS Hv) as [Hq He].
    apply wp_bind. eapply wp_mono; [by apply enqueue_sys|]. intros [] s3 [_ HS3].
    apply wp_bind. eapply wp_mono; [by apply unref_peer_spec|]. intros [] s4 HS4.
    apply wp_bind. eapply wp_mono; [by apply sched_sys|]. intros [] s5 [_ HS5]. by apply wp_ret.
  - apply wp_bind. eapply wp_mono; [by apply drop_sys|]. intros [] s3 [_ HS3].
    apply wp_bind. eapply wp_mono; [by apply unref_peer_spec|]. intros [] s4 HS4. by apply wp_ret.
Qed.

(** ** One frame, while others go on *)
Section Interleaved.
Context (s : peer_pdev dev_state) (r : gmultiset Z) (v : Z).

(** Others keep to the rules with the references they hold, and leave the vdev
    attached. *)
Definition others_ok (others : list call) s1 : Prop :=
  allowed_list others s1 r /\ v ∈ pp_vdev_list (after_calls others (s1, r)).1.

Lemma ol_tx_hl_frame_spec tx_spec tdls m others ti :
  SysBooks [] [ms_netbuf m] s r -> data_ok s v tdls m ->
  (forall d res s1, hl_classify cfg v tx_spec tdls m ti s = Some ((Some d, res), s1) -> others_ok others s1) ->
  wp (ol_tx_hl_frame cfg v tx_spec tdls m (run_calls others) ti) (fun res s' =>
    match hl_classify cfg v tx_spec tdls m ti s with
    | Some ((Some _, _), s1) => res.1 = true /\ SysBooks [] [] s' (after_calls others (s1, r)).2
    | _ => res.1 = false /\ dv_freelist (device s) = None /\ SysBooks [] [ms_netbuf m] s' r
    end) s.
Proof.
  intros HS Hd Ho. unfold ol_tx_hl_frame. pose proof (hl_classify_spec s r v tx_spec tdls m ti _ [] HS eq_refl Hd) as Hw.
  apply wp_some in Hw as ([[[i txq]|] ti1] & s1 & Hrun & Hn & Hc); rewrite Hrun in *; cbn [fst snd] in *; eapply wp_step; try exact Hrun.
  - destruct Hc as (s0 & Hs0 & HS0 & Hc). specialize (Ho _ _ _ eq_refl) as [Hal Hv'].
    assert (HS1 : SysBooks [i] [] s1 (plus_ref r (ti_peer ti1))).
    { rewrite (cl_state _ _ _ _ _ Hc). apply SysBooks_took; [done|eapply set_data_room; [done|apply Hd]|apply (cl_peer _ _ _ _ _ Hc)]. }
    apply wp_bind. eapply wp_mono; [by apply others_spec|]. intros [] s2 [-> HS2].
    apply wp_bind. eapply wp_mono; [by eapply hl_finish_spec|]. intros [] s' (_ & _ & _ & _ & HS'). apply wp_ret. by split.
  - destruct Hc as [Hs1 HS1]. apply wp_ret. split; [done|]. split; [by apply Hn|done].
Qed.

Lemma ol_txrx_mgmt_frame_spec type m others :
  SysBooks [] [ms_netbuf m] s r -> mgmt_ok s v type m ->
  (forall d res s1, mgmt_classify cfg v type m s = Some ((Some d, res), s1) -> others_ok others s1) ->
  wp (ol_txrx_mgmt_frame cfg v type m (run_calls others)) (fun ok s' =>
    match mgmt_classify cfg v type m s with
    | Some ((Some (_, txq), _), s1) => ok = bool_decide (txq <> None) /\ dv_freelist (device s) <> None /\ SysBooks [] [] s' (after_calls others (s1, r)).2
    | _ => ok = false /\ dv_freelist (device s) = None /\ SysBooks [] [ms_netbuf m] s' r
    end) s.
Proof.
  intros HS Hd Ho. unfold ol_txrx_mgmt_frame. pose proof (mgmt_classify_spec s r v type m _ HS eq_refl Hd) as Hw.
  apply wp_some in Hw as ([[[i txq]|] ti1] & s1 & Hrun & Hn & Hc); rewrite Hrun in *; cbn [fst snd] in *; eapply wp_step; try exact Hrun.
  - destruct Hc as (s0 & Hs0 & HS0 & Hc). specialize (Ho _ _ _ eq_refl) as [Hal Hv'].
    assert (HS1 : SysBooks [i] [] s1 (plus_ref r (ti_peer ti1))).
    { rewrite (cl_state _ _ _ _ _ Hc). apply SysBooks_took; [done|eapply set_data_room; [done|apply Hd]|apply (cl_peer _ _ _ _ _ Hc)]. }
    apply wp_bind. eapply wp_mono; [by apply others_spec|]. intros [] s2 [-> HS2]. eapply wp_mono; [by eapply mgmt_finish_spec|].
    intros ok s' [-> HS']. split; [done|]. split; [|done]. intros E. by apply Hn in E.
  - destruct Hc as [Hs1 HS1]. apply wp_ret. split; [done|]. split; [by apply Hn|done].
Qed.
End Interleaved.

(** ** A list of frames, alone *)
Lemma took_data s o x : set_pp_data (fun _ => x) (took s o) = took (set_pp_data (fun _ => x) s) o.
Proof. destruct o as [p|]; [|done]. cbn. by destruct (pp_peers s !! p). Qed.
Lemma took_dom s o : dom (pp_peers (took s o)) = dom (pp_peers s).
Proof. destruct o as [p|]; [|done]. cbn. destruct (pp_peers s !! p) eqn:E; [|done]. apply dom_insert_lookup_L. eauto. Qed.
Lemma took_vdev_list s o : pp_vdev_list (took s o) = pp_vdev_list s.
Proof. destruct o as [p|]; [|done]. cbn. by destruct (pp_peers s !! p). Qed.

(** The reference of the frame is gone with it. *)
Lemma unref_took s s' r r' o L B L' B' x :
  SysBooks L B s r -> ref_room s -> in_table s o -> SysBooks L' B' (set_pp_data (fun _ => x) (took s o)) r' ->
  unref_peer o (set_pp_data (fun _ => x) (took s o)) = Some (tt, s') -> s' = set_pp_data (fun _ => x) s.
Proof.
  intros HS Hr Ho HS' Hrun. rewrite took_data in Hrun. destruct o as [p|]; [|by injection Hrun as <-]. cbn [unref_peer] in Hrun.
  assert (HSx : Accounts (H0 := tx_data_path_ok L' B') (set_pp_data (fun _ => x) s) r).
  { apply (Accounts_retarget (tx_data_path_ok L B)); [exact HS|]. pose proof (SysBooks_data _ _ _ _ HS') as Hd.
    cbn [set_pp_data pp_vdev_list pp_peers pp_data] in Hd. by rewrite took_dom, took_vdev_list in Hd. }
  pose proof (unref_back _ r p HSx Hr (Ho p eq_refl)) as Hu. cbn [took set_pp_data pp_peers] in *. congruence.
Qed.

Lemma data_ok_same s s' v tdls m : same_table s s' -> data_ok s v tdls m -> data_ok s' v tdls m.
Proof. intros [x ->] []. by constructor. Qed.

Lemma hl_frame_alone s r v tx_spec tdls m B ti :
  SysBooks [] (ms_netbuf m :: B) s r -> data_ok s v tdls m ->
  wp (ol_tx_hl_frame cfg v tx_spec tdls m skip ti) (fun res s' => same_table s s' /\
    SysBooks [] (if res.1 then B else ms_netbuf m :: B) s' r) s.
Proof.
  intros HS Hd. unfold ol_tx_hl_frame. apply wp_bind. eapply wp_mono; [by eapply hl_classify_spec|].
  intros [[[i txq]|] ti1] s1 [_ Hc]; cbn [fst snd] in *.
  - destruct Hc as (s0 & Hs0 & HS0 & Hc). pose proof (cl_state _ _ _ _ _ Hc) as E. pose proof (cl_peer _ _ _ _ _ Hc) as Hp. cbn [snd] in *.
    assert (Hr0 : ref_room s0) by (eapply set_data_room; [done|apply Hd]).
    assert (HS1 : SysBooks [i] B s1 (plus_ref r (ti_peer ti1))) by (rewrite E; by apply SysBooks_took).
    apply (wp_step _ _ _ _ tt s1 eq_refl). apply wp_bind. eapply wp_mono.
    { eapply hl_finish_spec; [exact Hc|exact HS1|]. rewrite E, took_vdev_list. destruct Hs0 as [x ->]. apply (do_vdev _ _ _ _ Hd). }
    intros [] s' (s3 & [x ->] & HS3 & Hrun & HS'). apply wp_ret. split; [|done]. rewrite E in *.
    rewrite (unref_took s0 s' r _ _ _ _ _ _ x HS0 Hr0 Hp HS3 Hrun). transitivity s0; [done|by exists x].
  - destruct Hc as [Hs1 HS1]. apply wp_ret. by split.
Qed.

(** What is not accepted is the end of the list. *)
Lemma ol_tx_hl_list_spec r v tx_spec tdls call_sched msdus : forall s ti,
  SysBooks [] (ms_netbuf <$> msdus) s r -> (forall m, m ∈ msdus -> data_ok s v tdls m) ->
  wp (ol_tx_hl_list cfg v tx_spec tdls msdus call_sched ti) (fun rest s' => same_table s s' /\
    (exists k, rest = drop k (ms_netbuf <$> msdus)) /\ SysBooks [] rest s' r) s.
Proof.
  induction msdus as [|m msdus IH]; intros s ti HS Hd; cbn [ol_tx_hl_list].
  - apply wp_bind. destruct call_sched; cbn [when].
    + eapply wp_mono; [by apply sched_sys|]. intros [] s' [Hs HS']. apply wp_ret. split; [done|]. split; [by exists 0%nat|done].
    + apply (wp_run _ _ _ tt s eq_refl). apply wp_ret. split; [done|]. split; [by exists 0%nat|done].
  - apply wp_bind. eapply wp_mono; [apply (hl_frame_alone s r v tx_spec tdls m (ms_netbuf <$> msdus)); [exact HS|apply Hd; by apply elem_of_cons; left]|].
    intros [ok ti1] s1 [Hs1 HS1]. cbn [fst] in HS1. destruct ok.
    + eapply wp_mono; [apply (IH s1 ti1 HS1)|].
      { intros m' Hm'. eapply data_ok_same; [done|]. apply Hd. by apply elem_of_cons; right. }
      intros rest s' (Hs' & [k ->] & HS'). split; [by transitivity s1|]. split; [by exists (S k)|done].
    + apply wp_ret. split; [done|]. split; [by exists 0%nat|done].
Qed.

End Entry.
