(* ===== verification/SysClient.v ===== *)
(** The users of the whole: the control path that changes the peer table, the
    operating system that sends frames, the target that answers, in any order
    and, within a frame, at the same time.  Every allowed step keeps the books of
    the peer table and of the transmit path. *)
From Stdlib Require Import ZArith Lia.
From stdpp Require Import prelude gmap fin_sets list numbers gmultiset.
From S2P Require Import Prelude.
From S2P Require Import TxTypes.
From S2P Require Import TxCore.
From S2P Require Import TxSched.
From S2P Require Import TxInv.
From S2P Require Import TxDispatch.
From S2P Require Import TxQueueInv.
From S2P Require Import TxInit.
From S2P Require Import DescTypes.
From S2P Require Import DescPool.
From S2P Require Import DescSend.
From S2P Require Import DescOps.
From S2P Require Import DescFree.
From S2P Require Import DescQueue.
From S2P Require Import DescComplete.
From S2P Require Import DescEntry.
From S2P Require Import SysQueues.
From S2P Require Import PeerTypes.
From S2P Require Import PeerTable.
From S2P Require Import PeerRep.
From S2P Require Import PeerSpec.
From S2P Require Import PeerInv.
From S2P Require Import PeerOps.
From S2P Require Import PeerVdev.
From S2P Require Import PeerClient.
From S2P Require Import PeerSafe.
From S2P Require Import TxClassifySpec.
From S2P Require Import SysPath.
From S2P Require Import SysEntry.
From S2P Require Import DescClient.
From S2P Require Import TxClassify.
From S2P Require Import SysSafe.

(** ** The device's handlers keep its queues *)
Section Handlers.
Context `{HttTx}.
Notation keeps_dev := (keeps (fun s s' => same_queues (dv_tx s) (dv_tx s'))).

Definition device_op (o : dev_op) : Prop :=
  match o with op_data _ _ _ _ _ | op_mgmt _ _ _ _ _ _ | op_queue_free _ | op_vdev_detach _ => False | _ => True end.

#[local] Hint Resolve keeps_dev_sched keeps_dev_pause keeps_dev_unpause keeps_free_nonstd keeps_free_list keeps_update_group keeps_msdu_loop
  keeps_complete keeps_inspect keeps_discard_target keeps_frame_list_free : keeps.
#[local] Hint Extern 1 (keeps _ (modify _)) => (apply keeps_modify; intros ?; split; reflexivity) : keeps.
#[local] Hint Extern 2 (keeps _ (lift_tx _)) => (apply keeps_lift_tx) : keeps.

Lemma keeps_run_op o : device_op o -> keeps_dev (DescClient.run_op o).
Proof.
  destruct o; intros Ho; try done; cbn [DescClient.run_op].
  - apply keeps_dev_sched.
  - apply keeps_dev_pause.
  - apply keeps_dev_unpause.
  - keep.
  - keep.
  - keep.
  - keep.
  - unfold ol_tx_credit_completion_handler. repeat keep_step; first [typeclasses eauto|apply keeps_dev_sched|apply keeps_lift_tx; keep].
  - keep.
Qed.
End Handlers.

(** ** What users keep to *)
Section Client.
Context `{HttTx} (cfg : tx_cfg).
Implicit Types (s : peer_pdev dev_state) (r : gmultiset Z).

Notation device s := (pp_data s).1.1.
Notation incoming m := (with_dev (new_nbuf (ms_netbuf m) (nbuf_of m))).

Definition sys_allowed (o : sys_op) s r : Prop :=
  match o with
  | sys_peer o => allowed_op (H0 := tx_data_path_ok [] []) o s r
  | sys_dev o => device_op o /\ DescClient.allowed o (device s) (pp_data s).1.2 (pp_data s).2
  | sys_list v _ tdls msdus _ _ =>
    NoDup (ms_netbuf <$> msdus) /\ forall m, m ∈ msdus -> dv_nbufs (device s) !! ms_netbuf m = None /\ data_ok s v tdls m
  | sys_data v tx_spec tdls m others ti =>
    dv_nbufs (device s) !! ms_netbuf m = None /\ data_ok s v tdls m /\
    forall d res s1, (incoming m;; hl_classify cfg v tx_spec tdls m ti) s = Some ((Some d, res), s1) -> others_ok r v others s1
  | sys_mgmt v type m others =>
    dv_nbufs (device s) !! ms_netbuf m = None /\ mgmt_ok s v type m /\
    forall d res s1, (incoming m;; mgmt_classify cfg v type m) s = Some ((Some d, res), s1) -> others_ok r v others s1
  end.

(** The references users hold afterwards: those the calls within a frame have
    left them; the frame's own is none of them. *)
Definition refs_within (c : M (peer_pdev dev_state) (option (Z * option txq_id) * tx_msdu_info)) (others : list call) s r : gmultiset Z :=
  match c s with Some ((Some _, _), s1) => (after_calls others (s1, r)).2 | _ => r end.
Definition sys_refs (o : sys_op) s (res : option Z) r : gmultiset Z :=
  match o with
  | sys_peer o => refs_op o s res r
  | sys_dev _ | sys_list _ _ _ _ _ _ => r
  | sys_data v tx_spec tdls m others ti => refs_within (incoming m;; hl_classify cfg v tx_spec tdls m ti) others s r
  | sys_mgmt v type m others => refs_within (incoming m;; mgmt_classify cfg v type m) others s r
  end.

(** ** Every step keeps the books *)
Lemma dev_run_spec o s r :
  SysBooks [] [] s r -> device_op o -> DescClient.allowed o (device s) (pp_data s).1.2 (pp_data s).2 ->
  wp (dev_run o) (fun _ s' => same_table s s' /\ SysBooks [] [] s' r) s.
Proof.
  intros HS Ho Ha. destruct (SysBooks_data _ _ _ _ HS) as [(fl & drift & HB) _].
  pose proof (DescClient.run_op_ok o _ _ _ fl drift HB Ha) as Hw. apply wp_some in Hw as ([] & t & Hrun & drift' & [fl' HB'] & _).
  unfold dev_run. apply (wp_step _ _ _ _ s s eq_refl). apply (wp_step _ _ _ _ (tt, t) s); [unfold lift; unfold dev_state in Hrun; by rewrite Hrun|]. eapply wp_run; [reflexivity|].
  split; [by eexists|]. eapply SysBooks_set; [exact HS| |].
  - exists fl', drift'. unfold after in *. by destruct (ended o _ _ _).
  - assert (E : (after o (device s) (pp_data s).1.2 (pp_data s).2 t).1.1 = t) by (unfold after; by destruct (ended o _ _ _)).
    unfold dev_state in *. rewrite E. by eapply keeps_run_op.
Qed.

Lemma SysBooks_perm L B B' s r : SysBooks L B s r -> B ≡ₚ B' -> SysBooks L B' s r.
Proof.
  intros HS HB. replace s with (set_pp_data (fun _ => pp_data s) s) by (by destruct s). eapply SysBooks_set; [exact HS| |done].
  destruct (SysBooks_data _ _ _ _ HS) as [(fl & drift & Hb) _]. exists fl, drift. eapply Books_rep; [exact Hb| |done|done].
  eapply DevRep_perm; [apply Hb|done|done].
Qed.

Lemma new_nbufs_sys msdus : forall s r L B,
  SysBooks L B s r -> NoDup (ms_netbuf <$> msdus) -> (forall m, m ∈ msdus -> dv_nbufs (device s) !! ms_netbuf m = None) ->
  wp (for_each msdus (fun m => incoming m)) (fun _ s' => same_table s s' /\ SysBooks L ((ms_netbuf <$> msdus) ++ B) s' r) s.
Proof.
  induction msdus as [|m msdus IH]; intros s r L B HS Hnd Hn; cbn [for_each].
  - apply (wp_run _ _ _ tt s eq_refl). split; [reflexivity|done].
  - rewrite fmap_cons in Hnd. apply list.NoDup_cons in Hnd as [Hni Hnd]. apply wp_bind.
    eapply wp_mono; [apply new_nbuf_sys; [exact HS|apply Hn; by apply elem_of_cons; left]|]. intros [] s1 (Hs1 & HS1 & _ & E).
    eapply wp_mono; [apply (IH s1 r L (ms_netbuf m :: B)); [exact HS1|done|]|].
    + intros m' Hm'. rewrite E, lookup_insert_ne; [apply Hn; by apply elem_of_cons; right|]. intros Eq. apply Hni. rewrite Eq. by apply list_elem_of_fmap_2.
    + intros [] s2 [Hs2 HS2]. split; [by transitivity s1|]. eapply SysBooks_perm; [exact HS2|]. cbn. by rewrite Permutation_middle.
Qed.

Lemma drop_nbufs_sys bs : forall s r L B,
  SysBooks L (bs ++ B) s r -> wp (for_each bs (fun b => with_dev (drop_nbuf b))) (fun _ s' => same_table s s' /\ SysBooks L B s' r) s.
Proof.
  induction bs as [|b bs IH]; intros s r L B HS; cbn [for_each].
  - apply (wp_run _ _ _ tt s eq_refl). split; [reflexivity|done].
  - apply wp_bind. eapply wp_mono; [apply drop_nbuf_sys; exact HS|]. intros [] s1 [Hs1 HS1].
    eapply wp_mono; [by apply IH|]. intros [] s2 [Hs2 HS2]. split; [by transitivity s1|done].
Qed.

Lemma sys_list_spec v tx_spec tdls msdus call_sched ti s r :
  SysBooks [] [] s r -> sys_allowed (sys_list v tx_spec tdls msdus call_sched ti) s r ->
  wp (run_sys cfg (sys_list v tx_spec tdls msdus call_sched ti)) (fun _ s' => same_table s s' /\ SysBooks [] [] s' r) s.
Proof.
  intros HS [Hnd Hok]. cbn [run_sys]. apply wp_bind. eapply wp_mono; [apply (new_nbufs_sys msdus s r [] []); [done|done|by intros m Hm; apply Hok]|].
  intros [] s1 [Hs1 HS1]. rewrite app_nil_r in HS1. apply wp_bind. eapply wp_mono; [apply (ol_tx_hl_list_spec cfg r); [exact HS1|]|].
  { intros m Hm. eapply data_ok_same; [exact Hs1|by apply Hok]. }
  intros rest s2 (Hs2 & _ & HS2). apply wp_none. eapply wp_mono; [apply (drop_nbufs_sys rest s2 r [] []); by rewrite app_nil_r|].
  intros [] s3 [Hs3 HS3]. split; [|done]. transitivity s1; [done|]. by transitivity s2.
Qed.
Lemma sys_data_spec v tx_spec tdls m others ti s r :
  let o := sys_data v tx_spec tdls m others ti in
  SysBooks [] [] s r -> sys_allowed o s r -> wp (run_sys cfg o) (fun res s' => SysBooks [] [] s' (sys_refs o s res r)) s.
Proof.
  intros o HS (Hb & Hd & Ho). cbn [o run_sys sys_refs]. unfold refs_within.
  pose proof (new_nbuf_sys s r [] [] _ (nbuf_of m) HS Hb) as Hw. apply wp_some in Hw as ([] & s1 & Hrun & Hs1 & HS1 & Hfl & _).
  rewrite (bind_run _ _ _ _ _ Hrun) in Ho. rewrite (bind_run _ (fun _ => hl_classify cfg v tx_spec tdls m ti) _ _ _ Hrun). eapply wp_step; [exact Hrun|]. apply wp_bind.
  eapply wp_mono; [apply (ol_tx_hl_frame_spec cfg s1 r v tx_spec tdls m others ti HS1); [by eapply data_ok_same|exact Ho]|].
  intros [ok ti1] s2 Hs2. cbn [fst] in Hs2. apply wp_none.
  destruct (hl_classify cfg v tx_spec tdls m ti s1) as [[[[d|] res] s3]|].
  - destruct Hs2 as [-> HS2]. by apply (wp_run _ _ _ tt s2 eq_refl).
  - destruct Hs2 as (-> & _ & HS2). eapply wp_mono; [by apply drop_nbuf_sys|]. by intros [] s4 [_ ?].
  - destruct Hs2 as (-> & _ & HS2). eapply wp_mono; [by apply drop_nbuf_sys|]. by intros [] s4 [_ ?].
Qed.

Lemma sys_mgmt_spec v type m others s r :
  let o := sys_mgmt v type m others in
  SysBooks [] [] s r -> sys_allowed o s r -> wp (run_sys cfg o) (fun res s' => SysBooks [] [] s' (sys_refs o s res r)) s.
Proof.
  intros o HS (Hb & Hd & Ho). cbn [o run_sys sys_refs]. unfold refs_within.
  pose proof (new_nbuf_sys s r [] [] _ (nbuf_of m) HS Hb) as Hw. apply wp_some in Hw as ([] & s1 & Hrun & [x ->] & HS1 & Hfl & _).
  rewrite (bind_run _ _ _ _ _ Hrun) in Ho. rewrite (bind_run _ (fun _ => mgmt_classify cfg v type m) _ _ _ Hrun). eapply wp_step; [exact Hrun|].
  set (s1 := set_pp_data _ s) in *. apply (wp_step _ _ _ _ s1 s1 eq_refl). apply wp_bind.
  eapply wp_mono; [apply (ol_txrx_mgmt_frame_spec cfg s1 r v type m others HS1); [by destruct Hd|exact Ho]|].
  intros ok s2 Hs2. apply wp_none. destruct (mgmt_classify cfg v type m s1) as [[[[[d q]|] res] s3]|].
  - destruct Hs2 as (_ & Hn & HS2). rewrite bool_decide_eq_false_2 by exact Hn. by apply (wp_run _ _ _ tt s2 eq_refl).
  - destruct Hs2 as (_ & Hn & HS2). rewrite bool_decide_eq_true_2 by exact Hn. eapply wp_mono; [by apply drop_nbuf_sys|]. by intros [] s4 [_ ?].
  - destruct Hs2 as (_ & Hn & HS2). rewrite bool_decide_eq_true_2 by exact Hn. eapply wp_mono; [by apply drop_nbuf_sys|]. by intros [] s4 [_ ?].
Qed.

Lemma run_sys_spec o s r : SysBooks [] [] s r -> sys_allowed o s r -> wp (run_sys cfg o) (fun res s' => SysBooks [] [] s' (sys_refs o s res r)) s.
Proof.
  intros HS Ha. destruct o.
  - by apply (op_spec (H0 := tx_data_path_ok [] [])).
  - destruct Ha as [Ho Ha]. cbn [run_sys]. apply wp_none. eapply wp_mono; [by apply dev_run_spec|]. by intros [] s' [_ ?].
  - eapply wp_mono; [by apply sys_list_spec|]. by intros res s' [_ ?].
  - by apply sys_data_spec.
  - by apply sys_mgmt_spec.
Qed.

(** ** Reachable states *)

(** A device without vdevs and peers, its descriptors all free. *)
Definition fresh_device (x : dev_state) : Prop :=
  attached x /\ pd_txqs (dv_tx x.1.1) = ∅ /\ tids_ok (pd_tid_to_ac (dv_tx x.1.1)).

Lemma fresh_device_ok x : fresh_device x -> path_ok [] [] ∅ ∅ x.
Proof.
  intros (Ha & He & Ht). split.
  - destruct (attached_books x Ha) as [fl HB]. by exists fl, 0.
  - split; [done|]. intros q. rewrite He, lookup_empty. split; [by intros [? ?]|]. destruct q; cbn; intros [Hq _]; by apply not_elem_of_empty in Hq.
Qed.

Inductive sys_reachable : peer_pdev dev_state -> gmultiset Z -> Prop :=
  | sys_init max addba monitor x s :
      0 <= max < HTT_INVALID_PEER -> fresh_device x -> peer_pdev_init max addba monitor x = Some s -> sys_reachable s ∅
  | sys_step s r o res s' :
      sys_reachable s r -> sys_allowed o s r -> run_sys cfg o s = Some (res, s') -> sys_reachable s' (sys_refs o s res r).

Lemma sys_reachable_books s r : sys_reachable s r -> SysBooks [] [] s r.
Proof.
  induction 1 as [max addba monitor x s Hmax Hx Hs|s r o res s' _ HS Ha Hrun].
  - apply (reachable_accounts (H0 := tx_data_path_ok [] [])). eapply reach_init; [exact Hmax|by apply fresh_device_ok|exact Hs].
  - pose proof (run_sys_spec o s r HS Ha) as Hw. unfold wp in Hw. by rewrite Hrun in Hw.
Qed.
End Client.
