(* ===== verification/SysProps.v ===== *)
(** The theorems about the transmit path as a whole, from the classification of
    a frame to the queue of its peer, with a small system in use. *)
From Stdlib Require Import ZArith Lia.
From stdpp Require Import prelude gmap fin_sets list numbers gmultiset.
From S2P Require Import Prelude.
From S2P Require Import TxTypes.
From S2P Require Import TxCore.
From S2P Require Import TxSched.
From S2P Require Import TxInv.
From S2P Require Import TxDispatch.
From S2P Require Import TxQueueInv.
From S2P Require Import TxInit.
From S2P Require Import DescTypes.
From S2P Require Import DescPool.
From S2P Require Import DescSend.
From S2P Require Import DescOps.
From S2P Require Import DescFree.
From S2P Require Import DescQueue.
From S2P Require Import DescComplete.
From S2P Require Import DescEntry.
From S2P Require Import SysQueues.
From S2P Require Import PeerTypes.
From S2P Require Import PeerTable.
From S2P Require Import PeerRep.
From S2P Require Import PeerSpec.
From S2P Require Import PeerInv.
From S2P Require Import PeerOps.
From S2P Require Import PeerVdev.
From S2P Require Import PeerClient.
From S2P Require Import PeerSafe.
From S2P Require Import TxClassifySpec.
From S2P Require Import SysPath.
From S2P Require Import SysEntry.
From S2P Require Import DescClient.
From S2P Require Import TxClassify.
From S2P Require Import SysSafe.
From S2P Require Import SysClient.
From S2P Require Import TxProps.
From S2P Require Import PeerExample.

(** ** A small system

    Eight descriptors; vdev 1 is an access point with the station 101, vdev 2 a
    station whose access point is peer 100. *)
#[local] Existing Instance ex_tx.
#[local] Remove Hints set_data_path set_data_path_ok : typeclass_instances.

Definition sx_tx : tx_pdev := run_state (ol_tx_sched_attach true false true []) (tx_pdev_init 40 8 1 2 false).
Definition sx_raw : tx_device :=
  mk_tx_device sx_tx (replicate 8 (mk_desc (TdNext None) 7 3 2 9 (Some 9))) None 0 ∅ true (replicate 8 (true, true)) false 0 0 [].
Definition sx_dev : tx_device := match pool_attach 8 (fun _ => true) sx_raw with Some (_, s) => s | None => sx_raw end.
Definition sx_cfg : tx_cfg := mk_tx_cfg wlan_frm_fmt_802_3 false.

Notation sys := (peer_pdev dev_state).
Definition sx_init : sys := default (mk_peer_pdev _ ∅ ∅ [] 0 0 [] [] [] 0 [] 0 false false None [] (sx_dev, ∅, ∅)) (peer_pdev_init 7 false false (sx_dev, ∅, ∅)).

Definition sx_perform (o : sys_op) (sr : sys * gmultiset Z) : sys * gmultiset Z :=
  match run_sys sx_cfg o sr.1 with Some (res, s') => (s', sys_refs sx_cfg o sr.1 res sr.2) | None => sr end.

Definition sx1 : sys * gmultiset Z := sx_perform (sys_peer (op_call (call_vdev_attach 1 mac_v1 wlan_op_mode_ap))) (sx_init, ∅).
Definition sx2 : sys * gmultiset Z := sx_perform (sys_peer (op_call (call_vdev_attach 2 mac_v2 wlan_op_mode_sta))) sx1.
Definition sx3 : sys * gmultiset Z := sx_perform (sys_peer (op_attach 2 mac_a [] true (Some 100))) sx2.
Definition sx4 : sys * gmultiset Z := sx_perform (sys_peer (op_attach 1 mac_b [] true (Some 101))) sx3.
Definition sx5 : sys * gmultiset Z := sx_perform (sys_peer (op_call (call_map 3 mac_a true))) sx4.
Definition sx6 : sys * gmultiset Z := sx_perform (sys_peer (op_call (call_map 4 mac_b true))) sx5.
Definition sx7 : sys * gmultiset Z := sx_perform (sys_peer (op_call (call_state mac_a ol_txrx_peer_state_conn))) sx6.
Definition sx8 : sys * gmultiset Z := sx_perform (sys_peer (op_call (call_state mac_b ol_txrx_peer_state_auth))) sx7.

(** The access point has a peer of its own; the station can send with priorities
    and may be sent to. *)
Definition sx_self : sys * gmultiset Z := sx_perform (sys_peer (op_attach 1 mac_v1 [] true (Some 102))) sx8.
Definition sx_qos : sys * gmultiset Z := sx_perform (sys_peer (op_call (call_update mac_b (ol_txrx_peer_update_qos_capable true)))) sx_self.
Definition sx_up : sys * gmultiset Z := sx_perform (sys_peer (op_call (call_tx_ready 4))) sx_qos.

(** A frame for the station of the access point: IPv4 with priority 5. *)
Definition sx_header (dst : list Z) (type : Z) : eth_header := mk_eth_header dst (mac_bytes mac_v1) None None type.
Definition sx_packet : list Z := [0x45; 0xa0] ++ replicate 44 0.
Definition sx_frame (dst : list Z) (type : Z) (payload : list Z) : frame := mk_frame (eth_bytes (sx_header dst type) payload) 0 false.
Definition sx_msdu (b : Z) (f : frame) : msdu := mk_msdu b f ADF_NBUF_TX_EXT_TID_INVALID true 0 0.
Definition sx_unicast : frame := sx_frame (mac_bytes mac_b) ETHERTYPE_IPV4 sx_packet.
Definition sx_multicast : frame := sx_frame [0x01; 0; 0x5e; 0; 0; 1] ETHERTYPE_IPV4 sx_packet.

(** [others] detach the station while a frame for it is on its way. *)
Definition sx_others : list call := [call_detach 101; call_unmap 4].
Definition sx9 : sys * gmultiset Z := sx_perform (sys_data 1 0 None (sx_msdu 201 sx_unicast) sx_others zero_info) sx_up.
Definition sx_sent : sys * gmultiset Z := sx_perform (sys_list 1 0 None [sx_msdu 201 sx_unicast; sx_msdu 202 sx_multicast] true zero_info) sx_up.

(** ** Reaching it *)
Lemma sx_tx_ok : Inv sx_tx /\ pd_txqs sx_tx = ∅ /\ tids_ok (pd_tid_to_ac sx_tx).
Proof.
  apply (run_state_wp (ol_tx_sched_attach true false true []) (fun t => Inv t /\ pd_txqs t = ∅ /\ tids_ok (pd_tid_to_ac t))).
  eapply wp_mono; [apply (Inv_init true false [] 40 8 1 2 false); [constructor|lia]|].
  intros [] t (HI & Hq & Ht & _). rewrite Ht. split; [done|]. split; [done|apply tid_to_ac_init_ok].
Qed.

Lemma sx_fresh : fresh_device (sx_dev, ∅, ∅).
Proof.
  destruct sx_tx_ok as (HI & Hq & Ht).
  assert (Hb : before_attach sx_raw) by (constructor; [apply sx_tx_ok|by vm_compute|by vm_compute|by vm_compute|by vm_compute|done|done]).
  split; [apply (attached_intro sx_raw sx_dev Hb); by vm_compute|]. split; [by vm_compute|].
  replace (pd_tid_to_ac (dv_tx (sx_dev, ∅, ∅).1.1)) with (pd_tid_to_ac sx_tx) by (by vm_compute). done.
Qed.

Notation sx_reach sr := (sys_reachable sx_cfg sr.1 sr.2).

Lemma sx_init_reach : sys_reachable sx_cfg sx_init ∅.
Proof. apply (sys_init sx_cfg 7 false false (sx_dev, ∅, ∅)); [by vm_compute|apply sx_fresh|by vm_compute]. Qed.

Lemma sx_step o sr : sx_reach sr -> sys_allowed sx_cfg o sr.1 sr.2 -> sx_reach (sx_perform o sr).
Proof.
  intros Hr Ha. pose proof (run_sys_spec sx_cfg o _ _ (sys_reachable_books _ _ _ Hr) Ha) as Hw. unfold sx_perform. unfold wp in Hw.
  destruct (run_sys sx_cfg o sr.1) as [[res s']|] eqn:E; [|done]. by eapply sys_step.
Qed.

Definition sx_room (s : sys) : bool := bool_decide (map_Forall (fun _ x => pe_ref_cnt x + 1 < 2 ^ 31) (pp_peers s)).
Lemma sx_room_ok s : sx_room s = true -> ref_room s.
Proof. intros H%bool_decide_eq_true p x Hp. by apply (H p x). Qed.

Lemma sx_attach_allowed v mac mem (sr : sys * gmultiset Z) :
  mac_ok mac -> bool_decide (v ∈ pp_vdev_list sr.1) = true ->
  match attach_search v mac sr.1 with
  | Some (Some false, s1) => bool_decide (v ∈ pp_vdev_list s1) && sx_room s1 && bool_decide (pp_peers s1 !! mem = None)
  | _ => false
  end = true ->
  sys_allowed sx_cfg (sys_peer (op_attach v mac [] true (Some mem))) sr.1 sr.2.
Proof.
  intros Hm Hv%bool_decide_eq_true Hs. destruct sr as [s r]. cbn [fst snd sys_allowed allowed_op] in *. unfold while_attach. cbn [fst snd].
  destruct (attach_search v mac s) as [[[[]|] s1]|]; try done.
  apply andb_true_iff in Hs as [[H1%bool_decide_eq_true H2]%andb_true_iff H3%bool_decide_eq_true].
  split; [done|]. split; [done|]. split; [done|]. cbn. split; [done|]. split; [by apply sx_room_ok|]. by intros p [= <-].
Qed.

Ltac sx_room := apply sx_room_ok; by vm_compute.
Lemma sx1_reach : sx_reach sx1.
Proof. apply (sx_step _ (sx_init, ∅)); [apply sx_init_reach|]. split; [sx_room|]. split; [apply mac_v1_ok|by vm_compute]. Qed.
Lemma sx2_reach : sx_reach sx2.
Proof. apply sx_step; [apply sx1_reach|]. split; [sx_room|]. split; [apply mac_v2_ok|by vm_compute]. Qed.
Lemma sx3_reach : sx_reach sx3.
Proof. apply sx_step; [apply sx2_reach|]. apply sx_attach_allowed; [apply mac_a_ok|by vm_compute..]. Qed.
Lemma sx4_reach : sx_reach sx4.
Proof. apply sx_step; [apply sx3_reach|]. apply sx_attach_allowed; [apply mac_b_ok|by vm_compute..]. Qed.
Lemma sx5_reach : sx_reach sx5.
Proof. apply sx_step; [apply sx4_reach|]. split; [sx_room|]. split; [apply mac_a_ok|]. split; [by vm_compute|]. split; [done|by vm_compute]. Qed.
Lemma sx6_reach : sx_reach sx6.
Proof. apply sx_step; [apply sx5_reach|]. split; [sx_room|]. split; [apply mac_b_ok|]. split; [by vm_compute|]. split; [done|by vm_compute]. Qed.
Lemma sx_can_update (s : sys) st : pp_host_addba s = false -> can_update (H0 := tx_data_path_ok [] []) s st.
Proof. intros E Hh. congruence. Qed.
Lemma sx7_reach : sx_reach sx7.
Proof. apply sx_step; [apply sx6_reach|]. split; [sx_room|]. split; [apply mac_a_ok|]. apply sx_can_update. by vm_compute. Qed.
Lemma sx8_reach : sx_reach sx8.
Proof. apply sx_step; [apply sx7_reach|]. split; [sx_room|]. split; [apply mac_b_ok|]. apply sx_can_update. by vm_compute. Qed.

Lemma sx_self_reach : sx_reach sx_self.
Proof. apply sx_step; [apply sx8_reach|]. apply sx_attach_allowed; [apply mac_v1_ok|by vm_compute..]. Qed.
Lemma sx_qos_reach : sx_reach sx_qos.
Proof. apply sx_step; [apply sx_self_reach|]. split; [sx_room|apply mac_b_ok]. Qed.
Lemma sx_up_reach : sx_reach sx_up.
Proof. apply sx_step; [apply sx_qos_reach|]. split; [sx_room|done]. Qed.

(** *** Frames in it *)
Lemma sx_unicast_ok : frame_ok sx_unicast.
Proof. split; [by vm_compute|]. apply (bool_decide_unpack _). by vm_compute. Qed.
Lemma sx_multicast_ok : frame_ok sx_multicast.
Proof. split; [by vm_compute|]. apply (bool_decide_unpack _). by vm_compute. Qed.

Lemma sx_data_ok (s : sys) v b f :
  frame_ok f -> sx_room s && bool_decide (v ∈ pp_vdev_list s) && bool_decide (vd_opmode <$> pp_vdevs s !! v <> Some wlan_op_mode_ocb) = true ->
  data_ok s v None (sx_msdu b f).
Proof.
  intros Hf [[H1 H2%bool_decide_eq_true]%andb_true_iff H3%bool_decide_eq_true]%andb_true_iff.
  constructor; [done|by intros y Hy E; rewrite Hy in H3; cbn in H3; rewrite E in H3|done|by vm_compute|done|by apply sx_room_ok].
Qed.

Lemma sx_sent_allowed : sys_allowed sx_cfg (sys_list 1 0 None [sx_msdu 201 sx_unicast; sx_msdu 202 sx_multicast] true zero_info) sx_up.1 sx_up.2.
Proof.
  split; [apply (bool_decide_unpack _); by vm_compute|]. intros m Hm.
  apply elem_of_cons in Hm as [->|Hm]; [split; [by vm_compute|apply sx_data_ok; [apply sx_unicast_ok|by vm_compute]]|].
  apply list_elem_of_singleton in Hm as ->. split; [by vm_compute|apply sx_data_ok; [apply sx_multicast_ok|by vm_compute]].
Qed.

(** The state between the classification of the first frame and its end. *)
Definition sx_flight : option ((option (Z * option txq_id) * tx_msdu_info) * sys) :=
  (with_dev (new_nbuf 201 (nbuf_of (sx_msdu 201 sx_unicast)));; hl_classify sx_cfg 1 0 None (sx_msdu 201 sx_unicast) zero_info) sx_up.1.
Definition sx_mid : sys := match sx_flight with Some (_, s1) => s1 | None => sx_up.1 end.
Definition sx_calm : peer := mk_peer 0 mac_a false 0 false [] 0 false ol_txrx_peer_state_invalid None false 0 (0, 0).

Lemma sx_unmap_allowed (s : sys) r i : sx_room s = true -> pp_max_peer_id s = 7 -> 0 <= i <= 7 -> allowed_call (call_unmap i) s r.
Proof. intros Hr Hm Hi. split; [by apply sx_room_ok|]. rewrite Hm. split; [done|]. unfold HTT_INVALID_PEER. lia. Qed.
Lemma sx_detach_allowed (s : sys) r p : sx_room s = true -> pe_valid <$> pp_peers s !! p = Some true -> allowed_call (call_detach p) s r.
Proof. intros Hr Hp. split; [by apply sx_room_ok|]. destruct (pp_peers s !! p) as [x|]; [|done]. exists x. split; [done|]. by injection Hp. Qed.
Lemma sx_calls (c : call) l (s : sys) r :
  allowed_call c s r -> (forall s', s' = match run_call c s with Some (_, s') => s' | None => s end -> allowed_list l s' (refs_after c (match run_call c s with Some (o, _) => o | None => None end) r)) ->
  allowed_list (c :: l) s r.
Proof. intros Hc Hl. split; [done|]. intros o s' Hrun. specialize (Hl s'). rewrite Hrun in Hl. by apply Hl. Qed.

Lemma sx_others_ok : others_ok sx_up.2 1 sx_others sx_mid.
Proof.
  split.
  - apply sx_calls; [apply sx_detach_allowed; by vm_compute|]. intros s' ->.
    apply sx_calls; [apply sx_unmap_allowed; [by vm_compute..|lia]|]. intros s' _. exact I.
  - apply (bool_decide_eq_true_1 (1 ∈ _)). by vm_compute.
Qed.

Lemma sx9_allowed : sys_allowed sx_cfg (sys_data 1 0 None (sx_msdu 201 sx_unicast) sx_others zero_info) sx_up.1 sx_up.2.
Proof.
  split; [by vm_compute|]. split; [apply sx_data_ok; [apply sx_unicast_ok|by vm_compute]|].
  intros d res s1 Hrun. replace s1 with sx_mid; [apply sx_others_ok|]. unfold sx_mid, sx_flight. cbn [ms_netbuf sx_msdu] in Hrun. by rewrite Hrun.
Qed.
Lemma sx9_reach : sx_reach sx9.
Proof. apply sx_step; [apply sx_up_reach|apply sx9_allowed]. Qed.
Lemma sx_sent_reach : sx_reach sx_sent.
Proof. apply sx_step; [apply sx_up_reach|apply sx_sent_allowed]. Qed.

(** ** The system *)
Section Theorems.
Context `{HttTx} (cfg : tx_cfg).
Implicit Types (s : sys) (r : gmultiset Z).

Notation device s := (pp_data s).1.1.


(** C5: between calls nothing is in nobody's hands: every descriptor is free, in a
    queue, with the download or with the target, and every buffer belongs to a
    descriptor; the queues are those of the vdevs in the list and of the peers in
    the table and no others; and a peer's reference count is what the table and its
    users hold: no frame has kept a reference. *)
Theorem system_accounts s r :
  sys_reachable cfg s r ->
  (exists fl drift, Books (device s) fl [] [] (pp_data s).1.2 (pp_data s).2 drift) /\
  (forall q, is_Some (pd_txqs (dv_tx (device s)) !! q) <-> queue_of (list_to_set (pp_vdev_list s)) (dom (pp_peers s)) q) /\
  (forall p x, pp_peers s !! p = Some x -> pe_ref_cnt x = base s p x + Z.of_nat (multiplicity p r)).
Proof.
  intros Hr. pose proof (sys_reachable_books _ _ _ Hr) as HS. destruct (SysBooks_data _ _ _ _ HS) as [HB [_ Hq]].
  split; [done|]. split; [done|]. intros p x Hp. pose proof (ac_held _ _ HS p) as Hh. rewrite (held_at s p x Hp) in Hh. lia.
Qed.

(** C6: a frame keeps its peer: whatever others do while it is on its way, detaching
    the peer included, the peer is in the table until the frame ends; and if the
    frame's was the last reference, the peer and its queues are gone with it. *)
Theorem frame_keeps_its_peer s r v tx_spec tdls m others ti i txq ti1 s1 p :
  let o := sys_data v tx_spec tdls m others ti in
  sys_reachable cfg s r -> sys_allowed cfg o s r ->
  (with_dev (new_nbuf (ms_netbuf m) (nbuf_of m));; hl_classify cfg v tx_spec tdls m ti) s = Some ((Some (i, txq), ti1), s1) -> ti_peer ti1 = Some p ->
  let s2 := (after_calls others (s1, r)).1 in let r2 := (after_calls others (s1, r)).2 in
  is_Some (pp_peers s2 !! p) /\ exists s', run_sys cfg o s = Some (None, s') /\
    (p ∉ r2 -> (forall x, pp_peers s2 !! p = Some x -> base s2 p x = 0) ->
      pp_peers s' !! p = None /\ forall tid, pd_txqs (dv_tx (device s')) !! PeerTxq p tid = None).
Proof.
  intros o Hr Ha Hrun Hp s2 r2. pose proof (sys_reachable_books _ _ _ Hr) as HS. pose proof Ha as (Hb & Hd & Ho).
  pose proof (new_nbuf_sys s r [] [] _ (nbuf_of m) HS Hb) as Hw. apply wp_some in Hw as ([] & s0 & Hrun0 & Hs0 & HS0 & _).
  destruct (Ho _ _ _ Hrun) as [Hal Hv]. rewrite (bind_run _ (fun _ => hl_classify cfg v tx_spec tdls m ti) _ _ _ Hrun0) in Hrun.
  pose proof (hl_classify_spec cfg s0 r v tx_spec tdls m ti _ [] HS0 eq_refl (data_ok_same _ _ _ _ _ Hs0 Hd)) as Hw. unfold wp in Hw.
  rewrite Hrun in Hw. destruct Hw as (_ & s4 & Hs4 & HS4 & Hc). cbn [fst snd] in *.
  assert (HS1 : SysBooks [i] [] s1 (plus_ref r (ti_peer ti1))).
  { rewrite (cl_state _ _ _ _ _ Hc). apply SysBooks_took; [done| |apply (cl_peer _ _ _ _ _ Hc)].
    eapply set_data_room; [exact Hs4|]. eapply set_data_room; [exact Hs0|apply Hd]. }
  pose proof (others_spec [i] [] others s1 r (ti_peer ti1) HS1 Hal) as Hw. apply wp_some in Hw as ([] & s2' & Hrun2 & Es2 & HS2). subst s2'. fold s2 r2 in HS2, Hv, Hrun2.
  assert (Hin : is_Some (pp_peers s2 !! p)) by (rewrite Hp in HS2; by eapply SysBooks_peer). split; [done|].
  assert (Hfin : forall s', hl_finish i txq ti1 s2 = Some (tt, s') -> run_sys cfg o s = Some (None, s')).
  { intros s' Hf. cbn [o run_sys]. rewrite (bind_run _ _ _ _ _ Hrun0). unfold ol_tx_hl_frame.
    assert (E : (let '(r0, ti2) := (Some (i, txq), ti1) in match r0 with Some (i0, txq0) => run_calls others;; hl_finish i0 txq0 ti2;; mret (true, ti2) | None => mret (false, ti2) end) s1
      = Some ((true, ti1), s')) by (rewrite (bind_run _ _ _ _ _ Hrun2), (bind_run _ _ _ _ _ Hf); done).
    rewrite (bind_run _ _ s0 (true, ti1) s'); [done|]. by rewrite (bind_run _ _ _ _ _ Hrun). }
  pose proof (hl_finish_spec _ _ _ _ _ _ _ _ _ Hc HS2 Hv) as Hw. apply wp_some in Hw as ([] & s' & Hrun3 & _).
  exists s'. split; [by apply Hfin|]. intros Hnot Hbase. destruct Hin as [x Hx].
  pose proof (hl_finish_last _ _ _ _ _ _ _ _ p x Hc HS2 Hv Hp Hx Hnot (Hbase x Hx)) as Hl. unfold wp in Hl. rewrite Hrun3 in Hl. destruct Hl as [HS' Hgone].
  split; [done|]. intros tid. destruct (SysBooks_data _ _ _ _ HS') as [_ [_ Hq]]. apply eq_None_not_Some. rewrite Hq. cbn. intros [Hin _].
  apply elem_of_dom in Hin as [y Hy]. congruence.
Qed.

(** C35: a list of frames that is sent while nobody else is at work leaves the peer
    table as it was; what is not accepted is the end of the list, and the buffers of
    just these frames are still the caller's. *)
Theorem ol_tx_hl_list_correct s r v tx_spec tdls msdus call_sched ti :
  SysBooks [] (ms_netbuf <$> msdus) s r -> (forall m, m ∈ msdus -> data_ok s v tdls m) ->
  exists k x, let s' := set_pp_data (fun _ => x) s in let rest := drop k (ms_netbuf <$> msdus) in
    ol_tx_hl_list cfg v tx_spec tdls msdus call_sched ti s = Some (rest, s') /\ SysBooks [] rest s' r.
Proof.
  intros HS Hd. pose proof (ol_tx_hl_list_spec cfg r v tx_spec tdls call_sched msdus s ti HS Hd) as Hw.
  apply wp_some in Hw as (rest & s' & Hrun & [x ->] & [k ->] & HS'). by exists k, x.
Qed.

(** C14: the classification of a data frame takes exactly one reference, to the peer
    it returns, and none when the frame is to be dropped; the queue is the multicast
    queue of the vdev or one of the peer's, and the TID of the frame is the one under
    which the scheduler knows this queue. *)
Theorem ol_tx_classify_correct s r v tdls f ti :
  SysBooks [] [] s r -> ref_room s -> frame_ok f -> v ∈ pp_vdev_list s -> ti_peer ti = None -> 0 <= ti_ext_tid ti ->
  (forall a, tdls = Some a -> mac_ok a) ->
  exists txq ti' s', ol_tx_classify cfg tdls v f ti s = Some ((txq, ti'), s') /\ s' = took s (ti_peer ti') /\
    SysBooks [] [] s' (plus_ref r (ti_peer ti')) /\ (txq = None -> ti_peer ti' = None) /\
    forall q, txq = Some q -> ti_ext_tid ti' = ext_tid_of q /\ is_Some (pd_txqs (dv_tx (device s')) !! q) /\
      (q = VdevTxq v OL_TX_VDEV_MCAST_BCAST \/ exists p tid, q = PeerTxq p tid /\ ti_peer ti' = Some p).
Proof.
  intros HS Hroom Hf Hv Hti Hext Ht. destruct (vi_there _ (ac_vdevs _ _ HS) v Hv) as (y & Hy & _).
  pose proof (ol_tx_classify_spec (H0 := tx_data_path_ok [] []) cfg tdls v f s r HS Hroom Hf ltac:(eauto) ti Hti Hext Ht) as Hw.
  apply wp_some in Hw as ([txq ti'] & s' & Hrun & Hc). exists txq, ti', s'. split; [done|]. pose proof (cl_state _ _ _ _ _ Hc) as E. cbn [snd] in E.
  assert (HS' : SysBooks [] [] s' (plus_ref r (ti_peer ti'))) by (rewrite E; apply SysBooks_took; [done|done|apply (cl_peer _ _ _ _ _ Hc)]).
  split; [done|]. split; [done|]. split; [apply (cl_drop _ _ _ _ _ Hc)|]. intros q ->.
  destruct (classified_queue _ _ _ _ _ _ _ _ s' r q Hc eq_refl ltac:(done) HS') as [Hq He]; [by rewrite E, took_vdev_list|].
  split; [done|]. split; [by eapply SysBooks_queue|]. destruct (cl_queue _ _ _ _ _ Hc q eq_refl) as [_ [->|(p & tid & -> & Hp & _)]]; [by left|right; by exists p, tid].
Qed.
End Theorems.

(** C22: the parser of Ethernet frames inverts the writer, with and without a VLAN
    tag and with the type in the header or in an LLC/SNAP header: it finds the type
    of the payload and where the payload begins, and the TID is what was given from
    outside or what the payload asks for by its type of service. *)
Theorem ol_tx_tid_roundtrip h payload f ti :
  eth_header_ok h -> fr_data f = eth_bytes h payload -> Forall (fun b => 0 <= b < 256) payload -> (4 <= length payload)%nat ->
  exists ti', ol_tx_tid wlan_frm_fmt_802_3 f ti = Some
    (if ti_ext_tid ti =? ADF_NBUF_TX_EXT_TID_INVALID then payload_tid (eh_type h) payload else ti_ext_tid ti, ti') /\
    ti_ethertype ti' = eh_type h /\ ti_l3_hdr_offset ti' = eth_hdr_len h /\ ti_peer ti' = ti_peer ti /\ ti_ext_tid ti' = ti_ext_tid ti.
Proof. intros Hh Hf Hb Hl. eexists. split; [by apply ol_tx_tid_eth|done]. Qed.

(** C21: a unicast Ethernet frame of an access point, written with any of the headers
    above, for a station that is known to the target and can send with priorities.
    The frame is not one for DHCP by the test of the code, it comes without a TID
    from outside, and WAPI is off.  Then its peer
    is the first one with the destination address, its queue the one of the priority
    the payload asks for, and the message to the target names the peer's id. *)
Theorem ol_tx_classify_unicast_correct `{HttTx} cfg tdls v s r L y m p x id h payload f ti :
  SysBooks [] [] s r -> ref_room s -> frame_ok f -> PeerRep (H0 := tx_data_path_ok [] []) s L -> cfg_frame_format cfg = wlan_frm_fmt_802_3 -> cfg_wapi cfg = false ->
  pp_vdevs s !! v = Some y -> vd_opmode y = wlan_op_mode_ap ->
  eth_header_ok h -> eh_dst h = mac_bytes m -> mac_ok m -> Z.land (bytes_ab m) 1 = 0 ->
  fr_data f = eth_bytes h payload -> (4 <= length payload)%nat -> ti_ext_tid ti = ADF_NBUF_TX_EXT_TID_INVALID ->
  first_with s L m true = Some p -> pp_peers s !! p = Some x -> pe_peer_ids x !! 0%nat = Some id -> id <> HTT_INVALID_PEER_ID ->
  pe_qos_capable x = true -> adf_nbuf_is_dhcp_pkt f = Some false ->
  exists ti', ol_tx_classify cfg tdls v f ti s = Some ((Some (PeerTxq p (payload_tid (eh_type h) payload)), ti'), took s (Some p)) /\
    ti_peer ti' = Some p /\ ti_ext_tid ti' = payload_tid (eh_type h) payload /\ ti_peer_id ti' = id /\ ti_is_unicast ti' = true /\
    ti_ethertype ti' = eh_type h /\ ti_l3_hdr_offset ti' = eth_hdr_len h.
Proof. intros HS Hr Hf. by apply (classify_unicast_eth (H0 := tx_data_path_ok [] []) cfg tdls v f s r HS Hr Hf). Qed.

(** C39: [tx_msdu_info] of [ol_tx_hl_base] is on the stack and not initialised, and a
    multicast frame does not set the type of its payload.  So for a station whose
    access point is known to the target and neither authenticated nor disconnected,
    any multicast frame but one for DHCP that gets a descriptor, nobody else being
    at work, is admitted by what [ti] holds: it goes to the multicast queue when
    the type left there by the frame before, or by what was on the stack, is that of
    EAPOL or WAI, and is dropped otherwise, whatever its own type is. *)
Theorem multicast_gate_reads_stale_type `{HttTx} cfg (s : sys) r v tx_spec tdls m ti y p x id dest a0 :
  SysBooks [] [ms_netbuf m] s r -> data_ok s v tdls m -> dv_freelist (pp_data s).1.1 <> None ->
  pp_vdevs s !! v = Some y -> vd_opmode y = wlan_op_mode_sta -> vd_last_real_peer y = Some p ->
  pp_peers s !! p = Some x -> znth (pe_peer_ids x) 0 = Some id -> id <> HTT_INVALID_PEER ->
  pe_state x <> ol_txrx_peer_state_auth -> pe_state x <> ol_txrx_peer_state_disc ->
  ol_tx_dest_addr_find (cfg_frame_format cfg) = Some dest -> rd8 (ms_frame m) dest = Some a0 -> IEEE80211_IS_MULTICAST a0 = true ->
  adf_nbuf_is_dhcp_pkt (ms_frame m) = Some false ->
  let q := VdevTxq v OL_TX_VDEV_MCAST_BCAST in
  exists i ti' s1 s', hl_classify cfg v tx_spec tdls m ti s = Some ((Some (i, Some q), ti'), s1) /\ SysBooks [i] [] s1 (plus_ref r (Some p)) /\
    ti_ethertype ti' = ti_ethertype ti /\
    (with_dev (if ETHERTYPE_IS_EAPOL_WAPI (ti_ethertype ti) then enqueue_as q (ext_tid_of q) i else drop_desc i);; unref_peer (Some p)) s1 = Some (tt, s') /\
    ol_tx_hl_frame cfg v tx_spec tdls m skip ti s = Some ((true, ti'), s') /\ SysBooks [] [] s' r.
Proof.
  intros HS Hd Hfree Hy Hsta Hlast Hx Hid Hne Hauth Hdisc Hdest Ha0 Hmc Hdhcp q.
  destruct (hl_classify_sta_mcast cfg s r v tx_spec tdls m ti y p x id dest a0 HS Hd Hfree Hy Hsta Hlast Hx Hid Hne Hdest Ha0 Hmc Hdhcp)
    as (i & ti' & s0 & Hrun & [d ->] & HS0 & Hc & Hp & Hty). set (s0 := set_pp_data _ s) in *. set (s1 := took s0 (Some p)) in *.
  assert (HS1 : SysBooks [i] [] s1 (plus_ref r (Some p))).
  { apply SysBooks_took; [done|apply (set_data_room s); [by exists d|apply Hd]|]. intros ? [= <-]. by exists x. }
  assert (Hperm : tx_peer_permits ti' s1 = Some (ETHERTYPE_IS_EAPOL_WAPI (ti_ethertype ti), s1)).
  { unfold tx_peer_permits. rewrite Hp. erewrite bind_run by (apply get_peer_run; by apply took_peer). cbn [set_pe_ref_cnt pe_state].
    rewrite Hty. by destruct (pe_state x). }
  pose proof (hl_finish_spec s0 v i (Some q) ti' s1 s1 r [] Hc) as Hw. rewrite Hp in Hw.
  apply wp_some in Hw as ([] & s' & Hfin & _ & _ & _ & _ & HS'); [|done|unfold s1; rewrite took_vdev_list; apply Hd].
  exists i, ti', s1, s'. split; [done|]. split; [done|]. split; [done|].
  destruct (cl_queue _ _ _ _ _ Hc q eq_refl) as [Hext _]. cbn [snd] in Hext.
  assert (E : hl_finish i (Some q) ti' s1 = (with_dev (if ETHERTYPE_IS_EAPOL_WAPI (ti_ethertype ti) then enqueue_as q (ext_tid_of q) i else drop_desc i);; unref_peer (Some p)) s1).
  { unfold hl_finish. rewrite (bind_run _ _ _ _ _ Hperm), Hext, Hp. by destruct (ETHERTYPE_IS_EAPOL_WAPI _). }
  split; [by rewrite <- E|]. split; [|done]. unfold ol_tx_hl_frame. rewrite (bind_run _ _ _ _ _ Hrun). cbv beta iota.
  erewrite bind_run by reflexivity. by rewrite (bind_run _ _ _ _ _ Hfin).
Qed.

(** ** The theorems at work *)
Lemma sx_up_books : SysBooks [] [] sx_up.1 sx_up.2.
Proof. apply (sys_reachable_books sx_cfg), sx_up_reach. Qed.


(** Two frames with the target. *)
Lemma system_accounts_witness :
  (pp_data sx_sent.1).2 = {[0; 1]} /\
  (exists fl drift, Books (pp_data sx_sent.1).1.1 fl [] [] (pp_data sx_sent.1).1.2 (pp_data sx_sent.1).2 drift) /\
  (forall q, is_Some (pd_txqs (dv_tx (pp_data sx_sent.1).1.1) !! q) <-> queue_of (list_to_set (pp_vdev_list sx_sent.1)) (dom (pp_peers sx_sent.1)) q) /\
  (forall p x, pp_peers sx_sent.1 !! p = Some x -> pe_ref_cnt x = base sx_sent.1 p x + Z.of_nat (multiplicity p sx_sent.2)).
Proof. split; [apply (bool_decide_unpack _); by vm_compute|]. apply (system_accounts sx_cfg sx_sent.1 sx_sent.2 sx_sent_reach). Defined.

Definition sx_classified : tx_msdu_info := match sx_flight with Some ((_, ti), _) => ti | None => zero_info end.
Lemma sx_flight_run :
  (with_dev (new_nbuf 201 (nbuf_of (sx_msdu 201 sx_unicast)));; hl_classify sx_cfg 1 0 None (sx_msdu 201 sx_unicast) zero_info) sx_up.1 =
  Some ((Some (0, Some (PeerTxq 101 5)), sx_classified), sx_mid).
Proof. by vm_compute. Qed.

Lemma frame_keeps_its_peer_witness :
  let s2 := (after_calls sx_others (sx_mid, sx_up.2)).1 in let r2 := (after_calls sx_others (sx_mid, sx_up.2)).2 in
  is_Some (pp_peers s2 !! 101) /\ exists s', run_sys sx_cfg (sys_data 1 0 None (sx_msdu 201 sx_unicast) sx_others zero_info) sx_up.1 = Some (None, s') /\
    (101 ∉ r2 -> (forall x, pp_peers s2 !! 101 = Some x -> base s2 101 x = 0) ->
      pp_peers s' !! 101 = None /\ forall tid, pd_txqs (dv_tx (pp_data s').1.1) !! PeerTxq 101 tid = None).
Proof.
  apply (frame_keeps_its_peer sx_cfg sx_up.1 sx_up.2 1 0 None (sx_msdu 201 sx_unicast) sx_others zero_info 0 (Some (PeerTxq 101 5)) sx_classified sx_mid 101
    sx_up_reach sx9_allowed sx_flight_run). by vm_compute.
Defined.

(** The last reference it was. *)
Lemma sx_flight_last :
  let s2 := (after_calls sx_others (sx_mid, sx_up.2)).1 in
  bool_decide (101 ∉ (after_calls sx_others (sx_mid, sx_up.2)).2) && bool_decide (base s2 101 <$> pp_peers s2 !! 101 = Some 0) = true.
Proof. by vm_compute. Qed.

Lemma sx_incoming : exists s0, SysBooks [] [201; 202] s0 sx_up.2 /\ data_ok s0 1 None (sx_msdu 201 sx_unicast) /\ data_ok s0 1 None (sx_msdu 202 sx_multicast).
Proof.
  destruct sx_sent_allowed as [Hnd Hok].
  pose proof (new_nbufs_sys [sx_msdu 201 sx_unicast; sx_msdu 202 sx_multicast] sx_up.1 sx_up.2 [] [] sx_up_books Hnd (fun m Hm => proj1 (Hok m Hm))) as Hw.
  apply wp_some in Hw as ([] & s0 & _ & Hs0 & HS0). exists s0. split; [done|]. split; (eapply data_ok_same; [exact Hs0|]).
  - apply sx_data_ok; [apply sx_unicast_ok|by vm_compute].
  - apply sx_data_ok; [apply sx_multicast_ok|by vm_compute].
Qed.
Lemma ol_tx_hl_list_correct_witness :
  exists (s0 : sys) k x, let s' := set_pp_data (fun _ => x) s0 in let rest := drop k [201; 202] in
    ol_tx_hl_list sx_cfg 1 0 None [sx_msdu 201 sx_unicast; sx_msdu 202 sx_multicast] true zero_info s0 = Some (rest, s') /\ SysBooks [] rest s' sx_up.2.
Proof.
  destruct sx_incoming as (s0 & HS0 & H1 & H2). exists s0.
  apply (ol_tx_hl_list_correct sx_cfg s0 sx_up.2 1 0 None [sx_msdu 201 sx_unicast; sx_msdu 202 sx_multicast] true zero_info HS0).
  intros m [->|[->|[]%not_elem_of_nil]%elem_of_cons]%elem_of_cons; done.
Defined.

Definition sx_ask : tx_msdu_info := set_ti_ext_tid (fun _ => ADF_NBUF_TX_EXT_TID_INVALID) zero_info.
Lemma ol_tx_classify_correct_witness :
  exists txq ti' s', ol_tx_classify sx_cfg None 1 sx_multicast sx_ask sx_up.1 = Some ((txq, ti'), s') /\ s' = took sx_up.1 (ti_peer ti') /\
    SysBooks [] [] s' (plus_ref sx_up.2 (ti_peer ti')) /\ (txq = None -> ti_peer ti' = None) /\
    forall q, txq = Some q -> ti_ext_tid ti' = ext_tid_of q /\ is_Some (pd_txqs (dv_tx (pp_data s').1.1) !! q) /\
      (q = VdevTxq 1 OL_TX_VDEV_MCAST_BCAST \/ exists p tid, q = PeerTxq p tid /\ ti_peer ti' = Some p).
Proof.
  apply (ol_tx_classify_correct sx_cfg sx_up.1 sx_up.2 1 None sx_multicast sx_ask sx_up_books); [sx_room|apply sx_multicast_ok| |done|by vm_compute|done].
  apply (bool_decide_eq_true_1 (1 ∈ _)). by vm_compute.
Defined.

(** A VLAN tag and an LLC/SNAP header. *)
Definition sx_snap : eth_header := mk_eth_header (mac_bytes mac_b) (mac_bytes mac_v1) (Some 7) (Some 54) ETHERTYPE_IPV4.
Lemma sx_snap_ok : eth_header_ok sx_snap.
Proof. constructor; [done..|by intros len [= <-]|done]. Qed.
Lemma ol_tx_tid_roundtrip_witness :
  exists ti', ol_tx_tid wlan_frm_fmt_802_3 (mk_frame (eth_bytes sx_snap sx_packet) 0 false) sx_ask = Some (5, ti') /\
    ti_ethertype ti' = ETHERTYPE_IPV4 /\ ti_l3_hdr_offset ti' = 26 /\ ti_peer ti' = None /\ ti_ext_tid ti' = ADF_NBUF_TX_EXT_TID_INVALID.
Proof.
  apply (ol_tx_tid_roundtrip sx_snap sx_packet (mk_frame (eth_bytes sx_snap sx_packet) 0 false) sx_ask sx_snap_ok);
    [done|apply (bool_decide_unpack _); by vm_compute|cbn; lia].
Defined.

Lemma sx_unicast_header_ok : eth_header_ok (sx_header (mac_bytes mac_b) ETHERTYPE_IPV4).
Proof. by constructor. Qed.
Definition sx_station : peer := default sx_calm (pp_peers sx_up.1 !! 101).
Definition sx_ap : vdev := default (mk_vdev mac_v1 wlan_op_mode_sta [] None 0 false None false) (pp_vdevs sx_up.1 !! 1).

Lemma sx_find (s s' : sys) L mac cv p :
  PeerRep (H0 := tx_data_path_ok [] []) s L -> mac_ok mac -> ol_txrx_peer_find_hash_find mac cv s = Some (Some p, s') -> first_with s L mac cv = Some p.
Proof.
  intros HR Hm Hrun. rewrite (hash_find_spec (H0 := tx_data_path_ok [] []) s L mac cv HR Hm) in Hrun. unfold first_with. destruct (List.find _ L) as [a|]; [|done].
  unfold mbind, M_bind in Hrun. destruct (ref_inc a s) as [[[] ?]|]; [|done]. by injection Hrun as ->.
Qed.

Lemma ol_tx_classify_unicast_correct_witness :
  exists ti', ol_tx_classify sx_cfg None 1 sx_unicast sx_ask sx_up.1 = Some ((Some (PeerTxq 101 5), ti'), took sx_up.1 (Some 101)) /\
    ti_peer ti' = Some 101 /\ ti_ext_tid ti' = 5 /\ ti_peer_id ti' = 4 /\ ti_is_unicast ti' = true /\ ti_ethertype ti' = ETHERTYPE_IPV4 /\ ti_l3_hdr_offset ti' = 14.
Proof.
  destruct (ac_inv _ _ sx_up_books) as (L & fl & HR & _).
  assert (Hf : first_with sx_up.1 L mac_b true = Some 101).
  { eapply sx_find; [exact HR|apply mac_b_ok|]. instantiate (1 := took sx_up.1 (Some 101)). by vm_compute. }
  apply (ol_tx_classify_unicast_correct sx_cfg None 1 sx_up.1 sx_up.2 L sx_ap mac_b 101 sx_station 4 (sx_header (mac_bytes mac_b) ETHERTYPE_IPV4) sx_packet sx_unicast sx_ask sx_up_books);
    [sx_room|apply sx_unicast_ok|exact HR|done|done|by vm_compute|by vm_compute|apply sx_unicast_header_ok|done|apply mac_b_ok|by vm_compute|done|cbn; lia|done|exact Hf|by vm_compute..].
Defined.

(** The access point 100 of the station is not authenticated yet. *)
Lemma sx_sta_incoming : exists s0 : sys, SysBooks [] [203] s0 sx_up.2 /\ same_table sx_up.1 s0 /\ dv_freelist (pp_data s0).1.1 = Some 0.
Proof.
  pose proof (new_nbuf_sys sx_up.1 sx_up.2 [] [] 203 (nbuf_of (sx_msdu 203 sx_multicast)) sx_up_books ltac:(by vm_compute)) as Hw.
  apply wp_some in Hw as ([] & s0 & _ & Hs & HS & E & _). exists s0. split; [done|]. split; [done|]. rewrite E. by vm_compute.
Qed.
Definition sx_sta : vdev := default sx_ap (pp_vdevs sx_up.1 !! 2).
Definition sx_conn : peer := default sx_calm (pp_peers sx_up.1 !! 100).

Lemma multicast_gate_reads_stale_type_witness :
  let q := VdevTxq 2 OL_TX_VDEV_MCAST_BCAST in let ti := set_ti_ethertype (fun _ => ETHERTYPE_PAE) zero_info in
  exists (s0 : sys) i ti' s1 s', hl_classify sx_cfg 2 0 None (sx_msdu 203 sx_multicast) ti s0 = Some ((Some (i, Some q), ti'), s1) /\
    SysBooks [i] [] s1 (plus_ref sx_up.2 (Some 100)) /\ ti_ethertype ti' = ETHERTYPE_PAE /\
    (with_dev (enqueue_as q (ext_tid_of q) i);; unref_peer (Some 100)) s1 = Some (tt, s') /\
    ol_tx_hl_frame sx_cfg 2 0 None (sx_msdu 203 sx_multicast) skip ti s0 = Some ((true, ti'), s') /\ SysBooks [] [] s' sx_up.2.
Proof.
  intros q ti. destruct sx_sta_incoming as (s0 & HS & Hs & Hfree). exists s0.
  apply (multicast_gate_reads_stale_type sx_cfg s0 sx_up.2 2 0 None (sx_msdu 203 sx_multicast) ti sx_sta 100 sx_conn 3 0 1 HS).
  - eapply data_ok_same; [exact Hs|]. apply sx_data_ok; [apply sx_multicast_ok|by vm_compute].
  - by rewrite Hfree.
  - destruct Hs as [d ->]. by vm_compute.
  - by vm_compute.
  - by vm_compute.
  - destruct Hs as [d ->]. by vm_compute.
  - by vm_compute.
  - done.
  - by vm_compute.
  - by vm_compute.
  - done.
  - done.
  - done.
  - by vm_compute.
Defined.

(** ** What the model shows of the code *)
Definition sx_queue_frms (s : sys) (q : txq_id) : option Z := txq_frms <$> pd_txqs (dv_tx (pp_data s).1.1) !! q.
Definition sx_stale (type : Z) : sys :=
  (sx_perform (sys_data 2 0 None (sx_msdu 203 sx_multicast) [] (set_ti_ethertype (fun _ => type) zero_info)) sx_up).1.

(** In numbers: with the type of EAPOL on the stack a multicast frame of IPv4 is
    queued, with that of IPv4 the same frame in the same state is dropped. *)
Example sx_stale_type :
  sx_queue_frms (sx_stale ETHERTYPE_PAE) (VdevTxq 2 OL_TX_VDEV_MCAST_BCAST) = Some 1 /\
  sx_queue_frms (sx_stale ETHERTYPE_IPV4) (VdevTxq 2 OL_TX_VDEV_MCAST_BCAST) = Some 0.
Proof. by vm_compute. Qed.

Definition sx_ipv6 : list Z := [0x60; 0; 0; 0] ++ replicate 16 0 ++ [0; 67; 0; 68] ++ replicate 30 0.

(** The test for DHCP looks at the bytes where the ports of UDP are in an IPv4
    packet without options, whatever the frame is: an IPv6 packet with 67 and 68
    inside its source address goes to the queue of DHCP frames. *)
Theorem dhcp_test_ignores_protocol :
  payload_tid ETHERTYPE_IPV6 sx_ipv6 = 0 /\
  fst ∘ fst <$> ol_tx_classify sx_cfg None 1 (sx_frame (mac_bytes mac_b) ETHERTYPE_IPV6 sx_ipv6) sx_ask sx_up.1 = Some (Some (PeerTxq 101 TX_DHCP_TID)).
Proof. by vm_compute. Qed.

Definition sx_queued : sys := (sx_perform (sys_list 1 0 None [sx_msdu 202 sx_multicast] false zero_info) sx_up).1.

(** [ol_txrx_vdev_detach] frees the queues of a vdev under the TIDs 18 to 20,
    but their frames were enqueued under 16, 17 and 20: with a multicast frame in
    its queue, the scheduler is told to take the queue out of a category that does
    not have it. *)
Theorem vdev_detach_wrong_category :
  sx_queue_frms sx_queued (VdevTxq 1 OL_TX_VDEV_MCAST_BCAST) = Some 1 /\
  home (pd_tid_to_ac (dv_tx (pp_data sx_queued).1.1)) (VdevTxq 1 OL_TX_VDEV_MCAST_BCAST) = Some 4 /\
  znth (pd_tid_to_ac (dv_tx (pp_data sx_queued).1.1)) (end_tid (VdevTxq 1 OL_TX_VDEV_MCAST_BCAST)) = Some 6 /\
  run_dev (vdev_queues_free 1) (pp_data sx_queued) = None.
Proof. by vm_compute. Qed.
