(* ===== verification/RxDeliver.v ===== *)
(** Delivery and forwarding ([ol_rx.c], [ol_rx_fwd.c]): what becomes of the
    frames the reordering, the packet number check and the defragmentation let
    through.  An access point sends the frames of one station to another back to
    the transmit path; the others pass the privacy filter and go to the operating
    system. *)
From Stdlib Require Import ZArith Lia.
From stdpp Require Import prelude gmap list numbers.
From S2P Require Import Prelude.
From S2P Require Import RxTypes.
From S2P Require Import RxList.
From S2P Require Import RxNbuf.
From S2P Require Import TxTypes.
From S2P Require Import PeerTypes.
From S2P Require Import PeerTable.
From S2P Require Import PeerSpec.
From S2P Require Import TxClassify.
From S2P Require Import TxClassifySpec.

(** ** Constants *)
Definition FW_RX_DESC_DISCARD_M : Z := 0x1.
Definition FW_RX_DESC_FORWARD_M : Z := 0x2.
Definition FW_RX_DESC_INSPECT_M : Z := 0x20.
Definition ADF_NBUF_TRAC_ETH_TYPE_OFFSET : Z := 12.
Definition ADF_NBUF_TRAC_EAPOL_ETH_TYPE : Z := 0x888E.
Definition IEEE80211_FC0_SUBTYPE_MASK : Z := 0xf0.
Definition IEEE80211_FC1_DIR_TODS : Z := 0x01.
Definition IEEE80211_FC1_DIR_FROMDS : Z := 0x02.
Definition IPV4_HDR_OFFSET_PROTOCOL : Z := 9.
Definition IP_PROTOCOL_IGMP : Z := 2.

(** ** Data *)
Inductive privacy_filter := PRIVACY_FILTER_ALWAYS | PRIVACY_FILTER_KEY_UNAVAILABLE.
Inductive privacy_filter_packet_type :=
  PRIVACY_FILTER_PACKET_UNICAST | PRIVACY_FILTER_PACKET_MULTICAST | PRIVACY_FILTER_PACKET_BOTH.
#[export] Instance privacy_filter_packet_type_eq_dec : EqDecision privacy_filter_packet_type.
Proof. solve_decision. Defined.
Record privacy_exemption := mk_privacy_exemption {
  pf_ether_type : Z;
  pf_filter_type : privacy_filter;
  pf_packet_type : privacy_filter_packet_type }.

(** The fields of a vdev that only the receive path uses. *)
Record rx_vdev := mk_rx_vdev {
  rv_safemode : bool;
  rv_drop_unenc : bool;
  rv_privacy_filters : list privacy_exemption;
  rv_fwd_tx_packets : Z;
  rv_fwd_rx_packets : Z }.
Definition count_fwd_tx (x : rx_vdev) : rx_vdev :=
  mk_rx_vdev (rv_safemode x) (rv_drop_unenc x) (rv_privacy_filters x) (rv_fwd_tx_packets x + 1) (rv_fwd_rx_packets x).
Definition count_fwd_rx (x : rx_vdev) : rx_vdev :=
  mk_rx_vdev (rv_safemode x) (rv_drop_unenc x) (rv_privacy_filters x) (rv_fwd_tx_packets x) (rv_fwd_rx_packets x + 1).

(** A received buffer.  Its frame begins with the receive descriptor, of
    [rb_desc_len] bytes; what HTT reads there is [rb_fw_desc], the byte of the
    firmware, and the [rx_desc] of the linked buffer.  The last fields are the TID
    and the forwarding flag in the control block, and what the transmit path
    reads of the buffer. *)
Record rx_buf := mk_rx_buf {
  rb_skb : skb;
  rb_desc_len : Z;
  rb_fw_desc : Z;
  rb_tid : Z;
  rb_fwd : bool;
  rb_id_storage : bool;
  rb_cksum : Z }.
Definition set_rb_skb (f : skb -> skb) (k : rx_buf) : rx_buf :=
  mk_rx_buf (f (rb_skb k)) (rb_desc_len k) (rb_fw_desc k) (rb_tid k) (rb_fwd k) (rb_id_storage k) (rb_cksum k).
Definition set_rb_tid (f : Z -> Z) (k : rx_buf) : rx_buf :=
  mk_rx_buf (rb_skb k) (rb_desc_len k) (rb_fw_desc k) (f (rb_tid k)) (rb_fwd k) (rb_id_storage k) (rb_cksum k).
Definition set_rb_fwd (f : bool -> bool) (k : rx_buf) : rx_buf :=
  mk_rx_buf (rb_skb k) (rb_desc_len k) (rb_fw_desc k) (rb_tid k) (f (rb_fwd k)) (rb_id_storage k) (rb_cksum k).

Definition htt_rx_msdu_discard (k : rx_buf) : bool := negb (Z.land (rb_fw_desc k) FW_RX_DESC_DISCARD_M =? 0).
Definition htt_rx_msdu_forward (k : rx_buf) : bool := negb (Z.land (rb_fw_desc k) FW_RX_DESC_FORWARD_M =? 0).
Definition htt_rx_msdu_inspect (k : rx_buf) : bool := negb (Z.land (rb_fw_desc k) FW_RX_DESC_INSPECT_M =? 0).

(** The bytes from [adf_nbuf_data] on. *)
Definition skb_bytes (b : skb) : list Z := take (Z.to_nat (sk_len b)) (drop (Z.to_nat (sk_data b)) (sk_mem b)).
Definition frame_of (k : rx_buf) : frame := mk_frame (skb_bytes (rb_skb k)) (rb_tid k) (rb_fwd k).

(** What leaves: a call of [vdev->tx], a list for the operating system with the
    bytes of its frames, an IGMP frame reported to the control path, and a freed
    buffer. *)
Inductive rx_event :=
  | rx_to_tx (v a : Z) (k : rx_buf)
  | rx_to_os (v p : Z) (frames : list (Z * list Z))
  | rx_notify (v p tid a : Z)
  | rx_free (a : Z).

(** The lists in work, with the state [xo_sys] of the peer table and the transmit
    path. *)
Record rx_out (D : Type) := mk_rx_out {
  xo_heap : heap;
  xo_bufs : gmap Z rx_buf;
  xo_vdevs : gmap Z rx_vdev;
  xo_keyinstalled : gset Z;
  xo_log : list rx_event;
  xo_sys : peer_pdev D }.
#[global] Arguments mk_rx_out {D}.
#[global] Arguments xo_heap {D}.
#[global] Arguments xo_bufs {D}.
#[global] Arguments xo_vdevs {D}.
#[global] Arguments xo_keyinstalled {D}.
#[global] Arguments xo_log {D}.
#[global] Arguments xo_sys {D}.
Definition set_xo_heap {D} (f : heap -> heap) (s : rx_out D) : rx_out D :=
  mk_rx_out (f (xo_heap s)) (xo_bufs s) (xo_vdevs s) (xo_keyinstalled s) (xo_log s) (xo_sys s).
Definition set_xo_bufs {D} (f : gmap Z rx_buf -> gmap Z rx_buf) (s : rx_out D) : rx_out D :=
  mk_rx_out (xo_heap s) (f (xo_bufs s)) (xo_vdevs s) (xo_keyinstalled s) (xo_log s) (xo_sys s).
Definition set_xo_vdevs {D} (f : gmap Z rx_vdev -> gmap Z rx_vdev) (s : rx_out D) : rx_out D :=
  mk_rx_out (xo_heap s) (xo_bufs s) (f (xo_vdevs s)) (xo_keyinstalled s) (xo_log s) (xo_sys s).
Definition set_xo_log {D} (f : list rx_event -> list rx_event) (s : rx_out D) : rx_out D :=
  mk_rx_out (xo_heap s) (xo_bufs s) (xo_vdevs s) (xo_keyinstalled s) (f (xo_log s)) (xo_sys s).
Definition set_xo_sys {D} (f : peer_pdev D -> peer_pdev D) (s : rx_out D) : rx_out D :=
  mk_rx_out (xo_heap s) (xo_bufs s) (xo_vdevs s) (xo_keyinstalled s) (xo_log s) (f (xo_sys s)).

(** The transmit path as the receive path sees it: [vdev->tx] with one buffer
    ([false]: not accepted, the caller still has it), a buffer that is made, and
    one that goes back to the operating system. *)
Class SkbPath (D : Type) := {
  skb_tx : Z -> Z -> rx_buf -> M (peer_pdev D) bool;
  skb_new : Z -> rx_buf -> M (peer_pdev D) unit;
  skb_gone : Z -> M (peer_pdev D) unit }.

(** Where [adf_nbuf_copy] puts the copy of a buffer; [None]: no memory. *)
Class NbufCopy (D : Type) := nbuf_copy : rx_out D -> Z -> option Z.

Section Deliver.
Context {D : Type} `{DataPath D} `{SkbPath D} `{NbufCopy D} (cfg : tx_cfg).
Notation MX := (M (rx_out D)).

(** ** Access *)
Definition on_sys {A} (m : M (peer_pdev D) A) : MX A := fun s =>
  '(a, t) ← m (xo_sys s); Some (a, set_xo_sys (fun _ => t) s).
Definition get_buf (a : Z) : MX rx_buf := s ← get; lift (xo_bufs s !! a).
Definition upd_buf (a : Z) (f : rx_buf -> rx_buf) : MX unit :=
  k ← get_buf a; modify (set_xo_bufs (<[a := f k]>)).
Definition get_rx_vdev (v : Z) : MX rx_vdev := s ← get; lift (xo_vdevs s !! v).
Definition upd_rx_vdev (v : Z) (f : rx_vdev -> rx_vdev) : MX unit :=
  x ← get_rx_vdev v; modify (set_xo_vdevs (<[v := f x]>)).
Definition next_of (a : Z) : MX (option Z) := s ← get; lift (adf_nbuf_next (xo_heap s) a).
Definition set_next_of (a : Z) (o : option Z) : MX unit :=
  s ← get; h ← lift (adf_nbuf_set_next (xo_heap s) a o); modify (set_xo_heap (fun _ => h)).
Definition desc_of (a : Z) : MX rx_desc := s ← get; lift (htt_rx_msdu_desc_retrieve (xo_heap s) a).
Definition log_rx (e : rx_event) : MX unit := modify (set_xo_log (fun l => l ++ [e])).

(** The buffer leaves the receive path. *)
Definition release_buf (a : Z) : MX unit :=
  s ← get; h ← lift (htt_rx_desc_frame_free (xo_heap s) a);
  modify (set_xo_heap (fun _ => h));; modify (set_xo_bufs (delete a)).
Definition adf_nbuf_free (a : Z) : MX unit := release_buf a;; on_sys (skb_gone a);; log_rx (rx_free a).

Definition OL_TXRX_LIST_APPEND (out : slot) (elem : Z) : MX slot :=
  match sl_head out with
  | None => mret (mk_slot (Some elem) (Some elem))
  | Some hd => t ← lift (sl_tail out); set_next_of t (Some elem);; mret (mk_slot (Some hd) (Some elem))
  end.

(** ** Forwarding ([ol_rx_fwd.c]) *)

(** A frame on its way to the distribution system becomes one that comes from
    it: [i_fc], [i_addr1] to [i_addr3]. *)
Definition fwd_header (mac : mac_addr) (m : list Z) (o : Z) : option (list Z) :=
  fc ← rd m o 2; a1 ← rd m (o + 4) 6; a2 ← rd m (o + 10) 6; a3 ← rd m (o + 16) 6;
  match fc with
  | [fc0; fc1] =>
    da ← rd_mac (mk_frame a3 0 false) 0;
    let type := Z.land fc0 IEEE80211_FC0_TYPE_MASK in
    let subtype := Z.land fc0 IEEE80211_FC0_SUBTYPE_MASK in
    let tods := Z.land fc1 IEEE80211_FC1_DIR_TODS in
    let fromds := Z.land fc1 IEEE80211_FC1_DIR_FROMDS in
    if negb (type =? IEEE80211_FC0_TYPE_DATA) || negb (subtype =? 0) ||
       (negb (tods =? 1) || negb (fromds =? 0)) || negb (ol_txrx_peer_find_mac_addr_cmp da mac) then Some m
    else
      m ← wr m (o + 1) [Z.lor (Z.land fc1 0xfe) 0x2];
      m ← wr m (o + 10) a1; m ← wr m (o + 4) a3; wr m (o + 16) a2
  | _ => None
  end.
Definition ol_ap_fwd_check (v a : Z) : MX unit :=
  y ← on_sys (get_vdev v); k ← get_buf a;
  m ← lift (fwd_header (vd_mac y) (sk_mem (rb_skb k)) (sk_data (rb_skb k)));
  upd_buf a (set_rb_skb (set_sk_mem m)).

Definition ol_rx_fwd_to_tx (v a : Z) : MX unit :=
  when (bool_decide (cfg_frame_format cfg = wlan_frm_fmt_native_wifi)) (ol_ap_fwd_check v a);;
  set_next_of a None;;
  upd_buf a (fun k => set_rb_skb (fun b => adf_nbuf_pull_head b (rb_desc_len k)) k);;
  upd_buf a (set_rb_fwd (fun _ => true));;
  k ← get_buf a; release_buf a;; log_rx (rx_to_tx v a k);;
  ok ← on_sys (skb_tx v a k);
  when (negb ok) (on_sys (skb_gone a);; log_rx (rx_free a)).

(** [__adf_nbuf_data_is_eapol_pkt], at an offset from the start of the frame. *)
Definition adf_nbuf_data_is_eapol_pkt (b : skb) (off : Z) : option bool :=
  l ← rd (sk_mem b) (sk_data b + off + ADF_NBUF_TRAC_ETH_TYPE_OFFSET) 2;
  t ← rd16 (mk_frame l 0 false) 0; Some (ADF_NBUF_TRAC_EAPOL_ETH_TYPE =? t).

(** A copy with its own block of memory. *)
Definition copy_buf (a c : Z) : MX unit :=
  k ← get_buf a; d ← desc_of a; s ← get;
  (if bool_decide (xo_heap s !! c = None) then skip else fault);;
  modify (set_xo_heap (<[c := mk_nbuf None d]>));; modify (set_xo_bufs (<[c := k]>));; on_sys (skb_new c k).

(** One MSDU: whether it goes on to the operating system. *)
Definition fwd_msdu (v tid a : Z) : MX bool :=
  k ← get_buf a; y ← on_sys (get_vdev v);
  if negb (vd_disable_intrabss_fwd y) && htt_rx_msdu_forward k then
    upd_buf a (set_rb_tid (fun _ => if negb (tid =? HTT_NON_QOS_TID) then u8 tid else ADF_NBUF_TX_EXT_TID_INVALID));;
    eapol ← lift (if bool_decide (vd_opmode y = wlan_op_mode_ap) then adf_nbuf_data_is_eapol_pkt (rb_skb k) (rb_desc_len k) else Some false);
    if (eapol : bool) then set_next_of a None;; adf_nbuf_free a;; mret false
    else if htt_rx_msdu_discard k then
      ol_rx_fwd_to_tx v a;; upd_rx_vdev v count_fwd_tx;; upd_rx_vdev v count_fwd_rx;; mret false
    else
      s ← get;
      match nbuf_copy s a with
      | Some c => copy_buf a c;; ol_rx_fwd_to_tx v c;; upd_rx_vdev v count_fwd_tx;; mret true
      | None => mret true
      end
  else mret true.

Fixpoint fwd_loop (n : nat) (v tid : Z) (msdu : option Z) (out : slot) : MX slot :=
  match msdu, n with
  | None, _ => mret out
  | Some _, O => fault
  | Some a, S n' =>
    msdu_list ← next_of a;
    keep ← fwd_msdu v tid a;
    out ← (if (keep : bool) then OL_TXRX_LIST_APPEND out a else mret out);
    fwd_loop n' v tid msdu_list out
  end.

(** ** Delivery ([ol_rx.c]) *)

(** The offset of the ether type in the frame. *)
Definition ether_type_offset : Z :=
  if bool_decide (cfg_frame_format cfg = wlan_frm_fmt_native_wifi) then ieee80211_frame_size + llc_ethertype
  else ETHERNET_ADDR_LEN * 2.

Definition ol_rx_inspect (v p tid : Z) (a : Z) : MX unit :=
  k ← get_buf a;
  let f := frame_of k in
  let l3_hdr := if bool_decide (cfg_frame_format cfg = wlan_frm_fmt_native_wifi) then ieee80211_frame_size + llc_snap_hdr_size else ethernet_hdr_size in
  ethertype ← lift (rd16 f ether_type_offset);
  when (ethertype =? ETHERTYPE_IPV4) (
    proto ← lift (rd8 f (l3_hdr + IPV4_HDR_OFFSET_PROTOCOL));
    when (proto =? IP_PROTOCOL_IGMP) (log_rx (rx_notify v p tid a))).

(** The exemption for the frame, if there is one: whether it is rejected. *)
Fixpoint privacy_exempt (l : list privacy_exemption) (ether_type : Z) (packet_type : privacy_filter_packet_type)
    (is_encrypted keyed : bool) : option bool :=
  match l with
  | [] => None
  | f :: l =>
    if negb (pf_ether_type f =? ether_type) then privacy_exempt l ether_type packet_type is_encrypted keyed
    else if negb (bool_decide (pf_packet_type f = packet_type)) && negb (bool_decide (pf_packet_type f = PRIVACY_FILTER_PACKET_BOTH)) then
      privacy_exempt l ether_type packet_type is_encrypted keyed
    else match pf_filter_type f with
         | PRIVACY_FILTER_ALWAYS => Some is_encrypted
         | PRIVACY_FILTER_KEY_UNAVAILABLE => Some (negb is_encrypted && keyed)
         end
  end.

(** [true]: [FILTER_STATUS_REJECT]. *)
Definition rx_filter (x : rx_vdev) (sec : Z * Z) (keyinstalled is_mcast is_encrypted : bool) (f : frame) : option bool :=
  if rv_safemode x then Some false else
  '(ether_type, packet_type) ←
    (if 0 <? zlen (rv_privacy_filters x) then
       t ← rd16 f ether_type_offset;
       Some (t, if is_mcast then PRIVACY_FILTER_PACKET_MULTICAST else PRIVACY_FILTER_PACKET_UNICAST)
     else Some (0, PRIVACY_FILTER_PACKET_UNICAST));
  if cfg_wapi cfg && (is_encrypted && (ETHERTYPE_WAI =? ether_type)) then Some true else
  let keyed := negb is_mcast && negb (sec.2 =? htt_sec_type_none) && (keyinstalled || negb (ETHERTYPE_IS_EAPOL_WAPI ether_type)) in
  match privacy_exempt (rv_privacy_filters x) ether_type packet_type is_encrypted keyed with
  | Some r => Some r
  | None =>
    if negb (rv_drop_unenc x) || is_encrypted then Some false
    else if (if is_mcast then sec.1 else sec.2) =? htt_sec_type_none then Some false
    else Some true
  end.
Definition ol_rx_filter (v p a : Z) (d : rx_desc) : MX bool :=
  x ← get_rx_vdev v; y ← on_sys (get_peer p); k ← get_buf a; s ← get;
  lift (rx_filter x (pe_sec_type y) (bool_decide (p ∈ xo_keyinstalled s)) (rd_mcast d) (rd_encrypted d) (frame_of k)).

Fixpoint deliver_loop (n : nat) (v p tid : Z) (msdu : option Z) (filt : bool) (out : slot) : MX slot :=
  match msdu, n with
  | None, _ => mret out
  | Some _, O => fault
  | Some a, S n' =>
    next ← next_of a;
    d ← desc_of a;
    upd_buf a (fun k => set_rb_skb (fun b => adf_nbuf_pull_head b (rb_desc_len k)) k);;
    k ← get_buf a;
    when (htt_rx_msdu_inspect k) (ol_rx_inspect v p tid a);;
    filt ← (if rd_first_msdu d then ol_rx_filter v p a d else mret filt);
    if htt_rx_msdu_discard k || filt then
      adf_nbuf_free a;;
      match next, sl_head out with
      | None, Some _ => t ← lift (sl_tail out); set_next_of t None
      | _, _ => skip
      end;;
      deliver_loop n' v p tid next filt out
    else
      out ← OL_TXRX_LIST_APPEND out a;
      deliver_loop n' v p tid next filt out
  end.

(** The list goes to the operating system. *)
Fixpoint hand_to_os (l : list Z) : MX (list (Z * list Z)) :=
  match l with
  | [] => mret []
  | a :: l =>
    k ← get_buf a; release_buf a;; on_sys (skb_gone a);;
    r ← hand_to_os l; mret ((a, skb_bytes (rb_skb k)) :: r)
  end.
Definition osif_rx (v p : Z) (msdus : option Z) : MX unit :=
  s ← get; l ← lift (walk (heap_fuel (xo_heap s)) (xo_heap s) msdus);
  r ← hand_to_os l; log_rx (rx_to_os v p r).

Definition ol_rx_deliver (v p tid : Z) (msdu_list : option Z) : MX unit :=
  s ← get;
  out ← deliver_loop (heap_fuel (xo_heap s)) v p tid msdu_list false empty_slot;
  match sl_head out with
  | None => skip
  | Some hd => osif_rx v p (Some hd)
  end.

Definition ol_rx_fwd_check (v p tid : Z) (msdu_list : option Z) : MX unit :=
  s ← get;
  out ← fwd_loop (heap_fuel (xo_heap s)) v tid msdu_list empty_slot;
  match sl_head out with
  | None => skip
  | Some hd => t ← lift (sl_tail out); set_next_of t None;; ol_rx_deliver v p tid (Some hd)
  end.
End Deliver.

(** ** Buffers *)
Notation byte := (fun b => 0 <= b < 256).

(** The window lies in its block, and the payload has the bytes the inspection
    and the header parsing of the transmit path read. *)
Record buf_ok (k : rx_buf) : Prop := {
  bo_desc : 0 <= rb_desc_len k;
  bo_data : 0 <= sk_data (rb_skb k);
  bo_len : rb_desc_len k + 42 <= sk_len (rb_skb k);
  bo_mem : sk_data (rb_skb k) + sk_len (rb_skb k) <= zlen (sk_mem (rb_skb k));
  bo_bytes : Forall byte (sk_mem (rb_skb k)) }.

(** The frame behind the receive descriptor. *)
Definition pulled (k : rx_buf) : rx_buf := set_rb_skb (fun b => adf_nbuf_pull_head b (rb_desc_len k)) k.
Definition payload (k : rx_buf) : list Z := skb_bytes (rb_skb (pulled k)).

Lemma payload_len k : buf_ok k -> 42 <= zlen (payload k).
Proof.
  intros []. unfold payload, pulled, adf_nbuf_pull_head, skb_bytes. cbn. destruct (Z.ltb_spec (sk_len (rb_skb k)) (rb_desc_len k)); [lia|]. cbn.
  unfold zlen in *. rewrite length_take, length_drop. lia.
Qed.

Lemma payload_ok k : buf_ok k -> frame_ok (frame_of (pulled k)).
Proof.
  intros Hk. split; [pose proof (payload_len k Hk); change (38 <= zlen (payload k)); lia|]. destruct Hk. unfold frame_of, pulled, adf_nbuf_pull_head, skb_bytes. cbn. destruct (Z.ltb_spec (sk_len (rb_skb k)) (rb_desc_len k)); [lia|]. cbn.
  by apply Forall_take, Forall_drop.
Qed.

(** ** The header of a forwarded frame *)
Lemma rd_some m i n : 0 <= i -> 0 <= n -> i + n <= zlen m -> exists l, rd m i n = Some l /\ zlen l = n /\ (Forall byte m -> Forall byte l).
Proof.
  intros Hi Hn Hm. unfold rd. rewrite !(proj2 (Z.leb_le _ _)) by lia. eexists. split; [done|]. split.
  - unfold zlen in *. rewrite length_take, length_drop. lia.
  - intros Hb. by apply Forall_take, Forall_drop.
Qed.

Lemma wr_some m i l : 0 <= i -> i + zlen l <= zlen m ->
  exists m', wr m i l = Some m' /\ zlen m' = zlen m /\ (Forall byte m -> Forall byte l -> Forall byte m').
Proof.
  intros Hi Hm. unfold wr. rewrite !(proj2 (Z.leb_le _ _)) by lia. eexists. split; [done|]. split.
  - unfold zlen in *. rewrite !length_app, length_take, length_drop. lia.
  - intros Hb Hl. apply Forall_app. split; [by apply Forall_take|]. apply Forall_app. split; [done|by apply Forall_drop].
Qed.

Lemma rd_mac_some l : zlen l = 6 -> exists a, rd_mac (mk_frame l 0 false) 0 = Some a.
Proof. unfold zlen. intros Hl. do 6 (destruct l as [|? l]; cbn in Hl; [lia|]). by eexists. Qed.

Lemma fwd_header_ok mac m o :
  0 <= o -> o + 22 <= zlen m -> Forall byte m -> exists m', fwd_header mac m o = Some m' /\ zlen m' = zlen m /\ Forall byte m'.
Proof.
  intros Ho Hm Hb. unfold fwd_header.
  destruct (rd_some m o 2) as (fc & -> & Hl & Hfc); [lia..|]. destruct (rd_some m (o + 4) 6) as (a1 & -> & Hl1 & Hb1); [lia..|].
  destruct (rd_some m (o + 10) 6) as (a2 & -> & Hl2 & Hb2); [lia..|]. destruct (rd_some m (o + 16) 6) as (a3 & -> & Hl3 & Hb3); [lia..|].
  cbn [mbind option_bind]. unfold zlen in Hl. destruct fc as [|fc0 [|fc1 [|]]]; cbn in Hl; try lia.
  destruct (rd_mac_some a3 Hl3) as [da ->]. cbn [mbind option_bind]. destruct (_ || _); [by exists m|].
  assert (Hfc1 : 0 <= fc1 < 256). { specialize (Hfc Hb). rewrite !list.Forall_cons in Hfc. apply Hfc. }
  assert (Hv : byte (Z.lor (Z.land fc1 0xfe) 0x2)).
  { split; [apply Z.lor_nonneg; split; [apply Z.land_nonneg; right|]; lia|].
    assert (H1 : Z.lor (Z.land fc1 0xfe) 0x2 = u8 (Z.lor (Z.land fc1 0xfe) 0x2)); [|rewrite H1; apply u8_range].
    unfold u8, wrap. rewrite <- Z.land_ones by lia. rewrite Z.land_lor_distr_l, <- Z.land_assoc. done. }
  destruct (wr_some m (o + 1) [Z.lor (Z.land fc1 0xfe) 0x2]) as (m1 & -> & E1 & F1); [lia|change (zlen [_]) with 1; lia|]. cbn [mbind option_bind].
  destruct (wr_some m1 (o + 10) a1) as (m2 & -> & E2 & F2); [lia..|]. cbn [mbind option_bind].
  destruct (wr_some m2 (o + 4) a3) as (m3 & -> & E3 & F3); [lia..|]. cbn [mbind option_bind].
  destruct (wr_some m3 (o + 16) a2) as (m4 & -> & E4 & F4); [lia..|]. exists m4. split; [done|]. split; [congruence|].
  apply F4; [apply F3; [apply F2; [apply F1|]|]|]; auto.
Qed.

(** ** What a forwarded frame looks like *)
Section Sent.
Context (cfg : tx_cfg) (y : vdev) (tid : Z).

Definition fwd_tid : Z := if negb (tid =? HTT_NON_QOS_TID) then u8 tid else ADF_NBUF_TX_EXT_TID_INVALID.

(** The buffer [vdev->tx] gets. *)
Definition fwd_mem (b : skb) : option (list Z) :=
  if bool_decide (cfg_frame_format cfg = wlan_frm_fmt_native_wifi) then fwd_header (vd_mac y) (sk_mem b) (sk_data b) else Some (sk_mem b).
Definition fwd_buf (k : rx_buf) : rx_buf :=
  let m := default (sk_mem (rb_skb k)) (fwd_mem (rb_skb k)) in
  set_rb_fwd (fun _ => true) (pulled (set_rb_skb (set_sk_mem m) (set_rb_tid (fun _ => fwd_tid) k))).

Lemma fwd_mem_ok k : buf_ok k -> exists m, fwd_mem (rb_skb k) = Some m /\ buf_ok (set_rb_skb (set_sk_mem m) k).
Proof.
  intros [H1 H2 H3 H4 H5]. unfold fwd_mem. case_bool_decide.
  - destruct (fwd_header_ok (vd_mac y) (sk_mem (rb_skb k)) (sk_data (rb_skb k))) as (m & E & Hl & Hb); [lia..|done|].
    exists m. split; [done|]. by constructor; cbn; rewrite ?Hl.
  - exists (sk_mem (rb_skb k)). by split.
Qed.

Lemma fwd_buf_ok k : buf_ok k -> frame_ok (frame_of (fwd_buf k)) /\ 0 <= rb_tid (fwd_buf k).
Proof.
  intros Hk. destruct (fwd_mem_ok k Hk) as (m & E & Hm). unfold fwd_buf. rewrite E. cbn [default from_option id]. split.
  - exact (payload_ok _ Hm).
  - cbn. unfold fwd_tid. destruct (negb _); [|done]. pose proof (u8_range tid). lia.
Qed.

(** In the formats without a header to turn, it is the payload. *)
Lemma fwd_buf_payload k : cfg_frame_format cfg <> wlan_frm_fmt_native_wifi -> skb_bytes (rb_skb (fwd_buf k)) = payload k.
Proof. intros Hf. unfold fwd_buf, fwd_mem. rewrite bool_decide_eq_false_2 by done. by destruct k as [[] ? ? ? ? ? ?]. Qed.

(** ** What is forwarded *)
Inductive fwd_class := fwd_stack | fwd_drop | fwd_only | fwd_both.

Definition eapol_buf (k : rx_buf) : bool := default false (adf_nbuf_data_is_eapol_pkt (rb_skb k) (rb_desc_len k)).
Definition class_of (k : rx_buf) : fwd_class :=
  if negb (vd_disable_intrabss_fwd y) && htt_rx_msdu_forward k then
    if bool_decide (vd_opmode y = wlan_op_mode_ap) && eapol_buf k then fwd_drop
    else if htt_rx_msdu_discard k then fwd_only else fwd_both
  else fwd_stack.

Definition tx_events (v a : Z) (k : rx_buf) (ok : bool) : list rx_event := rx_to_tx v a (fwd_buf k) :: if ok then [] else [rx_free a].

(** What happens to one MSDU: the events, and whether it stays in the list; [copy]
    is where its copy is, if there is memory for one. *)
Definition fwd_outcome (copy : option Z) (v a : Z) (k : rx_buf) (evs : list rx_event) (keep : bool) : Prop :=
  match class_of k with
  | fwd_stack => keep = true /\ evs = []
  | fwd_drop => keep = false /\ evs = [rx_free a]
  | fwd_only => keep = false /\ exists ok, evs = tx_events v a k ok
  | fwd_both => keep = true /\ match copy with None => evs = [] | Some c => exists ok, evs = tx_events v c k ok end
  end.

Lemma eapol_buf_ok k : buf_ok k -> adf_nbuf_data_is_eapol_pkt (rb_skb k) (rb_desc_len k) = Some (eapol_buf k).
Proof.
  intros []. unfold eapol_buf, adf_nbuf_data_is_eapol_pkt, ADF_NBUF_TRAC_ETH_TYPE_OFFSET.
  destruct (rd_some (sk_mem (rb_skb k)) (sk_data (rb_skb k) + rb_desc_len k + 12) 2) as (l & -> & Hl & _); [lia..|].
  unfold zlen in Hl. destruct l as [|? [|? [|]]]; cbn in Hl; try lia. done.
Qed.
End Sent.

(** ** The transmit path keeps its promises

    [moved]: the peer table is as it was. *)
Definition moved {D} (s s' : peer_pdev D) : Prop := exists x, s' = set_pp_data (fun _ => x) s.
#[export] Instance moved_preorder {D} : PreOrder (@moved D).
Proof. split; [intros s; exists (pp_data s); by destruct s|]. intros s1 s2 s3 [x ->] [y ->]. by exists y. Qed.

(** The interface: the books of the transmit path when the receive path has the
    buffers of a list in its hands, and when [vdev->tx] may be called. *)
Class SkbPathOk (D : Type) `{SkbPath D} `{NbufCopy D} := {
  skb_inv : list Z -> peer_pdev D -> Prop;
  skb_ready : Z -> peer_pdev D -> Prop;
  skb_fresh : Z -> peer_pdev D -> Prop;
  skb_inv_perm l l' s : skb_inv l s -> l ≡ₚ l' -> skb_inv l' s;
  skb_ready_moved v s s' : skb_ready v s -> moved s s' -> skb_ready v s';
  skb_tx_ok v a k l s : skb_inv (a :: l) s -> skb_ready v s -> frame_ok (frame_of k) -> 0 <= rb_tid k ->
    wp (skb_tx v a k) (fun ok s' => moved s s' /\ skb_inv (if ok then l else a :: l) s') s;
  skb_new_ok a k l s : skb_inv l s -> skb_fresh a s -> wp (skb_new a k) (fun _ s' => moved s s' /\ skb_inv (a :: l) s') s;
  skb_gone_ok a l s : skb_inv (a :: l) s -> wp (skb_gone a) (fun _ s' => moved s s' /\ skb_inv l s') s;
  nbuf_copy_ok s a c : nbuf_copy s a = Some c -> xo_heap s !! c = None /\ xo_bufs s !! c = None /\ skb_fresh c (xo_sys s) }.

(** ** Steps on one buffer *)
Section Steps.
Context {D : Type} `{DataPath D} `{HP : SkbPath D} `{HC : NbufCopy D} {HOK : SkbPathOk D} (cfg : tx_cfg).
Implicit Types (s : rx_out D) (R : list Z).

Definition rules (x : rx_vdev) : bool * bool * list privacy_exemption := (rv_safemode x, rv_drop_unenc x, rv_privacy_filters x).

(** Everything but the buffer [a], the log and the counters is as it was; the
    transmit path may have gone on. *)
Record untouched (a : Z) s s' : Prop := {
  ut_heap : forall i, i <> a -> xo_heap s' !! i = xo_heap s !! i;
  ut_bufs : forall i, i <> a -> xo_bufs s' !! i = xo_bufs s !! i;
  ut_rules : forall v, rules <$> xo_vdevs s' !! v = rules <$> xo_vdevs s !! v;
  ut_keys : xo_keyinstalled s' = xo_keyinstalled s;
  ut_sys : moved (xo_sys s) (xo_sys s') }.

#[export] Instance untouched_preorder a : PreOrder (untouched a).
Proof.
  split; [by intros s|]. intros s1 s2 s3 [A1 A2 A3 A4 A5] [B1 B2 B3 B4 B5]. split.
  - intros i Hi. by rewrite B1, A1.
  - intros i Hi. by rewrite B2, A2.
  - intros v. by rewrite B3.
  - congruence.
  - by etransitivity.
Qed.

Lemma on_sys_run {A} (m : M (peer_pdev D) A) s a : m (xo_sys s) = Some (a, xo_sys s) -> on_sys m s = Some (a, s).
Proof. intros E. unfold on_sys. rewrite E. by destruct s. Qed.
Lemma on_sys_wp {A} (m : M (peer_pdev D) A) Q s :
  wp m (fun a t => Q a (set_xo_sys (fun _ => t) s)) (xo_sys s) -> wp (on_sys m) Q s.
Proof. intros (a & t & E & HQ)%wp_some. eapply wp_run; [unfold on_sys; by rewrite E|done]. Qed.
Lemma get_buf_run s a k : xo_bufs s !! a = Some k -> get_buf a s = Some (k, s).
Proof. intros E. unfold get_buf, mbind, M_bind, get, lift. by rewrite E. Qed.
Lemma upd_buf_run s a k f : xo_bufs s !! a = Some k -> upd_buf a f s = Some (tt, set_xo_bufs (<[a := f k]>) s).
Proof. intros E. unfold upd_buf. unfold mbind, M_bind. by rewrite (get_buf_run s a k E). Qed.
Lemma next_of_run s a o : adf_nbuf_next (xo_heap s) a = Some o -> next_of a s = Some (o, s).
Proof. intros E. unfold next_of, mbind, M_bind, get, lift. by rewrite E. Qed.
Lemma desc_of_run s a d : htt_rx_msdu_desc_retrieve (xo_heap s) a = Some d -> desc_of a s = Some (d, s).
Proof. intros E. unfold desc_of, mbind, M_bind, get, lift. by rewrite E. Qed.
Lemma set_next_of_run s a o h : adf_nbuf_set_next (xo_heap s) a o = Some h -> set_next_of a o s = Some (tt, set_xo_heap (fun _ => h) s).
Proof. intros E. unfold set_next_of, mbind, M_bind, get, lift. by rewrite E. Qed.
Lemma set_next_alloc (h : heap) a n o : h !! a = Some n -> adf_nbuf_set_next h a o = Some (<[a := mk_nbuf o (nb_desc n)]> h).
Proof. intros E. unfold adf_nbuf_set_next. by rewrite E. Qed.
Lemma release_buf_run s a :
  is_Some (xo_heap s !! a) -> release_buf a s = Some (tt, set_xo_bufs (delete a) (set_xo_heap (delete a) s)).
Proof.
  intros E. unfold release_buf, mbind, M_bind, get, lift, htt_rx_desc_frame_free. by rewrite decide_True.
Qed.

Lemma adf_nbuf_free_spec s a R :
  is_Some (xo_heap s !! a) -> skb_inv (a :: R) (xo_sys s) ->
  wp (adf_nbuf_free a) (fun _ s' => untouched a s s' /\ xo_heap s' = delete a (xo_heap s) /\ xo_bufs s' = delete a (xo_bufs s) /\
    xo_log s' = xo_log s ++ [rx_free a] /\ skb_inv R (xo_sys s')) s.
Proof.
  intros Ha Hi. unfold adf_nbuf_free. eapply wp_step; [by apply release_buf_run|]. apply wp_bind, on_sys_wp.
  eapply wp_mono; [by apply skb_gone_ok|]. intros [] t [Ht HR]. eapply wp_run; [reflexivity|]. split_and!; try done.
  split; try done; intros i Hi'; cbn; by rewrite lookup_delete_ne.
Qed.

Definition fwd_sent (y : vdev) (k : rx_buf) : rx_buf :=
  let m := default (sk_mem (rb_skb k)) (fwd_mem cfg y (rb_skb k)) in set_rb_fwd (fun _ => true) (pulled (set_rb_skb (set_sk_mem m) k)).

Lemma fwd_sent_ok y k : buf_ok k -> frame_ok (frame_of (fwd_sent y k)).
Proof. intros Hk. destruct (fwd_mem_ok cfg y k Hk) as (m & E & Hm). unfold fwd_sent. rewrite E. exact (payload_ok _ Hm). Qed.

Lemma ol_rx_fwd_to_tx_spec s v a y k R :
  is_Some (xo_heap s !! a) -> xo_bufs s !! a = Some k -> buf_ok k -> 0 <= rb_tid k -> pp_vdevs (xo_sys s) !! v = Some y ->
  skb_ready v (xo_sys s) -> skb_inv (a :: R) (xo_sys s) ->
  wp (ol_rx_fwd_to_tx cfg v a) (fun _ s' => untouched a s s' /\ xo_heap s' = delete a (xo_heap s) /\ xo_bufs s' = delete a (xo_bufs s) /\
    xo_vdevs s' = xo_vdevs s /\ skb_inv R (xo_sys s') /\
    exists ok : bool, xo_log s' = xo_log s ++ rx_to_tx v a (fwd_sent y k) :: if ok then [] else [rx_free a]) s.
Proof.
  intros [n Hn] Hb Hk Ht Hy Hr Hi. pose proof (fwd_sent_ok y k Hk) as Hf. destruct (fwd_mem_ok cfg y k Hk) as (m & Em & _).
  unfold ol_rx_fwd_to_tx. set (k1 := set_rb_skb (set_sk_mem m) k).
  set (s1 := set_xo_bufs (<[a := k1]>) s).
  assert (H1 : when (bool_decide (cfg_frame_format cfg = wlan_frm_fmt_native_wifi)) (ol_ap_fwd_check v a) s = Some (tt, s1)).
  { unfold fwd_mem in Em. case_bool_decide; cbn [when].
    - unfold ol_ap_fwd_check. erewrite bind_run by (apply on_sys_run; by apply get_vdev_run). erewrite bind_run by (by apply get_buf_run).
      unfold lift at 1. rewrite Em. erewrite bind_run by reflexivity. by rewrite (upd_buf_run s a k).
    - injection Em as <-. assert (E1 : k1 = k) by (unfold k1; by destruct k as [[] ? ? ? ? ? ?]). unfold s1. rewrite E1.
      unfold mret, M_ret, skip. destruct s; cbn in *. unfold set_xo_bufs. cbn. by rewrite insert_id. }
  eapply wp_step; [exact H1|]. eapply wp_step; [apply set_next_of_run; by apply (set_next_alloc _ _ n)|].
  eapply wp_step; [apply (upd_buf_run _ a k1); apply lookup_insert_eq|].
  eapply wp_step; [eapply (upd_buf_run _ a); apply lookup_insert_eq|].
  eapply wp_step; [eapply (get_buf_run _ a); apply lookup_insert_eq|].
  eapply wp_step; [apply release_buf_run; cbn; rewrite lookup_insert_eq; eauto|]. eapply wp_step; [reflexivity|].
  assert (E : set_rb_fwd (fun _ => true) (set_rb_skb (fun b => adf_nbuf_pull_head b (rb_desc_len k1)) k1) = fwd_sent y k) by (unfold fwd_sent; by rewrite Em).
  rewrite E. apply wp_bind, on_sys_wp. eapply wp_mono; [apply (skb_tx_ok v a (fwd_sent y k) R); [done..|]|].
  { unfold fwd_sent. by destruct k. }
  assert (Eh : delete a (<[a := mk_nbuf None (nb_desc n)]> (xo_heap s)) = delete a (xo_heap s)) by apply delete_insert_eq.
  intros ok t [Hm HI]. set (s2 := set_xo_sys _ _).
  assert (E2 : xo_heap s2 = delete a (xo_heap s) /\ xo_bufs s2 = delete a (xo_bufs s)).
  { split; cbn; [done|]. by rewrite !insert_insert_eq, delete_insert_eq. }
  destruct E2 as [E2 E3].
  assert (Hu : untouched a s s2).
  { split; try done; intros i Hia; rewrite ?E2, ?E3; by rewrite lookup_delete_ne. }
  destruct ok; cbn [negb when].
  - eapply wp_run; [reflexivity|]. split_and!; try done. by exists true.
  - apply wp_bind, on_sys_wp. eapply wp_mono; [by apply skb_gone_ok|]. intros [] t2 [Hm2 HI2]. eapply wp_run; [reflexivity|].
    split_and!; try done.
    + destruct Hu. split; try done. cbn. by transitivity t.
    + exists false. cbn. by rewrite <- app_assoc.
Qed.
Lemma upd_rx_vdev_spec s v f a :
  is_Some (xo_vdevs s !! v) -> (forall x, rules (f x) = rules x) ->
  exists s', upd_rx_vdev v f s = Some (tt, s') /\ untouched a s s' /\ xo_heap s' = xo_heap s /\ xo_bufs s' = xo_bufs s /\
    xo_log s' = xo_log s /\ xo_sys s' = xo_sys s /\ is_Some (xo_vdevs s' !! v).
Proof.
  intros [x Hx] Hf. exists (set_xo_vdevs (<[v := f x]>) s). split.
  { unfold upd_rx_vdev, get_rx_vdev, mbind, M_bind, get, lift. by rewrite Hx. }
  split_and!; try done; [|cbn; rewrite lookup_insert_eq; eauto]. split; try done. intros w. cbn.
  destruct (decide (w = v)) as [->|]; [by rewrite lookup_insert_eq, Hx; cbn; rewrite Hf|by rewrite lookup_insert_ne].
Qed.

Definition retagged (k k' : rx_buf) : Prop := exists t, k' = set_rb_tid (fun _ => t) k.

Lemma fwd_copy_spec s v a c y k R :
  is_Some (xo_heap s !! a) -> xo_bufs s !! a = Some k -> buf_ok k -> 0 <= rb_tid k -> pp_vdevs (xo_sys s) !! v = Some y -> is_Some (xo_vdevs s !! v) ->
  skb_ready v (xo_sys s) -> skb_inv (a :: R) (xo_sys s) -> nbuf_copy s a = Some c ->
  wp (copy_buf a c;; (ol_rx_fwd_to_tx cfg v c;; upd_rx_vdev v count_fwd_tx)) (fun _ s' => untouched a s s' /\
    xo_heap s' = xo_heap s /\ xo_bufs s' = xo_bufs s /\ skb_inv (a :: R) (xo_sys s') /\
    exists ok : bool, xo_log s' = xo_log s ++ rx_to_tx v c (fwd_sent y k) :: if ok then [] else [rx_free c]) s.
Proof.
  intros [n Hn] Hb Hk Ht Hy Hv Hr Hi Ec. destruct (nbuf_copy_ok s a c Ec) as (Hc1 & Hc2 & Hc3).
  assert (Hca : c <> a) by (intros ->; congruence). unfold copy_buf.
  apply wp_bind. eapply wp_step; [by apply get_buf_run|].
  eapply wp_step; [apply (desc_of_run s a (nb_desc n)); unfold htt_rx_msdu_desc_retrieve; cbn; by rewrite Hn|].
  apply (wp_step _ _ _ _ s s eq_refl). rewrite bool_decide_eq_true_2 by done. apply (wp_step _ _ _ _ tt s eq_refl).
  eapply wp_step; [reflexivity|]. eapply wp_step; [reflexivity|]. apply on_sys_wp.
  eapply wp_mono; [by apply (skb_new_ok c k (a :: R))|]. intros [] t [Hmt HIt]. set (s2 := set_xo_sys (fun _ => t) _).
  pose proof Hmt as [xt Et]. apply wp_bind. eapply wp_mono; [apply (ol_rx_fwd_to_tx_spec s2 v c y k (a :: R))|].
  - cbn. rewrite lookup_insert_eq. eauto.
  - cbn. by rewrite lookup_insert_eq.
  - done.
  - done.
  - cbn. by rewrite Et.
  - by eapply skb_ready_moved.
  - done.
  - intros [] s3 (Hu3 & E1 & E2 & E3 & HI & ok & E4).
    assert (Eh : xo_heap s3 = xo_heap s) by (rewrite E1; cbn; by rewrite delete_insert_id).
    assert (Eb : xo_bufs s3 = xo_bufs s) by (rewrite E2; cbn; by rewrite delete_insert_id).
    destruct (upd_rx_vdev_spec s3 v count_fwd_tx a) as (s4 & Hr4 & Hu4 & F1 & F2 & F3 & F4 & F5); [by rewrite E3|done|].
    eapply wp_run; [exact Hr4|]. rewrite F1, F2, F4, F3, E4. split_and!; try done; [|by eexists].
    transitivity s3; [|done]. destruct Hu3 as [U1 U2 U3 U4 U5]. split; [intros; by rewrite Eh|intros; by rewrite Eb| | |].
    + intros w. by rewrite U3.
    + by rewrite U4.
    + by transitivity t.
Qed.

Lemma fwd_msdu_spec s v tid a y k R :
  is_Some (xo_heap s !! a) -> xo_bufs s !! a = Some k -> buf_ok k -> pp_vdevs (xo_sys s) !! v = Some y -> is_Some (xo_vdevs s !! v) ->
  skb_ready v (xo_sys s) -> skb_inv (a :: R) (xo_sys s) ->
  wp (fwd_msdu cfg v tid a) (fun keep s' => untouched a s s' /\
    (exists evs st, xo_log s' = xo_log s ++ evs /\ untouched a s st /\ xo_log st = xo_log s /\
      fwd_outcome cfg y tid (nbuf_copy st a) v a k evs keep) /\
    if keep then xo_heap s' = xo_heap s /\ (exists k', xo_bufs s' !! a = Some k' /\ retagged k k') /\ skb_inv (a :: R) (xo_sys s')
    else xo_heap s' !! a = None /\ xo_bufs s' !! a = None /\ skb_inv R (xo_sys s')) s.
Proof.
  intros [n Hn] Hb Hk Hy Hv Hr Hi. unfold fwd_msdu. eapply wp_step; [by apply get_buf_run|].
  eapply wp_step; [apply on_sys_run; by apply get_vdev_run|]. unfold fwd_outcome, class_of.
  destruct (_ && htt_rx_msdu_forward k).
  2: { apply wp_ret. split; [done|]. split; [exists [], s; by rewrite app_nil_r|]. split; [done|]. split; [|done]. exists k. split; [done|].
       exists (rb_tid k). by destruct k. }
  eapply wp_step; [by apply (upd_buf_run s a k)|]. change (if negb (tid =? HTT_NON_QOS_TID) then _ else _) with (fwd_tid tid). set (k1 := set_rb_tid _ k).
  set (s1 := set_xo_bufs _ s). set (ap := bool_decide (vd_opmode y = wlan_op_mode_ap)).
  assert (Hk1 : buf_ok k1) by (by destruct Hk; constructor). assert (Ht : 0 <= rb_tid k1) by apply (fwd_buf_ok cfg y tid k Hk).
  assert (Hu1 : untouched a s s1) by (split; try done; intros i Hia; cbn; by rewrite lookup_insert_ne).
  assert (Hb1 : xo_bufs s1 !! a = Some k1) by apply lookup_insert_eq.
  eapply (wp_step _ _ _ _ (ap && eapol_buf k) s1).
  { unfold ap. case_bool_decide; [unfold lift; by rewrite (eapol_buf_ok k Hk)|done]. }
  destruct (ap && eapol_buf k).
  { eapply wp_step; [apply set_next_of_run; by apply (set_next_alloc _ _ n)|]. apply wp_bind.
    eapply wp_mono; [apply (adf_nbuf_free_spec _ a R); [cbn; rewrite lookup_insert_eq; eauto|done]|].
    intros [] s2 (Hu & E1 & E2 & E3 & HI). apply wp_ret. split.
    { transitivity s1; [done|]. destruct Hu as [U1 U2 U3 U4 U5]. split; try done. intros i Hia. rewrite U1 by done. cbn. by rewrite lookup_insert_ne. }
    split; [by eexists _, s|]. rewrite E1, E2. by rewrite !lookup_delete_eq. }
  destruct (htt_rx_msdu_discard k).
  { apply wp_bind. eapply wp_mono; [apply (ol_rx_fwd_to_tx_spec s1 v a y k1 R); try done; by exists n|].
    intros [] s2 (Hu2 & E1 & E2 & E3 & HI & ok & E4).
    destruct (upd_rx_vdev_spec s2 v count_fwd_tx a) as (s3 & Hr3 & Hu3 & F1 & F2 & F3 & F4 & F5); [by rewrite E3|done|].
    destruct (upd_rx_vdev_spec s3 v count_fwd_rx a) as (s4 & Hr4 & Hu4 & G1 & G2 & G3 & G4 & G5); [done..|].
    eapply wp_step; [exact Hr3|]. eapply wp_step; [exact Hr4|]. apply wp_ret. split; [by transitivity s1; [|transitivity s2; [|transitivity s3]]|].
    split; [|rewrite G1, G2, G4, F1, F2, F4, E1, E2; by rewrite !lookup_delete_eq].
    eexists _, s. rewrite G3, F3, E4. split_and!; try done. by exists ok. }
  apply (wp_step _ _ _ _ s1 s1 eq_refl). destruct (nbuf_copy s1 a) as [c|] eqn:Ec.
  - pose proof (fwd_copy_spec s1 v a c y k1 R ltac:(by exists n) Hb1 Hk1 Ht Hy Hv Hr Hi Ec) as Hw.
    apply wp_bind in Hw. apply wp_bind. eapply wp_mono; [exact Hw|]. intros [] s2 Hw2.
    apply wp_bind in Hw2. apply wp_bind. eapply wp_mono; [exact Hw2|]. intros [] s3 Hw3. apply wp_bind. eapply wp_mono; [exact Hw3|].
    intros [] s4 (Hu2 & Eh & Eb & HI & ok & El). apply wp_ret. split; [by transitivity s1|]. split.
    + eexists _, s1. rewrite El, Ec. split_and!; try done. by exists ok.
    + rewrite Eh, Eb. split; [done|]. split; [exists k1; split; [done|by eexists]|done].
  - apply wp_ret. split; [done|]. split; [exists [], s1; by rewrite app_nil_r, Ec|]. split; [done|]. split; [|done]. exists k1. split; [done|by eexists].
Qed.
(** ** Lists *)
Lemma list_append_spec s out o a v :
  slot_rep (xo_heap s) out o -> seg (xo_heap s) [a] v -> NoDup (o ++ [a]) ->
  exists out' h', OL_TXRX_LIST_APPEND out a s = Some (out', set_xo_heap (fun _ => h') s) /\ slot_rep h' out' (o ++ [a]) /\
    relinked (xo_heap s) h' o /\ seg h' [a] v /\ (v = None -> seg h' (o ++ [a]) None).
Proof.
  intros Ho Ha Hnd. assert (Hsa : slot_rep (xo_heap s) (mk_slot (Some a) (Some a)) [a]) by (split_and!; [done..|by exists v]).
  unfold OL_TXRX_LIST_APPEND. destruct (decide (o = [])) as [->|Hne].
  - rewrite (slot_rep_nil _ _ Ho). cbn [sl_head empty_slot app]. exists (mk_slot (Some a) (Some a)), (xo_heap s). split; [by destruct s|].
    split; [done|]. split; [apply relinked_refl|]. split; [done|]. by intros ->.
  - destruct (slot_append _ _ _ o [a] Ho Hsa Hne ltac:(done) Hnd) as (t & h' & Ht & Hset & Hrep & Hrel & Hseg).
    destruct (sl_head out) as [hd|] eqn:Eh; [|by apply (slot_rep_None _ _ _ Ho) in Eh]. exists (mk_slot (Some hd) (Some a)), h'. split.
    { rewrite Ht. unfold lift at 1. erewrite bind_run by reflexivity. erewrite bind_run by (apply set_next_of_run; exact Hset). done. }
    split; [done|]. split; [done|]. pose proof (Hseg v Ha) as Hs'. split; [by apply seg_app in Hs' as [_ ?]|]. by intros ->.
Qed.

(** A state on the way: of the buffers only those of the list have changed, and [l]
    has been logged. *)
Record on_the_way (ids : list Z) (s : rx_out D) (l : list rx_event) (st : rx_out D) : Prop := {
  ow_heap : forall i, i ∉ ids -> xo_heap st !! i = xo_heap s !! i;
  ow_bufs : forall i, i ∉ ids -> xo_bufs st !! i = xo_bufs s !! i;
  ow_log : xo_log st = xo_log s ++ l;
  ow_sys : moved (xo_sys s) (xo_sys st) }.

Lemma on_the_way_untouched ids s l st a st' e :
  on_the_way ids s l st -> a ∈ ids -> untouched a st st' -> xo_log st' = xo_log st ++ e -> on_the_way ids s (l ++ e) st'.
Proof.
  intros [H1 H2 H3 H4] Ha [U1 U2 U3 U4 U5] E. constructor.
  - intros i Hi. rewrite U1; [by apply H1|]. by intros ->.
  - intros i Hi. rewrite U2; [by apply H2|]. by intros ->.
  - by rewrite E, H3, <- app_assoc.
  - by transitivity (xo_sys st).
Qed.

Lemma on_the_way_relinked ids s l st h o :
  on_the_way ids s l st -> o ⊆ ids -> relinked (xo_heap st) h o -> on_the_way ids s l (set_xo_heap (fun _ => h) st).
Proof.
  intros [H1 H2 H3 H4] Ho Hr. constructor; try done. intros i Hi. cbn. destruct (Hr i) as [_ ->]; [by apply H1|]. intros ?. by apply Hi, Ho.
Qed.

(** The outcome of a list, one MSDU after the other, when [l] has been logged
    before; [kept] stay in it. *)
Fixpoint fwd_outcomes (ids : list Z) (s : rx_out D) (y : vdev) (tid v : Z) (ks : list (Z * rx_buf)) (l evs : list rx_event) (kept : list Z) : Prop :=
  match ks with
  | [] => evs = [] /\ kept = []
  | (a, k) :: ks => exists st e keep evs' kept', on_the_way ids s l st /\ fwd_outcome cfg y tid (nbuf_copy st a) v a k e keep /\
      fwd_outcomes ids s y tid v ks (l ++ e) evs' kept' /\ evs = e ++ evs' /\ kept = (if (keep : bool) then a :: kept' else kept')
  end.

Lemma fwd_outcomes_kept ids s y tid v ks : forall l evs kept, fwd_outcomes ids s y tid v ks l evs kept -> kept `sublist_of` ks.*1.
Proof.
  induction ks as [|[a k] ks IH]; intros l evs kept; cbn; [by intros [_ ->]|]. intros (st & e & keep & evs' & kept' & _ & _ & Hr & _ & ->).
  destruct keep; [apply sublist_skip|apply sublist_cons]; by eapply IH.
Qed.

(** The buffers of a list and what they hold. *)
Definition held (s : rx_out D) (ks : list (Z * rx_buf)) : Prop := forall a k, (a, k) ∈ ks -> xo_bufs s !! a = Some k /\ buf_ok k.

Lemma held_other s s' ks a : held s ks -> a ∉ ks.*1 -> (forall i, i <> a -> xo_bufs s' !! i = xo_bufs s !! i) -> held s' ks.
Proof.
  intros Hh Ha Hu i k Hi. rewrite Hu; [by apply Hh|]. intros ->. apply Ha. by apply (list_elem_of_fmap_2 fst _ (a, k)).
Qed.

(** The state after a list: [o] was collected before, [kept] is new. *)
Record fwd_after (s : rx_out D) (ks : list (Z * rx_buf)) (o B : list Z) (out : slot) (kept : list Z) (s' : rx_out D) : Prop := {
  fa_slot : slot_rep (xo_heap s') out (o ++ kept);
  fa_inv : skb_inv (o ++ kept ++ B) (xo_sys s');
  fa_desc : forall i, i ∈ o ++ kept -> htt_rx_msdu_desc_retrieve (xo_heap s') i = htt_rx_msdu_desc_retrieve (xo_heap s) i;
  fa_bufs : forall a k, (a, k) ∈ ks -> a ∈ kept -> exists k', xo_bufs s' !! a = Some k' /\ retagged k k';
  fa_gone : forall a, a ∈ ks.*1 -> a ∉ kept -> xo_heap s' !! a = None /\ xo_bufs s' !! a = None;
  fa_other : forall i, i ∉ ks.*1 -> xo_bufs s' !! i = xo_bufs s !! i;
  fa_heap : forall i, i ∉ o ++ ks.*1 -> xo_heap s' !! i = xo_heap s !! i;
  fa_rules : forall v, rules <$> xo_vdevs s' !! v = rules <$> xo_vdevs s !! v;
  fa_keys : xo_keyinstalled s' = xo_keyinstalled s;
  fa_sys : moved (xo_sys s) (xo_sys s') }.

Lemma rules_some s s' v : rules <$> xo_vdevs s' !! v = rules <$> xo_vdevs s !! v -> is_Some (xo_vdevs s !! v) -> is_Some (xo_vdevs s' !! v).
Proof. intros E [x Hx]. rewrite Hx in E. cbn in E. destruct (xo_vdevs s' !! v); [eauto|done]. Qed.

(** An MSDU that stays, and one that goes. *)
Lemma fwd_after_keep s s1 h' a k ks o B out kept s' :
  untouched a s s1 -> xo_heap s1 = xo_heap s -> (exists k', xo_bufs s1 !! a = Some k' /\ retagged k k') -> NoDup (o ++ a :: ks.*1) ->
  relinked (xo_heap s1) h' o -> (forall i j, (i, j) ∈ ks -> i <> a) ->
  kept `sublist_of` ks.*1 -> fwd_after (set_xo_heap (fun _ => h') s1) ks (o ++ [a]) B out kept s' -> fwd_after s ((a, k) :: ks) o B out (a :: kept) s'.
Proof.
  intros Hu Eh (k' & Hk' & Hrt) Hnd Hrel Hne Hsub [F1 F2 F3 F4 F5 F6 F7 F8 F9 F10]. cbn [set_xo_heap xo_heap xo_bufs xo_vdevs xo_keyinstalled xo_sys] in *.
  destruct Hu as [U1 U2 U3 U4 U5]. apply list.NoDup_app in Hnd as (Hndo & Hdis & Hnda). apply list.NoDup_cons in Hnda as [Hak Hndk].
  rewrite <- !app_assoc in *. cbn [app] in *. constructor; try done.
  - intros i Hi. rewrite F3 by done. destruct (Hrel i) as [-> _]. by rewrite Eh.
  - intros i j [[= -> ->]|Hij]%elem_of_cons Hik.
    + rewrite F6 by done. by exists k'.
    + apply elem_of_cons in Hik as [->|Hik]; [by destruct (Hne a j Hij)|]. by apply F4.
  - intros i Hi Hk. apply not_elem_of_cons in Hk as [Hia Hik]. apply elem_of_cons in Hi as [->|Hi]; [done|]. by apply F5.
  - intros i Hi. apply not_elem_of_cons in Hi as [Hia Hi]. rewrite F6 by done. by apply U2.
  - intros i Hi. cbn in Hi. rewrite F7 by done. destruct (Hrel i) as [_ Hr]. rewrite Hr by set_solver. by rewrite Eh.
  - intros v. by rewrite F8.
  - by rewrite F9.
  - by transitivity (xo_sys s1).
Qed.

Lemma fwd_after_drop s s1 a k ks o B out kept s' :
  untouched a s s1 -> xo_heap s1 !! a = None -> xo_bufs s1 !! a = None -> NoDup (o ++ a :: ks.*1) ->
  kept `sublist_of` ks.*1 -> fwd_after s1 ks o B out kept s' -> fwd_after s ((a, k) :: ks) o B out kept s'.
Proof.
  intros Hu Eh Eb Hnd Hsub [F1 F2 F3 F4 F5 F6 F7 F8 F9 F10]. destruct Hu as [U1 U2 U3 U4 U5].
  apply list.NoDup_app in Hnd as (Hndo & Hdis & Hnda). apply list.NoDup_cons in Hnda as [Hak Hndk].
  assert (Hkept : a ∉ kept) by (intros Hk; apply Hak; by eapply elem_of_sublist).
  assert (Hao : a ∉ o) by (intros Hk; apply (Hdis a Hk); by left).
  constructor; try done.
  - intros i Hi. rewrite F3 by done. unfold htt_rx_msdu_desc_retrieve. rewrite U1; [done|]. intros ->. apply elem_of_app in Hi as [?|?]; done.
  - intros i j [[= -> ->]|Hij]%elem_of_cons Hik; [done|]. by apply F4.
  - intros i Hi Hk. apply elem_of_cons in Hi as [->|Hi]; [|by apply F5]. rewrite F6, F7 by set_solver. done.
  - intros i Hi. apply not_elem_of_cons in Hi as [Hia Hi]. rewrite F6 by done. by apply U2.
  - intros i Hi. cbn in Hi. rewrite F7 by set_solver. apply U1. set_solver.
  - intros v. by rewrite F8.
  - by rewrite F9.
  - by transitivity (xo_sys s1).
Qed.

Lemma fwd_loop_spec v tid y B ids s0 ks : forall n o l s out,
  on_the_way ids s0 l s -> o ++ ks.*1 ⊆ ids -> NoDup (o ++ ks.*1) -> seg (xo_heap s) (ks.*1) None -> slot_rep (xo_heap s) out o -> (length ks <= n)%nat -> held s ks ->
  pp_vdevs (xo_sys s) !! v = Some y -> is_Some (xo_vdevs s !! v) -> skb_ready v (xo_sys s) -> skb_inv (o ++ ks.*1 ++ B) (xo_sys s) ->
  wp (fwd_loop cfg n v tid (hd_or None (ks.*1)) out) (fun out' s' => exists evs kept,
    fwd_outcomes ids s0 y tid v ks l evs kept /\ xo_log s' = xo_log s ++ evs /\ fwd_after s ks o B out' kept s') s.
Proof.
  induction ks as [|[a k] ks IH]; intros n o l s out How Hids Hnd Hseg Hout Hn Hh Hy Hv Hr Hi; cbn [fmap list_fmap fst hd_or] in *.
  - destruct n; (apply wp_ret; exists [], []; split; [done|]; split; [by rewrite app_nil_r|]).
    all: constructor; rewrite ?app_nil_r; try done; intros ? ?; set_solver.
  - destruct n as [|n]; [cbn in Hn; lia|]. cbn [fwd_loop]. destruct Hseg as [Hnext Hseg]. cbn [fst] in *.
    destruct (Hh a k ltac:(by left)) as [Hb Hk]. eapply wp_step; [by apply next_of_run|].
    assert (Hal : is_Some (xo_heap s !! a)) by (unfold adf_nbuf_next in Hnext; destruct (xo_heap s !! a); [eauto|done]).
    pose proof Hnd as Hnd0. apply list.NoDup_app in Hnd as (Hndo & Hdis & Hnda). apply list.NoDup_cons in Hnda as [Hak Hndk].
    assert (Hao : a ∉ o) by (intros Ho; apply (Hdis a Ho); by left).
    apply wp_bind. eapply wp_mono; [apply (fwd_msdu_spec s v tid a y k (o ++ ks.*1 ++ B)); try done|].
    { eapply skb_inv_perm; [exact Hi|]. symmetry. apply Permutation_middle. }
    intros keep s1 (Hu & (e & st & He & Hst & Est & Hoc) & Hkeep). pose proof Hu as [U1 U2 U3 U4 U5].
    assert (Hai : a ∈ ids) by (apply Hids, elem_of_app; right; by left).
    assert (How1 : on_the_way ids s0 (l ++ e) s1) by (by eapply on_the_way_untouched).
    assert (Howt : on_the_way ids s0 l st).
    { rewrite <- (app_nil_r l). eapply on_the_way_untouched; [exact How|exact Hai|exact Hst|by rewrite app_nil_r]. } pose proof U5 as [x1 Ex].
    assert (Hh1 : held s1 ks). { eapply (held_other s s1 ks a); [|done|done]. intros i j Hij. apply Hh. by right. }
    destruct keep.
    + destruct Hkeep as (Eh & Hbk & Hi1).
      assert (Hsa : seg (xo_heap s1) [a] (hd_or None (ks.*1))) by (rewrite Eh; by split).
      destruct (list_append_spec s1 out o a _ ltac:(by rewrite Eh) Hsa ltac:(apply list.NoDup_app; split_and!; [done|set_solver|apply NoDup_singleton]))
        as (out1 & h1 & Hrun & Hrep & Hrel & Hsa' & _).
      eapply wp_step; [exact Hrun|]. eapply wp_mono; [apply (IH n (o ++ [a]) (l ++ e) (set_xo_heap (fun _ => h1) s1) out1)|].
      * eapply on_the_way_relinked; [exact How1| |exact Hrel]. intros i Hi'. apply Hids, elem_of_app. by left.
      * by rewrite <- app_assoc.
      * by rewrite <- app_assoc.
      * cbn. eapply seg_relinked; [exact Hrel|set_solver|by rewrite Eh].
      * done.
      * cbn in Hn. lia.
      * done.
      * cbn. by rewrite Ex.
      * exact (rules_some s s1 v (U3 v) Hv).
      * by eapply skb_ready_moved.
      * cbn. eapply skb_inv_perm; [exact Hi1|]. rewrite <- app_assoc. apply Permutation_middle.
      * intros out' s' (evs & kept & Ho & El & Ha). exists (e ++ evs), (a :: kept). split; [by exists st, e, true, evs, kept|].
        cbn in El. split; [by rewrite El, He, <- app_assoc|].
        eapply fwd_after_keep; [exact Hu|done|done|done|exact Hrel| |by eapply fwd_outcomes_kept|done].
        intros i j Hij ->. apply Hak. by apply (list_elem_of_fmap_2 fst _ (a, j)).
    + destruct Hkeep as (Eh & Eb & Hi1). apply (wp_step _ _ _ _ out s1 eq_refl). eapply wp_mono; [apply (IH n o (l ++ e) s1 out)|].
      * done.
      * intros i Hi'. apply Hids. set_solver.
      * apply list.NoDup_app. split_and!; [done|set_solver|done].
      * eapply seg_frame; [|exact Hseg]. intros i Hi'. apply U1. by intros ->.
      * eapply slot_rep_frame; [|exact Hout]. intros i Hi'. apply U1. by intros ->.
      * cbn in Hn. lia.
      * done.
      * by rewrite Ex.
      * exact (rules_some s s1 v (U3 v) Hv).
      * by eapply skb_ready_moved.
      * done.
      * intros out' s' (evs & kept & Ho & El & Ha). exists (e ++ evs), kept. split; [by exists st, e, false, evs, kept|].
        split; [by rewrite El, He, <- app_assoc|]. eapply fwd_after_drop; [exact Hu|done|done|done|by eapply fwd_outcomes_kept|done].
Qed.
(** ** Delivery *)

Lemma get_rx_vdev_run s v x : xo_vdevs s !! v = Some x -> get_rx_vdev v s = Some (x, s).
Proof. intros E. unfold get_rx_vdev, mbind, M_bind, get, lift. by rewrite E. Qed.

(** The verdict of the privacy filter on an MPDU whose first MSDU is [k]. *)
Definition rejects (x : rx_vdev) (sec : Z * Z) (keyinstalled : bool) (k : rx_buf) (d : rx_desc) : bool :=
  default true (rx_filter cfg x sec keyinstalled (rd_mcast d) (rd_encrypted d) (frame_of (pulled k))).

Lemma ether_type_ok f : frame_ok f -> exists t, rd16 f (ether_type_offset cfg) = Some t.
Proof.
  intros Hf. unfold ether_type_offset. destruct (rd16_ok f Hf (if bool_decide (cfg_frame_format cfg = wlan_frm_fmt_native_wifi) then
    ieee80211_frame_size + llc_ethertype else ETHERNET_ADDR_LEN * 2)) as (t & E & _); [by case_bool_decide|eauto].
Qed.

Lemma rx_filter_total x sec key mcast enc f : frame_ok f -> exists r, rx_filter cfg x sec key mcast enc f = Some r.
Proof.
  intros Hf. unfold rx_filter. destruct (rv_safemode x); [eauto|]. destruct (ether_type_ok f Hf) as [t Et]. rewrite Et.
  destruct (0 <? zlen (rv_privacy_filters x)); cbn [mbind option_bind]; (destruct (cfg_wapi cfg && _); [eauto|]);
    (destruct (privacy_exempt _ _ _ _ _); [eauto|]); (destruct (_ || enc); [eauto|]); (destruct (_ =? _); eauto).
Qed.

Lemma rx_filter_rules x x' : rules x = rules x' -> forall sec key mcast enc f, rx_filter cfg x sec key mcast enc f = rx_filter cfg x' sec key mcast enc f.
Proof. destruct x, x'. unfold rules. cbn. intros [= -> -> ->] *. done. Qed.

Lemma ol_rx_filter_run s v p a x y k d :
  (rules <$> xo_vdevs s !! v) = Some (rules x) -> pp_peers (xo_sys s) !! p = Some y -> xo_bufs s !! a = Some (pulled k) -> buf_ok k ->
  ol_rx_filter cfg v p a d s = Some (rejects x (pe_sec_type y) (bool_decide (p ∈ xo_keyinstalled s)) k d, s).
Proof.
  intros Hx Hy Hb Hk. destruct (xo_vdevs s !! v) as [x'|] eqn:Hx'; [|done]. cbn in Hx. apply (inj Some) in Hx. unfold ol_rx_filter.
  erewrite bind_run by (apply get_rx_vdev_run; exact Hx').
  erewrite bind_run by (apply on_sys_run; by apply get_peer_run). erewrite bind_run by (by apply get_buf_run). erewrite bind_run by reflexivity.
  unfold rejects. rewrite (rx_filter_rules _ _ Hx). destruct (rx_filter_total x (pe_sec_type y) (bool_decide (p ∈ xo_keyinstalled s)) (rd_mcast d) (rd_encrypted d) _ (payload_ok k Hk)) as [r Er].
  unfold lift. by rewrite Er.
Qed.

(** An IGMP frame the target wants inspected. *)
Definition igmp (k : rx_buf) : bool :=
  let f := frame_of (pulled k) in
  let l3_hdr := if bool_decide (cfg_frame_format cfg = wlan_frm_fmt_native_wifi) then ieee80211_frame_size + llc_snap_hdr_size else ethernet_hdr_size in
  bool_decide (rd16 f (ether_type_offset cfg) = Some ETHERTYPE_IPV4 /\ rd8 f (l3_hdr + IPV4_HDR_OFFSET_PROTOCOL) = Some IP_PROTOCOL_IGMP).

Definition notes (v p tid a : Z) (k : rx_buf) : list rx_event := if htt_rx_msdu_inspect k && igmp k then [rx_notify v p tid a] else [].

Lemma inspect_run s v p tid a k :
  xo_bufs s !! a = Some (pulled k) -> buf_ok k ->
  when (htt_rx_msdu_inspect k) (ol_rx_inspect cfg v p tid a) s = Some (tt, set_xo_log (fun l => l ++ notes v p tid a k) s).
Proof.
  assert (E0 : set_xo_log (fun l => l ++ []) s = s) by (destruct s; unfold set_xo_log; cbn; by rewrite app_nil_r).
  intros Hb Hk. unfold notes. destruct (htt_rx_msdu_inspect k); cbn [when andb]; [|by rewrite E0].
  unfold ol_rx_inspect. erewrite bind_run by (by apply get_buf_run). pose proof (payload_ok k Hk) as Hf. unfold igmp. set (f := frame_of (pulled k)) in *.
  destruct (ether_type_ok f Hf) as [t Et]. set (l3 := if bool_decide (cfg_frame_format cfg = wlan_frm_fmt_native_wifi) then _ else _).
  destruct (znth_in_range (fr_data f) (l3 + IPV4_HDR_OFFSET_PROTOCOL)) as [b Eb].
  { pose proof (payload_len k Hk) as Hl. unfold payload in Hl. change (fr_data f) with (skb_bytes (rb_skb (pulled k))). unfold l3, IPV4_HDR_OFFSET_PROTOCOL.
    case_bool_decide; unfold ieee80211_frame_size, llc_snap_hdr_size, ethernet_hdr_size; lia. }
  change (rd8 f (l3 + IPV4_HDR_OFFSET_PROTOCOL) = Some b) in Eb.
  unfold lift at 1. rewrite Et. erewrite bind_run by reflexivity. destruct (Z.eqb_spec t ETHERTYPE_IPV4) as [->|Ht]; cbn [when].
  - unfold lift. rewrite Eb. erewrite bind_run by reflexivity. destruct (Z.eqb_spec b IP_PROTOCOL_IGMP) as [->|Hn]; cbn [when].
    + by rewrite bool_decide_eq_true_2.
    + rewrite bool_decide_eq_false_2; [exact (f_equal (fun z => Some (tt, z)) (eq_sym E0))|]. intros [_ E]. congruence.
  - rewrite bool_decide_eq_false_2; [exact (f_equal (fun z => Some (tt, z)) (eq_sym E0))|]. intros [E _]. congruence.
Qed.

(** What the operating system gets of a list, and what happens on the way: the
    verdict on the first MSDU of an MPDU holds for the others. *)
Fixpoint delivered (rej : rx_buf -> rx_desc -> bool) (v p tid : Z) (filt : bool) (ks : list (Z * rx_buf * rx_desc)) : list rx_event * list (Z * list Z) :=
  match ks with
  | [] => ([], [])
  | (a, k, d) :: ks =>
    let filt := if rd_first_msdu d then rej k d else filt in
    let r := delivered rej v p tid filt ks in
    if htt_rx_msdu_discard k || filt then (notes v p tid a k ++ rx_free a :: r.1, r.2) else (notes v p tid a k ++ r.1, (a, payload k) :: r.2)
  end.

Lemma delivered_sublist rej v p tid ks : forall filt, (delivered rej v p tid filt ks).2.*1 `sublist_of` ks.*1.*1.
Proof.
  induction ks as [|[[a k] d] ks IH]; intros filt; cbn; [done|]. destruct (_ || _); cbn; [apply sublist_cons|apply sublist_skip]; apply IH.
Qed.

(** The buffers of the list with their descriptors. *)
Definition held_desc (s : rx_out D) (ks : list (Z * rx_buf * rx_desc)) : Prop :=
  forall a k d, (a, k, d) ∈ ks -> xo_bufs s !! a = Some k /\ buf_ok k /\ htt_rx_msdu_desc_retrieve (xo_heap s) a = Some d.
Definition holds (s : rx_out D) (fr : list (Z * list Z)) : Prop :=
  forall a b, (a, b) ∈ fr -> exists k, xo_bufs s !! a = Some k /\ skb_bytes (rb_skb k) = b.

Lemma holds_other s s' fr a : holds s fr -> a ∉ fr.*1 -> (forall i, i <> a -> xo_bufs s' !! i = xo_bufs s !! i) -> holds s' fr.
Proof.
  intros Hh Ha Hu i b Hi. rewrite Hu; [by apply Hh|]. intros ->. apply Ha. by apply (list_elem_of_fmap_2 fst _ (a, b)).
Qed.
Lemma held_desc_other s s' ks a :
  held_desc s ks -> a ∉ ks.*1.*1 -> (forall i, i <> a -> xo_bufs s' !! i = xo_bufs s !! i) ->
  (forall i, i ∈ ks.*1.*1 -> htt_rx_msdu_desc_retrieve (xo_heap s') i = htt_rx_msdu_desc_retrieve (xo_heap s) i) -> held_desc s' ks.
Proof.
  intros Hh Ha Hu Hd i k d Hi. assert (Hin : i ∈ ks.*1.*1) by (apply list_elem_of_fmap; exists (i, k); split; [done|]; apply list_elem_of_fmap; by exists (i, k, d)).
  rewrite Hu, Hd; [by apply Hh|done|]. by intros ->.
Qed.

(** The state after the loop: [o] was collected before, [fr] is new. *)
Record deliver_after (s : rx_out D) (l : list Z) (o fr : list (Z * list Z)) (B : list Z) (out : slot) (s' : rx_out D) : Prop := {
  da_slot : slot_rep (xo_heap s') out ((o ++ fr).*1);
  da_seg : seg (xo_heap s') ((o ++ fr).*1) None;
  da_holds : holds s' (o ++ fr);
  da_inv : skb_inv ((o ++ fr).*1 ++ B) (xo_sys s');
  da_gone : forall a, a ∈ l -> a ∉ fr.*1 -> xo_heap s' !! a = None /\ xo_bufs s' !! a = None;
  da_other : forall i, i ∉ o.*1 ++ l -> xo_bufs s' !! i = xo_bufs s !! i /\ xo_heap s' !! i = xo_heap s !! i;
  da_sys : moved (xo_sys s) (xo_sys s') }.

(** One round of the loop, up to the decision. *)
Definition verdict (x : rx_vdev) (y : peer) (key filt : bool) (k : rx_buf) (d : rx_desc) : bool :=
  if rd_first_msdu d then rejects x (pe_sec_type y) key k d else filt.
Definition looked_at (v p tid a : Z) (k : rx_buf) s : rx_out D :=
  set_xo_log (fun l => l ++ notes v p tid a k) (set_xo_bufs (<[a := pulled k]>) s).

Lemma deliver_head n v p tid a filt out s k d x y nx :
  adf_nbuf_next (xo_heap s) a = Some nx -> htt_rx_msdu_desc_retrieve (xo_heap s) a = Some d -> xo_bufs s !! a = Some k -> buf_ok k ->
  rules <$> xo_vdevs s !! v = Some (rules x) -> pp_peers (xo_sys s) !! p = Some y ->
  let filt1 := verdict x y (bool_decide (p ∈ xo_keyinstalled s)) filt k d in
  deliver_loop cfg (S n) v p tid (Some a) filt out s =
  (if htt_rx_msdu_discard k || filt1 then
     adf_nbuf_free a;;
     match nx, sl_head out with
     | None, Some _ => t ← lift (sl_tail out); set_next_of t None
     | _, _ => skip
     end;;
     deliver_loop cfg n v p tid nx filt1 out
   else
     out ← OL_TXRX_LIST_APPEND out a;
     deliver_loop cfg n v p tid nx filt1 out) (looked_at v p tid a k s).
Proof.
  intros Hnx Hd Hb Hk Hx Hy filt1. cbn [deliver_loop]. erewrite bind_run by (by apply next_of_run). erewrite bind_run by (by apply desc_of_run).
  erewrite bind_run by (by apply (upd_buf_run s a k)). erewrite bind_run by (apply get_buf_run; apply lookup_insert_eq).
  erewrite bind_run by (apply (inspect_run _ v p tid a k); [apply lookup_insert_eq|done]). change (set_rb_skb _ k) with (pulled k).
  fold (looked_at v p tid a k s).
  assert (E : (if rd_first_msdu d then ol_rx_filter cfg v p a d else mret filt) (looked_at v p tid a k s) = Some (filt1, looked_at v p tid a k s)).
  { unfold filt1, verdict. destruct (rd_first_msdu d); [|done]. apply (ol_rx_filter_run (looked_at v p tid a k s) v p a x y k d); [done..|apply lookup_insert_eq|done]. }
  by erewrite bind_run by exact E.
Qed.

(** An MSDU that stays, and one that goes. *)
Lemma deliver_after_keep s s1 h' a b ids o fr B out s' :
  (forall i, i <> a -> xo_bufs s1 !! i = xo_bufs s !! i) -> xo_heap s1 = xo_heap s -> xo_sys s1 = xo_sys s ->
  relinked (xo_heap s1) h' (o.*1) ->
  deliver_after (set_xo_heap (fun _ => h') s1) ids (o ++ [(a, b)]) fr B out s' -> deliver_after s (a :: ids) o ((a, b) :: fr) B out s'.
Proof.
  intros Hb Eh Es Hrel [F1 F2 F3 F4 F5 F6 F7]. rewrite <- !app_assoc in *. cbn [app] in *. constructor; try done.
  - intros i Hi Hf. cbn [fmap list_fmap fst] in Hf. apply not_elem_of_cons in Hf as [Hia Hf]. apply elem_of_cons in Hi as [->|Hi]; [done|by apply F5].
  - intros i Hi. apply not_elem_of_app in Hi as [Hio Hi]. apply not_elem_of_cons in Hi as [Hia Hi].
    destruct (F6 i) as [-> ->]; [rewrite fmap_app; set_solver|]. cbn. rewrite Hb by done. split; [done|].
    destruct (Hrel i) as [_ Hr]. by rewrite Hr, Eh.
  - by rewrite <- Es.
Qed.

Lemma deliver_after_drop s s1 a ids o fr B out s' :
  xo_heap s1 !! a = None -> xo_bufs s1 !! a = None -> a ∉ o.*1 ++ ids -> fr.*1 ⊆ ids ->
  (forall i, i ∉ a :: o.*1 -> xo_bufs s1 !! i = xo_bufs s !! i /\ xo_heap s1 !! i = xo_heap s !! i) -> moved (xo_sys s) (xo_sys s1) ->
  deliver_after s1 ids o fr B out s' -> deliver_after s (a :: ids) o fr B out s'.
Proof.
  intros Eh Eb Ha Hf Hu Hm [F1 F2 F3 F4 F5 F6 F7]. constructor; try done.
  - intros i Hi Hif. apply elem_of_cons in Hi as [->|Hi]; [|by apply F5]. destruct (F6 a) as [-> ->]; done.
  - intros i Hi. destruct (F6 i) as [-> ->]; [set_solver|]. apply Hu. set_solver.
  - by transitivity (xo_sys s1).
Qed.

(** The discarded frame was the last one: the list gets its end. *)
Lemma terminate_spec s out o (nx : option Z) :
  slot_rep (xo_heap s) out o -> NoDup o ->
  exists h', (match nx, sl_head out with None, Some _ => t ← lift (sl_tail out); set_next_of t None | _, _ => skip end) s =
      Some (tt, set_xo_heap (fun _ => h') s) /\ slot_rep h' out o /\ relinked (xo_heap s) h' o /\ (nx = None -> seg h' o None).
Proof.
  intros Ho Hnd. assert (E0 : set_xo_heap (fun _ => xo_heap s) s = s) by (by destruct s). destruct nx as [a|].
  { exists (xo_heap s). rewrite E0. split_and!; [done|done|apply relinked_refl|done]. }
  destruct (sl_head out) eqn:Eh.
  - destruct (slot_terminate _ _ _ Ho ltac:(by eapply slot_rep_Some) Hnd) as (t & h' & Ht & Hset & Hseg & Hrel). exists h'. split.
    { rewrite Ht. unfold lift at 1. erewrite bind_run by reflexivity. by apply set_next_of_run. }
    destruct Ho as (H1 & H2 & _). split; [split_and!; [done|done|by exists None]|]. done.
  - apply (slot_rep_None _ _ _ Ho) in Eh as ->. exists (xo_heap s). rewrite E0. split_and!; [done|done|apply relinked_refl|done].
Qed.

Lemma deliver_ids_nodup (o : list Z) a ids : NoDup (o ++ a :: ids) -> NoDup o /\ a ∉ o ++ ids /\ NoDup (o ++ ids) /\ NoDup (o ++ [a]) /\ o ## ids.
Proof.
  intros Hnd. assert (Hp : o ++ a :: ids ≡ₚ a :: o ++ ids) by (symmetry; apply Permutation_middle). rewrite Hp in Hnd.
  apply list.NoDup_cons in Hnd as [Ha Hnd]. pose proof Hnd as (Hno & Hd & _)%list.NoDup_app. split_and!; try done.
  apply list.NoDup_app. split_and!; [done| |apply NoDup_singleton]. intros i Hi ->%list_elem_of_singleton. set_solver.
Qed.

Definition delivering (v p : Z) (x : rx_vdev) (y : peer) (key : bool) s : Prop :=
  rules <$> xo_vdevs s !! v = Some (rules x) /\ pp_peers (xo_sys s) !! p = Some y /\ bool_decide (p ∈ xo_keyinstalled s) = key.

Lemma delivering_untouched v p x y key a s s' : delivering v p x y key s -> untouched a s s' -> delivering v p x y key s'.
Proof. intros (H1 & H2 & H3) [_ _ U3 U4 [z U5]]. split_and!; [by rewrite U3|by rewrite U5|by rewrite U4]. Qed.

(** A frame is discarded: what is left of the lists. *)
Record discarded (a : Z) (o R : list Z) (out : slot) (nx : option Z) s s' : Prop := {
  di_gone : xo_heap s' !! a = None /\ xo_bufs s' = delete a (xo_bufs s);
  di_heap : forall i, i ∉ a :: o -> xo_heap s' !! i = xo_heap s !! i;
  di_desc : forall i, i <> a -> htt_rx_msdu_desc_retrieve (xo_heap s') i = htt_rx_msdu_desc_retrieve (xo_heap s) i;
  di_slot : slot_rep (xo_heap s') out o;
  di_end : nx = None -> seg (xo_heap s') o None;
  di_log : xo_log s' = xo_log s ++ [rx_free a];
  di_inv : skb_inv R (xo_sys s');
  di_moved : moved (xo_sys s) (xo_sys s');
  di_delivering : forall v p x y key, delivering v p x y key s -> delivering v p x y key s' }.

Lemma discard_spec s a o R out nx :
  is_Some (xo_heap s !! a) -> slot_rep (xo_heap s) out o -> NoDup o -> a ∉ o -> skb_inv (a :: R) (xo_sys s) ->
  wp (adf_nbuf_free a;; match nx, sl_head out with None, Some _ => t ← lift (sl_tail out); set_next_of t None | _, _ => skip end)
    (fun _ s' => discarded a o R out nx s s') s.
Proof.
  intros Hal Hout Hndo Hao Hi. apply wp_bind. eapply wp_mono; [by apply (adf_nbuf_free_spec s a R)|].
  intros [] s2 (Hu2 & E1 & E2 & E3 & HI). pose proof Hu2 as [U1 U2 U3 U4 U5].
  destruct (terminate_spec s2 out o nx) as (h' & Hrun & Hrep & Hrel & Hnone); [|done|].
  { eapply slot_rep_frame; [|exact Hout]. intros i Hi'. rewrite E1, lookup_delete_ne by (by intros ->). done. }
  eapply wp_run; [exact Hrun|]. constructor; try done.
  - cbn. destruct (Hrel a) as [_ ->]; [|done]. by rewrite E1, lookup_delete_eq.
  - intros i Hi'. cbn. destruct (Hrel i) as [_ ->]; [|set_solver]. rewrite E1, lookup_delete_ne by set_solver. done.
  - intros i Hi'. cbn. destruct (Hrel i) as [-> _]. unfold htt_rx_msdu_desc_retrieve. rewrite E1, lookup_delete_ne by done. done.
  - intros v p x y key Hd. exact (delivering_untouched v p x y key a s s2 Hd Hu2).
Qed.

(** What holds between two rounds of the loop: [o] is collected, [ks] is to come. *)
Record deliver_inv (v p : Z) (x : rx_vdev) (y : peer) (key : bool) (B : list Z) (ks : list (Z * rx_buf * rx_desc)) (o : list (Z * list Z)) (out : slot) s : Prop := {
  dl_nodup : NoDup (o.*1 ++ ks.*1.*1);
  dl_seg : seg (xo_heap s) (ks.*1.*1) None;
  dl_slot : slot_rep (xo_heap s) out (o.*1);
  dl_end : ks = [] -> seg (xo_heap s) (o.*1) None;
  dl_held : held_desc s ks;
  dl_holds : holds s o;
  dl_rules : delivering v p x y key s;
  dl_inv : skb_inv (o.*1 ++ ks.*1.*1 ++ B) (xo_sys s) }.

Lemma deliver_inv_drop v p tid x y key B a k d ks o out s s2 :
  deliver_inv v p x y key B ((a, k, d) :: ks) o out s ->
  discarded a (o.*1) (o.*1 ++ ks.*1.*1 ++ B) out (hd_or None (ks.*1.*1)) (looked_at v p tid a k s) s2 -> deliver_inv v p x y key B ks o out s2.
Proof.
  intros [I1 I2 I3 I4 I5 I6 I7 I8] [[D1a D1b] D2 D3 D4 D5 D6 D7 D8 D9]. cbn [fmap list_fmap fst] in *.
  pose proof (deliver_ids_nodup _ _ _ I1) as (Hndo & Ha & Hnd1 & _ & Hdis). destruct I2 as [_ I2].
  assert (Eb : forall i, i <> a -> xo_bufs s2 !! i = xo_bufs s !! i).
  { intros i Hia. rewrite D1b, lookup_delete_ne by done. cbn. by rewrite lookup_insert_ne. }
  constructor; try done.
  - eapply seg_frame; [|exact I2]. intros i Hi. apply (D2 i). set_solver.
  - intros ->. by apply D5.
  - eapply (held_desc_other s _ _ a); [|set_solver|done|].
    + intros i j e Hij. apply I5. by right.
    + intros i Hi. apply D3. set_solver.
  - eapply (holds_other _ _ _ a); [exact I6|set_solver|done].
  - apply D9. eapply delivering_untouched; [exact I7|]. instantiate (1 := a). split; try done. intros i Hia. cbn. by rewrite lookup_insert_ne.
Qed.

Lemma deliver_inv_keep v p tid x y key B a k d ks o out out1 h1 s :
  deliver_inv v p x y key B ((a, k, d) :: ks) o out s -> slot_rep h1 out1 (o.*1 ++ [a]) -> relinked (xo_heap s) h1 (o.*1) ->
  (hd_or None (ks.*1.*1) = None -> seg h1 (o.*1 ++ [a]) None) ->
  deliver_inv v p x y key B ks (o ++ [(a, payload k)]) out1 (set_xo_heap (fun _ => h1) (looked_at v p tid a k s)).
Proof.
  intros [I1 I2 I3 I4 I5 I6 I7 I8] Hrep Hrel Hend. cbn [fmap list_fmap fst] in *.
  pose proof (deliver_ids_nodup _ _ _ I1) as (Hndo & Ha & Hnd1 & _ & Hdis). destruct I2 as [_ I2].
  assert (Efm : (o ++ [(a, payload k)]).*1 = o.*1 ++ [a]) by by rewrite fmap_app.
  constructor; rewrite ?Efm, <- ?app_assoc; try done.
  - cbn. eapply seg_relinked; [exact Hrel|set_solver|exact I2].
  - intros ->. by apply Hend.
  - eapply (held_desc_other s _ _ a); [|set_solver|intros i Hia; cbn; by rewrite lookup_insert_ne|].
    + intros i j e Hij. apply I5. by right.
    + intros i _. cbn. by destruct (Hrel i) as [-> _].
  - intros i b [Hi'|[= -> ->]%list_elem_of_singleton]%elem_of_app; cbn.
    + rewrite lookup_insert_ne; [by apply I6|]. intros <-. apply (list_elem_of_fmap_2 fst) in Hi'. set_solver.
    + rewrite lookup_insert_eq. by exists (pulled k).
Qed.

Lemma wp_same {A} (m m' : M (rx_out D) A) Q s s1 : m s = m' s1 -> wp m' Q s1 -> wp m Q s.
Proof. unfold wp. by intros ->. Qed.

(** The loop delivers what the reference says. *)
Lemma deliver_loop_spec v p tid x y key B ks : forall n filt o s out,
  deliver_inv v p x y key B ks o out s -> (length ks <= n)%nat ->
  wp (deliver_loop cfg n v p tid (hd_or None (ks.*1.*1)) filt out) (fun out' s' =>
    let r := delivered (rejects x (pe_sec_type y) key) v p tid filt ks in
    xo_log s' = xo_log s ++ r.1 /\ deliver_after s (ks.*1.*1) o r.2 B out' s') s.
Proof.
  induction ks as [|[[a k] d] ks IH]; intros n filt o s out HI Hn; pose proof HI as [I1 I2 I3 I4 I5 I6 I7 I8]; cbn [fmap list_fmap fst hd_or] in *.
  { destruct n; (apply wp_ret; cbn; split; [by rewrite app_nil_r|]; constructor; rewrite ?app_nil_r; try done; by apply I4). }
  destruct n as [|n]; [cbn in Hn; lia|]. pose proof (deliver_ids_nodup _ _ _ I1) as (Hndo & Ha & Hnd1 & Hnda & Hdis).
  destruct I2 as [Hnext I2], (I5 a k d ltac:(by left)) as (Hb & Hk & Hd), I7 as (Hx & Hy & Hkey).
  eapply wp_same; [exact (deliver_head n v p tid a filt out s k d x y _ Hnext Hd Hb Hk Hx Hy)|]. rewrite Hkey. set (s1 := looked_at v p tid a k s).
  cbn [delivered]. fold (verdict x y key filt k d). set (filt1 := verdict x y key filt k d).
  assert (Hal : is_Some (xo_heap s1 !! a)) by (unfold adf_nbuf_next in Hnext; cbn; destruct (xo_heap s !! a); [eauto|done]).
  assert (Ebs : forall i, i <> a -> xo_bufs s1 !! i = xo_bufs s !! i) by (intros i Hia; cbn; by rewrite lookup_insert_ne).
  destruct (htt_rx_msdu_discard k || filt1).
  - apply wp_assoc, wp_bind. eapply wp_mono; [apply (discard_spec s1 a (o.*1) (o.*1 ++ ks.*1.*1 ++ B)); try done|].
    { set_solver. }
    { eapply skb_inv_perm; [exact I8|]. symmetry. apply Permutation_middle. }
    intros [] s2 HD. eapply wp_mono; [apply (IH n filt1 o s2 out); [by eapply deliver_inv_drop|cbn in Hn; lia]|].
    pose proof HD as [[D1a D1b] D2 D3 D4 D5 D6 D7 D8 D9]. intros out' s' [El Haf]. cbn [fst snd]. split.
    { rewrite El, D6. cbn. by rewrite <- !app_assoc. }
    eapply (deliver_after_drop s s2); [done| |done| | |done|exact Haf].
    + by rewrite D1b, lookup_delete_eq.
    + intros i Hin. eapply elem_of_sublist; [exact Hin|apply delivered_sublist].
    + intros i Hi. split; [|by apply (D2 i)]. rewrite D1b, lookup_delete_ne by set_solver. apply Ebs. set_solver.
  - destruct (list_append_spec s1 out (o.*1) a (hd_or None (ks.*1.*1))) as (out1 & h1 & Hrun & Hrep & Hrel & Hsa & Hend); [done|by split|done|].
    eapply wp_step; [exact Hrun|].
    eapply wp_mono; [apply (IH n filt1 (o ++ [(a, payload k)])); [by eapply deliver_inv_keep|cbn in Hn; lia]|].
    intros out' s' [El Haf]. cbn [fst snd]. split; [rewrite El; cbn; by rewrite <- app_assoc|].
    by eapply (deliver_after_keep s s1 h1).
Qed.

(** ** The hand-over *)

(** The buffers [l] have left; all others are as they were. *)
Record left_with (l B : list Z) s s' : Prop := {
  lw_gone : forall a, a ∈ l -> xo_heap s' !! a = None /\ xo_bufs s' !! a = None;
  lw_other : forall i, i ∉ l -> xo_bufs s' !! i = xo_bufs s !! i /\ xo_heap s' !! i = xo_heap s !! i;
  lw_inv : skb_inv B (xo_sys s');
  lw_moved : moved (xo_sys s) (xo_sys s') }.

Lemma hand_to_os_spec B fr : forall s,
  NoDup (fr.*1) -> holds s fr -> (forall a, a ∈ fr.*1 -> is_Some (xo_heap s !! a)) -> skb_inv (fr.*1 ++ B) (xo_sys s) ->
  wp (hand_to_os (fr.*1)) (fun r s' => r = fr /\ xo_log s' = xo_log s /\ left_with (fr.*1) B s s') s.
Proof.
  induction fr as [|[a b] fr IH]; intros s Hnd Hh Hal Hi; cbn [fmap list_fmap fst hand_to_os] in *.
  { apply wp_ret. split_and!; [done..|]. by constructor; [intros ? ?%not_elem_of_nil|..]. }
  apply list.NoDup_cons in Hnd as [Ha Hnd]. destruct (Hh a b ltac:(by left)) as (k & Hb & Ek).
  eapply wp_step; [by apply get_buf_run|]. eapply wp_step; [apply release_buf_run, Hal; by left|]. set (s1 := set_xo_bufs _ _).
  apply wp_bind, on_sys_wp. eapply wp_mono; [by apply (skb_gone_ok a (fr.*1 ++ B))|]. intros [] t [Hm HI]. set (s2 := set_xo_sys _ _).
  apply wp_bind. eapply wp_mono; [apply (IH s2)|].
  - done.
  - intros i c Hi'. cbn. rewrite lookup_delete_ne; [apply Hh; by right|]. intros <-. apply Ha. by apply (list_elem_of_fmap_2 fst _ (a, c)).
  - intros i Hi'. cbn. rewrite lookup_delete_ne; [apply Hal; by right|]. by intros <-.
  - done.
  - intros r s' (-> & El & [L1 L2 L3 L4]). apply wp_ret. rewrite Ek. split_and!; [done..|]. constructor; try done.
    + intros i [->|Hi']%elem_of_cons; [|by apply L1]. destruct (L2 a Ha) as [-> ->]. cbn. by rewrite !lookup_delete_eq.
    + intros i [Hia Hi']%not_elem_of_cons. destruct (L2 i Hi') as [-> ->]. cbn. by rewrite !lookup_delete_ne.
    + by transitivity t.
Qed.

Lemma osif_rx_spec s v p B fr :
  NoDup (fr.*1) -> holds s fr -> seg (xo_heap s) (fr.*1) None -> skb_inv (fr.*1 ++ B) (xo_sys s) ->
  wp (osif_rx v p (hd_or None (fr.*1))) (fun _ s' => xo_log s' = xo_log s ++ [rx_to_os v p fr] /\ left_with (fr.*1) B s s') s.
Proof.
  intros Hnd Hh Hs Hi. unfold osif_rx. eapply wp_step; [reflexivity|].
  assert (Hl : (length (fr.*1) <= heap_fuel (xo_heap s))%nat) by (pose proof (seg_length _ _ _ Hnd Hs); unfold heap_fuel; lia).
  eapply wp_step; [unfold lift; by rewrite (walk_seg _ _ _ Hs Hl)|]. apply wp_bind.
  eapply wp_mono; [apply (hand_to_os_spec B fr s Hnd Hh); [intros a Ha; by eapply seg_alloc|done]|].
  intros r s1 (-> & El & [L1 L2 L3 L4]). eapply wp_run; [reflexivity|]. cbn. rewrite El. done.
Qed.

(** The list for the operating system, if there is one. *)
Definition os_events (v p : Z) (fr : list (Z * list Z)) : list rx_event := match fr with [] => [] | _ => [rx_to_os v p fr] end.

(** What delivery of a list comes to. *)
Definition delivery_events (v p tid : Z) (x : rx_vdev) (y : peer) (key : bool) (ks : list (Z * rx_buf * rx_desc)) : list rx_event :=
  let r := delivered (rejects x (pe_sec_type y) key) v p tid false ks in r.1 ++ os_events v p r.2.

Lemma ol_rx_deliver_spec v p tid x y key B ks s :
  NoDup (ks.*1.*1) -> seg (xo_heap s) (ks.*1.*1) None -> held_desc s ks -> delivering v p x y key s -> skb_inv (ks.*1.*1 ++ B) (xo_sys s) ->
  wp (ol_rx_deliver cfg v p tid (hd_or None (ks.*1.*1)))
    (fun _ s' => xo_log s' = xo_log s ++ delivery_events v p tid x y key ks /\ left_with (ks.*1.*1) B s s') s.
Proof.
  intros Hnd Hs Hh Hd Hi. unfold ol_rx_deliver, delivery_events. eapply wp_step; [reflexivity|].
  pose proof (delivered_sublist (rejects x (pe_sec_type y) key) v p tid ks false) as Hsub.
  apply wp_bind. eapply wp_mono; [apply (deliver_loop_spec v p tid x y key B ks _ false [] s empty_slot)|].
  - constructor; try done; [apply slot_rep_empty|by intros ? ? ?%not_elem_of_nil].
  - pose proof (seg_length _ _ _ Hnd Hs). rewrite !length_fmap in *. unfold heap_fuel. lia.
  - intros out s1 [El Haf]. destruct (delivered _ _ _ _ _ _) as [evs fr]. cbn [fst snd] in *. destruct Haf as [A1 A2 A3 A4 A5 A6 A7]. cbn [app] in *.
    pose proof (sublist_NoDup _ _ Hnd Hsub) as Hndf. destruct fr as [|[a b] fr].
    + rewrite (slot_rep_nil _ _ A1). cbn [sl_head empty_slot]. apply wp_ret. split; [by rewrite El, app_nil_r|]. constructor; try done.
      intros i Hi'. apply A5; [done|]. apply not_elem_of_nil.
    + pose proof A1 as [-> _]. cbn [list.head fmap list_fmap fst]. change (Some a) with (hd_or None (((a, b) :: fr).*1)).
      eapply wp_mono; [by apply (osif_rx_spec s1 v p B)|]. intros [] s2 (El2 & [L1 L2 L3 L4]).
      split; [by rewrite El2, El, <- app_assoc|]. constructor; try done.
      * intros i Hi'. destruct (decide (i ∈ ((a, b) :: fr).*1)) as [Hin|Hin]; [by apply L1|]. destruct (L2 i Hin) as [-> ->]. by apply A5.
      * intros i Hi'. destruct (L2 i) as [-> ->]; [intros Hin; apply Hi'; by eapply elem_of_sublist|]. by apply A6.
      * by transitivity (xo_sys s1).
Qed.

(** ** Forwarding and delivery *)

(** The frames that go on to the operating system. *)
Definition stays (y : vdev) (k : rx_buf) : bool := match class_of y k with fwd_stack | fwd_both => true | fwd_drop | fwd_only => false end.

Lemma fwd_outcomes_stays ids s y tid v (ks : list (Z * rx_buf * rx_desc)) : forall l evs kept,
  fwd_outcomes ids s y tid v (ks.*1) l evs kept -> kept = (filter (fun e => stays y e.1.2 = true) ks).*1.*1.
Proof.
  induction ks as [|[[a k] d] ks IH]; intros l evs kept; cbn [fmap list_fmap fst fwd_outcomes]; [by intros [_ ->]|].
  intros (st & e & keep & evs' & kept' & _ & Ho & Hr & _ & ->). rewrite (IH _ _ _ Hr), filter_cons. cbn [fst snd].
  assert (Es : keep = stays y k) by (unfold fwd_outcome in Ho; unfold stays; destruct (class_of y k); by destruct Ho as [-> _]).
  rewrite Es. case_decide; destruct (stays y k); by cbn.
Qed.

(** Delivery does not look at the TID in the control block. *)
Definition same_frame (e e' : Z * rx_buf * rx_desc) : Prop := e'.1.1 = e.1.1 /\ retagged e.1.2 e'.1.2 /\ e'.2 = e.2.

Lemma rejects_retagged x sec key k k' d : retagged k k' -> rejects x sec key k' d = rejects x sec key k d.
Proof. intros [t ->]. by destruct k. Qed.
Lemma notes_retagged v p tid a k k' : retagged k k' -> notes v p tid a k' = notes v p tid a k.
Proof. intros [t ->]. by destruct k. Qed.
Lemma buf_ok_retagged k k' : retagged k k' -> buf_ok k -> buf_ok k'.
Proof. intros [t ->] []. by constructor. Qed.

Lemma delivered_same x sec key v p tid ks ks' : Forall2 same_frame ks ks' -> forall filt,
  delivered (rejects x sec key) v p tid filt ks' = delivered (rejects x sec key) v p tid filt ks.
Proof.
  induction 1 as [|[[a k] d] [[a' k'] d'] ks ks' (E1 & E2 & E3) Hr IH]; intros filt; [done|]. cbn in E1, E2, E3. subst a' d'. cbn [delivered].
  rewrite (rejects_retagged _ _ _ _ _ _ E2), (notes_retagged _ _ _ _ _ _ E2), IH. by destruct E2 as [t ->].
Qed.

Lemma same_frame_ids ks ks' : Forall2 same_frame ks ks' -> ks'.*1.*1 = ks.*1.*1.
Proof. induction 1 as [|e e' ks ks' (E1 & _) Hr IH]; [done|]. cbn. by rewrite E1, IH. Qed.

Lemma retag_list s s' (ks : list (Z * rx_buf * rx_desc)) :
  held_desc s ks -> (forall a k d, (a, k, d) ∈ ks -> exists k', xo_bufs s' !! a = Some k' /\ retagged k k') ->
  (forall a, a ∈ ks.*1.*1 -> htt_rx_msdu_desc_retrieve (xo_heap s') a = htt_rx_msdu_desc_retrieve (xo_heap s) a) ->
  exists ks', Forall2 same_frame ks ks' /\ held_desc s' ks'.
Proof.
  induction ks as [|[[a k] d] ks IH]; intros Hh Hr Hd.
  { exists []. split; [done|]. by intros ? ? ? ?%not_elem_of_nil. }
  destruct (Hr a k d ltac:(by left)) as (k' & Hk' & Ht). destruct (Hh a k d ltac:(by left)) as (_ & Hok & Hda).
  destruct IH as (ks' & HF & Hk); [intros ? ? ? ?; apply Hh; by right|intros ? ? ? ?; eapply Hr; by right|intros ? ?; apply Hd; by right|].
  exists ((a, k', d) :: ks'). split; [by constructor|]. intros b j e [[= -> -> ->]|Hin]%elem_of_cons; [|by apply Hk].
  split; [done|]. split; [by eapply buf_ok_retagged|]. rewrite Hd by (by left). done.
Qed.

Lemma ids_sublist {A} (f : A -> Prop) `{forall x, Decision (f x)} {B C} (g : A -> B) (h : B -> C) (l : list A) :
  h <$> (g <$> filter f l) `sublist_of` h <$> (g <$> l).
Proof.
  induction l as [|a l IH]; [done|]. rewrite filter_cons. case_decide; cbn; [by apply sublist_skip|by apply sublist_cons].
Qed.

(** What becomes of a list: the frames that leave for the transmit path, then those
    for the operating system. *)
Definition check_events (s : rx_out D) (v p tid : Z) (x : rx_vdev) (y : vdev) (z : peer) (key : bool) (ks : list (Z * rx_buf * rx_desc)) (evs : list rx_event) : Prop :=
  exists fwd, fwd_outcomes (ks.*1.*1) s y tid v (ks.*1) [] fwd (filter (fun e => stays y e.1.2 = true) ks).*1.*1 /\
    evs = fwd ++ delivery_events v p tid x z key (filter (fun e => stays y e.1.2 = true) ks).

(** The frames that stay are delivered. *)
Lemma deliver_kept_spec v p tid x y z key B ks out s s1 :
  NoDup (ks.*1.*1) -> held_desc s ks -> delivering v p x z key s ->
  fwd_after s (ks.*1) [] B out ((filter (fun e => stays y e.1.2 = true) ks).*1.*1) s1 ->
  wp (match sl_head out with None => skip | Some hd => t ← lift (sl_tail out); set_next_of t None;; ol_rx_deliver cfg v p tid (Some hd) end)
    (fun _ s' => xo_log s' = xo_log s1 ++ delivery_events v p tid x z key (filter (fun e => stays y e.1.2 = true) ks) /\ left_with (ks.*1.*1) B s s') s1.
Proof.
  intros Hnd Hh Hd [A1 A2 A3 A4 A5 A6 A7 A8 A9 A10]. set (sub := filter _ ks) in *. cbn [app] in *.
  assert (Hsub : sub.*1.*1 `sublist_of` ks.*1.*1) by apply ids_sublist. pose proof (sublist_NoDup _ _ Hnd Hsub) as Hnds.
  assert (Hin : forall e, e ∈ sub -> e ∈ ks) by (intros e He; by apply list_elem_of_filter in He as [_ ?]).
  assert (Hd1 : delivering v p x z key s1) by (destruct Hd as (D1 & D2 & D3), A10 as [w A10]; split_and!; [by rewrite A8|by rewrite A10|by rewrite A9]).
  destruct (retag_list s s1 sub) as (sub' & HF & Hh1); [intros ? ? ? ?; by apply Hh, Hin| |intros; by apply A3|].
  { intros a k d He. apply A4; [by apply (list_elem_of_fmap_2 fst _ (a, k, d)), Hin|]. by apply (list_elem_of_fmap_2 fst _ (a, k)), (list_elem_of_fmap_2 fst _ (a, k, d)). }
  pose proof (same_frame_ids _ _ HF) as Eids. destruct (decide (sub.*1.*1 = [])) as [En|En].
  - assert (Es : sub = []) by (by destruct sub). rewrite En in A1. rewrite (slot_rep_nil _ _ A1), Es. apply wp_ret. split; [by rewrite app_nil_r|].
    rewrite En in *. constructor; try done; [intros a Ha; apply A5; [done|by apply not_elem_of_nil]|intros i Hi'; by rewrite A6, A7].
  - destruct (slot_terminate _ _ _ A1 En Hnds) as (t & h' & Ht & Hset & Hseg & Hrel). pose proof A1 as [Hhd _].
    assert (Ehd : exists hd, sl_head out = Some hd /\ Some hd = hd_or None (sub'.*1.*1)) by (rewrite Hhd, Eids; destruct (sub.*1.*1); [done|by eexists]).
    destruct Ehd as (hd & -> & ->). rewrite Ht. eapply wp_step; [reflexivity|]. eapply wp_step; [by apply set_next_of_run|].
    eapply wp_mono; [apply (ol_rx_deliver_spec v p tid x z key B sub' (set_xo_heap (fun _ => h') s1)); rewrite ?Eids; try done|].
    + intros a k d He. destruct (Hh1 a k d He) as (? & ? & Hda). split; [done|]. split; [done|]. cbn. by destruct (Hrel a) as [-> _].
    + intros [] s2 (El2 & [L1 L2 L3 L4]). rewrite Eids in L1, L2. split.
      { rewrite El2. unfold delivery_events. by rewrite (delivered_same _ _ _ _ _ _ _ _ HF). }
      constructor; try done.
      * intros a Ha. destruct (decide (a ∈ sub.*1.*1)) as [He|He]; [by apply L1|]. destruct (L2 a He) as [-> ->]. cbn. destruct (Hrel a) as [_ ->]; [by apply A5|done].
      * intros i Hi'. assert (He : i ∉ sub.*1.*1) by (intros ?; apply Hi'; by eapply elem_of_sublist). destruct (L2 i He) as [-> ->]. cbn.
        destruct (Hrel i) as [_ ->]; [by rewrite A6, A7|done].
      * by transitivity (xo_sys s1).
Qed.

Lemma ol_rx_fwd_check_spec v p tid x y z key B ks s :
  NoDup (ks.*1.*1) -> seg (xo_heap s) (ks.*1.*1) None -> held_desc s ks -> delivering v p x z key s -> pp_vdevs (xo_sys s) !! v = Some y ->
  skb_ready v (xo_sys s) -> skb_inv (ks.*1.*1 ++ B) (xo_sys s) ->
  wp (ol_rx_fwd_check cfg v p tid (hd_or None (ks.*1.*1)))
    (fun _ s' => exists evs, check_events s v p tid x y z key ks evs /\ xo_log s' = xo_log s ++ evs /\ left_with (ks.*1.*1) B s s') s.
Proof.
  intros Hnd Hs Hh Hd Hy Hr Hi. unfold ol_rx_fwd_check. eapply wp_step; [reflexivity|].
  apply wp_bind. eapply wp_mono; [apply (fwd_loop_spec v tid y B (ks.*1.*1) s (ks.*1) _ [] [] s empty_slot)|]; try done.
  - constructor; [done..|by rewrite app_nil_r|reflexivity].
  - apply slot_rep_empty.
  - pose proof (seg_length _ _ _ Hnd Hs). rewrite !length_fmap in *. unfold heap_fuel. lia.
  - intros a k He. apply list_elem_of_fmap in He as ([[a' k'] d] & [= <- <-] & He). by destruct (Hh _ _ d He) as (? & ? & _).
  - destruct Hd as (Hx & _). destruct (xo_vdevs s !! v); [eauto|done].
  - intros out s1 (fwd & kept & Ho & El & Ha). pose proof (fwd_outcomes_stays _ _ _ _ _ _ _ _ _ Ho) as Ek. subst kept.
    eapply wp_mono; [exact (deliver_kept_spec v p tid x y z key B ks out s s1 Hnd Hh Hd Ha)|]. intros [] s2 [El2 Hl].
    eexists. split; [by exists fwd|]. split; [by rewrite El2, El, <- app_assoc|done].
Qed.
(** What leaves for the transmit path was to be forwarded. *)
Lemma fwd_outcomes_sent ids s y tid v ks : forall l evs kept, fwd_outcomes ids s y tid v ks l evs kept ->
  forall v' a' k', rx_to_tx v' a' k' ∈ evs -> v' = v /\ vd_disable_intrabss_fwd y = false /\
    exists a k, (a, k) ∈ ks /\ k' = fwd_buf cfg y tid k /\ htt_rx_msdu_forward k = true /\ (vd_opmode y = wlan_op_mode_ap -> eapol_buf k = false).
Proof.
  assert (Hone : forall v a c k ok, forall v' a' k', rx_to_tx v' a' k' ∈ tx_events cfg y tid v c k ok ->
    class_of y k = fwd_only \/ class_of y k = fwd_both -> v' = v /\ vd_disable_intrabss_fwd y = false /\
    exists (a0 : Z) k0, (a0, k0) ∈ [(a, k)] /\ k' = fwd_buf cfg y tid k0 /\ htt_rx_msdu_forward k0 = true /\ (vd_opmode y = wlan_op_mode_ap -> eapol_buf k0 = false)).
  { intros v0 a c k ok v' a' k' Hin Hc. unfold class_of in Hc. destruct (vd_disable_intrabss_fwd y), (htt_rx_msdu_forward k) eqn:Ef; cbn in Hc; try by destruct Hc.
    assert (v' = v0 /\ k' = fwd_buf cfg y tid k) as [-> ->] by (apply elem_of_cons in Hin as [[= -> -> ->]|Hin]; [done|destruct ok; [by apply not_elem_of_nil in Hin|apply list_elem_of_singleton in Hin; done]]).
    split; [done|]. split; [done|]. exists a, k. split; [by left|]. split; [done|]. split; [done|]. intros E. rewrite bool_decide_eq_true_2 in Hc by done. destruct (eapol_buf k); [by destruct Hc|done]. }
  induction ks as [|[a k] ks IH]; intros l evs kept; cbn [fwd_outcomes]; [intros [-> _] ? ? ? []%not_elem_of_nil|].
  intros (st & e & keep & evs' & kept' & _ & Ho & Hr & -> & _) v' a' k' [Hin|Hin]%elem_of_app.
  - assert (Hx : v' = v /\ vd_disable_intrabss_fwd y = false /\ exists a0 k0, (a0, k0) ∈ [(a, k)] /\ k' = fwd_buf cfg y tid k0 /\ htt_rx_msdu_forward k0 = true /\ (vd_opmode y = wlan_op_mode_ap -> eapol_buf k0 = false)).
    { unfold fwd_outcome in Ho. destruct (class_of y k) eqn:Ec.
      - destruct Ho as [_ ->]. by apply not_elem_of_nil in Hin.
      - destruct Ho as [_ ->]. apply list_elem_of_singleton in Hin. done.
      - destruct Ho as (_ & ok & ->). eapply Hone; [exact Hin|by left].
      - destruct Ho as [_ Ho]. destruct (nbuf_copy st a); [destruct Ho as [ok ->]|subst e; by apply not_elem_of_nil in Hin].
        eapply Hone; [exact Hin|by right]. }
    destruct Hx as (E1 & E2 & a0 & k0 & [= -> ->]%list_elem_of_singleton & Hx). split; [done|]. split; [done|]. exists a, k. split; [by left|done].
  - destruct (IH _ _ _ Hr v' a' k' Hin) as (E1 & E2 & a0 & k0 & Hk & Hx). split; [done|]. split; [done|]. exists a0, k0. split; [by right|done].
Qed.
End Steps.

(** ** Frames and MPDUs *)
Section Facts.
Context (cfg : tx_cfg).

(** The test for EAPOL reads the type of the payload, when it is Ethernet. *)
Lemma eapol_payload k : buf_ok k -> eapol_buf k = bool_decide (rd16 (frame_of (pulled k)) (ETHERNET_ADDR_LEN * 2) = Some ETHERTYPE_PAE).
Proof.
  intros Hk. pose proof (eapol_buf_ok k Hk) as E. destruct Hk as [H1 H2 H3 H4 H5]. unfold adf_nbuf_data_is_eapol_pkt in E.
  destruct (rd (sk_mem (rb_skb k)) _ 2) as [l|] eqn:Er; [|done]. cbn [mbind option_bind] in E.
  unfold rd, ADF_NBUF_TRAC_ETH_TYPE_OFFSET in Er. destruct (_ && _); [|done]. injection Er as <-.
  set (i := sk_data (rb_skb k) + rb_desc_len k) in *.
  assert (Hrd : forall j, 0 <= j < 2 -> rd8 (frame_of (pulled k)) (12 + j) = rd8 (mk_frame (take (Z.to_nat 2) (drop (Z.to_nat (i + 12)) (sk_mem (rb_skb k)))) 0 false) j).
  { intros j Hj. unfold rd8, znth, frame_of, pulled, adf_nbuf_pull_head, skb_bytes. cbn -[Z.to_nat].
    rewrite !(proj2 (Z.ltb_ge _ _)) by lia. cbn -[Z.to_nat]. rewrite (Z2Nat.inj_add (sk_data (rb_skb k)) _) by lia. rewrite (lookup_take_lt (drop _ _)) by lia. rewrite (lookup_take_lt (drop _ _)) by lia. rewrite !lookup_drop. f_equal. unfold i. lia. }
  replace (rd16 (frame_of (pulled k)) (ETHERNET_ADDR_LEN * 2)) with (rd16 (mk_frame (take (Z.to_nat 2) (drop (Z.to_nat (i + 12)) (sk_mem (rb_skb k)))) 0 false) 0).
  - destruct (rd16 _ 0) as [t|]; [|done]. cbn [mbind option_bind] in E. apply (inj Some) in E. rewrite <- E. unfold ADF_NBUF_TRAC_EAPOL_ETH_TYPE, ETHERTYPE_PAE.
    destruct (Z.eqb_spec 0x888E t) as [<-|Hn]; [by rewrite bool_decide_eq_true_2|]. rewrite bool_decide_eq_false_2; [done|congruence].
  - unfold rd16. change (0 + 1) with 1. by rewrite <- (Hrd 0 ltac:(lia)), <- (Hrd 1 ltac:(lia)).
Qed.

(** An MPDU: its first MSDU, then the others. *)
Definition is_mpdu (m : list (Z * rx_buf * rx_desc)) : Prop :=
  match m with [] => False | e :: rest => rd_first_msdu e.2 = true /\ Forall (fun e => rd_first_msdu e.2 = false) rest end.

(** The frames of an MPDU for the operating system. *)
Definition mpdu_frames (rej : rx_buf -> rx_desc -> bool) (m : list (Z * rx_buf * rx_desc)) : list (Z * list Z) :=
  match m with
  | [] => []
  | e :: _ => if rej e.1.2 e.2 then [] else (fun e => (e.1.1, payload e.1.2)) <$> filter (fun e => htt_rx_msdu_discard e.1.2 = false) m
  end.

Lemma delivered_rest rej v p tid filt rest ks : Forall (fun e => rd_first_msdu e.2 = false) rest ->
  (delivered cfg rej v p tid filt (rest ++ ks)).2 =
  (if filt then [] else (fun e => (e.1.1, payload e.1.2)) <$> filter (fun e => htt_rx_msdu_discard e.1.2 = false) rest) ++ (delivered cfg rej v p tid filt ks).2.
Proof.
  induction 1 as [|[[a k] d] rest Hd Hr IH]; cbn [app delivered]; [by destruct filt|]. cbn in Hd. rewrite Hd, filter_cons. cbn [fst snd].
  destruct filt; [rewrite orb_true_r; exact IH|]. rewrite orb_false_r. destruct (htt_rx_msdu_discard k); cbn [snd]; rewrite IH; by case_decide.
Qed.

Lemma delivered_mpdus rej v p tid ms : forall filt, Forall is_mpdu ms -> (delivered cfg rej v p tid filt (concat ms)).2 = concat (mpdu_frames rej <$> ms).
Proof.
  induction ms as [|[|[[a k] d] rest] ms IH]; intros filt; [done|by intros [? _]%list.Forall_cons|]. intros [[Hd Hrest] Hms]%list.Forall_cons. cbn [fst snd] in *.
  cbn [concat app delivered fmap list_fmap mpdu_frames fst snd]. rewrite Hd, filter_cons. cbn [fst snd].
  pose proof (delivered_rest rej v p tid (rej k d) rest (concat ms) Hrest) as E. rewrite (IH _ Hms) in E.
  destruct (rej k d); [rewrite orb_true_r; cbn [snd]; by rewrite E|]. rewrite orb_false_r.
  destruct (htt_rx_msdu_discard k); cbn [snd]; rewrite E; by case_decide.
Qed.

(** A rule that exempts a frame of this type. *)
Definition exempted (x : rx_vdev) (k : rx_buf) (d : rx_desc) : Prop := exists e, e ∈ rv_privacy_filters x /\
  rd16 (frame_of (pulled k)) (ether_type_offset cfg) = Some (pf_ether_type e) /\
  (pf_packet_type e = PRIVACY_FILTER_PACKET_BOTH \/ pf_packet_type e = if rd_mcast d then PRIVACY_FILTER_PACKET_MULTICAST else PRIVACY_FILTER_PACKET_UNICAST).

Lemma privacy_exempt_some l t pt enc keyed r : privacy_exempt l t pt enc keyed = Some r ->
  exists e, e ∈ l /\ pf_ether_type e = t /\ (pf_packet_type e = PRIVACY_FILTER_PACKET_BOTH \/ pf_packet_type e = pt).
Proof.
  induction l as [|e l IH]; cbn [privacy_exempt]; [done|]. destruct (Z.eqb_spec (pf_ether_type e) t) as [E|]; cbn [negb].
  - destruct (bool_decide (pf_packet_type e = pt)) eqn:E1; cbn [negb andb].
    { intros _. exists e. split; [by left|]. split; [done|right]. by apply bool_decide_eq_true_1 in E1. }
    destruct (bool_decide (pf_packet_type e = PRIVACY_FILTER_PACKET_BOTH)) eqn:E2; cbn [negb].
    { intros _. exists e. split; [by left|]. split; [done|left]. by apply bool_decide_eq_true_1 in E2. }
    intros (e' & Hin & He)%IH. exists e'. split; [by right|done].
  - intros (e' & Hin & He)%IH. exists e'. split; [by right|done].
Qed.

Lemma rejects_accepts x sec key k d :
  rejects cfg x sec key k d = false -> rv_safemode x = false -> rv_drop_unenc x = true ->
  rd_encrypted d = true \/ exempted x k d \/ (if rd_mcast d then sec.1 else sec.2) = htt_sec_type_none.
Proof.
  unfold rejects, rx_filter. intros Hr Hs Hdu. rewrite Hs, Hdu in Hr. destruct (rd_encrypted d); [by left|]. right.
  destruct (decide ((if rd_mcast d then sec.1 else sec.2) = htt_sec_type_none)) as [?|Hsec]; [by right|]. left.
  destruct (0 <? zlen (rv_privacy_filters x)) eqn:Hl.
  - destruct (rd16 _ _) as [t|] eqn:Et; [|done]. cbn [mbind option_bind] in Hr. rewrite andb_false_r in Hr.
    destruct (privacy_exempt _ _ _ _ _) as [r|] eqn:Ep.
    + apply privacy_exempt_some in Ep as (e & Hin & <- & Hp). exists e. split; [done|]. split; [done|]. by destruct (rd_mcast d).
    + cbn in Hr. destruct (Z.eqb_spec (if rd_mcast d then sec.1 else sec.2) htt_sec_type_none); [done|]. done.
  - cbn [mbind option_bind] in Hr. rewrite andb_false_r in Hr. destruct (rv_privacy_filters x) as [|e l]; [|unfold zlen in Hl; cbn in Hl; apply Z.ltb_ge in Hl; lia].
    cbn in Hr. destruct (Z.eqb_spec (if rd_mcast d then sec.1 else sec.2) htt_sec_type_none); [done|]. done.
Qed.
End Facts.

(** ** Events of a delivery *)
Section Events.
Context (cfg : tx_cfg) (v p tid : Z).

Lemma notes_elem a k e : e ∈ notes cfg v p tid a k -> e = rx_notify v p tid a.
Proof. unfold notes. destruct (_ && _); [by intros ?%list_elem_of_singleton|by intros ?%not_elem_of_nil]. Qed.

(** On the way frames are only reported and freed. *)
Lemma delivered_events rej ks : forall filt e, e ∈ (delivered cfg rej v p tid filt ks).1 -> (exists a, e = rx_notify v p tid a) \/ exists a, e = rx_free a.
Proof.
  induction ks as [|[[a k] d] ks IH]; intros filt e; cbn [delivered fst]; [by intros ?%not_elem_of_nil|].
  destruct (_ || _); cbn [fst]; intros [Hin|Hin]%elem_of_app; try (apply notes_elem in Hin; eauto; fail).
  - apply elem_of_cons in Hin as [->|Hin]; [eauto|by eapply IH].
  - by eapply IH.
Qed.

(** Every frame of the list is handed over or freed. *)
Lemma delivered_freed rej ks : forall filt a, NoDup (ks.*1.*1) ->
  rx_free a ∈ (delivered cfg rej v p tid filt ks).1 <-> a ∈ ks.*1.*1 /\ a ∉ (delivered cfg rej v p tid filt ks).2.*1.
Proof.
  induction ks as [|[[b k] d] ks IH]; intros filt a; cbn [delivered fst snd fmap list_fmap].
  { intros _. split; [by intros ?%not_elem_of_nil|by intros [?%not_elem_of_nil _]]. }
  intros [Hb Hnd]%list.NoDup_cons. set (f := if rd_first_msdu d then _ else _). specialize (IH f a Hnd).
  assert (Hn : rx_free a ∉ notes cfg v p tid b k) by (by intros ?%notes_elem).
  assert (Hsub : b ∉ (delivered cfg rej v p tid f ks).2.*1) by (intros Hin; apply Hb; by eapply elem_of_sublist, delivered_sublist).
  destruct (_ || _); cbn [fst snd fmap list_fmap]; rewrite elem_of_app, ?elem_of_cons, ?not_elem_of_cons.
  - split.
    + intros [Hin|[[= ->]|Hin]]; [done|by split; [left|]|]. apply IH in Hin as [? ?]. by split; [right|].
    + intros [[->|Hin] Hno]; [by right; left|]. right; right. by apply IH.
  - split.
    + intros [Hin|Hin]; [done|]. apply IH in Hin as [Hin ?]. split; [by right|]. by intros [->|?].
    + intros [[->|Hin] Hno]; [by destruct Hno; left|]. right. apply IH. split; [done|]. intros ?. apply Hno. by right.
Qed.

Lemma delivery_events_os x y key ks v' p' fr :
  rx_to_os v' p' fr ∈ delivery_events cfg v p tid x y key ks -> fr = (delivered cfg (rejects cfg x (pe_sec_type y) key) v p tid false ks).2.
Proof.
  unfold delivery_events. intros [Hin|Hin]%elem_of_app; [by apply delivered_events in Hin as [[a ?]|[a ?]]|].
  destruct (delivered _ _ _ _ _ _ _).2 as [|e l]; cbn [os_events] in Hin; [by apply not_elem_of_nil in Hin|]. by apply list_elem_of_singleton in Hin as [= _ _ ->].
Qed.
Lemma delivery_events_sent x y key ks v' a k : rx_to_tx v' a k ∉ delivery_events cfg v p tid x y key ks.
Proof.
  unfold delivery_events. intros [Hin|Hin]%elem_of_app; [by apply delivered_events in Hin as [[? ?]|[? ?]]|].
  destruct (delivered _ _ _ _ _ _ _).2 as [|e l]; cbn [os_events] in Hin; [by apply not_elem_of_nil in Hin|]. by apply list_elem_of_singleton in Hin.
Qed.

Lemma mpdu_frames_elem rej ms a b : (a, b) ∈ concat (mpdu_frames rej <$> ms) ->
  exists m e0 e, m ∈ ms /\ head m = Some e0 /\ rej e0.1.2 e0.2 = false /\ e ∈ m /\ a = e.1.1 /\ b = payload e.1.2 /\ htt_rx_msdu_discard e.1.2 = false.
Proof.
  intros (fr & Hfr%list_elem_of_In & Hin%list_elem_of_In)%list_elem_of_In%in_concat. apply list_elem_of_fmap in Hfr as (m & -> & Hm). destruct m as [|e0 m]; cbn [mpdu_frames] in Hin; [by apply not_elem_of_nil in Hin|].
  destruct (rej e0.1.2 e0.2) eqn:Er; [by apply not_elem_of_nil in Hin|]. apply list_elem_of_fmap in Hin as (e & [= -> ->] & [Hd He]%list_elem_of_filter).
  by exists (e0 :: m), e0, e.
Qed.
End Events.
