(* ===== verification/RxForward.v ===== *)
(** The receive path and the transmit path together: what the forwarding needs of
    the transmit path is what the transmit path of the whole system does; the
    theorems about the delivery and the forwarding of frames, with a small system
    in use. *)
From Stdlib Require Import ZArith Lia.
From stdpp Require Import prelude gmap fin_sets list numbers gmultiset.
From S2P Require Import Prelude.
From S2P Require Import RxTypes.
From S2P Require Import RxList.
From S2P Require Import RxNbuf.
From S2P Require Import TxTypes.
From S2P Require Import TxCore.
From S2P Require Import TxSched.
From S2P Require Import TxInit.
From S2P Require Import TxQueueInv.
From S2P Require Import DescTypes.
From S2P Require Import DescOps.
From S2P Require Import DescFree.
From S2P Require Import DescQueue.
From S2P Require Import SysQueues.
From S2P Require Import PeerTypes.
From S2P Require Import PeerTable.
From S2P Require Import PeerRep.
From S2P Require Import PeerSpec.
From S2P Require Import PeerInv.
From S2P Require Import PeerOps.
From S2P Require Import PeerClient.
From S2P Require Import TxClassify.
From S2P Require Import TxClassifySpec.
From S2P Require Import SysPath.
From S2P Require Import SysEntry.
From S2P Require Import DescClient.
From S2P Require Import SysSafe.
From S2P Require Import SysClient.
From S2P Require Import TxProps.
From S2P Require Import PeerExample.
From S2P Require Import SysProps.
From S2P Require Import RxDeliver.

#[local] Remove Hints set_data_path set_data_path_ok : typeclass_instances.

(** ** The transmit path of the system *)
Section System.
Context `{HttTx} (cfg : tx_cfg) (ti : tx_msdu_info).

Notation device s := (pp_data s).1.1.

(** What the transmit path reads of a received buffer. *)
Definition received (a : Z) (k : rx_buf) : msdu := mk_msdu a (frame_of k) (rb_tid k) (rb_id_storage k) 0 (rb_cksum k).

(** The buffer has the new length. *)
Definition refit (a : Z) (n : nbuf) : MD unit := drop_nbuf a;; new_nbuf a n.

(** [vdev->tx] is [ol_tx_hl] ([ol_tx.c]) with a list of one frame; [ti] is what is on
    its stack. *)
Definition ol_tx_hl (v a : Z) (k : rx_buf) : M (peer_pdev dev_state) bool :=
  with_dev (refit a (nbuf_of (received a k)));;
  rest ← ol_tx_hl_list cfg v 0 None [received a k] true ti;
  mret (bool_decide (rest = [])).

#[export] Instance sys_skb_path : SkbPath dev_state := {
  skb_tx := ol_tx_hl;
  skb_new a k := with_dev (new_nbuf a (nbuf_of (received a k)));
  skb_gone a := with_dev (drop_nbuf a) }.

(** A copy gets memory that is not in use. *)
Definition copies_fresh `{NbufCopy dev_state} : Prop := forall (s : rx_out dev_state) a c,
  nbuf_copy s a = Some c -> xo_heap s !! c = None /\ xo_bufs s !! c = None /\ dv_nbufs (device (xo_sys s)) !! c = None.

(** The vdev is attached and not in the OCB mode, and counts do not wrap. *)
Record sys_ready (v : Z) (s : peer_pdev dev_state) : Prop := {
  sy_vdev : v ∈ pp_vdev_list s;
  sy_mode : forall y, pp_vdevs s !! v = Some y -> vd_opmode y <> wlan_op_mode_ocb;
  sy_room : ref_room s }.

Lemma refit_sys s r L B b n : SysBooks L (b :: B) s r -> wp (with_dev (refit b n)) (fun _ s' => same_table s s' /\ SysBooks L (b :: B) s' r) s.
Proof.
  intros HS. eapply wp_mono; [apply (with_dev_quiet (refit b n) s r L (b :: B) (fun _ => L) (fun _ => b :: B) (fun _ _ => True)); [exact HS| |]|].
  - apply keeps_bind; [typeclasses eauto|apply keeps_drop_nbuf|intros ?; apply keeps_new_nbuf].
  - intros fl dl tgt drift HB. pose proof (bk_rep _ _ _ _ _ _ _ HB) as HR. destruct (dr_held _ _ _ _ _ _ HR) as [_ HBb].
    destruct (HBb b ltac:(by apply elem_of_cons; left)) as [[m Hm] _]. eapply wp_step; [by eapply drop_nbuf_run|].
    eapply wp_run; [reflexivity|]. split; [done|]. exists fl, drift. apply Books_buf; [|apply lookup_delete_eq].
    eapply Books_rep; [exact HB|by apply DevRep_drop|done|done].
  - intros [] s' (x & -> & _ & HS'). split; [by exists x|done].
Qed.

Lemma ol_tx_hl_spec s r v a k B :
  SysBooks [] (a :: B) s r -> sys_ready v s -> frame_ok (frame_of k) -> 0 <= rb_tid k ->
  wp (ol_tx_hl v a k) (fun ok s' => same_table s s' /\ SysBooks [] (if ok then B else a :: B) s' r) s.
Proof.
  intros HS [Hv Hm Hr] Hf Ht. unfold ol_tx_hl. apply wp_bind. eapply wp_mono; [by apply (refit_sys s r [] B)|]. intros [] s1 [Hs1 HS1].
  assert (Hd : data_ok s1 v None (received a k)) by (destruct Hs1 as [x ->]; by constructor).
  cbn [ol_tx_hl_list]. apply wp_bind, wp_bind. eapply wp_mono; [by apply (hl_frame_alone cfg s1 r v 0 None (received a k) B ti)|].
  intros [ok ti1] s2 [Hs2 HS2]. cbn [fst] in HS2. destruct ok.
  - apply wp_bind. eapply wp_mono; [by apply sched_sys|]. intros [] s3 [Hs3 HS3]. do 2 apply wp_ret. split; [|done].
    transitivity s1; [done|]. by transitivity s2.
  - do 2 apply wp_ret. split; [by transitivity s1|done].
Qed.

Lemma sys_ready_same v s s' : same_table s s' -> sys_ready v s -> sys_ready v s'.
Proof. intros [x ->] []. by constructor. Qed.

(** It keeps the promises the receive path relies on. *)
Section Promises.
Context `{HC : NbufCopy dev_state} (Hfresh : copies_fresh) (r : gmultiset Z).

#[export] Program Instance sys_skb_ok : SkbPathOk dev_state := {
  skb_inv l s := SysBooks [] l s r;
  skb_ready v s := sys_ready v s;
  skb_fresh a s := dv_nbufs (device s) !! a = None }.
Next Obligation. intros l l' s HS HP. exact (SysBooks_perm [] l l' s r HS HP). Qed.
Next Obligation. intros v s s' Hr Hm. exact (sys_ready_same v s s' Hm Hr). Qed.
Next Obligation. intros v a k l s HS Hr Hf Ht. exact (ol_tx_hl_spec s r v a k l HS Hr Hf Ht). Qed.
Next Obligation. intros a k l s HS Ha. eapply wp_mono; [exact (new_nbuf_sys s r [] l a _ HS Ha)|]. intros [] s' (Hs & HS' & _). by split. Qed.
Next Obligation. intros a l s HS. exact (drop_nbuf_sys s r [] l a HS). Qed.
Next Obligation. intros s a c Hc. exact (Hfresh s a c Hc). Qed.
End Promises.
End System.

(** ** Delivery and forwarding over any transmit path that keeps its promises *)
Section Delivery.
Context {D : Type} `{DataPath D} `{HP : SkbPath D} `{HC : NbufCopy D} {HOK : SkbPathOk D} (cfg : tx_cfg).
Implicit Types (s : rx_out D) (ks : list (Z * rx_buf * rx_desc)) (ms : list (list (Z * rx_buf * rx_desc))).

(** C15: the operating system gets, in one list and in their order, the frames that the
    target does not want discarded, of those MPDUs whose first frame the privacy
    filter accepts: the verdict on the first frame holds for the whole MPDU.  Nothing
    is handed over when there are none, every other frame is freed, and no buffer
    outside the list is touched. *)
Theorem ol_rx_deliver_correct v p tid x y key B ms s :
  let ks := concat ms in let rej := rejects cfg x (pe_sec_type y) key in let fr := concat (mpdu_frames rej <$> ms) in
  Forall is_mpdu ms -> NoDup (ks.*1.*1) -> seg (xo_heap s) (ks.*1.*1) None -> held_desc s ks -> delivering v p x y key s ->
  skb_inv (ks.*1.*1 ++ B) (xo_sys s) ->
  exists evs s', ol_rx_deliver cfg v p tid (hd_or None (ks.*1.*1)) s = Some (tt, s') /\
    xo_log s' = xo_log s ++ evs ++ os_events v p fr /\ (forall a, rx_free a ∈ evs <-> a ∈ ks.*1.*1 /\ a ∉ fr.*1) /\ left_with (ks.*1.*1) B s s'.
Proof.
  intros ks rej fr Hms Hnd Hs Hh Hd Hi. pose proof (ol_rx_deliver_spec cfg v p tid x y key B ks s Hnd Hs Hh Hd Hi) as Hw.
  apply wp_some in Hw as ([] & s' & Hrun & El & Hl). unfold delivery_events in El. fold rej in El.
  pose proof (delivered_mpdus cfg rej v p tid ms false Hms) as Ed. fold ks fr in Ed.
  eexists _, s'. split; [exact Hrun|]. rewrite <- Ed. split; [exact El|]. split; [|done]. intros a. by apply delivered_freed.
Qed.

(** C9: a vdev is to drop what is not encrypted, and is not in safe mode.  When whole
    MPDUs are delivered to it, each with its first frame, then a frame reaches the
    operating system only in an MPDU whose first frame was encrypted, or is exempted
    by a rule for its type, or is of a kind, unicast or multicast, for which the peer
    has no security; and never against the target's wish.  Of an MPDU whose first
    frame the forwarding has taken, [privacy_verdict_lost] says what becomes. *)
Theorem privacy_filter_safe v p tid x y key B ms s :
  let ks := concat ms in
  Forall is_mpdu ms -> NoDup (ks.*1.*1) -> seg (xo_heap s) (ks.*1.*1) None -> held_desc s ks -> delivering v p x y key s ->
  skb_inv (ks.*1.*1 ++ B) (xo_sys s) -> rv_safemode x = false -> rv_drop_unenc x = true ->
  exists evs s', ol_rx_deliver cfg v p tid (hd_or None (ks.*1.*1)) s = Some (tt, s') /\ xo_log s' = xo_log s ++ evs /\
    forall v' p' fr a b, rx_to_os v' p' fr ∈ evs -> (a, b) ∈ fr ->
      exists m e0 e, m ∈ ms /\ head m = Some e0 /\ e ∈ m /\ a = e.1.1 /\ b = payload e.1.2 /\ htt_rx_msdu_discard e.1.2 = false /\
        (rd_encrypted e0.2 = true \/ exempted cfg x e0.1.2 e0.2 \/
         (if rd_mcast e0.2 then (pe_sec_type y).1 else (pe_sec_type y).2) = htt_sec_type_none).
Proof.
  intros ks Hms Hnd Hs Hh Hd Hi Hsm Hdu. pose proof (ol_rx_deliver_spec cfg v p tid x y key B ks s Hnd Hs Hh Hd Hi) as Hw.
  apply wp_some in Hw as ([] & s' & Hrun & El & _). eexists _, s'. split; [exact Hrun|]. split; [exact El|]. intros v' p' fr a b Hev Hin.
  apply delivery_events_os in Hev as ->. unfold ks in Hin. rewrite (delivered_mpdus cfg _ v p tid ms false Hms) in Hin.
  apply mpdu_frames_elem in Hin as (m & e0 & e & Hm & Hh0 & Hr & He & -> & -> & Hdis). exists m, e0, e. split_and!; try done.
  by eapply rejects_accepts.
Qed.

(** C11: only frames that the target marks for forwarding leave for the transmit path,
    only through the vdev that received them and only when it may forward; with
    Ethernet frames they leave as they came, and no frame an access point forwards
    is an EAPOL frame: a station cannot speak to another one's key exchange.  In
    the native wifi format the test for EAPOL looks elsewhere
    ([native_wifi_header_not_turned]). *)
Theorem forwarding_safe v p tid x y z key B ks s :
  NoDup (ks.*1.*1) -> seg (xo_heap s) (ks.*1.*1) None -> held_desc s ks -> delivering v p x z key s -> pp_vdevs (xo_sys s) !! v = Some y ->
  skb_ready v (xo_sys s) -> skb_inv (ks.*1.*1 ++ B) (xo_sys s) ->
  exists evs s', ol_rx_fwd_check cfg v p tid (hd_or None (ks.*1.*1)) s = Some (tt, s') /\ xo_log s' = xo_log s ++ evs /\
    forall v' a' k', rx_to_tx v' a' k' ∈ evs -> v' = v /\ vd_disable_intrabss_fwd y = false /\
      exists e, e ∈ ks /\ htt_rx_msdu_forward e.1.2 = true /\ k' = fwd_buf cfg y tid e.1.2 /\
        (vd_opmode y = wlan_op_mode_ap -> eapol_buf e.1.2 = false) /\
        (cfg_frame_format cfg <> wlan_frm_fmt_native_wifi -> skb_bytes (rb_skb k') = payload e.1.2 /\
          (vd_opmode y = wlan_op_mode_ap -> rd16 (frame_of k') (ETHERNET_ADDR_LEN * 2) <> Some ETHERTYPE_PAE)).
Proof.
  intros Hnd Hs Hh Hd Hy Hr Hi. pose proof (ol_rx_fwd_check_spec cfg v p tid x y z key B ks s Hnd Hs Hh Hd Hy Hr Hi) as Hw.
  apply wp_some in Hw as ([] & s' & Hrun & evs & (fwd & Ho & ->) & El & _). eexists _, s'. split; [exact Hrun|]. split; [exact El|].
  intros v' a' k' [Hin|Hin]%elem_of_app; [|by apply delivery_events_sent in Hin].
  destruct (fwd_outcomes_sent cfg _ _ y tid v _ _ _ _ Ho v' a' k' Hin) as (-> & Hdis & a & k & Hk & -> & Hfw & He). split; [done|]. split; [done|].
  apply list_elem_of_fmap in Hk as ([[? ?] d] & [= <- <-] & Hk). destruct (Hh _ _ _ Hk) as (_ & Hok & _).
  exists (a, k, d). split; [done|]. split; [done|]. split; [done|]. split; [done|]. intros Hf.
  pose proof (fwd_buf_payload cfg y tid k Hf) as Ep. split; [done|]. intros Hap. specialize (He Hap).
  rewrite (eapol_payload k Hok) in He. apply bool_decide_eq_false_1 in He. intros E. apply He. rewrite <- E.
  unfold rd16, rd8. cbn [frame_of fr_data]. by rewrite Ep.
Qed.

(** C40: the verdict of the privacy filter is taken on the first MSDU of an MPDU and
    starts out as accepted.  Take an MPDU whose first MSDU the filter rejects, of a
    vdev with any rules.  Delivered as a whole, none of it is handed to the operating
    system; but when the forwarding takes the first MSDU, because it is for another
    station only or is dropped as an EAPOL frame, the operating system gets every
    other MSDU that is for it and that the target does not want discarded, without
    a verdict on any of them. *)
Theorem privacy_verdict_lost v p tid x y z key B e0 rest s :
  let ks := e0 :: rest in let frames l := (fun e : Z * rx_buf * rx_desc => (e.1.1, payload e.1.2)) <$> l in
  is_mpdu ks -> rejects cfg x (pe_sec_type z) key e0.1.2 e0.2 = true -> stays y e0.1.2 = false ->
  NoDup (ks.*1.*1) -> seg (xo_heap s) (ks.*1.*1) None -> held_desc s ks -> delivering v p x z key s -> pp_vdevs (xo_sys s) !! v = Some y ->
  skb_ready v (xo_sys s) -> skb_inv (ks.*1.*1 ++ B) (xo_sys s) ->
  (exists evs s', ol_rx_deliver cfg v p tid (hd_or None (ks.*1.*1)) s = Some (tt, s') /\ xo_log s' = xo_log s ++ evs /\
    forall v' p' fr, rx_to_os v' p' fr ∉ evs) /\
  (exists evs s', ol_rx_fwd_check cfg v p tid (hd_or None (ks.*1.*1)) s = Some (tt, s') /\
    xo_log s' = xo_log s ++ evs ++ os_events v p (frames (filter (fun e => htt_rx_msdu_discard e.1.2 = false /\ stays y e.1.2 = true) rest))).
Proof.
  intros ks frames Hm Hrej Hst Hnd Hs Hh Hd Hy Hr Hi. split.
  - pose proof (ol_rx_deliver_spec cfg v p tid x z key B ks s Hnd Hs Hh Hd Hi) as Hw.
    apply wp_some in Hw as ([] & s' & Hrun & El & _). eexists _, s'. split; [exact Hrun|]. split; [exact El|]. intros v' p' fr Hin.
    unfold delivery_events in Hin. rewrite <- (app_nil_r ks) in Hin. change (ks ++ []) with (concat [ks]) in Hin.
    rewrite (delivered_mpdus cfg _ v p tid [ks] false ltac:(by constructor)) in Hin. cbn [fmap list_fmap mpdu_frames concat ks] in Hin. rewrite Hrej in Hin.
    apply elem_of_app in Hin as [Hin|Hin]; [by apply delivered_events in Hin as [[? ?]|[? ?]]|by apply not_elem_of_nil in Hin].
  - pose proof (ol_rx_fwd_check_spec cfg v p tid x y z key B ks s Hnd Hs Hh Hd Hy Hr Hi) as Hw.
    apply wp_some in Hw as ([] & s' & Hrun & evs & (fwd & _ & ->) & El & _). unfold delivery_events in El. destruct Hm as [_ Hrest].
    assert (Ek : filter (fun e => stays y e.1.2 = true) ks = filter (fun e => stays y e.1.2 = true) rest).
    { unfold ks. rewrite filter_cons. case_decide; [congruence|done]. }
    rewrite Ek in El. set (sub := filter _ rest) in *.
    assert (Hsub : Forall (fun e => rd_first_msdu e.2 = false) sub).
    { rewrite list.Forall_forall in *. intros e [_ He]%list_elem_of_filter. by apply Hrest. }
    pose proof (delivered_rest cfg (rejects cfg x (pe_sec_type z) key) v p tid false sub [] Hsub) as E. cbn [delivered snd] in E. rewrite !app_nil_r in E.
    rewrite E in El. exists (fwd ++ (delivered cfg (rejects cfg x (pe_sec_type z) key) v p tid false sub).1), s'.
    split; [exact Hrun|]. rewrite El, <- !app_assoc. do 4 f_equal. unfold frames. f_equal. unfold sub. rewrite list_filter_filter. done.
Qed.
End Delivery.

(** ** Over the transmit path of the system *)

(** C7: when the target hands up a list of frames, each of them is treated as its
    marks say, once: it is forwarded, forwarded as a copy and delivered, delivered or
    dropped, and the frames for the operating system keep their order.  The copy is
    left out only when there is no memory for it where the loop has come to; in that
    state only buffers of the list are not as they were.  Forwarding a
    frame is a data frame of the transmit path like any other: whatever becomes of
    it there, every buffer and descriptor is accounted for afterwards, no reference
    to a peer is left behind, and the peer table is as it was. *)
Theorem ol_rx_fwd_check_correct `{HttTx} (cfg : tx_cfg) (ti : tx_msdu_info) `{NbufCopy dev_state} v p tid x y z key B (ks : list (Z * rx_buf * rx_desc)) s r :
  copies_fresh -> NoDup (ks.*1.*1) -> seg (xo_heap s) (ks.*1.*1) None -> held_desc s ks -> delivering v p x z key s ->
  pp_vdevs (xo_sys s) !! v = Some y -> sys_ready v (xo_sys s) -> SysBooks [] (ks.*1.*1 ++ B) (xo_sys s) r ->
  exists evs s', ol_rx_fwd_check (H0 := sys_skb_path cfg ti) cfg v p tid (hd_or None (ks.*1.*1)) s = Some (tt, s') /\
    xo_log s' = xo_log s ++ evs /\ check_events cfg s v p tid x y z key ks evs /\
    (forall a, a ∈ ks.*1.*1 -> xo_heap s' !! a = None /\ xo_bufs s' !! a = None) /\
    (forall a, a ∉ ks.*1.*1 -> xo_bufs s' !! a = xo_bufs s !! a /\ xo_heap s' !! a = xo_heap s !! a) /\
    SysBooks [] B (xo_sys s') r /\ same_table (xo_sys s) (xo_sys s').
Proof.
  intros Hc Hnd Hs Hh Hd Hy Hr Hi.
  pose proof (ol_rx_fwd_check_spec (HOK := sys_skb_ok cfg ti Hc r) cfg v p tid x y z key B ks s Hnd Hs Hh Hd Hy Hr Hi) as Hw.
  apply wp_some in Hw as ([] & s' & Hrun & evs & He & El & [L1 L2 L3 L4]). exists evs, s'. by split_and!.
Qed.

(** ** The theorems at work

    The access point of the small system and its station; a transmit path that takes
    every frame, for what does not depend on it. *)
Section Taker.
#[local] Existing Instance set_data_path.
Instance taker : SkbPath served := { skb_tx _ _ _ := mret true; skb_new _ _ := mret tt; skb_gone _ := mret tt }.

(** A copy lies a thousand further, when the place is free. *)
Definition far_copy {D} (s : rx_out D) (a : Z) : option Z :=
  if bool_decide (xo_heap s !! (a + 1000) = None /\ xo_bufs s !! (a + 1000) = None) then Some (a + 1000) else None.
Instance taker_copy : NbufCopy served := far_copy.

Program Instance taker_ok : SkbPathOk served := { skb_inv _ _ := True; skb_ready _ _ := True; skb_fresh _ _ := True }.
Next Obligation. done. Qed.
Next Obligation. done. Qed.
Next Obligation. intros v a k l s _ _ _ _. by apply (wp_run _ _ _ true s eq_refl). Qed.
Next Obligation. intros a k l s _ _. by apply (wp_run _ _ _ tt s eq_refl). Qed.
Next Obligation. intros a l s _. by apply (wp_run _ _ _ tt s eq_refl). Qed.
Next Obligation. intros s a c. unfold nbuf_copy, taker_copy, far_copy. case_bool_decide as Hf; [|done]. intros [= <-]. by destruct Hf. Qed.
End Taker.

(** In the system the place has to be free of buffers of the transmit path, too. *)
Definition far_copy_dev : NbufCopy dev_state := fun s a =>
  if bool_decide (dv_nbufs (pp_data (xo_sys s)).1.1 !! (a + 1000) = None) then far_copy s a else None.
Lemma far_copies_fresh : copies_fresh (H0 := far_copy_dev).
Proof.
  intros s a c. unfold nbuf_copy, far_copy_dev, far_copy. case_bool_decide as Hd; [|done]. case_bool_decide as Hf; [|done].
  intros [= <-]. destruct Hf. by split_and!.
Qed.

(** *** A list of frames

    An EAPOL frame from one station to another, a frame for another station, a
    multicast frame, and one more MSDU of the same MPDU for the access point. *)
Definition rf_buf (fw : Z) (bytes : list Z) : rx_buf := mk_rx_buf (mk_skb (replicate 8 0 ++ bytes) 0 (8 + zlen bytes)) 8 fw 0 false true 0.
Definition rf_desc (first enc mcast : bool) : rx_desc := mk_rx_desc 0 0 0 0 0 0 enc mcast first true false false 0 0 0 false 0 0.
Definition rf_eth (dst : mac_addr) (type : Z) : list Z := fr_data (sx_frame (mac_bytes dst) type sx_packet).

Definition rf_eapol : Z * rx_buf * rx_desc := (301, rf_buf 2 (rf_eth mac_b ETHERTYPE_PAE), rf_desc true false false).
Definition rf_other : Z * rx_buf * rx_desc := (302, rf_buf 3 (rf_eth mac_b ETHERTYPE_IPV4), rf_desc true true false).
Definition rf_mcast : Z * rx_buf * rx_desc := (303, rf_buf 2 (fr_data sx_multicast), rf_desc true true true).
Definition rf_local : Z * rx_buf * rx_desc := (304, rf_buf 0 (rf_eth mac_v1 ETHERTYPE_IPV4), rf_desc false true true).
Definition rf_ms : list (list (Z * rx_buf * rx_desc)) := [[rf_eapol]; [rf_other]; [rf_mcast; rf_local]].

Fixpoint rf_heap (ks : list (Z * rx_buf * rx_desc)) : heap :=
  match ks with [] => ∅ | e :: ks => <[e.1.1 := RxTypes.mk_nbuf (head (ks.*1.*1)) e.2]> (rf_heap ks) end.
Definition rf_vdev : rx_vdev := mk_rx_vdev false true [mk_privacy_exemption ETHERTYPE_PAE PRIVACY_FILTER_ALWAYS PRIVACY_FILTER_PACKET_BOTH] 0 0.
Definition rf_out {D} (t : peer_pdev D) (ks : list (Z * rx_buf * rx_desc)) : rx_out D :=
  mk_rx_out (rf_heap ks) (list_to_map (ks.*1)) {[1 := rf_vdev]} ∅ [] t.

(** The station with a key, the access point that forwards. *)
Definition rf_station : peer := mk_peer 1 mac_b true 1 false [4] 1 false ol_txrx_peer_state_auth None true 0 (3, 3).
Definition rf_table : table := mk_peer_pdev _ {[101 := rf_station]} {[1 := sx_ap]} [1] 0 0 [] [] [] 0 [] 7 false false None [] (∅, ∅).

Lemma rf_buf_ok fw bytes : bool_decide (42 <= zlen bytes /\ Forall (fun b => 0 <= b < 256) bytes) = true -> buf_ok (rf_buf fw bytes).
Proof.
  intros [Hl Hb]%bool_decide_eq_true. pose proof (zlen_app (replicate 8 0) bytes) as E. change (zlen (replicate 8 0)) with 8 in E.
  constructor; cbn [rf_buf rb_desc_len rb_skb sk_data sk_len sk_mem]; [lia|lia|lia|rewrite E; lia|].
  apply Forall_app. split; [|done]. apply list.Forall_replicate. lia.
Qed.

Lemma rf_held {D} (t : peer_pdev D) : held_desc (rf_out t (concat rf_ms)) (concat rf_ms).
Proof.
  assert (Hk : forall e, e ∈ concat rf_ms -> buf_ok e.1.2).
  { intros e [->|[->|[->|[->|[]%not_elem_of_nil]%elem_of_cons]%elem_of_cons]%elem_of_cons]%elem_of_cons; apply rf_buf_ok; by vm_compute. }
  intros a k d Hin. specialize (Hk _ Hin). split; [|split; [done|]]; clear Hk.
  - apply elem_of_list_to_map_1; [apply (bool_decide_unpack _); by vm_compute|]. by apply (list_elem_of_fmap_2 fst _ (a, k, d)).
  - revert Hin. intros [[= -> -> ->]|[[= -> -> ->]|[[= -> -> ->]|[[= -> -> ->]|[]%not_elem_of_nil]%elem_of_cons]%elem_of_cons]%elem_of_cons]%elem_of_cons; reflexivity.
Qed.
Lemma rf_seg {D} (t : peer_pdev D) : seg (xo_heap (rf_out t (concat rf_ms))) ((concat rf_ms).*1.*1) None.
Proof. by repeat split. Qed.
Lemma rf_nodup : NoDup ((concat rf_ms).*1.*1).
Proof. apply (bool_decide_unpack _). by vm_compute. Qed.
Lemma rf_mpdus : Forall is_mpdu rf_ms.
Proof. by repeat (constructor; [by repeat constructor|]). Qed.
Lemma rf_delivering : delivering 1 101 rf_vdev rf_station false (rf_out rf_table (concat rf_ms)).
Proof. split_and!; by vm_compute. Qed.

(** The frames of one unencrypted MPDU, for a station with a key. *)
Definition rf_plain (fw : Z) (first : bool) (a : Z) : Z * rx_buf * rx_desc := (a, rf_buf fw (rf_eth mac_b ETHERTYPE_IPV4), rf_desc first false false).

(** Two of them; the first is for another station. *)
Definition rf_lost : list (Z * rx_buf * rx_desc) := [rf_plain 3 true 301; rf_plain 0 false 302].

Section TakerWitnesses.
#[local] Existing Instance set_data_path.
#[local] Existing Instance taker.
#[local] Existing Instance taker_copy.
#[local] Existing Instance taker_ok.

Lemma ol_rx_deliver_correct_witness :
  let fr := concat (mpdu_frames (rejects sx_cfg rf_vdev (3, 3) false) <$> rf_ms) in
  fr.*1 = [301; 303; 304] /\
  exists evs s', ol_rx_deliver sx_cfg 1 101 0 (Some 301) (rf_out rf_table (concat rf_ms)) = Some (tt, s') /\
    xo_log s' = [] ++ evs ++ os_events 1 101 fr /\ (forall a, rx_free a ∈ evs <-> a ∈ [301; 302; 303; 304] /\ a ∉ fr.*1) /\
    left_with [301; 302; 303; 304] [] (rf_out rf_table (concat rf_ms)) s'.
Proof.
  intros fr. split; [by vm_compute|].
  apply (ol_rx_deliver_correct (HOK := taker_ok) sx_cfg 1 101 0 rf_vdev rf_station false [] rf_ms (rf_out rf_table (concat rf_ms)) rf_mpdus rf_nodup (rf_seg _) (rf_held _) rf_delivering I).
Defined.

Lemma privacy_filter_safe_witness :
  exists evs s', ol_rx_deliver sx_cfg 1 101 0 (Some 301) (rf_out rf_table (concat rf_ms)) = Some (tt, s') /\ xo_log s' = [] ++ evs /\
    forall v' p' fr a b, rx_to_os v' p' fr ∈ evs -> (a, b) ∈ fr ->
      exists m e0 e, m ∈ rf_ms /\ head m = Some e0 /\ e ∈ m /\ a = e.1.1 /\ b = payload e.1.2 /\ htt_rx_msdu_discard e.1.2 = false /\
        (rd_encrypted e0.2 = true \/ exempted sx_cfg rf_vdev e0.1.2 e0.2 \/
         (if rd_mcast e0.2 then (pe_sec_type rf_station).1 else (pe_sec_type rf_station).2) = htt_sec_type_none).
Proof.
  by apply (privacy_filter_safe (HOK := taker_ok) sx_cfg 1 101 0 rf_vdev rf_station false [] rf_ms (rf_out rf_table (concat rf_ms)) rf_mpdus rf_nodup (rf_seg _) (rf_held _) rf_delivering I).
Defined.

Lemma forwarding_safe_witness :
  exists evs s', ol_rx_fwd_check sx_cfg 1 101 0 (Some 301) (rf_out rf_table (concat rf_ms)) = Some (tt, s') /\ xo_log s' = [] ++ evs /\
    forall v' a' k', rx_to_tx v' a' k' ∈ evs -> v' = 1 /\ vd_disable_intrabss_fwd sx_ap = false /\
      exists e, e ∈ concat rf_ms /\ htt_rx_msdu_forward e.1.2 = true /\ k' = fwd_buf sx_cfg sx_ap 0 e.1.2 /\
        (vd_opmode sx_ap = wlan_op_mode_ap -> eapol_buf e.1.2 = false) /\
        (cfg_frame_format sx_cfg <> wlan_frm_fmt_native_wifi -> skb_bytes (rb_skb k') = payload e.1.2 /\
          (vd_opmode sx_ap = wlan_op_mode_ap -> rd16 (frame_of k') (ETHERNET_ADDR_LEN * 2) <> Some ETHERTYPE_PAE)).
Proof.
  by apply (forwarding_safe (HOK := taker_ok) sx_cfg 1 101 0 rf_vdev sx_ap rf_station false [] (concat rf_ms) (rf_out rf_table (concat rf_ms))
    rf_nodup (rf_seg _) (rf_held _) rf_delivering).
Defined.

Lemma rf_lost_held {D} (t : peer_pdev D) : held_desc (rf_out t rf_lost) rf_lost.
Proof.
  intros a k d [[= -> -> ->]|[[= -> -> ->]|[]%not_elem_of_nil]%elem_of_cons]%elem_of_cons; (split; [reflexivity|split; [|reflexivity]]); apply rf_buf_ok; by vm_compute.
Qed.
Lemma rf_lost_delivering : delivering 1 101 rf_vdev rf_station false (rf_out rf_table rf_lost).
Proof. split_and!; by vm_compute. Qed.

Lemma privacy_verdict_lost_witness :
  let lost := (fun e : Z * rx_buf * rx_desc => (e.1.1, payload e.1.2)) <$>
    filter (fun e => htt_rx_msdu_discard e.1.2 = false /\ stays sx_ap e.1.2 = true) [rf_plain 0 false 302] in
  lost = [(302, rf_eth mac_b ETHERTYPE_IPV4)] /\
  (exists evs s', ol_rx_deliver sx_cfg 1 101 0 (Some 301) (rf_out rf_table rf_lost) = Some (tt, s') /\ xo_log s' = [] ++ evs /\
    forall v' p' fr, rx_to_os v' p' fr ∉ evs) /\
  (exists evs s', ol_rx_fwd_check sx_cfg 1 101 0 (Some 301) (rf_out rf_table rf_lost) = Some (tt, s') /\ xo_log s' = [] ++ evs ++ os_events 1 101 lost).
Proof.
  intros lost. split; [by vm_compute|].
  apply (privacy_verdict_lost (HOK := taker_ok) sx_cfg 1 101 0 rf_vdev sx_ap rf_station false [] (rf_plain 3 true 301) [rf_plain 0 false 302] (rf_out rf_table rf_lost)).
  - split; [done|by repeat constructor].
  - by vm_compute.
  - by vm_compute.
  - apply (bool_decide_unpack (NoDup [301; 302])). by vm_compute.
  - by repeat split.
  - apply rf_lost_held.
  - apply rf_lost_delivering.
  - done.
  - done.
  - done.
Defined.
End TakerWitnesses.

(** *** In the small system *)
Section SystemWitness.
#[local] Existing Instance far_copy_dev.
#[local] Existing Instance ex_tx.

Definition rf_incoming : list msdu := (fun e => received e.1.1 e.1.2) <$> concat rf_ms.
Definition rf_peer : peer := default sx_calm (pp_peers sx_up.1 !! 101).

Lemma sys_ready_b (s : sys) v :
  sx_room s && bool_decide (v ∈ pp_vdev_list s) && bool_decide (vd_opmode <$> pp_vdevs s !! v <> Some wlan_op_mode_ocb) = true -> sys_ready v s.
Proof.
  intros [[H1 H2%bool_decide_eq_true]%andb_true_iff H3%bool_decide_eq_true]%andb_true_iff.
  constructor; [done|by intros y Hy E; rewrite Hy in H3; cbn in H3; rewrite E in H3|by apply sx_room_ok].
Qed.
Lemma rf_ready (s : sys) : same_table sx_up.1 s -> sys_ready 1 s.
Proof. intros Hs. eapply sys_ready_same; [exact Hs|]. apply sys_ready_b. by vm_compute. Qed.

Lemma rf_delivering_sys (s : sys) : same_table sx_up.1 s -> delivering 1 101 rf_vdev rf_peer false (rf_out s (concat rf_ms)) /\ pp_vdevs s !! 1 = Some sx_ap.
Proof. intros [x ->]. split; [split_and!|]; by vm_compute. Qed.

Lemma rf_no_nbufs : dv_nbufs (pp_data sx_up.1).1.1 = ∅.
Proof. apply (bool_decide_eq_true_1 (_ = ∅)). by vm_compute. Qed.

Lemma ol_rx_fwd_check_correct_witness :
  exists (s0 : sys) evs s', ol_rx_fwd_check (H0 := sys_skb_path sx_cfg zero_info) sx_cfg 1 101 0 (Some 301) (rf_out s0 (concat rf_ms)) = Some (tt, s') /\
    xo_log s' = [] ++ evs /\ check_events sx_cfg (rf_out s0 (concat rf_ms)) 1 101 0 rf_vdev sx_ap rf_peer false (concat rf_ms) evs /\
    (forall a, a ∈ [301; 302; 303; 304] -> xo_heap s' !! a = None /\ xo_bufs s' !! a = None) /\
    (forall a, a ∉ [301; 302; 303; 304] -> xo_bufs s' !! a = xo_bufs (rf_out s0 (concat rf_ms)) !! a /\ xo_heap s' !! a = xo_heap (rf_out s0 (concat rf_ms)) !! a) /\
    SysBooks [] [] (xo_sys s') sx_up.2 /\ same_table s0 (xo_sys s').
Proof.
  pose proof (new_nbufs_sys rf_incoming sx_up.1 sx_up.2 [] [] sx_up_books rf_nodup ltac:(intros m _; by rewrite rf_no_nbufs)) as Hw.
  apply wp_some in Hw as ([] & s0 & _ & Hs0 & HS0). exists s0. destruct (rf_delivering_sys s0 Hs0) as [Hd Hy].
  apply (ol_rx_fwd_check_correct sx_cfg zero_info 1 101 0 rf_vdev sx_ap rf_peer false [] (concat rf_ms) (rf_out s0 (concat rf_ms)) sx_up.2
    far_copies_fresh rf_nodup (rf_seg _) (rf_held _) Hd Hy (rf_ready s0 Hs0) HS0).
Defined.
End SystemWitness.

(** ** What the model shows of the code *)
Section Findings.
#[local] Existing Instance set_data_path.
#[local] Existing Instance taker.
#[local] Existing Instance taker_copy.

(** Who gets which buffer. *)
Definition rf_short (e : rx_event) : Z * list Z :=
  match e with rx_to_tx _ a _ => (1, [a]) | rx_to_os _ _ fr => (2, fr.*1) | rx_notify _ _ _ a => (3, [a]) | rx_free a => (4, [a]) end.
Definition rf_check (cfg : tx_cfg) (ks : list (Z * rx_buf * rx_desc)) : option (list (Z * list Z)) :=
  match ol_rx_fwd_check cfg 1 101 0 (head (ks.*1.*1)) (rf_out rf_table ks) with Some (_, s) => Some (rf_short <$> xo_log s) | None => None end.

(** The list above: the EAPOL frame is dropped, the frame for the other station and
    a copy of the multicast frame leave, and the last two are delivered. *)
Example rf_check_log : rf_check sx_cfg (concat rf_ms) = Some [(4, [301]); (1, [302]); (1, [1303]); (2, [303; 304])].
Proof. by vm_compute. Qed.

(** Frames are forwarded before the privacy filter has seen them: the filter rejects
    the unencrypted frame, and its copy has gone to the other station. *)
Theorem forwarded_before_privacy_filter :
  rejects sx_cfg rf_vdev (3, 3) false (rf_plain 2 true 301).1.2 (rf_plain 2 true 301).2 = true /\
  rf_check sx_cfg [rf_plain 2 true 301] = Some [(1, [1301]); (4, [301])].
Proof. by vm_compute. Qed.

(** In numbers: the first MSDU is for another station. *)
Example rf_verdict_lost :
  rf_check sx_cfg [rf_plain 0 true 301; rf_plain 0 false 302] = Some [(4, [301]); (4, [302])] /\
  rf_check sx_cfg [rf_plain 3 true 301; rf_plain 0 false 302] = Some [(1, [301]); (2, [302])].
Proof. by vm_compute. Qed.

(** The rule against encrypted WAI frames looks at a type that is read only when the
    vdev has an exemption rule. *)
Theorem wai_rule_needs_exemptions :
  let cfg := mk_tx_cfg wlan_frm_fmt_802_3 true in
  let k := rf_buf 0 (rf_eth mac_v1 ETHERTYPE_WAI) in let d := rf_desc true true false in
  rejects cfg rf_vdev (3, 3) true k d = true /\ rejects cfg (mk_rx_vdev false true [] 0 0) (3, 3) true k d = false.
Proof. by vm_compute. Qed.

(** A native wifi frame to the distribution system, with an EAPOL frame inside. *)
Definition rf_nwifi : list Z :=
  [0x08; 0x01; 0; 0] ++ mac_bytes mac_v1 ++ mac_bytes mac_a ++ mac_bytes mac_b ++ [0; 0] ++ [0xaa; 0xaa; 3; 0; 0; 0; 0x88; 0x8e] ++ replicate 20 0.
Definition rf_native : tx_cfg := mk_tx_cfg wlan_frm_fmt_native_wifi false.
Definition rf_turned (k : rx_buf) : list Z := skb_bytes (rb_skb (fwd_buf rf_native sx_ap 0 k)).

(** With native wifi frames the header is turned before the receive descriptor is
    taken off: the frame leaves with the header it came with; and the test for EAPOL
    looks into the second address. *)
Theorem native_wifi_header_not_turned :
  let k := rf_buf 2 rf_nwifi in
  rf_turned k = rf_nwifi /\ fwd_header (vd_mac sx_ap) rf_nwifi 0 <> Some rf_nwifi /\
  rd16 (frame_of (pulled k)) (ether_type_offset rf_native) = Some ETHERTYPE_PAE /\ eapol_buf k = false.
Proof. by vm_compute. Qed.
End Findings.
